(* ===== verification/_CoqProject ===== *)
-Q . S2P
Prelude.v
Memory.v
Cstring.v
DList.v
Buddy.v
BuddyRep.v
BuddyTree.v
BuddyInv.v
BuddyInit.v
BuddyBoot.v
BuddyProps.v
Riscv.v
Kalloc.v
Vm.v
VmTable.v
VmSpace.v
VmUser.v
VmFree.v
VmCopy.v
Kvm.v
VmProps.v
UserMem.v
Refine.v
Ring.v
Bytes.v
Cache.v
Bio.v
Log.v
LogCrash.v
Blocks.v
Fs.v
FsDir.v
FsSim.v
Transact.v
FsBlock.v
FsFile.v
FsIo.v
FsTrunc.v
FsName.v
FsProps.v
Fsinit.v
Mkfs.v
MkfsInv.v
MkfsAppend.v
MkfsFiles.v
MkfsProps.v
Spinlock.v
Ulib.v
Umalloc.v
UmallocInv.v
UmallocProps.v
Grep.v
Sh.v
ShPrint.v
ShRun.v
Printf.v
Uprintf.v
RingBuf.v
Virtio.v
VirtioInv.v
VirtioProps.v
VirtioInit.v
Pipe.v
Uart.v
Console.v
File.v
Sysfile.v
ProcMem.v
Proc.v
ProcInv.v
ProcProps.v
ProcDemo.v
Sched.v
Exec.v
Syscall.v
Asm.v
AsmProps.v
Trap.v
ExecMem.v
ExecProps.v
