(* ===== verification/Prelude.v ===== *)
(** * xv6-riscv (course labs): a verification library

    The program is a small Unix-like kernel for RISC-V (src/kernel), its user
    library and programs (src/user), and the tool that makes its disk image
    (src/mkfs).  Each component is translated into executable definitions over
    an explicit state; the theorems say what the component promises to the
    ones that use it.

    ** Conventions

    A C integer is a [Z] with its wrap-around written out ([u8] .. [s64]
    below).  Physical memory is a finite map from addresses to bytes
    ([Memory.mem]); buffers that are not shared are byte lists.  A routine that
    changes state is a value of the state monad [M S A], whose outcome is
    [Ok (a, s)] or [Panic msg] for the kernel's panic().  Components that are
    parts of a bigger state are reached through a [Lens] ([zoom]).  A loop that
    is not structural takes fuel and ends in a panic of its own when it runs
    out; the theorems show that the fuel given by the caller is enough (for
    example one unit for each page or block touched, or one per list element).
    A process that has to wait is a result of its own (asleep, and how to
    resume) in pipes, the console, the serial port, wait() and the system
    calls; in the sequential model of the storage stack such a run stops.

    ** Files

    Memory and processes
    - [Memory], [Cstring], [Bytes]: bytes of memory, string.c, little-endian
      fields.  [DList]: list.c.
    - [Riscv], [Kalloc]: page-table constants of riscv.h, kalloc.c.
    - [Buddy] (buddy.c, over the bytes of memory, with its free lists in the
      free blocks); [BuddyRep] (bit vectors and lists in memory), [BuddyTree]
      (the tree of blocks), [BuddyInv] (bd_malloc and bd_free), [BuddyInit] and
      [BuddyBoot] (bd_init), [BuddyProps] (a client and the theorems).
    - [Vm] (vm.c) with [VmTable], [VmSpace], [VmUser], [VmFree], [VmCopy] (page
      tables as maps, user address spaces, and what each routine does to
      them), [Kvm] (kvmmake), [VmProps] (the theorems).
    - [ProcMem], [Proc] (proc.c); [ProcInv], [ProcProps] (the table's invariant
      and the theorems); [ProcDemo] (a small table on which they are applied);
      [Sched] (the schedulers of several harts, interleaved with the processes).
    - [Exec] (exec.c); [ExecMem], [ExecProps].
    - [Spinlock] (spinlock.c): harts interleaved at their atomic accesses.
    - [Asm], [AsmProps]: trampoline.S, kernelvec.S and swtch.S run by a small
      interpreter; [Trap]: trap.c and plic.c; [Syscall]: syscall.c, sysproc.c
      and sys_exec.

    Storage
    - [Refine]: refinement between state monads.  [Cache]: the abstract buffer
      cache and the disk with the history of its writes.  [Ring], [Bio]: bio.c
      implements the cache.  [Log] (log.c) and [LogCrash] (crashes).  [Blocks]:
      the abstract store with transactions, implemented by log.c over bio.c.
    - [Fs], [FsDir] (fs.c) over any block layer; [FsSim] carries what is proved
      over the abstract store to the implementation; [Transact]: system calls
      are atomic; [FsBlock] (bitmap and single blocks), [FsFile] (bmap and the
      slots of an inode), [FsIo] (readi, writei), [FsTrunc] (itrunc), [FsName]
      (directories), [FsProps] (the theorems),
      [Fsinit] (fsinit, over the code of log.c and bio.c).
    - [Mkfs] (mkfs.c, over the blocks of the image); [MkfsInv] (blocks and slots
      while the image is filled), [MkfsAppend] (iappend), [MkfsFiles] (inodes,
      the state as a list of files), [MkfsProps] (main; what the kernel finds).
    - [Virtio] (virtio_disk.c: the calls, the interrupt handler and the device as
      interleaved steps over descriptors and rings, with the sleeping calls and
      their wakeups), [VirtioInv], [VirtioProps];
      [VirtioInit] (virtio_disk_init over the device's registers).  [Bio] uses
      the atomic transfer that [VirtioProps] shows the driver to implement.
    - [File] (file.c), [Sysfile] (sysfile.c).

    Devices, pipes, user programs
    - [UserMem]: user memory as an interface, implemented by vm.c.
    - [RingBuf], [Pipe] (pipe.c; readers and writers of a pipe, interleaved,
      in its module Net), [Uart] (uart.c), [Console] (console.c).
    - [Printf], [Uprintf]: the two printf.  [Ulib]: ulib.c.  [Grep]
      (grep.c, and wc.c in its module Wc).
    - [Umalloc] (umalloc.c, over the bytes of the process); [UmallocInv] (the
      circular list, the loops), [UmallocProps] (a client and the theorems).
    - [Sh] (the parser of sh.c), [ShPrint] (a printer it inverts), [ShRun]
      (runcmd and main over tables of open files and children to wait for).

    ** Interfaces

    [KernelImage] (where the linker put the kernel), [UserMem], [BufCache],
    [BlockLayer], [FileOps] and [ExecFs] (what proc.c and exec.c need of the
    file layer), [UartDev], [DevSw], [IrqDev] (devices) are classes of
    operations; the classes with the suffix Ok state what the client relies
    on, and each has an instance.

    ** What the theorems show

    - Storage: commit and recovery are atomic under crashes at any disk write,
      recovery may crash again, and every call's transaction on the real stack
      of log.c and bio.c is atomic; writei, readi, itrunc, dirlookup and dirlink
      do to files and directories what their names say; the image of mkfs
      satisfies what these theorems assume, fsinit boots from it and the
      kernel reads the host's files.
    - Disk driver: for all interleavings it refines a disk of atomic transfers,
      never misuses a descriptor, loses no wakeup, and every call can complete
      unless the device reports an error, at which the driver panics.
    - Allocators: blocks of buddy.c and umalloc.c never overlap and keep their
      contents, allocation fails only when nothing fits, and what is freed is
      joined again.
    - Memory: pages are never given out twice, address spaces grow, shrink,
      copy and die without losing pages or disturbing others, and the kernel
      reads and writes exactly the user bytes it was asked to.
    - Processes: fork, exec, exit, wait, growproc and kill keep the invariant of
      the process table, do what they promise, and touch nobody else; a runnable
      process gets its turn before any hart ends a pass over the table.
    - Control: traps and context switches restore every register; a return to
      user space is always ready for the next trap, whatever other processes did
      while this one was off the processor (the parameters of [Trap]).
    - Locks: mutual exclusion, exact panics, interrupt nesting.
    - Pipes, console, serial port: queues with the right order; no wakeup of a
      pipe is lost for any number of readers and writers, but for a writer that
      is killed; the cases in which bytes are lost are theorems too.
    - User programs: grep and wc against declarative specifications, number
      formatting and parsing; the shell's parser ends on every line and inverts
      a printer, and a session does what its commands say, closes every end of a
      pipe and waits for every foreground command.

    ** Bounds and fuel

    Where a loop takes fuel the callers' fuel is shown to be enough: the size of
    the request in pages or blocks, the length of the line for the shell's
    parser, the number of sizes for the buddy allocator, and for umalloc.c the
    memory of the machine in headers, since a round of its loops visits each
    free block once.  The sizes of mkfs and of the file system are those of the
    sources (2000 blocks, 200 inodes, files of 268 blocks).

    ** Not modelled

    Machine set-up (entry.S, start.c, main.c, kvminithart), because it is
    writes of control registers without computation; the scheduling of processes
    inside a storage call (a call that would sleep there stops the run); the
    pages of pipe buffers are not drawn from the process layer's free memory;
    user programs that only make system calls (init, cat, ls, ...), and the
    tests. *)

From Stdlib Require Export ZArith Lia.
From stdpp Require Export base numbers list strings gmap.

Declare Scope xv6_scope.
Delimit Scope xv6_scope with xv6.
#[global] Open Scope Z_scope.
#[export] Set Warnings "-clear-no-such-hyp,-level-tolerance".

Create HintDb xv6.
Create Rewrite HintDb xv6.

(** * Machine integers

    A w-bit unsigned integer is a [Z] in [0, 2^w); the conversions below are
    the ones C performs when a value is stored in a variable of the type. *)

Definition wrap (w z : Z) : Z := z mod 2 ^ w.
Definition u8 (z : Z) : Z := z mod 256.
Definition u16 (z : Z) : Z := z mod 65536.
Definition u32 (z : Z) : Z := z mod 4294967296.
Definition u64 (z : Z) : Z := z mod 18446744073709551616.
Definition s16 (z : Z) : Z := (z + 32768) mod 65536 - 32768.
Definition s32 (z : Z) : Z := (z + 2147483648) mod 4294967296 - 2147483648.
Definition s64 (z : Z) : Z :=
  (z + 9223372036854775808) mod 18446744073709551616 - 9223372036854775808.

(** * Outcomes and the state monad

    A kernel routine either returns or calls [panic], which never returns. *)

Inductive outcome (A : Type) : Type :=
| Ok (a : A)
| Panic (msg : string).
Arguments Ok {A} _.
Arguments Panic {A} _.

Definition M (S A : Type) : Type := S -> outcome (A * S).

Section monad.
Context {S : Type}.

#[global] Instance M_ret : MRet (M S) := fun A a s => Ok (a, s).

#[global] Instance M_bind : MBind (M S) := fun A B k m s =>
  match m s with
  | Ok (a, s') => k a s'
  | Panic e => Panic e
  end.

Definition panic {A} (msg : string) : M S A := fun _ => Panic msg.
Definition gets {A} (f : S -> A) : M S A := fun s => Ok (f s, s).
Definition modify (f : S -> S) : M S unit := fun s => Ok (tt, f s).

Lemma bind_run {A B} (m : M S A) (k : A -> M S B) s :
  (m ≫= k) s = match m s with
               | Ok (a, s') => k a s'
               | Panic e => Panic e
               end.
Proof. reflexivity. Qed.

Lemma bind_Ok {A B} (m : M S A) (k : A -> M S B) s a s' :
  m s = Ok (a, s') -> (m ≫= k) s = k a s'.
Proof. intros H. rewrite bind_run, H. reflexivity. Qed.

Lemma bind_inv {A B} (m : M S A) (k : A -> M S B) s b s' :
  (m ≫= k) s = Ok (b, s') ->
  exists a s1, m s = Ok (a, s1) /\ k a s1 = Ok (b, s').
Proof.
  rewrite bind_run. destruct (m s) as [[a s1]|e]; [|discriminate]. eauto.
Qed.

Lemma ret_run {A} (a : A) (s : S) : (mret a : M S A) s = Ok (a, s).
Proof. reflexivity. Qed.

Lemma gets_run {A} (f : S -> A) (s : S) : gets f s = Ok (f s, s).
Proof. reflexivity. Qed.

Lemma modify_run (f : S -> S) (s : S) : modify f s = Ok (tt, f s).
Proof. reflexivity. Qed.

End monad.

(** A component state seen inside a larger state. *)
Class Lens (T S : Type) := {
  lget : T -> S;
  lset : S -> T -> T;
}.

Class LensLaws (T S : Type) `{Lens T S} : Prop := {
  lget_lset : forall s t, lget (lset s t) = s;
  lset_lget : forall t, lset (lget t) t = t;
  lset_lset : forall s1 s2 t, lset s1 (lset s2 t) = lset s1 t;
}.

Definition zoom {T S A} `{Lens T S} (m : M S A) : M T A := fun t =>
  match m (lget t) with
  | Ok (a, s') => Ok (a, lset s' t)
  | Panic e => Panic e
  end.

(** * Automation *)

(** Split every disjunction and conditional on integer comparisons. *)
Ltac case_bool :=
  repeat match goal with
  | |- context [Z.ltb ?a ?b] => destruct (Z.ltb_spec a b)
  | |- context [Z.leb ?a ?b] => destruct (Z.leb_spec a b)
  | |- context [Z.eqb ?a ?b] => destruct (Z.eqb_spec a b)
  | H : context [Z.ltb ?a ?b] |- _ => destruct (Z.ltb_spec a b)
  | H : context [Z.leb ?a ?b] |- _ => destruct (Z.leb_spec a b)
  | H : context [Z.eqb ?a ?b] |- _ => destruct (Z.eqb_spec a b)
  end; simpl in *.

(** Run the head of a monadic computation whose result is known. *)
Ltac mstep :=
  match goal with
  | |- context [(?m ≫= ?k) ?s] =>
      first [ erewrite (bind_Ok m k s) by eassumption
            | rewrite (bind_run m k s) ]
  end.

Ltac minv H :=
  let a := fresh "a" in let s := fresh "s" in
  let H1 := fresh "Hrun" in let H2 := fresh "Hrest" in
  apply bind_inv in H as (a & s & H1 & H2).

(** Split non-membership in an explicit list. *)
Ltac notin :=
  repeat match goal with H : _ ∉ _ :: _ |- _ => apply not_elem_of_cons in H as [? ?] end;
  first [assumption | congruence].

Ltac unfold_words := unfold wrap, u8, u16, u32, u64, s16, s32, s64 in *.
Ltac word_lia := unfold_words; Z.div_mod_to_equations; lia.

(** * Integers *)

Lemma u8_range z : 0 <= u8 z < 256.
Proof. word_lia. Qed.
Lemma u16_range z : 0 <= u16 z < 65536.
Proof. word_lia. Qed.
Lemma u32_range z : 0 <= u32 z < 4294967296.
Proof. word_lia. Qed.
Lemma u64_range z : 0 <= u64 z < 18446744073709551616.
Proof. word_lia. Qed.
Lemma s32_range z : -2147483648 <= s32 z < 2147483648.
Proof. word_lia. Qed.

Lemma u8_small z : 0 <= z < 256 -> u8 z = z.
Proof. apply Z.mod_small. Qed.
Lemma u32_small z : 0 <= z < 4294967296 -> u32 z = z.
Proof. apply Z.mod_small. Qed.
Lemma u64_small z : 0 <= z < 18446744073709551616 -> u64 z = z.
Proof. apply Z.mod_small. Qed.
Lemma s32_small z : -2147483648 <= z < 2147483648 -> s32 z = z.
Proof. word_lia. Qed.

Lemma u8_u8 z : u8 (u8 z) = u8 z.
Proof. apply u8_small, u8_range. Qed.
Lemma u32_u32 z : u32 (u32 z) = u32 z.
Proof. apply u32_small, u32_range. Qed.

#[export] Hint Resolve u8_range u16_range u32_range u64_range s32_range : xv6.
#[export] Hint Rewrite u8_u8 u32_u32 : xv6.

(** Ring indices of a w-bit counter stay consistent when the ring size
    divides the modulus. *)
Lemma mod_mod_divide a m n :
  0 < n -> 0 < m -> (n | m) -> (a mod m) mod n = a mod n.
Proof.
  intros Hn Hm [k ->]. rewrite (Z.mul_comm k n).
  rewrite Z.rem_mul_r by nia.
  rewrite Z.mul_comm, Z.mod_add by lia. apply Z.mod_mod. lia.
Qed.
