(* ===== verification/Memory.v ===== *)
(** Physical memory and the byte-moving routines of kernel/string.c.

    Memory is a finite map from byte addresses to bytes; an address that was
    never written reads as zero.  Multi-byte loads and stores are
    little-endian, as on RISC-V.  Pointers are integers and pointer
    arithmetic does not wrap: the theorems speak of objects that lie inside
    the address space. *)

From S2P Require Import Prelude.

Abbreviation mem := (gmap Z Z).

Definition load8 (m : mem) (a : Z) : Z := u8 (default 0 (m !! a)).
Definition store8 (m : mem) (a v : Z) : mem := <[a := u8 v]> m.

Fixpoint load_le (n : nat) (m : mem) (a : Z) : Z :=
  match n with
  | O => 0
  | S n => load8 m a + 256 * load_le n m (a + 1)
  end.

Fixpoint store_le (n : nat) (m : mem) (a v : Z) : mem :=
  match n with
  | O => m
  | S n => store_le n (store8 m a v) (a + 1) (v / 256)
  end.

Definition load32 (m : mem) (a : Z) : Z := load_le 4 m a.
Definition store32 (m : mem) (a v : Z) : mem := store_le 4 m a v.
Definition load64 (m : mem) (a : Z) : Z := load_le 8 m a.
Definition store64 (m : mem) (a v : Z) : mem := store_le 8 m a v.

(** The bytes of the object of size [n] at [a]. *)
Fixpoint load_bytes (n : nat) (m : mem) (a : Z) : list Z :=
  match n with
  | O => []
  | S n => load8 m a :: load_bytes n m (a + 1)
  end.

Fixpoint store_bytes (m : mem) (a : Z) (bs : list Z) : mem :=
  match bs with
  | [] => m
  | b :: bs => store_bytes (store8 m a b) (a + 1) bs
  end.

(** ** kernel/string.c: memset, memmove, memcpy, memcmp *)

(** for(i = 0; i < n; i++) cdst[i] = c; [k] iterations are left. *)
Fixpoint memset_loop (k : nat) (m : mem) (dst c i : Z) : mem :=
  match k with
  | O => m
  | S k => memset_loop k (store8 m (dst + i) c) dst c (i + 1)
  end.

Definition memset (m : mem) (dst c n : Z) : mem :=
  memset_loop (Z.to_nat n) m dst c 0.

(** while(n-- > 0) *d++ = *s++; *)
Fixpoint copy_forward (n : nat) (m : mem) (d s : Z) : mem :=
  match n with
  | O => m
  | S n => copy_forward n (store8 m d (load8 m s)) (d + 1) (s + 1)
  end.

(** while(n-- > 0) *--d = *--s; *)
Fixpoint copy_backward (n : nat) (m : mem) (d s : Z) : mem :=
  match n with
  | O => m
  | S n => copy_backward n (store8 m (d - 1) (load8 m (s - 1))) (d - 1) (s - 1)
  end.

Definition memmove (m : mem) (dst src n : Z) : mem :=
  if n =? 0 then m
  else if (src <? dst) && (dst <? src + n)
       then copy_backward (Z.to_nat n) m (dst + n) (src + n)
       else copy_forward (Z.to_nat n) m dst src.

Definition memcpy (m : mem) (dst src n : Z) : mem := memmove m dst src n.

Fixpoint memcmp_loop (n : nat) (m : mem) (s1 s2 : Z) : Z :=
  match n with
  | O => 0
  | S n =>
      if negb (load8 m s1 =? load8 m s2)
      then load8 m s1 - load8 m s2
      else memcmp_loop n m (s1 + 1) (s2 + 1)
  end.

Definition memcmp (m : mem) (v1 v2 n : Z) : Z := memcmp_loop (Z.to_nat n) m v1 v2.

(** ** user/ulib.c: memmove, which picks the direction by comparing the
    pointers only *)
Definition user_memmove (m : mem) (vdst vsrc n : Z) : mem :=
  if vdst <? vsrc
  then copy_forward (Z.to_nat n) m vdst vsrc
  else copy_backward (Z.to_nat n) m (vdst + n) (vsrc + n).

(** * Loads and stores *)

Lemma load8_range m a : 0 <= load8 m a < 256.
Proof. apply u8_range. Qed.

Lemma load8_store8 m a b v :
  load8 (store8 m a v) b = if a =? b then u8 v else load8 m b.
Proof.
  unfold load8, store8. case_bool.
  - subst. rewrite lookup_insert_eq. apply u8_u8.
  - by rewrite lookup_insert_ne by done.
Qed.

Lemma load8_store8_eq m a v : load8 (store8 m a v) a = u8 v.
Proof. rewrite load8_store8. by case_bool. Qed.

Lemma load8_store8_ne m a b v : a <> b -> load8 (store8 m a v) b = load8 m b.
Proof. intros. rewrite load8_store8. by case_bool. Qed.

Lemma load_le_range n m a : 0 <= load_le n m a < 256 ^ Z.of_nat n.
Proof.
  revert a. induction n as [|n IH]; intros a; [simpl; lia|].
  cbn [load_le]. pose proof (load8_range m a). specialize (IH (a + 1)).
  rewrite Nat2Z.inj_succ, Z.pow_succ_r by lia. lia.
Qed.

Lemma load64_range m a : 0 <= load64 m a < 18446744073709551616.
Proof. apply (load_le_range 8). Qed.

Lemma load32_range m a : 0 <= load32 m a < 4294967296.
Proof. apply (load_le_range 4). Qed.

(** Memories that agree byte by byte on a range give the same loads. *)
Lemma load_le_agree n m1 m2 a :
  (forall x, a <= x < a + Z.of_nat n -> load8 m1 x = load8 m2 x) ->
  load_le n m1 a = load_le n m2 a.
Proof.
  revert a. induction n as [|n IH]; intros a H; [done|].
  cbn [load_le]. rewrite (H a), (IH (a + 1)); [done| |lia].
  intros x Hx. apply H. lia.
Qed.

Lemma load8_store_le_ne n m a v x :
  x < a \/ a + Z.of_nat n <= x -> load8 (store_le n m a v) x = load8 m x.
Proof.
  revert m a v. induction n as [|n IH]; intros m a v Hx; [done|].
  cbn [store_le]. rewrite IH by lia. apply load8_store8_ne. lia.
Qed.

Lemma load_store_le n m a v :
  load_le n (store_le n m a v) a = v mod 256 ^ Z.of_nat n.
Proof.
  revert m a v. induction n as [|n IH]; intros m a v; [by rewrite Z.mod_1_r|].
  cbn [load_le store_le]. rewrite IH.
  rewrite load8_store_le_ne by lia. rewrite load8_store8_eq.
  rewrite Nat2Z.inj_succ, Z.pow_succ_r by lia.
  rewrite Z.rem_mul_r by (try apply Z.pow_nonzero; lia). reflexivity.
Qed.

Lemma load_store_le_ne n k m a b v :
  a + Z.of_nat n <= b \/ b + Z.of_nat k <= a ->
  load_le k (store_le n m a v) b = load_le k m b.
Proof.
  intros H. apply load_le_agree. intros x Hx. apply load8_store_le_ne. lia.
Qed.

Lemma load64_store64_eq m a v :
  0 <= v < 18446744073709551616 -> load64 (store64 m a v) a = v.
Proof.
  intros H. unfold load64, store64. rewrite load_store_le. by apply Z.mod_small.
Qed.

Lemma load64_store64_same m a v : load64 (store64 m a v) a = u64 v.
Proof. unfold load64, store64. by rewrite load_store_le. Qed.

Lemma load64_store64_ne m a b v :
  a + 8 <= b \/ b + 8 <= a -> load64 (store64 m a v) b = load64 m b.
Proof. intros H. apply load_store_le_ne. lia. Qed.

Lemma load8_store64_ne m a b v :
  a + 8 <= b \/ b < a -> load8 (store64 m a v) b = load8 m b.
Proof. intros H. apply load8_store_le_ne. lia. Qed.

Lemma load64_agree m1 m2 a :
  (forall x, a <= x < a + 8 -> load8 m1 x = load8 m2 x) ->
  load64 m1 a = load64 m2 a.
Proof. intros H. apply load_le_agree. done. Qed.

Lemma load32_store32_eq m a v : 0 <= v < 4294967296 -> load32 (store32 m a v) a = v.
Proof. intros H. unfold load32, store32. rewrite load_store_le. by apply Z.mod_small. Qed.

Lemma load32_store32_ne m a b v : a + 4 <= b \/ b + 4 <= a -> load32 (store32 m a v) b = load32 m b.
Proof. intros H. apply load_store_le_ne. lia. Qed.

Lemma load64_store32_ne m a b v : a + 4 <= b \/ b + 8 <= a -> load64 (store32 m a v) b = load64 m b.
Proof. intros H. apply load_store_le_ne. lia. Qed.

Lemma load32_store64_ne m a b v : a + 8 <= b \/ b + 4 <= a -> load32 (store64 m a v) b = load32 m b.
Proof. intros H. apply load_store_le_ne. lia. Qed.

Lemma load8_store32_ne m a b v : a + 4 <= b \/ b < a -> load8 (store32 m a v) b = load8 m b.
Proof. intros H. apply load8_store_le_ne. lia. Qed.

Lemma load32_agree m1 m2 a :
  (forall x, a <= x < a + 4 -> load8 m1 x = load8 m2 x) ->
  load32 m1 a = load32 m2 a.
Proof. intros H. apply load_le_agree. done. Qed.

Lemma length_load_bytes n m a : length (load_bytes n m a) = n.
Proof. revert a. induction n; intros; simpl; auto. Qed.

Lemma lookup_load_bytes n m a i :
  (i < n)%nat -> load_bytes n m a !! i = Some (load8 m (a + Z.of_nat i)).
Proof.
  revert a i. induction n as [|n IH]; intros a [|i] Hi; simpl; try lia.
  - f_equal. f_equal. lia.
  - rewrite IH by lia. do 2 f_equal. lia.
Qed.

Lemma load8_store_bytes m a bs x :
  load8 (store_bytes m a bs) x =
  if (a <=? x) && (x <? a + Z.of_nat (length bs))
  then u8 (bs !!! Z.to_nat (x - a)) else load8 m x.
Proof.
  revert m a. induction bs as [|b bs IH]; intros m a; simpl.
  - case_bool; auto; lia.
  - rewrite IH, load8_store8. case_bool; simpl; try lia; auto.
    + replace (Z.to_nat (x - a)) with (S (Z.to_nat (x - (a + 1)))) by lia. done.
    + subst. by rewrite Z.sub_diag.
Qed.

(** * memset *)

Lemma load8_memset_loop k m dst c i a :
  load8 (memset_loop k m dst c i) a =
  if (dst + i <=? a) && (a <? dst + i + Z.of_nat k) then u8 c else load8 m a.
Proof.
  revert m i. induction k as [|k IH]; intros m i; cbn [memset_loop].
  - case_bool; try lia; auto.
  - rewrite IH, load8_store8. case_bool; try lia; auto.
Qed.

Lemma load8_memset m dst c n a :
  0 <= n ->
  load8 (memset m dst c n) a =
  if (dst <=? a) && (a <? dst + n) then u8 c else load8 m a.
Proof.
  intros Hn. unfold memset. rewrite load8_memset_loop.
  rewrite Z.add_0_r, Z2Nat.id by done. done.
Qed.

Lemma load8_memset_out m dst c n a :
  0 <= n -> a < dst \/ dst + n <= a -> load8 (memset m dst c n) a = load8 m a.
Proof. intros Hn Ha. rewrite load8_memset by done. case_bool; auto; lia. Qed.

Lemma load64_memset_out m dst c n a :
  0 <= n -> a + 8 <= dst \/ dst + n <= a ->
  load64 (memset m dst c n) a = load64 m a.
Proof.
  intros Hn Ha. apply load64_agree. intros x Hx.
  apply load8_memset_out; lia.
Qed.

Lemma load64_memset_zero m dst n a :
  dst <= a -> a + 8 <= dst + n -> load64 (memset m dst 0 n) a = 0.
Proof.
  intros H1 H2.
  rewrite (load64_agree _ ∅); [done|].
  intros x Hx. rewrite load8_memset by lia. case_bool; try lia. done.
Qed.

(** * memmove *)

Lemma load8_copy_forward n m d s a :
  d <= s \/ s + Z.of_nat n <= d ->
  load8 (copy_forward n m d s) a =
  if (d <=? a) && (a <? d + Z.of_nat n) then load8 m (s + (a - d)) else load8 m a.
Proof.
  revert m d s. induction n as [|n IH]; intros m d s H; cbn [copy_forward].
  - case_bool; try lia; auto.
  - rewrite IH by lia. rewrite !load8_store8.
    case_bool; try lia; rewrite ?(u8_small (load8 _ _)) by apply load8_range;
      first [done | f_equal; lia].
Qed.

Lemma load8_copy_backward n m d s a :
  s <= d \/ d + Z.of_nat n <= s ->
  load8 (copy_backward n m d s) a =
  if (d - Z.of_nat n <=? a) && (a <? d) then load8 m (s - (d - a)) else load8 m a.
Proof.
  revert m d s. induction n as [|n IH]; intros m d s H; cbn [copy_backward].
  - case_bool; try lia; auto.
  - rewrite IH by lia. rewrite !load8_store8.
    case_bool; try lia; rewrite ?(u8_small (load8 _ _)) by apply load8_range;
      first [done | f_equal; lia].
Qed.

(** The contract of memmove: the destination receives the bytes the source
    had before the call, whatever the overlap. *)
Definition moved (m m' : mem) (dst src n : Z) : Prop :=
  forall a, load8 m' a =
    if (dst <=? a) && (a <? dst + n) then load8 m (src + (a - dst)) else load8 m a.

Lemma memmove_moved m dst src n : 0 <= n -> moved m (memmove m dst src n) dst src n.
Proof.
  intros Hn a. unfold memmove.
  destruct (Z.eqb_spec n 0) as [->|Hz]; [case_bool; auto; lia|].
  destruct (Z.ltb_spec src dst), (Z.ltb_spec dst (src + n)); simpl;
    rewrite ?load8_copy_backward, ?load8_copy_forward by lia;
    rewrite ?Z2Nat.id by lia; case_bool; try lia; auto; f_equal; lia.
Qed.

Lemma user_memmove_moved m dst src n :
  0 <= n -> moved m (user_memmove m dst src n) dst src n.
Proof.
  intros Hn a. unfold user_memmove.
  destruct (Z.ltb_spec dst src);
    rewrite ?load8_copy_backward, ?load8_copy_forward by lia;
    rewrite ?Z2Nat.id by lia; case_bool; try lia; auto; f_equal; lia.
Qed.

#[export] Hint Resolve load8_range load64_range load32_range memmove_moved
  user_memmove_moved : xv6.

(** Memory accesses are reasoned about through the lemmas above. *)
#[global] Opaque memset memmove load8 store8 load64 store64 load32 store32.
