(* ===== verification/Cstring.v ===== *)
(** The string routines of kernel/string.c: strncmp, strncpy, safestrcpy,
    strlen, over the memory of [Memory].  char is unsigned on RISC-V. *)

From S2P Require Import Prelude Memory.

(** while(n > 0 && *p && *p == *q) n--, p++, q++; *)
Fixpoint strncmp_loop (n : nat) (m : mem) (p q : Z) : Z :=
  match n with
  | O => 0
  | S n =>
      if negb (load8 m p =? 0) && (load8 m p =? load8 m q)
      then strncmp_loop n m (p + 1) (q + 1)
      else load8 m p - load8 m q
  end.

Definition strncmp (m : mem) (p q n : Z) : Z := strncmp_loop (Z.to_nat n) m p q.

(** while(n-- > 0) *s++ = 0; *)
Fixpoint strncpy_pad (n : nat) (m : mem) (s : Z) : mem :=
  match n with
  | O => m
  | S n => strncpy_pad n (store8 m s 0) (s + 1)
  end.

(** while(n-- > 0 && ( *s++ = *t++ ) != 0) ; then the padding loop. *)
Fixpoint strncpy_loop (n : nat) (m : mem) (s t : Z) : mem :=
  match n with
  | O => m
  | S n =>
      let c := load8 m t in
      let m := store8 m s c in
      if c =? 0 then strncpy_pad n m (s + 1) else strncpy_loop n m (s + 1) (t + 1)
  end.

Definition strncpy (m : mem) (s t n : Z) : mem := strncpy_loop (Z.to_nat n) m s t.

(** while(--n > 0 && ( *s++ = *t++ ) != 0) ; *s = 0; [k] is n - 1. *)
Fixpoint safestrcpy_loop (k : nat) (m : mem) (s t : Z) : mem :=
  match k with
  | O => store8 m s 0
  | S k =>
      let c := load8 m t in
      let m := store8 m s c in
      if c =? 0 then store8 m (s + 1) 0 else safestrcpy_loop k m (s + 1) (t + 1)
  end.

Definition safestrcpy (m : mem) (s t n : Z) : mem :=
  if n <=? 0 then m else safestrcpy_loop (Z.to_nat (n - 1)) m s t.

(** for(n = 0; s[n]; n++) ; the loop has no bound of its own: [fuel] bounds
    the iterations, None means that no NUL was met within it. *)
Fixpoint strlen_loop (fuel : nat) (m : mem) (s n : Z) : option Z :=
  match fuel with
  | O => None
  | S fuel => if load8 m (s + n) =? 0 then Some n else strlen_loop fuel m s (n + 1)
  end.

Definition strlen (fuel : nat) (m : mem) (s : Z) : option Z := strlen_loop fuel m s 0.

(** * Names

    The bytes of the name stored in an [n]-byte field at [p]: up to the first
    NUL, or all [n] bytes when there is none. *)
Fixpoint cname (n : nat) (m : mem) (p : Z) : list Z :=
  match n with
  | O => []
  | S n => let c := load8 m p in if c =? 0 then [] else c :: cname n m (p + 1)
  end.

(** * Lemmas *)

Lemma cname_agree n m1 m2 p :
  (forall x, p <= x < p + Z.of_nat n -> load8 m1 x = load8 m2 x) ->
  cname n m1 p = cname n m2 p.
Proof.
  revert p. induction n as [|n IH]; intros p H; [done|].
  simpl. rewrite (H p) by lia. rewrite (IH (p + 1)); [done|].
  intros x Hx. apply H. lia.
Qed.

Lemma cname_length n m p : (length (cname n m p) <= n)%nat.
Proof.
  revert p. induction n as [|n IH]; intros p; simpl; [lia|].
  destruct (load8 m p =? 0); simpl; [lia|]. specialize (IH (p + 1)). lia.
Qed.

Lemma strncmp_loop_zero n m p q :
  strncmp_loop n m p q = 0 <-> cname n m p = cname n m q.
Proof.
  revert p q. induction n as [|n IH]; intros p q; simpl; [done|].
  pose proof (load8_range m p). pose proof (load8_range m q).
  destruct (Z.eqb_spec (load8 m p) 0), (Z.eqb_spec (load8 m q) 0),
    (Z.eqb_spec (load8 m p) (load8 m q)); simpl;
    try (split; intros; first [done | lia | congruence]).
  rewrite IH. split; [intros ->; congruence | intros [=]; done].
Qed.

Lemma load8_strncpy_pad n m s a :
  load8 (strncpy_pad n m s) a =
  if (s <=? a) && (a <? s + Z.of_nat n) then 0 else load8 m a.
Proof.
  revert m s. induction n as [|n IH]; intros m s; cbn [strncpy_pad].
  - case_bool; try lia; auto.
  - rewrite IH, load8_store8. case_bool; try lia; auto.
Qed.

(** The i-th byte of a name padded with NULs. *)
Definition padded (l : list Z) (i : Z) : Z := default 0 (l !! Z.to_nat i).

Lemma padded_cons c l i :
  0 <= i -> padded (c :: l) i = if i =? 0 then c else padded l (i - 1).
Proof.
  intros Hi. unfold padded. case_bool; [by subst|].
  replace (Z.to_nat i) with (S (Z.to_nat (i - 1))) by lia. done.
Qed.

Lemma load8_strncpy_loop n m s t a :
  s + Z.of_nat n <= t \/ t + Z.of_nat n <= s ->
  load8 (strncpy_loop n m s t) a =
  if (s <=? a) && (a <? s + Z.of_nat n)
  then padded (cname n m t) (a - s) else load8 m a.
Proof.
  revert m s t. induction n as [|n IH]; intros m s t H; cbn [strncpy_loop cname].
  - case_bool; auto; lia.
  - pose proof (load8_range m t) as Hr. destruct (Z.eqb_spec (load8 m t) 0) as [E|E].
    + rewrite load8_strncpy_pad, load8_store8, E. change (u8 0) with 0.
      case_bool; try lia; done.
    + rewrite IH by lia.
      rewrite (cname_agree n (store8 m s (load8 m t)) m)
        by (intros x Hx; apply load8_store8_ne; lia).
      rewrite load8_store8, u8_small by done.
      case_bool; try lia; try done;
        rewrite padded_cons by lia; case_bool; try lia; try done.
      f_equal. lia.
Qed.

Lemma cname_padded n m p l :
  (forall x, p <= x < p + Z.of_nat n -> load8 m x = padded l (x - p)) ->
  Forall (fun c => c <> 0) l ->
  cname n m p = take n l.
Proof.
  revert p l. induction n as [|n IH]; intros p l H Hl; [done|].
  cbn [cname]. rewrite (H p), Z.sub_diag by lia.
  destruct l as [|c l]; [done|].
  inversion_clear Hl as [|? ? Hc Hl']. unfold padded at 1; simpl.
  destruct (Z.eqb_spec c 0); [done|]. f_equal. apply IH; [|done].
  intros x Hx. rewrite H by lia. rewrite padded_cons by lia.
  case_bool; [lia|]. f_equal. lia.
Qed.

Lemma cname_nonzero n m p : Forall (fun c => c <> 0) (cname n m p).
Proof.
  revert p. induction n as [|n IH]; intros p; simpl; [constructor|].
  destruct (Z.eqb_spec (load8 m p) 0); constructor; auto.
Qed.

Lemma safestrcpy_loop_out k m s t a :
  a < s \/ s + Z.of_nat k < a -> load8 (safestrcpy_loop k m s t) a = load8 m a.
Proof.
  revert m s t. induction k as [|k IH]; intros m s t H; cbn [safestrcpy_loop].
  - apply load8_store8_ne. lia.
  - destruct (load8 m t =? 0).
    + rewrite !load8_store8_ne by lia. done.
    + rewrite IH by lia. apply load8_store8_ne. lia.
Qed.

Lemma cname_safestrcpy_loop k m s t :
  s + Z.of_nat k < t \/ t + Z.of_nat k <= s ->
  cname (S k) (safestrcpy_loop k m s t) s = cname k m t.
Proof.
  revert m s t. induction k as [|k IH]; intros m s t H.
  - cbn. by rewrite load8_store8_eq.
  - pose proof (load8_range m t) as Hr.
    cbn [safestrcpy_loop]. destruct (Z.eqb_spec (load8 m t) 0) as [E|E].
    + cbn [cname]. rewrite load8_store8_ne, load8_store8_eq, E by lia. done.
    + remember (S k) as k' eqn:Ek. cbn [cname].
      rewrite safestrcpy_loop_out, load8_store8_eq, u8_small by (done || lia).
      subst k'. cbn [cname] in IH |- *.
      destruct (Z.eqb_spec (load8 m t) 0); [done|]. f_equal.
      rewrite IH by lia. apply cname_agree. intros x Hx.
      apply load8_store8_ne. lia.
Qed.

Lemma cname_take j n m p : (j <= n)%nat -> cname j m p = take j (cname n m p).
Proof.
  revert n p. induction j as [|j IH]; intros [|n] p H; simpl; try done; try lia.
  destruct (load8 m p =? 0); [done|]. simpl. by rewrite (IH n) by lia.
Qed.

Lemma strlen_loop_spec fuel m s n k :
  0 <= k ->
  (forall i, n <= i < n + k -> load8 m (s + i) <> 0) -> load8 m (s + (n + k)) = 0 ->
  (Z.to_nat k < fuel)%nat ->
  strlen_loop fuel m s n = Some (n + k).
Proof.
  revert n k. induction fuel as [|fuel IH]; intros n k Hk Hne H0 Hf; [lia|].
  cbn [strlen_loop]. destruct (Z.eqb_spec (load8 m (s + n)) 0) as [E|E].
  - destruct (Z.eq_dec k 0) as [->|]; [f_equal; lia|].
    exfalso. apply (Hne n); [lia|done].
  - destruct (Z.eq_dec k 0) as [->|]; [by rewrite Z.add_0_r in H0|].
    rewrite (IH (n + 1) (k - 1)); try lia; [f_equal; lia| |].
    + intros i Hi. apply Hne. lia.
    + rewrite <- H0. f_equal. lia.
Qed.

(** * Theorems *)

(** strncmp answers 0 exactly when the two fields hold the same name. *)
Theorem strncmp_same_name m p q n :
  strncmp m p q n = 0 <-> cname (Z.to_nat n) m p = cname (Z.to_nat n) m q.
Proof. apply strncmp_loop_zero. Qed.

(** strncpy copies the name, pads it with NULs to n bytes, and writes nothing
    else. *)
Theorem strncpy_copies m s t n :
  0 <= n -> s + n <= t \/ t + n <= s ->
  cname (Z.to_nat n) (strncpy m s t n) s = cname (Z.to_nat n) m t /\
  (forall i, 0 <= i < n ->
     load8 (strncpy m s t n) (s + i) = padded (cname (Z.to_nat n) m t) i) /\
  (forall a, a < s \/ s + n <= a -> load8 (strncpy m s t n) a = load8 m a).
Proof.
  intros Hn Hd. unfold strncpy.
  assert (Hin : forall x, s <= x < s + n ->
    load8 (strncpy_loop (Z.to_nat n) m s t) x =
    padded (cname (Z.to_nat n) m t) (x - s)).
  { intros x Hx. rewrite load8_strncpy_loop by lia. rewrite Z2Nat.id by done.
    by case_bool; try lia. }
  split_and!.
  - rewrite (cname_padded _ _ _ (cname (Z.to_nat n) m t)).
    + apply take_ge, cname_length.
    + intros x Hx. apply Hin. lia.
    + apply cname_nonzero.
  - intros i Hi. rewrite Hin by lia. f_equal. lia.
  - intros a Ha. rewrite load8_strncpy_loop by lia. case_bool; auto; lia.
Qed.

(** safestrcpy leaves a NUL-terminated prefix of the source in the n-byte
    destination and writes nothing outside it. *)
Theorem safestrcpy_terminates_name m s t n :
  0 < n -> s + n <= t \/ t + n <= s ->
  cname (Z.to_nat n) (safestrcpy m s t n) s =
    take (Z.to_nat (n - 1)) (cname (Z.to_nat n) m t) /\
  (forall a, a < s \/ s + n <= a -> load8 (safestrcpy m s t n) a = load8 m a).
Proof.
  intros Hn Hd. unfold safestrcpy.
  destruct (Z.leb_spec n 0); [lia|]. split.
  - replace (Z.to_nat n) with (S (Z.to_nat (n - 1))) by lia.
    rewrite cname_safestrcpy_loop by lia. apply cname_take. lia.
  - intros a Ha. apply safestrcpy_loop_out. lia.
Qed.

(** strlen returns the offset of the first NUL. *)
Theorem strlen_first_nul fuel m s k :
  0 <= k -> (forall i, 0 <= i < k -> load8 m (s + i) <> 0) ->
  load8 m (s + k) = 0 -> (Z.to_nat k < fuel)%nat ->
  strlen fuel m s = Some k.
Proof.
  intros. unfold strlen. rewrite (strlen_loop_spec fuel m s 0 k); auto.
Qed.
