(* ===== verification/DList.v ===== *)
(** kernel/list.c: the circular doubly linked list whose cells live inside
    the blocks they link ([struct list] of kernel/list.h: [next] at offset 0,
    [prev] at offset 8). *)

From S2P Require Import Prelude Memory.

Definition l_next (m : mem) (e : Z) : Z := load64 m e.
Definition l_prev (m : mem) (e : Z) : Z := load64 m (e + 8).
Definition set_next (m : mem) (e v : Z) : mem := store64 m e v.
Definition set_prev (m : mem) (e v : Z) : mem := store64 m (e + 8) v.

Definition lst_init (m : mem) (lst : Z) : mem :=
  let m := set_next m lst lst in
  set_prev m lst lst.

Definition lst_empty (m : mem) (lst : Z) : bool := l_next m lst =? lst.

Definition lst_remove (m : mem) (e : Z) : mem :=
  let m := set_next m (l_prev m e) (l_next m e) in
  set_prev m (l_next m e) (l_prev m e).

Definition lst_pop (m : mem) (lst : Z) : outcome (Z * mem) :=
  if l_next m lst =? lst then Panic "lst_pop"
  else
    let p := l_next m lst in
    Ok (p, lst_remove m p).

Definition lst_push (m : mem) (lst p : Z) : mem :=
  let e := p in
  let m := set_next m e (l_next m lst) in
  let m := set_prev m e lst in
  let m := set_prev m (l_next m lst) p in
  set_next m lst e.

(** The addresses lst_print prints, in order; [fuel] bounds the walk. *)
Fixpoint lst_print_loop (fuel : nat) (m : mem) (lst p : Z) : option (list Z) :=
  match fuel with
  | O => None
  | S fuel =>
      if p =? lst then Some []
      else match lst_print_loop fuel m lst (l_next m p) with
           | Some out => Some (p :: out)
           | None => None
           end
  end.

Definition lst_print (fuel : nat) (m : mem) (lst : Z) : option (list Z) :=
  lst_print_loop fuel m lst (l_next m lst).

(** * The abstract list *)

(** A cell address: 16-byte aligned and representable. *)
Definition cell (a : Z) : Prop := a mod 16 = 0 /\ 0 <= a < 18446744073709551616.

(** Consecutive cells of [l] point to each other. *)
Fixpoint links (m : mem) (l : list Z) : Prop :=
  match l with
  | a :: (b :: _) as r => l_next m a = b /\ l_prev m b = a /\ links m r
  | _ => True
  end.

(** The list at [lst] holds the elements [xs], in order. *)
Definition dlist (m : mem) (lst : Z) (xs : list Z) : Prop :=
  NoDup (lst :: xs) /\ Forall cell (lst :: xs) /\ links m (lst :: xs ++ [lst]).

(** * Slots *)

Lemma cell_apart a b : cell a -> cell b -> a <> b -> a + 16 <= b \/ b + 16 <= a.
Proof. unfold cell. intros [? ?] [? ?] ?. Z.div_mod_to_equations. lia. Qed.

Lemma l_next_set_next m a b v :
  cell a -> cell b -> 0 <= v < 18446744073709551616 ->
  l_next (set_next m a v) b = if decide (a = b) then v else l_next m b.
Proof.
  intros Ha Hb Hv. unfold l_next, set_next. case_decide as E.
  - subst. by apply load64_store64_eq.
  - apply load64_store64_ne. pose proof (cell_apart a b Ha Hb E). lia.
Qed.

Lemma l_prev_set_prev m a b v :
  cell a -> cell b -> 0 <= v < 18446744073709551616 ->
  l_prev (set_prev m a v) b = if decide (a = b) then v else l_prev m b.
Proof.
  intros Ha Hb Hv. unfold l_prev, set_prev. case_decide as E.
  - subst. by apply load64_store64_eq.
  - apply load64_store64_ne. pose proof (cell_apart a b Ha Hb E). lia.
Qed.

Lemma l_prev_set_next m a b v : cell a -> cell b -> l_prev (set_next m a v) b = l_prev m b.
Proof.
  intros Ha Hb. apply load64_store64_ne.
  destruct (decide (a = b)) as [->|E]; [lia|]. pose proof (cell_apart a b Ha Hb E). lia.
Qed.

Lemma l_next_set_prev m a b v : cell a -> cell b -> l_next (set_prev m a v) b = l_next m b.
Proof.
  intros Ha Hb. apply load64_store64_ne.
  destruct (decide (a = b)) as [->|E]; [lia|]. pose proof (cell_apart a b Ha Hb E). lia.
Qed.

Lemma cell_word a : cell a -> 0 <= a < 18446744073709551616.
Proof. unfold cell. tauto. Qed.
#[export] Hint Resolve cell_word : xv6.

(** * Chains *)

Lemma links_cons m a b r : links m (a :: b :: r) <-> l_next m a = b /\ l_prev m b = a /\ links m (b :: r).
Proof. done. Qed.

Lemma links_app m l1 x l2 : links m (l1 ++ x :: l2) <-> links m (l1 ++ [x]) /\ links m (x :: l2).
Proof.
  induction l1 as [|a l1 IH]; [simpl; tauto|].
  destruct l1 as [|b l1]; [simpl; tauto|].
  change (links m (a :: b :: (l1 ++ x :: l2)) <->
          links m (a :: b :: (l1 ++ [x])) /\ links m (x :: l2)).
  rewrite !links_cons. simpl in IH. rewrite IH. tauto.
Qed.

(** Writing the [next] field of a cell that is no predecessor in the chain,
    or the [prev] field of a cell that is no successor, keeps the chain. *)
Lemma links_set_next m l x a v :
  Forall cell (l ++ [x]) -> cell a -> a ∉ l -> links m (l ++ [x]) -> links (set_next m a v) (l ++ [x]).
Proof.
  intros Hc Ha Hn. induction l as [|b l IH]; [done|].
  simpl in Hc. apply Forall_cons in Hc as [Hb Hc].
  apply not_elem_of_cons in Hn as [Hab Hn].
  specialize (IH Hc Hn).
  destruct l as [|c l]; simpl in *.
  - apply Forall_cons in Hc as [Hx _]. intros (H1 & H2 & _). split_and!; auto.
    + unfold l_next, set_next. rewrite load64_store64_ne; [done|].
      destruct (cell_apart a b); auto; lia.
    + by rewrite l_prev_set_next.
  - apply Forall_cons in Hc as [Hx Hc]. intros (H1 & H2 & H3). split_and!; auto.
    + unfold l_next, set_next. rewrite load64_store64_ne; [done|].
      destruct (cell_apart a b); auto; lia.
    + by rewrite l_prev_set_next.
    + by apply IH.
Qed.

Lemma links_set_prev m x l a v :
  Forall cell (x :: l) -> cell a -> a ∉ l -> links m (x :: l) -> links (set_prev m a v) (x :: l).
Proof.
  intros Hc Ha. revert x Hc. induction l as [|b l IH]; intros x Hc Hn; [done|].
  apply Forall_cons in Hc as [Hx Hc]. pose proof Hc as Hc'.
  apply Forall_cons in Hc' as [Hb _]. apply not_elem_of_cons in Hn as [Hab Hn].
  rewrite !links_cons. intros (H1 & H2 & H3). split_and!; auto.
  - by rewrite l_next_set_prev.
  - unfold l_prev, set_prev. rewrite load64_store64_ne; [done|].
    destruct (cell_apart a b); auto; lia.
Qed.

Lemma links_agree m1 m2 l :
  (forall a x, a ∈ l -> a <= x < a + 16 -> load8 m2 x = load8 m1 x) ->
  links m1 l -> links m2 l.
Proof.
  induction l as [|a l IH]; intros H; [done|].
  destruct l as [|b l]; [done|]. rewrite !links_cons. intros (H1 & H2 & H3).
  split_and!.
  - rewrite <- H1. apply load64_agree. intros y Hy. apply (H a); [left|lia].
  - rewrite <- H2. apply load64_agree. intros y Hy. apply (H b); [right; left|lia].
  - apply IH; [|done]. intros c y Hc Hy. apply (H c); [by right|lia].
Qed.

(** Splicing a cell out of, and into, a chain. *)
Lemma links_unlink m P a e b Q :
  Forall cell (P ++ a :: e :: b :: Q) ->
  a ∉ P -> b ∉ Q -> (b ∉ tail (P ++ [a])) -> (a ∉ removelast (b :: Q)) -> a <> e -> b <> e ->
  links m (P ++ a :: e :: b :: Q) ->
  links (lst_remove m e) (P ++ a :: b :: Q).
Proof.
  intros Hc HaP HbQ HbP HaQ Hae Hbe Hl.
  apply Forall_app in Hc as [HcP Hc].
  apply Forall_cons in Hc as [Hca Hc]. apply Forall_cons in Hc as [Hce Hc].
  apply Forall_cons in Hc as [Hcb Hc].
  apply links_app in Hl as [HP Hl]. rewrite !links_cons in Hl.
  destruct Hl as (H1 & H2 & H3 & H4 & HQ).
  assert (E : lst_remove m e = set_prev (set_next m a b) b a).
  { unfold lst_remove. rewrite H2, H3, l_prev_set_next, H2 by done.
    rewrite l_next_set_next by auto with xv6. case_decide; [done|]. by rewrite H3. }
  rewrite E. clear E. apply links_app. rewrite links_cons. split_and!.
  - destruct P as [|p P]; [done|]. simpl in *. apply links_set_prev; auto.
    + apply Forall_cons in HcP as [? ?]. constructor; auto.
      apply Forall_app. auto.
    + apply (links_set_next _ (p :: P)); auto.
      simpl. apply Forall_cons in HcP as [? ?]. constructor; auto.
      apply Forall_app. auto.
  - rewrite l_next_set_prev by done. rewrite l_next_set_next by auto with xv6.
    by case_decide.
  - rewrite l_prev_set_prev by auto with xv6. by case_decide.
  - apply links_set_prev; auto.
    destruct Q as [|q Q] using rev_ind; [done|].
    clear IHQ. rewrite app_comm_cons in *.
    rewrite removelast_last in HaQ. apply links_set_next; auto.
    simpl. constructor; auto.
Qed.

Lemma links_link m a p b Q :
  Forall cell (a :: b :: Q) -> cell p -> p ∉ (a :: b :: Q) ->
  a ∉ removelast (b :: Q) -> b ∉ Q ->
  links m (a :: b :: Q) -> links (lst_push m a p) (a :: p :: b :: Q).
Proof.
  intros Hc Hp Hn HaQ HbQ (H1 & H2 & HQ).
  apply Forall_cons in Hc as [Ha Hc]. pose proof Hc as HcQ.
  apply Forall_cons in Hc as [Hb Hc].
  assert (p <> a /\ p <> b) as [Hpa Hpb] by set_solver.
  assert (E : lst_push m a p =
              set_next (set_prev (set_prev (set_next m p b) p a) b p) a p).
  { unfold lst_push. rewrite H1. rewrite l_next_set_prev by done.
    rewrite l_next_set_next by auto with xv6. case_decide; [done|]. by rewrite H1. }
  rewrite E. clear E. rewrite !links_cons.
  rewrite !l_prev_set_next, !l_next_set_next, !l_next_set_prev by auto with xv6.
  rewrite !l_next_set_next, !l_prev_set_prev by auto with xv6.
  repeat case_decide; try congruence. split_and!; auto.
  destruct Q as [|q Q _] using rev_ind; [done|].
  rewrite app_comm_cons in *. rewrite removelast_last in HaQ.
  apply links_set_next; auto.
  apply (links_set_prev _ b (Q ++ [q])); auto.
  apply (links_set_prev _ b (Q ++ [q])); auto; [set_solver|].
  apply (links_set_next _ (b :: Q)); auto. set_solver.
Qed.

(** * Theorems *)

Lemma dlist_head_notin m lst xs : dlist m lst xs -> lst ∉ xs.
Proof. intros (H & _). by apply NoDup_cons in H as [? _]. Qed.

(** lst_init makes an empty list. *)
Theorem lst_init_empty m lst : cell lst -> dlist (lst_init m lst) lst [].
Proof.
  intros Hc. unfold lst_init. split_and!.
  - apply NoDup_singleton.
  - auto.
  - simpl. rewrite l_next_set_prev, l_next_set_next, l_prev_set_prev by auto with xv6.
    by repeat case_decide.
Qed.

(** lst_empty answers whether the list has no element. *)
Theorem lst_empty_nil m lst xs : dlist m lst xs -> lst_empty m lst = bool_decide (xs = []).
Proof.
  intros Hd. pose proof (dlist_head_notin _ _ _ Hd) as Hn.
  destruct Hd as (_ & _ & Hl). unfold lst_empty.
  destruct xs as [|x xs]; simpl in Hl.
  - destruct Hl as (-> & _). by rewrite Z.eqb_refl.
  - destruct Hl as (-> & _). rewrite bool_decide_eq_false_2 by done.
    apply Z.eqb_neq. set_solver.
Qed.

(** lst_push puts the block at the front. *)
Theorem lst_push_cons m lst xs p :
  dlist m lst xs -> cell p -> p ∉ (lst :: xs) -> dlist (lst_push m lst p) lst (p :: xs).
Proof.
  intros Hd Hp Hn. pose proof (dlist_head_notin _ _ _ Hd) as Hh.
  destruct Hd as (Hnd & Hc & Hl). apply NoDup_cons in Hnd as [_ Hnd].
  apply Forall_cons in Hc as [Hcl Hc]. split_and!.
  - repeat constructor; set_solver.
  - auto.
  - destruct xs as [|b Q]; simpl in *.
    + apply (links_link m lst p lst []); auto; set_solver.
    + apply Forall_cons in Hc as [Hb Hc]. apply NoDup_cons in Hnd as [Hbq Hnd].
      apply (links_link m lst p b (Q ++ [lst])); auto.
      * do 2 (apply Forall_cons; split; [done|]). apply Forall_app; auto.
      * set_solver.
      * rewrite app_comm_cons, removelast_last. set_solver.
      * set_solver.
Qed.

(** The cell before, and the cell after, a position of a circular chain. *)
Lemma chain_pred (lst : Z) xs :
  NoDup (lst :: xs) ->
  exists P a, (lst :: xs) = P ++ [a] /\ a ∉ P /\ tail (P ++ [a]) = xs.
Proof.
  intros Hn. exists (removelast (lst :: xs)), (List.last (lst :: xs) lst).
  rewrite <- app_removelast_last by done. split_and!; [done| |done].
  rewrite (app_removelast_last (l := lst :: xs) lst) in Hn by done.
  apply NoDup_app in Hn as (_ & Hn & _). intros Hin. apply (Hn _ Hin). set_solver.
Qed.

Lemma chain_succ (lst : Z) ys :
  NoDup (ys ++ [lst]) ->
  exists b Q, ys ++ [lst] = (b :: Q) /\ b ∉ Q /\ removelast (b :: Q) = ys.
Proof.
  intros Hn. destruct ys as [|y ys]; simpl in *; [exists lst, []; set_solver|].
  exists y, (ys ++ [lst]). apply NoDup_cons in Hn as [? _]. split_and!; auto.
  apply (removelast_last (y :: ys)).
Qed.

(** lst_remove takes the element out, wherever it is. *)
Theorem lst_remove_middle m lst xs e ys :
  dlist m lst (xs ++ e :: ys) -> dlist (lst_remove m e) lst (xs ++ ys).
Proof.
  intros (Hnd & Hc & Hl).
  assert (Hs : (lst :: xs ++ ys) `sublist_of` (lst :: xs ++ e :: ys)).
  { apply sublist_skip, sublist_app; [done|]. by apply sublist_cons. }
  split_and!; [by eapply sublist_NoDup| |].
  { apply Forall_forall. intros x Hx. eapply Forall_forall; [exact Hc|].
    set_solver. }
  assert (Hlx : NoDup (lst :: xs) /\ NoDup (ys ++ [lst]) /\ e ∉ (lst :: xs) /\
                e ∉ (ys ++ [lst]) /\ (forall x, x ∈ xs -> x ∉ ys) /\ lst ∉ xs /\ lst ∉ ys).
  { rewrite NoDup_cons, NoDup_app, NoDup_cons in Hnd.
    rewrite NoDup_cons, NoDup_app. set_solver by (eauto using NoDup_singleton). }
  destruct Hlx as (Hx & Hy & Hex & Hey & Hxy & Hlx & Hly).
  destruct (chain_pred _ _ Hx) as (P & a & EP & HaP & HtP).
  destruct (chain_succ _ _ Hy) as (b & Q & EQ & HbQ & HrQ).
  assert (Ha : a ∈ (lst :: xs)) by (rewrite EP; set_solver).
  assert (Hb : b ∈ (ys ++ [lst])) by (rewrite EQ; set_solver).
  replace (lst :: (xs ++ e :: ys) ++ [lst]) with (P ++ a :: e :: b :: Q) in Hl
    by (rewrite (cons_middle a), app_assoc, <- EP, <- EQ; simpl; by rewrite <- app_assoc).
  replace (lst :: (xs ++ ys) ++ [lst]) with (P ++ a :: b :: Q)
    by (rewrite (cons_middle a), app_assoc, <- EP, <- EQ; simpl; by rewrite <- app_assoc).
  apply links_unlink; auto; [..|set_solver|set_solver].
  - apply Forall_forall. intros x Hin. eapply Forall_forall; [exact Hc|].
    assert (P ⊆ (lst :: xs)) by (rewrite EP; set_solver).
    assert (Q ⊆ (ys ++ [lst])) by (rewrite EQ; set_solver).
    set_solver.
  - rewrite HtP. set_solver.
  - rewrite HrQ. set_solver.
Qed.

(** lst_pop returns the first element and removes it, and panics exactly on
    the empty list. *)
Theorem lst_pop_spec m lst xs :
  dlist m lst xs ->
  match xs with
  | [] => lst_pop m lst = Panic "lst_pop"
  | x :: xs' => exists m', lst_pop m lst = Ok (x, m') /\ dlist m' lst xs'
  end.
Proof.
  intros Hd. pose proof (lst_empty_nil _ _ _ Hd) as He.
  unfold lst_empty in He. unfold lst_pop. destruct xs as [|x xs].
  - by rewrite He.
  - rewrite He. simpl. assert (l_next m lst = x) as -> by (by destruct Hd as (_ & _ & ? & _)).
    eexists. split; [done|]. by apply (lst_remove_middle m lst [] x xs).
Qed.

Lemma lst_print_loop_links fuel m lst p xs :
  lst ∉ (p :: xs) -> (length xs < fuel)%nat -> links m (p :: xs ++ [lst]) ->
  lst_print_loop (S fuel) m lst p = Some (p :: xs).
Proof.
  revert fuel p. induction xs as [|x xs IH]; intros fuel p Hn Hf Hl;
    cbn [lst_print_loop]; (destruct (Z.eqb_spec p lst); [set_solver|]).
  - destruct Hl as (-> & _). destruct fuel; [simpl in *; lia|].
    cbn [lst_print_loop]. by rewrite Z.eqb_refl.
  - destruct Hl as (-> & _ & Hl). destruct fuel as [|fuel]; [simpl in *; lia|].
    rewrite (IH fuel); auto; [set_solver|simpl in *; lia].
Qed.

(** lst_print walks exactly the elements and stops. *)
Theorem lst_print_elements m lst xs fuel :
  dlist m lst xs -> (length xs < fuel)%nat -> lst_print fuel m lst = Some xs.
Proof.
  intros Hd Hf. pose proof (dlist_head_notin _ _ _ Hd) as Hn.
  destruct Hd as (_ & _ & Hl). unfold lst_print.
  destruct fuel as [|fuel]; [lia|]. destruct xs as [|x xs].
  - simpl in Hl. destruct Hl as (-> & _). simpl. by rewrite Z.eqb_refl.
  - destruct Hl as (-> & _ & Hl). apply lst_print_loop_links; auto. simpl in Hf. lia.
Qed.

(** Writes that leave the cells of a list alone keep the list. *)
Lemma dlist_agree m1 m2 lst xs :
  (forall a x, a ∈ (lst :: xs) -> a <= x < a + 16 -> load8 m2 x = load8 m1 x) ->
  dlist m1 lst xs -> dlist m2 lst xs.
Proof.
  intros H (Hn & Hc & Hl). split_and!; auto.
  eapply links_agree; [|exact Hl]. intros a x Ha. apply H. set_solver.
Qed.
