(* ===== verification/Buddy.v ===== *)
(** kernel/buddy.c: the buddy allocator, over the byte memory that holds its
    data structures (the array of [struct sz_info], 32 bytes each, and the bit
    vectors) and, in the free blocks, the cells of its free lists.

    Pointer differences and indices are truncated to int where the code does
    so.  printf and the lock are left out: every operation runs under the
    lock. *)

From S2P Require Import Prelude Memory DList.

Record bd := mk_bd { nsizes : nat; bd_base : Z; bd_sizes : Z; bd_mem : mem }.

Definition upd_bmem (f : mem -> mem) (s : bd) : bd := mk_bd (nsizes s) (bd_base s) (bd_sizes s) (f (bd_mem s)).

Definition LEAF_SIZE : Z := 16.
Definition MAXSIZE (s : bd) : nat := (nsizes s - 1)%nat.
Definition BLK_SIZE (k : nat) : Z := Z.shiftl 1 (Z.of_nat k) * LEAF_SIZE.
Definition NBLK (s : bd) (k : nat) : Z := Z.shiftl 1 (Z.of_nat (MAXSIZE s - k)).
Definition ROUNDUP (n sz : Z) : Z := ((n - 1) / sz + 1) * sz.

(** &bd_sizes[k].free, bd_sizes[k].alloc, bd_sizes[k].split *)
Definition sizeof_sz_info : Z := 32.
Definition sz_free (s : bd) (k : nat) : Z := bd_sizes s + sizeof_sz_info * Z.of_nat k.
Definition sz_alloc (s : bd) (k : nat) : Z := load64 (bd_mem s) (sz_free s k + 16).
Definition sz_split (s : bd) (k : nat) : Z := load64 (bd_mem s) (sz_free s k + 24).

(** ** Bit vectors *)

Definition bit_isset (m : mem) (array index : Z) : bool :=
  let b := load8 m (array + index / 8) in
  let x := u8 (Z.shiftl 1 (index mod 8)) in
  Z.land b x =? x.

Definition bit_set (m : mem) (array index : Z) : mem :=
  let b := load8 m (array + index / 8) in
  let x := u8 (Z.shiftl 1 (index mod 8)) in
  store8 m (array + index / 8) (Z.lor b x).

Definition bit_clear (m : mem) (array index : Z) : mem :=
  let b := load8 m (array + index / 8) in
  let x := u8 (Z.shiftl 1 (index mod 8)) in
  store8 m (array + index / 8) (Z.land b (Z.lnot x)).

(** The ranges that bd_print_vector prints. *)
Fixpoint print_vector_loop (f : nat) (m : mem) (vector b lb : Z) (last : bool) : list (Z * Z) * Z * bool :=
  match f with
  | O => ([], lb, last)
  | S f =>
      let x := bit_isset m vector b in
      if Bool.eqb last x then print_vector_loop f m vector (b + 1) lb last
      else
        let r := print_vector_loop f m vector (b + 1) b x in
        ((if last then [(lb, b)] else []) ++ r.1.1, r.1.2, r.2)
  end.

Definition bd_print_vector (m : mem) (vector len : Z) : list (Z * Z) :=
  let r := print_vector_loop (Z.to_nat len) m vector 0 0 true in
  r.1.1 ++ (if (r.1.2 =? 0) || r.2 then [(r.1.2, len)] else []).

(** ** Sizes and addresses *)

(** while(size < n); the loop does not end when [n] is above 2^63, where size
    wraps to 0. *)
Fixpoint firstk_loop (fuel : nat) (k : nat) (size n : Z) : option nat :=
  match fuel with
  | O => None
  | S fuel => if size <? n then firstk_loop fuel (S k) (u64 (size * 2)) n else Some k
  end.

Definition firstk (n : Z) : option nat := firstk_loop 61 0 LEAF_SIZE n.

Definition blk_index (s : bd) (k : nat) (p : Z) : Z := s32 (Z.quot (s32 (p - bd_base s)) (BLK_SIZE k)).

Definition addr (s : bd) (k : nat) (bi : Z) : Z := bd_base s + s32 (bi * BLK_SIZE k).

Definition blk_index_next (s : bd) (k : nat) (p : Z) : Z :=
  let n := s32 (Z.quot (p - bd_base s) (BLK_SIZE k)) in
  if negb (Z.rem (p - bd_base s) (BLK_SIZE k) =? 0) then s32 (n + 1) else n.

(** while(n > 1), for a 64-bit [n] *)
Fixpoint log2_loop (fuel : nat) (k : nat) (n : Z) : nat :=
  match fuel with
  | O => k
  | S fuel => if 1 <? n then log2_loop fuel (S k) (Z.shiftr n 1) else k
  end.

Definition _log2 (n : Z) : nat := log2_loop 64 0 n.

(** ** bd_malloc *)

Definition bset (array : bd -> Z) (i : bd -> Z) : M bd unit := modify (fun s => upd_bmem (fun m => bit_set m (array s) (i s)) s).
Definition bclear (array : bd -> Z) (i : bd -> Z) : M bd unit := modify (fun s => upd_bmem (fun m => bit_clear m (array s) (i s)) s).
Definition push_free (k : nat) (p : Z) : M bd unit := modify (fun s => upd_bmem (fun m => lst_push m (sz_free s k) p) s).

Definition pop_free (k : nat) : M bd Z := fun s =>
  match lst_pop (bd_mem s) (sz_free s k) with
  | Ok (p, m) => Ok (p, upd_bmem (fun _ => m) s)
  | Panic msg => Panic msg
  end.

(** for(k = fk; k < nsizes; k++) if(!lst_empty(&bd_sizes[k].free)) break; *)
Fixpoint find_size (f : nat) (s : bd) (k : nat) : option nat :=
  match f with
  | O => None
  | S f => if negb (lst_empty (bd_mem s) (sz_free s k)) then Some k else find_size f s (S k)
  end.

(** for(; k > fk; k--), [d] iterations from size [fk + d] on *)
Fixpoint split_loop (d fk : nat) (p : Z) : M bd unit :=
  match d with
  | O => mret tt
  | S d =>
      let k := (fk + S d)%nat in
      let q := p + BLK_SIZE (k - 1) in
      bset (fun s => sz_split s k) (fun s => blk_index s k p);;
      bset (fun s => sz_alloc s (k - 1)) (fun s => blk_index s (k - 1) p);;
      push_free (k - 1) q;;
      split_loop d fk p
  end.

Definition bd_malloc (nbytes : Z) : M bd Z :=
  s ← gets id;
  match firstk nbytes with
  | None => panic "out of fuel"
  | Some fk =>
      match find_size (nsizes s - fk) s fk with
      | None => mret 0
      | Some k =>
          p ← pop_free k;
          bset (fun s => sz_alloc s k) (fun s => blk_index s k p);;
          split_loop (k - fk) fk p;;
          mret p
      end
  end.

(** ** bd_free *)

(** size() *)
Fixpoint size_loop (f : nat) (s : bd) (k : nat) (p : Z) : nat :=
  match f with
  | O => 0%nat
  | S f => if bit_isset (bd_mem s) (sz_split s (S k)) (blk_index s (S k) p) then k else size_loop f s (S k) p
  end.

Definition size_ (s : bd) (p : Z) : nat := size_loop (nsizes s) s 0 p.

Definition buddy_of (bi : Z) : Z := if Z.rem bi 2 =? 0 then bi + 1 else bi - 1.

(** for(; k < MAXSIZE; k++), [f] iterations at most *)
Fixpoint free_loop (f : nat) (k : nat) (p : Z) : M bd (nat * Z) :=
  match f with
  | O => mret (k, p)
  | S f =>
      bi ← gets (fun s => blk_index s k p);
      let buddy := buddy_of bi in
      bclear (fun s => sz_alloc s k) (fun _ => bi);;
      taken ← gets (fun s => bit_isset (bd_mem s) (sz_alloc s k) buddy);
      if (taken : bool) then mret (k, p)
      else
        q ← gets (fun s => addr s k buddy);
        modify (upd_bmem (fun m => lst_remove m q));;
        let p := if Z.rem buddy 2 =? 0 then q else p in
        bclear (fun s => sz_split s (S k)) (fun s => blk_index s (S k) p);;
        free_loop f (S k) p
  end.

Definition bd_free (p : Z) : M bd unit :=
  s ← gets id;
  let k := size_ s p in
  r ← free_loop (MAXSIZE s - k) k p;
  push_free r.1 r.2.

(** ** bd_init *)

Fixpoint mark_blocks (n : nat) (k : nat) (bi : Z) : M bd unit :=
  match n with
  | O => mret tt
  | S n =>
      (if (0 <? k)%nat then bset (fun s => sz_split s k) (fun _ => bi) else mret tt);;
      bset (fun s => sz_alloc s k) (fun _ => bi);;
      mark_blocks n k (bi + 1)
  end.

Fixpoint mark_sizes (f : nat) (k : nat) (start stop : Z) : M bd unit :=
  match f with
  | O => mret tt
  | S f =>
      bi ← gets (fun s => blk_index s k start);
      bj ← gets (fun s => blk_index_next s k stop);
      mark_blocks (Z.to_nat (bj - bi)) k bi;;
      mark_sizes f (S k) start stop
  end.

(** Mark memory from [start, stop), starting at size 0, as allocated. *)
Definition bd_mark (start stop : Z) : M bd unit :=
  if negb (start mod LEAF_SIZE =? 0) || negb (stop mod LEAF_SIZE =? 0) then panic "bd_mark"
  else
    n ← gets nsizes;
    mark_sizes n 0 start stop.

(** If a block is marked as allocated and the buddy is free, put the buddy on
    the free list at size k. *)
Definition bd_initfree_pair (k : nat) (bi : Z) : M bd Z :=
  let buddy := buddy_of bi in
  a ← gets (fun s => bit_isset (bd_mem s) (sz_alloc s k) bi);
  b ← gets (fun s => bit_isset (bd_mem s) (sz_alloc s k) buddy);
  if negb (Bool.eqb a b) then
    q ← gets (fun s => addr s k (if (a : bool) then buddy else bi));
    push_free k q;;
    mret (s32 (BLK_SIZE k))
  else mret 0.

Fixpoint initfree_loop (f : nat) (k : nat) (bd_left bd_right free : Z) : M bd Z :=
  match f with
  | O => mret free
  | S f =>
      left ← gets (fun s => blk_index_next s k bd_left);
      right ← gets (fun s => blk_index s k bd_right);
      x ← bd_initfree_pair k left;
      let free := s32 (free + x) in
      if right <=? left then initfree_loop f (S k) bd_left bd_right free
      else
        y ← bd_initfree_pair k right;
        initfree_loop f (S k) bd_left bd_right (s32 (free + y))
  end.

Definition bd_initfree (bd_left bd_right : Z) : M bd Z :=
  n ← gets MAXSIZE;
  initfree_loop n 0 bd_left bd_right 0.

(** Mark the range [bd_base,p) as allocated *)
Definition bd_mark_data_structures (p : Z) : M bd Z :=
  base ← gets bd_base;
  bd_mark base p;;
  mret (s32 (p - base)).

(** Mark the range [end, HEAPSIZE) as allocated *)
Definition bd_mark_unavailable (end_ : Z) : M bd Z :=
  base ← gets bd_base;
  heap ← gets (fun s => BLK_SIZE (MAXSIZE s));
  let unavailable := s32 (heap - (end_ - base)) in
  let unavailable := if 0 <? unavailable then s32 (ROUNDUP unavailable LEAF_SIZE) else unavailable in
  bd_mark (base + heap - unavailable) (base + heap);;
  mret unavailable.

(** The bytes of a bit vector for the blocks of size k. *)
Definition vector_bytes (s : bd) (k : nat) : Z := ROUNDUP (NBLK s k) 8 / 8.

(** Empty free lists, and the alloc array of each size from p on. *)
Fixpoint alloc_arrays (f : nat) (k : nat) (p : Z) : M bd Z :=
  match f with
  | O => mret p
  | S f =>
      modify (fun s => upd_bmem (fun m => lst_init m (sz_free s k)) s);;
      sz ← gets (fun s => vector_bytes s k);
      modify (fun s => upd_bmem (fun m => store64 m (sz_free s k + 16) p) s);;
      modify (upd_bmem (fun m => memset m p 0 sz));;
      alloc_arrays f (S k) (p + sz)
  end.

Fixpoint split_arrays (f : nat) (k : nat) (p : Z) : M bd Z :=
  match f with
  | O => mret p
  | S f =>
      sz ← gets (fun s => vector_bytes s k);
      modify (fun s => upd_bmem (fun m => store64 m (sz_free s k + 24) p) s);;
      modify (upd_bmem (fun m => memset m p 0 sz));;
      split_arrays f (S k) (p + sz)
  end.

(** The number of sizes for [n] bytes. *)
Definition count_sizes (n : Z) : nat :=
  let nsizes := S (_log2 (n / LEAF_SIZE)) in
  if BLK_SIZE (nsizes - 1) <? n then S nsizes else nsizes.

(** Initialize the buddy allocator: it manages memory from [base, end). *)
Definition bd_init (base end_ : Z) : M bd unit :=
  let p := ROUNDUP base LEAF_SIZE in
  let n := count_sizes (end_ - p) in
  modify (fun s => mk_bd n p p (bd_mem s));;
  modify (upd_bmem (fun m => memset m p 0 (sizeof_sz_info * Z.of_nat n)));;
  let p := p + sizeof_sz_info * Z.of_nat n in
  p ← alloc_arrays n 0 p;
  p ← split_arrays (n - 1) 1 p;
  let p := ROUNDUP p LEAF_SIZE in
  meta ← bd_mark_data_structures p;
  unavailable ← bd_mark_unavailable end_;
  heap ← gets (fun s => BLK_SIZE (MAXSIZE s));
  b ← gets bd_base;
  free ← bd_initfree p (b + heap - unavailable);
  if negb (free =? heap - meta - unavailable) then panic "bd_init: free mem" else mret tt.
