(* ===== verification/BuddyRep.v ===== *)
(** What the buddy allocator keeps in memory: its bit vectors and its free
    lists as abstract bits and lists, and how the primitive operations change
    them. *)

From S2P Require Import Prelude Memory DList Buddy.

(** ** Bits *)

Lemma mask_u8 i : u8 (Z.shiftl 1 (i mod 8)) = 2 ^ (i mod 8).
Proof.
  rewrite Z.shiftl_1_l. apply u8_small. pose proof (Z.mod_pos_bound i 8 ltac:(lia)). split; [lia|]. change 256 with (2 ^ 8). apply Z.pow_lt_mono_r; lia.
Qed.

Lemma land_pow2 b j : 0 <= j -> (Z.land b (2 ^ j) =? 2 ^ j) = Z.testbit b j.
Proof.
  intros Hj. assert (E : Z.land b (2 ^ j) = if Z.testbit b j then 2 ^ j else 0).
  { apply Z.bits_inj'. intros n Hn. rewrite Z.land_spec, Z.pow2_bits_eqb by done. destruct (Z.eqb_spec j n) as [->|Hne].
    - destruct (Z.testbit b n); [by rewrite Z.pow2_bits_true|by rewrite Z.bits_0].
    - rewrite andb_false_r. destruct (Z.testbit b j); [by rewrite Z.pow2_bits_false|by rewrite Z.bits_0]. }
  rewrite E. destruct (Z.testbit b j); [apply Z.eqb_refl|]. apply Z.eqb_neq. pose proof (Z.pow_pos_nonneg 2 j). lia.
Qed.

Lemma bit_isset_testbit m a i : bit_isset m a i = Z.testbit (load8 m (a + i / 8)) (i mod 8).
Proof. unfold bit_isset. rewrite mask_u8. apply land_pow2. pose proof (Z.mod_pos_bound i 8 ltac:(lia)). lia. Qed.

Lemma u8_bit v j : 0 <= j < 8 -> Z.testbit (u8 v) j = Z.testbit v j.
Proof. intros Hj. unfold u8. change 256 with (2 ^ 8). by rewrite Z.mod_pow2_bits_low by lia. Qed.

Lemma bit_change m a i j v w :
  load8 m (a + i / 8) = v -> (forall n, 0 <= n < 8 -> n <> i mod 8 -> Z.testbit w n = Z.testbit v n) ->
  bit_isset (store8 m (a + i / 8) w) a j = if decide (i = j) then Z.testbit w (i mod 8) else bit_isset m a j.
Proof.
  intros Hv Hw. rewrite !bit_isset_testbit. pose proof (Z.mod_pos_bound i 8 ltac:(lia)). pose proof (Z.mod_pos_bound j 8 ltac:(lia)). destruct (decide (i = j)) as [->|Hne].
  - rewrite load8_store8_eq. by apply u8_bit.
  - destruct (decide (i / 8 = j / 8)) as [E|Hd]; [|by rewrite load8_store8_ne by lia]. rewrite E, load8_store8_eq. rewrite u8_bit by done. rewrite <- E, Hv. apply Hw; [done|]. intros E'. apply Hne. rewrite (Z.div_mod i 8), (Z.div_mod j 8) by lia. lia.
Qed.

Lemma bit_set_isset m a i j : bit_isset (bit_set m a i) a j = if decide (i = j) then true else bit_isset m a j.
Proof.
  pose proof (Z.mod_pos_bound i 8 ltac:(lia)). unfold bit_set. rewrite mask_u8. erewrite bit_change; [|done|].
  - destruct (decide (i = j)); [|done]. rewrite Z.lor_spec, Z.pow2_bits_true by lia. apply orb_true_r.
  - intros n Hn Hne. rewrite Z.lor_spec, Z.pow2_bits_false by lia. apply orb_false_r.
Qed.

Lemma bit_clear_isset m a i j : bit_isset (bit_clear m a i) a j = if decide (i = j) then false else bit_isset m a j.
Proof.
  pose proof (Z.mod_pos_bound i 8 ltac:(lia)). unfold bit_clear. rewrite mask_u8. erewrite bit_change; [|done|].
  - destruct (decide (i = j)); [|done]. rewrite Z.land_spec, Z.lnot_spec, Z.pow2_bits_true by lia. apply andb_false_r.
  - intros n Hn Hne. rewrite Z.land_spec, Z.lnot_spec, Z.pow2_bits_false by lia. apply andb_true_r.
Qed.

Lemma bit_set_out m a i x : x <> a + i / 8 -> load8 (bit_set m a i) x = load8 m x.
Proof. intros Hx. unfold bit_set. by apply load8_store8_ne. Qed.

Lemma bit_clear_out m a i x : x <> a + i / 8 -> load8 (bit_clear m a i) x = load8 m x.
Proof. intros Hx. unfold bit_clear. by apply load8_store8_ne. Qed.

Lemma bit_agree m m' a i : load8 m' (a + i / 8) = load8 m (a + i / 8) -> bit_isset m' a i = bit_isset m a i.
Proof. intros E. by rewrite !bit_isset_testbit, E. Qed.

(** ** Lists *)

(** The address [x] is in none of the cells. *)
Definition off_cells (x : Z) (l : list Z) : Prop := forall a, a ∈ l -> x < a \/ a + 16 <= x.

Lemma dlist_next m lst xs : dlist m lst xs -> l_next m lst ∈ lst :: xs.
Proof. intros (_ & _ & Hl). destruct xs as [|b xs]; destruct Hl as (-> & _); [by left|by right; left]. Qed.

Lemma lst_push_frame m lst xs p x : dlist m lst xs -> cell p -> p <> lst -> off_cells x (p :: lst :: xs) -> load8 (lst_push m lst p) x = load8 m x.
Proof.
  intros Hd Hp Hne Hx. assert (Hl : cell lst) by (destruct Hd as (_ & Hc & _); by apply Forall_cons in Hc as [? _]).
  assert (H1 : x < p \/ p + 16 <= x) by (apply Hx; by left). assert (H2 : x < lst \/ lst + 16 <= x) by (apply Hx; by right; left).
  assert (Hn : x < l_next m lst \/ l_next m lst + 16 <= x) by (apply Hx; right; by apply dlist_next). unfold lst_push.
  assert (E : l_next (set_prev (set_next m p (l_next m lst)) p lst) lst = l_next m lst).
  { rewrite l_next_set_prev by done. unfold l_next at 1, set_next. pose proof (cell_apart p lst Hp Hl Hne). apply load64_store64_ne. lia. }
  rewrite E. unfold set_next, set_prev. rewrite !load8_store64_ne by lia. done.
Qed.

(** The neighbours of an element. *)
Lemma dlist_around m lst xs e ys : dlist m lst (xs ++ e :: ys) -> l_prev m e ∈ lst :: xs /\ l_next m e ∈ ys ++ [lst].
Proof.
  intros (Hn & _ & Hl). destruct (chain_pred lst xs) as (P & a & EP & _ & _).
  { rewrite NoDup_cons, NoDup_app in Hn. apply NoDup_cons. set_solver. }
  replace (lst :: (xs ++ e :: ys) ++ [lst]) with (P ++ a :: e :: (ys ++ [lst])) in Hl by (rewrite (cons_middle a), app_assoc, <- EP; simpl; by rewrite <- app_assoc).
  apply links_app in Hl as [_ Hl]. rewrite links_cons in Hl. destruct Hl as (_ & H2 & Hl). split; [rewrite H2, EP; set_solver|].
  destruct ys as [|y ys]; cbn in Hl; destruct Hl as (-> & _); set_solver.
Qed.

Lemma lst_remove_frame m lst xs e ys x : dlist m lst (xs ++ e :: ys) -> off_cells x (lst :: xs ++ e :: ys) -> load8 (lst_remove m e) x = load8 m x.
Proof.
  intros Hd Hx. destruct (dlist_around _ _ _ _ _ Hd) as [Hp Hn]. destruct Hd as (Hnd & Hc & _). assert (Hcell : forall a, a ∈ lst :: xs ++ e :: ys -> cell a) by (by apply Forall_forall).
  assert (He : l_prev m e <> e) by (intros E; rewrite E in Hp; rewrite NoDup_cons, NoDup_app in Hnd; set_solver).
  assert (E : l_next (set_next m (l_prev m e) (l_next m e)) e = l_next m e).
  { unfold l_next at 1, set_next. assert (cell (l_prev m e) /\ cell e) as [C1 C2] by (split; apply Hcell; set_solver). pose proof (cell_apart _ _ C1 C2 He). apply load64_store64_ne. lia. }
  assert (H1 : x < l_prev m e \/ l_prev m e + 16 <= x) by (apply Hx; set_solver). assert (H2 : x < l_next m e \/ l_next m e + 16 <= x) by (apply Hx; set_solver).
  unfold lst_remove. rewrite E. unfold set_next, set_prev. rewrite !load8_store64_ne by lia. done.
Qed.

Lemma lst_pop_run m lst x xs : dlist m lst (x :: xs) -> lst_pop m lst = Ok (x, lst_remove m x).
Proof.
  intros Hd. pose proof (lst_empty_nil _ _ _ Hd) as He. unfold lst_empty in He. unfold lst_pop. rewrite He. rewrite bool_decide_eq_false_2 by done. destruct Hd as (_ & _ & Hl). by destruct Hl as (-> & _).
Qed.

(** ** The representation *)

Definition pow (n : nat) : Z := 2 ^ Z.of_nat n.

Lemma pow_pos n : 0 < pow n.
Proof. unfold pow. apply Z.pow_pos_nonneg; lia. Qed.

Lemma pow_S n : pow (S n) = 2 * pow n.
Proof. unfold pow. rewrite Nat2Z.inj_succ, Z.pow_succ_r by lia. done. Qed.

Lemma pow_add a b : pow (a + b) = pow a * pow b.
Proof. unfold pow. rewrite Nat2Z.inj_add, Z.pow_add_r by lia. done. Qed.

Lemma BLK_SIZE_pow k : BLK_SIZE k = pow k * 16.
Proof. unfold BLK_SIZE, LEAF_SIZE. rewrite Z.shiftl_1_l. done. Qed.

(** Where things are: [N] sizes, the heap from [base] on, the bit vectors at
    [pos] (the alloc vector of size k at [pos true k], the split vector at
    [pos false k]), all of it before [meta]. *)
Definition vec (N : nat) (a : bool) (k : nat) : Prop := (k < N)%nat /\ (a = false -> (1 <= k)%nat).
Definition nblocks (N k : nat) : Z := pow (N - 1 - k).
Definition heap_size (N : nat) : Z := pow (N - 1) * 16.

Record geometry (N : nat) (base meta : Z) (pos : bool -> nat -> Z) : Prop := {
  ge_sizes : (1 <= N <= 28)%nat;
  ge_base : 0 < base /\ base mod 16 = 0 /\ base + heap_size N <= 9223372036854775808;
  ge_meta : meta mod 16 = 0 /\ base < meta <= base + heap_size N;
  ge_vec a k : vec N a k -> base + 32 * Z.of_nat N <= pos a k /\ pos a k + (nblocks N k + 7) / 8 <= meta;
  ge_disj a k a' k' : vec N a k -> vec N a' k' -> (a, k) <> (a', k') ->
    pos a k + (nblocks N k + 7) / 8 <= pos a' k' \/ pos a' k' + (nblocks N k' + 7) / 8 <= pos a k;
}.

Record rep (N : nat) (base meta : Z) (pos : bool -> nat -> Z) (s : bd) (B : bool -> nat -> Z -> bool) (F : nat -> list Z) : Prop := {
  rp_globals : nsizes s = N /\ bd_base s = base /\ bd_sizes s = base;
  rp_alloc k : (k < N)%nat -> sz_alloc s k = pos true k;
  rp_split k : (1 <= k < N)%nat -> sz_split s k = pos false k;
  rp_bits a k i : vec N a k -> 0 <= i < nblocks N k -> bit_isset (bd_mem s) (pos a k) i = B a k i;
  rp_list k : (k < N)%nat -> dlist (bd_mem s) (sz_free s k) (F k);
  rp_cells k p : (k < N)%nat -> p ∈ F k -> meta <= p < base + heap_size N;
  rp_apart k k' p : (k < N)%nat -> (k' < N)%nat -> p ∈ F k -> p ∈ F k' -> k = k';
}.

Definition upB (B : bool -> nat -> Z -> bool) a k i v : bool -> nat -> Z -> bool := fun a' k' i' => if decide (a = a' /\ k = k' /\ i = i') then v else B a' k' i'.
Definition upF (F : nat -> list Z) k l : nat -> list Z := fun k' => if decide (k = k') then l else F k'.

Section rep.
Context (N : nat) (base meta : Z) (pos : bool -> nat -> Z) (G : geometry N base meta pos).

Lemma vec_byte a k i : vec N a k -> 0 <= i < nblocks N k -> pos a k <= pos a k + i / 8 < pos a k + (nblocks N k + 7) / 8.
Proof. intros Hv Hi. Z.div_mod_to_equations. lia. Qed.

Lemma vec_region a k i : vec N a k -> 0 <= i < nblocks N k -> base + 32 * Z.of_nat N <= pos a k + i / 8 < meta.
Proof using G. intros Hv Hi. pose proof (ge_vec _ _ _ _ G a k Hv). pose proof (vec_byte a k i Hv Hi). lia. Qed.

Lemma vec_bytes_differ a k i a' k' i' :
  vec N a k -> vec N a' k' -> 0 <= i < nblocks N k -> 0 <= i' < nblocks N k' -> (a, k) <> (a', k') -> pos a k + i / 8 <> pos a' k' + i' / 8.
Proof using G. intros Hv Hv' Hi Hi' Hne. pose proof (ge_disj _ _ _ _ G a k a' k' Hv Hv' Hne). pose proof (vec_byte a k i Hv Hi). pose proof (vec_byte a' k' i' Hv' Hi'). lia. Qed.

Lemma sz_free_at s B F k : rep N base meta pos s B F -> sz_free s k = base + 32 * Z.of_nat k.
Proof. intros [(_ & _ & E) _ _ _ _ _ _]. unfold sz_free, sizeof_sz_info. by rewrite E. Qed.

(** The cells of the lists are heads or lie in the heap, behind the vectors. *)
Lemma list_cell s B F k a : rep N base meta pos s B F -> (k < N)%nat -> a ∈ sz_free s k :: F k -> a = base + 32 * Z.of_nat k \/ meta <= a < base + heap_size N.
Proof. intros Hr Hk Ha. apply elem_of_cons in Ha as [->|Ha]; [left; by eapply sz_free_at|right]. by apply (rp_cells _ _ _ _ _ _ _ Hr k). Qed.

Lemma head_before s B F k : rep N base meta pos s B F -> (k < N)%nat -> base + 32 * Z.of_nat N <= meta.
Proof using G. intros _ Hk. assert (Hv : vec N true k) by (by split). pose proof (ge_vec _ _ _ _ G true k Hv). pose proof (pow_pos (N - 1 - k)). unfold nblocks in *. Z.div_mod_to_equations. lia. Qed.

(** A change of one byte of a bit vector. *)
Lemma rep_bit_change s B F a k i v m' :
  rep N base meta pos s B F -> vec N a k -> 0 <= i < nblocks N k ->
  (forall x, x <> pos a k + i / 8 -> load8 m' x = load8 (bd_mem s) x) ->
  (forall j, bit_isset m' (pos a k) j = if decide (i = j) then v else bit_isset (bd_mem s) (pos a k) j) ->
  rep N base meta pos (upd_bmem (fun _ => m') s) (upB B a k i v) F.
Proof using G.
  intros Hr Hv Hi Hout Hin. pose proof (vec_region a k i Hv Hi) as Hreg. pose proof Hr as [R1 R2 R3 R4 R5 R6 R7]. pose proof (fun k => sz_free_at s B F k Hr) as Hsf. split; try done.
  - intros k' Hk. rewrite <- R2 by done. apply load64_agree. intros x Hx. change (sz_free _ k') with (sz_free s k') in Hx. rewrite Hsf in Hx. apply Hout. lia.
  - intros k' Hk. rewrite <- R3 by done. apply load64_agree. intros x Hx. change (sz_free _ k') with (sz_free s k') in Hx. rewrite Hsf in Hx. apply Hout. lia.
  - intros a' k' i' Hv' Hi'. cbn [bd_mem upd_bmem]. unfold upB. destruct (decide ((a, k) = (a', k'))) as [E|Hne].
    + injection E as <- <-. rewrite Hin, R4 by done. destruct (decide (i = i')) as [->|Hne]; [by rewrite decide_True|rewrite decide_False; [done|]]. by intros (_ & _ & E).
    + rewrite decide_False by (intros (-> & -> & _); done). rewrite <- R4 by done. apply bit_agree, Hout. by apply vec_bytes_differ.
  - intros k' Hk. change (sz_free _ k') with (sz_free s k'). eapply dlist_agree; [|by apply R5]. intros c x Hc Hx. apply Hout. destruct (list_cell _ _ _ _ _ Hr Hk Hc) as [->|Hc']; [|lia]. pose proof (head_before _ _ _ _ Hr Hk). lia.
Qed.

Lemma rep_bit_set s B F a k i :
  rep N base meta pos s B F -> vec N a k -> 0 <= i < nblocks N k -> rep N base meta pos (upd_bmem (fun m => bit_set m (pos a k) i) s) (upB B a k i true) F.
Proof using G. intros Hr Hv Hi. apply (rep_bit_change s B F a k i true _ Hr Hv Hi); [intros x; apply bit_set_out|intros j; apply bit_set_isset]. Qed.

Lemma rep_bit_clear s B F a k i :
  rep N base meta pos s B F -> vec N a k -> 0 <= i < nblocks N k -> rep N base meta pos (upd_bmem (fun m => bit_clear m (pos a k) i) s) (upB B a k i false) F.
Proof using G. intros Hr Hv Hi. apply (rep_bit_change s B F a k i false _ Hr Hv Hi); [intros x; apply bit_clear_out|intros j; apply bit_clear_isset]. Qed.

(** A change of the cells of one list. *)
Lemma rep_list_change s B F k l m' :
  rep N base meta pos s B F -> (k < N)%nat -> dlist m' (sz_free s k) l -> (forall p, p ∈ l -> meta <= p < base + heap_size N) ->
  (forall p k', p ∈ l -> (k' < N)%nat -> k' <> k -> p ∉ F k') ->
  (forall x, off_cells x (sz_free s k :: l ++ F k) -> load8 m' x = load8 (bd_mem s) x) ->
  rep N base meta pos (upd_bmem (fun _ => m') s) B (upF F k l).
Proof using G.
  intros Hr Hk Hd Hl Hap Hout. pose proof Hr as [R1 R2 R3 R4 R5 R6 R7]. pose proof (fun k => sz_free_at s B F k Hr) as Hsf. pose proof (head_before _ _ _ _ Hr Hk) as Hm.
  assert (Hlow : forall x, (x < base + 32 * Z.of_nat k \/ base + 32 * Z.of_nat k + 16 <= x) -> x < meta -> load8 m' x = load8 (bd_mem s) x).
  { intros x Hx1 Hx2. apply Hout. intros c Hc. apply elem_of_cons in Hc as [->|Hc]; [rewrite Hsf; lia|]. apply elem_of_app in Hc as [Hc|Hc]; [apply Hl in Hc; lia|]. apply R6 in Hc; [lia|done]. }
  split; try done.
  - intros k' Hk'. rewrite <- R2 by done. apply load64_agree. intros x Hx. change (sz_free _ k') with (sz_free s k') in Hx. rewrite Hsf in Hx. apply Hlow; lia.
  - intros k' Hk'. rewrite <- R3 by done. apply load64_agree. intros x Hx. change (sz_free _ k') with (sz_free s k') in Hx. rewrite Hsf in Hx. apply Hlow; lia.
  - intros a k' i Hv Hi. rewrite <- R4 by done. pose proof (vec_region a k' i Hv Hi). apply bit_agree, Hlow; lia.
  - intros k' Hk'. change (sz_free _ k') with (sz_free s k'). unfold upF. destruct (decide (k = k')) as [<-|Hne]; [done|]. eapply dlist_agree; [|by apply R5]. intros c x Hc Hx. apply Hout. intros d Hd'.
    assert (Cc : cell c) by (destruct (R5 k' Hk') as (_ & Hc' & _); rewrite Forall_forall in Hc'; by apply Hc').
    assert (Cd : cell d). { destruct Hd as (_ & Hc1 & _), (R5 k Hk) as (_ & Hc2 & _). rewrite Forall_forall in Hc1, Hc2. apply elem_of_cons in Hd' as [->|[Hd'|Hd']%elem_of_app]; [apply Hc1; by left|apply Hc1; by right|apply Hc2; by right]. }
    assert (Hcd : c <> d); [|pose proof (cell_apart c d Cc Cd Hcd); lia]. intros <-. pose proof (list_cell _ _ _ _ _ Hr Hk' Hc) as Hc'. apply elem_of_cons in Hd' as [->|[Hd'|Hd']%elem_of_app].
    + rewrite Hsf in Hc'. lia.
    + apply elem_of_cons in Hc as [->|Hc]; [apply Hl in Hd'; rewrite Hsf in Hd'; lia|]. by apply (Hap c k').
    + apply elem_of_cons in Hc as [->|Hc]; [apply R6 in Hd'; [rewrite Hsf in Hd'; lia|done]|]. apply Hne. by apply (R7 k k' c).
  - intros k' p Hk' Hp. unfold upF in Hp. destruct (decide (k = k')) as [<-|Hne]; [by apply Hl|by apply (R6 k')].
  - intros k1 k2 p H1 H2. unfold upF. destruct (decide (k = k1)) as [<-|N1], (decide (k = k2)) as [<-|N2]; [done|intros A C; by destruct (Hap p k2 A H2 (not_eq_sym N2))|intros A C; by destruct (Hap p k1 C H1 (not_eq_sym N1))|by apply R7].
Qed.

Lemma rep_push s B F k p :
  rep N base meta pos s B F -> (k < N)%nat -> p mod 16 = 0 -> meta <= p < base + heap_size N -> (forall k', (k' < N)%nat -> p ∉ F k') ->
  rep N base meta pos (upd_bmem (fun m => lst_push m (sz_free s k) p) s) B (upF F k (p :: F k)).
Proof using G.
  intros Hr Hk Ha Hp Hn. pose proof (ge_base _ _ _ _ G) as (Hb & _ & Hhi). pose proof (ge_meta _ _ _ _ G) as (_ & Hm & _). assert (Cp : cell p) by (split; [done|lia]). pose proof (head_before _ _ _ _ Hr Hk) as Hm'.
  assert (Hne : p <> sz_free s k) by (rewrite (sz_free_at _ _ _ k Hr); lia). pose proof (rp_list _ _ _ _ _ _ _ Hr k Hk) as Hd.
  apply (rep_list_change s B F k (p :: F k) _ Hr Hk).
  - apply lst_push_cons; [done|done|]. rewrite not_elem_of_cons. split; [done|by apply Hn].
  - intros q Hq. apply elem_of_cons in Hq as [->|Hq]; [done|]. by apply (rp_cells _ _ _ _ _ _ _ Hr k).
  - intros q k' Hq Hk' Hne'. apply elem_of_cons in Hq as [->|Hq]; [by apply Hn|]. intros Hq'. apply Hne'. by apply (rp_apart _ _ _ _ _ _ _ Hr k' k q).
  - intros x Hx. apply (lst_push_frame _ _ (F k)); [done|done|done|]. intros c Hc. apply Hx. set_solver.
Qed.

Lemma rep_remove s B F k xs e ys :
  rep N base meta pos s B F -> (k < N)%nat -> F k = xs ++ e :: ys -> rep N base meta pos (upd_bmem (fun m => lst_remove m e) s) B (upF F k (xs ++ ys)).
Proof using G.
  intros Hr Hk E. pose proof (rp_list _ _ _ _ _ _ _ Hr k Hk) as Hd. rewrite E in Hd. assert (Hin : forall q, q ∈ xs ++ ys -> q ∈ F k) by (rewrite E; set_solver).
  apply (rep_list_change s B F k (xs ++ ys) _ Hr Hk).
  - by apply lst_remove_middle.
  - intros q Hq. apply (rp_cells _ _ _ _ _ _ _ Hr k); auto.
  - intros q k' Hq Hk' Hne Hq'. apply Hne. apply (rp_apart _ _ _ _ _ _ _ Hr k' k q); auto.
  - intros x Hx. apply (lst_remove_frame _ _ xs e ys _ Hd). intros c Hc. apply Hx. rewrite E. set_solver.
Qed.

Lemma pop_free_run s B F k p l :
  rep N base meta pos s B F -> (k < N)%nat -> F k = p :: l -> exists s', pop_free k s = Ok (p, s') /\ rep N base meta pos s' B (upF F k l).
Proof using G.
  intros Hr Hk E. pose proof (rp_list _ _ _ _ _ _ _ Hr k Hk) as Hd. rewrite E in Hd. unfold pop_free. rewrite (lst_pop_run _ _ _ _ Hd). eexists. split; [done|]. exact (rep_remove s B F k [] p l Hr Hk E).
Qed.

Lemma lst_empty_run s B F k : rep N base meta pos s B F -> (k < N)%nat -> lst_empty (bd_mem s) (sz_free s k) = bool_decide (F k = []).
Proof. intros Hr Hk. by apply lst_empty_nil, (rp_list _ _ _ _ _ _ _ Hr). Qed.

(** Bits and lists matter only where there are blocks. *)
Lemma rep_ext s B F B' F' :
  rep N base meta pos s B F -> (forall a k i, vec N a k -> 0 <= i < nblocks N k -> B a k i = B' a k i) -> (forall k, (k < N)%nat -> F k = F' k) -> rep N base meta pos s B' F'.
Proof.
  intros [R1 R2 R3 R4 R5 R6 R7] HB HF. split; auto.
  - intros a k i Hv Hi. rewrite <- HB by done. by apply R4.
  - intros k Hk. rewrite <- HF by done. by apply R5.
  - intros k p Hk. rewrite <- HF by done. by apply R6.
  - intros k k' p Hk Hk'. rewrite <- !HF by done. by apply R7.
Qed.

(** Writes into the heap that are off the free cells are not seen. *)
Lemma rep_frame s B F m' :
  rep N base meta pos s B F -> (forall x, x < meta -> load8 m' x = load8 (bd_mem s) x) -> (forall k p x, (k < N)%nat -> p ∈ F k -> p <= x < p + 16 -> load8 m' x = load8 (bd_mem s) x) ->
  rep N base meta pos (upd_bmem (fun _ => m') s) B F.
Proof using G.
  intros Hr Hlo Hce. pose proof Hr as [R1 R2 R3 R4 R5 R6 R7]. pose proof (fun k => sz_free_at s B F k Hr) as Hsf. split; auto.
  - intros k Hk. rewrite <- R2 by done. pose proof (head_before _ _ _ _ Hr Hk). apply load64_agree. intros x Hx. change (sz_free _ k) with (sz_free s k) in Hx. rewrite Hsf in Hx. apply Hlo. lia.
  - intros k Hk. rewrite <- R3 by done. pose proof (head_before _ _ _ k Hr ltac:(lia)). apply load64_agree. intros x Hx. change (sz_free _ k) with (sz_free s k) in Hx. rewrite Hsf in Hx. apply Hlo. lia.
  - intros a k i Hv Hi. rewrite <- R4 by done. pose proof (vec_region a k i Hv Hi). apply bit_agree, Hlo. lia.
  - intros k Hk. change (sz_free _ k) with (sz_free s k). eapply dlist_agree; [|by apply R5]. intros c x Hc Hx. apply elem_of_cons in Hc as [->|Hc]; [|by apply (Hce k c)]. pose proof (head_before _ _ _ _ Hr Hk). rewrite Hsf in Hx. apply Hlo. lia.
Qed.

(** ** Addresses and indices *)

Definition baddr (k : nat) (i : Z) : Z := base + i * BLK_SIZE k.

Lemma heap_blocks k : (k < N)%nat -> nblocks N k * BLK_SIZE k = heap_size N.
Proof. intros Hk. unfold nblocks, heap_size. rewrite BLK_SIZE_pow, Z.mul_assoc, <- pow_add. by replace (N - 1 - k + k)%nat with (N - 1)%nat by lia. Qed.

Lemma heap_small : heap_size N <= 2147483648.
Proof using G. pose proof (ge_sizes _ _ _ _ G). unfold heap_size, pow. assert (2 ^ Z.of_nat (N - 1) <= 2 ^ 27) by (apply Z.pow_le_mono_r; lia). lia. Qed.

Lemma blk_range k i : (k < N)%nat -> 0 <= i < nblocks N k -> 0 <= i * BLK_SIZE k /\ i * BLK_SIZE k + BLK_SIZE k <= heap_size N.
Proof. intros Hk Hi. rewrite <- (heap_blocks k Hk). pose proof (pow_pos k). rewrite BLK_SIZE_pow. nia. Qed.

Lemma addr_run s B F k i : rep N base meta pos s B F -> (k < N)%nat -> 0 <= i < nblocks N k -> addr s k i = baddr k i.
Proof using G.
  intros [(_ & E & _) _ _ _ _ _ _] Hk Hi. unfold addr, baddr. rewrite E. pose proof (blk_range k i Hk Hi). pose proof heap_small. pose proof (pow_pos k). rewrite BLK_SIZE_pow in *. by rewrite s32_small by lia.
Qed.

(** The index at size [k] of the start of a block that is not larger. *)
Lemma blk_index_run s B F k' i' k :
  rep N base meta pos s B F -> (k' <= k < N)%nat -> 0 <= i' < nblocks N k' -> blk_index s k (baddr k' i') = i' / pow (k - k').
Proof using G.
  intros [(_ & E & _) _ _ _ _ _ _] Hk Hi. unfold blk_index, baddr. rewrite E. replace (base + i' * BLK_SIZE k' - base) with (i' * BLK_SIZE k') by lia.
  pose proof (blk_range k' i' ltac:(lia) Hi) as [H1 H2]. pose proof heap_small. pose proof (pow_pos k'). pose proof (pow_pos (k - k')). rewrite BLK_SIZE_pow in *. rewrite (s32_small (i' * _)) by lia.
  rewrite Z.quot_div_nonneg by (try lia; rewrite BLK_SIZE_pow; pose proof (pow_pos k); lia). rewrite BLK_SIZE_pow. replace k with (k' + (k - k'))%nat at 1 by lia. rewrite pow_add.
  replace (pow k' * pow (k - k') * 16) with (pow (k - k') * (pow k' * 16)) by lia. rewrite Z.div_mul_cancel_r by lia.
  assert (0 <= i' / pow (k - k') <= i') by (split; [apply Z.div_pos; lia|apply Z.div_le_upper_bound; nia]). apply s32_small. nia.
Qed.

End rep.
