(* ===== verification/BuddyTree.v ===== *)
(** The tree of blocks of the buddy allocator: which bits and free lists belong
    to a set of allocated blocks.  A block is its size and its index; an alloc
    bit says that some allocated block lies in the block, a split bit that a
    smaller one does, and the free lists hold the maximal blocks in which no
    allocated block lies. *)

From S2P Require Import Prelude Memory DList Buddy BuddyRep.

Definition inside (b : nat * Z) (k : nat) (i : Z) : bool := (b.1 <=? k)%nat && (b.2 / pow (k - b.1) =? i).
Definition has (live : list (nat * Z)) (k : nat) (i : Z) : bool := existsb (fun b => inside b k i) live.
Definition small (live : list (nat * Z)) (k : nat) (i : Z) : bool := existsb (fun b => (b.1 <? k)%nat && inside b k i) live.
Definition bits (live : list (nat * Z)) (a : bool) : nat -> Z -> bool := if a then has live else small live.

Definition valid (N : nat) (b : nat * Z) : Prop := (b.1 < N)%nat /\ 0 <= b.2 < nblocks N b.1.
(** Neither block lies in the other. *)
Definition apart (b c : nat * Z) : Prop := inside b c.1 c.2 = false /\ inside c b.1 b.2 = false.

Fixpoint bwf (N : nat) (live : list (nat * Z)) : Prop :=
  match live with
  | [] => True
  | b :: live => valid N b /\ Forall (apart b) live /\ bwf N live
  end.

(** ** Indices *)

Lemma buddy_cases i : 0 <= i -> exists j, 0 <= j /\ j = i / 2 /\ ((i = 2 * j /\ buddy_of i = 2 * j + 1) \/ (i = 2 * j + 1 /\ buddy_of i = 2 * j)).
Proof.
  intros Hi. exists (i / 2). split; [apply Z.div_pos; lia|]. split; [done|]. unfold buddy_of. rewrite Z.rem_mod_nonneg by lia. destruct (Z.eqb_spec (i mod 2) 0); Z.div_mod_to_equations; lia.
Qed.

Lemma buddy_div i : 0 <= i -> buddy_of i / 2 = i / 2.
Proof. intros Hi. destruct (buddy_cases i Hi) as (j & Hj & E & [[-> ->]|[-> ->]]); Z.div_mod_to_equations; lia. Qed.

Lemma buddy_nonneg i : 0 <= i -> 0 <= buddy_of i.
Proof. intros Hi. destruct (buddy_cases i Hi) as (j & Hj & E & [[-> ->]|[-> ->]]); lia. Qed.

Lemma buddy_ne i : 0 <= i -> buddy_of i <> i.
Proof. intros Hi. destruct (buddy_cases i Hi) as (j & Hj & E & [[-> ->]|[-> ->]]); lia. Qed.

Lemma buddy_buddy i : 0 <= i -> buddy_of (buddy_of i) = i.
Proof.
  intros Hi. pose proof (buddy_nonneg i Hi) as Hb. pose proof (buddy_div i Hi). destruct (buddy_cases i Hi) as (j & Hj & E & H1), (buddy_cases _ Hb) as (j' & Hj' & E' & H2). lia.
Qed.

Lemma buddy_range N k i : (S k < N)%nat -> 0 <= i < nblocks N k -> 0 <= buddy_of i < nblocks N k.
Proof.
  intros Hk Hi. unfold nblocks in *. replace (N - 1 - k)%nat with (S (N - 2 - k)) in * by lia. rewrite pow_S in *. pose proof (pow_pos (N - 2 - k)). destruct (buddy_cases i) as (j & Hj & E & [[-> ->]|[-> ->]]); lia.
Qed.

Lemma parent_range N k i : (S k < N)%nat -> 0 <= i < nblocks N k -> 0 <= i / 2 < nblocks N (S k).
Proof.
  intros Hk Hi. unfold nblocks in *. replace (N - 1 - k)%nat with (S (N - 1 - S k)) in Hi by lia. rewrite pow_S in Hi. Z.div_mod_to_equations. lia.
Qed.

Lemma child_range N k i c : (S k < N)%nat -> 0 <= i < nblocks N (S k) -> 0 <= c <= 1 -> 0 <= 2 * i + c < nblocks N k.
Proof. intros Hk Hi Hc. unfold nblocks in *. replace (N - 1 - k)%nat with (S (N - 1 - S k)) by lia. rewrite pow_S. lia. Qed.

Lemma div_pow_S i n : 0 <= i -> i / pow (S n) = i / 2 / pow n.
Proof. intros Hi. pose proof (pow_pos n). rewrite pow_S. by rewrite Z.div_div by lia. Qed.

Lemma div_pow_add i a b : 0 <= i -> i / pow (a + b) = i / pow a / pow b.
Proof. intros Hi. pose proof (pow_pos a). pose proof (pow_pos b). rewrite pow_add. by rewrite Z.div_div by lia. Qed.

(** ** Inside *)

Lemma inside_refl k i : inside (k, i) k i = true.
Proof. unfold inside. cbn [fst snd]. rewrite Nat.leb_refl, Nat.sub_diag. change (pow 0) with 1. rewrite Z.div_1_r, Z.eqb_refl. done. Qed.

Lemma inside_same k i j : inside (k, i) k j = (i =? j).
Proof. unfold inside. cbn [fst snd]. rewrite Nat.leb_refl, Nat.sub_diag. change (pow 0) with 1. by rewrite Z.div_1_r. Qed.

Lemma inside_lt k i k' j : (k' < k)%nat -> inside (k, i) k' j = false.
Proof. intros H. unfold inside. cbn [fst]. by rewrite (proj2 (Nat.leb_gt _ _) H). Qed.

Lemma inside_spec b k i : inside b k i = true <-> (b.1 <= k)%nat /\ b.2 / pow (k - b.1) = i.
Proof. unfold inside. rewrite andb_true_iff, Nat.leb_le, Z.eqb_eq. done. Qed.

Lemma inside_up b k i k' : 0 <= b.2 -> inside b k i = true -> (k <= k')%nat -> inside b k' (i / pow (k' - k)) = true.
Proof.
  intros Hb [Hk E]%inside_spec Hk'. apply inside_spec. split; [lia|]. rewrite <- E. replace (k' - b.1)%nat with ((k - b.1) + (k' - k))%nat by lia. by apply div_pow_add.
Qed.

(** A block lies in a larger one when its parent does. *)
Lemma inside_parent k i k' j : 0 <= i -> inside (k, i) k' j = (bool_decide (k' = k /\ j = i)) || inside (S k, i / 2) k' j.
Proof.
  intros Hi. destruct (decide (k' = k)) as [->|Hne].
  - rewrite inside_same, inside_lt, orb_false_r by lia. destruct (Z.eqb_spec i j) as [->|H]; [by rewrite bool_decide_eq_true_2|]. rewrite bool_decide_eq_false_2; [done|]. by intros [_ ->].
  - rewrite bool_decide_eq_false_2 by (by intros [-> _]). cbn [orb]. destruct (decide (k' < k)%nat) as [Hlt|Hge]; [by rewrite !inside_lt by lia|]. unfold inside. cbn [fst snd].
    rewrite !(proj2 (Nat.leb_le _ _)) by lia. replace (k' - k)%nat with (S (k' - S k)) by lia. by rewrite div_pow_S.
Qed.

Lemma has_spec live k i : has live k i = true <-> exists b, b ∈ live /\ inside b k i = true.
Proof. unfold has. rewrite existsb_exists. split; intros (b & H1 & H2); exists b; (split; [by apply list_elem_of_In|done]). Qed.

Lemma small_spec live k i : small live k i = true <-> exists b, b ∈ live /\ (b.1 < k)%nat /\ inside b k i = true.
Proof.
  unfold small. rewrite existsb_exists. split.
  - intros (b & H1 & [H2 H3]%andb_true_iff). exists b. split; [by apply list_elem_of_In|]. by apply Nat.ltb_lt in H2.
  - intros (b & H1 & H2 & H3). exists b. split; [by apply list_elem_of_In|]. apply andb_true_iff. split; [by apply Nat.ltb_lt|done].
Qed.

Lemma has_cons b live k i : has (b :: live) k i = inside b k i || has live k i.
Proof. done. Qed.

Lemma small_cons b live k i : small (b :: live) k i = ((b.1 <? k)%nat && inside b k i) || small live k i.
Proof. done. Qed.

Lemma has_perm live live' k i : live ≡ₚ live' -> has live k i = has live' k i.
Proof. intros Hp. apply eq_true_iff_eq. rewrite !has_spec. by setoid_rewrite Hp. Qed.

Lemma small_perm live live' k i : live ≡ₚ live' -> small live k i = small live' k i.
Proof. intros Hp. apply eq_true_iff_eq. rewrite !small_spec. by setoid_rewrite Hp. Qed.

Lemma apart_sym b c : apart b c -> apart c b.
Proof. unfold apart. tauto. Qed.

Lemma bwf_perm N live live' : live ≡ₚ live' -> bwf N live -> bwf N live'.
Proof.
  induction 1 as [|b l l' Hp IH|b c l|l1 l2 l3 _ IH1 _ IH2]; [done| | |by auto].
  - intros (H1 & H2 & H3). split; [done|]. split; [by rewrite <- Hp|auto].
  - intros (H1 & H2 & H3 & H4 & H5). apply Forall_cons in H2 as [H2 H2']. split; [done|]. split; [constructor; [by apply apart_sym|done]|]. by split.
Qed.

Lemma bwf_valid N live b : bwf N live -> b ∈ live -> valid N b.
Proof. induction live as [|c live IH]; intros Hw Hb; [by apply elem_of_nil in Hb|]. destruct Hw as (H1 & _ & H3). apply elem_of_cons in Hb as [->|Hb]; auto. Qed.

Section tree.
Context (N : nat) (live : list (nat * Z)) (W : bwf N live).

Lemma live_nonneg b : b ∈ live -> 0 <= b.2.
Proof using W. intros Hb. destruct (bwf_valid _ _ _ W Hb) as [_ H]. lia. Qed.

Lemma has_up k i k' : has live k i = true -> (k <= k')%nat -> has live k' (i / pow (k' - k)) = true.
Proof using W. rewrite !has_spec. intros (b & Hb & Hi) Hk. exists b. split; [done|]. apply inside_up; [by apply live_nonneg|done|done]. Qed.

Lemma small_up k i k' : small live k i = true -> (k <= k')%nat -> small live k' (i / pow (k' - k)) = true.
Proof using W. rewrite !small_spec. intros (b & Hb & Hlt & Hi) Hk. exists b. split; [done|]. split; [lia|]. apply inside_up; [by apply live_nonneg|done|done]. Qed.

(** A block with a smaller one inside: one of its halves has one. *)
Lemma small_parent k i : 0 <= i -> small live (S k) (i / 2) = has live k i || has live k (buddy_of i).
Proof using W.
  intros Hi. apply eq_true_iff_eq. rewrite orb_true_iff, small_spec, !has_spec. split.
  - intros (b & Hb & Hlt & [_ E]%inside_spec). pose proof (live_nonneg b Hb) as Hn. replace (S k - b.1)%nat with ((k - b.1) + 1)%nat in E by lia. rewrite div_pow_add in E by done. change (pow 1) with 2 in E. set (c := b.2 / pow (k - b.1)) in *.
    assert (Hc : c = i \/ c = buddy_of i). { assert (0 <= c) by (apply Z.div_pos; [done|apply pow_pos]). destruct (buddy_cases i Hi) as (j & Hj & Ej & [[-> ->]|[-> ->]]); Z.div_mod_to_equations; lia. }
    destruct Hc as [Hc|Hc]; [left|right]; (exists b; split; [done|]; apply inside_spec; split; [lia|done]).
  - assert (H : forall c, c / 2 = i / 2 -> (exists b, b ∈ live /\ inside b k c = true) -> exists b, b ∈ live /\ (b.1 < S k)%nat /\ inside b (S k) (i / 2) = true).
    { intros c Hc (b & Hb & Hin). exists b. split; [done|]. pose proof Hin as [Hk _]%inside_spec. split; [lia|]. rewrite <- Hc. pose proof (inside_up b k c (S k) (live_nonneg b Hb) Hin ltac:(lia)) as H. replace (S k - k)%nat with 1%nat in H by lia. exact H. }
    intros [H'|H']; [by apply (H i)|]. apply (H (buddy_of i)); [by apply buddy_div|done].
Qed.

Lemma has_small k i : small live k i = true -> has live k i = true.
Proof. rewrite small_spec, has_spec. intros (b & Hb & _ & H). by exists b. Qed.

(** Above a block whose buddy has something inside, there is always something. *)
Lemma buddy_above k i k' : 0 <= i -> has live k (buddy_of i) = true -> (k < k')%nat -> small live k' (i / pow (k' - k)) = true.
Proof using W.
  intros Hi Hb Hk. assert (Hs : small live (S k) (i / 2) = true) by (rewrite small_parent, Hb by done; by apply orb_true_r). pose proof (small_up (S k) (i / 2) k' Hs Hk) as H.
  replace (k' - k)%nat with (S (k' - S k)) by lia. by rewrite div_pow_S.
Qed.

(** ** One bit at a time *)

Lemma fresh_has k i : Forall (apart (k, i)) live -> has live k i = false.
Proof. intros Hf. apply not_true_iff_false. rewrite has_spec. intros (b & Hb & Hi). rewrite Forall_forall in Hf. destruct (Hf b Hb) as [_ H]. cbn in H. congruence. Qed.

Lemma fresh_half k i : 0 <= i -> Forall (apart (S k, i / 2)) live -> has live k i = false.
Proof using W.
  intros Hi Hf. apply not_true_iff_false. intros H. apply fresh_has in Hf. assert (E : small live (S k) (i / 2) = true) by (by rewrite small_parent, H). apply has_small in E. congruence.
Qed.

Lemma upB_true (B : bool -> nat -> Z -> bool) k i v k' i' : upB B true k i v true k' i' = if decide (k = k' /\ i = i') then v else B true k' i'.
Proof. unfold upB. destruct (decide (k = k' /\ i = i')) as [[-> ->]|H]; [by rewrite decide_True|]. rewrite decide_False; [done|]. by intros (_ & H'). Qed.

Lemma upB_false (B : bool -> nat -> Z -> bool) k i v k' i' : upB B false k i v false k' i' = if decide (k = k' /\ i = i') then v else B false k' i'.
Proof. unfold upB. destruct (decide (k = k' /\ i = i')) as [[-> ->]|H]; [by rewrite decide_True|]. rewrite decide_False; [done|]. by intros (_ & H'). Qed.

Lemma upB_other (B : bool -> nat -> Z -> bool) a k i v a' k' i' : a <> a' -> upB B a k i v a' k' i' = B a' k' i'.
Proof. intros H. unfold upB. rewrite decide_False; [done|]. by intros (-> & _). Qed.

(** Above a block that is free (or whose buddy is in use) nothing changes. *)
Lemma above_has k i k' i' : 0 <= i -> (k' < N)%nat -> (k = N - 1)%nat \/ has live k (buddy_of i) = true -> inside (k, i) k' i' = true -> (k', i') <> (k, i) -> small live k' i' = true.
Proof using W.
  intros Hi Hk' Hb [Hle E]%inside_spec Hne. cbn [fst snd] in *. destruct (decide (k = k')) as [->|Hk]; [destruct Hne; rewrite Nat.sub_diag in E; change (pow 0) with 1 in E; rewrite Z.div_1_r in E; by rewrite E|].
  destruct Hb as [->|Hb]; [lia|]. rewrite <- E. apply buddy_above; [done|done|lia].
Qed.

Lemma alloc_has k i k' i' :
  0 <= i -> (k' < N)%nat -> (k = N - 1)%nat \/ has live k (buddy_of i) = true -> has ((k, i) :: live) k' i' = if decide (k = k' /\ i = i') then true else has live k' i'.
Proof using W.
  intros Hi Hk' Hb. rewrite has_cons. destruct (decide (k = k' /\ i = i')) as [[<- <-]|Hne]; [by rewrite inside_refl|]. destruct (inside (k, i) k' i') eqn:E; [|done]. symmetry. apply has_small. apply (above_has k i); auto. intros [= -> ->]. by apply Hne.
Qed.

Lemma alloc_small k i k' i' :
  0 <= i -> (k' < N)%nat -> (k = N - 1)%nat \/ has live k (buddy_of i) = true -> small ((k, i) :: live) k' i' = small live k' i'.
Proof using W.
  intros Hi Hk' Hb. rewrite small_cons. cbn [fst]. destruct (Nat.ltb_spec k k') as [Hlt|]; [|done]. destruct (inside (k, i) k' i') eqn:E; [|done]. cbn. symmetry. apply (above_has k i); auto. intros [= -> _]. lia.
Qed.

Lemma split_has k i c k' i' : 0 <= i -> c = 2 * i \/ c = 2 * i + 1 -> has ((k, c) :: live) k' i' = if decide (k = k' /\ c = i') then true else has ((S k, i) :: live) k' i'.
Proof.
  intros Hi Hc. assert (Hh : c / 2 = i) by (Z.div_mod_to_equations; lia). rewrite !has_cons, inside_parent, Hh by lia. destruct (decide (k = k' /\ c = i')) as [[<- <-]|Hne]; [by rewrite bool_decide_eq_true_2|]. rewrite bool_decide_eq_false_2; [done|]. intros [-> ->]. by apply Hne.
Qed.

Lemma split_small k i c k' i' : 0 <= i -> c = 2 * i \/ c = 2 * i + 1 -> small ((k, c) :: live) k' i' = if decide (S k = k' /\ i = i') then true else small ((S k, i) :: live) k' i'.
Proof.
  intros Hi Hc. assert (Hh : c / 2 = i) by (Z.div_mod_to_equations; lia). rewrite !small_cons. cbn [fst]. rewrite inside_parent, Hh by lia. destruct (decide (S k = k' /\ i = i')) as [[<- <-]|Hne].
  - rewrite inside_refl, orb_true_r. by rewrite (proj2 (Nat.ltb_lt _ _)) by lia.
  - destruct (Nat.ltb_spec k k') as [Hlt|Hge]; [|by rewrite (proj2 (Nat.ltb_ge _ _)) by lia]. rewrite bool_decide_eq_false_2 by lia. cbn [orb andb]. destruct (decide (k' = S k)) as [->|Hk]; [|by rewrite (proj2 (Nat.ltb_lt _ _)) by lia].
    rewrite inside_same. rewrite (proj2 (Z.eqb_neq _ _)) by (intros ->; by apply Hne). by rewrite andb_false_r.
Qed.

End tree.

(** ** Free blocks *)

Definition isfree (N : nat) (base : Z) (h : nat -> Z -> bool) (k : nat) (p : Z) : Prop :=
  exists i, 0 <= i < nblocks N k /\ p = baddr base k i /\ h k i = false /\ (k = (N - 1)%nat \/ h k (buddy_of i) = true).

Lemma baddr_inj base k i j : baddr base k i = baddr base k j -> i = j.
Proof. unfold baddr. rewrite BLK_SIZE_pow. pose proof (pow_pos k). nia. Qed.

Lemma isfree_ext N base h h' k p : (forall i, 0 <= i -> h k i = h' k i) -> isfree N base h k p <-> isfree N base h' k p.
Proof.
  intros H. unfold isfree. split; intros (i & Hi & E & H1 & H2); exists i; pose proof (buddy_nonneg i ltac:(lia)).
  - rewrite <- !H by lia. done.
  - rewrite !H by lia. done.
Qed.

(** Changing one bit concerns the block and its buddy only. *)
Lemma isfree_other N base h h' k i k' p :
  0 <= i -> (forall k' i', h' k' i' = if decide (k = k' /\ i = i') then negb (h k i) else h k' i') -> k <> k' \/ (p <> baddr base k i /\ p <> baddr base k (buddy_of i)) ->
  isfree N base h' k' p <-> isfree N base h k' p.
Proof.
  intros Hi Hh Hp. unfold isfree. assert (H : forall j, 0 <= j -> p = baddr base k' j -> h' k' j = h k' j /\ h' k' (buddy_of j) = h k' (buddy_of j)).
  { intros j Hj Ej. rewrite !Hh. split; rewrite decide_False; try done; intros [<- E].
    - destruct Hp as [Hp|[Hp _]]; [done|]. by rewrite Ej, E in Hp.
    - destruct Hp as [Hp|[_ Hp]]; [done|]. rewrite Ej, E, buddy_buddy in Hp by done. done. }
  split; intros (j & Hj & Ej & H1 & H2); exists j; destruct (H j ltac:(lia) Ej) as [E1 E2]; [rewrite <- E1, <- E2|rewrite E1, E2]; done.
Qed.
