(* ===== verification/BuddyInv.v ===== *)
(** The invariant of the buddy allocator, bd_malloc and bd_free: the state in
    memory is determined by the set of allocated blocks. *)

From S2P Require Import Prelude Memory DList Buddy BuddyRep BuddyTree.

(** ** Blocks as ranges of addresses *)

Lemma apart_ranges base k i k' j :
  0 <= i -> 0 <= j -> apart (k, i) (k', j) -> baddr base k i + BLK_SIZE k <= baddr base k' j \/ baddr base k' j + BLK_SIZE k' <= baddr base k i.
Proof.
  assert (H : forall k i k' j, (k <= k')%nat -> 0 <= i -> inside (k, i) k' j = false -> baddr base k i + BLK_SIZE k <= baddr base k' j \/ baddr base k' j + BLK_SIZE k' <= baddr base k i).
  { clear. intros k i k' j Hk Hi H. unfold inside in H. cbn [fst snd] in H. rewrite (proj2 (Nat.leb_le _ _) Hk) in H. apply Z.eqb_neq in H. unfold baddr. rewrite !BLK_SIZE_pow. replace k' with (k + (k' - k))%nat at 1 2 3 by lia. rewrite pow_add.
    pose proof (pow_pos k). pose proof (pow_pos (k' - k)) as HP. pose proof (Z.div_mod i (pow (k' - k)) ltac:(lia)). pose proof (Z.mod_pos_bound i _ HP). set (P := pow (k' - k)) in *. set (q := i / P) in *.
    destruct (Z.lt_total q j) as [Hlt|[E|Hlt]]; [left|done|right]; [assert (i + 1 <= j * P) by nia; nia|assert ((j + 1) * P <= i) by nia; nia]. }
  intros Hi Hj [H1 H2]. cbn [fst snd] in *. destruct (decide (k <= k')%nat) as [Hk|Hk]; [by apply H|]. destruct (H k' j k i ltac:(lia) Hj H2); auto.
Qed.

(** ** The size of a request *)

Lemma firstk_loop_run fuel : forall k n,
  (k <= 59)%nat -> (59 < k + fuel)%nat -> n <= 2 ^ 63 -> (forall j, (j < k)%nat -> BLK_SIZE j < n) ->
  exists k', firstk_loop fuel k (BLK_SIZE k) n = Some k' /\ n <= BLK_SIZE k' /\ forall j, (j < k')%nat -> BLK_SIZE j < n.
Proof.
  induction fuel as [|fuel IH]; intros k n Hk Hf Hn Hj; [lia|]. cbn [firstk_loop]. destruct (Z.ltb_spec (BLK_SIZE k) n) as [Hlt|Hge]; [|by exists k].
  assert (Hk' : (k < 59)%nat). { destruct (decide (k = 59%nat)) as [->|]; [|lia]. change (BLK_SIZE 59) with (2 ^ 63) in Hlt. lia. }
  assert (E : u64 (BLK_SIZE k * 2) = BLK_SIZE (S k)). { rewrite u64_small; [rewrite !BLK_SIZE_pow, pow_S; lia|]. rewrite BLK_SIZE_pow in *. pose proof (pow_pos k). lia. }
  rewrite E. apply IH; [lia|lia|done|]. intros j Hjk. destruct (decide (j = k)) as [->|]; [done|]. apply Hj. lia.
Qed.

(** firstk is the least size with enough room. *)
Lemma firstk_run n : n <= 2 ^ 63 -> exists k, firstk n = Some k /\ n <= BLK_SIZE k /\ forall j, (j < k)%nat -> BLK_SIZE j < n.
Proof. intros Hn. apply (firstk_loop_run 61 0); lia. Qed.

(** Above 2^63 its loop does not end. *)
Lemma firstk_diverges n fuel : 2 ^ 63 < n -> firstk_loop fuel 0 LEAF_SIZE n = None.
Proof.
  intros Hn. assert (H : forall fuel k size, size = 0 \/ (exists j, (j <= 59)%nat /\ size = BLK_SIZE j) -> firstk_loop fuel k size n = None).
  { clear fuel. induction fuel as [|fuel IH]; intros k size Hs; [done|]. cbn [firstk_loop]. assert (Hle : size <= 2 ^ 63). { destruct Hs as [->|(j & Hj & ->)]; [lia|]. rewrite BLK_SIZE_pow. unfold pow. assert (2 ^ Z.of_nat j <= 2 ^ 59) by (apply Z.pow_le_mono_r; lia). lia. }
    rewrite (proj2 (Z.ltb_lt _ _)) by lia. apply IH. destruct Hs as [->|(j & Hj & ->)]; [by left|]. destruct (decide (j = 59%nat)) as [->|Hne]; [by left|]. right. exists (S j). split; [lia|]. rewrite !BLK_SIZE_pow, pow_S in *. rewrite u64_small; [lia|].
    pose proof (pow_pos j). unfold pow in *. assert (2 ^ Z.of_nat j <= 2 ^ 58) by (apply Z.pow_le_mono_r; lia). lia. }
  apply H. right. exists 0%nat. split; [lia|done].
Qed.

Lemma inside_range base k i k' j : 0 <= i -> inside (k, i) k' j = true -> baddr base k' j <= baddr base k i /\ baddr base k i + BLK_SIZE k <= baddr base k' j + BLK_SIZE k'.
Proof.
  intros Hi [Hk E]%inside_spec. cbn [fst snd] in *. unfold baddr. rewrite !BLK_SIZE_pow. replace k' with (k + (k' - k))%nat at 1 2 3 by lia. rewrite pow_add. pose proof (pow_pos k). pose proof (pow_pos (k' - k)) as HP.
  pose proof (Z.div_mod i (pow (k' - k)) ltac:(lia)) as Hd. rewrite E in Hd. pose proof (Z.mod_pos_bound i _ HP). set (P := pow (k' - k)) in *. nia.
Qed.

Section inv.
Context (N : nat) (base meta : Z) (pos : bool -> nat -> Z) (G : geometry N base meta pos).

Definition fchar (h : nat -> Z -> bool) (F : nat -> list Z) : Prop := forall k p, (k < N)%nat -> p ∈ F k <-> isfree N base h k p.

Record binvF (s : bd) (live : list (nat * Z)) (F : nat -> list Z) : Prop := {
  bi_wf : bwf N live;
  bi_rep : rep N base meta pos s (bits live) F;
  bi_free : fchar (has live) F;
}.

(** A free block is apart from the allocated ones. *)
Lemma free_apart live k i b :
  bwf N live -> (k < N)%nat -> 0 <= i < nblocks N k -> has live k i = false -> (k = (N - 1)%nat \/ has live k (buddy_of i) = true) -> b ∈ live -> apart (k, i) b.
Proof.
  intros W Hk Hi H1 H2 Hb. destruct (bwf_valid _ _ _ W Hb) as [Vk Vi]. assert (Hin : inside b k i = false) by (apply not_true_iff_false; intros H; assert (has live k i = true) by (apply has_spec; eauto); congruence).
  split; [|done]. apply not_true_iff_false. intros H. pose proof H as [Hle E]%inside_spec. cbn [fst snd] in *. destruct (decide (k = b.1)) as [Ek|Hne].
  - rewrite Ek, Nat.sub_diag in E. change (pow 0) with 1 in E. rewrite Z.div_1_r in E. destruct b as [k' j]. cbn in *. subst. by rewrite inside_refl in Hin.
  - destruct H2 as [->|H2]; [lia|]. pose proof (buddy_above N live W k i b.1 ltac:(lia) H2 ltac:(lia)) as Hs. rewrite E in Hs.
    apply small_spec in Hs as (c & Hc & Hlt & Hins). assert (Hcb : c <> b) by (intros ->; lia).
    assert (Hap : apart c b). { pose proof Hc as [l Hp]%elem_of_Permutation. apply (bwf_perm _ _ _ Hp) in W as (_ & Wc & _). rewrite Hp in Hb. apply elem_of_cons in Hb as [->|Hb]; [done|]. rewrite Forall_forall in Wc. by apply Wc. }
    destruct Hap as [Hap _]. congruence.
Qed.

Lemma isfree_apart live k p b :
  bwf N live -> (k < N)%nat -> isfree N base (has live) k p -> b ∈ live -> p + BLK_SIZE k <= baddr base b.1 b.2 \/ baddr base b.1 b.2 + BLK_SIZE b.1 <= p.
Proof.
  intros W Hk (i & Hi & -> & H1 & H2) Hb. destruct (bwf_valid _ _ _ W Hb) as [Vk Vi]. pose proof (free_apart live k i b W Hk Hi H1 H2 Hb) as Ha. destruct b as [k' j]. apply apart_ranges; [lia|lia|done].
Qed.

Lemma BLK_pos k : 16 <= BLK_SIZE k.
Proof. rewrite BLK_SIZE_pow. pose proof (pow_pos k). lia. Qed.

Lemma baddr_mod k i : base mod 16 = 0 -> baddr base k i mod 16 = 0.
Proof. intros Hb. unfold baddr. rewrite BLK_SIZE_pow, Z.mul_assoc. by rewrite Z_mod_plus_full. Qed.

(** The start of any block inside an allocated one is on no free list. *)
Lemma live_not_free live F k p b :
  bwf N live -> fchar (has live) F -> (k < N)%nat -> b ∈ live -> baddr base b.1 b.2 <= p < baddr base b.1 b.2 + BLK_SIZE b.1 -> p ∉ F k.
Proof. intros W HF Hk Hb Hp Hin. apply HF in Hin; [|done]. pose proof (isfree_apart live k p b W Hk Hin Hb). pose proof (BLK_pos k). lia. Qed.

(** ** Primitive steps *)

Definition vptr (a : bool) (s : bd) (k : nat) : Z := if a then sz_alloc s k else sz_split s k.

Lemma vptr_run a s B F k : rep N base meta pos s B F -> vec N a k -> vptr a s k = pos a k.
Proof. intros [R1 R2 R3 R4 R5 R6 R7] [Hk H1]. destruct a; cbn; [by apply R2|]. apply R3. specialize (H1 eq_refl). lia. Qed.

Lemma bset_run a s B F k i f : rep N base meta pos s B F -> vec N a k -> f s = i -> 0 <= i < nblocks N k -> exists s', bset (fun s => vptr a s k) f s = Ok (tt, s') /\ rep N base meta pos s' (upB B a k i true) F.
Proof using G. intros Hr Hv Hf Hi. unfold bset. rewrite modify_run. eexists. split; [done|]. rewrite Hf, (vptr_run _ _ _ _ _ Hr Hv). by apply rep_bit_set. Qed.

Lemma bclear_run a s B F k i f : rep N base meta pos s B F -> vec N a k -> f s = i -> 0 <= i < nblocks N k -> exists s', bclear (fun s => vptr a s k) f s = Ok (tt, s') /\ rep N base meta pos s' (upB B a k i false) F.
Proof using G. intros Hr Hv Hf Hi. unfold bclear. rewrite modify_run. eexists. split; [done|]. rewrite Hf, (vptr_run _ _ _ _ _ Hr Hv). by apply rep_bit_clear. Qed.

Lemma isset_run a s B F k i : rep N base meta pos s B F -> vec N a k -> 0 <= i < nblocks N k -> bit_isset (bd_mem s) (vptr a s k) i = B a k i.
Proof. intros Hr Hv Hi. rewrite (vptr_run _ _ _ _ _ Hr Hv). by apply (rp_bits _ _ _ _ _ _ _ Hr). Qed.

Lemma push_free_run s B F k p :
  rep N base meta pos s B F -> (k < N)%nat -> p mod 16 = 0 -> meta <= p < base + heap_size N -> (forall k', (k' < N)%nat -> p ∉ F k') ->
  exists s', push_free k p s = Ok (tt, s') /\ rep N base meta pos s' B (upF F k (p :: F k)).
Proof using G. intros. unfold push_free. rewrite modify_run. eexists. split; [done|]. by apply rep_push. Qed.

Lemma index_run s B F k i : rep N base meta pos s B F -> (k < N)%nat -> 0 <= i < nblocks N k -> blk_index s k (baddr base k i) = i.
Proof using G. intros Hr Hk Hi. rewrite (blk_index_run N base meta pos G s B F k i k) by (done || lia). rewrite Nat.sub_diag. change (pow 0) with 1. apply Z.div_1_r. Qed.

Lemma index_parent s B F k i : rep N base meta pos s B F -> (S k < N)%nat -> 0 <= i < nblocks N k -> blk_index s (S k) (baddr base k i) = i / 2.
Proof using G. intros Hr Hk Hi. rewrite (blk_index_run N base meta pos G s B F k i (S k)) by (done || lia). by replace (S k - k)%nat with 1%nat by lia. Qed.

Lemma vec_true k : (k < N)%nat -> vec N true k.
Proof. by split. Qed.

Lemma vec_false k : (S k < N)%nat -> vec N false (S k).
Proof. split; [done|]. lia. Qed.

(** ** What the operations leave alone *)

(** The bytes of the allocated blocks (behind the data structures). *)
Definition keeps (live : list (nat * Z)) (s s' : bd) : Prop :=
  forall b x, b ∈ live -> meta <= x -> baddr base b.1 b.2 <= x < baddr base b.1 b.2 + BLK_SIZE b.1 -> load8 (bd_mem s') x = load8 (bd_mem s) x.

Lemma keeps_refl live s : keeps live s s.
Proof. by intros b x. Qed.

Lemma keeps_trans live s1 s2 s3 : keeps live s1 s2 -> keeps live s2 s3 -> keeps live s1 s3.
Proof. intros H1 H2 b x Hb Hm Hx. by rewrite (H2 b x), (H1 b x). Qed.

Lemma bset_quiet a s B F k i f s' live :
  bset (fun s => vptr a s k) f s = Ok (tt, s') -> rep N base meta pos s B F -> vec N a k -> f s = i -> 0 <= i < nblocks N k -> keeps live s s'.
Proof using G.
  intros E Hr Hv Hf Hi b x _ Hm _. unfold bset in E. rewrite modify_run in E. injection E as <-. cbn [bd_mem upd_bmem]. rewrite Hf, (vptr_run _ _ _ _ _ Hr Hv). pose proof (vec_region N base meta pos G a k i Hv Hi). apply bit_set_out. lia.
Qed.

Lemma bclear_quiet a s B F k i f s' live :
  bclear (fun s => vptr a s k) f s = Ok (tt, s') -> rep N base meta pos s B F -> vec N a k -> f s = i -> 0 <= i < nblocks N k -> keeps live s s'.
Proof using G.
  intros E Hr Hv Hf Hi b x _ Hm _. unfold bclear in E. rewrite modify_run in E. injection E as <-. cbn [bd_mem upd_bmem]. rewrite Hf, (vptr_run _ _ _ _ _ Hr Hv). pose proof (vec_region N base meta pos G a k i Hv Hi). apply bit_clear_out. lia.
Qed.

(** The cells of the free lists are outside the allocated blocks. *)
Lemma cells_off s B F live k b x :
  rep N base meta pos s B F -> bwf N live -> fchar (has live) F -> (k < N)%nat -> b ∈ live -> meta <= x -> baddr base b.1 b.2 <= x < baddr base b.1 b.2 + BLK_SIZE b.1 -> off_cells x (sz_free s k :: F k).
Proof using G.
  intros Hr W HF Hk Hb Hm Hx c Hc. apply elem_of_cons in Hc as [->|Hc]; [rewrite (sz_free_at N base meta pos s B F k Hr); pose proof (head_before N base meta pos G s B F k Hr Hk); lia|].
  apply HF in Hc; [|done]. pose proof (isfree_apart live k c b W Hk Hc Hb). pose proof (BLK_pos k). lia.
Qed.

Lemma remove_quiet s B F live k q xs ys :
  rep N base meta pos s B F -> bwf N live -> fchar (has live) F -> (k < N)%nat -> F k = xs ++ q :: ys -> keeps live s (upd_bmem (fun m => lst_remove m q) s).
Proof using G.
  intros Hr W HF Hk E b x Hb Hm Hx. pose proof (rp_list _ _ _ _ _ _ _ Hr k Hk) as Hd. rewrite E in Hd. apply (lst_remove_frame _ _ xs q ys _ Hd). rewrite <- E. by apply (cells_off s B F live k b).
Qed.

Lemma pop_quiet s B F live k p l s' :
  rep N base meta pos s B F -> bwf N live -> fchar (has live) F -> (k < N)%nat -> F k = p :: l -> pop_free k s = Ok (p, s') -> keeps live s s'.
Proof using G.
  intros Hr W HF Hk E Ep. pose proof (rp_list _ _ _ _ _ _ _ Hr k Hk) as Hd. rewrite E in Hd. unfold pop_free in Ep. rewrite (lst_pop_run _ _ _ _ Hd) in Ep. injection Ep as <-. exact (remove_quiet s B F live k p [] l Hr W HF Hk E).
Qed.

Lemma push_quiet s B F live k p s' c :
  rep N base meta pos s B F -> bwf N (c :: live) -> fchar (has (c :: live)) F -> (k < N)%nat -> p mod 16 = 0 -> meta <= p < base + heap_size N -> baddr base c.1 c.2 <= p -> p + 16 <= baddr base c.1 c.2 + BLK_SIZE c.1 ->
  push_free k p s = Ok (tt, s') -> keeps live s s'.
Proof using G.
  intros Hr W HF Hk Hp Hpr Hc1 Hc2 E b x Hb Hm Hx. unfold push_free in E. rewrite modify_run in E. injection E as <-. cbn [bd_mem upd_bmem]. pose proof (head_before N base meta pos G s B F k Hr Hk). destruct (ge_base _ _ _ _ G) as (Hb0 & _ & Hhi).
  pose proof (ge_meta _ _ _ _ G) as (_ & Hm0 & _). apply (lst_push_frame _ _ (F k)); [apply (rp_list _ _ _ _ _ _ _ Hr k Hk)|split; [done|lia]|rewrite (sz_free_at N base meta pos s B F k Hr); lia|].
  intros d Hd. apply elem_of_cons in Hd as [->|Hd]; [|apply (cells_off s B F (c :: live) k b x Hr W HF Hk); [by right|done|done|done]].
  pose proof W as ([_ Vc] & Wa & Wl). rewrite Forall_forall in Wa. pose proof (Wa b Hb) as Ha. destruct (bwf_valid _ _ _ Wl Hb) as [_ Vb]. destruct c as [kc ic], b as [kb ib]. cbn [fst snd] in *. destruct (apart_ranges base kc ic kb ib ltac:(lia) ltac:(lia) Ha); lia.
Qed.

(** ** The free lists when one bit changes *)

Lemma isfree_at h k i : 0 <= i -> isfree N base h k (baddr base k i) <-> i < nblocks N k /\ h k i = false /\ (k = (N - 1)%nat \/ h k (buddy_of i) = true).
Proof.
  intros Hi. split.
  - intros (j & Hj & E & H1 & H2). apply baddr_inj in E as ->. split; [lia|done].
  - intros (H1 & H2 & H3). exists i. by split_and!.
Qed.

Lemma fchar_set h h' F k i l' :
  fchar h F -> 0 <= i -> (forall k' i', (k' < N)%nat -> 0 <= i' -> h' k' i' = if decide (k = k' /\ i = i') then negb (h k i) else h k' i') ->
  (forall q, q <> baddr base k i -> q <> baddr base k (buddy_of i) -> q ∈ l' <-> q ∈ F k) ->
  (baddr base k i ∈ l' <-> isfree N base h' k (baddr base k i)) -> (baddr base k (buddy_of i) ∈ l' <-> isfree N base h' k (baddr base k (buddy_of i))) ->
  fchar h' (upF F k l').
Proof.
  unfold fchar. intros HF Hi Hh Hl H1 H2 k' q Hk'. set (h2 := fun k' i' => if decide (k = k' /\ i = i') then negb (h k i) else h k' i').
  assert (E : isfree N base h' k' q <-> isfree N base h2 k' q) by (apply isfree_ext; intros j Hj; by apply Hh). unfold upF. destruct (decide (k = k')) as [<-|Hne].
  - destruct (decide (q = baddr base k i)) as [->|N1]; [done|]. destruct (decide (q = baddr base k (buddy_of i))) as [->|N2]; [done|].
    rewrite E, Hl, HF by done. symmetry. apply (isfree_other N base h h2 k i); [done|done|by right].
  - rewrite E, HF by done. symmetry. apply (isfree_other N base h h2 k i); [done|done|by left].
Qed.

Lemma dlist_nodup s B F k : rep N base meta pos s B F -> (k < N)%nat -> NoDup (F k).
Proof. intros Hr Hk. destruct (rp_list _ _ _ _ _ _ _ Hr k Hk) as (Hn & _). by apply NoDup_cons in Hn as [_ ?]. Qed.

Lemma baddr_ne_buddy k i : 0 <= i -> baddr base k i <> baddr base k (buddy_of i).
Proof. intros Hi E. apply baddr_inj in E. by apply (buddy_ne i Hi). Qed.

(** The top block has no buddy in the heap. *)
Lemma top_index i : 0 <= i < nblocks N (N - 1) -> i = 0.
Proof. unfold nblocks. rewrite Nat.sub_diag. change (pow 0) with 1. lia. Qed.

(** ** A block leaves its free list *)

Lemma take_block s live F k p l :
  binvF s live F -> (k < N)%nat -> F k = p :: l ->
  exists i s1 s', 0 <= i < nblocks N k /\ p = baddr base k i /\ meta <= p /\ pop_free k s = Ok (p, s1) /\
    bset (fun s => sz_alloc s k) (fun s => blk_index s k p) s1 = Ok (tt, s') /\ binvF s' ((k, i) :: live) (upF F k l) /\ keeps live s s'.
Proof using G.
  intros [W R HF] Hk E. assert (Hin : p ∈ F k) by (rewrite E; by left). pose proof (rp_cells _ _ _ _ _ _ _ R k p Hk Hin) as Hp. pose proof (dlist_nodup _ _ _ _ R Hk) as Hnd. rewrite E in Hnd. apply NoDup_cons in Hnd as [Hnd _].
  pose proof Hin as (i & Hi & -> & H1 & H2)%HF; [|done]. destruct (pop_free_run N base meta pos G s _ F k _ l R Hk E) as (s1 & E1 & R1).
  destruct (bset_run true s1 _ _ k i (fun s => blk_index s k (baddr base k i)) R1 (vec_true k Hk) (index_run _ _ _ k i R1 Hk Hi) Hi) as (s' & E2 & R2).
  exists i, s1, s'. split_and!; [lia|lia|done|lia|done|done| |eapply keeps_trans; [exact (pop_quiet _ _ _ _ _ _ _ _ R W HF Hk E E1)|exact (bset_quiet true _ _ _ _ _ _ _ _ E2 R1 (vec_true k Hk) (index_run _ _ _ k i R1 Hk Hi) Hi)]]. split.
  - split; [by split|]. split; [|done]. apply Forall_forall. intros b Hb. by apply (free_apart live k i b W Hk Hi).
  - eapply rep_ext; [exact R2| |done]. intros [|] k' i' [Hk' _] Hi'; cbn [bits].
    + by rewrite upB_true, (alloc_has N live W) by (done || lia).
    + by rewrite upB_other, (alloc_small N live W) by (done || lia).
  - assert (Hh : forall k' i', (k' < N)%nat -> has ((k, i) :: live) k' i' = if decide (k = k' /\ i = i') then negb (has live k i) else has live k' i') by (intros k' i' Hk'; rewrite H1; apply (alloc_has N live W); (done || lia)).
    pose proof (baddr_ne_buddy k i ltac:(lia)) as Hbn. pose proof (buddy_nonneg i ltac:(lia)) as Hb0. pose proof (buddy_ne i ltac:(lia)).
    apply (fchar_set (has live) _ F k i l HF); [lia|by auto| | |].
    + intros q N1 N2. rewrite E, elem_of_cons. tauto.
    + rewrite isfree_at, Hh, decide_True by (done || lia). rewrite H1. split; [done|]. intros (_ & ? & _). done.
    + assert (Hq : baddr base k (buddy_of i) ∈ l <-> baddr base k (buddy_of i) ∈ F k) by (rewrite E, elem_of_cons; split; [by right|intros [?|?]; [congruence|done]]).
      unfold fchar in HF. rewrite Hq, HF, !isfree_at, Hh, decide_False by (done || lia || (intros [_ ?]; congruence)). destruct H2 as [->|H2]; [|rewrite H2; split; intros (_ & ? & _); done].
      pose proof (top_index i Hi). subst i. unfold nblocks. rewrite Nat.sub_diag. change (buddy_of 0) with 1. change (pow 0) with 1. lia.
Qed.

(** ** A block is split *)

Lemma baddr_S k i : baddr base (S k) i = baddr base k (2 * i).
Proof. unfold baddr. rewrite !BLK_SIZE_pow, pow_S. lia. Qed.

Lemma split_step s live F k i :
  binvF s ((S k, i) :: live) F -> (S k < N)%nat -> meta <= baddr base (S k) i ->
  exists s1 s2 s' F', bset (fun s => sz_split s (S k)) (fun s => blk_index s (S k) (baddr base (S k) i)) s = Ok (tt, s1) /\
    bset (fun s => sz_alloc s k) (fun s => blk_index s k (baddr base (S k) i)) s1 = Ok (tt, s2) /\
    push_free k (baddr base (S k) i + BLK_SIZE k) s2 = Ok (tt, s') /\ binvF s' ((k, 2 * i) :: live) F' /\ keeps live s s'.
Proof using G.
  intros [W R HF] Hk Hm. pose proof W as ([_ Vi] & Wa & Wl). cbn [fst snd] in Vi. pose proof (child_range N k i 0 Hk Vi ltac:(lia)) as Hc0. pose proof (child_range N k i 1 Hk Vi ltac:(lia)) as Hc1. rewrite Z.add_0_r in Hc0.
  assert (Hb : buddy_of (2 * i) = 2 * i + 1) by (destruct (buddy_cases (2 * i)) as (j & Hj & Ej & [[? ?]|[? ?]]); lia).
  assert (Hh0 : has live k (2 * i) = false) by (apply (fresh_half N live Wl); [lia|]; by replace (2 * i / 2) with i by (Z.div_mod_to_equations; lia)).
  assert (Hh1 : has live k (2 * i + 1) = false) by (apply (fresh_half N live Wl); [lia|]; by replace ((2 * i + 1) / 2) with i by (Z.div_mod_to_equations; lia)).
  destruct (bset_run false s _ _ (S k) i (fun s => blk_index s (S k) (baddr base (S k) i)) R (vec_false k Hk) (index_run _ _ _ (S k) i R Hk Vi) Vi) as (s1 & E1 & R1).
  assert (Hx : blk_index s1 k (baddr base (S k) i) = 2 * i) by (rewrite baddr_S; by apply (index_run _ _ _ k _ R1); [lia|]).
  destruct (bset_run true s1 _ _ k (2 * i) (fun s => blk_index s k (baddr base (S k) i)) R1 (vec_true k ltac:(lia)) Hx Hc0) as (s2 & E2 & R2).
  assert (Hq : baddr base (S k) i + BLK_SIZE k = baddr base k (2 * i + 1)) by (rewrite baddr_S; unfold baddr; lia). destruct (ge_base _ _ _ _ G) as (_ & Hba & _).
  assert (Hqr : meta <= baddr base (S k) i + BLK_SIZE k < base + heap_size N). { pose proof (BLK_pos k). pose proof (blk_range N k (2 * i + 1) ltac:(lia) Hc1). rewrite Hq in *. unfold baddr in *. lia. }
  destruct (push_free_run s2 _ F k (baddr base (S k) i + BLK_SIZE k) R2) as (s' & E3 & R3); [lia|rewrite Hq; by apply baddr_mod|done| |].
  { intros k' Hk'. apply (live_not_free _ _ _ _ (S k, i) W HF Hk'); [by left|]. cbn [fst snd]. pose proof (BLK_pos k). rewrite !BLK_SIZE_pow, pow_S in *. lia. }
  assert (HK : keeps live s s').
  { eapply keeps_trans; [exact (bset_quiet false _ _ _ _ _ _ _ _ E1 R (vec_false k Hk) (index_run _ _ _ (S k) i R Hk Vi) Vi)|]. eapply keeps_trans; [exact (bset_quiet true _ _ _ _ _ _ _ _ E2 R1 (vec_true k ltac:(lia)) Hx Hc0)|].
    apply (push_quiet s2 _ F live k _ _ (S k, i) R2 W HF ltac:(lia)) in E3; [done|rewrite Hq; by apply baddr_mod|done|..]; cbn [fst snd]; pose proof (BLK_pos k); [lia|]. rewrite !BLK_SIZE_pow, pow_S in *. lia. }
  exists s1, s2, s', (upF F k (baddr base (S k) i + BLK_SIZE k :: F k)). split_and!; [done|done|done| |done]. split.
  - split; [split; cbn; [lia|done]|]. split; [|done]. apply Forall_forall. intros b Hin. rewrite Forall_forall in Wa. destruct (Wa b Hin) as [A1 A2]. cbn [fst snd] in *. split.
    + cbn [fst snd]. rewrite inside_parent by lia. replace (2 * i / 2) with i by (Z.div_mod_to_equations; lia). rewrite A1, orb_false_r. apply bool_decide_eq_false. intros [Ek Ei].
      assert (has live k (2 * i) = true); [|congruence]. apply has_spec. exists b. split; [done|]. destruct b as [kb ib]. cbn in *. subst. apply inside_refl.
    + apply not_true_iff_false. intros H. assert (has live k (2 * i) = true); [|congruence]. apply has_spec. by exists b.
  - eapply rep_ext; [exact R3| |done]. intros [|] k' i' Hv Hi'; cbn [bits].
    + rewrite upB_true, upB_other by done. cbn [bits]. rewrite (split_has live k i (2 * i)) by lia. done.
    + rewrite upB_other, upB_false by done. cbn [bits]. rewrite (split_small live k i (2 * i)) by lia. done.
  - assert (Hhi : has ((S k, i) :: live) k (2 * i) = false) by (rewrite has_cons, inside_lt, Hh0 by lia; done). assert (Hhj : has ((S k, i) :: live) k (2 * i + 1) = false) by (rewrite has_cons, inside_lt, Hh1 by lia; done).
    assert (Hn : forall k' i', has ((k, 2 * i) :: live) k' i' = if decide (k = k' /\ 2 * i = i') then negb (has ((S k, i) :: live) k (2 * i)) else has ((S k, i) :: live) k' i') by (intros; rewrite Hhi; apply split_has; lia).
    pose proof HF as HF'. unfold fchar in HF'. pose proof (buddy_buddy (2 * i) ltac:(lia)) as Hbb. rewrite Hb in Hbb.
    apply (fchar_set (has ((S k, i) :: live)) _ F k (2 * i) _ HF); [lia|by auto| | |]; rewrite ?Hb, Hq.
    + intros q _ N2. rewrite elem_of_cons. tauto.
    + rewrite elem_of_cons, HF', !isfree_at, Hb, Hhj, Hn, decide_True, Hhi by (done || lia). split; [intros [E|(_ & _ & [?|?])]; [apply baddr_inj in E; lia|lia|done]|]. by intros (_ & ? & _).
    + rewrite isfree_at, Hbb, !Hn, decide_False, Hhj, decide_True, Hhi by (done || lia). split; [intros _; split; [lia|split; [done|by right]]|by left].
Qed.

Lemma split_loop_run d fk : forall s live F i,
  binvF s (((fk + d)%nat, i) :: live) F -> (fk + d < N)%nat -> meta <= baddr base (fk + d) i ->
  exists s' F', split_loop d fk (baddr base (fk + d) i) s = Ok (tt, s') /\ binvF s' ((fk, i * pow d) :: live) F' /\ baddr base fk (i * pow d) = baddr base (fk + d) i /\ keeps live s s'.
Proof using G.
  induction d as [|d IH]; intros s live F i Hi Hk Hm.
  - rewrite Nat.add_0_r in *. exists s, F. change (pow 0) with 1. rewrite Z.mul_1_r. split_and!; [done..|apply keeps_refl].
  - cbn [split_loop]. replace (fk + S d)%nat with (S (fk + d)) in * by lia. replace (S (fk + d) - 1)%nat with (fk + d)%nat by lia.
    destruct (split_step s live F (fk + d) i Hi Hk Hm) as (s1 & s2 & s3 & F' & E1 & E2 & E3 & Hi' & K1). rewrite (bind_Ok _ _ _ _ _ E1), (bind_Ok _ _ _ _ _ E2), (bind_Ok _ _ _ _ _ E3).
    destruct (IH s3 live F' (2 * i) Hi' ltac:(lia)) as (s' & F'' & E & Hi'' & Ea & K2); [by rewrite <- baddr_S|]. rewrite <- baddr_S in E, Ea. rewrite pow_S. replace (i * (2 * pow d)) with (2 * i * pow d) by lia. exists s', F''. split_and!; [done..|]. by eapply keeps_trans.
Qed.

(** ** bd_malloc *)

Lemma find_size_run f s live F : binvF s live F -> forall k, (k + f = N)%nat ->
  match find_size f s k with
  | Some k' => (k <= k' < N)%nat /\ F k' <> []
  | None => forall k', (k <= k' < N)%nat -> F k' = []
  end.
Proof.
  intros [W R HF]. induction f as [|f IH]; intros k Hk; cbn [find_size]; [intros k' Hk'; lia|]. rewrite (lst_empty_run _ _ _ _ _ _ _ k R) by lia. destruct (decide (F k = [])) as [E|E].
  - rewrite bool_decide_eq_true_2 by done. cbn [negb]. specialize (IH (S k) ltac:(lia)). destruct (find_size f s (S k)) as [k'|]; [split; [lia|apply IH]|].
    intros k' Hk'. destruct (decide (k = k')) as [<-|Hne]; [done|]. apply IH. lia.
  - rewrite bool_decide_eq_false_2 by done. cbn [negb]. split; [lia|done].
Qed.

(** A block apart from all allocated ones lies in a free one. *)
Lemma free_above live d : forall k i, bwf N live -> (k + d = N - 1)%nat -> (k < N)%nat -> 0 <= i < nblocks N k -> Forall (apart (k, i)) live ->
  exists k' j, (k <= k' < N)%nat /\ 0 <= j < nblocks N k' /\ inside (k, i) k' j = true /\ isfree N base (has live) k' (baddr base k' j).
Proof.
  induction d as [|d IH]; intros k i W Hd Hk Hi Hf; pose proof (fresh_has live k i Hf) as Hh.
  - exists k, i. split; [lia|]. split; [done|]. split; [apply inside_refl|]. exists i. split_and!; [lia|lia|done|done|left; lia].
  - destruct (has live k (buddy_of i)) eqn:Hb; [exists k, i; split; [lia|]; split; [done|]; split; [apply inside_refl|]; exists i; split_and!; [lia|lia|done|done|by right]|].
    destruct (IH (S k) (i / 2) W) as (k' & j & Hk' & Hj & Hin & Hp); [lia|lia|apply parent_range; (done || lia)| |exists k', j; split; [lia|]; split; [done|]; split; [by rewrite inside_parent, Hin, orb_true_r by lia|done]].
    rewrite Forall_forall in Hf |- *. intros b Hbl. destruct (Hf b Hbl) as [A1 A2]. cbn [fst snd] in *. split; cbn [fst snd].
    + rewrite inside_parent in A1 by lia. by apply orb_false_iff in A1 as [_ ?].
    + apply not_true_iff_false. intros H. pose proof H as [Hle E]%inside_spec. destruct (decide (b.1 = S k)) as [Eb|Hne].
      * rewrite Eb, Nat.sub_diag in E. change (pow 0) with 1 in E. rewrite Z.div_1_r in E. rewrite Eb, E, inside_parent, inside_refl, orb_true_r in A1 by lia. done.
      * assert (Hs : small live (S k) (i / 2) = true) by (apply small_spec; exists b; split_and!; [done|lia|done]). rewrite (small_parent N live W), Hh, Hb in Hs by lia. done.
Qed.

Lemma bd_malloc_run s live F n fk :
  binvF s live F -> firstk n = Some fk ->
  (exists i s' F', bd_malloc n s = Ok (baddr base fk i, s') /\ binvF s' ((fk, i) :: live) F' /\ meta <= baddr base fk i /\ keeps live s s') \/
  (bd_malloc n s = Ok (0, s) /\ forall i, valid N (fk, i) -> Exists (fun b => ~ apart (fk, i) b) live).
Proof using G.
  intros Hi Ef. pose proof Hi as [W R HF]. unfold bd_malloc. rewrite bind_run, gets_run, Ef. destruct (rp_globals _ _ _ _ _ _ _ R) as (EN & _ & _). unfold id. rewrite EN.
  destruct (decide (fk < N)%nat) as [Hlt|Hge]; [|right; replace (N - fk)%nat with 0%nat by lia; split; [done|intros i [Hv _]; cbn in Hv; lia]].
  pose proof (find_size_run (N - fk) s live F Hi fk ltac:(lia)) as Hf. destruct (find_size (N - fk) s fk) as [k|].
  - left. destruct Hf as [Hk Hne]. destruct (F k) as [|p l] eqn:E; [done|]. destruct (take_block s live F k p l Hi ltac:(lia) E) as (i & s1 & s2 & Hri & -> & Hm & E1 & E2 & Hi2 & K1). rewrite (bind_Ok _ _ _ _ _ E1), (bind_Ok _ _ _ _ _ E2).
    destruct (split_loop_run (k - fk) fk s2 live (upF F k l) i) as (s' & F' & E3 & Hi3 & Ea & K2); replace (fk + (k - fk))%nat with k in * by lia; [done|lia|done|]. rewrite (bind_Ok _ _ _ _ _ E3). exists (i * pow (k - fk)), s', F'. rewrite Ea. split_and!; [done..|]. by eapply keeps_trans.
  - right. split; [done|]. intros i [_ Hv]. cbn [fst snd] in Hv. apply not_Forall_Exists; [intros b; unfold apart; apply _|]. intros Ha. destruct (free_above live (N - 1 - fk) fk i W ltac:(lia) Hlt Hv Ha) as (k' & j & Hk' & _ & _ & Hp). apply HF in Hp; [|lia]. rewrite Hf in Hp by lia. by apply elem_of_nil in Hp.
Qed.

(** ** bd_free *)

(** The split bits below a block are clear, and the one above is set. *)
Lemma size_run s live F k i : binvF s ((k, i) :: live) F -> (S k < N)%nat -> size_ s (baddr base k i) = k.
Proof using G.
  intros [W R HF] Hk. pose proof W as ([_ Vi] & Wa & Wl). cbn [fst snd] in Vi. unfold size_. destruct (rp_globals _ _ _ _ _ _ _ R) as (-> & _ & _).
  assert (H : forall f k0, (k0 <= k)%nat -> (k - k0 < f)%nat -> size_loop f s k0 (baddr base k i) = k); [|apply H; lia].
  induction f as [|f IH]; intros k0 Hk0 Hf; [lia|]. cbn [size_loop]. assert (Hv : vec N false (S k0)) by (apply vec_false; lia). destruct (decide (k0 = k)) as [->|Hne].
  - rewrite (index_parent _ _ _ k i R Hk Vi). rewrite (isset_run false _ _ _ _ _ R Hv (parent_range N k i Hk Vi) : bit_isset (bd_mem s) (sz_split s (S k)) _ = _). cbn [bits]. rewrite small_cons. cbn [fst].
    rewrite (proj2 (Nat.ltb_lt _ _)), inside_parent, inside_refl, orb_true_r by lia. done.
  - set (j := i * pow (k - S k0)). assert (Hj : 0 <= j < nblocks N (S k0)). { unfold j, nblocks in *. pose proof (pow_pos (k - S k0)). replace (N - 1 - S k0)%nat with ((N - 1 - k) + (k - S k0))%nat by lia. rewrite pow_add. nia. }
    assert (Ea : baddr base k i = baddr base (S k0) j) by (unfold baddr, j; rewrite !BLK_SIZE_pow; replace k with (S k0 + (k - S k0))%nat at 1 by lia; rewrite pow_add; lia).
    assert (Eb : bit_isset (bd_mem s) (sz_split s (S k0)) (blk_index s (S k0) (baddr base k i)) = small ((k, i) :: live) (S k0) j).
    { rewrite Ea, (index_run _ _ _ (S k0) j R) by (done || lia). exact (isset_run false _ _ _ _ _ R Hv Hj). }
    assert (Es : small ((k, i) :: live) (S k0) j = false). { rewrite small_cons. cbn [fst]. rewrite (proj2 (Nat.ltb_ge _ _)) by lia. cbn [andb orb]. apply not_true_iff_false. intros Hs. apply (small_up N live Wl _ _ k) in Hs; [|lia].
      apply has_small in Hs. unfold j in Hs. rewrite Z.div_mul in Hs by (pose proof (pow_pos (k - S k0)); lia). by rewrite (fresh_has live k i Wa) in Hs. }
    rewrite Eb, Es. apply IH; lia.
Qed.

(** The buddy is in use: the block becomes free. *)
Lemma drop_step s live F k i :
  binvF s ((k, i) :: live) F -> (S k < N)%nat -> meta <= baddr base k i -> has live k (buddy_of i) = true -> forall s1, rep N base meta pos s1 (upB (bits ((k, i) :: live)) true k i false) F ->
  exists s' F', push_free k (baddr base k i) s1 = Ok (tt, s') /\ binvF s' live F' /\ keeps live s1 s'.
Proof using G.
  intros [W R HF] Hk Hm Hb s1 R1. pose proof W as ([_ Vi] & Wa & Wl). cbn [fst snd] in Vi. pose proof (fresh_has live k i Wa) as Hh. destruct (ge_base _ _ _ _ G) as (_ & Hba & _).
  destruct (push_free_run s1 _ F k (baddr base k i) R1) as (s' & E & R2); [lia|by apply baddr_mod| | |].
  { pose proof (blk_range N k i ltac:(lia) Vi). pose proof (BLK_pos k). unfold baddr in *. lia. }
  { intros k' Hk'. apply (live_not_free _ _ _ _ (k, i) W HF Hk'); [by left|]. cbn [fst snd]. pose proof (BLK_pos k). lia. }
  assert (HK : keeps live s1 s').
  { apply (push_quiet s1 _ F live k _ _ (k, i) R1 W HF ltac:(lia)) in E; [done|by apply baddr_mod| |..]; cbn [fst snd]; pose proof (BLK_pos k); [|lia|lia]. pose proof (blk_range N k i ltac:(lia) Vi). unfold baddr in *. lia. }
  exists s', (upF F k (baddr base k i :: F k)). split; [done|]. split; [|done]. split; [done| |].
  - eapply rep_ext; [exact R2| |done]. intros [|] k' i' [Hk' _] Hi'; cbn [bits].
    + rewrite upB_true. cbn [bits]. rewrite (alloc_has N live Wl) by (auto || lia). destruct (decide (k = k' /\ i = i')) as [[<- <-]|]; [by rewrite Hh|done].
    + rewrite upB_other by done. cbn [bits]. by rewrite (alloc_small N live Wl) by (auto || lia).
  - pose proof HF as HF'. unfold fchar in HF'. pose proof (buddy_nonneg i ltac:(lia)). pose proof (buddy_ne i ltac:(lia)) as Hbn. assert (Ht : has ((k, i) :: live) k i = true) by (by rewrite has_cons, inside_refl).
    apply (fchar_set (has ((k, i) :: live)) _ F k i _ HF); [lia| | | |].
    + intros k' i' Hk' Hi'. rewrite (alloc_has N live Wl k i k' i') by (auto || lia). destruct (decide (k = k' /\ i = i')) as [[<- <-]|]; [by rewrite Ht|done].
    + intros q N1 _. rewrite elem_of_cons. tauto.
    + rewrite isfree_at by lia. split; [intros _; split_and!; [lia|done|by right]|by left].
    + rewrite elem_of_cons, HF', !isfree_at, (has_cons (k, i) live k (buddy_of i)), Hb by (done || lia). rewrite orb_true_r. split; [intros [E1|(_ & ? & _)]; [apply baddr_inj in E1; congruence|done]|]. intros (_ & ? & _). done.
Qed.

(** The buddy is free too: the two become their parent. *)
Lemma merge_step s live F k i :
  binvF s ((k, i) :: live) F -> (S k < N)%nat -> has live k (buddy_of i) = false -> forall s1, rep N base meta pos s1 (upB (bits ((k, i) :: live)) true k i false) F ->
  exists s' F', bclear (fun s => sz_split s (S k)) (fun s => blk_index s (S k) (baddr base (S k) (i / 2))) (upd_bmem (fun m => lst_remove m (baddr base k (buddy_of i))) s1) = Ok (tt, s') /\
    binvF s' ((S k, i / 2) :: live) F' /\ meta <= baddr base k (buddy_of i) /\ keeps live s1 s'.
Proof using G.
  intros [W R HF] Hk Hb s1 R1. pose proof W as ([_ Vi] & Wa & Wl). cbn [fst snd] in Vi. pose proof (fresh_has live k i Wa) as Hh. pose proof (buddy_range N k i Hk Vi) as Hbr. pose proof (buddy_buddy i ltac:(lia)) as Hbb. pose proof (buddy_ne i ltac:(lia)) as Hbn.
  pose proof (parent_range N k i Hk Vi) as Hpr. assert (Ht : has ((k, i) :: live) k i = true) by (by rewrite has_cons, inside_refl).
  assert (Hbf : has ((k, i) :: live) k (buddy_of i) = false) by (rewrite has_cons, inside_same, Hb; rewrite (proj2 (Z.eqb_neq _ _)) by congruence; done). pose proof HF as HF'. unfold fchar in HF'.
  assert (Hin : baddr base k (buddy_of i) ∈ F k) by (apply HF'; [lia|]; apply isfree_at; [lia|]; rewrite Hbb; split_and!; [lia|done|by right]). pose proof (rp_cells _ _ _ _ _ _ _ R k _ ltac:(lia) Hin) as Hm.
  pose proof (dlist_nodup _ _ _ k R ltac:(lia)) as Hnd. apply list_elem_of_split in Hin as (xs & ys & E). rewrite E in Hnd.
  pose proof (rep_remove N base meta pos G s1 _ F k xs _ ys R1 ltac:(lia) E) as R2. set (s2 := upd_bmem _ s1) in *.
  destruct (bclear_run false s2 _ _ (S k) (i / 2) (fun s => blk_index s (S k) (baddr base (S k) (i / 2))) R2 (vec_false k Hk) (index_run _ _ _ (S k) _ R2 Hk Hpr) Hpr) as (s' & E3 & R3).
  assert (HK : keeps live s1 s').
  { eapply keeps_trans; [|exact (bclear_quiet false _ _ _ _ _ _ _ _ E3 R2 (vec_false k Hk) (index_run _ _ _ (S k) _ R2 Hk Hpr) Hpr)]. intros b x Hbl. apply (remove_quiet s1 _ F _ k _ _ _ R1 W HF ltac:(lia) E). by right. }
  exists s', (upF F k (xs ++ ys)). split; [done|]. split; [|split; [lia|done]]. destruct (buddy_cases i ltac:(lia)) as (j & Hj & Ej & Hcase). rewrite <- Ej in *. assert (Hci : i = 2 * j \/ i = 2 * j + 1) by lia. split.
  - split; [by split|]. split; [|done]. apply Forall_forall. intros b Hbl. pose proof Wa as Wa'. rewrite Forall_forall in Wa'. destruct (Wa' b Hbl) as [A1 A2]. cbn [fst snd] in *. rewrite inside_parent, <- Ej in A1 by lia. apply orb_false_iff in A1 as [A0 A1]. split; [done|].
    cbn [fst snd]. apply not_true_iff_false. intros H. pose proof H as [Hle Eb]%inside_spec. destruct (decide (b.1 = S k)) as [Ek|Hne].
    + rewrite Ek, Nat.sub_diag in Eb. change (pow 0) with 1 in Eb. rewrite Z.div_1_r in Eb. by rewrite Ek, Eb, inside_refl in A1.
    + assert (Hs : small live (S k) j = true) by (apply small_spec; exists b; split_and!; [done|lia|done]). rewrite Ej, (small_parent N live Wl), Hh, Hb in Hs by lia. done.
  - eapply rep_ext; [exact R3| |done]. intros [|] k' i' [Hk' _] Hi'; cbn [bits].
    + rewrite upB_other, upB_true by done. cbn [bits]. rewrite (split_has live k j i) by (done || lia). destruct (decide (k = k' /\ i = i')) as [[<- <-]|]; [|done]. rewrite has_cons, inside_lt, Hh by lia. done.
    + rewrite upB_false, upB_other by done. cbn [bits]. rewrite (split_small live k j i) by (done || lia). destruct (decide (S k = k' /\ j = i')) as [[<- <-]|]; [|done]. rewrite small_cons. cbn [fst]. rewrite Nat.ltb_irrefl. cbn [andb orb]. rewrite Ej, (small_parent N live Wl), Hh, Hb by lia. done.
  - apply (fchar_set (has ((k, i) :: live)) _ F k i _ HF); [lia| | | |].
    + intros k' i' Hk' Hi'. rewrite (split_has live k j i k' i') by (done || lia). destruct (decide (k = k' /\ i = i')) as [[<- <-]|]; [|done]. rewrite Ht, has_cons, inside_lt, Hh by lia. done.
    + intros q _ N2. rewrite E, !elem_of_app, elem_of_cons. tauto.
    + rewrite isfree_at by lia. assert (Hn : baddr base k i ∉ F k) by (rewrite HF', isfree_at, Ht by lia; by intros (_ & ? & _)). rewrite !has_cons, !inside_lt, Hb by lia. split; [intros Hx; destruct Hn; rewrite E; set_solver|]. intros (_ & _ & [?|?]); [lia|done].
    + rewrite isfree_at, Hbb by lia. rewrite !has_cons, !inside_lt, Hh by lia. rewrite NoDup_app, NoDup_cons in Hnd. split; [set_solver|]. intros (_ & _ & [?|?]); [lia|done].
Qed.

(** Every block lies in the top one. *)
Lemma inside_top b i : valid N b -> 0 <= i < nblocks N (N - 1) -> inside b (N - 1) i = true.
Proof.
  intros [Hk Hb] Hi. rewrite (top_index i Hi). apply inside_spec. split; [lia|]. apply Z.div_small. exact Hb.
Qed.

Lemma free_loop_run f : forall k i s live F,
  (k + f = N - 1)%nat -> live <> [] -> binvF s ((k, i) :: live) F -> meta <= baddr base k i ->
  exists r s1 s' F', free_loop f k (baddr base k i) s = Ok (r, s1) /\ push_free r.1 r.2 s1 = Ok (tt, s') /\ binvF s' live F' /\ keeps live s s'.
Proof using G.
  induction f as [|f IH]; intros k i s live F Hf Hne Hi Hm; pose proof Hi as [W R HF]; pose proof W as (V & Wa & Wl); pose proof V as [Vk Vi]; cbn [fst snd] in Vk, Vi.
  - exfalso. destruct live as [|b live]; [done|]. apply Forall_cons in Wa as [[_ A2] _]. destruct Wl as (Vb & _). cbn [fst snd] in A2. replace k with (N - 1)%nat in * by lia. by rewrite inside_top in A2.
  - cbn [free_loop]. assert (Hk : (S k < N)%nat) by lia. rewrite bind_run, gets_run, (index_run _ _ _ k i R Vk Vi). pose proof (buddy_range N k i Hk Vi) as Hbr. pose proof (buddy_ne i ltac:(lia)) as Hbn.
    destruct (bclear_run true s _ _ k i (fun _ => i) R (vec_true k Vk) eq_refl Vi) as (s1 & E1 & R1). rewrite (bind_Ok _ _ _ _ _ E1), bind_run, gets_run.
    assert (Et : bit_isset (bd_mem s1) (sz_alloc s1 k) (buddy_of i) = has live k (buddy_of i)).
    { rewrite (isset_run true _ _ _ _ _ R1 (vec_true k Vk) Hbr : bit_isset (bd_mem s1) (sz_alloc s1 k) _ = _). rewrite upB_true, decide_False by (intros [_ ?]; congruence). cbn [bits]. rewrite has_cons, inside_same. by rewrite (proj2 (Z.eqb_neq _ _)) by congruence. }
    rewrite Et. pose proof (bclear_quiet true _ _ _ _ _ _ _ live E1 R (vec_true k Vk) eq_refl Vi) as K1. destruct (has live k (buddy_of i)) eqn:Hb.
    + destruct (drop_step s live F k i Hi Hk Hm Hb s1 R1) as (s' & F' & E & Hi' & K2). exists (k, baddr base k i), s1, s', F'. split_and!; [done..|]. by eapply keeps_trans.
    + rewrite bind_run, gets_run, (addr_run N base meta pos G _ _ _ k _ R1 Vk Hbr), bind_run, modify_run.
      assert (Ep : (if Z.rem (buddy_of i) 2 =? 0 then baddr base k (buddy_of i) else baddr base k i) = baddr base (S k) (i / 2)).
      { rewrite baddr_S, Z.rem_mod_nonneg by lia. destruct (buddy_cases i ltac:(lia)) as (j & Hj & Ej & [[H1 H2]|[H1 H2]]); rewrite <- Ej, H2; [rewrite (proj2 (Z.eqb_neq _ _)) by (Z.div_mod_to_equations; lia); by rewrite H1|by rewrite (proj2 (Z.eqb_eq _ _)) by (Z.div_mod_to_equations; lia)]. }
      rewrite Ep. destruct (merge_step s live F k i Hi Hk Hb s1 R1) as (s2 & F2 & E2 & Hi2 & Hm2 & K2). rewrite (bind_Ok _ _ _ _ _ E2).
      destruct (IH (S k) (i / 2) s2 live F2) as (r & s3 & s' & F' & E3 & E4 & Hi3 & K3); [lia|done|done|rewrite <- Ep; by case_bool|]. exists r, s3, s', F'. split_and!; [done..|]. eapply keeps_trans; [exact K1|]. by eapply keeps_trans.
Qed.

Lemma bd_free_run s live F k i :
  binvF s ((k, i) :: live) F -> live <> [] -> meta <= baddr base k i -> exists s' F', bd_free (baddr base k i) s = Ok (tt, s') /\ binvF s' live F' /\ keeps live s s'.
Proof using G.
  intros Hi Hne Hm. pose proof Hi as [W R HF]. pose proof W as ([Vk Vi] & Wa & Wl). cbn [fst snd] in Vk, Vi.
  assert (Hk : (S k < N)%nat). { destruct (decide (k = N - 1)%nat) as [->|]; [|lia]. exfalso. destruct live as [|b live]; [done|]. apply Forall_cons in Wa as [[_ A2] _]. destruct Wl as (Vb & _). cbn [fst snd] in A2. by rewrite inside_top in A2. }
  unfold bd_free. rewrite bind_run, gets_run. unfold id. rewrite (size_run s live F k i Hi Hk). assert (EM : MAXSIZE s = (N - 1)%nat) by (unfold MAXSIZE; by destruct (rp_globals _ _ _ _ _ _ _ R) as (-> & _)). rewrite EM.
  destruct (free_loop_run (N - 1 - k) k i s live F ltac:(lia) Hne Hi Hm) as (r & s1 & s' & F' & E1 & E2 & Hi' & K). rewrite (bind_Ok _ _ _ _ _ E1). by exists s', F'.
Qed.

(** ** Order and writes of the client do not matter *)

Lemma binvF_perm s live live' F : live ≡ₚ live' -> binvF s live F -> binvF s live' F.
Proof.
  intros Hp [W R HF]. split.
  - by apply (bwf_perm _ live).
  - eapply rep_ext; [exact R| |done]. intros [|] k i _ _; [by apply has_perm|by apply small_perm].
  - intros k p Hk. rewrite (HF k p Hk). apply isfree_ext. intros i _. by apply has_perm.
Qed.

Lemma client_frame s live F b m' :
  binvF s live F -> b ∈ live -> meta <= baddr base b.1 b.2 ->
  (forall x, x < baddr base b.1 b.2 \/ baddr base b.1 b.2 + BLK_SIZE b.1 <= x -> load8 m' x = load8 (bd_mem s) x) -> binvF (upd_bmem (fun _ => m') s) live F.
Proof using G.
  intros [W R HF] Hb Hm Hout. split; [done| |done]. apply rep_frame; [done|done|intros x Hx; apply Hout; lia|]. intros k p x Hk Hp Hx. apply Hout. apply HF in Hp; [|done]. pose proof (isfree_apart live k p b W Hk Hp Hb). pose proof (BLK_pos k). lia.
Qed.
End inv.
