(* ===== verification/BuddyInit.v ===== *)
(** bd_init: the layout of the data structures in front of the heap, the marks
    for them and for the memory that is not there, and the first free lists. *)

From S2P Require Import Prelude Memory DList Buddy BuddyRep BuddyTree BuddyInv.

(** ** Sizes *)

Lemma log2_loop_run fuel : forall k n, 0 < n -> Z.log2 n < Z.of_nat fuel -> log2_loop fuel k n = (k + Z.to_nat (Z.log2 n))%nat.
Proof.
  induction fuel as [|fuel IH]; intros k n Hn Hf; [pose proof (Z.log2_nonneg n); lia|]. cbn [log2_loop]. destruct (Z.ltb_spec 1 n) as [Hlt|Hge].
  - pose proof (Z.log2_pos n Hlt). pose proof (Z.log2_shiftr n 1 Hn) as E. assert (Hs : 0 < Z.shiftr n 1) by (rewrite Z.shiftr_div_pow2 by lia; change (2 ^ 1) with 2; Z.div_mod_to_equations; lia).
    rewrite IH by lia. lia.
  - assert (n = 1) as -> by lia. cbn. lia.
Qed.

(** The heap is the next power of two. *)
Lemma count_sizes_run k n : (k <= 59)%nat -> pow k * 16 < n < pow (S k) * 16 -> count_sizes n = S (S k).
Proof.
  intros Hk Hn. pose proof (pow_pos k). rewrite pow_S in Hn. assert (E : Z.log2 (n / 16) = Z.of_nat k). { apply Z.log2_unique; [lia|]. rewrite Z.pow_succ_r by lia. fold (pow k). Z.div_mod_to_equations. lia. }
  unfold count_sizes, _log2, LEAF_SIZE. rewrite log2_loop_run by (rewrite ?E; Z.div_mod_to_equations; lia). rewrite E, Nat2Z.id. replace (S (0 + k) - 1)%nat with k by lia. rewrite BLK_SIZE_pow. by rewrite (proj2 (Z.ltb_lt _ _)) by lia.
Qed.

Lemma ROUNDUP_run n sz : 0 < sz -> n <= ROUNDUP n sz < n + sz /\ ROUNDUP n sz mod sz = 0.
Proof. intros Hs. unfold ROUNDUP. split; [Z.div_mod_to_equations; nia|]. by rewrite Z.mod_mul by lia. Qed.

(** ** The layout *)

Section layout.
Context (N : nat) (base : Z).

Definition vb (k : nat) : Z := (nblocks N k + 7) / 8.

Fixpoint vsum (n k : nat) : Z := match n with O => 0 | S n => vb k + vsum n (S k) end.

Definition vpos (a : bool) (k : nat) : Z := base + 32 * Z.of_nat N + (if a then vsum k 0 else vsum N 0 + vsum (k - 1) 1).
Definition layout_end : Z := base + 32 * Z.of_nat N + vsum N 0 + vsum (N - 1) 1.

Lemma vb_pos k : 1 <= vb k.
Proof. unfold vb, nblocks. pose proof (pow_pos (N - 1 - k)). Z.div_mod_to_equations. lia. Qed.

Lemma vsum_app a b k : vsum (a + b) k = vsum a k + vsum b (k + a).
Proof. revert k. induction a as [|a IH]; intros k; cbn [vsum Nat.add]; [by rewrite Nat.add_0_r|]. rewrite IH. replace (S k + a)%nat with (k + S a)%nat by lia. lia. Qed.

Lemma vsum_nonneg n k : 0 <= vsum n k.
Proof. revert k. induction n as [|n IH]; intros k; cbn [vsum]; [lia|]. specialize (IH (S k)). pose proof (vb_pos k). lia. Qed.

Lemma vsum_le a b k : (a <= b)%nat -> vsum a k <= vsum b k.
Proof. intros H. replace b with (a + (b - a))%nat by lia. rewrite vsum_app. pose proof (vsum_nonneg (b - a) (k + a)). lia. Qed.

Lemma vsum_S n k : vsum (S n) k = vsum n k + vb (k + n).
Proof. replace (S n) with (n + 1)%nat by lia. rewrite vsum_app. cbn [vsum]. lia. Qed.

Lemma vsum_bound n k : (k + n <= N)%nat -> 8 * vsum n k <= pow (N - k) + 7 * Z.of_nat n.
Proof.
  revert k. induction n as [|n IH]; intros k Hk; cbn [vsum]; [pose proof (pow_pos (N - k)); lia|]. specialize (IH (S k) ltac:(lia)). unfold vb, nblocks. replace (N - k)%nat with (S (N - 1 - k)) by lia. rewrite pow_S. replace (N - S k)%nat with (N - 1 - k)%nat in IH by lia. Z.div_mod_to_equations. lia.
Qed.

Lemma vpos_end a k : vec N a k -> base + 32 * Z.of_nat N <= vpos a k /\ vpos a k + vb k <= layout_end.
Proof.
  intros [Hk Ha]. unfold vpos, layout_end. pose proof (vsum_nonneg (N - 1) 1). pose proof (vsum_nonneg N 0). pose proof (vsum_nonneg k 0). pose proof (vsum_nonneg (k - 1) 1). destruct a.
  - pose proof (vsum_le (S k) N 0 ltac:(lia)) as H'. rewrite vsum_S in H'. cbn [Nat.add] in H'. lia.
  - specialize (Ha eq_refl). pose proof (vsum_le (S (k - 1)) (N - 1) 1 ltac:(lia)) as H'. rewrite vsum_S in H'. replace (1 + (k - 1))%nat with k in H' by lia. lia.
Qed.

Lemma vpos_lt a k k' : (k < k')%nat -> (a = false -> (1 <= k)%nat) -> vpos a k + vb k <= vpos a k'.
Proof.
  intros Hk Ha. unfold vpos. destruct a.
  - pose proof (vsum_le (S k) k' 0 Hk) as H. rewrite vsum_S in H. cbn [Nat.add] in H. lia.
  - specialize (Ha eq_refl). pose proof (vsum_le (S (k - 1)) (k' - 1) 1 ltac:(lia)) as H. rewrite vsum_S in H. replace (1 + (k - 1))%nat with k in H by lia. lia.
Qed.

Lemma vpos_cross k k' : (k < N)%nat -> vpos true k + vb k <= vpos false k'.
Proof. intros Hk. unfold vpos. pose proof (vsum_le (S k) N 0 Hk) as H. rewrite vsum_S in H. cbn [Nat.add] in H. pose proof (vsum_nonneg (k' - 1) 1). lia. Qed.

Lemma vpos_disj a k a' k' : vec N a k -> vec N a' k' -> (a, k) <> (a', k') -> vpos a k + vb k <= vpos a' k' \/ vpos a' k' + vb k' <= vpos a k.
Proof.
  intros [Hk Ha] [Hk' Ha'] Hne. destruct a, a'.
  - destruct (Nat.lt_total k k') as [?|[->|?]]; [left; by apply vpos_lt|done|right; by apply vpos_lt].
  - left. by apply vpos_cross.
  - right. by apply vpos_cross.
  - destruct (Nat.lt_total k k') as [?|[->|?]]; [left; by apply vpos_lt|done|right; by apply vpos_lt].
Qed.

(** The data structures take less than a quarter of the heap. *)
Lemma layout_small : (8 <= N)%nat -> layout_end + 16 <= base + 4 * pow (N - 1).
Proof.
  intros HN. unfold layout_end. pose proof (vsum_bound N 0 ltac:(lia)) as H1. pose proof (vsum_bound (N - 1) 1 ltac:(lia)) as H2. rewrite Nat.sub_0_r in H1. assert (E : pow N = 2 * pow (N - 1)) by (rewrite <- pow_S; f_equal; lia). rewrite E in H1.
  assert (Hp : 16 * Z.of_nat N <= pow (N - 1)).
  { replace N with (8 + (N - 8))%nat by lia. generalize (N - 8)%nat as d. clear. induction d as [|d IH]; [done|]. replace (8 + S d - 1)%nat with (S (8 + d - 1)) by lia. rewrite pow_S. lia. }
  lia.
Qed.

Lemma layout_geometry meta :
  (8 <= N <= 28)%nat -> 0 < base -> base mod 16 = 0 -> base + heap_size N <= 9223372036854775808 -> meta = ROUNDUP layout_end 16 -> geometry N base meta vpos.
Proof.
  intros HN Hb Ha Hhi ->. destruct (ROUNDUP_run layout_end 16 ltac:(lia)) as [Hr Hm]. pose proof (layout_small ltac:(lia)). pose proof (vpos_end true 0 ltac:(split; [lia|done])). pose proof (vb_pos 0). pose proof (pow_pos (N - 1)). split.
  - lia.
  - done.
  - unfold heap_size in *. lia.
  - intros a k Hv. pose proof (vpos_end a k Hv) as H'. unfold vb in H'. lia.
  - intros a k a' k' Hv Hv' Hne. by apply vpos_disj.
Qed.

(** ** The arrays *)

Definition zeroed (m : mem) (a : bool) (k : nat) : Prop := forall x, vpos a k <= x < vpos a k + vb k -> load8 m x = 0.
Definition alloc_done (m : mem) (j : nat) : Prop := forall k, (k < j)%nat -> dlist m (base + 32 * Z.of_nat k) [] /\ load64 m (base + 32 * Z.of_nat k + 16) = vpos true k /\ zeroed m true k.
Definition split_done (m : mem) (j : nat) : Prop := forall k, (1 <= k < j)%nat -> load64 m (base + 32 * Z.of_nat k + 24) = vpos false k /\ zeroed m false k.

Context (HN : (8 <= N <= 28)%nat) (Hb : 0 < base) (Ha : base mod 16 = 0) (Hhi : base + heap_size N <= 9223372036854775808).

Lemma vector_bytes_run s k : nsizes s = N -> vector_bytes s k = vb k.
Proof. intros E. unfold vector_bytes, NBLK, MAXSIZE, vb, nblocks, ROUNDUP. rewrite E, Z.shiftl_1_l. fold (pow (N - 1 - k)). rewrite Z.div_mul by lia. Z.div_mod_to_equations. lia. Qed.

Lemma layout_word x : x <= layout_end -> 0 <= x -> 0 <= x < 18446744073709551616.
Proof using HN Hhi. pose proof (layout_small ltac:(lia)). pose proof (pow_pos (N - 1)). unfold heap_size in Hhi. lia. Qed.

Lemma head_cell k : (k < N)%nat -> cell (base + 32 * Z.of_nat k).
Proof using HN Hb Ha Hhi.
  intros Hk. split; [Z.div_mod_to_equations; lia|]. apply layout_word; [|lia]. pose proof (vpos_end true k ltac:(by split)). pose proof (vb_pos k). lia.
Qed.

Lemma lst_init_out m h x : x < h \/ h + 16 <= x -> load8 (lst_init m h) x = load8 m x.
Proof. intros Hx. unfold lst_init, set_next, set_prev. by rewrite !load8_store64_ne by lia. Qed.

Definition alloc_one (k : nat) (m : mem) : mem := memset (store64 (lst_init m (base + 32 * Z.of_nat k)) (base + 32 * Z.of_nat k + 16) (vpos true k)) (vpos true k) 0 (vb k).

Lemma alloc_one_out k m x :
  x < base + 32 * Z.of_nat k \/ base + 32 * Z.of_nat k + 24 <= x -> x < vpos true k \/ vpos true k + vb k <= x -> load8 (alloc_one k m) x = load8 m x.
Proof. intros H1 H2. pose proof (vb_pos k). unfold alloc_one. rewrite load8_memset_out by lia. rewrite load8_store64_ne by lia. apply lst_init_out. lia. Qed.

Lemma alloc_one_done k m : (k < N)%nat -> alloc_done m k -> alloc_done (alloc_one k m) (S k).
Proof using HN Hb Ha Hhi.
  intros Hk Hd j Hj. pose proof (vpos_end true k ltac:(by split)) as [Hv1 Hv2]. pose proof (vb_pos k). destruct (decide (j = k)) as [->|Hne].
  - split; [|split].
    + eapply dlist_agree; [|apply (lst_init_empty m), (head_cell k Hk)]. intros a x Hin Hx. apply list_elem_of_singleton in Hin as ->. unfold alloc_one. rewrite load8_memset_out, load8_store64_ne by lia. done.
    + unfold alloc_one. rewrite load64_memset_out by lia. apply load64_store64_eq. apply layout_word; lia.
    + intros x Hx. unfold alloc_one. rewrite load8_memset by lia. case_bool; auto; lia.
  - destruct (Hd j ltac:(lia)) as (D1 & D2 & D3). pose proof (vpos_end true j ltac:(split; [lia|done])) as [Hw1 Hw2]. pose proof (vpos_lt true j k ltac:(lia) ltac:(done)). split; [|split].
    + eapply dlist_agree; [|exact D1]. intros a x Hin Hx. apply list_elem_of_singleton in Hin as ->. apply alloc_one_out; lia.
    + rewrite <- D2. apply load64_agree. intros x Hx. apply alloc_one_out; lia.
    + intros x Hx. rewrite alloc_one_out by lia. by apply D3.
Qed.

Lemma alloc_arrays_run f : forall k m, (k + f = N)%nat -> alloc_done m k ->
  exists m', alloc_arrays f k (vpos true k) (mk_bd N base base m) = Ok (base + 32 * Z.of_nat N + vsum N 0, mk_bd N base base m') /\ alloc_done m' N.
Proof using HN Hb Ha Hhi.
  induction f as [|f IH]; intros k m Hk Hd.
  - exists m. replace k with N in * by lia. by split.
  - cbn [alloc_arrays]. rewrite bind_run, modify_run, bind_run, gets_run, bind_run, modify_run, bind_run, modify_run. rewrite vector_bytes_run by done.
    assert (E : vpos true k + vb k = vpos true (S k)) by (unfold vpos; rewrite vsum_S; cbn [Nat.add]; lia). rewrite E. apply (IH (S k) (alloc_one k m) ltac:(lia)). apply alloc_one_done; [lia|done].
Qed.

Definition split_one (k : nat) (m : mem) : mem := memset (store64 m (base + 32 * Z.of_nat k + 24) (vpos false k)) (vpos false k) 0 (vb k).

Lemma split_one_out k m x : x < base + 32 * Z.of_nat k + 24 \/ base + 32 * Z.of_nat k + 32 <= x -> x < vpos false k \/ vpos false k + vb k <= x -> load8 (split_one k m) x = load8 m x.
Proof. intros H1 H2. pose proof (vb_pos k). unfold split_one. rewrite load8_memset_out by lia. by rewrite load8_store64_ne by lia. Qed.

Lemma split_one_alloc k m : (1 <= k < N)%nat -> alloc_done m N -> alloc_done (split_one k m) N.
Proof using HN.
  intros Hk Hd j Hj. destruct (Hd j Hj) as (D1 & D2 & D3). pose proof (vpos_end false k ltac:(split; lia)) as [Hv1 Hv2]. pose proof (vpos_end true j ltac:(split; [lia|done])) as [Hw1 Hw2]. pose proof (vpos_cross j k Hj). pose proof (vb_pos k). pose proof (vb_pos j). split; [|split].
  - eapply dlist_agree; [|exact D1]. intros a x Hin Hx. apply list_elem_of_singleton in Hin as ->. apply split_one_out; lia.
  - rewrite <- D2. apply load64_agree. intros x Hx. apply split_one_out; lia.
  - intros x Hx. rewrite split_one_out by lia. by apply D3.
Qed.

Lemma split_one_done k m : (1 <= k < N)%nat -> split_done m k -> split_done (split_one k m) (S k).
Proof using HN Hb Ha Hhi.
  intros Hk Hd j Hj. pose proof (vpos_end false k ltac:(split; lia)) as [Hv1 Hv2]. pose proof (vb_pos k). destruct (decide (j = k)) as [->|Hne].
  - split; [|intros x Hx; unfold split_one; rewrite load8_memset by lia; case_bool; auto; lia]. unfold split_one. rewrite load64_memset_out by lia. apply load64_store64_eq. apply layout_word; lia.
  - destruct (Hd j ltac:(lia)) as (D2 & D3). pose proof (vpos_end false j ltac:(split; lia)) as [Hw1 Hw2]. pose proof (vpos_lt false j k ltac:(lia) ltac:(lia)). split.
    + rewrite <- D2. apply load64_agree. intros x Hx. apply split_one_out; lia.
    + intros x Hx. rewrite split_one_out by lia. by apply D3.
Qed.

Lemma split_arrays_run f : forall k m, (k + f = N)%nat -> (1 <= k)%nat -> alloc_done m N -> split_done m k ->
  exists m', split_arrays f k (vpos false k) (mk_bd N base base m) = Ok (layout_end, mk_bd N base base m') /\ alloc_done m' N /\ split_done m' N.
Proof using HN Hb Ha Hhi.
  induction f as [|f IH]; intros k m Hk H1 Hd Hs.
  - exists m. replace k with N in * by lia. split; [|done]. assert (E : vpos false N = layout_end) by (unfold vpos, layout_end; lia). by rewrite E.
  - cbn [split_arrays]. rewrite bind_run, gets_run, bind_run, modify_run, bind_run, modify_run. rewrite vector_bytes_run by done.
    assert (E : vpos false k + vb k = vpos false (S k)). { unfold vpos. replace (S k - 1)%nat with (S (k - 1)) by lia. rewrite vsum_S. replace (1 + (k - 1))%nat with k by lia. lia. }
    rewrite E. apply (IH (S k) (split_one k m)); [lia|lia|apply split_one_alloc; [lia|done]|apply split_one_done; [lia|done]].
Qed.

(** With every vector zero and every list empty nothing is allocated and
    nothing is free. *)
Lemma layout_rep m meta : alloc_done m N -> split_done m N -> rep N base meta vpos (mk_bd N base base m) (fun _ _ _ => false) (fun _ => []).
Proof using HN.
  intros HA HS. split; try done.
  - intros k Hk. by apply HA.
  - intros k Hk. by apply HS.
  - intros a k i [Hk H1] Hi. rewrite bit_isset_testbit. cbn [bd_mem]. assert (Hz : zeroed m a k) by (destruct a; [by apply HA|apply HS; specialize (H1 eq_refl); lia]).
    rewrite Hz; [apply Z.bits_0|]. unfold vb. Z.div_mod_to_equations. lia.
  - intros k Hk. apply HA. done.
  - intros k p Hk Hp. by apply elem_of_nil in Hp.
  - intros k k' p _ _ Hp. by apply elem_of_nil in Hp.
Qed.

End layout.
