(* ===== verification/BuddyBoot.v ===== *)
(** bd_init, continued: the marks, the first free lists, and the state in which
    the allocator starts. *)

From S2P Require Import Prelude Memory DList Buddy BuddyRep BuddyTree BuddyInv BuddyInit.

(** n / 2^k rounded up *)
Definition ceil_pow (n : Z) (k : nat) : Z := (n + pow k - 1) / pow k.

Lemma ceil_pow_le n k c : 0 <= n -> ceil_pow n k <= c <-> n <= c * pow k.
Proof. intros Hn. unfold ceil_pow. pose proof (pow_pos k). split; intros H'; [Z.div_mod_to_equations; nia|]. apply Z.lt_succ_r, Z.div_lt_upper_bound; [done|nia]. Qed.

Lemma ceil_pow_S n k : 0 <= n -> ceil_pow n (S k) = (ceil_pow n k + 1) / 2.
Proof.
  intros Hn. pose proof (pow_pos k) as Hp. assert (H : forall c, ceil_pow n (S k) <= c <-> (ceil_pow n k + 1) / 2 <= c).
  { intros c. rewrite ceil_pow_le by done. rewrite pow_S. transitivity (ceil_pow n k <= 2 * c); [rewrite ceil_pow_le by done; split; intros; nia|]. split; intros; Z.div_mod_to_equations; lia. }
  pose proof (proj1 (H (ceil_pow n (S k))) ltac:(lia)). pose proof (proj2 (H ((ceil_pow n k + 1) / 2)) ltac:(lia)). lia.
Qed.

Lemma ceil_pow_0 n : ceil_pow n 0 = n.
Proof. unfold ceil_pow. change (pow 0) with 1. rewrite Z.div_1_r. lia. Qed.

Section boot.
Context (N : nat) (base meta : Z) (pos : bool -> nat -> Z) (G : geometry N base meta pos).

(** ** Indices of addresses that need not be the start of a block *)

Lemma index_offset s B F k u : rep N base meta pos s B F -> 0 <= u < pow (N - 1) -> blk_index s k (base + 16 * u) = u / pow k.
Proof using G.
  intros [(_ & E & _) _ _ _ _ _ _] Hu. unfold blk_index. rewrite E. replace (base + 16 * u - base) with (16 * u) by lia. pose proof (heap_small N base meta pos G) as Hs. unfold heap_size in Hs. rewrite (s32_small (16 * u)) by lia.
  pose proof (pow_pos k). rewrite BLK_SIZE_pow, Z.quot_div_nonneg by lia. rewrite (Z.mul_comm 16 u), Z.div_mul_cancel_r by lia. apply s32_small. split; [pose proof (Z.div_pos u (pow k)); lia|]. apply Z.div_lt_upper_bound; nia.
Qed.

Lemma next_offset s B F k u : rep N base meta pos s B F -> 0 <= u <= pow (N - 1) -> blk_index_next s k (base + 16 * u) = ceil_pow u k.
Proof using G.
  intros [(_ & E & _) _ _ _ _ _ _] Hu. unfold blk_index_next, ceil_pow. rewrite E. replace (base + 16 * u - base) with (u * 16) by lia. pose proof (heap_small N base meta pos G) as Hs. unfold heap_size in Hs. pose proof (pow_pos k).
  rewrite BLK_SIZE_pow, Z.quot_div_nonneg, Z.rem_mod_nonneg, Z.div_mul_cancel_r, Z.mul_mod_distr_r by lia. assert (0 <= u / pow k <= u) by (split; [apply Z.div_pos; lia|apply Z.div_le_upper_bound; nia]). rewrite (s32_small (u / pow k)) by lia.
  destruct (Z.eqb_spec (u mod pow k * 16) 0) as [Em|Em]; cbn [negb].
  - apply (Z.div_unique _ _ _ (pow k - 1)); [lia|]. pose proof (Z.div_mod u (pow k) ltac:(lia)). lia.
  - rewrite s32_small by lia. pose proof (Z.mod_pos_bound u (pow k) ltac:(lia)). apply (Z.div_unique _ _ _ (u mod pow k - 1)); [lia|]. pose proof (Z.div_mod u (pow k) ltac:(lia)). lia.
Qed.

(** ** Marks *)

Definition mark_upto (B : bool -> nat -> Z -> bool) (k : nat) (lo hi : Z) : bool -> nat -> Z -> bool := fun a k' i => B a k' i || (bool_decide (k = k') && ((lo <=? i) && (i <? hi))).

Lemma mark_blocks_run n k : forall s B F bi,
  rep N base meta pos s B F -> (k < N)%nat -> 0 <= bi -> bi + Z.of_nat n <= nblocks N k ->
  exists s', mark_blocks n k bi s = Ok (tt, s') /\ rep N base meta pos s' (mark_upto B k bi (bi + Z.of_nat n)) F.
Proof using G.
  induction n as [|n IH]; intros s B F bi R Hk Hbi Hn.
  - exists s. split; [done|]. eapply rep_ext; [exact R| |done]. intros a k' i _ _. unfold mark_upto. destruct (Z.leb_spec bi i), (Z.ltb_spec i (bi + Z.of_nat 0)); cbn; rewrite ?andb_false_r, ?orb_false_r; try done. lia.
  - cbn [mark_blocks]. assert (H1 : exists s1 B1, (if (0 <? k)%nat then bset (fun s => sz_split s k) (fun _ => bi) else mret tt) s = Ok (tt, s1) /\ rep N base meta pos s1 B1 F /\
      (forall a k' i, vec N a k' -> B1 a k' i = if decide (a = false /\ k' = k /\ i = bi) then true else B a k' i)).
    { destruct (Nat.ltb_spec 0 k) as [H0|H0].
      - destruct (bset_run N base meta pos G false s B F k bi (fun _ => bi) R) as (s1 & E1 & R1); [split; lia|done|lia|]. exists s1, (upB B false k bi true). split; [done|]. split; [done|]. intros a k' i _. unfold upB. repeat case_decide; naive_solver.
      - exists s, B. split; [done|]. split; [done|]. intros a k' i [_ Hv]. rewrite decide_False; [done|]. intros (-> & -> & _). specialize (Hv eq_refl). lia. }
    destruct H1 as (s1 & B1 & E1 & R1 & HB1). rewrite (bind_Ok _ _ _ _ _ E1). destruct (bset_run N base meta pos G true s1 B1 F k bi (fun _ => bi) R1) as (s2 & E2 & R2); [by split|done|lia|].
    rewrite (bind_Ok _ _ _ _ _ (E2 : bset (fun s => sz_alloc s k) _ _ = _)). destruct (IH s2 _ F (bi + 1) R2 Hk) as (s' & E3 & R3); [lia|lia|]. exists s'. split; [done|]. eapply rep_ext; [exact R3| |done].
    intros a k' i Hv _. unfold mark_upto, upB. rewrite HB1 by done. replace (bi + 1 + Z.of_nat n) with (bi + Z.of_nat (S n)) by lia.
    destruct (decide (i = bi)) as [->|Hne].
    + rewrite (proj2 (Z.leb_gt (bi + 1) bi)), (proj2 (Z.leb_le bi bi)), (proj2 (Z.ltb_lt bi (bi + Z.of_nat (S n)))) by lia. cbn [andb]. rewrite andb_false_r, orb_false_r, andb_true_r. destruct a, (decide (k = k')) as [<-|Hk']; repeat case_decide; try (rewrite bool_decide_eq_true_2 by done); try (rewrite bool_decide_eq_false_2 by done); rewrite ?orb_true_r, ?orb_false_r; try done; naive_solver.
    + rewrite decide_False by naive_solver. rewrite decide_False by naive_solver. assert (E : (bi + 1 <=? i) = (bi <=? i)) by (destruct (Z.leb_spec (bi + 1) i), (Z.leb_spec bi i); (done || lia)). by rewrite E.
Qed.

Definition marked (so eo : Z) (k : nat) (i : Z) : bool := (so / pow k <=? i) && (i <? ceil_pow eo k).

Lemma mark_sizes_run so eo f : forall k s B F,
  (k + f = N)%nat -> 0 <= so < pow (N - 1) -> so <= eo <= pow (N - 1) -> rep N base meta pos s B F ->
  exists s', mark_sizes f k (base + 16 * so) (base + 16 * eo) s = Ok (tt, s') /\ rep N base meta pos s' (fun a k' i => B a k' i || ((k <=? k')%nat && marked so eo k' i)) F.
Proof using G.
  induction f as [|f IH]; intros k s B F Hk Hs He R.
  - exists s. split; [done|]. eapply rep_ext; [exact R| |done]. intros a k' i [Hv _] _. rewrite (proj2 (Nat.leb_gt _ _)) by lia. cbn. by rewrite orb_false_r.
  - cbn [mark_sizes]. rewrite bind_run, gets_run, bind_run, gets_run, (index_offset _ _ _ k so R), (next_offset _ _ _ k eo R) by lia. pose proof (pow_pos k) as Hp.
    assert (H0 : 0 <= so / pow k) by (apply Z.div_pos; lia). assert (H1 : so / pow k <= ceil_pow eo k) by (unfold ceil_pow; apply Z.div_le_mono; lia).
    assert (H2 : ceil_pow eo k <= nblocks N k). { apply ceil_pow_le; [lia|]. unfold nblocks. rewrite <- pow_add. replace (N - 1 - k + k)%nat with (N - 1)%nat by lia. lia. }
    destruct (mark_blocks_run (Z.to_nat (ceil_pow eo k - so / pow k)) k s B F (so / pow k) R) as (s1 & E1 & R1); [lia|lia|lia|]. rewrite (bind_Ok _ _ _ _ _ E1). destruct (IH (S k) s1 _ F ltac:(lia) Hs He R1) as (s' & E2 & R2). exists s'. split; [done|].
    eapply rep_ext; [exact R2| |done]. intros a k' i _ _. unfold mark_upto. rewrite Z2Nat.id by lia. replace (so / pow k + (ceil_pow eo k - so / pow k)) with (ceil_pow eo k) by lia. rewrite <- orb_assoc. f_equal. destruct (decide (k = k')) as [<-|Hne].
    + rewrite bool_decide_eq_true_2, (proj2 (Nat.leb_gt (S k) k)), (proj2 (Nat.leb_le k k)) by (done || lia). cbn [andb]. by rewrite orb_false_r.
    + rewrite bool_decide_eq_false_2 by done. cbn [andb orb]. destruct (Nat.leb_spec (S k) k'), (Nat.leb_spec k k'); try done; lia.
Qed.

Lemma bd_mark_run so eo s B F :
  0 <= so < pow (N - 1) -> so <= eo <= pow (N - 1) -> rep N base meta pos s B F ->
  exists s', bd_mark (base + 16 * so) (base + 16 * eo) s = Ok (tt, s') /\ rep N base meta pos s' (fun a k i => B a k i || marked so eo k i) F.
Proof using G.
  intros Hs He R. destruct (ge_base _ _ _ _ G) as (_ & Hm & _). unfold bd_mark, LEAF_SIZE. assert (Hmod : forall u, (base + 16 * u) mod 16 =? 0 = true) by (intros u; apply Z.eqb_eq; rewrite (Z.mul_comm 16 u), Z_mod_plus_full; done). rewrite !Hmod. cbn [negb orb].
  rewrite bind_run, gets_run. destruct (rp_globals _ _ _ _ _ _ _ R) as (-> & _ & _). apply (mark_sizes_run so eo N 0); [lia|done|done|done].
Qed.

(** ** The blocks that are allocated from the start *)

(** The 16-byte units before [mu] hold the data structures, those from [eu] on
    do not exist. *)
Definition live0 (mu eu : Z) : list (nat * Z) := (fun t => (0%nat, t)) <$> seqZ 0 mu ++ seqZ eu (pow (N - 1) - eu).

Lemma live0_in mu eu k t : (k, t) ∈ live0 mu eu <-> k = 0%nat /\ (0 <= t < mu \/ eu <= t < pow (N - 1)).
Proof.
  unfold live0. rewrite list_elem_of_fmap. setoid_rewrite elem_of_app. setoid_rewrite elem_of_seqZ. split.
  - intros (u & [= -> ->] & H). split; [done|]. lia.
  - intros (-> & H). exists t. split; [done|]. lia.
Qed.

Context (mu eu : Z) (HN3 : (3 <= N)%nat) (Hmu : 0 < mu /\ 4 * mu <= pow (N - 1)) (Heu : pow (N - 1) <= 2 * eu /\ eu < pow (N - 1)).

Lemma leaves_wf l : NoDup l -> Forall (fun t => 0 <= t < pow (N - 1)) l -> bwf N ((fun t => (0%nat, t)) <$> l).
Proof using HN3 Hmu Heu.
  induction l as [|t l IH]; intros Hn Hf; [done|]. apply NoDup_cons in Hn as [Hn1 Hn2]. apply Forall_cons in Hf as [Hf1 Hf2]. cbn. split; [split; cbn; [lia|unfold nblocks; by rewrite Nat.sub_0_r]|]. split; [|by apply IH].
  apply Forall_fmap, Forall_forall. intros u Hu. assert (t <> u) by (intros ->; done). split; cbn [fst snd]; rewrite inside_same; apply Z.eqb_neq; lia.
Qed.

Lemma live0_wf : bwf N (live0 mu eu).
Proof using HN3 Hmu Heu.
  apply leaves_wf.
  - apply NoDup_app. split; [apply NoDup_seqZ|]. split; [|apply NoDup_seqZ]. intros t. rewrite !elem_of_seqZ. lia.
  - apply Forall_forall. intros t. rewrite elem_of_app, !elem_of_seqZ. lia.
Qed.

Definition L (k : nat) : Z := ceil_pow mu k.
Definition R (k : nat) : Z := eu / pow k.

Lemma blocks_pow k : (k < N)%nat -> nblocks N k * pow k = pow (N - 1).
Proof. intros Hk. unfold nblocks. rewrite <- pow_add. f_equal. lia. Qed.

Lemma L_spec k i : i < L k <-> i * pow k < mu.
Proof using HN3 Hmu Heu. pose proof (ceil_pow_le mu k i ltac:(lia)). unfold L. lia. Qed.

Lemma R_spec k i : R k <= i <-> eu < (i + 1) * pow k.
Proof. unfold R. pose proof (pow_pos k). split; intros H'; [Z.div_mod_to_equations; nia|]. apply Z.lt_succ_r, Z.div_lt_upper_bound; [done|]. lia. Qed.

Lemma live0_has k i : (k < N)%nat -> 0 <= i < nblocks N k -> has (live0 mu eu) k i = (i <? L k) || (R k <=? i).
Proof using HN3 Hmu Heu.
  intros Hk Hi. pose proof (pow_pos k) as Hp. pose proof (blocks_pow k Hk) as Hbp. apply eq_true_iff_eq. rewrite has_spec, orb_true_iff, Z.ltb_lt, Z.leb_le, L_spec, R_spec. split.
  - intros ([k' t] & Ht & [_ E]%inside_spec). apply live0_in in Ht as [-> Ht]. cbn [fst snd] in E. rewrite Nat.sub_0_r in E. assert (i * pow k <= t < (i + 1) * pow k) by (subst i; pose proof (Z.div_mod t (pow k) ltac:(lia)); pose proof (Z.mod_pos_bound t _ Hp); nia). lia.
  - intros H. assert (Ht : exists t, (0 <= t < mu \/ eu <= t < pow (N - 1)) /\ i * pow k <= t < (i + 1) * pow k).
    { destruct H as [H|H]; [exists (i * pow k); nia|]. exists (Z.max eu (i * pow k)). assert (i * pow k < pow (N - 1)) by nia. lia. }
    destruct Ht as (t & Ht & Hr). exists (0%nat, t). split; [by apply live0_in|]. apply inside_spec. cbn [fst snd]. split; [lia|]. rewrite Nat.sub_0_r. symmetry. apply (Z.div_unique_pos _ _ _ (t - i * pow k)); lia.
Qed.

Lemma live0_small k i : (1 <= k)%nat -> small (live0 mu eu) k i = has (live0 mu eu) k i.
Proof.
  intros Hk. apply eq_true_iff_eq. rewrite small_spec, has_spec. split; [intros (b & H1 & _ & H2); by exists b|]. intros ([k' t] & H1 & H2). exists (k', t). split; [done|]. apply live0_in in H1 as [-> _]. cbn. split; [lia|done].
Qed.

Lemma marked_live0 k i : (k < N)%nat -> 0 <= i < nblocks N k -> marked 0 mu k i || marked eu (pow (N - 1)) k i = has (live0 mu eu) k i.
Proof using HN3 Hmu Heu.
  intros Hk Hi. rewrite live0_has by done. unfold marked. pose proof (pow_pos k). rewrite Z.div_0_l by lia. rewrite (proj2 (Z.leb_le 0 i)) by lia. cbn [andb]. f_equal. assert (E : i < ceil_pow (pow (N - 1)) k); [|by rewrite (proj2 (Z.ltb_lt _ _) E), andb_true_r].
  pose proof (ceil_pow_le (pow (N - 1)) k i) as H'. pose proof (blocks_pow k Hk). pose proof (pow_pos (N - 1)). assert (~ pow (N - 1) <= i * pow k) by nia. lia.
Qed.

Lemma marks_bits a k i : vec N a k -> 0 <= i < nblocks N k -> (false || marked 0 mu k i) || marked eu (pow (N - 1)) k i = bits (live0 mu eu) a k i.
Proof using HN3 Hmu Heu. intros [Hk Ha] Hi. cbn [orb]. rewrite marked_live0 by done. destruct a; [done|]. cbn. by rewrite live0_small by auto. Qed.

(** ** The free area at each size *)

Lemma area k : (k + 3 <= N)%nat -> 1 <= L k < R k /\ R k < nblocks N k /\ (Z.even (L k) = true -> R k <> L k + 1).
Proof using HN3 Hmu Heu.
  intros Hk. pose proof (pow_pos k) as Hp. set (c := pow (N - 3 - k)). assert (Hc : 0 < c) by apply pow_pos. assert (Hnb : nblocks N k = 4 * c) by (unfold nblocks; replace (N - 1 - k)%nat with (S (S (N - 3 - k))) by lia; rewrite !pow_S; fold c; lia).
  pose proof (blocks_pow k ltac:(lia)) as Hbp. rewrite Hnb in Hbp |- *. assert (H1 : L k <= c) by (apply ceil_pow_le; nia). assert (H2 : 2 * c <= R k) by (unfold R; apply Z.div_le_lower_bound; nia). assert (H3 : R k < 4 * c) by (unfold R; apply Z.div_lt_upper_bound; nia).
  assert (H4 : 0 < L k) by (apply L_spec; lia). split; [lia|]. split; [lia|]. intros He E. assert (c = 1) as -> by lia. assert (L k = 1) as HL by lia. by rewrite HL in He.
Qed.

Lemma area_top : L (N - 2) = 1 /\ R (N - 2) = 1.
Proof using HN3 Hmu Heu.
  pose proof (pow_pos (N - 2)) as Hp. assert (E : pow (N - 1) = 2 * pow (N - 2)) by (rewrite <- pow_S; f_equal; lia). split.
  - assert (H : L (N - 2) <= 1) by (apply ceil_pow_le; lia). assert (0 < L (N - 2)) by (apply L_spec; lia). lia.
  - unfold R. symmetry. apply (Z.div_unique_pos _ _ _ (eu - pow (N - 2))); lia.
Qed.

Lemma L_S k : L (S k) = (L k + 1) / 2.
Proof using HN3 Hmu Heu. apply ceil_pow_S. lia. Qed.

Lemma R_S k : R (S k) = R k / 2.
Proof using HN3 Hmu Heu. pose proof (pow_pos (N - 1)). unfold R. rewrite pow_S, (Z.mul_comm 2). pose proof (pow_pos k). by rewrite Z.div_div by lia. Qed.

(** ** The first free lists *)

Lemma isfree_size live k k' p : bwf N live -> (k < N)%nat -> (k' < N)%nat -> isfree N base (has live) k p -> isfree N base (has live) k' p -> k = k'.
Proof.
  intros W Hk Hk' H1 H2. assert (H : forall k k', (k < k')%nat -> (k' < N)%nat -> isfree N base (has live) k p -> ~ isfree N base (has live) k' p); [|destruct (Nat.lt_total k k') as [?|[?|?]]; [by destruct (H k k')|done|by destruct (H k' k)]].
  clear -W. intros k k' Hlt Hk' (i & Hi & E1 & _ & Hb) (j & Hj & E2 & Hf & _). destruct Hb as [->|Hb]; [lia|]. pose proof (pow_pos k). pose proof (pow_pos (k' - k)).
  assert (E : i = j * pow (k' - k)). { rewrite E1 in E2. unfold baddr in E2. rewrite !BLK_SIZE_pow in E2. replace k' with (k + (k' - k))%nat in E2 at 1 by lia. rewrite pow_add in E2. nia. }
  pose proof (buddy_above N live W k i k' ltac:(lia) Hb Hlt) as Hs. rewrite E, Z.div_mul in Hs by lia. apply has_small in Hs. congruence.
Qed.

Context (Hmeta : meta = base + 16 * mu).

Definition good (F : nat -> list Z) : Prop := forall k p, (k < N)%nat -> p ∈ F k -> isfree N base (has (live0 mu eu)) k p.

Lemma pair_same k bi s F :
  rep N base meta pos s (bits (live0 mu eu)) F -> (S k < N)%nat -> 0 <= bi < nblocks N k -> has (live0 mu eu) k bi = has (live0 mu eu) k (buddy_of bi) -> bd_initfree_pair k bi s = Ok (0, s).
Proof.
  intros Rp Hk Hb E. unfold bd_initfree_pair. rewrite bind_run, gets_run, bind_run, gets_run. pose proof (buddy_range N k bi Hk Hb) as Hbr.
  rewrite (isset_run N base meta pos true s _ F k bi Rp (vec_true N k ltac:(lia)) Hb : bit_isset (bd_mem s) (sz_alloc s k) bi = _), (isset_run N base meta pos true s _ F k _ Rp (vec_true N k ltac:(lia)) Hbr : bit_isset (bd_mem s) (sz_alloc s k) (buddy_of bi) = _).
  cbn [bits]. rewrite E. by destruct (has _ k (buddy_of bi)).
Qed.

Lemma pair_push k bi i s F :
  rep N base meta pos s (bits (live0 mu eu)) F -> (S k < N)%nat -> 0 <= bi < nblocks N k -> i = bi \/ i = buddy_of bi -> has (live0 mu eu) k i = false -> has (live0 mu eu) k (buddy_of i) = true -> good F -> baddr base k i ∉ F k ->
  exists s', bd_initfree_pair k bi s = Ok (BLK_SIZE k, s') /\ rep N base meta pos s' (bits (live0 mu eu)) (upF F k (baddr base k i :: F k)) /\ good (upF F k (baddr base k i :: F k)).
Proof using G HN3 Hmu Heu Hmeta.
  intros Rp Hk Hb Hor Hf Ht Hg Hn. pose proof (buddy_range N k bi Hk Hb) as Hbr. pose proof (buddy_buddy bi ltac:(lia)) as Hbb. assert (Hi : 0 <= i < nblocks N k) by (destruct Hor as [->| ->]; lia).
  assert (Hfree : isfree N base (has (live0 mu eu)) k (baddr base k i)) by (exists i; split; [done|]; split; [done|]; split; [done|by right]).
  assert (Hg' : good (upF F k (baddr base k i :: F k))). { intros k' p Hk' Hp. unfold upF in Hp. destruct (decide (k = k')) as [<-|]; [|by apply Hg]. apply elem_of_cons in Hp as [->|Hp]; [done|by apply Hg]. }
  pose proof (heap_small N base meta pos G). pose proof (BLK_pos k). assert (HB : 2 * BLK_SIZE k <= heap_size N) by (rewrite <- (heap_blocks N k) by lia; pose proof (buddy_ne bi ltac:(lia)); nia).
  destruct (ge_base _ _ _ _ G) as (_ & Hba & _). destruct (push_free_run N base meta pos G s _ F k (baddr base k i) Rp) as (s' & E & R'); [lia|by apply baddr_mod| | |].
  { pose proof (blk_range N k i ltac:(lia) Hi). rewrite live0_has in Hf by (done || lia). apply orb_false_iff in Hf as [HL _]. apply Z.ltb_ge in HL. assert (~ i * pow k < mu) by (rewrite <- L_spec; lia). unfold baddr in *. rewrite BLK_SIZE_pow in *. pose proof (pow_pos k). split; nia. }
  { intros k' Hk' Hin. destruct (decide (k' = k)) as [->|Hne]; [done|]. apply Hne. apply (isfree_size (live0 mu eu) k' k (baddr base k i) live0_wf); auto; lia. }
  exists s'. split; [|done]. unfold bd_initfree_pair. rewrite bind_run, gets_run, bind_run, gets_run.
  rewrite (isset_run N base meta pos true s _ F k bi Rp (vec_true N k ltac:(lia)) Hb : bit_isset (bd_mem s) (sz_alloc s k) bi = _), (isset_run N base meta pos true s _ F k _ Rp (vec_true N k ltac:(lia)) Hbr : bit_isset (bd_mem s) (sz_alloc s k) (buddy_of bi) = _).
  cbn [bits]. destruct Hor as [->| ->]; rewrite ?Hbb in Ht; rewrite Hf, Ht; cbn [Bool.eqb negb]; rewrite bind_run, gets_run, (addr_run N base meta pos G s _ F k _ Rp) by (done || lia); rewrite (bind_Ok _ _ _ _ _ E); rewrite s32_small by lia; done.
Qed.

Definition odd1 (n : Z) : Z := n mod 2.

(** What bd_initfree puts on the list of size [k]. *)
Definition first_free (k : nat) : list Z := (if Z.odd (R k) then [baddr base k (R k - 1)] else []) ++ (if Z.odd (L k) then [baddr base k (L k)] else []).

Lemma buddy_odd i : 0 <= i -> buddy_of i = if Z.odd i then i - 1 else i + 1.
Proof. intros Hi. rewrite Zodd_mod. unfold buddy_of. rewrite Z.rem_mod_nonneg by lia. destruct (Z.eqb_spec (i mod 2) 0) as [E|E]; [by rewrite E|]. assert (E1 : i mod 2 = 1) by (Z.div_mod_to_equations; lia). by rewrite E1. Qed.

Lemma left_pair k s F :
  (k + 3 <= N)%nat -> rep N base meta pos s (bits (live0 mu eu)) F -> good F -> F k = [] ->
  exists s' F', bd_initfree_pair k (L k) s = Ok (BLK_SIZE k * odd1 (L k), s') /\ rep N base meta pos s' (bits (live0 mu eu)) F' /\ good F' /\ F' k = (if Z.odd (L k) then [baddr base k (L k)] else []) /\ forall k', k' <> k -> F' k' = F k'.
Proof using G HN3 Hmu Heu Hmeta.
  intros Hk Rp Hg HF. destruct (area k Hk) as (H1 & H2 & H3). pose proof (buddy_odd (L k) ltac:(lia)) as Hbd. unfold odd1. rewrite <- Z.negb_odd in H3. rewrite Zmod_odd. destruct (Z.odd (L k)).
  - destruct (pair_push k (L k) (L k) s F) as (s' & E & R' & Hg'); try done; [lia|lia|by left| | |by rewrite HF; apply not_elem_of_nil|].
    + rewrite live0_has by lia. apply orb_false_iff. split; [apply Z.ltb_ge|apply Z.leb_gt]; lia.
    + rewrite Hbd, live0_has by lia. apply orb_true_iff. left. apply Z.ltb_lt. lia.
    + rewrite Z.mul_1_r. eexists s', _. split; [done|]. split; [done|]. split; [done|]. split; [unfold upF; by rewrite decide_True, HF|]. intros k' Hne. unfold upF. by rewrite decide_False.
  - rewrite Z.mul_0_r. exists s, F. split; [|done]. apply (pair_same k (L k) s F Rp); [lia|lia|]. specialize (H3 eq_refl). rewrite Hbd, !live0_has by lia. rewrite !(proj2 (Z.ltb_ge _ _)), !(proj2 (Z.leb_gt _ _)) by lia. done.
Qed.

Lemma right_pair k s F :
  (k + 3 <= N)%nat -> rep N base meta pos s (bits (live0 mu eu)) F -> good F -> F k = (if Z.odd (L k) then [baddr base k (L k)] else []) ->
  exists s' F', bd_initfree_pair k (R k) s = Ok (BLK_SIZE k * odd1 (R k), s') /\ rep N base meta pos s' (bits (live0 mu eu)) F' /\ good F' /\ F' k = first_free k /\ forall k', k' <> k -> F' k' = F k'.
Proof using G HN3 Hmu Heu Hmeta.
  intros Hk Rp Hg HF. destruct (area k Hk) as (H1 & H2 & H3). pose proof (buddy_odd (R k) ltac:(lia)) as Hbd. unfold odd1, first_free. rewrite Zmod_odd. destruct (Z.odd (R k)) eqn:Ho.
  - pose proof (buddy_buddy (R k) ltac:(lia)) as Hbb. rewrite Hbd in Hbb. destruct (pair_push k (R k) (R k - 1) s F) as (s' & E & R' & Hg'); try done; [lia|lia|by right| | | |].
    + rewrite live0_has by lia. apply orb_false_iff. split; [apply Z.ltb_ge|apply Z.leb_gt]; lia.
    + rewrite Hbb, live0_has by lia. apply orb_true_iff. right. apply Z.leb_le. lia.
    + rewrite HF. destruct (Z.odd (L k)) eqn:HoL; [|apply not_elem_of_nil]. rewrite list_elem_of_singleton. intros E. apply baddr_inj in E. assert (Z.odd (R k - 1) = true) by (by rewrite E). rewrite Z.sub_1_r, Z.odd_pred, <- Z.negb_odd, Ho in H. done.
    + rewrite Z.mul_1_r. eexists s', _. split; [done|]. split; [done|]. split; [done|]. split; [unfold upF; by rewrite decide_True, HF|]. intros k' Hne. unfold upF. by rewrite decide_False.
  - rewrite Z.mul_0_r. exists s, F. split; [|done]. apply (pair_same k (R k) s F Rp); [lia|lia|]. pose proof (buddy_range N k (R k) ltac:(lia) ltac:(lia)) as Hbr. rewrite Hbd in Hbr |- *. rewrite !live0_has by lia. rewrite !(proj2 (Z.leb_le _ _)) by lia. by rewrite !orb_true_r.
Qed.

Lemma area_step k : R k - L k = 2 * (R (S k) - L (S k)) + odd1 (L k) + odd1 (R k).
Proof using HN3 Hmu Heu. rewrite L_S, R_S. unfold odd1. Z.div_mod_to_equations. lia. Qed.

Lemma area_inside k : (R k - L k) * pow k <= eu - mu.
Proof using HN3 Hmu Heu.
  pose proof (pow_pos k). assert (mu <= L k * pow k) by (assert (~ L k * pow k < mu) by (rewrite <- L_spec; lia); lia). assert (R k * pow k <= eu) by (unfold R; pose proof (Z.div_mod eu (pow k) ltac:(lia)); pose proof (Z.mod_pos_bound eu (pow k) ltac:(lia)); lia). lia.
Qed.

(** The bytes that are on the free lists of the sizes below [k]. *)
Definition freed_upto (k : nat) : Z := 16 * (eu - mu) - (R k - L k) * BLK_SIZE k.

Lemma freed_range k : (k + 2 <= N)%nat -> 0 <= freed_upto k < 2147483648.
Proof using G HN3 Hmu Heu.
  intros Hk. unfold freed_upto. rewrite BLK_SIZE_pow. pose proof (area_inside k). pose proof (pow_pos k). pose proof (heap_small N base meta pos G) as Hs. unfold heap_size in Hs.
  assert (L k <= R k). { destruct (decide (k + 3 <= N)%nat) as [H'|H']; [pose proof (area k H'); lia|]. replace k with (N - 2)%nat by lia. destruct area_top as [-> ->]. lia. }
  nia.
Qed.

Lemma freed_step k : freed_upto (S k) = freed_upto k + BLK_SIZE k * odd1 (L k) + BLK_SIZE k * odd1 (R k).
Proof using HN3 Hmu Heu. unfold freed_upto. pose proof (area_step k). assert (E : BLK_SIZE (S k) = 2 * BLK_SIZE k) by (rewrite !BLK_SIZE_pow, pow_S; lia). rewrite E. nia. Qed.

Lemma initfree_loop_run d : forall k s F,
  (k + d = N - 2)%nat -> rep N base meta pos s (bits (live0 mu eu)) F -> good F -> (forall j, (j < k)%nat -> F j = first_free j) -> (forall j, (k <= j)%nat -> F j = []) ->
  exists s' F', initfree_loop (S d) k (base + 16 * mu) (base + 16 * eu) (freed_upto k) s = Ok (16 * (eu - mu), s') /\ rep N base meta pos s' (bits (live0 mu eu)) F' /\ good F' /\ forall j, (j + 3 <= N)%nat -> F' j = first_free j.
Proof using G HN3 Hmu Heu Hmeta.
  induction d as [|d IH]; intros k s F Hk Rp Hg H1 H2; cbn [initfree_loop]; rewrite bind_run, gets_run, bind_run, gets_run, (next_offset _ _ _ k mu Rp), (index_offset _ _ _ k eu Rp) by lia; fold (L k) (R k).
  - replace k with (N - 2)%nat in * by lia. destruct area_top as [EL ER]. unfold freed_upto. rewrite EL, ER. erewrite bind_Ok.
    2: { apply (pair_same (N - 2) 1 s F Rp); [lia|unfold nblocks; replace (N - 1 - (N - 2))%nat with 1%nat by lia; change (pow 1) with 2; lia|].
         assert (Hnb : nblocks N (N - 2) = 2) by (unfold nblocks; by replace (N - 1 - (N - 2))%nat with 1%nat by lia). change (buddy_of 1) with 0. rewrite !live0_has by (rewrite ?Hnb; lia). by rewrite EL, ER. }
    cbn [Z.leb Z.compare Pos.compare Pos.compare_cont]. exists s, F. split; [|split; [done|split; [done|intros j Hj; apply H1; lia]]]. pose proof (freed_range (N - 2) ltac:(lia)) as Hr. unfold freed_upto in Hr. rewrite EL, ER in Hr. replace (16 * (eu - mu) - (1 - 1) * BLK_SIZE (N - 2)) with (16 * (eu - mu)) in * by lia. by rewrite Z.add_0_r, s32_small by lia.
  - destruct (area k ltac:(lia)) as (A1 & A2 & _). destruct (left_pair k s F ltac:(lia) Rp Hg (H2 k ltac:(lia))) as (s1 & F1 & E1 & R1 & Hg1 & HF1 & HO1). rewrite (bind_Ok _ _ _ _ _ E1). rewrite (proj2 (Z.leb_gt _ _)) by lia.
    destruct (right_pair k s1 F1 ltac:(lia) R1 Hg1 HF1) as (s2 & F2 & E2 & R2 & Hg2 & HF2 & HO2). rewrite (bind_Ok _ _ _ _ _ E2).
    pose proof (freed_range k ltac:(lia)). pose proof (freed_range (S k) ltac:(lia)) as Hn. rewrite freed_step in Hn. assert (Hx : 0 <= BLK_SIZE k * odd1 (R k) /\ 0 <= BLK_SIZE k * odd1 (L k)) by (unfold odd1; pose proof (BLK_pos k); pose proof (Z.mod_pos_bound (R k) 2); pose proof (Z.mod_pos_bound (L k) 2); nia).
    rewrite (s32_small (freed_upto k + _)) by lia. rewrite s32_small by lia. rewrite <- freed_step. apply (IH (S k) s2 F2); [lia|done|done| |].
    + intros j Hj. destruct (decide (j = k)) as [->|Hne]; [done|]. rewrite HO2, HO1 by done. apply H1. lia.
    + intros j Hj. rewrite HO2, HO1 by lia. apply H2. lia.
Qed.

(** Nothing else is free. *)
Lemma first_free_all F : good F -> (forall j, (j + 3 <= N)%nat -> F j = first_free j) -> fchar N base (has (live0 mu eu)) F.
Proof using G HN3 Hmu Heu.
  intros Hg HF k p Hk. split; [by apply Hg|]. intros (i & Hi & -> & H1 & H2). rewrite live0_has in H1 by done. apply orb_false_iff in H1 as [HL HR]. apply Z.ltb_ge in HL. apply Z.leb_gt in HR.
  destruct (decide (k + 3 <= N)%nat) as [Hk3|Hk3].
  - destruct H2 as [?|H2]; [lia|]. pose proof (buddy_range N k i ltac:(lia) Hi) as Hbr. rewrite live0_has in H2 by done. rewrite (buddy_odd i ltac:(lia)) in H2. rewrite HF by done. unfold first_free. apply orb_true_iff in H2 as [H2%Z.ltb_lt|H2%Z.leb_le]; destruct (Z.odd i) eqn:Ho; try lia.
    + assert (i = L k) as -> by lia. rewrite Ho. apply elem_of_app. right. by left.
    + assert (R k = i + 1) as -> by lia. rewrite Z.add_1_r, Z.odd_succ, <- Z.negb_odd, Ho. cbn [negb]. apply elem_of_app. left. replace (Z.succ i - 1) with i by lia. by left.
  - exfalso. destruct (decide (k = N - 2)%nat) as [->|]; [destruct area_top; lia|]. replace k with (N - 1)%nat in * by lia. rewrite (top_index N i Hi) in *. assert (0 < L (N - 1)) by (apply L_spec; lia). lia.
Qed.

End boot.
