(* ===== verification/BuddyProps.v ===== *)
(** The buddy allocator from bd_init on, with a client that frees what it was
    given and writes where it may: the blocks it holds never overlap, stay
    within the memory given to bd_init and keep their contents, a request fails
    only when no block is left, and freed blocks coalesce completely. *)

From S2P Require Import Prelude Memory DList Buddy BuddyRep BuddyTree BuddyInv BuddyInit BuddyBoot.

(** ** Initialisation *)

Section init.
Context (base0 end_ : Z) (K : nat).

Definition hbase : Z := ROUNDUP base0 16.
Definition hsizes : nat := S (S K).

(** A region of more than 1024 bytes and less than 2 GB that is not a power of
    two. *)
Definition region_ok : Prop := (6 <= K <= 26)%nat /\ 0 < base0 /\ pow K * 16 < end_ - hbase < pow (S K) * 16 /\ hbase + pow (S K) * 16 <= 9223372036854775808.

Definition hmeta : Z := ROUNDUP (layout_end hsizes hbase) 16.
Definition hmu : Z := (hmeta - hbase) / 16.
Definition hunavailable : Z := ROUNDUP (pow (S K) * 16 - (end_ - hbase)) 16.
Definition heu : Z := pow (S K) - hunavailable / 16.

Context (HR : region_ok).

Lemma hbase_ok : base0 <= hbase < base0 + 16 /\ hbase mod 16 = 0.
Proof. unfold hbase. by apply ROUNDUP_run. Qed.

Lemma hgeometry : geometry hsizes hbase hmeta (vpos hsizes hbase).
Proof using HR.
  destruct HR as (H1 & H2 & H3 & H4), hbase_ok as [H5 H6]. apply layout_geometry; [unfold hsizes; lia|lia|done| |done]. unfold heap_size, hsizes. replace (S (S K) - 1)%nat with (S K) by lia. done.
Qed.

Lemma hmeta_units : hmeta = hbase + 16 * hmu /\ 0 < hmu /\ 4 * hmu <= pow (hsizes - 1).
Proof using HR.
  destruct hgeometry as [_ (_ & Hb & _) (Hm & Hlt & _) _ _]. destruct HR as (H1 & _). assert (E : hmeta = hbase + 16 * hmu) by (unfold hmu; Z.div_mod_to_equations; lia). split; [done|]. split; [lia|].
  pose proof (layout_small hsizes hbase ltac:(unfold hsizes; lia)) as Hl. destruct (ROUNDUP_run (layout_end hsizes hbase) 16 ltac:(lia)) as [Hr _]. fold hmeta in Hr. lia.
Qed.

Lemma heu_units : hunavailable = 16 * (pow (hsizes - 1) - heu) /\ pow (hsizes - 1) <= 2 * heu /\ heu < pow (hsizes - 1) /\ hbase + 16 * heu <= end_ < hbase + 16 * heu + 16.
Proof using HR.
  destruct HR as (H1 & H2 & H3 & H4). unfold hsizes. replace (S (S K) - 1)%nat with (S K) by lia. unfold heu, hunavailable. set (u := pow (S K) * 16 - (end_ - hbase)) in *. destruct (ROUNDUP_run u 16 ltac:(lia)) as [Hr Hm]. set (r := ROUNDUP u 16) in *.
  assert (Er : r = 16 * (r / 16)) by (Z.div_mod_to_equations; lia). assert (Eu : u = pow (S K) * 16 - (end_ - hbase)) by done. rewrite pow_S in *. clearbody u r. lia.
Qed.

Definition hlive0 : list (nat * Z) := live0 hsizes hmu heu.

Lemma mark_data_run s : rep hsizes hbase hmeta (vpos hsizes hbase) s (fun _ _ _ => false) (fun _ => []) ->
  exists s', bd_mark_data_structures hmeta s = Ok (16 * hmu, s') /\ rep hsizes hbase hmeta (vpos hsizes hbase) s' (fun _ k i => false || marked 0 hmu k i) (fun _ => []).
Proof using HR.
  intros Hr. destruct hmeta_units as (Em & Hm1 & Hm2). pose proof (pow_pos (hsizes - 1)). pose proof (heap_small _ _ _ _ hgeometry) as Hs. unfold heap_size in Hs. unfold bd_mark_data_structures. rewrite bind_run, gets_run. destruct (rp_globals _ _ _ _ _ _ _ Hr) as (_ & -> & _).
  destruct (bd_mark_run _ _ _ _ hgeometry 0 hmu s _ _ ltac:(lia) ltac:(lia) Hr) as (s' & E & R'). rewrite Z.mul_0_r, Z.add_0_r, <- Em in E. rewrite (bind_Ok _ _ _ _ _ E). exists s'. split; [|done]. rewrite Em. replace (hbase + 16 * hmu - hbase) with (16 * hmu) by lia. by rewrite s32_small by lia.
Qed.

Lemma mark_unavailable_run s B : rep hsizes hbase hmeta (vpos hsizes hbase) s B (fun _ => []) ->
  exists s', bd_mark_unavailable end_ s = Ok (hunavailable, s') /\ rep hsizes hbase hmeta (vpos hsizes hbase) s' (fun a k i => B a k i || marked heu (pow (hsizes - 1)) k i) (fun _ => []).
Proof using HR.
  intros Hr. destruct heu_units as (Eu & Hu1 & Hu2 & Hu3). destruct HR as (H1 & H2 & H3 & H4). pose proof (pow_pos (hsizes - 1)). pose proof (heap_small _ _ _ _ hgeometry) as Hs. unfold heap_size in Hs. unfold bd_mark_unavailable. rewrite bind_run, gets_run, bind_run, gets_run.
  destruct (rp_globals _ _ _ _ _ _ _ Hr) as (EN & -> & _). assert (EM : BLK_SIZE (MAXSIZE s) = pow (hsizes - 1) * 16) by (unfold MAXSIZE; by rewrite EN, BLK_SIZE_pow). rewrite EM. assert (ES : pow (hsizes - 1) = pow (S K)) by (unfold hsizes; f_equal; lia).
  assert (Eh : ROUNDUP (pow (hsizes - 1) * 16 - (end_ - hbase)) 16 = hunavailable) by (unfold hunavailable; by rewrite ES). rewrite (s32_small (pow (hsizes - 1) * 16 - (end_ - hbase))) by lia. rewrite (proj2 (Z.ltb_lt _ _)) by lia. unfold LEAF_SIZE. rewrite Eh, s32_small by lia.
  destruct (bd_mark_run _ _ _ _ hgeometry heu (pow (hsizes - 1)) s _ _ ltac:(lia) ltac:(lia) Hr) as (s' & E & R'). replace (hbase + pow (hsizes - 1) * 16 - hunavailable) with (hbase + 16 * heu) by lia. rewrite (Z.mul_comm (pow (hsizes - 1)) 16), (bind_Ok _ _ _ _ _ E). by exists s'.
Qed.

Lemma bd_init_run s0 : exists s F, bd_init base0 end_ s0 = Ok (tt, s) /\ binvF hsizes hbase hmeta (vpos hsizes hbase) s hlive0 F.
Proof using HR.
  destruct hmeta_units as (Em & Hm1 & Hm2), heu_units as (Eu & Hu1 & Hu2 & Hu3). pose proof hgeometry as G. destruct HR as (H1 & H2 & H3 & H4), hbase_ok as [H5 H6]. assert (HN : (8 <= hsizes <= 28)%nat) by (unfold hsizes; lia). assert (HN3 : (3 <= hsizes)%nat) by lia.
  assert (ES : pow (hsizes - 1) = pow (S K)) by (unfold hsizes; f_equal; lia). assert (Hh : hbase + heap_size hsizes <= 9223372036854775808) by (unfold heap_size; by rewrite ES).
  unfold bd_init. change (ROUNDUP base0 LEAF_SIZE) with hbase. rewrite (count_sizes_run K) by (done || lia). fold hsizes. rewrite bind_run, modify_run, bind_run, modify_run. unfold upd_bmem. cbn [nsizes bd_base bd_sizes bd_mem]. set (m1 := memset _ _ _ _).
  destruct (alloc_arrays_run hsizes hbase HN ltac:(lia) H6 Hh hsizes 0 m1 ltac:(lia) ltac:(intros k Hk; lia)) as (m2 & E2 & D2). replace (vpos hsizes hbase true 0) with (hbase + sizeof_sz_info * Z.of_nat hsizes) in E2 by (unfold vpos, sizeof_sz_info; cbn [vsum]; lia). rewrite (bind_Ok _ _ _ _ _ E2).
  destruct (split_arrays_run hsizes hbase HN ltac:(lia) H6 Hh (hsizes - 1) 1 m2 ltac:(lia) ltac:(lia) D2 ltac:(intros k Hk; lia)) as (m3 & E3 & D3 & S3). replace (vpos hsizes hbase false 1) with (hbase + 32 * Z.of_nat hsizes + vsum hsizes hsizes 0) in E3 by (unfold vpos; cbn [vsum Nat.sub]; lia). rewrite (bind_Ok _ _ _ _ _ E3).
  change (ROUNDUP (layout_end hsizes hbase) LEAF_SIZE) with hmeta. pose proof (layout_rep hsizes hbase HN m3 hmeta D3 S3) as R3. destruct (mark_data_run _ R3) as (s4 & E4 & R4). rewrite (bind_Ok _ _ _ _ _ E4). destruct (mark_unavailable_run _ _ R4) as (s5 & E5 & R5). rewrite (bind_Ok _ _ _ _ _ E5), bind_run, gets_run, bind_run, gets_run.
  destruct (rp_globals _ _ _ _ _ _ _ R5) as (EN & EB & _). assert (EM : MAXSIZE s5 = (hsizes - 1)%nat) by (unfold MAXSIZE; by rewrite EN). rewrite EM, EB, BLK_SIZE_pow. replace (hbase + pow (hsizes - 1) * 16 - hunavailable) with (hbase + 16 * heu) by lia.
  apply (rep_ext _ _ _ _ _ _ _ (bits hlive0) (fun _ => [])) in R5; [|intros a k i Hv Hi; by apply marks_bits|done]. unfold bd_initfree.
  destruct (initfree_loop_run hsizes hbase hmeta _ G hmu heu HN3 (conj Hm1 Hm2) (conj Hu1 Hu2) Em (hsizes - 2) 0 s5 (fun _ => [])) as (s6 & F & E6 & R6 & Hg & HF); [lia|done|intros k p _ Hp; by apply elem_of_nil in Hp|intros j Hj; lia|done|].
  assert (E7 : (n ← gets MAXSIZE; initfree_loop n 0 hmeta (hbase + 16 * heu) 0) s5 = Ok (16 * (heu - hmu), s6)).
  { rewrite bind_run, gets_run, EM. replace (hsizes - 1)%nat with (S (hsizes - 2)) by lia. assert (E0 : freed_upto hmu heu 0 = 0) by (unfold freed_upto, L, R; rewrite ceil_pow_0, BLK_SIZE_pow; change (pow 0) with 1; rewrite Z.div_1_r; lia). rewrite E0, <- Em in E6. exact E6. }
  rewrite (bind_Ok _ _ _ _ _ E7). rewrite (proj2 (Z.eqb_eq _ _)) by lia. cbn [negb]. exists s6, F. split; [done|]. split; [by apply live0_wf|done|by apply first_free_all with (meta := hmeta) (pos := vpos hsizes hbase)].
Qed.

End init.

(** ** A client *)

(** The allocator and the blocks the client holds: address and bytes asked for. *)
Record client := mk_client { cl_bd : bd; cl_own : list (Z * Z) }.

Inductive cstep : client -> client -> Prop :=
  | c_malloc s own n p s' : 0 <= n <= 2 ^ 63 -> bd_malloc n s = Ok (p, s') -> p <> 0 -> cstep (mk_client s own) (mk_client s' ((p, n) :: own))
  | c_malloc_fail s own n s' : 0 <= n <= 2 ^ 63 -> bd_malloc n s = Ok (0, s') -> cstep (mk_client s own) (mk_client s' own)
  | c_free s own1 p n own2 s' : bd_free p s = Ok (tt, s') -> cstep (mk_client s (own1 ++ (p, n) :: own2)) (mk_client s' (own1 ++ own2))
  | c_write s own p n a v : (p, n) ∈ own -> p <= a < p + n -> cstep (mk_client s own) (mk_client (upd_bmem (fun m => store8 m a v) s) own).

(** The size of the block that bd_malloc gives for [n] bytes. *)
Definition held (n : Z) : Z := BLK_SIZE (default 0%nat (firstk n)).

Section client.
Context (base0 end_ : Z) (K : nat) (HR : region_ok base0 end_ K).
Local Abbreviation hb := (hbase base0).
Local Abbreviation hN := (hsizes K).
Local Abbreviation hm := (hmeta base0 K).
Local Abbreviation hl := (hlive0 base0 end_ K).
Local Abbreviation hinv := (binvF hN hb hm (vpos hN hb)).

Definition holds (x : Z * Z) (b : nat * Z) : Prop := x.1 = baddr hb b.1 b.2 /\ firstk x.2 = Some b.1 /\ x.2 <= BLK_SIZE b.1 /\ hm <= x.1.

Definition cinv (c : client) (bs : list (nat * Z)) (F : nat -> list Z) : Prop := hinv (cl_bd c) (bs ++ hl) F /\ Forall2 holds (cl_own c) bs.

Lemma hl_nonempty bs : bs ++ hl <> [].
Proof using HR.
  destruct (hmeta_units _ _ _ HR) as (_ & H1 & _). intros E. apply app_eq_nil in E as [_ E]. assert (Hin : (0%nat, 0) ∈ hl) by (apply (proj2 (live0_in _ _ _ 0%nat 0)); split; [done|left; lia]). rewrite E in Hin. by apply elem_of_nil in Hin.
Qed.

Lemma hm_pos : 0 < hm.
Proof using HR. destruct (hmeta_units _ _ _ HR) as (E & H1 & _), (hbase_ok base0) as [H2 _], HR as (_ & H3 & _). lia. Qed.

Lemma holds_in own bs x : Forall2 holds own bs -> x ∈ own -> exists b, b ∈ bs /\ holds x b.
Proof. intros H Hx. apply list_elem_of_lookup_1 in Hx as [i Hi]. destruct (Forall2_lookup_l _ _ _ _ _ H Hi) as (b & Hb & Hh). exists b. split; [by eapply list_elem_of_lookup_2|done]. Qed.

Lemma malloc_inv s own bs F n :
  cinv (mk_client s own) bs F -> 0 <= n <= 2 ^ 63 ->
  exists fk, firstk n = Some fk /\ n <= BLK_SIZE fk /\
  ((exists i s' F', bd_malloc n s = Ok (baddr hb fk i, s') /\ cinv (mk_client s' ((baddr hb fk i, n) :: own)) ((fk, i) :: bs) F' /\ hm <= baddr hb fk i /\ keeps hb hm (bs ++ hl) s s') \/
   (bd_malloc n s = Ok (0, s) /\ forall i, valid hN (fk, i) -> Exists (fun b => ~ apart (fk, i) b) (bs ++ hl))).
Proof using HR.
  intros [Hi Ho] Hn. destruct (firstk_run n ltac:(lia)) as (fk & Ef & Hle & _). exists fk. split; [done|]. split; [done|]. destruct (bd_malloc_run _ _ _ _ (hgeometry _ _ _ HR) s _ F n fk Hi Ef) as [(i & s' & F' & E & Hi' & Hm & Kp)|[E H]]; [left|by right].
  exists i, s', F'. split; [done|]. split; [|done]. split; [exact Hi'|]. cbn. constructor; [|done]. by split_and!.
Qed.

Lemma free_inv s own1 p n own2 bs F :
  cinv (mk_client s (own1 ++ (p, n) :: own2)) bs F ->
  exists s' bs1 b bs2 F', bs = bs1 ++ b :: bs2 /\ bd_free p s = Ok (tt, s') /\ cinv (mk_client s' (own1 ++ own2)) (bs1 ++ bs2) F' /\ holds (p, n) b /\ keeps hb hm ((bs1 ++ bs2) ++ hl) s s'.
Proof using HR.
  intros [Hi Ho]. cbn [cl_own cl_bd] in *. apply Forall2_app_inv_l in Ho as (bs1 & bs' & Ho1 & Ho' & ->). apply Forall2_cons_inv_l in Ho' as (b & bs2 & Hb & Ho2 & ->). pose proof Hb as (Ep & _ & _ & Hm). cbn in Ep, Hm.
  assert (Hp : (bs1 ++ b :: bs2) ++ hl ≡ₚ b :: (bs1 ++ bs2) ++ hl) by (by rewrite <- Permutation_middle). apply (binvF_perm _ _ _ _ _ _ _ _ Hp) in Hi. destruct b as [k i]. cbn [fst snd] in *. subst p.
  destruct (bd_free_run _ _ _ _ (hgeometry _ _ _ HR) s _ F k i Hi (hl_nonempty _) Hm) as (s' & F' & E & Hi' & Kp). exists s', bs1, (k, i), bs2, F'. split_and!; [done|done| |done|done]. split; [done|]. cbn. by apply Forall2_app.
Qed.

Lemma cstep_inv c c' bs F : cinv c bs F -> cstep c c' -> exists bs' F', cinv c' bs' F'.
Proof using HR.
  intros Hc Hs. pose proof hm_pos as Hpos. destruct Hs as [s own n p s' Hn E Hp|s own n s' Hn E|s own1 p n own2 s' E|s own p n a v Hin Ha].
  - destruct (malloc_inv _ _ _ _ n Hc Hn) as (fk & _ & _ & [(i & s1 & F' & E' & Hc' & _)|[E' _]]); rewrite E' in E; [|by injection E as <-]. injection E as <- <-. by exists ((fk, i) :: bs), F'.
  - destruct (malloc_inv _ _ _ _ n Hc Hn) as (fk & _ & _ & [(i & s1 & F' & E' & Hc' & Hm & _)|[E' _]]); rewrite E' in E; [injection E as E _; lia|]. injection E as <-. by exists bs, F.
  - destruct (free_inv _ _ _ _ _ _ _ Hc) as (s1 & bs1 & b & bs2 & F' & _ & E' & Hc' & _). rewrite E' in E. injection E as <-. by exists (bs1 ++ bs2), F'.
  - destruct Hc as [Hi Ho]. cbn [cl_own cl_bd] in *. destruct (holds_in _ _ _ Ho Hin) as (b & Hb & Ep & _ & Hle & Hm). cbn [fst snd] in *. exists bs, F. split; [|done]. cbn [cl_bd].
    apply (client_frame _ _ _ _ (hgeometry _ _ _ HR) s _ F b _ Hi); [apply elem_of_app; by left|lia|]. intros x Hx. apply load8_store8_ne. lia.
Qed.

Lemma reachable_cinv s0 s c : bd_init base0 end_ s0 = Ok (tt, s) -> rtc cstep (mk_client s []) c -> exists bs F, cinv c bs F.
Proof using HR.
  intros E Hr. revert Hr. apply (rtc_ind_r (fun c => exists bs F, cinv c bs F)).
  - destruct (bd_init_run base0 end_ K HR s0) as (s1 & F & E1 & Hi). rewrite E1 in E. injection E as <-. exists [], F. split; [exact Hi|constructor].
  - intros c1 c2 _ Hs (bs & F & Hc). by apply (cstep_inv c1 c2 bs F).
Qed.

(** ** Ranges *)

(** The blocks of the client are between the data structures and [end]. *)
Lemma held_range s bs F b : hinv s (bs ++ hl) F -> b ∈ bs -> baddr hb b.1 b.2 + BLK_SIZE b.1 <= hb + 16 * heu base0 end_ K.
Proof using HR.
  intros [W _ _] Hb. destruct (heu_units _ _ _ HR) as (_ & H1 & H2 & _). apply Z.le_ngt. intros Hgt. assert (Hin : b ∈ bs ++ hl) by (apply elem_of_app; by left). destruct (bwf_valid _ _ _ W Hin) as [Vk Vi]. pose proof (blk_range _ _ _ Vk Vi) as [R1 R2]. unfold heap_size in R2.
  pose proof (BLK_pos b.1). set (t := b.2 * pow b.1 + pow b.1 - 1). assert (Eb : baddr hb b.1 b.2 + BLK_SIZE b.1 = hb + 16 * (t + 1)) by (unfold baddr, t; rewrite BLK_SIZE_pow; lia). assert (Et : b.2 * BLK_SIZE b.1 + BLK_SIZE b.1 = 16 * (t + 1)) by (unfold baddr in Eb; lia).
  assert (Ht : heu base0 end_ K <= t < pow (hN - 1)) by lia. assert (Hl : (0%nat, t) ∈ hl) by (apply (proj2 (live0_in _ _ _ 0%nat t)); split; [done|by right]).
  pose proof Hb as [bs' Hp]%elem_of_Permutation. assert (Hpp : bs ++ hl ≡ₚ b :: bs' ++ hl) by (by rewrite Hp). pose proof (bwf_perm _ _ _ Hpp W) as (_ & Wa & _). rewrite Forall_forall in Wa.
  assert (Ha : apart b (0%nat, t)) by (apply Wa, elem_of_app; by right). destruct b as [k i]. cbn [fst snd] in *. pose proof (pow_pos (hN - 1)). destruct (apart_ranges hb k i 0 t ltac:(lia) ltac:(lia) Ha) as [Hx|Hx]; unfold baddr in *; change (BLK_SIZE 0) with 16 in *; lia.
Qed.

Lemma bwf_lookup live i j b c : bwf hN live -> live !! i = Some b -> live !! j = Some c -> i <> j -> apart b c.
Proof.
  revert i j. induction live as [|x live IH]; intros [|i] [|j] W Hi Hj Hne; cbn in *; try done.
  - injection Hi as ->. destruct W as (_ & Wa & _). rewrite Forall_forall in Wa. apply Wa. by eapply list_elem_of_lookup_2.
  - injection Hj as ->. destruct W as (_ & Wa & _). rewrite Forall_forall in Wa. apply apart_sym, Wa. by eapply list_elem_of_lookup_2.
  - destruct W as (_ & _ & Wl). apply (IH i j); [done|done|done|congruence].
Qed.

(** Every byte of the heap is in an allocated block or in a free one. *)
Lemma free_bytes s live F a :
  hinv s live F -> (exists k p, (k < hN)%nat /\ p ∈ F k /\ p <= a < p + BLK_SIZE k) <-> hb <= a < hb + heap_size hN /\ forall b, b ∈ live -> ~ (baddr hb b.1 b.2 <= a < baddr hb b.1 b.2 + BLK_SIZE b.1).
Proof using HR.
  intros [W Rp HF]. split.
  - intros (k & p & Hk & Hp & Ha). apply HF in Hp; [|done]. pose proof Hp as (i & Hi & -> & _). pose proof (blk_range _ _ _ Hk Hi). split; [unfold baddr in *; lia|]. intros b Hb Hin. pose proof (isfree_apart _ _ _ _ _ _ W Hk Hp Hb). lia.
  - intros [Ha Hn]. set (t := (a - hb) / 16). assert (Ht : 0 <= t < pow (hN - 1)) by (unfold t, heap_size in *; Z.div_mod_to_equations; lia). assert (Hta : hb + 16 * t <= a < hb + 16 * t + 16) by (unfold t; Z.div_mod_to_equations; lia). assert (HNp : (0 < hN)%nat) by (unfold hsizes; lia).
    destruct (free_above hN hb live (hN - 1) 0 t W ltac:(lia) HNp) as (k & j & Hk & Hj & Hin & Hfree).
    + unfold nblocks. by rewrite Nat.sub_0_r.
    + apply Forall_forall. intros b Hb. destruct (bwf_valid _ _ _ W Hb) as [_ Vi]. destruct b as [k i]. cbn [fst snd] in *. split; cbn [fst snd]; apply not_true_iff_false; intros H; (apply inside_range with (base := hb) in H; [|lia]); apply (Hn _ Hb); cbn [fst snd]; unfold baddr in *; change (BLK_SIZE 0) with 16 in *; [lia|]. pose proof (BLK_pos k). lia.
    + exists k, (baddr hb k j). split; [lia|]. split; [apply HF; [lia|done]|]. apply inside_range with (base := hb) in Hin; [|lia]. unfold baddr in *. change (BLK_SIZE 0) with 16 in *. lia.
Qed.

Lemma reserved_bytes a : hb <= a < hb + heap_size hN -> (forall b, b ∈ hl -> ~ (baddr hb b.1 b.2 <= a < baddr hb b.1 b.2 + BLK_SIZE b.1)) <-> hm <= a < hb + 16 * heu base0 end_ K.
Proof using HR.
  intros Ha. destruct (hmeta_units _ _ _ HR) as (Em & Hm1 & Hm2), (heu_units _ _ _ HR) as (_ & H1 & H2 & _). split.
  - intros Hn. set (t := (a - hb) / 16). assert (Hta : hb + 16 * t <= a < hb + 16 * t + 16) by (unfold t; Z.div_mod_to_equations; lia). assert (Ht : ~ (0 <= t < hmu base0 K \/ heu base0 end_ K <= t < pow (hN - 1))).
    { intros H. apply (Hn (0%nat, t)); [by apply (proj2 (live0_in _ _ _ 0%nat t))|]. unfold baddr. cbn [fst snd]. change (BLK_SIZE 0) with 16. lia. }
    unfold heap_size in Ha. lia.
  - intros Hin [k t] Hb Hx. apply live0_in in Hb as [-> Hb]. unfold baddr in Hx. cbn [fst snd] in Hx. change (BLK_SIZE 0) with 16 in Hx. lia.
Qed.

(** Buddy initialisation: bd_init of a region that is not a power of two
    returns, without its consistency check failing; every list is a proper list,
    and the free blocks cover exactly the memory between the data structures and
    the last 16-byte unit before [end]. *)
Theorem buddy_init_correct (s0 : bd) :
  exists s F, bd_init base0 end_ s0 = Ok (tt, s) /\ (forall k, (k < hN)%nat -> dlist (bd_mem s) (sz_free s k) (F k)) /\
    (forall a, (exists k p, (k < hN)%nat /\ p ∈ F k /\ p <= a < p + BLK_SIZE k) <-> hm <= a < hb + 16 * heu base0 end_ K) /\ hb + 16 * heu base0 end_ K <= end_ < hb + 16 * heu base0 end_ K + 16.
Proof using HR.
  destruct (bd_init_run base0 end_ K HR s0) as (s & F & E & Hi). exists s, F. destruct (heu_units _ _ _ HR) as (_ & H1 & H2 & H3). split; [done|]. split; [intros k Hk; apply (rp_list _ _ _ _ _ _ _ (bi_rep _ _ _ _ _ _ _ Hi) k Hk)|]. split; [|done].
  intros a. rewrite (free_bytes s _ F a Hi). split; [intros [Ha Hn]; by apply reserved_bytes|]. intros Ha. assert (Hr : hb <= a < hb + heap_size hN) by (pose proof (ge_meta _ _ _ _ (hgeometry _ _ _ HR)); unfold heap_size; lia). split; [done|]. by apply reserved_bytes.
Qed.

Lemma held_size x b : holds x b -> held x.2 = BLK_SIZE b.1.
Proof. intros (_ & E & _). unfold held. by rewrite E. Qed.

Lemma own_lookup own bs i x : Forall2 holds own bs -> own !! i = Some x -> exists b, bs !! i = Some b /\ holds x b.
Proof. intros H Hi. by apply (Forall2_lookup_l _ _ _ _ _ H Hi). Qed.

(** (C13) Buddy safety, for a region of 1 KB to 2 GB whose size is not a power of two
    ([region_ok]) and requests of at most 2^63 bytes: whatever the client has allocated, freed and written so
    far, the blocks it holds lie in the region given to bd_init, are at least as
    large as asked for and do not overlap; the next bd_malloc, and bd_free of a
    block it holds, return and leave the contents of all the blocks it keeps as
    they were. *)
Theorem buddy_safe (s0 s : bd) (c : client) :
  bd_init base0 end_ s0 = Ok (tt, s) -> rtc cstep (mk_client s []) c ->
  (forall p n, (p, n) ∈ cl_own c -> base0 <= p /\ n <= held n /\ p + held n <= end_) /\
  (forall i j p n q m, cl_own c !! i = Some (p, n) -> cl_own c !! j = Some (q, m) -> i <> j -> p + held n <= q \/ q + held m <= p) /\
  (forall n, 0 <= n <= 2 ^ 63 -> exists p s', bd_malloc n (cl_bd c) = Ok (p, s') /\ forall q m a, (q, m) ∈ cl_own c -> q <= a < q + m -> load8 (bd_mem s') a = load8 (bd_mem (cl_bd c)) a) /\
  (forall own1 p n own2, cl_own c = own1 ++ (p, n) :: own2 -> exists s', bd_free p (cl_bd c) = Ok (tt, s') /\ forall q m a, (q, m) ∈ own1 ++ own2 -> q <= a < q + m -> load8 (bd_mem s') a = load8 (bd_mem (cl_bd c)) a).
Proof using HR.
  intros E Hr. destruct (reachable_cinv s0 s c E Hr) as (bs & F & Hc). destruct c as [s1 own]. pose proof Hc as [Hi Ho]. cbn [cl_bd cl_own] in *. destruct (hbase_ok base0) as [Hb0 _]. pose proof (ge_meta _ _ _ _ (hgeometry _ _ _ HR)) as (_ & Hbm & _). destruct (heu_units _ _ _ HR) as (_ & _ & _ & Hend). split_and!.
  - intros p n Hin. destruct (holds_in _ _ _ Ho Hin) as (b & Hb & Hh). pose proof (held_size _ _ Hh) as Eh. destruct Hh as (Ep & _ & Hle & Hm). cbn [fst snd] in *. pose proof (held_range s1 bs F b Hi Hb). lia.
  - intros i j p n q m H1 H2 Hne. destruct (own_lookup _ _ _ _ Ho H1) as (b & Hb & Hh), (own_lookup _ _ _ _ Ho H2) as (b' & Hb' & Hh'). pose proof (held_size _ _ Hh) as Eh. pose proof (held_size _ _ Hh') as Eh'. destruct Hh as (Ep & _), Hh' as (Ep' & _). cbn [fst snd] in *.
    pose proof (bi_wf _ _ _ _ _ _ _ Hi) as W. assert (Ha : apart b b') by (apply (bwf_lookup _ i j _ _ W); [by apply lookup_app_l_Some|by apply lookup_app_l_Some|done]).
    destruct (bwf_valid _ _ b W ltac:(apply elem_of_app; left; by eapply list_elem_of_lookup_2)) as [_ Vi]. destruct (bwf_valid _ _ b' W ltac:(apply elem_of_app; left; by eapply list_elem_of_lookup_2)) as [_ Vi']. destruct b as [k i'], b' as [k' j']. cbn [fst snd] in *. rewrite Ep, Ep', Eh, Eh'. by apply apart_ranges; [lia|lia|].
  - intros n Hn. destruct (malloc_inv _ _ _ _ n Hc Hn) as (fk & _ & _ & [(i & s' & F' & E' & _ & _ & Kp)|[E' _]]); [exists (baddr hb fk i), s'|exists 0, s1]; (split; [done|]); intros q m a Hin Ha; [|done].
    destruct (holds_in _ _ _ Ho Hin) as (b & Hb & Ep & _ & Hle & Hm). cbn [fst snd] in *. apply (Kp b); [apply elem_of_app; by left|lia|lia].
  - intros own1 p n own2 ->. destruct (free_inv _ _ _ _ _ _ _ Hc) as (s' & bs1 & b & bs2 & F' & _ & E' & [_ Ho'] & _ & Kp). exists s'. split; [done|]. intros q m a Hin Ha. cbn in Ho'. destruct (holds_in _ _ _ Ho' Hin) as (b' & Hb' & Ep & _ & Hle & Hm). cbn [fst snd] in *. apply (Kp b'); [apply elem_of_app; by left|lia|lia].
Qed.

(** (C14) Buddy completeness, for the same regions and requests: bd_malloc returns 0 only when every block of the
    size that the request needs, within the usable memory, overlaps a block the
    client holds. *)
Theorem buddy_malloc_complete (s0 s : bd) (c : client) (n : Z) (s' : bd) :
  bd_init base0 end_ s0 = Ok (tt, s) -> rtc cstep (mk_client s []) c -> 0 <= n <= 2 ^ 63 -> bd_malloc n (cl_bd c) = Ok (0, s') ->
  forall i, 0 <= i -> hm <= hb + i * held n -> hb + i * held n + held n <= hb + 16 * heu base0 end_ K ->
  exists p m, (p, m) ∈ cl_own c /\ p < hb + i * held n + held n /\ hb + i * held n < p + held m.
Proof using HR.
  intros E Hr Hn Em i Hi Hlo Hhi. destruct (reachable_cinv s0 s c E Hr) as (bs & F & Hc). destruct c as [s1 own]. pose proof Hc as [Hinv Ho]. cbn [cl_bd cl_own] in *. pose proof hm_pos. destruct (hmeta_units _ _ _ HR) as (Emu & _ & _), (heu_units _ _ _ HR) as (_ & _ & H2 & _).
  destruct (malloc_inv _ _ _ _ n Hc Hn) as (fk & Ef & _ & [(j & s2 & F' & E' & _ & Hm & _)|[_ Hex]]); [rewrite E' in Em; injection Em as Em _; lia|]. assert (Eh : held n = BLK_SIZE fk) by (unfold held; by rewrite Ef). rewrite Eh in *.
  destruct (decide (fk < hN)%nat) as [Hk|Hk].
  - assert (Hv : valid hN (fk, i)). { split; [done|]. cbn [fst snd]. split; [done|]. pose proof (heap_blocks hN fk Hk) as Hh. unfold heap_size in Hh. pose proof (BLK_pos fk). nia. }
    specialize (Hex i Hv). apply Exists_exists in Hex as (b & Hb & Hna). destruct (bwf_valid _ _ _ (bi_wf _ _ _ _ _ _ _ Hinv) Hb) as [_ Vb]. destruct b as [k j]. cbn [fst snd] in *.
    assert (Hov : baddr hb k j < hb + i * BLK_SIZE fk + BLK_SIZE fk /\ hb + i * BLK_SIZE fk < baddr hb k j + BLK_SIZE k).
    { pose proof (BLK_pos fk). pose proof (BLK_pos k). destruct (inside (fk, i) k j) eqn:E1; [apply inside_range with (base := hb) in E1; [|done]; unfold baddr in *; lia|]. destruct (inside (k, j) fk i) eqn:E2; [apply inside_range with (base := hb) in E2; [|lia]; unfold baddr in *; lia|]. by destruct Hna. }
    apply elem_of_app in Hb as [Hb|Hb].
    + apply list_elem_of_lookup_1 in Hb as [x Hx]. destruct (Forall2_lookup_r _ _ _ _ _ Ho Hx) as ([p m] & Hp & Hh). pose proof (held_size _ _ Hh) as Em'. destruct Hh as (Ep & _). cbn [fst snd] in *. exists p, m. split; [by eapply list_elem_of_lookup_2|]. rewrite Em', Ep. done.
    + apply live0_in in Hb as [-> Hb]. unfold baddr in Hov. change (BLK_SIZE 0) with 16 in Hov. lia.
  - exfalso. assert (Hbig : 16 * pow (hN - 1) <= BLK_SIZE fk). { rewrite BLK_SIZE_pow. replace fk with ((hN - 1) + (fk - (hN - 1)))%nat by lia. rewrite pow_add. pose proof (pow_pos (hN - 1)). pose proof (pow_pos (fk - (hN - 1))). nia. }
    assert (0 <= i * BLK_SIZE fk) by (apply Z.mul_nonneg_nonneg; [done|pose proof (BLK_pos fk); lia]). lia.
Qed.

(** (C15) Buddy coalescing, for the same regions and requests: when the client has freed everything, the bit vectors
    are those of the start and every free list has the elements it started
    with: no fragmentation remains. *)
Theorem buddy_coalesces (s0 s s1 : bd) (k : nat) :
  bd_init base0 end_ s0 = Ok (tt, s) -> rtc cstep (mk_client s []) (mk_client s1 []) -> (k < hN)%nat ->
  (exists l l1, dlist (bd_mem s) (sz_free s k) l /\ dlist (bd_mem s1) (sz_free s1 k) l1 /\ l1 ≡ₚ l) /\
  (forall i, 0 <= i < nblocks hN k -> bit_isset (bd_mem s1) (sz_alloc s1 k) i = bit_isset (bd_mem s) (sz_alloc s k) i) /\
  (forall i, (1 <= k)%nat -> 0 <= i < nblocks hN k -> bit_isset (bd_mem s1) (sz_split s1 k) i = bit_isset (bd_mem s) (sz_split s k) i).
Proof using HR.
  intros E Hr Hk. destruct (reachable_cinv s0 s _ E Hr) as (bs & F1 & [Hi1 Ho]). cbn [cl_bd cl_own] in *. apply Forall2_nil_inv_l in Ho as ->. destruct (bd_init_run base0 end_ K HR s0) as (s2 & F & E' & Hi). rewrite E' in E. injection E as ->. cbn [app] in Hi1.
  destruct Hi as [W R0 HF], Hi1 as [_ R1 HF1]. split_and!.
  - exists (F k), (F1 k). split; [by apply (rp_list _ _ _ _ _ _ _ R0)|]. split; [by apply (rp_list _ _ _ _ _ _ _ R1)|]. apply NoDup_Permutation; [by apply (dlist_nodup _ _ _ _ _ _ _ _ R1)|by apply (dlist_nodup _ _ _ _ _ _ _ _ R0)|]. intros p. by rewrite (HF k p Hk), (HF1 k p Hk).
  - intros i Hi. pose proof (isset_run _ _ _ _ true _ _ _ k i R1 (vec_true _ k Hk) Hi) as X1. pose proof (isset_run _ _ _ _ true _ _ _ k i R0 (vec_true _ k Hk) Hi) as X0. cbn [vptr] in X1, X0. by rewrite X1, X0.
  - intros i H1 Hi. assert (Hv : vec hN false k) by (split; [done|lia]). pose proof (isset_run _ _ _ _ false _ _ _ k i R1 Hv Hi) as X1. pose proof (isset_run _ _ _ _ false _ _ _ k i R0 Hv Hi) as X0. cbn [vptr] in X1, X0. by rewrite X1, X0.
Qed.

End client.

(** ** A heap of 1500 bytes *)

Definition demo_bd0 : bd := mk_bd 0 0 0 ∅.
Definition demo_bd : bd := match bd_init 1000000 1001500 demo_bd0 with Ok (_, s) => s | Panic _ => demo_bd0 end.
(** One block of 300 bytes, and the heap after it has been freed. *)
Definition demo_malloc : Z * bd := match bd_malloc 300 demo_bd with Ok r => r | Panic _ => (0, demo_bd0) end.
Definition demo_freed : bd := match bd_free demo_malloc.1 demo_malloc.2 with Ok (_, s) => s | Panic _ => demo_bd0 end.

Lemma demo_region : region_ok 1000000 1001500 6.
Proof. split; [lia|]. split; [lia|]. vm_compute. split; [split; reflexivity|discriminate]. Qed.

Lemma demo_init : bd_init 1000000 1001500 demo_bd0 = Ok (tt, demo_bd).
Proof. vm_compute. reflexivity. Qed.

Lemma demo_malloc_run : bd_malloc 300 demo_bd = Ok (demo_malloc.1, demo_malloc.2).
Proof. vm_compute. reflexivity. Qed.

Lemma demo_free_run : bd_free demo_malloc.1 demo_malloc.2 = Ok (tt, demo_freed).
Proof. vm_compute. reflexivity. Qed.

Lemma demo_client : rtc cstep (mk_client demo_bd []) (mk_client demo_malloc.2 [(demo_malloc.1, 300)]).
Proof. apply rtc_once, c_malloc; [lia|exact demo_malloc_run|vm_compute; discriminate]. Qed.

Lemma demo_client_freed : rtc cstep (mk_client demo_bd []) (mk_client demo_freed []).
Proof. eapply rtc_r; [exact demo_client|]. exact (c_free _ [] _ 300 [] _ demo_free_run). Qed.

Lemma buddy_init_correct_witness : exists s, bd_init 1000000 1001500 demo_bd0 = Ok (tt, s).
Proof. destruct (buddy_init_correct 1000000 1001500 6 demo_region demo_bd0) as (s & F & E & _). exists s. exact E. Defined.

Lemma buddy_safe_witness : 1000000 <= demo_malloc.1 /\ demo_malloc.1 + held 300 <= 1001500.
Proof.
  destruct (buddy_safe 1000000 1001500 6 demo_region demo_bd0 demo_bd _ demo_init demo_client) as (H & _). destruct (H demo_malloc.1 300) as (H1 & _ & H2); [by left|]. split; [exact H1|exact H2].
Defined.

(** A second request of that size finds nothing. *)
Lemma demo_malloc_fail : bd_malloc 300 demo_malloc.2 = Ok (0, demo_malloc.2).
Proof. vm_compute. reflexivity. Qed.

Lemma buddy_malloc_complete_witness : exists p m, (p, m) ∈ [(demo_malloc.1, 300)] /\ p < 1000000 + 1 * 512 + 512 /\ 1000000 + 1 * 512 < p + held m.
Proof.
  exact (buddy_malloc_complete 1000000 1001500 6 demo_region demo_bd0 demo_bd _ 300 demo_malloc.2 demo_init demo_client ltac:(lia) demo_malloc_fail 1 ltac:(lia) ltac:(vm_compute; discriminate) ltac:(vm_compute; discriminate)).
Defined.

Lemma buddy_coalesces_witness : exists l l1, dlist (bd_mem demo_bd) (sz_free demo_bd 5) l /\ dlist (bd_mem demo_freed) (sz_free demo_freed 5) l1 /\ l1 ≡ₚ l.
Proof. destruct (buddy_coalesces 1000000 1001500 6 demo_region demo_bd0 demo_bd demo_freed 5 demo_init demo_client_freed ltac:(unfold hsizes; lia)) as (H & _). exact H. Defined.

(** A region whose size is a power of two: bd_initfree looks at the bits behind
    the vectors, and the check at the end fails. *)
Lemma bd_init_power_of_two : bd_init 1000000 1002048 demo_bd0 = Panic "bd_init: free mem".
Proof. vm_compute. reflexivity. Qed.
