(* ===== verification/Riscv.v ===== *)
(** Constants and macros of kernel/riscv.h, kernel/memlayout.h and
    kernel/param.h: pages, page-table entries and the memory layout. *)

From S2P Require Import Prelude.

(** ** kernel/riscv.h *)

Definition PGSIZE : Z := 4096.
Definition PGSHIFT : Z := 12.

Definition PGROUNDUP (sz : Z) : Z := Z.land (u64 (sz + PGSIZE - 1)) (Z.lnot (PGSIZE - 1)).
Definition PGROUNDDOWN (a : Z) : Z := Z.land (u64 a) (Z.lnot (PGSIZE - 1)).

Definition PTE_V : Z := Z.shiftl 1 0.
Definition PTE_R : Z := Z.shiftl 1 1.
Definition PTE_W : Z := Z.shiftl 1 2.
Definition PTE_X : Z := Z.shiftl 1 3.
Definition PTE_U : Z := Z.shiftl 1 4.

Definition PA2PTE (pa : Z) : Z := u64 (Z.shiftl (Z.shiftr pa 12) 10).
Definition PTE2PA (pte : Z) : Z := u64 (Z.shiftl (Z.shiftr pte 10) 12).
Definition PTE_FLAGS (pte : Z) : Z := Z.land pte 1023.

Definition PXMASK : Z := 511.
Definition PXSHIFT (level : Z) : Z := PGSHIFT + 9 * level.
Definition PX (level va : Z) : Z := Z.land (Z.shiftr va (PXSHIFT level)) PXMASK.

Definition MAXVA : Z := Z.shiftl 1 (9 + 9 + 9 + 12 - 1).

Definition SATP_SV39 : Z := Z.shiftl 8 60.
Definition MAKE_SATP (pagetable : Z) : Z := Z.lor SATP_SV39 (Z.shiftr pagetable 12).

(** Is bit mask [b] set in [pte]?  The C test [pte & b]. *)
Definition has (pte b : Z) : bool := negb (Z.land pte b =? 0).

(** ** kernel/memlayout.h *)

Definition UART0 : Z := 268435456.
Definition UART0_IRQ : Z := 10.
Definition VIRTIO0 : Z := 268439552.
Definition VIRTIO0_IRQ : Z := 1.
Definition PLIC : Z := 201326592.
Definition PLIC_SENABLE (hart : Z) : Z := PLIC + 8320 + hart * 256.
Definition PLIC_SPRIORITY (hart : Z) : Z := PLIC + 2101248 + hart * 8192.
Definition PLIC_SCLAIM (hart : Z) : Z := PLIC + 2101252 + hart * 8192.
Definition KERNBASE : Z := 2147483648.
Definition PHYSTOP : Z := KERNBASE + 128 * 1024 * 1024.
Definition TRAMPOLINE : Z := MAXVA - PGSIZE.
Definition KSTACK (p : Z) : Z := TRAMPOLINE - (p + 1) * 2 * PGSIZE.
Definition TRAPFRAME : Z := TRAMPOLINE - PGSIZE.

(** ** kernel/param.h *)

Definition NPROC : Z := 64.
Definition NCPU : Z := 8.
Definition NOFILE : Z := 16.
Definition NFILE : Z := 100.
Definition NINODE : Z := 50.
Definition NDEV : Z := 10.
Definition ROOTDEV : Z := 1.
Definition MAXARG : Z := 32.
Definition MAXOPBLOCKS : Z := 10.
Definition LOGSIZE : Z := 30. (* MAXOPBLOCKS*3 *)
Definition NBUF : Z := 30. (* MAXOPBLOCKS*3 *)
Definition FSSIZE : Z := 2000.
Definition MAXPATH : Z := 128.
Definition USERSTACK : Z := 1.

(** Bits of sstatus: previous mode, previous and current interrupt enable. *)
Definition SSTATUS_SPP : Z := 256.
Definition SSTATUS_SPIE : Z := 32.
Definition SSTATUS_SIE : Z := 2.

(** ** kernel/fcntl.h *)

Inductive open_flag := O_RDONLY | O_WRONLY | O_RDWR | O_CREATE | O_TRUNC.

Definition open_bit (f : open_flag) : Z :=
  match f with O_RDONLY => 0 | O_WRONLY => 1 | O_RDWR => 2 | O_CREATE => 512 | O_TRUNC => 1024 end.
Coercion open_bit : open_flag >-> Z.

(** * Lemmas *)

Lemma land_lnot_ones a n : 0 <= n -> Z.land a (Z.lnot (Z.ones n)) = a / 2 ^ n * 2 ^ n.
Proof.
  intros Hn. rewrite <- Z.ldiff_land, Z.ldiff_ones_r by done.
  by rewrite Z.shiftr_div_pow2, Z.shiftl_mul_pow2.
Qed.

Lemma PGROUNDDOWN_div a : 0 <= a < 2 ^ 64 -> PGROUNDDOWN a = a / 4096 * 4096.
Proof.
  intros Ha. unfold PGROUNDDOWN. rewrite u64_small by lia.
  apply (land_lnot_ones a 12). lia.
Qed.

Lemma PGROUNDUP_div a : 0 <= a < 2 ^ 64 - 4095 -> PGROUNDUP a = (a + 4095) / 4096 * 4096.
Proof.
  intros Ha. unfold PGROUNDUP, PGSIZE. rewrite u64_small by lia.
  replace (a + 4096 - 1) with (a + 4095) by lia.
  apply (land_lnot_ones (a + 4095) 12). lia.
Qed.

Lemma PGROUNDUP_aligned a : 0 <= a < 2 ^ 64 - 4095 -> PGROUNDUP a mod 4096 = 0.
Proof. intros. rewrite PGROUNDUP_div by done. apply Z.mod_mul. lia. Qed.

Lemma PGROUNDDOWN_aligned a : 0 <= a < 2 ^ 64 -> PGROUNDDOWN a mod 4096 = 0.
Proof. intros. rewrite PGROUNDDOWN_div by done. apply Z.mod_mul. lia. Qed.

Lemma PGROUNDUP_bounds a : 0 <= a < 2 ^ 64 - 4095 -> a <= PGROUNDUP a < a + 4096.
Proof. intros. rewrite PGROUNDUP_div by done. Z.div_mod_to_equations. lia. Qed.

Lemma PGROUNDDOWN_bounds a : 0 <= a < 2 ^ 64 -> PGROUNDDOWN a <= a < PGROUNDDOWN a + 4096.
Proof. intros. rewrite PGROUNDDOWN_div by done. Z.div_mod_to_equations. lia. Qed.

Lemma PGROUNDUP_id a : 0 <= a < 2 ^ 64 - 4095 -> a mod 4096 = 0 -> PGROUNDUP a = a.
Proof. intros. rewrite PGROUNDUP_div by done. Z.div_mod_to_equations. lia. Qed.

Lemma PTE2PA_div pte : 0 <= pte < 2 ^ 62 -> PTE2PA pte = pte / 1024 * 4096.
Proof.
  intros H. unfold PTE2PA. rewrite Z.shiftr_div_pow2, Z.shiftl_mul_pow2 by lia.
  change (2 ^ 10) with 1024. change (2 ^ 12) with 4096. apply u64_small.
  Z.div_mod_to_equations. lia.
Qed.

Lemma PA2PTE_div pa : 0 <= pa < 2 ^ 64 -> PA2PTE pa = pa / 4096 * 1024.
Proof.
  intros H. unfold PA2PTE. rewrite Z.shiftr_div_pow2, Z.shiftl_mul_pow2 by lia.
  change (2 ^ 10) with 1024. change (2 ^ 12) with 4096. apply u64_small.
  Z.div_mod_to_equations. lia.
Qed.

(** Or-ing flags into the low ten bits is an addition. *)
Lemma lor_low_add k f n : 0 <= n -> 0 <= f < 2 ^ n -> Z.lor (k * 2 ^ n) f = k * 2 ^ n + f.
Proof.
  intros Hn Hf. rewrite <- Z.add_lor_land.
  assert (Z.land (k * 2 ^ n) f = 0) as ->; [|lia].
  apply Z.bits_inj'. intros i Hi. rewrite Z.land_spec, Z.bits_0.
  destruct (Z.lt_ge_cases i n).
  - by rewrite Z.mul_pow2_bits_low.
  - assert (Z.testbit f i = false) as ->; [|apply andb_false_r].
    apply Z.testbit_false; [done|]. rewrite Z.div_small; [done|].
    split; [lia|]. eapply Z.lt_le_trans; [apply Hf|]. apply Z.pow_le_mono_r; lia.
Qed.

Lemma PTE_lor pa f : 0 <= pa < 2 ^ 64 -> 0 <= f < 1024 ->
  Z.lor (PA2PTE pa) f = pa / 4096 * 1024 + f.
Proof.
  intros Hp Hf. rewrite PA2PTE_div by done. apply (lor_low_add (pa / 4096) f 10); lia.
Qed.

(** A PTE built from a page address gives back the address and the flags. *)
Lemma PTE_roundtrip pa f :
  0 <= pa < 2 ^ 64 -> pa mod 4096 = 0 -> 0 <= f < 1024 ->
  PTE2PA (Z.lor (PA2PTE pa) f) = pa /\ PTE_FLAGS (Z.lor (PA2PTE pa) f) = f /\
  0 <= Z.lor (PA2PTE pa) f < 2 ^ 62.
Proof.
  intros Hp Ha Hf. rewrite PTE_lor by done.
  assert (0 <= pa / 4096 * 1024 + f < 2 ^ 62).
  { assert (pa / 4096 < 2 ^ 52) by (apply Z.div_lt_upper_bound; lia).
    assert (0 <= pa / 4096) by (apply Z.div_pos; lia). lia. }
  rewrite PTE2PA_div by done. split_and!; try lia.
  - Z.div_mod_to_equations. lia.
  - unfold PTE_FLAGS. change 1023 with (Z.ones 10). rewrite Z.land_ones by lia.
    change (2 ^ 10) with 1024. Z.div_mod_to_equations. lia.
Qed.

Lemma land_pow2_bit x i : 0 <= i -> Z.land x (2 ^ i) = if Z.testbit x i then 2 ^ i else 0.
Proof.
  intros Hi. apply Z.bits_inj'. intros j Hj. rewrite Z.land_spec, Z.pow2_bits_eqb by done.
  destruct (Z.eqb_spec i j) as [->|E].
  - rewrite andb_true_r. destruct (Z.testbit x j); [by rewrite Z.pow2_bits_true|by rewrite Z.bits_0].
  - rewrite andb_false_r. destruct (Z.testbit x i); [by rewrite Z.pow2_bits_false|by rewrite Z.bits_0].
Qed.

Lemma has_pow2 x i : 0 <= i -> has x (2 ^ i) = Z.testbit x i.
Proof.
  intros Hi. unfold has. rewrite land_pow2_bit by done.
  pose proof (Z.pow_pos_nonneg 2 i).
  destruct (Z.testbit x i); [|done]. apply negb_true_iff, Z.eqb_neq. lia.
Qed.

(** Flag tests see only the flag bits of a PTE. *)
Lemma has_flags pte i : 0 <= i < 10 -> has pte (2 ^ i) = has (PTE_FLAGS pte) (2 ^ i).
Proof.
  intros Hi. rewrite !has_pow2 by lia. unfold PTE_FLAGS.
  rewrite Z.land_spec. change 1023 with (Z.ones 10).
  by rewrite Z.ones_spec_low, andb_true_r by lia.
Qed.

Lemma has_V pte : has pte PTE_V = has (PTE_FLAGS pte) PTE_V.
Proof. apply (has_flags pte 0). lia. Qed.
Lemma has_W pte : has pte PTE_W = has (PTE_FLAGS pte) PTE_W.
Proof. apply (has_flags pte 2). lia. Qed.
Lemma has_U pte : has pte PTE_U = has (PTE_FLAGS pte) PTE_U.
Proof. apply (has_flags pte 4). lia. Qed.

Lemma PX_range level va : 0 <= PX level va < 512.
Proof.
  unfold PX. change PXMASK with (Z.ones 9). rewrite Z.land_ones by lia.
  apply Z.mod_pos_bound. lia.
Qed.

Lemma PX_div level va : 0 <= level -> PX level va = va / 2 ^ (12 + 9 * level) mod 512.
Proof.
  intros H. unfold PX, PXSHIFT, PGSHIFT. rewrite Z.shiftr_div_pow2 by lia.
  change PXMASK with (Z.ones 9). by rewrite Z.land_ones by lia.
Qed.

(** The three indices determine the page of a virtual address. *)
Lemma PX_page va : 0 <= va < 2 ^ 39 ->
  va / 4096 = PX 2 va * 262144 + PX 1 va * 512 + PX 0 va.
Proof.
  intros H. rewrite !PX_div by lia.
  change (2 ^ (12 + 9 * 2)) with 1073741824. change (2 ^ (12 + 9 * 1)) with 2097152.
  change (2 ^ (12 + 9 * 0)) with 4096. Z.div_mod_to_equations. lia.
Qed.

Lemma PX_inj va vb :
  0 <= va < 2 ^ 39 -> 0 <= vb < 2 ^ 39 ->
  PX 2 va = PX 2 vb -> PX 1 va = PX 1 vb -> PX 0 va = PX 0 vb -> va / 4096 = vb / 4096.
Proof. intros Ha Hb E2 E1 E0. rewrite !PX_page by done. congruence. Qed.

#[export] Hint Resolve PX_range : xv6.
