(* ===== verification/Kalloc.v ===== *)
(** kernel/kalloc.c: the page allocator.  The free list is threaded through
    the free pages themselves ([struct run]). *)

From S2P Require Import Prelude Memory Riscv.

(** Symbols of the linked kernel image (kernel/kernel.ld, trampoline.S and
    the addresses of C functions), which no C file defines. *)
Class KernelImage := {
  etext : Z;        (* end of the kernel's text *)
  kend : Z;         (* [end]: first address after the kernel *)
  trampoline : Z;   (* page of trampoline.S *)
  uservec : Z;      (* offsets of uservec and userret in that page *)
  userret : Z;
  kernelvec : Z;    (* addresses of kernelvec, usertrap() and forkret() *)
  usertrap_addr : Z;
  forkret_addr : Z;
}.

(** What kernel.ld guarantees: text starts at KERNBASE and [etext] is page
    aligned, [end] follows the data and leaves RAM below PHYSTOP, the
    trampoline is one page of the text. *)
Class KernelImageOk `{KernelImage} : Prop := {
  etext_aligned : etext mod PGSIZE = 0;
  etext_after : KERNBASE < etext;
  kend_after : etext <= kend;
  kend_below : kend <= PHYSTOP;
  trampoline_aligned : trampoline mod PGSIZE = 0;
  trampoline_text : KERNBASE <= trampoline < etext;
}.

(** RAM and the head of the free list ([kmem.freelist]). *)
Record pmem := mk_pmem { pm_mem : mem; pm_freelist : Z }.

Definition set_mem (m : mem) (s : pmem) : pmem := mk_pmem m (pm_freelist s).
Definition upd_mem (f : mem -> mem) (s : pmem) : pmem := set_mem (f (pm_mem s)) s.
Definition set_freelist (r : Z) (s : pmem) : pmem := mk_pmem (pm_mem s) r.

Section kalloc.
Context `{KernelImage}.

Definition kfree (pa : Z) : M pmem unit :=
  if negb (pa mod PGSIZE =? 0) || (pa <? kend) || (PHYSTOP <=? pa)
  then panic "kfree"
  else
    (* Fill with junk to catch dangling refs. *)
    modify (upd_mem (fun m => memset m pa 1 PGSIZE));;
    let r := pa in
    modify (fun s => upd_mem (fun m => store64 m r (pm_freelist s)) s);;
    modify (set_freelist r).

Definition kalloc : M pmem Z :=
  r ← gets pm_freelist;
  (if negb (r =? 0)
   then modify (fun s => set_freelist (load64 (pm_mem s) r) s)
   else mret tt);;
  (if negb (r =? 0)
   then modify (upd_mem (fun m => memset m r 5 PGSIZE)) (* fill with junk *)
   else mret tt);;
  mret r.

(** for(; p + PGSIZE <= pa_end; p += PGSIZE) kfree(p); *)
Fixpoint freerange_loop (fuel : nat) (p pa_end : Z) : M pmem unit :=
  match fuel with
  | O => mret tt
  | S fuel =>
      if p + PGSIZE <=? pa_end
      then kfree p;; freerange_loop fuel (p + PGSIZE) pa_end
      else mret tt
  end.

Definition freerange (pa_start pa_end : Z) : M pmem unit :=
  let p := PGROUNDUP pa_start in
  freerange_loop (S (Z.to_nat ((pa_end - p) / PGSIZE))) p pa_end.

Definition kinit : M pmem unit := freerange kend PHYSTOP.

(** * The abstract allocator: a list of free pages *)

Definition page_ok (p : Z) : Prop := p mod PGSIZE = 0 /\ kend <= p < PHYSTOP.

Fixpoint free_chain (m : mem) (fl : Z) (l : list Z) : Prop :=
  match l with
  | [] => fl = 0
  | p :: l => fl = p /\ page_ok p /\ free_chain m (load64 m p) l
  end.

Definition kinv (s : pmem) (l : list Z) : Prop :=
  free_chain (pm_mem s) (pm_freelist s) l /\ NoDup l.

(** The pages freerange hands out, lowest first. *)
Definition pages_from (p : Z) (n : nat) : list Z :=
  (fun i => p + Z.of_nat i * PGSIZE) <$> seq 0 n.

End kalloc.

(** Memories equal outside the page at [p]. *)
Definition same_outside (p : Z) (m m' : mem) : Prop :=
  forall a, a < p \/ p + PGSIZE <= a -> load8 m' a = load8 m a.

Lemma same_outside_refl p m : same_outside p m m.
Proof. by intros a _. Qed.

Lemma same_outside_trans p m1 m2 m3 :
  same_outside p m1 m2 -> same_outside p m2 m3 -> same_outside p m1 m3.
Proof. intros H1 H2 a Ha. rewrite H2, H1; auto. Qed.

Lemma same_outside_load64 p m m' a :
  same_outside p m m' -> a + 8 <= p \/ p + PGSIZE <= a -> load64 m' a = load64 m a.
Proof. intros Hs Ha. apply load64_agree. intros x Hx. apply Hs. lia. Qed.

Lemma same_outside_memset p m c : same_outside p m (memset m p c PGSIZE).
Proof. intros a Ha. apply load8_memset_out; [done|]. lia. Qed.

Lemma same_outside_store64 p m a v :
  p <= a -> a + 8 <= p + PGSIZE -> same_outside p m (store64 m a v).
Proof. intros H1 H2 x Hx. apply load8_store64_ne. lia. Qed.

Section kalloc_proofs.
Context `{KernelImageOk}.

Lemma page_ok_range p : page_ok p -> KERNBASE < p < PHYSTOP.
Proof.
  intros [_ ?]. pose proof kend_after. pose proof etext_after. lia.
Qed.

Lemma page_ok_word p : page_ok p -> 0 <= p < 18446744073709551616.
Proof. intros Hp%page_ok_range. unfold KERNBASE, PHYSTOP, KERNBASE in *. lia. Qed.

Lemma page_apart p q : p mod PGSIZE = 0 -> q mod PGSIZE = 0 -> p <> q ->
  p + PGSIZE <= q \/ q + PGSIZE <= p.
Proof. unfold PGSIZE. intros. Z.div_mod_to_equations. lia. Qed.

Lemma free_chain_page_ok m fl l : free_chain m fl l -> Forall page_ok l.
Proof.
  revert fl. induction l as [|p l IH]; intros fl; [constructor|].
  intros (_ & Hp & Hl). constructor; eauto.
Qed.

Lemma free_chain_agree m m' fl l p :
  same_outside p m m' -> p mod PGSIZE = 0 -> p ∉ l -> free_chain m fl l -> free_chain m' fl l.
Proof.
  intros Hs Ha. revert fl. induction l as [|q l IH]; intros fl Hn; [done|].
  apply not_elem_of_cons in Hn as [Hpq Hn]. simpl. intros (-> & Hq & Hl).
  split_and!; auto. rewrite (same_outside_load64 p m m'); auto.
  destruct Hq as [Hq _]. pose proof (page_apart p q Ha Hq Hpq).
  unfold PGSIZE in *. lia.
Qed.

Lemma kinv_head_nonzero s p l : kinv s (p :: l) -> pm_freelist s = p /\ p <> 0 /\ page_ok p.
Proof.
  intros [(E & Hp & _) _]. pose proof (page_ok_range _ Hp).
  split_and!; auto. unfold KERNBASE in *. lia.
Qed.

(** kfree puts the page at the head of the free list and touches no byte
    outside the page. *)
Lemma kfree_spec s l p :
  kinv s l -> page_ok p -> p ∉ l ->
  exists s', kfree p s = Ok (tt, s') /\ kinv s' (p :: l) /\
             same_outside p (pm_mem s) (pm_mem s').
Proof.
  intros [Hc Hn] Hp Hnin. unfold kfree.
  destruct Hp as [Ha Hr] eqn:E. clear E. rewrite Ha.
  destruct (Z.ltb_spec p kend); [lia|]. destruct (Z.leb_spec PHYSTOP p); [lia|].
  simpl. eexists. split; [reflexivity|].
  set (m1 := memset (pm_mem s) p 1 PGSIZE).
  assert (Hs : same_outside p (pm_mem s) (store64 m1 p (pm_freelist s))).
  { apply same_outside_trans with m1; [apply same_outside_memset|].
    apply same_outside_store64; unfold PGSIZE; lia. }
  split; [|exact Hs]. split; [|by constructor]. simpl. split_and!; [done|by split|].
  rewrite load64_store64_eq.
  - by eapply free_chain_agree.
  - destruct l as [|q l]; simpl in Hc; [by rewrite Hc|].
    destruct Hc as (-> & Hq & _). by apply page_ok_word.
Qed.

(** kfree panics on an address that is not a page it may own. *)
Lemma kfree_bad s p : ~ page_ok p -> kfree p s = Panic "kfree".
Proof.
  intros Hp. unfold kfree, page_ok in *.
  destruct (Z.eqb_spec (p mod PGSIZE) 0); [|done].
  destruct (Z.ltb_spec p kend); [done|]. destruct (Z.leb_spec PHYSTOP p); [done|].
  exfalso. apply Hp. lia.
Qed.

(** kalloc takes the head of the free list, or answers 0 when it is empty. *)
Lemma kalloc_spec s l :
  kinv s l ->
  match l with
  | [] => kalloc s = Ok (0, s)
  | p :: l' => exists s', kalloc s = Ok (p, s') /\ kinv s' l' /\ p ∉ l' /\ page_ok p /\
                 pm_mem s' = memset (pm_mem s) p 5 PGSIZE
  end.
Proof.
  intros Hi. unfold kalloc. destruct l as [|p l].
  - destruct Hi as [E _]. simpl in E. rewrite bind_run, gets_run, E. by destruct s.
  - destruct (kinv_head_nonzero _ _ _ Hi) as (E & Hz & Hp).
    rewrite bind_run, gets_run, E. rewrite (proj2 (Z.eqb_neq p 0)) by done.
    eexists. split; [reflexivity|]. destruct Hi as [(_ & _ & Hc) Hn].
    apply NoDup_cons in Hn as [Hnin Hn]. split_and!; auto. split; [|done].
    simpl. eapply free_chain_agree; [apply same_outside_memset| |exact Hnin|exact Hc].
    by destruct Hp.
Qed.

Lemma freerange_loop_spec n : forall fuel s l p pa_end,
  kinv s l -> p mod PGSIZE = 0 -> kend <= p -> pa_end <= PHYSTOP ->
  (forall q, q ∈ l -> q < p) ->
  p + Z.of_nat n * PGSIZE <= pa_end < p + Z.of_nat n * PGSIZE + PGSIZE ->
  (n < fuel)%nat ->
  exists s', freerange_loop fuel p pa_end s = Ok (tt, s') /\
             kinv s' (rev (pages_from p n) ++ l).
Proof.
  induction n as [|n IH]; intros fuel s l p pa_end Hi Ha Hk Hp Hl He Hf;
    (destruct fuel as [|fuel]; [lia|]); cbn [freerange_loop].
  - destruct (Z.leb_spec (p + PGSIZE) pa_end); [lia|]. exists s. by split.
  - destruct (Z.leb_spec (p + PGSIZE) pa_end); [|unfold PGSIZE in *; lia].
    destruct (kfree_spec s l p) as (s1 & E1 & Hi1 & _); [done| |set_solver by lia|].
    { split; [done|]. unfold PGSIZE in *. lia. }
    rewrite (bind_Ok _ _ _ _ _ E1).
    destruct (IH fuel s1 (p :: l) (p + PGSIZE) pa_end) as (s2 & E2 & Hi2);
      auto; try (unfold PGSIZE in *; lia).
    + unfold PGSIZE in *. Z.div_mod_to_equations. lia.
    + intros q Hq. apply elem_of_cons in Hq as [->|Hq]; [unfold PGSIZE; lia|].
      specialize (Hl q Hq). unfold PGSIZE. lia.
    + exists s2. split; [done|].
      assert (pages_from p (S n) = p :: pages_from (p + PGSIZE) n) as ->.
      { unfold pages_from. simpl. f_equal; [lia|].
        rewrite <- seq_shift, <- list_fmap_compose. apply list_fmap_ext.
        intros i x _. simpl. lia. }
      simpl. by rewrite <- app_assoc.
Qed.

(** After kinit the free list holds exactly the pages between [end] and
    PHYSTOP, each once, the highest first. *)
Lemma kinit_spec m :
  exists s', kinit (mk_pmem m 0) = Ok (tt, s') /\
    kinv s' (rev (pages_from (PGROUNDUP kend) (Z.to_nat ((PHYSTOP - PGROUNDUP kend) / PGSIZE)))).
Proof.
  pose proof kend_below. pose proof kend_after. pose proof etext_after.
  unfold KERNBASE, PHYSTOP, KERNBASE in *.
  pose proof (PGROUNDUP_bounds kend). pose proof (PGROUNDUP_aligned kend).
  set (p := PGROUNDUP kend) in *. unfold kinit, freerange. fold p.
  assert (p <= 2147483648 + 128 * 1024 * 1024) by (Z.div_mod_to_equations; lia).
  rewrite <- (app_nil_r (rev _)).
  apply freerange_loop_spec; try (unfold PGSIZE, PHYSTOP, KERNBASE in *; lia).
  - split; [done|constructor].
  - set_solver.
  - unfold PHYSTOP, KERNBASE, PGSIZE. Z.div_mod_to_equations. lia.
Qed.

End kalloc_proofs.
