(* ===== verification/Vm.v ===== *)
(** kernel/vm.c: Sv39 page tables, user address spaces and the routines that
    copy between kernel and user memory.

    A page table is the address of a page of 512 entries in [pm_mem]; the
    operations run in the state monad over [pmem], so that page-table pages
    come from and return to the allocator of [Kalloc].  Kernel-side source
    and destination buffers of the copy routines are byte lists: the bytes
    read, or the bytes written up to the point of return. *)

From S2P Require Import Prelude Memory Riscv Kalloc.

(** Answer of a bounded loop whose bound was too small; the theorems show
    that it does not occur. *)
Definition out_of_fuel : string := "out of fuel".

Definition store_pte (pte v : Z) : M pmem unit :=
  modify (upd_mem (fun m => store64 m pte v)).
Definition load_pte (pte : Z) : M pmem Z := gets (fun s => load64 (pm_mem s) pte).

Section vm.
Context `{KernelImage}.

(** The loop of walk: [level] is the level of the table at [pagetable]. *)
Fixpoint walk_levels (level : nat) (pagetable va : Z) (alloc : bool) : M pmem Z :=
  match level with
  | O => mret (pagetable + 8 * PX 0 va)
  | S l =>
      let pte := pagetable + 8 * PX (Z.of_nat level) va in
      e ← load_pte pte;
      if has e PTE_V then walk_levels l (PTE2PA e) va alloc
      else if negb alloc then mret 0
      else
        pagetable ← kalloc;
        if pagetable =? 0 then mret 0
        else
          modify (upd_mem (fun m => memset m pagetable 0 PGSIZE));;
          store_pte pte (Z.lor (PA2PTE pagetable) PTE_V);;
          walk_levels l pagetable va alloc
  end.

Definition walk (pagetable va : Z) (alloc : bool) : M pmem Z :=
  if MAXVA <=? va then panic "walk"
  else walk_levels 2 pagetable va alloc.

Definition walkaddr (pagetable va : Z) : M pmem Z :=
  if MAXVA <=? va then mret 0
  else
    pte ← walk pagetable va false;
    if pte =? 0 then mret 0
    else
      e ← load_pte pte;
      if negb (has e PTE_V) then mret 0
      else if negb (has e PTE_U) then mret 0
      else mret (PTE2PA e).

(** The for(;;) of mappages; [fuel] bounds the pages still to map. *)
Fixpoint mappages_loop (fuel : nat) (pagetable a last pa perm : Z) : M pmem Z :=
  match fuel with
  | O => panic out_of_fuel
  | S fuel =>
      pte ← walk pagetable a true;
      if pte =? 0 then mret (-1)
      else
        e ← load_pte pte;
        if has e PTE_V then panic "mappages: remap"
        else
          store_pte pte (Z.lor (Z.lor (PA2PTE pa) perm) PTE_V);;
          if a =? last then mret 0
          else mappages_loop fuel pagetable (u64 (a + PGSIZE)) last (u64 (pa + PGSIZE)) perm
  end.

Definition mappages (pagetable va size pa perm : Z) : M pmem Z :=
  if negb (va mod PGSIZE =? 0) then panic "mappages: va not aligned"
  else if negb (size mod PGSIZE =? 0) then panic "mappages: size not aligned"
  else if size =? 0 then panic "mappages: size"
  else
    let last := u64 (va + size - PGSIZE) in
    mappages_loop (Z.to_nat (size / PGSIZE)) pagetable va last pa perm.

Definition kvmmap (kpgtbl va pa sz perm : Z) : M pmem unit :=
  r ← mappages kpgtbl va sz pa perm;
  if negb (r =? 0) then panic "kvmmap" else mret tt.

(** for(a = va; a < va + npages*PGSIZE; a += PGSIZE) *)
Fixpoint uvmunmap_loop (fuel : nat) (pagetable a stop : Z) (do_free : bool) : M pmem unit :=
  if a <? stop then
    match fuel with
    | O => panic out_of_fuel
    | S fuel =>
        pte ← walk pagetable a false;
        if pte =? 0 then panic "uvmunmap: walk"
        else
          e ← load_pte pte;
          if negb (has e PTE_V) then panic "uvmunmap: not mapped"
          else if PTE_FLAGS e =? PTE_V then panic "uvmunmap: not a leaf"
          else
            (if do_free then kfree (PTE2PA e) else mret tt);;
            store_pte pte 0;;
            uvmunmap_loop fuel pagetable (u64 (a + PGSIZE)) stop do_free
    end
  else mret tt.

Definition uvmunmap (pagetable va npages : Z) (do_free : bool) : M pmem unit :=
  if negb (va mod PGSIZE =? 0) then panic "uvmunmap: not aligned"
  else uvmunmap_loop (Z.to_nat npages) pagetable va (u64 (va + npages * PGSIZE)) do_free.

Definition uvmcreate : M pmem Z :=
  pagetable ← kalloc;
  if pagetable =? 0 then mret 0
  else
    modify (upd_mem (fun m => memset m pagetable 0 PGSIZE));;
    mret pagetable.

(** [src] holds the bytes of the init program. *)
Definition uvmfirst (pagetable : Z) (src : list Z) : M pmem unit :=
  let sz := Z.of_nat (length src) in
  if PGSIZE <=? sz then panic "uvmfirst: more than a page"
  else
    mem ← kalloc;
    modify (upd_mem (fun m => memset m mem 0 PGSIZE));;
    mappages pagetable 0 PGSIZE mem (Z.lor (Z.lor (Z.lor PTE_W PTE_R) PTE_X) PTE_U);;
    modify (upd_mem (fun m => store_bytes m mem src)).

Definition uvmdealloc (pagetable oldsz newsz : Z) : M pmem Z :=
  if oldsz <=? newsz then mret oldsz
  else
    (if PGROUNDUP newsz <? PGROUNDUP oldsz
     then
       let npages := (PGROUNDUP oldsz - PGROUNDUP newsz) / PGSIZE in
       uvmunmap pagetable (PGROUNDUP newsz) npages true
     else mret tt);;
    mret newsz.

(** for(a = oldsz; a < newsz; a += PGSIZE) *)
Fixpoint uvmalloc_loop (fuel : nat) (pagetable oldsz a newsz xperm : Z) : M pmem Z :=
  if a <? newsz then
    match fuel with
    | O => panic out_of_fuel
    | S fuel =>
        mem ← kalloc;
        if mem =? 0 then
          uvmdealloc pagetable a oldsz;; mret 0
        else
          modify (upd_mem (fun m => memset m mem 0 PGSIZE));;
          r ← mappages pagetable a PGSIZE mem (Z.lor (Z.lor PTE_R PTE_U) xperm);
          if negb (r =? 0) then
            kfree mem;; uvmdealloc pagetable a oldsz;; mret 0
          else uvmalloc_loop fuel pagetable oldsz (u64 (a + PGSIZE)) newsz xperm
    end
  else mret newsz.

Definition uvmalloc (pagetable oldsz newsz xperm : Z) : M pmem Z :=
  if newsz <? oldsz then mret oldsz
  else
    let oldsz := PGROUNDUP oldsz in
    uvmalloc_loop (Z.to_nat ((newsz - oldsz + PGSIZE - 1) / PGSIZE)) pagetable oldsz oldsz newsz xperm.

(** for(int i = 0; i < 512; i++) of freewalk; [free_child] is the recursive
    call on a lower-level table, [k] entries are left. *)
Fixpoint freewalk_entries (free_child : Z -> M pmem unit) (k : nat) (pagetable i : Z) : M pmem unit :=
  match k with
  | O => mret tt
  | S k =>
      pte ← load_pte (pagetable + 8 * i);
      (if has pte PTE_V && (Z.land pte (Z.lor (Z.lor PTE_R PTE_W) PTE_X) =? 0)
       then
         (* this PTE points to a lower-level page table. *)
         free_child (PTE2PA pte);; store_pte (pagetable + 8 * i) 0
       else if has pte PTE_V then panic "freewalk: leaf"
       else mret tt);;
      freewalk_entries free_child k pagetable (i + 1)
  end.

(** [depth] bounds the recursion: a Sv39 table has three levels. *)
Fixpoint freewalk_rec (depth : nat) (pagetable : Z) : M pmem unit :=
  match depth with
  | O => panic out_of_fuel
  | S depth =>
      freewalk_entries (freewalk_rec depth) 512 pagetable 0;;
      kfree pagetable
  end.

Definition freewalk (pagetable : Z) : M pmem unit := freewalk_rec 3 pagetable.

Definition uvmfree (pagetable sz : Z) : M pmem unit :=
  (if 0 <? sz then uvmunmap pagetable 0 (PGROUNDUP sz / PGSIZE) true else mret tt);;
  freewalk pagetable.

(** for(i = 0; i < sz; i += PGSIZE), with its [err] exit. *)
Fixpoint uvmcopy_loop (fuel : nat) (old new i sz : Z) : M pmem Z :=
  if i <? sz then
    match fuel with
    | O => panic out_of_fuel
    | S fuel =>
        pte ← walk old i false;
        if pte =? 0 then panic "uvmcopy: pte should exist"
        else
          e ← load_pte pte;
          if negb (has e PTE_V) then panic "uvmcopy: page not present"
          else
            let pa := PTE2PA e in
            let flags := PTE_FLAGS e in
            mem ← kalloc;
            if mem =? 0 then
              uvmunmap new 0 (i / PGSIZE) true;; mret (-1)
            else
              modify (upd_mem (fun m => memmove m mem pa PGSIZE));;
              r ← mappages new i PGSIZE mem flags;
              if negb (r =? 0) then
                kfree mem;; uvmunmap new 0 (i / PGSIZE) true;; mret (-1)
              else uvmcopy_loop fuel old new (u64 (i + PGSIZE)) sz
    end
  else mret 0.

Definition uvmcopy (old new sz : Z) : M pmem Z :=
  uvmcopy_loop (Z.to_nat ((sz + PGSIZE - 1) / PGSIZE)) old new 0 sz.

Definition uvmclear (pagetable va : Z) : M pmem unit :=
  pte ← walk pagetable va false;
  if pte =? 0 then panic "uvmclear"
  else
    e ← load_pte pte;
    store_pte pte (Z.land e (Z.lnot PTE_U)).

(** while(len > 0) of copyout; [src] holds the [len] bytes left. *)
Fixpoint copyout_loop (fuel : nat) (pagetable dstva : Z) (src : list Z) : M pmem Z :=
  let len := Z.of_nat (length src) in
  if 0 <? len then
    match fuel with
    | O => panic out_of_fuel
    | S fuel =>
        let va0 := PGROUNDDOWN dstva in
        if MAXVA <=? va0 then mret (-1)
        else
          pte ← walk pagetable va0 false;
          if pte =? 0 then mret (-1)
          else
            e ← load_pte pte;
            if negb (has e PTE_V) || negb (has e PTE_U) || negb (has e PTE_W)
            then mret (-1)
            else
              let pa0 := PTE2PA e in
              let n := PGSIZE - (dstva - va0) in
              let n := if len <? n then len else n in
              modify (upd_mem (fun m => store_bytes m (pa0 + (dstva - va0)) (take (Z.to_nat n) src)));;
              copyout_loop fuel pagetable (u64 (va0 + PGSIZE)) (drop (Z.to_nat n) src)
    end
  else mret 0.

Definition copyout (pagetable dstva : Z) (src : list Z) : M pmem Z :=
  copyout_loop (length src) pagetable dstva src.

(** while(len > 0) of copyin: the return value and the bytes put in dst. *)
Fixpoint copyin_loop (fuel : nat) (pagetable srcva len : Z) : M pmem (Z * list Z) :=
  if 0 <? len then
    match fuel with
    | O => panic out_of_fuel
    | S fuel =>
        let va0 := PGROUNDDOWN srcva in
        pa0 ← walkaddr pagetable va0;
        if pa0 =? 0 then mret (-1, [])
        else
          let n := PGSIZE - (srcva - va0) in
          let n := if len <? n then len else n in
          bs ← gets (fun s => load_bytes (Z.to_nat n) (pm_mem s) (pa0 + (srcva - va0)));
          r ← copyin_loop fuel pagetable (u64 (va0 + PGSIZE)) (len - n);
          mret (r.1, bs ++ r.2)
    end
  else mret (0, []).

Definition copyin (pagetable srcva len : Z) : M pmem (Z * list Z) :=
  copyin_loop (Z.to_nat len) pagetable srcva len.

(** The inner while(n > 0) of copyinstr: copies up to [n] bytes from [p],
    stops after a NUL; answers (got_null, bytes written). *)
Fixpoint copyinstr_page (n : nat) (m : mem) (p : Z) : bool * list Z :=
  match n with
  | O => (false, [])
  | S n =>
      let c := load8 m p in
      if c =? 0 then (true, [0])
      else let '(got_null, bs) := copyinstr_page n m (p + 1) in (got_null, c :: bs)
  end.

(** while(got_null == 0 && max > 0) of copyinstr. *)
Fixpoint copyinstr_loop (fuel : nat) (pagetable srcva max : Z) : M pmem (Z * list Z) :=
  if 0 <? max then
    match fuel with
    | O => panic out_of_fuel
    | S fuel =>
        let va0 := PGROUNDDOWN srcva in
        pa0 ← walkaddr pagetable va0;
        if pa0 =? 0 then mret (-1, [])
        else
          let n := PGSIZE - (srcva - va0) in
          let n := if max <? n then max else n in
          r ← gets (fun s => copyinstr_page (Z.to_nat n) (pm_mem s) (pa0 + (srcva - va0)));
          let '(got_null, bs) := r in
          if got_null : bool then mret (0, bs)
          else
            r ← copyinstr_loop fuel pagetable (u64 (va0 + PGSIZE)) (max - n);
            mret (r.1, bs ++ r.2)
    end
  else mret (-1, []).

Definition copyinstr (pagetable srcva max : Z) : M pmem (Z * list Z) :=
  copyinstr_loop (Z.to_nat max) pagetable srcva max.

End vm.
