(* ===== verification/VmTable.v ===== *)
(** The meaning of a page table: the tables it owns, the entry each virtual
    page has, and what walk does to them. *)

From S2P Require Import Prelude Memory Riscv Kalloc Vm.

(** * Tables

    A table is named by the path of entry indices that leads to it from the
    root: [] is the root, [[i]] the level-1 table of entry [i], [[i; j]] a
    level-0 table. *)

Definition entry_table (e : Z) : option Z :=
  if has e PTE_V then Some (PTE2PA e) else None.

Fixpoint tbl (m : mem) (t : Z) (path : list Z) : option Z :=
  match path with
  | [] => Some t
  | i :: r =>
      match entry_table (load64 m (t + 8 * i)) with
      | Some t' => tbl m t' r
      | None => None
      end
  end.

Definition valid_path (p : list Z) : Prop :=
  (length p <= 2)%nat /\ Forall (fun i => 0 <= i < 512) p.

(** The page at [q] holds a table of the tree rooted at [root]. *)
Definition owned (m : mem) (root q : Z) : Prop :=
  exists p, valid_path p /\ tbl m root p = Some q.

Section table.
Context `{KernelImage}.

(** An entry that points to a table has none of R, W and X. *)
Definition is_link (e : Z) : Prop := has e PTE_V = true -> Z.land e (Z.lor PTE_R (Z.lor PTE_W PTE_X)) = 0.

(** Every table is a RAM page off the free list [l], no page holds two tables,
    the valid entries of the upper two levels point to tables, and the half
    of the root for addresses from MAXVA on is empty. *)
Definition pt_wf (m : mem) (root : Z) (l : list Z) : Prop :=
  (forall p t, valid_path p -> tbl m root p = Some t -> page_ok t /\ t ∉ l) /\
  (forall p q t, valid_path p -> valid_path q ->
     tbl m root p = Some t -> tbl m root q = Some t -> p = q) /\
  (forall p t i, valid_path p -> (length p < 2)%nat -> tbl m root p = Some t -> 0 <= i < 512 ->
     is_link (load64 m (t + 8 * i))) /\
  (forall i, 256 <= i < 512 -> tbl m root [i] = None).

End table.

Definition va_path (va : Z) : list Z := [PX 2 va; PX 1 va].

(** The entry of the page of [va]; 0 (invalid) when a table on the way is
    missing. *)
Definition ptmap (m : mem) (root va : Z) : Z :=
  match tbl m root (va_path va) with
  | Some t => load64 m (t + 8 * PX 0 va)
  | None => 0
  end.

(** Bytes of the pages off the free list and off the tables of [root] are
    the same in both memories. *)
Definition same_elsewhere (l : list Z) (root : Z) (m m' : mem) : Prop :=
  forall q a, q mod PGSIZE = 0 -> q ∉ l -> ~ owned m root q ->
    q <= a < q + PGSIZE -> load8 m' a = load8 m a.

(** * Lemmas on paths *)

Lemma valid_nil : valid_path [].
Proof. split; [simpl; lia|constructor]. Qed.

Lemma valid_snoc p i :
  valid_path p -> (length p < 2)%nat -> 0 <= i < 512 -> valid_path (p ++ [i]).
Proof.
  intros [Hl Hf] Hlt Hi. split; [rewrite length_app; simpl; lia|].
  apply Forall_app; auto.
Qed.

Lemma valid_single i : 0 <= i < 512 -> valid_path [i].
Proof. intros Hi. split; [simpl; lia|by apply Forall_singleton]. Qed.

Lemma valid_snoc_inv p i : valid_path (p ++ [i]) ->
  valid_path p /\ (length p < 2)%nat /\ 0 <= i < 512.
Proof.
  intros [Hl Hf]. rewrite length_app in Hl. simpl in Hl.
  apply Forall_app in Hf as [Hf Hi]. apply Forall_cons in Hi as [Hi _].
  split; [split; [lia|done]|]. split; [lia|done].
Qed.

Lemma valid_va_path va : valid_path (va_path va).
Proof. split; [simpl; lia|]. repeat constructor; apply PX_range. Qed.

Lemma tbl_app m t p q :
  tbl m t (p ++ q) = match tbl m t p with Some t' => tbl m t' q | None => None end.
Proof.
  revert t. induction p as [|i p IH]; intros t; [done|]. simpl.
  destruct (entry_table _); [apply IH|done].
Qed.

Lemma tbl_snoc m t p i :
  tbl m t (p ++ [i]) =
  match tbl m t p with Some t' => entry_table (load64 m (t' + 8 * i)) | None => None end.
Proof.
  rewrite tbl_app. destruct (tbl m t p); [|done]. simpl. by destruct (entry_table _).
Qed.

#[export] Hint Resolve valid_nil valid_va_path : xv6.

(** * Stores into a table *)

Section stores.
Context `{KernelImageOk}.

Lemma slot_apart t t' i j :
  t mod PGSIZE = 0 -> t' mod PGSIZE = 0 -> 0 <= i < 512 -> 0 <= j < 512 ->
  (t, i) <> (t', j) -> t + 8 * i + 8 <= t' + 8 * j \/ t' + 8 * j + 8 <= t + 8 * i.
Proof.
  intros Ht Ht' Hi Hj Hne. destruct (decide (t = t')) as [->|E].
  - assert (i <> j) by congruence. lia.
  - pose proof (page_apart _ _ Ht Ht' E). unfold PGSIZE in *. lia.
Qed.

(** A table is found the same way when no slot on its path was written. *)
Lemma tbl_store m root l p t i v q :
  pt_wf m root l -> valid_path p -> tbl m root p = Some t -> 0 <= i < 512 ->
  valid_path q -> (forall r j, (r ++ [j]) `prefix_of` q -> (r, j) <> (p, i)) ->
  tbl (store64 m (t + 8 * i) v) root q = tbl m root q.
Proof.
  intros (Hok & Hinj & _) Hp Ht Hi. induction q as [|j r IH] using rev_ind; intros Hq Hne; [done|].
  destruct (valid_snoc_inv _ _ Hq) as (Hr & _ & Hj).
  rewrite !tbl_snoc, IH; [|done|].
  - destruct (tbl m root r) as [t'|] eqn:Et'; [|done].
    rewrite load64_store64_ne; [done|].
    destruct (Hok p t Hp Ht) as [[Ha _] _], (Hok r t' Hr Et') as [[Ha' _] _].
    apply slot_apart; auto. intros [= Ett Eij]. subst t' j.
    apply (Hne r i); [done|]. f_equal. by apply (Hinj r p t).
  - intros r' j' Hpre. apply Hne. by apply prefix_app_r.
Qed.

(** Writing a level-0 entry moves no table... *)
Lemma tbl_store_leaf m root l p t i v q :
  pt_wf m root l -> valid_path p -> length p = 2%nat -> tbl m root p = Some t ->
  0 <= i < 512 -> valid_path q ->
  tbl (store64 m (t + 8 * i) v) root q = tbl m root q.
Proof.
  intros Hw Hp Hl Ht Hi Hq. apply (tbl_store m root l p); auto.
  intros r j Hpre Heq. injection Heq as -> ->. apply prefix_length in Hpre.
  rewrite length_app, Hl in Hpre. destruct Hq as [Hq _]. simpl in Hpre. lia.
Qed.

(** The entries of the upper two levels are the same in both memories. *)
Definition same_links (m m' : mem) (root : Z) : Prop :=
  forall p t i, valid_path p -> (length p < 2)%nat -> tbl m root p = Some t -> 0 <= i < 512 ->
    load64 m' (t + 8 * i) = load64 m (t + 8 * i).

Lemma tbl_same_links m m' root q : same_links m m' root -> valid_path q -> tbl m' root q = tbl m root q.
Proof.
  intros Hs. induction q as [|j r IH] using rev_ind; intros Hq; [done|].
  destruct (valid_snoc_inv _ _ Hq) as (Hr & Hl & Hj).
  rewrite !tbl_snoc, IH by done. destruct (tbl m root r) as [t'|] eqn:Et'; [|done].
  f_equal. by apply (Hs r).
Qed.

Lemma pt_wf_tables m m' root l : same_links m m' root -> pt_wf m root l -> pt_wf m' root l.
Proof.
  intros Hs (H1 & H2 & H3 & H4). pose proof (fun q => tbl_same_links m m' root q Hs) as E. split_and!.
  - intros p t Hp. rewrite E by done. by apply H1.
  - intros p q t Hp Hq. rewrite !E by done. by apply H2.
  - intros p t i Hp Hl Ht Hi. rewrite E in Ht by done. rewrite (Hs p) by done. by apply (H3 p).
  - intros i Hi. rewrite E by (apply valid_single; lia). auto.
Qed.

Lemma owned_tables m m' root q :
  (forall p, valid_path p -> tbl m' root p = tbl m root p) -> owned m' root q <-> owned m root q.
Proof.
  intros E. split; intros (p & Hp & Ht); exists p; split; auto; [by rewrite <- E|by rewrite E].
Qed.

Lemma pt_wf_store_leaf m root l p t i v :
  pt_wf m root l -> valid_path p -> length p = 2%nat -> tbl m root p = Some t ->
  0 <= i < 512 -> pt_wf (store64 m (t + 8 * i) v) root l.
Proof.
  intros Hw Hp Hl Ht Hi. eapply pt_wf_tables; [|done]. destruct Hw as (Hok & Hinj & _).
  intros q t' j Hq Hlq Ht' Hj. apply load64_store64_ne.
  destruct (Hok p t Hp Ht) as [[Ha _] _], (Hok q t' Hq Ht') as [[Ha' _] _].
  apply slot_apart; auto. intros [= <- _]. rewrite (Hinj p q t) in Hl by done. lia.
Qed.

(** ... and changes the entry of that page only. *)
Lemma ptmap_store_leaf m root l va t v vb :
  pt_wf m root l -> tbl m root (va_path va) = Some t -> 0 <= v < 18446744073709551616 ->
  0 <= va < 2 ^ 39 -> 0 <= vb < 2 ^ 39 ->
  ptmap (store64 m (t + 8 * PX 0 va) v) root vb =
  if decide (va / 4096 = vb / 4096) then v else ptmap m root vb.
Proof.
  intros Hw Ht Hv Ha Hb. unfold ptmap.
  rewrite (tbl_store_leaf m root l (va_path va)) by auto with xv6.
  case_decide as E.
  - pose proof E as E'. rewrite !PX_page in E by done.
    pose proof (PX_range 2 va). pose proof (PX_range 1 va). pose proof (PX_range 0 va).
    pose proof (PX_range 2 vb). pose proof (PX_range 1 vb). pose proof (PX_range 0 vb).
    assert (PX 2 va = PX 2 vb /\ PX 1 va = PX 1 vb /\ PX 0 va = PX 0 vb) as (E2 & E1 & E0) by lia.
    unfold va_path in *. rewrite <- E2, <- E1, <- E0, Ht. by apply load64_store64_eq.
  - destruct (tbl m root (va_path vb)) as [t'|] eqn:Et'; [|done].
    apply load64_store64_ne. destruct Hw as (Hok & Hinj & _).
    destruct (Hok _ t (valid_va_path va) Ht) as [[Hat _] _].
    destruct (Hok _ t' (valid_va_path vb) Et') as [[Hat' _] _].
    apply slot_apart; auto with xv6. intros [= -> E0]. apply E.
    assert (va_path va = va_path vb) as [= E2 E1] by (eapply Hinj; eauto with xv6).
    by apply PX_inj.
Qed.

(** A table tree whose pages are untouched is unchanged. *)
Lemma same_links_agree m m' root :
  (forall t a, owned m root t -> t <= a < t + PGSIZE -> load8 m' a = load8 m a) -> same_links m m' root.
Proof.
  intros Hs p t i Hp Hl Ht Hi. apply load64_agree. intros a Ha. apply (Hs t); [by exists p|]. unfold PGSIZE. lia.
Qed.

Lemma tbl_agree m m' root q :
  (forall t a, owned m root t -> t <= a < t + PGSIZE -> load8 m' a = load8 m a) ->
  valid_path q -> tbl m' root q = tbl m root q.
Proof. intros Hs. by apply tbl_same_links, same_links_agree. Qed.

Lemma ptmap_agree m m' root va :
  (forall t a, owned m root t -> t <= a < t + PGSIZE -> load8 m' a = load8 m a) ->
  ptmap m' root va = ptmap m root va.
Proof.
  intros Hs. unfold ptmap. rewrite (tbl_agree m m' root) by auto with xv6.
  destruct (tbl m root (va_path va)) as [t|] eqn:Et; [|done].
  apply load64_agree. intros a Ha. pose proof (PX_range 0 va).
  apply (Hs t); [exists (va_path va); auto with xv6|]. unfold PGSIZE. lia.
Qed.

Lemma pt_wf_sub m root l l' : (forall x, x ∈ l' -> x ∈ l) -> pt_wf m root l -> pt_wf m root l'.
Proof.
  intros Hs (H1 & H2 & H3). split; [|done]. intros p t Hp Ht. destruct (H1 p t Hp Ht). auto.
Qed.

End stores.

(** * walk *)

(** The indices still to follow from a table of the given level. *)
Fixpoint path_rest (level : nat) (va : Z) : list Z :=
  match level with
  | O => []
  | S l => PX (Z.of_nat level) va :: path_rest l va
  end.

Section walk_proofs.
Context `{KernelImageOk}.

(** From [s] to [s'] tables of [root] were added, taking pages from the
    front of the free list [l], and only entries of [root] were written. *)
Record pt_grow (root : Z) (s : pmem) (l : list Z) (s' : pmem) (l' : list Z) : Prop := {
  grow_kinv : kinv s' l';
  grow_wf : pt_wf (pm_mem s') root l';
  grow_used : exists used, l = used ++ l' /\
    forall q, owned (pm_mem s') root q <-> owned (pm_mem s) root q \/ q ∈ used;
  grow_same : same_elsewhere l root (pm_mem s) (pm_mem s');
}.

(** ... and no mapping changed. *)
Definition pt_ext (root : Z) (s : pmem) (l : list Z) (s' : pmem) (l' : list Z) : Prop :=
  pt_grow root s l s' l' /\
  forall va, ptmap (pm_mem s') root va = ptmap (pm_mem s) root va.

Lemma pt_grow_refl root s l : kinv s l -> pt_wf (pm_mem s) root l -> pt_grow root s l s l.
Proof.
  intros Hk Hw. split; auto.
  - exists []. split; [done|]. set_solver.
  - by intros q a.
Qed.

Lemma pt_grow_trans root s1 l1 s2 l2 s3 l3 :
  pt_grow root s1 l1 s2 l2 -> pt_grow root s2 l2 s3 l3 -> pt_grow root s1 l1 s3 l3.
Proof.
  intros [Hk1 Hw1 (u1 & -> & Ho1) Hs1] [Hk2 Hw2 (u2 & -> & Ho2) Hs2].
  split; auto.
  - exists (u1 ++ u2). split; [by rewrite app_assoc|]. intros q.
    rewrite Ho2, Ho1. set_solver.
  - intros q a Ha Hn Ho Hr. rewrite (Hs2 q), (Hs1 q); auto; [set_solver|].
    rewrite Ho1. set_solver.
Qed.

Lemma pt_ext_refl root s l : kinv s l -> pt_wf (pm_mem s) root l -> pt_ext root s l s l.
Proof. split; auto using pt_grow_refl. Qed.

Lemma pt_ext_trans root s1 l1 s2 l2 s3 l3 :
  pt_ext root s1 l1 s2 l2 -> pt_ext root s2 l2 s3 l3 -> pt_ext root s1 l1 s3 l3.
Proof.
  intros [Hg1 Hm1] [Hg2 Hm2]. split; [by eapply pt_grow_trans|].
  intros va. by rewrite Hm2, Hm1.
Qed.

Section add_table.
Variables (m m1 : mem) (root pg t i : Z) (l p : list Z).
Hypothesis Hwf : pt_wf m root (pg :: l).
Hypothesis Hnd : NoDup (pg :: l).
Hypothesis Hpg : page_ok pg.
Hypothesis Hp : valid_path p.
Hypothesis Hlen : (length p < 2)%nat.
Hypothesis Ht : tbl m root p = Some t.
Hypothesis Hi : 0 <= i < 512.
Hypothesis Hlow : p = [] -> i < 256.
Hypothesis Hnone : entry_table (load64 m (t + 8 * i)) = None.
Hypothesis Hsame : same_outside pg m m1.
Hypothesis Hzero : forall j, 0 <= j < 512 -> load64 m1 (pg + 8 * j) = 0.

Let m2 : mem := store64 m1 (t + 8 * i) (Z.lor (PA2PTE pg) PTE_V).

Lemma new_pte : entry_table (load64 m2 (t + 8 * i)) = Some pg.
Proof.
  pose proof (page_ok_word pg Hpg). destruct Hpg as [Ha _].
  destruct (PTE_roundtrip pg PTE_V) as (E1 & E2 & E3);
    [lia|done|change PTE_V with 1; lia|].
  unfold m2. rewrite load64_store64_eq by lia. unfold entry_table.
  rewrite has_V, E2. simpl. by rewrite E1.
Qed.

Lemma new_link : Z.land (load64 m2 (t + 8 * i)) (Z.lor PTE_R (Z.lor PTE_W PTE_X)) = 0.
Proof.
  pose proof (page_ok_word pg Hpg). destruct Hpg as [Ha _].
  destruct (PTE_roundtrip pg PTE_V) as (_ & E2 & E3); [lia|done|change PTE_V with 1; lia|].
  unfold m2. rewrite load64_store64_eq by lia. change (Z.lor PTE_R (Z.lor PTE_W PTE_X)) with (Z.land 1023 14).
  rewrite Z.land_assoc. change 1023 with 0x3FF. fold (PTE_FLAGS (Z.lor (PA2PTE pg) PTE_V)). rewrite E2. done.
Qed.

(** Reading an entry of an old table, other than the one written. *)
Lemma old_entry r t' j :
  valid_path r -> tbl m root r = Some t' -> 0 <= j < 512 -> (r, j) <> (p, i) ->
  load64 m2 (t' + 8 * j) = load64 m (t' + 8 * j).
Proof.
  intros Hr Ht' Hj Hne. destruct Hwf as (Hok & Hinj & _).
  destruct (Hok r t' Hr Ht') as [[Ha' _] Hn'], (Hok p t Hp Ht) as [[Ha _] _].
  unfold m2. rewrite load64_store64_ne.
  - apply (same_outside_load64 pg); [done|].
    assert (pg <> t') by set_solver. destruct Hpg as [Hap _].
    pose proof (page_apart pg t' Hap Ha'). unfold PGSIZE in *. lia.
  - apply slot_apart; auto. intros [= <- <-]. apply Hne. f_equal. by apply (Hinj r p t).
Qed.

Lemma tbl_add q :
  valid_path q ->
  tbl m2 root q = if decide (q = p ++ [i]) then Some pg else tbl m root q.
Proof.
  induction q as [|j r IH] using rev_ind; intros Hq.
  { case_decide as E; [|done]. by destruct p. }
  destruct (valid_snoc_inv _ _ Hq) as (Hr & Hrl & Hj).
  rewrite !tbl_snoc, IH by done.
  destruct (decide (r = p ++ [i])) as [->|Er].
  - rewrite decide_False by (intros E; apply (f_equal length) in E;
      rewrite !length_app in E; simpl in E; lia).
    rewrite tbl_snoc, Ht, Hnone. unfold m2. rewrite load64_store64_ne.
    + rewrite Hzero by done. done.
    + destruct Hwf as [Hok _]. destruct (Hok p t Hp Ht) as [[Ha _] Hn].
      destruct Hpg as [Hap _]. apply slot_apart; auto. set_solver.
  - destruct (decide (r ++ [j] = p ++ [i])) as [E|E].
    + apply app_inj_tail in E as [-> ->]. rewrite Ht. apply new_pte.
    + destruct (tbl m root r) as [t'|] eqn:Et'; [|done].
      rewrite (old_entry r); auto. congruence.
Qed.

Lemma pt_wf_add : pt_wf m2 root l.
Proof.
  destruct Hwf as (Hok & Hinj & Hlk & Htop). pose proof (NoDup_cons_1_1 _ _ Hnd) as Hnl. split_and!.
  - intros q t' Hq. rewrite tbl_add by done. case_decide.
    + by intros [= <-].
    + intros Et'. destruct (Hok q t' Hq Et'). set_solver.
  - intros q1 q2 t' H1 H2. rewrite !tbl_add by done.
    repeat case_decide; intros E1 E2; subst; auto.
    + injection E1 as <-. destruct (Hok q2 pg H2 E2). set_solver.
    + injection E2 as <-. destruct (Hok q1 pg H1 E1). set_solver.
    + by eapply Hinj.
  - intros q t' j Hq Hl. rewrite tbl_add by done. case_decide as Eq; [intros [= <-] Hj|intros Et' Hj].
    + subst q. intros Hv. exfalso. unfold m2 in Hv. rewrite load64_store64_ne in Hv.
      * by rewrite Hzero in Hv.
      * destruct (Hok p t Hp Ht) as [[Ha _] Hn]. destruct Hpg as [Hap _]. apply slot_apart; auto. set_solver.
    + destruct (decide ((q, j) = (p, i))) as [[= -> ->]|Hne].
      * rewrite Ht in Et'. injection Et' as <-. intros _. apply new_link.
      * rewrite (old_entry q) by done. by apply (Hlk q).
  - intros j Hj. rewrite tbl_add by (apply valid_single; lia). rewrite decide_False; [auto|].
    intros Ej. destruct p as [|? [|? ?]]; [|done..]. injection Ej as ->. pose proof (Hlow eq_refl). lia.
Qed.

Lemma owned_add q : owned m2 root q <-> owned m root q \/ q = pg.
Proof.
  assert (Hv : valid_path (p ++ [i])) by (by apply valid_snoc). split.
  - intros (r & Hr & Et'). rewrite tbl_add in Et' by done.
    case_decide; [right; congruence|]. left. by exists r.
  - intros [(r & Hr & Et')| ->].
    + exists r. split; [done|]. rewrite tbl_add by done. case_decide; [|done].
      subst. by rewrite tbl_snoc, Ht, Hnone in Et'.
    + exists (p ++ [i]). split; [done|]. rewrite tbl_add by done. by rewrite decide_True.
Qed.

Lemma ptmap_add va : ptmap m2 root va = ptmap m root va.
Proof.
  unfold ptmap. pose proof (valid_va_path va) as Hv. rewrite tbl_add by done. case_decide as E.
  - rewrite E, tbl_snoc, Ht, Hnone. unfold m2.
    rewrite load64_store64_ne; [by rewrite Hzero by apply PX_range|].
    destruct Hwf as [Hok _]. destruct (Hok p t Hp Ht) as [[Ha _] Hn].
    destruct Hpg as [Hap _]. apply slot_apart; auto with xv6. set_solver.
  - destruct (tbl m root (va_path va)) as [t'|] eqn:Et'; [|done].
    apply (old_entry (va_path va)); auto with xv6.
    intros [= <- _]. simpl in Hlen. lia.
Qed.

Lemma same_add : same_elsewhere (pg :: l) root m m2.
Proof.
  intros q a Ha Hn Ho Hr. destruct Hwf as [Hok _].
  destruct (Hok p t Hp Ht) as [[Hat _] _].
  assert (t <> q) by (intros ->; apply Ho; by exists p).
  assert (pg <> q) by set_solver. destruct Hpg as [Hap _].
  pose proof (page_apart t q Hat Ha). pose proof (page_apart pg q Hap Ha).
  unfold m2, PGSIZE in *. rewrite load8_store64_ne by lia. apply Hsame.
  unfold PGSIZE. lia.
Qed.

End add_table.

(** Installing a fresh, zeroed page as the table of a missing entry. *)
Lemma pt_ext_add root s s1 l p t i pg :
  kinv s (pg :: l) -> pt_wf (pm_mem s) root (pg :: l) -> valid_path p ->
  (length p < 2)%nat -> tbl (pm_mem s) root p = Some t -> 0 <= i < 512 -> (p = [] -> i < 256) ->
  entry_table (load64 (pm_mem s) (t + 8 * i)) = None ->
  kinv s1 l -> page_ok pg -> pm_mem s1 = memset (pm_mem s) pg 5 PGSIZE ->
  let s2 := set_mem (store64 (memset (pm_mem s1) pg 0 PGSIZE) (t + 8 * i)
                       (Z.lor (PA2PTE pg) PTE_V)) s1 in
  pt_ext root s (pg :: l) s2 l /\ tbl (pm_mem s2) root (p ++ [i]) = Some pg.
Proof.
  intros Hk Hw Hp Hlen Ht Hi Hlow Hnone Hk1 Hpg Em1.
  set (m1 := memset (pm_mem s1) pg 0 PGSIZE). cbn zeta.
  assert (Hsame : same_outside pg (pm_mem s) m1).
  { unfold m1. rewrite Em1. eapply same_outside_trans; apply same_outside_memset. }
  assert (Hzero : forall j, 0 <= j < 512 -> load64 m1 (pg + 8 * j) = 0).
  { intros j Hj. apply load64_memset_zero; unfold PGSIZE; lia. }
  pose proof Hk as [_ Hnd]. pose proof (NoDup_cons_1_1 _ _ Hnd) as Hnl.
  pose proof Hw as [Hok _]. destruct (Hok p t Hp Ht) as [[Hat _] Htn].
  split; [split; [split|]|]; simpl.
  - split; [|apply Hk1]. destruct Hk1 as [Hc _].
    eapply (free_chain_agree _ _ _ _ t); [| assumption | notin |].
    + apply same_outside_store64; unfold PGSIZE; lia.
    + eapply (free_chain_agree (pm_mem s1)); eauto using same_outside_memset. apply Hpg.
  - by apply (pt_wf_add (pm_mem s) m1 root pg t i l p).
  - exists [pg]. split; [done|]. intros q. rewrite list_elem_of_singleton.
    by apply (owned_add (pm_mem s) m1 root pg t i l p).
  - by apply (same_add (pm_mem s) m1 root pg t i l p).
  - intros vb. by apply (ptmap_add (pm_mem s) m1 root pg t i l p).
  - rewrite (tbl_add (pm_mem s) m1 root pg t i l p) by auto using valid_snoc.
    by rewrite decide_True.
Qed.

(** walk without allocation only reads. *)
Lemma walk_levels_lookup level t va s :
  walk_levels level t va false s =
  Ok (match tbl (pm_mem s) t (path_rest level va) with
      | Some t' => t' + 8 * PX 0 va
      | None => 0
      end, s).
Proof.
  revert t. induction level as [|level IH]; intros t; [done|].
  cbn [walk_levels path_rest tbl]. unfold load_pte, entry_table.
  rewrite bind_run, gets_run. destruct (has _ PTE_V); [apply IH|done].
Qed.

Lemma walk_lookup root va s :
  va < MAXVA ->
  walk root va false s =
  Ok (match tbl (pm_mem s) root (va_path va) with
      | Some t' => t' + 8 * PX 0 va
      | None => 0
      end, s).
Proof.
  intros Hv. unfold walk. destruct (Z.leb_spec MAXVA va); [lia|]. apply walk_levels_lookup.
Qed.

(** walk with allocation: either the table of [va] exists afterwards and the
    address of its entry is returned, or memory is exhausted. *)
Lemma walk_levels_alloc level root va : 0 <= va < MAXVA -> forall p t s l,
  kinv s l -> pt_wf (pm_mem s) root l -> valid_path p ->
  va_path va = p ++ path_rest level va -> tbl (pm_mem s) root p = Some t ->
  exists r s' l', walk_levels level t va true s = Ok (r, s') /\ pt_ext root s l s' l' /\
    ((r = 0 /\ l' = []) \/
     exists t', tbl (pm_mem s') root (va_path va) = Some t' /\ r = t' + 8 * PX 0 va).
Proof.
  intros Hva. induction level as [|level IH]; intros p t s l Hk Hw Hp Hpath Ht.
  { exists (t + 8 * PX 0 va), s, l. split_and!; auto using pt_ext_refl.
    right. exists t. rewrite app_nil_r in Hpath. by rewrite Hpath. }
  cbn [walk_levels]. unfold load_pte. rewrite bind_run, gets_run.
  set (i := PX (Z.of_nat (S level)) va). fold i in Hpath. set (e := load64 (pm_mem s) (t + 8 * i)).
  assert (Hi : 0 <= i < 512) by apply PX_range.
  assert (Hlen : (length p < 2)%nat).
  { apply (f_equal length) in Hpath. rewrite length_app in Hpath. simpl in Hpath. lia. }
  assert (Hpi : valid_path (p ++ [i])) by (by apply valid_snoc).
  assert (Hpath' : va_path va = (p ++ [i]) ++ path_rest level va).
  { rewrite Hpath, <- app_assoc. done. }
  destruct (has e PTE_V) eqn:Ev.
  - apply (IH (p ++ [i])); auto. rewrite tbl_snoc, Ht. unfold entry_table. fold e. by rewrite Ev.
  - simpl. pose proof (kalloc_spec s l Hk) as Hka. destruct l as [|pg l].
    { rewrite bind_run, Hka. exists 0, s, []. split_and!; auto using pt_ext_refl. }
    destruct Hka as (s1 & E1 & Hk1 & Hn1 & Hpg & Em1). rewrite (bind_Ok _ _ _ _ _ E1).
    assert (pg <> 0) by (pose proof (page_ok_range pg Hpg); unfold KERNBASE in *; lia).
    rewrite (proj2 (Z.eqb_neq pg 0)) by assumption.
    assert (Hnone : entry_table (load64 (pm_mem s) (t + 8 * i)) = None).
    { unfold entry_table. fold e. by rewrite Ev. }
    assert (Hlow : p = [] -> i < 256).
    { intros ->. injection Hpath as E2 _. change (PX 2 va = i) in E2. rewrite <- E2, PX_div by lia.
      change (2 ^ (12 + 9 * 2)) with 1073741824. change MAXVA with 274877906944 in Hva. Z.div_mod_to_equations. lia. }
    destruct (pt_ext_add root s s1 l p t i pg) as [Hext Htbl]; auto.
    set (s2 := set_mem _ s1) in Hext, Htbl.
    destruct (IH (p ++ [i]) pg s2 l) as (r & s' & l' & Er & Hext' & Hr); auto.
    { apply Hext. } { apply Hext. }
    exists r, s', l'. split_and!; auto. by eapply pt_ext_trans.
Qed.

Lemma walk_alloc root va s l :
  kinv s l -> pt_wf (pm_mem s) root l -> 0 <= va < MAXVA ->
  exists r s' l', walk root va true s = Ok (r, s') /\ pt_ext root s l s' l' /\
    ((r = 0 /\ l' = []) \/
     exists t', tbl (pm_mem s') root (va_path va) = Some t' /\ r = t' + 8 * PX 0 va).
Proof.
  intros Hk Hw Hv. unfold walk. destruct (Z.leb_spec MAXVA va); [lia|].
  apply (walk_levels_alloc 2 root va Hv []); auto with xv6.
Qed.

End walk_proofs.

#[global] Arguments tbl : simpl never.
