(* ===== verification/VmSpace.v ===== *)
(** What mappages, uvmunmap, uvmalloc, uvmdealloc and uvmcopy do to an
    address space. *)

From S2P Require Import Prelude Memory Riscv Kalloc Vm VmTable.

(** The entry mappages installs. *)
Definition mkpte (pa perm : Z) : Z := Z.lor (Z.lor (PA2PTE pa) perm) PTE_V.

(** Page of a virtual address. *)
Definition vpage (va : Z) : Z := va / 4096 * 4096.

Lemma lor_flags x y : 0 <= x < 1024 -> 0 <= y < 1024 -> 0 <= Z.lor x y < 1024.
Proof.
  intros Hx Hy. assert (Hn : 0 <= Z.lor x y) by (apply Z.lor_nonneg; lia).
  split; [done|]. destruct (Z.eq_dec (Z.lor x y) 0) as [->|]; [lia|].
  apply (Z.log2_lt_pow2 (Z.lor x y) 10); [lia|]. rewrite Z.log2_lor by lia.
  apply Z.max_lub_lt.
  - destruct (Z.eq_dec x 0) as [->|]; [done|]. apply (Z.log2_lt_pow2 x 10); lia.
  - destruct (Z.eq_dec y 0) as [->|]; [done|]. apply (Z.log2_lt_pow2 y 10); lia.
Qed.

Lemma mkpte_range pa perm :
  0 <= pa < 2 ^ 56 -> pa mod 4096 = 0 -> 0 <= perm < 1024 ->
  PTE2PA (mkpte pa perm) = pa /\ PTE_FLAGS (mkpte pa perm) = Z.lor perm PTE_V /\
  0 <= mkpte pa perm < 18446744073709551616.
Proof.
  intros Hp Ha Hf. unfold mkpte. rewrite <- Z.lor_assoc.
  pose proof (lor_flags perm PTE_V Hf ltac:(done)).
  destruct (PTE_roundtrip pa (Z.lor perm PTE_V)) as (E1 & E2 & E3); auto; lia.
Qed.

Lemma has_lor x y b : has x b = true -> has (Z.lor x y) b = true.
Proof.
  unfold has. rewrite !negb_true_iff, !Z.eqb_neq, Z.land_lor_distr_l. intros Hx E.
  apply Hx. apply Z.lor_eq_0_iff in E. tauto.
Qed.

Lemma mkpte_valid pa perm : has (mkpte pa perm) PTE_V = true.
Proof. unfold mkpte. rewrite Z.lor_comm. by apply has_lor. Qed.

Section space.
Context `{KernelImageOk}.

Lemma kinv_same_outside s l p m :
  kinv s l -> p mod PGSIZE = 0 -> p ∉ l -> same_outside p (pm_mem s) m -> kinv (set_mem m s) l.
Proof. intros [Hc Hn] Ha Hp Hs. split; [|done]. simpl. by eapply free_chain_agree. Qed.

(** Writing a level-0 entry. *)
Lemma pt_grow_leaf root s l va t v :
  kinv s l -> pt_wf (pm_mem s) root l -> tbl (pm_mem s) root (va_path va) = Some t ->
  pt_grow root s l (set_mem (store64 (pm_mem s) (t + 8 * PX 0 va) v) s) l.
Proof.
  intros Hk Hw Ht. pose proof (PX_range 0 va) as Hpx.
  destruct (proj1 Hw _ _ (valid_va_path va) Ht) as [[Hat Hr] Htn].
  assert (Hso : same_outside t (pm_mem s) (store64 (pm_mem s) (t + 8 * PX 0 va) v)).
  { apply same_outside_store64; unfold PGSIZE; lia. }
  split; simpl.
  - by eapply kinv_same_outside.
  - by eapply (pt_wf_store_leaf _ _ _ (va_path va)); auto with xv6.
  - exists []. split; [done|]. intros q. rewrite (owned_tables (pm_mem s)).
    + rewrite elem_of_nil. tauto.
    + intros p Hp. apply (tbl_store_leaf _ _ l (va_path va)); auto with xv6.
  - intros q a Ha Hn Ho Hq. apply Hso.
    assert (t <> q) by (intros ->; apply Ho; exists (va_path va); auto with xv6).
    pose proof (page_apart t q Hat Ha). lia.
Qed.

Lemma MAXVA_lt va : va < MAXVA -> va < 2 ^ 39.
Proof. change MAXVA with 274877906944. lia. Qed.

(** The loop of mappages: [k] of the [n] pages are mapped; if fewer than all,
    the free list is exhausted. *)
Lemma mappages_loop_spec root perm n : forall s l a pa,
  kinv s l -> pt_wf (pm_mem s) root l -> (0 < n)%nat ->
  0 <= a -> a mod 4096 = 0 -> a + Z.of_nat n * 4096 <= MAXVA ->
  0 <= pa -> pa mod 4096 = 0 -> pa + Z.of_nat n * 4096 <= 2 ^ 56 -> 0 <= perm < 1024 ->
  (forall va, a <= va < a + Z.of_nat n * 4096 -> has (ptmap (pm_mem s) root va) PTE_V = false) ->
  exists r s' l' k,
    mappages_loop n root a (a + (Z.of_nat n - 1) * 4096) pa perm s = Ok (r, s') /\
    pt_grow root s l s' l' /\
    (r = 0 /\ k = n \/ r = -1 /\ (k < n)%nat /\ l' = []) /\
    forall va, 0 <= va < MAXVA -> ptmap (pm_mem s') root va =
      if (a <=? va) && (va <? a + Z.of_nat k * 4096)
      then mkpte (pa + (vpage va - a)) perm else ptmap (pm_mem s) root va.
Proof.
  induction n as [|n IH]; intros s l a pa Hk Hw Hn Ha0 Haa Ham Hp0 Hpa Hpm Hperm Hfree; [lia|].
  cbn [mappages_loop].
  destruct (walk_alloc root a s l) as (r & s1 & l1 & E1 & [Hg1 Hm1] & Hr); auto; [lia|].
  rewrite (bind_Ok _ _ _ _ _ E1). destruct Hr as [[-> ->]|(t & Ht & ->)].
  { exists (-1), s1, [], 0%nat. split_and!; auto. intros va Hva. rewrite Hm1. case_bool; try lia; done. }
  pose proof (grow_kinv _ _ _ _ _ Hg1) as Hk1. pose proof (grow_wf _ _ _ _ _ Hg1) as Hw1.
  destruct (proj1 Hw1 _ _ (valid_va_path a) Ht) as [Htok _].
  apply page_ok_range in Htok. pose proof (PX_range 0 a).
  rewrite (proj2 (Z.eqb_neq (t + 8 * PX 0 a) 0)) by (unfold KERNBASE in *; lia).
  unfold load_pte, store_pte. rewrite bind_run, gets_run.
  assert (Hv : has (load64 (pm_mem s1) (t + 8 * PX 0 a)) PTE_V = false).
  { specialize (Hfree a). rewrite <- Hm1 in Hfree. unfold ptmap in Hfree. rewrite Ht in Hfree.
    apply Hfree. lia. }
  rewrite Hv, bind_run, modify_run. fold (mkpte pa perm).
  destruct (mkpte_range pa perm) as (_ & _ & Hpr); auto; [lia|].
  set (s2 := upd_mem _ s1).
  assert (Hg2 : pt_grow root s l s2 l1).
  { eapply pt_grow_trans; [exact Hg1|]. by apply pt_grow_leaf. }
  assert (Hm2 : forall va, 0 <= va < MAXVA -> ptmap (pm_mem s2) root va =
    if decide (a / 4096 = va / 4096) then mkpte pa perm else ptmap (pm_mem s) root va).
  { intros va Hva. unfold s2. simpl. rewrite <- Hm1. pose proof (MAXVA_lt va).
    apply (ptmap_store_leaf (pm_mem s1) root l1); auto; [|lia].
    pose proof (MAXVA_lt a). lia. }
  destruct (Z.eqb_spec a (a + (Z.of_nat (S n) - 1) * 4096)) as [Elast|Elast].
  - assert (n = 0%nat) by lia. subst n. exists 0, s2, l1, 1%nat. split_and!; auto.
    intros va Hva. rewrite Hm2 by done. unfold vpage.
    case_decide; case_bool; try (exfalso; Z.div_mod_to_equations; lia); try done.
    f_equal. Z.div_mod_to_equations; lia.
  - change MAXVA with 274877906944 in *.
    rewrite (u64_small (a + PGSIZE)), (u64_small (pa + PGSIZE)) by (unfold PGSIZE; lia).
    replace (a + (Z.of_nat (S n) - 1) * 4096) with (a + PGSIZE + (Z.of_nat n - 1) * 4096)
      by (unfold PGSIZE; lia).
    destruct (IH s2 l1 (a + PGSIZE) (pa + PGSIZE)) as (r & s3 & l3 & k & E3 & Hg3 & Hr & Hm3);
      try apply Hg2; auto; try (unfold PGSIZE in *; lia);
      try (unfold PGSIZE; Z.div_mod_to_equations; lia).
    { intros va Hva. unfold PGSIZE in Hva. rewrite Hm2 by lia.
      case_decide; [Z.div_mod_to_equations; lia|]. apply Hfree. lia. }
    exists r, s3, l3, (S k). split_and!; auto.
    + by eapply pt_grow_trans.
    + destruct Hr as [[-> ->]|(-> & Hlt & ->)]; [by left|right; split_and!; auto; lia].
    + intros va Hva. rewrite Hm3, Hm2 by done. unfold vpage, PGSIZE.
      case_decide; case_bool; try (exfalso; Z.div_mod_to_equations; lia); try done.
      * f_equal. Z.div_mod_to_equations; lia.
      * f_equal. Z.div_mod_to_equations; lia.
Qed.

(** * uvmunmap *)

(** Removing entries and handing back the pages [freed]. *)
Record pt_shrink (root : Z) (s : pmem) (l : list Z) (s' : pmem) (freed : list Z) : Prop := {
  shrink_kinv : kinv s' (freed ++ l);
  shrink_wf : pt_wf (pm_mem s') root (freed ++ l);
  shrink_owned : forall q, owned (pm_mem s') root q <-> owned (pm_mem s) root q;
  shrink_same : same_elsewhere (freed ++ l) root (pm_mem s) (pm_mem s');
}.

Lemma pt_shrink_refl root s l : kinv s l -> pt_wf (pm_mem s) root l -> pt_shrink root s l s [].
Proof. by split. Qed.

Lemma pt_shrink_trans root s1 l s2 f1 s3 f2 :
  pt_shrink root s1 l s2 f1 -> pt_shrink root s2 (f1 ++ l) s3 f2 ->
  pt_shrink root s1 l s3 (f2 ++ f1).
Proof.
  intros [Hk1 Hw1 Ho1 Hs1] [Hk2 Hw2 Ho2 Hs2].
  split; rewrite <- ?app_assoc; auto.
  - intros q. by rewrite Ho2, Ho1.
  - intros q a Ha Hn Ho Hq. rewrite (Hs2 q), (Hs1 q); auto.
    + set_solver.
    + by rewrite Ho1.
Qed.

Lemma owned_page_ok m root l q : pt_wf m root l -> owned m root q -> page_ok q /\ q ∉ l.
Proof. intros [Hok _] (p & Hp & Ht). eauto. Qed.

(** A page that holds no table can change freely. *)
Lemma tables_same_outside m m' root l p :
  pt_wf m root l -> p mod PGSIZE = 0 -> ~ owned m root p -> same_outside p m m' ->
  same_links m m' root /\
  (forall q, valid_path q -> tbl m' root q = tbl m root q) /\
  (forall va, ptmap m' root va = ptmap m root va).
Proof.
  intros Hw Ha Ho Hs.
  assert (Hag : forall t a, owned m root t -> t <= a < t + PGSIZE -> load8 m' a = load8 m a).
  { intros t a Ht Hr. apply Hs. destruct (owned_page_ok _ _ _ _ Hw Ht) as [[Hat _] _].
    assert (t <> p) by (intros ->; done). pose proof (page_apart t p Hat Ha). lia. }
  split_and!; intros; [by apply same_links_agree|by apply tbl_agree|by apply ptmap_agree].
Qed.

Lemma kfree_unowned root s l pa :
  kinv s l -> pt_wf (pm_mem s) root l -> page_ok pa -> pa ∉ l -> ~ owned (pm_mem s) root pa ->
  exists s', kfree pa s = Ok (tt, s') /\ pt_shrink root s l s' [pa] /\
    (forall q, valid_path q -> tbl (pm_mem s') root q = tbl (pm_mem s) root q) /\
    (forall va, ptmap (pm_mem s') root va = ptmap (pm_mem s) root va).
Proof.
  intros Hk Hw Hpa Hn Ho. destruct (kfree_spec s l pa) as (s' & E & Hk' & Hs); auto.
  destruct (tables_same_outside _ _ _ _ _ Hw (proj1 Hpa) Ho Hs) as (Hlk & Ht & Hm).
  exists s'. split_and!; auto. split; auto.
  - eapply pt_wf_tables; [exact Hlk|]. destruct Hw as (Hok & Hinj & Hl3). split; [|done].
    intros p t Hp Et. destruct (Hok p t Hp Et). split; [done|]. simpl.
    apply not_elem_of_cons. split; [|done]. intros ->. apply Ho. by exists p.
  - intros q. by apply owned_tables.
  - intros q a Ha Hq _ Hr. apply Hs. simpl in Hq. apply not_elem_of_cons in Hq as [Hne _].
    pose proof (page_apart q pa Ha (proj1 Hpa) Hne). lia.
Qed.

Lemma pt_shrink_leaf root s l va t v :
  kinv s l -> pt_wf (pm_mem s) root l -> tbl (pm_mem s) root (va_path va) = Some t ->
  pt_shrink root s l (set_mem (store64 (pm_mem s) (t + 8 * PX 0 va) v) s) [].
Proof.
  intros Hk Hw Ht. destruct (pt_grow_leaf root s l va t v Hk Hw Ht) as [Hk' Hw' (u & Eu & Ho) Hs].
  split; auto. assert (u = []) as -> by (by apply (app_inv_tail l u [])).
  intros q. rewrite Ho, elem_of_nil. tauto.
Qed.

(** What uvmunmap may be asked to remove at [va]. *)
Definition unmappable (m : mem) (root : Z) (l : list Z) (do_free : bool) (va : Z) : Prop :=
  let e := ptmap m root va in
  has e PTE_V = true /\ PTE_FLAGS e <> PTE_V /\
  (do_free = true -> page_ok (PTE2PA e) /\ PTE2PA e ∉ l /\ ~ owned m root (PTE2PA e)).

Lemma ptmap_found m root va :
  has (ptmap m root va) PTE_V = true ->
  exists t, tbl m root (va_path va) = Some t /\ ptmap m root va = load64 m (t + 8 * PX 0 va).
Proof.
  unfold ptmap. destruct (tbl m root (va_path va)) as [t|]; [eauto|done].
Qed.

(** One iteration of uvmunmap. *)
Lemma uvmunmap_page root s l a do_free fuel stop :
  kinv s l -> pt_wf (pm_mem s) root l -> 0 <= a < MAXVA -> a < stop ->
  unmappable (pm_mem s) root l do_free a ->
  let f := if do_free then [PTE2PA (ptmap (pm_mem s) root a)] else [] in
  exists s', uvmunmap_loop (S fuel) root a stop do_free s =
             uvmunmap_loop fuel root (u64 (a + PGSIZE)) stop do_free s' /\
    pt_shrink root s l s' f /\
    (forall va, 0 <= va < MAXVA -> ptmap (pm_mem s') root va =
       if decide (a / 4096 = va / 4096) then 0 else ptmap (pm_mem s) root va).
Proof.
  intros Hk Hw Ha Hstop (Hv & Hfl & Hfree) f.
  destruct (ptmap_found _ _ _ Hv) as (t & Ht & Em).
  destruct (proj1 Hw _ _ (valid_va_path a) Ht) as [Htok _]. apply page_ok_range in Htok.
  pose proof (PX_range 0 a). pose proof (MAXVA_lt a).
  cbn [uvmunmap_loop]. rewrite (proj2 (Z.ltb_lt _ _)) by done.
  rewrite bind_run, walk_lookup, Ht by lia.
  rewrite (proj2 (Z.eqb_neq _ 0)) by (unfold KERNBASE in *; lia).
  unfold load_pte. rewrite bind_run, gets_run, <- Em, Hv. cbn [negb].
  rewrite (proj2 (Z.eqb_neq _ _) Hfl).
  assert (Hmid : exists s1, (if do_free then kfree (PTE2PA (ptmap (pm_mem s) root a)) else mret tt) s
            = Ok (tt, s1) /\ pt_shrink root s l s1 f /\
            tbl (pm_mem s1) root (va_path a) = Some t /\
            forall va, ptmap (pm_mem s1) root va = ptmap (pm_mem s) root va).
  { destruct do_free.
    - destruct (Hfree eq_refl) as (Hp & Hn & Ho).
      destruct (kfree_unowned root s l _ Hk Hw Hp Hn Ho) as (s1 & E1 & Hs1 & Ht1 & Hm1).
      exists s1. split_and!; auto. rewrite Ht1 by auto with xv6. done.
    - exists s. split_and!; auto. split; try done; by intros q. }
  destruct Hmid as (s1 & E1 & Hs1 & Ht1 & Hm1). rewrite (bind_Ok _ _ _ _ _ E1).
  unfold store_pte. rewrite bind_run, modify_run.
  eexists. split; [reflexivity|]. split.
  - eapply (pt_shrink_trans _ _ _ _ f _ []); [exact Hs1|]. apply pt_shrink_leaf; [..|done]; apply Hs1.
  - intros va Hva. pose proof (MAXVA_lt va). simpl. rewrite <- Hm1.
    apply (ptmap_store_leaf (pm_mem s1) root (f ++ l)); auto; [apply Hs1|lia|lia|lia].
Qed.

(** The frames behind [n] consecutive virtual pages. *)
Fixpoint frames (m : mem) (root a : Z) (n : nat) : list Z :=
  match n with
  | O => []
  | S n => PTE2PA (ptmap m root a) :: frames m root (a + 4096) n
  end.

Lemma elem_of_frames m root a n q :
  q ∈ frames m root a n <-> exists i, (i < n)%nat /\ q = PTE2PA (ptmap m root (a + Z.of_nat i * 4096)).
Proof.
  revert a. induction n as [|n IH]; intros a; simpl.
  - rewrite elem_of_nil. split; [done|]. intros (i & Hi & _). lia.
  - rewrite elem_of_cons, IH. split.
    + intros [->|(i & Hi & ->)].
      * exists 0%nat. split; [lia|]. do 2 f_equal. lia.
      * exists (S i). split; [lia|]. do 2 f_equal. lia.
    + intros ([|i] & Hi & ->).
      * left. do 2 f_equal. lia.
      * right. exists i. split; [lia|]. do 2 f_equal. lia.
Qed.

Lemma frames_ext m m' root a n :
  (forall i, (i < n)%nat -> ptmap m' root (a + Z.of_nat i * 4096) = ptmap m root (a + Z.of_nat i * 4096)) ->
  frames m' root a n = frames m root a n.
Proof.
  revert a. induction n as [|n IH]; intros a Hm; [done|]. simpl. f_equal.
  - specialize (Hm 0%nat). rewrite Z.add_0_r in Hm. by rewrite Hm by lia.
  - apply IH. intros i Hi. specialize (Hm (S i)).
    replace (a + 4096 + Z.of_nat i * 4096) with (a + Z.of_nat (S i) * 4096) by lia. apply Hm. lia.
Qed.

(** uvmunmap removes exactly the entries of the range and, when asked to,
    frees exactly the frames behind them. *)
Lemma uvmunmap_loop_spec root do_free n : forall fuel s l a,
  kinv s l -> pt_wf (pm_mem s) root l ->
  0 <= a -> a mod 4096 = 0 -> a + Z.of_nat n * 4096 <= MAXVA -> (n <= fuel)%nat ->
  (forall i, (i < n)%nat -> unmappable (pm_mem s) root l do_free (a + Z.of_nat i * 4096)) ->
  (do_free = true -> NoDup (frames (pm_mem s) root a n)) ->
  exists s', uvmunmap_loop fuel root a (a + Z.of_nat n * 4096) do_free s = Ok (tt, s') /\
    pt_shrink root s l s' (if do_free then rev (frames (pm_mem s) root a n) else []) /\
    (forall va, 0 <= va < MAXVA -> ptmap (pm_mem s') root va =
       if (a <=? va) && (va <? a + Z.of_nat n * 4096) then 0 else ptmap (pm_mem s) root va).
Proof.
  induction n as [|n IH]; intros fuel s l a Hk Hw Ha0 Haa Ham Hfuel Hun Hnd.
  { exists s. split_and!.
    - rewrite Z.add_0_r. destruct fuel; simpl; by rewrite Z.ltb_irrefl.
    - destruct do_free; split; try done; by intros q.
    - intros va Hva. case_bool; try lia; done. }
  destruct fuel as [|fuel]; [lia|].
  destruct (uvmunmap_page root s l a do_free fuel (a + Z.of_nat (S n) * 4096))
    as (s1 & E1 & Hs1 & Hm1); auto; try lia.
  { specialize (Hun 0%nat). rewrite Z.add_0_r in Hun. apply Hun. lia. }
  rewrite E1. change MAXVA with 274877906944 in *. rewrite u64_small by (unfold PGSIZE; lia).
  replace (a + Z.of_nat (S n) * 4096) with (a + PGSIZE + Z.of_nat n * 4096) by (unfold PGSIZE; lia).
  set (f := if do_free then _ else _) in Hs1.
  assert (Hsame : forall i, (i < n)%nat -> ptmap (pm_mem s1) root (a + PGSIZE + Z.of_nat i * 4096) =
                                       ptmap (pm_mem s) root (a + PGSIZE + Z.of_nat i * 4096)).
  { intros i Hi. unfold PGSIZE. rewrite Hm1 by lia. case_decide; [|done]. Z.div_mod_to_equations. lia. }
  assert (Hfr : frames (pm_mem s1) root (a + PGSIZE) n = frames (pm_mem s) root (a + PGSIZE) n)
    by (by apply frames_ext).
  destruct (IH fuel s1 (f ++ l) (a + PGSIZE)) as (s2 & E2 & Hs2 & Hm2);
    try apply Hs1; try (unfold PGSIZE; lia); try (unfold PGSIZE; Z.div_mod_to_equations; lia).
  - intros i Hi. specialize (Hun (S i)).
    replace (a + Z.of_nat (S i) * 4096) with (a + PGSIZE + Z.of_nat i * 4096) in Hun by (unfold PGSIZE; lia).
    destruct Hun as (H1 & H2 & H3); [lia|]. unfold unmappable. rewrite Hsame by done. split_and!; auto.
    intros Hd. destruct (H3 Hd) as (H4 & H5 & H6). split_and!; auto.
    + unfold f. rewrite Hd. apply not_elem_of_cons. split; [|done].
      intros E. specialize (Hnd Hd). simpl in Hnd. apply NoDup_cons in Hnd as [Hnin _].
      apply Hnin. apply elem_of_frames. exists i. split; [done|]. by rewrite <- E.
    + by rewrite (shrink_owned _ _ _ _ _ Hs1).
  - intros Hd. rewrite Hfr. specialize (Hnd Hd). simpl in Hnd. by apply NoDup_cons in Hnd as [_ ?].
  - exists s2. split_and!; auto.
    + destruct do_free; unfold f in *; simpl; [|by eapply (pt_shrink_trans _ _ _ _ [] _ [])].
      rewrite Hfr in Hs2. by eapply pt_shrink_trans.
    + intros va Hva. rewrite Hm2, Hm1 by done. unfold PGSIZE.
      case_decide; case_bool; try (exfalso; Z.div_mod_to_equations; lia); done.
Qed.

End space.
