(* ===== verification/VmUser.v ===== *)
(** User address spaces: uvmcreate, uvmalloc, uvmdealloc, uvmcopy, uvmfree.

    The first [n] pages of a user address space are mapped to distinct
    frames, the pages from there to the trapframe are not mapped. *)

From S2P Require Import Prelude Memory Riscv Kalloc Vm VmTable VmSpace.

Section user.
Context `{KernelImage}.

Record uvm_wf (m : mem) (root : Z) (l : list Z) (n : nat) : Prop := {
  uvm_pt : pt_wf m root l;
  uvm_size : Z.of_nat n * 4096 <= TRAPFRAME;
  uvm_mapped : forall va, 0 <= va < Z.of_nat n * 4096 -> unmappable m root l true va;
  uvm_inj : forall va vb, 0 <= va < Z.of_nat n * 4096 -> 0 <= vb < Z.of_nat n * 4096 ->
    PTE2PA (ptmap m root va) = PTE2PA (ptmap m root vb) -> va / 4096 = vb / 4096;
  uvm_rest : forall va, Z.of_nat n * 4096 <= va < TRAPFRAME -> has (ptmap m root va) PTE_V = false;
}.

(** The pages a user address space of [n] pages holds: its tables and its
    frames. *)
Definition held (m : mem) (root : Z) (n : nat) (q : Z) : Prop :=
  owned m root q \/ exists i, (i < n)%nat /\ q = PTE2PA (ptmap m root (Z.of_nat i * 4096)).

End user.

(** Pages of a process of [sz] bytes. *)
Definition npages (sz : Z) : nat := Z.to_nat ((sz + 4095) / 4096).

(** The byte a user program sees at [va]. *)
Definition ubyte (m : mem) (root va : Z) : Z := load8 m (PTE2PA (ptmap m root va) + va mod 4096).

Lemma npages_bounds sz : 0 <= sz -> sz <= Z.of_nat (npages sz) * 4096 < sz + 4096.
Proof. intros. unfold npages. rewrite Z2Nat.id by (Z.div_mod_to_equations; lia). Z.div_mod_to_equations. lia. Qed.

Lemma PGROUNDUP_npages sz : 0 <= sz < 2 ^ 64 - 4095 -> PGROUNDUP sz = Z.of_nat (npages sz) * 4096.
Proof.
  intros. rewrite PGROUNDUP_div by done. unfold npages.
  rewrite Z2Nat.id by (Z.div_mod_to_equations; lia). done.
Qed.

Lemma TRAPFRAME_MAXVA : TRAPFRAME = MAXVA - 8192.
Proof. done. Qed.
Lemma TRAPFRAME_val : TRAPFRAME = 274877898752.
Proof. done. Qed.

Lemma elem_of_rev {A} (x : A) l : x ∈ rev l <-> x ∈ l.
Proof. rewrite !list_elem_of_In. symmetry. apply in_rev. Qed.

Lemma ptmap_vpage m root va : 0 <= va -> ptmap m root va = ptmap m root (va / 4096 * 4096).
Proof.
  intros Hva. assert (E : forall k, 0 <= k -> PX k va = PX k (va / 4096 * 4096)).
  { intros k Hk. rewrite !PX_div by lia. f_equal.
    rewrite !(Z.pow_add_r 2 12), <- !Z.div_div by lia.
    change (2 ^ 12) with 4096. by rewrite Z.div_mul by lia. }
  unfold ptmap, va_path. by rewrite <- !E by lia.
Qed.

Section user_proofs.
Context `{KernelImageOk}.

(** An operation on the address space [root] that takes it from [n] to [n']
    pages: no page is lost or shared, memory that is neither free nor held by
    the space does not change, and the pages common to both sizes keep their
    mapping and their contents. *)
Record uvm_move (root : Z) (s : pmem) (l : list Z) (n : nat) (s' : pmem) (l' : list Z) (n' : nat) : Prop := {
  move_kinv : kinv s' l';
  move_wf : uvm_wf (pm_mem s') root l' n';
  move_pages : forall q, q ∈ l \/ held (pm_mem s) root n q <-> q ∈ l' \/ held (pm_mem s') root n' q;
  move_same : forall q a, q mod PGSIZE = 0 -> q ∉ l -> ~ held (pm_mem s) root n q ->
    q <= a < q + PGSIZE -> load8 (pm_mem s') a = load8 (pm_mem s) a;
  move_keep : forall va, 0 <= va < Z.of_nat (n `min` n') * 4096 ->
    ptmap (pm_mem s') root va = ptmap (pm_mem s) root va /\ ubyte (pm_mem s') root va = ubyte (pm_mem s) root va;
  move_high : forall va, TRAPFRAME <= va < MAXVA -> ptmap (pm_mem s') root va = ptmap (pm_mem s) root va;
}.

Lemma uvm_move_refl root s l n : kinv s l -> uvm_wf (pm_mem s) root l n -> uvm_move root s l n s l n.
Proof. by split. Qed.

Lemma uvm_move_trans root s l n s1 l1 n1 s2 l2 n2 :
  (n `min` n2 <= n1)%nat ->
  uvm_move root s l n s1 l1 n1 -> uvm_move root s1 l1 n1 s2 l2 n2 -> uvm_move root s l n s2 l2 n2.
Proof.
  intros Hn [Hk1 Hw1 Hp1 Hs1 Hc1 Hh1] [Hk2 Hw2 Hp2 Hs2 Hc2 Hh2]. split; auto.
  - intros q. by rewrite Hp1, Hp2.
  - intros q a Ha Hl Hq Hr. specialize (Hp1 q). rewrite (Hs2 q), (Hs1 q); auto; tauto.
  - intros va Hva. destruct (Hc2 va) as [-> ->]; [lia|]. apply Hc1. lia.
  - intros va Hva. rewrite Hh2, Hh1; auto.
Qed.

Lemma held_frame m root n va :
  0 <= va < Z.of_nat n * 4096 -> held m root n (PTE2PA (ptmap m root va)).
Proof.
  intros Hva. right. exists (Z.to_nat (va / 4096)). split; [Z.div_mod_to_equations; lia|].
  rewrite Z2Nat.id by (Z.div_mod_to_equations; lia). by rewrite <- ptmap_vpage by lia.
Qed.

Lemma held_not_free m root l n q : uvm_wf m root l n -> held m root n q -> q ∉ l.
Proof.
  intros Hu [Hq|(i & Hi & ->)].
  - by destruct (owned_page_ok _ _ _ _ (uvm_pt _ _ _ _ Hu) Hq).
  - destruct (uvm_mapped _ _ _ _ Hu (Z.of_nat i * 4096)) as (_ & _ & H3); [lia|]. by apply H3.
Qed.

(** From memory [m] with free list [l] to [m'] with [l'], only free pages and
    pages of [A] were used. *)
Record pages_step (A : Z -> Prop) (m : mem) (l : list Z) (m' : mem) (l' : list Z) : Prop := {
  ps_free : forall q, q ∈ l' -> q ∈ l \/ A q;
  ps_same : forall q a, q mod PGSIZE = 0 -> q ∉ l -> ~ A q -> q <= a < q + PGSIZE -> load8 m' a = load8 m a;
}.

Lemma pages_step_trans (A B : Z -> Prop) m1 l1 m2 l2 m3 l3 :
  pages_step A m1 l1 m2 l2 -> pages_step B m2 l2 m3 l3 -> (forall q, B q -> q ∈ l1 \/ A q) -> pages_step A m1 l1 m3 l3.
Proof.
  intros [F1 S1] [F2 S2] HH. split.
  - intros q Hq. destruct (F2 q Hq) as [Hl|Hh]; auto.
  - intros q a Hq Hl Hh Ha. rewrite (S2 q), (S1 q); auto; intros Hx; [destruct (F1 q Hx)|destruct (HH q Hx)]; auto.
Qed.

Lemma pages_step_weaken (A B : Z -> Prop) m l m' l' :
  (forall q, A q -> B q) -> pages_step A m l m' l' -> pages_step B m l m' l'.
Proof. intros HH [F S]. split; [intros q Hq; destruct (F q Hq); auto|intros q a Hq Hl Hh; apply S; auto]. Qed.

Lemma pages_step_refl (A : Z -> Prop) m l : pages_step A m l m l.
Proof. split; auto. Qed.

(** An address space that holds none of those pages is not affected. *)
Lemma uvm_frame (H1 : Z -> Prop) m l m' l' root n :
  pages_step H1 m l m' l' -> uvm_wf m root l n -> (forall q, held m root n q -> ~ H1 q) ->
  uvm_wf m' root l' n /\
  (forall va, ptmap m' root va = ptmap m root va) /\
  (forall va, 0 <= va < Z.of_nat n * 4096 -> ubyte m' root va = ubyte m root va) /\
  (forall q, held m' root n q <-> held m root n q).
Proof.
  intros [Hfree Hms] Hw2 Hd. pose proof (uvm_pt _ _ _ _ Hw2) as Hpt.
  assert (Hsame : forall q a, page_ok q -> q ∉ l -> held m root n q -> q <= a < q + PGSIZE -> load8 m' a = load8 m a).
  { intros q a Hq Hl Hh Hr. eapply (Hms q); auto. apply Hq. }
  assert (Hown : forall t a, owned m root t -> t <= a < t + PGSIZE -> load8 m' a = load8 m a).
  { intros t a Ht Hr. destruct (owned_page_ok _ _ _ _ Hpt Ht) as [Hok Hn].
    by apply (Hsame t); [..|left|]. }
  assert (Htb : forall q, valid_path q -> tbl m' root q = tbl m root q) by (intros; by apply tbl_agree).
  assert (Hpm : forall va, ptmap m' root va = ptmap m root va) by (intros; by apply ptmap_agree).
  assert (Hh : forall q, held m' root n q <-> held m root n q).
  { intros q. unfold held. rewrite (owned_tables _ _ _ _ Htb). by setoid_rewrite Hpm. }
  assert (Hl' : forall q, q ∉ l -> held m root n q -> q ∉ l').
  { intros q Hl Hq Hin. specialize (Hd q Hq). destruct (Hfree q Hin); done. }
  assert (Hfr : forall va, 0 <= va < Z.of_nat n * 4096 -> held m root n (PTE2PA (ptmap m root va))).
  { intros va Hva. by apply held_frame. }
  split_and!; auto.
  - destruct Hw2 as [_ Hsz Hmap Hinj Hrest]. split; auto.
    + eapply pt_wf_tables; [by apply same_links_agree|]. destruct Hpt as (Hok & Hinj2 & Hl3). split; [|done].
      intros p t Hp Ht. destruct (Hok p t Hp Ht). split; [done|].
      apply Hl'; [done|]. left. by exists p.
    + intros va Hva. destruct (Hmap va Hva) as (H2 & H3 & H4). unfold unmappable.
      rewrite Hpm. split_and!; auto. intros _. destruct (H4 eq_refl) as (H5 & H6 & H7).
      rewrite (owned_tables _ _ _ _ Htb). split_and!; auto.
    + intros va vb Ha Hb. rewrite !Hpm. auto.
    + intros va Hva. rewrite Hpm. auto.
  - intros va Hva. unfold ubyte. rewrite Hpm. destruct (uvm_mapped _ _ _ _ Hw2 va Hva) as (_ & _ & H3).
    destruct (H3 eq_refl) as (H4 & H5 & H6). eapply Hsame; [exact H4|done|auto|].
    unfold PGSIZE. pose proof (Z.mod_pos_bound va 4096). lia.
Qed.

(** Another address space is not affected. *)
Lemma uvm_other root s l n s' l' n' root2 n2 :
  (forall q, q ∈ l \/ held (pm_mem s) root n q <-> q ∈ l' \/ held (pm_mem s') root n' q) ->
  (forall q a, q mod PGSIZE = 0 -> q ∉ l -> ~ held (pm_mem s) root n q ->
    q <= a < q + PGSIZE -> load8 (pm_mem s') a = load8 (pm_mem s) a) ->
  uvm_wf (pm_mem s) root2 l n2 ->
  (forall q, held (pm_mem s) root2 n2 q -> ~ held (pm_mem s) root n q) ->
  uvm_wf (pm_mem s') root2 l' n2 /\
  (forall va, ptmap (pm_mem s') root2 va = ptmap (pm_mem s) root2 va) /\
  (forall va, 0 <= va < Z.of_nat n2 * 4096 -> ubyte (pm_mem s') root2 va = ubyte (pm_mem s) root2 va) /\
  (forall q, held (pm_mem s') root2 n2 q <-> held (pm_mem s) root2 n2 q) /\
  (forall q, held (pm_mem s') root2 n2 q -> ~ held (pm_mem s') root n' q).
Proof.
  intros Hpages Hms Hw2 Hd.
  destruct (uvm_frame (held (pm_mem s) root n) (pm_mem s) l (pm_mem s') l' root2 n2) as (H1 & H2 & H3 & H4); auto.
  { split; [intros q Hq; apply Hpages; by left|exact Hms]. }
  split_and!; auto. intros q Hq Hq2. apply H4 in Hq. destruct (proj2 (Hpages q)) as [Hl|Hl]; [by right| |by apply (Hd q)].
  by apply (held_not_free _ _ _ _ _ Hw2 Hq).
Qed.

Lemma uvm_move_other root s l n s' l' n' root2 n2 :
  uvm_move root s l n s' l' n' -> uvm_wf (pm_mem s) root2 l n2 ->
  (forall q, held (pm_mem s) root2 n2 q -> ~ held (pm_mem s) root n q) ->
  uvm_wf (pm_mem s') root2 l' n2 /\
  (forall va, ptmap (pm_mem s') root2 va = ptmap (pm_mem s) root2 va) /\
  (forall va, 0 <= va < Z.of_nat n2 * 4096 -> ubyte (pm_mem s') root2 va = ubyte (pm_mem s) root2 va) /\
  (forall q, held (pm_mem s') root2 n2 q <-> held (pm_mem s) root2 n2 q) /\
  (forall q, held (pm_mem s') root2 n2 q -> ~ held (pm_mem s') root n' q).
Proof. intros Hm. apply (uvm_other root s l n); apply Hm. Qed.

Lemma NoDup_frames m root a n :
  (forall i j, (i < n)%nat -> (j < n)%nat ->
     PTE2PA (ptmap m root (a + Z.of_nat i * 4096)) = PTE2PA (ptmap m root (a + Z.of_nat j * 4096)) -> i = j) ->
  NoDup (frames m root a n).
Proof.
  revert a. induction n as [|n IH]; intros a Hi; simpl; [constructor|]. constructor.
  - rewrite elem_of_frames. intros (i & Hin & E).
    specialize (Hi 0%nat (S i)). rewrite Z.add_0_r in Hi.
    replace (a + Z.of_nat (S i) * 4096) with (a + 4096 + Z.of_nat i * 4096) in Hi by lia.
    specialize (Hi ltac:(lia) ltac:(lia) E). lia.
  - apply IH. intros i j Hin Hjn E.
    assert (S i = S j); [|lia]. apply Hi; [lia|lia|].
    replace (a + Z.of_nat (S i) * 4096) with (a + 4096 + Z.of_nat i * 4096) by lia.
    by replace (a + Z.of_nat (S j) * 4096) with (a + 4096 + Z.of_nat j * 4096) by lia.
Qed.

Lemma uvm_NoDup m root l n o k :
  uvm_wf m root l n -> (o + k <= n)%nat -> NoDup (frames m root (Z.of_nat o * 4096) k).
Proof.
  intros Hu Hk. apply NoDup_frames. intros i j Hi Hj E.
  apply (uvm_inj _ _ _ _ Hu) in E; [|lia|lia]. Z.div_mod_to_equations. lia.
Qed.

(** Unmapping the pages from [o] on leaves a well-formed space of [o]
    pages. *)
Lemma uvm_wf_shrink root s l s' n o :
  (o <= n)%nat -> uvm_wf (pm_mem s) root l n ->
  let f := rev (frames (pm_mem s) root (Z.of_nat o * 4096) (n - o)) in
  pt_shrink root s l s' f ->
  (forall va, 0 <= va < MAXVA -> ptmap (pm_mem s') root va =
     if (Z.of_nat o * 4096 <=? va) && (va <? Z.of_nat n * 4096) then 0 else ptmap (pm_mem s) root va) ->
  uvm_wf (pm_mem s') root (f ++ l) o.
Proof.
  intros Hon Hu f Hs Hm. pose proof (uvm_size _ _ _ _ Hu) as Hsz.
  rewrite TRAPFRAME_MAXVA in Hsz.
  assert (Hlow : forall va, 0 <= va < Z.of_nat o * 4096 ->
            ptmap (pm_mem s') root va = ptmap (pm_mem s) root va).
  { intros va Hva. rewrite Hm by lia. case_bool; try lia; done. }
  split.
  - apply Hs.
  - rewrite TRAPFRAME_MAXVA. lia.
  - intros va Hva. destruct (uvm_mapped _ _ _ _ Hu va) as (H1 & H2 & H3); [lia|].
    destruct (H3 eq_refl) as (H4 & H5 & H6). unfold unmappable. rewrite Hlow by done.
    split_and!; auto. intros _. split_and!; auto.
    + unfold f. rewrite elem_of_app, elem_of_rev.
      intros [Hin|Hin]; [|done]. apply elem_of_frames in Hin as (i & Hi & E).
      apply (uvm_inj _ _ _ _ Hu) in E; [|lia|lia]. Z.div_mod_to_equations. lia.
    + by rewrite (shrink_owned _ _ _ _ _ Hs).
  - intros va vb Ha Hb. rewrite !Hlow by done. apply (uvm_inj _ _ _ _ Hu); lia.
  - intros va Hva. rewrite TRAPFRAME_MAXVA in Hva. rewrite Hm by lia.
    case_bool; try lia; try done. apply (uvm_rest _ _ _ _ Hu). rewrite TRAPFRAME_MAXVA. lia.
Qed.

(** uvmdealloc frees the frames above the new size. *)
Lemma uvmdealloc_spec root s l oldsz newsz :
  kinv s l -> 0 <= newsz <= oldsz -> oldsz <= TRAPFRAME -> uvm_wf (pm_mem s) root l (npages oldsz) ->
  let f := rev (frames (pm_mem s) root (Z.of_nat (npages newsz) * 4096) (npages oldsz - npages newsz)) in
  exists s', uvmdealloc root oldsz newsz s = Ok (newsz, s') /\ pt_shrink root s l s' f /\
    uvm_wf (pm_mem s') root (f ++ l) (npages newsz) /\
    (forall va, 0 <= va < MAXVA -> ptmap (pm_mem s') root va =
       if (Z.of_nat (npages newsz) * 4096 <=? va) && (va <? Z.of_nat (npages oldsz) * 4096)
       then 0 else ptmap (pm_mem s) root va).
Proof.
  intros Hk Hn Ho Hu f. rewrite TRAPFRAME_val in Ho.
  pose proof (npages_bounds newsz). pose proof (npages_bounds oldsz).
  assert (Hle : (npages newsz <= npages oldsz)%nat) by lia.
  assert (Hsame : (npages newsz = npages oldsz)%nat ->
    pt_shrink root s l s f /\ uvm_wf (pm_mem s) root (f ++ l) (npages newsz) /\
    (forall va, 0 <= va < MAXVA -> ptmap (pm_mem s) root va =
       if (Z.of_nat (npages newsz) * 4096 <=? va) && (va <? Z.of_nat (npages oldsz) * 4096)
       then 0 else ptmap (pm_mem s) root va)).
  { intros E. unfold f. rewrite E, Nat.sub_diag. simpl. split_and!; auto.
    - apply pt_shrink_refl; [done|apply Hu].
    - intros va Hva. case_bool; try lia; done. }
  unfold uvmdealloc. destruct (Z.leb_spec oldsz newsz).
  { assert (oldsz = newsz) as -> by lia. exists s. split; [done|]. by apply Hsame. }
  rewrite !PGROUNDUP_npages by lia.
  destruct (Z.ltb_spec (Z.of_nat (npages newsz) * 4096) (Z.of_nat (npages oldsz) * 4096)).
  2: { exists s. split; [done|]. apply Hsame. lia. }
  set (k := (npages oldsz - npages newsz)%nat).
  replace ((Z.of_nat (npages oldsz) * 4096 - Z.of_nat (npages newsz) * 4096) / PGSIZE) with (Z.of_nat k)
    by (unfold PGSIZE; rewrite <- Z.mul_sub_distr_r, Z.div_mul by lia; lia).
  unfold uvmunmap, PGSIZE. rewrite Z.mod_mul by lia. cbn [Z.eqb negb].
  rewrite u64_small by lia. rewrite Nat2Z.id.
  pose proof (uvm_size _ _ _ _ Hu) as Hsz. rewrite TRAPFRAME_MAXVA in Hsz.
  destruct (uvmunmap_loop_spec root true k k s l (Z.of_nat (npages newsz) * 4096))
    as (s' & E & Hs & Hm); auto; try lia.
  { apply Hu. } { apply Z.mod_mul; lia. }
  { intros i Hi. apply (uvm_mapped _ _ _ _ Hu). lia. }
  { intros _. eapply uvm_NoDup; [exact Hu|lia]. }
  rewrite bind_run, E.
  replace (Z.of_nat (npages newsz) * 4096 + Z.of_nat k * 4096) with (Z.of_nat (npages oldsz) * 4096) in Hm by lia.
  exists s'. split; [done|]. split; [exact Hs|]. split; [|exact Hm]. by eapply uvm_wf_shrink.
Qed.

(** Unmapping as a move of the space. *)
Lemma uvm_move_shrink root s l s' n o :
  (o <= n)%nat -> uvm_wf (pm_mem s) root l n ->
  let f := rev (frames (pm_mem s) root (Z.of_nat o * 4096) (n - o)) in
  pt_shrink root s l s' f -> uvm_wf (pm_mem s') root (f ++ l) o ->
  (forall va, 0 <= va < MAXVA -> ptmap (pm_mem s') root va =
     if (Z.of_nat o * 4096 <=? va) && (va <? Z.of_nat n * 4096) then 0 else ptmap (pm_mem s) root va) ->
  uvm_move root s l n s' (f ++ l) o.
Proof.
  intros Hon Hu f Hs Hu' Hm. pose proof (uvm_size _ _ _ _ Hu) as Hsz. rewrite TRAPFRAME_MAXVA in Hsz.
  assert (Hlow : forall va, 0 <= va < Z.of_nat o * 4096 ->
            ptmap (pm_mem s') root va = ptmap (pm_mem s) root va).
  { intros va Hva. rewrite Hm by lia. case_bool; try lia; done. }
  assert (Hf : forall q, q ∈ f <-> exists i, (o <= i < n)%nat /\ q = PTE2PA (ptmap (pm_mem s) root (Z.of_nat i * 4096))).
  { intros q. unfold f. rewrite elem_of_rev, elem_of_frames. split.
    - intros (i & Hi & ->). exists (o + i)%nat. split; [lia|]. do 2 f_equal. lia.
    - intros (i & Hi & ->). exists (i - o)%nat. split; [lia|]. do 2 f_equal. lia. }
  split; auto; [apply Hs|..].
  - intros q. unfold held. rewrite elem_of_app, Hf, (shrink_owned _ _ _ _ _ Hs). split.
    + intros [Hq|[Hq|(i & Hi & Hq)]]; auto. destruct (decide (i < o)%nat).
      * right. right. exists i. split; [done|]. by rewrite Hlow by lia.
      * left. left. exists i. split; [lia|done].
    + intros [[(i & Hi & Hq)|Hq]|[Hq|(i & Hi & Hq)]]; auto; right; right; exists i; split; try lia; auto.
      by rewrite <- Hlow by lia.
  - intros q a Ha Hq Hh. apply (shrink_same _ _ _ _ _ Hs); auto; [|unfold held in Hh; tauto].
    rewrite elem_of_app, Hf. intros [(i & Hi & E)|?]; [|done]. apply Hh. right. exists i. split; [lia|done].
  - intros va Hva. assert (Hlo : 0 <= va < Z.of_nat o * 4096) by lia. rewrite (Hlow va Hlo). split; [done|].
    unfold ubyte. rewrite (Hlow va Hlo).
    destruct (uvm_mapped _ _ _ _ Hu va) as (_ & _ & H3); [lia|]. destruct (H3 eq_refl) as (H4 & H5 & H6).
    eapply (shrink_same _ _ _ _ _ Hs (PTE2PA (ptmap (pm_mem s) root va))); auto; [apply H4| |].
    + destruct (uvm_mapped _ _ _ _ Hu' va Hlo) as (_ & _ & H3'). rewrite (Hlow va Hlo) in H3'. by apply H3'.
    + unfold PGSIZE. pose proof (Z.mod_pos_bound va 4096). lia.
  - intros va Hva. rewrite TRAPFRAME_MAXVA in Hva. rewrite Hm by lia. case_bool; try lia; done.
Qed.

(** A page taken off the free list and filled with anything. *)
Lemma uvm_fresh root s pg l n s1 m2 :
  kinv s (pg :: l) -> kinv s1 l -> page_ok pg -> pg ∉ l -> same_outside pg (pm_mem s) (pm_mem s1) ->
  same_outside pg (pm_mem s) m2 -> uvm_wf (pm_mem s) root (pg :: l) n ->
  kinv (set_mem m2 s1) l /\ uvm_wf m2 root l n /\ ~ owned m2 root pg /\
  (forall q, owned m2 root q <-> owned (pm_mem s) root q) /\
  (forall va, ptmap m2 root va = ptmap (pm_mem s) root va).
Proof.
  intros Hk Hk1 Hok Hn Hs1 Hs2 Hu. pose proof (uvm_pt _ _ _ _ Hu) as Hpt.
  assert (Hno : ~ owned (pm_mem s) root pg).
  { intros Ho. destruct (owned_page_ok _ _ _ _ Hpt Ho) as [_ Hx]. apply Hx. by left. }
  destruct (tables_same_outside _ _ _ _ _ Hpt (proj1 Hok) Hno Hs2) as (Hlk & Ht & Hm).
  assert (Hoi : forall q, owned m2 root q <-> owned (pm_mem s) root q) by (intros; by apply owned_tables).
  split_and!; auto.
  - eapply kinv_same_outside; eauto; [apply Hok|]. intros a Ha. by rewrite Hs1, Hs2.
  - destruct Hu as [_ Hsz Hmap Hinj Hrest]. split; auto.
    + eapply pt_wf_tables; [exact Hlk|]. eapply pt_wf_sub; [|exact Hpt]. intros. by right.
    + intros va Hva. destruct (Hmap va Hva) as (H1 & H2 & H3). unfold unmappable. rewrite Hm, Hoi.
      split_and!; auto. intros _. destruct (H3 eq_refl) as (H4 & H5 & H6).
      apply not_elem_of_cons in H5 as [_ H5]. auto.
    + intros va vb. rewrite !Hm. auto.
    + intros va. rewrite Hm. auto.
  - by rewrite Hoi.
Qed.

(** Mapping a fresh page [pg], filled to give [m2], behind the [n] pages. *)
Section map_fresh.
Variables (root : Z) (s s1 : pmem) (pg : Z) (l : list Z) (n : nat) (m2 : mem) (perm : Z).
Hypotheses (Hk : kinv s (pg :: l)) (Hk1 : kinv s1 l) (Hok : page_ok pg) (Hn : pg ∉ l)
  (Hs1 : same_outside pg (pm_mem s) (pm_mem s1)) (Hs2 : same_outside pg (pm_mem s) m2)
  (Hu : uvm_wf (pm_mem s) root (pg :: l) n)
  (Hperm : 0 <= perm < 1024) (Hleaf : Z.lor perm PTE_V <> PTE_V)
  (Hsize : Z.of_nat (S n) * 4096 <= TRAPFRAME).

Let s2 : pmem := set_mem m2 s1.

Section grown.
Variables (s3 : pmem) (l3 : list Z).
Hypothesis (Hg : pt_grow root s2 l s3 l3).

Lemma fresh_owned q : owned (pm_mem s3) root q -> owned (pm_mem s) root q \/ q ∈ l.
Proof using All.
  destruct (uvm_fresh root s pg l n s1 m2) as (_ & _ & _ & Ho & _); auto.
  destruct (grow_used _ _ _ _ _ Hg) as (u & -> & Hou). rewrite Hou, elem_of_app. simpl. rewrite Ho. tauto.
Qed.

Lemma fresh_pg : pg ∉ l3 /\ ~ owned (pm_mem s3) root pg.
Proof using All.
  split.
  - destruct (grow_used _ _ _ _ _ Hg) as (u & E & _). intros Hx. apply Hn. rewrite E. apply elem_of_app. by right.
  - intros [Ho|Ho]%fresh_owned; [|done].
    destruct (owned_page_ok _ _ _ _ (uvm_pt _ _ _ _ Hu) Ho) as [_ Hx]. apply Hx. by left.
Qed.

Lemma fresh_bytes q a :
  q mod PGSIZE = 0 -> q ∉ pg :: l -> ~ owned (pm_mem s) root q -> q <= a < q + PGSIZE ->
  load8 (pm_mem s3) a = load8 (pm_mem s) a.
Proof using All.
  intros Ha Hq Hno Hr. destruct (uvm_fresh root s pg l n s1 m2) as (_ & _ & _ & Ho & _); auto.
  apply not_elem_of_cons in Hq as [Hne Hq].
  rewrite (grow_same _ _ _ _ _ Hg q); [|done|done|by simpl; rewrite Ho|done]. simpl. apply Hs2.
  pose proof (page_apart q pg Ha (proj1 Hok) Hne). lia.
Qed.

Variable (n' : nat).
Hypotheses (Hn' : n' = n \/ n' = S n)
  (Hm : forall va, 0 <= va < MAXVA -> ptmap (pm_mem s3) root va =
     if (Z.of_nat n * 4096 <=? va) && (va <? Z.of_nat n' * 4096) then mkpte pg perm
     else ptmap (pm_mem s) root va).

Lemma fresh_low va : 0 <= va < Z.of_nat n * 4096 -> ptmap (pm_mem s3) root va = ptmap (pm_mem s) root va.
Proof using Hm Hn' Hsize.
  intros Hva. rewrite TRAPFRAME_MAXVA in Hsize. rewrite Hm by lia. case_bool; try lia; done.
Qed.

Lemma fresh_frame va : 0 <= va < Z.of_nat n * 4096 ->
  ubyte (pm_mem s3) root va = ubyte (pm_mem s) root va.
Proof using All.
  intros Hva. unfold ubyte. rewrite fresh_low by done.
  destruct (uvm_mapped _ _ _ _ Hu va Hva) as (_ & _ & H3). destruct (H3 eq_refl) as (H4 & H5 & H6).
  eapply (fresh_bytes (PTE2PA (ptmap (pm_mem s) root va))); auto; [apply H4|].
  unfold PGSIZE. pose proof (Z.mod_pos_bound va 4096). lia.
Qed.

Lemma fresh_wf : uvm_wf (pm_mem s3) root l3 n'.
Proof using All.
  pose proof (page_ok_range _ Hok) as Hpr. unfold KERNBASE, PHYSTOP, KERNBASE in Hpr.
  destruct (mkpte_range pg perm) as (Epa & Efl & _); [lia|apply Hok|done|].
  assert (Hsz : Z.of_nat n' * 4096 <= TRAPFRAME) by (destruct Hn'; subst n'; lia).
  destruct fresh_pg as [Hpl Hpo].
  assert (Hl3 : forall q, q ∈ l3 -> q ∈ l).
  { destruct (grow_used _ _ _ _ _ Hg) as (u & -> & _). intros q ?. apply elem_of_app. by right. }
  assert (Hcase : forall va, 0 <= va < Z.of_nat n' * 4096 ->
    0 <= va < Z.of_nat n * 4096 /\ ptmap (pm_mem s3) root va = ptmap (pm_mem s) root va /\
      unmappable (pm_mem s) root (pg :: l) true va \/
    va / 4096 = Z.of_nat n /\ ptmap (pm_mem s3) root va = mkpte pg perm).
  { intros va Hva. destruct (decide (va < Z.of_nat n * 4096)).
    - left. split; [lia|]. split; [by apply fresh_low; lia|]. apply (uvm_mapped _ _ _ _ Hu). lia.
    - right. split; [destruct Hn'; subst n'; Z.div_mod_to_equations; lia|].
      rewrite TRAPFRAME_MAXVA in Hsz. rewrite Hm by lia. case_bool; try lia; done. }
  split; auto; [apply Hg|..].
  - intros va Hva. unfold unmappable. destruct (Hcase va Hva) as [(_ & -> & H1 & H2 & H3)|[_ ->]].
    + split_and!; auto. intros _. destruct (H3 eq_refl) as (H4 & H5 & H6).
      apply not_elem_of_cons in H5 as [_ H5]. split_and!; auto. intros [?|?]%fresh_owned; done.
    + rewrite mkpte_valid, Epa, Efl. auto.
  - assert (Hnpg : forall va, unmappable (pm_mem s) root (pg :: l) true va ->
                     PTE2PA (ptmap (pm_mem s) root va) <> pg).
    { intros va (_ & _ & H3) E. destruct (H3 eq_refl) as (_ & H5 & _). apply H5. rewrite E. by left. }
    intros va vb Ha Hb.
    destruct (Hcase va Ha) as [(H1 & -> & H2)|[H1 ->]]; destruct (Hcase vb Hb) as [(H4 & -> & H5)|[H4 ->]].
    + by apply (uvm_inj _ _ _ _ Hu).
    + rewrite Epa. intros E. by apply Hnpg in H2.
    + rewrite Epa. intros E. by apply Hnpg in H5.
    + congruence.
  - intros va Hva. rewrite TRAPFRAME_MAXVA in Hva. rewrite Hm by lia. case_bool; try lia; try done.
    apply (uvm_rest _ _ _ _ Hu). rewrite TRAPFRAME_MAXVA. destruct Hn'; subst n'; lia.
Qed.

End grown.

(** Success: the space has one page more. *)
Lemma fresh_move s3 l3 :
  pt_grow root s2 l s3 l3 ->
  (forall va, 0 <= va < MAXVA -> ptmap (pm_mem s3) root va =
     if (Z.of_nat n * 4096 <=? va) && (va <? Z.of_nat (S n) * 4096) then mkpte pg perm
     else ptmap (pm_mem s) root va) ->
  uvm_move root s (pg :: l) n s3 l3 (S n).
Proof using All.
  intros Hg Hm. destruct (uvm_fresh root s pg l n s1 m2) as (_ & _ & _ & Ho & _); auto.
  pose proof (page_ok_range _ Hok) as Hpr. unfold KERNBASE, PHYSTOP, KERNBASE in Hpr.
  destruct (mkpte_range pg perm) as (Epa & _ & _); [lia|apply Hok|done|].
  assert (Hlow : forall va, 0 <= va < Z.of_nat n * 4096 -> ptmap (pm_mem s3) root va = ptmap (pm_mem s) root va).
  { intros. apply (fresh_low s3 (S n)); auto. }
  assert (Hnew : ptmap (pm_mem s3) root (Z.of_nat n * 4096) = mkpte pg perm).
  { rewrite TRAPFRAME_MAXVA in Hsize. rewrite Hm by lia. case_bool; try lia; done. }
  split.
  - apply Hg.
  - apply (fresh_wf s3 l3 Hg (S n)); auto.
  - intros q. destruct (grow_used _ _ _ _ _ Hg) as (u & El & Hou). unfold held. simpl in Hou.
    rewrite Hou, Ho, elem_of_cons, El, elem_of_app. split.
    + intros [[->|[?|?]]|[?|(i & Hi & ->)]]; auto.
      * right. right. exists n. split; [lia|]. by rewrite Hnew.
      * right. right. exists i. split; [lia|]. by rewrite Hlow by lia.
    + intros [?|[[?|?]|(i & Hi & ->)]]; auto. destruct (decide (i = n)) as [->|].
      * rewrite Hnew, Epa. auto.
      * right. right. exists i. split; [lia|]. by rewrite <- Hlow by lia.
  - intros q a Ha Hq Hh. apply (fresh_bytes s3 l3); auto. unfold held in Hh. tauto.
  - intros va Hva. split; [apply Hlow; lia|]. apply (fresh_frame s3 l3 Hg (S n)); auto; lia.
  - intros va Hva. rewrite TRAPFRAME_MAXVA in *. rewrite Hm by lia. case_bool; try lia; done.
Qed.

(** Failure: the fresh page goes back. *)
Lemma fresh_undo s3 l3 :
  pt_grow root s2 l s3 l3 ->
  (forall va, 0 <= va < MAXVA -> ptmap (pm_mem s3) root va = ptmap (pm_mem s) root va) ->
  exists s4, kfree pg s3 = Ok (tt, s4) /\ uvm_move root s (pg :: l) n s4 (pg :: l3) n.
Proof using All.
  intros Hg Hm. destruct (uvm_fresh root s pg l n s1 m2) as (_ & _ & _ & Ho & _); auto.
  assert (Hm' : forall va, 0 <= va < MAXVA -> ptmap (pm_mem s3) root va =
     if (Z.of_nat n * 4096 <=? va) && (va <? Z.of_nat n * 4096) then mkpte pg perm
     else ptmap (pm_mem s) root va).
  { intros va Hva. rewrite Hm by done. case_bool; try lia; done. }
  destruct (fresh_pg s3 l3 Hg) as [Hpl Hpo].
  pose proof (fresh_wf s3 l3 Hg n (or_introl eq_refl) Hm') as Hw3.
  destruct (kfree_unowned root s3 l3 pg) as (s4 & E4 & Hs4 & _ & Hm4); auto; [apply Hg|apply Hg|].
  exists s4. split; [done|].
  assert (Hb : forall q a, q mod PGSIZE = 0 -> q ∉ pg :: l -> ~ owned (pm_mem s) root q ->
            q <= a < q + PGSIZE -> load8 (pm_mem s4) a = load8 (pm_mem s) a).
  { intros q a Ha Hq Hno Hr. rewrite <- (fresh_bytes s3 l3 Hg q) by done.
    apply (shrink_same _ _ _ _ _ Hs4 q); auto.
    - destruct (grow_used _ _ _ _ _ Hg) as (u & El & _). rewrite El in Hq.
      rewrite elem_of_app, list_elem_of_singleton. rewrite elem_of_cons, elem_of_app in Hq. tauto.
    - intros [?|?]%(fresh_owned s3 l3 Hg); [done|]. apply Hq. by right. }
  assert (Hfr : forall va, 0 <= va < Z.of_nat n * 4096 -> unmappable (pm_mem s) root (pg :: l) true va)
    by apply Hu.
  split.
  - apply Hs4.
  - destruct Hw3 as [_ Hsz Hmap Hinj Hrest]. split; auto; [apply Hs4|..].
    + intros va Hva. destruct (Hmap va Hva) as (H1 & H2 & H3). destruct (H3 eq_refl) as (H4 & H5 & H6).
      unfold unmappable. rewrite Hm4. split_and!; auto. intros _. split_and!; auto.
      * apply not_elem_of_cons. split; [|done]. rewrite TRAPFRAME_MAXVA in Hsz. rewrite Hm by lia.
        destruct (Hfr va Hva) as (_ & _ & H7). destruct (H7 eq_refl) as (_ & H8 & _).
        by apply not_elem_of_cons in H8 as [H8 _].
      * by rewrite (shrink_owned _ _ _ _ _ Hs4).
    + intros va vb. rewrite !Hm4. auto.
    + intros va. rewrite Hm4. auto.
  - intros q. destruct (grow_used _ _ _ _ _ Hg) as (u & El & Hou). unfold held. simpl in Hou.
    rewrite (shrink_owned _ _ _ _ _ Hs4), Hou, Ho, !elem_of_cons, El, elem_of_app.
    rewrite TRAPFRAME_MAXVA in Hsize. split.
    + intros [?|[?|(i & Hi & ->)]]; try tauto. right. right. exists i. rewrite Hm4, Hm by lia. auto.
    + intros [?|[?|(i & Hi & ->)]]; try tauto. right. right. exists i. rewrite Hm4, Hm by lia. auto.
  - intros q a Ha Hq Hh. apply Hb; auto. unfold held in Hh. tauto.
  - intros va Hva. rewrite TRAPFRAME_MAXVA in Hsize. unfold ubyte. rewrite Hm4, Hm by lia.
    split; [done|]. destruct (Hfr va) as (_ & _ & H3); [lia|]. destruct (H3 eq_refl) as (H4 & H5 & H6).
    eapply (Hb (PTE2PA (ptmap (pm_mem s) root va))); auto; [apply H4|].
    unfold PGSIZE. pose proof (Z.mod_pos_bound va 4096). lia.
  - intros va Hva. rewrite Hm4, Hm; [done|]. rewrite TRAPFRAME_val in Hva. lia.
Qed.
Lemma mappages_fresh :
  exists r s3 l3, mappages root (Z.of_nat n * 4096) PGSIZE pg perm s2 = Ok (r, s3) /\
    (r = 0 /\ uvm_move root s (pg :: l) n s3 l3 (S n) /\
       (forall va, Z.of_nat n * 4096 <= va < Z.of_nat (S n) * 4096 ->
          ptmap (pm_mem s3) root va = mkpte pg perm /\
          ubyte (pm_mem s3) root va = load8 m2 (pg + va mod 4096)) \/
     r = -1 /\ exists s4, kfree pg s3 = Ok (tt, s4) /\ uvm_move root s (pg :: l) n s4 (pg :: l3) n).
Proof using All.
  destruct (uvm_fresh root s pg l n s1 m2) as (Hk2 & Hu2 & Hno2 & _ & Hm2); auto.
  pose proof (page_ok_range _ Hok) as Hpr. unfold KERNBASE, PHYSTOP, KERNBASE in Hpr.
  pose proof Hsize as Hsz. rewrite TRAPFRAME_MAXVA in Hsz.
  assert (Hlast : u64 (Z.of_nat n * 4096 + PGSIZE - PGSIZE) = Z.of_nat n * 4096 + (Z.of_nat 1 - 1) * 4096).
  { change MAXVA with 274877906944 in Hsz. rewrite u64_small by lia. lia. }
  unfold mappages. rewrite Hlast. unfold PGSIZE at 1. rewrite Z.mod_mul by lia. cbn -[mappages_loop].
  destruct (mappages_loop_spec root perm 1 s2 l (Z.of_nat n * 4096) pg)
    as (r & s3 & l3 & k & E & Hg & Hr & Hm); auto; try lia; try apply Hu2.
  { apply Z.mod_mul. lia. } { apply Hok. }
  { intros va Hva. simpl. apply (uvm_rest _ _ _ _ Hu2). rewrite TRAPFRAME_MAXVA. lia. }
  change (Pos.to_nat 1) with 1%nat. exists r, s3, l3. split; [exact E|].
  destruct Hr as [[-> ->]|(-> & Hk0 & ->)].
  - assert (Hm3 : forall va, 0 <= va < MAXVA -> ptmap (pm_mem s3) root va =
       if (Z.of_nat n * 4096 <=? va) && (va <? Z.of_nat (S n) * 4096) then mkpte pg perm
       else ptmap (pm_mem s) root va).
    { intros va Hva. rewrite Hm by done. simpl. rewrite Hm2. unfold vpage.
      case_bool; try lia; try done. f_equal. Z.div_mod_to_equations; lia. }
    left. split; [done|]. split; [by apply fresh_move|].
    intros va Hva. assert (Epte : ptmap (pm_mem s3) root va = mkpte pg perm).
    { rewrite Hm3 by lia. case_bool; try lia; done. }
    split; [done|]. unfold ubyte. rewrite Epte.
    destruct (mkpte_range pg perm) as (-> & _ & _); [lia|apply Hok|done|].
    apply (grow_same _ _ _ _ _ Hg pg); auto; [apply Hok|]. unfold PGSIZE.
    pose proof (Z.mod_pos_bound va 4096). lia.
  - right. split; [done|]. apply fresh_undo; [done|].
    intros va Hva. rewrite Hm by done. simpl. rewrite Hm2. replace k with 0%nat by lia.
    case_bool; try lia; done.
Qed.

End map_fresh.

(** * uvmdealloc and uvmalloc *)

Lemma npages_mul k : npages (Z.of_nat k * 4096) = k.
Proof. pose proof (npages_bounds (Z.of_nat k * 4096)). lia. Qed.

Lemma uvmdealloc_move root s l oldsz newsz :
  kinv s l -> 0 <= newsz <= oldsz -> oldsz <= TRAPFRAME -> uvm_wf (pm_mem s) root l (npages oldsz) ->
  exists s' l', uvmdealloc root oldsz newsz s = Ok (newsz, s') /\
    uvm_move root s l (npages oldsz) s' l' (npages newsz).
Proof.
  intros Hk Hn Ho Hu. destruct (uvmdealloc_spec root s l oldsz newsz) as (s' & E & Hs & Hu' & Hm); auto.
  eexists s', _. split; [exact E|]. apply uvm_move_shrink; auto.
  pose proof (npages_bounds newsz). pose proof (npages_bounds oldsz). lia.
Qed.

Lemma user_perm xperm : 0 <= xperm < 1024 ->
  let perm := Z.lor (Z.lor PTE_R PTE_U) xperm in 0 <= perm < 1024 /\ Z.lor perm PTE_V <> PTE_V.
Proof.
  intros Hx perm. split; [by apply lor_flags|].
  intros E. assert (Hr : has (Z.lor perm PTE_V) PTE_R = true) by (by do 2 apply has_lor).
  by rewrite E in Hr.
Qed.

Lemma kalloc_fresh s pg l :
  kinv s (pg :: l) -> exists s1, kalloc s = Ok (pg, s1) /\ kinv s1 l /\ page_ok pg /\ pg ∉ l /\ pg <> 0 /\
    same_outside pg (pm_mem s) (pm_mem s1).
Proof.
  intros Hk. destruct (kalloc_spec s (pg :: l) Hk) as (s1 & E & Hk1 & Hn & Hok & Em).
  destruct (kinv_head_nonzero _ _ _ Hk) as (_ & Hnz & _).
  exists s1. split_and!; auto. rewrite Em. apply same_outside_memset.
Qed.

(** uvmalloc's loop, up to page [N]: it fails before, or gets there. *)
Lemma uvmalloc_loop_progress root xperm o N newsz r : forall k fuel s l,
  kinv s l -> uvm_wf (pm_mem s) root l k -> (o <= k)%nat -> (k + r = N)%nat -> (r <= fuel)%nat ->
  Z.of_nat N * 4096 <= TRAPFRAME -> 0 <= xperm < 1024 ->
  (forall j, (j < N)%nat -> Z.of_nat j * 4096 < newsz) ->
  exists s' l',
    (uvmalloc_loop fuel root (Z.of_nat o * 4096) (Z.of_nat k * 4096) newsz xperm s =
       uvmalloc_loop (fuel - r) root (Z.of_nat o * 4096) (Z.of_nat N * 4096) newsz xperm s' /\ uvm_move root s l k s' l' N /\
       (forall va, Z.of_nat k * 4096 <= va < Z.of_nat N * 4096 ->
          (exists pg, ptmap (pm_mem s') root va = mkpte pg (Z.lor (Z.lor PTE_R PTE_U) xperm)) /\
          ubyte (pm_mem s') root va = 0) \/
     uvmalloc_loop fuel root (Z.of_nat o * 4096) (Z.of_nat k * 4096) newsz xperm s = Ok (0, s') /\ uvm_move root s l k s' l' o).
Proof.
  induction r as [|r IH]; intros k fuel s l Hk Hu Hok HN Hf Hsz Hx Hlt.
  { assert (k = N) as -> by lia. exists s, l. left. rewrite Nat.sub_0_r. split; [done|].
    split; [by apply uvm_move_refl|]. intros; lia. }
  destruct fuel as [|fuel]; [lia|]. cbn [uvmalloc_loop].
  rewrite (proj2 (Z.ltb_lt _ _)) by (apply Hlt; lia).
  assert (Hdealloc : forall s1 l1, uvm_move root s l k s1 l1 k ->
    exists s' l', uvmdealloc root (Z.of_nat k * 4096) (Z.of_nat o * 4096) s1 = Ok (Z.of_nat o * 4096, s') /\
      uvm_move root s l k s' l' o).
  { intros s1 l1 Hm1.
    destruct (uvmdealloc_move root s1 l1 (Z.of_nat k * 4096) (Z.of_nat o * 4096)) as (s' & l' & E & Hm2);
      [apply Hm1|lia|apply Hu|rewrite npages_mul; apply Hm1|].
    rewrite !npages_mul in Hm2. exists s', l'. split; [done|]. eapply uvm_move_trans; [|done..]. lia. }
  destruct l as [|pg l].
  { rewrite (bind_Ok _ _ _ _ _ (kalloc_spec s [] Hk)). cbn [Z.eqb].
    destruct (Hdealloc s []) as (s' & l' & E & Hm); [by apply uvm_move_refl|].
    rewrite (bind_Ok _ _ _ _ _ E). exists s', l'. by right. }
  destruct (kalloc_fresh s pg l Hk) as (s1 & E1 & Hk1 & Hpg & Hn & Hnz & Hs1).
  rewrite (bind_Ok _ _ _ _ _ E1), (proj2 (Z.eqb_neq _ _) Hnz), bind_run, modify_run.
  destruct (user_perm xperm Hx) as [Hp1 Hp2].
  destruct (mappages_fresh root s s1 pg l k (memset (pm_mem s1) pg 0 PGSIZE) (Z.lor (Z.lor PTE_R PTE_U) xperm))
    as (ret & s3 & l3 & E3 & Hr); auto.
  { eapply same_outside_trans; [exact Hs1|apply same_outside_memset]. } { lia. }
  unfold upd_mem. rewrite (bind_Ok _ _ _ _ _ E3).
  destruct Hr as [(-> & Hm3 & Hnew)|(-> & s4 & E4 & Hm4)]; cbn [Z.eqb negb].
  - replace (u64 (Z.of_nat k * 4096 + PGSIZE)) with (Z.of_nat (S k) * 4096)
      by (rewrite TRAPFRAME_val in Hsz; rewrite u64_small; unfold PGSIZE; lia).
    destruct (IH (S k) fuel s3 l3) as (s' & l' & Hr); auto; try apply Hm3; try lia.
    exists s', l'. destruct Hr as [(E' & Hm' & Hz)|[E' Hm']].
    + left. split; [exact E'|]. split; [eapply uvm_move_trans; [|exact Hm3|exact Hm']; lia|].
      intros va Hva. destruct (decide (va < Z.of_nat (S k) * 4096)); [|apply Hz; lia].
      destruct (move_keep _ _ _ _ _ _ _ Hm' va) as [-> ->]; [lia|].
      destruct (Hnew va) as [-> ->]; [lia|]. split; [by eexists|].
      pose proof (Z.mod_pos_bound va 4096). rewrite load8_memset by done. unfold PGSIZE in *.
      case_bool; try lia; done.
    + right. split; [exact E'|]. eapply uvm_move_trans; [|exact Hm3|exact Hm']. lia.
  - rewrite (bind_Ok _ _ _ _ _ E4). destruct (Hdealloc s4 (pg :: l3) Hm4) as (s' & l' & E & Hm).
    rewrite (bind_Ok _ _ _ _ _ E). exists s', l'. by right.
Qed.

Lemma uvmalloc_loop_spec root xperm o N newsz r : forall k fuel s l,
  kinv s l -> uvm_wf (pm_mem s) root l k -> (o <= k)%nat -> (k + r = N)%nat -> (r <= fuel)%nat ->
  Z.of_nat N * 4096 <= TRAPFRAME -> 0 <= xperm < 1024 ->
  (forall j, (j < N)%nat -> Z.of_nat j * 4096 < newsz) -> newsz <= Z.of_nat N * 4096 ->
  exists ret s' l', uvmalloc_loop fuel root (Z.of_nat o * 4096) (Z.of_nat k * 4096) newsz xperm s = Ok (ret, s') /\
    (ret = newsz /\ uvm_move root s l k s' l' N /\
       (forall va, Z.of_nat k * 4096 <= va < Z.of_nat N * 4096 ->
          (exists pg, ptmap (pm_mem s') root va = mkpte pg (Z.lor (Z.lor PTE_R PTE_U) xperm)) /\
          ubyte (pm_mem s') root va = 0) \/
     ret = 0 /\ uvm_move root s l k s' l' o).
Proof.
  intros k fuel s l Hk Hu Hok HN Hf Hsz Hx Hlt Hle.
  destruct (uvmalloc_loop_progress root xperm o N newsz r k fuel s l) as (s' & l' & [(E & Hm & Hz)|[E Hm]]); auto.
  - assert (Eb : (Z.of_nat N * 4096 <? newsz) = false) by lia. exists newsz, s', l'. rewrite E. split; [destruct (fuel - r)%nat; cbn; by rewrite Eb|].
    left. auto.
  - exists 0, s', l'. auto.
Qed.

Lemma uvmalloc_spec root s l oldsz newsz xperm :
  kinv s l -> 0 <= oldsz <= newsz -> newsz <= TRAPFRAME -> uvm_wf (pm_mem s) root l (npages oldsz) ->
  0 <= xperm < 1024 ->
  exists ret s' l', uvmalloc root oldsz newsz xperm s = Ok (ret, s') /\
    (ret = newsz /\ uvm_move root s l (npages oldsz) s' l' (npages newsz) /\
       (forall va, Z.of_nat (npages oldsz) * 4096 <= va < Z.of_nat (npages newsz) * 4096 ->
          (exists pg, ptmap (pm_mem s') root va = mkpte pg (Z.lor (Z.lor PTE_R PTE_U) xperm)) /\
          ubyte (pm_mem s') root va = 0) \/
     ret = 0 /\ uvm_move root s l (npages oldsz) s' l' (npages oldsz)).
Proof.
  intros Hk Hn Ho Hu Hx. unfold uvmalloc. rewrite (proj2 (Z.ltb_ge _ _)) by lia.
  pose proof (npages_bounds oldsz). pose proof (npages_bounds newsz).
  assert (Hsz : Z.of_nat (npages newsz) * 4096 <= TRAPFRAME).
  { rewrite TRAPFRAME_val in *. Z.div_mod_to_equations. lia. }
  assert (Hf : 0 <= newsz < 2 ^ 64 - 4095) by (rewrite TRAPFRAME_val in *; lia).
  rewrite PGROUNDUP_npages by lia.
  set (fuel := Z.to_nat _).
  assert (Hfu : (npages newsz - npages oldsz <= fuel)%nat).
  { unfold fuel, PGSIZE. Z.div_mod_to_equations. lia. }
  apply (uvmalloc_loop_spec root xperm (npages oldsz) (npages newsz) newsz (npages newsz - npages oldsz)); auto; lia.
Qed.

(** * uvmcopy *)

Lemma uvmunmap_all root s l n :
  kinv s l -> uvm_wf (pm_mem s) root l n ->
  exists s' l', uvmunmap root 0 (Z.of_nat n) true s = Ok (tt, s') /\ uvm_move root s l n s' l' 0.
Proof.
  intros Hk Hu. pose proof (uvm_size _ _ _ _ Hu) as Hsz. rewrite TRAPFRAME_val in Hsz.
  unfold uvmunmap. rewrite Z.mod_0_l by done. cbn [Z.eqb negb].
  rewrite u64_small by (unfold PGSIZE; lia). rewrite Nat2Z.id.
  destruct (uvmunmap_loop_spec root true n n s l 0) as (s' & E & Hs & Hm); auto; try lia; try apply Hu.
  { change MAXVA with 274877906944. lia. }
  { intros i Hi. apply (uvm_mapped _ _ _ _ Hu). lia. }
  { intros _. apply (uvm_NoDup _ _ _ _ 0 n Hu). lia. }
  exists s', (rev (frames (pm_mem s) root (Z.of_nat 0 * 4096) (n - 0)) ++ l).
  rewrite Nat.sub_0_r. split; [exact E|].
  pose proof (uvm_move_shrink root s l s' n 0) as Hmv. rewrite Nat.sub_0_r in Hmv.
  apply Hmv; auto; [lia|].
  pose proof (uvm_wf_shrink root s l s' n 0) as Hw. rewrite Nat.sub_0_r in Hw. apply Hw; auto. lia.
Qed.

Lemma flags_valid e : 0 <= e -> has e PTE_V = true ->
  0 <= PTE_FLAGS e < 1024 /\ Z.lor (PTE_FLAGS e) PTE_V = PTE_FLAGS e.
Proof.
  intros He Hv. assert (E : PTE_FLAGS e = e mod 1024).
  { unfold PTE_FLAGS. change 0x3FF with (Z.ones 10). by rewrite Z.land_ones. }
  split; [rewrite E; apply Z.mod_pos_bound; lia|].
  rewrite has_V in Hv. change PTE_V with (2 ^ 0) in *. rewrite has_pow2 in Hv by lia.
  apply Z.bits_inj'. intros j Hj. rewrite Z.lor_spec, Z.pow2_bits_eqb by lia.
  destruct (Z.eqb_spec 0 j) as [<-|]; [by rewrite Hv|by rewrite orb_false_r].
Qed.

(** What uvmcopy has produced for the first [n] pages. *)
Definition copied (m : mem) (old new : Z) (m' : mem) (from n : nat) : Prop :=
  forall va, Z.of_nat from * 4096 <= va < Z.of_nat n * 4096 ->
    has (ptmap m' new va) PTE_V = true /\
    PTE_FLAGS (ptmap m' new va) = PTE_FLAGS (ptmap m old va) /\
    ubyte m' new va = ubyte m old va.

(** The disjointness of two address spaces. *)
Definition apart (m : mem) (root n root2 n2 : _) : Prop :=
  forall q, held m root2 n2 q -> ~ held m root n q.

(** One page is copied by memmove into the fresh page. *)
Lemma copy_page m m1 pg pa o :
  page_ok pa -> pa mod PGSIZE = 0 -> pg mod PGSIZE = 0 -> pa <> pg -> same_outside pg m m1 -> 0 <= o < 4096 ->
  same_outside pg m (memmove m1 pg pa PGSIZE) /\
  load8 (memmove m1 pg pa PGSIZE) (pg + o) = load8 m (pa + o).
Proof.
  intros Hok Ha Hg Hne Hs Ho. pose proof (memmove_moved m1 pg pa PGSIZE ltac:(done)) as Hm. split.
  - intros a Hr. rewrite Hm, <- Hs by done. unfold PGSIZE in *. case_bool; try lia; done.
  - rewrite Hm. unfold PGSIZE in *. case_bool; try lia.
    replace (pa + (pg + o - pg)) with (pa + o) by lia. apply Hs.
    pose proof (page_apart pa pg Ha Hg Hne). unfold PGSIZE in *. lia.
Qed.

Lemma walk_mapped s root l va :
  pt_wf (pm_mem s) root l -> 0 <= va < MAXVA -> has (ptmap (pm_mem s) root va) PTE_V = true ->
  exists pte, walk root va false s = Ok (pte, s) /\ pte <> 0 /\ load64 (pm_mem s) pte = ptmap (pm_mem s) root va.
Proof.
  intros Hw Hva Hv. destruct (ptmap_found _ _ _ Hv) as (t & Ht & Em).
  destruct (proj1 Hw _ _ (valid_va_path va) Ht) as [Htok _]. apply page_ok_range in Htok.
  pose proof (PX_range 0 va). exists (t + 8 * PX 0 va).
  rewrite walk_lookup, Ht by lia. split_and!; auto. unfold KERNBASE in *. lia.
Qed.

Lemma ptmap_nonneg m root va : 0 <= ptmap m root va.
Proof. unfold ptmap. destruct (tbl m root (va_path va)); [|done]. apply load64_range. Qed.

Lemma uvmcopy_loop_spec old new N sz r : forall k fuel s l,
  kinv s l -> uvm_wf (pm_mem s) old l N -> uvm_wf (pm_mem s) new l k -> apart (pm_mem s) new k old N ->
  (k + r = N)%nat -> (r <= fuel)%nat -> (forall j, (j < N)%nat -> Z.of_nat j * 4096 < sz) -> sz <= Z.of_nat N * 4096 ->
  exists ret s' l', uvmcopy_loop fuel old new (Z.of_nat k * 4096) sz s = Ok (ret, s') /\
    (ret = 0 /\ uvm_move new s l k s' l' N /\ copied (pm_mem s) old new (pm_mem s') k N \/
     ret = -1 /\ uvm_move new s l k s' l' 0).
Proof.
  induction r as [|r IH]; intros k fuel s l Hk Ho Hu Hap HN Hf Hlt Hle.
  { assert (k = N) as -> by lia. exists 0, s, l.
    assert (E : (Z.of_nat N * 4096 <? sz) = false) by lia.
    split; [destruct fuel; simpl; by rewrite E|]. left. split; [done|].
    split; [by apply uvm_move_refl|]. intros va Hva. lia. }
  destruct fuel as [|fuel]; [lia|]. cbn [uvmcopy_loop].
  rewrite (proj2 (Z.ltb_lt _ _)) by (apply Hlt; lia).
  pose proof (uvm_size _ _ _ _ Ho) as Hsz.
  set (i := Z.of_nat k * 4096) in *. set (e := ptmap (pm_mem s) old i).
  destruct (uvm_mapped _ _ _ _ Ho i) as (Hv & Hfl & Hfr); [lia|]. fold e in Hv, Hfl, Hfr.
  destruct (Hfr eq_refl) as (Hpa & Hpl & _).
  destruct (walk_mapped s old l i) as (pte & Ew & Hpnz & El); auto;
    [apply Ho|change MAXVA with 274877906944; rewrite TRAPFRAME_val in Hsz; lia|].
  rewrite (bind_Ok _ _ _ _ _ Ew), (proj2 (Z.eqb_neq _ _) Hpnz).
  unfold load_pte. rewrite bind_run, gets_run, El. fold e. rewrite Hv. cbn [negb].
  assert (Hunmap : forall s1 l1, uvm_move new s l k s1 l1 k ->
    exists s' l', uvmunmap new 0 (i / PGSIZE) true s1 = Ok (tt, s') /\ uvm_move new s l k s' l' 0).
  { intros s1 l1 Hm1. unfold i, PGSIZE. rewrite Z.div_mul by lia.
    destruct (uvmunmap_all new s1 l1 k) as (s' & l' & E & Hm2); [apply Hm1..|].
    exists s', l'. split; [done|]. eapply uvm_move_trans; [|done..]. lia. }
  destruct l as [|pg l].
  { rewrite (bind_Ok _ _ _ _ _ (kalloc_spec s [] Hk)). cbn [Z.eqb].
    destruct (Hunmap s []) as (s' & l' & E & Hm); [by apply uvm_move_refl|].
    rewrite (bind_Ok _ _ _ _ _ E). exists (-1), s', l'. auto. }
  destruct (kalloc_fresh s pg l Hk) as (s1 & E1 & Hk1 & Hpg & Hn & Hnz & Hs1).
  rewrite (bind_Ok _ _ _ _ _ E1), (proj2 (Z.eqb_neq _ _) Hnz), bind_run, modify_run.
  destruct (flags_valid e (ptmap_nonneg _ _ _) Hv) as [Hrange Hlor].
  assert (Hcp : forall o, 0 <= o < 4096 -> same_outside pg (pm_mem s) (memmove (pm_mem s1) pg (PTE2PA e) PGSIZE) /\
            load8 (memmove (pm_mem s1) pg (PTE2PA e) PGSIZE) (pg + o) = load8 (pm_mem s) (PTE2PA e + o)).
  { intros o Hob. apply copy_page; auto; [apply Hpa|apply Hpg|].
    intros E. apply Hpl. rewrite E. by left. }
  destruct (mappages_fresh new s s1 pg l k (memmove (pm_mem s1) pg (PTE2PA e) PGSIZE) (PTE_FLAGS e))
    as (ret & s3 & l3 & E3 & Hr); auto; [by apply (Hcp 0)|by rewrite Hlor|lia|].
  unfold upd_mem. fold i in E3. rewrite (bind_Ok _ _ _ _ _ E3).
  destruct Hr as [(-> & Hm3 & Hnew)|(-> & s4 & E4 & Hm4)]; cbn [Z.eqb negb].
  2: { rewrite (bind_Ok _ _ _ _ _ E4). destruct (Hunmap s4 (pg :: l3) Hm4) as (s' & l' & E & Hm).
       rewrite (bind_Ok _ _ _ _ _ E). exists (-1), s', l'. auto. }
  replace (u64 (i + PGSIZE)) with (Z.of_nat (S k) * 4096)
    by (rewrite TRAPFRAME_val in Hsz; rewrite u64_small; unfold PGSIZE; lia).
  destruct (uvm_move_other _ _ _ _ _ _ _ old N Hm3 Ho Hap) as (Ho3 & Hpm3 & Hub3 & _ & Hap3).
  destruct (IH (S k) fuel s3 l3) as (ret & s' & l' & E' & Hr); auto; try apply Hm3; try lia.
  exists ret, s', l'. split; [done|]. destruct Hr as [(-> & Hm' & Hz)|[-> Hm']].
  2: { right. split; [done|]. eapply uvm_move_trans; [|exact Hm3|exact Hm']. lia. }
  left. split; [done|]. split; [eapply uvm_move_trans; [|exact Hm3|exact Hm']; lia|].
  intros va Hva. destruct (decide (va < Z.of_nat (S k) * 4096)).
  - destruct (move_keep _ _ _ _ _ _ _ Hm' va) as [-> ->]; [lia|].
    destruct (Hnew va) as [-> ->]; [lia|]. rewrite mkpte_valid. split; [done|].
    assert (Ee : ptmap (pm_mem s) old va = e).
    { rewrite ptmap_vpage by lia. unfold e. f_equal. unfold i. Z.div_mod_to_equations. lia. }
    unfold ubyte. rewrite Ee. pose proof (page_ok_range _ Hpg) as Hpr. unfold KERNBASE, PHYSTOP, KERNBASE in Hpr.
    destruct (mkpte_range pg (PTE_FLAGS e)) as (_ & -> & _); [lia|apply Hpg|done|].
    split; [done|]. apply Hcp. apply Z.mod_pos_bound. lia.
  - destruct (Hz va) as (H1 & H2 & H3); [lia|]. rewrite H1, H2, H3, Hpm3, Hub3 by lia. done.
Qed.

End user_proofs.
