(* ===== verification/VmFree.v ===== *)
(** freewalk and uvmfree of kernel/vm.c give back every page of an address
    space. *)

From S2P Require Import Prelude Memory Riscv Kalloc Vm VmTable VmSpace VmUser.

(** A table tree of [d] levels whose lowest level is empty. *)
Fixpoint clean (d : nat) (m : mem) (t : Z) : Prop :=
  match d with
  | O => False
  | S d => forall i, 0 <= i < 512 -> let e := load64 m (t + 8 * i) in
      has e PTE_V = true -> Z.land e (Z.lor (Z.lor PTE_R PTE_W) PTE_X) = 0 /\ clean d m (PTE2PA e)
  end.

(** The pages of such a tree, in the order freewalk frees them. *)
Fixpoint tpages (d : nat) (m : mem) (t : Z) : list Z :=
  match d with
  | O => []
  | S d => (seqZ 0 512 ≫= fun i =>
              match entry_table (load64 m (t + 8 * i)) with Some c => tpages d m c | None => [] end) ++ [t]
  end.

(** ... below the entries from [i] on. *)
Definition kids (d : nat) (m : mem) (t i k : Z) : list Z :=
  seqZ i k ≫= fun i => match entry_table (load64 m (t + 8 * i)) with Some c => tpages d m c | None => [] end.

Definition same_pages (ps : list Z) (m m' : mem) : Prop :=
  forall q a, q mod PGSIZE = 0 -> q ∉ ps -> q <= a < q + PGSIZE -> load8 m' a = load8 m a.

Lemma kids_cons d m t i k : 0 < k ->
  kids d m t i k =
  (match entry_table (load64 m (t + 8 * i)) with Some c => tpages d m c | None => [] end) ++ kids d m t (i + 1) (k - 1).
Proof. intros Hk. unfold kids. rewrite seqZ_cons by done. reflexivity. Qed.

Lemma tpages_S d m t : tpages (S d) m t = kids d m t 0 512 ++ [t].
Proof. reflexivity. Qed.

Lemma elem_of_kids d m t i k q :
  q ∈ kids d m t i k <-> exists j c, i <= j < i + k /\ entry_table (load64 m (t + 8 * j)) = Some c /\ q ∈ tpages d m c.
Proof.
  unfold kids. rewrite list_elem_of_bind. split.
  - intros (j & Hq & Hj). apply elem_of_seqZ in Hj. destruct (entry_table _) as [c|] eqn:E; [eauto|by apply elem_of_nil in Hq].
  - intros (j & c & Hj & E & Hq). exists j. rewrite E. split; [done|]. by apply elem_of_seqZ.
Qed.

Lemma bind_ext_in {A B} (f g : A -> list B) l : (forall x, x ∈ l -> f x = g x) -> l ≫= f = l ≫= g.
Proof.
  induction l as [|x l IH]; intros H; [done|]. cbn. rewrite (H x) by by left. f_equal. apply IH. intros y Hy. apply H. by right.
Qed.

Lemma kids_ext d m m' t i k :
  (forall j, i <= j < i + k -> load64 m' (t + 8 * j) = load64 m (t + 8 * j) /\
     forall c, entry_table (load64 m (t + 8 * j)) = Some c -> tpages d m' c = tpages d m c) ->
  kids d m' t i k = kids d m t i k.
Proof.
  intros H. unfold kids. apply bind_ext_in. intros j Hj. apply elem_of_seqZ in Hj.
  destruct (H j Hj) as [-> Hc]. destruct (entry_table _) as [c|]; [by apply Hc|done].
Qed.

#[local] Opaque seqZ.

Lemma tpages_self d m t : t ∈ tpages (S d) m t.
Proof. rewrite tpages_S. apply elem_of_app. right. by apply list_elem_of_singleton. Qed.

Lemma tpages_agree d : forall m m' t,
  (forall q a, q ∈ tpages d m t -> q <= a < q + PGSIZE -> load8 m' a = load8 m a) ->
  tpages d m' t = tpages d m t /\ (clean d m t -> clean d m' t).
Proof.
  induction d as [|d IH]; intros m m' t Hs; [done|].
  assert (He : forall i, 0 <= i < 512 -> load64 m' (t + 8 * i) = load64 m (t + 8 * i)).
  { intros i Hi. apply load64_agree. intros a Ha. apply (Hs t); [apply tpages_self|unfold PGSIZE; lia]. }
  assert (Hc : forall i c, 0 <= i < 512 -> entry_table (load64 m (t + 8 * i)) = Some c ->
            tpages d m' c = tpages d m c /\ (clean d m c -> clean d m' c)).
  { intros i c Hi Ec. apply IH. intros q a Hq. apply Hs. rewrite tpages_S. apply elem_of_app. left.
    apply elem_of_kids. eauto with lia. }
  split.
  - rewrite !tpages_S. f_equal. apply kids_ext. intros j Hj. split; [by apply He|]. intros c Ec. by apply (Hc j).
  - intros Hcl i Hi. cbv zeta. rewrite He by done. intros Hv. destruct (Hcl i Hi Hv) as [Hl Hk]. split; [done|].
    apply (Hc i); auto. unfold entry_table. by rewrite Hv.
Qed.

Section freewalk.
Context `{KernelImageOk}.

(** The pages [ps] may be freed: distinct RAM pages off the free list. *)
Definition freeable (l ps : list Z) : Prop := NoDup ps /\ Forall (fun q => page_ok q /\ q ∉ l) ps.

Definition frees (f : M pmem unit) (s : pmem) (l ps : list Z) : Prop :=
  exists s', f s = Ok (tt, s') /\ kinv s' (rev ps ++ l) /\ same_pages ps (pm_mem s) (pm_mem s').

Lemma freeable_app l ps qs :
  freeable l (ps ++ qs) <-> freeable l ps /\ freeable (rev ps ++ l) qs.
Proof.
  unfold freeable. rewrite NoDup_app, Forall_app. split.
  - intros [(H1 & H2 & H3) [H4 H5]]. split_and!; auto. rewrite Forall_forall in *. intros q Hq. destruct (H5 q Hq). split; [done|].
    rewrite elem_of_app, elem_of_rev. intros [?|?]; [by eapply H2|done].
  - intros [[H1 H2] [H3 H4]]. rewrite Forall_forall in *. split_and!; auto.
    + intros q Hq Hq2. destruct (H4 q Hq2) as [_ Hn]. apply Hn. rewrite elem_of_app, elem_of_rev. by left.
    + apply Forall_forall. intros q Hq. destruct (H4 q Hq) as [? Hn]. split; [done|]. intros Hl. apply Hn. rewrite elem_of_app. by right.
Qed.

Section entries.
Context (d : nat) (t : Z) (Ht : page_ok t).
Hypothesis (Hchild : forall c s l, kinv s l -> clean d (pm_mem s) c -> freeable l (tpages d (pm_mem s) c) ->
  frees (freewalk_rec d c) s l (tpages d (pm_mem s) c)).

Lemma freewalk_entries_run k : forall i s l,
  0 <= i -> i + Z.of_nat k = 512 -> kinv s l -> t ∉ l ->
  (forall j, i <= j < 512 -> let e := load64 (pm_mem s) (t + 8 * j) in
     has e PTE_V = true -> Z.land e (Z.lor (Z.lor PTE_R PTE_W) PTE_X) = 0 /\ clean d (pm_mem s) (PTE2PA e)) ->
  freeable l (kids d (pm_mem s) t i (Z.of_nat k)) -> t ∉ kids d (pm_mem s) t i (Z.of_nat k) ->
  exists s', freewalk_entries (freewalk_rec d) k t i s = Ok (tt, s') /\
    kinv s' (rev (kids d (pm_mem s) t i (Z.of_nat k)) ++ l) /\
    same_pages (t :: kids d (pm_mem s) t i (Z.of_nat k)) (pm_mem s) (pm_mem s').
Proof using All.
  induction k as [|k IH]; intros i s l Hi Hk Hkv Htl Hcl Hfr Htk.
  { exists s. split; [done|]. split; [done|]. by intros q a. }
  pose proof (kids_cons d (pm_mem s) t i (Z.of_nat (S k)) ltac:(lia)) as Ekids.
  replace (Z.of_nat (S k) - 1) with (Z.of_nat k) in Ekids by lia.
  cbn [freewalk_entries]. unfold load_pte. rewrite bind_run, gets_run.
  unfold entry_table in Ekids at 1. destruct (has (load64 (pm_mem s) (t + 8 * i)) PTE_V) eqn:Ev; cycle 1.
  { cbn [andb]. rewrite bind_run, ret_run. rewrite Ekids in *. apply IH; auto; [lia|lia|]. intros j Hj. apply Hcl. lia. }
  destruct (Hcl i ltac:(lia) Ev) as [Hl Hc]. rewrite Hl. cbn [andb Z.eqb].
  set (c := PTE2PA _) in *. rewrite Ekids in Hfr, Htk |- *. apply freeable_app in Hfr as [Hf1 Hf2].
  rewrite elem_of_app in Htk. destruct (Hchild c s l Hkv Hc Hf1) as (s1 & E1 & Hk1 & Hs1).
  rewrite bind_run, bind_run, E1. unfold store_pte. rewrite modify_run. set (s2 := upd_mem _ s1).
  assert (Hk2 : kinv s2 (rev (tpages d (pm_mem s) c) ++ l)).
  { apply (kinv_same_outside s1 _ t); auto; [apply Ht|rewrite elem_of_app, elem_of_rev; tauto|].
    apply same_outside_store64; unfold PGSIZE; lia. }
  assert (Hs2 : same_pages (t :: tpages d (pm_mem s) c) (pm_mem s) (pm_mem s2)).
  { intros q a Hq Hn Ha. apply not_elem_of_cons in Hn as [Hne Hn]. rewrite <- (Hs1 q a) by done. cbn [pm_mem s2 upd_mem set_mem].
    apply load8_store64_ne. pose proof (page_apart q t Hq (proj1 Ht) Hne). unfold PGSIZE in *. lia. }
  assert (He : forall j, i + 1 <= j < 512 -> load64 (pm_mem s2) (t + 8 * j) = load64 (pm_mem s) (t + 8 * j)).
  { intros j Hj. cbn [pm_mem s2 upd_mem set_mem]. rewrite load64_store64_ne by lia. apply load64_agree. intros a Ha.
    apply (Hs1 t); [apply Ht|tauto|unfold PGSIZE; lia]. }
  assert (Hrest : forall j c', i + 1 <= j < 512 -> entry_table (load64 (pm_mem s) (t + 8 * j)) = Some c' ->
            tpages d (pm_mem s2) c' = tpages d (pm_mem s) c' /\ (clean d (pm_mem s) c' -> clean d (pm_mem s2) c')).
  { intros j c' Hj Ec. apply tpages_agree. intros q a Hq Ha.
    assert (Hqk : q ∈ kids d (pm_mem s) t (i + 1) (Z.of_nat k)) by (apply elem_of_kids; exists j, c'; split_and!; auto; lia).
    destruct Hf2 as [_ Hf2]. destruct (proj1 (Forall_forall _ _) Hf2 q Hqk) as [Hqok Hqn]. rewrite elem_of_app, elem_of_rev in Hqn.
    apply (Hs2 q); [apply Hqok| |done]. intros [->|?]%elem_of_cons; tauto. }
  assert (Ek2 : kids d (pm_mem s2) t (i + 1) (Z.of_nat k) = kids d (pm_mem s) t (i + 1) (Z.of_nat k)).
  { apply kids_ext. intros j Hj. split; [apply He; lia|]. intros c' Ec. apply (Hrest j); [lia|done]. }
  destruct (IH (i + 1) s2 (rev (tpages d (pm_mem s) c) ++ l)) as (s3 & E3 & Hk3 & Hs3); [lia|lia|done| | | | |].
  - rewrite elem_of_app, elem_of_rev. tauto.
  - intros j Hj. cbv zeta. rewrite He by lia. intros Hv. destruct (Hcl j ltac:(lia) Hv) as [Hl' Hc']. split; [done|].
    apply (Hrest j); [lia| |done]. unfold entry_table. by rewrite Hv.
  - by rewrite Ek2.
  - rewrite Ek2. tauto.
  - exists s3. split; [exact E3|]. rewrite Ek2 in Hk3, Hs3. split; [by rewrite rev_app_distr, <- app_assoc|].
    intros q a Hq Hn Ha. rewrite not_elem_of_cons, not_elem_of_app in Hn. destruct Hn as (Hn1 & Hn2 & Hn3).
    rewrite (Hs3 q), (Hs2 q); auto; rewrite not_elem_of_cons; tauto.
Qed.

End entries.

Lemma freewalk_rec_run d : forall t s l,
  kinv s l -> clean d (pm_mem s) t -> freeable l (tpages d (pm_mem s) t) ->
  frees (freewalk_rec d t) s l (tpages d (pm_mem s) t).
Proof.
  induction d as [|d IH]; intros t s l Hk Hc Hf; [done|].
  rewrite tpages_S in Hf |- *. apply freeable_app in Hf as [Hf1 [_ Hf2]]. apply Forall_singleton in Hf2 as [Ht Hn].
  rewrite elem_of_app, elem_of_rev in Hn.
  destruct (freewalk_entries_run d t Ht IH 512 0 s l) as (s1 & E1 & Hk1 & Hs1); [lia|lia|done|tauto|done|done|change (Z.of_nat 512) with 512; tauto|].
  change (Z.of_nat 512) with 512 in *.
  destruct (kfree_spec s1 _ t Hk1 Ht) as (s2 & E2 & Hk2 & Hs2); [rewrite elem_of_app, elem_of_rev; tauto|].
  exists s2. cbn [freewalk_rec]. rewrite (bind_Ok _ _ _ _ _ E1). split; [exact E2|]. rewrite rev_app_distr. split; [exact Hk2|].
  intros q a Hq Hq2 Ha. rewrite not_elem_of_app, list_elem_of_singleton in Hq2. destruct Hq2 as [Hq2 Hne].
  rewrite <- (Hs1 q a) by (auto; rewrite not_elem_of_cons; tauto). apply Hs2.
  pose proof (page_apart q t Hq (proj1 Ht) Hne). unfold PGSIZE in *. lia.
Qed.

End freewalk.

(** * The tables of a page table *)

Lemma tpages_paths d : forall m t q,
  q ∈ tpages d m t <-> exists p, (length p < d)%nat /\ Forall (fun i => 0 <= i < 512) p /\ tbl m t p = Some q.
Proof.
  induction d as [|d IH]; intros m t q.
  { split; [by intros ?%elem_of_nil|]. intros (p & ? & _). lia. }
  rewrite tpages_S, elem_of_app, list_elem_of_singleton, elem_of_kids. split.
  - intros [(j & c & Hj & Ec & Hq)| ->].
    + apply IH in Hq as (p & Hl & Hp & E). exists (j :: p). split_and!; [simpl; lia|by constructor|].
      change (tbl m t (j :: p)) with (tbl m t ([j] ++ p)). rewrite tbl_app.
      change (tbl m t [j]) with (match entry_table (load64 m (t + 8 * j)) with Some t' => Some t' | None => None end). by rewrite Ec.
    + exists []. split_and!; [simpl; lia|done|done].
  - intros ([|j p] & Hl & Hp & E); [right; by injection E|left].
    apply Forall_cons in Hp as [Hj Hp]. change (tbl m t (j :: p)) with (match entry_table (load64 m (t + 8 * j)) with Some t' => tbl m t' p | None => None end) in E.
    destruct (entry_table (load64 m (t + 8 * j))) as [c|] eqn:Ec; [|done].
    exists j, c. split_and!; auto; [lia..|]. apply IH. exists p. split_and!; auto. simpl in Hl. lia.
Qed.

Lemma NoDup_bind {A B} (f : A -> list B) l :
  NoDup l -> (forall x, x ∈ l -> NoDup (f x)) ->
  (forall x y b, x ∈ l -> y ∈ l -> b ∈ f x -> b ∈ f y -> x = y) -> NoDup (l ≫= f).
Proof.
  induction l as [|x l IH]; intros Hn H1 H2; [by apply NoDup_nil_2|]. apply NoDup_cons in Hn as [Hx Hn].
  cbn. apply NoDup_app. split_and!.
  - apply H1. by left.
  - intros b Hb Hb2. apply list_elem_of_bind in Hb2 as (y & Hy & Hyl). assert (x = y); [|congruence].
    apply (H2 x y b); auto; [by left|by right].
  - apply IH; [done|intros y Hy; apply H1; by right|]. intros y z b Hy Hz. apply H2; by right.
Qed.

Lemma tpages_NoDup d : forall m t,
  (forall p p' q, (length p < d)%nat -> (length p' < d)%nat -> Forall (fun i => 0 <= i < 512) p ->
     Forall (fun i => 0 <= i < 512) p' -> tbl m t p = Some q -> tbl m t p' = Some q -> p = p') ->
  NoDup (tpages d m t).
Proof.
  induction d as [|d IH]; intros m t Hinj; [by apply NoDup_nil_2|]. rewrite tpages_S.
  assert (Hstep : forall j p c, entry_table (load64 m (t + 8 * j)) = Some c -> tbl m t (j :: p) = tbl m c p).
  { intros j p c Ec. change (tbl m t (j :: p)) with (match entry_table (load64 m (t + 8 * j)) with Some t' => tbl m t' p | None => None end). by rewrite Ec. }
  apply NoDup_app. split_and!; [|intros q Hq ->%list_elem_of_singleton|by apply NoDup_singleton].
  - apply NoDup_bind; [apply NoDup_seqZ| |].
    + intros j Hj%elem_of_seqZ. destruct (entry_table _) as [c|] eqn:Ec; [|by apply NoDup_nil_2]. apply IH.
      intros p p' q Hl Hl' Hp Hp' E E'. assert (j :: p = j :: p') as [=]; [|done].
      apply (Hinj _ _ q); [simpl; lia|simpl; lia|constructor; [lia|done]|constructor; [lia|done]| |]; by rewrite (Hstep j _ c).
    + intros x y b Hx%elem_of_seqZ Hy%elem_of_seqZ Hb Hb'.
      destruct (entry_table (load64 m (t + 8 * x))) as [c|] eqn:Ec; [|by apply elem_of_nil in Hb].
      destruct (entry_table (load64 m (t + 8 * y))) as [c'|] eqn:Ec'; [|by apply elem_of_nil in Hb'].
      apply tpages_paths in Hb as (p & Hl & Hp & E). apply tpages_paths in Hb' as (p' & Hl' & Hp' & E').
      assert (x :: p = y :: p') as [=]; [|done].
      apply (Hinj _ _ b); [simpl; lia|simpl; lia|constructor; [lia|done]|constructor; [lia|done]|by rewrite (Hstep x _ c)|by rewrite (Hstep y _ c')].
  - apply elem_of_kids in Hq as (j & c & Hj & Ec & Hq). apply tpages_paths in Hq as (p & Hl & Hp & E).
    assert (j :: p = []); [|done]. apply (Hinj _ _ t); [simpl; lia|simpl; lia|constructor; [lia|done]|done|by rewrite (Hstep j _ c)|done].
Qed.

Section free_space.
Context `{KernelImageOk}.

Lemma clean_subtree m root l d : forall p t,
  pt_wf m root l -> (length p + d = 3)%nat -> valid_path p -> tbl m root p = Some t ->
  (forall p t i, valid_path p -> length p = 2%nat -> tbl m root p = Some t -> 0 <= i < 512 ->
     has (load64 m (t + 8 * i)) PTE_V = false) ->
  clean d m t.
Proof.
  induction d as [|d IH]; intros p t Hw Hd Hp Ht Hleaf.
  { destruct Hp. lia. }
  intros i Hi e Hv. destruct (decide (length p = 2%nat)) as [E|E].
  { unfold e in Hv. rewrite (Hleaf p t i) in Hv; done. }
  assert (Hlen : (length p < 2)%nat) by (destruct Hp; lia). split.
  - pose proof (proj1 (proj2 (proj2 Hw)) p t i Hp Hlen Ht Hi Hv) as Hl. exact Hl.
  - apply (IH (p ++ [i])); auto; [rewrite length_app; simpl; lia|by apply valid_snoc|].
    rewrite tbl_snoc, Ht. unfold entry_table. fold e. by rewrite Hv.
Qed.

Lemma page_address i j k : 0 <= i < 256 -> 0 <= j < 512 -> 0 <= k < 512 ->
  let va := i * 1073741824 + j * 2097152 + k * 4096 in
  0 <= va < MAXVA /\ va_path va = [i; j] /\ PX 0 va = k.
Proof.
  intros Hi Hj Hk va. split; [change MAXVA with 274877906944; lia|]. unfold va_path. rewrite !PX_div by lia.
  change (2 ^ (12 + 9 * 2)) with 1073741824. change (2 ^ (12 + 9 * 1)) with 2097152. change (2 ^ (12 + 9 * 0)) with 4096.
  assert (va / 1073741824 mod 512 = i) as -> by (unfold va; Z.div_mod_to_equations; lia).
  assert (va / 2097152 mod 512 = j) as -> by (unfold va; Z.div_mod_to_equations; lia).
  split; [done|]. unfold va; Z.div_mod_to_equations; lia.
Qed.

(** With no mapping left every table can be freed. *)
Lemma pt_clean m root l :
  pt_wf m root l -> (forall va, 0 <= va < MAXVA -> has (ptmap m root va) PTE_V = false) ->
  clean 3 m root /\ freeable l (tpages 3 m root) /\ (forall q, q ∈ tpages 3 m root <-> owned m root q).
Proof.
  intros Hw Hm. pose proof Hw as (Hok & Hinj & _ & Htop).
  assert (Hown : forall q, q ∈ tpages 3 m root <-> owned m root q).
  { intros q. rewrite tpages_paths. split; intros (p & H'); exists p; unfold valid_path in *; intuition lia. }
  split_and!; [|split|done].
  - apply (clean_subtree m root l 3 []); auto with xv6. intros p t k Hp Hl Ht Hk.
    destruct p as [|i [|j [|? ?]]]; [done|done| |done]. pose proof (proj2 Hp) as Hf.
    apply Forall_cons in Hf as [Hi Hf]. apply Forall_cons in Hf as [Hj _].
    assert (Hi2 : i < 256).
    { destruct (decide (i < 256)); [done|]. exfalso. change [i; j] with ([i] ++ [j]) in Ht. rewrite tbl_app, Htop in Ht by lia. done. }
    destruct (page_address i j k ltac:(lia) Hj Hk) as (Hva & Epath & E0). specialize (Hm _ Hva). unfold ptmap in Hm.
    rewrite Epath, Ht, E0 in Hm. exact Hm.
  - apply tpages_NoDup. intros p p' q Hl Hl' Hp Hp'. apply Hinj; split; auto; lia.
  - apply Forall_forall. intros q Hq. apply Hown in Hq as (p & Hp & Ht). by apply (Hok p).
Qed.

(** uvmfree gives back every page the space holds, and touches nothing else. *)
Lemma uvmfree_run s l root sz :
  kinv s l -> 0 <= sz <= TRAPFRAME -> uvm_wf (pm_mem s) root l (npages sz) ->
  (forall va, TRAPFRAME <= va < MAXVA -> has (ptmap (pm_mem s) root va) PTE_V = false) ->
  exists s' l', uvmfree root sz s = Ok (tt, s') /\ kinv s' l' /\
    (forall q, q ∈ l' <-> q ∈ l \/ held (pm_mem s) root (npages sz) q) /\
    (forall q a, q mod PGSIZE = 0 -> q ∉ l -> ~ held (pm_mem s) root (npages sz) q ->
       q <= a < q + PGSIZE -> load8 (pm_mem s') a = load8 (pm_mem s) a).
Proof.
  intros Hk Hsz Hw Hhigh. unfold uvmfree.
  assert (Hmid : exists s1 l1, (if 0 <? sz then uvmunmap root 0 (PGROUNDUP sz / PGSIZE) true else mret tt) s = Ok (tt, s1) /\
            uvm_move root s l (npages sz) s1 l1 0).
  { destruct (Z.ltb_spec 0 sz).
    - rewrite TRAPFRAME_val in Hsz. rewrite PGROUNDUP_npages by lia. unfold PGSIZE. rewrite Z.div_mul by lia. by apply uvmunmap_all.
    - assert (sz = 0) as -> by lia. change (npages 0) with 0%nat in *. exists s, l. split; [done|]. by apply uvm_move_refl. }
  destruct Hmid as (s1 & l1 & E1 & [Hk1 Hw1 Hp1 Hs1 _ Hh1]). rewrite (bind_Ok _ _ _ _ _ E1).
  destruct (pt_clean (pm_mem s1) root l1) as (Hc & Hf & Hown); [apply Hw1| |].
  { intros va Hva. destruct (decide (va < TRAPFRAME)); [apply (uvm_rest _ _ _ _ Hw1); lia|]. rewrite Hh1 by lia. apply Hhigh. lia. }
  destruct (freewalk_rec_run 3 root s1 l1 Hk1 Hc Hf) as (s2 & E2 & Hk2 & Hs2).
  assert (Hh0 : forall q, held (pm_mem s1) root 0 q <-> owned (pm_mem s1) root q).
  { intros q. unfold held. split; [intros [?|(i & ? & _)]; [done|lia]|auto]. }
  exists s2, (rev (tpages 3 (pm_mem s1) root) ++ l1). split; [exact E2|]. split; [done|]. split.
  - intros q. rewrite Hp1, Hh0, elem_of_app, elem_of_rev, Hown. tauto.
  - intros q a Hq Hn Hnh Ha. assert (Hnn : ~ (q ∈ l1 \/ held (pm_mem s1) root 0 q)) by (rewrite <- Hp1; tauto).
    rewrite (Hs2 q), (Hs1 q); auto. rewrite Hown, <- Hh0. tauto.
Qed.

End free_space.
