(* ===== verification/VmCopy.v ===== *)
(** copyout, copyin and copyinstr of kernel/vm.c: the kernel reads and writes
    exactly the user's bytes, and stops at the first page the user may not
    access. *)

From S2P Require Import Prelude Memory Riscv Kalloc Vm VmTable VmSpace VmUser.

(** May the user read (and write) the page of [va]? *)
Definition ureadable (m : mem) (root va : Z) : bool :=
  (va <? MAXVA) && (has (ptmap m root va) PTE_V && has (ptmap m root va) PTE_U).
Definition uwritable (m : mem) (root va : Z) : bool :=
  ureadable m root va && has (ptmap m root va) PTE_W.

(** The trapframe and trampoline pages are not for the user. *)
Definition top_private (m : mem) (root : Z) : Prop :=
  forall va, TRAPFRAME <= va < MAXVA -> has (ptmap m root va) PTE_U = false.

Section copy.
Context `{KernelImageOk}.

(** Writing into a frame of the space. *)
Lemma uvm_write_frame s root l n va m' :
  kinv s l -> uvm_wf (pm_mem s) root l n -> 0 <= va < Z.of_nat n * 4096 ->
  same_outside (PTE2PA (ptmap (pm_mem s) root va)) (pm_mem s) m' ->
  kinv (set_mem m' s) l /\ uvm_wf m' root l n /\
  (forall vb, ptmap m' root vb = ptmap (pm_mem s) root vb) /\
  (forall vb, 0 <= vb < Z.of_nat n * 4096 -> vb / 4096 <> va / 4096 -> ubyte m' root vb = ubyte (pm_mem s) root vb) /\
  (forall q, held m' root n q <-> held (pm_mem s) root n q).
Proof.
  intros Hk Hu Hva Hs. destruct (uvm_mapped _ _ _ _ Hu va Hva) as (_ & _ & Hfr).
  destruct (Hfr eq_refl) as (Hok & Hnl & Hno).
  destruct (tables_same_outside _ _ _ _ _ (uvm_pt _ _ _ _ Hu) (proj1 Hok) Hno Hs) as (Hlk & Ht & Hm).
  assert (Hoi : forall q, owned m' root q <-> owned (pm_mem s) root q) by (intros; by apply owned_tables).
  split_and!; auto.
  - eapply kinv_same_outside; eauto. apply Hok.
  - destruct Hu as [Hpt Hsz Hmap Hinj Hrest]. split; auto.
    + by eapply pt_wf_tables.
    + intros vb Hvb. unfold unmappable. rewrite Hm, Hoi. by apply Hmap.
    + intros x y. rewrite !Hm. auto.
    + intros x. rewrite Hm. auto.
  - intros vb Hvb Hne. unfold ubyte. rewrite Hm. apply Hs.
    destruct (uvm_mapped _ _ _ _ Hu vb Hvb) as (_ & _ & Hfb). destruct (Hfb eq_refl) as (Hokb & _ & _).
    assert (Hpne : PTE2PA (ptmap (pm_mem s) root vb) <> PTE2PA (ptmap (pm_mem s) root va)).
    { intros E. apply Hne. by apply (uvm_inj _ _ _ _ Hu). }
    pose proof (page_apart _ _ (proj1 Hokb) (proj1 Hok) Hpne). unfold PGSIZE in *.
    pose proof (Z.mod_pos_bound vb 4096). lia.
  - intros q. unfold held. rewrite Hoi. by setoid_rewrite Hm.
Qed.

Lemma ureadable_low m root l n va :
  uvm_wf m root l n -> top_private m root -> 0 <= va -> ureadable m root va = true -> va < Z.of_nat n * 4096.
Proof.
  unfold ureadable. intros Hu Ht Hva Hr. apply andb_true_iff in Hr as [Hmax Hr].
  apply andb_true_iff in Hr as [Hv Huu]. apply Z.ltb_lt in Hmax.
  destruct (decide (va < Z.of_nat n * 4096)); [done|]. exfalso.
  destruct (decide (va < TRAPFRAME)).
  - rewrite (uvm_rest _ _ _ _ Hu) in Hv by lia. done.
  - rewrite Ht in Huu by lia. done.
Qed.

Lemma ptmap_same_page m root va vb :
  0 <= va -> 0 <= vb -> va / 4096 = vb / 4096 -> ptmap m root va = ptmap m root vb.
Proof. intros Ha Hb E. rewrite (ptmap_vpage _ _ va), (ptmap_vpage _ _ vb) by done. by rewrite E. Qed.

Lemma ureadable_same_page m root va vb :
  0 <= va -> 0 <= vb -> va / 4096 = vb / 4096 -> ureadable m root va = ureadable m root vb.
Proof.
  intros Ha Hb E. unfold ureadable. rewrite (ptmap_same_page m root va vb) by done.
  f_equal. change MAXVA with 274877906944. case_bool; try done; Z.div_mod_to_equations; lia.
Qed.

Lemma walkaddr_spec s root l va :
  pt_wf (pm_mem s) root l -> 0 <= va ->
  walkaddr root va s =
  Ok (if ureadable (pm_mem s) root va then PTE2PA (ptmap (pm_mem s) root va) else 0, s).
Proof.
  intros Hw Hva. unfold walkaddr, ureadable.
  destruct (Z.leb_spec MAXVA va), (Z.ltb_spec va MAXVA); try lia; simpl; [done|].
  rewrite bind_run, walk_lookup by done. unfold ptmap.
  destruct (tbl (pm_mem s) root (va_path va)) as [t|] eqn:Et; [|done].
  destruct (proj1 Hw _ _ (valid_va_path va) Et) as [Htok _]. apply page_ok_range in Htok.
  pose proof (PX_range 0 va). rewrite (proj2 (Z.eqb_neq _ 0)) by (unfold KERNBASE in *; lia).
  unfold load_pte. rewrite bind_run, gets_run.
  destruct (has _ PTE_V); [|done]. by destruct (has _ PTE_U).
Qed.

Lemma frame_nonzero m root l n va :
  uvm_wf m root l n -> 0 <= va < Z.of_nat n * 4096 -> PTE2PA (ptmap m root va) <> 0.
Proof.
  intros Hu Hva. destruct (uvm_mapped _ _ _ _ Hu va Hva) as (_ & _ & Hf).
  destruct (Hf eq_refl) as (Hok & _ & _). apply page_ok_range in Hok. unfold KERNBASE in Hok. lia.
Qed.

(** A chunk that stays within one page. *)
Lemma ubyte_chunk m root va i :
  0 <= va -> 0 <= i -> va mod 4096 + i < 4096 ->
  ubyte m root (va + i) = load8 m (PTE2PA (ptmap m root (va / 4096 * 4096)) + (va - va / 4096 * 4096) + i) /\
  (va + i) / 4096 = va / 4096.
Proof.
  intros Hva Hi Hlt. assert (E : (va + i) / 4096 = va / 4096) by (Z.div_mod_to_equations; lia).
  split; [|done]. unfold ubyte. rewrite (ptmap_vpage _ _ (va + i)), E by lia. f_equal.
  Z.div_mod_to_equations. lia.
Qed.

(** The bytes [bs] are the user's bytes from [va] on, all readable. *)
Definition user_bytes (m : mem) (root va : Z) (bs : list Z) : Prop :=
  forall i b, bs !! i = Some b ->
    ureadable m root (va + Z.of_nat i) = true /\ b = ubyte m root (va + Z.of_nat i).

Lemma user_bytes_app m root va b1 b2 :
  user_bytes m root va b1 -> user_bytes m root (va + Z.of_nat (length b1)) b2 ->
  user_bytes m root va (b1 ++ b2).
Proof.
  intros H1 H2 i b Hb. apply lookup_app_Some in Hb as [Hb|[Hi Hb]]; [by apply H1|].
  apply H2 in Hb. by replace (va + Z.of_nat i) with (va + Z.of_nat (length b1) + Z.of_nat (i - length b1)) by lia.
Qed.

Lemma user_bytes_chunk m root va n :
  0 <= va -> va mod 4096 + Z.of_nat n <= 4096 -> ureadable m root (va / 4096 * 4096) = true ->
  user_bytes m root va
    (load_bytes n m (PTE2PA (ptmap m root (va / 4096 * 4096)) + (va - va / 4096 * 4096))).
Proof.
  intros Hva Hn Hr i b Hb. assert (Hi : (i < n)%nat).
  { apply lookup_lt_Some in Hb. by rewrite length_load_bytes in Hb. }
  rewrite lookup_load_bytes in Hb by done. injection Hb as <-.
  destruct (ubyte_chunk m root va (Z.of_nat i)) as [-> E]; try lia. split; [|done].
  rewrite <- Hr. apply ureadable_same_page; try lia; rewrite ?E, ?Z.div_mul by lia; Z.div_mod_to_equations; lia.
Qed.

Lemma copyin_loop_spec root fuel : forall s l n srcva len,
  uvm_wf (pm_mem s) root l n -> top_private (pm_mem s) root ->
  0 <= srcva < 2 ^ 64 -> len <= Z.of_nat fuel ->
  exists ret bs, copyin_loop fuel root srcva len s = Ok ((ret, bs), s) /\
    user_bytes (pm_mem s) root srcva bs /\
    (ret = 0 /\ Z.of_nat (length bs) = Z.max 0 len \/
     ret = -1 /\ Z.of_nat (length bs) < len /\
       ureadable (pm_mem s) root (srcva + Z.of_nat (length bs)) = false).
Proof.
  induction fuel as [|fuel IH]; intros s l n srcva len Hu Ht Hva Hlen; cbn [copyin_loop].
  { rewrite (proj2 (Z.ltb_ge _ _)) by lia. exists 0, []. split_and!; auto.
    - intros i b Hb. by rewrite lookup_nil in Hb.
    - left. split; [done|]. simpl. lia. }
  destruct (Z.ltb_spec 0 len).
  2: { exists 0, []. split_and!; auto.
    - intros i b Hb. by rewrite lookup_nil in Hb.
    - left. split; [done|]. simpl. lia. }
  rewrite PGROUNDDOWN_div by done. set (va0 := srcva / 4096 * 4096).
  assert (Hva0 : 0 <= va0 <= srcva /\ srcva < va0 + 4096 /\ va0 mod 4096 = 0 /\ va0 / 4096 = srcva / 4096).
  { unfold va0. rewrite Z.mod_mul, Z.div_mul by lia. Z.div_mod_to_equations. lia. }
  rewrite bind_run, (walkaddr_spec s root l va0) by (try apply Hu; lia).
  destruct (ureadable (pm_mem s) root va0) eqn:Er.
  2: { exists (-1), []. split_and!; auto.
    - intros i b Hb. by rewrite lookup_nil in Hb.
    - right. split_and!; simpl; auto; try lia. rewrite <- Er, Z.add_0_r.
      apply ureadable_same_page; lia. }
  pose proof (ureadable_low _ _ _ _ va0 Hu Ht ltac:(lia) Er) as Hlow.
  rewrite (proj2 (Z.eqb_neq _ _) (frame_nonzero _ _ _ _ va0 Hu ltac:(lia))).
  unfold PGSIZE. set (c := if len <? 4096 - (srcva - va0) then len else 4096 - (srcva - va0)).
  assert (Hc : 0 < c <= len /\ c <= 4096 - (srcva - va0) /\ (c < len -> c = 4096 - (srcva - va0))).
  { unfold c. case_bool; lia. }
  rewrite bind_run, gets_run.
  assert (Hmax : va0 < 274877906944).
  { unfold ureadable in Er. apply andb_true_iff in Er as [Er _]. by apply Z.ltb_lt in Er. }
  rewrite u64_small by lia.
  destruct (IH s l n (va0 + 4096) (len - c)) as (ret & bs & E & Hb & Hr); auto; try lia.
  rewrite bind_run, E. cbn [fst snd].
  set (b1 := load_bytes _ _ _).
  assert (Hb1 : Z.of_nat (length b1) = c) by (unfold b1; rewrite length_load_bytes; lia).
  exists ret, (b1 ++ bs). split; [done|]. rewrite length_app. split.
  - destruct (decide (c = 4096 - (srcva - va0))) as [Ec|Ec].
    + apply user_bytes_app; [|by replace (srcva + Z.of_nat (length b1)) with (va0 + 4096) by lia].
      apply user_bytes_chunk; auto; [lia|]. rewrite Z2Nat.id by lia. rewrite Z.mod_eq by lia. unfold va0 in *. lia.
    + assert (bs = []) as -> by (destruct Hr as [[_ Hr]|(_ & Hr & _)]; destruct bs; simpl in Hr; try done; lia).
      rewrite app_nil_r. apply user_bytes_chunk; auto; [lia|]. rewrite Z2Nat.id by lia.
      rewrite Z.mod_eq by lia. unfold va0 in *. lia.
  - destruct Hr as [[-> Hr]|(-> & Hr & Hn)]; [left; split; [done|lia]|right].
    split_and!; auto; [lia|]. rewrite <- Hn. f_equal. lia.
Qed.

(** * copyout *)

(** [k] bytes of [src] have been stored at [dstva]. *)
Record wrote (root : Z) (s : pmem) (l : list Z) (n : nat) (dstva : Z) (src : list Z) (k : nat) (s' : pmem) : Prop := {
  wrote_kinv : kinv s' l;
  wrote_wf : uvm_wf (pm_mem s') root l n;
  wrote_map : forall va, ptmap (pm_mem s') root va = ptmap (pm_mem s) root va;
  wrote_bytes : forall va, 0 <= va < Z.of_nat n * 4096 -> ubyte (pm_mem s') root va =
    if (dstva <=? va) && (va <? dstva + Z.of_nat k) then u8 (src !!! Z.to_nat (va - dstva))
    else ubyte (pm_mem s) root va;
  wrote_held : forall q, held (pm_mem s') root n q <-> held (pm_mem s) root n q;
  wrote_same : forall q a, q mod PGSIZE = 0 -> ~ held (pm_mem s) root n q -> q <= a < q + PGSIZE ->
    load8 (pm_mem s') a = load8 (pm_mem s) a;
  wrote_ok : forall i, (i < k)%nat -> uwritable (pm_mem s) root (dstva + Z.of_nat i) = true;
}.

Lemma wrote_nothing root s l n dstva src :
  kinv s l -> uvm_wf (pm_mem s) root l n -> wrote root s l n dstva src 0 s.
Proof. intros. split; auto; [intros va Hva; case_bool; try lia; done|intros; lia]. Qed.

Lemma uwritable_same_page m root va vb :
  0 <= va -> 0 <= vb -> va / 4096 = vb / 4096 -> uwritable m root va = uwritable m root vb.
Proof.
  intros Ha Hb E. unfold uwritable. rewrite (ureadable_same_page m root va vb) by done.
  by rewrite (ptmap_same_page m root va vb) by done.
Qed.

(** The first chunk, of [c] bytes within the page of [dstva]. *)
Lemma wrote_chunk root s l n dstva src c :
  kinv s l -> uvm_wf (pm_mem s) root l n -> 0 <= dstva < Z.of_nat n * 4096 ->
  (c <= length src)%nat -> dstva mod 4096 + Z.of_nat c <= 4096 ->
  let va0 := dstva / 4096 * 4096 in
  uwritable (pm_mem s) root va0 = true ->
  wrote root s l n dstva src c
    (upd_mem (fun m => store_bytes m (PTE2PA (ptmap (pm_mem s) root va0) + (dstva - va0)) (take c src)) s).
Proof.
  intros Hk Hu Hd Hc Hp va0 Hwr. set (pa := PTE2PA (ptmap (pm_mem s) root va0)).
  assert (Hva0 : 0 <= va0 <= dstva /\ dstva - va0 = dstva mod 4096 /\ va0 mod 4096 = 0 /\ va0 / 4096 = dstva / 4096).
  { unfold va0. rewrite Z.mod_mul, Z.div_mul by lia. Z.div_mod_to_equations. lia. }
  set (m' := store_bytes (pm_mem s) (pa + (dstva - va0)) (take c src)).
  assert (Hlen : length (take c src) = c) by (rewrite length_take; lia).
  assert (Hs : same_outside pa (pm_mem s) m').
  { intros a Ha. unfold m'. rewrite load8_store_bytes, Hlen. unfold PGSIZE in Ha.
    case_bool; try lia; done. }
  destruct (uvm_write_frame s root l n va0 m') as (H1 & H2 & H3 & H4 & H5); auto; [lia|].
  split; auto.
  - intros va Hva. simpl. destruct (decide (va / 4096 = dstva / 4096)) as [E|E].
    2: { rewrite H4 by lia. case_bool; try done. exfalso. apply E. Z.div_mod_to_equations. lia. }
    assert (Ep : ptmap (pm_mem s) root va = ptmap (pm_mem s) root va0) by (apply ptmap_same_page; lia).
    unfold ubyte. rewrite H3, Ep. fold pa. unfold m'. rewrite load8_store_bytes, Hlen.
    assert (Ed : pa + va mod 4096 = pa + (dstva - va0) + (va - dstva)) by (Z.div_mod_to_equations; lia).
    rewrite Ed. clear - Hlen Hc. clearbody pa va0. case_bool; try lia; [|done..].
    replace (pa + (dstva - va0) + (va - dstva) - (pa + (dstva - va0))) with (va - dstva) by lia.
    f_equal. rewrite !list_lookup_total_alt, lookup_take_lt by lia. done.
  - intros q a Ha Hh Hr. simpl. apply Hs. assert (q <> pa).
    { intros ->. apply Hh. apply held_frame. lia. }
    destruct (uvm_mapped _ _ _ _ Hu va0) as (_ & _ & Hf); [lia|]. destruct (Hf eq_refl) as (Hok & _ & _).
    pose proof (page_apart q pa Ha (proj1 Hok)). lia.
  - intros i Hi. rewrite <- Hwr. apply uwritable_same_page; [lia..|]. Z.div_mod_to_equations. lia.
Qed.

Lemma wrote_trans root s l n dstva src c k s1 s2 :
  0 <= dstva -> wrote root s l n dstva src c s1 -> wrote root s1 l n (dstva + Z.of_nat c) (drop c src) k s2 ->
  wrote root s l n dstva src (c + k) s2.
Proof.
  intros Hd H1 H2. split.
  - apply H2.
  - apply H2.
  - intros va. rewrite (wrote_map _ _ _ _ _ _ _ _ H2). apply H1.
  - intros va Hva. rewrite (wrote_bytes _ _ _ _ _ _ _ _ H2), (wrote_bytes _ _ _ _ _ _ _ _ H1) by done.
    case_bool; try lia; try done.
    f_equal. rewrite !list_lookup_total_alt, lookup_drop. do 2 f_equal. lia.
  - intros q. by rewrite (wrote_held _ _ _ _ _ _ _ _ H2), (wrote_held _ _ _ _ _ _ _ _ H1).
  - intros q a Ha Hh Hr. rewrite (wrote_same _ _ _ _ _ _ _ _ H2 q), (wrote_same _ _ _ _ _ _ _ _ H1 q); auto.
    by rewrite (wrote_held _ _ _ _ _ _ _ _ H1).
  - intros i Hi. destruct (decide (i < c)%nat); [by apply (wrote_ok _ _ _ _ _ _ _ _ H1)|].
    pose proof (wrote_ok _ _ _ _ _ _ _ _ H2 (i - c)%nat ltac:(lia)) as Hok. revert Hok.
    unfold uwritable, ureadable. rewrite !(wrote_map _ _ _ _ _ _ _ _ H1).
    by replace (dstva + Z.of_nat c + Z.of_nat (i - c)) with (dstva + Z.of_nat i) by lia.
Qed.

Lemma copyout_loop_spec root fuel : forall s l n dstva src,
  kinv s l -> uvm_wf (pm_mem s) root l n -> top_private (pm_mem s) root ->
  0 <= dstva < 2 ^ 64 -> (length src <= fuel)%nat ->
  exists ret s' k, copyout_loop fuel root dstva src s = Ok (ret, s') /\ wrote root s l n dstva src k s' /\
    (ret = 0 /\ k = length src \/
     ret = -1 /\ (k < length src)%nat /\ uwritable (pm_mem s) root (dstva + Z.of_nat k) = false).
Proof.
  induction fuel as [|fuel IH]; intros s l n dstva src Hk Hu Ht Hva Hlen; cbn [copyout_loop].
  { assert (src = []) as -> by (destruct src; [done|simpl in Hlen; lia]).
    exists 0, s, 0%nat. split; [done|]. split; [by apply wrote_nothing|by left]. }
  destruct (Z.ltb_spec 0 (Z.of_nat (length src))).
  2: { assert (src = []) as -> by (destruct src; [done|simpl in *; lia]).
       exists 0, s, 0%nat. split; [done|]. split; [by apply wrote_nothing|by left]. }
  rewrite PGROUNDDOWN_div by done. set (va0 := dstva / 4096 * 4096).
  assert (Hva0 : 0 <= va0 <= dstva /\ dstva < va0 + 4096 /\ dstva - va0 = dstva mod 4096 /\ va0 / 4096 = dstva / 4096).
  { unfold va0. rewrite Z.div_mul by lia. Z.div_mod_to_equations. lia. }
  assert (Hfail : uwritable (pm_mem s) root va0 = false ->
    exists ret s' k, Ok (-1, s) = Ok (ret, s') /\ wrote root s l n dstva src k s' /\
    (ret = 0 /\ k = length src \/
     ret = -1 /\ (k < length src)%nat /\ uwritable (pm_mem s) root (dstva + Z.of_nat k) = false)).
  { intros Hw. exists (-1), s, 0%nat. split; [done|]. split; [by apply wrote_nothing|]. right.
    split; [done|]. split; [lia|]. rewrite Z.add_0_r, <- Hw. apply uwritable_same_page; lia. }
  destruct (Z.leb_spec MAXVA va0) as [Hmax|Hmax].
  { apply Hfail. unfold uwritable, ureadable. by rewrite (proj2 (Z.ltb_ge _ _)) by lia. }
  assert (Ew : walk root va0 false s = Ok (match tbl (pm_mem s) root (va_path va0) with
                                           | Some t => t + 8 * PX 0 va0 | None => 0 end, s))
    by (by apply walk_lookup).
  rewrite (bind_Ok _ _ _ _ _ Ew).
  destruct (tbl (pm_mem s) root (va_path va0)) as [t|] eqn:Et.
  2: { apply Hfail. unfold uwritable, ureadable, ptmap. rewrite Et. by rewrite andb_false_r. }
  assert (Ee : load64 (pm_mem s) (t + 8 * PX 0 va0) = ptmap (pm_mem s) root va0) by (unfold ptmap; by rewrite Et).
  destruct (proj1 (uvm_pt _ _ _ _ Hu) _ _ (valid_va_path va0) Et) as [Htok _]. apply page_ok_range in Htok.
  pose proof (PX_range 0 va0). rewrite (proj2 (Z.eqb_neq _ 0)) by (unfold KERNBASE in *; lia).
  unfold load_pte. rewrite bind_run, gets_run, Ee.
  replace (negb (has (ptmap (pm_mem s) root va0) PTE_V) || negb (has (ptmap (pm_mem s) root va0) PTE_U)
           || negb (has (ptmap (pm_mem s) root va0) PTE_W)) with (negb (uwritable (pm_mem s) root va0))
    by (unfold uwritable, ureadable; rewrite (proj2 (Z.ltb_lt _ _) Hmax), !negb_andb; done).
  destruct (uwritable (pm_mem s) root va0) eqn:Eu; cbn [negb]; [|by apply Hfail].
  assert (Hrd : ureadable (pm_mem s) root va0 = true) by (by apply andb_true_iff in Eu as [? _]).
  pose proof (ureadable_low _ _ _ _ va0 Hu Ht ltac:(lia) Hrd) as Hlow.
  assert (Hlow' : dstva < Z.of_nat n * 4096) by (Z.div_mod_to_equations; lia).
  unfold PGSIZE. set (c := if Z.of_nat (length src) <? 4096 - (dstva - va0) then Z.of_nat (length src) else 4096 - (dstva - va0)).
  assert (Hc : 0 < c <= Z.of_nat (length src) /\ c <= 4096 - (dstva - va0) /\
               (c < Z.of_nat (length src) -> c = 4096 - (dstva - va0))) by (unfold c; case_bool; lia).
  rewrite bind_run, modify_run.
  pose proof (wrote_chunk root s l n dstva src (Z.to_nat c) Hk Hu ltac:(lia) ltac:(lia) ltac:(lia) Eu) as Hw1.
  cbn zeta in Hw1. fold va0 in Hw1. set (s1 := upd_mem _ s) in *.
  change MAXVA with 274877906944 in Hmax. rewrite u64_small by lia.
  destruct (IH s1 l n (va0 + 4096) (drop (Z.to_nat c) src)) as (ret & s' & k & E & Hw2 & Hr);
    try apply Hw1; try lia.
  { intros va Hv. rewrite (wrote_map _ _ _ _ _ _ _ _ Hw1). by apply Ht. }
  { rewrite length_drop. lia. }
  rewrite length_drop in Hr.
  assert (Hend : c < Z.of_nat (length src) -> va0 + 4096 = dstva + Z.of_nat (Z.to_nat c)) by lia.
  exists ret, s', (Z.to_nat c + k)%nat. split; [done|].
  destruct (decide (c = Z.of_nat (length src))) as [Ec|Ec].
  - assert (k = 0%nat /\ ret = 0) as [-> ->] by (destruct Hr as [[-> ->]|(_ & ? & _)]; [split; [lia|done]|lia]).
    split; [|left; split; [done|lia]]. eapply wrote_trans; [lia|exact Hw1|].
    split; try apply Hw2; [|intros; lia]. intros va Hvb. rewrite (wrote_bytes _ _ _ _ _ _ _ _ Hw2) by done.
    case_bool; try lia; done.
  - rewrite Hend in Hw2, Hr by lia. split; [by eapply wrote_trans; [lia|exact Hw1|]|].
    destruct Hr as [[-> ->]|(-> & Hlt & Hnw)]; [left; split; [done|lia]|right].
    split; [done|]. split; [lia|]. rewrite <- Hnw. unfold uwritable, ureadable.
    rewrite !(wrote_map _ _ _ _ _ _ _ _ Hw1).
    by replace (dstva + Z.of_nat (Z.to_nat c + k)) with (dstva + Z.of_nat (Z.to_nat c) + Z.of_nat k) by lia.
Qed.

(** * copyinstr *)

Lemma copyinstr_page_spec n m p :
  let '(got_null, bs) := copyinstr_page n m p in
  bs = load_bytes (length bs) m p /\ (length bs <= n)%nat /\
  if got_null : bool then exists w, bs = w ++ [0] /\ 0 ∉ w else length bs = n /\ 0 ∉ bs.
Proof.
  revert p. induction n as [|n IH]; intros p; cbn [copyinstr_page].
  { split_and!; auto. apply not_elem_of_nil. }
  destruct (Z.eqb_spec (load8 m p) 0) as [E|E].
  { simpl. rewrite E. split_and!; auto; [lia|]. exists []. split; [done|]. apply not_elem_of_nil. }
  specialize (IH (p + 1)). destruct (copyinstr_page n m (p + 1)) as [g bs]. destruct IH as (H1 & H2 & H3).
  simpl. split_and!; [by rewrite <- H1|lia|]. destruct g.
  - destruct H3 as (w & -> & Hw). exists (load8 m p :: w). split; [done|]. apply not_elem_of_cons. auto.
  - destruct H3 as [-> H3]. split; [done|]. apply not_elem_of_cons. auto.
Qed.

Lemma copyinstr_loop_spec root fuel : forall s l n srcva max,
  uvm_wf (pm_mem s) root l n -> top_private (pm_mem s) root ->
  0 <= srcva < 2 ^ 64 -> max <= Z.of_nat fuel ->
  exists ret bs, copyinstr_loop fuel root srcva max s = Ok ((ret, bs), s) /\
    user_bytes (pm_mem s) root srcva bs /\ Z.of_nat (length bs) <= Z.max 0 max /\
    (ret = 0 /\ (exists w, bs = w ++ [0] /\ 0 ∉ w) \/
     ret = -1 /\ 0 ∉ bs /\ (Z.of_nat (length bs) = Z.max 0 max \/
       ureadable (pm_mem s) root (srcva + Z.of_nat (length bs)) = false)).
Proof.
  induction fuel as [|fuel IH]; intros s l n srcva max Hu Ht Hva Hlen; cbn [copyinstr_loop].
  { rewrite (proj2 (Z.ltb_ge _ _)) by lia. exists (-1), []. split_and!; simpl; auto; [|lia|].
    - intros i b Hb. by rewrite lookup_nil in Hb.
    - right. split_and!; auto; [apply not_elem_of_nil|left; lia]. }
  destruct (Z.ltb_spec 0 max).
  2: { exists (-1), []. split_and!; simpl; auto; [|lia|].
    - intros i b Hb. by rewrite lookup_nil in Hb.
    - right. split_and!; auto; [apply not_elem_of_nil|left; lia]. }
  rewrite PGROUNDDOWN_div by done. set (va0 := srcva / 4096 * 4096).
  assert (Hva0 : 0 <= va0 <= srcva /\ srcva < va0 + 4096 /\ srcva - va0 = srcva mod 4096 /\ va0 / 4096 = srcva / 4096).
  { unfold va0. rewrite Z.div_mul by lia. Z.div_mod_to_equations. lia. }
  rewrite bind_run, (walkaddr_spec s root l va0) by (try apply Hu; lia).
  destruct (ureadable (pm_mem s) root va0) eqn:Er.
  2: { exists (-1), []. split_and!; simpl; auto; [|lia|].
    - intros i b Hb. by rewrite lookup_nil in Hb.
    - right. split_and!; auto; [apply not_elem_of_nil|]. right. rewrite <- Er, Z.add_0_r.
      apply ureadable_same_page; lia. }
  pose proof (ureadable_low _ _ _ _ va0 Hu Ht ltac:(lia) Er) as Hlow.
  rewrite (proj2 (Z.eqb_neq _ _) (frame_nonzero _ _ _ _ va0 Hu ltac:(lia))).
  unfold PGSIZE. set (c := if max <? 4096 - (srcva - va0) then max else 4096 - (srcva - va0)).
  assert (Hc : 0 < c <= max /\ c <= 4096 - (srcva - va0) /\ (c < max -> c = 4096 - (srcva - va0))).
  { unfold c. case_bool; lia. }
  rewrite bind_run, gets_run.
  pose proof (copyinstr_page_spec (Z.to_nat c) (pm_mem s) (PTE2PA (ptmap (pm_mem s) root va0) + (srcva - va0))) as Hpg.
  destruct (copyinstr_page _ _ _) as [g b1]. destruct Hpg as (Eb1 & Hb1 & Hg).
  assert (Hu1 : user_bytes (pm_mem s) root srcva b1).
  { rewrite Eb1. apply user_bytes_chunk; auto; lia. }
  destruct g.
  { exists 0, b1. split_and!; auto. lia. }
  destruct Hg as [Hlb Hz].
  assert (Hmax : va0 < 274877906944).
  { unfold ureadable in Er. apply andb_true_iff in Er as [Er _]. by apply Z.ltb_lt in Er. }
  rewrite u64_small by lia.
  destruct (IH s l n (va0 + 4096) (max - c)) as (ret & bs & E & Hb & Hbl & Hr); auto; try lia.
  rewrite bind_run, E. cbn [fst snd]. exists ret, (b1 ++ bs). split; [done|].
  assert (Hcut : bs <> [] -> c = 4096 - (srcva - va0)).
  { intros Hne. destruct bs; [done|]. simpl in Hbl. lia. }
  rewrite length_app. split_and!; [|lia|].
  - destruct (decide (bs = [])) as [->|Hne]; [by rewrite app_nil_r|]. specialize (Hcut Hne).
    apply user_bytes_app; [done|]. by replace (srcva + Z.of_nat (length b1)) with (va0 + 4096) by lia.
  - destruct Hr as [(-> & w & -> & Hw)|(-> & Hw & Hr)].
    + left. split; [done|]. exists (b1 ++ w). rewrite app_assoc. split; [done|]. apply not_elem_of_app. auto.
    + right. split; [done|]. split; [apply not_elem_of_app; auto|].
      destruct Hr as [Hr|Hr]; [left; lia|].
      destruct (decide (c = max)); [left; lia|]. right. rewrite <- Hr. f_equal. lia.
Qed.

End copy.
