(* ===== verification/Kvm.v ===== *)
(** The kernel's own address space: kvmmake of kernel/vm.c and proc_mapstacks
    of kernel/proc.c. *)

From S2P Require Import Prelude Memory Riscv Kalloc Vm VmTable VmSpace VmUser.

Section kvm.
Context `{KernelImage}.

(** for(p = proc; p < &proc[NPROC]; p++); [k] entries are left, [i] is
    p - proc. *)
Fixpoint proc_mapstacks_loop (k : nat) (kpgtbl i : Z) : M pmem unit :=
  match k with
  | O => mret tt
  | S k =>
      pa ← kalloc;
      if pa =? 0 then panic "kalloc"
      else
        kvmmap kpgtbl (KSTACK i) pa PGSIZE (Z.lor PTE_R PTE_W);;
        proc_mapstacks_loop k kpgtbl (i + 1)
  end.

Definition proc_mapstacks (kpgtbl : Z) : M pmem unit :=
  proc_mapstacks_loop (Z.to_nat NPROC) kpgtbl 0.

Definition kvmmake : M pmem Z :=
  kpgtbl ← kalloc;
  modify (upd_mem (fun m => memset m kpgtbl 0 PGSIZE));;
  (* uart registers *)
  kvmmap kpgtbl UART0 UART0 PGSIZE (Z.lor PTE_R PTE_W);;
  (* virtio mmio disk interface *)
  kvmmap kpgtbl VIRTIO0 VIRTIO0 PGSIZE (Z.lor PTE_R PTE_W);;
  (* PLIC *)
  kvmmap kpgtbl PLIC PLIC 67108864 (Z.lor PTE_R PTE_W);;
  (* map kernel text executable and read-only. *)
  kvmmap kpgtbl KERNBASE KERNBASE (etext - KERNBASE) (Z.lor PTE_R PTE_X);;
  (* map kernel data and the physical RAM we'll make use of. *)
  kvmmap kpgtbl etext etext (PHYSTOP - etext) (Z.lor PTE_R PTE_W);;
  (* map the trampoline for trap entry/exit *)
  kvmmap kpgtbl TRAMPOLINE trampoline PGSIZE (Z.lor PTE_R PTE_X);;
  proc_mapstacks kpgtbl;;
  mret kpgtbl.

(** The address space kvmmake should build: [stacks] are the frames of the
    kernel stacks, each below an unmapped guard page. *)
Definition inrange (va a sz : Z) : bool := (a <=? va) && (va <? a + sz).

Definition stack_index (va : Z) : Z := (TRAMPOLINE - vpage va) / 4096.

Definition kernel_map (stacks : list Z) (va : Z) : Z :=
  if inrange va PLIC 67108864 || inrange va UART0 PGSIZE || inrange va VIRTIO0 PGSIZE
     || inrange va etext (PHYSTOP - etext)
  then mkpte (vpage va) (Z.lor PTE_R PTE_W)
  else if inrange va KERNBASE (etext - KERNBASE) then mkpte (vpage va) (Z.lor PTE_R PTE_X)
  else if inrange va TRAMPOLINE PGSIZE then mkpte trampoline (Z.lor PTE_R PTE_X)
  else if inrange va (KSTACK (NPROC - 1)) (TRAMPOLINE - KSTACK (NPROC - 1)) && Z.even (stack_index va)
  then mkpte (stacks !!! Z.to_nat (stack_index va / 2 - 1)) (Z.lor PTE_R PTE_W)
  else 0.

End kvm.

(** [f] extended with a mapping of [sz] bytes. *)
Definition map_add (f : Z -> Z) (va pa sz perm : Z) : Z -> Z :=
  fun v => if inrange v va sz then mkpte (pa + (vpage v - va)) perm else f v.

Section kvm_proofs.
Context `{KernelImageOk}.

(** The table at [root] realises [f]. *)
Definition kspace (s : pmem) (l : list Z) (root : Z) (f : Z -> Z) : Prop :=
  kinv s l /\ pt_wf (pm_mem s) root l /\ forall va, 0 <= va < MAXVA -> ptmap (pm_mem s) root va = f va.

Lemma kvmmap_spec root s l f va pa n perm :
  kspace s l root f -> 0 < n -> 0 <= va -> va mod 4096 = 0 -> va + n * 4096 <= MAXVA ->
  0 <= pa -> pa mod 4096 = 0 -> pa + n * 4096 <= 2 ^ 56 -> 0 <= perm < 1024 ->
  (forall v, va <= v < va + n * 4096 -> has (f v) PTE_V = false) ->
  kvmmap root va pa (n * 4096) perm s = Panic "kvmmap" \/
  exists s' l', kvmmap root va pa (n * 4096) perm s = Ok (tt, s') /\
    kspace s' l' root (map_add f va pa (n * 4096) perm) /\ (forall q, q ∈ l' -> q ∈ l) /\
    (forall q, q ∉ l -> ~ owned (pm_mem s) root q -> ~ owned (pm_mem s') root q).
Proof.
  intros (Hk & Hw & Hf) Hn Hva0 Hva Hmax Hpa0 Hpa Hpm Hperm Hfree.
  unfold kvmmap, mappages. unfold PGSIZE. rewrite Hva, Z.mod_mul by lia. cbn [Z.eqb negb].
  rewrite (proj2 (Z.eqb_neq (n * 4096) 0)) by lia. rewrite Z.div_mul by lia.
  change MAXVA with 274877906944 in *. rewrite u64_small by lia.
  destruct (mappages_loop_spec root perm (Z.to_nat n) s l va pa)
    as (r & s' & l' & k & E & Hg & Hr & Hm); auto; change MAXVA with 274877906944 in *; try lia.
  { intros v Hv. rewrite Hf by lia. apply Hfree. lia. }
  replace (va + (Z.of_nat (Z.to_nat n) - 1) * 4096) with (va + n * 4096 - 4096) in E by lia.
  rewrite (bind_Ok _ _ _ _ _ E). destruct Hr as [[-> ->]|(-> & _ & _)]; [right|by left].
  exists s', l'. split; [done|]. split; [|split].
  - split; [apply Hg|]. split; [apply Hg|]. intros v Hv. rewrite Hm by done. unfold map_add, inrange.
    rewrite Z2Nat.id by lia. by rewrite Hf.
  - destruct (grow_used _ _ _ _ _ Hg) as (u & -> & _). intros q Hq. apply elem_of_app. by right.
  - intros q Hq Ho. destruct (grow_used _ _ _ _ _ Hg) as (u & -> & Hou). rewrite Hou.
    intros [?|?]; [done|]. apply Hq. apply elem_of_app. by left.
Qed.

Lemma kspace_kalloc s pg l root f :
  kspace s (pg :: l) root f ->
  exists s1, kalloc s = Ok (pg, s1) /\ kspace s1 l root f /\ page_ok pg /\ pg <> 0 /\ pg ∉ l /\
    ~ owned (pm_mem s1) root pg /\ (forall q, owned (pm_mem s1) root q <-> owned (pm_mem s) root q).
Proof.
  intros (Hk & Hw & Hf). destruct (kalloc_fresh s pg l Hk) as (s1 & E & Hk1 & Hok & Hn & Hnz & Hs).
  assert (Hno : ~ owned (pm_mem s) root pg).
  { intros Ho. destruct (owned_page_ok _ _ _ _ Hw Ho) as [_ Hx]. apply Hx. by left. }
  destruct (tables_same_outside _ _ _ _ _ Hw (proj1 Hok) Hno Hs) as (Hlk & Ht & Hm).
  assert (Hoi : forall q, owned (pm_mem s1) root q <-> owned (pm_mem s) root q) by (intros; by apply owned_tables).
  exists s1. rewrite Hoi. split_and!; auto. split; [done|]. split.
  - eapply pt_wf_tables; [exact Hlk|]. eapply pt_wf_sub; [|exact Hw]. intros. by right.
  - intros va Hva. rewrite Hm. by apply Hf.
Qed.

(** [f] with the stacks mapped so far. *)
Definition stacks_map (f : Z -> Z) (st : list Z) (va : Z) : Z :=
  let low := KSTACK (Z.of_nat (length st) - 1) in
  if inrange va low (TRAMPOLINE - low) && Z.even (stack_index va)
  then mkpte (st !!! Z.to_nat (stack_index va / 2 - 1)) (Z.lor PTE_R PTE_W)
  else f va.

Lemma KSTACK_val i : KSTACK i = TRAMPOLINE - (i + 1) * 8192.
Proof. unfold KSTACK, PGSIZE. lia. Qed.

Lemma TRAMPOLINE_val : TRAMPOLINE = 274877902848.
Proof. done. Qed.

Lemma stacks_map_snoc f st pg va :
  map_add (stacks_map f st) (KSTACK (Z.of_nat (length st))) pg (1 * 4096) (Z.lor PTE_R PTE_W) va =
  stacks_map f (st ++ [pg]) va.
Proof.
  unfold map_add, stacks_map, inrange. rewrite length_app. simpl. rewrite !KSTACK_val.
  replace (TRAMPOLINE - (Z.of_nat (length st) - 1 + 1) * 8192) with (TRAMPOLINE - Z.of_nat (length st) * 8192) by lia.
  replace (TRAMPOLINE - (Z.of_nat (length st + 1) - 1 + 1) * 8192)
    with (TRAMPOLINE - (Z.of_nat (length st) + 1) * 8192) by lia.
  set (n := length st). rewrite TRAMPOLINE_val. unfold stack_index, vpage. rewrite TRAMPOLINE_val.
  set (x := va / 4096). assert (Hx : x * 4096 <= va < x * 4096 + 4096) by (unfold x; Z.div_mod_to_equations; lia).
  replace (274877902848 - x * 4096) with ((67108863 - x) * 4096) by lia. rewrite Z.div_mul by lia.
  destruct (Z.even (67108863 - x)) eqn:Ev.
  - apply Z.even_spec in Ev as [y Hy]. rewrite Hy, (Z.mul_comm 2 y), Z.div_mul by lia.
    assert (Hlook : 0 < y -> y <= Z.of_nat n -> (st ++ [pg]) !!! Z.to_nat (y - 1) = st !!! Z.to_nat (y - 1)).
    { intros. rewrite !list_lookup_total_alt, lookup_app_l; [done|]. fold n. lia. }
    assert (Hlast : y = Z.of_nat n + 1 -> (st ++ [pg]) !!! Z.to_nat (y - 1) = pg).
    { intros ->. rewrite list_lookup_total_alt.
      replace (Z.to_nat (Z.of_nat n + 1 - 1)) with (length st + 0)%nat by (fold n; lia).
      by rewrite lookup_app_r, Nat.add_sub_swap, Nat.sub_diag by lia. }
    clearbody x n. case_bool; try lia; try done; f_equal.
    + rewrite Hlast by lia. lia.
    + rewrite Hlook by lia. done.
  - assert (Ho : exists y, 67108863 - x = 2 * y + 1).
    { rewrite <- Z.negb_odd in Ev. apply negb_false_iff, Z.odd_spec in Ev. done. }
    destruct Ho as [y Hy]. clearbody x n. rewrite !andb_false_r. case_bool; try lia; done.
Qed.

(** The frames of the kernel stacks. *)
Definition stacks_ok (s : pmem) (l : list Z) (root : Z) (st : list Z) : Prop :=
  NoDup st /\ Forall (fun q => page_ok q /\ q ∉ l /\ ~ owned (pm_mem s) root q) st.

Lemma kspace_ext s l root f g :
  (forall va, 0 <= va < MAXVA -> f va = g va) -> kspace s l root f -> kspace s l root g.
Proof. intros E (H1 & H2 & H3). split_and!; auto. intros va Hva. by rewrite H3, E. Qed.

Lemma proc_mapstacks_spec root f k : forall s l st,
  kspace s l root (stacks_map f st) -> stacks_ok s l root st ->
  (length st + k = 64)%nat ->
  (forall v, KSTACK 63 <= v < TRAMPOLINE -> f v = 0) ->
  (exists msg, proc_mapstacks_loop k root (Z.of_nat (length st)) s = Panic msg) \/
  exists s' l' st', proc_mapstacks_loop k root (Z.of_nat (length st)) s = Ok (tt, s') /\
    kspace s' l' root (stacks_map f st') /\ stacks_ok s' l' root st' /\ length st' = 64%nat.
Proof.
  induction k as [|k IH]; intros s l st Hs Hst Hlen Hf.
  { right. exists s, l, st. split_and!; auto. lia. }
  cbn [proc_mapstacks_loop]. destruct l as [|pg l].
  { left. eexists. by rewrite (bind_Ok _ _ _ _ _ (kalloc_spec s [] (proj1 Hs))). }
  destruct (kspace_kalloc s pg l root _ Hs) as (s1 & E1 & Hs1 & Hok & Hnz & Hn & Hno & Hoi).
  rewrite (bind_Ok _ _ _ _ _ E1), (proj2 (Z.eqb_neq _ _) Hnz).
  pose proof (page_ok_range _ Hok) as Hpr. unfold KERNBASE, PHYSTOP, KERNBASE in Hpr.
  pose proof (KSTACK_val (Z.of_nat (length st))) as Hks. rewrite TRAMPOLINE_val in Hks.
  change PGSIZE with (1 * 4096).
  destruct (kvmmap_spec root s1 l (stacks_map f st) (KSTACK (Z.of_nat (length st))) pg 1 (Z.lor PTE_R PTE_W))
    as [E|(s2 & l2 & E & Hs2 & Hl2 & Ho2)]; auto; try done; try lia.
  { rewrite Hks. Z.div_mod_to_equations. lia. } { change MAXVA with 274877906944. lia. } { apply Hok. }
  { intros v Hv. unfold stacks_map, inrange. rewrite !KSTACK_val, TRAMPOLINE_val. case_bool; try lia; rewrite Hf; try done;
      rewrite KSTACK_val, TRAMPOLINE_val; lia. }
  { left. eexists. rewrite bind_run, E. done. }
  rewrite (bind_Ok _ _ _ _ _ E).
  replace (Z.of_nat (length st) + 1) with (Z.of_nat (length (st ++ [pg]))) by (rewrite length_app; simpl; lia).
  apply (IH s2 l2); auto.
  - eapply kspace_ext; [|exact Hs2]. intros va _. apply stacks_map_snoc.
  - destruct Hst as [Hnd Hall]. rewrite Forall_forall in Hall. split.
    + apply NoDup_app. split_and!; auto; [|apply NoDup_singleton].
      intros q Hq. rewrite list_elem_of_singleton. intros ->. destruct (Hall pg Hq) as (_ & Hx & _).
      apply Hx. by left.
    + apply Forall_app. split.
      * apply Forall_forall. intros q Hq. destruct (Hall q Hq) as (H1 & H2 & H3).
        apply not_elem_of_cons in H2 as [_ H2]. split_and!; auto. apply Ho2; [done|]. by rewrite Hoi.
      * apply Forall_singleton. split_and!; auto.
  - rewrite length_app. simpl. lia.
Qed.

(** A zeroed page is an empty table. *)
Lemma pt_empty m root l :
  page_ok root -> root ∉ l -> (forall a, root <= a < root + PGSIZE -> load8 m a = 0) ->
  pt_wf m root l /\ (forall q, owned m root q <-> q = root) /\ (forall va, ptmap m root va = 0).
Proof.
  intros Hok Hn Hz.
  assert (Hl : forall i, 0 <= i < 512 -> load64 m (root + 8 * i) = 0).
  { intros i Hi. rewrite <- (load64_memset_zero m root PGSIZE (root + 8 * i)) by (unfold PGSIZE; lia).
    symmetry. apply load64_agree. intros a Ha. rewrite load8_memset by done. unfold PGSIZE in *.
    case_bool; try lia; try done. rewrite Hz by lia. done. }
  assert (Ht : forall p t, valid_path p -> tbl m root p = Some t -> p = [] /\ t = root).
  { intros [|i p] t [Hlen Hv] E; [by injection E as <-|]. apply Forall_cons in Hv as [Hi _].
    change (match entry_table (load64 m (root + 8 * i)) with Some t0 => tbl m t0 p | None => None end = Some t) in E.
    by rewrite Hl in E by done. }
  split_and!.
  - split_and!.
    + intros p t Hp E. by destruct (Ht p t Hp E) as [_ ->].
    + intros p q t Hp Hq E1 E2. destruct (Ht p t Hp E1) as [-> _]. by destruct (Ht q t Hq E2) as [-> _].
    + intros p t i Hp _ E Hi. destruct (Ht p t Hp E) as [_ ->]. rewrite Hl by done. done.
    + intros i Hi. destruct (tbl m root [i]) as [t|] eqn:E; [|done].
      destruct (Ht [i] t) as [? _]; [apply valid_single; lia|done|done].
  - intros q. split.
    + intros (p & Hp & E). by destruct (Ht p q Hp E).
    + intros ->. exists []. split; [apply valid_nil|done].
  - intros va. unfold ptmap. destruct (tbl m root (va_path va)) as [t|] eqn:E; [|done].
    by destruct (Ht _ _ (valid_va_path va) E).
Qed.

Lemma inrange_spec va a sz : reflect (a <= va < a + sz) (inrange va a sz).
Proof. unfold inrange. apply iff_reflect. rewrite andb_true_iff, Z.leb_le, Z.ltb_lt. done. Qed.

Definition kernel_regions : Z -> Z :=
  map_add (map_add (map_add (map_add (map_add (map_add (fun _ => 0)
    UART0 UART0 PGSIZE (Z.lor PTE_R PTE_W))
    VIRTIO0 VIRTIO0 PGSIZE (Z.lor PTE_R PTE_W))
    PLIC PLIC 67108864 (Z.lor PTE_R PTE_W))
    KERNBASE KERNBASE (etext - KERNBASE) (Z.lor PTE_R PTE_X))
    etext etext (PHYSTOP - etext) (Z.lor PTE_R PTE_W))
    TRAMPOLINE trampoline PGSIZE (Z.lor PTE_R PTE_X).

Lemma kernel_regions_map st va :
  length st = 64%nat -> 0 <= va < MAXVA -> stacks_map kernel_regions st va = kernel_map st va.
Proof.
  intros Hst Hva. unfold stacks_map, kernel_map, kernel_regions, map_add. rewrite Hst.
  change (KSTACK (Z.of_nat 64 - 1)) with 274877378560. change (KSTACK (NPROC - 1)) with 274877378560.
  unfold PLIC, UART0, VIRTIO0, PHYSTOP, KERNBASE, PGSIZE. rewrite TRAMPOLINE_val.
  change MAXVA with 274877906944 in Hva.
  pose proof etext_after. pose proof kend_after. pose proof kend_below. unfold PHYSTOP, KERNBASE in *.
  assert (Ht : 274877902848 <= va < 274877906944 -> vpage va = 274877902848)
    by (intros; unfold vpage; Z.div_mod_to_equations; lia).
  assert (Hid : forall x, x + (vpage va - x) = vpage va) by (intros; lia). rewrite !Hid.
  repeat match goal with
  | |- context [inrange ?v ?a ?n] => destruct (inrange_spec v a n); try (exfalso; lia)
  end; cbn [orb andb]; try done.
  rewrite Ht by lia. f_equal. lia.
Qed.

(** kvmmap as a step of a run: it panics or the run goes on with the region
    added. *)
Lemma kvmmap_step {A} (k : M pmem A) (Q : outcome (A * pmem) -> Prop) root s l f va pa sz perm :
  kspace s l root f -> 0 < sz -> sz mod 4096 = 0 -> 0 <= va -> va mod 4096 = 0 -> va + sz <= MAXVA ->
  0 <= pa -> pa mod 4096 = 0 -> pa + sz <= 2 ^ 56 -> 0 <= perm < 1024 ->
  (forall v, va <= v < va + sz -> f v = 0) ->
  (forall msg, Q (Panic msg)) ->
  (forall s' l', kspace s' l' root (map_add f va pa sz perm) -> Q (k s')) ->
  Q ((kvmmap root va pa sz perm;; k) s).
Proof.
  intros Hs Hsz Hsz4 Hva Hva4 Hmax Hpa Hpa4 Hpm Hperm Hf Hp Hk.
  assert (Hn : sz = sz / 4096 * 4096) by (Z.div_mod_to_equations; lia).
  destruct (kvmmap_spec root s l f va pa (sz / 4096) perm) as [E|(s' & l' & E & Hs' & _)];
    rewrite <- ?Hn; auto; try (Z.div_mod_to_equations; lia).
  - intros v Hv. by rewrite Hf by lia.
  - rewrite <- Hn in E. rewrite bind_run, E. apply Hp.
  - rewrite <- Hn in E, Hs'. rewrite (bind_Ok _ _ _ _ _ E). by eapply Hk.
Qed.

Ltac region_free :=
  intros; unfold map_add;
  repeat match goal with
  | |- context [inrange ?v ?a ?n] => destruct (inrange_spec v a n); try (exfalso; lia)
  end; reflexivity.

(** kvmmake panics for lack of memory or builds [kernel_map]. *)
Lemma kvmmake_spec s root l :
  kinv s (root :: l) ->
  (exists msg, kvmmake s = Panic msg) \/
  exists s' l' st, kvmmake s = Ok (root, s') /\ kspace s' l' root (kernel_map st) /\
    stacks_ok s' l' root st /\ length st = 64%nat.
Proof.
  intros Hk. destruct (kalloc_fresh s root l Hk) as (s1 & E1 & Hk1 & Hok & Hn & Hnz & Hs1).
  pose proof etext_after. pose proof kend_after. pose proof kend_below. pose proof trampoline_text.
  pose proof etext_aligned. pose proof trampoline_aligned. pose proof (proj2 Hok) as Hroot.
  unfold PHYSTOP, KERNBASE, PGSIZE in *. unfold kvmmake. rewrite (bind_Ok _ _ _ _ _ E1), bind_run, modify_run.
  set (s2 := upd_mem _ s1).
  assert (Hs2 : kspace s2 l root (fun _ => 0)).
  { destruct (pt_empty (pm_mem s2) root l) as (Hw & _ & Hm); auto.
    { intros a Ha. unfold s2. simpl. rewrite load8_memset by done. case_bool; try lia; done. }
    split; [|done]. unfold s2, upd_mem. apply (kinv_same_outside s1 l root); auto; [apply Hok|].
    apply same_outside_memset. }
  set (Q := fun r : outcome (Z * pmem) => (exists msg, r = Panic msg) \/
    exists s' l' st, r = Ok (root, s') /\ kspace s' l' root (kernel_map st) /\
      stacks_ok s' l' root st /\ length st = 64%nat).
  change (Q ((kvmmap root UART0 UART0 4096 (Z.lor PTE_R PTE_W);;
    kvmmap root VIRTIO0 VIRTIO0 4096 (Z.lor PTE_R PTE_W);;
    kvmmap root PLIC PLIC 67108864 (Z.lor PTE_R PTE_W);;
    kvmmap root 2147483648 2147483648 (etext - 2147483648) (Z.lor PTE_R PTE_X);;
    kvmmap root etext etext (2147483648 + 128 * 1024 * 1024 - etext) (Z.lor PTE_R PTE_W);;
    kvmmap root TRAMPOLINE trampoline 4096 (Z.lor PTE_R PTE_X);;
    proc_mapstacks root;; mret root) s2)).
  assert (HQ : forall msg, Q (Panic msg)) by (intros msg; left; by exists msg).
  rewrite TRAMPOLINE_val. unfold UART0, VIRTIO0, PLIC.
  eapply kvmmap_step; [exact Hs2|lia|done|lia|done|done|lia|done|lia|done|region_free|exact HQ|]. intros s3 l3 Hs3.
  eapply kvmmap_step; [exact Hs3|lia|done|lia|done|done|lia|done|lia|done|region_free|exact HQ|]. intros s4 l4 Hs4.
  eapply kvmmap_step; [exact Hs4|lia|done|lia|done|done|lia|done|lia|done|region_free|exact HQ|]. intros s5 l5 Hs5.
  eapply kvmmap_step; [exact Hs5|lia|Z.div_mod_to_equations; lia|lia|done|change MAXVA with 274877906944; lia
    |lia|done|lia|done|region_free|exact HQ|]. intros s6 l6 Hs6.
  eapply kvmmap_step; [exact Hs6|lia|Z.div_mod_to_equations; lia|lia|done|change MAXVA with 274877906944; lia
    |lia|done|lia|done|region_free|exact HQ|]. intros s7 l7 Hs7.
  eapply kvmmap_step; [exact Hs7|lia|done|lia|done|done|lia|done|lia|done|region_free|exact HQ|]. intros s8 l8 Hs8.
  change (kspace s8 l8 root kernel_regions) in Hs8. unfold proc_mapstacks.
  destruct (proc_mapstacks_spec root kernel_regions 64 s8 l8 []) as [[msg E]|(s9 & l9 & st & E & Hs9 & Hst & Hlen)]; auto.
  - eapply kspace_ext; [|exact Hs8]. intros va Hva. unfold stacks_map.
    change (KSTACK (Z.of_nat (length []) - 1)) with TRAMPOLINE. rewrite Z.sub_diag.
    destruct (inrange_spec va TRAMPOLINE 0); [lia|done].
  - split; constructor.
  - intros v Hv. change (KSTACK 63) with 274877378560 in Hv. rewrite TRAMPOLINE_val in Hv.
    unfold kernel_regions, UART0, VIRTIO0, PLIC, PHYSTOP, KERNBASE, PGSIZE. rewrite TRAMPOLINE_val. region_free.
  - change (Z.of_nat (length [])) with 0 in E. rewrite bind_run. change (Z.to_nat NPROC) with 64%nat.
    rewrite E. apply HQ.
  - change (Z.of_nat (length [])) with 0 in E. change (Z.to_nat NPROC) with 64%nat. right. exists s9, l9, st.
    split; [by rewrite (bind_Ok _ _ _ _ _ E)|]. split_and!; auto.
    eapply kspace_ext; [|exact Hs9]. intros. by apply kernel_regions_map.
Qed.

End kvm_proofs.
