(* ===== verification/VmProps.v ===== *)
(** Properties of the page allocator and of the address spaces
    (kernel/kalloc.c, kernel/vm.c), stated on whole calls. *)

From S2P Require Import Prelude Memory Riscv Kalloc Vm VmTable VmSpace VmUser VmCopy Kvm.

(** ** Clients of the page allocator *)

(** A client asks for pages and gives back pages it was given. *)
Inductive kop := KAlloc | KFree (p : Z).

Section client.
Context `{KernelImage}.

(** The pages in the client's hands are the second component. *)
Definition kstep (o : kop) : M (pmem * list Z) unit := fun '(s, held) =>
  match o with
  | KAlloc =>
      match kalloc s with
      | Ok (r, s') => Ok (tt, (s', if r =? 0 then held else r :: held))
      | Panic e => Panic e
      end
  | KFree p =>
      if decide (p ∈ held)
      then match kfree p s with
           | Ok (_, s') => Ok (tt, (s', filter (fun q => q <> p) held))
           | Panic e => Panic e
           end
      else Ok (tt, (s, held))
  end.

Fixpoint krun (ops : list kop) : M (pmem * list Z) unit :=
  match ops with
  | [] => mret tt
  | o :: ops => kstep o;; krun ops
  end.

(** All pages of RAM after the kernel. *)
Definition ram_pages : list Z :=
  rev (pages_from (PGROUNDUP kend) (Z.to_nat ((PHYSTOP - PGROUNDUP kend) / PGSIZE))).

End client.

Section props.
Context `{KernelImageOk}.

(** Every page is free or in the client's hands, and never both. *)
Definition kclient (all : list Z) (s : pmem) (held : list Z) : Prop :=
  exists l, kinv s l /\ held ++ l ≡ₚ all /\ NoDup all /\ Forall page_ok all.

Lemma filter_ne_perm (p : Z) l : NoDup l -> p ∈ l -> p :: filter (fun q => q <> p) l ≡ₚ l.
Proof.
  intros Hn Hp. apply NoDup_Permutation; [|done|].
  - constructor; [|by apply NoDup_filter]. rewrite list_elem_of_filter. naive_solver.
  - intros x. rewrite elem_of_cons, list_elem_of_filter. destruct (decide (x = p)); naive_solver.
Qed.

Lemma kstep_client all o s held :
  kclient all s held -> exists s' held', kstep o (s, held) = Ok (tt, (s', held')) /\ kclient all s' held'.
Proof.
  intros (l & Hi & Hp & Hn & Ho). assert (Hnd : NoDup (held ++ l)) by (by rewrite Hp).
  apply NoDup_app in Hnd as (Hh & Hd & Hl). destruct o as [|p]; cbn [kstep].
  - pose proof (kalloc_spec s l Hi) as Hk. destruct l as [|p l].
    + rewrite Hk. exists s, held. split; [done|]. exists []. auto.
    + destruct Hk as (s' & -> & Hi' & Hpl & Hpo & _).
      destruct (Z.eqb_spec p 0) as [->|]; [pose proof (page_ok_range _ Hpo); unfold KERNBASE in *; lia|].
      exists s', (p :: held). split; [done|]. exists l. split_and!; auto.
      rewrite <- Hp. simpl. by rewrite Permutation_middle.
  - destruct (decide (p ∈ held)) as [Hin|]; [|exists s, held; split; [done|by exists l]].
    assert (Hpo : page_ok p).
    { apply (proj1 (Forall_forall _ _) Ho). rewrite <- Hp. apply elem_of_app. by left. }
    destruct (kfree_spec s l p Hi Hpo (Hd p Hin)) as (s' & -> & Hi' & _).
    exists s', (filter (fun q => q <> p) held). split; [done|]. exists (p :: l). split_and!; auto.
    rewrite <- Hp, <- Permutation_middle, app_comm_cons. by rewrite filter_ne_perm.
Qed.

Lemma krun_client all ops : forall s held,
  kclient all s held -> exists s' held', krun ops (s, held) = Ok (tt, (s', held')) /\ kclient all s' held'.
Proof.
  induction ops as [|o ops IH]; intros s held Hc; [eauto|].
  destruct (kstep_client all o s held Hc) as (s1 & h1 & E1 & Hc1).
  destruct (IH s1 h1 Hc1) as (s2 & h2 & E2 & Hc2). exists s2, h2. split; [|done].
  cbn [krun]. by rewrite (bind_Ok _ _ _ _ _ E1).
Qed.

(** (C22) From boot on, for every sequence of requests: no call panics, and
    the pages in the clients' hands together with the free list are exactly
    the pages of RAM after the kernel, each once.  So kalloc never hands out
    a page that is in use and no page is lost. *)
Theorem kalloc_exclusive (m : mem) (ops : list kop) :
  exists s0 s held l,
    kinit (mk_pmem m 0) = Ok (tt, s0) /\ krun ops (s0, []) = Ok (tt, (s, held)) /\
    kinv s l /\ held ++ l ≡ₚ ram_pages /\ NoDup (held ++ l).
Proof.
  destruct (kinit_spec m) as (s0 & E0 & Hi0). fold ram_pages in Hi0.
  assert (Hc : kclient ram_pages s0 []).
  { exists ram_pages. split_and!; auto; [by destruct Hi0|]. destruct Hi0 as [Hi0 _]. by eapply free_chain_page_ok. }
  destruct (krun_client _ ops _ _ Hc) as (s & held & E & l & Hi & Hp & Hn & _).
  exists s0, s, held, l. split_and!; auto. by rewrite Hp.
Qed.

(** ** Address spaces *)

(** uvmcreate makes an empty address space. *)
Lemma uvmcreate_run s pg l :
  kinv s (pg :: l) ->
  exists s', uvmcreate s = Ok (pg, s') /\ kinv s' l /\ uvm_wf (pm_mem s') pg l 0 /\
    (forall va, ptmap (pm_mem s') pg va = 0) /\ (forall q, held (pm_mem s') pg 0 q <-> q = pg) /\
    same_outside pg (pm_mem s) (pm_mem s').
Proof.
  intros Hi. destruct (kalloc_fresh s pg l Hi) as (s1 & E1 & Hi1 & Hpo & Hnl & Hnz & Hs1).
  unfold uvmcreate. rewrite (bind_Ok _ _ _ _ _ E1), (proj2 (Z.eqb_neq pg 0)) by done.
  rewrite bind_run, modify_run, ret_run. set (m2 := memset (pm_mem s1) pg 0 PGSIZE).
  assert (Hs2 : same_outside pg (pm_mem s1) m2) by apply same_outside_memset.
  destruct (pt_empty m2 pg l Hpo Hnl) as (Hwf & Hown & Hmap).
  { intros a Ha. unfold m2. rewrite load8_memset by done. rewrite (proj2 (Z.leb_le pg a)), (proj2 (Z.ltb_lt a _)) by lia. reflexivity. }
  eexists. split; [reflexivity|]. cbn [upd_mem set_mem pm_mem]. fold m2. split_and!; auto.
  - apply (kinv_same_outside s1 l pg m2); auto. by destruct Hpo.
  - split; auto; [rewrite TRAPFRAME_val; lia|intros; lia|intros; lia|]. intros va _. by rewrite Hmap.
  - intros q. unfold held. rewrite Hown. split; [intros [?|(i & ? & _)]; [done|lia]|auto].
  - by eapply same_outside_trans.
Qed.

(** uvmalloc grows an address space from [oldsz] to [newsz] bytes: on
    success every new page is mapped with the permissions asked for and reads
    as zero; when memory runs out the space is as before.  In both cases the
    bytes and mappings below [oldsz] keep their values, no page is leaked and
    no byte outside the space and the free pages changes. *)
Theorem uvmalloc_grows root s l oldsz newsz xperm :
  kinv s l -> uvm_wf (pm_mem s) root l (npages oldsz) ->
  0 <= oldsz <= newsz -> newsz <= TRAPFRAME -> 0 <= xperm < 1024 ->
  exists ret s' l', uvmalloc root oldsz newsz xperm s = Ok (ret, s') /\
    (ret = newsz /\ uvm_move root s l (npages oldsz) s' l' (npages newsz) /\
       (forall va, Z.of_nat (npages oldsz) * 4096 <= va < Z.of_nat (npages newsz) * 4096 ->
          (exists pg, ptmap (pm_mem s') root va = mkpte pg (Z.lor (Z.lor PTE_R PTE_U) xperm)) /\
          ubyte (pm_mem s') root va = 0) \/
     ret = 0 /\ uvm_move root s l (npages oldsz) s' l' (npages oldsz)).
Proof. intros. by apply uvmalloc_spec. Qed.

(** Shrinking after growing: uvmdealloc takes back exactly what uvmalloc
    gave.  The space has its old size, contents and mappings, and every page
    the growth took is free again or a page-table page of the space. *)
Theorem uvmdealloc_undoes_uvmalloc root s l oldsz newsz xperm s1 :
  kinv s l -> uvm_wf (pm_mem s) root l (npages oldsz) ->
  0 < oldsz <= newsz -> newsz <= TRAPFRAME -> 0 <= xperm < 1024 ->
  uvmalloc root oldsz newsz xperm s = Ok (newsz, s1) ->
  exists s2 l2, uvmdealloc root newsz oldsz s1 = Ok (oldsz, s2) /\
    uvm_move root s l (npages oldsz) s2 l2 (npages oldsz).
Proof.
  intros Hi Hw Ho Hn Hx E. destruct (uvmalloc_spec root s l oldsz newsz xperm) as (r & s' & l1 & E' & Hr); auto; [lia|].
  rewrite E in E'. injection E' as <- <-. destruct Hr as [(_ & Hm & _)|[? _]]; [|lia].
  destruct (uvmdealloc_move root s1 l1 newsz oldsz) as (s2 & l2 & E2 & Hm2); try apply Hm; [lia|done|].
  exists s2, l2. split; [done|]. eapply uvm_move_trans; [|exact Hm|exact Hm2].
  unfold npages. rewrite Nat.min_id. apply Z2Nat.inj_le; try (apply Z.div_pos; lia). apply Z.div_le_mono; lia.
Qed.

(** fork's copy of the address space. *)
Lemma uvmcopy_run old new s l sz :
  kinv s l -> uvm_wf (pm_mem s) old l (npages sz) -> uvm_wf (pm_mem s) new l 0 ->
  apart (pm_mem s) new 0%nat old (npages sz) -> 0 <= sz ->
  exists ret s' l', uvmcopy old new sz s = Ok (ret, s') /\
    (ret = 0 /\ uvm_move new s l 0 s' l' (npages sz) /\ copied (pm_mem s) old new (pm_mem s') 0 (npages sz) \/
     ret = -1 /\ uvm_move new s l 0 s' l' 0).
Proof.
  intros Hi Ho Hn Ha Hsz. pose proof (npages_bounds sz Hsz) as Hb.
  destruct (uvmcopy_loop_spec old new (npages sz) sz (npages sz) 0 (npages sz) s l) as (r & s' & l' & E & Hr);
    auto; [intros; lia|lia|].
  exists r, s', l'. split; [|exact Hr]. rewrite <- E. unfold uvmcopy, npages, PGSIZE.
  replace (sz + 4096 - 1) with (sz + 4095) by lia. reflexivity.
Qed.

(** (C21) uvmcopy gives the child the parent's memory: either every page of
    the parent is mapped in the child with the same permissions and the same
    bytes, or the child is empty again and -1 is returned.  The parent's
    mappings and bytes do not change, and parent and child share no page. *)
Theorem uvmcopy_copies old new s l sz :
  kinv s l -> uvm_wf (pm_mem s) old l (npages sz) -> uvm_wf (pm_mem s) new l 0 ->
  apart (pm_mem s) new 0%nat old (npages sz) -> 0 <= sz ->
  exists ret s' l' n, uvmcopy old new sz s = Ok (ret, s') /\
    (ret = 0 /\ n = npages sz /\ copied (pm_mem s) old new (pm_mem s') 0 n \/ ret = -1 /\ n = 0%nat) /\
    uvm_move new s l 0 s' l' n /\ apart (pm_mem s') new n old (npages sz) /\
    (forall va, ptmap (pm_mem s') old va = ptmap (pm_mem s) old va) /\
    (forall va, 0 <= va < Z.of_nat (npages sz) * 4096 -> ubyte (pm_mem s') old va = ubyte (pm_mem s) old va).
Proof.
  intros Hi Ho Hn Ha Hsz. destruct (uvmcopy_run old new s l sz) as (r & s' & l' & E & Hr); auto.
  destruct Hr as [(-> & Hm & Hc)|(-> & Hm)];
    destruct (uvm_move_other _ _ _ _ _ _ _ old (npages sz) Hm Ho Ha) as (Hw & Hp & Hu & Hh & Hd).
  - exists 0, s', l', (npages sz). split_and!; auto.
  - exists (-1), s', l', 0%nat. split_and!; auto.
Qed.

(** ** Copies between kernel and user memory *)

Lemma copyout_run root s l n dstva src :
  kinv s l -> uvm_wf (pm_mem s) root l n -> top_private (pm_mem s) root -> 0 <= dstva < 2 ^ 64 ->
  exists ret s' k, copyout root dstva src s = Ok (ret, s') /\ wrote root s l n dstva src k s' /\
    (ret = 0 /\ k = length src \/
     ret = -1 /\ (k < length src)%nat /\ uwritable (pm_mem s) root (dstva + Z.of_nat k) = false).
Proof. intros. unfold copyout. by apply copyout_loop_spec. Qed.

Lemma wrote_top_private root s l n dstva src k s' :
  wrote root s l n dstva src k s' -> top_private (pm_mem s) root -> top_private (pm_mem s') root.
Proof. intros Hw Ht va Hva. rewrite (wrote_map _ _ _ _ _ _ _ _ Hw). by apply Ht. Qed.

Lemma copyin_run root s l n srcva len :
  uvm_wf (pm_mem s) root l n -> top_private (pm_mem s) root -> 0 <= srcva < 2 ^ 64 -> 0 <= len ->
  exists ret bs, copyin root srcva len s = Ok ((ret, bs), s) /\ user_bytes (pm_mem s) root srcva bs /\
    (ret = 0 /\ Z.of_nat (length bs) = len \/
     ret = -1 /\ Z.of_nat (length bs) < len /\ ureadable (pm_mem s) root (srcva + Z.of_nat (length bs)) = false).
Proof.
  intros Hw Ht Hs Hl. unfold copyin.
  destruct (copyin_loop_spec root (Z.to_nat len) s l n srcva len) as (r & bs & E & Hb & Hr); auto; [lia|].
  exists r, bs. split_and!; auto. rewrite Z.max_r in Hr by lia. exact Hr.
Qed.

(** (C23) copyout writes user memory and nothing else: [k] bytes of the source
    land at [dstva], all of them exactly when it returns 0, and it stops
    before the first byte the user may not write.  No mapping changes and no
    byte outside the pages of the address space changes. *)
Theorem copyout_writes root s l n dstva src :
  kinv s l -> uvm_wf (pm_mem s) root l n -> top_private (pm_mem s) root -> 0 <= dstva < 2 ^ 64 ->
  exists ret s' k, copyout root dstva src s = Ok (ret, s') /\ wrote root s l n dstva src k s' /\
    (ret = 0 /\ k = length src \/
     ret = -1 /\ (k < length src)%nat /\ uwritable (pm_mem s) root (dstva + Z.of_nat k) = false).
Proof. apply copyout_run. Qed.

Lemma wrote_readable root s l n va src k s1 i :
  wrote root s l n va src k s1 -> (i < k)%nat -> ureadable (pm_mem s1) root (va + Z.of_nat i) = true.
Proof.
  intros Hw Hi. pose proof (wrote_ok _ _ _ _ _ _ _ _ Hw i Hi) as Ho. apply andb_true_iff in Ho as [Ho _].
  unfold ureadable in *. by rewrite !(wrote_map _ _ _ _ _ _ _ _ Hw).
Qed.

(** Round trip: when copyout of a buffer of bytes succeeds, copyin from
    the same user address succeeds and returns the buffer. *)
Theorem copyin_copyout root s l n va src s1 :
  kinv s l -> uvm_wf (pm_mem s) root l n -> top_private (pm_mem s) root -> 0 <= va < 2 ^ 64 ->
  Forall (fun b => 0 <= b < 256) src ->
  copyout root va src s = Ok (0, s1) -> copyin root va (Z.of_nat (length src)) s1 = Ok ((0, src), s1).
Proof.
  intros Hi Hw Ht Hva Hb E.
  destruct (copyout_run root s l n va src Hi Hw Ht Hva) as (r & s' & k & E' & Hwr & Hr).
  rewrite E in E'. injection E' as <- <-. destruct Hr as [[_ ->]|[? _]]; [|lia].
  pose proof (wrote_top_private _ _ _ _ _ _ _ _ Hwr Ht) as Ht1. pose proof (wrote_wf _ _ _ _ _ _ _ _ Hwr) as Hw1.
  destruct (copyin_run root s1 l n va (Z.of_nat (length src))) as (r1 & bs & E1 & Hbs & Hr1); auto; [lia|].
  destruct Hr1 as [[-> Hlen]|(_ & Hlt & Hno)].
  2: { rewrite (wrote_readable _ _ _ _ _ _ _ _ _ Hwr) in Hno by lia. done. }
  rewrite E1. do 3 f_equal. apply list_eq_same_length with (length src); [reflexivity|lia|].
  intros i x y Hil Hx Hy. destruct (Hbs i x Hx) as [Hrd ->].
  pose proof (ureadable_low _ _ _ _ (va + Z.of_nat i) Hw1 Ht1 ltac:(lia) Hrd) as Hlow.
  rewrite (wrote_bytes _ _ _ _ _ _ _ _ Hwr) by lia.
  rewrite (proj2 (Z.leb_le _ _)), (proj2 (Z.ltb_lt _ _)) by lia. cbn [andb].
  replace (Z.to_nat (va + Z.of_nat i - va)) with i by lia. rewrite (list_lookup_total_correct _ _ _ Hy).
  apply u8_small. exact (proj1 (Forall_lookup _ _) Hb i y Hy).
Qed.

(** fork separates: a write into the child's memory after uvmcopy leaves
    the parent's memory and page table as they were before the copy. *)
Theorem uvmcopy_separates old new s l sz s1 dstva src :
  kinv s l -> uvm_wf (pm_mem s) old l (npages sz) -> uvm_wf (pm_mem s) new l 0 ->
  top_private (pm_mem s) new -> apart (pm_mem s) new 0%nat old (npages sz) -> 0 <= sz -> 0 <= dstva < 2 ^ 64 ->
  uvmcopy old new sz s = Ok (0, s1) ->
  exists ret s2, copyout new dstva src s1 = Ok (ret, s2) /\
    (forall va, ptmap (pm_mem s2) old va = ptmap (pm_mem s) old va) /\
    (forall va, 0 <= va < Z.of_nat (npages sz) * 4096 -> ubyte (pm_mem s2) old va = ubyte (pm_mem s) old va).
Proof.
  intros Hi Ho Hn Ht Ha Hsz Hd E. destruct (uvmcopy_run old new s l sz) as (r & s' & l' & E' & Hr); auto.
  rewrite E in E'. injection E' as <- <-. destruct Hr as [(_ & Hm & _)|(? & _)]; [|lia].
  destruct (uvm_move_other _ _ _ _ _ _ _ old (npages sz) Hm Ho Ha) as (Hw1 & Hp1 & Hu1 & Hh1 & Hd1).
  assert (Ht1 : top_private (pm_mem s1) new) by (intros va Hva; rewrite (move_high _ _ _ _ _ _ _ Hm) by done; by apply Ht).
  destruct (copyout_run new s1 l' (npages sz) dstva src (move_kinv _ _ _ _ _ _ _ Hm) (move_wf _ _ _ _ _ _ _ Hm) Ht1 Hd)
    as (ret & s2 & k & E2 & Hwr & _).
  exists ret, s2. split; [done|]. 
  destruct (uvm_other new s1 l' (npages sz) s2 l' (npages sz) old (npages sz)) as (_ & Hp2 & Hu2 & _); auto.
  { intros q. by rewrite (wrote_held _ _ _ _ _ _ _ _ Hwr). }
  { intros q a Hq _ Hh Hr. by apply (wrote_same _ _ _ _ _ _ _ _ Hwr q). }
  split; [intros va; by rewrite Hp2, Hp1|intros va Hva; by rewrite Hu2, Hu1].
Qed.

End props.


(** copyinstr copies a NUL-terminated user string: on success the bytes
    it stored are the user's bytes up to and including the first NUL, at most
    [max] of them; it fails only when the first [max] bytes hold no NUL or an
    unreadable byte comes before the NUL. *)
Theorem copyinstr_string `{KernelImageOk} root s l n srcva max :
  uvm_wf (pm_mem s) root l n -> top_private (pm_mem s) root -> 0 <= srcva < 2 ^ 64 -> 0 <= max ->
  exists ret bs, copyinstr root srcva max s = Ok ((ret, bs), s) /\
    user_bytes (pm_mem s) root srcva bs /\ Z.of_nat (length bs) <= max /\
    (ret = 0 /\ (exists w, bs = w ++ [0] /\ 0 ∉ w) \/
     ret = -1 /\ 0 ∉ bs /\ (Z.of_nat (length bs) = max \/
       ureadable (pm_mem s) root (srcva + Z.of_nat (length bs)) = false)).
Proof.
  intros Hw Ht Hs Hm. unfold copyinstr.
  destruct (copyinstr_loop_spec root (Z.to_nat max) s l n srcva max) as (r & bs & E & Hb & Hl & Hr); auto; [lia|].
  rewrite Z.max_r in Hl, Hr by lia. exists r, bs. auto.
Qed.

(** ** A small machine *)

(** An image with 8 pages of text and the kernel ending at page 33, and 16
    free pages after it. *)
#[local] Instance demo_image : KernelImage := {|
  etext := KERNBASE + 8 * 4096; kend := KERNBASE + 33 * 4096; trampoline := KERNBASE + 7 * 4096;
  uservec := 0; userret := 156; kernelvec := KERNBASE + 20480; usertrap_addr := KERNBASE + 10240;
  forkret_addr := KERNBASE + 6644;
|}.

#[local] Instance demo_image_ok : KernelImageOk.
Proof. split; vm_compute; intuition congruence. Qed.

Definition after {A} (f : M pmem A) (s : pmem) : pmem := match f s with Ok (_, s') => s' | Panic _ => s end.

(** The free list of [k] pages, linked from the last to the first. *)
Fixpoint demo_links (k : nat) : mem :=
  match k with
  | O => ∅
  | S k => store64 (demo_links k) (kend + Z.of_nat k * 4096) (match k with O => 0 | S j => kend + Z.of_nat j * 4096 end)
  end.
Definition demo_free (k : nat) : list Z := rev (pages_from kend k).
Definition demo_ram : pmem := mk_pmem (demo_links 16) (kend + 15 * 4096).

Lemma demo_ram_kinv : kinv demo_ram (demo_free 16).
Proof.
  split; [|vm_compute; repeat constructor; set_solver].
  vm_compute. intuition congruence.
Qed.

(** An empty address space, one of one page, and an empty one beside it. *)
Definition demo_root : Z := kend + 15 * 4096.
Definition demo_empty : pmem := after uvmcreate demo_ram.
Definition demo_user : pmem := after (uvmalloc demo_root 0 4096 PTE_W) demo_empty.
Definition demo_child : Z := kend + 11 * 4096.
Definition demo_fork : pmem := after uvmcreate demo_user.

Lemma demo_empty_ok :
  kinv demo_empty (demo_free 15) /\ uvm_wf (pm_mem demo_empty) demo_root (demo_free 15) 0 /\
  (forall va, ptmap (pm_mem demo_empty) demo_root va = 0).
Proof.
  pose proof demo_ram_kinv as Hk. change (demo_free 16) with (demo_root :: demo_free 15) in Hk.
  destruct (uvmcreate_run _ _ _ Hk) as (s & E & Hi & Hw & Hm & _).
  unfold demo_empty, after. rewrite E. auto.
Qed.

(** The result of a call, for evaluation. *)
Definition answer {A} (d : A) (o : outcome (A * pmem)) : A := match o with Ok (a, _) => a | Panic _ => d end.

Lemma answer_after {A} (d a : A) (f : M pmem A) s : answer d (f s) = a -> a <> d -> f s = Ok (a, after f s).
Proof. unfold answer, after. destruct (f s) as [[x s']|]; congruence. Qed.

Lemma Ok_inj {A} (a a' : A) (s s' : pmem) : Ok (a, s) = Ok (a', s') -> a = a' /\ s = s'.
Proof. intros E. by injection E. Qed.

Lemma demo_user_run : uvmalloc demo_root 0 4096 PTE_W demo_empty = Ok (4096, demo_user).
Proof. apply (answer_after (-1)); [vm_compute; reflexivity|done]. Qed.

#[local] Opaque demo_ram demo_empty demo_user.

Lemma demo_user_ok : exists l,
  kinv demo_user l /\ uvm_wf (pm_mem demo_user) demo_root l (npages 4096) /\ top_private (pm_mem demo_user) demo_root.
Proof.
  destruct demo_empty_ok as (Hi & Hw & Hm).
  destruct (uvmalloc_spec demo_root demo_empty (demo_free 15) 0 4096 PTE_W) as (r & s & l & E & Hr); auto.
  1, 2, 3: vm_compute; intuition congruence.
  rewrite demo_user_run in E. apply Ok_inj in E as [<- <-].
  destruct Hr as [(_ & Hmv & _)|[? _]]; [|done].
  exists l. split_and!; [apply Hmv|apply Hmv|]. intros va Hva.
  rewrite (move_high _ _ _ _ _ _ _ Hmv va Hva), Hm. reflexivity.
Qed.

Lemma demo_user_head l : kinv demo_user l -> exists l', l = demo_child :: l'.
Proof.
  intros [Hc _]. assert (E : pm_freelist demo_user = demo_child) by (vm_compute; reflexivity).
  rewrite E in Hc. destruct l as [|p l]; [discriminate Hc|]. destruct Hc as (-> & _). eauto.
Qed.

Lemma demo_fork_ok : exists l,
  kinv demo_fork l /\ uvm_wf (pm_mem demo_fork) demo_root l (npages 4096) /\
  uvm_wf (pm_mem demo_fork) demo_child l 0 /\ top_private (pm_mem demo_fork) demo_child /\
  apart (pm_mem demo_fork) demo_child 0%nat demo_root (npages 4096).
Proof.
  destruct demo_user_ok as (l0 & Hi & Hw & _). destruct (demo_user_head _ Hi) as [l ->].
  destruct (uvmcreate_run _ _ _ Hi) as (s & E & Hi' & Hw' & Hm & Hh & Hs).
  assert (Ef : demo_fork = s) by (unfold demo_fork, after; by rewrite E). rewrite Ef. clear Ef E.
  assert (Hp : page_ok demo_child) by (vm_compute; intuition congruence).
  assert (Hn : demo_child ∉ l) by (destruct Hi as [_ Hnd]; by apply NoDup_cons in Hnd as [? _]).
  destruct (uvm_fresh demo_root demo_user demo_child l (npages 4096) s (pm_mem s)) as (_ & Hw2 & _ & Ho & Hpm); auto.
  exists l. split_and!; auto.
  - intros va Hva. by rewrite Hm.
  - intros q Hq Hc. apply Hh in Hc as ->.
    assert (Hq' : held (pm_mem demo_user) demo_root (npages 4096) demo_child).
    { destruct Hq as [Hq|(i & Hlt & Eq)]; [left; exact (proj1 (Ho demo_child) Hq)|right; exists i; rewrite Hpm in Eq; split; [exact Hlt|exact Eq]]. }
    apply (held_not_free _ _ _ _ _ Hw Hq'). apply elem_of_cons. left. reflexivity.
Qed.

Lemma kalloc_exclusive_witness :
  exists s0 s held l,
    kinit (mk_pmem ∅ 0) = Ok (tt, s0) /\ krun [KAlloc; KAlloc; KFree demo_root; KAlloc] (s0, []) = Ok (tt, (s, held)) /\
    kinv s l /\ held ++ l ≡ₚ ram_pages /\ NoDup (held ++ l).
Proof. exact (kalloc_exclusive ∅ _). Defined.

Lemma uvmalloc_grows_witness :
  exists ret s' l' l, uvmalloc demo_root 4096 12000 PTE_W demo_user = Ok (ret, s') /\
    (ret = 12000 /\ uvm_move demo_root demo_user l (npages 4096) s' l' (npages 12000) \/
     ret = 0 /\ uvm_move demo_root demo_user l (npages 4096) s' l' (npages 4096)).
Proof.
  destruct demo_user_ok as (l & Hi & Hw & _).
  destruct (uvmalloc_grows demo_root demo_user l 4096 12000 PTE_W Hi Hw) as (r & s' & l' & E & Hr);
    [vm_compute; intuition congruence..|].
  exists r, s', l', l. split; [exact E|]. destruct Hr as [(? & ? & _)|?]; auto.
Defined.

Lemma uvmdealloc_undoes_uvmalloc_witness :
  exists s2 l l2, uvmdealloc demo_root 12000 4096 (after (uvmalloc demo_root 4096 12000 PTE_W) demo_user) = Ok (4096, s2) /\
    uvm_move demo_root demo_user l (npages 4096) s2 l2 (npages 4096).
Proof.
  destruct demo_user_ok as (l & Hi & Hw & _).
  destruct (uvmdealloc_undoes_uvmalloc demo_root demo_user l 4096 12000 PTE_W
              (after (uvmalloc demo_root 4096 12000 PTE_W) demo_user) Hi Hw) as (s2 & l2 & E & Hm).
  1, 2, 3: vm_compute; intuition congruence.
  1: apply (answer_after (-1)); [vm_compute; reflexivity|done].
  exists s2, l, l2. auto.
Defined.

Lemma uvmcopy_copies_witness :
  exists ret s', uvmcopy demo_root demo_child 4096 demo_fork = Ok (ret, s') /\
    forall va, ptmap (pm_mem s') demo_root va = ptmap (pm_mem demo_fork) demo_root va.
Proof.
  destruct demo_fork_ok as (l & Hi & Hw & Hc & _ & Ha).
  destruct (uvmcopy_copies demo_root demo_child demo_fork l 4096 Hi Hw Hc Ha) as (r & s' & l' & n & E & _ & _ & _ & Hp & _).
  - vm_compute. intuition congruence.
  - exists r, s'. auto.
Defined.

Lemma uvmcopy_separates_witness :
  exists ret s2, copyout demo_child 8 [1; 2; 3] (after (uvmcopy demo_root demo_child 4096) demo_fork) = Ok (ret, s2) /\
    forall va, ptmap (pm_mem s2) demo_root va = ptmap (pm_mem demo_fork) demo_root va.
Proof.
  destruct demo_fork_ok as (l & Hi & Hw & Hc & Ht & Ha).
  destruct (uvmcopy_separates demo_root demo_child demo_fork l 4096 (after (uvmcopy demo_root demo_child 4096) demo_fork)
              8 [1; 2; 3] Hi Hw Hc Ht Ha) as (r & s2 & E & Hp & _).
  1, 2: vm_compute; intuition congruence.
  1: apply (answer_after (-1)); [vm_compute; reflexivity|done].
  exists r, s2. auto.
Defined.

Lemma copyout_writes_witness :
  exists ret s' k l, copyout demo_root 4090 [1; 2; 3; 4; 5; 6; 7; 8] demo_user = Ok (ret, s') /\
    wrote demo_root demo_user l (npages 4096) 4090 [1; 2; 3; 4; 5; 6; 7; 8] k s'.
Proof.
  destruct demo_user_ok as (l & Hi & Hw & Ht).
  destruct (copyout_writes demo_root demo_user l (npages 4096) 4090 [1; 2; 3; 4; 5; 6; 7; 8] Hi Hw Ht)
    as (r & s' & k & E & Hwr & _); [vm_compute; intuition congruence|].
  exists r, s', k, l. auto.
Defined.

Lemma copyin_copyout_witness :
  copyin demo_root 100 3 (after (copyout demo_root 100 [7; 8; 9]) demo_user) =
  Ok ((0, [7; 8; 9]), after (copyout demo_root 100 [7; 8; 9]) demo_user).
Proof.
  destruct demo_user_ok as (l & Hi & Hw & Ht).
  apply (copyin_copyout demo_root demo_user l (npages 4096) 100 [7; 8; 9] _ Hi Hw Ht).
  - vm_compute. intuition congruence.
  - repeat constructor; vm_compute; congruence.
  - apply (answer_after (-1)); [vm_compute; reflexivity|done].
Defined.

Lemma copyinstr_string_witness :
  exists ret bs, copyinstr demo_root 0 128 demo_user = Ok ((ret, bs), demo_user) /\
    user_bytes (pm_mem demo_user) demo_root 0 bs.
Proof.
  destruct demo_user_ok as (l & Hi & Hw & Ht).
  destruct (copyinstr_string demo_root demo_user l (npages 4096) 0 128 Hw Ht) as (r & bs & E & Hb & _);
    [vm_compute; intuition congruence..|].
  exists r, bs. auto.
Defined.
