(* ===== verification/UserMem.v ===== *)
(** User memory as the kernel reaches it: copyout and copyin of the running
    process.

    [UserMem] is the interface the file system, pipes, the console and the
    system calls use; [UserMemOk] is what they may rely on.  An address space
    of kernel/vm.c implements it. *)

From S2P Require Import Prelude Memory Riscv Kalloc Vm VmTable VmSpace VmUser VmCopy VmProps.

Class UserMem (U : Type) := {
  um_copyout : Z -> list Z -> M U Z;
  um_copyin : Z -> Z -> M U (Z * list Z);
}.

Definition is_byte (b : Z) : Prop := 0 <= b < 256.

(** User memory is a partial map of readable bytes, some of them writable. *)
Class UserMemOk (U : Type) `{UserMem U} := {
  um_inv : U -> Prop;
  um_byte : U -> Z -> option Z;
  um_writable : U -> Z -> bool;
  um_copyin_ok : forall u a n, um_inv u -> 0 <= a < 2 ^ 64 -> 0 <= n ->
    exists r bs, um_copyin a n u = Ok ((r, bs), u) /\
      (forall i b, bs !! i = Some b -> um_byte u (a + Z.of_nat i) = Some b) /\
      (r = 0 /\ Z.of_nat (length bs) = n \/
       r = -1 /\ Z.of_nat (length bs) < n /\ um_byte u (a + Z.of_nat (length bs)) = None);
  um_copyout_ok : forall u a src, um_inv u -> 0 <= a < 2 ^ 64 -> Forall is_byte src ->
    exists r u' k, um_copyout a src u = Ok (r, u') /\ um_inv u' /\
      (forall x, um_writable u' x = um_writable u x) /\
      (forall i, (i < k)%nat -> um_writable u (a + Z.of_nat i) = true) /\
      (forall x, um_byte u' x =
         if (a <=? x) && (x <? a + Z.of_nat k) then src !! Z.to_nat (x - a) else um_byte u x) /\
      (r = 0 /\ k = length src \/
       r = -1 /\ (k < length src)%nat /\ um_writable u (a + Z.of_nat k) = false);
}.

(** ** Address spaces implement user memory *)

(** Physical memory and the page table of the running process. *)
Record uspace := mk_uspace { us_mem : pmem; us_root : Z }.

Section uspace.
Context `{KernelImageOk}.

#[global] Instance uspace_UserMem : UserMem uspace := {|
  um_copyout a src := fun u =>
    match copyout (us_root u) a src (us_mem u) with
    | Ok (r, s) => Ok (r, mk_uspace s (us_root u))
    | Panic e => Panic e
    end;
  um_copyin a n := fun u =>
    match copyin (us_root u) a n (us_mem u) with
    | Ok (r, s) => Ok (r, mk_uspace s (us_root u))
    | Panic e => Panic e
    end;
|}.

Definition us_inv (u : uspace) : Prop := exists l n,
  kinv (us_mem u) l /\ uvm_wf (pm_mem (us_mem u)) (us_root u) l n /\ top_private (pm_mem (us_mem u)) (us_root u).

Definition us_byte (u : uspace) (va : Z) : option Z :=
  if (0 <=? va) && ureadable (pm_mem (us_mem u)) (us_root u) va
  then Some (ubyte (pm_mem (us_mem u)) (us_root u) va) else None.

Lemma us_byte_Some u va b :
  0 <= va -> ureadable (pm_mem (us_mem u)) (us_root u) va = true ->
  b = ubyte (pm_mem (us_mem u)) (us_root u) va -> us_byte u va = Some b.
Proof. intros H1 H2 ->. unfold us_byte. by rewrite (proj2 (Z.leb_le 0 va)), H2. Qed.

Lemma wrote_us_byte u l n a src k s' x :
  uvm_wf (pm_mem (us_mem u)) (us_root u) l n -> top_private (pm_mem (us_mem u)) (us_root u) ->
  0 <= a -> Forall is_byte src -> (k <= length src)%nat -> wrote (us_root u) (us_mem u) l n a src k s' ->
  us_byte (mk_uspace s' (us_root u)) x =
  if (a <=? x) && (x <? a + Z.of_nat k) then src !! Z.to_nat (x - a) else us_byte u x.
Proof.
  intros Hw Ht Ha Hb Hk Hwr. unfold us_byte. cbn [us_mem us_root].
  assert (Hr : ureadable (pm_mem s') (us_root u) x = ureadable (pm_mem (us_mem u)) (us_root u) x)
    by (unfold ureadable; by rewrite (wrote_map _ _ _ _ _ _ _ _ Hwr)).
  rewrite Hr. destruct (Z.leb_spec 0 x) as [Hx|Hx]; cbn [andb].
  2: { rewrite (proj2 (Z.leb_gt a x)) by lia. done. }
  destruct (ureadable (pm_mem (us_mem u)) (us_root u) x) eqn:Er.
  - pose proof (ureadable_low _ _ _ _ x Hw Ht Hx Er) as Hlow.
    rewrite (wrote_bytes _ _ _ _ _ _ _ _ Hwr) by lia.
    destruct (Z.leb_spec a x), (Z.ltb_spec x (a + Z.of_nat k)); cbn [andb]; try done.
    destruct (lookup_lt_is_Some_2 src (Z.to_nat (x - a))) as [b Eb]; [lia|]. rewrite Eb.
    rewrite (list_lookup_total_correct _ _ _ Eb). f_equal. apply u8_small. exact (proj1 (Forall_lookup _ _) Hb _ _ Eb).
  - destruct (Z.leb_spec a x), (Z.ltb_spec x (a + Z.of_nat k)); cbn [andb]; try done.
    pose proof (wrote_readable _ _ _ _ _ _ _ _ (Z.to_nat (x - a)) Hwr ltac:(lia)) as Hrd.
    replace (a + Z.of_nat (Z.to_nat (x - a))) with x in Hrd by lia. congruence.
Qed.

#[global] Instance uspace_UserMemOk : UserMemOk uspace.
Proof.
  refine {| um_inv := us_inv; um_byte := us_byte;
            um_writable := fun u => uwritable (pm_mem (us_mem u)) (us_root u) |}.
  - intros u a n (l & np & Hk & Hw & Ht) Ha Hn.
    destruct (copyin_run (us_root u) (us_mem u) l np a n Hw Ht Ha Hn) as (r & bs & E & Hb & Hr).
    exists r, bs. split; [simpl; rewrite E; by destruct u|]. split.
    + intros i b Hi. destruct (Hb i b Hi) as [Hrd Hub]. apply us_byte_Some; [lia|done|done].
    + destruct Hr as [Hr|(-> & Hl & Hrd)]; [by left|right]. split_and!; auto. unfold us_byte.
      rewrite Hrd. by rewrite andb_false_r.
  - intros u a src (l & np & Hk & Hw & Ht) Ha Hb.
    destruct (copyout_run (us_root u) (us_mem u) l np a src Hk Hw Ht Ha) as (r & s' & k & E & Hwr & Hr).
    exists r, (mk_uspace s' (us_root u)), k. split; [simpl; by rewrite E|]. split_and!.
    + exists l, np. split_and!; [apply Hwr|apply Hwr|]. by eapply wrote_top_private.
    + intros x. simpl. unfold uwritable, ureadable. by rewrite (wrote_map _ _ _ _ _ _ _ _ Hwr).
    + intros i Hi. by apply (wrote_ok _ _ _ _ _ _ _ _ Hwr).
    + intros x. eapply wrote_us_byte; [exact Hw|exact Ht|lia|exact Hb| |exact Hwr]. destruct Hr as [[_ ->]|(_ & ? & _)]; lia.
    + exact Hr.
Defined.

End uspace.

(** ** A flat user memory: all mapped bytes are readable and writable *)

Record flat := mk_flat { fl_mem : gmap Z Z }.

Fixpoint flat_in (k : nat) (a : Z) (m : gmap Z Z) : Z * list Z :=
  match k with
  | O => (0, [])
  | S k =>
      match m !! a with
      | None => (-1, [])
      | Some b => let '(r, bs) := flat_in k (a + 1) m in (r, b :: bs)
      end
  end.

Fixpoint flat_out (a : Z) (src : list Z) (m : gmap Z Z) : Z * gmap Z Z :=
  match src with
  | [] => (0, m)
  | b :: src =>
      match m !! a with
      | None => (-1, m)
      | Some _ => flat_out (a + 1) src (<[a := b]> m)
      end
  end.

#[global] Instance flat_UserMem : UserMem flat := {|
  um_copyout a src := fun u => let '(r, m) := flat_out a src (fl_mem u) in Ok (r, mk_flat m);
  um_copyin a n := fun u => Ok (flat_in (Z.to_nat n) a (fl_mem u), u);
|}.

Lemma flat_in_spec k : forall a m,
  let '(r, bs) := flat_in k a m in
  (forall i b, bs !! i = Some b -> m !! (a + Z.of_nat i) = Some b) /\
  (r = 0 /\ length bs = k \/ r = -1 /\ (length bs < k)%nat /\ m !! (a + Z.of_nat (length bs)) = None).
Proof.
  induction k as [|k IH]; intros a m; cbn [flat_in].
  - split; [|by left]. intros i b Hi. by rewrite lookup_nil in Hi.
  - destruct (m !! a) as [b|] eqn:E.
    + specialize (IH (a + 1) m). destruct (flat_in k (a + 1) m) as [r bs]. destruct IH as [H1 H2]. split.
      * intros [|i] x Hx; simpl in Hx; [injection Hx as <-; by rewrite Z.add_0_r|].
        replace (a + Z.of_nat (S i)) with (a + 1 + Z.of_nat i) by lia. auto.
      * destruct H2 as [[-> <-]|(-> & Hl & Hn)]; [by left|right]. simpl. split_and!; auto; [lia|].
        by replace (a + Z.of_nat (S (length bs))) with (a + 1 + Z.of_nat (length bs)) by lia.
    + split; [intros i b Hi; by rewrite lookup_nil in Hi|]. right. simpl. rewrite Z.add_0_r. split_and!; auto. lia.
Qed.

Lemma flat_out_spec src : forall a m,
  let '(r, m') := flat_out a src m in
  exists k, (forall i, (i < k)%nat -> is_Some (m !! (a + Z.of_nat i))) /\ dom m' = dom m /\
    (forall x, m' !! x = if (a <=? x) && (x <? a + Z.of_nat k) then src !! Z.to_nat (x - a) else m !! x) /\
    (r = 0 /\ k = length src \/ r = -1 /\ (k < length src)%nat /\ m !! (a + Z.of_nat k) = None).
Proof.
  induction src as [|b src IH]; intros a m; cbn [flat_out].
  - exists 0%nat. split_and!; [lia|done| |by left]. intros x. by case_bool; try lia.
  - destruct (m !! a) as [b0|] eqn:E.
    + specialize (IH (a + 1) (<[a := b]> m)). destruct (flat_out (a + 1) src (<[a := b]> m)) as [r m'].
      destruct IH as (k & H1 & H2 & H3 & H4). exists (S k). split_and!.
      * intros [|i] Hi; [rewrite Z.add_0_r; eauto|]. specialize (H1 i ltac:(lia)).
        rewrite lookup_insert_ne in H1 by lia. by replace (a + Z.of_nat (S i)) with (a + 1 + Z.of_nat i) by lia.
      * rewrite H2, dom_insert_L. apply elem_of_dom_2 in E. set_solver.
      * intros x. rewrite H3. destruct (decide (x = a)) as [->|Hne].
        -- rewrite lookup_insert_eq, Z.sub_diag. by case_bool; try lia.
        -- rewrite lookup_insert_ne by done. case_bool; try lia; try done.
           replace (Z.to_nat (x - a)) with (S (Z.to_nat (x - (a + 1)))) by lia. done.
      * destruct H4 as [[-> ->]|(-> & Hk & Hn)]; [by left|right]. simpl. rewrite lookup_insert_ne in Hn by lia.
        split_and!; auto; [lia|]. by replace (a + Z.of_nat (S k)) with (a + 1 + Z.of_nat k) by lia.
    + exists 0%nat. split_and!; [lia|done| |right; rewrite Z.add_0_r; simpl; split_and!; auto; lia].
      intros x. by case_bool; try lia.
Qed.

#[global] Instance flat_UserMemOk : UserMemOk flat.
Proof.
  refine {| um_inv := fun _ => True; um_byte := fun u x => fl_mem u !! x;
            um_writable := fun u x => bool_decide (is_Some (fl_mem u !! x)) |}.
  - intros u a n _ Ha Hn. pose proof (flat_in_spec (Z.to_nat n) a (fl_mem u)) as Hs.
    simpl. destruct (flat_in (Z.to_nat n) a (fl_mem u)) as [r bs]. destruct Hs as [H1 H2]. exists r, bs.
    split_and!; auto. destruct H2 as [[-> Hl]|(-> & Hl & Hnone)]; [left|right]; split_and!; auto; lia.
  - intros u a src _ Ha Hb. pose proof (flat_out_spec src a (fl_mem u)) as Hs. simpl.
    destruct (flat_out a src (fl_mem u)) as [r m']. destruct Hs as (k & H1 & H2 & H3 & H4).
    exists r, (mk_flat m'), k. simpl. split_and!; auto.
    + intros x. apply bool_decide_ext. rewrite <- !elem_of_dom. by rewrite H2.
    + intros i Hi. by apply bool_decide_eq_true_2, H1.
    + destruct H4 as [?|(-> & Hk & Hn)]; [by left|right]. split_and!; auto.
      apply bool_decide_eq_false_2. rewrite Hn. by intros [? ?].
Defined.
