(* ===== verification/Refine.v ===== *)
(** Refinement between state monads, and the interfaces of the storage stack.

    A routine over a detailed state refines one over an abstract state when
    every normal return of the abstract one is matched, with the same value,
    by the detailed one.  The file system is written against the interface
    [BlockLayer]; the theorems are proved on the abstract block store and carried
    to the implementation by [sim]. *)

From S2P Require Import Prelude.

Definition sim {S T A} (R : S -> T -> Prop) (m : M S A) (n : M T A) : Prop :=
  forall s t, R s t -> forall a t', n t = Ok (a, t') ->
  exists s', m s = Ok (a, s') /\ R s' t'.

Section sim.
Context {S T : Type} (R : S -> T -> Prop).

Lemma sim_ret {A} (a : A) : sim R (mret a) (mret a).
Proof. intros s t Hr a' t' E. injection E as <- <-. by exists s. Qed.

Lemma sim_bind {A B} (m : M S A) (n : M T A) (k : A -> M S B) (h : A -> M T B) :
  sim R m n -> (forall a, sim R (k a) (h a)) -> sim R (m ≫= k) (n ≫= h).
Proof.
  intros Hm Hk s t Hr b t' E. apply bind_inv in E as (a & t1 & E1 & E2).
  destruct (Hm s t Hr a t1 E1) as (s1 & F1 & Hr1).
  destruct (Hk a s1 t1 Hr1 b t' E2) as (s' & F2 & Hr'). exists s'. split; [|done].
  by rewrite (bind_Ok _ _ _ _ _ F1).
Qed.

Lemma sim_panic {A} (m : M S A) msg : sim R m (panic msg).
Proof. by intros s t _ a t' E. Qed.

Lemma sim_if {A} (b : bool) (m1 m2 : M S A) (n1 n2 : M T A) :
  sim R m1 n1 -> sim R m2 n2 -> sim R (if b then m1 else m2) (if b then n1 else n2).
Proof. by destruct b. Qed.

Lemma sim_gets {A} (f : S -> A) (g : T -> A) :
  (forall s t, R s t -> f s = g t) -> sim R (gets f) (gets g).
Proof. intros Hf s t Hr a t' E. injection E as <- <-. exists s. split; [|done]. unfold gets. by rewrite (Hf s t). Qed.

Lemma sim_modify (f : S -> S) (g : T -> T) :
  (forall s t, R s t -> R (f s) (g t)) -> sim R (modify f) (modify g).
Proof. intros Hf s t Hr [] t' E. injection E as <-. exists (f s). split; [done|]. by apply Hf. Qed.

End sim.

(** Refinements compose. *)
Definition rel_comp {S T U} (R : S -> T -> Prop) (Q : T -> U -> Prop) (s : S) (u : U) : Prop :=
  exists t, R s t /\ Q t u.

Lemma sim_comp {S T U A} (R : S -> T -> Prop) (Q : T -> U -> Prop) (m : M S A) (n : M T A) (p : M U A) :
  sim R m n -> sim Q n p -> sim (rel_comp R Q) m p.
Proof.
  intros H1 H2 s u (t & Hr & Hq) a u' E. destruct (H2 t u Hq a u' E) as (t' & E2 & Hq').
  destruct (H1 s t Hr a t' E2) as (s' & E1 & Hr'). exists s'. split; [done|]. by exists t'.
Qed.

#[export] Hint Resolve sim_ret sim_panic : xv6.

(** Structural steps of a simulation proof. *)
Ltac sim_step :=
  match goal with
  | |- sim _ (mret _) _ => apply sim_ret
  | |- sim _ _ (panic _) => apply sim_panic
  | |- sim _ (mbind _ _) _ => apply sim_bind; [|intros ?]
  | |- sim _ (if _ then _ else _) _ => apply sim_if
  | |- sim _ (match ?x with _ => _ end) (match ?x with _ => _ end) => destruct x
  | |- sim _ _ _ => assumption
  end.
Ltac sim_auto := repeat (sim_step || (progress intros) || (solve [auto with xv6])).
