(* ===== verification/Ring.v ===== *)
(** Doubly linked rings given by [next] and [prev] functions. *)

From S2P Require Import Prelude.

Definition fupd (f : Z -> Z) (a v : Z) : Z -> Z := fun x => if decide (x = a) then v else f x.

(** Neighbours in the list are linked in both directions. *)
Fixpoint chain (nx pv : Z -> Z) (l : list Z) : Prop :=
  match l with
  | a :: ((b :: _) as r) => nx a = b /\ pv b = a /\ chain nx pv r
  | _ => True
  end.

(** The ring through [h] and the nodes [l]. *)
Definition ring (nx pv : Z -> Z) (h : Z) (l : list Z) : Prop :=
  NoDup (h :: l) /\ chain nx pv (h :: l ++ [h]).

Lemma fupd_eq f a v : fupd f a v a = v.
Proof. unfold fupd. by case_decide. Qed.
Lemma fupd_ne f a v x : x <> a -> fupd f a v x = f x.
Proof. unfold fupd. by case_decide. Qed.

Lemma chain_cons nx pv a b r : chain nx pv (a :: b :: r) <-> nx a = b /\ pv b = a /\ chain nx pv (b :: r).
Proof. done. Qed.

Lemma chain_app nx pv l1 x l2 : chain nx pv (l1 ++ x :: l2) <-> chain nx pv (l1 ++ [x]) /\ chain nx pv (x :: l2).
Proof.
  induction l1 as [|a l1 IH]; [simpl; tauto|].
  destruct l1 as [|b l1]; [simpl; tauto|].
  change (chain nx pv (a :: b :: (l1 ++ x :: l2)) <->
          chain nx pv (a :: b :: (l1 ++ [x])) /\ chain nx pv (x :: l2)).
  rewrite !chain_cons. simpl in IH. rewrite IH. tauto.
Qed.

(** The last node's [next] and the first node's [prev] do not matter. *)
Lemma chain_ext nx pv nx' pv' x l :
  (forall a, a ∈ removelast (x :: l) -> nx' a = nx a) -> (forall a, a ∈ l -> pv' a = pv a) ->
  chain nx pv (x :: l) -> chain nx' pv' (x :: l).
Proof.
  revert x. induction l as [|y l IH]; intros x Hn Hp; [done|].
  rewrite !chain_cons. intros (H1 & H2 & H3). split_and!.
  - rewrite Hn; [done|]. by left.
  - rewrite Hp; [done|]. by left.
  - apply IH; auto.
    + intros a Ha. apply Hn. simpl in *. destruct l; [by apply not_elem_of_nil in Ha|]. by right.
    + intros a Ha. apply Hp. by right.
Qed.

Lemma removelast_snoc {A} (l : list A) x : removelast (l ++ [x]) = l.
Proof. apply removelast_last. Qed.

Lemma chain_unlink nx pv h l1 b l2 :
  ring nx pv h (l1 ++ b :: l2) ->
  ring (fupd nx (pv b) (nx b)) (fupd pv (nx b) (pv b)) h (l1 ++ l2).
Proof.
  intros [Hnd Hc].
  destruct (exists_last (l := h :: l1)) as (l1' & p & E1); [done|].
  assert (exists n l2', l2 ++ [h] = n :: l2') as (n & l2' & E2) by (destruct l2; eauto).
  assert (Hnd' : NoDup (h :: l1 ++ l2)).
  { eapply sublist_NoDup; [exact Hnd|]. apply sublist_skip, sublist_app; [done|]. by apply sublist_cons. }
  split; [exact Hnd'|].
  assert (E : h :: (l1 ++ b :: l2) ++ [h] = l1' ++ p :: b :: n :: l2').
  { rewrite <- app_assoc. simpl. rewrite E2. change (h :: l1 ++ b :: n :: l2') with ((h :: l1) ++ b :: n :: l2').
    by rewrite E1, <- app_assoc. }
  assert (F : h :: (l1 ++ l2) ++ [h] = l1' ++ p :: n :: l2').
  { rewrite <- app_assoc, E2. change (h :: l1 ++ n :: l2') with ((h :: l1) ++ n :: l2').
    by rewrite E1, <- app_assoc. }
  rewrite E in Hc. rewrite F. apply chain_app in Hc as [Hc1 Hc]. rewrite !chain_cons in Hc.
  destruct Hc as (H1 & H2 & H3 & H4 & H5). rewrite H2, H3.
  change (h :: l1 ++ b :: l2) with ((h :: l1) ++ b :: l2) in Hnd. rewrite E1 in Hnd.
  rewrite <- app_assoc in Hnd. simpl in Hnd. apply NoDup_app in Hnd as (Hn1 & Hd & Hn2).
  apply NoDup_cons in Hn2 as [Hp Hn2].
  apply chain_app. split.
  - destruct l1' as [|x l1']; [done|]. injection E1 as <- E1.
    apply (chain_ext nx pv); [| |done].
    + intros a Ha. rewrite app_comm_cons, removelast_snoc in Ha. apply fupd_ne. intros ->.
      apply (Hd p Ha). by left.
    + intros a Ha. apply fupd_ne. intros ->.
      assert (Hnin : n ∈ l2 ++ [h]) by (rewrite E2; by left).
      apply elem_of_app in Hnin as [Hnin|Hnin].
      * apply elem_of_app in Ha as [Ha|Ha].
        -- apply (Hd n); [by right|]. right. by right.
        -- apply list_elem_of_singleton in Ha as ->. apply Hp. by right.
      * apply list_elem_of_singleton in Hnin as ->. apply NoDup_cons in Hnd' as [Hh _].
        apply Hh. rewrite E1. apply elem_of_app. by left.
  - rewrite chain_cons, !fupd_eq. split_and!; auto.
    apply (chain_ext nx pv); [| |done].
    + intros a Ha. rewrite <- E2, removelast_snoc in Ha. apply fupd_ne. intros ->. apply Hp. by right.
    + intros a Ha. apply fupd_ne. intros ->. apply NoDup_cons in Hn2 as [_ Hn2].
      destruct l2 as [|y l2]; simpl in E2; injection E2 as <- <-; [by apply not_elem_of_nil in Ha|].
      apply NoDup_cons in Hn2 as [Hy _]. apply elem_of_app in Ha as [Ha|Ha]; [done|].
      apply list_elem_of_singleton in Ha as ->. apply NoDup_cons in Hnd' as [Hh _].
      apply Hh. apply elem_of_app. right. by left.
Qed.

Lemma chain_push nx pv h b l :
  b ∉ h :: l -> ring nx pv h l ->
  ring (fupd (fupd nx b (nx h)) h b) (fupd (fupd pv b h) (nx h) b) h (b :: l).
Proof.
  intros Hb [Hnd Hc]. apply not_elem_of_cons in Hb as [Hbh Hbl].
  pose proof Hnd as Hnd0. apply NoDup_cons in Hnd as [Hh Hl].
  split.
  { apply NoDup_cons. split; [|by apply NoDup_cons]. apply not_elem_of_cons. auto. }
  simpl. assert (exists n l', l ++ [h] = n :: l') as (n & l' & E) by (destruct l; eauto).
  rewrite E in *. rewrite chain_cons in Hc. destruct Hc as (H1 & H2 & H3). rewrite H1.
  assert (Hn : n ∈ l ++ [h]) by (rewrite E; by left).
  assert (Hnb : n <> b).
  { intros ->. apply elem_of_app in Hn as [Hn|Hn]; [done|]. by apply list_elem_of_singleton in Hn. }
  rewrite fupd_eq, (fupd_ne _ n b b), fupd_eq by done.
  split_and!; auto.
  - by rewrite fupd_ne, fupd_eq by done.
  - by rewrite fupd_eq.
  - apply (chain_ext nx pv); [| |done].
    + intros a Ha. rewrite <- E, removelast_snoc in Ha. rewrite !fupd_ne; [done|..]; intros ->; done.
    + intros a Ha. assert (Ha' : a ∈ l ++ [h]) by (rewrite E; by right).
      rewrite !fupd_ne; [done| |].
      * intros ->. apply elem_of_app in Ha' as [Ha'|Ha']; [done|]. by apply list_elem_of_singleton in Ha'.
      * intros ->. destruct l as [|y l]; simpl in E; injection E as <- <-; [by apply not_elem_of_nil in Ha|].
        apply NoDup_cons in Hl as [Hy _]. apply elem_of_app in Ha as [Ha|Ha]; [done|].
        apply list_elem_of_singleton in Ha as ->. apply Hh. by left.
Qed.

Lemma ring_ext nx pv nx' pv' h l :
  (forall x, x ∈ h :: l -> nx' x = nx x /\ pv' x = pv x) -> ring nx pv h l -> ring nx' pv' h l.
Proof.
  intros E [Hn Hc]. split; [done|]. apply (chain_ext nx pv); [| |done].
  - intros a Ha. rewrite app_comm_cons, removelast_snoc in Ha. by apply E.
  - intros a Ha. apply E. apply elem_of_app in Ha as [Ha|Ha]; [by right|].
    apply list_elem_of_singleton in Ha as ->. by left.
Qed.

(** Walking a ring forwards and backwards visits every node. *)
Lemma chain_tail nx pv x l : chain nx pv (x :: l) -> chain nx pv l.
Proof. destruct l; [done|]. by intros (_ & _ & ?). Qed.

Lemma chain_rev nx pv l : chain nx pv l -> chain pv nx (rev l).
Proof.
  induction l as [|a l IH]; [done|]. intros Hc. simpl. pose proof (chain_tail _ _ _ _ Hc) as Ht.
  destruct l as [|b l]; [done|]. destruct Hc as (H1 & H2 & _). simpl in *.
  rewrite <- app_assoc. simpl. apply chain_app. split; [by apply IH|]. done.
Qed.

Lemma ring_rev nx pv h l : ring nx pv h l -> ring pv nx h (rev l).
Proof.
  intros [Hn Hc]. split.
  - apply NoDup_cons in Hn as [Hh Hn]. apply NoDup_cons. split.
    + by rewrite list_elem_of_In, <- in_rev, <- list_elem_of_In.
    + apply NoDup_ListNoDup in Hn. apply NoDup_ListNoDup. by apply NoDup_rev.
  - apply chain_rev in Hc. simpl in Hc. rewrite rev_app_distr in Hc. done.
Qed.

Lemma ring_next_in nx pv h l x : ring nx pv h l -> x ∈ h :: l -> nx x ∈ h :: l.
Proof.
  intros [_ Hc] Hx. assert (H : forall y r, chain nx pv (y :: r) -> x ∈ removelast (y :: r) -> nx x ∈ r).
  { clear. intros y r. revert y. induction r as [|z r IH]; intros y Hc Hx; [by apply not_elem_of_nil in Hx|].
    change (removelast (y :: z :: r)) with (y :: removelast (z :: r)) in Hx.
    destruct Hc as (H1 & _ & H3). apply elem_of_cons in Hx as [->|Hx]; [rewrite H1; by left|]. right. by apply (IH z). }
  specialize (H h (l ++ [h]) Hc). rewrite app_comm_cons, removelast_snoc in H. specialize (H Hx).
  apply elem_of_app in H as [H|H]; [by right|]. apply list_elem_of_singleton in H as ->. by left.
Qed.

Lemma ring_prev_in nx pv h l x : ring nx pv h l -> x ∈ h :: l -> pv x ∈ h :: l.
Proof.
  intros Hr Hx. apply ring_rev in Hr. assert (Hx' : x ∈ h :: rev l).
  { rewrite elem_of_cons, list_elem_of_In, <- in_rev, <- list_elem_of_In. by apply elem_of_cons. }
  apply (ring_next_in _ _ _ _ _ Hr) in Hx'.
  by rewrite elem_of_cons, list_elem_of_In, <- in_rev, <- list_elem_of_In, <- elem_of_cons in Hx'.
Qed.

(** A node is not its own neighbour. *)
Lemma ring_next_ne nx pv h l x : ring nx pv h l -> x ∈ l -> nx x <> x.
Proof.
  intros [Hn Hc] Hx. apply list_elem_of_split in Hx as (l1 & l2 & ->).
  rewrite <- app_assoc in Hc. apply chain_tail in Hc. rewrite <- app_comm_cons in Hc.
  apply chain_app in Hc as [_ Hc]. apply NoDup_cons in Hn as [Hh Hn]. apply NoDup_app in Hn as (_ & _ & Hn). apply NoDup_cons in Hn as [Hx _].
  destruct l2 as [|y l2]; destruct Hc as (-> & _).
  - intros ->. apply Hh. apply elem_of_app. right. by left.
  - intros ->. apply Hx. by left.
Qed.

Lemma ring_prev_ne nx pv h l x : ring nx pv h l -> x ∈ l -> pv x <> x.
Proof.
  intros Hr Hx. apply ring_rev in Hr. apply (ring_next_ne _ _ _ _ _ Hr).
  by rewrite list_elem_of_In, <- in_rev, <- list_elem_of_In.
Qed.

(** Moving a node to the front. *)
Lemma ring_to_front nx pv h l1 b l2 :
  let nx1 := fupd nx (pv b) (nx b) in
  let pv1 := fupd pv (nx b) (pv b) in
  ring nx pv h (l1 ++ b :: l2) ->
  ring (fupd (fupd nx1 b (nx1 h)) h b) (fupd (fupd pv1 b h) (nx1 h) b) h (b :: l1 ++ l2).
Proof.
  intros nx1 pv1 Hr. apply chain_push; [|by apply chain_unlink].
  destruct Hr as [Hn _]. apply NoDup_cons in Hn as [Hh Hn]. apply NoDup_app in Hn as (_ & Hd & Hn).
  apply NoDup_cons in Hn as [Hb _]. rewrite elem_of_cons, elem_of_app. intros [->|[Hx|Hx]]; [|by eapply Hd; [done|left]|done].
  apply Hh. apply elem_of_app. right. by left.
Qed.
