(* ===== verification/Bytes.v ===== *)
(** Little-endian fields of byte buffers (disk blocks, headers, inodes). *)

From S2P Require Import Prelude.

(** Past the end of a buffer that holds a string is its NUL. *)
Definition byte_at (bs : list Z) (i : Z) : Z := default 0 (bs !! Z.to_nat i).

(** The [n]-byte little-endian field at offset [off]. *)
Fixpoint get_le (n : nat) (bs : list Z) (off : Z) : Z :=
  match n with
  | O => 0
  | S n => byte_at bs off + 256 * get_le n bs (off + 1)
  end.

Fixpoint put_le (n : nat) (bs : list Z) (off v : Z) : list Z :=
  match n with
  | O => bs
  | S n => put_le n (<[Z.to_nat off := v mod 256]> bs) (off + 1) (v / 256)
  end.

Definition get16 (bs : list Z) (off : Z) : Z := get_le 2 bs off.
Definition get32 (bs : list Z) (off : Z) : Z := get_le 4 bs off.
Definition put16 (bs : list Z) (off v : Z) : list Z := put_le 2 bs off v.
Definition put32 (bs : list Z) (off v : Z) : list Z := put_le 4 bs off v.

(** memmove of [src] into a buffer at [off]. *)
Definition put_bytes (bs : list Z) (off : Z) (src : list Z) : list Z :=
  take (Z.to_nat off) bs ++ src ++ drop (Z.to_nat off + length src) bs.

Definition get_bytes (bs : list Z) (off : Z) (n : nat) : list Z := take n (drop (Z.to_nat off) bs).

(** The [n] bytes of an integer, as they lie in memory. *)
Fixpoint bytes_le (n : nat) (v : Z) : list Z :=
  match n with
  | O => []
  | S n => v mod 256 :: bytes_le n (v / 256)
  end.

Definition bytes_ok (bs : list Z) : Prop := Forall (fun b => 0 <= b < 256) bs.

Lemma length_put_le n bs off v : length (put_le n bs off v) = length bs.
Proof. revert bs off v. induction n as [|n IH]; intros; simpl; [done|]. by rewrite IH, length_insert. Qed.

Lemma byte_at_insert bs i j v :
  0 <= i -> 0 <= j < Z.of_nat (length bs) ->
  byte_at (<[Z.to_nat j := v]> bs) i = if decide (i = j) then v else byte_at bs i.
Proof.
  intros Hi Hj. unfold byte_at. case_decide.
  - subst. by rewrite list_lookup_insert_eq by lia.
  - rewrite list_lookup_insert_ne by lia. done.
Qed.

Lemma byte_at_put_le_ne n bs off v i :
  0 <= off -> off + Z.of_nat n <= Z.of_nat (length bs) -> 0 <= i -> i < off \/ off + Z.of_nat n <= i ->
  byte_at (put_le n bs off v) i = byte_at bs i.
Proof.
  revert bs off v. induction n as [|n IH]; intros bs off v Ho Hl Hi Hd; simpl; [done|].
  rewrite IH; rewrite ?length_insert; try lia. rewrite byte_at_insert by lia. case_decide; [lia|done].
Qed.

Lemma get_le_ext n bs bs' off :
  (forall i, off <= i < off + Z.of_nat n -> byte_at bs i = byte_at bs' i) -> get_le n bs off = get_le n bs' off.
Proof.
  revert off. induction n as [|n IH]; intros off H; simpl; [done|].
  rewrite (H off) by lia. rewrite (IH (off + 1)); [done|]. intros. apply H. lia.
Qed.

Lemma get_put_le_eq n bs off v :
  0 <= off -> off + Z.of_nat n <= Z.of_nat (length bs) ->
  get_le n (put_le n bs off v) off = v mod 256 ^ Z.of_nat n.
Proof.
  revert bs off v. induction n as [|n IH]; intros bs off v Ho Hl; [by rewrite Z.mod_1_r|].
  cbn [get_le put_le]. rewrite IH by (rewrite ?length_insert; lia).
  rewrite byte_at_put_le_ne by (rewrite ?length_insert; lia).
  rewrite byte_at_insert, decide_True by (done || lia).
  replace (256 ^ Z.of_nat (S n)) with (256 * 256 ^ Z.of_nat n) by (rewrite Nat2Z.inj_succ, Z.pow_succ_r; lia).
  rewrite Z.rem_mul_r by (try lia; apply Z.pow_pos_nonneg; lia). lia.
Qed.

Lemma get_put_le_ne n k bs off off' v :
  0 <= off -> 0 <= off' -> off + Z.of_nat n <= Z.of_nat (length bs) ->
  off' + Z.of_nat k <= off \/ off + Z.of_nat n <= off' ->
  get_le k (put_le n bs off v) off' = get_le k bs off'.
Proof.
  intros Ho Ho' Hl Hd. apply get_le_ext. intros i Hi. apply byte_at_put_le_ne; lia.
Qed.

Lemma byte_at_range bs i : bytes_ok bs -> 0 <= byte_at bs i < 256.
Proof.
  intros Hb. unfold byte_at. destruct (bs !! Z.to_nat i) as [x|] eqn:E; simpl; [|lia].
  unfold bytes_ok in Hb. rewrite Forall_lookup in Hb. by eapply Hb.
Qed.

Lemma get_le_range n bs off : bytes_ok bs -> 0 <= get_le n bs off < 256 ^ Z.of_nat n.
Proof.
  intros Hb. revert off. induction n as [|n IH]; intros off; [simpl; lia|].
  cbn [get_le]. rewrite Nat2Z.inj_succ, Z.pow_succ_r by lia. specialize (IH (off + 1)).
  pose proof (byte_at_range bs off Hb). nia.
Qed.

Lemma put_le_ok n bs off v : bytes_ok bs -> bytes_ok (put_le n bs off v).
Proof.
  revert bs off v. induction n as [|n IH]; intros bs off v Hb; simpl; [done|].
  apply IH. apply Forall_insert; [done|]. apply Z.mod_pos_bound. lia.
Qed.

#[export] Hint Resolve length_put_le put_le_ok : xv6.
