(* ===== verification/Cache.v ===== *)
(** What the buffer cache promises to the layers above it.

    [BufCache] lists the operations of kernel/bio.c on buffers; the code's
    [struct buf *] is named by the number of the block it caches, which
    identifies it since a block is cached in at most one buffer.  [cache] is
    the abstract cache: contents of the referenced blocks, over the disk. *)

From S2P Require Import Prelude Riscv Refine.

(** ** Blocks and the disk *)

Definition BSIZE : Z := 1024.
Abbreviation block := (list Z) (only parsing).
Definition zero_block : block := replicate 1024 0.

Abbreviation blocks := (gmap Z (list Z)) (only parsing).

(** The disk: contents by block number and the writes done so far. *)
Record disk := mk_disk { d_blocks : blocks; d_hist : list (Z * block) }.

Definition disk_get (d : blocks) (b : Z) : block := default zero_block (d !! b).

Definition disk_put (b : Z) (data : block) (d : disk) : disk :=
  mk_disk (<[b := data]> (d_blocks d)) (d_hist d ++ [(b, data)]).

(** Contents after a sequence of writes. *)
Fixpoint apply_writes (ws : list (Z * block)) (d : blocks) : blocks :=
  match ws with
  | [] => d
  | w :: ws => apply_writes ws (<[w.1 := w.2]> d)
  end.

(** The run of one process: a lock that is taken makes it sleep. *)
Definition sleeps : string := "sleeps".

Class BufCache (S : Type) := {
  bc_read : Z -> M S unit;             (* bread(ROOTDEV, b) *)
  bc_data : Z -> M S block;            (* b->data *)
  bc_set : Z -> block -> M S unit;     (* stores into b->data *)
  bc_write : Z -> M S unit;            (* bwrite(b) *)
  bc_relse : Z -> M S unit;            (* brelse(b) *)
  bc_pin : Z -> M S unit;              (* bpin(b) *)
  bc_unpin : Z -> M S unit;            (* bunpin(b) *)
}.

(** ** The abstract cache *)

Record cache := mk_cache {
  c_disk : disk;
  c_mem : blocks;          (* contents of the referenced blocks *)
  c_held : gset Z;         (* blocks whose buffer is locked *)
  c_pins : gmap Z nat;     (* blocks pinned by the log, how often *)
}.

Definition set_c_mem (m : blocks) (c : cache) := mk_cache (c_disk c) m (c_held c) (c_pins c).

(** The contents of a block as the file system sees it. *)
Definition c_view (c : cache) (b : Z) : block := default (disk_get (d_blocks (c_disk c)) b) (c_mem c !! b).

Definition pins (c : cache) (b : Z) : nat := default 0%nat (c_pins c !! b).

(** A buffer may drop to no references only when the disk has its contents. *)
Definition clean (c : cache) (b : Z) : bool :=
  bool_decide (c_mem c !! b = Some (disk_get (d_blocks (c_disk c)) b)).

Definition cache_read (b : Z) : M cache unit := fun c =>
  if decide (b ∈ c_held c) then Panic sleeps
  else if bool_decide (c_mem c !! b = None) && (NBUF <=? Z.of_nat (size (c_mem c))) then Panic "bget: no buffers"
  else Ok (tt, mk_cache (c_disk c) (<[b := c_view c b]> (c_mem c)) ({[b]} ∪ c_held c) (c_pins c)).

(** A use of a buffer the process does not hold. *)
Definition not_held : string := "buffer not held".

Definition cache_data (b : Z) : M cache block := fun c =>
  if decide (b ∈ c_held c) then Ok (c_view c b, c) else Panic not_held.

Definition cache_set (b : Z) (data : block) : M cache unit := fun c =>
  if decide (b ∈ c_held c) then Ok (tt, set_c_mem (<[b := data]> (c_mem c)) c) else Panic not_held.

Definition cache_write (b : Z) : M cache unit := fun c =>
  if decide (b ∈ c_held c)
  then Ok (tt, mk_cache (disk_put b (c_view c b) (c_disk c)) (c_mem c) (c_held c) (c_pins c))
  else Panic "bwrite".

(** Dropping the last reference to a modified buffer would lose the change. *)
Definition lost : string := "modified buffer dropped".

Definition cache_relse (b : Z) : M cache unit := fun c =>
  if decide (b ∈ c_held c) then
    match pins c b with
    | O => if clean c b
           then Ok (tt, mk_cache (c_disk c) (delete b (c_mem c)) (c_held c ∖ {[b]}) (c_pins c))
           else Panic lost
    | S _ => Ok (tt, mk_cache (c_disk c) (c_mem c) (c_held c ∖ {[b]}) (c_pins c))
    end
  else Panic "brelse".

Definition cache_pin (b : Z) : M cache unit := fun c =>
  if bool_decide (b ∈ c_held c) && (Z.of_nat (pins c b) <? 1073741824)
  then Ok (tt, mk_cache (c_disk c) (c_mem c) (c_held c) (<[b := S (pins c b)]> (c_pins c)))
  else Panic not_held.

Definition cache_unpin (b : Z) : M cache unit := fun c =>
  if decide (b ∈ c_held c) then
    match pins c b with
    | O => Panic "refcnt"
    | S n => Ok (tt, mk_cache (c_disk c) (c_mem c) (c_held c) (<[b := n]> (c_pins c)))
    end
  else Panic not_held.

#[global] Instance cache_BufCache : BufCache cache := {
  bc_read := cache_read;
  bc_data := cache_data;
  bc_set := cache_set;
  bc_write := cache_write;
  bc_relse := cache_relse;
  bc_pin := cache_pin;
  bc_unpin := cache_unpin;
}.

(** The cache after a boot. *)
Definition empty_cache (d : disk) : cache := mk_cache d ∅ ∅ ∅.

(** ** Implementing the interface *)

Class BufCacheSim {S T} `{BufCache S} `{BufCache T} (R : S -> T -> Prop) : Prop := {
  sim_bc_read b : sim R (bc_read b) (bc_read b);
  sim_bc_data b : sim R (bc_data b) (bc_data b);
  sim_bc_set b d : sim R (bc_set b d) (bc_set b d);
  sim_bc_write b : sim R (bc_write b) (bc_write b);
  sim_bc_relse b : sim R (bc_relse b) (bc_relse b);
  sim_bc_pin b : sim R (bc_pin b) (bc_pin b);
  sim_bc_unpin b : sim R (bc_unpin b) (bc_unpin b);
}.

#[export] Hint Resolve sim_bc_read sim_bc_data sim_bc_set sim_bc_write sim_bc_relse sim_bc_pin sim_bc_unpin : xv6.

(** ** Runs of the abstract operations *)

Section runs.
Implicit Types (c : cache) (b : Z) (d : block).

Lemma cache_read_new b c :
  b ∉ c_held c -> c_mem c !! b = None -> (size (c_mem c) < 30)%nat ->
  cache_read b c = Ok (tt, mk_cache (c_disk c) (<[b := disk_get (d_blocks (c_disk c)) b]> (c_mem c))
                                    ({[b]} ∪ c_held c) (c_pins c)).
Proof.
  intros Hh Hm Hs. unfold cache_read. rewrite decide_False by done.
  rewrite (proj2 (Z.leb_gt _ _)) by (unfold NBUF; lia). rewrite andb_false_r.
  unfold c_view. by rewrite Hm.
Qed.

Lemma cache_read_old b c d :
  b ∉ c_held c -> c_mem c !! b = Some d ->
  cache_read b c = Ok (tt, mk_cache (c_disk c) (c_mem c) ({[b]} ∪ c_held c) (c_pins c)).
Proof.
  intros Hh Hm. unfold cache_read. rewrite decide_False by done.
  rewrite bool_decide_eq_false_2 by congruence. simpl. unfold c_view. rewrite Hm. simpl.
  by rewrite insert_id.
Qed.

Lemma cache_data_ok b c d : b ∈ c_held c -> c_mem c !! b = Some d -> cache_data b c = Ok (d, c).
Proof. intros Hh Hm. unfold cache_data. rewrite decide_True by done. unfold c_view. by rewrite Hm. Qed.

Lemma cache_set_ok b c d : b ∈ c_held c ->
  cache_set b d c = Ok (tt, mk_cache (c_disk c) (<[b := d]> (c_mem c)) (c_held c) (c_pins c)).
Proof. intros Hh. unfold cache_set. by rewrite decide_True. Qed.

Lemma cache_write_ok b c d : b ∈ c_held c -> c_mem c !! b = Some d ->
  cache_write b c = Ok (tt, mk_cache (disk_put b d (c_disk c)) (c_mem c) (c_held c) (c_pins c)).
Proof. intros Hh Hm. unfold cache_write. rewrite decide_True by done. unfold c_view. by rewrite Hm. Qed.

Lemma cache_relse_pinned b c : b ∈ c_held c -> pins c b <> 0%nat ->
  cache_relse b c = Ok (tt, mk_cache (c_disk c) (c_mem c) (c_held c ∖ {[b]}) (c_pins c)).
Proof. intros Hh Hp. unfold cache_relse. rewrite decide_True by done. by destruct (pins c b). Qed.

Lemma cache_relse_clean b c : b ∈ c_held c -> pins c b = 0%nat ->
  c_mem c !! b = Some (disk_get (d_blocks (c_disk c)) b) ->
  cache_relse b c = Ok (tt, mk_cache (c_disk c) (delete b (c_mem c)) (c_held c ∖ {[b]}) (c_pins c)).
Proof.
  intros Hh Hp Hc. unfold cache_relse. rewrite decide_True, Hp by done. unfold clean.
  by rewrite bool_decide_eq_true_2.
Qed.

Lemma cache_unpin_ok b c n : b ∈ c_held c -> pins c b = S n ->
  cache_unpin b c = Ok (tt, mk_cache (c_disk c) (c_mem c) (c_held c) (<[b := n]> (c_pins c))).
Proof. intros Hh Hp. unfold cache_unpin. by rewrite decide_True, Hp. Qed.

Lemma cache_pin_ok b c : b ∈ c_held c -> (pins c b <= 1)%nat ->
  cache_pin b c = Ok (tt, mk_cache (c_disk c) (c_mem c) (c_held c) (<[b := S (pins c b)]> (c_pins c))).
Proof.
  intros Hh Hp. unfold cache_pin. rewrite bool_decide_eq_true_2 by done.
  by rewrite (proj2 (Z.ltb_lt _ _)) by lia.
Qed.

Lemma disk_get_put_eq b d k : disk_get (d_blocks (disk_put b d k)) b = d.
Proof. unfold disk_get, disk_put. simpl. by rewrite lookup_insert_eq. Qed.
Lemma disk_get_put_ne b b' d k : b' <> b -> disk_get (d_blocks (disk_put b d k)) b' = disk_get (d_blocks k) b'.
Proof. intros. unfold disk_get, disk_put. simpl. by rewrite lookup_insert_ne. Qed.

End runs.

(** ** Sequences of disk writes *)

Fixpoint disk_puts (ws : list (Z * block)) (d : disk) : disk :=
  match ws with
  | [] => d
  | w :: ws => disk_puts ws (disk_put w.1 w.2 d)
  end.

Lemma disk_puts_eq ws d : disk_puts ws d = mk_disk (apply_writes ws (d_blocks d)) (d_hist d ++ ws).
Proof.
  revert d. induction ws as [|[b x] ws IH]; intros d; simpl; [destruct d; by rewrite app_nil_r|].
  rewrite IH. simpl. by rewrite <- app_assoc.
Qed.

Lemma disk_puts_app w1 w2 d : disk_puts (w1 ++ w2) d = disk_puts w2 (disk_puts w1 d).
Proof. revert d. induction w1 as [|w w1 IH]; intros d; simpl; auto. Qed.

Lemma apply_writes_app w1 w2 d : apply_writes (w1 ++ w2) d = apply_writes w2 (apply_writes w1 d).
Proof. revert d. induction w1 as [|w w1 IH]; intros d; simpl; auto. Qed.

Lemma apply_writes_other ws d b : b ∉ ws.*1 -> disk_get (apply_writes ws d) b = disk_get d b.
Proof.
  revert d. induction ws as [|[b' x] ws IH]; intros d Hb; simpl; [done|].
  simpl in Hb. apply not_elem_of_cons in Hb as [Hne Hb]. rewrite IH by done.
  unfold disk_get. by rewrite lookup_insert_ne.
Qed.

Lemma apply_writes_last ws d b x : NoDup ws.*1 -> (b, x) ∈ ws -> disk_get (apply_writes ws d) b = x.
Proof.
  revert d. induction ws as [|[b' x'] ws IH]; intros d Hn Hb; simpl; [by apply not_elem_of_nil in Hb|].
  simpl in Hn. apply NoDup_cons in Hn as [Hb' Hn]. apply elem_of_cons in Hb as [E|Hb].
  - injection E as <- <-. rewrite apply_writes_other by done. unfold disk_get. by rewrite lookup_insert_eq.
  - by apply IH.
Qed.
