(* ===== verification/Bio.v ===== *)
(** kernel/bio.c: the buffer cache.

    [bufs] holds the NBUF buffers and, at index NBUF, bcache.head; a
    [struct buf *] is an index.  The disk keeps the history of its writes. *)

From S2P Require Import Prelude Riscv Refine Ring Cache.

(** struct sleeplock; the inner spinlock makes its operations atomic. *)
Record sleeplock := mk_sleeplock { sl_locked : bool; sl_pid : Z }.

(** struct buf (kernel/buf.h). *)
Record buf := mk_buf {
  b_valid : bool;
  b_dev : Z;
  b_blockno : Z;
  b_lock : sleeplock;
  b_refcnt : Z;
  b_prev : Z;
  b_next : Z;
  b_data : block;
}.

Record bio := mk_bio { bufs : list buf; bio_disk : disk }.

#[global] Instance buf_inhabited : Inhabited buf :=
  populate (mk_buf false 0 0 (mk_sleeplock false 0) 0 0 0 zero_block).

Definition getb (i : Z) (s : bio) : buf := bufs s !!! Z.to_nat i.
Definition updb (i : Z) (f : buf -> buf) (s : bio) : bio :=
  mk_bio (alter f (Z.to_nat i) (bufs s)) (bio_disk s).

Definition set_valid (v : bool) (b : buf) :=
  mk_buf v (b_dev b) (b_blockno b) (b_lock b) (b_refcnt b) (b_prev b) (b_next b) (b_data b).
Definition set_key (dev blockno : Z) (b : buf) :=
  mk_buf (b_valid b) dev blockno (b_lock b) (b_refcnt b) (b_prev b) (b_next b) (b_data b).
Definition set_lock (l : sleeplock) (b : buf) :=
  mk_buf (b_valid b) (b_dev b) (b_blockno b) l (b_refcnt b) (b_prev b) (b_next b) (b_data b).
Definition set_refcnt (r : Z) (b : buf) :=
  mk_buf (b_valid b) (b_dev b) (b_blockno b) (b_lock b) r (b_prev b) (b_next b) (b_data b).
Definition set_prev (p : Z) (b : buf) :=
  mk_buf (b_valid b) (b_dev b) (b_blockno b) (b_lock b) (b_refcnt b) p (b_next b) (b_data b).
Definition set_next (p : Z) (b : buf) :=
  mk_buf (b_valid b) (b_dev b) (b_blockno b) (b_lock b) (b_refcnt b) (b_prev b) p (b_data b).
Definition set_data (d : block) (b : buf) :=
  mk_buf (b_valid b) (b_dev b) (b_blockno b) (b_lock b) (b_refcnt b) (b_prev b) (b_next b) d.

Definition HEAD : Z := NBUF.

(** ** kernel/sleeplock.c *)

Definition initsleeplock (lk : sleeplock) : sleeplock := mk_sleeplock false 0.

Definition acquiresleep (me : Z) (lk : sleeplock) : option sleeplock :=
  if sl_locked lk then None else Some (mk_sleeplock true me).

Definition releasesleep (lk : sleeplock) : sleeplock := mk_sleeplock false 0.

Definition holdingsleep (me : Z) (lk : sleeplock) : bool := sl_locked lk && (sl_pid lk =? me).

(** ** binit *)

(** One iteration of binit's loop: link buffer [b] behind the head. *)
Definition binit_one (b : Z) (s : bio) : bio :=
  let s := updb b (set_next (b_next (getb HEAD s))) s in
  let s := updb b (set_prev HEAD) s in
  let s := updb b (fun x => set_lock (initsleeplock (b_lock x)) x) s in
  let s := updb (b_next (getb HEAD s)) (set_prev b) s in
  updb HEAD (set_next b) s.

Fixpoint binit_loop (k : nat) (b : Z) (s : bio) : bio :=
  match k with
  | O => s
  | S k => binit_loop k (b + 1) (binit_one b s)
  end.

Definition binit (s : bio) : bio :=
  let s := updb HEAD (set_prev HEAD) s in
  let s := updb HEAD (set_next HEAD) s in
  binit_loop (Z.to_nat NBUF) 0 s.

(** ** bget, bread *)

(** for(b = bcache.head.next; b != &bcache.head; b = b->next) *)
Fixpoint find_cached (fuel : nat) (s : bio) (dev blockno b : Z) : option Z :=
  match fuel with
  | O => None
  | S fuel =>
      if b =? HEAD then None
      else if (b_dev (getb b s) =? dev) && (b_blockno (getb b s) =? blockno) then Some b
      else find_cached fuel s dev blockno (b_next (getb b s))
  end.

(** for(b = bcache.head.prev; b != &bcache.head; b = b->prev) *)
Fixpoint find_unused (fuel : nat) (s : bio) (b : Z) : option Z :=
  match fuel with
  | O => None
  | S fuel =>
      if b =? HEAD then None
      else if b_refcnt (getb b s) =? 0 then Some b
      else find_unused fuel s (b_prev (getb b s))
  end.

(** The ring has NBUF + 1 nodes. *)
Definition ring_fuel : nat := 31.

Definition acquire_buf (me b : Z) : M bio Z := fun s =>
  match acquiresleep me (b_lock (getb b s)) with
  | Some l => Ok (b, updb b (set_lock l) s)
  | None => Panic sleeps
  end.

Definition bget (me dev blockno : Z) : M bio Z := fun s =>
  match find_cached ring_fuel s dev blockno (b_next (getb HEAD s)) with
  | Some b => acquire_buf me b (updb b (fun x => set_refcnt (u32 (b_refcnt x + 1)) x) s)
  | None =>
      match find_unused ring_fuel s (b_prev (getb HEAD s)) with
      | Some b =>
          acquire_buf me b
            (updb b (set_refcnt 1) (updb b (set_valid false) (updb b (set_key dev blockno) s)))
      | None => Panic "bget: no buffers"
      end
  end.

(** virtio_disk_rw as the cache sees it: the block named by b->blockno is
    read into, or written from, b->data. *)
Definition virtio_disk_rw (b : Z) (write : bool) (s : bio) : bio :=
  let bn := b_blockno (getb b s) in
  if write then
    mk_bio (bufs s) (disk_put bn (b_data (getb b s)) (bio_disk s))
  else updb b (set_data (disk_get (d_blocks (bio_disk s)) bn)) s.

Definition bread (me dev blockno : Z) : M bio Z :=
  b ← bget me dev blockno;
  v ← gets (fun s => b_valid (getb b s));
  (if negb v then modify (fun s => updb b (set_valid true) (virtio_disk_rw b false s)) else mret tt);;
  mret b.

Definition bwrite (me b : Z) : M bio unit := fun s =>
  if negb (holdingsleep me (b_lock (getb b s))) then Panic "bwrite"
  else Ok (tt, virtio_disk_rw b true s).

(** Move [b] to the head of the most-recently-used list. *)
Definition to_front (b : Z) (s : bio) : bio :=
  let s := updb (b_next (getb b s)) (set_prev (b_prev (getb b s))) s in
  let s := updb (b_prev (getb b s)) (set_next (b_next (getb b s))) s in
  let s := updb b (set_next (b_next (getb HEAD s))) s in
  let s := updb b (set_prev HEAD) s in
  let s := updb (b_next (getb HEAD s)) (set_prev b) s in
  updb HEAD (set_next b) s.

Definition brelse (me b : Z) : M bio unit := fun s =>
  if negb (holdingsleep me (b_lock (getb b s))) then Panic "brelse"
  else
    let s := updb b (fun x => set_lock (releasesleep (b_lock x)) x) s in
    let s := updb b (fun x => set_refcnt (u32 (b_refcnt x - 1)) x) s in
    Ok (tt, if b_refcnt (getb b s) =? 0 then to_front b s else s).

Definition bpin (b : Z) : M bio unit :=
  modify (updb b (fun x => set_refcnt (u32 (b_refcnt x + 1)) x)).
Definition bunpin (b : Z) : M bio unit :=
  modify (updb b (fun x => set_refcnt (u32 (b_refcnt x - 1)) x)).

(** * The cache invariant and the abstract cache *)

Definition nx (s : bio) (i : Z) : Z := b_next (getb i s).
Definition pv (s : bio) (i : Z) : Z := b_prev (getb i s).

Definition is_buf (i : Z) : Prop := 0 <= i < NBUF.

(** A buffer against the abstract cache. *)
Definition buf_ok (me : Z) (c : cache) (x : buf) : Prop :=
  let b := b_blockno x in
  if decide (b_dev x = ROOTDEV) then
    b_refcnt x = (if decide (b ∈ c_held c) then 1 else 0) + Z.of_nat (pins c b) /\
    b_lock x = (if decide (b ∈ c_held c) then mk_sleeplock true me else mk_sleeplock false 0) /\
    if decide (b_refcnt x = 0)
    then c_mem c !! b = None /\ (b_valid x = true -> b_data x = disk_get (d_blocks (c_disk c)) b)
    else b_valid x = true /\ c_mem c !! b = Some (b_data x)
  else b_refcnt x = 0 /\ b_lock x = mk_sleeplock false 0.

Record bio_rel (me : Z) (s : bio) (c : cache) : Prop := {
  br_len : length (bufs s) = 31%nat;
  br_ring : exists ord, ring (nx s) (pv s) HEAD ord /\ forall i, i ∈ ord <-> is_buf i;
  br_disk : bio_disk s = c_disk c;
  br_uniq : forall i j, is_buf i -> is_buf j -> b_dev (getb i s) = ROOTDEV -> b_dev (getb j s) = ROOTDEV ->
    b_blockno (getb i s) = b_blockno (getb j s) -> i = j;
  br_bufs : forall i, is_buf i -> buf_ok me c (getb i s);
  br_refs : forall b, is_Some (c_mem c !! b) -> exists i, is_buf i /\ b_dev (getb i s) = ROOTDEV /\ b_blockno (getb i s) = b;
  br_used : forall b, b ∈ c_held c \/ pins c b <> 0%nat -> is_Some (c_mem c !! b);
  br_pins : forall b, Z.of_nat (pins c b) <= 1073741824;
}.

Lemma getb_updb i j f s :
  length (bufs s) = 31%nat -> 0 <= i <= 30 -> 0 <= j <= 30 ->
  getb i (updb j f s) = if decide (i = j) then f (getb i s) else getb i s.
Proof.
  intros Hl Hi Hj. unfold getb, updb. simpl. rewrite !list_lookup_total_alt. case_decide as E.
  - subst j. rewrite list_lookup_alter_eq. destruct (lookup_lt_is_Some_2 (bufs s) (Z.to_nat i)) as [x ->]; [lia|done].
  - rewrite list_lookup_alter_ne by lia. done.
Qed.

Lemma length_updb j f s : length (bufs (updb j f s)) = length (bufs s).
Proof. apply length_alter. Qed.

Lemma nx_updb i f s x : (forall y, b_next (f y) = b_next y) -> nx (updb i f s) x = nx s x.
Proof.
  intros Hf. unfold nx, getb, updb. simpl. rewrite !list_lookup_total_alt, list_lookup_alter.
  case_decide as E; [|done]. rewrite E. destruct (bufs s !! _); [apply Hf|done].
Qed.

Lemma pv_updb i f s x : (forall y, b_prev (f y) = b_prev y) -> pv (updb i f s) x = pv s x.
Proof.
  intros Hf. unfold pv, getb, updb. simpl. rewrite !list_lookup_total_alt, list_lookup_alter.
  case_decide as E; [|done]. rewrite E. destruct (bufs s !! _); [apply Hf|done].
Qed.

(** An update that keeps the links. *)
Definition keeps_links (f : buf -> buf) : Prop :=
  forall y, b_next (f y) = b_next y /\ b_prev (f y) = b_prev y.

Definition ring_ok (s : bio) : Prop :=
  exists ord, ring (nx s) (pv s) HEAD ord /\ forall i, i ∈ ord <-> is_buf i.

Lemma ring_ok_updb i f s : keeps_links f -> ring_ok s -> ring_ok (updb i f s).
Proof.
  intros Hf (ord & Hr & Ho). exists ord. split; [|done]. eapply ring_ext; [|exact Hr].
  intros x _. split; [apply nx_updb|apply pv_updb]; intros y; apply Hf.
Qed.

(** bget's two searches as searches of the node list. *)
Lemma find_cached_list s dev bn l : forall fuel,
  chain (nx s) (pv s) (l ++ [HEAD]) -> HEAD ∉ l -> (length l < fuel)%nat ->
  find_cached fuel s dev bn (default HEAD (l !! 0%nat)) =
  List.find (fun b => (b_dev (getb b s) =? dev) && (b_blockno (getb b s) =? bn)) l.
Proof.
  induction l as [|x l IH]; intros [|fuel] Hc Hh Hf; simpl in Hf; try lia; [done|].
  apply not_elem_of_cons in Hh as [Hx Hh]. cbn -[Z.eqb HEAD].
  rewrite (proj2 (Z.eqb_neq _ _)) by (intros E; by apply Hx).
  destruct ((b_dev (getb x s) =? dev) && (b_blockno (getb x s) =? bn)); [done|].
  pose proof (chain_tail _ _ _ _ Hc) as Ht. rewrite <- (IH fuel) by (done || lia). f_equal.
  destruct l as [|y l]; simpl in Hc; by destruct Hc as (E & _ & _).
Qed.

Lemma find_unused_list s l : forall fuel,
  chain (pv s) (nx s) (l ++ [HEAD]) -> HEAD ∉ l -> (length l < fuel)%nat ->
  find_unused fuel s (default HEAD (l !! 0%nat)) = List.find (fun b => b_refcnt (getb b s) =? 0) l.
Proof.
  induction l as [|x l IH]; intros [|fuel] Hc Hh Hf; simpl in Hf; try lia; [done|].
  apply not_elem_of_cons in Hh as [Hx Hh]. cbn -[Z.eqb HEAD].
  rewrite (proj2 (Z.eqb_neq _ _)) by (intros E; by apply Hx).
  destruct (b_refcnt (getb x s) =? 0); [done|].
  pose proof (chain_tail _ _ _ _ Hc) as Ht. rewrite <- (IH fuel) by (done || lia). f_equal.
  destruct l as [|y l]; simpl in Hc; by destruct Hc as (E & _ & _).
Qed.

Lemma ring_length ord : NoDup ord -> (forall i, i ∈ ord <-> is_buf i) -> length ord = 30%nat.
Proof.
  intros Hn Ho. assert (Hp : ord ≡ₚ seqZ 0 30).
  { apply NoDup_Permutation; [done|apply NoDup_seqZ|]. intros i. rewrite Ho, elem_of_seqZ.
    unfold is_buf, NBUF. lia. }
  rewrite Hp. by rewrite length_seqZ.
Qed.

(** The result of each search, on a well-formed ring. *)
Lemma find_cached_spec s dev bn :
  ring_ok s ->
  match find_cached ring_fuel s dev bn (nx s HEAD) with
  | Some b => is_buf b /\ b_dev (getb b s) = dev /\ b_blockno (getb b s) = bn
  | None => forall b, is_buf b -> ~ (b_dev (getb b s) = dev /\ b_blockno (getb b s) = bn)
  end.
Proof.
  intros (ord & [Hnd Hc] & Ho). apply NoDup_cons in Hnd as [Hh Hnd].
  pose proof (ring_length ord Hnd Ho) as Hlen.
  assert (E : nx s HEAD = default HEAD (ord !! 0%nat)).
  { destruct ord; simpl in Hc; by destruct Hc as (? & _ & _). }
  rewrite E, find_cached_list; [|by eapply chain_tail|done|unfold ring_fuel; lia].
  destruct (List.find _ ord) as [b|] eqn:Ef.
  - apply find_some in Ef as [Hin Hb]. apply andb_true_iff in Hb as [H1 H2].
    apply Z.eqb_eq in H1, H2. rewrite <- list_elem_of_In in Hin. split_and!; auto. by apply Ho.
  - intros b Hb [H1 H2]. apply Ho, list_elem_of_In in Hb. eapply find_none in Hb; [|exact Ef].
    simpl in Hb. rewrite H1, H2, !Z.eqb_refl in Hb. done.
Qed.

Lemma find_unused_spec s :
  ring_ok s ->
  match find_unused ring_fuel s (pv s HEAD) with
  | Some b => is_buf b /\ b_refcnt (getb b s) = 0
  | None => forall b, is_buf b -> b_refcnt (getb b s) <> 0
  end.
Proof.
  intros (ord & Hr & Ho). apply ring_rev in Hr as [Hnd Hc]. apply NoDup_cons in Hnd as [Hh Hnd].
  assert (Ho' : forall i, i ∈ rev ord <-> is_buf i).
  { intros i. by rewrite list_elem_of_In, <- in_rev, <- list_elem_of_In. }
  pose proof (ring_length _ Hnd Ho') as Hlen.
  assert (E : pv s HEAD = default HEAD (rev ord !! 0%nat)).
  { destruct (rev ord); simpl in Hc; by destruct Hc as (? & _ & _). }
  rewrite E, find_unused_list; [|by eapply chain_tail|done|unfold ring_fuel; lia].
  destruct (List.find _ (rev ord)) as [b|] eqn:Ef.
  - apply find_some in Ef as [Hin Hb]. apply Z.eqb_eq in Hb. rewrite <- list_elem_of_In in Hin.
    split; [by apply Ho'|done].
  - intros b Hb H1. apply Ho', list_elem_of_In in Hb. eapply find_none in Hb; [|exact Ef].
    simpl in Hb. rewrite H1 in Hb. done.
Qed.

(** Moving to the front keeps the ring. *)
Lemma getb_prev_next i v s x :
  length (bufs s) = 31%nat -> 0 <= i <= 30 -> 0 <= x <= 30 ->
  nx (updb i (set_next v) s) x = fupd (nx s) i v x /\ pv (updb i (set_prev v) s) x = fupd (pv s) i v x.
Proof.
  intros Hl Hi Hx. unfold nx, pv, fupd. rewrite !getb_updb by done. by case_decide.
Qed.

Lemma to_front_links s b ord :
  length (bufs s) = 31%nat -> b ∈ ord -> ring (nx s) (pv s) HEAD ord -> (forall i, i ∈ ord -> is_buf i) ->
  let nx1 := fupd (nx s) (pv s b) (nx s b) in
  let pv1 := fupd (pv s) (nx s b) (pv s b) in
  forall x, 0 <= x <= 30 ->
    nx (to_front b s) x = fupd (fupd nx1 b (nx1 HEAD)) HEAD b x /\
    pv (to_front b s) x = fupd (fupd pv1 b HEAD) (nx1 HEAD) b x.
Proof.
  intros Hl Hb Hr Ho nx1 pv1 x Hx.
  assert (Hrange : forall i, i ∈ HEAD :: ord -> 0 <= i <= 30).
  { intros i Hi. apply elem_of_cons in Hi as [->|Hi]; [unfold HEAD, NBUF; lia|]. apply Ho in Hi.
    unfold is_buf, NBUF in Hi. lia. }
  assert (Hbn : b ∈ HEAD :: ord) by (by right). pose proof (Hrange b Hbn) as Hbr.
  pose proof (Hrange _ (ring_next_in _ _ _ _ _ Hr Hbn)) as Hnr.
  pose proof (Hrange _ (ring_prev_in _ _ _ _ _ Hr Hbn)) as Hpr.
  pose proof (ring_next_ne _ _ _ _ _ Hr Hb) as Hnne. pose proof (ring_prev_ne _ _ _ _ _ Hr Hb) as Hpne.
  assert (Hb30 : b <> HEAD). { apply Ho in Hb. unfold is_buf, HEAD, NBUF in *. lia. }
  assert (Hhr : 0 <= HEAD <= 30) by (unfold HEAD, NBUF; lia).
  unfold to_front. fold (nx s b). fold (pv s b).
  set (s1 := updb (nx s b) (set_prev (pv s b)) s).
  assert (Hl1 : length (bufs s1) = 31%nat) by (unfold s1; by rewrite length_updb).
  assert (N1 : forall y, nx s1 y = nx s y) by (intros; by apply nx_updb).
  assert (P1 : forall y, 0 <= y <= 30 -> pv s1 y = pv1 y) by (intros; by apply getb_prev_next).
  replace (b_prev (getb b s1)) with (pv s b) by (fold (pv s1 b); rewrite P1 by done; unfold pv1; by rewrite fupd_ne).
  replace (b_next (getb b s1)) with (nx s b) by (fold (nx s1 b); by rewrite N1).
  set (s2 := updb (pv s b) (set_next (nx s b)) s1).
  assert (Hl2 : length (bufs s2) = 31%nat) by (unfold s2; by rewrite length_updb).
  assert (N2 : forall y, 0 <= y <= 30 -> nx s2 y = nx1 y).
  { intros y Hy. unfold s2. rewrite (proj1 (getb_prev_next _ _ s1 y Hl1 Hpr Hy)). unfold fupd, nx1, fupd. by rewrite N1. }
  assert (P2 : forall y, 0 <= y <= 30 -> pv s2 y = pv1 y).
  { intros y Hy. rewrite <- P1 by done. by apply pv_updb. }
  replace (b_next (getb HEAD s2)) with (nx1 HEAD) by (fold (nx s2 HEAD); by rewrite N2).
  assert (Hnhr : 0 <= nx1 HEAD <= 30).
  { unfold nx1, fupd. case_decide; [done|]. apply Hrange. apply (ring_next_in _ _ _ _ _ Hr). by left. }
  set (s3 := updb b (set_next (nx1 HEAD)) s2). set (s4 := updb b (set_prev HEAD) s3).
  assert (Hl3 : length (bufs s3) = 31%nat) by (unfold s3; by rewrite length_updb).
  assert (Hl4 : length (bufs s4) = 31%nat) by (unfold s4; by rewrite length_updb).
  assert (N4 : forall y, 0 <= y <= 30 -> nx s4 y = fupd nx1 b (nx1 HEAD) y).
  { intros y Hy. unfold s4. rewrite nx_updb by done. unfold s3.
    rewrite (proj1 (getb_prev_next _ _ s2 y Hl2 Hbr Hy)). unfold fupd at 1 2. by rewrite N2. }
  assert (P4 : forall y, 0 <= y <= 30 -> pv s4 y = fupd pv1 b HEAD y).
  { intros y Hy. unfold s4. rewrite (proj2 (getb_prev_next _ _ s3 y Hl3 Hbr Hy)). unfold fupd at 1 2.
    case_decide; [done|]. unfold s3. by rewrite pv_updb, P2. }
  replace (b_next (getb HEAD s4)) with (nx1 HEAD) by (fold (nx s4 HEAD); rewrite N4, fupd_ne; done).
  set (s5 := updb (nx1 HEAD) (set_prev b) s4).
  assert (Hl5 : length (bufs s5) = 31%nat) by (unfold s5; by rewrite length_updb).
  split.
  - rewrite (proj1 (getb_prev_next _ _ s5 x Hl5 Hhr Hx)). unfold fupd at 1 2. case_decide; [done|].
    unfold s5. by rewrite nx_updb, N4.
  - rewrite pv_updb by done. unfold s5. rewrite (proj2 (getb_prev_next _ _ s4 x Hl4 Hnhr Hx)).
    unfold fupd at 1 2. case_decide; [done|]. by rewrite P4.
Qed.

Lemma to_front_ring s b : length (bufs s) = 31%nat -> is_buf b -> ring_ok s -> ring_ok (to_front b s).
Proof.
  intros Hl Hb (ord & Hr & Ho). apply Ho in Hb.
  pose proof (to_front_links s b ord Hl Hb Hr (fun i => proj1 (Ho i))) as Hlinks.
  apply list_elem_of_split in Hb as (l1 & l2 & ->). exists (b :: l1 ++ l2). split.
  - eapply ring_ext; [|by apply ring_to_front].
    intros x Hx. apply Hlinks. apply elem_of_cons in Hx as [->|Hx]; [unfold HEAD, NBUF; lia|].
    assert (Hi : is_buf x). { apply Ho. rewrite elem_of_cons, elem_of_app in Hx. rewrite elem_of_app, elem_of_cons. tauto. }
    unfold is_buf, NBUF in Hi. lia.
  - intros i. rewrite <- Ho, elem_of_cons, !elem_of_app, elem_of_cons. tauto.
Qed.

(** * Simulation of the abstract cache *)

(** The buffer that caches block [b]. *)
Definition on_buf {A} (b : Z) (k : Z -> M bio A) : M bio A := fun s =>
  match find_cached ring_fuel s ROOTDEV b (b_next (getb HEAD s)) with
  | Some i => k i s
  | None => Panic not_held
  end.

#[global] Instance bio_BufCache (me : Z) : BufCache bio := {
  bc_read b := bread me ROOTDEV b;; mret tt;
  bc_data b := on_buf b (fun i => gets (fun s => b_data (getb i s)));
  bc_set b d := on_buf b (fun i => modify (updb i (set_data d)));
  bc_write b := on_buf b (bwrite me);
  bc_relse b := on_buf b (brelse me);
  bc_pin b := on_buf b bpin;
  bc_unpin b := on_buf b bunpin;
}.

(** [c'] differs from [c] at block [b] only. *)
Definition same_but (b : Z) (c c' : cache) : Prop :=
  forall b', b' <> b ->
    c_mem c' !! b' = c_mem c !! b' /\ (b' ∈ c_held c' <-> b' ∈ c_held c) /\ pins c' b' = pins c b' /\
    disk_get (d_blocks (c_disk c')) b' = disk_get (d_blocks (c_disk c)) b'.

Section sim.
Variable me : Z.

Lemma buf_ok_same c c' b x :
  same_but b c c' -> (b_dev x = ROOTDEV -> b_blockno x <> b) -> buf_ok me c x -> buf_ok me c' x.
Proof.
  intros Hs Hb. unfold buf_ok. case_decide as Hd; [|done].
  destruct (Hs (b_blockno x) (Hb Hd)) as (H1 & H2 & H3 & H4). rewrite H1, H3, H4.
  rewrite (decide_ext _ _ _ _ H2), (decide_ext _ _ _ _ H2). done.
Qed.

Lemma rel_update s c i f d' c' :
  let x := getb i s in let b := b_blockno (f x) in
  bio_rel me s c -> is_buf i -> keeps_links f -> b_dev (f x) = ROOTDEV -> same_but b c c' ->
  (forall j, is_buf j -> j <> i -> b_dev (getb j s) = ROOTDEV -> b_blockno (getb j s) <> b) ->
  (b_dev x = ROOTDEV /\ b_blockno x = b \/ b_refcnt x = 0) ->
  buf_ok me c' (f x) -> d' = c_disk c' ->
  (b ∈ c_held c' \/ pins c' b <> 0%nat -> is_Some (c_mem c' !! b)) -> Z.of_nat (pins c' b) <= 1073741824 ->
  bio_rel me (mk_bio (bufs (updb i f s)) d') c'.
Proof.
  intros x b Hr Hi Hf Hdev Hs Huq Hold Hok Hd Hused Hp.
  assert (Hi30 : 0 <= i <= 30) by (unfold is_buf, NBUF in Hi; lia).
  assert (G : forall j, is_buf j -> getb j (mk_bio (bufs (updb i f s)) d') = if decide (j = i) then f x else getb j s).
  { intros j Hj. change (getb j (mk_bio (bufs (updb i f s)) d')) with (getb j (updb i f s)).
    rewrite getb_updb; [|apply Hr|unfold is_buf, NBUF in Hj; lia|done]. case_decide; [by subst|done]. }
  split; simpl.
  - rewrite length_alter. apply Hr.
  - apply (ring_ok_updb i f s Hf). apply Hr.
  - done.
  - intros j k Hj Hk. rewrite !G by done. case_decide as Ej; case_decide as Ek; subst; auto.
    + intros _ H2 E. exfalso. by apply (Huq k Hk Ek H2).
    + intros H1 _ E. exfalso. by apply (Huq j Hj Ej H1).
    + apply (br_uniq _ _ _ Hr); auto.
  - intros j Hj. rewrite G by done. case_decide as Ej; [done|].
    eapply buf_ok_same; [exact Hs| |by apply (br_bufs _ _ _ Hr)]. by apply Huq.
  - intros b' Hb'. destruct (decide (b' = b)) as [->|Hne].
    + exists i. rewrite G by done. by case_decide.
    + destruct (Hs b' Hne) as (E & _). rewrite E in Hb'.
      destruct (br_refs _ _ _ Hr b' Hb') as (j & Hj & H1 & H2). exists j. rewrite G by done.
      case_decide as Ej; [|done]. exfalso. subst j. destruct Hold as [[_ H3]|H3]; [fold x in H2; congruence|].
      pose proof (br_bufs _ _ _ Hr i Hi) as Hok0. unfold buf_ok in Hok0. rewrite decide_True in Hok0 by done.
      destruct Hok0 as (_ & _ & Hm). rewrite decide_True in Hm by done. destruct Hm as [Hm _].
      rewrite H2 in Hm. rewrite Hm in Hb'. by apply is_Some_None in Hb'.
  - intros b' Hb'. destruct (decide (b' = b)) as [->|Hne]; [by apply Hused|].
    destruct (Hs b' Hne) as (-> & E2 & E3 & _). apply (br_used _ _ _ Hr). rewrite E2, E3 in Hb'. done.
  - intros b'. destruct (decide (b' = b)) as [->|Hne]; [done|].
    destruct (Hs b' Hne) as (_ & _ & -> & _). apply Hr.
Qed.

(** The buffer of a referenced block. *)
Lemma on_buf_held {A} s c b (k : Z -> M bio A) :
  bio_rel me s c -> is_Some (c_mem c !! b) ->
  exists i, is_buf i /\ b_dev (getb i s) = ROOTDEV /\ b_blockno (getb i s) = b /\ on_buf b k s = k i s /\
    b_valid (getb i s) = true /\ c_mem c !! b = Some (b_data (getb i s)) /\
    b_refcnt (getb i s) = (if decide (b ∈ c_held c) then 1 else 0) + Z.of_nat (pins c b) /\
    b_refcnt (getb i s) <> 0 /\
    b_lock (getb i s) = (if decide (b ∈ c_held c) then mk_sleeplock true me else mk_sleeplock false 0).
Proof.
  intros Hr Hb. pose proof (find_cached_spec s ROOTDEV b (br_ring _ _ _ Hr)) as Hf. unfold on_buf.
  fold (nx s HEAD). destruct (find_cached _ _ _ _ _) as [i|].
  - destruct Hf as (Hi & H1 & H2). pose proof (br_bufs _ _ _ Hr i Hi) as Hok. unfold buf_ok in Hok.
    rewrite decide_True, H2 in Hok by done. destruct Hok as (H3 & H4 & H5). destruct (decide (b_refcnt (getb i s) = 0)).
    { destruct H5 as [H5 _]. rewrite H5 in Hb. by apply is_Some_None in Hb. }
    destruct H5 as [H5 H6]. exists i. split_and!; auto.
  - destruct (br_refs _ _ _ Hr b Hb) as (i & Hi & H1 & H2). exfalso. by eapply Hf.
Qed.

(** Updates of a referenced buffer that keep its key. *)
Lemma rel_update_held s c i b f d' c' :
  bio_rel me s c -> is_buf i -> b_dev (getb i s) = ROOTDEV -> b_blockno (getb i s) = b ->
  keeps_links f -> b_dev (f (getb i s)) = ROOTDEV -> b_blockno (f (getb i s)) = b -> same_but b c c' ->
  buf_ok me c' (f (getb i s)) -> d' = c_disk c' ->
  (b ∈ c_held c' \/ pins c' b <> 0%nat -> is_Some (c_mem c' !! b)) -> Z.of_nat (pins c' b) <= 1073741824 ->
  bio_rel me (mk_bio (bufs (updb i f s)) d') c'.
Proof.
  intros Hr Hi Hd Hb Hk Hd' Hb' Hs Hok Hdisk Hu Hp.
  apply (rel_update s c i f d' c'); rewrite ?Hb'; auto.
  intros j Hj Hne Hdj E. apply Hne. apply (br_uniq _ _ _ Hr); auto. by rewrite E, Hb.
Qed.

Lemma updb_eta i f s : updb i f s = mk_bio (bufs (updb i f s)) (bio_disk s).
Proof. done. Qed.

Lemma updb_id i s : bufs (updb i (fun x => x) s) = bufs s.
Proof.
  simpl. apply list_eq. intros j. rewrite list_lookup_alter. case_decide as E; [|done].
  rewrite E. by destruct (bufs s !! j).
Qed.

Lemma same_but_mem c b m :
  (forall b', b' <> b -> m !! b' = c_mem c !! b') -> same_but b c (set_c_mem m c).
Proof. intros Hm b' Hb'. split_and!; auto. Qed.

Lemma sim_data b : sim (bio_rel me) (on_buf b (fun i => gets (fun s => b_data (getb i s)))) (cache_data b).
Proof.
  intros s c Hr a c' E. unfold cache_data in E. case_decide as Hh; [|done]. injection E as <- <-.
  destruct (on_buf_held s c b (fun i => gets (fun s => b_data (getb i s))) Hr) as (i & Hi & Hd & Hb & -> & Hv & Hm & _).
  { apply (br_used _ _ _ Hr). by left. }
  exists s. split; [|done]. unfold gets, c_view. by rewrite Hm.
Qed.

Lemma sim_set b d : sim (bio_rel me) (on_buf b (fun i => modify (updb i (set_data d)))) (cache_set b d).
Proof.
  intros s c Hr a c' E. unfold cache_set in E. case_decide as Hh; [|done]. injection E as <- <-.
  destruct (on_buf_held s c b (fun i => modify (updb i (set_data d))) Hr)
    as (i & Hi & Hd & Hb & -> & Hv & Hm & Href & Hnz & Hlk); [apply (br_used _ _ _ Hr); by left|].
  eexists. split; [done|]. rewrite updb_eta.
  apply (rel_update_held s c i b); auto; try done.
  - apply same_but_mem. intros b' Hne. by rewrite lookup_insert_ne.
  - unfold buf_ok. simpl. rewrite Hd, Hb. rewrite decide_True by done. split_and!; auto.
    rewrite decide_False by done. by rewrite lookup_insert_eq.
  - apply Hr.
  - intros _. simpl. rewrite lookup_insert_eq. by eexists.
  - apply (br_pins _ _ _ Hr).
Qed.

Lemma sim_write b : sim (bio_rel me) (on_buf b (bwrite me)) (cache_write b).
Proof.
  intros s c Hr a c' E. unfold cache_write in E. case_decide as Hh; [|done]. injection E as <- <-.
  destruct (on_buf_held s c b (bwrite me) Hr)
    as (i & Hi & Hd & Hb & -> & Hv & Hm & Href & Hnz & Hlk); [apply (br_used _ _ _ Hr); by left|].
  unfold bwrite, holdingsleep. rewrite Hlk, decide_True by done. cbn [sl_locked sl_pid]. rewrite Z.eqb_refl. simpl.
  eexists. split; [done|]. unfold virtio_disk_rw. rewrite Hb.
  rewrite <- (updb_id i s).
  apply (rel_update_held s c i b); auto; try done.
  - intros b' Hne. split_and!; auto. simpl. unfold disk_get. by rewrite lookup_insert_ne.
  - unfold buf_ok. simpl. rewrite Hd, Hb. rewrite decide_True by done. split_and!; auto.
    by rewrite decide_False.
  - simpl. unfold c_view. rewrite Hm. simpl. by rewrite (br_disk _ _ _ Hr).
  - apply (br_pins _ _ _ Hr).
Qed.

(** pins of an updated cache. *)
Lemma pins_insert d m h p b n b' :
  pins (mk_cache d m h (<[b := n]> p)) b' = if decide (b' = b) then n else default 0%nat (p !! b').
Proof. unfold pins. simpl. case_decide; [subst; by rewrite lookup_insert_eq|by rewrite lookup_insert_ne]. Qed.

Lemma sim_pin b : sim (bio_rel me) (on_buf b bpin) (cache_pin b).
Proof.
  intros s c Hr a c' E. unfold cache_pin in E. destruct (bool_decide _) eqn:Hh; [|done].
  apply bool_decide_eq_true in Hh. destruct (Z.ltb_spec (Z.of_nat (pins c b)) 1073741824); [|done]. injection E as <- <-.
  destruct (on_buf_held s c b bpin Hr)
    as (i & Hi & Hd & Hb & -> & Hv & Hm & Href & Hnz & Hlk); [apply (br_used _ _ _ Hr); by left|].
  eexists. split; [done|]. rewrite updb_eta. rewrite decide_True in Href by done. rewrite decide_True in Hlk by done.
  apply (rel_update_held s c i b); auto; try done.
  - intros b' Hne. rewrite pins_insert, decide_False by done. done.
  - unfold buf_ok. simpl. rewrite Hd, Hb, Href. rewrite decide_True, !(decide_True (P := b ∈ c_held c)) by done.
    rewrite pins_insert, decide_True by done. rewrite u32_small by lia. split_and!; auto; [lia|].
    rewrite decide_False by lia. auto.
  - apply Hr.
  - rewrite pins_insert, decide_True by done. lia.
Qed.

Lemma sim_unpin b : sim (bio_rel me) (on_buf b bunpin) (cache_unpin b).
Proof.
  intros s c Hr a c' E. unfold cache_unpin in E. case_decide as Hh; [|done].
  destruct (pins c b) as [|n] eqn:Hp; [done|]. injection E as <- <-.
  destruct (on_buf_held s c b bunpin Hr)
    as (i & Hi & Hd & Hb & -> & Hv & Hm & Href & Hnz & Hlk); [apply (br_used _ _ _ Hr); by left|].
  eexists. split; [done|]. rewrite updb_eta. rewrite decide_True in Href by done. rewrite decide_True in Hlk by done.
  pose proof (br_pins _ _ _ Hr b).
  apply (rel_update_held s c i b); auto; try done.
  - intros b' Hne. rewrite pins_insert, decide_False by done. done.
  - unfold buf_ok. simpl. rewrite Hd, Hb, Href. rewrite decide_True, !(decide_True (P := b ∈ c_held c)) by done.
    rewrite pins_insert, decide_True by done. rewrite u32_small by lia. split_and!; auto; [lia|].
    rewrite decide_False by lia. auto.
  - apply Hr.
  - rewrite pins_insert, decide_True by done. lia.
Qed.

(** Everything but the links. *)
Definition same_fields (x y : buf) : Prop :=
  b_valid x = b_valid y /\ b_dev x = b_dev y /\ b_blockno x = b_blockno y /\ b_lock x = b_lock y /\
  b_refcnt x = b_refcnt y /\ b_data x = b_data y.

Lemma updb_fields i f s j :
  (forall y, same_fields (f y) y) -> same_fields (getb j (updb i f s)) (getb j s).
Proof.
  intros Hf. unfold getb, updb. simpl. rewrite !list_lookup_total_alt, list_lookup_alter.
  case_decide as E; [|done]. rewrite E. destruct (bufs s !! _); [apply Hf|done].
Qed.

Lemma same_fields_trans x y z : same_fields x y -> same_fields y z -> same_fields x z.
Proof. unfold same_fields. intuition congruence. Qed.

Lemma to_front_fields b s j : same_fields (getb j (to_front b s)) (getb j s).
Proof.
  unfold to_front. repeat (eapply same_fields_trans; [apply updb_fields; done|]). done.
Qed.

Lemma to_front_length b s : length (bufs (to_front b s)) = length (bufs s).
Proof. unfold to_front. by rewrite !length_updb. Qed.

Lemma rel_links s s' c :
  bio_rel me s c -> length (bufs s') = 31%nat -> ring_ok s' -> bio_disk s' = bio_disk s ->
  (forall j, same_fields (getb j s') (getb j s)) -> bio_rel me s' c.
Proof.
  intros [H1 H2 H3 H4 H5 H6 H7 H8] Hl Hr Hd Hf. split; auto.
  - congruence.
  - intros i j Hi Hj. destruct (Hf i) as (_ & -> & -> & _), (Hf j) as (_ & -> & -> & _). by apply H4.
  - intros i Hi. specialize (H5 i Hi). destruct (Hf i) as (E1 & E2 & E3 & E4 & E5 & E6).
    unfold buf_ok in *. by rewrite E1, E2, E3, E4, E5, E6.
  - intros b Hb. destruct (H6 b Hb) as (i & Hi & F1 & F2). exists i.
    destruct (Hf i) as (_ & -> & -> & _). auto.
Qed.

Lemma rel_to_front s c b : bio_rel me s c -> is_buf b -> bio_rel me (to_front b s) c.
Proof.
  intros Hr Hb. apply (rel_links s); auto.
  - rewrite to_front_length. apply Hr.
  - apply to_front_ring; auto; apply Hr.
  - intros j. apply to_front_fields.
Qed.

Lemma updb_updb i f g s : updb i g (updb i f s) = updb i (fun x => g (f x)) s.
Proof.
  unfold updb. simpl. f_equal. apply list_eq. intros j. rewrite !list_lookup_alter.
  case_decide; [|done]. rewrite decide_True by done. by destruct (bufs s !! _).
Qed.

Lemma sim_relse b : sim (bio_rel me) (on_buf b (brelse me)) (cache_relse b).
Proof.
  intros s c Hr a c' E. unfold cache_relse in E. case_decide as Hh; [|done].
  destruct (on_buf_held s c b (brelse me) Hr)
    as (i & Hi & Hd & Hb & -> & Hv & Hm & Href & Hnz & Hlk); [apply (br_used _ _ _ Hr); by left|].
  rewrite decide_True in Href by done. rewrite decide_True in Hlk by done. pose proof (br_pins _ _ _ Hr b) as Hpb.
  assert (Hi30 : 0 <= i <= 30) by (unfold is_buf, NBUF in Hi; lia).
  unfold brelse, holdingsleep. rewrite Hlk. cbn [sl_locked sl_pid]. rewrite Z.eqb_refl. cbn [negb andb].
  rewrite updb_updb. set (f := fun x : buf => set_refcnt _ _).
  assert (Ef : getb i (updb i f s) = f (getb i s)).
  { rewrite getb_updb, decide_True by (done || apply Hr). done. }
  rewrite Ef. replace (b_refcnt (f (getb i s))) with (Z.of_nat (pins c b))
    by (unfold f; simpl; rewrite Href, u32_small; lia).
  eexists. split; [replace a with tt by (by destruct a); reflexivity|].
  assert (Hrel : bio_rel me (updb i f s) c').
  { rewrite updb_eta. destruct (pins c b) as [|n] eqn:Hp.
    - destruct (clean c b) eqn:Hc; [|done]. injection E as <- <-. apply bool_decide_eq_true in Hc.
      apply (rel_update_held s c i b); auto; try done.
      + intros b' Hne. simpl. rewrite lookup_delete_ne by done. split_and!; auto. set_solver.
      + unfold buf_ok, f. simpl. rewrite Hd, Hb, Href. rewrite decide_True by done.
        change (pins (mk_cache (c_disk c) (delete b (c_mem c)) (c_held c ∖ {[b]}) (c_pins c)) b) with (pins c b).
        rewrite Hp. change (u32 (1 + Z.of_nat 0 - 1)) with 0.
        rewrite !(decide_False (P := b ∈ c_held c ∖ {[b]})) by set_solver. split_and!; auto.
        rewrite decide_True by done. rewrite lookup_delete_eq. split; [done|]. intros _. congruence.
      + apply Hr.
      + intros [?|Hx]; [set_solver|]. by change (pins c b <> 0%nat) in Hx.
      + change (Z.of_nat (pins c b) <= 1073741824). lia.
    - injection E as <- <-. apply (rel_update_held s c i b); auto; try done.
      + intros b' Hne. simpl. split_and!; auto. set_solver.
      + unfold buf_ok, f. simpl. rewrite Hd, Hb, Href. rewrite decide_True by done.
        change (pins (mk_cache (c_disk c) (c_mem c) (c_held c ∖ {[b]}) (c_pins c)) b) with (pins c b).
        rewrite Hp. rewrite u32_small by lia.
        rewrite !(decide_False (P := b ∈ c_held c ∖ {[b]})) by set_solver. split_and!; auto; [lia|].
        rewrite decide_False by lia. auto.
      + apply Hr.
      + change (Z.of_nat (pins c b) <= 1073741824). lia. }
  destruct (Z.of_nat (pins c b) =? 0); [by apply rel_to_front|done].
Qed.

(** bread once bget has found the buffer: [g] is what bget did to it. *)
Lemma bread_run s i g b :
  length (bufs s) = 31%nat -> is_buf i -> bget me ROOTDEV b s = Ok (i, updb i g s) ->
  b_blockno (g (getb i s)) = b ->
  bread me ROOTDEV b s = Ok (i, updb i (fun x => if b_valid (g (getb i s)) then g x
    else set_valid true (set_data (disk_get (d_blocks (bio_disk s)) b) (g x))) s).
Proof.
  intros Hl Hi E Hb. assert (Hi30 : 0 <= i <= 30) by (unfold is_buf, NBUF in Hi; lia).
  assert (Eg : getb i (updb i g s) = g (getb i s)) by (rewrite getb_updb, decide_True by done; done).
  unfold bread. rewrite (bind_Ok _ _ _ _ _ E), bind_run, gets_run, Eg.
  destruct (b_valid (g (getb i s))); cbn [negb]; [done|].
  rewrite bind_run, modify_run. unfold virtio_disk_rw. rewrite Eg, Hb, !updb_updb. done.
Qed.

Lemma all_referenced s c :
  bio_rel me s c -> (forall i, is_buf i -> b_refcnt (getb i s) <> 0) -> (30 <= size (c_mem c))%nat.
Proof.
  intros Hr Hall.
  assert (Hk : forall i, is_buf i -> b_dev (getb i s) = ROOTDEV /\ is_Some (c_mem c !! b_blockno (getb i s))).
  { intros i Hi. pose proof (br_bufs _ _ _ Hr i Hi) as Hok. unfold buf_ok in Hok. specialize (Hall i Hi).
    case_decide; [|by destruct Hok]. split; [done|]. destruct Hok as (_ & _ & Hok).
    rewrite decide_False in Hok by done. destruct Hok as [_ ->]. by eexists. }
  set (keys := (fun i => b_blockno (getb i s)) <$> seqZ 0 30).
  assert (Hb : forall i, i ∈ seqZ 0 30 -> is_buf i).
  { intros i Hi. apply elem_of_seqZ in Hi. unfold is_buf, NBUF. lia. }
  assert (Hnd : NoDup keys).
  { apply NoDup_fmap_2_strong; [|apply NoDup_seqZ]. intros x y Hx Hy E.
    apply (br_uniq _ _ _ Hr); auto; by apply Hk, Hb. }
  rewrite <- size_dom. replace 30%nat with (size (list_to_set keys : gset Z)).
  - apply subseteq_size. intros b Hb'. apply elem_of_list_to_set, list_elem_of_fmap in Hb' as (i & -> & Hi).
    apply elem_of_dom. by apply Hk, Hb.
  - rewrite size_list_to_set by done. unfold keys. by rewrite length_fmap, length_seqZ.
Qed.

(** A read of block [b] ends in the abstract state of [cache_read]. *)
Lemma rel_read s c i b g :
  bio_rel me s c -> is_buf i -> b ∉ c_held c -> keeps_links g ->
  (forall j, is_buf j -> j <> i -> b_dev (getb j s) = ROOTDEV -> b_blockno (getb j s) <> b) ->
  (b_dev (getb i s) = ROOTDEV /\ b_blockno (getb i s) = b \/ b_refcnt (getb i s) = 0) ->
  b_dev (g (getb i s)) = ROOTDEV -> b_blockno (g (getb i s)) = b ->
  b_refcnt (g (getb i s)) = 1 + Z.of_nat (pins c b) -> b_lock (g (getb i s)) = mk_sleeplock true me ->
  (b_valid (g (getb i s)) = true -> b_data (g (getb i s)) = c_view c b) ->
  (b_valid (g (getb i s)) = false -> c_mem c !! b = None) ->
  bget me ROOTDEV b s = Ok (i, updb i g s) ->
  exists s', bread me ROOTDEV b s = Ok (i, s') /\
    bio_rel me s' (mk_cache (c_disk c) (<[b := c_view c b]> (c_mem c)) ({[b]} ∪ c_held c) (c_pins c)).
Proof.
  intros Hr Hi Hh Hk Huq Hold Hd Hb Href Hlk Hval Hinv E.
  rewrite (bread_run s i g b); auto; [|apply Hr]. eexists. split; [done|].
  set (f := fun x : buf => _).
  assert (Ef : same_fields (f (getb i s)) (mk_buf true ROOTDEV b (mk_sleeplock true me) (1 + Z.of_nat (pins c b)) 0 0 (c_view c b))).
  { unfold f, same_fields. destruct (b_valid (g (getb i s))) eqn:Ev; simpl; split_and!; auto.
    unfold c_view. rewrite (Hinv eq_refl), <- (br_disk _ _ _ Hr). done. }
  destruct Ef as (E1 & E2 & E3 & E4 & E5 & E6). rewrite updb_eta.
  apply (rel_update s c i f); rewrite ?E3; auto; simpl.
  - intros y. unfold f. destruct (b_valid _); apply Hk.
  - intros b' Hne. simpl. rewrite lookup_insert_ne by done. split_and!; auto. set_solver.
  - unfold buf_ok. rewrite E1, E2, E3, E4, E5, E6. simpl.
    rewrite !(decide_True (P := b ∈ {[b]} ∪ c_held c)) by set_solver. split_and!; auto.
    rewrite decide_False by lia. split; [done|]. by rewrite lookup_insert_eq.
  - apply Hr.
  - intros _. rewrite lookup_insert_eq. by eexists.
  - apply (br_pins _ _ _ Hr).
Qed.

Lemma sim_read b : sim (bio_rel me) (bread me ROOTDEV b;; mret tt) (cache_read b).
Proof.
  intros s c Hr a c' E. unfold cache_read in E. case_decide as Hh; [done|].
  destruct (bool_decide _ && _) eqn:Hroom; [done|]. injection E as <- <-.
  assert (Hfin : forall i s', bread me ROOTDEV b s = Ok (i, s') -> (bread me ROOTDEV b;; mret tt) s = Ok (tt, s')).
  { intros i s' Er. by rewrite (bind_Ok _ _ _ _ _ Er). }
  pose proof (find_cached_spec s ROOTDEV b (br_ring _ _ _ Hr)) as Hf.
  destruct (find_cached ring_fuel s ROOTDEV b (nx s HEAD)) as [i|] eqn:Ef.
  - destruct Hf as (Hi & Hd & Hb). assert (Hi30 : 0 <= i <= 30) by (unfold is_buf, NBUF in Hi; lia).
    pose proof (br_bufs _ _ _ Hr i Hi) as Hok. unfold buf_ok in Hok. rewrite decide_True, Hb in Hok by done.
    destruct Hok as (H1 & H2 & H3). rewrite decide_False in H1 by done. rewrite decide_False in H2 by done.
    pose proof (br_pins _ _ _ Hr b).
    edestruct (rel_read s c i b (fun x => set_lock (mk_sleeplock true me) (set_refcnt (u32 (b_refcnt x + 1)) x)))
      as (s' & Er & Hr'); simpl; auto; [done|..].
    + intros j Hj Hne Hdj Ej. apply Hne. apply (br_uniq _ _ _ Hr); auto. by rewrite Ej.
    + rewrite H1, u32_small; lia.
    + intros Hv. unfold c_view. destruct (decide (b_refcnt (getb i s) = 0)); destruct H3 as [H3 H4].
      * rewrite H3. by apply H4.
      * by rewrite H4.
    + intros Hv. destruct (decide (b_refcnt (getb i s) = 0)); destruct H3 as [H3 H4]; [done|congruence].
    + unfold bget. fold (nx s HEAD). rewrite Ef. unfold acquire_buf, acquiresleep.
      rewrite getb_updb, decide_True by (done || apply Hr). simpl. rewrite H2. simpl. by rewrite updb_updb.
    + exists s'. eauto.
  - assert (Hnone : c_mem c !! b = None).
    { destruct (c_mem c !! b) eqn:Em; [|done]. destruct (br_refs _ _ _ Hr b) as (i & Hi & F1 & F2); [by eexists|].
      exfalso. by apply (Hf i Hi). }
    assert (Hp0 : pins c b = 0%nat).
    { destruct (decide (pins c b = 0%nat)); [done|]. exfalso. destruct (br_used _ _ _ Hr b) as [x Hx]; [by right|congruence]. }
    pose proof (find_unused_spec s (br_ring _ _ _ Hr)) as Hu.
    destruct (find_unused ring_fuel s (pv s HEAD)) as [i|] eqn:Eu.
    + destruct Hu as [Hi Hz]. assert (Hi30 : 0 <= i <= 30) by (unfold is_buf, NBUF in Hi; lia).
      assert (Hlk : b_lock (getb i s) = mk_sleeplock false 0).
      { pose proof (br_bufs _ _ _ Hr i Hi) as Hok. unfold buf_ok in Hok.
        case_decide; [|apply Hok]. destruct Hok as (F1 & F2 & _). rewrite F2.
        case_decide; [lia|done]. }
      edestruct (rel_read s c i b (fun x => set_lock (mk_sleeplock true me)
        (set_refcnt 1 (set_valid false (set_key ROOTDEV b x))))) as (s' & Er & Hr'); simpl; auto; [done|..].
      * intros j Hj _ Hdj Ej. by apply (Hf j Hj).
      * rewrite Hp0. done.
      * done.
      * unfold bget. fold (nx s HEAD). fold (pv s HEAD). rewrite Ef, Eu. unfold acquire_buf, acquiresleep.
        rewrite !updb_updb, getb_updb, decide_True by (done || apply Hr). simpl. rewrite Hlk. simpl.
        by rewrite !updb_updb.
      * exists s'. eauto.
    + exfalso. pose proof (all_referenced s c Hr Hu) as Hsz.
      rewrite bool_decide_eq_true_2 in Hroom by done. simpl in Hroom. unfold NBUF in Hroom. lia.
Qed.

(** bio.c implements the abstract cache. *)
#[global] Instance bio_sim : @BufCacheSim bio cache (bio_BufCache me) _ (bio_rel me).
Proof.
  split; intros.
  - apply sim_read.
  - apply sim_data.
  - apply sim_set.
  - apply sim_write.
  - apply sim_relse.
  - apply sim_pin.
  - apply sim_unpin.
Qed.

End sim.

(** * Boot *)

(** bcache before binit: zeroed memory. *)
Definition bss_buf : buf := mk_buf false 0 0 (mk_sleeplock false 0) 0 0 0 zero_block.
Definition bss_bio (d : disk) : bio := mk_bio (replicate 31 bss_buf) d.

Lemma binit_loop_ring k : forall b s ord,
  length (bufs s) = 31%nat -> 0 <= b -> b + Z.of_nat k <= 30 ->
  ring (nx s) (pv s) HEAD ord -> (forall i, i ∈ ord <-> 0 <= i < b) ->
  (forall i, 0 <= i < 30 -> b_dev (getb i s) = 0 /\ b_refcnt (getb i s) = 0 /\ b_lock (getb i s) = mk_sleeplock false 0) ->
  let s' := binit_loop k b s in
  length (bufs s') = 31%nat /\ bio_disk s' = bio_disk s /\
  (exists ord', ring (nx s') (pv s') HEAD ord' /\ (forall i, i ∈ ord' <-> 0 <= i < b + Z.of_nat k)) /\
  (forall i, 0 <= i < 30 -> b_dev (getb i s') = 0 /\ b_refcnt (getb i s') = 0 /\ b_lock (getb i s') = mk_sleeplock false 0).
Proof.
  induction k as [|k IH]; intros b s ord Hl Hb Hk Hr Ho Hz.
  { simpl. split_and!; auto. exists ord. split; [done|]. intros i. rewrite Ho. lia. }
  cbn [binit_loop]. set (s1 := binit_one b s).
  assert (Hhr : 0 <= HEAD <= 30) by (unfold HEAD, NBUF; lia).
  assert (Hnh : 0 <= nx s HEAD <= 30).
  { pose proof (ring_next_in _ _ _ _ HEAD Hr ltac:(by left)) as Hn. apply elem_of_cons in Hn as [->|Hn]; [done|].
    apply Ho in Hn. lia. }
  assert (Hbh : b <> HEAD) by (unfold HEAD, NBUF; lia).
  assert (Hl1 : length (bufs s1) = 31%nat) by (unfold s1, binit_one; by rewrite !length_updb).
  assert (Hg : forall x, 0 <= x <= 30 ->
    nx s1 x = fupd (fupd (nx s) b (nx s HEAD)) HEAD b x /\ pv s1 x = fupd (fupd (pv s) b HEAD) (nx s HEAD) b x /\
    b_dev (getb x s1) = b_dev (getb x s) /\ b_refcnt (getb x s1) = b_refcnt (getb x s) /\
    b_lock (getb x s1) = if decide (x = b) then mk_sleeplock false 0 else b_lock (getb x s)).
  { intros x Hx. unfold s1, binit_one. fold (nx s HEAD).
    assert (Eh : b_next (getb HEAD (updb b (fun y => set_lock (initsleeplock (b_lock y)) y)
                  (updb b (set_prev HEAD) (updb b (set_next (nx s HEAD)) s)))) = nx s HEAD).
    { rewrite !updb_updb, getb_updb, decide_False by (done || lia). done. }
    rewrite Eh, !updb_updb. unfold nx, pv, fupd. rewrite !getb_updb by (rewrite ?length_updb; done || lia).
    repeat case_decide; subst; simpl; auto; try done. }
  destruct (IH (b + 1) s1 (b :: ord)) as (F1 & F2 & F3 & F4); auto; try lia.
  - eapply ring_ext; [|apply chain_push; [|exact Hr]].
    + intros x Hx. assert (Hx' : 0 <= x <= 30).
      { apply elem_of_cons in Hx as [->|Hx]; [done|]. apply elem_of_cons in Hx as [->|Hx]; [lia|].
        apply Ho in Hx. lia. }
      destruct (Hg x Hx') as (-> & -> & _). done.
    + rewrite elem_of_cons, Ho. unfold HEAD, NBUF. lia.
  - intros i. rewrite elem_of_cons, Ho. lia.
  - intros i Hi. destruct (Hg i) as (_ & _ & -> & -> & ->); [lia|]. destruct (Hz i Hi) as (-> & -> & ->).
    by case_decide.
  - split_and!; auto. destruct F3 as (ord' & H1 & H2). exists ord'. split; [done|]. intros i. rewrite H2. lia.
Qed.

Lemma binit_rel me d : bio_rel me (binit (bss_bio d)) (empty_cache d).
Proof.
  assert (Hhr : 0 <= HEAD <= 30) by (unfold HEAD, NBUF; lia).
  set (s0 := updb HEAD (set_next HEAD) (updb HEAD (set_prev HEAD) (bss_bio d))).
  assert (Hl0 : length (bufs (bss_bio d)) = 31%nat) by done.
  assert (G : forall i, 0 <= i <= 30 -> getb i (bss_bio d) = bss_buf).
  { intros i Hi. unfold getb, bss_bio. rewrite list_lookup_total_alt. cbn [bufs].
    rewrite lookup_replicate_2 by lia. done. }
  destruct (binit_loop_ring 30 0 s0 []) as (H1 & H2 & (ord & H3 & H4) & H5); [by unfold s0; rewrite !length_updb|lia|lia|..].
  - split; [apply NoDup_singleton|]. simpl. unfold nx, pv, s0. rewrite updb_updb.
    rewrite getb_updb, decide_True by done. done.
  - intros i. rewrite elem_of_nil. lia.
  - intros i Hi. unfold s0. rewrite updb_updb, getb_updb by (done || lia). rewrite G by lia.
    rewrite decide_False by (unfold HEAD, NBUF; lia). done.
  - unfold binit. fold s0. change (Z.to_nat NBUF) with 30%nat.
    assert (Hb : forall i, is_buf i -> 0 <= i < 30) by (unfold is_buf, NBUF; lia).
    change (bio_disk s0) with d in H2. revert H1 H2 H3 H5. generalize (binit_loop 30 0 s0).
    intros s1 H1 H2 H3 H5. split; [exact H1| |exact H2|..].
    + exists ord. split; [done|]. intros i. rewrite H4. unfold is_buf, NBUF. lia.
    + intros i j Hi Hj E. destruct (H5 i (Hb i Hi)) as (F & _). rewrite F in E. done.
    + intros i Hi. destruct (H5 i (Hb i Hi)) as (F1 & F2 & F3). unfold buf_ok. rewrite F1, F2, F3.
      rewrite decide_False by done. done.
    + intros b [x Hx]. simpl in Hx. by rewrite lookup_empty in Hx.
    + intros b [Hx|Hx]; [set_solver|]. unfold pins in Hx. simpl in Hx. by rewrite lookup_empty in Hx.
    + intros b. unfold pins. simpl. rewrite lookup_empty. simpl. lia.
Qed.
