(* ===== verification/Log.v ===== *)
(** kernel/log.c: the redo log, over any buffer cache.

    The routines are those of log.c; a process that would wait for the log
    stops with [sleeps].  On the abstract cache the file proves what a
    commit writes and in which order, that recovery completes it, and that a
    crash at any of its disk writes leaves either the old or the new state. *)

From S2P Require Import Prelude Riscv Bytes Refine Cache.

(** struct log, with its logheader; [lg_block] has LOGSIZE entries. *)
Record logst := mk_log {
  lg_start : Z;
  lg_size : Z;
  lg_outstanding : Z;
  lg_committing : bool;
  lg_dev : Z;
  lg_n : Z;
  lg_block : list Z;
}.

Record lfs (S : Type) := mk_lfs { l_log : logst; l_bc : S }.
Arguments mk_lfs {S} _ _.
Arguments l_log {S} _.
Arguments l_bc {S} _.

#[global] Instance lfs_bc {S} : Lens (lfs S) S := {
  lget := l_bc;
  lset s t := mk_lfs (l_log t) s;
}.
#[global] Instance lfs_log {S} : Lens (lfs S) logst := {
  lget := l_log;
  lset s t := mk_lfs s (l_bc t);
}.

Definition set_n (n : Z) (g : logst) : logst :=
  mk_log (lg_start g) (lg_size g) (lg_outstanding g) (lg_committing g) (lg_dev g) n (lg_block g).
Definition set_block (i v : Z) (g : logst) : logst :=
  mk_log (lg_start g) (lg_size g) (lg_outstanding g) (lg_committing g) (lg_dev g) (lg_n g)
         (<[Z.to_nat i := v]> (lg_block g)).
Definition set_outstanding (v : Z) (g : logst) : logst :=
  mk_log (lg_start g) (lg_size g) v (lg_committing g) (lg_dev g) (lg_n g) (lg_block g).
Definition set_committing (v : bool) (g : logst) : logst :=
  mk_log (lg_start g) (lg_size g) (lg_outstanding g) v (lg_dev g) (lg_n g) (lg_block g).

Definition log_block (g : logst) (i : Z) : Z := lg_block g !!! Z.to_nat i.

(** struct logheader in a block: n, then block[]; both are int. *)
Definition hdr_n (d : block) : Z := s32 (get32 d 0).
Definition hdr_block (d : block) (i : Z) : Z := s32 (get32 d (4 + 4 * i)).

Section log.
Context {S : Type} `{BufCache S}.

Definition getlog {A} (f : logst -> A) : M (lfs S) A := gets (fun t => f (l_log t)).
Definition modlog (f : logst -> logst) : M (lfs S) unit := modify (fun t => mk_lfs (f (l_log t)) (l_bc t)).
Definition bc {A} (m : M S A) : M (lfs S) A := zoom m.

(** for (tail = 0; tail < log.lh.n; tail++); [k] iterations are left. *)
Fixpoint install_trans_loop (k : nat) (tail : Z) (recovering : bool) : M (lfs S) unit :=
  match k with
  | O => mret tt
  | Datatypes.S k =>
      g ← getlog id;
      let lbuf := lg_start g + tail + 1 in
      let dbuf := log_block g tail in
      bc (bc_read lbuf);;
      bc (bc_read dbuf);;
      d ← bc (bc_data lbuf);
      bc (bc_set dbuf d);;
      bc (bc_write dbuf);;
      (if negb recovering then bc (bc_unpin dbuf) else mret tt);;
      bc (bc_relse lbuf);;
      bc (bc_relse dbuf);;
      install_trans_loop k (tail + 1) recovering
  end.

Definition install_trans (recovering : bool) : M (lfs S) unit :=
  n ← getlog lg_n;
  install_trans_loop (Z.to_nat n) 0 recovering.

(** for (i = 0; i < log.lh.n; i++) log.lh.block[i] = lh->block[i]; *)
Fixpoint read_head_loop (k : nat) (i : Z) (lh : block) (g : logst) : logst :=
  match k with
  | O => g
  | Datatypes.S k => read_head_loop k (i + 1) lh (set_block i (hdr_block lh i) g)
  end.

Definition read_head : M (lfs S) unit :=
  start ← getlog lg_start;
  bc (bc_read start);;
  lh ← bc (bc_data start);
  modlog (set_n (hdr_n lh));;
  modlog (fun g => read_head_loop (Z.to_nat (lg_n g)) 0 lh g);;
  bc (bc_relse start).

(** for (i = 0; i < log.lh.n; i++) hb->block[i] = log.lh.block[i]; *)
Fixpoint write_head_loop (k : nat) (i : Z) (g : logst) (hb : block) : block :=
  match k with
  | O => hb
  | Datatypes.S k => write_head_loop k (i + 1) g (put32 hb (4 + 4 * i) (log_block g i))
  end.

Definition write_head : M (lfs S) unit :=
  g ← getlog id;
  let start := lg_start g in
  bc (bc_read start);;
  hb ← bc (bc_data start);
  let hb := put32 hb 0 (lg_n g) in
  let hb := write_head_loop (Z.to_nat (lg_n g)) 0 g hb in
  bc (bc_set start hb);;
  bc (bc_write start);;
  bc (bc_relse start).

Definition recover_from_log : M (lfs S) unit :=
  read_head;;
  install_trans true;;
  modlog (set_n 0);;
  write_head.

(** sizeof(struct logheader) *)
Definition sizeof_logheader : Z := 4 + 4 * LOGSIZE.

Definition initlog (dev logstart nlog : Z) : M (lfs S) unit :=
  if BSIZE <=? sizeof_logheader then panic "initlog: too big logheader"
  else
    modlog (fun g => mk_log logstart nlog (lg_outstanding g) (lg_committing g) dev (lg_n g) (lg_block g));;
    recover_from_log.

Definition begin_op : M (lfs S) unit :=
  g ← getlog id;
  if lg_committing g then panic sleeps
  else if LOGSIZE <? lg_n g + (lg_outstanding g + 1) * MAXOPBLOCKS then panic sleeps
  else modlog (set_outstanding (lg_outstanding g + 1)).

(** for (tail = 0; tail < log.lh.n; tail++) *)
Fixpoint write_log_loop (k : nat) (tail : Z) : M (lfs S) unit :=
  match k with
  | O => mret tt
  | Datatypes.S k =>
      g ← getlog id;
      let to := lg_start g + tail + 1 in
      let from := log_block g tail in
      bc (bc_read to);;
      bc (bc_read from);;
      d ← bc (bc_data from);
      bc (bc_set to d);;
      bc (bc_write to);;
      bc (bc_relse from);;
      bc (bc_relse to);;
      write_log_loop k (tail + 1)
  end.

Definition write_log : M (lfs S) unit :=
  n ← getlog lg_n;
  write_log_loop (Z.to_nat n) 0.

Definition commit : M (lfs S) unit :=
  n ← getlog lg_n;
  if 0 <? n then
    write_log;;
    write_head;;
    install_trans false;;
    modlog (set_n 0);;
    write_head
  else mret tt.

Definition end_op : M (lfs S) unit :=
  modlog (fun g => set_outstanding (lg_outstanding g - 1) g);;
  g ← getlog id;
  if lg_committing g then panic "log.committing"
  else if lg_outstanding g =? 0 then
    modlog (set_committing true);;
    commit;;
    modlog (set_committing false)
  else mret tt.

(** for (i = 0; i < log.lh.n; i++) if (log.lh.block[i] == b->blockno) break; *)
Fixpoint log_find (k : nat) (i : Z) (blockno : Z) (g : logst) : Z :=
  match k with
  | O => i
  | Datatypes.S k => if log_block g i =? blockno then i else log_find k (i + 1) blockno g
  end.

Definition log_write (b : Z) : M (lfs S) unit :=
  g ← getlog id;
  if (LOGSIZE <=? lg_n g) || (lg_size g - 1 <=? lg_n g) then panic "too big a transaction"
  else if lg_outstanding g <? 1 then panic "log_write outside of trans"
  else
    let i := log_find (Z.to_nat (lg_n g)) 0 b g in
    modlog (set_block i b);;
    if i =? lg_n g then bc (bc_pin b);; modlog (set_n (lg_n g + 1))
    else mret tt.

End log.

(** * The log over the abstract cache *)

Lemma bc_run {S A} (m : M S A) (g : logst) (s s' : S) a :
  m s = Ok (a, s') -> bc m (mk_lfs g s) = Ok (a, mk_lfs g s').
Proof. intros E. unfold bc, zoom. simpl. by rewrite E. Qed.

Definition quiet (c : cache) : Prop := c_held c = ∅.

(** write_log's body copies one cached block to its place in the log. *)
Lemma write_log_body g c k tail d :
  let to := lg_start g + tail + 1 in let from := log_block g tail in
  quiet c -> c_mem c !! from = Some d -> pins c from <> 0%nat ->
  c_mem c !! to = None -> pins c to = 0%nat -> (size (c_mem c) < 30)%nat ->
  write_log_loop (Datatypes.S k) tail (mk_lfs g c) =
  write_log_loop k (tail + 1) (mk_lfs g (mk_cache (disk_put to d (c_disk c)) (c_mem c) ∅ (c_pins c))).
Proof.
  intros to from Hq Hfrom Hpf Hto Hpt Hsz. cbn [write_log_loop].
  assert (Hne : to <> from) by congruence. unfold quiet in Hq.
  unfold getlog. rewrite bind_run, gets_run. cbn [l_log id]. fold to from.
  rewrite (bind_Ok _ _ _ _ _ (bc_run _ g _ _ _ (cache_read_new to c ltac:(set_solver) Hto Hsz))).
  set (c1 := mk_cache _ _ _ _).
  assert (Hf1 : c_mem c1 !! from = Some d) by (simpl; rewrite lookup_insert_ne by done; done).
  rewrite (bind_Ok _ _ _ _ _ (bc_run _ g _ _ _ (cache_read_old from c1 d ltac:(simpl; set_solver) Hf1))).
  set (c2 := mk_cache (c_disk c1) _ _ _).
  rewrite (bind_Ok _ _ _ _ _ (bc_run _ g _ _ _ (cache_data_ok from c2 d ltac:(simpl; set_solver) Hf1))).
  rewrite (bind_Ok _ _ _ _ _ (bc_run _ g _ _ _ (cache_set_ok to c2 d ltac:(simpl; set_solver)))).
  set (c3 := mk_cache (c_disk c2) _ _ _).
  rewrite (bind_Ok _ _ _ _ _ (bc_run _ g _ _ _ (cache_write_ok to c3 d ltac:(simpl; set_solver) (lookup_insert_eq _ _ _)))).
  set (c4 := mk_cache (disk_put _ _ _) _ _ _).
  rewrite (bind_Ok _ _ _ _ _ (bc_run _ g _ _ _ (cache_relse_pinned from c4 ltac:(simpl; set_solver) Hpf))).
  set (c5 := mk_cache (c_disk c4) _ _ _).
  assert (Hcl : c_mem c5 !! to = Some (disk_get (d_blocks (c_disk c5)) to)).
  { change (c_disk c5) with (disk_put to d (c_disk c3)). rewrite disk_get_put_eq. apply lookup_insert_eq. }
  rewrite (bind_Ok _ _ _ _ _ (bc_run _ g _ _ _ (cache_relse_clean to c5 ltac:(simpl; set_solver) Hpt Hcl))).
  do 2 f_equal. simpl. f_equal.
  - rewrite insert_insert_eq, delete_insert_id by done. done.
  - rewrite Hq. set_solver.
Qed.

(** Run one cache operation. *)
Ltac cstep g l := rewrite (bind_Ok _ _ _ _ _ (bc_run _ g _ _ _ l)).

(** install_trans copies one log block home and drops the pin. *)
Lemma install_body g c k tail d0 :
  let lbuf := lg_start g + tail + 1 in let dst := log_block g tail in
  let dl := disk_get (d_blocks (c_disk c)) lbuf in
  quiet c -> c_mem c !! dst = Some d0 -> pins c dst = 1%nat ->
  c_mem c !! lbuf = None -> pins c lbuf = 0%nat -> (size (c_mem c) < 30)%nat ->
  install_trans_loop (Datatypes.S k) tail false (mk_lfs g c) =
  install_trans_loop k (tail + 1) false
    (mk_lfs g (mk_cache (disk_put dst dl (c_disk c)) (delete dst (c_mem c)) ∅ (<[dst := 0%nat]> (c_pins c)))).
Proof.
  intros lbuf dst dl Hq Hdst Hpd Hl Hpl Hsz. cbn [install_trans_loop negb].
  assert (Hne : lbuf <> dst) by congruence. unfold quiet in Hq.
  unfold getlog. rewrite bind_run, gets_run. cbn [l_log id]. fold lbuf dst.
  cstep g (cache_read_new lbuf c ltac:(set_solver) Hl Hsz). set (c1 := mk_cache _ _ _ _).
  assert (Hf1 : c_mem c1 !! dst = Some d0) by (simpl; rewrite lookup_insert_ne by done; done).
  cstep g (cache_read_old dst c1 d0 ltac:(simpl; set_solver) Hf1). set (c2 := mk_cache (c_disk c1) _ _ _).
  cstep g (cache_data_ok lbuf c2 dl ltac:(simpl; set_solver) (lookup_insert_eq _ _ _)).
  cstep g (cache_set_ok dst c2 dl ltac:(simpl; set_solver)). set (c3 := mk_cache (c_disk c2) _ _ _).
  cstep g (cache_write_ok dst c3 dl ltac:(simpl; set_solver) (lookup_insert_eq _ _ _)).
  set (c4 := mk_cache (disk_put _ _ _) _ _ _).
  cstep g (cache_unpin_ok dst c4 0 ltac:(simpl; set_solver) Hpd). set (c5 := mk_cache (c_disk c4) _ _ _).
  assert (Hpl5 : pins c5 lbuf = 0%nat) by (unfold pins; simpl; rewrite lookup_insert_ne by done; exact Hpl).
  assert (Hcl : c_mem c5 !! lbuf = Some (disk_get (d_blocks (c_disk c5)) lbuf)).
  { change (c_disk c5) with (disk_put dst dl (c_disk c3)). rewrite disk_get_put_ne by done.
    change (c_mem c5) with (<[dst := dl]> (<[lbuf := dl]> (c_mem c))).
    by rewrite lookup_insert_ne, lookup_insert_eq by done. }
  cstep g (cache_relse_clean lbuf c5 ltac:(simpl; set_solver) Hpl5 Hcl). set (c6 := mk_cache (c_disk c5) _ _ _).
  assert (Hpd6 : pins c6 dst = 0%nat) by (unfold pins; simpl; by rewrite lookup_insert_eq).
  assert (Hcl6 : c_mem c6 !! dst = Some (disk_get (d_blocks (c_disk c6)) dst)).
  { change (c_disk c6) with (disk_put dst dl (c_disk c3)). rewrite disk_get_put_eq.
    change (c_mem c6) with (delete lbuf (<[dst := dl]> (<[lbuf := dl]> (c_mem c)))).
    by rewrite lookup_delete_ne, lookup_insert_eq by done. }
  cstep g (cache_relse_clean dst c6 ltac:(simpl; set_solver) Hpd6 Hcl6).
  do 2 f_equal. unfold c6. cbn [c_disk c_mem c_held c_pins c5 c4]. f_equal.
  - change (delete dst (delete lbuf (<[dst := dl]> (<[lbuf := dl]> (c_mem c)))) = delete dst (c_mem c)).
    apply map_eq. intros x. destruct (decide (x = dst)) as [->|]; [by rewrite !lookup_delete_eq|].
    rewrite !(lookup_delete_ne _ dst) by done. destruct (decide (x = lbuf)) as [->|]; [by rewrite lookup_delete_eq|].
    by rewrite lookup_delete_ne, !lookup_insert_ne by done.
  - change ((({[dst]} ∪ ({[lbuf]} ∪ c_held c)) ∖ {[lbuf]}) ∖ {[dst]} = (∅ : gset Z)). rewrite Hq. set_solver.
Qed.

(** The same during recovery, when nothing is cached. *)
Lemma recover_body g c k tail :
  let lbuf := lg_start g + tail + 1 in let dst := log_block g tail in
  let dl := disk_get (d_blocks (c_disk c)) lbuf in
  quiet c -> lbuf <> dst -> c_mem c = ∅ -> pins c dst = 0%nat -> pins c lbuf = 0%nat ->
  install_trans_loop (Datatypes.S k) tail true (mk_lfs g c) =
  install_trans_loop k (tail + 1) true
    (mk_lfs g (mk_cache (disk_put dst dl (c_disk c)) ∅ ∅ (c_pins c))).
Proof.
  intros lbuf dst dl Hq Hne Hm Hpd Hpl. cbn [install_trans_loop negb]. unfold quiet in Hq.
  unfold getlog. rewrite bind_run, gets_run. cbn [l_log id]. fold lbuf dst.
  assert (Hl : c_mem c !! lbuf = None) by (rewrite Hm; apply lookup_empty).
  assert (Hsz : (size (c_mem c) < 30)%nat) by (rewrite Hm, map_size_empty; lia).
  cstep g (cache_read_new lbuf c ltac:(set_solver) Hl Hsz). set (c1 := mk_cache _ _ _ _).
  assert (Hl1 : c_mem c1 !! dst = None) by (simpl; rewrite lookup_insert_ne, Hm by done; apply lookup_empty).
  assert (Hsz1 : (size (c_mem c1) < 30)%nat).
  { simpl. rewrite Hm, insert_empty, map_size_singleton. lia. }
  cstep g (cache_read_new dst c1 ltac:(simpl; set_solver) Hl1 Hsz1). set (c2 := mk_cache (c_disk c1) _ _ _).
  assert (Hd2 : c_mem c2 !! lbuf = Some dl) by (simpl; rewrite lookup_insert_ne by done; apply lookup_insert_eq).
  cstep g (cache_data_ok lbuf c2 dl ltac:(simpl; set_solver) Hd2).
  cstep g (cache_set_ok dst c2 dl ltac:(simpl; set_solver)). set (c3 := mk_cache (c_disk c2) _ _ _).
  cstep g (cache_write_ok dst c3 dl ltac:(simpl; set_solver) (lookup_insert_eq _ _ _)).
  set (c4 := mk_cache (disk_put _ _ _) _ _ _).
  rewrite bind_run, ret_run.
  assert (Hcl : c_mem c4 !! lbuf = Some (disk_get (d_blocks (c_disk c4)) lbuf)).
  { change (c_disk c4) with (disk_put dst dl (c_disk c3)). rewrite disk_get_put_ne by done.
    change (c_mem c4) with (<[dst := dl]> (c_mem c2)). by rewrite lookup_insert_ne. }
  cstep g (cache_relse_clean lbuf c4 ltac:(simpl; set_solver) Hpl Hcl). set (c6 := mk_cache (c_disk c4) _ _ _).
  assert (Hcl6 : c_mem c6 !! dst = Some (disk_get (d_blocks (c_disk c6)) dst)).
  { change (c_disk c6) with (disk_put dst dl (c_disk c3)). rewrite disk_get_put_eq.
    change (c_mem c6) with (delete lbuf (<[dst := dl]> (c_mem c2))).
    by rewrite lookup_delete_ne, lookup_insert_eq by done. }
  cstep g (cache_relse_clean dst c6 ltac:(simpl; set_solver) Hpd Hcl6).
  do 2 f_equal. unfold c6. cbn [c_disk c_mem c_held c_pins c4 c3 c2 c1]. f_equal.
  - change (delete dst (delete lbuf (<[dst := dl]> (<[dst := disk_get (d_blocks (c_disk c1)) dst]>
      (<[lbuf := dl]> (c_mem c))))) = ∅). apply map_eq. intros x. rewrite Hm.
    destruct (decide (x = dst)) as [->|]; [by rewrite lookup_delete_eq, lookup_empty|].
    rewrite lookup_delete_ne by done.
    destruct (decide (x = lbuf)) as [->|]; [by rewrite lookup_delete_eq, lookup_empty|].
    by rewrite lookup_delete_ne, !lookup_insert_ne by done.
  - change ((({[dst]} ∪ ({[lbuf]} ∪ c_held c)) ∖ {[lbuf]}) ∖ {[dst]} = (∅ : gset Z)). rewrite Hq. set_solver.
Qed.

(** The header block write_head produces. *)
Definition head_block (g : logst) (hb : block) : block :=
  write_head_loop (Z.to_nat (lg_n g)) 0 g (put32 hb 0 (lg_n g)).

Lemma write_head_run g c :
  quiet c -> c_mem c !! lg_start g = None -> pins c (lg_start g) = 0%nat -> (size (c_mem c) < 30)%nat ->
  write_head (mk_lfs g c) =
  Ok (tt, mk_lfs g (mk_cache (disk_put (lg_start g) (head_block g (disk_get (d_blocks (c_disk c)) (lg_start g))) (c_disk c))
                             (c_mem c) ∅ (c_pins c))).
Proof.
  intros Hq Hm Hp Hsz. unfold write_head, getlog. rewrite bind_run, gets_run. cbn [l_log id]. unfold quiet in Hq.
  set (start := lg_start g) in *.
  cstep g (cache_read_new start c ltac:(set_solver) Hm Hsz). set (c1 := mk_cache _ _ _ _).
  cstep g (cache_data_ok start c1 _ ltac:(simpl; set_solver) (lookup_insert_eq _ _ _)).
  set (hb := disk_get _ _). fold (head_block g hb).
  cstep g (cache_set_ok start c1 (head_block g hb) ltac:(simpl; set_solver)). set (c2 := mk_cache (c_disk c1) _ _ _).
  cstep g (cache_write_ok start c2 _ ltac:(simpl; set_solver) (lookup_insert_eq _ _ _)).
  set (c3 := mk_cache (disk_put _ _ _) _ _ _).
  assert (Hcl : c_mem c3 !! start = Some (disk_get (d_blocks (c_disk c3)) start)).
  { change (c_disk c3) with (disk_put start (head_block g hb) (c_disk c2)). rewrite disk_get_put_eq.
    apply lookup_insert_eq. }
  refine (eq_trans (bc_run _ g _ _ _ (cache_relse_clean start c3 ltac:(simpl; set_solver) Hp Hcl)) _).
  do 3 f_equal. unfold c3. cbn [c_disk c_mem c_held c_pins c2 c1]. f_equal.
  - change (delete start (<[start := head_block g hb]> (<[start := hb]> (c_mem c))) = c_mem c).
    by rewrite insert_insert_eq, delete_insert_id by done.
  - change (({[start]} ∪ c_held c) ∖ {[start]} = (∅ : gset Z)). rewrite Hq. set_solver.
Qed.

(** ** The loops *)

(** The writes that put [ds] into the log blocks behind [start]. *)
Fixpoint log_area (start : Z) (ds : list block) : list (Z * block) :=
  match ds with
  | [] => []
  | d :: ds => (start + 1, d) :: log_area (start + 1) ds
  end.

(** The log's entries from [tail] on. *)
Definition entries (g : logst) (tail : Z) (bs : list Z) : Prop :=
  forall i b, bs !! i = Some b -> log_block g (tail + Z.of_nat i) = b.

Lemma entries_cons g tail b bs : entries g tail (b :: bs) <-> log_block g tail = b /\ entries g (tail + 1) bs.
Proof.
  unfold entries. split.
  - intros He. split; [rewrite <- (Z.add_0_r tail); by apply (He 0%nat)|].
    intros i x Hx. rewrite <- (He (Datatypes.S i) x Hx). f_equal. lia.
  - intros [H1 H2] [|i] x Hx; [injection Hx as <-; by rewrite Z.add_0_r|].
    rewrite <- (H2 i x Hx). f_equal. lia.
Qed.

(** Blocks of the log on disk. *)
Definition in_log (g : logst) (b : Z) : Prop := lg_start g <= b < lg_start g + lg_size g.

Lemma write_log_loop_run g bs : forall ds tail c,
  quiet c -> entries g tail bs -> 0 <= tail -> tail + Z.of_nat (length bs) < lg_size g ->
  Forall2 (fun b d => c_mem c !! b = Some d /\ pins c b <> 0%nat) bs ds ->
  (forall b, in_log g b -> c_mem c !! b = None /\ pins c b = 0%nat) -> (size (c_mem c) < 30)%nat ->
  write_log_loop (length bs) tail (mk_lfs g c) =
  Ok (tt, mk_lfs g (mk_cache (disk_puts (log_area (lg_start g + tail) ds) (c_disk c)) (c_mem c) ∅ (c_pins c))).
Proof.
  induction bs as [|b bs IH]; intros ds tail c Hq He Ht Hsz Hds Hlog Hroom.
  { apply Forall2_nil_inv_l in Hds as ->. simpl. unfold quiet in Hq. destruct c. simpl in *. by subst. }
  apply Forall2_cons_inv_l in Hds as (d & ds' & [Hb Hp] & Hds & ->).
  apply entries_cons in He as [Hb0 He]. simpl in Hsz. simpl length.
  assert (Hin : in_log g (lg_start g + tail + 1)) by (unfold in_log; lia).
  destruct (Hlog _ Hin) as [Hm0 Hp0].
  rewrite (write_log_body g c (length bs) tail d); rewrite ?Hb0; auto.
  rewrite (IH ds'); simpl; auto; try lia.
  - do 4 f_equal. by rewrite Z.add_assoc.
  - done.
Qed.

Lemma install_loop_run g bs : forall ds tail c,
  quiet c -> entries g tail bs -> 0 <= tail -> tail + Z.of_nat (length bs) < lg_size g -> NoDup bs ->
  (forall b, b ∈ bs -> ~ in_log g b /\ is_Some (c_mem c !! b) /\ pins c b = 1%nat) ->
  (forall b, in_log g b -> c_mem c !! b = None /\ pins c b = 0%nat) -> (size (c_mem c) < 30)%nat ->
  length ds = length bs ->
  (forall i d, ds !! i = Some d -> disk_get (d_blocks (c_disk c)) (lg_start g + tail + Z.of_nat i + 1) = d) ->
  exists c', install_trans_loop (length bs) tail false (mk_lfs g c) = Ok (tt, mk_lfs g c') /\
    c_disk c' = disk_puts (zip bs ds) (c_disk c) /\ quiet c' /\
    (forall b, c_mem c' !! b = if decide (b ∈ bs) then None else c_mem c !! b) /\
    (forall b, pins c' b = if decide (b ∈ bs) then 0%nat else pins c b).
Proof.
  induction bs as [|b bs IH]; intros ds tail c Hq He Ht Hsz Hnd Hbs Hlog Hroom Hlen Hds.
  { exists c. destruct ds; [|done]. split_and!; auto; intros b; case_decide as Hx; auto; by apply not_elem_of_nil in Hx. }
  destruct ds as [|d ds]; [done|]. simpl in Hlen, Hsz.
  apply entries_cons in He as [Hb0 He]. apply NoDup_cons in Hnd as [Hnb Hnd].
  destruct (Hbs b) as (Hnl & [d0 Hd0] & Hp1); [by left|].
  assert (Hin : in_log g (lg_start g + tail + 1)) by (unfold in_log; lia).
  destruct (Hlog _ Hin) as [Hm0 Hp0]. simpl length.
  rewrite (install_body g c (length bs) tail d0); rewrite ?Hb0; auto.
  assert (Ed : disk_get (d_blocks (c_disk c)) (lg_start g + tail + 1) = d).
  { rewrite <- (Hds 0%nat d eq_refl). f_equal. lia. }
  rewrite Ed. set (c1 := mk_cache _ _ _ _).
  assert (Hp1' : forall x, pins c1 x = if decide (x = b) then 0%nat else pins c x).
  { intros x. unfold pins. simpl. case_decide; [subst; by rewrite lookup_insert_eq|by rewrite lookup_insert_ne]. }
  assert (Hm1' : forall x, c_mem c1 !! x = if decide (x = b) then None else c_mem c !! x).
  { intros x. simpl. case_decide; [subst; by rewrite lookup_delete_eq|by rewrite lookup_delete_ne]. }
  destruct (IH ds (tail + 1) c1) as (c' & E & Hdk & Hq' & Hm' & Hp'); auto; try lia.
  - done.
  - intros x Hx. rewrite Hm1', Hp1'. rewrite !decide_False by (intros ->; done). apply Hbs. by right.
  - intros x Hx. rewrite Hm1', Hp1'. rewrite !decide_False by (intros ->; done). by apply Hlog.
  - simpl. rewrite map_size_delete, Hd0. lia.
  - intros i x Hx. change (c_disk c1) with (disk_put b d (c_disk c)). rewrite disk_get_put_ne.
    + rewrite <- (Hds (Datatypes.S i) x Hx). f_equal. lia.
    + intros E. apply Hnl. rewrite <- E. apply lookup_lt_Some in Hx. unfold in_log. lia.
  - exists c'. split_and!; auto.
    + intros x. rewrite Hm', Hm1'. destruct (decide (x = b)) as [->|Hne].
      * rewrite (decide_True (P := b ∈ b :: bs)) by (by left). by case_decide.
      * destruct (decide (x ∈ bs)); [rewrite decide_True by (by right)|rewrite decide_False by (by apply not_elem_of_cons)]; done.
    + intros x. rewrite Hp', Hp1'. destruct (decide (x = b)) as [->|Hne].
      * rewrite (decide_True (P := b ∈ b :: bs)) by (by left). by case_decide.
      * destruct (decide (x ∈ bs)); [rewrite decide_True by (by right)|rewrite decide_False by (by apply not_elem_of_cons)]; done.
Qed.

Lemma recover_loop_run g bs : forall ds tail c,
  quiet c -> c_mem c = ∅ -> (forall b, pins c b = 0%nat) ->
  entries g tail bs -> 0 <= tail -> tail + Z.of_nat (length bs) < lg_size g ->
  (forall b, b ∈ bs -> ~ in_log g b) -> length ds = length bs ->
  (forall i d, ds !! i = Some d -> disk_get (d_blocks (c_disk c)) (lg_start g + tail + Z.of_nat i + 1) = d) ->
  install_trans_loop (length bs) tail true (mk_lfs g c) =
  Ok (tt, mk_lfs g (mk_cache (disk_puts (zip bs ds) (c_disk c)) ∅ ∅ (c_pins c))).
Proof.
  induction bs as [|b bs IH]; intros ds tail c Hq Hm Hp He Ht Hsz Hbs Hlen Hds.
  { destruct ds; [|done]. unfold quiet in Hq. destruct c. simpl in *. by subst. }
  destruct ds as [|d ds]; [done|]. simpl in Hlen, Hsz. apply entries_cons in He as [Hb0 He].
  assert (Hin : in_log g (lg_start g + tail + 1)) by (unfold in_log; lia).
  assert (Hnl : ~ in_log g b) by (apply Hbs; by left).
  assert (Hne : lg_start g + tail + 1 <> b) by (intros E; by rewrite E in Hin).
  simpl length. rewrite (recover_body g c (length bs) tail); rewrite ?Hb0; auto.
  assert (Ed : disk_get (d_blocks (c_disk c)) (lg_start g + tail + 1) = d).
  { rewrite <- (Hds 0%nat d eq_refl). f_equal. lia. }
  rewrite Ed. rewrite (IH ds); simpl; auto; try lia; try done.
  - intros x Hx. apply Hbs. by right.
  - intros i x Hx. change (mk_disk _ _) with (disk_put b d (c_disk c)).
    rewrite <- (Hds (Datatypes.S i) x Hx).
    replace (lg_start g + tail + Z.of_nat (Datatypes.S i) + 1) with (lg_start g + (tail + 1) + Z.of_nat i + 1) by lia.
    apply disk_get_put_ne. intros E. apply Hnl. rewrite <- E. apply lookup_lt_Some in Hx. unfold in_log. lia.
Qed.

(** ** The header block *)

Lemma write_head_loop_spec g k : forall i hb,
  0 <= i -> 4 + 4 * (i + Z.of_nat k) <= Z.of_nat (length hb) ->
  length (write_head_loop k i g hb) = length hb /\
  (forall off, 0 <= off -> off + 4 <= 4 + 4 * i -> get32 (write_head_loop k i g hb) off = get32 hb off) /\
  (forall j, i <= j < i + Z.of_nat k -> get32 (write_head_loop k i g hb) (4 + 4 * j) = u32 (log_block g j)).
Proof.
  induction k as [|k IH]; intros i hb Hi Hl; cbn [write_head_loop].
  { split_and!; auto. intros; lia. }
  unfold put32, get32 in *. destruct (IH (i + 1) (put_le 4 hb (4 + 4 * i) (log_block g i))) as (H1 & H2 & H3);
    rewrite ?length_put_le; try lia.
  rewrite length_put_le in H1. split_and!; auto.
  - intros off Ho Hlt. rewrite H2 by lia. rewrite get_put_le_ne by lia. done.
  - intros j Hj. destruct (decide (j = i)) as [->|].
    + rewrite H2 by lia. rewrite get_put_le_eq by lia. done.
    + apply H3. lia.
Qed.

Lemma head_block_spec g hb :
  0 <= lg_n g <= 30 -> length hb = 1024%nat ->
  length (head_block g hb) = 1024%nat /\ hdr_n (head_block g hb) = lg_n g /\
  forall j, 0 <= j < lg_n g -> 0 <= log_block g j < 2147483648 -> hdr_block (head_block g hb) j = log_block g j.
Proof.
  intros Hn Hl. unfold head_block.
  destruct (write_head_loop_spec g (Z.to_nat (lg_n g)) 0 (put32 hb 0 (lg_n g))) as (H1 & H2 & H3);
    [lia|unfold put32; rewrite length_put_le; lia|].
  unfold put32 in *. rewrite length_put_le in H1. split_and!.
  - lia.
  - unfold hdr_n. rewrite H2 by lia. unfold get32. rewrite get_put_le_eq by lia.
    change (256 ^ Z.of_nat 4) with 4294967296. rewrite Z.mod_small by lia. apply s32_small. lia.
  - intros j Hj Hb. unfold hdr_block. rewrite H3 by lia. rewrite u32_small by lia. apply s32_small. lia.
Qed.

Lemma head_block_empty g hb : lg_n g = 0 -> head_block g hb = put32 hb 0 0.
Proof. intros E. unfold head_block. by rewrite E. Qed.

Lemma hdr_n_cleared hb : length hb = 1024%nat -> hdr_n (put32 hb 0 0) = 0 /\ length (put32 hb 0 0) = 1024%nat.
Proof.
  intros Hl. unfold hdr_n, get32, put32. rewrite get_put_le_eq, length_put_le by lia. done.
Qed.

Lemma read_head_loop_spec lh k : forall i g,
  length (lg_block g) = 30%nat -> 0 <= i -> i + Z.of_nat k <= 30 ->
  let g' := read_head_loop k i lh g in
  (forall j, i <= j < i + Z.of_nat k -> log_block g' j = hdr_block lh j) /\
  (forall j, 0 <= j < i -> log_block g' j = log_block g j) /\
  length (lg_block g') = 30%nat /\ lg_n g' = lg_n g /\ lg_start g' = lg_start g /\ lg_size g' = lg_size g /\
  lg_outstanding g' = lg_outstanding g /\ lg_committing g' = lg_committing g.
Proof.
  induction k as [|k IH]; intros i g Hl Hi Hk; cbn [read_head_loop].
  { split_and!; auto. intros; lia. }
  assert (Hg : forall j, 0 <= j -> log_block (set_block i (hdr_block lh i) g) j =
                 if decide (j = i) then hdr_block lh i else log_block g j).
  { intros j Hj. unfold log_block. simpl. case_decide.
    - subst. by rewrite list_lookup_total_insert_eq by lia.
    - by rewrite list_lookup_total_insert_ne by lia. }
  destruct (IH (i + 1) (set_block i (hdr_block lh i) g)) as (H1 & H2 & H3 & H4); simpl; rewrite ?length_insert; try lia.
  split_and!; try apply H4; auto.
  - intros j Hj. destruct (decide (j = i)) as [->|]; [|apply H1; lia].
    rewrite H2, Hg, decide_True by (done || lia). done.
  - intros j Hj. rewrite H2, Hg, decide_False by lia. done.
Qed.

(** Entries of a header block. *)
Definition hdr_entries (h : block) : list Z :=
  (fun i => hdr_block h (Z.of_nat i)) <$> seq 0 (Z.to_nat (hdr_n h)).

(** The contents of the first [n] log blocks. *)
Definition log_slots (start : Z) (n : nat) (d : blocks) : list block :=
  (fun i => disk_get d (start + Z.of_nat i + 1)) <$> seq 0 n.

(** A disk whose log header makes sense. *)
Record log_disk_ok (start size : Z) (d : blocks) : Prop := {
  ld_size : 0 <= start /\ 1 < size /\ size <= 30;
  ld_len : length (disk_get d start) = 1024%nat;
  ld_n : 0 <= hdr_n (disk_get d start) < size;
  ld_home : Forall (fun b => ~ (start <= b < start + size)) (hdr_entries (disk_get d start));
}.

(** The log as initlog leaves it just before recovery. *)
Definition boot_log (start size : Z) : logst := mk_log start size 0 false ROOTDEV 0 (replicate 30 0).

Lemma read_head_run start size d :
  log_disk_ok start size (d_blocks d) ->
  exists g, read_head (mk_lfs (boot_log start size) (empty_cache d)) = Ok (tt, mk_lfs g (empty_cache d)) /\
    lg_n g = hdr_n (disk_get (d_blocks d) start) /\ lg_start g = start /\ lg_size g = size /\
    lg_outstanding g = 0 /\ lg_committing g = false /\ length (lg_block g) = 30%nat /\
    entries g 0 (hdr_entries (disk_get (d_blocks d) start)).
Proof.
  intros [Hsz Hlen Hn Hhome]. set (h := disk_get (d_blocks d) start) in *.
  set (g1 := set_n (hdr_n h) (boot_log start size)).
  destruct (read_head_loop_spec h (Z.to_nat (hdr_n h)) 0 g1) as (H1 & _ & H3 & H4 & H5 & H6 & H7 & H8); [done|lia|lia|].
  exists (read_head_loop (Z.to_nat (hdr_n h)) 0 h g1). split; [|split_and!; auto].
  - unfold read_head, getlog, modlog. rewrite bind_run, gets_run. cbn [l_log lg_start boot_log].
    cstep (boot_log start size) (cache_read_new start (empty_cache d) ltac:(simpl; set_solver) ltac:(by simpl; rewrite lookup_empty) ltac:(simpl; rewrite map_size_empty; lia)).
    set (c1 := mk_cache _ _ _ _).
    cstep (boot_log start size) (cache_data_ok start c1 h ltac:(simpl; set_solver) (lookup_insert_eq _ _ _)).
    rewrite bind_run, modify_run. cbn [l_log l_bc]. rewrite bind_run, modify_run. cbn [l_log l_bc]. fold g1.
    change (lg_n g1) with (hdr_n h).
    refine (eq_trans (bc_run _ _ _ _ _ (cache_relse_clean start c1 ltac:(simpl; set_solver) _ (lookup_insert_eq _ _ _))) _).
    { unfold pins. simpl. by rewrite lookup_empty. }
    do 3 f_equal. unfold empty_cache. cbn [c_disk c_mem c_held c_pins]. f_equal.
    + change (delete start (<[start := disk_get (d_blocks (c_disk (empty_cache d))) start]> (∅ : gmap Z (list Z))) = ∅).
      by rewrite delete_insert_id.
    + change (({[start]} ∪ ∅) ∖ {[start]} = (∅ : gset Z)). set_solver.
  - intros i b Hb. unfold hdr_entries in Hb. rewrite list_lookup_fmap in Hb.
    destruct (seq 0 (Z.to_nat (hdr_n h)) !! i) as [j|] eqn:Ej; [|done]. injection Hb as <-.
    apply lookup_seq in Ej as [-> Hlt]. rewrite H1 by lia. f_equal.
Qed.

(** ** Recovery *)

(** The writes of recover_from_log. *)
Definition recovery_writes (start : Z) (d : blocks) : list (Z * block) :=
  let h := disk_get d start in
  zip (hdr_entries h) (log_slots start (Z.to_nat (hdr_n h)) d) ++ [(start, put32 h 0 0)].

Lemma length_hdr_entries h : length (hdr_entries h) = Z.to_nat (hdr_n h).
Proof. unfold hdr_entries. by rewrite length_fmap, length_seq. Qed.

Lemma length_log_slots start n d : length (log_slots start n d) = n.
Proof. unfold log_slots. by rewrite length_fmap, length_seq. Qed.

Lemma lookup_log_slots start n d i x :
  log_slots start n d !! i = Some x -> disk_get d (start + Z.of_nat i + 1) = x /\ (i < n)%nat.
Proof.
  unfold log_slots. rewrite list_lookup_fmap. destruct (seq 0 n !! i) as [j|] eqn:E; [|done].
  apply lookup_seq in E as [-> Hlt]. by injection 1 as <-.
Qed.

Lemma recover_run start size d :
  log_disk_ok start size (d_blocks d) ->
  exists g, recover_from_log (mk_lfs (boot_log start size) (empty_cache d)) =
      Ok (tt, mk_lfs g (empty_cache (disk_puts (recovery_writes start (d_blocks d)) d))) /\
    lg_n g = 0 /\ lg_start g = start /\ lg_size g = size /\
    lg_outstanding g = 0 /\ lg_committing g = false /\ length (lg_block g) = 30%nat.
Proof.
  intros Hok. destruct (read_head_run start size d Hok) as (g & E1 & Hn & Hst & Hsz & Hout & Hcom & Hlen & He).
  destruct Hok as [Hs Hl Hr Hhome]. set (h := disk_get (d_blocks d) start) in *.
  unfold recover_from_log. rewrite (bind_Ok _ _ _ _ _ E1).
  assert (Einst : install_trans true (mk_lfs g (empty_cache d)) =
    Ok (tt, mk_lfs g (empty_cache (disk_puts (zip (hdr_entries h) (log_slots start (Z.to_nat (hdr_n h)) (d_blocks d))) d)))).
  { unfold install_trans, getlog. rewrite bind_run, gets_run. cbn [l_log]. rewrite Hn.
    pose proof (recover_loop_run g (hdr_entries h) (log_slots start (Z.to_nat (hdr_n h)) (d_blocks d)) 0 (empty_cache d)) as Er.
    rewrite length_hdr_entries in Er. apply Er; [done|done| |exact He|lia|lia| | |].
    - intros b. unfold pins. simpl. by rewrite lookup_empty.
    - intros b Hb. rewrite Forall_forall in Hhome. unfold in_log. rewrite Hst, Hsz. by apply Hhome.
    - by rewrite length_log_slots.
    - intros i x Hx. apply lookup_log_slots in Hx as [<- _]. rewrite Hst. simpl. f_equal. lia. }
  rewrite (bind_Ok _ _ _ _ _ Einst). unfold modlog. rewrite bind_run, modify_run. cbn [l_log l_bc].
  exists (set_n 0 g). split; [|split_and!; auto].
  set (d1 := disk_puts _ d).
  rewrite write_head_run; [|done|by simpl; rewrite lookup_empty|by unfold pins; simpl; rewrite lookup_empty|simpl; rewrite map_size_empty; lia].
  - simpl lg_start. cbn [c_disk c_mem c_pins empty_cache]. unfold empty_cache at 1. do 3 f_equal. unfold recovery_writes. fold h. rewrite disk_puts_app. fold d1.
    simpl. rewrite Hst. do 2 f_equal. rewrite head_block_empty by done. f_equal.
    unfold d1. rewrite disk_puts_eq. simpl. rewrite apply_writes_other; [done|].
    rewrite fst_zip by (rewrite length_hdr_entries, length_log_slots; lia).
    intros Hin. rewrite Forall_forall in Hhome. apply (Hhome start Hin). lia.
Qed.

(** ** Commit *)

(** A transaction of the blocks [bs], with new contents [ds], ready to
    commit: no buffer is in use, the logged blocks are pinned in the cache,
    nothing else is cached, the header on disk is clear. *)
Record txn (g : logst) (c : cache) (bs : list Z) (ds : list block) : Prop := {
  tx_n : lg_n g = Z.of_nat (length bs);
  tx_entries : entries g 0 bs;
  tx_nodup : NoDup bs;
  tx_home : forall b, b ∈ bs -> ~ in_log g b /\ 0 <= b < 2147483648;
  tx_size : 0 <= lg_start g /\ 1 < lg_size g <= 30 /\ Z.of_nat (length bs) < lg_size g;
  tx_quiet : quiet c;
  tx_mem : Forall2 (fun b d => c_mem c !! b = Some d) bs ds;
  tx_only : forall b, is_Some (c_mem c !! b) -> b ∈ bs;
  tx_pins : forall b, pins c b = if decide (b ∈ bs) then 1%nat else 0%nat;
  tx_len : length (disk_get (d_blocks (c_disk c)) (lg_start g)) = 1024%nat;
  tx_clear : hdr_n (disk_get (d_blocks (c_disk c)) (lg_start g)) = 0;
}.

(** Everything commit writes, in order. *)
Definition commit_writes (g : logst) (bs : list Z) (ds : list block) (d : blocks) : list (Z * block) :=
  match bs with
  | [] => []
  | _ =>
    let h := head_block g (disk_get d (lg_start g)) in
    log_area (lg_start g) ds ++ [(lg_start g, h)] ++ zip bs ds ++ [(lg_start g, put32 h 0 0)]
  end.

Lemma log_area_blocks ds : forall start b, b ∈ (log_area start ds).*1 -> start < b <= start + Z.of_nat (length ds).
Proof.
  induction ds as [|d ds IH]; intros start b Hb; simpl in *; [by apply not_elem_of_nil in Hb|].
  apply elem_of_cons in Hb as [->|Hb]; [lia|]. apply IH in Hb. lia.
Qed.

Lemma log_area_get ds : forall start i x d,
  ds !! i = Some x -> disk_get (apply_writes (log_area start ds) d) (start + Z.of_nat i + 1) = x.
Proof.
  induction ds as [|y ds IH]; intros start i x d Hx; [by rewrite lookup_nil in Hx|]. destruct i as [|i].
  - injection Hx as <-. replace (start + Z.of_nat 0 + 1) with (start + 1) by lia.
    cbn [log_area apply_writes fst snd]. rewrite apply_writes_other.
    + unfold disk_get. by rewrite lookup_insert_eq.
    + intros Hb. apply log_area_blocks in Hb. lia.
  - simpl in Hx. cbn [log_area apply_writes]. replace (start + Z.of_nat (Datatypes.S i) + 1) with (start + 1 + Z.of_nat i + 1) by lia.
    by apply IH.
Qed.

Lemma tx_room g c bs ds : txn g c bs ds -> (size (c_mem c) < 30)%nat.
Proof.
  intros [_ _ Hnd _ Hsz _ _ Ho _ _ _]. rewrite <- size_dom.
  assert (Hle : (size (dom (c_mem c)) <= size (list_to_set bs : gset Z))%nat).
  { apply subseteq_size. intros b Hb. apply elem_of_dom in Hb. apply elem_of_list_to_set. by apply Ho. }
  rewrite size_list_to_set in Hle by done. lia.
Qed.

Lemma commit_run g c bs ds :
  txn g c bs ds ->
  exists c', commit (mk_lfs g c) = Ok (tt, mk_lfs (set_n 0 g) c') /\
    c_disk c' = disk_puts (commit_writes g bs ds (d_blocks (c_disk c))) (c_disk c) /\ quiet c' /\
    (forall b, c_mem c' !! b = None) /\ (forall b, pins c' b = 0%nat).
Proof.
  intros Htx. pose proof (tx_room _ _ _ _ Htx) as Hroom. destruct Htx as [Hn He Hnd Hhome Hsz Hq Hm Ho Hp Hlen Hclr].
  assert (Hlds : length ds = length bs) by (symmetry; eapply Forall2_length, Hm).
  assert (Hlog : forall b, in_log g b -> c_mem c !! b = None /\ pins c b = 0%nat).
  { intros b Hb. assert (Hnb : b ∉ bs) by (intros Hin; by destruct (Hhome b Hin)). split.
    - destruct (c_mem c !! b) eqn:E; [|done]. exfalso. apply Hnb, Ho. by eexists.
    - by rewrite Hp, decide_False. }
  assert (Hst : in_log g (lg_start g)) by (unfold in_log; lia). destruct (Hlog _ Hst) as [Hms Hps].
  unfold commit, getlog. rewrite bind_run, gets_run. cbn [l_log]. rewrite Hn.
  destruct bs as [|b0 bs0] eqn:Ebs.
  { simpl. exists c. split; [|split_and!; auto].
    - rewrite ret_run. do 3 f_equal. destruct g. simpl in *. by subst.
    - intros b. destruct (c_mem c !! b) eqn:E; [|done]. exfalso.
      assert (b ∈ []) as Hx%not_elem_of_nil by (apply Ho; by eexists). done. }
  rewrite <- Ebs in *. rewrite (proj2 (Z.ltb_lt _ _)) by (rewrite Ebs; simpl; lia).
  assert (E1 : write_log (mk_lfs g c) = Ok (tt, mk_lfs g (mk_cache (disk_puts (log_area (lg_start g) ds) (c_disk c)) (c_mem c) ∅ (c_pins c)))).
  { unfold write_log, getlog. rewrite bind_run, gets_run. cbn [l_log]. rewrite Hn, Nat2Z.id.
    rewrite (write_log_loop_run g bs ds 0 c); auto; try lia; [by rewrite Z.add_0_r|].
    eapply Forall2_impl; [apply Forall2_same_length_lookup; split; [done|]|]; [|intros x y Hxy; exact Hxy].
    intros i x y Hx Hy. split; [by eapply Forall2_lookup_lr in Hm|].
    rewrite Hp, decide_True; [done|]. by eapply list_elem_of_lookup_2. }
  rewrite (bind_Ok _ _ _ _ _ E1). set (c1 := mk_cache _ _ _ _).
  rewrite (bind_Ok _ _ _ _ _ (write_head_run g c1 eq_refl Hms Hps Hroom)).
  set (h0 := disk_get (d_blocks (c_disk c1)) (lg_start g)). set (c2 := mk_cache (disk_put _ _ _) _ _ _).
  assert (Eh0 : h0 = disk_get (d_blocks (c_disk c)) (lg_start g)).
  { unfold h0. change (c_disk c1) with (disk_puts (log_area (lg_start g) ds) (c_disk c)). rewrite disk_puts_eq. simpl.
    apply apply_writes_other. intros Hin. apply log_area_blocks in Hin. lia. }
  destruct (install_loop_run g bs ds 0 c2) as (c3 & E3 & Hd3 & Hq3 & Hm3 & Hp3); auto; try lia; try done.
  { intros b Hb. destruct (Hhome b Hb) as [? _]. split_and!; auto.
    - apply list_elem_of_lookup in Hb as [i Hi]. destruct (Forall2_lookup_l _ _ _ _ _ Hm Hi) as (x & _ & Hx). simpl. rewrite Hx. by eexists.
    - change (pins c2 b) with (pins c b). by rewrite Hp, decide_True. }
  { intros i x Hx. rewrite Z.add_0_r. change (c_disk c2) with (disk_put (lg_start g) (head_block g h0) (c_disk c1)).
    rewrite disk_get_put_ne by lia. change (c_disk c1) with (disk_puts (log_area (lg_start g) ds) (c_disk c)).
    rewrite disk_puts_eq. simpl. by apply log_area_get. }
  assert (E3' : install_trans false (mk_lfs g c2) = Ok (tt, mk_lfs g c3)).
  { unfold install_trans, getlog. rewrite bind_run, gets_run. cbn [l_log]. by rewrite Hn, Nat2Z.id. }
  rewrite (bind_Ok _ _ _ _ _ E3'). unfold modlog. rewrite bind_run, modify_run. cbn [l_log l_bc].
  assert (Hnst : lg_start g ∉ bs) by (intros Hin; by destruct (Hhome _ Hin)).
  assert (Hm0 : forall b, c_mem c3 !! b = None).
  { intros b. rewrite Hm3. case_decide as Hin; [done|]. simpl. destruct (c_mem c !! b) eqn:E; [|done].
    exfalso. apply Hin, Ho. by eexists. }
  assert (Hp0 : forall b, pins c3 b = 0%nat).
  { intros b. rewrite Hp3. case_decide as Hin; [done|]. change (pins c2 b) with (pins c b). by rewrite Hp, decide_False. }
  rewrite write_head_run; [|done|apply Hm0|apply Hp0|].
  2: { replace (c_mem c3) with (∅ : gmap Z (list Z)) by (apply map_eq; intros b; by rewrite Hm0, lookup_empty).
       rewrite map_size_empty. lia. }
  eexists. split; [done|]. split_and!; auto; try done.
  cbn [c_disk]. rewrite Hd3. unfold commit_writes. rewrite Ebs. rewrite <- Ebs. cbn zeta.
  rewrite !disk_puts_app. cbn [disk_puts fst snd]. rewrite <- Eh0.
  rewrite head_block_empty by done. f_equal. f_equal. change (lg_start (set_n 0 g)) with (lg_start g).
  rewrite disk_puts_eq. cbn [d_blocks]. rewrite apply_writes_other by (rewrite fst_zip by lia; done).
  apply disk_get_put_eq.
Qed.
