(* ===== verification/LogCrash.v ===== *)
(** Crash safety of the log: a crash between any two disk writes of a commit,
    or of a recovery, loses nothing of the old state or nothing of the new. *)

From S2P Require Import Prelude Riscv Bytes Refine Cache Log.

(** The disk contents recovery leaves. *)
Definition recovered (start : Z) (d : blocks) : blocks := apply_writes (recovery_writes start d) d.

(** The abstract contents a committed transaction gives to block [b]. *)
Definition new_block (bs : list Z) (ds : list block) (d : blocks) (b : Z) : block :=
  disk_get (apply_writes (zip bs ds) d) b.

Lemma hdr_entries_nil h : hdr_n h = 0 -> hdr_entries h = [].
Proof. intros E. unfold hdr_entries. by rewrite E. Qed.

(** With a clear header recovery changes nothing but the header. *)
Lemma recovered_clear start size d :
  0 <= start -> 1 < size <= 30 -> length (disk_get d start) = 1024%nat -> hdr_n (disk_get d start) = 0 ->
  log_disk_ok start size d /\ forall b, b <> start -> disk_get (recovered start d) b = disk_get d b.
Proof.
  intros Hs Hsz Hl Hn. split.
  - split; [lia|done|rewrite Hn; lia|]. rewrite hdr_entries_nil by done. constructor.
  - intros b Hb. unfold recovered. apply apply_writes_other. unfold recovery_writes.
    rewrite hdr_entries_nil by done. simpl. rewrite list_elem_of_singleton. done.
Qed.

(** With a committed header recovery installs the logged blocks. *)
Lemma recovered_committed start size d bs ds :
  0 <= start -> 1 < size <= 30 -> length (disk_get d start) = 1024%nat ->
  hdr_n (disk_get d start) = Z.of_nat (length bs) -> Z.of_nat (length bs) < size ->
  hdr_entries (disk_get d start) = bs -> length ds = length bs ->
  (forall b, b ∈ bs -> ~ (start <= b < start + size)) ->
  (forall i x, ds !! i = Some x -> disk_get d (start + Z.of_nat i + 1) = x) ->
  log_disk_ok start size d /\
  forall b, ~ (start <= b < start + size) -> disk_get (recovered start d) b = new_block bs ds d b.
Proof.
  intros Hs Hsz Hl Hn Hbs He Hlen Hhome Hds. split.
  - split; [lia|done|rewrite Hn; lia|]. rewrite He. by apply Forall_forall.
  - intros b Hb. unfold recovered, recovery_writes, new_block. rewrite He, Hn, Nat2Z.id.
    replace (log_slots start (length bs) d) with ds.
    + rewrite apply_writes_app. simpl. unfold disk_get at 1. rewrite lookup_insert_ne; [done|]. intros <-. lia.
    + apply list_eq_same_length with (length bs); [by rewrite length_log_slots|done|].
      intros i x y _ Hx Hy. apply lookup_log_slots in Hy as [<- _]. symmetry. by apply Hds.
Qed.

(** Writing some of the blocks early does not change the outcome. *)
Lemma new_block_prefix bs ds d j b :
  NoDup bs -> length ds = length bs ->
  new_block bs ds (apply_writes (take j (zip bs ds)) d) b = new_block bs ds d b.
Proof.
  intros Hnd Hlen. unfold new_block.
  assert (Hfst : (zip bs ds).*1 = bs) by (apply fst_zip; lia).
  destruct (decide (b ∈ bs)) as [Hin|Hout].
  - rewrite <- Hfst in Hin. apply list_elem_of_fmap in Hin as ([b' x] & -> & Hin). simpl.
    rewrite !(apply_writes_last _ _ b' x) by (rewrite ?Hfst; done). done.
  - rewrite !apply_writes_other; rewrite ?Hfst; auto.
    rewrite fmap_take, Hfst. intros Hx. apply Hout. by eapply elem_of_take in Hx as (i & Hi & _); eapply list_elem_of_lookup_2.
Qed.

Lemma new_block_other bs ds d d' b :
  disk_get d b = disk_get d' b -> NoDup bs -> length ds = length bs -> new_block bs ds d b = new_block bs ds d' b.
Proof.
  intros E Hnd Hlen. unfold new_block. assert (Hfst : (zip bs ds).*1 = bs) by (apply fst_zip; lia).
  destruct (decide (b ∈ bs)) as [Hin|Hout].
  - rewrite <- Hfst in Hin. apply list_elem_of_fmap in Hin as ([b' x] & -> & Hin). simpl.
    rewrite !(apply_writes_last _ _ b' x) by (rewrite ?Hfst; done). done.
  - rewrite !apply_writes_other; rewrite ?Hfst; auto.
Qed.

(** In a transaction the new contents are those the file system sees. *)
Lemma txn_view g c bs ds b : txn g c bs ds -> new_block bs ds (d_blocks (c_disk c)) b = c_view c b.
Proof.
  intros Htx. assert (Hlen : length ds = length bs) by (symmetry; eapply Forall2_length, (tx_mem _ _ _ _ Htx)).
  assert (Hfst : (zip bs ds).*1 = bs) by (apply fst_zip; lia).
  unfold new_block, c_view. destruct (c_mem c !! b) as [x|] eqn:E.
  - assert (Hin : b ∈ bs) by (apply (tx_only _ _ _ _ Htx); by eexists).
    apply list_elem_of_lookup in Hin as [i Hi].
    destruct (Forall2_lookup_l _ _ _ _ _ (tx_mem _ _ _ _ Htx) Hi) as (y & Hy & Ey).
    assert (y = x) as -> by congruence. apply apply_writes_last; [rewrite Hfst; apply Htx|].
    apply list_elem_of_lookup. exists i. rewrite lookup_zip_with, Hi, Hy. done.
  - simpl. apply apply_writes_other. rewrite Hfst. intros Hin.
    apply list_elem_of_lookup in Hin as [i Hi].
    destruct (Forall2_lookup_l _ _ _ _ _ (tx_mem _ _ _ _ Htx) Hi) as (y & Hy & Ey). congruence.
Qed.

Lemma log_area_length start ds : length (log_area start ds) = length ds.
Proof. revert start. induction ds as [|d ds IH]; intros; simpl; auto. Qed.

Lemma apply_take_other ws k d b : b ∉ ws.*1 -> disk_get (apply_writes (take k ws) d) b = disk_get d b.
Proof.
  intros Hb. apply apply_writes_other. rewrite fmap_take. intros Hx. apply Hb.
  apply elem_of_take in Hx as (i & Hi & _). by eapply list_elem_of_lookup_2.
Qed.

Section crash.
Variables (g : logst) (c : cache) (bs : list Z) (ds : list block).
Hypotheses (Htx : txn g c bs ds) (Hne : bs <> []).

Let start := lg_start g.
Let d0 := d_blocks (c_disk c).
Let h := head_block g (disk_get d0 start).

Lemma tx_lengths : length ds = length bs.
Proof using Htx. symmetry. eapply Forall2_length, (tx_mem _ _ _ _ Htx). Qed.

Lemma tx_fst : (zip bs ds).*1 = bs.
Proof using Htx. apply fst_zip. rewrite tx_lengths. lia. Qed.

Lemma tx_not_log b : ~ in_log g b -> b ∉ (log_area start ds).*1 /\ b <> start.
Proof using Htx.
  intros Hb. pose proof (tx_size _ _ _ _ Htx). split.
  - intros Hx. apply log_area_blocks in Hx. rewrite tx_lengths in Hx. apply Hb. unfold in_log, start in *. lia.
  - intros ->. apply Hb. unfold in_log, start. lia.
Qed.

Lemma tx_not_home b : in_log g b -> b ∉ bs.
Proof using Htx. intros Hb Hin. by destruct (tx_home _ _ _ _ Htx b Hin). Qed.

Lemma tx_start : in_log g start.
Proof using Htx. pose proof (tx_size _ _ _ _ Htx). unfold in_log, start. lia. Qed.

Lemma tx_header : length h = 1024%nat /\ hdr_n h = Z.of_nat (length bs) /\ hdr_entries h = bs.
Proof using Htx.
  destruct Htx as [Hn He Hnd Hhome Hsz Hq Hm Ho Hp Hlen Hclr].
  destruct (head_block_spec g (disk_get d0 start)) as (H1 & H2 & H3); [lia|done|]. fold h in H1, H2, H3.
  split_and!; [done|lia|]. apply list_eq_same_length with (length bs); [done|rewrite length_hdr_entries; lia|].
  intros i x y Hi Hx Hy. unfold hdr_entries in Hx. rewrite list_lookup_fmap in Hx.
  destruct (seq 0 (Z.to_nat (hdr_n h)) !! i) as [j|] eqn:Ej; [|done]. injection Hx as <-.
  apply lookup_seq in Ej as [-> Hlt]. pose proof (He i y Hy) as Ey. rewrite Z.add_0_l in Ey.
  rewrite H3; [done|lia|]. simpl. rewrite Ey. apply Hhome. by eapply list_elem_of_lookup_2.
Qed.

(** The disk after the header has been written and [j] blocks installed. *)
Lemma committed_disk j :
  let d := apply_writes (take j (zip bs ds)) (apply_writes [(start, h)] (apply_writes (log_area start ds) d0)) in
  disk_get d start = h /\
  (forall i x, ds !! i = Some x -> disk_get d (start + Z.of_nat i + 1) = x) /\
  (forall b, ~ in_log g b -> new_block bs ds d b = new_block bs ds d0 b).
Proof using Htx.
  pose proof (tx_size _ _ _ _ Htx) as Hsz. split_and!.
  - rewrite apply_take_other by (rewrite tx_fst; apply tx_not_home, tx_start).
    simpl. unfold disk_get. by rewrite lookup_insert_eq.
  - intros i x Hx. apply lookup_lt_Some in Hx as Hlt. rewrite tx_lengths in Hlt.
    rewrite apply_take_other by (rewrite tx_fst; apply tx_not_home; unfold in_log, start; lia).
    rewrite apply_writes_other by (simpl; rewrite list_elem_of_singleton; lia). by apply log_area_get.
  - intros b Hb. destruct (tx_not_log b Hb) as [H1 H2].
    rewrite new_block_prefix by (exact (tx_nodup _ _ _ _ Htx) || apply tx_lengths).
    apply new_block_other; [|exact (tx_nodup _ _ _ _ Htx)|apply tx_lengths].
    rewrite apply_writes_other by (simpl; rewrite list_elem_of_singleton; done). by rewrite apply_writes_other.
Qed.

(** The state recovery reaches from a crash after [k] writes. *)
Lemma crash_recovered k :
  let d := apply_writes (take k (commit_writes g bs ds d0)) d0 in
  log_disk_ok start (lg_size g) d /\
  forall b, ~ in_log g b -> disk_get (recovered start d) b =
    if (k <=? length ds)%nat then disk_get d0 b else c_view c b.
Proof using Htx Hne.
  pose proof (tx_size _ _ _ _ Htx) as Hsz. pose proof tx_lengths as Hlen.
  assert (Ew : commit_writes g bs ds d0 = log_area start ds ++ [(start, h)] ++ zip bs ds ++ [(start, put32 h 0 0)]).
  { unfold commit_writes. by destruct bs. }
  destruct tx_header as (Hh1 & Hh2 & Hh3). cbn zeta.
  destruct (Nat.leb_spec k (length ds)) as [Hk|Hk].
  - assert (Et : take k (commit_writes g bs ds d0) = take k (log_area start ds)).
    { rewrite Ew, take_app_le; [done|]. by rewrite log_area_length. }
    rewrite Et.
    assert (Est : disk_get (apply_writes (take k (log_area start ds)) d0) start = disk_get d0 start).
    { apply apply_take_other. intros Hx. apply log_area_blocks in Hx. lia. }
    destruct (recovered_clear start (lg_size g) (apply_writes (take k (log_area start ds)) d0)) as [H1 H2];
      [lia|lia|rewrite Est; exact (tx_len _ _ _ _ Htx)|rewrite Est; exact (tx_clear _ _ _ _ Htx)|].
    split; [done|]. intros b Hb. destruct (tx_not_log b Hb) as [H3 H4]. rewrite H2 by done. by apply apply_take_other.
  - destruct (decide (k <= length ds + 1 + length bs)%nat) as [Hk2|Hk2].
    + assert (Et : take k (commit_writes g bs ds d0) =
                log_area start ds ++ [(start, h)] ++ take (k - length ds - 1) (zip bs ds)).
      { rewrite Ew, take_app_ge by (rewrite log_area_length; lia). rewrite log_area_length. f_equal.
        destruct (k - length ds)%nat as [|j] eqn:Ej; [lia|]. simpl. rewrite Nat.sub_0_r. f_equal.
        apply take_app_le. rewrite length_zip_with. lia. }
      rewrite Et, !apply_writes_app. destruct (committed_disk (k - length ds - 1)) as (H1 & H2 & H3).
      destruct (recovered_committed start (lg_size g)
        (apply_writes (take (k - length ds - 1) (zip bs ds)) (apply_writes [(start, h)] (apply_writes (log_area start ds) d0))) bs ds)
        as [H4 H5]; rewrite ?H1; auto; try lia.
      { intros b Hb. by destruct (tx_home _ _ _ _ Htx b Hb). }
      split; [done|]. intros b Hb. rewrite H5 by done. rewrite H3 by done. by apply (txn_view g).
    + assert (Et : take k (commit_writes g bs ds d0) =
                log_area start ds ++ [(start, h)] ++ take (length bs) (zip bs ds) ++ [(start, put32 h 0 0)]).
      { rewrite Ew, take_ge; [|rewrite !length_app, log_area_length, length_zip_with; simpl; lia].
        rewrite (take_ge (zip bs ds)); [done|]. rewrite length_zip_with. lia. }
      rewrite Et, !apply_writes_app. destruct (committed_disk (length bs)) as (H1 & H2 & H3).
      set (d1 := apply_writes (take (length bs) (zip bs ds)) _) in *.
      destruct (hdr_n_cleared h Hh1) as [Hc1 Hc2].
      assert (Est : disk_get (apply_writes [(start, put32 h 0 0)] d1) start = put32 h 0 0).
      { simpl. unfold disk_get. by rewrite lookup_insert_eq. }
      destruct (recovered_clear start (lg_size g) (apply_writes [(start, put32 h 0 0)] d1)) as [H4 H5];
        rewrite ?Est; auto; try lia.
      split; [done|]. intros b Hb. destruct (tx_not_log b Hb) as [H6 H7]. rewrite H5 by done.
      rewrite apply_writes_other by (simpl; rewrite list_elem_of_singleton; done).
      rewrite <- (txn_view g c bs ds b Htx). rewrite <- H3 by done. unfold new_block, d1.
      rewrite take_ge by (rewrite length_zip_with; lia).
      fold (new_block bs ds (apply_writes (zip bs ds) (apply_writes [(start, h)] (apply_writes (log_area start ds) d0))) b).
      rewrite <- (take_ge (zip bs ds) (length bs)) at 2 by (rewrite length_zip_with; lia).
      rewrite new_block_prefix by (exact (tx_nodup _ _ _ _ Htx) || done). done.
Qed.

(** The disk after the whole commit. *)
Lemma commit_final :
  let d := apply_writes (commit_writes g bs ds d0) d0 in
  (forall b, ~ in_log g b -> disk_get d b = c_view c b) /\
  length (disk_get d start) = 1024%nat /\ hdr_n (disk_get d start) = 0.
Proof using Htx Hne.
  assert (Ew : commit_writes g bs ds d0 = log_area start ds ++ [(start, h)] ++ zip bs ds ++ [(start, put32 h 0 0)]).
  { unfold commit_writes. by destruct bs. }
  destruct tx_header as (Hh1 & _ & _). destruct (hdr_n_cleared h Hh1) as [Hc1 Hc2]. cbn zeta.
  rewrite Ew, !apply_writes_app. set (d1 := apply_writes [(start, h)] _).
  assert (Est : disk_get (apply_writes [(start, put32 h 0 0)] (apply_writes (zip bs ds) d1)) start = put32 h 0 0).
  { simpl. unfold disk_get. by rewrite lookup_insert_eq. }
  rewrite Est. split_and!; auto. intros b Hb. destruct (tx_not_log b Hb) as [H1 H2].
  rewrite (apply_writes_other [_]) by (simpl; rewrite list_elem_of_singleton; done).
  rewrite <- (txn_view g c bs ds b Htx). fold (new_block bs ds d1 b).
  apply new_block_other; [|exact (tx_nodup _ _ _ _ Htx)|apply tx_lengths]. unfold d1.
  rewrite (apply_writes_other [_]) by (simpl; rewrite list_elem_of_singleton; done). by apply apply_writes_other.
Qed.

End crash.

(** ** A crash during recovery *)

Lemma apply_writes_indep ws : forall d d' b,
  b ∈ ws.*1 -> disk_get (apply_writes ws d) b = disk_get (apply_writes ws d') b.
Proof.
  induction ws as [|[b' x] ws IH]; intros d d' b Hb; simpl in *; [by apply not_elem_of_nil in Hb|].
  destruct (decide (b ∈ ws.*1)); [by apply IH|].
  apply elem_of_cons in Hb as [->|]; [|done]. rewrite !apply_writes_other by done.
  unfold disk_get. by rewrite !lookup_insert_eq.
Qed.

Section recovery_crash.
Variables (start size : Z) (d : blocks).
Hypothesis Hok : log_disk_ok start size d.

Let h := disk_get d start.
Let ins := zip (hdr_entries h) (log_slots start (Z.to_nat (hdr_n h)) d).

Lemma ins_fst : ins.*1 = hdr_entries h.
Proof using. apply fst_zip. rewrite length_hdr_entries, length_log_slots. lia. Qed.

Lemma ins_home b : start <= b < start + size -> b ∉ ins.*1.
Proof using Hok.
  intros Hb. rewrite ins_fst. intros Hin. pose proof (ld_home _ _ _ Hok) as Hh. rewrite Forall_forall in Hh.
  by apply (Hh b Hin).
Qed.

Lemma crash_install j :
  let d' := apply_writes (take j ins) d in
  log_disk_ok start size d' /\ recovery_writes start d' = recovery_writes start d.
Proof using Hok.
  pose proof (ld_size _ _ _ Hok) as Hsz. pose proof (ld_n _ _ _ Hok) as Hn. fold h in Hn.
  assert (E : forall b, start <= b < start + size -> disk_get (apply_writes (take j ins) d) b = disk_get d b).
  { intros b Hb. apply apply_take_other. by apply ins_home. }
  assert (Es : disk_get (apply_writes (take j ins) d) start = h) by (apply E; lia). split.
  - split; rewrite ?Es; apply Hok.
  - unfold recovery_writes. rewrite Es. fold h. do 2 f_equal.
    apply list_fmap_ext. intros i x Hx. apply lookup_seq in Hx as [-> Hlt]. apply E. lia.
Qed.

Lemma recovery_crash_recovered j :
  let d' := apply_writes (take j (recovery_writes start d)) d in
  log_disk_ok start size d' /\
  forall b, ~ (start <= b < start + size) -> disk_get (recovered start d') b = disk_get (recovered start d) b.
Proof using Hok.
  pose proof (ld_size _ _ _ Hok) as Hsz. cbn zeta.
  assert (Ew : recovery_writes start d = ins ++ [(start, put32 h 0 0)]) by done.
  destruct (decide (j <= length ins)%nat) as [Hj|Hj].
  - rewrite Ew, take_app_le by done. destruct (crash_install j) as [H1 H2]. split; [done|].
    intros b Hb. unfold recovered. rewrite H2. fold h. rewrite Ew. rewrite !apply_writes_app.
    assert (Hbs : b ∉ [(start, put32 h 0 0)].*1) by (simpl; rewrite list_elem_of_singleton; lia).
    rewrite !(apply_writes_other [_]) by done.
    destruct (decide (b ∈ ins.*1)); [by apply apply_writes_indep|].
    rewrite !(apply_writes_other ins) by done. by apply apply_take_other.
  - rewrite (take_ge (recovery_writes start d)) by (rewrite Ew, length_app; simpl; lia).
    assert (Est : disk_get (apply_writes (recovery_writes start d) d) start = put32 h 0 0).
    { rewrite Ew, apply_writes_app. simpl. unfold disk_get. by rewrite lookup_insert_eq. }
    destruct (hdr_n_cleared h (ld_len _ _ _ Hok)) as [Hc1 Hc2].
    destruct (recovered_clear start size (apply_writes (recovery_writes start d) d)) as [H1 H2];
      rewrite ?Est; auto; try lia.
    split; [done|]. intros b Hb. rewrite H2 by lia. done.
Qed.

End recovery_crash.

(** ** Theorems *)

(** The disk a crash leaves after [k] of the writes [ws]. *)
Definition crash_disk (d : disk) (ws : list (Z * block)) (k : nat) : disk :=
  mk_disk (apply_writes (take k ws) (d_blocks d)) [].

(** What a crash during commit leaves: a log that recovers to the old or to
    the new contents. *)
Lemma commit_crash g c bs ds :
  txn g c bs ds ->
  exists c' ws j, commit (mk_lfs g c) = Ok (tt, mk_lfs (set_n 0 g) c') /\
    d_hist (c_disk c') = d_hist (c_disk c) ++ ws /\ (j <= length ws)%nat /\
    forall k, let d' := d_blocks (crash_disk (c_disk c) ws k) in
      log_disk_ok (lg_start g) (lg_size g) d' /\
      ((k < j)%nat -> forall b, ~ in_log g b -> disk_get (recovered (lg_start g) d') b = disk_get (d_blocks (c_disk c)) b) /\
      ((j <= k)%nat -> forall b, ~ in_log g b -> disk_get (recovered (lg_start g) d') b = c_view c b).
Proof.
  intros Htx. destruct (commit_run g c bs ds Htx) as (c' & E & Hd & _).
  pose proof (tx_size _ _ _ _ Htx) as Hsz.
  exists c', (commit_writes g bs ds (d_blocks (c_disk c))), (match bs with [] => 0 | _ => Datatypes.S (length ds) end)%nat.
  split; [exact E|]. split; [rewrite Hd, disk_puts_eq; done|]. split.
  { destruct bs; simpl; [lia|]. rewrite !length_app, log_area_length. simpl. rewrite length_app. simpl. lia. }
  intros k. destruct bs as [|b0 bs0] eqn:Eb.
  - destruct (recovered_clear (lg_start g) (lg_size g) (d_blocks (c_disk c))) as [H1 H2];
      [lia|lia|apply (tx_len _ _ _ _ Htx)|apply (tx_clear _ _ _ _ Htx)|].
    cbv zeta. unfold crash_disk. cbn [commit_writes d_blocks]. rewrite take_nil. cbn [apply_writes]. split; [done|]. split; [lia|]. intros _ b Hb.
    rewrite <- (txn_view g c [] ds b Htx), H2; [done|]. intros ->. apply Hb. unfold in_log. lia.
  - rewrite <- Eb in *. destruct (crash_recovered g c bs ds Htx ltac:(by rewrite Eb) k) as [H1 H2].
    split; [exact H1|]. replace (match bs with [] => 0 | _ => Datatypes.S (length ds) end)%nat with (Datatypes.S (length ds)) by (by rewrite Eb).
    split; intros Hk b Hb; (etransitivity; [apply H2; done|]); destruct (Nat.leb_spec k (length ds)); try done; lia.
Qed.

(** (C3) A commit is atomic with respect to crashes: commit returns, and if
    the machine stops after any number [k] of the commit's disk writes, then
    running recovery on what the disk holds gives, for every block outside
    the log, the old contents (if [k] is before the commit point) or
    the contents the transaction gave it (from the commit point on). *)
Theorem commit_crash_atomic g c bs ds :
  txn g c bs ds ->
  exists c' ws j, commit (mk_lfs g c) = Ok (tt, mk_lfs (set_n 0 g) c') /\
    d_hist (c_disk c') = d_hist (c_disk c) ++ ws /\ (j <= length ws)%nat /\
    forall k, exists g2 c2,
      recover_from_log (mk_lfs (boot_log (lg_start g) (lg_size g)) (empty_cache (crash_disk (c_disk c) ws k)))
        = Ok (tt, mk_lfs g2 c2) /\
      ((k < j)%nat -> forall b, ~ in_log g b -> c_view c2 b = disk_get (d_blocks (c_disk c)) b) /\
      ((j <= k)%nat -> forall b, ~ in_log g b -> c_view c2 b = c_view c b).
Proof.
  intros Htx. destruct (commit_crash g c bs ds Htx) as (c' & ws & j & E & Hh & Hj & Hk). exists c', ws, j. split_and!; auto.
  intros k. destruct (Hk k) as (H1 & H2 & H3). destruct (recover_run _ _ _ H1) as (g2 & E2 & _).
  exists g2, (empty_cache (disk_puts (recovery_writes (lg_start g) (d_blocks (crash_disk (c_disk c) ws k))) (crash_disk (c_disk c) ws k))).
  split; [exact E2|]. unfold c_view. cbn [c_mem empty_cache c_disk]. split; intros Hlt b Hb; rewrite lookup_empty, disk_puts_eq; [by apply H2|by apply H3].
Qed.


(** The disk when the machine stops after [k] writes of a recovery. *)
Definition crash_recovery (start size : Z) (d : blocks) (k : nat) : blocks :=
  match recover_from_log (mk_lfs (boot_log start size) (empty_cache (mk_disk d []))) with
  | Ok (_, s) => apply_writes (take k (d_hist (c_disk (l_bc s)))) d
  | Panic _ => d
  end.

Lemma crash_recovery_eq start size d k :
  log_disk_ok start size d -> crash_recovery start size d k = apply_writes (take k (recovery_writes start d)) d.
Proof.
  intros Hok. destruct (recover_run start size (mk_disk d []) Hok) as (g & E & _).
  unfold crash_recovery. rewrite E. cbn [l_bc c_disk empty_cache]. by rewrite disk_puts_eq.
Qed.

(** (C4) Recovery survives crashes of its own: however often the machine
    stops while it runs recovery, after whichever writes [ks], the recovery
    that finally completes gives every block outside the log the contents an
    undisturbed recovery would have given it. *)
Theorem recovery_crash_safe start size d ks :
  log_disk_ok start size d ->
  let d' := foldl (crash_recovery start size) d ks in
  exists g c g' c',
    recover_from_log (mk_lfs (boot_log start size) (empty_cache (mk_disk d []))) = Ok (tt, mk_lfs g c) /\
    recover_from_log (mk_lfs (boot_log start size) (empty_cache (mk_disk d' []))) = Ok (tt, mk_lfs g' c') /\
    forall b, ~ (start <= b < start + size) -> c_view c' b = c_view c b.
Proof.
  intros Hok d'.
  assert (Hd : log_disk_ok start size d' /\
    forall b, ~ (start <= b < start + size) -> disk_get (recovered start d') b = disk_get (recovered start d) b).
  { unfold d'. clear d'. revert d Hok. induction ks as [|k ks IH]; intros d Hok; [done|]. cbn [foldl].
    rewrite crash_recovery_eq by done. destruct (recovery_crash_recovered start size d Hok k) as [H1 H2].
    destruct (IH _ H1) as [H3 H4]. split; [done|]. intros b Hb. by rewrite H4, H2. }
  destruct Hd as [Hok' Hrec].
  destruct (recover_run start size (mk_disk d []) Hok) as (g & E & _).
  destruct (recover_run start size (mk_disk d' []) Hok') as (g' & E' & _).
  exists g, (empty_cache (disk_puts (recovery_writes start d) (mk_disk d []))), g',
    (empty_cache (disk_puts (recovery_writes start d') (mk_disk d' []))).
  split; [exact E|]. split; [exact E'|]. intros b Hb. specialize (Hrec b Hb).
  unfold c_view. simpl. rewrite !lookup_empty. simpl. rewrite !disk_puts_eq. exact Hrec.
Qed.

(** ** A transaction of two blocks *)

Definition demo_log : logst := mk_log 2 30 0 false ROOTDEV 2 (100 :: 200 :: replicate 28 0).
Definition demo_cache : cache :=
  mk_cache (mk_disk ∅ []) (<[100 := replicate 1024 7]> {[200 := replicate 1024 9]}) ∅ (<[100 := 1%nat]> {[200 := 1%nat]}).

Lemma demo_txn : txn demo_log demo_cache [100; 200] [replicate 1024 7; replicate 1024 9].
Proof.
  split; [reflexivity|..|reflexivity|reflexivity].
  - intros [|[|i]] b Hb; simpl in Hb; [by injection Hb as <-..|]. by rewrite lookup_nil in Hb.
  - repeat constructor; set_solver.
  - intros b Hb. unfold in_log, demo_log. cbn [lg_start lg_size].
    assert (b = 100 \/ b = 200) by set_solver. lia.
  - cbn. lia.
  - reflexivity.
  - constructor; [apply lookup_insert_eq|]. constructor; [|constructor]. cbn [c_mem demo_cache].
    rewrite lookup_insert_ne by done. apply lookup_singleton_eq.
  - intros b [x Hx]. simpl in Hx. apply lookup_insert_Some in Hx as [[<- _]|[_ Hx]]; [set_solver|].
    apply lookup_singleton_Some in Hx as [<- _]. set_solver.
  - intros b. unfold pins. simpl. destruct (decide (b = 100)) as [->|]; [by simplify_map_eq|].
    destruct (decide (b = 200)) as [->|]; [by simplify_map_eq|]. rewrite decide_False by set_solver. by simplify_map_eq.
Qed.

Lemma commit_crash_atomic_witness :
  exists c' ws j, commit (mk_lfs demo_log demo_cache) = Ok (tt, mk_lfs (set_n 0 demo_log) c') /\
    d_hist (c_disk c') = ws /\ (j <= length ws)%nat /\
    exists g2 c2, recover_from_log (mk_lfs (boot_log 2 30) (empty_cache (crash_disk (mk_disk ∅ []) ws j))) =
                    Ok (tt, mk_lfs g2 c2) /\ c_view c2 100 = replicate 1024 7.
Proof.
  destruct (commit_crash_atomic demo_log demo_cache _ _ demo_txn) as (c' & ws & j & E & Hh & Hj & Hk).
  exists c', ws, j. split; [exact E|]. split; [exact Hh|]. split; [exact Hj|].
  destruct (Hk j) as (g2 & c2 & E2 & _ & Hv). exists g2, c2. split; [exact E2|].
  rewrite Hv; [reflexivity|lia|vm_compute; intuition congruence].
Defined.

(** A disk whose log holds a committed block 100, in slot 3. *)
Definition demo_disk : blocks :=
  <[2 := put32 (put32 zero_block 0 1) 4 100]> {[3 := replicate 1024 7]}.

Lemma recovery_crash_safe_witness :
  exists g c g' c',
    recover_from_log (mk_lfs (boot_log 2 30) (empty_cache (mk_disk demo_disk []))) = Ok (tt, mk_lfs g c) /\
    recover_from_log (mk_lfs (boot_log 2 30) (empty_cache
      (mk_disk (foldl (crash_recovery 2 30) demo_disk [0; 1; 1]%nat) []))) = Ok (tt, mk_lfs g' c') /\
    c_view c' 100 = c_view c 100.
Proof.
  destruct (recovery_crash_safe 2 30 demo_disk [0; 1; 1]%nat) as (g & c & g' & c' & E & E' & Hv).
  - split; [lia|reflexivity|vm_compute; intuition congruence|].
    repeat constructor. vm_compute. intuition congruence.
  - exists g, c, g', c'. split; [exact E|]. split; [exact E'|]. apply Hv. lia.
Defined.
