(* ===== verification/Blocks.v ===== *)
(** What the log promises to the file system.

    [BlockLayer] lists what fs.c and the file system calls use of bio.c and log.c.
    [blk] is the abstract store: the contents of every block as the running
    system calls see them, and the contents a crash would fall back to.
    The log over the abstract cache implements it. *)

From S2P Require Import Prelude Riscv Bytes Refine Cache Bio Log LogCrash.

Class BlockLayer (S : Type) := {
  bl_read : Z -> M S unit;             (* bread(dev, b) *)
  bl_data : Z -> M S block;            (* b->data *)
  bl_set : Z -> block -> M S unit;     (* stores into b->data *)
  bl_log : Z -> M S unit;              (* log_write(b) *)
  bl_relse : Z -> M S unit;            (* brelse(b) *)
  bl_begin : M S unit;                 (* begin_op() *)
  bl_end : M S unit;                   (* end_op() *)
}.

#[global] Instance lfs_BlockLayer {S} `{BufCache S} : BlockLayer (lfs S) := {
  bl_read b := bc (bc_read b);
  bl_data b := bc (bc_data b);
  bl_set b d := bc (bc_set b d);
  bl_log b := log_write b;
  bl_relse b := bc (bc_relse b);
  bl_begin := begin_op;
  bl_end := end_op;
}.

Class BlockLayerSim {S T} `{BlockLayer S} `{BlockLayer T} (R : S -> T -> Prop) : Prop := {
  sim_bl_read b : sim R (bl_read b) (bl_read b);
  sim_bl_data b : sim R (bl_data b) (bl_data b);
  sim_bl_set b d : sim R (bl_set b d) (bl_set b d);
  sim_bl_log b : sim R (bl_log b) (bl_log b);
  sim_bl_relse b : sim R (bl_relse b) (bl_relse b);
  sim_bl_begin : sim R bl_begin bl_begin;
  sim_bl_end : sim R bl_end bl_end;
}.

#[export] Hint Resolve sim_bl_read sim_bl_data sim_bl_set sim_bl_log sim_bl_relse sim_bl_begin sim_bl_end : xv6.

(** ** The log over refined caches *)

Definition lfs_rel {S T} (R : S -> T -> Prop) (s : lfs S) (t : lfs T) : Prop :=
  l_log s = l_log t /\ R (l_bc s) (l_bc t).

Section log_sim.
Context {S T} `{BufCache S} `{BufCache T} (R : S -> T -> Prop) `{!BufCacheSim R}.

Lemma sim_bc {A} (m : M S A) (n : M T A) : sim R m n -> sim (lfs_rel R) (bc m) (bc n).
Proof.
  intros Hs s t [Hl Hr] a t' E. unfold bc, zoom in *. simpl in *.
  destruct (n (l_bc t)) as [[x u]|] eqn:En; [|done]. injection E as <- <-.
  destruct (Hs _ _ Hr _ _ En) as (s' & Es & Hr'). rewrite Es. eexists. split; [done|]. split; [done|exact Hr'].
Qed.

Lemma sim_getlog {A} (f : logst -> A) : sim (lfs_rel R) (getlog f) (getlog f).
Proof. apply sim_gets. intros s t [E _]. by rewrite E. Qed.

Lemma sim_modlog f : sim (lfs_rel R) (modlog f) (modlog f).
Proof. apply sim_modify. intros s t [E Hr]. split; simpl; [by rewrite E|done]. Qed.

#[local] Hint Resolve sim_bc sim_getlog sim_modlog : xv6.

Lemma sim_install k : forall tail r, sim (lfs_rel R) (install_trans_loop k tail r) (install_trans_loop k tail r).
Proof. induction k as [|k IH]; intros tail r; cbn [install_trans_loop]; sim_auto. Qed.

Lemma sim_write_log k : forall tail, sim (lfs_rel R) (write_log_loop k tail) (write_log_loop k tail).
Proof. induction k as [|k IH]; intros tail; cbn [write_log_loop]; sim_auto. Qed.

#[local] Hint Resolve sim_install sim_write_log : xv6.

Lemma sim_write_head : sim (lfs_rel R) write_head write_head.
Proof. unfold write_head. sim_auto. Qed.

#[local] Hint Resolve sim_write_head : xv6.

Lemma sim_commit : sim (lfs_rel R) commit commit.
Proof. unfold commit, write_log, install_trans. sim_auto. Qed.

#[local] Hint Resolve sim_commit : xv6.

#[global] Instance log_sim : BlockLayerSim (lfs_rel R).
Proof.
  split; intros; simpl.
  - auto with xv6.
  - auto with xv6.
  - auto with xv6.
  - unfold log_write. sim_auto.
  - auto with xv6.
  - unfold begin_op. sim_auto.
  - unfold end_op. sim_auto.
Qed.

Lemma sim_recover : sim (lfs_rel R) recover_from_log recover_from_log.
Proof. unfold recover_from_log, read_head, install_trans. sim_auto. Qed.

End log_sim.

(** ** The abstract block store *)

Record blk := mk_blk {
  k_start : Z;               (* the log's place on disk *)
  k_size : Z;
  k_view : blocks;           (* contents the running calls see *)
  k_disk : blocks;           (* contents after a crash and recovery *)
  k_held : gset Z;           (* locked buffers *)
  k_txn : list Z;            (* blocks written in this transaction *)
  k_ops : Z;                 (* system calls in progress *)
}.

Definition kget (k : blk) (b : Z) : block := disk_get (k_view k) b.

Definition is_log (k : blk) (b : Z) : bool := (k_start k <=? b) && (b <? k_start k + k_size k).

Definition set_held (h : gset Z) (k : blk) : blk :=
  mk_blk (k_start k) (k_size k) (k_view k) (k_disk k) h (k_txn k) (k_ops k).
Definition set_view (v : blocks) (k : blk) : blk :=
  mk_blk (k_start k) (k_size k) v (k_disk k) (k_held k) (k_txn k) (k_ops k).
Definition set_txn (t : list Z) (k : blk) : blk :=
  mk_blk (k_start k) (k_size k) (k_view k) (k_disk k) (k_held k) t (k_ops k).
Definition set_ops (n : Z) (k : blk) : blk :=
  mk_blk (k_start k) (k_size k) (k_view k) (k_disk k) (k_held k) (k_txn k) n.

Definition cached (k : blk) : gset Z := k_held k ∪ list_to_set (k_txn k).

Definition blk_read (b : Z) : M blk unit := fun k =>
  if is_log k b then Panic "log block"
  else if decide (b ∈ k_held k) then Panic sleeps
  else if bool_decide (b ∉ cached k) && (NBUF <=? Z.of_nat (size (cached k))) then Panic "bget: no buffers"
  else Ok (tt, set_held ({[b]} ∪ k_held k) k).

Definition blk_data (b : Z) : M blk block := fun k =>
  if decide (b ∈ k_held k) then Ok (kget k b, k) else Panic not_held.

Definition blk_set (b : Z) (d : block) : M blk unit := fun k =>
  if decide (b ∈ k_held k) then Ok (tt, set_view (<[b := d]> (k_view k)) k) else Panic not_held.

Definition blk_log (b : Z) : M blk unit := fun k =>
  if (k_size k - 1 <=? Z.of_nat (length (k_txn k))) then Panic "too big a transaction"
  else if k_ops k <? 1 then Panic "log_write outside of trans"
  else if decide (b ∈ k_held k) then
    if (0 <=? b) && (b <? 2147483648)
    then Ok (tt, if decide (b ∈ k_txn k) then k else set_txn (k_txn k ++ [b]) k)
    else Panic "block number"
  else Panic not_held.

Definition blk_relse (b : Z) : M blk unit := fun k =>
  if decide (b ∈ k_held k) then
    if decide (b ∈ k_txn k \/ kget k b = disk_get (k_disk k) b)
    then Ok (tt, set_held (k_held k ∖ {[b]}) k)
    else Panic lost
  else Panic "brelse".

Definition blk_begin : M blk unit := fun k =>
  if LOGSIZE <? Z.of_nat (length (k_txn k)) + (k_ops k + 1) * MAXOPBLOCKS then Panic sleeps
  else Ok (tt, set_ops (k_ops k + 1) k).

(** The last end_op commits: the view becomes what a crash falls back to. *)
Definition blk_end : M blk unit := fun k =>
  if k_ops k =? 1 then
    if decide (k_held k = ∅)
    then Ok (tt, mk_blk (k_start k) (k_size k) (k_view k) (k_view k) ∅ [] 0)
    else Panic "buffer held over end_op"
  else if 1 <? k_ops k then Ok (tt, set_ops (k_ops k - 1) k)
  else Panic "end_op".

#[global] Instance blk_BlockLayer : BlockLayer blk := {
  bl_read := blk_read;
  bl_data := blk_data;
  bl_set := blk_set;
  bl_log := blk_log;
  bl_relse := blk_relse;
  bl_begin := blk_begin;
  bl_end := blk_end;
}.

(** ** The log implements the store *)

Record log_rel (t : lfs cache) (k : blk) : Prop := {
  lr_start : lg_start (l_log t) = k_start k;
  lr_size : lg_size (l_log t) = k_size k;
  lr_bounds : 0 <= k_start k /\ 1 < k_size k <= 30;
  lr_ops : lg_outstanding (l_log t) = k_ops k;
  lr_com : lg_committing (l_log t) = false;
  lr_len : length (lg_block (l_log t)) = 30%nat;
  lr_n : lg_n (l_log t) = Z.of_nat (length (k_txn k));
  lr_entries : entries (l_log t) 0 (k_txn k);
  lr_nodup : NoDup (k_txn k);
  lr_room : Z.of_nat (length (k_txn k)) < k_size k;
  lr_home : forall b, b ∈ k_txn k -> is_log k b = false /\ 0 <= b < 2147483648;
  lr_held : c_held (l_bc t) = k_held k;
  lr_heldhome : forall b, b ∈ k_held k -> is_log k b = false;
  lr_pins : forall b, pins (l_bc t) b = if decide (b ∈ k_txn k) then 1%nat else 0%nat;
  lr_mem : forall b, is_Some (c_mem (l_bc t) !! b) <-> b ∈ cached k;
  lr_view : forall b, is_log k b = false -> c_view (l_bc t) b = kget k b;
  lr_disk : forall b, is_log k b = false -> disk_get (d_blocks (c_disk (l_bc t))) b = disk_get (k_disk k) b;
  lr_hlen : length (disk_get (d_blocks (c_disk (l_bc t))) (k_start k)) = 1024%nat;
  lr_hclear : hdr_n (disk_get (d_blocks (c_disk (l_bc t))) (k_start k)) = 0;
}.

Lemma is_log_spec k b : is_log k b = true <-> k_start k <= b < k_start k + k_size k.
Proof. unfold is_log. rewrite andb_true_iff, Z.leb_le, Z.ltb_lt. done. Qed.

Lemma in_log_spec t k b : log_rel t k -> in_log (l_log t) b <-> is_log k b = true.
Proof. intros Hr. rewrite is_log_spec. unfold in_log. by rewrite (lr_start _ _ Hr), (lr_size _ _ Hr). Qed.

Lemma elem_of_cached k b : b ∈ cached k <-> b ∈ k_held k \/ b ∈ k_txn k.
Proof. unfold cached. rewrite elem_of_union, elem_of_list_to_set. done. Qed.

Lemma mem_size t k : log_rel t k -> size (c_mem (l_bc t)) = size (cached k).
Proof.
  intros Hr. rewrite <- size_dom. f_equal. apply set_eq. intros b. rewrite elem_of_dom. apply Hr.
Qed.

(** The cache's view of a cached block. *)
Lemma mem_view t k b : log_rel t k -> b ∈ cached k -> is_log k b = false ->
  c_mem (l_bc t) !! b = Some (kget k b).
Proof.
  intros Hr Hb Hl. apply (lr_mem _ _ Hr) in Hb as [x Hx]. rewrite <- (lr_view _ _ Hr b Hl).
  unfold c_view. by rewrite Hx.
Qed.

Lemma cache_read_run t k b :
  log_rel t k -> b ∉ k_held k -> (b ∉ cached k -> (size (cached k) < 30)%nat) ->
  cache_read b (l_bc t) = Ok (tt, mk_cache (c_disk (l_bc t)) (<[b := c_view (l_bc t) b]> (c_mem (l_bc t)))
                                           ({[b]} ∪ k_held k) (c_pins (l_bc t))).
Proof.
  intros Hr Hh Hroom. unfold cache_read. rewrite (lr_held _ _ Hr), decide_False by done.
  rewrite (mem_size _ _ Hr). destruct (bool_decide (c_mem (l_bc t) !! b = None)) eqn:E; [|done].
  apply bool_decide_eq_true in E.
  assert (Hb : b ∉ cached k) by (rewrite <- (lr_mem _ _ Hr), E; by intros [? ?]).
  specialize (Hroom Hb). rewrite (proj2 (Z.leb_gt _ _)); [done|]. unfold NBUF. lia.
Qed.

Lemma c_view_insert c b d h p b' :
  c_view (mk_cache (c_disk c) (<[b := d]> (c_mem c)) h p) b' = if decide (b' = b) then d else c_view c b'.
Proof. unfold c_view. simpl. case_decide; [subst; by rewrite lookup_insert_eq|by rewrite lookup_insert_ne]. Qed.

Lemma bc_inv {S A} (m : M S A) t a s' : m (l_bc t) = Ok (a, s') -> bc m t = Ok (a, mk_lfs (l_log t) s').
Proof. intros E. unfold bc, zoom. simpl. by rewrite E. Qed.

Lemma sim_blk_read b : sim log_rel (bc (cache_read b)) (blk_read b).
Proof.
  intros t k Hr a k' E. unfold blk_read in E. destruct (is_log k b) eqn:Hl; [done|]. case_decide as Hh; [done|].
  destruct (bool_decide _ && _) eqn:Hroom; [done|]. injection E as <- <-.
  eexists. split; [apply bc_inv, (cache_read_run t k); auto|].
  { intros Hb. rewrite bool_decide_eq_true_2 in Hroom by done. simpl in Hroom. unfold NBUF in Hroom. lia. }
  destruct Hr as [H1 H2 H3 H4 H5 H6 H7 H8 H9 H10 H11 H12 H13 H14 H15 H16 H17 H18 H19]. split; simpl; auto.
  - intros x Hx. apply elem_of_union in Hx as [Hx|Hx]; [apply elem_of_singleton in Hx as ->; done|by apply H13].
  - intros x. destruct (decide (x = b)) as [->|Hne].
    + rewrite lookup_insert_eq. rewrite elem_of_cached. simpl. split; [set_solver|by eexists].
    + rewrite lookup_insert_ne by done. rewrite H15, !elem_of_cached. simpl. set_solver.
  - intros x Hx. rewrite c_view_insert. destruct (decide (x = b)); [subst|]; by apply H16.
Qed.

Lemma sim_blk_data b : sim log_rel (bc (cache_data b)) (blk_data b).
Proof.
  intros t k Hr a k' E. unfold blk_data in E. case_decide as Hh; [|done]. injection E as <- <-.
  exists t. split; [|done]. assert (Hl : is_log k b = false) by (exact (lr_heldhome _ _ Hr b Hh)).
  erewrite bc_inv; [|apply cache_data_ok; [by rewrite (lr_held _ _ Hr)|apply (mem_view t k); auto; apply elem_of_cached; auto]].
  by destruct t.
Qed.

Lemma sim_blk_set b d : sim log_rel (bc (cache_set b d)) (blk_set b d).
Proof.
  intros t k Hr a k' E. unfold blk_set in E. case_decide as Hh; [|done]. injection E as <- <-.
  eexists. split; [apply bc_inv, cache_set_ok; by rewrite (lr_held _ _ Hr)|].
  destruct Hr as [H1 H2 H3 H4 H5 H6 H7 H8 H9 H10 H11 H12 H13 H14 H15 H16 H17 H18 H19]. split; simpl; auto.
  - intros x. change (cached (set_view (<[b := d]> (k_view k)) k)) with (cached k).
    destruct (decide (x = b)) as [->|Hne].
    + rewrite lookup_insert_eq, elem_of_cached. split; [auto|by eexists].
    + by rewrite lookup_insert_ne.
  - intros x Hx. rewrite c_view_insert. unfold kget, disk_get. simpl. case_decide.
    + subst. by rewrite lookup_insert_eq.
    + rewrite lookup_insert_ne by done. by apply H16.
Qed.

Lemma sim_blk_relse b : sim log_rel (bc (cache_relse b)) (blk_relse b).
Proof.
  intros t k Hr a k' E. unfold blk_relse in E. case_decide as Hh; [|done]. case_decide as Hc; [|done]. injection E as <- <-.
  assert (Hl : is_log k b = false) by (exact (lr_heldhome _ _ Hr b Hh)). pose proof (lr_pins _ _ Hr b) as Hp.
  assert (Hhc : b ∈ c_held (l_bc t)) by (by rewrite (lr_held _ _ Hr)).
  destruct (decide (b ∈ k_txn k)) as [Ht|Ht].
  - eexists. split; [apply bc_inv, cache_relse_pinned; [done|lia]|].
    destruct Hr as [H1 H2 H3 H4 H5 H6 H7 H8 H9 H10 H11 H12 H13 H14 H15 H16 H17 H18 H19]. split; simpl; auto.
    + by rewrite H12.
    + intros x Hx. apply H13. set_solver.
    + intros x. rewrite H15, !elem_of_cached. simpl. destruct (decide (x = b)) as [->|]; set_solver.
  - destruct Hc as [Hc|Hc]; [done|].
    assert (Hm : c_mem (l_bc t) !! b = Some (disk_get (d_blocks (c_disk (l_bc t))) b)).
    { rewrite (lr_disk _ _ Hr b Hl), <- Hc. apply (mem_view t k); auto. apply elem_of_cached. auto. }
    eexists. split; [apply bc_inv, cache_relse_clean; [done|lia|done]|].
    destruct Hr as [H1 H2 H3 H4 H5 H6 H7 H8 H9 H10 H11 H12 H13 H14 H15 H16 H17 H18 H19]. split; simpl; auto.
    + by rewrite H12.
    + intros x Hx. apply H13. set_solver.
    + intros x. rewrite elem_of_cached. simpl. destruct (decide (x = b)) as [->|Hne].
      * rewrite lookup_delete_eq. split; [by intros [? ?]|set_solver].
      * rewrite lookup_delete_ne by done. rewrite H15, elem_of_cached. set_solver.
    + intros x Hx. refine (eq_trans _ (H16 x Hx)). unfold c_view. simpl. destruct (decide (x = b)) as [->|Hne].
      * by rewrite lookup_delete_eq, Hm.
      * by rewrite lookup_delete_ne.
Qed.

Lemma sim_blk_begin : sim log_rel begin_op blk_begin.
Proof.
  intros t k Hr a k' E. unfold blk_begin in E. destruct (LOGSIZE <? _) eqn:Hs; [done|]. injection E as <- <-.
  unfold begin_op, getlog, modlog. rewrite bind_run, gets_run. cbn [id].
  rewrite (lr_com _ _ Hr), (lr_n _ _ Hr), (lr_ops _ _ Hr), Hs. eexists. split; [done|].
  destruct Hr. by split.
Qed.

(** ** log_write *)

Lemma log_find_spec g b bs : forall i,
  entries g i bs ->
  let r := log_find (length bs) i b g in
  (b ∈ bs -> i <= r < i + Z.of_nat (length bs) /\ log_block g r = b) /\
  (b ∉ bs -> r = i + Z.of_nat (length bs)).
Proof.
  induction bs as [|x bs IH]; intros i He; cbn [log_find length].
  { split; [intros Hb; by apply not_elem_of_nil in Hb|]. intros _. simpl. lia. }
  apply entries_cons in He as [Hx He]. rewrite Hx. destruct (IH (i + 1) He) as [H1 H2].
  destruct (Z.eqb_spec x b) as [->|Hne].
  - split; [intros _; split; [lia|done]|]. intros Hn. exfalso. apply Hn. by left.
  - split.
    + intros [->|Hb]%elem_of_cons; [done|]. destruct (H1 Hb). split; [lia|done].
    + intros Hn. rewrite H2; [lia|]. intros Hb. apply Hn. by right.
Qed.

Lemma entries_set_block g bs i b :
  entries g 0 bs -> (length bs <= length (lg_block g))%nat -> 0 <= i ->
  (i < Z.of_nat (length bs) -> log_block g i = b) -> entries (set_block i b g) 0 bs.
Proof.
  intros He Hl Hi Hb j x Hx. pose proof (He j x Hx) as Ej. apply lookup_lt_Some in Hx as Hlt.
  unfold log_block in *. simpl. rewrite Z.add_0_l in *.
  destruct (decide (Z.to_nat i = Z.to_nat (Z.of_nat j))) as [E|E].
  - rewrite E, list_lookup_total_insert_eq by lia. rewrite <- Ej. rewrite <- E. symmetry. apply Hb. lia.
  - by rewrite list_lookup_total_insert_ne.
Qed.

Lemma sim_blk_log b : sim log_rel (log_write b) (blk_log b).
Proof.
  intros t k Hr a k' E. unfold blk_log in E. destruct (Z.leb_spec (k_size k - 1) (Z.of_nat (length (k_txn k)))) as [|Hroom]; [done|].
  destruct (k_ops k <? 1) eqn:Hops; [done|]. case_decide as Hh; [|done].
  destruct ((0 <=? b) && (b <? 2147483648)) eqn:Hrange; [|done]. injection E as <- <-.
  pose proof (lr_bounds _ _ Hr) as Hbd. pose proof (lr_len _ _ Hr) as Hlen.
  unfold log_write, getlog, modlog. rewrite bind_run, gets_run. cbn [id].
  rewrite (lr_n _ _ Hr), (lr_size _ _ Hr), (lr_ops _ _ Hr), Hops.
  rewrite (proj2 (Z.leb_gt LOGSIZE _)) by (unfold LOGSIZE; lia). rewrite (proj2 (Z.leb_gt (k_size k - 1) _)) by lia.
  cbn [orb]. rewrite Nat2Z.id.
  destruct (log_find_spec (l_log t) b (k_txn k) 0 (lr_entries _ _ Hr)) as [F1 F2].
  set (i := log_find (length (k_txn k)) 0 b (l_log t)) in *.
  rewrite bind_run, modify_run. cbn [l_log l_bc].
  destruct (decide (b ∈ k_txn k)) as [Hin|Hout].
  - destruct (F1 Hin) as [Hi Hbi]. rewrite (proj2 (Z.eqb_neq _ _)) by lia. rewrite ret_run.
    eexists. split; [done|].
    destruct Hr as [H1 H2 H3 H4 H5 H6 H7 H8 H9 H10 H11 H12 H13 H14 H15 H16 H17 H18 H19]. split; simpl; auto.
    + by rewrite length_insert.
    + apply entries_set_block; auto; lia.
  - specialize (F2 Hout). rewrite F2, Z.add_0_l, Z.eqb_refl.
    assert (Hp : pins (l_bc t) b = 0%nat) by (by rewrite (lr_pins _ _ Hr), decide_False).
    assert (Epin : bc (bc_pin b) (mk_lfs (set_block (0 + Z.of_nat (length (k_txn k))) b (l_log t)) (l_bc t)) = 
      Ok (tt, mk_lfs (set_block (0 + Z.of_nat (length (k_txn k))) b (l_log t))
        (mk_cache (c_disk (l_bc t)) (c_mem (l_bc t)) (c_held (l_bc t)) (<[b := 1%nat]> (c_pins (l_bc t)))))).
    { refine (eq_trans (bc_run (cache_pin b) _ _ _ _ (cache_pin_ok b (l_bc t) _ _)) _).
      - by rewrite (lr_held _ _ Hr).
      - rewrite Hp. lia.
      - by rewrite Hp. }
    rewrite Z.add_0_l in Epin. rewrite (bind_Ok _ _ _ _ _ Epin), modify_run. cbn [l_log l_bc]. eexists. split; [done|].
    assert (Hhl : is_log k b = false) by (exact (lr_heldhome _ _ Hr b Hh)).
    destruct Hr as [H1 H2 H3 H4 H5 H6 H7 H8 H9 H10 H11 H12 H13 H14 H15 H16 H17 H18 H19]. split; simpl; auto.
    + by rewrite length_insert.
    + rewrite length_app. simpl. lia.
    + intros j x Hx. apply lookup_app_Some in Hx as [Hx|[Hj Hx]].
      * change (set_n _ (set_block _ _ _)) with (set_n (Z.of_nat (length (k_txn k)) + 1) (set_block (Z.of_nat (length (k_txn k))) b (l_log t))).
        apply (entries_set_block (l_log t) (k_txn k) (Z.of_nat (length (k_txn k))) b); auto; lia.
      * apply list_lookup_singleton_Some in Hx as [Hj0 <-]. assert (j = length (k_txn k)) as -> by lia.
        unfold log_block. cbn [set_n set_block lg_block]. rewrite Z.add_0_l.
        by rewrite list_lookup_total_insert_eq by lia.
    + apply NoDup_app. split_and!; auto; [|apply NoDup_singleton]. intros x Hx. rewrite list_elem_of_singleton. by intros ->.
    + rewrite length_app. simpl. lia.
    + intros x Hx. apply elem_of_app in Hx as [Hx|Hx]; [by apply H11|]. apply list_elem_of_singleton in Hx as ->.
      split; [done|]. lia.
    + intros x. unfold pins. simpl. destruct (decide (x = b)) as [->|Hne].
      * rewrite lookup_insert_eq, decide_True; [done|]. apply elem_of_app. right. by left.
      * rewrite lookup_insert_ne by done. pose proof (H14 x) as Hx. unfold pins in Hx. rewrite Hx.
        apply decide_ext. rewrite elem_of_app, list_elem_of_singleton. tauto.
    + intros x. rewrite H15, !elem_of_cached. simpl. rewrite elem_of_app, list_elem_of_singleton.
      split; [tauto|]. intros [?|[?| ->]]; auto.
Qed.

(** ** end_op *)

(** A store with no buffer held is a transaction ready to commit. *)
Lemma log_rel_txn t k g :
  log_rel t k -> k_held k = ∅ -> lg_start g = k_start k -> lg_size g = k_size k -> lg_n g = lg_n (l_log t) ->
  lg_block g = lg_block (l_log t) -> txn g (l_bc t) (k_txn k) (kget k <$> k_txn k).
Proof.
  intros Hr Hh Eg1 Eg2 Eg3 Eg4.
  pose proof Hr as [H1 H2 H3 H4 H5 H6 H7 H8 H9 H10 H11 H12 H13 H14 H15 H16 H17 H18 H19].
  split; rewrite ?Eg1, ?Eg2; auto.
  - lia.
  - intros i b Hb. unfold log_block. rewrite Eg4. by apply H8.
  - intros b Hb. destruct (H11 b Hb) as [Hl Hrange]. split; [|done].
    unfold in_log. rewrite Eg1, Eg2, <- is_log_spec, Hl. done.
  - lia.
  - unfold quiet. by rewrite H12.
  - apply Forall2_fmap_r, Forall2_same_length_lookup. split; [done|]. intros i b b' Hb Hb'. simplify_eq.
    apply list_elem_of_lookup_2 in Hb. apply (mem_view t k); auto; [apply elem_of_cached; auto|by apply H11].
  - intros b Hb. apply H15, elem_of_cached in Hb as [Hb|Hb]; [|done]. rewrite Hh in Hb. set_solver.
Qed.

Lemma sim_blk_end : sim log_rel end_op blk_end.
Proof.
  intros t k Hr a k' E. unfold blk_end in E.
  pose proof Hr as [H1 H2 H3 H4 H5 H6 H7 H8 H9 H10 H11 H12 H13 H14 H15 H16 H17 H18 H19].
  unfold end_op, modlog, getlog. rewrite bind_run, modify_run. cbn [l_log l_bc]. rewrite bind_run, gets_run. cbn [id l_log].
  change (lg_committing (set_outstanding _ _)) with (lg_committing (l_log t)). rewrite H5.
  change (lg_outstanding (set_outstanding ?v _)) with v. rewrite H4.
  destruct (Z.eqb_spec (k_ops k) 1) as [Eo|Eo].
  - case_decide as Hh; [|done]. injection E as <- <-. rewrite Eo. change (1 - 1 =? 0) with true. cbv iota.
    rewrite bind_run, modify_run. cbn [l_log l_bc].
    set (g := set_committing true _).
    assert (Htx : txn g (l_bc t) (k_txn k) (kget k <$> k_txn k)) by (by apply (log_rel_txn t k)).
    destruct (commit_run _ _ _ _ Htx) as (c' & Ec & Hd & Hq & Hm & Hp).
    rewrite (bind_Ok _ _ _ _ _ Ec). rewrite modify_run. cbn [l_log l_bc]. eexists. split; [done|].
    assert (Hfin : (forall b, is_log k b = false -> disk_get (d_blocks (c_disk c')) b = kget k b) /\
      length (disk_get (d_blocks (c_disk c')) (k_start k)) = 1024%nat /\ hdr_n (disk_get (d_blocks (c_disk c')) (k_start k)) = 0).
    { rewrite Hd, disk_puts_eq. cbn [d_blocks]. destruct (k_txn k) as [|b0 bs0] eqn:Eb.
      - cbn [commit_writes apply_writes]. split_and!; auto. intros b Hb. rewrite <- (H16 b Hb). unfold c_view.
        destruct (c_mem (l_bc t) !! b) eqn:Em; [|done]. exfalso.
        assert (Hin : b ∈ cached k) by (apply H15; by eexists). apply elem_of_cached in Hin.
        rewrite Hh, Eb in Hin. set_solver.
      - rewrite <- Eb in *. destruct (commit_final _ _ _ _ Htx) as (F1 & F2 & F3); [by rewrite Eb|].
        change (lg_start g) with (lg_start (l_log t)) in F2, F3. rewrite H1 in F2, F3.
        split_and!; auto. intros b Hb. rewrite F1, H16; auto. unfold in_log.
        change (lg_start g) with (lg_start (l_log t)). change (lg_size g) with (lg_size (l_log t)).
        rewrite H1, H2, <- is_log_spec, Hb. done. }
    destruct Hfin as (F1 & F2 & F3).
    split; simpl; auto; try lia.
    + intros i b Hb. by rewrite lookup_nil in Hb.
    + constructor.
    + intros b Hb. by apply not_elem_of_nil in Hb.
    + intros b Hb. set_solver.
    + intros b. rewrite Hm, elem_of_cached. simpl. split; [by intros [? ?]|]. intros [?|Hb]; [set_solver|by apply not_elem_of_nil in Hb].
    + intros b Hb. unfold c_view. rewrite Hm. simpl. by apply F1.
  - destruct (Z.ltb_spec 1 (k_ops k)); [|done]. injection E as <- <-.
    rewrite (proj2 (Z.eqb_neq _ _)) by lia. rewrite ret_run. eexists. split; [done|].
    split; simpl; auto.
Qed.

#[global] Instance log_blk_sim : BlockLayerSim (S := lfs cache) (T := blk) log_rel.
Proof.
  split; intros; simpl.
  - apply sim_blk_read.
  - apply sim_blk_data.
  - apply sim_blk_set.
  - apply sim_blk_log.
  - apply sim_blk_relse.
  - apply sim_blk_begin.
  - apply sim_blk_end.
Qed.

(** ** The whole stack: log.c over bio.c *)

Definition stack_rel (me : Z) : lfs bio -> blk -> Prop := rel_comp (lfs_rel (bio_rel me)) log_rel.

#[global] Instance stack_layer (me : Z) : BlockLayer (lfs bio) := @lfs_BlockLayer bio (bio_BufCache me).

#[global] Instance stack_sim me : @BlockLayerSim (lfs bio) blk (stack_layer me) _ (stack_rel me).
Proof.
  pose proof (@log_sim bio cache (bio_BufCache me) _ (bio_rel me) (bio_sim me)) as H1.
  pose proof log_blk_sim as H2.
  split; intros; (eapply sim_comp; [apply H1|apply H2]).
Qed.

(** The store after a boot: recovery has cleared the log, nothing is cached. *)
Definition boot_blk (start size : Z) (d : blocks) : blk := mk_blk start size d d ∅ [] 0.

(** Recovery from any state of the cache in which nothing is in use. *)
Lemma boot_from me start size d c :
  bio_rel me c (empty_cache d) -> log_disk_ok start size (d_blocks d) ->
  exists s, @recover_from_log bio (bio_BufCache me) (mk_lfs (boot_log start size) c) = Ok (tt, s) /\
    stack_rel me s (boot_blk start size (recovered start (d_blocks d))).
Proof.
  intros Hc Hok. destruct (recover_run start size d Hok) as (g & E & Hn & Hst & Hsz & Hout & Hcom & Hlen).
  pose proof (@sim_recover bio cache (bio_BufCache me) _ (bio_rel me) (bio_sim me)) as Hsim.
  destruct (Hsim (mk_lfs (boot_log start size) c) (mk_lfs (boot_log start size) (empty_cache d))) with (a := tt) (t' := mk_lfs g (empty_cache (disk_puts (recovery_writes start (d_blocks d)) d)))
    as (s' & E' & Hr'); [|exact E|].
  { split; [done|exact Hc]. }
  exists s'. split; [done|]. eexists. split; [exact Hr'|]. clear E E' Hr' Hsim s'.
  pose proof (ld_size _ _ _ Hok) as Hbd.
  assert (Hhead : disk_get (recovered start (d_blocks d)) start = put32 (disk_get (d_blocks d) start) 0 0).
  { unfold recovered, recovery_writes. rewrite apply_writes_app. simpl. unfold disk_get. by rewrite lookup_insert_eq. }
  destruct (hdr_n_cleared _ (ld_len _ _ _ Hok)) as [Hc1 Hc2].
  assert (Hd : d_blocks (disk_puts (recovery_writes start (d_blocks d)) d) = recovered start (d_blocks d)) by (by rewrite disk_puts_eq).
  split; cbn [l_log l_bc empty_cache c_disk c_held c_mem c_pins boot_blk k_start k_size k_held k_txn k_ops k_disk k_view]; rewrite ?Hd, ?Hhead; auto; try lia.
  - intros i b Hb. by rewrite lookup_nil in Hb.
  - constructor.
  - simpl. lia.
  - intros b Hb. by apply not_elem_of_nil in Hb.
  - intros b Hb. set_solver.
  - intros b. rewrite lookup_empty, elem_of_cached. simpl. split; [by intros [? ?]|]. intros [?|Hb]; [set_solver|by apply not_elem_of_nil in Hb].
  - intros b Hb. unfold c_view. simpl. rewrite lookup_empty. simpl. by rewrite Hd.
Qed.

Lemma boot_stack me start size d :
  log_disk_ok start size (d_blocks d) ->
  exists s, @recover_from_log bio (bio_BufCache me) (mk_lfs (boot_log start size) (binit (bss_bio d))) = Ok (tt, s) /\
    stack_rel me s (boot_blk start size (recovered start (d_blocks d))).
Proof. apply boot_from, binit_rel. Qed.
