(* ===== verification/Fs.v ===== *)
(** kernel/fs.c: blocks, inodes, directories and path names, over any logged
    block layer.

    An inode pointer is an index into the inode table, a null pointer is
    [None].  Buffers named in a call are passed as byte lists: the kernel-side
    source of writei, the bytes readi delivers, path strings and names (a
    string ends where the list ends). *)

From S2P Require Import Prelude Riscv UserMem Bytes Refine Cache Bio Log Blocks.

Definition ROOTINO : Z := 1.
Definition FSMAGIC : Z := 270544960.
Definition NDIRECT : Z := 12.
Definition NINDIRECT : Z := 256.
Definition MAXFILE : Z := NDIRECT + NINDIRECT.
Definition IPB : Z := 16.
Definition BPB : Z := 8192.
Definition DIRSIZ : Z := 14.
Definition T_DIR : Z := 1.
Definition T_FILE : Z := 2.
Definition T_DEVICE : Z := 3.

Record superblock := mk_sb {
  sb_magic : Z;
  sb_size : Z;
  sb_nblocks : Z;
  sb_ninodes : Z;
  sb_nlog : Z;
  sb_logstart : Z;
  sb_inodestart : Z;
  sb_bmapstart : Z;
}.

(** struct inode (kernel/file.h). *)
Record inode := mk_inode {
  i_dev : Z;
  i_inum : Z;
  i_ref : Z;
  i_lock : sleeplock;
  i_valid : bool;
  i_type : Z;
  i_major : Z;
  i_minor : Z;
  i_nlink : Z;
  i_size : Z;
  i_addrs : list Z;
}.

#[global] Instance inode_inhabited : Inhabited inode :=
  populate (mk_inode 0 0 0 (mk_sleeplock false 0) false 0 0 0 0 0 (replicate 13 0)).

Definition set_i_key dev inum ref valid ip :=
  mk_inode dev inum ref (i_lock ip) valid (i_type ip) (i_major ip) (i_minor ip) (i_nlink ip) (i_size ip) (i_addrs ip).
Definition set_i_ref r ip :=
  mk_inode (i_dev ip) (i_inum ip) r (i_lock ip) (i_valid ip) (i_type ip) (i_major ip) (i_minor ip) (i_nlink ip) (i_size ip) (i_addrs ip).
Definition set_i_lock l ip :=
  mk_inode (i_dev ip) (i_inum ip) (i_ref ip) l (i_valid ip) (i_type ip) (i_major ip) (i_minor ip) (i_nlink ip) (i_size ip) (i_addrs ip).
Definition set_i_valid v ip :=
  mk_inode (i_dev ip) (i_inum ip) (i_ref ip) (i_lock ip) v (i_type ip) (i_major ip) (i_minor ip) (i_nlink ip) (i_size ip) (i_addrs ip).
Definition set_i_type t ip :=
  mk_inode (i_dev ip) (i_inum ip) (i_ref ip) (i_lock ip) (i_valid ip) t (i_major ip) (i_minor ip) (i_nlink ip) (i_size ip) (i_addrs ip).
Definition set_i_size n ip :=
  mk_inode (i_dev ip) (i_inum ip) (i_ref ip) (i_lock ip) (i_valid ip) (i_type ip) (i_major ip) (i_minor ip) (i_nlink ip) n (i_addrs ip).
Definition set_i_addrs a ip :=
  mk_inode (i_dev ip) (i_inum ip) (i_ref ip) (i_lock ip) (i_valid ip) (i_type ip) (i_major ip) (i_minor ip) (i_nlink ip) (i_size ip) a.
Definition set_i_nlink n ip :=
  mk_inode (i_dev ip) (i_inum ip) (i_ref ip) (i_lock ip) (i_valid ip) (i_type ip) (i_major ip) (i_minor ip) n (i_size ip) (i_addrs ip).
Definition set_i_dev mj mn ip :=
  mk_inode (i_dev ip) (i_inum ip) (i_ref ip) (i_lock ip) (i_valid ip) (i_type ip) mj mn (i_nlink ip) (i_size ip) (i_addrs ip).

(** struct dinode in a block. *)
Definition IBLOCK (i : Z) (sb : superblock) : Z := i / IPB + sb_inodestart sb.
Definition BBLOCK (b : Z) (sb : superblock) : Z := b / BPB + sb_bmapstart sb.

Definition di_off (inum : Z) : Z := inum mod IPB * 64.
Definition di_type (d : block) (inum : Z) : Z := s16 (get16 d (di_off inum)).
Definition di_addrs (d : block) (inum : Z) : list Z :=
  (fun k => get32 d (di_off inum + 12 + 4 * Z.of_nat k)) <$> seq 0 13.

(** ip->type = dip->type; ... memmove(ip->addrs, dip->addrs, ...) *)
Definition load_dinode (d : block) (ip : inode) : inode :=
  let o := di_off (i_inum ip) in
  mk_inode (i_dev ip) (i_inum ip) (i_ref ip) (i_lock ip) (i_valid ip)
    (s16 (get16 d o)) (s16 (get16 d (o + 2))) (s16 (get16 d (o + 4))) (s16 (get16 d (o + 6)))
    (get32 d (o + 8)) (di_addrs d (i_inum ip)).

(** memmove(dip->addrs, ip->addrs, sizeof(ip->addrs)) *)
Fixpoint put_words (d : block) (off : Z) (ws : list Z) : block :=
  match ws with
  | [] => d
  | w :: ws => put_words (put32 d off w) (off + 4) ws
  end.

(** dip->type = ip->type; ... *)
Definition store_dinode (ip : inode) (d : block) : block :=
  let o := di_off (i_inum ip) in
  let d := put16 d o (i_type ip) in
  let d := put16 d (o + 2) (i_major ip) in
  let d := put16 d (o + 4) (i_minor ip) in
  let d := put16 d (o + 6) (i_nlink ip) in
  let d := put32 d (o + 8) (i_size ip) in
  put_words d (o + 12) (i_addrs ip).

Record fs (S U : Type) := mk_fs {
  f_blk : S;
  f_um : U;
  f_sb : superblock;
  f_itable : list inode;
}.
Arguments mk_fs {S U} _ _ _ _.
Arguments f_blk {S U} _.
Arguments f_um {S U} _.
Arguments f_sb {S U} _.
Arguments f_itable {S U} _.

(** struct stat. *)
Record stat := mk_stat { st_dev : Z; st_ino : Z; st_type : Z; st_nlink : Z; st_size : Z }.

(** Test and update of bit [bi] of a bitmap block. *)
Definition bit_set (d : block) (bi : Z) : bool :=
  negb (Z.land (byte_at d (bi / 8)) (Z.shiftl 1 (bi mod 8)) =? 0).
Definition mark_bit (d : block) (bi : Z) : block :=
  <[Z.to_nat (bi / 8) := u8 (Z.lor (byte_at d (bi / 8)) (Z.shiftl 1 (bi mod 8)))]> d.
Definition clear_bit (d : block) (bi : Z) : block :=
  <[Z.to_nat (bi / 8) := u8 (Z.land (byte_at d (bi / 8)) (Z.lnot (Z.shiftl 1 (bi mod 8))))]> d.

(** for(bi = 0; bi < BPB && b + bi < sb.size; bi++): the first clear bit. *)
Fixpoint find_clear (k : nat) (d : block) (b bi size : Z) : option Z :=
  match k with
  | O => None
  | Datatypes.S k =>
      if b + bi <? size then
        if bit_set d bi then find_clear k d b (bi + 1) size else Some bi
      else None
  end.

Section fs.
Context {S U : Type} `{BlockLayer S} `{UserMem U}.

(** The process that runs the call, for the inode locks. *)
Variable me : Z.

Definition blk_op {A} (m : M S A) : M (fs S U) A := fun t =>
  match m (f_blk t) with
  | Ok (a, s) => Ok (a, mk_fs s (f_um t) (f_sb t) (f_itable t))
  | Panic e => Panic e
  end.
Definition um_op {A} (m : M U A) : M (fs S U) A := fun t =>
  match m (f_um t) with
  | Ok (a, u) => Ok (a, mk_fs (f_blk t) u (f_sb t) (f_itable t))
  | Panic e => Panic e
  end.

Definition geti (ip : Z) : M (fs S U) inode := gets (fun t => f_itable t !!! Z.to_nat ip).
Definition updi (ip : Z) (f : inode -> inode) : M (fs S U) unit :=
  modify (fun t => mk_fs (f_blk t) (f_um t) (f_sb t) (alter f (Z.to_nat ip) (f_itable t))).
Definition get_sb : M (fs S U) superblock := gets f_sb.

(** readsb: the superblock is in block 1. *)
Definition parse_sb (d : block) : superblock :=
  mk_sb (get32 d 0) (get32 d 4) (get32 d 8) (get32 d 12) (get32 d 16) (get32 d 20) (get32 d 24) (get32 d 28).

Definition readsb : M (fs S U) superblock :=
  blk_op (bl_read 1);;
  d ← blk_op (bl_data 1);
  blk_op (bl_relse 1);;
  mret (parse_sb d).

Definition bzero (bno : Z) : M (fs S U) unit :=
  blk_op (bl_read bno);;
  blk_op (bl_set bno zero_block);;
  blk_op (bl_log bno);;
  blk_op (bl_relse bno).

(** for(b = 0; b < sb.size; b += BPB) *)
Fixpoint balloc_loop (k : nat) (b : Z) : M (fs S U) Z :=
  match k with
  | O => mret 0
  | Datatypes.S k =>
      sb ← get_sb;
      if b <? sb_size sb then
        let bb := BBLOCK b sb in
        blk_op (bl_read bb);;
        d ← blk_op (bl_data bb);
        match find_clear (Z.to_nat BPB) d b 0 (sb_size sb) with
        | Some bi =>
            blk_op (bl_set bb (mark_bit d bi));;
            blk_op (bl_log bb);;
            blk_op (bl_relse bb);;
            bzero (b + bi);;
            mret (b + bi)
        | None =>
            blk_op (bl_relse bb);;
            balloc_loop k (b + BPB)
        end
      else mret 0 (* balloc: out of blocks *)
  end.

Definition balloc : M (fs S U) Z :=
  sb ← get_sb;
  balloc_loop (Datatypes.S (Z.to_nat (sb_size sb / BPB))) 0.

Definition bfree (b : Z) : M (fs S U) unit :=
  sb ← get_sb;
  let bb := BBLOCK b sb in
  blk_op (bl_read bb);;
  d ← blk_op (bl_data bb);
  let bi := b mod BPB in
  if negb (bit_set d bi) then panic "freeing free block"
  else
    blk_op (bl_set bb (clear_bit d bi));;
    blk_op (bl_log bb);;
    blk_op (bl_relse bb).

(** ** Inode table *)

Definition iinit : M (fs S U) unit :=
  modify (fun t => mk_fs (f_blk t) (f_um t) (f_sb t)
                         ((fun ip => set_i_lock (initsleeplock (i_lock ip)) ip) <$> f_itable t)).

(** The scan of iget: the entry found, or the first empty slot. *)
Fixpoint iget_scan (l : list inode) (i : Z) (empty : option Z) (dev inum : Z) : option Z * option Z :=
  match l with
  | [] => (None, empty)
  | ip :: l =>
      if (0 <? i_ref ip) && (i_dev ip =? dev) && (i_inum ip =? inum) then (Some i, empty)
      else
        let empty := match empty with
                     | None => if i_ref ip =? 0 then Some i else None
                     | Some e => Some e
                     end in
        iget_scan l (i + 1) empty dev inum
  end.

Definition iget (dev inum : Z) : M (fs S U) Z :=
  l ← gets f_itable;
  match iget_scan l 0 None dev inum with
  | (Some ip, _) => updi ip (fun x => set_i_ref (s32 (i_ref x + 1)) x);; mret ip
  | (None, None) => panic "iget: no inodes"
  | (None, Some ip) => updi ip (set_i_key dev inum 1 false);; mret ip
  end.

Definition idup (ip : Z) : M (fs S U) Z :=
  updi ip (fun x => set_i_ref (s32 (i_ref x + 1)) x);; mret ip.

(** for(inum = 1; inum < sb.ninodes; inum++) *)
Fixpoint ialloc_loop (k : nat) (inum dev type : Z) : M (fs S U) (option Z) :=
  match k with
  | O => mret None (* ialloc: no inodes *)
  | Datatypes.S k =>
      sb ← get_sb;
      let bb := IBLOCK inum sb in
      blk_op (bl_read bb);;
      d ← blk_op (bl_data bb);
      if di_type d inum =? 0 then
        let d := put_bytes d (di_off inum) (replicate 64 0) in
        let d := put16 d (di_off inum) type in
        blk_op (bl_set bb d);;
        blk_op (bl_log bb);;
        blk_op (bl_relse bb);;
        ip ← iget dev inum;
        mret (Some ip)
      else
        blk_op (bl_relse bb);;
        ialloc_loop k (inum + 1) dev type
  end.

Definition ialloc (dev type : Z) : M (fs S U) (option Z) :=
  sb ← get_sb;
  ialloc_loop (Z.to_nat (sb_ninodes sb - 1)) 1 dev type.

Definition iupdate (ip : Z) : M (fs S U) unit :=
  sb ← get_sb;
  x ← geti ip;
  let bb := IBLOCK (i_inum x) sb in
  blk_op (bl_read bb);;
  d ← blk_op (bl_data bb);
  blk_op (bl_set bb (store_dinode x d));;
  blk_op (bl_log bb);;
  blk_op (bl_relse bb).

Definition ilock (ip : Z) : M (fs S U) unit :=
  x ← geti ip;
  if i_ref x <? 1 then panic "ilock"
  else
    match acquiresleep me (i_lock x) with
    | None => panic sleeps
    | Some l =>
        updi ip (set_i_lock l);;
        if negb (i_valid x) then
          sb ← get_sb;
          let bb := IBLOCK (i_inum x) sb in
          blk_op (bl_read bb);;
          d ← blk_op (bl_data bb);
          updi ip (load_dinode d);;
          blk_op (bl_relse bb);;
          updi ip (set_i_valid true);;
          y ← geti ip;
          if i_type y =? 0 then panic "ilock: no type" else mret tt
        else mret tt
    end.

Definition iunlock (ip : Z) : M (fs S U) unit :=
  x ← geti ip;
  if negb (holdingsleep me (i_lock x)) || (i_ref x <? 1) then panic "iunlock"
  else updi ip (fun x => set_i_lock (releasesleep (i_lock x)) x).

(** ** Inode contents *)

Definition bmap (ip bn : Z) : M (fs S U) Z :=
  x ← geti ip;
  if bn <? NDIRECT then
    let addr := i_addrs x !!! Z.to_nat bn in
    if addr =? 0 then
      addr ← balloc;
      if addr =? 0 then mret 0
      else updi ip (fun x => set_i_addrs (<[Z.to_nat bn := addr]> (i_addrs x)) x);; mret addr
    else mret addr
  else
    let bn := bn - NDIRECT in
    if bn <? NINDIRECT then
      (* Load indirect block, allocating if necessary. *)
      let addr := i_addrs x !!! Z.to_nat NDIRECT in
      addr ← (if addr =? 0 then
                addr ← balloc;
                (if addr =? 0 then mret tt
                 else updi ip (fun x => set_i_addrs (<[Z.to_nat NDIRECT := addr]> (i_addrs x)) x));;
                mret addr
              else mret addr);
      if addr =? 0 then mret 0
      else
        blk_op (bl_read addr);;
        d ← blk_op (bl_data addr);
        let a := get32 d (4 * bn) in
        r ← (if a =? 0 then
               a ← balloc;
               (if negb (a =? 0) then
                  blk_op (bl_set addr (put32 d (4 * bn) a));;
                  blk_op (bl_log addr)
                else mret tt);;
               mret a
             else mret a);
        blk_op (bl_relse addr);;
        mret r
    else panic "bmap: out of range".

(** for(i = 0; i < NDIRECT; i++) *)
Fixpoint itrunc_direct (k : nat) (ip i : Z) : M (fs S U) unit :=
  match k with
  | O => mret tt
  | Datatypes.S k =>
      x ← geti ip;
      let a := i_addrs x !!! Z.to_nat i in
      (if negb (a =? 0) then
         bfree a;; updi ip (fun x => set_i_addrs (<[Z.to_nat i := 0]> (i_addrs x)) x)
       else mret tt);;
      itrunc_direct k ip (i + 1)
  end.

(** for(j = 0; j < NINDIRECT; j++) *)
Fixpoint itrunc_indirect (k : nat) (d : block) (j : Z) : M (fs S U) unit :=
  match k with
  | O => mret tt
  | Datatypes.S k =>
      let a := get32 d (4 * j) in
      (if negb (a =? 0) then bfree a else mret tt);;
      itrunc_indirect k d (j + 1)
  end.

Definition itrunc (ip : Z) : M (fs S U) unit :=
  itrunc_direct (Z.to_nat NDIRECT) ip 0;;
  x ← geti ip;
  let ia := i_addrs x !!! Z.to_nat NDIRECT in
  (if negb (ia =? 0) then
     blk_op (bl_read ia);;
     d ← blk_op (bl_data ia);
     itrunc_indirect (Z.to_nat NINDIRECT) d 0;;
     blk_op (bl_relse ia);;
     bfree ia;;
     updi ip (fun x => set_i_addrs (<[Z.to_nat NDIRECT := 0]> (i_addrs x)) x)
   else mret tt);;
  updi ip (set_i_size 0);;
  iupdate ip.

Definition iput (ip : Z) : M (fs S U) unit :=
  x ← geti ip;
  (if (i_ref x =? 1) && i_valid x && (i_nlink x =? 0) then
     match acquiresleep me (i_lock x) with
     | None => panic sleeps
     | Some l =>
         updi ip (set_i_lock l);;
         itrunc ip;;
         updi ip (set_i_type 0);;
         iupdate ip;;
         updi ip (set_i_valid false);;
         updi ip (fun x => set_i_lock (releasesleep (i_lock x)) x)
     end
   else mret tt);;
  updi ip (fun x => set_i_ref (s32 (i_ref x - 1)) x).

Definition iunlockput (ip : Z) : M (fs S U) unit := iunlock ip;; iput ip.

Definition stati (ip : Z) : M (fs S U) stat :=
  x ← geti ip;
  mret (mk_stat (i_dev x) (i_inum x) (i_type x) (i_nlink x) (i_size x)).

(** either_copyout: to the user address [dst] or into the kernel's buffer,
    whose contents are the result of readi. *)
Definition either_copyout (user_dst : bool) (dst : Z) (bs : list Z) : M (fs S U) Z :=
  if user_dst then um_op (um_copyout dst bs) else mret 0.

(** either_copyin: from the user address [src] or from the kernel's bytes
    [kbs], [tot] of which are used up. *)
Definition either_copyin (user_src : bool) (src : Z) (kbs : list Z) (tot m : Z) : M (fs S U) (Z * list Z) :=
  if user_src then um_op (um_copyin src m) else mret (0, get_bytes kbs tot (Z.to_nat m)).

(** for(tot=0; tot<n; tot+=m, off+=m, dst+=m): returns tot and the bytes
    delivered. *)
Fixpoint readi_loop (fuel : nat) (ip : Z) (user_dst : bool) (tot off dst n : Z) (out : list Z) : M (fs S U) (Z * list Z) :=
  match fuel with
  | O => panic "out of fuel"
  | Datatypes.S fuel =>
      if tot <? n then
        addr ← bmap ip (off / BSIZE);
        if addr =? 0 then mret (tot, out)
        else
          blk_op (bl_read addr);;
          d ← blk_op (bl_data addr);
          let m := Z.min (n - tot) (BSIZE - off mod BSIZE) in
          let bs := get_bytes d (off mod BSIZE) (Z.to_nat m) in
          r ← either_copyout user_dst dst bs;
          if r =? -1 then blk_op (bl_relse addr);; mret (-1, out)
          else
            blk_op (bl_relse addr);;
            readi_loop fuel ip user_dst (tot + m) (off + m) (u64 (dst + m)) n (out ++ bs)
      else mret (tot, out)
  end.

(** Iterations of the copy loops: one per block touched. *)
Definition rw_fuel (n : Z) : nat := Z.to_nat (n / BSIZE + 3).

Definition readi (ip : Z) (user_dst : bool) (dst off n : Z) : M (fs S U) (Z * list Z) :=
  x ← geti ip;
  if (i_size x <? off) || (u32 (off + n) <? off) then mret (0, [])
  else
    let n := if i_size x <? u32 (off + n) then i_size x - off else n in
    readi_loop (rw_fuel n) ip user_dst 0 off dst n [].

(** for(tot=0; tot<n; tot+=m, off+=m, src+=m): returns tot and off. *)
Fixpoint writei_loop (fuel : nat) (ip : Z) (user_src : bool) (kbs : list Z) (tot off src n : Z) : M (fs S U) (Z * Z) :=
  match fuel with
  | O => panic "out of fuel"
  | Datatypes.S fuel =>
      if tot <? n then
        addr ← bmap ip (off / BSIZE);
        if addr =? 0 then mret (tot, off)
        else
          blk_op (bl_read addr);;
          d ← blk_op (bl_data addr);
          let m := Z.min (n - tot) (BSIZE - off mod BSIZE) in
          r ← either_copyin user_src src kbs tot m;
          blk_op (bl_set addr (put_bytes d (off mod BSIZE) r.2));;
          if r.1 =? -1 then blk_op (bl_relse addr);; mret (tot, off)
          else
            blk_op (bl_log addr);;
            blk_op (bl_relse addr);;
            writei_loop fuel ip user_src kbs (tot + m) (off + m) (u64 (src + m)) n
      else mret (tot, off)
  end.

Definition writei (ip : Z) (user_src : bool) (src : Z) (kbs : list Z) (off n : Z) : M (fs S U) Z :=
  x ← geti ip;
  if (i_size x <? off) || (u32 (off + n) <? off) then mret (-1)
  else if MAXFILE * BSIZE <? u32 (off + n) then mret (-1)
  else
    r ← writei_loop (rw_fuel n) ip user_src kbs 0 off src n;
    updi ip (fun x => if i_size x <? r.2 then set_i_size r.2 x else x);;
    iupdate ip;;
    mret r.1.

End fs.
