(* ===== verification/FsDir.v ===== *)
(** kernel/fs.c: directories and path names. *)

From S2P Require Import UserMem Prelude Riscv Bytes Refine Cache Bio Log Blocks Fs.

(** strncmp on two buffers, from index [i]; reading past the end of a string
    gives its NUL. *)
Fixpoint strncmp_at (n : nat) (s t : list Z) (i : Z) : Z :=
  match n with
  | O => 0
  | Datatypes.S n =>
      if negb (byte_at s i =? 0) && (byte_at s i =? byte_at t i)
      then strncmp_at n s t (i + 1)
      else byte_at s i - byte_at t i
  end.

Definition namecmp (s t : list Z) : Z := strncmp_at (Z.to_nat DIRSIZ) s t 0.

(** The string in a buffer: the bytes before the first NUL. *)
Fixpoint cstr (l : list Z) : list Z :=
  match l with
  | [] => []
  | c :: l => if c =? 0 then [] else c :: cstr l
  end.

(** struct dirent: inum, then name[DIRSIZ]. *)
Definition de_inum (de : list Z) : Z := get16 de 0.
Definition de_name (de : list Z) : list Z := drop 2 de.

(** de after strncpy(de.name, name, DIRSIZ); de.inum = inum *)
Definition pad (n : nat) (l : list Z) : list Z := take n (cstr l ++ replicate n 0).
Definition mk_dirent (inum : Z) (name : list Z) : list Z :=
  [u8 inum; u8 (inum / 256)] ++ pad 14 name.

(** ** Path elements *)

Definition slash : Z := 47.

(** while( *path == '/') path++ *)
Fixpoint skip_slashes (path : list Z) : list Z :=
  match path with
  | c :: rest => if c =? slash then skip_slashes rest else path
  | [] => []
  end.

(** while( *path != '/' && *path != 0) path++: the element and the rest. *)
Fixpoint take_elem (path : list Z) : list Z * list Z :=
  match path with
  | [] => ([], [])
  | c :: rest =>
      if (c =? slash) || (c =? 0) then ([], path)
      else let '(e, r) := take_elem rest in (c :: e, r)
  end.

(** The rest of the path and the element copied into name (at most DIRSIZ
    bytes of it). *)
Definition skipelem (path : list Z) : option (list Z * list Z) :=
  let path := skip_slashes path in
  if byte_at path 0 =? 0 then None
  else
    let '(s, path) := take_elem path in
    let name := if DIRSIZ <=? Z.of_nat (length s) then take (Z.to_nat DIRSIZ) s else s in
    Some (skip_slashes path, name).

Section dir.
Context {S U : Type} `{BlockLayer S} `{UserMem U}.
Variable me : Z.

(** sizeof(struct dirent) *)
Definition sizeof_dirent : Z := 16.

(** for(off = 0; off < dp->size; off += sizeof(de)) of dirlookup *)
Fixpoint dirlookup_loop (k : nat) (dp : Z) (name : list Z) (off : Z) : M (fs S U) (option (Z * Z)) :=
  match k with
  | O => panic "out of fuel"
  | Datatypes.S k =>
      x ← geti dp;
      if off <? i_size x then
        r ← readi dp false 0 off sizeof_dirent;
        if negb (r.1 =? sizeof_dirent) then panic "dirlookup read"
        else if de_inum r.2 =? 0 then dirlookup_loop k dp name (off + sizeof_dirent)
        else if namecmp name (de_name r.2) =? 0 then
          ip ← iget (i_dev x) (de_inum r.2);
          mret (Some (ip, off))
        else dirlookup_loop k dp name (off + sizeof_dirent)
      else mret None
  end.

(** Entries of a directory, plus the final test. *)
Definition dir_fuel (size : Z) : nat := Z.to_nat (size / sizeof_dirent + 2).

(** The inode and the offset of its entry ( *poff ). *)
Definition dirlookup (dp : Z) (name : list Z) : M (fs S U) (option (Z * Z)) :=
  x ← geti dp;
  if negb (i_type x =? T_DIR) then panic "dirlookup not DIR"
  else dirlookup_loop (dir_fuel (i_size x)) dp name 0.

(** for(off = 0; off < dp->size; off += sizeof(de)) of dirlink: the offset of
    an empty entry, or the end of the directory. *)
Fixpoint dirlink_loop (k : nat) (dp off : Z) : M (fs S U) Z :=
  match k with
  | O => panic "out of fuel"
  | Datatypes.S k =>
      x ← geti dp;
      if off <? i_size x then
        r ← readi dp false 0 off sizeof_dirent;
        if negb (r.1 =? sizeof_dirent) then panic "dirlink read"
        else if de_inum r.2 =? 0 then mret off
        else dirlink_loop k dp (off + sizeof_dirent)
      else mret off
  end.

Definition dirlink (dp : Z) (name : list Z) (inum : Z) : M (fs S U) Z :=
  r ← dirlookup dp name;
  match r with
  | Some (ip, _) => iput me ip;; mret (-1)
  | None =>
      x ← geti dp;
      off ← dirlink_loop (dir_fuel (i_size x)) dp 0;
      w ← writei dp false 0 (mk_dirent inum name) off sizeof_dirent;
      if negb (w =? sizeof_dirent) then mret (-1) else mret 0
  end.

(** while((path = skipelem(path, name)) != 0) of namex *)
Fixpoint namex_loop (k : nat) (ip : Z) (path : list Z) (parent : bool) (name : list Z) : M (fs S U) (option Z * list Z) :=
  match k with
  | O => panic "out of fuel"
  | Datatypes.S k =>
      match skipelem path with
      | None =>
          if parent then iput me ip;; mret (None, name) else mret (Some ip, name)
      | Some (path, name) =>
          ilock me ip;;
          x ← geti ip;
          if negb (i_type x =? T_DIR) then iunlockput me ip;; mret (None, name)
          else if parent && (byte_at path 0 =? 0) then
            (* Stop one level early. *)
            iunlock me ip;; mret (Some ip, name)
          else
            next ← dirlookup ip name;
            match next with
            | None => iunlockput me ip;; mret (None, name)
            | Some (next, _) => iunlockput me ip;; namex_loop k next path parent name
            end
      end
  end.

(** The inode and the last element copied into name; [cwd] is
    myproc()->cwd. *)
Definition namex (cwd : Z) (path : list Z) (parent : bool) : M (fs S U) (option Z * list Z) :=
  ip ← (if byte_at path 0 =? slash then iget ROOTDEV ROOTINO else idup cwd);
  namex_loop (Datatypes.S (length path)) ip path parent [].

Definition namei (cwd : Z) (path : list Z) : M (fs S U) (option Z) :=
  r ← namex cwd path false; mret r.1.

Definition nameiparent (cwd : Z) (path : list Z) : M (fs S U) (option Z * list Z) :=
  namex cwd path true.

End dir.
