(* ===== verification/FsSim.v ===== *)
(** Every operation of kernel/fs.c refines: run over an implementation of the
    block layer it does what it does over the abstract store. *)

From S2P Require Import UserMem Prelude Riscv Bytes Refine Cache Bio Log Blocks Fs FsDir.

(** The part of the block layer that is used inside a transaction. *)
Class BlockOpsSim {S T} `{BlockLayer S} `{BlockLayer T} (R : S -> T -> Prop) : Prop := {
  sim_op_read b : sim R (bl_read b) (bl_read b);
  sim_op_data b : sim R (bl_data b) (bl_data b);
  sim_op_set b d : sim R (bl_set b d) (bl_set b d);
  sim_op_log b : sim R (bl_log b) (bl_log b);
  sim_op_relse b : sim R (bl_relse b) (bl_relse b);
}.
#[export] Hint Resolve sim_op_read sim_op_data sim_op_set sim_op_log sim_op_relse : xv6.

#[global] Instance layer_ops_sim {S T} `{BlockLayer S} `{BlockLayer T} (R : S -> T -> Prop) `{!BlockLayerSim R} : BlockOpsSim R.
Proof. split; intros; auto with xv6. Qed.

(** Two file systems that differ in the block layer only. *)
Definition fs_rel {S T U} (R : S -> T -> Prop) (s : fs S U) (t : fs T U) : Prop :=
  R (f_blk s) (f_blk t) /\ f_um s = f_um t /\ f_sb s = f_sb t /\ f_itable s = f_itable t.

Section fs_sim.
Context {S T U : Type} `{BlockLayer S} `{BlockLayer T} `{UserMem U} (R : S -> T -> Prop) `{!BlockOpsSim R}.
#[local] Hint Constants Opaque : xv6.
#[local] Abbreviation fsim := (sim (fs_rel (U := U) R)).

Lemma sim_blk_op {A} (m : M S A) (n : M T A) : sim R m n -> fsim (blk_op m) (blk_op n).
Proof.
  intros Hs s t (Hr & E1 & E2 & E3) a t' E. unfold blk_op in *. destruct (n (f_blk t)) as [[x u]|] eqn:En; [|done]. injection E as <- <-.
  destruct (Hs _ _ Hr _ _ En) as (s' & -> & Hr'). rewrite E1, E2, E3. eexists. split; [done|]. by split_and!.
Qed.

Lemma sim_um_op {A} (m : M U A) : fsim (um_op m) (um_op m).
Proof.
  intros s t (Hr & E1 & E2 & E3) a t' E. unfold um_op in *. rewrite E1. destruct (m (f_um t)) as [[x u]|]; [|done]. injection E as <- <-.
  rewrite E2, E3. eexists. split; [done|]. by split_and!.
Qed.

Lemma sim_geti ip : fsim (geti ip) (geti ip).
Proof. apply sim_gets. intros s t (_ & _ & _ & E). by rewrite E. Qed.

Lemma sim_get_sb : fsim get_sb get_sb.
Proof. apply sim_gets. intros s t (_ & _ & E & _). by rewrite E. Qed.

Lemma sim_itable : fsim (gets f_itable) (gets f_itable).
Proof. apply sim_gets. by intros s t (_ & _ & _ & E). Qed.

Lemma sim_updi ip f : fsim (updi ip f) (updi ip f).
Proof. apply sim_modify. intros s t (Hr & E1 & E2 & E3). split_and!; auto. cbn. by rewrite E3. Qed.

#[local] Hint Resolve sim_blk_op sim_um_op sim_geti sim_get_sb sim_itable sim_updi : xv6.

Lemma sim_readsb : fsim readsb readsb.
Proof. unfold readsb. sim_auto. Qed.

Lemma sim_bzero b : fsim (bzero b) (bzero b).
Proof. unfold bzero. sim_auto. Qed.
#[local] Hint Resolve sim_bzero : xv6.

Lemma sim_balloc_loop k : forall b, fsim (balloc_loop k b) (balloc_loop k b).
Proof. induction k as [|k IH]; intros b; cbn [balloc_loop]; sim_auto. Qed.
#[local] Hint Resolve sim_balloc_loop : xv6.

Lemma sim_balloc : fsim balloc balloc.
Proof. unfold balloc. sim_auto. Qed.

Lemma sim_bfree b : fsim (bfree b) (bfree b).
Proof. unfold bfree. sim_auto. Qed.

Lemma sim_iget dev inum : fsim (iget dev inum) (iget dev inum).
Proof. unfold iget. sim_auto. Qed.

Lemma sim_idup ip : fsim (idup ip) (idup ip).
Proof. unfold idup. sim_auto. Qed.
#[local] Hint Resolve sim_balloc sim_bfree sim_iget sim_idup : xv6.

Lemma sim_ialloc_loop k : forall inum dev type, fsim (ialloc_loop k inum dev type) (ialloc_loop k inum dev type).
Proof. induction k as [|k IH]; intros; cbn [ialloc_loop]; sim_auto. Qed.
#[local] Hint Resolve sim_ialloc_loop : xv6.

Lemma sim_ialloc dev type : fsim (ialloc dev type) (ialloc dev type).
Proof. unfold ialloc. sim_auto. Qed.

Lemma sim_iupdate ip : fsim (iupdate ip) (iupdate ip).
Proof. unfold iupdate. sim_auto. Qed.

Lemma sim_ilock me ip : fsim (ilock me ip) (ilock me ip).
Proof. unfold ilock. sim_auto. Qed.

Lemma sim_iunlock me ip : fsim (iunlock me ip) (iunlock me ip).
Proof. unfold iunlock. sim_auto. Qed.

Lemma sim_bmap ip bn : fsim (bmap ip bn) (bmap ip bn).
Proof. unfold bmap. sim_auto. Qed.

Lemma sim_itrunc_direct k : forall ip i, fsim (itrunc_direct k ip i) (itrunc_direct k ip i).
Proof. induction k as [|k IH]; intros; cbn [itrunc_direct]; sim_auto. Qed.

Lemma sim_itrunc_indirect k : forall d j, fsim (itrunc_indirect k d j) (itrunc_indirect k d j).
Proof. induction k as [|k IH]; intros; cbn [itrunc_indirect]; sim_auto. Qed.
#[local] Hint Resolve sim_ialloc sim_iupdate sim_ilock sim_iunlock sim_bmap sim_itrunc_direct sim_itrunc_indirect : xv6.

Lemma sim_itrunc ip : fsim (itrunc ip) (itrunc ip).
Proof. unfold itrunc. sim_auto. Qed.
#[local] Hint Resolve sim_itrunc : xv6.

Lemma sim_iput me ip : fsim (iput me ip) (iput me ip).
Proof. unfold iput. sim_auto. Qed.
#[local] Hint Resolve sim_iput : xv6.

Lemma sim_iunlockput me ip : fsim (iunlockput me ip) (iunlockput me ip).
Proof. unfold iunlockput. sim_auto. Qed.

Lemma sim_stati ip : fsim (stati ip) (stati ip).
Proof. unfold stati. sim_auto. Qed.

Lemma sim_readi_loop k : forall ip ud tot off dst n out, fsim (readi_loop k ip ud tot off dst n out) (readi_loop k ip ud tot off dst n out).
Proof. induction k as [|k IH]; intros; cbn [readi_loop]; unfold either_copyout; sim_auto. Qed.

Lemma sim_writei_loop k : forall ip us kbs tot off src n, fsim (writei_loop k ip us kbs tot off src n) (writei_loop k ip us kbs tot off src n).
Proof. induction k as [|k IH]; intros; cbn [writei_loop]; unfold either_copyin; sim_auto. Qed.
#[local] Hint Resolve sim_iunlockput sim_stati sim_readi_loop sim_writei_loop : xv6.

Lemma sim_readi ip ud dst off n : fsim (readi ip ud dst off n) (readi ip ud dst off n).
Proof. unfold readi. sim_auto. Qed.

Lemma sim_writei ip us src kbs off n : fsim (writei ip us src kbs off n) (writei ip us src kbs off n).
Proof. unfold writei. sim_auto. Qed.
#[local] Hint Resolve sim_readi sim_writei : xv6.

Lemma sim_dirlookup_loop k : forall dp name off, fsim (dirlookup_loop k dp name off) (dirlookup_loop k dp name off).
Proof. induction k as [|k IH]; intros; cbn [dirlookup_loop]; sim_auto. Qed.
#[local] Hint Resolve sim_dirlookup_loop : xv6.

Lemma sim_dirlookup dp name : fsim (dirlookup dp name) (dirlookup dp name).
Proof. unfold dirlookup. sim_auto. Qed.

Lemma sim_dirlink_loop k : forall dp off, fsim (dirlink_loop k dp off) (dirlink_loop k dp off).
Proof. induction k as [|k IH]; intros; cbn [dirlink_loop]; sim_auto. Qed.
#[local] Hint Resolve sim_dirlookup sim_dirlink_loop : xv6.

Lemma sim_dirlink me dp name inum : fsim (dirlink me dp name inum) (dirlink me dp name inum).
Proof. unfold dirlink. sim_auto. Qed.

Lemma sim_namex_loop me k : forall ip path parent name, fsim (namex_loop me k ip path parent name) (namex_loop me k ip path parent name).
Proof. induction k as [|k IH]; intros; cbn [namex_loop]; sim_auto. Qed.
#[local] Hint Resolve sim_dirlink sim_namex_loop : xv6.

Lemma sim_namex me cwd path parent : fsim (namex me cwd path parent) (namex me cwd path parent).
Proof. unfold namex. sim_auto. Qed.

End fs_sim.

#[export] Hint Resolve sim_um_op sim_geti sim_get_sb sim_updi sim_balloc sim_bfree sim_iget sim_idup sim_ialloc sim_iupdate sim_ilock sim_iunlock
  sim_bmap sim_itrunc sim_iput sim_iunlockput sim_stati sim_readi sim_writei sim_dirlookup sim_dirlink sim_namex : xv6.
