(* ===== verification/Transact.v ===== *)
(** Transactions of the file system on the disk: what a system call does
    between begin_op() and end_op(), run by log.c and bio.c, is atomic with
    respect to crashes. *)

From S2P Require Import UserMem Prelude Riscv Bytes Refine Cache Bio Log LogCrash Blocks Fs FsDir FsSim.

(** ** Nothing is written before the commit *)

Lemma cache_ops_disk b d c :
  (forall a c', cache_read b c = Ok (a, c') -> c_disk c' = c_disk c) /\ (forall a c', cache_data b c = Ok (a, c') -> c_disk c' = c_disk c) /\
  (forall a c', cache_set b d c = Ok (a, c') -> c_disk c' = c_disk c) /\ (forall a c', cache_relse b c = Ok (a, c') -> c_disk c' = c_disk c) /\
  (forall a c', cache_pin b c = Ok (a, c') -> c_disk c' = c_disk c).
Proof. unfold cache_read, cache_data, cache_set, cache_relse, cache_pin. split_and!; intros a c' E; repeat case_match; by simplify_eq. Qed.

Lemma bc_disk {A} (m : M cache A) t a t' :
  (forall a c', m (l_bc t) = Ok (a, c') -> c_disk c' = c_disk (l_bc t)) -> bc m t = Ok (a, t') -> c_disk (l_bc t') = c_disk (l_bc t).
Proof. intros Hm E. unfold bc, zoom in E. cbn in E. destruct (m (l_bc t)) as [[x c]|] eqn:Em; [|done]. injection E as <- <-. by eapply Hm. Qed.

Lemma log_write_disk b (t : lfs cache) a t' : log_write b t = Ok (a, t') -> c_disk (l_bc t') = c_disk (l_bc t).
Proof.
  unfold log_write, getlog, modlog. rewrite bind_run, gets_run. cbn [id]. case_match; [done|]. case_match; [done|]. rewrite bind_run, modify_run. cbn [l_log l_bc]. case_match.
  - intros (x & t1 & E1 & E2)%bind_inv. rewrite modify_run in E2. injection E2 as <- <-. by apply bc_disk in E1; [|apply (cache_ops_disk b zero_block)].
  - rewrite ret_run. by intros [= <- <-].
Qed.

(** The store [k] with [n] system calls in progress on the untouched disk [d]. *)
Definition log_rel_at (d : disk) (start size n : Z) (t : lfs cache) (k : blk) : Prop :=
  log_rel t k /\ c_disk (l_bc t) = d /\ k_ops k = n /\ k_start k = start /\ k_size k = size.

Lemma sim_at {A} d start size n (m : M (lfs cache) A) (h : M blk A) :
  sim log_rel m h -> (forall t a t', m t = Ok (a, t') -> c_disk (l_bc t') = c_disk (l_bc t)) ->
  (forall k a k', h k = Ok (a, k') -> k_ops k' = k_ops k /\ k_start k' = k_start k /\ k_size k' = k_size k) ->
  sim (log_rel_at d start size n) m h.
Proof.
  intros Hs Hd Hh t k (Hr & E1 & E2 & E3 & E4) a k' E. destruct (Hs t k Hr a k' E) as (t' & Et & Hr'). exists t'. split; [done|].
  destruct (Hh _ _ _ E) as (F1 & F2 & F3). split; [done|]. split; [by rewrite (Hd _ _ _ Et)|]. by rewrite F1, F2, F3.
Qed.

#[local] Instance log_at_sim d start size n : BlockOpsSim (S := lfs cache) (T := blk) (log_rel_at d start size n).
Proof.
  split; intros b; intros; (apply sim_at; [apply log_blk_sim| |intros k a k' E; cbn in E]).
  - intros t a t' E. eapply bc_disk; [|exact E]. apply (cache_ops_disk b zero_block).
  - unfold blk_read in E. repeat case_match; by simplify_eq.
  - intros t a t' E. eapply bc_disk; [|exact E]. apply (cache_ops_disk b zero_block).
  - unfold blk_data in E. repeat case_match; by simplify_eq.
  - intros t a t' E. eapply bc_disk; [|exact E]. apply (cache_ops_disk b).
  - unfold blk_set in E. repeat case_match; by simplify_eq.
  - intros t a t'. apply log_write_disk.
  - unfold blk_log in E. repeat case_match; by simplify_eq.
  - intros t a t' E. eapply bc_disk; [|exact E]. apply (cache_ops_disk b zero_block).
  - unfold blk_relse in E. repeat case_match; by simplify_eq.
Qed.

(** ** The last end_op *)

Lemma end_op_crash (t : lfs cache) k :
  log_rel t k -> k_ops k = 1 -> k_held k = ∅ ->
  exists t' ws j, end_op t = Ok (tt, t') /\ d_hist (c_disk (l_bc t')) = d_hist (c_disk (l_bc t)) ++ ws /\ (j <= length ws)%nat /\
    forall n, let d' := d_blocks (crash_disk (c_disk (l_bc t)) ws n) in
      log_disk_ok (k_start k) (k_size k) d' /\
      ((n < j)%nat -> forall b, is_log k b = false -> disk_get (recovered (k_start k) d') b = disk_get (k_disk k) b) /\
      ((j <= n)%nat -> forall b, is_log k b = false -> disk_get (recovered (k_start k) d') b = kget k b).
Proof.
  intros Hr Ho Hh. unfold end_op, modlog, getlog. rewrite bind_run, modify_run. cbn [l_log l_bc]. rewrite bind_run, gets_run. cbn [id l_log].
  change (lg_committing (set_outstanding _ _)) with (lg_committing (l_log t)). rewrite (lr_com _ _ Hr).
  change (lg_outstanding (set_outstanding ?v _)) with v. rewrite (lr_ops _ _ Hr), Ho. change (1 - 1 =? 0) with true. cbv iota.
  rewrite bind_run, modify_run. cbn [l_log l_bc]. set (g := set_committing true _).
  pose proof (lr_start _ _ Hr) as Es. pose proof (lr_size _ _ Hr) as Ez.
  destruct (commit_crash g (l_bc t) (k_txn k) (kget k <$> k_txn k)) as (c' & ws & j & E & Hd & Hj & Hc); [by apply (log_rel_txn t k)|].
  rewrite (bind_Ok _ _ _ _ _ E), modify_run. eexists _, ws, j. split; [reflexivity|]. cbn [l_bc]. split_and!; auto.
  intros n. destruct (Hc n) as (H1 & H2 & H3). change (lg_start g) with (lg_start (l_log t)) in *. change (lg_size g) with (lg_size (l_log t)) in *. rewrite Es, Ez in *.
  assert (Hin : forall b, is_log k b = false -> ~ in_log g b).
  { intros b Hb. unfold in_log. change (lg_start g) with (lg_start (l_log t)). change (lg_size g) with (lg_size (l_log t)). by rewrite Es, Ez, <- is_log_spec, Hb. }
  split; [done|]. split; intros Hn b Hb.
  - rewrite H2 by auto. by apply (lr_disk _ _ Hr).
  - rewrite H3 by auto. by apply (lr_view _ _ Hr).
Qed.

(** ** Transactions *)

Section transact.
Context {U A : Type}.

(** What a system call does to the file system, for any block layer. *)
Definition fs_body := forall S, BlockLayer S -> M (fs S U) A.

(** It uses the blocks through the layer's operations only; the routines of
    fs.c and what is composed from them do ([FsSim]). *)
Definition layered (body : fs_body) : Prop :=
  forall S T (LS : BlockLayer S) (LT : BlockLayer T) (R : S -> T -> Prop), BlockOpsSim R -> sim (fs_rel R) (body S LS) (body T LT).

(** begin_op(); ...; end_op(); *)
Definition transaction (body : fs_body) {S} {L : BlockLayer S} : M (fs S U) A :=
  blk_op bl_begin;; a ← body S L; blk_op bl_end;; mret a.

(** Over the abstract store a transaction takes a quiet store to a quiet store. *)
Definition quiet_store (start size : Z) (v : blocks) (t : fs blk U) : Prop := f_blk t = boot_blk start size v.

Definition same_log (start size : Z) (k k' : blk) : Prop := k = k' /\ k_start k = start /\ k_size k = size /\ k_ops k = 1.

#[local] Instance same_log_sim start size : BlockOpsSim (same_log start size).
Proof.
  split; intros b; intros; intros k k' (<- & H1 & H2 & H3) a k2 E; exists k2; (split; [exact E|]); cbn in E.
  - unfold blk_read in E. repeat case_match; by simplify_eq.
  - unfold blk_data in E. repeat case_match; by simplify_eq.
  - unfold blk_set in E. repeat case_match; by simplify_eq.
  - unfold blk_log in E. repeat case_match; by simplify_eq.
  - unfold blk_relse in E. repeat case_match; by simplify_eq.
Qed.

(** The body leaves the log's place and the number of calls alone. *)
Lemma body_log body start size v um sb it a t1 :
  layered body -> body blk _ (mk_fs (set_ops 1 (boot_blk start size v)) um sb it) = Ok (a, t1) ->
  k_ops (f_blk t1) = 1 /\ k_start (f_blk t1) = start /\ k_size (f_blk t1) = size.
Proof.
  intros Hb E. set (t0 := mk_fs _ _ _ _) in E. assert (Hr0 : fs_rel (same_log start size) t0 t0) by (by split_and!).
  destruct (Hb blk blk _ _ (same_log start size) _ t0 t0 Hr0 _ _ E) as (t1' & E1 & ((Eb & F1 & F2 & F3) & _)). assert (t1' = t1) as -> by congruence. done.
Qed.

Lemma transaction_run body start size v t a t1 :
  layered body -> quiet_store start size v t -> body blk _ (mk_fs (set_ops 1 (boot_blk start size v)) (f_um t) (f_sb t) (f_itable t)) = Ok (a, t1) -> k_held (f_blk t1) = ∅ ->
  transaction body t = Ok (a, mk_fs (boot_blk start size (k_view (f_blk t1))) (f_um t1) (f_sb t1) (f_itable t1)).
Proof.
  intros Hb Hq E Hh. destruct (body_log body start size v _ _ _ a t1 Hb E) as (H1 & H2 & H3). unfold transaction.
  assert (Eb : blk_op bl_begin t = Ok (tt, mk_fs (set_ops 1 (boot_blk start size v)) (f_um t) (f_sb t) (f_itable t))) by (unfold blk_op; by rewrite Hq).
  assert (Ee : blk_op bl_end t1 = Ok (tt, mk_fs (boot_blk start size (k_view (f_blk t1))) (f_um t1) (f_sb t1) (f_itable t1))).
  { unfold blk_op. cbn [bl_end blk_BlockLayer]. unfold blk_end. rewrite H1, decide_True by done. cbn [Z.eqb Pos.eqb]. by rewrite H2, H3. }
  by rewrite (bind_Ok _ _ _ _ _ Eb), (bind_Ok _ _ _ _ _ E), (bind_Ok _ _ _ _ _ Ee).
Qed.

Lemma transaction_inv body start size v t a t' :
  layered body -> quiet_store start size v t -> transaction body t = Ok (a, t') ->
  exists t1, body blk _ (mk_fs (set_ops 1 (boot_blk start size v)) (f_um t) (f_sb t) (f_itable t)) = Ok (a, t1) /\
    k_held (f_blk t1) = ∅ /\ k_ops (f_blk t1) = 1 /\ k_start (f_blk t1) = start /\ k_size (f_blk t1) = size /\
    t' = mk_fs (boot_blk start size (k_view (f_blk t1))) (f_um t1) (f_sb t1) (f_itable t1).
Proof.
  intros Hb Hq E. unfold transaction in E. apply bind_inv in E as ([] & t0 & E0 & E). unfold blk_op in E0. rewrite Hq in E0. cbn in E0.
  injection E0 as <-. apply bind_inv in E as (a1 & t1 & E1 & E). apply bind_inv in E as ([] & t2 & E2 & E3). injection E3 as -> <-.
  change (0 + 1) with 1 in E1. destruct (body_log body start size v _ _ _ _ t1 Hb E1) as (F3 & F1 & F2).
  exists t1. split; [exact E1|]. unfold blk_op in E2. cbn [bl_end blk_BlockLayer] in E2. unfold blk_end in E2. rewrite F3 in E2. cbn [Z.eqb Pos.eqb] in E2.
  case_decide as Hh; [|done]. injection E2 as <-. rewrite F1, F2. by split_and!.
Qed.

(** log.c over the abstract cache runs the transaction and writes to disk only
    in the commit. *)
Lemma transaction_log body start size v (t : fs (lfs cache) U) a t' :
  layered body -> log_rel (f_blk t) (boot_blk start size v) ->
  transaction body (mk_fs (boot_blk start size v) (f_um t) (f_sb t) (f_itable t)) = Ok (a, t') ->
  exists u v', transaction body t = Ok (a, u) /\ fs_rel log_rel u t' /\ f_blk t' = boot_blk start size v' /\
    let d := c_disk (l_bc (f_blk t)) in
    exists ws j, d_hist (c_disk (l_bc (f_blk u))) = d_hist d ++ ws /\ (j <= length ws)%nat /\
      forall n, let d' := d_blocks (crash_disk d ws n) in
        log_disk_ok start size d' /\
        ((n < j)%nat -> forall b, ~ (start <= b < start + size) -> disk_get (recovered start d') b = disk_get v b) /\
        ((j <= n)%nat -> forall b, ~ (start <= b < start + size) -> disk_get (recovered start d') b = disk_get v' b).
Proof.
  intros Hb Hr E. pose proof E as E0. apply (transaction_inv body start size v) in E0 as (k1 & E1 & Hh & Ho & Hs & Hz & ->); [|done|done].
  destruct (sim_blk_begin _ _ Hr tt (set_ops 1 (boot_blk start size v))) as (t0 & Et0 & Hr0); [done|].
  assert (Hd0 : c_disk (l_bc t0) = c_disk (l_bc (f_blk t))).
  { unfold begin_op, getlog, modlog in Et0. rewrite bind_run, gets_run in Et0. cbn [id] in Et0. repeat case_match; try done. rewrite modify_run in Et0. by injection Et0 as <-. }
  set (d := c_disk (l_bc (f_blk t))) in *. set (u0 := mk_fs t0 (f_um t) (f_sb t) (f_itable t)).
  assert (Hr0' : fs_rel (log_rel_at d start size 1) u0 (mk_fs (set_ops 1 (boot_blk start size v)) (f_um t) (f_sb t) (f_itable t))).
  { split; [|done]. split; [exact Hr0|]. split; [exact Hd0|]. done. }
  destruct (Hb _ _ _ _ _ (log_at_sim d start size 1) _ _ Hr0' _ _ E1) as (u1 & Eu1 & (Hra & Hd1 & _) & Eum & Esb & Eit).
  destruct (end_op_crash _ _ Hra Ho Hh) as (t2 & ws & j & E2 & Hw & Hj & Hc).
  destruct (sim_blk_end _ _ Hra tt (boot_blk start size (k_view (f_blk k1)))) as (t2' & E2' & Hr2).
  { unfold blk_end. rewrite Ho, decide_True by done. cbn. by rewrite Hs, Hz. }
  assert (t2' = t2) as -> by congruence. rewrite Hd1, Hs, Hz in *.
  exists (mk_fs t2 (f_um u1) (f_sb u1) (f_itable u1)), (k_view (f_blk k1)). split_and!.
  - assert (Eb : blk_op bl_begin t = Ok (tt, u0)) by (unfold blk_op; change (bl_begin (f_blk t)) with (begin_op (f_blk t)); by rewrite Et0).
    assert (Ee : blk_op bl_end u1 = Ok (tt, mk_fs t2 (f_um u1) (f_sb u1) (f_itable u1))) by (unfold blk_op; change (bl_end (f_blk u1)) with (end_op (f_blk u1)); by rewrite E2).
    unfold transaction. by rewrite (bind_Ok _ _ _ _ _ Eb), (bind_Ok _ _ _ _ _ Eu1), (bind_Ok _ _ _ _ _ Ee).
  - by split.
  - done.
  - exists ws, j. split_and!; auto. intros n. destruct (Hc n) as (C1 & C2 & C3).
    assert (Hlog : forall b, ~ (start <= b < start + size) -> is_log (f_blk k1) b = false).
    { intros b Hn. apply not_true_iff_false. by rewrite is_log_spec, Hs, Hz. }
    split; [done|]. split; intros Hn b Hnb; [rewrite C2 by auto|rewrite C3 by auto]; [|done].
    rewrite <- (lr_disk _ _ Hra b), Hd1 by auto. unfold d. rewrite (lr_disk _ _ Hr b); [done|]. apply not_true_iff_false. by rewrite is_log_spec.
Qed.

Lemma sim_transaction body {S T} `{BlockLayer S} `{BlockLayer T} (R : S -> T -> Prop) `{!BlockLayerSim R} :
  layered body -> sim (fs_rel R) (transaction body) (transaction body).
Proof.
  intros Hb. unfold transaction. apply sim_bind; [apply sim_blk_op, sim_bl_begin|intros ?]. apply sim_bind; [apply Hb; apply _|intros ?].
  apply sim_bind; [apply sim_blk_op, sim_bl_end|intros ?]. apply sim_ret.
Qed.

End transact.

Lemma transaction_crash {U A} me (body : fs_body (U := U) (A := A)) start size v (s : fs (lfs bio) U) a t' :
  layered body -> stack_rel me (f_blk s) (boot_blk start size v) ->
  transaction body (mk_fs (boot_blk start size v) (f_um s) (f_sb s) (f_itable s)) = Ok (a, t') ->
  exists s' v' ws j, transaction (L := stack_layer me) body s = Ok (a, s') /\ fs_rel (stack_rel me) s' t' /\ f_blk t' = boot_blk start size v' /\
    let d := bio_disk (l_bc (f_blk s)) in
    d_hist (bio_disk (l_bc (f_blk s'))) = d_hist d ++ ws /\ (j <= length ws)%nat /\
    forall n, exists s2 v2,
      @recover_from_log bio (bio_BufCache me) (mk_lfs (boot_log start size) (binit (bss_bio (crash_disk d ws n)))) = Ok (tt, s2) /\
      stack_rel me s2 (boot_blk start size v2) /\
      forall b, ~ (start <= b < start + size) -> disk_get v2 b = disk_get (if (n <? j)%nat then v else v') b.
Proof.
  intros Hb (t & Hlt & Hr) E. set (tc := mk_fs t (f_um s) (f_sb s) (f_itable s)).
  destruct (transaction_log body start size v tc a t' Hb Hr E) as (u & v' & Eu & Hu & Ev & ws & j & Hw & Hj & Hc).
  pose proof (@log_sim bio cache (bio_BufCache me) _ (bio_rel me) (bio_sim me)) as HS.
  assert (Hst : fs_rel (lfs_rel (bio_rel me)) s tc) by (by split).
  destruct (@sim_transaction U A body _ _ _ _ _ HS Hb s tc Hst a u Eu) as (s' & Es & (Hls & E1 & E2 & E3)).
  exists s', v', ws, j. split; [exact Es|]. destruct Hu as (Hru & F1 & F2 & F3).
  split. { split; [by exists (f_blk u)|]. by rewrite E1, E2, E3. }
  split; [done|]. cbv zeta. destruct Hls as [_ Hls]. destruct Hlt as [_ Hlt]. rewrite (br_disk _ _ _ Hls), (br_disk _ _ _ Hlt).
  split; [exact Hw|]. split; [done|]. intros n. destruct (Hc n) as (C1 & C2 & C3).
  destruct (boot_stack me start size _ C1) as (s2 & Er & Hr2). exists s2. eexists. split; [exact Er|]. split; [exact Hr2|].
  intros b Hnb. destruct (Nat.ltb_spec n j); [by apply C2|by apply C3].
Qed.

(** (C2) A system call's transaction on the disk is atomic.  Let [body] be
    what a call does to the file system, and suppose it returns [a] when it runs
    between begin_op and end_op over the abstract store.  Then it returns the
    same over log.c and bio.c, which end in a state that implements the new
    store; and if the machine stops after any number [n] of the disk writes it
    makes, rebooting (empty buffers, recovery) succeeds and gives, for every
    block outside the log, the contents before the call when [n] is before the
    commit point and those after the call from then on. *)
Theorem transaction_atomic {U A} me (body : fs_body (U := U) (A := A)) start size v (s : fs (lfs bio) U) a t' :
  layered body -> stack_rel me (f_blk s) (boot_blk start size v) ->
  transaction body (mk_fs (boot_blk start size v) (f_um s) (f_sb s) (f_itable s)) = Ok (a, t') ->
  exists s' v' ws j, transaction (L := stack_layer me) body s = Ok (a, s') /\ fs_rel (stack_rel me) s' t' /\ f_blk t' = boot_blk start size v' /\
    let d := bio_disk (l_bc (f_blk s)) in
    d_hist (bio_disk (l_bc (f_blk s'))) = d_hist d ++ ws /\ (j <= length ws)%nat /\
    forall n, exists s2 v2,
      @recover_from_log bio (bio_BufCache me) (mk_lfs (boot_log start size) (binit (bss_bio (crash_disk d ws n)))) = Ok (tt, s2) /\
      stack_rel me s2 (boot_blk start size v2) /\
      forall b, ~ (start <= b < start + size) -> disk_get v2 b = disk_get (if (n <? j)%nat then v else v') b.
Proof. apply transaction_crash. Qed.

(** bzero(100) as a transaction on a blank disk. *)
Definition demo_body : fs_body (U := unit) (A := unit) := fun S L => bzero 100.

Lemma transaction_atomic_witness : exists s s' v' ws j,
  transaction (L := stack_layer 1) demo_body (mk_fs s tt (mk_sb 0 0 0 0 0 0 0 0) []) = Ok (tt, s') /\
  d_hist (bio_disk (l_bc (f_blk s'))) = d_hist (bio_disk (l_bc s)) ++ ws /\ (j <= length ws)%nat /\ disk_get v' 100 = zero_block /\
  stack_rel 1 (f_blk s') (boot_blk 2 30 v').
Proof.
  assert (Hok : log_disk_ok 2 30 (∅ : blocks)) by (by split; [lia|reflexivity|vm_compute; intuition congruence|constructor]).
  destruct (boot_stack 1 2 30 (mk_disk ∅ []) Hok) as (s & _ & Hs). generalize dependent (recovered 2 (d_blocks (mk_disk ∅ []))). intros v Hs.
  assert (E : exists t', transaction demo_body (mk_fs (boot_blk 2 30 v) tt (mk_sb 0 0 0 0 0 0 0 0) []) = Ok (tt, t') /\ kget (f_blk t') 100 = zero_block).
  { eexists. split; [reflexivity|]. unfold kget, disk_get. change (default zero_block (<[100 := zero_block]> v !! 100) = zero_block). by rewrite lookup_insert_eq. }
  destruct E as (t' & E & Hk).
  destruct (transaction_atomic 1 demo_body 2 30 v (mk_fs s tt (mk_sb 0 0 0 0 0 0 0 0) []) tt t') as (s' & v' & ws & j & E' & [Hrel _] & Ev & Hw & Hj & _); [|exact Hs|exact E|].
  { intros S T LS LT R HR. by apply sim_bzero. }
  exists s, s', v', ws, j. rewrite Ev in Hk, Hrel. split_and!; auto.
Defined.
