(* ===== verification/FsBlock.v ===== *)
(** Block allocation on the abstract store: balloc and bfree. *)

From S2P Require Import UserMem Prelude Riscv Bytes Refine Cache Bio Log Blocks Fs.

(** ** Access patterns on the store *)

(** [b] can be locked. *)
Definition can_read (k : blk) (b : Z) : Prop :=
  is_log k b = false /\ b ∉ k_held k /\ (b ∈ cached k \/ (size (cached k) < 30)%nat).

(** A buffer that was not modified can be released. *)
Definition settled (k : blk) (b : Z) : Prop := b ∈ k_txn k \/ kget k b = disk_get (k_disk k) b.

Definition can_log (k : blk) (b : Z) : Prop :=
  Z.of_nat (length (k_txn k)) < k_size k - 1 /\ 1 <= k_ops k /\ 0 <= b < 2147483648.

(** The store after block [b] got the contents [d] in the transaction. *)
Definition put_logged (k : blk) (b : Z) (d : block) : blk :=
  mk_blk (k_start k) (k_size k) (<[b := d]> (k_view k)) (k_disk k) (k_held k)
         (if decide (b ∈ k_txn k) then k_txn k else k_txn k ++ [b]) (k_ops k).

Definition hold (b : Z) (k : blk) : blk := set_held ({[b]} ∪ k_held k) k.

Lemma blk_read_ok k b : can_read k b -> blk_read b k = Ok (tt, hold b k).
Proof.
  intros (Hl & Hh & Hr). unfold blk_read. rewrite Hl, decide_False by done.
  destruct Hr as [Hr|Hr].
  - rewrite bool_decide_eq_false_2 by (intros Hn; by apply Hn). done.
  - rewrite (proj2 (Z.leb_gt _ _)) by (unfold NBUF; lia). by rewrite andb_false_r.
Qed.

Lemma hold_held b k : b ∈ k_held (hold b k).
Proof. simpl. set_solver. Qed.

Lemma unhold b k : b ∉ k_held k -> set_held (k_held (hold b k) ∖ {[b]}) k = k.
Proof. intros Hb. destruct k. unfold set_held. simpl in *. f_equal. set_solver. Qed.

Lemma blk_data_ok k b : b ∈ k_held k -> blk_data b k = Ok (kget k b, k).
Proof. intros. unfold blk_data. by rewrite decide_True. Qed.

Lemma blk_relse_ok k b : b ∈ k_held k -> settled k b -> blk_relse b k = Ok (tt, set_held (k_held k ∖ {[b]}) k).
Proof. intros Hh Hs. unfold blk_relse. rewrite decide_True by done. by rewrite decide_True. Qed.

Lemma kget_put_logged k b d x : kget (put_logged k b d) x = if decide (x = b) then d else kget k x.
Proof.
  unfold kget, disk_get, put_logged. simpl. case_decide; [subst; by rewrite lookup_insert_eq|by rewrite lookup_insert_ne].
Qed.

Section patterns.
Context {U : Type}.

(** [t] with another store. *)
Definition with_blk (k : blk) (t : fs blk U) : fs blk U := mk_fs k (f_um t) (f_sb t) (f_itable t).

Lemma with_blk_id (t : fs blk U) : with_blk (f_blk t) t = t.
Proof. by destruct t. Qed.

Lemma blk_op_run {A} (m : M blk A) (t : fs blk U) a k :
  m (f_blk t) = Ok (a, k) -> blk_op m t = Ok (a, with_blk k t).
Proof. intros E. unfold blk_op. by rewrite E. Qed.

(** bread and a look at the data. *)
Lemma read_data {A} b (f : block -> M (fs blk U) A) (t : fs blk U) :
  can_read (f_blk t) b ->
  (blk_op (bl_read b);; d ← blk_op (bl_data b); f d) t = f (kget (f_blk t) b) (with_blk (hold b (f_blk t)) t).
Proof.
  intros Hr. rewrite (bind_Ok _ _ _ _ _ (blk_op_run _ t _ _ (blk_read_ok _ _ Hr))).
  set (t1 := with_blk _ t).
  rewrite (bind_Ok _ _ _ _ _ (blk_op_run _ t1 _ _ (blk_data_ok (f_blk t1) b (hold_held b (f_blk t))))). done.
Qed.

(** brelse of an unmodified buffer. *)
Lemma relse_held {A} b (f : M (fs blk U) A) (t : fs blk U) :
  b ∉ k_held (f_blk t) -> settled (f_blk t) b ->
  (blk_op (bl_relse b);; f) (with_blk (hold b (f_blk t)) t) = f t.
Proof.
  intros Hh Hs. set (t1 := with_blk _ t).
  rewrite (bind_Ok _ _ _ _ _ (blk_op_run _ t1 _ _ (blk_relse_ok (f_blk t1) b (hold_held b (f_blk t)) Hs))).
  f_equal. unfold t1, with_blk. simpl. destruct t as [k um sb it]. simpl in *. f_equal.
  destruct k. unfold hold, set_held. simpl in *. f_equal. set_solver.
Qed.

(** Changing the data, log_write and brelse. *)
Lemma set_log_held b d (t : fs blk U) :
  b ∉ k_held (f_blk t) -> can_log (f_blk t) b ->
  (blk_op (bl_set b d);; blk_op (bl_log b)) (with_blk (hold b (f_blk t)) t) = Ok (tt, with_blk (hold b (put_logged (f_blk t) b d)) t).
Proof.
  intros Hh (Hroom & Hops & Hb). set (t1 := with_blk _ t).
  set (k2 := set_view (<[b := d]> (k_view (f_blk t1))) (f_blk t1)).
  assert (E2 : blk_set b d (f_blk t1) = Ok (tt, k2)).
  { unfold blk_set. simpl. rewrite decide_True by (simpl; set_solver). done. }
  rewrite (bind_Ok _ _ _ _ _ (blk_op_run _ _ _ _ E2)). set (t2 := with_blk k2 _).
  set (k3 := if decide (b ∈ k_txn k2) then k2 else set_txn (k_txn k2 ++ [b]) k2).
  assert (E3 : blk_log b (f_blk t2) = Ok (tt, k3)).
  { unfold blk_log. simpl. rewrite (proj2 (Z.leb_gt _ _)) by lia. rewrite (proj2 (Z.ltb_ge _ _)) by lia.
    rewrite decide_True by set_solver. rewrite (proj2 (Z.leb_le 0 b)), (proj2 (Z.ltb_lt b _)) by lia. done. }
  refine (eq_trans (blk_op_run _ _ _ _ E3) _). do 2 f_equal. unfold t2, t1, with_blk. cbn. f_equal.
  unfold k3, k2, put_logged, hold, set_held, set_txn, set_view. simpl. by destruct (decide (b ∈ k_txn (f_blk t))).
Qed.

Lemma write_held {A} b d (f : M (fs blk U) A) (t : fs blk U) :
  b ∉ k_held (f_blk t) -> can_log (f_blk t) b ->
  (blk_op (bl_set b d);; blk_op (bl_log b);; blk_op (bl_relse b);; f) (with_blk (hold b (f_blk t)) t) =
  f (with_blk (put_logged (f_blk t) b d) t).
Proof.
  intros Hh Hl. pose proof (set_log_held b d t Hh Hl) as E. apply bind_inv in E as ([] & t2 & E2 & E3).
  rewrite (bind_Ok _ _ _ _ _ E2), (bind_Ok _ _ _ _ _ E3). rewrite <- (relse_held b f (with_blk (put_logged (f_blk t) b d) t)); [done|done|].
  left. cbn. case_decide; [done|]. rewrite elem_of_app. right. by left.
Qed.

Lemma write_held_end b d (t : fs blk U) :
  b ∉ k_held (f_blk t) -> can_log (f_blk t) b ->
  (blk_op (bl_set b d);; blk_op (bl_log b);; blk_op (bl_relse b)) (with_blk (hold b (f_blk t)) t) = Ok (tt, with_blk (put_logged (f_blk t) b d) t).
Proof.
  intros Hh Hl. pose proof (write_held b d (mret tt) t Hh Hl) as E. rewrite ret_run in E. rewrite <- E. rewrite !bind_run.
  destruct (blk_op (bl_set b d) _) as [[? t1]|]; [|done]. rewrite !bind_run.
  destruct (blk_op (bl_log b) t1) as [[? t2]|]; [|done]. rewrite !bind_run. by destruct (blk_op (bl_relse b) t2) as [[[] t3]|].
Qed.

End patterns.

(** ** Bitmap bits *)

Lemma bit_set_testbit d bi : bit_set d bi = Z.testbit (byte_at d (bi / 8)) (bi mod 8).
Proof.
  unfold bit_set. rewrite Z.shiftl_1_l. fold (has (byte_at d (bi / 8)) (2 ^ (bi mod 8))).
  apply has_pow2. apply Z.mod_pos_bound. lia.
Qed.

Lemma testbit_u8 x i : 0 <= i < 8 -> Z.testbit (u8 x) i = Z.testbit x i.
Proof. intros Hi. unfold u8. change 256 with (2 ^ 8). by rewrite Z.mod_pow2_bits_low by lia. Qed.

(** Bit [j] of a bitmap whose byte of bit [bi] was replaced by [v]. *)
Lemma bit_set_insert d bi v j :
  0 <= bi -> 0 <= j -> bi / 8 < Z.of_nat (length d) ->
  bit_set (<[Z.to_nat (bi / 8) := v]> d) j = if decide (j / 8 = bi / 8) then Z.testbit v (j mod 8) else bit_set d j.
Proof.
  intros Hb Hj Hl. assert (0 <= bi / 8) by (apply Z.div_pos; lia). assert (0 <= j / 8) by (apply Z.div_pos; lia).
  rewrite !bit_set_testbit, byte_at_insert by lia. by case_decide.
Qed.

Lemma bit_mark d bi j :
  0 <= bi -> 0 <= j -> bi / 8 < Z.of_nat (length d) ->
  bit_set (mark_bit d bi) j = (j =? bi) || bit_set d j.
Proof.
  intros Hb Hj Hl. unfold mark_bit. rewrite bit_set_insert by done.
  pose proof (Z.mod_pos_bound j 8). pose proof (Z.mod_pos_bound bi 8).
  case_decide as E.
  - rewrite testbit_u8, Z.lor_spec, Z.shiftl_1_l, Z.pow2_bits_eqb by lia. rewrite (bit_set_testbit d j), E.
    rewrite orb_comm. f_equal. case_bool; try done; Z.div_mod_to_equations; lia.
  - destruct (Z.eqb_spec j bi) as [->|]; done.
Qed.

Lemma bit_clear d bi j :
  0 <= bi -> 0 <= j -> bi / 8 < Z.of_nat (length d) ->
  bit_set (clear_bit d bi) j = negb (j =? bi) && bit_set d j.
Proof.
  intros Hb Hj Hl. unfold clear_bit. rewrite bit_set_insert by done.
  pose proof (Z.mod_pos_bound j 8). pose proof (Z.mod_pos_bound bi 8).
  case_decide as E.
  - rewrite testbit_u8, Z.land_spec, Z.lnot_spec, Z.shiftl_1_l, Z.pow2_bits_eqb by lia. rewrite (bit_set_testbit d j), E.
    rewrite andb_comm. do 2 f_equal. case_bool; try done; Z.div_mod_to_equations; lia.
  - destruct (Z.eqb_spec j bi) as [->|]; done.
Qed.

Lemma length_mark_bit d bi : length (mark_bit d bi) = length d.
Proof. apply length_insert. Qed.
Lemma length_clear_bit d bi : length (clear_bit d bi) = length d.
Proof. apply length_insert. Qed.

Lemma find_clear_spec d b size k : forall bi,
  match find_clear k d b bi size with
  | Some r => bi <= r < bi + Z.of_nat k /\ b + r < size /\ bit_set d r = false /\
      (forall j, bi <= j < r -> bit_set d j = true)
  | None => forall j, bi <= j < bi + Z.of_nat k -> b + j < size -> bit_set d j = true
  end.
Proof.
  induction k as [|k IH]; intros bi; cbn [find_clear]; [intros; lia|].
  destruct (Z.ltb_spec (b + bi) size) as [Hlt|Hge].
  - destruct (bit_set d bi) eqn:Eb.
    + specialize (IH (bi + 1)). destruct (find_clear k d b (bi + 1) size) as [r|].
      * destruct IH as (H1 & H2 & H3 & H4). split_and!; auto; try lia.
        intros j Hj. destruct (decide (j = bi)) as [->|]; [done|]. apply H4. lia.
      * intros j Hj Hs. destruct (decide (j = bi)) as [->|]; [done|]. apply IH; lia.
    + split_and!; auto; lia.
  - intros j Hj Hs. lia.
Qed.

(** ** balloc and bfree *)

(** The bitmap says that block [b] is in use. *)
Definition used (k : blk) (sb : superblock) (b : Z) : bool := bit_set (kget k (BBLOCK b sb)) (b mod BPB).

(** Everything below the data blocks. *)
Definition meta (sb : superblock) (b : Z) : Prop := 0 <= b < sb_bmapstart sb + sb_size sb / BPB + 1.

(** The layout mkfs makes: boot block, superblock, log, inodes, bitmap, data;
    the bitmap marks the metadata as used. *)
Record layout (k : blk) (sb : superblock) : Prop := {
  ly_start : k_start k = sb_logstart sb;
  ly_size : k_size k = sb_nlog sb;
  ly_order : 2 <= sb_logstart sb /\ sb_logstart sb + sb_nlog sb <= sb_inodestart sb /\
    sb_inodestart sb + sb_ninodes sb / IPB < sb_bmapstart sb /\
    sb_bmapstart sb + sb_size sb / BPB + 1 <= sb_size sb /\ 0 < sb_ninodes sb /\ 0 < sb_nlog sb;
  ly_small : sb_size sb < 2147483648;
  ly_meta : forall b, meta sb b -> used k sb b = true;
  ly_bitmap : forall b, 0 <= b < sb_size sb -> length (kget k (BBLOCK b sb)) = 1024%nat;
}.

(** Between calls: buffers not in the transaction are unmodified. *)
Definition clean_store (k : blk) : Prop := forall b, settled k b.

(** The transaction may log the blocks of [B] and [n] others. *)
Definition budget (k : blk) (B : gset Z) (n : nat) : Prop :=
  NoDup (k_txn k) /\ k_size k <= 30 /\ 1 <= k_ops k /\ Z.of_nat (size (list_to_set (k_txn k) ∪ B) + n) + 1 < k_size k.

(** [B] contains the blocks of the bitmap. *)
Definition bitmap_in (sb : superblock) (B : gset Z) : Prop := forall b, 0 <= b < sb_size sb -> BBLOCK b sb ∈ B.

Lemma budget_txn k B n : budget k B n -> Z.of_nat (length (k_txn k)) + Z.of_nat n + 1 < k_size k.
Proof.
  intros (Hd & _ & _ & Hs). assert (Hle : (size (list_to_set (k_txn k) : gset Z) <= size (list_to_set (k_txn k) ∪ B))%nat) by (apply subseteq_size; set_solver).
  rewrite size_list_to_set in Hle by done. lia.
Qed.

Lemma budget_le k B n m : (m <= n)%nat -> budget k B n -> budget k B m.
Proof. intros Hm (H1 & H2 & H3 & H4). split_and!; auto. lia. Qed.

Lemma budget_hold k B n b : budget (hold b k) B n <-> budget k B n.
Proof. done. Qed.

Lemma budget_read_size k B n : budget k B n -> (size (k_held k) <= 1)%nat -> (size (cached k) < 30)%nat.
Proof.
  intros Hb Hh. pose proof (budget_txn _ _ _ Hb). destruct Hb as (Hd & Hs & _).
  assert (Hle : (size (cached k) <= size (k_held k) + size (list_to_set (k_txn k) : gset Z))%nat).
  { unfold cached. rewrite size_union_alt. apply Nat.add_le_mono_l, subseteq_size. set_solver. }
  rewrite size_list_to_set in Hle by done. lia.
Qed.

Lemma budget_read k B n b : budget k B n -> (size (k_held k) <= 1)%nat -> is_log k b = false -> b ∉ k_held k -> can_read k b.
Proof. intros Hb Hh Hl Hn. split_and!; auto. right. by eapply budget_read_size. Qed.

Lemma budget_log k B n b : budget k B n -> 0 <= b < 2147483648 -> can_log k b.
Proof. intros Hb Hr. pose proof (budget_txn _ _ _ Hb). destruct Hb as (_ & _ & Ho & _). split_and!; auto; lia. Qed.

Lemma put_logged_txn k b d : NoDup (k_txn k) -> NoDup (k_txn (put_logged k b d)) /\ forall x, x ∈ k_txn (put_logged k b d) <-> x = b \/ x ∈ k_txn k.
Proof.
  intros Hd. cbn. case_decide as E; [split; [done|]; intros x; split; [auto|intros [->|?]; done]|]. split.
  - apply NoDup_app. split_and!; [done|intros x Hx; by intros ->%list_elem_of_singleton|apply NoDup_singleton].
  - intros x. rewrite elem_of_app, list_elem_of_singleton. tauto.
Qed.

Lemma budget_put_in k B n b d : budget k B n -> b ∈ B -> budget (put_logged k b d) B n.
Proof.
  intros (Hd & H2 & H3 & H4) Hb. destruct (put_logged_txn k b d Hd) as [Hd' Hin]. split_and!; auto.
  replace (list_to_set (k_txn (put_logged k b d)) ∪ B) with (list_to_set (k_txn k) ∪ B : gset Z); [done|]. set_solver.
Qed.

Lemma budget_put k B n b d : budget k B (Datatypes.S n) -> budget (put_logged k b d) B n.
Proof.
  intros (Hd & H2 & H3 & H4). destruct (put_logged_txn k b d Hd) as [Hd' Hin]. split_and!; auto.
  assert (Hs : (size (list_to_set (k_txn (put_logged k b d)) ∪ B : gset Z) <= size ({[b]} ∪ (list_to_set (k_txn k) ∪ B) : gset Z))%nat) by (apply subseteq_size; set_solver).
  rewrite (size_union_alt {[b]}), size_singleton in Hs.
  assert ((size ((list_to_set (k_txn k) ∪ B : gset Z) ∖ {[b]}) <= size (list_to_set (k_txn k) ∪ B : gset Z))%nat) by (apply subseteq_size; set_solver).
  cbn [k_size put_logged]. lia.
Qed.

Lemma clean_put k b d : clean_store k -> clean_store (put_logged k b d).
Proof.
  intros Hc x. unfold settled. rewrite kget_put_logged. cbn. destruct (decide (x = b)) as [->|Hne].
  - left. case_decide; [done|]. rewrite elem_of_app. right. by left.
  - destruct (Hc x) as [?|?]; [left|by right]. case_decide; [done|]. rewrite elem_of_app. by left.
Qed.

Section alloc.
Context {U : Type} `{UserMem U}.
Implicit Types (t : fs blk U).

Lemma bmap_block_ok k sb b :
  layout k sb -> 0 <= b < sb_size sb ->
  is_log k (BBLOCK b sb) = false /\ meta sb (BBLOCK b sb) /\ 0 <= BBLOCK b sb < 2147483648.
Proof.
  intros [H1 H2 (H3 & H4 & H5 & H6 & H7 & H8) H9 _ _] Hb. unfold meta, BBLOCK, BPB, IPB in *.
  assert (0 <= b / 8192 <= sb_size sb / 8192).
  { split; [apply Z.div_pos; lia|apply Z.div_le_mono; lia]. }
  assert (0 <= sb_ninodes sb / 16) by (apply Z.div_pos; lia).
  split; [|lia]. unfold is_log. rewrite H1, H2. apply andb_false_iff. right. apply Z.ltb_ge. lia.
Qed.

(** The first block the bitmap does not use. *)
Definition first_free (k : blk) (sb : superblock) (b : Z) : Prop :=
  0 <= b < sb_size sb /\ used k sb b = false /\ forall x, 0 <= x < b -> used k sb x = true.

(** Bits of one bitmap block. *)
Lemma used_chunk k sb q j : 0 <= j < BPB -> used k sb (q * BPB + j) = bit_set (kget k (BBLOCK (q * BPB) sb)) j.
Proof.
  intros Hj. unfold used, BBLOCK, BPB in *.
  replace ((q * 8192 + j) mod 8192) with j by (Z.div_mod_to_equations; lia).
  replace ((q * 8192 + j) / 8192) with q by (Z.div_mod_to_equations; lia).
  by rewrite Z.div_mul by lia.
Qed.

(** Locked buffers are data blocks in use. *)
Definition held_data (k : blk) (sb : superblock) : Prop :=
  forall b, b ∈ k_held k -> used k sb b = true /\ ~ meta sb b.

(** The store after balloc took block [r]. *)
Definition allocated (k : blk) (sb : superblock) (r : Z) : blk :=
  put_logged (put_logged k (BBLOCK r sb) (mark_bit (kget k (BBLOCK r sb)) (r mod BPB))) r zero_block.

Lemma free_block_ok k sb r : layout k sb -> first_free k sb r -> is_log k r = false /\ r <> BBLOCK r sb /\ ~ meta sb r.
Proof.
  intros Hl (Hr & Hu & _). assert (Hm : ~ meta sb r) by (intros Hm; rewrite (ly_meta _ _ Hl r Hm) in Hu; done).
  destruct (bmap_block_ok k sb r Hl Hr) as (_ & Hb & _). split_and!; auto.
  - destruct Hl as [H1 H2 (H3 & H4 & H5 & H6 & H7 & H8) H9 _ _]. unfold is_log. rewrite H1, H2.
    apply andb_false_iff. right. apply Z.ltb_ge. unfold meta in Hm.
    assert (0 <= sb_ninodes sb / IPB) by (apply Z.div_pos; unfold IPB; lia).
    assert (0 <= sb_size sb / BPB) by (apply Z.div_pos; unfold BPB; lia). lia.
  - intros E. apply Hm. by rewrite E.
Qed.

Lemma bzero_run {A} (f : M (fs blk U) A) t b :
  can_read (f_blk t) b -> can_log (f_blk t) b -> (bzero b;; f) t = f (with_blk (put_logged (f_blk t) b zero_block) t).
Proof.
  intros Hr Hl. assert (E : bzero b t = Ok (tt, with_blk (put_logged (f_blk t) b zero_block) t)); [|by rewrite (bind_Ok _ _ _ _ _ E)].
  unfold bzero. rewrite (bind_Ok _ _ _ _ _ (blk_op_run _ t _ _ (blk_read_ok _ _ Hr))). by apply write_held_end; [apply Hr|].
Qed.

Definition balloc_result t (r : Z) (t' : fs blk U) : Prop :=
  first_free (f_blk t) (f_sb t) r /\ t' = with_blk (allocated (f_blk t) (f_sb t) r) t \/
  r = 0 /\ t' = t /\ forall x, 0 <= x < sb_size (f_sb t) -> used (f_blk t) (f_sb t) x = true.

Lemma balloc_loop_spec t B n fuel : forall q,
  let k := f_blk t in let sb := f_sb t in
  layout k sb -> clean_store k -> held_data k sb -> (size (k_held k) <= 1)%nat -> budget k B (Datatypes.S n) -> bitmap_in sb B -> 0 <= q ->
  (forall x, 0 <= x < q * BPB -> x < sb_size sb -> used k sb x = true) -> sb_size sb / BPB < q + Z.of_nat fuel ->
  exists r t', balloc_loop fuel (q * BPB) t = Ok (r, t') /\ balloc_result t r t'.
Proof.
  induction fuel as [|fuel IH]; intros q k sb Hl Hc Hh Hs Hroom HB Hq Hall Hf; cbn [balloc_loop].
  { exists 0, t. split; [done|]. right. fold k sb. split_and!; auto. intros x Hx. apply Hall; [|lia].
    unfold BPB in *. Z.div_mod_to_equations. lia. }
  unfold get_sb. rewrite bind_run, gets_run. fold sb.
  destruct (Z.ltb_spec (q * BPB) (sb_size sb)) as [Hlt|Hge].
  2: { exists 0, t. split; [done|]. right. fold k sb. split_and!; auto. intros x Hx. apply Hall; lia. }
  assert (Hqb : 0 <= q * BPB < sb_size sb) by (unfold BPB in *; lia).
  destruct (bmap_block_ok k sb (q * BPB) Hl Hqb) as (Hlog & Hmeta & Hrange).
  assert (Hnh : BBLOCK (q * BPB) sb ∉ k_held k) by (intros Hin; by destruct (Hh _ Hin)).
  assert (Hcr : can_read (f_blk t) (BBLOCK (q * BPB) sb)) by (by eapply budget_read).
  rewrite read_data by done. fold k.
  pose proof (find_clear_spec (kget k (BBLOCK (q * BPB) sb)) (q * BPB) (sb_size sb) (Z.to_nat BPB) 0) as Hfc.
  destruct (find_clear _ _ _ _ _) as [bi|].
  - destruct Hfc as (H1 & H2 & H3 & H4). rewrite Z2Nat.id in H1 by done. simpl in H1.
    change k with (f_blk t). rewrite write_held; [|done|by eapply budget_log]. fold k.
    assert (Hfree : first_free k sb (q * BPB + bi)).
    { split_and!; [unfold BPB in *; lia|lia| |].
      - by rewrite used_chunk.
      - intros x Hx. destruct (decide (x < q * BPB)); [apply Hall; lia|].
        replace x with (q * BPB + (x - q * BPB)) by lia. rewrite used_chunk by lia. apply H4. lia. }
    destruct (free_block_ok k sb _ Hl Hfree) as (Hfl & Hfne & Hfm).
    assert (Ebb : BBLOCK (q * BPB + bi) sb = BBLOCK (q * BPB) sb).
    { unfold BBLOCK, BPB in *. f_equal. Z.div_mod_to_equations. lia. }
    assert (Emod : (q * BPB + bi) mod BPB = bi) by (unfold BPB in *; Z.div_mod_to_equations; lia).
    rewrite bzero_run.
    + eexists _, _. split; [rewrite ret_run; reflexivity|]. left. split; [done|].
      unfold allocated. fold k sb. rewrite Ebb, Emod. done.
    + eapply (budget_read _ B (Datatypes.S n)); [by apply budget_put_in; [|apply HB]|done|done|].
      cbn [put_logged k_held f_blk with_blk]. intros Hin. destruct (Hh _ Hin) as [Hu _]. destruct Hfree as (_ & Hf2 & _). congruence.
    + eapply (budget_log _ B (Datatypes.S n)); [by apply budget_put_in; [|apply HB]|]. destruct Hfree as [Hf0 _]. pose proof (ly_small _ _ Hl). lia.
  - change k with (f_blk t). rewrite relse_held by (done || apply Hc). replace (q * BPB + BPB) with ((q + 1) * BPB) by lia.
    apply IH; fold k sb; auto; [lia| |lia]. intros x Hx Hxs. destruct (decide (x < q * BPB)); [apply Hall; lia|].
    replace x with (q * BPB + (x - q * BPB)) by lia. rewrite used_chunk by lia. apply Hfc; [|lia].
    rewrite Z2Nat.id by done. lia.
Qed.

Lemma balloc_run t B n :
  let k := f_blk t in let sb := f_sb t in
  layout k sb -> clean_store k -> held_data k sb -> (size (k_held k) <= 1)%nat -> budget k B (Datatypes.S n) -> bitmap_in sb B ->
  exists r t', balloc t = Ok (r, t') /\ balloc_result t r t'.
Proof.
  intros k sb Hl Hc Hh Hs Hr HB. unfold balloc, get_sb. rewrite bind_run, gets_run. fold sb.
  apply (balloc_loop_spec t B n _ 0); auto; [lia|intros; lia|]. fold sb.
  assert (Hp : 0 <= sb_size sb).
  { destruct Hl as [_ _ (H1 & H2 & H3 & H4 & H5 & H6) _ _ _]. unfold BPB, IPB in *. Z.div_mod_to_equations. lia. }
  unfold BPB. Z.div_mod_to_equations. lia.
Qed.

(** What changed and what did not. *)
Lemma allocated_get k sb r x :
  layout k sb -> first_free k sb r ->
  kget (allocated k sb r) x =
  if decide (x = r) then zero_block
  else if decide (x = BBLOCK r sb) then mark_bit (kget k x) (r mod BPB) else kget k x.
Proof.
  intros Hl Hf. unfold allocated. rewrite !kget_put_logged. case_decide; [done|]. case_decide; by subst.
Qed.

Lemma same_bitmap_block x r sb : 0 <= x -> 0 <= r -> BBLOCK x sb = BBLOCK r sb -> (x mod BPB =? r mod BPB) = (x =? r).
Proof. intros Hx Hr E. unfold BBLOCK, BPB in *. case_bool; try done; Z.div_mod_to_equations; lia. Qed.

Lemma bit_in_block (d : block) x : length d = 1024%nat -> 0 <= x mod BPB /\ x mod BPB / 8 < Z.of_nat (length d).
Proof. intros ->. unfold BPB. pose proof (Z.mod_pos_bound x 8192). split; [lia|]. Z.div_mod_to_equations. lia. Qed.

Lemma allocated_used k sb r x :
  layout k sb -> first_free k sb r -> 0 <= x < sb_size sb ->
  used (allocated k sb r) sb x = (x =? r) || used k sb x.
Proof.
  intros Hl Hf Hx. destruct (free_block_ok k sb r Hl Hf) as (_ & _ & Hnm). pose proof Hf as (Hr & _ & _).
  destruct (bmap_block_ok k sb x Hl Hx) as (_ & Hm & _). unfold used. rewrite allocated_get by done.
  rewrite decide_False by (intros E; apply Hnm; by rewrite <- E). case_decide as E.
  - pose proof (ly_bitmap _ _ Hl x Hx) as Hlen. destruct (bit_in_block _ r Hlen) as [B1 B2].
    rewrite bit_mark; [|done|unfold BPB; apply Z.mod_pos_bound; lia|done].
    rewrite (same_bitmap_block _ _ sb) by (done || lia); done.
  - destruct (Z.eqb_spec x r) as [->|]; done.
Qed.

Lemma allocated_layout k sb r : layout k sb -> first_free k sb r -> layout (allocated k sb r) sb.
Proof.
  intros Hl Hf. pose proof (free_block_ok k sb r Hl Hf) as (_ & _ & Hnm).
  pose proof Hl as [H1 H2 H3 H4 H5 H6]. split; auto.
  - intros b Hb. assert (Hbs : 0 <= b < sb_size sb) by (unfold meta in Hb; lia).
    rewrite allocated_used, H5 by done. apply orb_true_r.
  - intros b Hb. rewrite allocated_get by done. destruct (bmap_block_ok k sb b Hl Hb) as (_ & Hm & _).
    rewrite decide_False by (intros E; apply Hnm; by rewrite <- E). case_decide; rewrite ?length_mark_bit; by apply H6.
Qed.

(** The store after block [b] was freed. *)
Definition freed (k : blk) (sb : superblock) (b : Z) : blk :=
  put_logged k (BBLOCK b sb) (clear_bit (kget k (BBLOCK b sb)) (b mod BPB)).

Lemma bfree_run {A} (f : M (fs blk U) A) t B n b :
  let k := f_blk t in let sb := f_sb t in
  layout k sb -> held_data k sb -> (size (k_held k) <= 1)%nat -> 0 <= b < sb_size sb -> budget k B n ->
  (bfree b;; f) t = if used k sb b then f (with_blk (freed k sb b) t) else Panic "freeing free block".
Proof.
  intros k sb Hl Hh Hs Hb Hr. destruct (bmap_block_ok k sb b Hl Hb) as (Hlog & Hmeta & Hrange).
  assert (Hnh : BBLOCK b sb ∉ k_held k) by (intros Hin; by destruct (Hh _ Hin)).
  assert (Hcr : can_read (f_blk t) (BBLOCK b sb)) by (by eapply budget_read).
  assert (Hcl : can_log (f_blk t) (BBLOCK b sb)) by (by eapply budget_log).
  unfold bfree, get_sb. rewrite !bind_run, gets_run. fold sb.
  rewrite read_data by done. fold k. unfold used. destruct (bit_set (kget k (BBLOCK b sb)) (b mod BPB)); cbn [negb]; [|done].
  change k with (f_blk t). rewrite (write_held_end (BBLOCK b sb)) by done. done.
Qed.

Lemma freed_used k sb b x :
  layout k sb -> 0 <= b < sb_size sb -> 0 <= x < sb_size sb ->
  used (freed k sb b) sb x = negb (x =? b) && used k sb x.
Proof.
  intros Hl Hb Hx. unfold used, freed. rewrite kget_put_logged. case_decide as E.
  - pose proof (ly_bitmap _ _ Hl x Hx) as Hlen. rewrite E in Hlen. destruct (bit_in_block _ b Hlen) as [B1 B2].
    rewrite <- E, bit_clear; [|done|unfold BPB; apply Z.mod_pos_bound; lia|by rewrite E].
    rewrite (same_bitmap_block _ _ sb) by (done || lia); done.
  - destruct (Z.eqb_spec x b) as [->|]; done.
Qed.

End alloc.
