(* ===== verification/FsFile.v ===== *)
(** The contents of an inode: bmap, readi and writei on the abstract store.

    A file is read through the slots of its inode: twelve direct blocks, the
    indirect block, and the 256 entries of the indirect block.  The routines
    change the blocks they own, free blocks and the bitmap, and nothing else. *)

From S2P Require Import UserMem Prelude Riscv Bytes Refine Cache Bio Log Blocks Fs FsBlock.

(** ** Blocks of an inode *)

Definition slot (k : blk) (x : inode) (j : Z) : Z :=
  if j <? 13 then i_addrs x !!! Z.to_nat j
  else let ia := i_addrs x !!! 12%nat in if ia =? 0 then 0 else get32 (kget k ia) (4 * (j - 13)).

(** The slot of block [bn] of the file. *)
Definition bslot (bn : Z) : Z := if bn <? 12 then bn else bn + 1.
Definition fblock (k : blk) (x : inode) (bn : Z) : Z := slot k x (bslot bn).

(** A byte of the file; a block that is not there reads as zeros. *)
Definition fbyte (k : blk) (x : inode) (off : Z) : Z :=
  let b := fblock k x (off / 1024) in if b =? 0 then 0 else byte_at (kget k b) (off mod 1024).

Definition in_slots (j : Z) : Prop := 0 <= j < 269.
Definition owned (k : blk) (x : inode) (b : Z) : Prop := exists j, in_slots j /\ slot k x j = b /\ b <> 0.

Definition data_block (k : blk) (sb : superblock) (b : Z) : Prop :=
  0 <= b < sb_size sb /\ used k sb b = true /\ ~ meta sb b /\ length (kget k b) = 1024%nat.

Record slots_ok (k : blk) (sb : superblock) (x : inode) : Prop := {
  sk_len : length (i_addrs x) = 13%nat;
  sk_data : forall j, in_slots j -> slot k x j <> 0 -> data_block k sb (slot k x j);
  sk_inj : forall i j, in_slots i -> in_slots j -> slot k x i <> 0 -> slot k x i = slot k x j -> i = j;
}.

Definition bitmap (sb : superblock) (b : Z) : Prop := exists x, 0 <= x < sb_size sb /\ b = BBLOCK x sb.

(** What the routines on one inode may do to the store. *)
Record evolves (sb : superblock) (k : blk) (x : inode) (k' : blk) (x' : inode) : Prop := {
  ev_x : x' = set_i_addrs (i_addrs x') x;
  ev_layout : layout k' sb;
  ev_clean : clean_store k';
  ev_held : k_held k' = k_held k;
  ev_slots : slots_ok k' sb x';
  ev_mono : forall j, in_slots j -> slot k x j <> 0 -> slot k' x' j = slot k x j;
  ev_fresh : forall b, owned k' x' b -> owned k x b \/ used k sb b = false;
  ev_used : forall b, 0 <= b < sb_size sb -> used k' sb b = true <-> used k sb b = true \/ owned k' x' b;
  ev_frame : forall b, 0 <= b < sb_size sb -> used k sb b = true -> ~ owned k x b -> ~ bitmap sb b -> kget k' b = kget k b;
}.

Definition same_file (k : blk) (x : inode) (k' : blk) (x' : inode) : Prop :=
  forall off, 0 <= off < 274432 -> fbyte k' x' off = fbyte k x off.

Section slots.
Implicit Types (k : blk) (x : inode).

Lemma set_addrs_id x : x = set_i_addrs (i_addrs x) x.
Proof. by destruct x. Qed.

Lemma bslot_ok bn : 0 <= bn < 268 -> in_slots (bslot bn) /\ bslot bn <> 12.
Proof. intros Hb. unfold bslot, in_slots. case_bool; lia. Qed.

Lemma bslot_inj bn bn' : bslot bn = bslot bn' -> bn = bn'.
Proof. unfold bslot. repeat case_bool; lia. Qed.

Lemma slot_owned k sb x j : slots_ok k sb x -> in_slots j -> slot k x j <> 0 -> owned k x (slot k x j).
Proof. intros _ Hj Hn. by exists j. Qed.

Lemma evolves_refl sb k x : layout k sb -> clean_store k -> slots_ok k sb x -> evolves sb k x k x.
Proof.
  intros Hl Hc Hs. split; auto using set_addrs_id.
  intros b Hb. split; [auto|]. intros [?|(j & Hj & <- & Hn)]; [done|]. by apply (sk_data _ _ _ Hs).
Qed.

Lemma owned_used k sb x b : slots_ok k sb x -> owned k x b -> used k sb b = true /\ 0 <= b < sb_size sb.
Proof. intros Hs (j & Hj & <- & Hn). by destruct (sk_data _ _ _ Hs j Hj Hn) as (? & ? & _). Qed.

Lemma evolves_owned sb k x k' x' b : evolves sb k x k' x' -> owned k x b -> owned k' x' b.
Proof. intros He (j & Hj & <- & Hn). exists j. rewrite (ev_mono _ _ _ _ _ He) by done. by split_and!. Qed.

Lemma evolves_trans sb k1 x1 k2 x2 k3 x3 : evolves sb k1 x1 k2 x2 -> evolves sb k2 x2 k3 x3 -> evolves sb k1 x1 k3 x3.
Proof.
  intros A B. pose proof A as [A1 A2 A3 A4 A5 A6 A7 A8 A9]. pose proof B as [B1 B2 B3 B4 B5 B6 B7 B8 B9]. split; auto.
  - rewrite B1, A1. done.
  - by rewrite B4.
  - intros j Hj Hn. rewrite B6, A6; auto. by rewrite A6.
  - intros b Hb. destruct (B7 b Hb) as [Hb2|Hu]; [by apply A7|]. right. apply not_true_iff_false. intros Hu1.
    destruct (owned_used _ _ _ _ B5 Hb) as [_ Hr]. apply not_true_iff_false in Hu. apply Hu, A8; auto.
  - intros b Hb. rewrite B8, A8 by done. split; [|tauto]. intros [[?|?]|?]; auto. right. by eapply evolves_owned.
  - intros b Hb Hu Hn Hm. rewrite B9, A9; auto; [apply A8; auto|]. intros Hb2. destruct (A7 b Hb2) as [?|?]; [done|congruence].
Qed.

Lemma same_file_trans k1 x1 k2 x2 k3 x3 : same_file k1 x1 k2 x2 -> same_file k2 x2 k3 x3 -> same_file k1 x1 k3 x3.
Proof. intros A B off Ho. by rewrite B, A. Qed.

Lemma byte_at_zero i : byte_at zero_block i = 0.
Proof.
  unfold byte_at, zero_block. destruct (decide (Z.to_nat i < 1024)%nat); [by rewrite lookup_replicate_2|].
  by rewrite lookup_ge_None_2 by (rewrite length_replicate; lia).
Qed.

Lemma meta0 k sb : layout k sb -> meta sb 0.
Proof.
  intros [_ _ (H1 & H2 & H3 & H4 & H5 & H6) _ _ _]. unfold meta, BPB, IPB in *.
  assert (0 <= sb_ninodes sb / 16) by (apply Z.div_pos; lia). assert (0 <= sb_size sb / 8192) by (Z.div_mod_to_equations; lia). lia.
Qed.

Lemma free_nonzero k sb r : layout k sb -> first_free k sb r -> r <> 0.
Proof. intros Hl (_ & Hu & _) ->. rewrite (ly_meta _ _ Hl 0 (meta0 k sb Hl)) in Hu. done. Qed.

Lemma bitmap_meta k sb b : layout k sb -> bitmap sb b -> meta sb b.
Proof. intros Hl (y & Hy & ->). by destruct (bmap_block_ok k sb y Hl Hy) as (_ & ? & _). Qed.

(** A free block was put in slot [j], which was empty. *)
Lemma fresh_slot sb k x k1 x1 j r :
  layout k sb -> slots_ok k sb x -> first_free k sb r -> in_slots j -> slot k x j = 0 ->
  x1 = set_i_addrs (i_addrs x1) x -> length (i_addrs x1) = 13%nat -> layout k1 sb -> clean_store k1 -> k_held k1 = k_held k ->
  (forall i, in_slots i -> slot k1 x1 i = if i =? j then r else slot k x i) ->
  (forall b, 0 <= b < sb_size sb -> used k1 sb b = (b =? r) || used k sb b) ->
  (forall b, 0 <= b < sb_size sb -> used k sb b = true -> ~ bitmap sb b -> (b = slot k x 12 -> b = 0) -> kget k1 b = kget k b) ->
  (slot k x 12 <> 0 -> length (kget k1 (slot k x 12)) = 1024%nat) -> kget k1 r = zero_block ->
  evolves sb k x k1 x1 /\ same_file k x k1 x1.
Proof.
  intros Hl Hs Hf Hj Ej Hx Hlen Hl1 Hc1 Hh1 Hsl Hu Hk Hi Hz. pose proof (free_nonzero _ _ _ Hl Hf) as Hr0. pose proof Hf as (Hr & Hru & _).
  destruct (free_block_ok _ _ _ Hl Hf) as (_ & _ & Hrm).
  assert (Hno : forall i, in_slots i -> slot k x i <> r). { intros i Hii E. destruct (sk_data _ _ _ Hs i Hii) as (_ & Hx' & _); [congruence|]. congruence. }
  assert (Hdat : forall i, in_slots i -> slot k x i <> 0 -> data_block k1 sb (slot k x i) /\ (i <> 12 -> kget k1 (slot k x i) = kget k (slot k x i))).
  { intros i Hii Hn. destruct (sk_data _ _ _ Hs i Hii Hn) as (D1 & D2 & D3 & D4).
    assert (Hsame : i <> 12 -> kget k1 (slot k x i) = kget k (slot k x i)).
    { intros Hne. apply Hk; auto; [by intros ?%(bitmap_meta _ _ _ Hl)|]. intros E. destruct Hne. by apply (sk_inj _ _ _ Hs i 12). }
    split; [|done]. split_and!; auto; try lia; [rewrite Hu, D2 by done; apply orb_true_r|]. destruct (decide (i = 12)) as [->|Hne]; [by apply Hi|by rewrite Hsame]. }
  assert (Hs1 : slots_ok k1 sb x1).
  { split; [done| |].
    - intros i Hii. rewrite Hsl by done. destruct (Z.eqb_spec i j) as [->|Hne]; [|by apply Hdat]. intros _. split_and!; auto; try lia; [|by rewrite Hz].
      rewrite Hu by done. by rewrite Z.eqb_refl.
    - intros i i' Hii Hii'. rewrite !Hsl by done. destruct (Z.eqb_spec i j) as [->|Hne], (Z.eqb_spec i' j) as [->|Hne']; try done.
      + intros _ E. by destruct (Hno i').
      + intros _ E. by destruct (Hno i).
      + by apply (sk_inj _ _ _ Hs). }
  assert (Ho : forall b, owned k1 x1 b <-> owned k x b \/ b = r).
  { intros b. split.
    - intros (i & Hii & E & Hn). rewrite Hsl in E by done. destruct (Z.eqb_spec i j); [right; congruence|left]. by exists i.
    - intros [(i & Hii & E & Hn)|E]; [exists i|exists j]; (split; [done|]); rewrite Hsl by done.
      + destruct (Z.eqb_spec i j); [congruence|done].
      + rewrite Z.eqb_refl. split; congruence. }
  split.
  - split; auto.
    + intros i Hii Hn. rewrite Hsl by done. destruct (Z.eqb_spec i j); [congruence|done].
    + intros b Hb. apply Ho in Hb as [?|E]; [by left|]. right. congruence.
    + intros b Hb. rewrite Hu, Ho by done. destruct (Z.eqb_spec b r) as [->|Hne]; [tauto|]. cbn. split; [auto|]. intros [?|[?|?]]; [done| |done]. by eapply owned_used.
    + intros b Hb Hub Hn Hm. apply Hk; auto. intros E. destruct (decide (b = 0)); [done|]. destruct Hn. by exists 12.
  - intros off Hoff. unfold fbyte, fblock. destruct (bslot_ok (off / 1024)) as [B1 B2]; [Z.div_mod_to_equations; lia|]. rewrite Hsl by done.
    destruct (Z.eqb_spec (bslot (off / 1024)) j) as [E|Hne].
    + rewrite E, Ej, Hz, (proj2 (Z.eqb_neq _ _)) by done. cbn [Z.eqb]. apply byte_at_zero.
    + destruct (Z.eqb_spec (slot k x (bslot (off / 1024))) 0) as [|Hn]; [done|]. by destruct (Hdat _ B1 Hn) as [_ ->].
Qed.

End slots.

(** ** bmap *)

(** The indirect block. *)
Definition iaddr (x : inode) : Z := i_addrs x !!! 12%nat.

Section file.
Context {U : Type} `{UserMem U}.
Implicit Types (t : fs blk U) (k : blk) (x : inode).

(** [t] with another store and another inode [ip]. *)
Definition with_ino t (ip : Z) k x : fs blk U := mk_fs k (f_um t) (f_sb t) (<[Z.to_nat ip := x]> (f_itable t)).

Definition valid_ip t (ip : Z) : Prop := (Z.to_nat ip < length (f_itable t))%nat.

Lemma with_ino_id t ip x : f_itable t !! Z.to_nat ip = Some x -> with_ino t ip (f_blk t) x = t.
Proof. intros E. unfold with_ino. rewrite list_insert_id by done. by destruct t. Qed.

Lemma geti_ino {A} t ip k x (f : inode -> M (fs blk U) A) : valid_ip t ip -> (y ← geti ip; f y) (with_ino t ip k x) = f x (with_ino t ip k x).
Proof. intros Hv. unfold geti. rewrite bind_run, gets_run. cbn [with_ino f_itable]. by rewrite list_lookup_total_insert_eq. Qed.

Lemma updi_ino t ip k x f : valid_ip t ip -> updi ip f (with_ino t ip k x) = Ok (tt, with_ino t ip k (f x)).
Proof.
  intros Hv. unfold updi. rewrite modify_run. unfold with_ino. cbn [f_itable f_blk f_um f_sb]. do 3 f_equal.
  apply list_eq. intros i. destruct (decide (i = Z.to_nat ip)) as [->|Hne].
  - rewrite list_lookup_alter_eq, !list_lookup_insert_eq by done. done.
  - rewrite list_lookup_alter_ne, !list_lookup_insert_ne by done. done.
Qed.

Lemma with_blk_ino t ip k k' x : with_blk k' (with_ino t ip k x) = with_ino t ip k' x.
Proof. done. Qed.

Lemma slot_direct k x j : 0 <= j < 13 -> slot k x j = i_addrs x !!! Z.to_nat j.
Proof. intros Hj. unfold slot. by rewrite (proj2 (Z.ltb_lt _ _)) by lia. Qed.

Lemma slot12 k x : slot k x 12 = iaddr x.
Proof. done. Qed.

Lemma slot_indirect k x j : 13 <= j -> iaddr x <> 0 -> slot k x j = get32 (kget k (iaddr x)) (4 * (j - 13)).
Proof. intros Hj Hn. unfold slot. rewrite (proj2 (Z.ltb_ge _ _)) by lia. fold (iaddr x). by rewrite (proj2 (Z.eqb_neq _ _)). Qed.

Lemma layout_above k sb b : layout k sb -> ~ meta sb b -> 0 <= b -> is_log k b = false.
Proof.
  intros [L1 L2 (L3 & L4 & L5 & L6 & L7 & L8) L9 _ _] D3 D1. unfold is_log. rewrite L1, L2. unfold meta, BPB, IPB in *.
  assert (0 <= sb_ninodes sb / 16) by (apply Z.div_pos; lia). assert (0 <= sb_size sb / 8192) by (Z.div_mod_to_equations; lia).
  apply andb_false_iff. right. apply Z.ltb_ge. lia.
Qed.

Lemma data_not_log k sb b : layout k sb -> data_block k sb b -> is_log k b = false.
Proof. intros Hl (D1 & D2 & D3 & D4). by apply (layout_above k sb); [..|lia]. Qed.

(** *** Writing data blocks *)

Lemma used_put k sb b d y : ~ bitmap sb b -> 0 <= y < sb_size sb -> used (put_logged k b d) sb y = used k sb y.
Proof. intros Hb Hy. unfold used. rewrite kget_put_logged, decide_False; [done|]. intros E. apply Hb. by exists y. Qed.

Lemma layout_put k sb b d : layout k sb -> ~ bitmap sb b -> layout (put_logged k b d) sb.
Proof.
  intros [L1 L2 L3 L4 L5 L6] Hb. split; auto.
  - intros y Hy. rewrite used_put; auto. unfold meta in Hy. lia.
  - intros y Hy. rewrite kget_put_logged, decide_False; [auto|]. intros E. apply Hb. by exists y.
Qed.

Lemma data_not_bitmap k sb b : layout k sb -> data_block k sb b -> ~ bitmap sb b.
Proof. intros Hl (_ & _ & Hm & _) Hb. by apply Hm, (bitmap_meta k sb). Qed.

(** *** Taking a free block *)

Lemma allocated_keep k sb r b : layout k sb -> first_free k sb r -> used k sb b = true -> ~ bitmap sb b -> kget (allocated k sb r) b = kget k b.
Proof.
  intros Hl Hf Hu Hb. rewrite allocated_get by done. destruct Hf as (Hr & Hru & _). rewrite decide_False by congruence.
  rewrite decide_False; [done|]. intros E. apply Hb. by exists r.
Qed.

Lemma allocated_clean k sb r : clean_store k -> clean_store (allocated k sb r).
Proof. intros Hc. by apply clean_put, clean_put. Qed.

Lemma allocated_zero k sb r : kget (allocated k sb r) r = zero_block.
Proof. unfold allocated. by rewrite kget_put_logged, decide_True. Qed.

Lemma get32_zero o : get32 zero_block o = 0.
Proof. unfold get32. cbn [get_le]. by rewrite !byte_at_zero. Qed.

Definition set_addr (j r : Z) x : inode := set_i_addrs (<[Z.to_nat j := r]> (i_addrs x)) x.

Lemma alloc_addr k sb x j r :
  layout k sb -> clean_store k -> slots_ok k sb x -> first_free k sb r -> 0 <= j < 13 -> slot k x j = 0 ->
  evolves sb k x (allocated k sb r) (set_addr j r x) /\ same_file k x (allocated k sb r) (set_addr j r x).
Proof.
  intros Hl Hc Hs Hf Hj Ej. pose proof (sk_len _ _ _ Hs) as Hlen. apply (fresh_slot sb k x _ _ j r); auto using allocated_layout, allocated_clean, allocated_zero.
  - unfold in_slots. lia.
  - cbn. by rewrite length_insert.
  - intros i Hi. destruct (decide (i < 13)) as [Hi13|Hi13].
    + rewrite !slot_direct by (unfold in_slots in *; lia). cbn [set_addr set_i_addrs i_addrs]. destruct (Z.eqb_spec i j) as [->|Hne].
      * by rewrite list_lookup_total_insert_eq by lia.
      * by rewrite list_lookup_total_insert_ne by (unfold in_slots in *; lia).
    + rewrite (proj2 (Z.eqb_neq i j)) by lia. unfold slot. rewrite (proj2 (Z.ltb_ge _ _)) by lia. cbn [set_addr set_i_addrs i_addrs].
      destruct (decide (j = 12)) as [->|Hne].
      * rewrite list_lookup_total_insert_eq by lia. rewrite slot12 in Ej. unfold iaddr in Ej. rewrite Ej. cbn [Z.eqb].
        rewrite allocated_zero, get32_zero. by destruct (r =? 0).
      * rewrite list_lookup_total_insert_ne by lia. fold (iaddr x). destruct (Z.eqb_spec (iaddr x) 0); [done|].
        destruct (sk_data _ _ _ Hs 12) as (D1 & D2 & D3 & D4); [done|done|]. rewrite slot12 in *. rewrite allocated_keep; auto. by intros ?%(bitmap_meta k sb).
  - intros b Hb. by apply allocated_used.
  - intros b Hb Hu Hm _. by apply allocated_keep.
  - intros Hn. destruct (sk_data _ _ _ Hs 12) as (D1 & D2 & D3 & D4); [done|done|]. rewrite allocated_keep; auto. by intros ?%(bitmap_meta k sb).
Qed.

Definition ind_put k x (j r : Z) : block := put32 (kget k (iaddr x)) (4 * (j - 13)) r.

Lemma get_put32 d o o' v : length d = 1024%nat -> 0 <= o -> o + 4 <= 1024 -> 0 <= o' -> o mod 4 = 0 -> o' mod 4 = 0 -> 0 <= v < 2 ^ 32 ->
  get32 (put32 d o v) o' = if o' =? o then v else get32 d o'.
Proof.
  intros Hd Ho Ho4 Ho' Hm Hm' Hv. unfold get32, put32. destruct (Z.eqb_spec o' o) as [->|Hne].
  - rewrite get_put_le_eq by lia. change (256 ^ Z.of_nat 4) with (2 ^ 32). by apply Z.mod_small.
  - apply get_put_le_ne; try lia. Z.div_mod_to_equations. lia.
Qed.

Lemma alloc_ind k sb x j r :
  layout k sb -> clean_store k -> slots_ok k sb x -> first_free k sb r -> 13 <= j < 269 -> slot k x j = 0 -> iaddr x <> 0 ->
  let k1 := put_logged (allocated k sb r) (iaddr x) (ind_put k x j r) in evolves sb k x k1 x /\ same_file k x k1 x.
Proof.
  intros Hl Hc Hs Hf Hj Ej Hia. pose proof (sk_len _ _ _ Hs) as Hlen. pose proof (sk_data _ _ _ Hs 12 ltac:(done) Hia) as Hda. rewrite slot12 in Hda.
  pose proof (data_not_bitmap _ _ _ Hl Hda) as Hnb. pose proof Hda as (D1 & D2 & D3 & D4). pose proof Hf as (Hr & Hru & _).
  assert (Hne : r <> iaddr x) by congruence. pose proof (ly_small _ _ Hl) as Hsm.
  cbv zeta. apply (fresh_slot sb k x _ _ j r); auto using layout_put, allocated_layout, clean_put, allocated_clean, set_addrs_id.
  - unfold in_slots. lia.
  - intros i Hi. unfold in_slots in Hi. destruct (decide (i < 13)) as [Hi13|Hi13].
    + rewrite !slot_direct, (proj2 (Z.eqb_neq i j)) by lia. done.
    + rewrite !slot_indirect by (done || lia). rewrite kget_put_logged, decide_True by done. unfold ind_put.
      rewrite get_put32; [|done|lia|lia|lia|Z.div_mod_to_equations; lia|Z.div_mod_to_equations; lia|lia]. by destruct (Z.eqb_spec i j), (Z.eqb_spec (4 * (i - 13)) (4 * (j - 13))); try lia.
  - intros b Hb. rewrite used_put by done. by apply allocated_used.
  - intros b Hb Hu Hm Hx. rewrite kget_put_logged. case_decide as E; [|by apply allocated_keep]. exfalso. apply Hia. rewrite <- E. by apply Hx.
  - intros _. rewrite slot12, kget_put_logged, decide_True by done. unfold ind_put, put32. by rewrite length_put_le.
  - by rewrite kget_put_logged, decide_False, allocated_zero by done.
Qed.

(** *** The log space an inode needs: its indirect block, and [n] more. *)

Definition ia_set x : gset Z := if iaddr x =? 0 then ∅ else {[iaddr x]}.
Definition ibudget k x (B : gset Z) (n : nat) : Prop := budget k (B ∪ ia_set x) (n + if iaddr x =? 0 then 1 else 0).

Lemma budget_absorb k B n b : b ∈ k_txn k -> budget k B n -> budget k (B ∪ {[b]}) n.
Proof.
  intros Hb (H1 & H2 & H3 & H4). split_and!; auto. replace (list_to_set (k_txn k) ∪ (B ∪ {[b]})) with (list_to_set (k_txn k) ∪ B : gset Z); [done|]. set_solver.
Qed.

Lemma bitmap_in_union sb B C : bitmap_in sb B -> bitmap_in sb (B ∪ C).
Proof. intros HB b Hb. apply elem_of_union_l. by apply HB. Qed.

Lemma budget_allocated k sb B n r : 0 <= r < sb_size sb -> bitmap_in sb B -> budget k B (Datatypes.S n) -> budget (allocated k sb r) B n /\ r ∈ k_txn (allocated k sb r).
Proof.
  intros Hr HB Hb. pose proof (budget_put_in k B (Datatypes.S n) _ (mark_bit (kget k (BBLOCK r sb)) (r mod BPB)) Hb (HB r Hr)) as Hb1. split; [by apply budget_put|].
  apply put_logged_txn; [by destruct Hb1|]. by left.
Qed.

Lemma ibudget_addr k sb x B n j r :
  length (i_addrs x) = 13%nat -> 0 <= r < sb_size sb -> r <> 0 -> bitmap_in sb B -> 0 <= j < 12 -> ibudget k x B (Datatypes.S n) -> ibudget (allocated k sb r) (set_addr j r x) B n.
Proof.
  intros Hl Hr Hr0 HB Hj Hb. assert (E : iaddr (set_addr j r x) = iaddr x) by (unfold iaddr; cbn; by rewrite list_lookup_total_insert_ne by lia).
  unfold ibudget, ia_set in *. rewrite E. by apply budget_allocated; [done|apply bitmap_in_union|].
Qed.

Lemma ibudget_ia k sb x B n r :
  length (i_addrs x) = 13%nat -> 0 <= r < sb_size sb -> r <> 0 -> bitmap_in sb B -> iaddr x = 0 -> ibudget k x B n -> ibudget (allocated k sb r) (set_addr 12 r x) B n.
Proof.
  intros Hl Hr Hr0 HB Hia Hb. assert (E : iaddr (set_addr 12 r x) = r) by (unfold iaddr; cbn; by rewrite list_lookup_total_insert_eq by lia).
  unfold ibudget, ia_set in *. rewrite E, (proj2 (Z.eqb_neq _ _)), Nat.add_0_r by done. rewrite Hia in Hb. cbn [Z.eqb] in Hb. rewrite union_empty_r_L, Nat.add_1_r in Hb.
  destruct (budget_allocated k sb B n r) as [H1' H2']; auto. by apply budget_absorb.
Qed.

Lemma ibudget_ind k sb x B n j r :
  0 <= r < sb_size sb -> bitmap_in sb B -> iaddr x <> 0 -> ibudget k x B (Datatypes.S n) -> ibudget (put_logged (allocated k sb r) (iaddr x) (ind_put k x j r)) x B n.
Proof.
  intros Hr HB Hia Hb. unfold ibudget in *. apply budget_put_in; [by apply budget_allocated; [|apply bitmap_in_union|]|].
  apply elem_of_union_r. unfold ia_set. rewrite (proj2 (Z.eqb_neq _ _)) by done. set_solver.
Qed.

(** A block that is there. *)
Lemma bmap_mapped t ip k x bn sb :
  valid_ip t ip -> layout k sb -> clean_store k -> k_held k = ∅ -> (size (cached k) < 30)%nat -> slots_ok k sb x -> 0 <= bn < 268 -> fblock k x bn <> 0 ->
  bmap ip bn (with_ino t ip k x) = Ok (fblock k x bn, with_ino t ip k x).
Proof.
  intros Hv Hl Hc Hh Hs Hk Hb Hn. unfold bmap. rewrite geti_ino by done. unfold fblock, bslot in *. unfold NDIRECT, NINDIRECT. destruct (Z.ltb_spec bn 12) as [Hd|Hd].
  - rewrite slot_direct in * by lia. by rewrite (proj2 (Z.eqb_neq _ _)) by done.
  - rewrite (proj2 (Z.ltb_lt _ _)) by lia. change (Z.to_nat 12) with 12%nat. fold (iaddr x).
    assert (Hia : iaddr x <> 0) by (intros E; apply Hn; unfold slot; rewrite (proj2 (Z.ltb_ge _ _)) by lia; fold (iaddr x); by rewrite E).
    rewrite slot_indirect in * by (done || lia). replace (4 * (bn + 1 - 13)) with (4 * (bn - 12)) in * by lia.
    rewrite (proj2 (Z.eqb_neq _ _)) by done. rewrite bind_run, ret_run. rewrite (proj2 (Z.eqb_neq _ _)) by done.
    assert (Hda : data_block k sb (iaddr x)) by (apply (sk_data _ _ _ Hk 12); done).
    assert (Hcr : can_read (f_blk (with_ino t ip k x)) (iaddr x)).
    { split; [by eapply data_not_log|]. cbn. rewrite Hh. split; [set_solver|by right]. }
    rewrite read_data by done. cbn [f_blk with_ino]. rewrite (proj2 (Z.eqb_neq _ _)) by done. rewrite bind_run, ret_run.
    rewrite (relse_held (iaddr x) (mret _) (with_ino t ip k x)); [done|cbn; rewrite Hh; set_solver|apply Hc].
Qed.


(** *** Allocating on demand *)

Definition full k sb : Prop := forall b, 0 <= b < sb_size sb -> used k sb b = true.

Record ready (sb : superblock) k x (B : gset Z) (n : nat) : Prop := {
  rd_layout : layout k sb;
  rd_clean : clean_store k;
  rd_held : k_held k = ∅;
  rd_slots : slots_ok k sb x;
  rd_budget : ibudget k x B n;
  rd_bitmap : bitmap_in sb B;
}.

Lemma ready_evolves sb k x k' x' B n m : ready sb k x B n -> evolves sb k x k' x' -> ibudget k' x' B m -> ready sb k' x' B m.
Proof. intros [R1 R2 R3 R4 R5 R6] [E1 E2 E3 E4 E5 E6 E7 E8 E9] Hb. split; auto. by rewrite E4. Qed.

Lemma ready_le sb k x B n m : (m <= n)%nat -> ready sb k x B n -> ready sb k x B m.
Proof. intros Hm [R1 R2 R3 R4 R5 R6]. split; auto. eapply budget_le; [|exact R5]. lia. Qed.

Lemma balloc_ino t ip k x sb B n :
  f_sb t = sb -> layout k sb -> clean_store k -> held_data k sb -> (size (k_held k) <= 1)%nat -> budget k B (Datatypes.S n) -> bitmap_in sb B ->
  exists r, balloc (with_ino t ip k x) = Ok (r, with_ino t ip (if r =? 0 then k else allocated k sb r) x) /\ (r = 0 /\ full k sb \/ r <> 0 /\ first_free k sb r).
Proof.
  intros <- Hl Hc Hh Hs Hb HB. destruct (balloc_run (with_ino t ip k x) B n Hl Hc Hh Hs Hb HB) as (r & t' & E & Hr). cbn [f_blk f_sb with_ino] in Hr.
  exists r. destruct Hr as [[Hf ->]|(-> & -> & Hfull)].
  - pose proof (free_nonzero _ _ _ Hl Hf) as Hr0. rewrite (proj2 (Z.eqb_neq _ _) Hr0). split; [exact E|by right].
  - split; [exact E|]. by left.
Qed.

(** The state of the store after bmap of block [bn], whose address is [r]. *)
Definition bmapped (sb : superblock) k x (B : gset Z) (n : nat) (bn r : Z) k' x' : Prop :=
  evolves sb k x k' x' /\ same_file k x k' x' /\ ready sb k' x' B n /\ r = fblock k' x' bn /\ (r = 0 -> full k' sb) /\
  (fblock k x bn = 0 -> r <> 0 -> r ∈ k_txn k').

Lemma bmapped_id sb k x B n bn : ready sb k x B (Datatypes.S n) -> (fblock k x bn = 0 -> full k sb) -> bmapped sb k x B n bn (fblock k x bn) k x.
Proof.
  intros Hr Hf. pose proof Hr as [R1 R2 R3 R4 R5 R6]. split; [by apply evolves_refl|]. split; [by intros ? ?|].
  split; [apply (ready_le _ _ _ _ (Datatypes.S n)); [lia|done]|]. by split_and!.
Qed.

Lemma bmap_direct t ip k x bn sb B n :
  valid_ip t ip -> f_sb t = sb -> ready sb k x B (Datatypes.S n) -> 0 <= bn < 12 ->
  exists r k' x', bmap ip bn (with_ino t ip k x) = Ok (r, with_ino t ip k' x') /\ bmapped sb k x B n bn r k' x'.
Proof.
  intros Hv Esb Hrd Hb. pose proof Hrd as [R1 R2 R3 R4 R5 R6].
  assert (Efb : forall k x, fblock k x bn = i_addrs x !!! Z.to_nat bn) by (intros; unfold fblock, bslot; rewrite (proj2 (Z.ltb_lt bn 12)), slot_direct by lia; done).
  destruct (decide (fblock k x bn = 0)) as [E0|E0].
  - unfold bmap. rewrite geti_ino by done. unfold NDIRECT. rewrite (proj2 (Z.ltb_lt _ _)) by lia. rewrite <- (Efb k), E0. cbn [Z.eqb].
    destruct (balloc_ino t ip k x sb (B ∪ ia_set x) (n + if iaddr x =? 0 then 1 else 0)) as (r & E & Hr); auto using bitmap_in_union.
    { intros b. rewrite R3. set_solver. } { rewrite R3, size_empty. lia. }
    rewrite (bind_Ok _ _ _ _ _ E). destruct Hr as [[-> Hfull]|[Hr0 Hf]]; cbn [Z.eqb].
    + exists 0, k, x. split; [done|]. rewrite <- E0 at 1. by apply bmapped_id.
    + rewrite (proj2 (Z.eqb_neq _ _) Hr0). rewrite (bind_Ok _ _ _ _ _ (updi_ino t ip _ x _ Hv)). eexists r, _, _. split; [reflexivity|].
      fold (set_addr bn r x). destruct (alloc_addr k sb x bn r) as [Hev Hsf]; auto; [lia|by rewrite slot_direct, <- (Efb k) by lia|]. destruct Hf as (Hrr & _).
      pose proof (sk_len _ _ _ R4). split_and!; auto; [|rewrite Efb; cbn; by rewrite list_lookup_total_insert_eq by lia|done|].
      * eapply ready_evolves; [exact Hrd|exact Hev|]. by apply ibudget_addr.
      * intros _ _. by apply (budget_allocated k sb (B ∪ ia_set x) (n + if iaddr x =? 0 then 1 else 0)); [|apply bitmap_in_union|].
  - exists (fblock k x bn), k, x. split; [|by apply bmapped_id].
    apply (bmap_mapped _ _ _ _ _ sb); auto; [|lia]. eapply budget_read_size; [exact R5|rewrite R3, size_empty; lia].
Qed.


(** An entry of the indirect block at [addr]. *)
Definition bmap_entry (addr bn : Z) : M (fs blk U) Z :=
  blk_op (bl_read addr);;
  d ← blk_op (bl_data addr);
  let a := get32 d (4 * bn) in
  r ← (if a =? 0 then
         a ← balloc;
         (if negb (a =? 0) then
            blk_op (bl_set addr (put32 d (4 * bn) a));;
            blk_op (bl_log addr)
          else mret tt);;
         mret a
       else mret a);
  blk_op (bl_relse addr);;
  mret r.

Lemma hold_allocated k sb r b : allocated (hold b k) sb r = hold b (allocated k sb r).
Proof. done. Qed.

Lemma layout_hold k sb b : layout k sb -> layout (hold b k) sb.
Proof. intros [L1 L2 L3 L4 L5 L6]. by split. Qed.

Lemma clean_hold k b : clean_store k -> clean_store (hold b k).
Proof. done. Qed.

Lemma bmap_entry_run t ip k x bn sb B n :
  valid_ip t ip -> f_sb t = sb -> ready sb k x B (Datatypes.S n) -> 12 <= bn < 268 -> iaddr x <> 0 ->
  exists r k' x', bmap_entry (iaddr x) (bn - 12) (with_ino t ip k x) = Ok (r, with_ino t ip k' x') /\ bmapped sb k x B n bn r k' x'.
Proof.
  intros Hv Esb Hrd Hb Hia. pose proof Hrd as [R1 R2 R3 R4 R5 R6]. set (ia := iaddr x) in *.
  assert (Hda : data_block k sb ia) by (apply (sk_data _ _ _ R4 12); done). pose proof (data_not_bitmap _ _ _ R1 Hda) as Hnb. pose proof Hda as (D1 & D2 & D3 & D4).
  assert (Hnh : ia ∉ k_held k) by (rewrite R3; set_solver). pose proof (ly_small _ _ R1) as Hsm.
  assert (Hcr : can_read (f_blk (with_ino t ip k x)) ia) by (eapply budget_read; [exact R5|cbn; rewrite R3, size_empty; lia|by eapply data_not_log|done]).
  assert (Efb : forall k, fblock k x bn = get32 (kget k ia) (4 * (bn - 12))).
  { intros k0. unfold fblock, bslot. rewrite (proj2 (Z.ltb_ge _ _)), slot_indirect by (done || lia). f_equal. lia. }
  unfold bmap_entry. rewrite read_data by done. rewrite with_blk_ino. cbn [f_blk with_ino]. cbv zeta. rewrite <- Efb.
  destruct (Z.eqb_spec (fblock k x bn) 0) as [E0|E0]; cycle 1.
  { rewrite bind_run, ret_run. rewrite (relse_held ia (mret _) (with_ino t ip k x)) by (done || apply R2). eexists _, k, x. split; [done|]. by apply bmapped_id. }
  destruct (balloc_ino t ip (hold ia k) x sb (B ∪ ia_set x) (n + if iaddr x =? 0 then 1 else 0)) as (r & E & Hr); auto using bitmap_in_union, layout_hold.
  { intros b. cbn. rewrite R3, union_empty_r_L. intros ->%elem_of_singleton. done. } { cbn. rewrite R3, union_empty_r_L, size_singleton. lia. }
  destruct Hr as [[-> Hfull]|[Hr0 Hf]]; cbn [Z.eqb] in E.
  - erewrite bind_Ok; [|rewrite (bind_Ok _ _ _ _ _ E); reflexivity]. rewrite (relse_held ia (mret _) (with_ino t ip k x)) by (done || apply R2).
    exists 0, k, x. split; [done|]. rewrite <- E0 at 1. by apply bmapped_id.
  - rewrite (proj2 (Z.eqb_neq _ _) Hr0), hold_allocated in E. change (first_free (hold ia k) sb r) with (first_free k sb r) in Hf.
    pose proof Hf as (Hrr & Hru & _). destruct (alloc_ind k sb x (bn + 1) r) as [Hev Hsf]; auto; [lia|unfold fblock, bslot in E0; by rewrite (proj2 (Z.ltb_ge _ _)) in E0 by lia|].
    assert (Ep : put32 (kget k ia) (4 * (bn - 12)) r = ind_put k x (bn + 1) r) by (unfold ind_put; do 2 f_equal; lia).
    assert (Hcl : can_log (allocated k sb r) ia).
    { eapply (budget_log _ (B ∪ ia_set x)); [apply budget_allocated; [done|by apply bitmap_in_union|exact R5]|lia]. }
    pose proof (set_log_held ia (ind_put k x (bn + 1) r) (with_ino t ip (allocated k sb r) x) Hnh Hcl) as Esl. rewrite !with_blk_ino in Esl.
    cbn [f_blk with_ino] in Esl. fold ia in Hev, Hsf. set (k2 := put_logged _ _ _) in *.
    erewrite bind_Ok; [|rewrite (bind_Ok _ _ _ _ _ E), (proj2 (Z.eqb_neq _ _) Hr0); cbn [negb]; rewrite Ep, (bind_Ok _ _ _ _ _ Esl); reflexivity].
    rewrite (relse_held ia (mret _) (with_ino t ip k2 x)); [|done|apply (ev_clean _ _ _ _ _ Hev)].
    exists r, k2, x. split; [done|]. split_and!; auto; [|rewrite Efb; unfold k2; rewrite kget_put_logged, decide_True by done; rewrite <- Ep|done|].
    + eapply ready_evolves; [exact Hrd|exact Hev|]. by apply ibudget_ind.
    + rewrite get_put32; [by rewrite Z.eqb_refl|done|lia|lia|lia|Z.div_mod_to_equations; lia|Z.div_mod_to_equations; lia|lia].
    + intros _ _. destruct (budget_allocated k sb (B ∪ ia_set x) (n + if iaddr x =? 0 then 1 else 0) r) as [Hbd Hin]; auto using bitmap_in_union.
      apply put_logged_txn; [by destruct Hbd|by right].
Qed.


Lemma bmapped_trans sb k x k1 x1 B n bn r k' x' :
  evolves sb k x k1 x1 -> same_file k x k1 x1 -> fblock k1 x1 bn = 0 -> bmapped sb k1 x1 B n bn r k' x' -> bmapped sb k x B n bn r k' x'.
Proof. intros He Hs Hz (B1 & B2 & B3 & B4 & B5 & B6). split_and!; auto; [by eapply evolves_trans|by eapply same_file_trans]. Qed.

Lemma bmap_run t ip k x bn sb B n :
  valid_ip t ip -> f_sb t = sb -> ready sb k x B (Datatypes.S n) -> 0 <= bn < 268 ->
  exists r k' x', bmap ip bn (with_ino t ip k x) = Ok (r, with_ino t ip k' x') /\ bmapped sb k x B n bn r k' x'.
Proof.
  intros Hv Esb Hrd Hb. destruct (decide (bn < 12)); [apply bmap_direct; auto; lia|]. pose proof Hrd as [R1 R2 R3 R4 R5 R6].
  unfold bmap. rewrite geti_ino by done. unfold NDIRECT, NINDIRECT. rewrite (proj2 (Z.ltb_ge bn 12)), (proj2 (Z.ltb_lt (bn - 12) 256)) by lia.
  change (Z.to_nat 12) with 12%nat. fold (iaddr x). destruct (Z.eqb_spec (iaddr x) 0) as [E0|E0]; cycle 1.
  { rewrite bind_run, ret_run, (proj2 (Z.eqb_neq _ _) E0). apply bmap_entry_run; auto. lia. }
  destruct (balloc_ino t ip k x sb (B ∪ ia_set x) (Datatypes.S n)) as (r & E & Hr); auto using bitmap_in_union.
  { intros b. rewrite R3. set_solver. } { rewrite R3, size_empty. lia. } { unfold ibudget in R5. rewrite E0, Nat.add_1_r in R5. exact R5. }
  destruct Hr as [[-> Hfull]|[Hr0 Hf]]; cbn [Z.eqb] in E.
  - erewrite bind_Ok; [|rewrite (bind_Ok _ _ _ _ _ E); reflexivity]. cbn [Z.eqb]. exists 0, k, x. split; [done|].
    assert (Ef : fblock k x bn = 0) by (unfold fblock, bslot, slot; rewrite (proj2 (Z.ltb_ge bn 12)), (proj2 (Z.ltb_ge (bn + 1) 13)) by lia; fold (iaddr x); by rewrite E0).
    rewrite <- Ef. by apply bmapped_id.
  - rewrite (proj2 (Z.eqb_neq _ _) Hr0) in E. pose proof Hf as (Hrr & _).
    erewrite bind_Ok; [|rewrite (bind_Ok _ _ _ _ _ E), (proj2 (Z.eqb_neq _ _) Hr0), (bind_Ok _ _ _ _ _ (updi_ino t ip _ x _ Hv)); reflexivity].
    rewrite (proj2 (Z.eqb_neq _ _) Hr0). change (set_i_addrs (<[12%nat := r]> (i_addrs x)) x) with (set_addr 12 r x).
    destruct (alloc_addr k sb x 12 r) as [Hev Hsf]; auto; [lia|]. pose proof (sk_len _ _ _ R4) as Hlen.
    assert (Hia : iaddr (set_addr 12 r x) = r) by (unfold iaddr; cbn; by rewrite list_lookup_total_insert_eq by lia).
    assert (Hrd1 : ready sb (allocated k sb r) (set_addr 12 r x) B (Datatypes.S n)) by (eapply ready_evolves; [exact Hrd|exact Hev|by apply ibudget_ia]).
    destruct (bmap_entry_run t ip _ _ bn sb B n Hv Esb Hrd1) as (r' & k' & x' & E' & Hbm); [lia|by rewrite Hia|]. rewrite Hia in E'.
    exists r', k', x'. split; [exact E'|]. eapply bmapped_trans; eauto.
    unfold fblock, bslot. rewrite (proj2 (Z.ltb_ge bn 12)), slot_indirect by (rewrite ?Hia; done || lia). by rewrite Hia, allocated_zero, get32_zero.
Qed.

End file.
