(* ===== verification/FsIo.v ===== *)
(** readi and writei deliver and store the bytes of a file. *)

From S2P Require Import UserMem Prelude Riscv Bytes Refine Cache Bio Log Blocks Fs FsBlock FsFile.

(** ** Bytes *)

Lemma length_put_bytes d o src : 0 <= o -> o + Z.of_nat (length src) <= Z.of_nat (length d) -> length (put_bytes d o src) = length d.
Proof. intros Ho Hl. unfold put_bytes. rewrite !length_app, length_take, length_drop. lia. Qed.

Lemma byte_at_put_bytes d o src i : 0 <= o -> o + Z.of_nat (length src) <= Z.of_nat (length d) -> 0 <= i ->
  byte_at (put_bytes d o src) i = if (o <=? i) && (i <? o + Z.of_nat (length src)) then byte_at src (i - o) else byte_at d i.
Proof.
  intros Ho Hl Hi. unfold byte_at, put_bytes. destruct (decide (i < o)) as [Hio|Hio].
  { rewrite lookup_app_l by (rewrite length_take; lia). rewrite lookup_take_lt by lia. case_bool; try lia; done. }
  rewrite lookup_app_r by (rewrite length_take; lia). rewrite length_take, Nat.min_l by lia. case_bool; try lia.
  - rewrite lookup_app_l by lia. do 2 f_equal. lia.
  - rewrite lookup_app_r, lookup_drop by lia. do 2 f_equal. lia.
Qed.

Definition file_range (k : blk) (x : inode) (off : Z) (m : nat) : list Z := (fun i => fbyte k x (off + Z.of_nat i)) <$> seq 0 m.

Lemma length_file_range k x off m : length (file_range k x off m) = m.
Proof. unfold file_range. by rewrite length_fmap, length_seq. Qed.

Lemma lookup_file_range k x off m i : (i < m)%nat -> file_range k x off m !! i = Some (fbyte k x (off + Z.of_nat i)).
Proof. intros Hi. unfold file_range. rewrite list_lookup_fmap, lookup_seq_lt by done. done. Qed.

Lemma file_range_app k x off a b : file_range k x off (a + b) = file_range k x off a ++ file_range k x (off + Z.of_nat a) b.
Proof.
  unfold file_range. rewrite seq_app, fmap_app. f_equal. cbn. apply list_eq. intros i. rewrite !list_lookup_fmap.
  destruct (decide (i < b)%nat); [rewrite !lookup_seq_lt by done; cbn; do 2 f_equal; lia|]. by rewrite !lookup_seq_ge by lia.
Qed.

Lemma block_range k x off m :
  0 <= off -> fblock k x (off / 1024) <> 0 -> length (kget k (fblock k x (off / 1024))) = 1024%nat -> Z.of_nat m <= 1024 - off mod 1024 ->
  get_bytes (kget k (fblock k x (off / 1024))) (off mod 1024) m = file_range k x off m.
Proof.
  intros Ho Hn Hl Hm. pose proof (Z.mod_pos_bound off 1024 ltac:(lia)) as Hmod. apply list_eq. intros i. unfold get_bytes.
  destruct (decide (i < m)%nat) as [Hi|Hi].
  - rewrite lookup_take_lt, lookup_drop, lookup_file_range by done. unfold fbyte.
    replace ((off + Z.of_nat i) / 1024) with (off / 1024) by (Z.div_mod_to_equations; lia).
    replace ((off + Z.of_nat i) mod 1024) with (off mod 1024 + Z.of_nat i) by (Z.div_mod_to_equations; lia).
    rewrite (proj2 (Z.eqb_neq _ _)) by done. unfold byte_at. replace (Z.to_nat (off mod 1024 + Z.of_nat i)) with (Z.to_nat (off mod 1024) + i)%nat by lia.
    destruct (lookup_lt_is_Some_2 (kget k (fblock k x (off / 1024))) (Z.to_nat (off mod 1024) + i)) as [c Hc]; [lia|]. by rewrite Hc.
  - rewrite !lookup_ge_None_2; [done|rewrite length_file_range; lia|]. rewrite length_take. lia.
Qed.

(** ** The file's extent *)

(** Every block below the size is there. *)
Definition mapped (k : blk) (x : inode) : Prop :=
  0 <= i_size x <= 274432 /\ forall bn, 0 <= bn -> bn * 1024 < i_size x -> fblock k x bn <> 0.

(** Blocks touched by the bytes [off, off + n). *)
Definition touched (off n : Z) : Z := if n <=? 0 then 0 else (off + n + 1023) / 1024 - off / 1024.

Lemma touched_step off n : 0 <= off -> 0 < n -> let m := Z.min n (1024 - off mod 1024) in touched (off + m) (n - m) = touched off n - 1.
Proof.
  intros Ho Hn. cbv zeta. unfold touched. pose proof (Z.mod_pos_bound off 1024 ltac:(lia)). rewrite (proj2 (Z.leb_gt n 0)) by lia.
  destruct (Z.min_spec n (1024 - off mod 1024)) as [[? ->]|[? ->]].
  - rewrite Z.sub_diag. cbn [Z.leb Z.compare]. Z.div_mod_to_equations. lia.
  - destruct (Z.leb_spec (n - (1024 - off mod 1024)) 0); Z.div_mod_to_equations; lia.
Qed.

Lemma touched_nonneg off n : 0 <= off -> 0 <= touched off n.
Proof. intros Ho. unfold touched. destruct (Z.leb_spec n 0); [lia|]. Z.div_mod_to_equations. lia. Qed.

Section io.
Context {U : Type} `{UserMemOk U}.
Implicit Types (t : fs blk U) (k : blk) (x : inode) (u : U).

Definition set_um u t : fs blk U := mk_fs (f_blk t) u (f_sb t) (f_itable t).

(** The bytes [bs] arrived at [dst] and nothing else changed. *)
Definition delivered (user : bool) u (dst : Z) (bs : list Z) u' : Prop :=
  if user then um_inv u' /\ (forall a, um_writable u' a = um_writable u a) /\
    (forall a, um_byte u' a = if (dst <=? a) && (a <? dst + Z.of_nat (length bs)) then bs !! Z.to_nat (a - dst) else um_byte u a)
  else u' = u.

Lemma delivered_none user u dst : (user = true -> um_inv u) -> delivered user u dst [] u.
Proof. intros Hu. destruct user; cbn; [|done]. split_and!; auto. intros a. cbn. case_bool; try lia; done. Qed.

Lemma delivered_app user u dst a u1 b u2 :
  delivered user u dst a u1 -> delivered user u1 (dst + Z.of_nat (length a)) b u2 -> delivered user u dst (a ++ b) u2.
Proof.
  destruct user; cbn; [|congruence]. intros (A1 & A2 & A3) (B1 & B2 & B3). split; [done|]. split; [intros y; by rewrite B2, A2|].
  intros y. rewrite B3, A3, length_app, Nat2Z.inj_add. destruct (decide (dst <= y < dst + Z.of_nat (length a))) as [Hy|Hy].
  - rewrite (proj2 (Z.leb_gt (dst + _) y)), (proj2 (Z.leb_le dst y)), !(proj2 (Z.ltb_lt y _)) by lia. cbn [andb]. by rewrite lookup_app_l by lia.
  - replace ((dst <=? y) && (y <? dst + Z.of_nat (length a))) with false by (symmetry; case_bool; try lia; done).
    case_bool; try lia; try done. rewrite lookup_app_r by lia. f_equal. lia.
Qed.

Lemma either_copyout_run user dst bs t ip k x u :
  (user = true -> um_inv u /\ 0 <= dst < 2 ^ 64 /\ Forall is_byte bs) ->
  exists r u', either_copyout user dst bs (with_ino (set_um u t) ip k x) = Ok (r, with_ino (set_um u' t) ip k x) /\
    (r = 0 /\ delivered user u dst bs u' \/ r = -1 /\ user = true /\ um_inv u' /\ exists j, 0 <= j < Z.of_nat (length bs) /\ um_writable u (dst + j) = false).
Proof.
  intros Hu. unfold either_copyout. destruct user; [|exists 0, u; split; [done|by left]].
  destruct Hu as (Hi & Hd & Hb); [done|]. destruct (um_copyout_ok u dst bs Hi Hd Hb) as (r & u' & n & E & Hi' & Hw & Hwr & Hby & Hr).
  exists r, u'. split; [unfold um_op; cbn [f_um with_ino set_um]; by rewrite E|].
  destruct Hr as [[-> ->]|(-> & Hn & Hf)]; [by left|right]. split_and!; auto. exists (Z.of_nat n). split; [lia|done].
Qed.

(** ** readi *)

Definition read_pre k sb x : Prop :=
  layout k sb /\ clean_store k /\ k_held k = ∅ /\ (size (cached k) < 30)%nat /\ slots_ok k sb x.

Lemma readi_loop_run ip user k x sb t n fuel : forall tot off dst u out,
  valid_ip t ip -> read_pre k sb x -> 0 <= tot <= n -> 0 <= off -> off + (n - tot) <= 274432 ->
  (forall bn, off / 1024 <= bn -> bn * 1024 < off + (n - tot) -> fblock k x bn <> 0) -> touched off (n - tot) < Z.of_nat fuel ->
  (user = true -> um_inv u /\ 0 <= dst /\ dst + (n - tot) < 2 ^ 64 /\ forall y, off <= y < off + (n - tot) -> is_byte (fbyte k x y)) ->
  exists r u' out', readi_loop fuel ip user tot off dst n out (with_ino (set_um u t) ip k x) = Ok ((r, out'), with_ino (set_um u' t) ip k x) /\
    (r = n /\ out' = out ++ file_range k x off (Z.to_nat (n - tot)) /\ delivered user u dst (file_range k x off (Z.to_nat (n - tot))) u' \/
     r = -1 /\ user = true /\ um_inv u' /\ exists j, 0 <= j < n - tot /\ um_writable u (dst + j) = false).
Proof.
  induction fuel as [|fuel IH]; intros tot off dst u out Hv Hp Ht Ho Hmax Hm Hf Hu; cbn [readi_loop].
  { pose proof (touched_nonneg off (n - tot)). lia. }
  destruct (Z.ltb_spec tot n) as [Hlt|Hge]; cycle 1.
  { assert (n - tot = 0) as -> by lia. exists tot, u, out. split; [done|]. left. split; [lia|]. cbn. rewrite app_nil_r. split; [done|]. apply delivered_none. intros. by apply Hu. }
  unfold BSIZE. pose proof (Z.mod_pos_bound off 1024 ltac:(lia)) as Hmod. destruct Hp as (P1 & P2 & P3 & P4 & P5).
  assert (Hbn : 0 <= off / 1024 < 268) by (Z.div_mod_to_equations; lia). assert (Hfb : fblock k x (off / 1024) <> 0) by (apply Hm; Z.div_mod_to_equations; lia).
  rewrite (bind_Ok _ _ _ _ _ (bmap_mapped (set_um u t) ip k x (off / 1024) sb Hv P1 P2 P3 P4 P5 Hbn Hfb)). rewrite (proj2 (Z.eqb_neq _ _) Hfb).
  set (b := fblock k x (off / 1024)) in *. destruct (bslot_ok _ Hbn) as [Hsl _]. pose proof (sk_data _ _ _ P5 _ Hsl Hfb) as Hd. fold (fblock k x (off / 1024)) in Hd. fold b in Hd.
  assert (Hnh : b ∉ k_held k) by (rewrite P3; set_solver).
  assert (Hcr : can_read (f_blk (with_ino (set_um u t) ip k x)) b) by (split; [by eapply data_not_log|split; [done|by right]]).
  rewrite read_data by done. rewrite with_blk_ino. cbn [f_blk with_ino]. set (m := Z.min (n - tot) (1024 - off mod 1024)) in *.
  assert (Hm0 : 0 < m <= n - tot) by (unfold m; lia).
  assert (Hbr : get_bytes (kget k b) (off mod 1024) (Z.to_nat m) = file_range k x off (Z.to_nat m)) by (apply block_range; [done|done|apply Hd|unfold m; lia]).
  rewrite Hbr. set (bs := file_range k x off (Z.to_nat m)) in *.
  assert (Hlen : Z.of_nat (length bs) = m) by (unfold bs; rewrite length_file_range; lia).
  destruct (either_copyout_run user dst bs t ip (hold b k) x u) as (r & u1 & E & Hr).
  { intros Hus. destruct (Hu Hus) as (U1 & U2 & U3 & U4). split_and!; [done|lia|lia|]. unfold bs, file_range. apply Forall_fmap, Forall_forall. intros i Hi%elem_of_seq. apply U4. lia. }
  rewrite (bind_Ok _ _ _ _ _ E). destruct Hr as [[-> Hdel]|(-> & Hus & Hi & j & Hj & Hw)].
  - cbn [Z.eqb]. rewrite (relse_held b _ (with_ino (set_um u1 t) ip k x)) by (done || apply P2). destruct (IH (tot + m) (off + m) (u64 (dst + m)) u1 (out ++ bs)) as (r' & u' & out' & E' & Hr'); auto; try lia.
    + done.
    + intros bn Hbl Hbu. apply Hm; [|lia]. etransitivity; [|exact Hbl]. apply Z.div_le_mono; lia.
    + replace (n - (tot + m)) with (n - tot - m) by lia. unfold m. rewrite touched_step by lia. lia.
    + intros Hus. destruct (Hu Hus) as (U1 & U2 & U3 & U4). rewrite u64_small by lia. unfold delivered in Hdel. rewrite Hus in Hdel. split_and!; [apply Hdel|lia|lia|]. intros y Hy. apply U4. lia.
    + exists r', u', out'. split; [exact E'|].
      assert (Es : file_range k x off (Z.to_nat (n - tot)) = bs ++ file_range k x (off + m) (Z.to_nat (n - (tot + m)))).
      { replace (Z.to_nat (n - tot)) with (Z.to_nat m + Z.to_nat (n - (tot + m)))%nat by lia. rewrite file_range_app. do 2 f_equal. lia. }
      destruct Hr' as [(-> & -> & Hd')|(-> & Hus & Hi & j & Hj & Hw)]; [left|right].
      * rewrite Es, <- app_assoc. split_and!; auto. eapply delivered_app; [exact Hdel|]. rewrite Hlen. destruct user; [|done]. destruct (Hu eq_refl) as (_ & U2 & U3 & _). by rewrite u64_small in Hd' by lia.
      * split_and!; auto. exists (j + m). split; [lia|]. destruct (Hu Hus) as (_ & U2 & U3 & _). rewrite u64_small in Hw by lia. unfold delivered in Hdel. rewrite Hus in Hdel.
        destruct Hdel as (_ & Hww & _). rewrite <- Hww. by replace (dst + (j + m)) with (dst + m + j) by lia.
  - change (-1 =? -1) with true. cbv iota. rewrite (relse_held b _ (with_ino (set_um u1 t) ip k x)) by (done || apply P2).
    exists (-1), u1, out. split; [done|]. right. split_and!; auto. exists j. split; [lia|done].
Qed.


Lemma u32_wraps off n : 0 <= off < 2 ^ 32 -> 0 <= n < 2 ^ 32 -> (u32 (off + n) <? off) = (2 ^ 32 <=? off + n).
Proof.
  intros Ho Hn. unfold u32. change 4294967296 with (2 ^ 32). destruct (Z.leb_spec (2 ^ 32) (off + n)).
  - apply Z.ltb_lt. replace ((off + n) mod 2 ^ 32) with (off + n - 2 ^ 32); [lia|]. apply Z.mod_unique with 1; lia.
  - apply Z.ltb_ge. rewrite Z.mod_small by lia. lia.
Qed.

(** The number of bytes a read of [n] bytes at [off] gets. *)
Definition read_len x (off n : Z) : Z := if (i_size x <? off) || (2 ^ 32 <=? off + n) then 0 else Z.min n (i_size x - off).

Lemma readi_run ip user k x sb t off n dst u :
  valid_ip t ip -> read_pre k sb x -> mapped k x -> 0 <= off < 2 ^ 32 -> 0 <= n < 2 ^ 32 ->
  (user = true -> um_inv u /\ 0 <= dst /\ dst + n < 2 ^ 64 /\ forall y, 0 <= y < i_size x -> is_byte (fbyte k x y)) ->
  let m := read_len x off n in
  exists r u' out, readi ip user dst off n (with_ino (set_um u t) ip k x) = Ok ((r, out), with_ino (set_um u' t) ip k x) /\
    (r = m /\ out = file_range k x off (Z.to_nat m) /\ delivered user u dst out u' \/
     r = -1 /\ user = true /\ um_inv u' /\ exists j, 0 <= j < m /\ um_writable u (dst + j) = false).
Proof.
  intros Hv Hp [Hsz Hm] Ho Hn Hu m. unfold readi. rewrite geti_ino by done. unfold m, read_len.
  rewrite (u32_wraps off n) by done. destruct (_ || _) eqn:Eb.
  { exists 0, u, []. split; [done|]. left. split; [done|]. split; [done|]. apply delivered_none. intros. by apply Hu. }
  apply orb_false_iff in Eb as [E1 E2]. apply Z.ltb_ge in E1. apply Z.leb_gt in E2. rewrite u32_small by lia.
  replace (if i_size x <? off + n then i_size x - off else n) with (Z.min n (i_size x - off)) by (case_bool; lia). set (n' := Z.min n (i_size x - off)) in *.
  assert (Hn' : 0 <= n' /\ off + n' <= i_size x /\ n' <= n) by (unfold n'; lia).
  destruct (readi_loop_run ip user k x sb t n' (rw_fuel n') 0 off dst u []) as (r & u' & out & E & Hr); auto; try lia.
  - intros bn Hb1 Hb2. apply Hm; [|lia]. etransitivity; [|exact Hb1]. apply Z.div_pos; lia.
  - rewrite Z.sub_0_r. unfold rw_fuel, touched, BSIZE. destruct (Z.leb_spec n' 0); Z.div_mod_to_equations; lia.
  - intros Hus. destruct (Hu Hus) as (U1 & U2 & U3 & U4). split_and!; auto; try lia. intros y Hy. apply U4. lia.
  - rewrite Z.sub_0_r in Hr. exists r, u', out. split; [exact E|]. destruct Hr as [(-> & -> & Hd)|Hr]; [left|right; exact Hr]. by split_and!.
Qed.


(** ** writei *)

Lemma slot_put k sb x b d j i :
  slots_ok k sb x -> in_slots j -> j <> 12 -> slot k x j = b -> b <> 0 -> in_slots i -> slot (put_logged k b d) x i = slot k x i.
Proof.
  intros Hs Hj Hne Hb Hn Hi. unfold slot. destruct (i <? 13); [done|]. fold (iaddr x). destruct (Z.eqb_spec (iaddr x) 0) as [|Hia]; [done|].
  rewrite kget_put_logged, decide_False; [done|]. intros E. apply Hne. apply (sk_inj _ _ _ Hs); [done|done|congruence|]. rewrite slot12. congruence.
Qed.

Lemma write_block k sb x bn d :
  layout k sb -> clean_store k -> slots_ok k sb x -> 0 <= bn < 268 -> fblock k x bn <> 0 -> length d = 1024%nat ->
  let k' := put_logged k (fblock k x bn) d in
  evolves sb k x k' x /\
  forall y, 0 <= y < 274432 -> fbyte k' x y = if y / 1024 =? bn then byte_at d (y mod 1024) else fbyte k x y.
Proof.
  intros Hl Hc Hs Hb Hn Hd. cbv zeta. set (b := fblock k x bn) in *. destruct (bslot_ok bn Hb) as [Hj Hne].
  pose proof (sk_data _ _ _ Hs _ Hj Hn) as Hda. fold (fblock k x bn) in Hda. fold b in Hda. pose proof (data_not_bitmap _ _ _ Hl Hda) as Hnb.
  assert (Esl : forall i, in_slots i -> slot (put_logged k b d) x i = slot k x i) by (intros i Hi; by apply (slot_put k sb x b d (bslot bn))).
  assert (Eo : forall c, owned (put_logged k b d) x c <-> owned k x c) by (intros c; split; intros (i & Hi & E & Hc0); exists i; rewrite Esl in * by done; done).
  split.
  - split; auto using set_addrs_id, layout_put, clean_put.
    + split; [apply Hs| |].
      * intros i Hi. rewrite Esl by done. intros Hi0. destruct (sk_data _ _ _ Hs i Hi Hi0) as (D1 & D2 & D3 & D4).
        split_and!; auto; try lia; [by rewrite used_put by (done || lia)|]. rewrite kget_put_logged. by case_decide.
      * intros i i' Hi Hi'. rewrite !Esl by done. by apply (sk_inj _ _ _ Hs).
    + intros c Hc0. left. by apply Eo.
    + intros c Hc0. rewrite used_put, Eo by done. split; [auto|]. intros [?|?]; [done|]. by eapply owned_used.
    + intros c Hc0 Hu Hno Hbm. rewrite kget_put_logged, decide_False; [done|]. intros ->. apply Hno. by exists (bslot bn).
  - intros y Hy. unfold fbyte, fblock. destruct (bslot_ok (y / 1024)) as [Hj' _]; [Z.div_mod_to_equations; lia|]. rewrite Esl by done.
    destruct (Z.eqb_spec (y / 1024) bn) as [->|Hyn].
    + fold (fblock k x bn). fold b. rewrite (proj2 (Z.eqb_neq _ _)) by done. by rewrite kget_put_logged, decide_True.
    + destruct (Z.eqb_spec (slot k x (bslot (y / 1024))) 0); [done|]. rewrite kget_put_logged, decide_False; [done|]. intros E.
      apply Hyn, bslot_inj. by apply (sk_inj _ _ _ Hs).
Qed.

(** The source of a write holds [data]. *)
Definition source (user : bool) u (src : Z) (kbs : list Z) (data : list Z) : Prop :=
  if user then um_inv u /\ 0 <= src /\ src + Z.of_nat (length data) < 2 ^ 64 /\ forall i c, data !! i = Some c -> um_byte u (src + Z.of_nat i) = Some c
  else take (length data) kbs = data.

Lemma either_copyin_run user src kbs data tot m t ip k x :
  source user (f_um t) src kbs data -> 0 <= tot -> 0 <= m -> tot + m <= Z.of_nat (length data) ->
  either_copyin user (u64 (src + tot)) kbs tot m (with_ino t ip k x) = Ok ((0, get_bytes data tot (Z.to_nat m)), with_ino t ip k x).
Proof.
  intros Hs Ht Hm Hle. unfold either_copyin, source in *. destruct user.
  - destruct Hs as (Hi & Hs0 & Hs64 & Hby). rewrite u64_small by lia.
    destruct (um_copyin_ok (f_um t) (src + tot) m Hi) as (r & bs & E & Hbs & Hr); [lia|lia|].
    assert (Hlt : forall i, (i < Z.to_nat m)%nat -> exists c, data !! (Z.to_nat tot + i)%nat = Some c /\ um_byte (f_um t) (src + tot + Z.of_nat i) = Some c).
    { intros i Hi'. destruct (lookup_lt_is_Some_2 data (Z.to_nat tot + i)) as [c Hc]; [lia|]. exists c. split; [done|]. rewrite <- (Hby _ _ Hc). f_equal. lia. }
    destruct Hr as [[-> Hl]|(-> & Hl & Hnone)]; cycle 1. { destruct (Hlt (length bs)) as (c & _ & Hc); [lia|]. congruence. }
    unfold um_op. cbn [f_um with_ino]. rewrite E. do 3 f_equal. f_equal. unfold get_bytes. apply list_eq. intros i. destruct (decide (i < Z.to_nat m)%nat) as [Hi'|Hi'].
    + rewrite lookup_take_lt, lookup_drop by done. destruct (Hlt i Hi') as (c & Hc & Hu). rewrite Hc.
      destruct (lookup_lt_is_Some_2 bs i) as [c' Hc']; [lia|]. rewrite Hc'. rewrite (Hbs _ _ Hc') in Hu. congruence.
    + rewrite !lookup_ge_None_2; [done|rewrite length_take; lia|lia].
  - assert (Hl : forall j, (j < length data)%nat -> data !! j = kbs !! j) by (intros j Hj; rewrite <- Hs at 1; by apply lookup_take_lt).
    unfold mret, M_ret. do 3 f_equal. unfold get_bytes. apply list_eq. intros i. destruct (decide (i < Z.to_nat m)%nat).
    + rewrite !lookup_take_lt, !lookup_drop by done. symmetry. apply Hl. lia.
    + rewrite !lookup_ge_None_2; [done|rewrite length_take; lia..].
Qed.


Lemma budget_put_txn k B n b d : b ∈ k_txn k -> budget k B n -> budget (put_logged k b d) B n.
Proof. intros Hb (H1' & H2 & H3 & H4). split_and!; cbn; rewrite ?decide_True by done; auto. Qed.

(** The block to write, with room in the log to write it. *)
Lemma map_block t ip k x bn sb B n :
  valid_ip t ip -> f_sb t = sb -> ready sb k x B (Datatypes.S n) -> 0 <= bn < 268 ->
  exists k1 x1, bmap ip bn (with_ino t ip k x) = Ok (fblock k1 x1 bn, with_ino t ip k1 x1) /\
    evolves sb k x k1 x1 /\ same_file k x k1 x1 /\ ready sb k1 x1 B n /\ (fblock k1 x1 bn = 0 -> full k1 sb) /\
    forall d, fblock k1 x1 bn <> 0 -> ibudget (put_logged k1 (fblock k1 x1 bn) d) x1 B n.
Proof.
  intros Hv Esb Hrd Hb. destruct (decide (fblock k x bn = 0)) as [E0|E0].
  - destruct (bmap_run t ip k x bn sb B n Hv Esb Hrd Hb) as (r & k1 & x1 & E & B1 & B2 & B3 & -> & B5 & B6). exists k1, x1. split_and!; auto.
    intros d Hn. apply budget_put_txn; [by apply B6|apply B3].
  - pose proof Hrd as [R1 R2 R3 R4 R5 R6]. exists k, x. split_and!; [|by apply evolves_refl|by intros ? ?|by apply (ready_le _ _ _ _ (Datatypes.S n)); [lia|]|done|].
    + apply (bmap_mapped _ _ _ _ _ sb); auto. eapply budget_read_size; [exact R5|]. rewrite R3, size_empty. lia.
    + intros d _. unfold ibudget in *. by apply budget_put.
Qed.

(** [data] from byte [i] on, [m] bytes of it, over a file at [off]. *)
Definition over (data : list Z) (i off m : Z) (f : Z -> Z) (y : Z) : Z :=
  if (off <=? y) && (y <? off + m) then byte_at data (y - off + i) else f y.

Lemma over_app data i off m m' f y : 0 <= m -> 0 <= m' -> over data (i + m) (off + m) m' (over data i off m f) y = over data i off (m + m') f y.
Proof. intros Hm Hm'. unfold over. case_bool; try lia; try done; f_equal; lia. Qed.

Lemma over_ext data i off m f g y : f y = g y -> over data i off m f y = over data i off m g y.
Proof. intros E. unfold over. by rewrite E. Qed.

Lemma byte_at_get_bytes d o m i : 0 <= o -> 0 <= i < Z.of_nat m -> byte_at (get_bytes d o m) i = byte_at d (o + i).
Proof. intros Ho Hi. unfold byte_at, get_bytes. rewrite lookup_take_lt, lookup_drop by lia. do 2 f_equal. lia. Qed.

(** The file after a chunk was stored in its block. *)
Lemma write_chunk k sb x off data tot m :
  layout k sb -> clean_store k -> slots_ok k sb x -> 0 <= off < 274432 -> fblock k x (off / 1024) <> 0 ->
  0 <= tot -> 0 < m <= 1024 - off mod 1024 -> tot + m <= Z.of_nat (length data) ->
  let d := put_bytes (kget k (fblock k x (off / 1024))) (off mod 1024) (get_bytes data tot (Z.to_nat m)) in
  let k' := put_logged k (fblock k x (off / 1024)) d in
  evolves sb k x k' x /\ forall y, 0 <= y < 274432 -> fbyte k' x y = over data tot off m (fbyte k x) y.
Proof.
  intros Hl Hc Hs Ho Hn Ht Hm Hle. cbv zeta. pose proof (Z.mod_pos_bound off 1024 ltac:(lia)) as Hmod.
  assert (Hbn : 0 <= off / 1024 < 268) by (Z.div_mod_to_equations; lia). destruct (bslot_ok _ Hbn) as [Hj _].
  destruct (sk_data _ _ _ Hs _ Hj Hn) as (_ & _ & _ & Hlen). fold (fblock k x (off / 1024)) in Hlen.
  assert (Hgl : Z.of_nat (length (get_bytes data tot (Z.to_nat m))) = m) by (unfold get_bytes; rewrite length_take, length_drop; lia).
  set (d := put_bytes _ _ _). assert (Hd : length d = 1024%nat) by (unfold d; rewrite length_put_bytes; lia).
  destruct (write_block k sb x (off / 1024) d Hl Hc Hs Hbn Hn Hd) as [Hev Hby]. split; [done|]. intros y Hy. rewrite Hby by done. unfold over.
  destruct (Z.eqb_spec (y / 1024) (off / 1024)) as [E|E].
  - pose proof (Z.mod_pos_bound y 1024 ltac:(lia)). unfold d. rewrite byte_at_put_bytes by lia. rewrite Hgl.
    destruct (decide (off <= y < off + m)) as [Hin|Hout].
    + rewrite (proj2 (Z.leb_le (off mod 1024) _)), (proj2 (Z.ltb_lt (y mod 1024) _)), (proj2 (Z.leb_le off y)), (proj2 (Z.ltb_lt y _)) by (Z.div_mod_to_equations; lia). cbn [andb].
      rewrite byte_at_get_bytes by (Z.div_mod_to_equations; lia). f_equal. Z.div_mod_to_equations. lia.
    + replace ((off mod 1024 <=? y mod 1024) && (y mod 1024 <? off mod 1024 + m)) with false by (symmetry; case_bool; try done; Z.div_mod_to_equations; lia).
      replace ((off <=? y) && (y <? off + m)) with false by (symmetry; case_bool; try done; lia). unfold fbyte. rewrite E. by rewrite (proj2 (Z.eqb_neq _ _)).
  - replace ((off <=? y) && (y <? off + m)) with false; [done|]. symmetry. case_bool; try done. exfalso. Z.div_mod_to_equations. lia.
Qed.


Lemma evolves_fblock sb k x k' x' bn : evolves sb k x k' x' -> 0 <= bn < 268 -> fblock k x bn <> 0 -> fblock k' x' bn <> 0.
Proof. intros He Hb Hn. unfold fblock in *. by rewrite (ev_mono _ _ _ _ _ He) by (done || apply bslot_ok; lia). Qed.

Lemma full_evolves sb k x k' x' : evolves sb k x k' x' -> full k sb -> full k' sb.
Proof. intros He Hf b Hb. apply (ev_used _ _ _ _ _ He); auto. Qed.

(** [r] bytes of [data] were written from [off] on. *)
Record stored (sb : superblock) (B : gset Z) (data : list Z) (tot off : Z) k x (r : Z) k' x' : Prop := {
  st_range : tot <= r <= Z.of_nat (length data);
  st_evolves : evolves sb k x k' x';
  st_ready : ready sb k' x' B 0;
  st_short : r = Z.of_nat (length data) \/ full k' sb;
  st_block : r = Z.of_nat (length data) \/ r = tot \/ (off + (r - tot)) mod 1024 = 0;
  st_bytes : forall y, 0 <= y < 274432 -> fbyte k' x' y = over data tot off (r - tot) (fbyte k x) y;
  st_there : tot < r -> forall bn, off / 1024 <= bn -> bn * 1024 < off + (r - tot) -> fblock k' x' bn <> 0;
}.

Lemma stored_none sb B data tot off k x n k' x' :
  0 <= tot <= Z.of_nat (length data) -> 0 <= off -> evolves sb k x k' x' -> same_file k x k' x' -> ready sb k' x' B n ->
  tot = Z.of_nat (length data) \/ full k' sb -> stored sb B data tot off k x tot k' x'.
Proof.
  intros Ht Ho He Hs Hr Hf. split; auto; [lia|apply (ready_le _ _ _ _ n); [lia|done]| |].
  - intros y Hy. rewrite Z.sub_diag, Hs by done. unfold over. case_bool; try lia; done.
  - lia.
Qed.

Lemma writei_loop_run ip user kbs src sb B data t fuel : forall tot off k x n,
  valid_ip t ip -> f_sb t = sb -> source user (f_um t) src kbs data -> 0 <= tot <= Z.of_nat (length data) -> 0 <= off ->
  off + (Z.of_nat (length data) - tot) <= 274432 -> ready sb k x B n -> touched off (Z.of_nat (length data) - tot) <= Z.of_nat n ->
  touched off (Z.of_nat (length data) - tot) < Z.of_nat fuel ->
  exists r k' x', writei_loop fuel ip user kbs tot off (u64 (src + tot)) (Z.of_nat (length data)) (with_ino t ip k x) = Ok ((r, off + (r - tot)), with_ino t ip k' x') /\
    stored sb B data tot off k x r k' x'.
Proof.
  set (len := Z.of_nat (length data)). assert (El : len = Z.of_nat (length data)) by done. clearbody len. induction fuel as [|fuel IH]; intros tot off k x n Hv Esb Hsrc Ht Ho Hmax Hrd Hn Hf; cbn [writei_loop].
  { pose proof (touched_nonneg off (len - tot)). lia. }
  pose proof Hrd as [R1 R2 R3 R4 R5 R6]. destruct (Z.ltb_spec tot len) as [Hlt|Hge]; cycle 1.
  { exists tot, k, x. rewrite Z.sub_diag, Z.add_0_r. split; [done|]. apply (stored_none _ _ _ _ _ _ _ n); [lia|done|by apply evolves_refl|by intros ? ?|done|left; lia]. }
  unfold BSIZE. pose proof (Z.mod_pos_bound off 1024 ltac:(lia)) as Hmod. assert (Hbn : 0 <= off / 1024 < 268) by (Z.div_mod_to_equations; lia).
  assert (Hn1 : (1 <= n)%nat). { unfold touched in Hn. rewrite (proj2 (Z.leb_gt _ _)) in Hn by lia. Z.div_mod_to_equations. lia. }
  destruct n as [|n]; [lia|]. destruct (map_block t ip k x (off / 1024) sb B n Hv Esb Hrd Hbn) as (k1 & x1 & E & He & Hs & Hrd1 & Hfull & Hbud).
  rewrite (bind_Ok _ _ _ _ _ E). destruct (Z.eqb_spec (fblock k1 x1 (off / 1024)) 0) as [E0|E0].
  { exists tot, k1, x1. rewrite Z.sub_diag, Z.add_0_r. split; [done|]. apply (stored_none _ _ _ _ _ _ _ n); auto. lia. }
  clear R1 R2 R3 R4 R5. pose proof Hrd1 as [R1 R2 R3 R4 R5 _]. set (b := fblock k1 x1 (off / 1024)) in *. destruct (bslot_ok _ Hbn) as [Hj _].
  pose proof (sk_data _ _ _ R4 _ Hj E0) as Hd. fold (fblock k1 x1 (off / 1024)) in Hd. fold b in Hd. pose proof Hd as (D1 & D2 & D3 & D4).
  assert (Hnh : b ∉ k_held k1) by (rewrite R3; set_solver). pose proof (ly_small _ _ R1) as Hsm.
  rewrite read_data by (eapply budget_read; [exact R5|cbn; rewrite R3, size_empty; lia|by eapply data_not_log|done]).
  rewrite with_blk_ino. cbn [f_blk with_ino]. set (m := Z.min (len - tot) (1024 - off mod 1024)). assert (Hm : 0 < m <= len - tot /\ m <= 1024 - off mod 1024) by (unfold m; lia).
  rewrite (bind_Ok _ _ _ _ _ (either_copyin_run user src kbs data tot m t ip (hold b k1) x1 Hsrc ltac:(lia) ltac:(lia) ltac:(lia))). cbn [fst snd Z.eqb].
  set (d := put_bytes _ _ _). rewrite <- (with_blk_ino t ip k1 (hold b k1) x1).
  rewrite (write_held b d _ (with_ino t ip k1 x1)) by (done || (eapply budget_log; [exact R5|lia])). rewrite with_blk_ino. cbn [f_blk with_ino].
  destruct (write_chunk k1 sb x1 off data tot m R1 R2 R4) as [He2 Hby2]; [lia|done|lia|lia|lia|]. fold b in He2, Hby2. fold d in He2, Hby2. set (k2 := put_logged k1 b d) in *.
  assert (Hrd2 : ready sb k2 x1 B n) by (eapply ready_evolves; [exact Hrd1|exact He2|by apply Hbud]).
  replace (u64 (u64 (src + tot) + m)) with (u64 (src + (tot + m))) by (unfold u64; rewrite Zplus_mod_idemp_l; f_equal; lia).
  pose proof (touched_step off (len - tot) Ho ltac:(lia)) as Hts. fold m in Hts. cbv zeta in Hts.
  destruct (IH (tot + m) (off + m) k2 x1 n) as (r & k' & x' & E' & [S1 S2 S3 S4 Sb S5 S6]); auto; try lia; try (replace (len - (tot + m)) with (len - tot - m) by lia; lia).
  exists r, k', x'. split; [rewrite E'; do 3 f_equal; lia|]. split; auto; [lia| | | |].
  - eapply evolves_trans; [exact He|]. by eapply evolves_trans.
  - rewrite <- El. destruct Sb as [?|[->|Sb]]; [left; lia| |right; right; rewrite <- Sb; f_equal; lia]. destruct (decide (m = len - tot)); [left; lia|].
    assert (m = 1024 - off mod 1024) as -> by (unfold m in *; lia). right. right. Z.div_mod_to_equations. lia.
  - intros y Hy. rewrite S5 by done. transitivity (over data (tot + m) (off + m) (r - (tot + m)) (over data tot off m (fbyte k x)) y).
    + apply over_ext. rewrite Hby2 by done. apply over_ext. by apply Hs.
    + rewrite over_app by (lia). f_equal. lia.
  - intros _ bn H1' H2. destruct (decide (bn = off / 1024)) as [->|Hbne].
    + apply (evolves_fblock _ _ _ _ _ _ S2); [done|]. by apply (evolves_fblock _ _ _ _ _ _ He2).
    + assert (Hge : off / 1024 + 1 <= bn) by lia. apply S6; [| |lia]; Z.div_mod_to_equations; lia.
Qed.


(** ** iupdate *)

Lemma inode_block_in k sb i : layout k sb -> 0 <= i < sb_ninodes sb -> 0 <= IBLOCK i sb < sb_size sb.
Proof.
  intros [_ _ (L3 & L4 & L5 & L6 & L7 & L8) L9 _ _] Hi. unfold IBLOCK, IPB, BPB in *.
  assert (Hd : 0 <= i / 16 <= sb_ninodes sb / 16) by (split; [apply Z.div_pos; lia|apply Z.div_le_mono; lia]). assert (0 <= sb_size sb / 8192) by (Z.div_mod_to_equations; lia). lia.
Qed.

Lemma inode_block k sb i : layout k sb -> 0 <= i < sb_ninodes sb ->
  is_log k (IBLOCK i sb) = false /\ meta sb (IBLOCK i sb) /\ ~ bitmap sb (IBLOCK i sb) /\ 0 <= IBLOCK i sb < 2147483648.
Proof.
  intros [L1 L2 (L3 & L4 & L5 & L6 & L7 & L8) L9 _ _] Hi. unfold IBLOCK, meta, IPB, BPB in *.
  assert (Hd : 0 <= i / 16 <= sb_ninodes sb / 16) by (split; [apply Z.div_pos; lia|apply Z.div_le_mono; lia]). assert (0 <= sb_size sb / 8192) by (Z.div_mod_to_equations; lia).
  split_and!; try lia.
  - unfold is_log. rewrite L1, L2. apply andb_false_iff. right. apply Z.ltb_ge. lia.
  - intros (y & Hy & E). unfold BBLOCK, BPB in E. assert (0 <= y / 8192) by (apply Z.div_pos; lia). lia.
Qed.

(** A write of a block that holds neither data nor the bitmap. *)
Lemma meta_put k sb x b d :
  layout k sb -> clean_store k -> slots_ok k sb x -> meta sb b -> ~ bitmap sb b ->
  let k' := put_logged k b d in
  layout k' sb /\ clean_store k' /\ slots_ok k' sb x /\ (forall j, in_slots j -> slot k' x j = slot k x j) /\ same_file k x k' x.
Proof.
  intros Hl Hc Hs Hm Hb. cbv zeta. assert (Hk : forall c, data_block k sb c -> kget (put_logged k b d) c = kget k c).
  { intros c (_ & _ & Hc0 & _). rewrite kget_put_logged, decide_False; [done|]. by intros ->. }
  assert (Esl : forall j, in_slots j -> slot (put_logged k b d) x j = slot k x j).
  { intros j Hj. unfold slot. destruct (j <? 13); [done|]. fold (iaddr x). destruct (Z.eqb_spec (iaddr x) 0); [done|]. rewrite Hk; [done|]. by apply (sk_data _ _ _ Hs 12). }
  split_and!; auto using layout_put, clean_put.
  - split; [apply Hs| |intros i j Hi Hj; rewrite !Esl by done; by apply (sk_inj _ _ _ Hs)].
    intros j Hj. rewrite Esl by done. intros Hn. pose proof (sk_data _ _ _ Hs j Hj Hn) as Hd. pose proof Hd as (D1 & D2 & D3 & D4).
    split_and!; try lia; [by rewrite used_put by (done || lia)|done|by rewrite Hk].
  - intros y Hy. unfold fbyte, fblock. destruct (bslot_ok (y / 1024)) as [Hj _]; [Z.div_mod_to_equations; lia|]. rewrite Esl by done.
    destruct (Z.eqb_spec (slot k x (bslot (y / 1024))) 0); [done|]. rewrite Hk; [done|]. by apply (sk_data _ _ _ Hs).
Qed.

Definition updated k sb x : blk := put_logged k (IBLOCK (i_inum x) sb) (store_dinode x (kget k (IBLOCK (i_inum x) sb))).

Lemma iupdate_run t ip k x sb B n :
  valid_ip t ip -> f_sb t = sb -> layout k sb -> k_held k = ∅ -> budget k B n -> 0 <= i_inum x < sb_ninodes sb ->
  iupdate ip (with_ino t ip k x) = Ok (tt, with_ino t ip (updated k sb x) x).
Proof.
  intros Hv Esb Hl Hh Hb Hi. destruct (inode_block k sb _ Hl Hi) as (B1 & B2 & B3 & B4). unfold iupdate, get_sb. rewrite bind_run, gets_run. cbn [f_sb with_ino]. rewrite Esb.
  rewrite geti_ino by done. rewrite read_data by (eapply budget_read; [exact Hb|cbn; rewrite Hh, size_empty; lia|done|cbn; rewrite Hh; set_solver]).
  rewrite write_held_end; [done|cbn; rewrite Hh; set_solver|by eapply budget_log].
Qed.


(** A write of [data] at [off] that was accepted stored [r] bytes: all of them
    unless the disk is full. *)
Definition written (sb : superblock) (data : list Z) (off : Z) k x (r : Z) k' x' : Prop :=
  exists k1 x1, evolves sb k x k1 x1 /\ x' = set_i_size (Z.max (i_size x) (off + r)) x1 /\ k' = updated k1 sb x' /\
    0 <= r <= Z.of_nat (length data) /\ (r = Z.of_nat (length data) \/ full k' sb /\ (r = 0 \/ (off + r) mod 1024 = 0)) /\
    (forall y, 0 <= y < 274432 -> fbyte k' x' y = over data 0 off r (fbyte k x) y) /\
    mapped k' x' /\ layout k' sb /\ clean_store k' /\ k_held k' = ∅ /\ slots_ok k' sb x'.

Definition write_ok x (off n : Z) : bool := (off <=? i_size x) && (off + n <=? 274432).

Lemma set_size_same x : set_i_size (i_size x) x = x.
Proof. by destruct x. Qed.

Lemma writei_run ip user k x sb t off src kbs data B n :
  valid_ip t ip -> f_sb t = sb -> ready sb k x B n -> touched off (Z.of_nat (length data)) <= Z.of_nat n -> IBLOCK (i_inum x) sb ∈ B -> 0 <= i_inum x < sb_ninodes sb ->
  mapped k x -> source user (f_um t) src kbs data -> 0 <= off < 2 ^ 32 -> Z.of_nat (length data) < 2 ^ 32 -> 0 <= src < 2 ^ 64 ->
  exists r k' x', writei ip user src kbs off (Z.of_nat (length data)) (with_ino t ip k x) = Ok (r, with_ino t ip k' x') /\
    if write_ok x off (Z.of_nat (length data)) then written sb data off k x r k' x' else r = -1 /\ k' = k /\ x' = x.
Proof.
  intros Hv Esb Hrd Hn HB Hi [Hsz Hmp] Hsrc Ho Hl Hs64. unfold writei. rewrite geti_ino by done. unfold write_ok, MAXFILE, NDIRECT, NINDIRECT, BSIZE.
  set (len := Z.of_nat (length data)) in *. assert (Hl0 : 0 <= len) by (unfold len; lia).
  destruct (Z.ltb_spec (i_size x) off) as [Hoff|Hoff]. { rewrite (proj2 (Z.leb_gt _ _)) by lia. cbn [orb andb]. by exists (-1), k, x. }
  rewrite (proj2 (Z.leb_le off _)) by lia. cbn [andb orb]. rewrite u32_wraps by lia.
  destruct (Z.leb_spec (2 ^ 32) (off + len)) as [Hw|Hw]. { rewrite (proj2 (Z.leb_gt _ _)) by lia. by exists (-1), k, x. }
  rewrite (u32_small (off + len)) by lia.
  change ((12 + 256) * 1024) with 274432. destruct (Z.ltb_spec 274432 (off + len)) as [Hbig|Hbig]. { rewrite (proj2 (Z.leb_gt _ _)) by lia. by exists (-1), k, x. }
  rewrite (proj2 (Z.leb_le (off + len) _)) by lia.
  destruct (writei_loop_run ip user kbs src sb B data t (rw_fuel len) 0 off k x n) as (r & k1 & x1 & E & [S1 S2 S3 S4 Sb S5 S6]); auto; fold len; rewrite ?Z.sub_0_r; auto; try lia.
  { unfold rw_fuel, touched, BSIZE. destruct (Z.leb_spec len 0); Z.div_mod_to_equations; lia. }
  rewrite Z.add_0_r, u64_small in E by lia. fold len in E. rewrite (bind_Ok _ _ _ _ _ E), (bind_Ok _ _ _ _ _ (updi_ino t ip k1 x1 _ Hv)). cbn [fst snd]. rewrite Z.sub_0_r in *.
  assert (Esz : i_size x1 = i_size x) by (rewrite (ev_x _ _ _ _ _ S2); done). assert (Einum : i_inum x1 = i_inum x) by (rewrite (ev_x _ _ _ _ _ S2); done).
  assert (Ex : (if i_size x1 <? off + r then set_i_size (off + r) x1 else x1) = set_i_size (Z.max (i_size x) (off + r)) x1).
  { rewrite Esz. case_bool; [by rewrite Z.max_r by lia|]. rewrite Z.max_l by lia. rewrite <- Esz. by rewrite set_size_same. }
  rewrite Ex. set (x' := set_i_size _ x1). pose proof S3 as [R1 R2 R3 R4 R5 R6].
  rewrite (bind_Ok _ _ _ _ _ (iupdate_run t ip k1 x' sb _ _ Hv Esb R1 R3 R5 ltac:(cbn; by rewrite Einum))).
  exists r, (updated k1 sb x'), x'. split; [done|]. destruct (inode_block k1 sb _ R1 Hi) as (B1 & B2 & B3 & B4).
  destruct (meta_put k1 sb x1 (IBLOCK (i_inum x) sb) (store_dinode x' (kget k1 (IBLOCK (i_inum x) sb))) R1 R2 R4 B2 B3) as (M1 & M2 & [M3a M3b M3c] & M4 & M5).
  assert (Eu : updated k1 sb x' = put_logged k1 (IBLOCK (i_inum x) sb) (store_dinode x' (kget k1 (IBLOCK (i_inum x) sb)))) by (unfold updated; cbn [x' i_inum set_i_size]; by rewrite Einum).
  exists k1, x1. rewrite Eu. split; [done|]. split; [done|]. split; [done|]. fold len in S1. split; [lia|]. split.
  { destruct S4 as [?|Hf]; [by left|]. destruct Sb as [?|Sb]; [by left|right]. split; [intros b Hb; rewrite used_put by done; by apply Hf|done]. }
  split; [|split; [|by split_and!]].
  - intros y Hy. change (fbyte ?k x' y) with (fbyte k x1 y). by rewrite M5, S5 by done.
  - assert (Es' : i_size x' = Z.max (i_size x) (off + r)) by done. split; rewrite Es'; [lia|]. intros bn Hb0 Hb. change (fblock ?k x' bn) with (fblock k x1 bn). unfold fblock.
    assert (Hbr : 0 <= bn < 268) by lia. rewrite M4 by apply bslot_ok, Hbr. fold (fblock k1 x1 bn).
    destruct (decide (bn * 1024 < i_size x)); [by apply (evolves_fblock _ _ _ _ _ _ S2), Hmp|]. apply S6; try lia. Z.div_mod_to_equations; lia.
Qed.

End io.
