(* ===== verification/FsTrunc.v ===== *)
(** itrunc on the abstract store: every block of the inode goes back to the
    bitmap, once. *)

From S2P Require Import UserMem Prelude Riscv Bytes Refine Cache Bio Log Blocks Fs FsBlock FsFile FsIo.

Definition free_list (sb : superblock) (l : list Z) (k : blk) : blk := foldl (fun k b => if b =? 0 then k else freed k sb b) k l.

(** The blocks of [l] other than zero can be freed one after the other. *)
Record freeable (sb : superblock) (k : blk) (l : list Z) (B : gset Z) (n : nat) : Prop := {
  fe_layout : layout k sb;
  fe_clean : clean_store k;
  fe_budget : budget k B n;
  fe_bitmap : bitmap_in sb B;
  fe_held : held_data k sb /\ (size (k_held k) <= 1)%nat /\ forall b, b ∈ k_held k -> 0 <= b < sb_size sb /\ b ∉ l;
  fe_nodup : NoDup (filter (fun b => b <> 0) l);
  fe_used : forall b, b ∈ l -> b <> 0 -> 0 <= b < sb_size sb /\ used k sb b = true /\ ~ meta sb b;
}.

Lemma freed_layout k sb b : layout k sb -> 0 <= b < sb_size sb -> ~ meta sb b -> layout (freed k sb b) sb.
Proof.
  intros Hl Hb Hm. pose proof Hl as [L1 L2 L3 L4 L5 L6]. split; auto.
  - intros y Hy. assert (0 <= y < sb_size sb) by (unfold meta in Hy; lia). rewrite freed_used, L5 by done. destruct (Z.eqb_spec y b) as [->|]; done.
  - intros y Hy. unfold freed. rewrite kget_put_logged. case_decide as E; [|by apply L6]. rewrite length_clear_bit, <- E. by apply L6.
Qed.

Lemma freed_get k sb b c : 0 <= b < sb_size sb -> ~ bitmap sb c -> kget (freed k sb b) c = kget k c.
Proof. intros Hb Hc. unfold freed. rewrite kget_put_logged, decide_False; [done|]. intros ->. apply Hc. by exists b. Qed.

Lemma freeable_step sb k b l B n : freeable sb k (b :: l) B n -> freeable sb (if b =? 0 then k else freed k sb b) l B n.
Proof.
  intros [F1 F2 F3 F4 (F5 & F6 & F7) F8 F9]. destruct (Z.eqb_spec b 0) as [->|Hb].
  - rewrite filter_cons_False in F8 by (intros ?; lia). split; auto; [|intros c Hc; apply F9; by right]. split_and!; auto. intros c Hc. destruct (F7 c Hc) as [? Hin]. split; [done|]. intros ?. apply Hin. by right.
  - rewrite filter_cons_True in F8 by done. apply NoDup_cons in F8 as [Hnin F8]. destruct (F9 b) as (R & Hu & Hm); [by left|done|].
    assert (Hl : forall c, c ∈ l -> c <> 0 -> c <> b) by (intros c Hc Hn ->; apply Hnin; apply list_elem_of_filter; auto).
    split; auto.
    + by apply freed_layout.
    + by apply clean_put.
    + apply budget_put_in; auto.
    + split_and!; auto; [|intros c Hc; destruct (F7 c Hc) as [? Hin]; split; [done|]; intros ?; apply Hin; by right].
      intros c Hc. destruct (F5 c Hc) as [U1 U2], (F7 c Hc) as [U3 U4]. split; [|done]. rewrite freed_used, U1 by done. destruct (Z.eqb_spec c b) as [->|]; [|done]. destruct U4. by left.
    + intros c Hc Hn. destruct (F9 c) as (R' & Hu' & Hm'); [by right|done|]. split_and!; try lia; [|done]. rewrite freed_used, Hu' by done. by rewrite (proj2 (Z.eqb_neq _ _)) by (by apply Hl).
Qed.

Lemma free_list_spec sb B n l : forall k, freeable sb k l B n ->
  let k' := free_list sb l k in
  freeable sb k' [] B n /\ k_held k' = k_held k /\
  (forall c, 0 <= c < sb_size sb -> used k' sb c = used k sb c && negb (bool_decide (c ∈ l) && negb (c =? 0))) /\
  forall c, ~ bitmap sb c -> kget k' c = kget k c.
Proof.
  induction l as [|b l IH]; intros k Hf; cbn zeta.
  - split_and!; auto. intros c Hc. cbn. by rewrite andb_true_r.
  - pose proof (freeable_step _ _ _ _ _ _ Hf) as Hf1. pose proof Hf as [F1 _ _ _ _ _ F9]. change (free_list sb (b :: l) k) with (free_list sb l (if b =? 0 then k else freed k sb b)).
    destruct (IH _ Hf1) as (I1 & I2 & I3 & I4). split; [done|]. destruct (Z.eqb_spec b 0) as [->|Hb].
    + split; [done|]. split; [|done]. intros c Hc. rewrite I3 by done. f_equal. f_equal. destruct (Z.eqb_spec c 0) as [->|Hn]; [by rewrite !andb_false_r|]. rewrite !andb_true_r. apply bool_decide_ext. rewrite elem_of_cons. naive_solver.
    + destruct (F9 b) as (R & Hu & Hm); [by left|done|]. split; [by rewrite I2|]. split.
      * intros c Hc. rewrite I3, freed_used by done. destruct (Z.eqb_spec c b) as [->|Hn].
        -- rewrite (bool_decide_eq_true_2 (b ∈ b :: l)) by (by left). rewrite (proj2 (Z.eqb_neq b 0)) by done. cbn. by rewrite andb_false_r.
        -- cbn. do 3 f_equal. apply bool_decide_ext. rewrite elem_of_cons. naive_solver.
      * intros c Hc. rewrite I4 by done. by apply freed_get.
Qed.

Lemma free_list_app sb l1 l2 k : free_list sb (l1 ++ l2) k = free_list sb l2 (free_list sb l1 k).
Proof. apply foldl_app. Qed.

Lemma free_list_hold sb b l : forall k, free_list sb l (hold b k) = hold b (free_list sb l k).
Proof. induction l as [|c l IH]; intros k; [done|]. change (free_list sb (c :: l) ?k) with (free_list sb l (if c =? 0 then k else freed k sb c)). rewrite <- IH. f_equal. by destruct (c =? 0). Qed.

Lemma freeable_split sb k l1 l2 B n : freeable sb k (l1 ++ l2) B n -> freeable sb k l1 B n /\ freeable sb (free_list sb l1 k) l2 B n.
Proof.
  intros Hf. split.
  - destruct Hf as [F1 F2 F3 F4 (F5 & F6 & F7) F8 F9]. rewrite filter_app in F8. apply NoDup_app in F8 as (? & _ & _). split; auto; [|intros; apply F9; [set_solver|done]].
    split_and!; auto. intros c Hc. destruct (F7 c Hc). set_solver.
  - revert k Hf. induction l1 as [|b l1 IH]; intros k Hf; [done|]. apply IH. exact (freeable_step _ _ _ _ _ _ Hf).
Qed.

Section trunc.
Context {U : Type}.
Implicit Types (t : fs blk U) (k : blk) (x : inode).

Definition entries (d : block) (j m : Z) : list Z := (fun i => get32 d (4 * i)) <$> seqZ j m.

Lemma bfree_list {A} (f : M (fs blk U) A) t b l B n :
  freeable (f_sb t) (f_blk t) (b :: l) B n ->
  ((if negb (b =? 0) then bfree b else mret tt);; f) t = f (with_blk (if b =? 0 then f_blk t else freed (f_blk t) (f_sb t) b) t).
Proof.
  intros [F1 F2 F3 F4 (F5 & F6 & F7) F8 F9]. destruct (Z.eqb_spec b 0) as [->|Hb]; cbn [negb].
  - rewrite bind_run, ret_run. f_equal. by destruct t.
  - destruct (F9 b) as (R & Hu & Hm); [by left|done|]. rewrite (bfree_run _ _ B n) by done. by rewrite Hu.
Qed.

Lemma itrunc_indirect_run d B n m : forall j t, freeable (f_sb t) (f_blk t) (entries d j (Z.of_nat m)) B n ->
  itrunc_indirect m d j t = Ok (tt, with_blk (free_list (f_sb t) (entries d j (Z.of_nat m)) (f_blk t)) t).
Proof.
  induction m as [|m IH]; intros j t Hf; [by destruct t|].
  assert (E : entries d j (Z.of_nat (Datatypes.S m)) = get32 d (4 * j) :: entries d (j + 1) (Z.of_nat m)).
  { unfold entries. rewrite seqZ_cons by lia. cbn. do 3 f_equal; lia. }
  rewrite E in *. cbn [itrunc_indirect]. cbv zeta. rewrite (bfree_list _ _ _ _ _ _ Hf). rewrite IH by (apply (freeable_step _ _ _ _ _ _ Hf)). done.
Qed.

(** The direct blocks from [i] on. *)
Definition zero_addrs (i m : nat) x : inode := set_i_addrs (foldl (fun l j => <[j := 0]> l) (i_addrs x) (seq i m)) x.

Lemma itrunc_direct_run ip B n t m : forall i k x, valid_ip t ip -> length (i_addrs x) = 13%nat -> (i + m <= 13)%nat -> freeable (f_sb t) k (take m (drop i (i_addrs x))) B n ->
  itrunc_direct m ip (Z.of_nat i) (with_ino t ip k x) = Ok (tt, with_ino t ip (free_list (f_sb t) (take m (drop i (i_addrs x))) k) (zero_addrs i m x)).
Proof.
  induction m as [|m IH]; intros i k x Hv Hl Him Hf; [cbn; by destruct x|]. destruct (lookup_lt_is_Some_2 (i_addrs x) i) as [a Ha]; [lia|].
  rewrite (drop_S _ _ _ Ha) in *. cbn [firstn] in *. cbn [itrunc_direct]. rewrite geti_ino by done. cbv zeta. rewrite Nat2Z.id, (list_lookup_total_correct _ _ _ Ha).
  set (x1 := set_i_addrs (<[i := 0]> (i_addrs x)) x).
  assert (Es : ((if negb (a =? 0) then bfree a;; updi ip (fun x => set_i_addrs (<[i := 0]> (i_addrs x)) x) else mret tt) : M (fs blk U) unit) (with_ino t ip k x) =
    Ok (tt, with_ino t ip (if a =? 0 then k else freed k (f_sb t) a) x1)).
  { destruct (Z.eqb_spec a 0) as [->|Hn]; cbn [negb].
    - rewrite ret_run. do 3 f_equal. unfold x1. rewrite list_insert_id by done. by destruct x.
    - pose proof Hf as [F1 F2 F3 F4 (F5 & F6 & F7) F8 F9]. destruct (F9 a) as (R & Hu & Hm); [by left|done|].
      rewrite (bfree_run _ (with_ino t ip k x) B n) by done. cbn [f_blk f_sb with_ino]. rewrite Hu. rewrite with_blk_ino. by rewrite updi_ino. }
  rewrite (bind_Ok _ _ _ _ _ Es). replace (Z.of_nat i + 1) with (Z.of_nat (Datatypes.S i)) by lia.
  assert (Ed : drop (Datatypes.S i) (i_addrs x1) = drop (Datatypes.S i) (i_addrs x)) by (cbn [x1 i_addrs set_i_addrs]; by rewrite drop_insert_lt by lia).
  rewrite IH; [by rewrite Ed|done|cbn; by rewrite length_insert|lia|]. rewrite Ed. exact (freeable_step _ _ _ _ _ _ Hf).
Qed.

(** ** The blocks in the order in which they are freed *)

Definition islots x : list Z := seqZ 0 12 ++ if iaddr x =? 0 then [] else seqZ 13 256 ++ [12].
Definition iblocks k x : list Z := slot k x <$> islots x.

Lemma filter_inj_NoDup (f : Z -> Z) l : NoDup l -> (forall i j, i ∈ l -> j ∈ l -> f i <> 0 -> f i = f j -> i = j) -> NoDup (filter (fun b => b <> 0) (f <$> l)).
Proof.
  induction l as [|i l IH]; intros Hl Hf; [constructor|]. apply NoDup_cons in Hl as [Hi Hl]. rewrite fmap_cons.
  assert (IH' : NoDup (filter (fun b => b <> 0) (f <$> l))) by (apply IH; [done|]; intros a b Ha Hb; apply Hf; by right).
  destruct (decide (f i = 0)) as [E|E]; [by rewrite filter_cons_False by (intros ?; done)|]. rewrite filter_cons_True by done. apply NoDup_cons. split; [|done].
  intros (Hn & Hin)%list_elem_of_filter. apply list_elem_of_fmap in Hin as (j & Ej & Hj). apply Hi. rewrite (Hf i j); auto; [by left|by right].
Qed.

Lemma islots_in x j : j ∈ islots x -> in_slots j.
Proof. unfold islots, in_slots. rewrite elem_of_app, elem_of_seqZ. intros [?|Hj]; [lia|]. destruct (iaddr x =? 0); [by apply elem_of_nil in Hj|]. rewrite elem_of_app, elem_of_seqZ, list_elem_of_singleton in Hj. lia. Qed.

Lemma iblocks_owned k x b : b <> 0 -> b ∈ iblocks k x <-> owned k x b.
Proof.
  intros Hb. unfold iblocks. rewrite list_elem_of_fmap. split.
  - intros (j & E & Hj%islots_in). exists j. by split_and!.
  - intros (j & Hj & E & _). exists j. split; [done|]. unfold islots, in_slots in *. rewrite elem_of_app, elem_of_seqZ. destruct (decide (j < 12)); [left; lia|right].
    destruct (Z.eqb_spec (iaddr x) 0) as [E0|E0]; [|rewrite elem_of_app, elem_of_seqZ, list_elem_of_singleton; lia]. exfalso. apply Hb. rewrite <- E. unfold slot. fold (iaddr x). rewrite E0. cbn.
    destruct (Z.ltb_spec j 13); [|done]. by replace j with 12 by lia.
Qed.

Lemma iblocks_freeable k sb x B n : layout k sb -> clean_store k -> k_held k = ∅ -> slots_ok k sb x -> budget k B n -> bitmap_in sb B -> freeable sb k (iblocks k x) B n.
Proof.
  intros Hl Hc Hh Hs Hb HB. split; auto.
  - unfold held_data. rewrite Hh. split_and!; [by intros b ?%not_elem_of_empty|rewrite size_empty; lia|by intros b ?%not_elem_of_empty].
  - apply filter_inj_NoDup; [|intros i j Hi%islots_in Hj%islots_in; by apply (sk_inj _ _ _ Hs)]. unfold islots. apply NoDup_app. split_and!; [apply NoDup_seqZ| |].
    + intros j Hj%elem_of_seqZ. destruct (_ =? 0); [apply not_elem_of_nil|]. rewrite elem_of_app, elem_of_seqZ, list_elem_of_singleton. lia.
    + destruct (_ =? 0); [constructor|]. apply NoDup_app. split_and!; [apply NoDup_seqZ| |apply NoDup_singleton]. intros j Hj%elem_of_seqZ. rewrite list_elem_of_singleton. lia.
  - intros b Hb0 Hn. apply iblocks_owned in Hb0 as (j & Hj & <- & _); [|done]. destruct (sk_data _ _ _ Hs j Hj Hn) as (D1 & D2 & D3 & _). split_and!; auto; lia.
Qed.

Lemma freeable_hold k sb b l B n : freeable sb k l B n -> k_held k = ∅ -> 0 <= b < sb_size sb -> used k sb b = true -> ~ meta sb b -> b ∉ l -> freeable sb (hold b k) l B n.
Proof.
  intros [F1 F2 F3 F4 F5 F6 F7] Hh Hb Hu Hm Hl. assert (Eh : k_held (hold b k) = {[b]}) by (cbn; rewrite Hh; set_solver).
  split; [by destruct F1|done|by apply budget_hold|done| |done|done].
  unfold held_data. rewrite Eh. split_and!; [intros c ->%elem_of_singleton; done|by rewrite size_singleton|]. by intros c ->%elem_of_singleton.
Qed.

Lemma iblocks_split k x : length (i_addrs x) = 13%nat ->
  iblocks k x = take 12 (i_addrs x) ++ if iaddr x =? 0 then [] else entries (kget k (iaddr x)) 0 256 ++ [iaddr x].
Proof.
  intros Hl. unfold iblocks, islots. rewrite fmap_app. f_equal.
  - apply list_eq. intros i. rewrite list_lookup_fmap. destruct (decide (i < 12)%nat) as [Hi|Hi].
    + rewrite lookup_seqZ_lt, lookup_take_lt by lia. cbn [fmap option_fmap option_map]. rewrite slot_direct by lia. replace (Z.to_nat (0 + Z.of_nat i)) with i by lia. symmetry. apply list_lookup_lookup_total_lt. lia.
    + rewrite lookup_seqZ_ge by lia. symmetry. apply lookup_ge_None_2. rewrite length_take. lia.
  - destruct (Z.eqb_spec (iaddr x) 0) as [|Hn]; [done|]. rewrite fmap_app. f_equal. unfold entries. apply list_eq. intros i. rewrite !list_lookup_fmap. destruct (decide (i < 256)%nat) as [Hi|Hi].
    + rewrite !lookup_seqZ_lt by lia. cbn [fmap option_fmap option_map]. rewrite slot_indirect by (done || lia). do 2 f_equal. lia.
    + by rewrite !lookup_seqZ_ge by lia.
Qed.

(** ** itrunc *)

Definition truncated x : inode := set_i_size 0 (set_i_addrs (replicate 13 0) x).

Lemma zero_addrs_all x : length (i_addrs x) = 13%nat -> i_addrs (zero_addrs 0 12 x) = replicate 12 0 ++ [iaddr x].
Proof.
  intros Hl. cbn [zero_addrs i_addrs set_i_addrs]. unfold iaddr. destruct (i_addrs x) as [|? l]; [done|]. do 12 (destruct l as [|? l]; [done|]). by destruct l.
Qed.

Lemma itrunc_ind_run t ip k x ia l B n :
  let sb := f_sb t in
  valid_ip t ip -> k_held k = ∅ -> ia <> 0 -> l = entries (kget k ia) 0 (Z.of_nat (Z.to_nat NINDIRECT)) -> freeable sb k (l ++ [ia]) B n ->
  (blk_op (bl_read ia);; d ← blk_op (bl_data ia); itrunc_indirect (Z.to_nat NINDIRECT) d 0;; blk_op (bl_relse ia);; bfree ia;; updi ip (fun x => set_i_addrs (<[12%nat := 0]> (i_addrs x)) x)) (with_ino t ip k x) =
  Ok (tt, with_ino t ip (free_list sb (l ++ [ia]) k) (set_i_addrs (<[12%nat := 0]> (i_addrs x)) x)).
Proof.
  intros sb Hv Hh Hn El Hf. pose proof Hf as [F1 F2 F3 F4 _ F6 F7]. destruct (F7 ia) as (Hr & Hu & Hm); [apply elem_of_app; right; by left|done|].
  assert (Hlog : is_log k ia = false) by (apply (layout_above k sb); [done..|lia]).
  rewrite read_data by (eapply budget_read; [exact F3|cbn; rewrite Hh, size_empty; lia|exact Hlog|cbn; rewrite Hh; apply not_elem_of_empty]). cbn [f_blk with_ino].
  destruct (freeable_split _ _ _ _ _ _ Hf) as [Hf1 Hf2]. destruct (free_list_spec _ _ _ _ _ Hf1) as (_ & Eh & _ & _). rewrite free_list_app. set (k2 := free_list sb l k) in *. rewrite Hh in Eh.
  assert (Hnin : ia ∉ l). { intros Hin. rewrite filter_app in F6. apply NoDup_app in F6 as (_ & Hd & _). apply (Hd ia); [by apply list_elem_of_filter|]. rewrite filter_cons_True by done. by left. }
  set (t1 := with_blk (hold ia k) (with_ino t ip k x)).
  assert (E1 : itrunc_indirect (Z.to_nat NINDIRECT) (kget k ia) 0 t1 = Ok (tt, with_blk (hold ia k2) (with_ino t ip k2 x))).
  { rewrite (itrunc_indirect_run _ B n); rewrite <- El; [|by apply freeable_hold]. change (f_sb t1) with sb. change (f_blk t1) with (hold ia k). rewrite free_list_hold. fold k2. reflexivity. }
  clearbody k2.
  rewrite (bind_Ok _ _ _ _ _ E1). pose proof Hf2 as [G1 G2 G3 _ (G5 & G6 & _) _ G7]. destruct (G7 ia) as (_ & Hu2 & _); [by left|done|].
  pose proof (relse_held ia (bfree ia;; updi ip (fun x => set_i_addrs (<[12%nat := 0]> (i_addrs x)) x)) (with_ino t ip k2 x)) as E2. cbn [f_blk with_ino] in E2. rewrite E2; [|rewrite Eh; apply not_elem_of_empty|apply G2].
  rewrite (bfree_run _ (with_ino t ip k2 x) B n) by done. cbn [f_blk f_sb with_ino]. fold sb. rewrite Hu2, with_blk_ino, updi_ino by done.
  change (free_list sb [ia] k2) with (if ia =? 0 then k2 else freed k2 sb ia). rewrite (proj2 (Z.eqb_neq _ _) Hn). reflexivity.
Qed.

Lemma itrunc_run t ip k x B n :
  let sb := f_sb t in
  valid_ip t ip -> layout k sb -> clean_store k -> k_held k = ∅ -> slots_ok k sb x -> budget k B n -> bitmap_in sb B -> IBLOCK (i_inum x) sb ∈ B -> 0 <= i_inum x < sb_ninodes sb ->
  itrunc ip (with_ino t ip k x) = Ok (tt, with_ino t ip (updated (free_list sb (iblocks k x) k) sb (truncated x)) (truncated x)).
Proof.
  intros sb Hv Hl Hc Hh Hs Hb HB HI Hi. pose proof (sk_len _ _ _ Hs) as Hlen. pose proof (iblocks_freeable k sb x B n Hl Hc Hh Hs Hb HB) as Hf.
  destruct (free_list_spec _ _ _ _ _ Hf) as ([E1 E2 E3 _ _ _ _] & E4 & _ & _). rewrite iblocks_split in * by done. destruct (freeable_split _ _ _ _ _ _ Hf) as [Hf1 Hf2].
  unfold itrunc. change (Z.to_nat NDIRECT) with 12%nat. change 0 with (Z.of_nat 0) at 1. rewrite (bind_Ok _ _ _ _ _ (itrunc_direct_run ip B n t 12 0 k x Hv Hlen ltac:(lia) Hf1)).
  rewrite geti_ino by done. rewrite drop_0. set (k1 := free_list sb (take 12 (i_addrs x)) k) in *. set (x1 := zero_addrs 0 12 x).
  assert (Hx1 : i_addrs x1 = replicate 12 0 ++ [iaddr x]) by (by apply zero_addrs_all). change (i_addrs x1 !!! 12%nat) with (iaddr x1). assert (Eia : iaddr x1 = iaddr x) by (unfold iaddr at 1; by rewrite Hx1).
  rewrite Eia. set (x2 := set_i_addrs (replicate 13 0) x). set (kf := free_list sb _ k) in *.
  assert (Es : ((if negb (iaddr x =? 0) then blk_op (bl_read (iaddr x));; d ← blk_op (bl_data (iaddr x)); itrunc_indirect (Z.to_nat NINDIRECT) d 0;; blk_op (bl_relse (iaddr x));; bfree (iaddr x);; updi ip (fun x => set_i_addrs (<[12%nat := 0]> (i_addrs x)) x)
      else mret tt) : M (fs blk U) unit) (with_ino t ip k1 x1) = Ok (tt, with_ino t ip kf x2)).
  { unfold kf. rewrite free_list_app. fold k1. destruct (Z.eqb_spec (iaddr x) 0) as [E0|E0]; cbn [negb].
    - rewrite ret_run. do 3 f_equal. unfold x1, zero_addrs in *. cbn [i_addrs set_i_addrs] in Hx1. rewrite Hx1, E0. done.
    - destruct (free_list_spec _ _ _ _ _ Hf1) as (_ & Eh & _ & Ek). fold k1 in Eh, Ek. rewrite Hh in Eh.
      assert (Hd : kget k1 (iaddr x) = kget k (iaddr x)) by (apply Ek, (data_not_bitmap k sb); [done|]; by apply (sk_data _ _ _ Hs 12)). rewrite <- Hd in *.
      rewrite (itrunc_ind_run t ip k1 x1 (iaddr x) _ B n Hv Eh E0 eq_refl Hf2). do 3 f_equal. rewrite Hx1. done. }
  rewrite (bind_Ok _ _ _ _ _ Es), (bind_Ok _ _ _ _ _ (updi_ino t ip kf x2 (set_i_size 0) Hv)). fold sb in E1. rewrite Hh in E4.
  exact (iupdate_run t ip kf (set_i_size 0 x2) sb B n Hv eq_refl E1 E4 E3 Hi).
Qed.

End trunc.
