(* ===== verification/FsName.v ===== *)
(** Directories: dirlookup finds what dirlink entered. *)

From S2P Require Import UserMem Prelude Riscv Bytes Refine Cache Bio Log Blocks Fs FsDir FsBlock FsFile FsIo.

(** ** Names *)

(** Two names agree when their first DIRSIZ bytes do. *)
Definition same_name (s t : list Z) : Prop := take 14 (cstr s) = take 14 (cstr t).

#[global] Instance same_name_dec s t : Decision (same_name s t).
Proof. unfold same_name. apply _. Defined.

Lemma cstr_cons c l : c <> 0 -> cstr (c :: l) = c :: cstr l.
Proof. intros Hc. cbn. by rewrite (proj2 (Z.eqb_neq _ _)). Qed.

Lemma drop_byte (s : list Z) (i : nat) : (byte_at s (Z.of_nat i) = 0 -> cstr (drop i s) = []) /\
  (byte_at s (Z.of_nat i) <> 0 -> cstr (drop i s) = byte_at s (Z.of_nat i) :: cstr (drop (S i) s)).
Proof.
  unfold byte_at. rewrite Nat2Z.id. destruct (s !! i) as [c|] eqn:E; cbn [default from_option id].
  - rewrite (drop_S s c i E). cbn [cstr]. split; intros Hc; [by rewrite Hc|]. by rewrite (proj2 (Z.eqb_neq _ _)).
  - rewrite drop_ge by (by apply lookup_ge_None). split; [done|]. cbn. done.
Qed.

Lemma strncmp_zero n s t : forall i : nat, strncmp_at n s t (Z.of_nat i) = 0 <-> take n (cstr (drop i s)) = take n (cstr (drop i t)).
Proof.
  induction n as [|n IH]; intros i; cbn [strncmp_at]; [done|].
  destruct (drop_byte s i) as [S0 S1], (drop_byte t i) as [T0 T1]. set (a := byte_at s (Z.of_nat i)) in *. set (b := byte_at t (Z.of_nat i)) in *.
  replace (Z.of_nat i + 1) with (Z.of_nat (Datatypes.S i)) by lia.
  destruct (Z.eqb_spec a 0) as [Ea|Ea]; cbn [negb andb].
  - rewrite (S0 Ea). destruct (decide (b = 0)) as [Eb|Eb]; [rewrite (T0 Eb); split; [done|lia]|]. rewrite (T1 Eb). split; [lia|done].
  - rewrite (S1 Ea). destruct (Z.eqb_spec a b) as [Eab|Eab].
    + rewrite (T1 ltac:(congruence)), <- Eab. cbn [take]. rewrite IH. split; [by intros ->|by intros [= ->]].
    + destruct (decide (b = 0)) as [Eb|Eb]; [rewrite (T0 Eb); split; [lia|done]|]. rewrite (T1 Eb). cbn [take]. split; [lia|congruence].
Qed.

Lemma namecmp_zero s t : namecmp s t = 0 <-> same_name s t.
Proof. unfold namecmp, same_name. rewrite (strncmp_zero _ s t 0). by rewrite !drop_0. Qed.

Lemma cstr_no_nul l : Forall (fun c => c <> 0) (cstr l).
Proof. induction l as [|c l IH]; cbn; [constructor|]. destruct (Z.eqb_spec c 0); by constructor. Qed.

Lemma cstr_app l n : Forall (fun c => c <> 0) l -> cstr (l ++ replicate n 0) = l.
Proof. induction 1 as [|c l Hc Hl IH]; cbn; [by destruct n|]. by rewrite (proj2 (Z.eqb_neq _ _)), IH. Qed.

Lemma cstr_pad n name : cstr (pad n name) = take n (cstr name).
Proof.
  unfold pad. pose proof (cstr_no_nul name) as Hn. set (l := cstr name) in *. destruct (decide (n <= length l)%nat).
  - rewrite take_app_le by lia. rewrite <- (app_nil_r (take n l)) at 1. apply (cstr_app _ 0). by apply Forall_take.
  - rewrite take_app, take_ge by lia. rewrite take_replicate. by apply cstr_app.
Qed.

Lemma length_pad n name : length (pad n name) = n.
Proof. unfold pad. rewrite length_take, length_app, length_replicate. lia. Qed.

Lemma same_name_pad name name' : same_name name' (pad 14 name) <-> same_name name' name.
Proof. unfold same_name. rewrite cstr_pad, take_take. done. Qed.

(** ** Entries *)

Lemma length_mk_dirent inum name : length (mk_dirent inum name) = 16%nat.
Proof. unfold mk_dirent. cbn. by rewrite length_pad. Qed.

Lemma mk_dirent_fields inum name : 0 <= inum < 65536 -> de_inum (mk_dirent inum name) = inum /\ de_name (mk_dirent inum name) = pad 14 name.
Proof.
  intros Hi. split; [|done]. unfold de_inum, mk_dirent, get16. cbn [get_le]. change (byte_at ([?a; ?b] ++ ?l) 0) with a. change (byte_at ([?a; ?b] ++ ?l) (0 + 1)) with b.
  unfold u8. Z.div_mod_to_equations. lia.
Qed.

(** The entry that dirlookup answers with: its inode number and offset. *)
Fixpoint dir_find (ents : list (list Z)) (name : list Z) (off : Z) : option (Z * Z) :=
  match ents with
  | [] => None
  | de :: ents =>
      if negb (de_inum de =? 0) && bool_decide (same_name name (de_name de)) then Some (de_inum de, off)
      else dir_find ents name (off + 16)
  end.

(** The index of the first unused entry, or the number of entries. *)
Fixpoint dir_free (ents : list (list Z)) : nat :=
  match ents with
  | [] => 0
  | de :: ents => if de_inum de =? 0 then 0%nat else Datatypes.S (dir_free ents)
  end.

(** dirlink's change: the entry goes there. *)
Definition dir_put (de : list Z) (ents : list (list Z)) : list (list Z) :=
  if decide (dir_free ents < length ents)%nat then <[dir_free ents := de]> ents else ents ++ [de].

Definition dir_entries (k : blk) (x : inode) : list (list Z) :=
  (fun i => file_range k x (16 * Z.of_nat i) 16) <$> seq 0 (Z.to_nat (i_size x / 16)).

Lemma dir_free_le ents : (dir_free ents <= length ents)%nat.
Proof. induction ents as [|de ents IH]; cbn; [done|]. case_match; lia. Qed.

Lemma dir_find_put ents name inum : forall off,
  0 < inum < 65536 -> dir_find ents name off = None ->
  dir_find (dir_put (mk_dirent inum name) ents) name off = Some (inum, off + 16 * Z.of_nat (dir_free ents)) /\
  forall name', ~ same_name name' name -> dir_find (dir_put (mk_dirent inum name) ents) name' off = dir_find ents name' off.
Proof.
  intros off Hi. destruct (mk_dirent_fields inum name ltac:(lia)) as [F1 F2].
  assert (Hnew : forall name', negb (de_inum (mk_dirent inum name) =? 0) && bool_decide (same_name name' (de_name (mk_dirent inum name))) = bool_decide (same_name name' name)).
  { intros name'. rewrite F1, F2, (proj2 (Z.eqb_neq _ _)) by lia. cbn. apply bool_decide_ext. apply same_name_pad. }
  assert (Hput : forall de ents, dir_put de ents = match ents with [] => [de] | e :: es => if de_inum e =? 0 then de :: es else e :: dir_put de es end).
  { intros de es. unfold dir_put. destruct es as [|e es]; [done|]. cbn [dir_free length]. destruct (de_inum e =? 0); [by rewrite decide_True by lia|].
    destruct (decide (dir_free es < length es)%nat); [by rewrite decide_True by lia|by rewrite decide_False by lia]. }
  revert off. induction ents as [|e ents IH]; intros off Hn; rewrite Hput.
  { cbn [dir_find dir_free]. split; [|intros name' Hne]; rewrite Hnew; [rewrite bool_decide_eq_true_2 by done; rewrite F1; do 2 f_equal; lia|by rewrite bool_decide_eq_false_2]. }
  cbn [dir_find dir_free] in *. destruct (Z.eqb_spec (de_inum e) 0) as [E0|E0]; cbn [negb andb dir_find] in *.
  - split; [|intros name' Hne]; rewrite Hnew; [rewrite bool_decide_eq_true_2 by done; rewrite F1; do 2 f_equal; lia|by rewrite bool_decide_eq_false_2].
  - rewrite (proj2 (Z.eqb_neq _ _) E0). cbn [negb andb]. destruct (bool_decide (same_name name (de_name e))); [done|]. destruct (IH (off + 16) Hn) as [IH1 IH2]. split.
    + rewrite IH1. do 2 f_equal. lia.
    + intros name' Hne. by rewrite IH2.
Qed.

Section dirs.
Context {U : Type} `{UserMemOk U}.
Implicit Types (t : fs blk U) (k : blk) (x : inode).

Definition dir_ok k sb x : Prop := read_pre k sb x /\ mapped k x /\ i_type x = T_DIR /\ i_size x mod 16 = 0.

Lemma length_dir_entries k x : length (dir_entries k x) = Z.to_nat (i_size x / 16).
Proof. unfold dir_entries. by rewrite length_fmap, length_seq. Qed.

Lemma lookup_dir_entries k x i : (i < Z.to_nat (i_size x / 16))%nat -> dir_entries k x !! i = Some (file_range k x (16 * Z.of_nat i) 16).
Proof. intros Hi. unfold dir_entries. by rewrite list_lookup_fmap, lookup_seq_lt. Qed.

Lemma readi_entry t dp k sb x i :
  valid_ip t dp -> dir_ok k sb x -> (i < Z.to_nat (i_size x / 16))%nat ->
  readi dp false 0 (16 * Z.of_nat i) 16 (with_ino t dp k x) = Ok ((16, file_range k x (16 * Z.of_nat i) 16), with_ino t dp k x).
Proof.
  intros Hv (Hp & Hm & _ & Hmod) Hi. pose proof Hm as [Hsz _]. assert (Hb : 16 * Z.of_nat i + 16 <= i_size x) by (Z.div_mod_to_equations; lia).
  destruct (readi_run dp false k x sb t (16 * Z.of_nat i) 16 0 (f_um t) Hv Hp Hm) as (r & u' & out & E & Hr); [lia|lia|done|].
  assert (Et : set_um (f_um t) t = t) by (by destruct t). rewrite Et in E.
  assert (El : read_len x (16 * Z.of_nat i) 16 = 16).
  { unfold read_len. rewrite (proj2 (Z.ltb_ge _ _)), (proj2 (Z.leb_gt _ _)) by lia. cbn [orb]. lia. }
  rewrite El in Hr. destruct Hr as [(-> & -> & Hd)|(_ & ? & _)]; [|done]. cbn in Hd. subst u'. rewrite Et in E. exact E.
Qed.

Lemma dirlookup_loop_run t dp k sb x name : valid_ip t dp -> dir_ok k sb x -> forall fuel i,
  (i <= Z.to_nat (i_size x / 16))%nat -> (Z.to_nat (i_size x / 16) < i + fuel)%nat ->
  dirlookup_loop fuel dp name (16 * Z.of_nat i) (with_ino t dp k x) =
  match dir_find (drop i (dir_entries k x)) name (16 * Z.of_nat i) with
  | None => Ok (None, with_ino t dp k x)
  | Some (inum, off) => (ip ← iget (i_dev x) inum; mret (Some (ip, off))) (with_ino t dp k x)
  end.
Proof.
  intros Hv Hd. pose proof Hd as (_ & [Hsz _] & _ & Hmod). set (n := Z.to_nat (i_size x / 16)) in *. induction fuel as [|fuel IH]; intros i Hi Hf; [lia|].
  cbn [dirlookup_loop]. rewrite geti_ino by done. destruct (decide (i < n)%nat) as [Hin|Hin].
  - assert (Hlt : 16 * Z.of_nat i < i_size x) by (unfold n in *; Z.div_mod_to_equations; lia). rewrite (proj2 (Z.ltb_lt _ _)) by done.
    rewrite (bind_Ok _ _ _ _ _ (readi_entry t dp k sb x i Hv Hd Hin)). cbn [fst snd]. change (16 =? sizeof_dirent) with true. cbn [negb].
    rewrite (drop_S _ _ _ (lookup_dir_entries k x i Hin)). cbn [dir_find]. set (de := file_range k x (16 * Z.of_nat i) 16).
    change sizeof_dirent with 16. replace (16 * Z.of_nat i + 16) with (16 * Z.of_nat (Datatypes.S i)) by lia.
    destruct (Z.eqb_spec (de_inum de) 0) as [E0|E0]; cbn [negb andb]; [apply IH; lia|].
    destruct (Z.eqb_spec (namecmp name (de_name de)) 0) as [En|En].
    + rewrite bool_decide_eq_true_2 by (by apply namecmp_zero). done.
    + rewrite bool_decide_eq_false_2 by (by rewrite <- namecmp_zero). apply IH; lia.
  - rewrite (proj2 (Z.ltb_ge _ _)) by (unfold n in *; Z.div_mod_to_equations; lia). rewrite drop_ge by (rewrite length_dir_entries; lia). done.
Qed.

Lemma dir_fuel_enough x : 0 <= i_size x -> (Z.to_nat (i_size x / 16) < dir_fuel (i_size x))%nat.
Proof. intros Hs. unfold dir_fuel, sizeof_dirent. assert (0 <= i_size x / 16) by (apply Z.div_pos; lia). lia. Qed.

Lemma dirlookup_run t dp k sb x name :
  valid_ip t dp -> dir_ok k sb x ->
  dirlookup dp name (with_ino t dp k x) =
  match dir_find (dir_entries k x) name 0 with
  | None => Ok (None, with_ino t dp k x)
  | Some (inum, off) => (ip ← iget (i_dev x) inum; mret (Some (ip, off))) (with_ino t dp k x)
  end.
Proof.
  intros Hv Hd. pose proof Hd as (_ & [Hsz _] & Ht & _). unfold dirlookup. rewrite geti_ino, Ht by done. change (T_DIR =? T_DIR) with true. cbn [negb].
  rewrite <- (drop_0 (dir_entries k x)). apply (dirlookup_loop_run t dp k sb x name Hv Hd _ 0); [lia|]. rewrite Nat.add_0_l. apply dir_fuel_enough. lia.
Qed.

Lemma dirlink_loop_run t dp k sb x : valid_ip t dp -> dir_ok k sb x -> forall fuel i,
  (i <= Z.to_nat (i_size x / 16))%nat -> (Z.to_nat (i_size x / 16) < i + fuel)%nat ->
  dirlink_loop fuel dp (16 * Z.of_nat i) (with_ino t dp k x) = Ok (16 * Z.of_nat (i + dir_free (drop i (dir_entries k x))), with_ino t dp k x).
Proof.
  intros Hv Hd. pose proof Hd as (_ & [Hsz _] & _ & Hmod). set (n := Z.to_nat (i_size x / 16)) in *. induction fuel as [|fuel IH]; intros i Hi Hf; [lia|].
  cbn [dirlink_loop]. rewrite geti_ino by done. destruct (decide (i < n)%nat) as [Hin|Hin].
  - assert (Hlt : 16 * Z.of_nat i < i_size x) by (unfold n in *; Z.div_mod_to_equations; lia). rewrite (proj2 (Z.ltb_lt _ _)) by done.
    rewrite (bind_Ok _ _ _ _ _ (readi_entry t dp k sb x i Hv Hd Hin)). cbn [fst snd]. change (16 =? sizeof_dirent) with true. cbn [negb].
    rewrite (drop_S _ _ _ (lookup_dir_entries k x i Hin)). cbn [dir_free]. destruct (de_inum _ =? 0).
    + by rewrite Nat.add_0_r.
    + change sizeof_dirent with 16. replace (16 * Z.of_nat i + 16) with (16 * Z.of_nat (Datatypes.S i)) by lia. rewrite IH by lia. do 3 f_equal. lia.
  - rewrite (proj2 (Z.ltb_ge _ _)) by (unfold n in *; Z.div_mod_to_equations; lia). rewrite drop_ge by (rewrite length_dir_entries; lia). cbn. by rewrite Nat.add_0_r.
Qed.


(** Storing one entry. *)
Lemma entry_stored k x k' x' de i :
  length de = 16%nat -> 0 <= i_size x -> i_size x mod 16 = 0 -> (i <= Z.to_nat (i_size x / 16))%nat -> 16 * Z.of_nat i + 16 <= 274432 -> i_size x <= 274432 ->
  i_size x' = Z.max (i_size x) (16 * Z.of_nat i + 16) ->
  (forall y, 0 <= y < 274432 -> fbyte k' x' y = over de 0 (16 * Z.of_nat i) 16 (fbyte k x) y) ->
  dir_entries k' x' = if decide (i < length (dir_entries k x))%nat then <[i := de]> (dir_entries k x) else dir_entries k x ++ [de].
Proof.
  intros Hl Hs0 Hmod Hi Hmax Hsz Hs Hby. rewrite length_dir_entries.
  assert (Hn : Z.to_nat (i_size x' / 16) = if decide (i < Z.to_nat (i_size x / 16))%nat then Z.to_nat (i_size x / 16) else Datatypes.S (Z.to_nat (i_size x / 16))).
  { rewrite Hs. case_decide; Z.div_mod_to_equations; lia. }
  assert (Hent : forall j, (j < Z.to_nat (i_size x' / 16))%nat -> file_range k' x' (16 * Z.of_nat j) 16 = if decide (j = i) then de else file_range k x (16 * Z.of_nat j) 16).
  { intros j Hj. assert (Hjs : 16 * Z.of_nat j + 16 <= 274432) by (assert (16 * Z.of_nat j + 16 <= i_size x'); [Z.div_mod_to_equations; lia|lia]).
    apply list_eq. intros c. destruct (decide (c < 16)%nat) as [Hc|Hc]; cycle 1. { rewrite lookup_ge_None_2 by (rewrite length_file_range; lia). symmetry. apply lookup_ge_None_2. destruct (decide (j = i)); rewrite ?length_file_range; lia. }
    rewrite lookup_file_range, Hby by lia. unfold over. destruct (decide (j = i)) as [->|E].
    - rewrite (proj2 (Z.leb_le _ _)), (proj2 (Z.ltb_lt _ _)) by lia. cbn [andb]. destruct (lookup_lt_is_Some_2 de c) as [v Hv]; [lia|]. rewrite Hv. unfold byte_at.
      replace (Z.to_nat (16 * Z.of_nat i + Z.of_nat c - 16 * Z.of_nat i + 0)) with c by lia. by rewrite Hv.
    - rewrite lookup_file_range by done. f_equal. case_bool; try lia; done. }
  apply list_eq. intros j. destruct (decide (j < Z.to_nat (i_size x' / 16))%nat) as [Hj|Hj].
  - rewrite lookup_dir_entries, Hent by done. symmetry. destruct (decide (i < Z.to_nat (i_size x / 16))%nat).
    + destruct (decide (j = i)) as [->|Hne]; [by rewrite list_lookup_insert_eq by (by rewrite length_dir_entries)|]. by rewrite list_lookup_insert_ne, lookup_dir_entries by lia.
    + destruct (decide (j = i)) as [->|Hne]; [rewrite lookup_app_r, length_dir_entries by (rewrite length_dir_entries; lia); by replace (i - _)%nat with 0%nat by lia|].
      by rewrite lookup_app_l, lookup_dir_entries by (rewrite ?length_dir_entries; lia).
  - rewrite lookup_ge_None_2 by (rewrite length_dir_entries; lia). symmetry. apply lookup_ge_None_2. case_decide; rewrite ?length_insert, ?length_app, length_dir_entries; cbn; lia.
Qed.

Lemma dirlink_new t dp k sb x me name inum B :
  valid_ip t dp -> f_sb t = sb -> dir_ok k sb x -> ready sb k x B 1 -> IBLOCK (i_inum x) sb ∈ B -> 0 <= i_inum x < sb_ninodes sb ->
  dir_find (dir_entries k x) name 0 = None -> 16 * Z.of_nat (dir_free (dir_entries k x)) < 274432 ->
  exists r k' x', dirlink me dp name inum (with_ino t dp k x) = Ok (r, with_ino t dp k' x') /\
    written sb (mk_dirent inum name) (16 * Z.of_nat (dir_free (dir_entries k x))) k x (if r =? 0 then 16 else 0) k' x' /\
    (r = 0 /\ dir_entries k' x' = dir_put (mk_dirent inum name) (dir_entries k x) \/ r = -1 /\ full k' sb /\ dir_entries k' x' = dir_entries k x).
Proof.
  intros Hv Esb Hd Hrd HB Hin Hnone Hmax. pose proof Hd as (Hp & Hm & Ht & Hmod). pose proof Hm as [Hsz _].
  unfold dirlink. rewrite (bind_Ok _ _ _ _ _ (eq_trans (dirlookup_run t dp k sb x name Hv Hd) ltac:(by rewrite Hnone))). rewrite geti_ino by done.
  pose proof (dirlink_loop_run t dp k sb x Hv Hd (dir_fuel (i_size x)) 0 ltac:(lia) ltac:(rewrite Nat.add_0_l; apply dir_fuel_enough; lia)) as El.
  rewrite drop_0, Nat.add_0_l in El. change (16 * Z.of_nat 0) with 0 in El. rewrite (bind_Ok _ _ _ _ _ El). set (i := dir_free (dir_entries k x)) in *.
  assert (Hi : (i <= Z.to_nat (i_size x / 16))%nat) by (rewrite <- (length_dir_entries k x); apply dir_free_le).
  assert (Hio : 16 * Z.of_nat i <= i_size x) by (Z.div_mod_to_equations; lia). pose proof (length_mk_dirent inum name) as Hlen.
  assert (Hi16 : 16 * Z.of_nat i + 16 <= 274432) by (Z.div_mod_to_equations; lia).
  destruct (writei_run dp false k x sb t (16 * Z.of_nat i) 0 (mk_dirent inum name) (mk_dirent inum name) B 1) as (r & k' & x' & E & Hw); auto; rewrite ?Hlen; try lia.
  { change (Z.of_nat 16) with 16. unfold touched. change (16 <=? 0) with false. Z.div_mod_to_equations. lia. }
  { unfold source. by rewrite take_ge. }
  rewrite Hlen in E, Hw. change (Z.of_nat 16) with 16 in *. change sizeof_dirent with 16. rewrite (bind_Ok _ _ _ _ _ E).
  unfold write_ok in Hw. rewrite (proj2 (Z.leb_le _ _)), (proj2 (Z.leb_le (_ + 16) _)) in Hw by lia. cbn [andb] in Hw. pose proof Hw as (k1 & x1 & _ & Ex & _ & Hr & Hfull & Hby & _). rewrite Hlen in *. change (Z.of_nat 16) with 16 in *.
  destruct (Z.eqb_spec r 16) as [->|Hr16]; cbn [negb].
  - exists 0, k', x'. split; [done|]. cbn [Z.eqb]. split; [exact Hw|]. left. split; [done|]. unfold dir_put. fold i. apply entry_stored; auto; try lia. by rewrite Ex.
  - exists (-1), k', x'. split; [done|]. cbn [Z.eqb]. destruct Hfull as [?|[Hfull Hr0]]; [done|]. assert (r = 0) as -> by (destruct Hr0 as [?|?]; [done|]; Z.div_mod_to_equations; lia).
    split; [exact Hw|]. right. split_and!; auto. assert (Es : i_size x' = i_size x) by (rewrite Ex; cbn; lia). unfold dir_entries. rewrite Es. apply list_fmap_ext. intros j _ [-> Hj]%lookup_seq. rewrite Nat.add_0_l.
    apply list_eq. intros c. destruct (decide (c < 16)%nat); [|by rewrite !lookup_ge_None_2 by (rewrite length_file_range; lia)]. rewrite !lookup_file_range by done. f_equal.
    rewrite Hby by (Z.div_mod_to_equations; lia). unfold over. case_bool; try lia; done.
Qed.

(** A directory of the greatest size without an unused entry. *)
Lemma dirlink_max t dp k sb x me name inum :
  valid_ip t dp -> dir_ok k sb x -> dir_find (dir_entries k x) name 0 = None -> ~ 16 * Z.of_nat (dir_free (dir_entries k x)) < 274432 ->
  i_size x = 274432 /\ dir_free (dir_entries k x) = length (dir_entries k x) /\ dirlink me dp name inum (with_ino t dp k x) = Ok (-1, with_ino t dp k x).
Proof.
  intros Hv Hd Hnone Hmax. pose proof Hd as (Hp & Hm & Ht & Hmod). pose proof Hm as [Hsz _]. set (i := dir_free (dir_entries k x)) in *.
  assert (Hi : (i <= Z.to_nat (i_size x / 16))%nat) by (rewrite <- (length_dir_entries k x); apply dir_free_le).
  assert (Es : i_size x = 274432) by (Z.div_mod_to_equations; lia). rewrite length_dir_entries. split; [done|]. split; [Z.div_mod_to_equations; lia|].
  unfold dirlink. rewrite (bind_Ok _ _ _ _ _ (eq_trans (dirlookup_run t dp k sb x name Hv Hd) ltac:(by rewrite Hnone))). rewrite geti_ino by done.
  pose proof (dirlink_loop_run t dp k sb x Hv Hd (dir_fuel (i_size x)) 0 ltac:(lia) ltac:(rewrite Nat.add_0_l; apply dir_fuel_enough; lia)) as El.
  rewrite drop_0, Nat.add_0_l in El. change (16 * Z.of_nat 0) with 0 in El. rewrite (bind_Ok _ _ _ _ _ El). fold i.
  assert (E16 : 16 * Z.of_nat i = 274432) by (Z.div_mod_to_equations; lia). rewrite E16.
  assert (Ew : writei dp false 0 (mk_dirent inum name) 274432 sizeof_dirent (with_ino t dp k x) = Ok (-1, with_ino t dp k x)) by (unfold writei; rewrite geti_ino by done; rewrite Es; reflexivity).
  by rewrite (bind_Ok _ _ _ _ _ Ew).
Qed.

End dirs.

(** ** Taking and dropping a reference *)

(** The inode is in the table, or there is room for it. *)
Definition can_iget (l : list inode) (dev inum : Z) : Prop := (iget_scan l 0 None dev inum) <> (None, None).

Definition refs_ok (l : list inode) : Prop := Forall (fun y => 0 <= i_ref y < 2147483647) l.

Lemma iget_scan_spec dev inum l : forall pre empty,
  (forall e, empty = Some e -> exists y, (pre ++ l) !! Z.to_nat e = Some y /\ i_ref y = 0) ->
  match iget_scan l (Z.of_nat (length pre)) empty dev inum with
  | (Some ip, _) => exists y, (pre ++ l) !! Z.to_nat ip = Some y /\ 0 < i_ref y
  | (None, Some e) => exists y, (pre ++ l) !! Z.to_nat e = Some y /\ i_ref y = 0
  | (None, None) => True
  end.
Proof.
  induction l as [|y l IH]; intros pre empty He; cbn [iget_scan]; [destruct empty as [e|]; [by apply He|done]|].
  assert (Hy : (pre ++ y :: l) !! Z.to_nat (Z.of_nat (length pre)) = Some y) by (rewrite Nat2Z.id; by apply list_lookup_middle).
  destruct ((0 <? i_ref y) && (i_dev y =? dev) && (i_inum y =? inum)) eqn:Ef; [exists y; split; [done|]; apply andb_true_iff in Ef as [[? _]%andb_true_iff _]; lia|].
  specialize (IH (pre ++ [y])). rewrite <- app_assoc, length_app, Nat2Z.inj_add in IH. apply IH. intros e E. destruct empty as [e'|]; [by apply He|].
  destruct (Z.eqb_spec (i_ref y) 0); [|done]. injection E as <-. by exists y.
Qed.

Lemma iput_plain {S U} `{BlockLayer S} `{UserMem U} me ip (t : fs S U) x :
  f_itable t !! Z.to_nat ip = Some x -> i_ref x <> 1 \/ i_valid x = false ->
  iput me ip t = Ok (tt, mk_fs (f_blk t) (f_um t) (f_sb t) (alter (fun x => set_i_ref (s32 (i_ref x - 1)) x) (Z.to_nat ip) (f_itable t))).
Proof.
  intros Ex Hx. unfold iput, geti. rewrite bind_run, gets_run, (list_lookup_total_correct _ _ _ Ex).
  assert (E : (i_ref x =? 1) && i_valid x && (i_nlink x =? 0) = false) by (destruct Hx as [Hx| ->]; [by rewrite (proj2 (Z.eqb_neq _ _) Hx)|by rewrite andb_false_r]). by rewrite E.
Qed.

(** iput right after iget: the inodes in use are as before. *)
Lemma iget_iput {S U} `{BlockLayer S} `{UserMem U} me dev inum (t : fs S U) :
  refs_ok (f_itable t) -> can_iget (f_itable t) dev inum ->
  exists ip t1 t', iget dev inum t = Ok (ip, t1) /\ iput me ip t1 = Ok (tt, t') /\ f_blk t' = f_blk t /\ f_um t' = f_um t /\ f_sb t' = f_sb t /\
    forall j y, f_itable t !! j = Some y -> 0 < i_ref y -> f_itable t' !! j = Some y.
Proof.
  intros Hr Hc. pose proof (iget_scan_spec dev inum (f_itable t) [] None ltac:(done)) as Hs. cbn [app length] in Hs. change (Z.of_nat 0) with 0 in Hs. unfold can_iget in Hc.
  unfold iget. rewrite bind_run, gets_run. destruct (iget_scan (f_itable t) 0 None dev inum) as [[ip|] o].
  - destruct Hs as (y & Ey & Hy). pose proof (proj1 (Forall_lookup _ _) Hr _ _ Ey) as Hry. cbn in Hry. eexists ip, _, _. split; [reflexivity|].
    split; [eapply iput_plain; [cbn; by rewrite list_lookup_alter_eq, Ey|left; cbn; rewrite s32_small by lia; lia]|]. cbn. split_and!; [done..|].
    intros j z Ez Hz. destruct (decide (j = Z.to_nat ip)) as [->|Hne]; [|by rewrite !list_lookup_alter_ne]. rewrite !list_lookup_alter_eq, Ez. rewrite Ey in Ez. injection Ez as ->. cbn. f_equal.
    rewrite (s32_small (i_ref z + 1)) by lia. replace (i_ref z + 1 - 1) with (i_ref z) by lia. rewrite s32_small by lia. by destruct z.
  - destruct o as [e|]; [|done]. destruct Hs as (y & Ey & Hy). eexists e, _, _. split; [reflexivity|]. split; [eapply iput_plain; [cbn; by rewrite list_lookup_alter_eq, Ey|by right]|]. cbn. split_and!; [done..|].
    intros j z Ez Hz. assert (Hne : Z.to_nat e <> j) by (intros <-; rewrite Ey in Ez; injection Ez as ->; lia). by rewrite !list_lookup_alter_ne.
Qed.
