(* ===== verification/FsProps.v ===== *)
(** What the file system keeps on the disk: inodes, the contents of files and
    the entries of directories, on the abstract store and, through a
    transaction, on the disk of a machine that may stop at any time. *)

From S2P Require Import UserMem Prelude Riscv Bytes Refine Cache Bio Log LogCrash Blocks Fs FsDir FsSim Transact FsBlock FsFile FsIo FsTrunc FsName.

(** ** Inodes on disk *)

(** The values that the fields of struct dinode hold. *)
Record dinode_fits (x : inode) : Prop := {
  df_inum : 0 <= i_inum x;
  df_type : -32768 <= i_type x < 32768;
  df_major : -32768 <= i_major x < 32768;
  df_minor : -32768 <= i_minor x < 32768;
  df_nlink : -32768 <= i_nlink x < 32768;
  df_size : 0 <= i_size x < 2 ^ 32;
  df_len : length (i_addrs x) = 13%nat;
  df_addrs : Forall (fun a => 0 <= a < 2 ^ 32) (i_addrs x);
}.

Lemma s16_get16 d o v : 0 <= o -> o + 2 <= Z.of_nat (length d) -> -32768 <= v < 32768 -> s16 (get16 (put16 d o v) o) = v.
Proof. intros Ho Hl Hv. unfold get16, put16. rewrite get_put_le_eq by lia. unfold s16. change (256 ^ Z.of_nat 2) with 65536. case_bool; Z.div_mod_to_equations; lia. Qed.

Lemma length_put_words ws : forall d off, length (put_words d off ws) = length d.
Proof. induction ws as [|w ws IH]; intros d off; cbn [put_words]; [done|]. unfold put32. by rewrite IH, length_put_le. Qed.

Lemma byte_put_words ws : forall d off i, 0 <= off -> off + 4 * Z.of_nat (length ws) <= Z.of_nat (length d) -> 0 <= i -> i < off \/ off + 4 * Z.of_nat (length ws) <= i ->
  byte_at (put_words d off ws) i = byte_at d i.
Proof.
  induction ws as [|w ws IH]; intros d off i Ho Hl Hi Hd; cbn [put_words length] in *; [done|]. unfold put32.
  rewrite IH by (rewrite ?length_put_le; lia). by apply (byte_at_put_le_ne 4); lia.
Qed.

Lemma get_put_words ws : forall d off j w, 0 <= off -> off + 4 * Z.of_nat (length ws) <= Z.of_nat (length d) -> Forall (fun a => 0 <= a < 2 ^ 32) ws ->
  ws !! j = Some w -> get32 (put_words d off ws) (off + 4 * Z.of_nat j) = w.
Proof.
  induction ws as [|v ws IH]; intros d off j w Ho Hl Hf Hj; [by rewrite lookup_nil in Hj|]. apply Forall_cons in Hf as [Hv Hf]. cbn [put_words length] in *. unfold put32.
  destruct j as [|j]; cbn in Hj.
  - injection Hj as ->. rewrite Z.mul_0_r, Z.add_0_r. transitivity (get_le 4 (put_le 4 d off w) off).
    + apply get_le_ext. intros i Hi. apply byte_put_words; rewrite ?length_put_le; lia.
    + rewrite get_put_le_eq by lia. apply Z.mod_small. done.
  - replace (off + 4 * Z.of_nat (Datatypes.S j)) with (off + 4 + 4 * Z.of_nat j) by lia. apply IH; auto; rewrite ?length_put_le; lia.
Qed.

(** store_dinode changes the 64 bytes of its inode only. *)
Lemma byte_store_dinode x d i : 0 <= i_inum x -> length (i_addrs x) = 13%nat -> length d = 1024%nat -> 0 <= i -> i < di_off (i_inum x) \/ di_off (i_inum x) + 64 <= i ->
  byte_at (store_dinode x d) i = byte_at d i.
Proof.
  intros Hi Ha Hd H0 Hr. unfold store_dinode. assert (Ho : 0 <= di_off (i_inum x) <= 960) by (unfold di_off, IPB; Z.div_mod_to_equations; lia).
  unfold put16, put32. rewrite byte_put_words by (rewrite ?length_put_le, ?Ha; lia). by rewrite !byte_at_put_le_ne by (rewrite ?length_put_le; lia).
Qed.

Lemma length_store_dinode x d : length (store_dinode x d) = length d.
Proof. unfold store_dinode, put16, put32. by rewrite length_put_words, !length_put_le. Qed.

Definition dinode_eq (x y : inode) : Prop :=
  i_type x = i_type y /\ i_major x = i_major y /\ i_minor x = i_minor y /\ i_nlink x = i_nlink y /\ i_size x = i_size y /\ i_addrs x = i_addrs y.

Lemma load_store_dinode x d y : dinode_fits x -> length d = 1024%nat -> i_inum y = i_inum x -> dinode_eq (load_dinode (store_dinode x d) y) x.
Proof.
  intros [F1 F2 F3 F4 F5 F6 F7 F8] Hd Hy. unfold load_dinode, dinode_eq, di_addrs. cbn [i_type i_major i_minor i_nlink i_size i_addrs]. rewrite Hy.
  assert (Ho : 0 <= di_off (i_inum x) <= 960) by (unfold di_off, IPB; Z.div_mod_to_equations; lia). unfold store_dinode. set (o := di_off (i_inum x)) in *. clearbody o.
  assert (Hw : forall n d a, length d = 1024%nat -> o <= a -> a + Z.of_nat n <= o + 12 -> get_le n (put_words d (o + 12) (i_addrs x)) a = get_le n d a).
  { intros n d' a Hd' Hoa Ha. apply get_le_ext. intros i Hi. apply byte_put_words; rewrite ?Hd', ?F7; lia. }
  assert (Hnext : forall n m d a b v, length d = 1024%nat -> 0 <= b -> b + Z.of_nat n <= a -> a + Z.of_nat m <= 1024 -> get_le n (put_le m d a v) b = get_le n d b).
  { intros n m d' a b v Hd' H0 H1 H2. apply get_put_le_ne; lia. }
  unfold get16, get32, put16, put32. split_and!.
  1-4: rewrite Hw by (rewrite ?length_put_le; lia); rewrite ?Hnext by (rewrite ?length_put_le; lia); apply s16_get16; rewrite ?length_put_le; lia.
  - rewrite Hw by (rewrite ?length_put_le; lia). rewrite get_put_le_eq by (rewrite ?length_put_le; lia). apply Z.mod_small. done.
  - apply list_eq. intros j. rewrite list_lookup_fmap. destruct (decide (j < 13)%nat) as [Hj|Hj].
    + rewrite lookup_seq_lt by done. cbn [fmap option_fmap option_map]. destruct (lookup_lt_is_Some_2 (i_addrs x) j) as [w Hw']; [lia|]. rewrite Hw'. f_equal.
      apply get_put_words; rewrite ?length_put_le, ?F7; auto; lia.
    + rewrite !lookup_ge_None_2; [done|lia|rewrite length_seq; lia].
Qed.

Lemma load_store_other x d y : 0 <= i_inum x -> length (i_addrs x) = 13%nat -> length d = 1024%nat -> 0 <= i_inum y -> i_inum y mod IPB <> i_inum x mod IPB ->
  load_dinode (store_dinode x d) y = load_dinode d y.
Proof.
  intros Hx Ha Hd Hy Hne. unfold load_dinode, di_addrs.
  assert (Hg : forall n a, di_off (i_inum y) <= a -> a + Z.of_nat n <= di_off (i_inum y) + 64 -> get_le n (store_dinode x d) a = get_le n d a).
  { intros n a H1 H2. apply get_le_ext. intros i Hi. apply byte_store_dinode; auto; unfold di_off, IPB in *; Z.div_mod_to_equations; lia. }
  unfold get16, get32. rewrite !Hg by lia. f_equal. apply list_fmap_ext. intros j _ [-> Hj]%lookup_seq. by rewrite Hg by lia.
Qed.

(** ** Files across a crash *)

(** The inode in memory is the one on disk. *)
Definition durable (k : blk) (sb : superblock) (x : inode) : Prop := load_dinode (kget k (IBLOCK (i_inum x) sb)) x = x.

(** The whole contents of a file. *)
Definition contents (k : blk) (x : inode) (size : Z) (f : Z -> Z) : Prop := i_size x = size /\ forall y, 0 <= y < 274432 -> fbyte k x y = f y.

Lemma dinode_eq_load d x : dinode_eq (load_dinode d x) x -> load_dinode d x = x.
Proof. unfold dinode_eq, load_dinode. destruct x. cbn. intros (-> & -> & -> & -> & -> & ->). done. Qed.

Lemma fits_slots k sb x y : layout k sb -> slots_ok k sb x -> dinode_fits y -> x = set_i_size (i_size x) (set_i_addrs (i_addrs x) y) -> 0 <= i_size x <= 274432 -> dinode_fits x.
Proof.
  intros Hl Hs [F1 F2 F3 F4 F5 F6 F7 F8] E Hsz. rewrite E. split; cbn; auto; try lia; [apply Hs|]. apply Forall_lookup. intros i a Ha.
  assert (Hi : (i < 13)%nat) by (rewrite <- (sk_len _ _ _ Hs); by eapply lookup_lt_Some). pose proof (ly_small _ _ Hl).
  assert (Ea : slot k x (Z.of_nat i) = a) by (rewrite slot_direct, Nat2Z.id by lia; by apply list_lookup_total_correct).
  destruct (decide (a = 0)) as [->|Hn]; [lia|]. destruct (sk_data _ _ _ Hs (Z.of_nat i)) as (D & _); [unfold in_slots; lia|congruence|]. rewrite Ea in D. lia.
Qed.

(** The blocks outside the log determine the files. *)
Lemma contents_ext k k2 sb x size f :
  layout k sb -> slots_ok k sb x -> (forall b, is_log k b = false -> kget k2 b = kget k b) -> contents k x size f -> contents k2 x size f.
Proof.
  intros Hl Hs Hk [E Hf]. split; [done|]. intros y Hy. rewrite <- Hf by done. unfold fbyte, fblock. destruct (bslot_ok (y / 1024)) as [Hj _]; [Z.div_mod_to_equations; lia|].
  assert (Hd : forall b, data_block k sb b -> kget k2 b = kget k b) by (intros b Hb; by apply Hk, (data_not_log _ sb)).
  assert (Esl : slot k2 x (bslot (y / 1024)) = slot k x (bslot (y / 1024))).
  { unfold slot. destruct (_ <? 13); [done|]. fold (iaddr x). destruct (Z.eqb_spec (iaddr x) 0); [done|]. rewrite Hd; [done|]. by apply (sk_data _ _ _ Hs 12). }
  rewrite Esl. destruct (Z.eqb_spec (slot k x (bslot (y / 1024))) 0); [done|]. rewrite Hd; [done|]. by apply (sk_data _ _ _ Hs).
Qed.

Lemma durable_ext k k2 sb x : layout k sb -> 0 <= i_inum x < sb_ninodes sb -> (forall b, is_log k b = false -> kget k2 b = kget k b) -> durable k sb x -> durable k2 sb x.
Proof. intros Hl Hi Hk Hd. unfold durable. destruct (inode_block k sb _ Hl Hi) as (B1 & _). by rewrite Hk. Qed.

Lemma written_durable sb data off k x r k' x' :
  layout k sb -> slots_ok k sb x -> 0 <= i_inum x < sb_ninodes sb -> dinode_fits x -> length (kget k (IBLOCK (i_inum x) sb)) = 1024%nat -> written sb data off k x r k' x' ->
  durable k' sb x' /\ i_inum x' = i_inum x.
Proof.
  intros Hl Hs Hi Hf Hlen (k1 & x1 & He & Ex & Ek & Hr & _ & _ & [Hsz _] & Hl' & _ & _ & Hs').
  pose proof (ev_x _ _ _ _ _ He) as Ex1. assert (Einum : i_inum x' = i_inum x) by (rewrite Ex, Ex1; done). split; [|done].
  destruct (inode_block k sb _ Hl Hi) as (B1 & B2 & B3 & B4). pose proof (inode_block_in k sb _ Hl Hi) as B5.
  assert (Eb : kget k1 (IBLOCK (i_inum x) sb) = kget k (IBLOCK (i_inum x) sb)).
  { apply (ev_frame _ _ _ _ _ He); auto; [by apply (ly_meta _ _ Hl)|]. intros (j & Hj & Esl & Hn). rewrite <- Esl in B2, Hn. by destruct (sk_data _ _ _ Hs j Hj Hn) as (_ & _ & [] & _). }
  unfold durable. apply dinode_eq_load. rewrite Ek at 1. unfold updated. rewrite kget_put_logged, decide_True by done.
  apply load_store_dinode; [|by rewrite Einum, Eb|done]. eapply (fits_slots k' sb); eauto. rewrite Ex. cbn. by rewrite Ex1.
Qed.

(** The transaction may write [len] bytes at [off] of the file [x]. *)
Record writable (k : blk) (sb : superblock) (x : inode) (off len : Z) (B : gset Z) (n : nat) : Prop := {
  wr_ready : ready sb k x B n;
  wr_touched : touched off len <= Z.of_nat n;
  wr_iblock : IBLOCK (i_inum x) sb ∈ B;
  wr_inum : 0 <= i_inum x < sb_ninodes sb;
  wr_mapped : mapped k x;
  wr_fits : dinode_fits x;
  wr_len : length (kget k (IBLOCK (i_inum x) sb)) = 1024%nat;
  wr_durable : durable k sb x;
  wr_off : 0 <= off <= i_size x /\ 0 <= len /\ off + len <= 274432;
}.

Section crash.
Context {U : Type} `{UserMemOk U}.

Lemma writei_transaction start size v (t : fs blk U) ip user src kbs off data x sb B n :
  let k := set_ops 1 (boot_blk start size v) in
  f_blk t = boot_blk start size v -> f_itable t !! Z.to_nat ip = Some x -> f_sb t = sb ->
  writable k sb x off (Z.of_nat (length data)) B n -> source user (f_um t) src kbs data -> 0 <= src < 2 ^ 64 ->
  exists r k' x', transaction (fun S L => writei ip user src kbs off (Z.of_nat (length data))) t = Ok (r, with_ino t ip (boot_blk start size (k_view k')) x') /\
    written sb data off k x r k' x' /\ k_start k' = start /\ k_size k' = size.
Proof.
  intros k Hq Hx Esb [W1 W2 W3 W4 W5 W6 W7 W8 (W9 & W10 & W11)] Hsrc Hs64. assert (Hv : valid_ip t ip) by (by eapply lookup_lt_Some).
  set (body := fun S (L : BlockLayer S) => writei ip user src kbs off (Z.of_nat (length data)) : M (fs S U) Z).
  destruct (writei_run ip user k x sb t off src kbs data B n) as (r & k' & x' & E & Hw); auto; try lia.
  unfold write_ok in Hw. rewrite !(proj2 (Z.leb_le _ _)) in Hw by lia. cbn [andb] in Hw. exists r, k', x'. pose proof Hw as (_ & _ & _ & _ & _ & _ & _ & _ & _ & Hl' & _ & Hh & _).
  assert (Hlay : layered body) by (intros S T LS LT R HR; by apply sim_writei).
  assert (Et : mk_fs k (f_um t) (f_sb t) (f_itable t) = with_ino t ip k x) by (unfold with_ino; by rewrite list_insert_id).
  rewrite <- Et in E. destruct (body_log body start size v _ _ _ _ _ Hlay E) as (_ & Hst & Hsz). by rewrite (transaction_run body start size v t _ _ Hlay Hq E Hh).
Qed.

(** (C1) writei as a transaction of the real block layers is atomic.  The call
    stores [r] of the bytes given to it ([r] is all of them unless the disk is
    full).  If the machine stops after any number [c] of the disk writes that it
    makes, rebooting succeeds, and the inode then on the disk has the type,
    device numbers and link count it had and describes a file with the size and
    every byte as before the call, or one with exactly the [r] bytes replaced and
    the size grown to cover them.  The file is well formed, the bytes given can
    be read ([source]), and the blocks that the call may touch fit in one
    transaction ([writable]). *)
Theorem writei_crash_atomic me start size v (s : fs (lfs bio) U) ip user src kbs off data x sb B n :
  let k := set_ops 1 (boot_blk start size v) in
  stack_rel me (f_blk s) (boot_blk start size v) -> f_itable s !! Z.to_nat ip = Some x -> f_sb s = sb ->
  writable k sb x off (Z.of_nat (length data)) B n -> source user (f_um s) src kbs data -> 0 <= src < 2 ^ 64 ->
  exists r s' v' ws j,
    transaction (L := stack_layer me) (fun S L => writei ip user src kbs off (Z.of_nat (length data))) s = Ok (r, s') /\
    stack_rel me (f_blk s') (boot_blk start size v') /\
    0 <= r <= Z.of_nat (length data) /\ (r = Z.of_nat (length data) \/ full (boot_blk start size v') sb) /\
    let d := bio_disk (l_bc (f_blk s)) in
    d_hist (bio_disk (l_bc (f_blk s'))) = d_hist d ++ ws /\ (j <= length ws)%nat /\
    forall c, exists s2 v2 x2,
      @recover_from_log bio (bio_BufCache me) (mk_lfs (boot_log start size) (binit (bss_bio (crash_disk d ws c)))) = Ok (tt, s2) /\
      let k2 := boot_blk start size v2 in
      stack_rel me s2 k2 /\ durable k2 sb x2 /\ i_inum x2 = i_inum x /\
      i_type x2 = i_type x /\ i_major x2 = i_major x /\ i_minor x2 = i_minor x /\ i_nlink x2 = i_nlink x /\
      if (c <? j)%nat then contents k2 x2 (i_size x) (fbyte k x)
      else contents k2 x2 (Z.max (i_size x) (off + r)) (over data 0 off r (fbyte k x)).
Proof.
  intros k Hrel Hx Esb Hw Hsrc Hs64. set (t := mk_fs (boot_blk start size v) (f_um s) (f_sb s) (f_itable s)).
  destruct (writei_transaction start size v t ip user src kbs off data x sb B n eq_refl Hx Esb Hw Hsrc Hs64) as (r & k' & x' & E & Hwr & Hst & Hsz).
  destruct (transaction_crash me (fun S L => writei ip user src kbs off (Z.of_nat (length data))) start size v s r (with_ino t ip (boot_blk start size (k_view k')) x')) as (s' & v' & ws & j & Es & Hrel' & Ev & Hws & Hj & Hc);
    [intros S T LS LT R HR; by apply sim_writei|exact Hrel|exact E|].
  cbn in Ev. assert (Ev' : k_view k' = v') by (injection Ev; done). subst v'. pose proof Hw as [W1 W2 W3 W4 W5 W6 W7 W8 W9]. pose proof W1 as [R1 R2 R3 R4 R5 R6].
  destruct (written_durable sb data off k x r k' x') as [Hdur Einum]; auto. pose proof Hwr as (k1 & x1 & He & Ex & _ & Hr & Hfull & Hby & _ & Hl' & _ & _ & Hs').
  assert (Hlog : forall k0 b, k_start k0 = start -> k_size k0 = size -> is_log k0 b = false -> ~ (start <= b < start + size)) by (intros k0 b <- <-; by rewrite <- is_log_spec, not_true_iff_false).
  exists r, s', (k_view k'), ws, j. split; [exact Es|]. split; [apply Hrel'|]. split; [done|]. split; [by destruct Hfull as [?|[? _]]; [left|right]|]. split; [exact Hws|]. split; [done|].
  intros c. destruct (Hc c) as (s2 & v2 & Er & Hr2 & Hb). exists s2, v2, (if (c <? j)%nat then x else x'). split; [exact Er|]. split; [exact Hr2|]. destruct (c <? j)%nat.
  - assert (Hk : forall b, is_log k b = false -> kget (boot_blk start size v2) b = kget k b) by (intros b Hnb; by apply Hb, (Hlog k)).
    split_and!; [by eapply (durable_ext k)|done..|]. exact (contents_ext k _ sb x _ _ R1 R4 Hk (conj eq_refl (fun y _ => eq_refl))).
  - assert (Hk : forall b, is_log k' b = false -> kget (boot_blk start size v2) b = kget k' b) by (intros b Hnb; by apply Hb, (Hlog k')).
    pose proof (ev_x _ _ _ _ _ He) as Ex1. split_and!; [by eapply (durable_ext k'); [| rewrite Einum| |]|done|rewrite Ex, Ex1; done..|]. refine (contents_ext k' _ sb x' _ _ Hl' Hs' Hk _). split; [by rewrite Ex|exact Hby].
Qed.

End crash.

(** ** A small file system

    64 blocks: the log in 2..31, the inodes in 32, the bitmap in 34, and the
    only file, inode 1, in block 35. *)

Definition demo_sb : superblock := mk_sb FSMAGIC 64 29 16 30 2 32 34.

Definition demo_inode (type size : Z) : inode := mk_inode 1 1 1 (mk_sleeplock true 1) true type 0 0 1 size (35 :: replicate 12 0).

Definition demo_disk (type : Z) (bs : list Z) : blocks :=
  <[35 := bs ++ replicate (1024 - length bs) 0]> (<[34 := [255; 255; 255; 255; 15] ++ replicate 1019 0]> (<[32 := store_dinode (demo_inode type (Z.of_nat (length bs))) zero_block]> ∅)).

Section demo.
Context (type : Z) (bs : list Z) (v : blocks).
Hypothesis Htype : -32768 <= type < 32768.
Hypothesis Hbs : (length bs <= 1024)%nat.
Hypothesis Hv : forall b, ~ (2 <= b < 32) -> disk_get v b = disk_get (demo_disk type bs) b.

#[local] Abbreviation k := (set_ops 1 (boot_blk 2 30 v)).
#[local] Abbreviation x := (demo_inode type (Z.of_nat (length bs))).

Lemma demo_get32 : kget k 32 = store_dinode x zero_block.
Proof. unfold kget. cbn [k_view set_ops boot_blk]. rewrite Hv by lia. done. Qed.

Lemma demo_get34 : kget k 34 = [255; 255; 255; 255; 15] ++ replicate 1019 0.
Proof. unfold kget. cbn [k_view set_ops boot_blk]. rewrite Hv by lia. done. Qed.

Lemma demo_get35 : kget k 35 = bs ++ replicate (1024 - length bs) 0.
Proof. unfold kget. cbn [k_view set_ops boot_blk]. rewrite Hv by lia. unfold disk_get, demo_disk. by rewrite lookup_insert_eq. Qed.

Lemma demo_used b : 0 <= b < 36 -> used k demo_sb b = true.
Proof.
  intros Hb. unfold used, BBLOCK. replace (b / BPB + sb_bmapstart demo_sb) with 34 by (cbn; unfold BPB; Z.div_mod_to_equations; lia). rewrite demo_get34.
  rewrite Z.mod_small by (unfold BPB; lia). assert (Hall : forallb (fun i => bit_set ([255; 255; 255; 255; 15] ++ replicate 1019 0) (Z.of_nat i)) (seq 0 36) = true) by (vm_compute; reflexivity).
  rewrite forallb_forall in Hall. specialize (Hall (Z.to_nat b)). rewrite Z2Nat.id in Hall by lia. apply Hall, in_seq. lia.
Qed.

Lemma demo_layout : layout k demo_sb.
Proof.
  split; try done; cbn.
  - intros b Hb. apply demo_used. change (0 <= b < 35) in Hb. lia.
  - intros b Hb. unfold BBLOCK. replace (b / BPB + sb_bmapstart demo_sb) with 34 by (cbn; unfold BPB; Z.div_mod_to_equations; lia). by rewrite demo_get34.
Qed.

Lemma demo_slot j : in_slots j -> slot k x j = if j =? 0 then 35 else 0.
Proof.
  intros Hj. unfold slot, in_slots in *. destruct (Z.ltb_spec j 13); cbn [demo_inode i_addrs].
  - destruct (Z.eqb_spec j 0) as [->|Hn]; [done|]. replace (Z.to_nat j) with (Datatypes.S (Z.to_nat (j - 1))) by lia. rewrite lookup_total_cons_ne_0 by lia.
    cbn [Nat.pred]. rewrite lookup_total_replicate_2 by lia. done.
  - rewrite (proj2 (Z.eqb_neq j 0)) by lia. done.
Qed.

Lemma demo_slots : slots_ok k demo_sb x.
Proof.
  split; [done| |].
  - intros j Hj. rewrite demo_slot by done. case_bool; [|done]. intros _. split_and!; [cbn; lia|cbn; lia|apply demo_used; lia|change (~ 0 <= 35 < 35); lia|].
    rewrite demo_get35, length_app, length_replicate. lia.
  - intros i j Hi Hj. rewrite !demo_slot by done. case_bool; done || lia.
Qed.

Lemma demo_fits : dinode_fits x.
Proof. split; cbn; try lia; try done. rewrite !Forall_cons, Forall_nil. lia. Qed.

Lemma demo_writable off len : 0 <= off <= Z.of_nat (length bs) -> 0 <= len -> off + len <= 1024 -> writable k demo_sb x off len {[32; 34]} 1.
Proof.
  intros Ho Hl Hol. split.
  - split; auto using demo_layout, demo_slots; [by intros b; right|unfold ibudget, budget; cbn; split_and!; try lia; constructor|].
    intros b Hb. unfold BBLOCK. replace (b / BPB + sb_bmapstart demo_sb) with 34 by (cbn in *; unfold BPB; Z.div_mod_to_equations; lia). set_solver.
  - unfold touched. case_bool; [lia|]. Z.div_mod_to_equations. lia.
  - cbn. set_solver.
  - cbn. lia.
  - split; [cbn; lia|]. intros bn H1 H2. cbn in H2. assert (bn = 0) as -> by lia. unfold fblock. by rewrite demo_slot.
  - apply demo_fits.
  - change (IBLOCK (i_inum x) demo_sb) with 32. by rewrite demo_get32, length_store_dinode.
  - unfold durable. change (IBLOCK (i_inum x) demo_sb) with 32. rewrite demo_get32. by apply dinode_eq_load, load_store_dinode; [apply demo_fits| |].
  - cbn. lia.
Qed.

Lemma demo_bytes y : 0 <= y < Z.of_nat (length bs) -> fbyte k x y = byte_at bs y.
Proof.
  intros Hy. unfold fbyte, fblock. rewrite (Z.div_small y), (Z.mod_small y) by lia. rewrite demo_slot by (done || lia). cbn [Z.eqb bslot Z.ltb Z.compare]. rewrite demo_get35. unfold byte_at. by rewrite lookup_app_l by lia.
Qed.

(** As a directory with one entry. *)
Lemma demo_entries : length bs = 16%nat -> dir_entries k x = [bs].
Proof.
  intros Hl. unfold dir_entries. cbn [i_size demo_inode]. rewrite Hl. change (Z.to_nat (Z.of_nat 16 / 16)) with 1%nat. cbn [seq fmap list_fmap]. f_equal. apply list_eq. intros i.
  destruct (decide (i < 16)%nat); [|by rewrite !lookup_ge_None_2 by (rewrite ?length_file_range; lia)]. rewrite lookup_file_range by done. pose proof (demo_bytes (Z.of_nat i)) as E.
  cbn [i_size demo_inode] in E. rewrite Hl in *. change (16 * Z.of_nat 0) with 0. rewrite Z.add_0_l, E by lia. unfold byte_at. rewrite Nat2Z.id. destruct (lookup_lt_is_Some_2 bs i) as [b ->]; [lia|done].
Qed.

Lemma demo_read_pre : read_pre k demo_sb x.
Proof. split; [apply demo_layout|split; [by intros b; right|split; [done|split; [by vm_compute; lia|apply demo_slots]]]]. Qed.

End demo.

(** The machine that has booted from that disk. *)
Lemma demo_boot me type bs : exists s v, stack_rel me s (boot_blk 2 30 v) /\ forall b, ~ (2 <= b < 32) -> disk_get v b = disk_get (demo_disk type bs) b.
Proof.
  assert (Eh : disk_get (demo_disk type bs) 2 = zero_block) by (unfold disk_get, demo_disk; by rewrite !lookup_insert_ne).
  destruct (recovered_clear 2 30 (demo_disk type bs)) as [Hok Hr]; [lia|lia|by rewrite Eh|by rewrite Eh|].
  destruct (boot_stack me 2 30 (mk_disk (demo_disk type bs) []) Hok) as (s & _ & Hs). exists s, (recovered 2 (demo_disk type bs)). split; [exact Hs|]. intros b Hb. apply Hr. lia.
Qed.


(** ** Files and directories on the store *)

Section store.
Context {U : Type} `{UserMemOk U}.
Implicit Types (t : fs blk U).

(** A store between calls that the kernel can read files from. *)
Lemma quiet_read_pre start size k sb x : layout k sb -> k_start k = start -> k_size k = size -> slots_ok k sb x -> read_pre (boot_blk start size (k_view k)) sb x.
Proof.
  intros Hl <- <- Hs. split; [|split; [by intros b; right|split; [done|split; [by vm_compute; lia|]]]].
  - destruct Hl as [L1 L2 L3 L4 L5 L6]. by split.
  - destruct Hs as [S1 S2 S3]. by split.
Qed.

(** (C5) What is written is what is read.  A transaction that runs writei at
    [off] of a file stores [r] bytes, all of them unless the disk is full, and
    any later readi returns, within the size of the file, the new bytes at
    [off .. off+r) and the bytes that were there before everywhere else. *)
Theorem writei_readi start size v t ip user src kbs off data x sb B n :
  let k := set_ops 1 (boot_blk start size v) in
  f_blk t = boot_blk start size v -> f_itable t !! Z.to_nat ip = Some x -> f_sb t = sb ->
  writable k sb x off (Z.of_nat (length data)) B n -> source user (f_um t) src kbs data -> 0 <= src < 2 ^ 64 ->
  exists r t', transaction (fun S L => writei ip user src kbs off (Z.of_nat (length data))) t = Ok (r, t') /\
    0 <= r <= Z.of_nat (length data) /\ (r = Z.of_nat (length data) \/ full (f_blk t') sb) /\
    forall o m, 0 <= o <= Z.max (i_size x) (off + r) -> 0 <= m -> o + m < 2 ^ 32 ->
      let c := Z.min m (Z.max (i_size x) (off + r) - o) in
      readi ip false 0 o m t' = Ok ((c, (fun i => over data 0 off r (fbyte k x) (o + Z.of_nat i)) <$> seq 0 (Z.to_nat c)), t').
Proof.
  intros k Hq Hx Esb Hw Hsrc Hs64. assert (Hv : valid_ip t ip) by (by eapply lookup_lt_Some).
  destruct (writei_transaction start size v t ip user src kbs off data x sb B n Hq Hx Esb Hw Hsrc Hs64) as (r & k' & x' & E & (k1 & x1 & He & Ex & _ & Hr & Hfull & Hby & Hm & Hl' & _ & _ & Hs') & Hst & Hsz).
  exists r. eexists. split; [exact E|]. split; [done|]. split; [by destruct Hfull as [?|[? _]]; [left|right]|]. intros o m Ho Hm0 Hom. cbv zeta.
  assert (Esz : i_size x' = Z.max (i_size x) (off + r)) by (by rewrite Ex). set (kq := boot_blk start size (k_view k')).
  destruct (readi_run ip false kq x' sb t o m 0 (f_um t) Hv (quiet_read_pre _ _ _ _ _ Hl' Hst Hsz Hs') Hm) as (c & u' & out & Er & Hc); [lia|lia|done|].
  assert (El : read_len x' o m = Z.min m (i_size x' - o)). { unfold read_len. rewrite (proj2 (Z.ltb_ge _ _)), (proj2 (Z.leb_gt _ _)) by lia. done. }
  rewrite El, Esz in Hc. assert (Et : set_um (f_um t) t = t) by (by destruct t). rewrite Et in Er. destruct Hc as [(-> & -> & Hd)|(_ & ? & _)]; [|done]. cbn in Hd. subst u'. rewrite Et in Er.
  rewrite Er. do 3 f_equal. apply list_fmap_ext. intros i _ [-> Hi]%lookup_seq. rewrite Nat.add_0_l. apply Hby. destruct Hm as [Hm _]. lia.
Qed.

(** (C11) dirlookup answers from the entries of the directory: it returns no
    inode when none of them has the name, and otherwise the cached inode whose
    number the first one with the name has, and the entry's offset; it changes
    nothing but the reference count that iget takes. *)
Theorem dirlookup_correct t dp k sb x name :
  valid_ip t dp -> dir_ok k sb x ->
  dirlookup dp name (with_ino t dp k x) =
  match dir_find (dir_entries k x) name 0 with
  | None => Ok (None, with_ino t dp k x)
  | Some (inum, off) => (ip ← iget (i_dev x) inum; mret (Some (ip, off))) (with_ino t dp k x)
  end.
Proof. apply dirlookup_run. Qed.

(** (C6) dirlink, on every directory.  A name that is in the directory is refused
    with -1, and nothing on the disk changes and no inode in use.  A name that is
    not is added: it is then found with the inode number given, and every other
    name is found exactly as before; or dirlink returns -1, because the disk is
    full, and the directory has the entries that it had, or because the directory
    has the greatest size and no unused entry, and nothing changes. *)
Theorem dirlink_correct t dp k sb x me name inum B :
  valid_ip t dp -> f_sb t = sb -> dir_ok k sb x -> ready sb k x B 1 -> IBLOCK (i_inum x) sb ∈ B -> 0 <= i_inum x < sb_ninodes sb ->
  0 < inum < 65536 ->
  match dir_find (dir_entries k x) name 0 with
  | Some (inum', _) =>
      let tbl := f_itable (with_ino t dp k x) in
      refs_ok tbl -> can_iget tbl (i_dev x) inum' ->
      exists t', dirlink me dp name inum (with_ino t dp k x) = Ok (-1, t') /\ f_blk t' = k /\ f_um t' = f_um t /\ f_sb t' = sb /\
        forall j y, tbl !! j = Some y -> 0 < i_ref y -> f_itable t' !! j = Some y
  | None =>
      exists r k' x', dirlink me dp name inum (with_ino t dp k x) = Ok (r, with_ino t dp k' x') /\
        ((r = 0 /\ dir_find (dir_entries k' x') name 0 = Some (inum, 16 * Z.of_nat (dir_free (dir_entries k x))) /\
          forall name', ~ same_name name' name -> dir_find (dir_entries k' x') name' 0 = dir_find (dir_entries k x) name' 0) \/
         (r = -1 /\ full k' sb /\ dir_entries k' x' = dir_entries k x) \/
         (r = -1 /\ i_size x = 274432 /\ dir_free (dir_entries k x) = length (dir_entries k x) /\ k' = k /\ x' = x))
  end.
Proof.
  intros Hv Esb Hd Hrd HB Hi Hn. destruct (dir_find (dir_entries k x) name 0) as [[inum' off]|] eqn:Hf.
  - intros tbl Hr Hc. destruct (iget_iput me (i_dev x) inum' (with_ino t dp k x) Hr Hc) as (ip & t1 & t' & E & Ep & E1 & E2 & E3 & E4). exists t'. split; [|by rewrite E3].
    unfold dirlink. rewrite bind_run, (dirlookup_run t dp k sb x name Hv Hd), Hf, (bind_Ok _ _ _ _ _ E), ret_run, (bind_Ok _ _ _ _ _ Ep). done.
  - destruct (decide (16 * Z.of_nat (dir_free (dir_entries k x)) < 274432)) as [Hlt|Hge].
    + destruct (dirlink_new t dp k sb x me name inum B) as (r & k' & x' & E & _ & Hr); auto. exists r, k', x'. split; [done|].
      destruct Hr as [(-> & ->)|?]; [left|by right; left]. by destruct (dir_find_put (dir_entries k x) name inum 0 Hn Hf).
    + destruct (dirlink_max t dp k sb x me name inum Hv Hd Hf Hge) as (Es & Ef & E). exists (-1), k, x. split; [exact E|]. by right; right.
Qed.

(** (C7) itrunc gives back the blocks of the inode and nothing else: afterwards
    a block is marked in the bitmap exactly if it was before and did not belong
    to the file; no other block changes but the inode's; and the inode on the
    disk is the one in memory, empty. *)
Theorem itrunc_correct t ip k sb x B n :
  valid_ip t ip -> f_sb t = sb -> ready sb k x B n -> IBLOCK (i_inum x) sb ∈ B -> 0 <= i_inum x < sb_ninodes sb -> dinode_fits x -> length (kget k (IBLOCK (i_inum x) sb)) = 1024%nat ->
  exists k', itrunc ip (with_ino t ip k x) = Ok (tt, with_ino t ip k' (truncated x)) /\
    (forall b, 0 <= b < sb_size sb -> used k' sb b = true <-> used k sb b = true /\ ~ owned k x b) /\
    (forall b, ~ bitmap sb b -> b <> IBLOCK (i_inum x) sb -> kget k' b = kget k b) /\
    durable k' sb (truncated x) /\ layout k' sb /\ clean_store k' /\ k_held k' = ∅.
Proof.
  intros Hv Esb [R1 R2 R3 R4 R5 R6] HI Hi Hf Hlen. subst sb. assert (HB : bitmap_in (f_sb t) (B ∪ ia_set x)) by (intros b Hb; apply elem_of_union; left; by apply R6).
  destruct (inode_block k _ _ R1 Hi) as (I1 & I2 & I3 & I4).
  eexists. split; [by eapply (itrunc_run t ip k x); [..|exact R5|exact HB|set_solver|]|]. pose proof (iblocks_freeable k _ x _ _ R1 R2 R3 R4 R5 HB) as Hfe. destruct (free_list_spec _ _ _ _ _ Hfe) as ([E1 E2 E3 _ _ _ _] & E4 & E5 & E6).
  unfold updated. change (i_inum (truncated x)) with (i_inum x). split_and!.
  - intros b Hr. rewrite used_put, E5 by done. rewrite andb_true_iff, negb_true_iff, andb_false_iff, bool_decide_eq_false, negb_false_iff, Z.eqb_eq. destruct (decide (b = 0)) as [->|Hn].
    + split; [intros [? _]; split; [done|]; by intros (j & _ & _ & [])|intros [? _]; auto].
    + rewrite iblocks_owned by done. tauto.
  - intros b Hn Hne. rewrite kget_put_logged, decide_False by done. by apply E6.
  - unfold durable. change (i_inum (truncated x)) with (i_inum x). rewrite kget_put_logged, decide_True by done. apply dinode_eq_load, load_store_dinode; [|by rewrite E6|done].
    destruct Hf as [F1 F2 F3 F4 F5 F6 F7 F8]. split; auto; cbn; [lia|]. rewrite !Forall_cons, Forall_nil. lia.
  - by apply layout_put.
  - by apply clean_put.
  - by rewrite <- R3, <- E4.
Qed.

End store.

(** An inode written to its place in an inode block is read back as it was,
    whatever the block held, and the other inodes of the block stay as they
    were. *)
Theorem dinode_roundtrip x d :
  dinode_fits x -> length d = 1024%nat ->
  (forall y, i_inum y = i_inum x -> dinode_eq (load_dinode (store_dinode x d) y) x) /\
  (forall y, 0 <= i_inum y -> i_inum y mod IPB <> i_inum x mod IPB -> load_dinode (store_dinode x d) y = load_dinode d y) /\ length (store_dinode x d) = 1024%nat.
Proof. intros Hf Hd. split; [intros y; by apply load_store_dinode|split; [intros y; apply load_store_other; [apply Hf..|done]|by rewrite length_store_dinode]]. Qed.


(** ** Witnesses on the small file system *)

Definition demo_state (type : Z) (bs : list Z) : fs blk flat := mk_fs (boot_blk 2 30 (demo_disk type bs)) (mk_flat ∅) demo_sb [demo_inode type (Z.of_nat (length bs))].

Lemma writei_crash_atomic_witness : exists s s' v v' r ws j,
  transaction (L := stack_layer 1) (fun S L => writei 0 false 0 [1; 2; 3; 4] 1 4) (mk_fs s (mk_flat ∅) demo_sb [demo_inode T_FILE 3]) = Ok (r, s') /\
  stack_rel 1 s (boot_blk 2 30 v) /\ stack_rel 1 (f_blk s') (boot_blk 2 30 v') /\ d_hist (bio_disk (l_bc (f_blk s'))) = d_hist (bio_disk (l_bc s)) ++ ws /\ (j <= length ws)%nat.
Proof.
  destruct (demo_boot 1 T_FILE [104; 105; 10]) as (s & v & Hs & Hv).
  destruct (writei_crash_atomic 1 2 30 v (mk_fs s (mk_flat ∅) demo_sb [demo_inode T_FILE 3]) 0 false 0 [1; 2; 3; 4] 1 [1; 2; 3; 4] (demo_inode T_FILE 3) demo_sb {[32; 34]} 1) as (r & s' & v' & ws & j & E & Hr & _ & _ & Hw & Hj & _);
    [exact Hs|done|done| |done|lia|].
  - apply (demo_writable T_FILE [104; 105; 10] v); [unfold T_FILE; lia|cbn; lia|exact Hv|cbn; lia..].
  - exists s, s', v, v', r, ws, j. split_and!; auto.
Defined.

Lemma writei_readi_witness : exists r t', transaction (fun S L => writei 0 false 0 [1; 2; 3; 4] 1 4) (demo_state T_FILE [104; 105; 10]) = Ok (r, t') /\ 0 <= r <= 4.
Proof.
  destruct (writei_readi 2 30 (demo_disk T_FILE [104; 105; 10]) (demo_state T_FILE [104; 105; 10]) 0 false 0 [1; 2; 3; 4] 1 [1; 2; 3; 4] (demo_inode T_FILE 3) demo_sb {[32; 34]} 1) as (r & t' & E & Hr & _);
    [done|done|done| |done|lia|].
  - apply (demo_writable T_FILE [104; 105; 10]); [unfold T_FILE; lia|cbn; lia|done|cbn; lia..].
  - exists r, t'. split; [exact E|exact Hr].
Defined.

(** A directory that holds only its dot entry. *)
Definition demo_dir : list Z := mk_dirent 1 [46].
#[local] Abbreviation demo_k := (set_ops 1 (boot_blk 2 30 (demo_disk T_DIR demo_dir))).

Lemma demo_dir_ok : dir_ok demo_k demo_sb (demo_inode T_DIR 16).
Proof.
  split; [apply (demo_read_pre T_DIR demo_dir); [cbn; lia|done]|]. split; [|done].
  apply (wr_mapped _ _ _ _ _ _ _ (demo_writable T_DIR demo_dir (demo_disk T_DIR demo_dir) ltac:(unfold T_DIR; lia) ltac:(cbn; lia) ltac:(done) 0 0 ltac:(cbn; lia) ltac:(lia) ltac:(lia))).
Qed.

Lemma demo_find name : dir_find (dir_entries demo_k (demo_inode T_DIR 16)) name 0 = dir_find [demo_dir] name 0.
Proof. rewrite <- (demo_entries T_DIR demo_dir (demo_disk T_DIR demo_dir)); [done|cbn; lia|done|done]. Qed.

Lemma dirlookup_correct_witness : exists t',
  dirlookup 0 [46] (with_ino (demo_state T_DIR demo_dir) 0 demo_k (demo_inode T_DIR 16)) = Ok (Some (0, 0), t') /\ i_ref (f_itable t' !!! 0%nat) = 2.
Proof.
  eexists. rewrite (dirlookup_correct (demo_state T_DIR demo_dir) 0 demo_k demo_sb (demo_inode T_DIR 16) [46]); [|unfold valid_ip; cbn; lia|exact demo_dir_ok]. rewrite demo_find.
  split; reflexivity.
Defined.

Lemma dirlink_correct_witness :
  (exists r k' x', dirlink 1 0 [97] 2 (with_ino (demo_state T_DIR demo_dir) 0 demo_k (demo_inode T_DIR 16)) = Ok (r, with_ino (demo_state T_DIR demo_dir) 0 k' x')) /\
  exists t', dirlink 1 0 [46] 2 (with_ino (demo_state T_DIR demo_dir) 0 demo_k (demo_inode T_DIR 16)) = Ok (-1, t') /\ f_blk t' = demo_k.
Proof.
  pose proof (demo_writable T_DIR demo_dir (demo_disk T_DIR demo_dir) ltac:(unfold T_DIR; lia) ltac:(cbn; lia) ltac:(done) 0 0 ltac:(cbn; lia) ltac:(lia) ltac:(lia)) as W.
  pose proof (fun name => dirlink_correct (demo_state T_DIR demo_dir) 0 demo_k demo_sb (demo_inode T_DIR 16) 1 name 2 {[32; 34]} ltac:(unfold valid_ip; cbn; lia) eq_refl demo_dir_ok
    (wr_ready _ _ _ _ _ _ _ W) (wr_iblock _ _ _ _ _ _ _ W) ltac:(cbn; lia) ltac:(lia)) as H. split.
  - specialize (H [97]). rewrite demo_find in H. destruct H as (r & k' & x' & E & _). exists r, k', x'. exact E.
  - specialize (H [46]). rewrite demo_find in H. destruct H as (t' & E & Ek & _); [repeat constructor; cbn; lia|by vm_compute|]. exists t'. exact (conj E Ek).
Defined.

Lemma itrunc_correct_witness : exists k',
  itrunc 0 (with_ino (demo_state T_DIR demo_dir) 0 demo_k (demo_inode T_DIR 16)) = Ok (tt, with_ino (demo_state T_DIR demo_dir) 0 k' (truncated (demo_inode T_DIR 16))) /\ durable k' demo_sb (truncated (demo_inode T_DIR 16)).
Proof.
  pose proof (demo_writable T_DIR demo_dir (demo_disk T_DIR demo_dir) ltac:(unfold T_DIR; lia) ltac:(cbn; lia) ltac:(done) 0 0 ltac:(cbn; lia) ltac:(lia) ltac:(lia)) as W.
  destruct (itrunc_correct (demo_state T_DIR demo_dir) 0 demo_k demo_sb (demo_inode T_DIR 16) {[32; 34]} 1) as (k' & E & _ & _ & Hd & _);
    [unfold valid_ip; cbn; lia|done|exact (wr_ready _ _ _ _ _ _ _ W)|exact (wr_iblock _ _ _ _ _ _ _ W)|cbn; lia|exact (wr_fits _ _ _ _ _ _ _ W)|exact (wr_len _ _ _ _ _ _ _ W)|].
  exists k'. split; [exact E|exact Hd].
Defined.

Lemma dinode_roundtrip_witness : dinode_eq (load_dinode (store_dinode (demo_inode T_DIR 16) zero_block) (demo_inode T_DIR 16)) (demo_inode T_DIR 16).
Proof. apply (dinode_roundtrip (demo_inode T_DIR 16) zero_block); [|done..]. apply (demo_fits T_DIR demo_dir); [unfold T_DIR; lia|cbn; lia]. Defined.
