(* ===== verification/Fsinit.v ===== *)
(** The boot of the file system, fsinit of kernel/fs.c: over the buffer cache
    that binit has just set up it reads the superblock and hands the log of the
    disk to initlog.  Shown over the code of bio.c and log.c. *)

From S2P Require Import UserMem Prelude Riscv Bytes Refine Cache Bio Log LogCrash Blocks Fs FsSim.

Section fsinit.
Context {S U : Type} `{BufCache S}.

Definition fsinit (dev : Z) : M (fs (lfs S) U) unit :=
  sb ← readsb;
  modify (fun t => mk_fs (f_blk t) (f_um t) sb (f_itable t));;
  if negb (sb_magic sb =? FSMAGIC) then panic "invalid file system"
  else blk_op (initlog dev (sb_logstart sb) (sb_nlog sb)).

End fsinit.

(** The log before initlog: static memory. *)
Definition bss_log : logst := mk_log 0 0 0 false 0 0 (replicate 30 0).

Lemma blk_op_ok {S U A} (m : M S A) (u : U) sb tbl a s s' :
  m s = Ok (a, s') -> blk_op m (mk_fs s u sb tbl) = Ok (a, mk_fs s' u sb tbl).
Proof. intros E. unfold blk_op. cbn [f_blk f_um f_sb f_itable]. by rewrite E. Qed.

Lemma initlog_bss {S} `{BufCache S} start nlog (c : S) :
  initlog ROOTDEV start nlog (mk_lfs bss_log c) = recover_from_log (mk_lfs (boot_log start nlog) c).
Proof. reflexivity. Qed.

(** Reading a block through an idle cache leaves it idle. *)
Lemma readsb_cache {U} g d (t : fs (lfs cache) U) : f_blk t = mk_lfs g (empty_cache d) ->
  readsb t = Ok (parse_sb (disk_get (d_blocks d) 1), t).
Proof.
  intros Et. destruct t as [b u sb tbl]. cbn in Et. subst b. set (x := disk_get (d_blocks d) 1).
  set (c1 := mk_cache d (<[1 := x]> ∅) ({[1]} ∪ ∅) ∅).
  assert (E1 : cache_read 1 (empty_cache d) = Ok (tt, c1)) by (apply cache_read_new; [set_solver|done|by vm_compute; lia]).
  assert (E2 : cache_data 1 c1 = Ok (x, c1)) by (apply cache_data_ok; [set_solver|apply lookup_insert_eq]).
  assert (E3 : cache_relse 1 c1 = Ok (tt, empty_cache d)).
  { rewrite (cache_relse_clean 1 c1); [|set_solver|done|apply lookup_insert_eq]. unfold c1, empty_cache. cbn [c_disk c_mem c_held c_pins].
    by rewrite delete_insert_id. }
  unfold readsb. cbn [bl_read bl_data bl_relse lfs_BlockLayer bc_read bc_data bc_relse cache_BufCache].
  rewrite (bind_Ok _ _ _ _ _ (blk_op_ok _ u sb tbl _ _ _ (bc_run _ g _ _ _ E1))).
  rewrite (bind_Ok _ _ _ _ _ (blk_op_ok _ u sb tbl _ _ _ (bc_run _ g _ _ _ E2))).
  rewrite (bind_Ok _ _ _ _ _ (blk_op_ok _ u sb tbl _ _ _ (bc_run _ g _ _ _ E3))). done.
Qed.

Section boot.
Context {U : Type} (me : Z) (d : disk).
Let sb := parse_sb (disk_get (d_blocks d) 1).

(** readsb over the code of bio.c, from the cache binit leaves. *)
Lemma readsb_stack (t : fs (lfs bio) U) g : f_blk t = mk_lfs g (binit (bss_bio d)) ->
  exists c, @readsb (lfs bio) U (stack_layer me) t = Ok (sb, mk_fs (mk_lfs g c) (f_um t) (f_sb t) (f_itable t)) /\ bio_rel me c (empty_cache d).
Proof.
  intros Et. destruct t as [b u sb0 tbl]. cbn in Et. subst b. cbn [f_um f_sb f_itable].
  pose proof (@log_sim bio cache (bio_BufCache me) _ (bio_rel me) (bio_sim me)) as Hs.
  set (t := mk_fs (mk_lfs g (empty_cache d)) u sb0 tbl).
  assert (Hr : fs_rel (lfs_rel (bio_rel me)) (mk_fs (mk_lfs g (binit (bss_bio d))) u sb0 tbl) t) by (split_and!; [split; [done|apply binit_rel]|done..]).
  destruct (@sim_readsb _ _ U (stack_layer me) _ _ (@layer_ops_sim _ _ (stack_layer me) _ _ Hs) _ _ Hr _ _ (readsb_cache g d t eq_refl)) as ([[g' c] u' sb' tbl'] & E & ((Eg & Hc) & Eu & Es & Ei)).
  cbn in Eg, Hc, Eu, Es, Ei. subst g' u' sb' tbl'. exact (ex_intro _ c (conj E Hc)).
Qed.

(** fsinit on a disk whose superblock has not the magic number stops the kernel;
    on a disk with a log it ends, with the superblock of the disk in memory and the
    block layers in the state of a boot: what the log had committed is installed. *)
Lemma fsinit_run (t : fs (lfs bio) U) : f_blk t = mk_lfs bss_log (binit (bss_bio d)) ->
  (sb_magic sb <> FSMAGIC -> @fsinit bio U (bio_BufCache me) ROOTDEV t = Panic "invalid file system") /\
  (sb_magic sb = FSMAGIC -> log_disk_ok (sb_logstart sb) (sb_nlog sb) (d_blocks d) ->
   exists s, @fsinit bio U (bio_BufCache me) ROOTDEV t = Ok (tt, mk_fs s (f_um t) sb (f_itable t)) /\
     stack_rel me s (boot_blk (sb_logstart sb) (sb_nlog sb) (recovered (sb_logstart sb) (d_blocks d)))).
Proof.
  intros Et. destruct (readsb_stack t bss_log Et) as (c & E & Hc). unfold fsinit. rewrite (bind_Ok _ _ _ _ _ E), bind_run, modify_run. cbn [f_blk f_um f_itable].
  split; intros Hm.
  - by rewrite (proj2 (Z.eqb_neq _ _) Hm).
  - intros Hok. rewrite Hm. destruct (boot_from me _ _ d c Hc Hok) as (s & Er & Hs). exists s. split; [|exact Hs].
    change (negb (FSMAGIC =? FSMAGIC)) with false. cbv iota. apply blk_op_ok. exact (eq_trans (@initlog_bss bio (bio_BufCache me) _ _ c) Er).
Qed.

End boot.
