(* ===== verification/Mkfs.v ===== *)
(** mkfs/mkfs.c: the program of the build host that makes the first image of the
    file system.

    The image file is its blocks; reading past its end fails.  A struct dinode
    is an [inode] of the kernel of which only the fields on disk are used; xshort
    and xint are the identity of a little-endian host.  The host's files come as
    what open and the calls of read return; lseek and write do not fail. *)

From S2P Require Import Prelude Riscv UserMem Bytes Refine Cache Bio Log Blocks Fs FsDir.

Definition NINODES : Z := 200.
Definition ninodeblocks : Z := NINODES / IPB + 1.

(** convert to riscv byte order *)
Definition xshort (x : Z) : Z := u8 x + 256 * u8 (Z.shiftr x 8).
Definition xint (x : Z) : Z :=
  u8 x + 256 * (u8 (Z.shiftr x 8) + 256 * (u8 (Z.shiftr x 16) + 256 * u8 (Z.shiftr x 24))).

(** Number of meta blocks: boot, superblock, nlog, inodes, bitmap. *)
Definition nmeta : Z := 2 + LOGSIZE + ninodeblocks + (FSSIZE / BPB + 1).

Definition sb : superblock :=
  mk_sb FSMAGIC (xint FSSIZE) (xint (FSSIZE - nmeta)) (xint NINODES) (xint LOGSIZE) (xint 2) (xint (2 + LOGSIZE)) (xint (2 + LOGSIZE + ninodeblocks)).

Record mkfs := mk_mkfs { m_img : blocks; m_freeinode : Z; m_freeblock : Z }.

Definition upd_img (f : blocks -> blocks) (s : mkfs) : mkfs := mk_mkfs (f (m_img s)) (m_freeinode s) (m_freeblock s).

Definition massert (b : bool) : M mkfs unit := if b then mret tt else panic "assert".

Definition wsect (sec : Z) (buf : block) : M mkfs unit := modify (upd_img (<[sec := buf]>)).

Definition rsect (sec : Z) : M mkfs block :=
  buf ← gets (fun s => m_img s !! sec);
  match buf with
  | None => panic "read"
  | Some buf => mret buf
  end.

(** freeblock++ *)
Definition next_block : M mkfs Z :=
  f ← gets m_freeblock;
  modify (fun s => mk_mkfs (m_img s) (m_freeinode s) (u32 (f + 1)));;
  mret f.

Definition zero_dinode (inum : Z) : inode := mk_inode 0 inum 0 (mk_sleeplock false 0) false 0 0 0 0 0 (replicate 13 0).

Definition winode (inum : Z) (ip : inode) : M mkfs unit :=
  let bn := IBLOCK inum sb in
  buf ← rsect bn;
  wsect bn (store_dinode ip buf).

Definition rinode (inum : Z) : M mkfs inode :=
  let bn := IBLOCK inum sb in
  buf ← rsect bn;
  mret (load_dinode buf (zero_dinode inum)).

Definition ialloc (type : Z) : M mkfs Z :=
  inum ← gets m_freeinode;
  modify (fun s => mk_mkfs (m_img s) (u32 (inum + 1)) (m_freeblock s));;
  let din := set_i_size (xint 0) (set_i_nlink (xshort 1) (set_i_type (xshort type) (zero_dinode inum))) in
  winode inum din;;
  mret inum.

(** for(i = 0; i < used; i++) buf[i/8] = buf[i/8] | (0x1 << (i%8)) *)
Fixpoint set_bits (k : nat) (i : Z) (buf : block) : block :=
  match k with
  | O => buf
  | Datatypes.S k => set_bits k (i + 1) (mark_bit buf i)
  end.

Definition balloc (used : Z) : M mkfs unit :=
  massert (used <? BPB);;
  wsect (sb_bmapstart sb) (set_bits (Z.to_nat used) 0 zero_block).

Definition din_addr (din : inode) (k : Z) : Z := i_addrs din !!! Z.to_nat k.
Definition set_din_addr (k v : Z) (din : inode) : inode := set_i_addrs (<[Z.to_nat k := v]> (i_addrs din)) din.

(** if(xint(din.addrs[k]) == 0) din.addrs[k] = xint(freeblock++) *)
Definition fill_addr (k : Z) (din : inode) : M mkfs inode :=
  if xint (din_addr din k) =? 0 then f ← next_block; mret (set_din_addr k (xint f) din) else mret din.

(** The block that holds block [fbn] of the file. *)
Definition iappend_block (fbn : Z) (din : inode) : M mkfs (inode * Z) :=
  if fbn <? NDIRECT then
    din ← fill_addr fbn din;
    mret (din, xint (din_addr din fbn))
  else
    din ← fill_addr NDIRECT din;
    indirect ← rsect (xint (din_addr din NDIRECT));
    let o := 4 * (fbn - NDIRECT) in
    indirect ← (if get32 indirect o =? 0 then
                  f ← next_block;
                  let indirect := put32 indirect o (xint f) in
                  wsect (xint (din_addr din NDIRECT)) indirect;;
                  mret indirect
                else mret indirect);
    mret (din, xint (get32 indirect o)).

(** while(n > 0); [p] are the bytes that are left. *)
Fixpoint iappend_loop (fuel : nat) (din : inode) (off : Z) (p : list Z) : M mkfs (inode * Z) :=
  match fuel with
  | O => panic "out of fuel"
  | Datatypes.S fuel =>
      if Z.of_nat (length p) <=? 0 then mret (din, off)
      else
        let fbn := off / BSIZE in
        massert (fbn <? MAXFILE);;
        r ← iappend_block fbn din;
        let '(din, x) := r in
        let n1 := Z.min (Z.of_nat (length p)) ((fbn + 1) * BSIZE - off) in
        buf ← rsect x;
        wsect x (put_bytes buf (off - fbn * BSIZE) (take (Z.to_nat n1) p));;
        iappend_loop fuel din (off + n1) (drop (Z.to_nat n1) p)
  end.

Definition iappend (inum : Z) (xp : list Z) : M mkfs unit :=
  din ← rinode inum;
  let off := xint (i_size din) in
  r ← iappend_loop (Datatypes.S (length xp)) din off xp;
  let '(din, off) := r in
  winode inum (set_i_size (xint off) din).

(** One of the host's files: its name, whether open succeeds, and what the
    calls of read deliver until one returns 0 or fails. *)
Record hostfile := mk_hostfile { hf_name : list Z; hf_opens : bool; hf_reads : list (list Z) }.

Definition user_slash : list Z := [117; 115; 101; 114; 47].

(** The name in the image: without user/ and without a leading _. *)
Definition strip_user (name : list Z) : list Z :=
  if bool_decide (take 5 name = user_slash) then drop 5 name else name.
Definition strip_underscore (name : list Z) : list Z :=
  match name with
  | c :: rest => if c =? 95 then rest else name
  | [] => name
  end.

(** while((cc = read(fd, buf, sizeof(buf))) > 0) iappend(inum, buf, cc) *)
Fixpoint append_reads (inum : Z) (bufs : list (list Z)) : M mkfs unit :=
  match bufs with
  | [] => mret tt
  | buf :: bufs => iappend inum buf;; append_reads inum bufs
  end.

Definition add_file (rootino : Z) (f : hostfile) : M mkfs unit :=
  let shortname := strip_user (hf_name f) in
  massert (negb (existsb (Z.eqb slash) shortname));;
  if negb (hf_opens f) then panic "open"
  else
    let shortname := strip_underscore shortname in
    massert (Z.of_nat (length shortname) <=? DIRSIZ);;
    inum ← ialloc T_FILE;
    iappend rootino (mk_dirent (xshort inum) shortname);;
    append_reads inum (hf_reads f).

Fixpoint add_files (rootino : Z) (fs : list hostfile) : M mkfs unit :=
  match fs with
  | [] => mret tt
  | f :: fs => add_file rootino f;; add_files rootino fs
  end.

(** for(i = 0; i < FSSIZE; i++) wsect(i, zeroes) *)
Fixpoint zero_image (k : nat) (i : Z) : M mkfs unit :=
  match k with
  | O => mret tt
  | Datatypes.S k => wsect i zero_block;; zero_image k (i + 1)
  end.

Definition sb_words : list Z :=
  [sb_magic sb; sb_size sb; sb_nblocks sb; sb_ninodes sb; sb_nlog sb; sb_logstart sb; sb_inodestart sb; sb_bmapstart sb].

(** fix size of root inode dir *)
Definition fix_root (rootino : Z) : M mkfs unit :=
  din ← rinode rootino;
  let off := xint (i_size din) in
  let off := u32 ((off / BSIZE + 1) * BSIZE) in
  winode rootino (set_i_size (xint off) din).

Definition main (fs : list hostfile) : M mkfs unit :=
  modify (fun s => mk_mkfs (m_img s) (m_freeinode s) nmeta);;
  zero_image (Z.to_nat FSSIZE) 0;;
  wsect 1 (put_words zero_block 0 sb_words);;
  rootino ← ialloc T_DIR;
  massert (rootino =? ROOTINO);;
  iappend rootino (mk_dirent (xshort rootino) [46]);;
  iappend rootino (mk_dirent (xshort rootino) [46; 46]);;
  add_files rootino fs;;
  fix_root rootino;;
  freeblock ← gets m_freeblock;
  balloc freeblock.

(** The state before main: an empty image file. *)
Definition mkfs0 : mkfs := mk_mkfs ∅ 1 0.
