(* ===== verification/MkfsInv.v ===== *)
(** The image while mkfs/mkfs.c fills it: the files in it, read the way the
    kernel reads them, and what the steps of iappend do to them. *)

From S2P Require Import UserMem Prelude Riscv Bytes Refine Cache Bio Log Blocks Fs FsDir FsBlock FsFile Mkfs.

(** The kernel's view of the image. *)
Abbreviation K := (boot_blk 2 30).

(** The inodes [xs] use the data blocks below [F], each for one slot of one of
    them; the blocks from [F] on are still zero. *)
Record good (img : blocks) (xs : list inode) (F : Z) : Prop := {
  g_dom : forall b, 0 <= b < 2000 -> is_Some (img !! b);
  g_len : forall b, length (disk_get img b) = 1024%nat;
  g_F : 46 <= F <= 2000;
  g_addrs : forall i x, xs !! i = Some x -> length (i_addrs x) = 13%nat;
  g_range : forall i x j, xs !! i = Some x -> in_slots j -> slot (K img) x j = 0 \/ 46 <= slot (K img) x j < F;
  g_inj : forall i i' x x' j j', xs !! i = Some x -> xs !! i' = Some x' -> in_slots j -> in_slots j' ->
    slot (K img) x j <> 0 -> slot (K img) x j = slot (K img) x' j' -> i = i' /\ j = j';
  g_cover : forall b, 46 <= b < F -> exists i x j, xs !! i = Some x /\ in_slots j /\ slot (K img) x j = b;
  g_zero : forall b, F <= b -> disk_get img b = zero_block;
}.

(** The file of inode [x] is [c] and nothing but zeros behind it, in exactly the
    blocks that it needs. *)
Definition reads (img : blocks) (x : inode) (c : list Z) : Prop := forall y, 0 <= y < 274432 -> fbyte (K img) x y = byte_at c y.
Definition maps (img : blocks) (x : inode) (n : Z) : Prop :=
  (forall bn, 0 <= bn < 268 -> fblock (K img) x bn <> 0 <-> bn * 1024 < n) /\ (slot (K img) x 12 <> 0 <-> 12288 < n).

(** ** Blocks *)

Lemma disk_get_insert (img : blocks) b d b' : disk_get (<[b := d]> img) b' = if decide (b' = b) then d else disk_get img b'.
Proof. unfold disk_get. destruct (decide (b' = b)) as [->|Hne]; [by rewrite lookup_insert_eq|by rewrite lookup_insert_ne]. Qed.

Lemma slot_low img x j : j < 13 -> slot (K img) x j = i_addrs x !!! Z.to_nat j.
Proof. intros Hj. unfold slot. by rewrite (proj2 (Z.ltb_lt _ _)). Qed.

Lemma slot_high img x j : 13 <= j -> slot (K img) x j = let ia := slot (K img) x 12 in if ia =? 0 then 0 else get32 (disk_get img ia) (4 * (j - 13)).
Proof. intros Hj. rewrite (slot_low img x 12) by lia. unfold slot. rewrite (proj2 (Z.ltb_ge j 13)) by lia. reflexivity. Qed.

Lemma slot_ext img img' x j : (slot (K img) x 12 <> 0 -> disk_get img' (slot (K img) x 12) = disk_get img (slot (K img) x 12)) -> slot (K img') x j = slot (K img) x j.
Proof.
  intros H. destruct (Z.lt_ge_cases j 13); [by rewrite !slot_low by lia|]. rewrite (slot_high img' x j), (slot_high img x j), (slot_low img' x 12), <- (slot_low img x 12) by lia. cbv zeta.
  destruct (Z.eqb_spec (slot (K img) x 12) 0) as [|Hn]; [done|]. by rewrite H.
Qed.

Lemma in_slots12 : in_slots 12.
Proof. unfold in_slots. lia. Qed.

Section step.
Context (img : blocks) (xs : list inode) (F : Z) (G : good img xs F).

Lemma slot12_range i x : xs !! i = Some x -> slot (K img) x 12 = 0 \/ 46 <= slot (K img) x 12 < F.
Proof using G. intros Hx. by apply (g_range _ _ _ G i x 12 Hx in_slots12). Qed.

(** A block outside the data changes nothing here. *)
Lemma good_meta b d : 0 <= b < 46 -> length d = 1024%nat ->
  good (<[b := d]> img) xs F /\ forall i x j, xs !! i = Some x -> slot (K (<[b := d]> img)) x j = slot (K img) x j.
Proof using G.
  intros Hb Hd. assert (Hs : forall i x j, xs !! i = Some x -> slot (K (<[b := d]> img)) x j = slot (K img) x j).
  { intros i x j Hx. apply slot_ext. intros Hn. rewrite disk_get_insert, decide_False; [done|]. destruct (slot12_range i x Hx); lia. }
  split; [|done]. destruct G as [G1 G2 G3 G4 G5 G6 G7 G8]. split; try done.
  - intros b' Hb'. apply lookup_insert_is_Some'. right. by apply G1.
  - intros b'. rewrite disk_get_insert. by case_decide.
  - intros i x j Hx Hj. rewrite (Hs i) by done. by apply (G5 i).
  - intros i i' x x' j j' Hx Hx'. rewrite (Hs i), (Hs i') by done. by apply G6.
  - intros b' Hb'. destruct (G7 b' Hb') as (i & x & j & Hx & Hj & E). exists i, x, j. rewrite (Hs i) by done. done.
  - intros b' Hb'. rewrite disk_get_insert, decide_False by lia. by apply G8.
Qed.

(** The next free block in an empty slot. *)
Lemma good_alloc img' x x' i j :
  F < 2000 -> xs !! i = Some x -> in_slots j -> slot (K img) x j = 0 -> length (i_addrs x') = 13%nat ->
  (forall b, 0 <= b < 2000 -> is_Some (img' !! b)) -> (forall b, length (disk_get img' b) = 1024%nat) -> (forall b, F <= b -> disk_get img' b = zero_block) ->
  (forall j', in_slots j' -> slot (K img') x' j' = if j' =? j then F else slot (K img) x j') ->
  (forall i' y j', i' <> i -> xs !! i' = Some y -> in_slots j' -> slot (K img') y j' = slot (K img) y j') ->
  good img' (<[i := x']> xs) (F + 1).
Proof using G.
  intros HF Hx Hj E0 Hl D1 D2 D3 Hme Hoth. destruct G as [G1 G2 G3 G4 G5 G6 G7 G8].
  assert (Hcase : forall i' y, <[i := x']> xs !! i' = Some y -> i' = i /\ y = x' \/ i' <> i /\ xs !! i' = Some y).
  { intros i' y Hy. destruct (decide (i' = i)) as [->|Hne]; [left|right; by rewrite list_lookup_insert_ne in Hy]. by rewrite list_lookup_insert_eq in Hy by (by eapply lookup_lt_Some); simplify_eq. }
  assert (Hold : forall i' y j', i' <> i -> xs !! i' = Some y -> in_slots j' -> slot (K img') y j' = 0 \/ 46 <= slot (K img') y j' < F) by (intros; rewrite (Hoth i') by done; by eapply G5).
  assert (Hnew : forall j', in_slots j' -> j' <> j -> slot (K img') x' j' = slot (K img) x j') by (intros j' Hj' Hne; by rewrite Hme, (proj2 (Z.eqb_neq _ _))).
  assert (Hself : slot (K img') x' j = F) by (by rewrite Hme, Z.eqb_refl).
  split; [done|done|lia|..|intros b Hb; apply D3; lia].
  - intros i' y Hy. destruct (Hcase i' y Hy) as [[-> ->]|[_ Hy']]; [done|by eapply G4].
  - intros i' y j' Hy Hj'. destruct (Hcase i' y Hy) as [[-> ->]|[Hne Hy']]; [|destruct (Hold i' y j' Hne Hy' Hj'); lia].
    destruct (decide (j' = j)) as [->|Hnj]; [lia|]. rewrite Hnew by done. destruct (G5 i x j' Hx Hj'); lia.
  - intros i1 i2 y1 y2 j1 j2 Hy1 Hy2 Hj1 Hj2 Hn Heq.
    destruct (Hcase i1 y1 Hy1) as [[-> ->]|[Hne1 Hy1']], (Hcase i2 y2 Hy2) as [[-> ->]|[Hne2 Hy2']].
    + split; [done|]. destruct (decide (j1 = j)) as [->|N1], (decide (j2 = j)) as [->|N2]; [done|..].
      * rewrite Hself, (Hnew j2) in Heq by done. destruct (G5 i x j2 Hx Hj2); lia.
      * rewrite Hself, (Hnew j1) in Heq by done. destruct (G5 i x j1 Hx Hj1); lia.
      * rewrite (Hnew j1) in Hn, Heq by done. rewrite (Hnew j2) in Heq by done. by destruct (G6 i i x x j1 j2).
    + exfalso. destruct (decide (j1 = j)) as [->|N1]; [destruct (Hold i2 y2 j2 Hne2 Hy2' Hj2); lia|]. rewrite (Hnew j1) in Hn, Heq by done. rewrite (Hoth i2) in Heq by done. destruct (G6 i i2 x y2 j1 j2) as [? _]; congruence.
    + exfalso. destruct (decide (j2 = j)) as [->|N2]; [destruct (Hold i1 y1 j1 Hne1 Hy1' Hj1); lia|]. rewrite (Hnew j2) in Heq by done. rewrite (Hoth i1) in Hn, Heq by done. destruct (G6 i1 i y1 x j1 j2) as [? _]; congruence.
    + rewrite (Hoth i1) in Hn, Heq by done. rewrite (Hoth i2) in Heq by done. by eapply G6.
  - intros b Hb. assert (Hlt : (i < length xs)%nat) by (by eapply lookup_lt_Some). destruct (decide (b = F)) as [->|Hne]; [exists i, x', j; by rewrite list_lookup_insert_eq|].
    destruct (G7 b ltac:(lia)) as (i' & y & j' & Hy & Hj' & E). destruct (decide (i' = i)) as [->|Hni].
    + exists i, x', j'. rewrite list_lookup_insert_eq by done. split_and!; [done..|]. rewrite Hnew; [congruence|done|]. intros ->. assert (y = x) as -> by congruence. lia.
    + exists i', y, j'. rewrite list_lookup_insert_ne by done. rewrite (Hoth i') by done. done.
Qed.
End step.

(** ** Allocating a block *)

Lemma bslot_range bn : 0 <= bn < 268 -> in_slots (bslot bn) /\ bslot bn <> 12.
Proof. apply bslot_ok. Qed.

Lemma file_block y : 0 <= y < 274432 -> 0 <= y / 1024 < 268.
Proof. intros H. Z.div_mod_to_equations. lia. Qed.

(** What an allocation may do: slot [j] of inode [i] becomes block [F]; only the
    indirect block of that inode changes. *)
Record fills (img : blocks) (xs : list inode) (F : Z) (i : nat) (j : Z) (x : inode) (img' : blocks) (x' : inode) : Prop := {
  fi_fields : x' = set_i_addrs (i_addrs x') x;
  fi_good : good img' (<[i := x']> xs) (F + 1);
  fi_slots : forall j', in_slots j' -> slot (K img') x' j' = if j' =? j then F else slot (K img) x j';
  fi_others : forall i' y j', i' <> i -> xs !! i' = Some y -> in_slots j' -> slot (K img') y j' = slot (K img) y j';
  fi_frame : forall b, b <> slot (K img) x 12 \/ slot (K img) x 12 = 0 -> disk_get img' b = disk_get img b;
}.

Section alloc.
Context (img : blocks) (xs : list inode) (F : Z) (G : good img xs F) (HF : F < 2000).
Context (i : nat) (x : inode) (Hx : xs !! i = Some x).

Lemma fill_direct j : 0 <= j < 13 -> slot (K img) x j = 0 -> fills img xs F i j x img (set_din_addr j F x).
Proof using G HF Hx.
  intros Hj E0. pose proof (g_addrs _ _ _ G i x Hx) as Hl.
  assert (Hs : forall j', in_slots j' -> slot (K img) (set_din_addr j F x) j' = if j' =? j then F else slot (K img) x j').
  { assert (Hlow : forall j', 0 <= j' < 13 -> slot (K img) (set_din_addr j F x) j' = if j' =? j then F else slot (K img) x j').
    { intros j' Hj'. rewrite !slot_low by lia. cbn [i_addrs set_din_addr set_i_addrs]. destruct (Z.eqb_spec j' j) as [->|Hne]; [by rewrite list_lookup_total_insert_eq by lia|by rewrite list_lookup_total_insert_ne by lia]. }
    intros j' Hj'. unfold in_slots in Hj'. destruct (Z.lt_ge_cases j' 13); [apply Hlow; lia|]. rewrite (proj2 (Z.eqb_neq j' j)), (slot_high img (set_din_addr j F x) j'), (slot_high img x j') by lia. cbv zeta. rewrite Hlow by lia.
    destruct (Z.eqb_spec 12 j) as [<-|Hne]; [|done]. rewrite E0. pose proof (g_F _ _ _ G). rewrite (proj2 (Z.eqb_neq F 0)), (g_zero _ _ _ G F) by lia. cbn [Z.eqb].
    unfold get32. apply Z.le_antisymm; [|apply get_le_range, Forall_replicate; lia]. transitivity (get_le 4 zero_block (4 * (j' - 13))); [done|]. cbn [get_le]. by rewrite !byte_at_zero. }
  split; [done| |done|done|done]. destruct G as [G1 G2 G3 G4 G5 G6 G7 G8]. apply (good_alloc _ _ _ G _ x _ i j); try done; [unfold in_slots; lia|]. cbn [i_addrs set_din_addr set_i_addrs]. by rewrite length_insert.
Qed.

Lemma fill_indirect j :
  13 <= j < 269 -> slot (K img) x 12 <> 0 -> slot (K img) x j = 0 ->
  let ia := slot (K img) x 12 in fills img xs F i j x (<[ia := put32 (disk_get img ia) (4 * (j - 13)) F]> img) x.
Proof using G HF Hx.
  intros Hj Hia E0 ia. set (img' := <[ia := _]> img). pose proof (slot12_range _ _ _ G i x Hx) as Hr. pose proof (g_len _ _ _ G ia) as Hlen. pose proof (g_F _ _ _ G) as HF1.
  assert (Hother : forall i' y j', i' <> i -> xs !! i' = Some y -> in_slots j' -> slot (K img') y j' = slot (K img) y j').
  { intros i' y j' Hne Hy Hj'. apply slot_ext. intros Hn. unfold img'. rewrite disk_get_insert, decide_False; [done|]. intros E. destruct (g_inj _ _ _ G i' i y x 12 12 Hy Hx in_slots12 in_slots12 Hn E). done. }
  assert (Hs : forall j', in_slots j' -> slot (K img') x j' = if j' =? j then F else slot (K img) x j').
  { intros j' Hj'. unfold in_slots in Hj'. destruct (Z.lt_ge_cases j' 13); [rewrite (proj2 (Z.eqb_neq j' j)), !slot_low by lia; done|]. rewrite (slot_high img' x j'), (slot_high img x j') by lia. cbv zeta.
    rewrite (slot_low img' x 12), <- (slot_low img x 12) by lia. fold ia. rewrite (proj2 (Z.eqb_neq ia 0) Hia). unfold img'. rewrite disk_get_insert, decide_True by done. unfold get32, put32.
    destruct (Z.eqb_spec j' j) as [->|Hne]; [rewrite get_put_le_eq by lia; change (256 ^ Z.of_nat 4) with 4294967296; apply Z.mod_small; lia|apply get_put_le_ne; lia]. }
  assert (Hfr : forall b, b <> ia \/ ia = 0 -> disk_get img' b = disk_get img b) by (intros b Hb; unfold img'; rewrite disk_get_insert, decide_False; [done|]; intros ->; tauto).
  split; [apply set_addrs_id| |done|done|done]. rewrite list_insert_id by done. rewrite <- (list_insert_id xs i x Hx) at 1. destruct G as [G1 G2 G3 G4 G5 G6 G7 G8].
  apply (good_alloc _ _ _ G _ x x i j); try done; [unfold in_slots; lia|by eapply G4|..].
  - intros b Hb. apply lookup_insert_is_Some'. right. by apply G1.
  - intros b. unfold img'. rewrite disk_get_insert. case_decide; [|done]. unfold put32. by rewrite length_put_le.
  - intros b Hb. rewrite Hfr; [by apply G8|]. left. lia.
Qed.

(** No byte of a file changes. *)
Lemma fills_bytes j img' x' : in_slots j -> slot (K img) x j = 0 -> fills img xs F i j x img' x' ->
  (forall y, 0 <= y < 274432 -> fbyte (K img') x' y = fbyte (K img) x y) /\
  (forall i' z y, i' <> i -> xs !! i' = Some z -> 0 <= y < 274432 -> fbyte (K img') z y = fbyte (K img) z y).
Proof using G HF Hx.
  intros Hj E0 [F0 F1 F2 F3 F4]. pose proof (g_F _ _ _ G) as HF1. split.
  - intros y Hy. unfold fbyte, fblock. destruct (bslot_range _ (file_block y Hy)) as [Hs H12]. set (q := bslot (y / 1024)) in *. rewrite F2 by done. destruct (Z.eqb_spec q j) as [->|Hne].
    + rewrite E0, (proj2 (Z.eqb_neq F 0)) by lia. cbn [Z.eqb]. change (kget (K img') F) with (disk_get img' F). rewrite F4 by (destruct (slot12_range _ _ _ G i x Hx); [by right|left; lia]). rewrite (g_zero _ _ _ G F) by lia. apply byte_at_zero.
    + destruct (Z.eqb_spec (slot (K img) x q) 0) as [|Hn]; [done|]. f_equal. apply F4. left. intros E. destruct (g_inj _ _ _ G i i x x q 12 Hx Hx Hs in_slots12 Hn E). done.
  - intros i' z y Hne Hz Hy. unfold fbyte, fblock. destruct (bslot_range _ (file_block y Hy)) as [Hs H12]. set (q := bslot (y / 1024)) in *. rewrite (F3 i') by done.
    destruct (Z.eqb_spec (slot (K img) z q) 0) as [|Hn]; [done|]. f_equal. apply F4. left. intros E. destruct (g_inj _ _ _ G i' i z x q 12 Hz Hx Hs in_slots12 Hn E). done.
Qed.
End alloc.

(** ** Writing a block of a file *)

Section write.
Context (img : blocks) (xs : list inode) (F : Z) (G : good img xs F).
Context (i : nat) (x : inode) (Hx : xs !! i = Some x) (bn : Z) (Hbn : 0 <= bn < 268) (d : block) (Hd : length d = 1024%nat).
Local Abbreviation b := (fblock (K img) x bn).
Local Abbreviation img' := (<[b := d]> img).
Context (Hb : b <> 0).

(** It is the block of no other slot. *)
Lemma block_unique i' z j : xs !! i' = Some z -> in_slots j -> slot (K img) z j = b -> i' = i /\ j = bslot bn.
Proof using G Hx Hbn Hb.
  intros Hz Hj E. destruct (bslot_range bn Hbn) as [Hs _]. destruct (g_inj _ _ _ G i' i z x j (bslot bn) Hz Hx Hj Hs); [by rewrite E|done|done].
Qed.

Lemma write_slots i' z j : xs !! i' = Some z -> slot (K img') z j = slot (K img) z j.
Proof using G Hx Hbn Hb.
  intros Hz. apply slot_ext. intros Hn. rewrite disk_get_insert, decide_False; [done|]. intros E. destruct (block_unique i' z 12 Hz in_slots12 E) as [_ E2]. by destruct (bslot_range bn Hbn).
Qed.

Lemma good_write : good img' xs F.
Proof using G Hx Hbn Hb Hd.
  pose proof write_slots as Hs. destruct (bslot_range bn Hbn) as [Hsl _]. assert (Hr : 46 <= b < F) by (destruct (g_range _ _ _ G i x (bslot bn) Hx Hsl); [done|done]). destruct G as [G1 G2 G3 G4 G5 G6 G7 G8]. split; try done.
  - intros b' Hb'. apply lookup_insert_is_Some'. right. by apply G1.
  - intros b'. rewrite disk_get_insert. by case_decide.
  - intros i' z j Hz Hj. rewrite (Hs i') by done. by apply (G5 i').
  - intros i1 i2 x1 x2 j1 j2 H1 H2. rewrite (Hs i1), (Hs i2) by done. by apply G6.
  - intros b' Hb'. destruct (G7 b' Hb') as (i' & z & j & Hz & Hj & E). exists i', z, j. by rewrite (Hs i').
  - intros b' Hb'. rewrite disk_get_insert, decide_False by lia. by apply G8.
Qed.

Lemma write_bytes y : 0 <= y < 274432 -> fbyte (K img') x y = if y / 1024 =? bn then byte_at d (y mod 1024) else fbyte (K img) x y.
Proof using G Hx Hbn Hb.
  intros Hy. pose proof (file_block y Hy) as Hf. destruct (bslot_range _ Hf) as [Hs _].
  assert (E : fbyte (K img') x y = if fblock (K img) x (y / 1024) =? 0 then 0 else byte_at (disk_get img' (fblock (K img) x (y / 1024))) (y mod 1024)) by (unfold fbyte, fblock; by rewrite (write_slots i)).
  rewrite E. clear E. destruct (Z.eqb_spec (y / 1024) bn) as [->|Hne].
  - by rewrite (proj2 (Z.eqb_neq b 0) Hb), disk_get_insert, decide_True.
  - unfold fbyte. destruct (Z.eqb_spec (fblock (K img) x (y / 1024)) 0) as [|Hn]; [done|]. rewrite disk_get_insert, decide_False; [done|]. intros E. destruct (block_unique i x _ Hx Hs E) as [_ E2]. by apply bslot_inj in E2.
Qed.

Lemma write_others i' z y : i' <> i -> xs !! i' = Some z -> 0 <= y < 274432 -> fbyte (K img') z y = fbyte (K img) z y.
Proof using G Hx Hbn Hb.
  intros Hne Hz Hy. destruct (bslot_range _ (file_block y Hy)) as [Hs _]. unfold fbyte, fblock. rewrite (write_slots i') by done. destruct (Z.eqb_spec (slot (K img) z (bslot (y / 1024))) 0) as [|Hn]; [done|].
  f_equal. unfold kget. cbn [k_view boot_blk]. rewrite disk_get_insert, decide_False; [done|]. intros E. by destruct (block_unique i' z _ Hz Hs E).
Qed.
End write.
