(* ===== verification/MkfsAppend.v ===== *)
(** iappend of mkfs/mkfs.c adds its bytes at the end of a file, and to nothing
    else. *)

From S2P Require Import UserMem Prelude Riscv Bytes Refine Cache Bio Log Blocks Fs FsDir FsBlock FsFile FsIo Mkfs MkfsInv.

Lemma xint_small v : 0 <= v < 2 ^ 32 -> xint v = v.
Proof. intros H. unfold xint, u8. rewrite !Z.shiftr_div_pow2 by lia. change (2 ^ 8) with 256. change (2 ^ 16) with 65536. change (2 ^ 24) with 16777216. Z.div_mod_to_equations. lia. Qed.

Lemma xshort_small v : 0 <= v < 2 ^ 16 -> xshort v = v.
Proof. intros H. unfold xshort, u8. rewrite !Z.shiftr_div_pow2 by lia. change (2 ^ 8) with 256. Z.div_mod_to_equations. lia. Qed.

Lemma rsect_run img xs F s b : good img xs F -> m_img s = img -> 0 <= b < 2000 -> rsect b s = Ok (disk_get img b, s).
Proof. intros G <- Hb. unfold rsect, disk_get. rewrite bind_run, gets_run. by destruct (g_dom _ _ _ G b Hb) as [d ->]. Qed.

(** Inode [i] goes from [x] to [x'] and the others keep their files. *)
Record advanced (xs : list inode) (i : nat) (s : mkfs) (x : inode) (s' : mkfs) (x' : inode) : Prop := {
  ad_fields : x' = set_i_addrs (i_addrs x') x;
  ad_good : good (m_img s') (<[i := x']> xs) (m_freeblock s');
  ad_ino : m_freeinode s' = m_freeinode s;
  ad_low : forall b, b < 46 -> disk_get (m_img s') b = disk_get (m_img s) b;
  ad_slots : forall i' z j, i' <> i -> xs !! i' = Some z -> in_slots j -> slot (K (m_img s')) z j = slot (K (m_img s)) z j;
  ad_bytes : forall i' z y, i' <> i -> xs !! i' = Some z -> 0 <= y < 274432 -> fbyte (K (m_img s')) z y = fbyte (K (m_img s)) z y;
}.

Lemma advanced_refl xs i s x : good (m_img s) xs (m_freeblock s) -> xs !! i = Some x -> advanced xs i s x s x.
Proof. intros G Hx. split; try done; [apply set_addrs_id|]. by rewrite list_insert_id. Qed.

Lemma advanced_trans xs i s1 x1 s2 x2 s3 x3 : (i < length xs)%nat -> advanced xs i s1 x1 s2 x2 -> advanced (<[i := x2]> xs) i s2 x2 s3 x3 -> advanced xs i s1 x1 s3 x3.
Proof.
  intros Hi [A1 A2 A3 A4 A5 A6] [B1 B2 B3 B4 B5 B6]. split.
  - rewrite B1, A1. done.
  - by rewrite list_insert_insert_eq in B2.
  - congruence.
  - intros b Hb. by rewrite B4, A4.
  - intros i' z j Hne Hz Hj. rewrite (B5 i'), (A5 i'); try done. by rewrite list_lookup_insert_ne.
  - intros i' z y Hne Hz Hy. rewrite (B6 i'), (A6 i'); try done. by rewrite list_lookup_insert_ne.
Qed.

(** The slots in [J] are filled, and no byte of the file changes. *)
Record ensured (J : Z -> Prop) (n : Z) (xs : list inode) (i : nat) (s : mkfs) (x : inode) (s' : mkfs) (x' : inode) : Prop := {
  en_adv : advanced xs i s x s' x';
  en_free : m_freeblock s' = m_freeblock s + n;
  en_bytes : forall y, 0 <= y < 274432 -> fbyte (K (m_img s')) x' y = fbyte (K (m_img s)) x y;
  en_slots : forall j, in_slots j -> slot (K (m_img s')) x' j <> 0 <-> slot (K (m_img s)) x j <> 0 \/ J j;
}.

Lemma ensured_trans J1 n1 J2 n2 xs i s1 x1 s2 x2 s3 x3 : (i < length xs)%nat -> ensured J1 n1 xs i s1 x1 s2 x2 -> ensured J2 n2 (<[i := x2]> xs) i s2 x2 s3 x3 ->
  ensured (fun j => J1 j \/ J2 j) (n1 + n2) xs i s1 x1 s3 x3.
Proof.
  intros Hi [A1 A2 A3 A4] [B1 B2 B3 B4]. split; [by eapply advanced_trans|lia|..].
  - intros y Hy. by rewrite B3, A3.
  - intros j Hj. rewrite B4, A4 by done. tauto.
Qed.

Lemma ensured_ext J J' n xs i s x s' x' : (forall j, in_slots j -> J j \/ slot (K (m_img s)) x j <> 0 <-> J' j \/ slot (K (m_img s)) x j <> 0) -> ensured J n xs i s x s' x' -> ensured J' n xs i s x s' x'.
Proof. intros H [A1 A2 A3 A4]. split; try done. intros j Hj. rewrite A4 by done. specialize (H j Hj). tauto. Qed.

Section fill.
Context (xs : list inode) (i : nat) (x : inode) (Hx : xs !! i = Some x) (s : mkfs) (G : good (m_img s) xs (m_freeblock s)).

Lemma ensured_already j : slot (K (m_img s)) x j <> 0 -> ensured (fun j' => j' = j) 0 xs i s x s x.
Proof using Hx G. intros Hn. split; [by apply advanced_refl|lia|done|]. intros j' Hj'. split; [by left|]. by intros [?| ->]. Qed.

Lemma ensured_fills j img' x' :
  in_slots j -> slot (K (m_img s)) x j = 0 -> m_freeblock s < 2000 -> fills (m_img s) xs (m_freeblock s) i j x img' x' ->
  ensured (fun j' => j' = j) 1 xs i s x (mk_mkfs img' (m_freeinode s) (m_freeblock s + 1)) x'.
Proof using Hx G.
  intros Hj E0 HF HA. destruct (fills_bytes _ _ _ G HF i x Hx j img' x' Hj E0 HA) as [B1 B2]. destruct HA as [F0 F1 F2 F3 F4]. pose proof (g_F _ _ _ G). split; [split|..]; try done.
  - intros b Hb. apply F4. destruct (slot12_range _ _ _ G i x Hx); [by right|left; lia].
  - intros j' Hj'. cbn [m_img]. rewrite F2 by done. destruct (Z.eqb_spec j' j) as [->|Hne]; [split; [by right|lia]|]. split; [by left|]. by intros [?|?].
Qed.

Lemma fill_addr_run k : 0 <= k < 13 -> (slot (K (m_img s)) x k = 0 -> m_freeblock s < 2000) ->
  exists s' x', fill_addr k x s = Ok (x', s') /\ slot (K (m_img s')) x' k <> 0 /\ ensured (fun j => j = k) (if slot (K (m_img s)) x k =? 0 then 1 else 0) xs i s x s' x'.
Proof using Hx G.
  intros Hk HF. unfold fill_addr, din_addr. rewrite <- (slot_low (m_img s)) by lia. assert (Hin : in_slots k) by (unfold in_slots; lia). pose proof (g_F _ _ _ G) as HF1.
  rewrite xint_small by (destruct (g_range _ _ _ G i x k Hx Hin); lia). destruct (Z.eqb_spec (slot (K (m_img s)) x k) 0) as [E|Hn].
  - specialize (HF E). pose proof (fill_direct _ _ _ G HF i x Hx k Hk E) as HA. pose proof (ensured_fills k _ _ Hin E HF HA) as HE. unfold next_block. rewrite !bind_run, gets_run, bind_run, modify_run, ret_run, ret_run.
    rewrite u32_small, xint_small by lia. eexists _, _. split; [reflexivity|]. split; [|exact HE]. apply (en_slots _ _ _ _ _ _ _ _ HE k Hin). by right.
  - exists s, x. split_and!; [done|done|by apply ensured_already].
Qed.
End fill.

(** ** The block of the next byte *)

(** Blocks that a file takes, and how many the byte at [off] adds. *)
Definition nblk (n : Z) : Z := (n + 1023) / 1024 + (if 12288 <? n then 1 else 0).
Definition allocs (off : Z) : Z := (if off mod 1024 =? 0 then 1 else 0) + (if off =? 12288 then 1 else 0).

Lemma nblk_step off n1 : 0 <= off -> 0 < n1 <= (off / 1024 + 1) * 1024 - off -> nblk (off + n1) = nblk off + allocs off.
Proof.
  intros Ho Hn. unfold nblk, allocs. pose proof (Z.div_mod off 1024 ltac:(lia)). pose proof (Z.mod_pos_bound off 1024 ltac:(lia)). set (q := off / 1024) in *. set (r := off mod 1024) in *.
  assert (E1 : (off + n1 + 1023) / 1024 = q + 1) by (symmetry; apply (Z.div_unique _ _ _ (r + n1 - 1)); lia).
  destruct (Z.eqb_spec r 0), (Z.eqb_spec off 12288), (Z.ltb_spec 12288 off), (Z.ltb_spec 12288 (off + n1)); try lia.
  all: try (assert (E2 : (off + 1023) / 1024 = q) by (symmetry; apply (Z.div_unique _ _ _ 1023); lia); lia).
  all: assert (E2 : (off + 1023) / 1024 = q + 1) by (symmetry; apply (Z.div_unique _ _ _ (r - 1)); lia); lia.
Qed.

Lemma nblk_mono n m : 0 <= n <= m -> 0 <= nblk n <= nblk m.
Proof. intros H. unfold nblk. assert ((n + 1023) / 1024 <= (m + 1023) / 1024) by (apply Z.div_le_mono; lia). assert (0 <= (n + 1023) / 1024) by (apply Z.div_pos; lia). repeat case_bool; lia. Qed.

Section block.
Context (xs : list inode) (i : nat) (x : inode) (Hx : xs !! i = Some x) (s : mkfs) (G : good (m_img s) xs (m_freeblock s)).

Lemma indirect_run fbn : 12 <= fbn < 268 -> slot (K (m_img s)) x 12 <> 0 -> (slot (K (m_img s)) x (fbn + 1) = 0 -> m_freeblock s < 2000) ->
  exists s', (indirect ← rsect (xint (din_addr x NDIRECT));
      let o := 4 * (fbn - NDIRECT) in
      indirect ← (if get32 indirect o =? 0 then
                    f ← next_block;
                    let indirect := put32 indirect o (xint f) in
                    wsect (xint (din_addr x NDIRECT)) indirect;;
                    mret indirect
                  else mret indirect);
      mret (x, xint (get32 indirect o))) s = Ok ((x, slot (K (m_img s')) x (fbn + 1)), s') /\
    ensured (fun j => j = fbn + 1) (if slot (K (m_img s)) x (fbn + 1) =? 0 then 1 else 0) xs i s x s' x.
Proof using Hx G.
  intros Hb H12 HF. pose proof (g_F _ _ _ G) as HF1. assert (Hin : in_slots (fbn + 1)) by (unfold in_slots; lia). destruct (slot12_range _ _ _ G i x Hx) as [?|Hr]; [done|].
  unfold din_addr, NDIRECT. rewrite <- (slot_low (m_img s)) by lia. rewrite xint_small by lia. set (ia := slot (K (m_img s)) x 12) in *. rewrite (bind_Ok _ _ _ _ _ (rsect_run _ _ _ s ia G eq_refl ltac:(lia))). cbv zeta.
  assert (ES : slot (K (m_img s)) x (fbn + 1) = get32 (disk_get (m_img s) ia) (4 * (fbn - 12))).
  { rewrite slot_high by lia. cbv zeta. fold ia. rewrite (proj2 (Z.eqb_neq ia 0) H12). do 2 f_equal. lia. }
  rewrite <- ES. destruct (Z.eqb_spec (slot (K (m_img s)) x (fbn + 1)) 0) as [E|Hn].
  - specialize (HF E). pose proof (fill_indirect _ _ _ G HF i x Hx (fbn + 1) ltac:(lia) H12 E) as HA. cbv zeta in HA. fold ia in HA. pose proof (ensured_fills xs i x Hx s G (fbn + 1) _ _ Hin E HF HA) as HE.
    replace (4 * (fbn + 1 - 13)) with (4 * (fbn - 12)) in * by lia. unfold next_block. rewrite !bind_run, gets_run, bind_run, modify_run, ret_run. rewrite u32_small by lia. unfold wsect. rewrite bind_run, modify_run, ret_run.
    eexists. split; [|exact HE]. rewrite ret_run. unfold upd_img. cbn [m_img m_freeinode m_freeblock]. rewrite (xint_small (m_freeblock s)) by lia. do 2 f_equal. f_equal.
    destruct HA as [_ _ HS _ _]. rewrite HS, Z.eqb_refl by done. pose proof (g_len _ _ _ G ia) as Hlen.
    assert (EV : get32 (put32 (disk_get (m_img s) ia) (4 * (fbn - 12)) (m_freeblock s)) (4 * (fbn - 12)) = m_freeblock s).
    { unfold get32, put32. rewrite get_put_le_eq by lia. apply Z.mod_small. change (256 ^ Z.of_nat 4) with 4294967296. lia. }
    rewrite EV. apply xint_small. lia.
  - exists s. rewrite bind_run, ret_run, ret_run. split; [|by apply ensured_already]. do 3 f_equal. rewrite <- ES. apply xint_small. destruct (g_range _ _ _ G i x (fbn + 1) Hx Hin); lia.
Qed.
End block.

Section block_run.
Context (xs : list inode) (i : nat) (x : inode) (Hx : xs !! i = Some x) (s : mkfs) (G : good (m_img s) xs (m_freeblock s)).

Lemma iappend_block_run off :
  0 <= off -> off / 1024 < 268 -> maps (m_img s) x off -> m_freeblock s + allocs off <= 2000 ->
  let fbn := off / 1024 in
  exists s' x', iappend_block fbn x s = Ok ((x', fblock (K (m_img s')) x' fbn), s') /\ fblock (K (m_img s')) x' fbn <> 0 /\
    ensured (fun j => j = bslot fbn \/ j = 12 /\ 12 <= fbn) (allocs off) xs i s x s' x'.
Proof using Hx G.
  intros Ho Hlt [HM1 HM2] Hroom fbn. assert (Hf : 0 <= fbn < 268) by (split; [apply Z.div_pos; lia|done]). specialize (HM1 fbn Hf). pose proof (Z.div_mod off 1024 ltac:(lia)) as Hd. pose proof (Z.mod_pos_bound off 1024 ltac:(lia)) as Hm. fold fbn in Hd.
  assert (Hi : (i < length xs)%nat) by (by eapply lookup_lt_Some). assert (P1 : 0 <= (if off mod 1024 =? 0 then 1 else 0)) by (case_bool; lia). assert (P2 : 0 <= (if off =? 12288 then 1 else 0)) by (case_bool; lia). unfold iappend_block, NDIRECT. unfold allocs in *. destruct (Z.ltb_spec fbn 12) as [H12|H12].
  - assert (Eb : bslot fbn = fbn) by (unfold bslot; by rewrite (proj2 (Z.ltb_lt _ _))). unfold fblock in *. rewrite Eb in *.
    assert (EA : (if slot (K (m_img s)) x fbn =? 0 then 1 else 0) = (if off mod 1024 =? 0 then 1 else 0) + (if off =? 12288 then 1 else 0)) by (repeat case_bool; lia).
    destruct (fill_addr_run xs i x Hx s G fbn ltac:(lia)) as (s' & x' & E & Hn & HE); [intros E0; rewrite E0 in EA; cbn in EA; lia|]. rewrite EA in HE. rewrite (bind_Ok _ _ _ _ _ E), ret_run. exists s', x'. split_and!; [|done|].
    + do 3 f_equal. unfold din_addr. rewrite <- (slot_low (m_img s')) by lia. apply xint_small. pose proof (ad_good _ _ _ _ _ _ (en_adv _ _ _ _ _ _ _ _ HE)) as G'. pose proof (g_F _ _ _ G').
      destruct (g_range _ _ _ G' i x' fbn ltac:(by apply list_lookup_insert_eq) ltac:(unfold in_slots; lia)); lia.
    + revert HE. apply ensured_ext. intros j _. assert (j = 12 /\ 12 <= fbn <-> False) by lia. tauto.
  - assert (Eb : bslot fbn = fbn + 1) by (unfold bslot; by rewrite (proj2 (Z.ltb_ge _ _))). unfold fblock in *. rewrite Eb in *. assert (Hin : in_slots (fbn + 1)) by (unfold in_slots; lia).
    assert (E1 : (if slot (K (m_img s)) x 12 =? 0 then 1 else 0) = (if off =? 12288 then 1 else 0)) by (repeat case_bool; lia).
    assert (E2 : (if slot (K (m_img s)) x (fbn + 1) =? 0 then 1 else 0) = (if off mod 1024 =? 0 then 1 else 0)) by (repeat case_bool; lia).
    destruct (fill_addr_run xs i x Hx s G 12 ltac:(lia)) as (s1 & x1 & Ea & Hn1 & HE1); [intros E0; rewrite E0 in E1; cbn in E1; lia|]. rewrite (bind_Ok _ _ _ _ _ Ea). pose proof (ad_good _ _ _ _ _ _ (en_adv _ _ _ _ _ _ _ _ HE1)) as G1.
    assert (E3 : (if slot (K (m_img s1)) x1 (fbn + 1) =? 0 then 1 else 0) = (if slot (K (m_img s)) x (fbn + 1) =? 0 then 1 else 0)).
    { pose proof (en_slots _ _ _ _ _ _ _ _ HE1 (fbn + 1) Hin) as HS. destruct (Z.eqb_spec (slot (K (m_img s1)) x1 (fbn + 1)) 0) as [Z1|Z1], (Z.eqb_spec (slot (K (m_img s)) x (fbn + 1)) 0) as [Z2|Z2]; try done; exfalso.
      - apply (proj2 HS); [by left|done].
      - destruct (proj1 HS Z1); [done|lia]. }
    rewrite E1 in HE1. pose proof (en_free _ _ _ _ _ _ _ _ HE1) as HF1.
    destruct (indirect_run (<[i := x1]> xs) i x1 ltac:(by apply list_lookup_insert_eq) s1 G1 fbn ltac:(lia) Hn1) as (s2 & E & HE2); [intros E0; rewrite E0 in E3; cbn in E3; lia|].
    exists s2, x1. split_and!; [exact E| |].
    + apply (en_slots _ _ _ _ _ _ _ _ HE2 (fbn + 1) Hin). by right.
    + rewrite E3, E2 in HE2. pose proof (ensured_trans _ _ _ _ _ _ _ _ _ _ _ _ Hi HE1 HE2) as HE. rewrite (Z.add_comm (if off =? 12288 then 1 else 0)) in HE. revert HE. apply ensured_ext. intros j _. assert (j = 12 /\ 12 <= fbn <-> j = 12) by lia. tauto.
Qed.
End block_run.

(** ** The loop *)

Lemma byte_at_app (c p : list Z) y : 0 <= y -> byte_at (c ++ p) y = if y <? Z.of_nat (length c) then byte_at c y else byte_at p (y - Z.of_nat (length c)).
Proof. intros Hy. unfold byte_at. case_bool; [rewrite lookup_app_l by lia; done|]. rewrite lookup_app_r by lia. do 2 f_equal. lia. Qed.

Lemma byte_at_take (p : list Z) n y : 0 <= y < Z.of_nat n -> byte_at (take n p) y = byte_at p y.
Proof. intros Hy. unfold byte_at. by rewrite lookup_take_lt by lia. Qed.

Lemma byte_at_past (p : list Z) y : Z.of_nat (length p) <= y -> byte_at p y = 0.
Proof. intros Hy. unfold byte_at. by rewrite lookup_ge_None_2 by lia. Qed.

Lemma advanced_write xs i s x bn d :
  good (m_img s) xs (m_freeblock s) -> xs !! i = Some x -> 0 <= bn < 268 -> length d = 1024%nat -> fblock (K (m_img s)) x bn <> 0 ->
  advanced xs i s x (upd_img (<[fblock (K (m_img s)) x bn := d]>) s) x.
Proof.
  intros G Hx Hbn Hd Hb. destruct (bslot_range bn Hbn) as [Hsl _]. split; [apply set_addrs_id| |done|..].
  - rewrite list_insert_id by done. by apply (good_write _ _ _ G i x Hx bn Hbn d Hd Hb).
  - intros b Hlt. cbn [m_img upd_img]. rewrite disk_get_insert, decide_False; [done|]. destruct (g_range _ _ _ G i x _ Hx Hsl) as [?|?]; [done|]. unfold fblock. lia.
  - intros i' z j Hne Hz Hj. by apply (write_slots _ _ _ G i x Hx bn Hbn d Hb i').
  - intros i' z y Hne Hz Hy. by apply (write_others _ _ _ G i x Hx bn Hbn d Hb i').
Qed.

(** One round: [q] are the bytes that go to the current block. *)
Lemma round_bytes xs i s x c q :
  let off := Z.of_nat (length c) in let fbn := off / 1024 in
  good (m_img s) xs (m_freeblock s) -> xs !! i = Some x -> reads (m_img s) x c -> fbn < 268 -> fblock (K (m_img s)) x fbn <> 0 ->
  off + Z.of_nat (length q) <= (fbn + 1) * 1024 ->
  let b := fblock (K (m_img s)) x fbn in
  let d := put_bytes (disk_get (m_img s) b) (off - fbn * 1024) q in
  length d = 1024%nat /\ reads (<[b := d]> (m_img s)) x (c ++ q).
Proof.
  intros off fbn G Hx Hrd Hf Hb Hq b d. pose proof (Z.div_mod off 1024 ltac:(lia)) as Hd. pose proof (Z.mod_pos_bound off 1024 ltac:(lia)) as Hm. fold fbn in Hd. pose proof (g_len _ _ _ G b) as Hl.
  assert (Hdl : length d = 1024%nat) by (unfold d; rewrite length_put_bytes; lia). split; [done|]. intros y Hy. unfold b. rewrite (write_bytes _ _ _ G i x Hx fbn ltac:(lia) d Hb y Hy), byte_at_app by lia. fold off. rewrite (Hrd y Hy).
  pose proof (Z.div_mod y 1024 ltac:(lia)) as Hdy. pose proof (Z.mod_pos_bound y 1024 ltac:(lia)) as Hmy. destruct (Z.eqb_spec (y / 1024) fbn) as [E|E].
  - unfold d. rewrite byte_at_put_bytes by lia. assert (EO : byte_at (disk_get (m_img s) b) (y mod 1024) = byte_at c y).
    { rewrite <- (Hrd y Hy). unfold fbyte. rewrite E. fold b. by rewrite (proj2 (Z.eqb_neq b 0) Hb). }
    destruct (Z.leb_spec (off - fbn * 1024) (y mod 1024)), (Z.ltb_spec (y mod 1024) (off - fbn * 1024 + Z.of_nat (length q))), (Z.ltb_spec y off); cbn [andb]; try lia; rewrite ?EO; try done.
    + f_equal. lia.
    + rewrite byte_at_past by lia. symmetry. apply byte_at_past. lia.
  - destruct (Z.ltb_spec y off); [done|]. rewrite (byte_at_past c) by lia. symmetry. apply byte_at_past. assert (fbn < y / 1024) by lia. lia.
Qed.

Lemma maps_round J n xs i s x s' x' off n1 :
  ensured J n xs i s x s' x' -> 0 <= off -> off / 1024 < 268 -> maps (m_img s) x off -> (forall j, J j <-> j = bslot (off / 1024) \/ j = 12 /\ 12 <= off / 1024) ->
  0 < n1 <= (off / 1024 + 1) * 1024 - off -> maps (m_img s') x' (off + n1).
Proof.
  intros HE Ho Hlt [M1 M2] HJ Hn. pose proof (Z.div_mod off 1024 ltac:(lia)) as Hd. pose proof (Z.mod_pos_bound off 1024 ltac:(lia)) as Hm. set (fbn := off / 1024) in *. split.
  - intros bn Hb. destruct (bslot_range bn Hb) as [Hs H12]. unfold fblock. rewrite (en_slots _ _ _ _ _ _ _ _ HE _ Hs), HJ. fold (fblock (K (m_img s)) x bn). rewrite (M1 bn Hb). split.
    + intros [?|[?%bslot_inj|?]]; lia.
    + intros ?. destruct (decide (bn = fbn)) as [->|]; [right; by left|left]. lia.
  - rewrite (en_slots _ _ _ _ _ _ _ _ HE _ in_slots12), HJ, M2. destruct (bslot_range fbn ltac:(lia)) as [_ H12]. split; [intros [?|[?|?]]; lia|]. intros ?. destruct (decide (12 <= fbn)); [right; right; lia|left; lia].
Qed.

(** What appending [p] to the file of inode [i] does. *)
Record appended (xs : list inode) (i : nat) (s : mkfs) (x : inode) (c p : list Z) (s' : mkfs) (x' : inode) : Prop := {
  ap_adv : advanced xs i s x s' x';
  ap_reads : reads (m_img s') x' (c ++ p);
  ap_maps : maps (m_img s') x' (Z.of_nat (length c) + Z.of_nat (length p));
  ap_free : m_freeblock s' = m_freeblock s + nblk (Z.of_nat (length c) + Z.of_nat (length p)) - nblk (Z.of_nat (length c));
}.

Lemma iappend_round xs i s x c p :
  let off := Z.of_nat (length c) in
  good (m_img s) xs (m_freeblock s) -> xs !! i = Some x -> reads (m_img s) x c -> maps (m_img s) x off ->
  let n1 := Z.min (Z.of_nat (length p)) ((off / 1024 + 1) * 1024 - off) in
  p <> [] -> off + Z.of_nat (length p) <= 274432 -> m_freeblock s + allocs off <= 2000 ->
  exists s' x', appended xs i s x c (take (Z.to_nat n1) p) s' x' /\ off / 1024 < 268 /\
    forall (k : inode -> M mkfs (inode * Z)), (r ← iappend_block (off / 1024) x;
      let '(din, b) := r in
      buf ← rsect b;
      wsect b (put_bytes buf (off - off / 1024 * BSIZE) (take (Z.to_nat n1) p));;
      k din) s = k x' s'.
Proof.
  intros off G Hx Hrd Hmp n1 Hp Hlen Hroom. assert (Hp1 : 0 < Z.of_nat (length p)) by (destruct p; [done|cbn; lia]).
  pose proof (Z.div_mod off 1024 ltac:(lia)) as Hd. pose proof (Z.mod_pos_bound off 1024 ltac:(lia)) as Hm. set (fbn := off / 1024) in *. assert (Hf : fbn < 268) by lia. assert (Hn1 : 0 < n1 <= (fbn + 1) * 1024 - off) by lia.
  set (q := take (Z.to_nat n1) p). assert (Hq : Z.of_nat (length q) = n1) by (unfold q; rewrite length_take; lia).
  destruct (iappend_block_run xs i x Hx s G off ltac:(lia) Hf Hmp Hroom) as (s1 & x1 & E1 & Hb1 & HE). fold fbn in E1, Hb1, HE. pose proof HE as [HA HF HB HS]. pose proof (ad_good _ _ _ _ _ _ HA) as G1.
  assert (Hi : (i < length xs)%nat) by (by eapply lookup_lt_Some). assert (Hx1 : <[i := x1]> xs !! i = Some x1) by (by apply list_lookup_insert_eq).
  assert (Hrd1 : reads (m_img s1) x1 c) by (intros y Hy; by rewrite HB, (Hrd y Hy)).
  destruct (round_bytes (<[i := x1]> xs) i s1 x1 c q G1 Hx1 Hrd1 Hf Hb1 ltac:(fold off fbn; lia)) as [Hdl Hrd2]. fold off fbn in Hdl, Hrd2. set (b := fblock (K (m_img s1)) x1 fbn) in *. set (d := put_bytes (disk_get (m_img s1) b) (off - fbn * 1024) q) in *.
  pose proof (advanced_write (<[i := x1]> xs) i s1 x1 fbn d G1 Hx1 ltac:(lia) Hdl Hb1) as HW. fold b in HW. exists (upd_img (<[b := d]>) s1), x1. split_and!; [split|done|].
  - by eapply advanced_trans.
  - done.
  - rewrite Hq. pose proof (maps_round _ _ _ _ _ _ _ _ off n1 HE ltac:(lia) Hf Hmp ltac:(done) Hn1) as [M1 M2]. split.
    + intros bn Hbn. unfold fblock, b. rewrite (write_slots _ _ _ G1 i x1 Hx1 fbn ltac:(lia) d Hb1 i) by done. by apply M1.
    + unfold b. rewrite (write_slots _ _ _ G1 i x1 Hx1 fbn ltac:(lia) d Hb1 i) by done. done.
  - rewrite Hq. cbn [m_freeblock upd_img]. fold off. rewrite (nblk_step off n1) by lia. lia.
  - intros k. rewrite (bind_Ok _ _ _ _ _ E1). destruct (bslot_range fbn ltac:(lia)) as [Hsl _]. pose proof (g_F _ _ _ G1).
    assert (Hbr : 0 <= b < 2000) by (destruct (g_range _ _ _ G1 i x1 _ Hx1 Hsl) as [?|?]; [done|unfold b, fblock; lia]).
    rewrite (bind_Ok _ _ _ _ _ (rsect_run _ _ _ s1 b G1 eq_refl Hbr)). unfold wsect. rewrite bind_run, modify_run. done.
Qed.

Lemma appended_trans xs i s1 x1 c q s2 x2 p s3 x3 :
  (i < length xs)%nat -> appended xs i s1 x1 c q s2 x2 -> appended (<[i := x2]> xs) i s2 x2 (c ++ q) p s3 x3 -> appended xs i s1 x1 c (q ++ p) s3 x3.
Proof.
  intros Hi [A1 A2 A3 A4] [B1 B2 B3 B4]. rewrite length_app, Nat2Z.inj_add in *. split; [by eapply advanced_trans|by rewrite app_assoc|..].
  - rewrite length_app, Nat2Z.inj_add, Z.add_assoc. done.
  - rewrite length_app, Nat2Z.inj_add, Z.add_assoc. lia.
Qed.

Lemma iappend_loop_run i fuel : forall xs s x c p,
  let off := Z.of_nat (length c) in
  good (m_img s) xs (m_freeblock s) -> xs !! i = Some x -> reads (m_img s) x c -> maps (m_img s) x off ->
  off + Z.of_nat (length p) <= 274432 -> m_freeblock s + nblk (off + Z.of_nat (length p)) - nblk off <= 2000 -> (length p < fuel)%nat ->
  exists s' x', iappend_loop fuel x off p s = Ok ((x', off + Z.of_nat (length p)), s') /\ appended xs i s x c p s' x'.
Proof.
  induction fuel as [|fuel IH]; intros xs s x c p off G Hx Hrd Hmp Hlen Hroom Hfuel; [lia|]. cbn [iappend_loop]. destruct (Z.leb_spec (Z.of_nat (length p)) 0) as [H0|H0].
  - destruct p as [|? ?]; [|cbn in H0; lia]. exists s, x. cbn [length]. rewrite Z.add_0_r. split; [done|]. split; [by apply advanced_refl|by rewrite app_nil_r|by rewrite Z.add_0_r|cbn [length]; rewrite Z.add_0_r; lia].
  - assert (Hi : (i < length xs)%nat) by (by eapply lookup_lt_Some). set (n1 := Z.min (Z.of_nat (length p)) ((off / 1024 + 1) * 1024 - off)).
    pose proof (Z.div_mod off 1024 ltac:(lia)) as Hd. pose proof (Z.mod_pos_bound off 1024 ltac:(lia)) as Hm. assert (Hn1 : 0 < n1 <= (off / 1024 + 1) * 1024 - off /\ n1 <= Z.of_nat (length p)) by lia.
    pose proof (nblk_step off n1 ltac:(lia) ltac:(lia)) as HN. pose proof (nblk_mono (off + n1) (off + Z.of_nat (length p)) ltac:(lia)) as HM.
    destruct (iappend_round xs i s x c p G Hx Hrd Hmp ltac:(by destruct p) Hlen ltac:(fold off; lia)) as (s1 & x1 & HA & Hf & E). fold off n1 in HA, Hf, E. unfold BSIZE, MAXFILE, NDIRECT, NINDIRECT in *. cbn [Z.add Pos.add] in *.
    rewrite (proj2 (Z.ltb_lt _ _)) by lia. unfold massert. rewrite bind_run, ret_run. fold n1. rewrite E. clear E.
    set (q := take (Z.to_nat n1) p) in *. assert (Hq : Z.of_nat (length q) = n1) by (unfold q; rewrite length_take; lia). assert (Hdr : Z.of_nat (length (drop (Z.to_nat n1) p)) = Z.of_nat (length p) - n1) by (rewrite length_drop; lia).
    pose proof HA as [A1 A2 A3 A4]. destruct (IH (<[i := x1]> xs) s1 x1 (c ++ q) (drop (Z.to_nat n1) p)) as (s2 & x2 & E2 & HA2).
    { apply A1. } { by apply list_lookup_insert_eq. } { done. } { rewrite length_app, Nat2Z.inj_add. done. } { rewrite length_app, Nat2Z.inj_add. lia. }
    { rewrite length_app, Nat2Z.inj_add, Hdr, Hq. fold off. rewrite Hq in A4. fold off in A4. replace (off + n1 + (Z.of_nat (length p) - n1)) with (off + Z.of_nat (length p)) by lia. lia. } { lia. }
    exists s2, x2. split.
    + rewrite length_app, Nat2Z.inj_add, Hq in E2. fold off in E2. rewrite E2, Hdr. do 3 f_equal. lia.
    + pose proof (appended_trans _ _ _ _ _ _ _ _ _ _ _ Hi HA HA2) as HT. unfold q in HT. by rewrite take_drop in HT.
Qed.
