(* ===== verification/MkfsFiles.v ===== *)
(** The inodes that mkfs/mkfs.c writes, and its state as a list of files: ialloc
    adds an empty file and iappend extends one. *)

From S2P Require Import UserMem Prelude Riscv Bytes Refine Cache Bio Log Blocks Fs FsDir FsBlock FsFile FsIo FsProps Mkfs MkfsInv MkfsAppend.

(** Inode [n] of the image. *)
Definition ino (img : blocks) (n : Z) : inode := load_dinode (disk_get img (IBLOCK n sb)) (zero_dinode n).

(** The first [n] inodes, from number 1. *)
Definition inos (img : blocks) (n : nat) : list inode := (fun i => ino img (Z.of_nat i + 1)) <$> seq 0 n.

(** A file: its type and its bytes. *)
Definition total (fs : list (Z * list Z)) : Z := foldr (fun f a => nblk (Z.of_nat (length f.2)) + a) 0 fs.

Definition file_ok (img : blocks) (x : inode) (f : Z * list Z) : Prop :=
  i_type x = f.1 /\ i_major x = 0 /\ i_minor x = 0 /\ i_nlink x = 1 /\ i_size x = Z.of_nat (length f.2) /\ Z.of_nat (length f.2) <= 274432 /\ reads img x f.2 /\ maps img x (Z.of_nat (length f.2)).

(** The blocks outside the inodes and the data. *)
Definition meta_blocks (img : blocks) : Prop :=
  disk_get img 1 = put_words zero_block 0 sb_words /\ forall b, b = 0 \/ 2 <= b < 32 \/ b = 45 -> disk_get img b = zero_block.

(** [fs] are the files of the inodes 1, 2, ... *)
Record holds_files (s : mkfs) (fs : list (Z * list Z)) : Prop := {
  hf_good : good (m_img s) (inos (m_img s) (length fs)) (m_freeblock s);
  hf_files : forall i f, fs !! i = Some f -> -32768 <= f.1 < 32768 /\ file_ok (m_img s) (ino (m_img s) (Z.of_nat i + 1)) f;
  hf_free : forall n, 0 <= n < 208 -> n = 0 \/ Z.of_nat (length fs) < n -> ino (m_img s) n = zero_dinode n;
  hf_meta : meta_blocks (m_img s);
  hf_next : m_freeinode s = Z.of_nat (length fs) + 1 /\ Z.of_nat (length fs) < 200;
  hf_total : m_freeblock s = 46 + total fs;
}.

(** ** Inodes on disk *)

Lemma iblock_eq n : 0 <= n < 208 -> IBLOCK n sb = n / 16 + 32 /\ 32 <= IBLOCK n sb < 45.
Proof. intros H. assert (E : IBLOCK n sb = n / 16 + 32) by reflexivity. split; [done|]. rewrite E. Z.div_mod_to_equations. lia. Qed.

Lemma ino_low img img' n : (forall b, b < 46 -> disk_get img' b = disk_get img b) -> 0 <= n < 208 -> ino img' n = ino img n.
Proof. intros H Hn. unfold ino. rewrite H; [done|]. destruct (iblock_eq n Hn). lia. Qed.

Lemma lookup_inos img n i : (i < n)%nat -> inos img n !! i = Some (ino img (Z.of_nat i + 1)).
Proof. intros Hi. unfold inos. by rewrite list_lookup_fmap, lookup_seq_lt. Qed.

Lemma length_inos img n : length (inos img n) = n.
Proof. unfold inos. by rewrite length_fmap, length_seq. Qed.

(** The fields that are only in memory. *)
Definition shaped (n : Z) (x : inode) : Prop := i_dev x = 0 /\ i_inum x = n /\ i_ref x = 0 /\ i_lock x = mk_sleeplock false 0 /\ i_valid x = false.

Lemma shaped_eq n x d : shaped n x -> dinode_eq (load_dinode d (zero_dinode n)) x -> load_dinode d (zero_dinode n) = x.
Proof.
  unfold shaped, dinode_eq, load_dinode. destruct x as [a1 a2 a3 a4 a5 a6 a7 a8 a9 a10 a11]. cbn [i_dev i_inum i_ref i_lock i_valid i_type i_major i_minor i_nlink i_size i_addrs zero_dinode].
  intros (-> & -> & -> & -> & ->) (<- & <- & <- & <- & <- & <-). done.
Qed.

Lemma ino_shaped img n : shaped n (ino img n).
Proof. by split_and!. Qed.

(** winode puts the inode at its place and leaves the others. *)
Section winode.
Context (xs : list inode) (s : mkfs) (G : good (m_img s) xs (m_freeblock s)) (n : Z) (Hn : 0 <= n < 208) (x : inode) (Hs : shaped n x) (Hf : dinode_fits x).
Local Abbreviation d' := (store_dinode x (disk_get (m_img s) (IBLOCK n sb))).
Local Abbreviation s' := (upd_img (<[IBLOCK n sb := d']>) s).

Lemma winode_run : winode n x s = Ok (tt, s').
Proof using G Hn. destruct (iblock_eq n Hn) as [_ Hb]. unfold winode. rewrite (bind_Ok _ _ _ _ _ (rsect_run _ _ _ s (IBLOCK n sb) G eq_refl ltac:(lia))). done. Qed.

Lemma winode_at : ino (m_img s') n = x.
Proof using G Hn Hs Hf.
  unfold ino. cbn [m_img upd_img]. rewrite disk_get_insert, decide_True by done. apply shaped_eq; [done|]. apply load_store_dinode; [done|apply (g_len _ _ _ G)|]. symmetry. apply Hs.
Qed.

Lemma winode_other m : 0 <= m < 208 -> m <> n -> ino (m_img s') m = ino (m_img s) m.
Proof using G Hn Hs Hf.
  intros Hm Hne. unfold ino. cbn [m_img upd_img]. rewrite disk_get_insert. case_decide as Hd; [|done]. rewrite Hd. apply load_store_other; [apply Hf|apply Hf|apply (g_len _ _ _ G)|cbn; lia|].
  rewrite (proj1 (proj2 Hs)). cbn [i_inum zero_dinode]. destruct (iblock_eq m Hm) as [E1 _], (iblock_eq n Hn) as [E2 _]. unfold IPB. intros E. apply Hne. rewrite E1, E2 in Hd. Z.div_mod_to_equations. lia.
Qed.

Lemma winode_low b : b < 32 \/ 45 <= b -> disk_get (m_img s') b = disk_get (m_img s) b.
Proof using Hn. intros Hb. cbn [m_img upd_img]. rewrite disk_get_insert, decide_False; [done|]. destruct (iblock_eq n Hn). lia. Qed.

Lemma winode_good : good (m_img s') xs (m_freeblock s) /\ forall i y j, xs !! i = Some y -> slot (K (m_img s')) y j = slot (K (m_img s)) y j.
Proof using G Hn Hf. destruct (iblock_eq n Hn). apply good_meta; [done|lia|]. rewrite length_store_dinode. apply (g_len _ _ _ G). Qed.

Lemma winode_bytes i y o : xs !! i = Some y -> 0 <= o < 274432 -> fbyte (K (m_img s')) y o = fbyte (K (m_img s)) y o.
Proof using G Hn Hf.
  intros Hy Ho. destruct winode_good as [_ HS]. destruct (bslot_range _ (file_block o Ho)) as [Hin _]. unfold fbyte, fblock. rewrite (HS i) by done.
  destruct (Z.eqb_spec (slot (K (m_img s)) y (bslot (o / 1024))) 0) as [|Hne]; [done|]. f_equal. unfold kget. cbn [k_view boot_blk m_img upd_img]. rewrite disk_get_insert, decide_False; [done|].
  destruct (iblock_eq n Hn) as [_ Hb], (g_range _ _ _ G i y _ Hy Hin); [done|lia].
Qed.
End winode.

(** ** Lists of inodes *)

Lemma slot_addrs img x y j : i_addrs x = i_addrs y -> slot (K img) x j = slot (K img) y j.
Proof. intros E. unfold slot. by rewrite E. Qed.

Lemma fbyte_addrs img x y o : i_addrs x = i_addrs y -> fbyte (K img) x o = fbyte (K img) y o.
Proof. intros E. unfold fbyte, fblock. by rewrite (slot_addrs img x y) by done. Qed.

Lemma good_addrs img xs ys F : i_addrs <$> xs = i_addrs <$> ys -> good img xs F -> good img ys F.
Proof.
  intros E [G1 G2 G3 G4 G5 G6 G7 G8].
  assert (H : forall (us vs : list inode) i y, i_addrs <$> us = i_addrs <$> vs -> vs !! i = Some y -> exists x, us !! i = Some x /\ i_addrs x = i_addrs y).
  { intros us vs i y Euv Hy. assert (Hu : (i_addrs <$> us) !! i = Some (i_addrs y)) by (by rewrite Euv, list_lookup_fmap, Hy). apply list_lookup_fmap_Some in Hu as (x & ? & ?). by exists x. }
  split; try done.
  - intros i y Hy. destruct (H xs ys i y E Hy) as (x & Hx & <-). by eapply G4.
  - intros i y j Hy Hj. destruct (H xs ys i y E Hy) as (x & Hx & Ea). rewrite <- (slot_addrs img x y j Ea). by eapply G5.
  - intros i i' y y' j j' Hy Hy' Hj Hj'. destruct (H xs ys i y E Hy) as (x & Hx & Ea), (H xs ys i' y' E Hy') as (x' & Hx' & Ea'). rewrite <- (slot_addrs img x y j Ea), <- (slot_addrs img x' y' j' Ea'). by apply G6.
  - intros b Hb. destruct (G7 b Hb) as (i & x & j & Hx & Hj & Es). destruct (H ys xs i x (eq_sym E) Hx) as (y & Hy & Ea). exists i, y, j. by rewrite (slot_addrs img y x j Ea).
Qed.

Lemma good_snoc img xs x F : good img xs F -> i_addrs x = replicate 13 0 -> good img (xs ++ [x]) F.
Proof.
  intros [G1 G2 G3 G4 G5 G6 G7 G8] Ea. assert (Hl : forall i y, (xs ++ [x]) !! i = Some y -> xs !! i = Some y \/ y = x).
  { intros i y Hy. apply lookup_app_Some in Hy as [?|[_ Hy]]; [by left|right]. apply list_lookup_singleton_Some in Hy as [_ ?]. done. }
  assert (Hz : forall j, in_slots j -> slot (K img) x j = 0).
  { intros j Hj. unfold in_slots in Hj. unfold slot. rewrite Ea. destruct (Z.ltb_spec j 13); [apply lookup_total_replicate_2; lia|done]. }
  split; try done.
  - intros i y Hy. destruct (Hl i y Hy) as [?| ->]; [by eapply G4|by rewrite Ea].
  - intros i y j Hy Hj. destruct (Hl i y Hy) as [?| ->]; [by eapply G5|left; by apply Hz].
  - intros i i' y y' j j' Hy Hy' Hj Hj' Hn E. destruct (Hl i y Hy) as [Hy1| ->]; [|by rewrite Hz in Hn]. destruct (Hl i' y' Hy') as [Hy2| ->]; [by eapply G6|]. rewrite E, Hz in Hn by done. done.
  - intros b Hb. destruct (G7 b Hb) as (i & y & j & Hy & Hj & E). exists i, y, j. split; [|done]. by apply lookup_app_l_Some.
Qed.

(** Changing one inode, adding one. *)
Lemma inos_update img img' n i x : (i < n)%nat -> ino img' (Z.of_nat i + 1) = x -> (forall j, (j < n)%nat -> j <> i -> ino img' (Z.of_nat j + 1) = ino img (Z.of_nat j + 1)) -> inos img' n = <[i := x]> (inos img n).
Proof.
  intros Hi Ex Ho. apply list_eq. intros j. destruct (decide (j < n)%nat) as [Hj|Hj].
  - rewrite lookup_inos by done. destruct (decide (j = i)) as [->|Hne]; [by rewrite Ex, list_lookup_insert_eq by (by rewrite length_inos)|]. by rewrite Ho, list_lookup_insert_ne, lookup_inos.
  - rewrite (lookup_ge_None_2 (inos img' n)) by (rewrite length_inos; lia). symmetry. apply lookup_ge_None_2. rewrite length_insert, length_inos. lia.
Qed.

Lemma inos_ext img img' n : (forall j, (j < n)%nat -> ino img' (Z.of_nat j + 1) = ino img (Z.of_nat j + 1)) -> inos img' n = inos img n.
Proof. intros H. unfold inos. apply list_fmap_ext. intros k j Hj. apply H. apply lookup_seq in Hj. lia. Qed.

Lemma inos_snoc img n : inos img (S n) = inos img n ++ [ino img (Z.of_nat n + 1)].
Proof. unfold inos. rewrite seq_S, fmap_app. done. Qed.

Lemma total_insert fs i f g : fs !! i = Some f -> total (<[i := g]> fs) = total fs - nblk (Z.of_nat (length f.2)) + nblk (Z.of_nat (length g.2)).
Proof. revert i. induction fs as [|h fs IH]; intros [|i] Hi; try done; cbn in Hi |- *; [injection Hi as ->; lia|]. unfold total in IH. rewrite IH by done. lia. Qed.

Lemma total_app fs gs : total (fs ++ gs) = total fs + total gs.
Proof. unfold total. induction fs as [|f fs IH]; cbn; [done|]. rewrite IH. lia. Qed.

Lemma file_ok_ext img img' x y f :
  (forall j, in_slots j -> slot (K img') y j = slot (K img) x j) -> (forall o, 0 <= o < 274432 -> fbyte (K img') y o = fbyte (K img) x o) -> dinode_eq y (set_i_addrs (i_addrs y) x) -> file_ok img x f -> file_ok img' y f.
Proof.
  intros Hs Hb (E1 & E2 & E3 & E4 & E5 & _) (F1 & F2 & F3 & F4 & F5 & F6 & F7 & [F8 F9]). cbn in *. split_and!; try congruence; try done.
  - intros o Ho. by rewrite Hb, F7.
  - split; [|by rewrite Hs by apply in_slots12]. intros bn Hbn. unfold fblock. destruct (bslot_range bn Hbn) as [Hin _]. rewrite Hs by done. by apply F8.
Qed.

(** ** iappend *)

Lemma fits_ino xs s i x y n :
  good (m_img s) xs (m_freeblock s) -> xs !! i = Some x -> shaped n y -> 0 <= n -> i_addrs y = i_addrs x -> -32768 <= i_type y < 32768 -> i_major y = 0 -> i_minor y = 0 -> i_nlink y = 1 -> 0 <= i_size y < 2 ^ 32 -> dinode_fits y.
Proof.
  intros G Hx (_ & En & _) Hn Ea Ht E1 E2 E3 Hs. pose proof (g_addrs _ _ _ G i x Hx) as Hl. split; rewrite ?En, ?E1, ?E2, ?E3; try lia; [by rewrite Ea|]. rewrite Ea. apply Forall_lookup. intros j a Ha.
  assert (Hj : (j < 13)%nat) by (rewrite <- Hl; by eapply lookup_lt_Some). assert (E : slot (K (m_img s)) x (Z.of_nat j) = a) by (rewrite slot_low, Nat2Z.id by lia; by apply list_lookup_total_correct).
  pose proof (g_F _ _ _ G). destruct (g_range _ _ _ G i x (Z.of_nat j) Hx ltac:(unfold in_slots; lia)); lia.
Qed.

Lemma iappend_run s fs i t c p :
  holds_files s fs -> fs !! i = Some (t, c) -> Z.of_nat (length c) + Z.of_nat (length p) <= 274432 -> 46 + total (<[i := (t, c ++ p)]> fs) <= 2000 ->
  exists s', iappend (Z.of_nat i + 1) p s = Ok (tt, s') /\ holds_files s' (<[i := (t, c ++ p)]> fs).
Proof.
  intros [H1 H2 H3 H4 [H5 H6] H7] Hf Hlen Hroom. assert (Hi : (i < length fs)%nat) by (by eapply lookup_lt_Some). set (n := Z.of_nat i + 1). assert (Hn : 0 <= n < 208) by lia.
  destruct (H2 i _ Hf) as (Ht & F1 & F2 & F3 & F4 & F5 & _ & F7 & F8). cbn [fst snd] in *. set (xs := inos (m_img s) (length fs)) in *. set (x := ino (m_img s) n) in *. fold n in F1, F2, F3, F4, F5, F7, F8. fold x in F1, F2, F3, F4, F5, F7, F8.
  assert (Hx : xs !! i = Some x) by (by apply lookup_inos). assert (Hix : (i < length xs)%nat) by (unfold xs; by rewrite length_inos).
  rewrite (total_insert _ _ _ _ Hf) in Hroom. cbn [snd] in Hroom. rewrite length_app, Nat2Z.inj_add in Hroom.
  unfold iappend, rinode. destruct (iblock_eq n Hn) as [_ Hib]. rewrite bind_run, (bind_Ok _ _ _ _ _ (rsect_run _ _ _ s (IBLOCK n sb) H1 eq_refl ltac:(lia))), ret_run. fold (ino (m_img s) n). fold x.
  rewrite F5, xint_small by lia. destruct (iappend_loop_run i (S (length p)) xs s x c p H1 Hx F7 F8 ltac:(lia) ltac:(lia) ltac:(lia)) as (s1 & x1 & E & [[A1 A2 A3 A4 A5 A6] R M FB]). rewrite (bind_Ok _ _ _ _ _ E).
  rewrite xint_small by lia. set (len := Z.of_nat (length c) + Z.of_nat (length p)) in *. set (x2 := set_i_size len x1).
  assert (Hx1 : <[i := x1]> xs !! i = Some x1) by (by apply list_lookup_insert_eq). assert (Hsh : shaped n x2) by (unfold x2; rewrite A1; by split_and!).
  assert (Hty : i_type x2 = t /\ i_major x2 = 0 /\ i_minor x2 = 0 /\ i_nlink x2 = 1) by (unfold x2; rewrite A1; cbn; done). destruct Hty as (T1 & T2 & T3 & T4).
  assert (Hfit : dinode_fits x2) by (apply (fits_ino _ s1 i x1 x2 n A2 Hx1 Hsh); [lia|done|by rewrite T1|done..|cbn; lia]).
  exists (upd_img (<[IBLOCK n sb := store_dinode x2 (disk_get (m_img s1) (IBLOCK n sb))]>) s1). split; [by apply (winode_run _ s1 A2)|]. set (s2 := upd_img _ s1).
  pose proof (winode_good _ s1 A2 n Hn x2 Hfit) as [G2 S2]. pose proof (winode_bytes _ s1 A2 n Hn x2 Hfit) as B2. pose proof (winode_at _ s1 A2 n Hn x2 Hsh Hfit) as AT. pose proof (winode_other _ s1 A2 n Hn x2 Hsh Hfit) as OT. pose proof (winode_low s1 n Hn x2) as LO.
  fold s2 in G2, S2, B2, AT, OT, LO.
  assert (Hsame : forall m, 0 <= m < 208 -> m <> n -> ino (m_img s2) m = ino (m_img s) m) by (intros m Hm Hne; rewrite OT by done; by apply ino_low).
  assert (Hinos : inos (m_img s2) (length fs) = <[i := x2]> xs) by (apply inos_update; [done|done|]; intros j Hj Hne; apply Hsame; lia).
  split.
  - rewrite length_insert, Hinos. revert G2. apply good_addrs. by rewrite !list_fmap_insert.
  - intros j g Hg. destruct (decide (j = i)) as [->|Hne].
    + rewrite list_lookup_insert_eq in Hg by done. injection Hg as <-. cbn [fst snd]. split; [done|]. fold n. rewrite AT. split_and!; try done; cbn [fst snd]; [rewrite length_app; cbn; lia|rewrite length_app; lia|..].
      * intros o Ho. rewrite (fbyte_addrs _ x2 x1) by done. rewrite (B2 i) by done. by apply R.
      * rewrite length_app, Nat2Z.inj_add. fold len. destruct M as [M1 M2]. split; [|rewrite (slot_addrs _ x2 x1), (S2 i) by done; done]. intros bn Hbn. unfold fblock. rewrite (slot_addrs _ x2 x1), (S2 i) by done. by apply M1.
    + rewrite list_lookup_insert_ne in Hg by done. destruct (H2 j g Hg) as [Htg Hok]. assert (Hj : (j < length fs)%nat) by (by eapply lookup_lt_Some). split; [done|]. rewrite Hsame by lia. set (y := ino (m_img s) (Z.of_nat j + 1)) in *.
      assert (Hy : xs !! j = Some y) by (by apply lookup_inos). assert (Hy1 : <[i := x1]> xs !! j = Some y) by (by rewrite list_lookup_insert_ne).
      apply (file_ok_ext (m_img s) _ y y); [intros k Hk; rewrite (S2 j) by done; by apply (A5 j)|intros o Ho; rewrite (B2 j) by done; by apply (A6 j)|by split_and!|done].
  - rewrite length_insert. intros m Hm Hfree. rewrite Hsame; [by apply H3|done|]. lia.
  - destruct H4 as [M1 M2]. split; [rewrite LO by lia; by rewrite A4 by lia|]. intros b Hb. rewrite LO by lia. rewrite A4 by lia. by apply M2.
  - rewrite length_insert. cbn [m_freeinode s2 upd_img]. lia.
  - rewrite (total_insert _ _ _ _ Hf). cbn [snd m_freeblock s2 upd_img]. rewrite length_app, Nat2Z.inj_add. fold len. lia.
Qed.

(** ** ialloc *)

Lemma empty_slots img x j : i_addrs x = replicate 13 0 -> in_slots j -> slot (K img) x j = 0.
Proof. intros Ea Hj. unfold in_slots in Hj. unfold slot. rewrite Ea. destruct (Z.ltb_spec j 13); [apply lookup_total_replicate_2; lia|done]. Qed.

Lemma empty_file img x : i_addrs x = replicate 13 0 -> reads img x [] /\ maps img x 0.
Proof.
  intros Ea. split; [|split].
  - intros o Ho. unfold fbyte, fblock. destruct (bslot_range _ (file_block o Ho)) as [Hin _]. by rewrite (empty_slots img x _ Ea Hin).
  - intros bn Hbn. destruct (bslot_range bn Hbn) as [Hin _]. unfold fblock. rewrite (empty_slots img x _ Ea Hin). lia.
  - rewrite (empty_slots img x _ Ea in_slots12). lia.
Qed.

Lemma ialloc_run s fs type :
  holds_files s fs -> 0 <= type < 32768 -> Z.of_nat (length fs) + 1 < 200 ->
  exists s', ialloc type s = Ok (Z.of_nat (length fs) + 1, s') /\ holds_files s' (fs ++ [(type, [])]).
Proof.
  intros [H1 H2 H3 H4 [H5 H6] H7] Ht Hlt. unfold ialloc. rewrite bind_run, gets_run, bind_run, modify_run, H5. set (n := Z.of_nat (length fs) + 1) in *. assert (Hn : 0 <= n < 208) by lia.
  rewrite u32_small, xshort_small, xshort_small, xint_small by lia. set (x := set_i_size 0 _). set (s0 := mk_mkfs _ _ _). assert (G0 : good (m_img s0) (inos (m_img s) (length fs)) (m_freeblock s0)) by exact H1.
  assert (Hsh : shaped n x) by (by split_and!). assert (Hfit : dinode_fits x) by (split; cbn; try lia; repeat (constructor; [lia|]); constructor).
  rewrite (bind_Ok _ _ _ _ _ (winode_run _ s0 G0 n Hn x)), ret_run. eexists. split; [reflexivity|]. set (s2 := upd_img _ s0).
  pose proof (winode_good _ s0 G0 n Hn x Hfit) as [G2 S2]. pose proof (winode_bytes _ s0 G0 n Hn x Hfit) as B2. pose proof (winode_at _ s0 G0 n Hn x Hsh Hfit) as AT. pose proof (winode_other _ s0 G0 n Hn x Hsh Hfit) as OT. pose proof (winode_low s0 n Hn x) as LO.
  fold s2 in G2, S2, B2, AT, OT, LO. change (m_img s0) with (m_img s) in *. assert (Hinos : inos (m_img s2) (length fs) = inos (m_img s) (length fs)) by (apply inos_ext; intros j Hj; apply OT; lia).
  assert (Hl : length (fs ++ [(type, [])]) = S (length fs)) by (rewrite length_app; cbn; lia). split; rewrite ?Hl.
  - rewrite inos_snoc, Hinos. fold n. rewrite AT. by apply good_snoc.
  - intros j g Hg. apply lookup_app_Some in Hg as [Hg|[Hj Hg]].
    + assert (Hj : (j < length fs)%nat) by (by eapply lookup_lt_Some). destruct (H2 j g Hg) as [Htg Hok]. split; [done|]. rewrite OT by lia. set (y := ino (m_img s) (Z.of_nat j + 1)) in *. assert (Hy : inos (m_img s) (length fs) !! j = Some y) by (by apply lookup_inos).
      apply (file_ok_ext (m_img s) _ y y); [intros k Hk; by apply (S2 j)|intros o Ho; by apply (B2 j)|by split_and!|done].
    + apply list_lookup_singleton_Some in Hg as [Hj0 <-]. assert (j = length fs) as -> by lia. fold n. rewrite AT. cbn [fst snd]. split; [lia|]. destruct (empty_file (m_img s2) x eq_refl). by split_and!.
  - intros m Hm Hfree. rewrite OT by lia. apply H3; [done|]. lia.
  - destruct H4 as [M1 M2]. split; [by rewrite LO by lia|]. intros b Hb. rewrite LO by lia. by apply M2.
  - cbn [m_freeinode s2 upd_img s0]. lia.
  - rewrite total_app. cbn [total foldr snd length]. change (nblk (Z.of_nat 0)) with 0. cbn [m_freeblock s2 upd_img s0]. lia.
Qed.
