(* ===== verification/MkfsProps.v ===== *)
(** The image that mkfs/mkfs.c leaves is a file system of the kernel: its layout
    is the one kernel/fs.c relies on, and the kernel finds every file by its name
    and reads the bytes the host's file had. *)

From S2P Require Import UserMem Prelude Riscv Bytes Refine Cache Bio Log LogCrash Blocks Fs FsDir FsBlock FsFile FsIo FsName FsProps Fsinit Mkfs MkfsInv MkfsAppend MkfsFiles.

(** ** The files of the image *)

Definition image_name (h : hostfile) : list Z := strip_underscore (strip_user (hf_name h)).
Definition file_bytes (h : hostfile) : list Z := concat (hf_reads h).
Definition image_file (h : hostfile) : Z * list Z := (T_FILE, file_bytes h).

(** The host's file can go into an image. *)
Definition host_ok (h : hostfile) : Prop :=
  hf_opens h = true /\ existsb (Z.eqb slash) (strip_user (hf_name h)) = false /\ (length (image_name h) <= 14)%nat /\ Z.of_nat (length (file_bytes h)) <= 274432.

(** The directory entries of the files from inode number [n]. *)
Fixpoint entries (n : Z) (hs : list hostfile) : list (list Z) :=
  match hs with
  | [] => []
  | h :: hs => mk_dirent n (image_name h) :: entries (n + 1) hs
  end.

Lemma length_entries n hs : length (entries n hs) = length hs.
Proof. revert n. induction hs as [|h hs IH]; intros n; cbn; [done|]. by rewrite IH. Qed.

Lemma length_concat_entries n hs : length (concat (entries n hs)) = (16 * length hs)%nat.
Proof. revert n. induction hs as [|h hs IH]; intros n; cbn [entries concat length]; [done|]. rewrite length_app, length_mk_dirent, IH. lia. Qed.

Lemma nblk_pos n : 0 <= nblk (Z.of_nat n).
Proof. pose proof (nblk_mono 0 (Z.of_nat n) ltac:(lia)). lia. Qed.

Lemma total_cons f fs : total (f :: fs) = nblk (Z.of_nat (length f.2)) + total fs.
Proof. done. Qed.

Lemma total_one f : total [f] = nblk (Z.of_nat (length f.2)).
Proof. rewrite total_cons. apply Z.add_0_r. Qed.

Lemma total_pos fs : 0 <= total fs.
Proof. induction fs as [|f fs IH]; cbn; [done|]. fold (total fs). pose proof (nblk_pos (length f.2)). lia. Qed.

Lemma total_insert_mono fs i f c p q :
  fs !! i = Some f -> 46 + total (<[i := (f.1, c ++ p ++ q)]> fs) <= 2000 -> 46 + total (<[i := (f.1, c ++ p)]> fs) <= 2000.
Proof.
  intros Hf. rewrite !(total_insert _ _ _ _ Hf). cbn [snd]. rewrite !length_app. pose proof (nblk_mono (Z.of_nat (length c + length p)) (Z.of_nat (length c + (length p + length q))) ltac:(lia)). lia.
Qed.

Lemma append_reads_run i bufs : forall s fs t c,
  holds_files s fs -> fs !! i = Some (t, c) -> Z.of_nat (length c) + Z.of_nat (length (concat bufs)) <= 274432 -> 46 + total (<[i := (t, c ++ concat bufs)]> fs) <= 2000 ->
  exists s', append_reads (Z.of_nat i + 1) bufs s = Ok (tt, s') /\ holds_files s' (<[i := (t, c ++ concat bufs)]> fs).
Proof.
  induction bufs as [|b bufs IH]; intros s fs t c H Hf Hl Hr; cbn [append_reads concat] in *.
  - exists s. rewrite app_nil_r, list_insert_id by done. done.
  - rewrite length_app in Hl. assert (Hi : (i < length fs)%nat) by (by eapply lookup_lt_Some).
    destruct (iappend_run s fs i t c b H Hf ltac:(lia) ltac:(by eapply (total_insert_mono fs i (t, c)))) as (s1 & E1 & H1). rewrite (bind_Ok _ _ _ _ _ E1).
    destruct (IH s1 (<[i := (t, c ++ b)]> fs) t (c ++ b) H1 ltac:(by apply list_lookup_insert_eq)) as (s2 & E2 & H2); [rewrite length_app; lia|by rewrite list_insert_insert_eq, <- app_assoc|].
    exists s2. split; [done|]. by rewrite list_insert_insert_eq, <- app_assoc in H2.
Qed.

Lemma add_file_run s r gs h :
  holds_files s ((T_DIR, r) :: gs) -> host_ok h -> Z.of_nat (length gs) + 2 < 200 -> Z.of_nat (length r) + 16 <= 274432 ->
  let d := mk_dirent (Z.of_nat (length gs) + 2) (image_name h) in
  46 + total ((T_DIR, r ++ d) :: gs ++ [image_file h]) <= 2000 ->
  exists s', add_file 1 h s = Ok (tt, s') /\ holds_files s' ((T_DIR, r ++ d) :: gs ++ [image_file h]).
Proof.
  intros H (H1 & H2 & H3 & H4) Hn Hr d Hroom. unfold add_file, massert. rewrite H1, H2. cbn [negb]. rewrite bind_run, ret_run. fold (image_name h).
  rewrite (proj2 (Z.leb_le _ _)) by (unfold DIRSIZ; lia). rewrite bind_run, ret_run. destruct (ialloc_run s _ T_FILE H ltac:(unfold T_FILE; lia) ltac:(cbn [length]; lia)) as (s1 & E1 & I1). rewrite (bind_Ok _ _ _ _ _ E1).
  replace (Z.of_nat (length ((T_DIR, r) :: gs)) + 1) with (Z.of_nat (length gs) + 2) by (cbn [length]; lia). rewrite xshort_small by lia. fold d.
  assert (Hd : length d = 16%nat) by apply length_mk_dirent. cbn [app] in I1. unfold image_file in *. rewrite total_cons, total_app, total_one in Hroom. cbn [snd] in Hroom. pose proof (nblk_pos (length (file_bytes h))).
  destruct (iappend_run s1 _ 0 T_DIR r d I1 eq_refl ltac:(lia)) as (s2 & E2 & I2); [cbn [insert list_insert]; rewrite total_cons, total_app, total_one; cbn [snd]; change (nblk (Z.of_nat (length (@nil Z)))) with 0; lia|].
  change (Z.of_nat 0 + 1) with 1 in E2. rewrite (bind_Ok _ _ _ _ _ E2). cbn [insert list_insert] in I2. assert (EI : forall f g : Z * list Z, <[S (length gs) := g]> ((T_DIR, r ++ d) :: gs ++ [f]) = (T_DIR, r ++ d) :: gs ++ [g]).
  { intros f g. rewrite app_comm_cons, insert_app_r_alt by (cbn [length]; lia). cbn [length]. by rewrite Nat.sub_diag. }
  replace (Z.of_nat (length gs) + 2) with (Z.of_nat (S (length gs)) + 1) by lia. destruct (append_reads_run (S (length gs)) (hf_reads h) s2 _ T_FILE [] I2) as (s3 & E3 & I3).
  - rewrite app_comm_cons. by apply list_lookup_middle.
  - cbn [length app]. fold (file_bytes h). lia.
  - rewrite EI, total_cons, total_app, total_one. cbn [snd app]. fold (file_bytes h). lia.
  - exists s3. split; [done|]. by rewrite EI in I3.
Qed.

Lemma add_files_run hs : forall s r gs,
  holds_files s ((T_DIR, r) :: gs) -> Forall host_ok hs -> Z.of_nat (length gs) + Z.of_nat (length hs) + 1 < 200 -> Z.of_nat (length r) + 16 * Z.of_nat (length hs) <= 274432 ->
  let fs := (T_DIR, r ++ concat (entries (Z.of_nat (length gs) + 2) hs)) :: gs ++ (image_file <$> hs) in
  46 + total fs <= 2000 -> exists s', add_files 1 hs s = Ok (tt, s') /\ holds_files s' fs.
Proof.
  induction hs as [|h hs IH]; intros s r gs H Hok Hn Hr fs Hroom; cbn [add_files].
  - exists s. split; [done|]. unfold fs. cbn [entries concat fmap list_fmap]. by rewrite !app_nil_r.
  - inversion Hok as [|? ? Hh Hok']; subst. cbn [length] in Hn, Hr. set (d := mk_dirent (Z.of_nat (length gs) + 2) (image_name h)) in *.
    assert (EF : fs = (T_DIR, (r ++ d) ++ concat (entries (Z.of_nat (length (gs ++ [image_file h])) + 2) hs)) :: (gs ++ [image_file h]) ++ (image_file <$> hs)).
    { replace (Z.of_nat (length (gs ++ [image_file h])) + 2) with (Z.of_nat (length gs) + 2 + 1) by (rewrite length_app; cbn; lia). unfold fs. cbn [entries concat]. fold d. rewrite fmap_cons. by rewrite <- !app_assoc. }
    rewrite EF in Hroom |- *. pose proof (total_pos (image_file <$> hs)) as Hp. pose proof (nblk_mono (Z.of_nat (length (r ++ d))) (Z.of_nat (length ((r ++ d) ++ concat (entries (Z.of_nat (length (gs ++ [image_file h])) + 2) hs)))) ltac:(rewrite (length_app (r ++ d)); lia)) as Hm.
    rewrite total_cons, total_app in Hroom. cbn [snd] in Hroom.
    destruct (add_file_run s r gs h H Hh ltac:(lia) ltac:(lia)) as (s1 & E1 & I1); [rewrite total_cons; cbn [snd]; fold d; lia|]. rewrite (bind_Ok _ _ _ _ _ E1).
    apply IH; [done|done|rewrite length_app; cbn; lia|unfold d; rewrite length_app, length_mk_dirent; lia|]. rewrite total_cons, total_app. cbn [snd]. lia.
Qed.

(** ** The empty image *)

Lemma zero_image_run k : forall i s, 0 <= i -> exists img, zero_image k i s = Ok (tt, mk_mkfs img (m_freeinode s) (m_freeblock s)) /\
  (forall b, i <= b < i + Z.of_nat k -> img !! b = Some zero_block) /\ (forall b, ~ (i <= b < i + Z.of_nat k) -> img !! b = m_img s !! b).
Proof.
  induction k as [|k IH]; intros i s Hi; cbn [zero_image].
  - exists (m_img s). split_and!; [by destruct s|lia|done].
  - unfold wsect at 1. rewrite bind_run, modify_run. destruct (IH (i + 1) (upd_img (<[i := zero_block]>) s) ltac:(lia)) as (img & E & H1 & H2). exists img. split; [exact E|]. split.
    + intros b Hb. destruct (decide (b = i)) as [->|Hne]; [|apply H1; lia]. rewrite H2 by lia. cbn. by rewrite lookup_insert_eq.
    + intros b Hb. rewrite H2 by lia. cbn. by rewrite lookup_insert_ne by lia.
Qed.

Lemma get_zero n o : get_le n zero_block o = 0.
Proof. revert o. induction n as [|n IH]; intros o; cbn [get_le]; [done|]. by rewrite IH, byte_at_zero. Qed.

Lemma load_zero n : load_dinode zero_block (zero_dinode n) = zero_dinode n.
Proof.
  unfold load_dinode, di_addrs, get16, get32. rewrite !get_zero. unfold zero_dinode. cbn [i_dev i_inum i_ref i_lock i_valid]. f_equal.
  apply list_eq. intros i. rewrite list_lookup_fmap. destruct (decide (i < 13)%nat); [rewrite lookup_seq_lt, lookup_replicate_2 by done; cbn [fmap option_fmap option_map]; by rewrite get_zero|]. rewrite lookup_seq_ge by lia. rewrite lookup_ge_None_2; [done|]. rewrite length_replicate. lia.
Qed.

Lemma start_run s : m_freeinode s = 1 -> m_img s = ∅ -> exists s', holds_files s' [] /\
  forall (k : M mkfs unit), (modify (fun s => mk_mkfs (m_img s) (m_freeinode s) nmeta);; zero_image (Z.to_nat FSSIZE) 0;; wsect 1 (put_words zero_block 0 sb_words);; k) s = k s'.
Proof.
  intros E1 E2. change nmeta with 46. destruct (zero_image_run (Z.to_nat FSSIZE) 0 (mk_mkfs (m_img s) (m_freeinode s) 46) ltac:(lia)) as (img & E & H1 & H2).
  eexists. split; [|intros k; rewrite bind_run, modify_run, (bind_Ok _ _ _ _ _ E); unfold wsect; rewrite bind_run, modify_run; reflexivity].
  rewrite E1. cbn [upd_img m_img m_freeinode m_freeblock] in *. change (Z.of_nat (Z.to_nat FSSIZE)) with 2000 in *. assert (Hz : forall b, disk_get img b = zero_block).
  { intros b. unfold disk_get. destruct (decide (0 <= b < 0 + 2000)) as [Hb|Hb]; [by rewrite H1|]. rewrite H2, E2 by done. by rewrite lookup_empty. }
  assert (Hsb : length (put_words zero_block 0 sb_words) = 1024%nat) by (by rewrite length_put_words). set (d := put_words zero_block 0 sb_words) in *. split; cbn [m_img m_freeinode m_freeblock upd_img length inos fmap list_fmap seq].
  - split; [| |lia|done|done|done|lia|].
    + intros b Hb. apply lookup_insert_is_Some'. right. rewrite H1 by lia. done.
    + intros b. rewrite disk_get_insert. case_decide; [done|]. by rewrite Hz.
    + intros b Hb. rewrite disk_get_insert, decide_False by lia. apply Hz.
  - done.
  - intros n Hn _. destruct (iblock_eq n Hn) as [_ Hb]. unfold ino. rewrite disk_get_insert, decide_False, Hz by lia. apply load_zero.
  - split; [by rewrite disk_get_insert, decide_True|]. intros b Hb. rewrite disk_get_insert, decide_False by lia. apply Hz.
  - lia.
  - done.
Qed.

(** ** The end of main *)

(** The directory is filled up with unused entries to the end of its block. *)
Definition round_up (r : list Z) : list Z := r ++ replicate (1024 - length r mod 1024) 0.

Lemma round_up_len r : Z.of_nat (length (round_up r)) = (Z.of_nat (length r) / 1024 + 1) * 1024.
Proof. unfold round_up. rewrite length_app, length_replicate. pose proof (Nat.div_mod_eq (length r) 1024). pose proof (Nat.mod_upper_bound (length r) 1024 ltac:(lia)). rewrite Nat2Z.inj_add, Nat2Z.inj_sub, Nat2Z.inj_mod by lia. change (Z.of_nat 1024) with 1024. pose proof (Z.div_mod (Z.of_nat (length r)) 1024). lia. Qed.

Lemma byte_at_round_up r y : 0 <= y -> byte_at (round_up r) y = byte_at r y.
Proof.
  intros Hy. unfold round_up. rewrite byte_at_app by done. destruct (Z.ltb_spec y (Z.of_nat (length r))); [done|]. rewrite (byte_at_past r) by lia. unfold byte_at.
  destruct (decide (Z.to_nat (y - Z.of_nat (length r)) < 1024 - length r mod 1024)%nat); [by rewrite lookup_replicate_2|]. rewrite lookup_ge_None_2; [done|]. rewrite length_replicate. lia.
Qed.

(** [fs] are the files of the inodes 1, 2, ..., and the first [m] bytes of the
    root directory, inode 1, have blocks. *)
Definition file_upto (img : blocks) (x : inode) (f : Z * list Z) (m : Z) : Prop :=
  i_type x = f.1 /\ i_major x = 0 /\ i_minor x = 0 /\ i_nlink x = 1 /\ i_size x = Z.of_nat (length f.2) /\ Z.of_nat (length f.2) <= 274432 /\ reads img x f.2 /\ maps img x m.

Definition backed (i : nat) (f : Z * list Z) (m : Z) : Z := if decide (i = 0%nat) then m else Z.of_nat (length f.2).

Record final_files (s : mkfs) (fs : list (Z * list Z)) (m : Z) : Prop := {
  ff_good : good (m_img s) (inos (m_img s) (length fs)) (m_freeblock s);
  ff_files : forall i f, fs !! i = Some f -> file_upto (m_img s) (ino (m_img s) (Z.of_nat i + 1)) f (backed i f m);
  ff_free : forall n, 0 <= n < 208 -> n = 0 \/ Z.of_nat (length fs) < n -> ino (m_img s) n = zero_dinode n;
  ff_meta : meta_blocks (m_img s);
  ff_next : Z.of_nat (length fs) < 200;
  ff_root : forall f, fs !! 0%nat = Some f -> 0 <= m /\ Z.of_nat (length f.2) = (m / 1024 + 1) * 1024;
}.

Lemma fix_root_run s r gs :
  holds_files s ((T_DIR, r) :: gs) -> Z.of_nat (length r) < 274432 ->
  exists s', fix_root 1 s = Ok (tt, s') /\ final_files s' ((T_DIR, round_up r) :: gs) (Z.of_nat (length r)).
Proof.
  intros [H1 H2 H3 H4 [H5 H6] H7] Hlen. set (fs := (T_DIR, r) :: gs) in *. destruct (H2 0%nat _ eq_refl) as (Ht & F1 & F2 & F3 & F4 & F5 & _ & F7 & F8). cbn [fst snd] in *. change (Z.of_nat 0 + 1) with 1 in *.
  set (x := ino (m_img s) 1) in *. set (xs := inos (m_img s) (length fs)) in *. assert (Hx : xs !! 0%nat = Some x) by (apply (lookup_inos (m_img s) (length fs) 0); cbn; lia).
  unfold fix_root, rinode. destruct (iblock_eq 1 ltac:(lia)) as [_ Hib]. rewrite bind_run, (bind_Ok _ _ _ _ _ (rsect_run _ _ _ s (IBLOCK 1 sb) H1 eq_refl ltac:(lia))), ret_run. fold (ino (m_img s) 1). fold x.
  pose proof (Z.div_mod (Z.of_nat (length r)) 1024 ltac:(lia)) as Hd. pose proof (Z.mod_pos_bound (Z.of_nat (length r)) 1024 ltac:(lia)) as Hm. pose proof (round_up_len r) as Hru. unfold BSIZE. rewrite F5, (xint_small (Z.of_nat (length r))) by lia.
  set (q := Z.of_nat (length r) / 1024) in *. rewrite u32_small, xint_small by lia. set (x2 := set_i_size ((q + 1) * 1024) x).
  assert (Hsh : shaped 1 x2) by (by split_and!). assert (Hfit : dinode_fits x2) by (apply (fits_ino _ s 0 x x2 1 H1 Hx Hsh); [lia|done|change (i_type x2) with (i_type x); by rewrite F1|exact F2|exact F3|exact F4|cbn [i_size x2 set_i_size]; lia]).
  exists (upd_img (<[IBLOCK 1 sb := store_dinode x2 (disk_get (m_img s) (IBLOCK 1 sb))]>) s). split; [by apply (winode_run _ s H1)|]. set (s2 := upd_img _ s). assert (Hn : 0 <= 1 < 208) by lia.
  pose proof (winode_good _ s H1 1 Hn x2 Hfit) as [G2 S2]. pose proof (winode_bytes _ s H1 1 Hn x2 Hfit) as B2. pose proof (winode_at _ s H1 1 Hn x2 Hsh Hfit) as AT. pose proof (winode_other _ s H1 1 Hn x2 Hsh Hfit) as OT. pose proof (winode_low s 1 Hn x2) as LO.
  fold s2 in G2, S2, B2, AT, OT, LO. assert (Hinos : inos (m_img s2) (length fs) = <[0%nat := x2]> xs) by (apply inos_update; [cbn; lia|done|]; intros j Hj Hne; apply OT; lia).
  change (length ((T_DIR, round_up r) :: gs)) with (length fs). split.
  - change (length ((T_DIR, round_up r) :: gs)) with (length fs). rewrite Hinos. revert G2. apply good_addrs. rewrite list_fmap_insert. symmetry. apply list_insert_id. by rewrite list_lookup_fmap, Hx.
  - intros [|j] g Hg.
    + injection Hg as <-. change (Z.of_nat 0 + 1) with 1. change (backed 0 _ (Z.of_nat (length r))) with (Z.of_nat (length r)). rewrite AT. split_and!; try done; cbn [fst snd]; [rewrite Hru; lia|..].
      * intros o Ho. rewrite (fbyte_addrs _ x2 x), (B2 0%nat), byte_at_round_up by (done || lia). by apply F7.
      * destruct F8 as [M1 M2]. split; [|rewrite (slot_addrs _ x2 x), (S2 0%nat), M2 by done; lia]. intros bn Hbn. unfold fblock. rewrite (slot_addrs _ x2 x), (S2 0%nat) by done. by apply M1.
    + assert (Hg' : fs !! S j = Some g) by exact Hg. destruct (H2 (S j) g Hg') as [_ Hok]. assert (Hj : (S j < length fs)%nat) by (by eapply lookup_lt_Some). rewrite OT by lia. set (y := ino (m_img s) (Z.of_nat (S j) + 1)) in *.
      assert (Hy : xs !! S j = Some y) by (by apply lookup_inos). apply (file_ok_ext (m_img s) _ y y); [intros k Hk; by apply (S2 (S j))|intros o Ho; by apply (B2 (S j))|by split_and!|done].
  - intros n Hn' Hfree. rewrite OT; [by apply H3|done|]. cbn [length] in *. lia.
  - destruct H4 as [M1 M2]. split; [by rewrite LO by lia|]. intros b Hb. rewrite LO by lia. by apply M2.
  - done.
  - intros f [= <-]. cbn [snd]. rewrite Hru. lia.
Qed.

Lemma set_bits_spec k : forall i buf, length buf = 1024%nat -> 0 <= i -> i + Z.of_nat k <= 8192 ->
  length (set_bits k i buf) = 1024%nat /\ forall b, 0 <= b < 8192 -> bit_set (set_bits k i buf) b = ((i <=? b) && (b <? i + Z.of_nat k)) || bit_set buf b.
Proof.
  induction k as [|k IH]; intros i buf Hl Hi Hk; cbn [set_bits].
  - split; [done|]. intros b Hb. replace ((i <=? b) && (b <? i + Z.of_nat 0)) with false; [done|]. repeat case_bool; lia.
  - destruct (IH (i + 1) (mark_bit buf i)) as [L E]; [by rewrite length_mark_bit|lia|lia|]. split; [done|]. intros b Hb. rewrite E, bit_mark by (try done; rewrite ?Hl; Z.div_mod_to_equations; lia). rewrite orb_assoc. f_equal. repeat case_bool; lia.
Qed.

(** What the kernel finds on the image: inode 1 is the root directory, the first
    [m] bytes of which are entries.  Every block of a file exists; but when the
    entries end at the end of a block, the directory's size says that there is one
    more. *)
Record image_ok (img : blocks) (fs : list (Z * list Z)) (m : Z) : Prop := {
  im_sb : parse_sb (disk_get img 1) = sb;
  im_log : forall b, 2 <= b < 32 -> disk_get img b = zero_block;
  im_layout : layout (K img) sb;
  im_file : forall i f y, fs !! i = Some f -> i_inum y = Z.of_nat i + 1 ->
    let x := load_dinode (disk_get img (IBLOCK (i_inum y) sb)) y in
    i_type x = f.1 /\ i_nlink x = 1 /\ i_size x = Z.of_nat (length f.2) /\ read_pre (K img) sb x /\ (mapped (K img) x <-> (i = 0%nat -> m mod 1024 <> 0)) /\ reads img x f.2;
  im_free : forall n, Z.of_nat (length fs) < n < 200 -> di_type (disk_get img (IBLOCK n sb)) n = 0;
  im_used : forall b, 0 <= b < 2000 -> used (K img) sb b = true <-> meta sb b \/ exists i, (i < length fs)%nat /\ owned (K img) (ino img (Z.of_nat i + 1)) b;
  im_disjoint : forall i j b, (i < length fs)%nat -> (j < length fs)%nat -> owned (K img) (ino img (Z.of_nat i + 1)) b -> owned (K img) (ino img (Z.of_nat j + 1)) b -> i = j;
}.

Lemma load_ino img n y : i_inum y = n -> let x := load_dinode (disk_get img (IBLOCK n sb)) y in
  i_type x = i_type (ino img n) /\ i_nlink x = i_nlink (ino img n) /\ i_size x = i_size (ino img n) /\ i_addrs x = i_addrs (ino img n).
Proof. intros <-. done. Qed.

Lemma meta_46 b : meta sb b <-> 0 <= b < 46.
Proof. done. Qed.

Lemma bblock_45 b : 0 <= b < 2000 -> BBLOCK b sb = 45.
Proof. intros Hb. change (BBLOCK b sb) with (b / 8192 + 45). rewrite Z.div_small by lia. done. Qed.

Section image.
Context (s : mkfs) (fs : list (Z * list Z)) (m : Z) (H : final_files s fs m).
Local Abbreviation F := (m_freeblock s).
Local Abbreviation bm := (set_bits (Z.to_nat F) 0 zero_block).
Local Abbreviation img := (<[45 := bm]> (m_img s)).

Lemma image_F : 46 <= F <= 2000.
Proof using H. apply (g_F _ _ _ (ff_good _ _ _ H)). Qed.

Lemma image_good : good img (inos img (length fs)) F /\ inos img (length fs) = inos (m_img s) (length fs) /\
  forall i x, inos (m_img s) (length fs) !! i = Some x -> (forall j, slot (K img) x j = slot (K (m_img s)) x j) /\ forall o, 0 <= o < 274432 -> fbyte (K img) x o = fbyte (K (m_img s)) x o.
Proof using H.
  pose proof image_F as HF. pose proof (ff_good _ _ _ H) as G. destruct (set_bits_spec (Z.to_nat F) 0 zero_block eq_refl ltac:(lia) ltac:(lia)) as [Hl _].
  assert (EI : forall n, 0 <= n < 208 -> ino img n = ino (m_img s) n) by (intros n Hn; unfold ino; destruct (iblock_eq n Hn); rewrite disk_get_insert, decide_False by lia; done).
  assert (Einos : inos img (length fs) = inos (m_img s) (length fs)) by (pose proof (ff_next _ _ _ H); apply inos_ext; intros j Hj; apply EI; lia).
  destruct (good_meta _ _ _ G 45 bm ltac:(lia) Hl) as [G' S']. rewrite Einos. split; [done|]. split; [done|]. intros i x Hx. split; [intros j; by apply (S' i)|]. intros o Ho. destruct (bslot_range _ (file_block o Ho)) as [Hin _].
  unfold fbyte, fblock. rewrite (S' i) by done. destruct (Z.eqb_spec (slot (K (m_img s)) x (bslot (o / 1024))) 0) as [|Hne]; [done|]. f_equal. unfold kget. cbn [k_view boot_blk]. rewrite disk_get_insert, decide_False; [done|].
  destruct (g_range _ _ _ G i x _ Hx Hin); [done|lia].
Qed.

Lemma image_used b : 0 <= b < 2000 -> used (K img) sb b = true <-> b < F.
Proof using H.
  intros Hb. pose proof image_F as HF. unfold used. rewrite bblock_45 by done. unfold kget. cbn [k_view boot_blk]. rewrite disk_get_insert, decide_True by done. unfold BPB. rewrite Z.mod_small by lia.
  destruct (set_bits_spec (Z.to_nat F) 0 zero_block eq_refl ltac:(lia) ltac:(lia)) as [_ ->]; [|lia]. assert (Ez : bit_set zero_block b = false) by (unfold bit_set; by rewrite byte_at_zero). rewrite Ez, orb_false_r, andb_true_iff, Z.leb_le, Z.ltb_lt. lia.
Qed.

Lemma image_layout : layout (K img) sb.
Proof using H.
  pose proof image_F as HF. split; [done|done|by vm_compute|by vm_compute| |].
  - intros b Hb. pose proof (proj1 (meta_46 b) Hb). apply (image_used b); lia.
  - intros b Hb. change (sb_size sb) with 2000 in Hb. rewrite bblock_45 by done. destruct image_good as [G _]. apply (g_len _ _ _ G).
Qed.

Lemma image_slots i x : inos img (length fs) !! i = Some x -> slots_ok (K img) sb x.
Proof using H.
  intros Hx. destruct image_good as [G _]. pose proof image_F as HF. split; [by apply (g_addrs _ _ _ G i)|..].
  - intros j Hj Hn. destruct (g_range _ _ _ G i x j Hx Hj) as [?|Hr]; [done|]. split_and!; [change (sb_size sb) with 2000; lia..|apply image_used; lia|rewrite meta_46; lia|apply (g_len _ _ _ G)].
  - intros j j' Hj Hj' Hn E. by destruct (g_inj _ _ _ G i i x x j j' Hx Hx Hj Hj' Hn E).
Qed.

Lemma image_holds : image_ok img fs m.
Proof using H.
  destruct image_good as (G & Einos & Hsame). pose proof image_F as HF. pose proof H as [H1 H2 H3 [H4 H4'] H6 H7]. split.
  - rewrite disk_get_insert, decide_False, H4 by lia. vm_compute. reflexivity.
  - intros b Hb. rewrite disk_get_insert, decide_False by lia. apply H4'. lia.
  - apply image_layout.
  - intros i f y Hf Ey. rewrite Ey. destruct (load_ino img (Z.of_nat i + 1) y Ey) as (L1 & L2 & L3 & L4). cbv zeta. set (x' := load_dinode _ y) in *. assert (Hi : (i < length fs)%nat) by (by eapply lookup_lt_Some). pose proof (lookup_inos img (length fs) i Hi) as Hx. set (x := ino img (Z.of_nat i + 1)) in *.
    assert (Ex : x = ino (m_img s) (Z.of_nat i + 1)) by (rewrite Einos, lookup_inos in Hx by done; congruence). destruct (H2 i f Hf) as (F1 & _ & _ & F4 & F5 & F6 & F7 & F8 & F9). rewrite <- Ex in *. rewrite Einos in Hx. destruct (Hsame i x Hx) as [S' B'].
    pose proof (image_slots i x ltac:(by rewrite Einos)) as [K1 K2 K3]. assert (HS : forall j, slot (K img) x' j = slot (K img) x j) by (intros j; by apply slot_addrs). split_and!; [congruence..| | |].
    + refine (quiet_read_pre 2 30 (K img) sb x' image_layout eq_refl eq_refl _). split; [by rewrite L4|intros j Hj; rewrite HS; by apply K2|intros j j' Hj Hj'; rewrite !HS; by apply K3].
    + assert (Hbl : forall bn, fblock (K img) x' bn = fblock (K (m_img s)) x bn) by (intros bn; unfold fblock; by rewrite HS, S'). unfold mapped. rewrite L3, F5. setoid_rewrite Hbl.
      unfold backed in F8. destruct (decide (i = 0%nat)) as [->|Hne]; [|split; [done|]; intros _; split; [lia|]; intros bn Hb0 Hb; apply F8; lia].
      destruct (H7 f Hf) as [Hm Hlf]. rewrite Hlf in *. pose proof (Z.div_mod m 1024 ltac:(lia)) as Hdm. pose proof (Z.mod_pos_bound m 1024 ltac:(lia)) as Hbm. split.
      * intros [_ Hall] _ Em. assert (m / 1024 * 1024 < m) by (apply F8; [lia|]; apply Hall; lia). lia.
      * intros Hmod. specialize (Hmod eq_refl). split; [lia|]. intros bn Hb0 Hb. apply F8; lia.
    + intros o Ho. rewrite (fbyte_addrs _ x' x) by done. rewrite B' by done. by apply F7.
  - intros n Hn. destruct (iblock_eq n ltac:(lia)) as [_ Hb]. rewrite disk_get_insert, decide_False by lia. pose proof (H3 n ltac:(lia) ltac:(lia)) as E. apply (f_equal i_type) in E. exact E.
  - intros b Hb. rewrite image_used, meta_46 by done. split.
    + intros Hlt. destruct (decide (b < 46)); [left; lia|right]. destruct (g_cover _ _ _ G b ltac:(lia)) as (i & x & j & Hx & Hj & E). assert (Hi : (i < length fs)%nat) by (rewrite <- (length_inos img); by eapply lookup_lt_Some). exists i. split; [done|]. rewrite lookup_inos in Hx by done. injection Hx as ->. exists j. split_and!; [done..|lia].
    + intros [?|(i & Hi & j & Hj & E & Hn)]; [lia|]. destruct (g_range _ _ _ G i _ j (lookup_inos img _ i Hi) Hj); lia.
  - intros i j b Hi Hj (a & Ha & Ea & Hn) (a' & Ha' & Ea' & _). destruct (g_inj _ _ _ G i j _ _ a a' (lookup_inos img _ i Hi) (lookup_inos img _ j Hj) Ha Ha'); congruence.
Qed.
End image.

(** ** mkfs *)

Definition root_entries (hs : list hostfile) : list (list Z) := mk_dirent 1 [46] :: mk_dirent 1 [46; 46] :: entries 2 hs.
Definition image_files (hs : list hostfile) : list (Z * list Z) := (T_DIR, round_up (concat (root_entries hs))) :: (image_file <$> hs).

(** There are inodes and blocks for the files. *)
Definition fits (hs : list hostfile) : Prop :=
  Forall host_ok hs /\ (length hs <= 198)%nat /\ 46 + nblk (Z.of_nat (length (concat (root_entries hs)))) + total (image_file <$> hs) <= 2000.

(** And the directory does not end at the end of a block. *)
Definition fits_image (hs : list hostfile) : Prop :=
  Forall host_ok hs /\ (length hs <= 198)%nat /\ (Z.of_nat (length hs) + 2) mod 64 <> 0 /\ 46 + total (image_files hs) <= 2000.

Lemma length_root hs : Z.of_nat (length (concat (root_entries hs))) = 16 * (Z.of_nat (length hs) + 2).
Proof. unfold root_entries. cbn [concat]. rewrite !length_app, !length_mk_dirent, length_concat_entries. lia. Qed.

Lemma fits_image_fits hs : fits_image hs -> fits hs /\ (16 * (Z.of_nat (length hs) + 2)) mod 1024 <> 0.
Proof.
  intros (Hok & Hn & Hmod & Hroom). pose proof (length_root hs) as Hr. split; [|Z.div_mod_to_equations; lia]. split_and!; [done..|].
  unfold image_files in Hroom. rewrite total_cons in Hroom. cbn [snd] in Hroom. pose proof (round_up_len (concat (root_entries hs))) as Hru.
  pose proof (nblk_mono (Z.of_nat (length (concat (root_entries hs)))) (Z.of_nat (length (round_up (concat (root_entries hs))))) ltac:(Z.div_mod_to_equations; lia)). lia.
Qed.

Lemma main_run hs : fits hs -> exists s, main hs mkfs0 = Ok (tt, s) /\ image_ok (m_img s) (image_files hs) (16 * (Z.of_nat (length hs) + 2)).
Proof.
  intros (Hok & Hn & Hroom). unfold main. destruct (start_run mkfs0 eq_refl eq_refl) as (s0 & I0 & E0). rewrite E0. clear E0.
  set (r := concat (root_entries hs)) in *. assert (Hr : Z.of_nat (length r) = 16 * (Z.of_nat (length hs) + 2)) by apply length_root.
  pose proof (total_pos (image_file <$> hs)) as Hpos.
  destruct (ialloc_run s0 [] T_DIR I0 ltac:(unfold T_DIR; lia) ltac:(cbn; lia)) as (s1 & E1 & I1). rewrite (bind_Ok _ _ _ _ _ E1). change (Z.of_nat (length (@nil (Z * list Z))) + 1) with 1. change (1 =? ROOTINO) with true. unfold massert at 1. rewrite bind_run, ret_run. change (xshort 1) with 1.
  cbn [app] in I1. destruct (iappend_run s1 _ 0 T_DIR [] (mk_dirent 1 [46]) I1 eq_refl ltac:(rewrite length_mk_dirent; cbn; lia)) as (s2 & E2 & I2); [cbn [insert list_insert app]; rewrite total_one; cbn [snd]; rewrite length_mk_dirent; vm_compute; done|].
  change (Z.of_nat 0 + 1) with 1 in E2. rewrite (bind_Ok _ _ _ _ _ E2). cbn [insert list_insert app] in I2.
  destruct (iappend_run s2 _ 0 T_DIR _ (mk_dirent 1 [46; 46]) I2 eq_refl ltac:(rewrite !length_mk_dirent; cbn; lia)) as (s3 & E3 & I3); [cbn [insert list_insert app]; rewrite total_one; cbn [snd]; rewrite length_app, !length_mk_dirent; vm_compute; done|].
  change (Z.of_nat 0 + 1) with 1 in E3. rewrite (bind_Ok _ _ _ _ _ E3). cbn [insert list_insert] in I3.
  destruct (add_files_run hs s3 _ [] I3 Hok ltac:(cbn; lia) ltac:(rewrite length_app, !length_mk_dirent; lia)) as (s4 & E4 & I4).
  { change (Z.of_nat (length (@nil (Z * list Z))) + 2) with 2. rewrite <- app_assoc. fold r. rewrite total_cons. cbn [snd app]. change (mk_dirent 1 [46] ++ mk_dirent 1 [46; 46] ++ concat (entries 2 hs)) with r. lia. }
  rewrite (bind_Ok _ _ _ _ _ E4). change (Z.of_nat (length (@nil (Z * list Z))) + 2) with 2 in I4. rewrite <- app_assoc in I4. change (mk_dirent 1 [46] ++ mk_dirent 1 [46; 46] ++ concat (entries 2 hs)) with r in I4. cbn [app] in I4.
  destruct (fix_root_run s4 r _ I4) as (s5 & E5 & I5); [lia|]. rewrite (bind_Ok _ _ _ _ _ E5), bind_run, gets_run. pose proof (image_F _ _ _ I5) as HF. unfold balloc, massert, BPB. rewrite (proj2 (Z.ltb_lt _ _)), bind_run, ret_run by lia. unfold wsect. rewrite modify_run.
  eexists. split; [reflexivity|]. change (sb_bmapstart sb) with 45. rewrite <- Hr. exact (image_holds s5 _ _ I5).
Qed.

(** The log is empty: recovery changes nothing. *)
Lemma empty_log img : disk_get img 2 = zero_block -> log_disk_ok 2 30 img /\ forall b, disk_get (recovered 2 img) b = disk_get img b.
Proof.
  intros E. split.
  - split; rewrite ?E; [lia|done|vm_compute; done|vm_compute; constructor].
  - intros b. unfold recovered, recovery_writes. rewrite E. change (hdr_entries zero_block) with (@nil Z). cbn [zip_with app apply_writes foldl]. unfold disk_get at 1. destruct (decide (b = 2)) as [->|Hne]; [|by rewrite lookup_insert_ne].
    rewrite lookup_insert_eq, E. vm_compute. reflexivity.
Qed.

Lemma image_boots {U} me img fs m d (t : Fs.fs (lfs bio) U) : image_ok img fs m -> d_blocks d = img -> f_blk t = mk_lfs bss_log (binit (bss_bio d)) ->
  exists st v, @fsinit bio U (bio_BufCache me) ROOTDEV t = Ok (tt, mk_fs st (f_um t) sb (f_itable t)) /\ stack_rel me st (K v) /\ forall b, disk_get v b = disk_get img b.
Proof.
  intros I <- Et. destruct (empty_log (d_blocks d) (im_log _ _ _ I 2 ltac:(lia))) as [Hok Hsame]. destruct (fsinit_run me d t Et) as [_ H]. rewrite (im_sb _ _ _ I) in H.
  destruct (H eq_refl Hok) as (st & Er & Hst). exists st, (recovered 2 (d_blocks d)). exact (conj Er (conj Hst Hsame)).
Qed.

(** ** What the kernel finds *)

Lemma byte_at_concat (ents : list (list Z)) j de i : Forall (fun e => length e = 16%nat) ents -> ents !! j = Some de -> (i < 16)%nat -> byte_at (concat ents) (16 * Z.of_nat j + Z.of_nat i) = byte_at de (Z.of_nat i).
Proof.
  intros Hl. revert j. induction Hl as [|e ents He Hl IH]; intros [|j] Hj Hi; try done; cbn [concat]; rewrite byte_at_app by lia.
  - injection Hj as ->. rewrite (proj2 (Z.ltb_lt _ _)) by lia. f_equal.
  - rewrite (proj2 (Z.ltb_ge _ _)) by lia. rewrite <- (IH j Hj Hi). f_equal. lia.
Qed.

Lemma dir_entries_lookup img x r ents j de :
  reads img x r -> i_size x = Z.of_nat (length r) -> Z.of_nat (length r) <= 274432 -> (exists z, r = concat ents ++ z) -> Forall (fun e => length e = 16%nat) ents -> ents !! j = Some de -> dir_entries (K img) x !! j = Some de.
Proof.
  intros Hr Hs Hmax [z ->] Hl Hj. assert (Hde : length de = 16%nat) by (by eapply Forall_lookup_1 in Hl). assert (Hlen : (16 * j + 16 <= length (concat ents))%nat).
  { clear Hr Hs Hmax. revert j Hj. induction Hl as [|e ents He Hl IH]; intros [|j] Hj; try done; cbn [concat]; rewrite length_app; [lia|]. specialize (IH j Hj). lia. }
  rewrite length_app in *. rewrite lookup_dir_entries by (rewrite Hs; apply Nat2Z.inj_lt; rewrite Z2Nat.id by (apply Z.div_pos; lia); apply (Z.lt_le_trans _ (Z.of_nat j + 1)); [lia|]; apply Z.div_le_lower_bound; lia). f_equal. apply list_eq. intros i. destruct (decide (i < 16)%nat) as [Hi|Hi].
  - unfold file_range. rewrite list_lookup_fmap, lookup_seq_lt by done. cbn [fmap option_fmap option_map]. rewrite Hr, byte_at_app by lia. rewrite (proj2 (Z.ltb_lt _ _)) by lia. rewrite Nat.add_0_l, (byte_at_concat ents j de i) by done.
    unfold byte_at. rewrite Nat2Z.id. destruct (lookup_lt_is_Some_2 de i) as [c ->]; [lia|done].
  - rewrite !lookup_ge_None_2; [done|lia|rewrite length_file_range; lia].
Qed.

Lemma dir_find_at (l : list (list Z)) name de : forall j off, l !! j = Some de -> de_inum de <> 0 -> same_name name (de_name de) -> (forall j' e, (j' < j)%nat -> l !! j' = Some e -> ~ same_name name (de_name e)) -> dir_find l name off = Some (de_inum de, off + 16 * Z.of_nat j).
Proof.
  induction l as [|e l IH]; intros [|j] off Hj Hn Hs Hb; try done; cbn [dir_find].
  - injection Hj as ->. rewrite (proj2 (Z.eqb_neq _ _) Hn), bool_decide_eq_true_2 by done. cbn. do 2 f_equal. lia.
  - rewrite (bool_decide_eq_false_2 (same_name name (de_name e)) (Hb 0%nat e ltac:(lia) eq_refl)), andb_false_r.
    rewrite (IH j (off + 16) Hj Hn Hs (fun j' e' Hj' He' => Hb (S j') e' ltac:(lia) He')). do 2 f_equal. lia.
Qed.

Lemma lookup_entries hs : forall n j h, hs !! j = Some h -> entries n hs !! j = Some (mk_dirent (n + Z.of_nat j) (image_name h)).
Proof.
  induction hs as [|h' hs IH]; intros n [|j] h Hj; try done; cbn [entries lookup list_lookup].
  - injection Hj as ->. by rewrite Z.add_0_r.
  - change (entries (n + 1) hs !! j = Some (mk_dirent (n + Z.of_nat (S j)) (image_name h))). rewrite (IH _ j h Hj). do 2 f_equal. lia.
Qed.

Lemma entries_names hs : forall n j e, entries n hs !! j = Some e -> exists h, hs !! j = Some h /\ e = mk_dirent (n + Z.of_nat j) (image_name h).
Proof.
  intros n j e He. assert (Hj : (j < length hs)%nat) by (rewrite <- (length_entries n hs); by eapply lookup_lt_Some). destruct (lookup_lt_is_Some_2 hs j Hj) as [h Hh]. exists h. split; [done|]. rewrite (lookup_entries hs n j h Hh) in He. congruence.
Qed.

Lemma root_entries_16 hs : Forall (fun e => length e = 16%nat) (root_entries hs).
Proof.
  unfold root_entries. constructor; [apply length_mk_dirent|]. constructor; [apply length_mk_dirent|]. apply Forall_lookup. intros j e He. destruct (entries_names hs 2 j e He) as (h & _ & ->). apply length_mk_dirent.
Qed.

(** Different names, and none of them one of the two of every directory. *)
Definition names_ok (hs : list hostfile) : Prop :=
  (forall i j h h', hs !! i = Some h -> hs !! j = Some h' -> i <> j -> ~ same_name (image_name h) (image_name h')) /\
  forall i h, hs !! i = Some h -> ~ same_name (image_name h) [46] /\ ~ same_name (image_name h) [46; 46].

Lemma find_name img x hs i h :
  (length hs <= 198)%nat -> names_ok hs -> hs !! i = Some h -> reads img x (round_up (concat (root_entries hs))) -> i_size x = Z.of_nat (length (round_up (concat (root_entries hs)))) ->
  dir_find (dir_entries (K img) x) (image_name h) 0 = Some (Z.of_nat i + 2, 16 * (Z.of_nat i + 2)).
Proof.
  intros Hlen [N1 N2] Hh Hr Hs. assert (Hi : (i < length hs)%nat) by (by eapply lookup_lt_Some). set (r := concat (root_entries hs)) in *.
  assert (Hl : length r = (16 * (2 + length hs))%nat) by (unfold r, root_entries; cbn [concat]; rewrite !length_app, !length_mk_dirent, length_concat_entries; lia).
  pose proof (round_up_len r) as Hru. assert (Hmax : Z.of_nat (length (round_up r)) <= 274432) by (rewrite Hru, Hl; Z.div_mod_to_equations; lia).
  assert (Hlook : forall j e, root_entries hs !! j = Some e -> dir_entries (K img) x !! j = Some e) by (intros j e He; apply (dir_entries_lookup img x (round_up r) (root_entries hs)); [done..|by eexists|apply root_entries_16|done]).
  destruct (mk_dirent_fields (Z.of_nat i + 2) (image_name h) ltac:(lia)) as [F1 F2].
  assert (He : root_entries hs !! S (S i) = Some (mk_dirent (Z.of_nat i + 2) (image_name h))) by (cbn; change (entries 2 hs !! i = Some (mk_dirent (Z.of_nat i + 2) (image_name h))); rewrite (lookup_entries hs 2 i h Hh); do 2 f_equal; lia).
  rewrite (dir_find_at _ (image_name h) _ (S (S i)) 0 (Hlook _ _ He)); [rewrite F1; do 2 f_equal; lia|lia|rewrite F2; by apply same_name_pad|].
  intros j' e' Hj' He'. assert (Hr' : root_entries hs !! j' = Some e').
  { destruct (lookup_lt_is_Some_2 (root_entries hs) j') as [e2 He2]; [unfold root_entries; cbn [length]; rewrite length_entries; lia|]. rewrite He2. rewrite <- He'. symmetry. by apply Hlook. }
  destruct j' as [|[|j']].
  - rewrite (Some_inj e' (mk_dirent 1 [46]) (eq_sym Hr')), (proj2 (mk_dirent_fields 1 [46] ltac:(lia))), same_name_pad. by apply (N2 i).
  - rewrite (Some_inj e' (mk_dirent 1 [46; 46]) (eq_sym Hr')), (proj2 (mk_dirent_fields 1 [46; 46] ltac:(lia))), same_name_pad. by apply (N2 i).
  - destruct (entries_names hs 2 j' e' Hr') as (h' & Hh' & ->). rewrite (proj2 (mk_dirent_fields (2 + Z.of_nat j') (image_name h') ltac:(assert (j' < length hs)%nat by (by eapply lookup_lt_Some); lia))), same_name_pad. apply (N1 i j'); [done|done|lia].
Qed.


(** (C17) The kernel finds the files of the image, when their names are distinct and
    other than . and .. ([names_ok]) and they fit on a disk whose root
    directory does not fill its last block ([fits_image]): dirlookup in the root directory
    answers the name of a file (without user/ and the underscore) with the number
    of its inode, and readi of that inode returns the bytes of the host's file. *)
Theorem mkfs_readable {U} `{UserMemOk U} (hs : list hostfile) (s : mkfs) (t : fs blk U) (dp ip : Z) (root x : inode) (i : nat) (h : hostfile) :
  fits_image hs -> names_ok hs -> main hs mkfs0 = Ok (tt, s) -> hs !! i = Some h ->
  valid_ip t dp -> valid_ip t ip -> i_inum root = 1 -> i_inum x = Z.of_nat i + 2 ->
  let load y := load_dinode (disk_get (m_img s) (IBLOCK (i_inum y) sb)) y in
  let n := Z.of_nat (length (file_bytes h)) in
  dirlookup dp (image_name h) (with_ino t dp (K (m_img s)) (load root)) =
    (q ← iget (i_dev root) (Z.of_nat i + 2); mret (Some (q, 16 * (Z.of_nat i + 2)))) (with_ino t dp (K (m_img s)) (load root)) /\
  readi ip false 0 0 n (with_ino t ip (K (m_img s)) (load x)) = Ok ((n, file_bytes h), with_ino t ip (K (m_img s)) (load x)).
Proof.
  intros Hf Hnm E Hh Hdp Hip Er Ex load n. destruct (fits_image_fits hs Hf) as [Hfit Hmod]. destruct (main_run hs Hfit) as (s' & E' & I). assert (s' = s) as -> by congruence. destruct Hf as (Hok & Hlen & _ & _).
  destruct (im_file _ _ _ I 0 _ root eq_refl Er) as (R1 & _ & R3 & R4 & R5 & R6). apply proj2 in R5. specialize (R5 (fun _ => Hmod)). fold (load root) in R1, R3, R4, R5, R6. cbn [fst snd] in *.
  destruct (im_file _ _ _ I (S i) (image_file h) x) as (_ & _ & X3 & X4 & X5 & X6); [change ((image_file <$> hs) !! i = Some (image_file h)); by rewrite list_lookup_fmap, Hh|rewrite Ex; lia|]. apply proj2 in X5. specialize (X5 ltac:(done)). fold (load x) in X3, X4, X5, X6. cbn [image_file snd] in *. split.
  - rewrite (dirlookup_run t dp _ sb (load root)); [|done|split_and!; [done|done|done|rewrite R3, round_up_len; Z.div_mod_to_equations; lia]]. rewrite (find_name _ _ hs i h Hlen Hnm Hh R6 R3). done.
  - pose proof X5 as [Xm _]. rewrite X3 in Xm. destruct (readi_run ip false (K (m_img s)) (load x) sb t 0 n 0 (f_um t) Hip X4 X5 ltac:(lia) ltac:(lia) ltac:(done)) as (r & u' & out & Er' & Hc).
    destruct Hc as [(-> & -> & Hu)|(_ & ? & _)]; [|done]. cbn in Hu. subst u'. assert (El : read_len (load x) 0 n = n) by (unfold read_len; rewrite X3; fold n; repeat case_bool; lia). rewrite El in Er'.
    assert (EB : file_range (K (m_img s)) (load x) 0 (Z.to_nat n) = file_bytes h); [|rewrite EB in Er'; exact Er'].
    apply list_eq. intros j. unfold file_range. rewrite list_lookup_fmap. destruct (decide (j < length (file_bytes h))%nat) as [Hj|Hj].
    + rewrite lookup_seq_lt by lia. cbn [fmap option_fmap option_map]. rewrite X6 by lia. unfold byte_at. replace (Z.to_nat (0 + Z.of_nat (0 + j))) with j by lia. destruct (lookup_lt_is_Some_2 (file_bytes h) j Hj) as [c ->]. done.
    + rewrite lookup_seq_ge by lia. cbn. symmetry. apply lookup_ge_None_2. lia.
Qed.

(** ** Two files *)

Definition demo_hs : list hostfile :=
  [mk_hostfile (user_slash ++ [95; 99; 97; 116]) true [[1; 2; 3]; [4; 5]]; mk_hostfile [82; 69; 65; 68] true [replicate 1024 7; replicate 1000 8]].

Lemma demo_hs_fits : fits_image demo_hs.
Proof.
  split_and!; [|by vm_compute; lia|by vm_compute|by vm_compute]. repeat (constructor; [split_and!; vm_compute; (done || lia)|]). constructor.
Qed.

Lemma demo_names : names_ok demo_hs.
Proof.
  split.
  - intros [|[|i]] [|[|j]] h h' Hh Hh' Hne; try done; cbn in Hh, Hh'; injection Hh as <-; injection Hh' as <-; by vm_compute.
  - intros [|[|i]] h Hh; try done; cbn in Hh; injection Hh as <-; split; by vm_compute.
Qed.


Lemma mkfs_readable_witness : exists s,
  readi 1 false 0 0 5 (with_ino (mk_fs (K ∅) (mk_flat ∅) sb [zero_dinode 1; zero_dinode 2]) 1 (K (m_img s)) (ino (m_img s) 2)) =
  Ok ((5, [1; 2; 3; 4; 5]), with_ino (mk_fs (K ∅) (mk_flat ∅) sb [zero_dinode 1; zero_dinode 2]) 1 (K (m_img s)) (ino (m_img s) 2)).
Proof.
  destruct (main_run demo_hs (proj1 (fits_image_fits _ demo_hs_fits))) as (s & E & _). exists s.
  exact (proj2 (mkfs_readable demo_hs s (mk_fs (K ∅) (mk_flat ∅) sb [zero_dinode 1; zero_dinode 2]) 0 1 (zero_dinode 1) (zero_dinode 2) 0 _ demo_hs_fits demo_names E eq_refl ltac:(unfold valid_ip; cbn; lia) ltac:(unfold valid_ip; cbn; lia) eq_refl eq_refl)).
Defined.
