(* ===== verification/Spinlock.v ===== *)
(** kernel/spinlock.c: spin locks and the nesting of interrupt disabling.

    A hart executes acquire and release one memory access at a time: the
    atomic swap on [lk->locked], the stores to [lk->cpu] and the final
    release of [lk->locked] are separate steps, between which the other
    harts may run.  The two loads of holding() are taken in one step; they give
    the same answer when the other harts run between them
    ([holding_two_loads]). *)

From S2P Require Import Prelude Riscv.

(** struct spinlock; [lk_cpu] is the hart that holds it, if any. *)
Record spinlock := mk_spinlock { lk_locked : bool; lk_cpu : option nat }.

Definition initlock (_ : spinlock) : spinlock := mk_spinlock false None.

#[global] Instance spinlock_inhabited : Inhabited spinlock := populate (mk_spinlock false None).

(** The fields of struct cpu the locks use, and the hart's interrupt enable
    bit (sstatus.SIE, what intr_get reads). *)
Record hart := mk_hart { h_intr : bool; h_noff : Z; h_intena : bool }.

(** ** push_off and pop_off *)

Definition intr_get (c : hart) : bool := h_intr c.
Definition intr_off (c : hart) : hart := mk_hart false (h_noff c) (h_intena c).
Definition intr_on (c : hart) : hart := mk_hart true (h_noff c) (h_intena c).

Definition push_off (c : hart) : hart :=
  let old := intr_get c in
  let c := intr_off c in
  let c := if h_noff c =? 0 then mk_hart (h_intr c) (h_noff c) old else c in
  mk_hart (h_intr c) (h_noff c + 1) (h_intena c).

Definition pop_off (c : hart) : outcome hart :=
  if intr_get c then Panic "pop_off - interruptible"
  else if h_noff c <? 1 then Panic "pop_off"
  else
    let c := mk_hart (h_intr c) (h_noff c - 1) (h_intena c) in
    Ok (if (h_noff c =? 0) && h_intena c then intr_on c else c).

(** ** Machine *)

(** Where a hart is: outside the lock routines, spinning in acquire, between
    the swap and the store to [lk->cpu], or between the store to [lk->cpu]
    and the release of [lk->locked]. *)
Inductive lock_pc := Run | Spin (lk : Z) | Got (lk : Z) | Leave (lk : Z).

(** A hart with the locks it acquired and did not yet release, and the number
    of its own push_offs still to be undone. *)
Record thread := mk_thread { t_hart : hart; t_pc : lock_pc; t_held : list Z; t_pushed : Z }.

Record machine := mk_machine { m_locks : gmap Z spinlock; m_harts : list thread }.

#[global] Instance thread_inhabited : Inhabited thread := populate (mk_thread (mk_hart false 0 false) Run [] 0).

Definition get_lock (m : machine) (lk : Z) : spinlock := default inhabitant (m_locks m !! lk).
Definition set_lock (lk : Z) (v : spinlock) (m : machine) : machine := mk_machine (<[lk := v]> (m_locks m)) (m_harts m).
Definition set_thread (i : nat) (t : thread) (m : machine) : machine := mk_machine (m_locks m) (<[i := t]> (m_harts m)).

Definition holding (m : machine) (i : nat) (lk : Z) : bool :=
  lk_locked (get_lock m lk) && bool_decide (lk_cpu (get_lock m lk) = Some i).

(** acquire, up to the loop: push_off(); if(holding(lk)) panic("acquire"); *)
Definition acquire_enter (m : machine) (i : nat) (t : thread) (lk : Z) : outcome machine :=
  let m := set_thread i (mk_thread (push_off (t_hart t)) (Spin lk) (t_held t) (t_pushed t)) m in
  if holding m i lk then Panic "acquire" else Ok m.

(** while(__sync_lock_test_and_set(&lk->locked, 1) != 0) ; *)
Definition acquire_swap (m : machine) (i : nat) (t : thread) (lk : Z) : outcome machine :=
  let old := lk_locked (get_lock m lk) in
  let m := set_lock lk (mk_spinlock true (lk_cpu (get_lock m lk))) m in
  Ok (set_thread i (mk_thread (t_hart t) (if old then Spin lk else Got lk) (t_held t) (t_pushed t)) m).

(** lk->cpu = mycpu(); *)
Definition acquire_record (m : machine) (i : nat) (t : thread) (lk : Z) : outcome machine :=
  let m := set_lock lk (mk_spinlock (lk_locked (get_lock m lk)) (Some i)) m in
  Ok (set_thread i (mk_thread (t_hart t) Run (lk :: t_held t) (t_pushed t)) m).

(** release: if(!holding(lk)) panic("release"); lk->cpu = 0; *)
Definition release_enter (m : machine) (i : nat) (t : thread) (lk : Z) : outcome machine :=
  if negb (holding m i lk) then Panic "release"
  else
    let m := set_lock lk (mk_spinlock (lk_locked (get_lock m lk)) None) m in
    Ok (set_thread i (mk_thread (t_hart t) (Leave lk) (filter (fun x => x <> lk) (t_held t)) (t_pushed t)) m).

(** __sync_lock_release(&lk->locked); pop_off(); *)
Definition release_store (m : machine) (i : nat) (t : thread) (lk : Z) : outcome machine :=
  let m := set_lock lk (mk_spinlock false (lk_cpu (get_lock m lk))) m in
  match pop_off (t_hart t) with
  | Ok c => Ok (set_thread i (mk_thread c Run (t_held t) (t_pushed t)) m)
  | Panic e => Panic e
  end.

(** What a hart does next; [Next] continues inside acquire or release. *)
Inductive action := Acquire (lk : Z) | Release (lk : Z) | PushOff | PopOff | IntrOn | Next.

(** The harts' discipline: pop_off is called to undo an own push_off, and
    intr_on() only where no push_off is pending (scheduler, usertrap); a step
    against it is not enabled and the hart stays. *)
Definition lock_step (m : machine) (i : nat) (a : action) : outcome machine :=
  match m_harts m !! i with
  | None => Ok m
  | Some t =>
      match t_pc t, a with
      | Run, Acquire lk => acquire_enter m i t lk
      | Run, Release lk => release_enter m i t lk
      | Run, PushOff => Ok (set_thread i (mk_thread (push_off (t_hart t)) Run (t_held t) (t_pushed t + 1)) m)
      | Run, PopOff =>
          if 0 <? t_pushed t then
            match pop_off (t_hart t) with
            | Ok c => Ok (set_thread i (mk_thread c Run (t_held t) (t_pushed t - 1)) m)
            | Panic e => Panic e
            end
          else Ok m
      | Run, IntrOn =>
          if h_noff (t_hart t) =? 0
          then Ok (set_thread i (mk_thread (intr_on (t_hart t)) Run (t_held t) (t_pushed t)) m)
          else Ok m
      | Spin lk, _ => acquire_swap m i t lk
      | Got lk, _ => acquire_record m i t lk
      | Leave lk, _ => release_store m i t lk
      | Run, Next => Ok m
      end
  end.

(** An interleaving: which hart moves, and what it does. *)
Fixpoint lock_run (sched : list (nat * action)) (m : machine) : outcome machine :=
  match sched with
  | [] => Ok m
  | (i, a) :: sched =>
      match lock_step m i a with
      | Ok m' => lock_run sched m'
      | Panic e => Panic e
      end
  end.

(** [n] harts after boot, all locks initialised, interrupts off. *)
Definition boot (n : nat) : machine := mk_machine ∅ (replicate n (mk_thread (mk_hart false 0 false) Run [] 0)).

(** * Invariant *)

(** Hart [t] is past the swap that took [lk] and has not undone it. *)
Definition owns (t : thread) (lk : Z) : Prop := lk ∈ t_held t \/ t_pc t = Got lk \/ t_pc t = Leave lk.

(** The hart is inside acquire or release of [lk]. *)
Definition at_lock (p : lock_pc) (lk : Z) : Prop := p = Spin lk \/ p = Got lk \/ p = Leave lk.

Definition busy (p : lock_pc) : Z := match p with Run => 0 | _ => 1 end.

Record lock_inv (m : machine) : Prop := {
  li_owner : forall i t lk, m_harts m !! i = Some t -> owns t lk -> lk_locked (get_lock m lk) = true;
  li_unique : forall i j t u lk, m_harts m !! i = Some t -> m_harts m !! j = Some u -> owns t lk -> owns u lk -> i = j;
  li_cpu : forall lk i, lk_cpu (get_lock m lk) = Some i <-> exists t, m_harts m !! i = Some t /\ lk ∈ t_held t;
  li_some : forall lk, lk_locked (get_lock m lk) = true -> exists i t, m_harts m !! i = Some t /\ owns t lk;
  li_once : forall i t, m_harts m !! i = Some t -> NoDup (t_held t) /\ (forall lk, at_lock (t_pc t) lk -> lk ∉ t_held t);
  li_noff : forall i t, m_harts m !! i = Some t -> 0 <= t_pushed t /\
    h_noff (t_hart t) = Z.of_nat (length (t_held t)) + busy (t_pc t) + t_pushed t;
  li_intr : forall i t, m_harts m !! i = Some t -> 0 < h_noff (t_hart t) -> h_intr (t_hart t) = false;
}.

Lemma get_set_lock lk v m x : get_lock (set_lock lk v m) x = if decide (x = lk) then v else get_lock m x.
Proof.
  unfold get_lock, set_lock. simpl. case_decide; [subst; by rewrite lookup_insert_eq|by rewrite lookup_insert_ne].
Qed.

Lemma get_lock_set_thread i t m lk : get_lock (set_thread i t m) lk = get_lock m lk.
Proof. reflexivity. Qed.

Lemma harts_set_thread i t m j :
  (i < length (m_harts m))%nat -> m_harts (set_thread i t m) !! j = if decide (j = i) then Some t else m_harts m !! j.
Proof.
  intros Hi. simpl. case_decide; [subst; by rewrite list_lookup_insert_eq|by rewrite list_lookup_insert_ne].
Qed.

Lemma boot_inv n : lock_inv (boot n).
Proof.
  assert (Hb : forall i t, m_harts (boot n) !! i = Some t -> t = mk_thread (mk_hart false 0 false) Run [] 0)
    by (intros i t Ht; by apply lookup_replicate in Ht as [-> _]).
  assert (Hn : forall i t lk, m_harts (boot n) !! i = Some t -> ~ owns t lk).
  { intros i t lk Ht. apply Hb in Ht as ->. unfold owns. simpl. rewrite elem_of_nil. naive_solver. }
  split.
  - intros i t lk Ht Ho. by destruct (Hn i t lk Ht).
  - intros i j t u lk Ht _ Ho. by destruct (Hn i t lk Ht).
  - intros lk i. split; [done|]. intros (t & Ht & Hin). apply Hb in Ht as ->. by apply elem_of_nil in Hin.
  - done.
  - intros i t Ht. apply Hb in Ht as ->. split; [constructor|]. intros lk _. apply not_elem_of_nil.
  - intros i t Ht. apply Hb in Ht as ->. done.
  - intros i t Ht. apply Hb in Ht as ->. done.
Qed.

Section update.
Context (m m' : machine) (i : nat) (t t' : thread) (lk : Z) (v : spinlock).
Hypothesis (Hinv : lock_inv m) (Ht : m_harts m !! i = Some t).
Hypothesis (Hharts : forall j, m_harts m' !! j = if decide (j = i) then Some t' else m_harts m !! j).
Hypothesis (Hlocks : forall x, get_lock m' x = if decide (x = lk) then v else get_lock m x).
Hypothesis (Hown : forall x, x <> lk -> owns t' x <-> owns t x).
Hypothesis (Hheld : forall x, x <> lk -> x ∈ t_held t' <-> x ∈ t_held t).

(** No other hart is past the swap on [lk]. *)
Definition alone : Prop := forall j u, j <> i -> m_harts m !! j = Some u -> ~ owns u lk.

Hypothesis (Hlk : (v = get_lock m lk /\ (owns t' lk <-> owns t lk) /\ (lk ∈ t_held t' <-> lk ∈ t_held t)) \/
  (alone /\ (lk_locked v = true <-> owns t' lk) /\ lk_cpu v = if decide (lk ∈ t_held t') then Some i else None)).
Hypothesis (Honce : NoDup (t_held t') /\ (forall x, at_lock (t_pc t') x -> x ∉ t_held t')).
Hypothesis (Hnoff : 0 <= t_pushed t' /\ h_noff (t_hart t') = Z.of_nat (length (t_held t')) + busy (t_pc t') + t_pushed t').
Hypothesis (Hintr : 0 < h_noff (t_hart t') -> h_intr (t_hart t') = false).

Lemma update_inv : lock_inv m'.
Proof using All.
  split.
  - intros j u x Hu Ho. rewrite Hharts in Hu. rewrite Hlocks. destruct (decide (j = i)) as [->|Hj]; [injection Hu as ->|].
    + destruct (decide (x = lk)) as [->|Hx]; [|apply (li_owner _ Hinv i t); [done|by apply Hown]].
      destruct Hlk as [(-> & Hl & _)|(_ & Hl & _)]; [apply (li_owner _ Hinv i t); tauto|tauto].
    + destruct (decide (x = lk)) as [->|Hx]; [|by apply (li_owner _ Hinv j u)].
      destruct Hlk as [(-> & _)|(Ha & _)]; [by apply (li_owner _ Hinv j u)|by destruct (Ha j u)].
  - assert (Hcross : forall j u x, j <> i -> m_harts m !! j = Some u -> owns u x -> owns t' x -> False).
    { intros j u x Hj Hu Hou Hot. apply Hj. destruct (decide (x = lk)) as [->|Hx].
      - destruct Hlk as [(_ & Hl & _)|(Ha & _)]; [|by destruct (Ha j u)].
        apply (li_unique _ Hinv j i u t lk); tauto.
      - apply (li_unique _ Hinv j i u t x); auto. by apply Hown. }
    intros j k u w x. rewrite !Hharts.
    destruct (decide (j = i)) as [->|Hj], (decide (k = i)) as [->|Hk]; intros Hu Hw Hou How; simplify_eq; auto.
    + by destruct (Hcross k w x Hk Hw How).
    + by destruct (Hcross j u x Hj Hu Hou).
    + by apply (li_unique _ Hinv j k u w x).
  - intros x j. rewrite Hlocks, Hharts. destruct (decide (x = lk)) as [->|Hx].
    + destruct Hlk as [(-> & _ & Hh)|(Ha & _ & ->)].
      * rewrite (li_cpu _ Hinv). destruct (decide (j = i)) as [->|]; [|done].
        split; intros (u & Hu & Hin); simplify_eq; eexists; (split; [done|tauto]).
      * destruct (decide (j = i)) as [->|Hj].
        -- case_decide; split; [by eauto|done|done|]. intros (u & Hu & Hin). by simplify_eq.
        -- split; [case_decide; congruence|]. intros (u & Hu & Hin). destruct (Ha j u Hj Hu). by left.
    + rewrite (li_cpu _ Hinv). destruct (decide (j = i)) as [->|]; [|done].
      split; intros (u & Hu & Hin); simplify_eq; eexists; (split; [done|by apply Hheld]).
  - intros x. rewrite Hlocks. destruct (decide (x = lk)) as [->|Hx]; intros Hl.
    + destruct Hlk as [(-> & Ho & _)|(_ & Ho & _)].
      * destruct (li_some _ Hinv lk Hl) as (j & u & Hu & Hou). exists j. rewrite Hharts.
        destruct (decide (j = i)) as [->|]; [|eauto]. exists t'. simplify_eq. split; [done|tauto].
      * exists i, t'. rewrite Hharts, decide_True by done. split; [done|tauto].
    + destruct (li_some _ Hinv x Hl) as (j & u & Hu & Hou). exists j. rewrite Hharts.
      destruct (decide (j = i)) as [->|]; [|eauto]. exists t'. simplify_eq. split; [done|by apply Hown].
  - intros j u. rewrite Hharts. destruct (decide (j = i)) as [->|]; [intros [= <-]; exact Honce|apply (li_once _ Hinv)].
  - intros j u. rewrite Hharts. destruct (decide (j = i)) as [->|]; [intros [= <-]; exact Hnoff|apply (li_noff _ Hinv)].
  - intros j u. rewrite Hharts. destruct (decide (j = i)) as [->|]; [intros [= <-]; exact Hintr|apply (li_intr _ Hinv)].
Qed.

End update.

(** * Steps preserve the invariant *)

Lemma push_off_noff c : h_noff (push_off c) = h_noff c + 1 /\ h_intr (push_off c) = false.
Proof. unfold push_off. simpl. by destruct (h_noff c =? 0). Qed.

Lemma pop_off_ok c :
  h_intr c = false -> 1 <= h_noff c ->
  exists c', pop_off c = Ok c' /\ h_noff c' = h_noff c - 1 /\ (0 < h_noff c' -> h_intr c' = false).
Proof.
  intros Hi Hn. unfold pop_off, intr_get. rewrite Hi. destruct (Z.ltb_spec (h_noff c) 1); [lia|]. simpl.
  destruct (Z.eqb_spec (h_noff c - 1) 0), (h_intena c); simpl; eexists; (split; [reflexivity|]); simpl; split; auto; lia.
Qed.

#[local] Opaque push_off pop_off.

(** A step of hart [i] that leaves the locks alone. *)
Lemma inv_thread m i t t' :
  lock_inv m -> m_harts m !! i = Some t -> (forall x, owns t' x <-> owns t x) -> t_held t' = t_held t ->
  (forall x, at_lock (t_pc t') x -> x ∉ t_held t) ->
  0 <= t_pushed t' -> h_noff (t_hart t') = Z.of_nat (length (t_held t')) + busy (t_pc t') + t_pushed t' ->
  (0 < h_noff (t_hart t') -> h_intr (t_hart t') = false) -> lock_inv (set_thread i t' m).
Proof.
  intros Hinv Ht Ho Hh Hp Hpu Hn Hi. assert (Hlt : (i < length (m_harts m))%nat) by (by eapply lookup_lt_Some).
  apply (update_inv m _ i t t' 0 (get_lock m 0)); auto.
  - intros j. by apply harts_set_thread.
  - intros x. rewrite get_lock_set_thread. by destruct (decide (x = 0)) as [->|].
  - intros x _. by rewrite Hh.
  - left. split_and!; auto. by rewrite Hh.
  - rewrite Hh. split; [by apply (li_once _ Hinv i)|done].
Qed.

Lemma owns_idle t t' x :
  t_held t' = t_held t -> (forall y, t_pc t' <> Got y /\ t_pc t' <> Leave y) ->
  (forall y, t_pc t <> Got y /\ t_pc t <> Leave y) -> owns t' x <-> owns t x.
Proof. intros Hh H1 H2. unfold owns. rewrite Hh. specialize (H1 x). specialize (H2 x). tauto. Qed.

Lemma inv_alone m i t lk : lock_inv m -> m_harts m !! i = Some t -> owns t lk -> alone m i lk.
Proof. intros Hinv Ht Ho j u Hj Hu Hou. apply Hj. by apply (li_unique _ Hinv j i u t lk). Qed.

Lemma inv_free m i lk : lock_inv m -> lk_locked (get_lock m lk) = false -> alone m i lk.
Proof. intros Hinv Hl j u Hj Hu Hou. rewrite (li_owner _ Hinv j u lk Hu Hou) in Hl. done. Qed.

(** A step of hart [i] that changes lock [lk], which no other hart owns. *)
Lemma inv_lock m i t t' lk v :
  lock_inv m -> m_harts m !! i = Some t -> alone m i lk ->
  (forall x, x <> lk -> owns t' x <-> owns t x) -> (forall x, x <> lk -> x ∈ t_held t' <-> x ∈ t_held t) ->
  (lk_locked v = true <-> owns t' lk) -> (lk_cpu v = if decide (lk ∈ t_held t') then Some i else None) ->
  NoDup (t_held t') -> (forall x, at_lock (t_pc t') x -> x ∉ t_held t') ->
  0 <= t_pushed t' -> h_noff (t_hart t') = Z.of_nat (length (t_held t')) + busy (t_pc t') + t_pushed t' ->
  (0 < h_noff (t_hart t') -> h_intr (t_hart t') = false) -> lock_inv (set_thread i t' (set_lock lk v m)).
Proof.
  intros Hinv Ht Ha Ho Hh Hl Hc Hnd Hp Hpu Hn Hi.
  assert (Hlt : (i < length (m_harts (set_lock lk v m)))%nat) by (by eapply (lookup_lt_Some (m_harts m))).
  apply (update_inv m _ i t t' lk v); auto.
  - intros j. by rewrite harts_set_thread.
  - intros x. rewrite get_lock_set_thread. apply get_set_lock.
Qed.

Lemma holding_held m i t lk :
  lock_inv m -> m_harts m !! i = Some t -> holding m i lk = bool_decide (lk ∈ t_held t).
Proof.
  intros Hinv Ht. unfold holding. destruct (decide (lk ∈ t_held t)) as [Hin|Hin].
  - rewrite (bool_decide_eq_true_2 (lk ∈ t_held t)) by done. rewrite (li_owner _ Hinv i t lk Ht) by (by left). simpl. apply bool_decide_eq_true.
    apply (li_cpu _ Hinv). eauto.
  - rewrite (bool_decide_eq_false_2 (lk ∈ t_held t)) by done.
    apply andb_false_iff. right. apply bool_decide_eq_false. intros Hc.
    apply (li_cpu _ Hinv) in Hc as (u & Hu & Hlk). by simplify_eq.
Qed.

Lemma holding_set_thread m i j t lk : holding (set_thread j t m) i lk = holding m i lk.
Proof. reflexivity. Qed.

Lemma enter_inv m i t lk m' :
  lock_inv m -> m_harts m !! i = Some t -> t_pc t = Run -> acquire_enter m i t lk = Ok m' -> lock_inv m'.
Proof.
  intros Hinv Ht Hpc E. unfold acquire_enter in E.
  rewrite holding_set_thread, (holding_held m i t) in E by done. case_bool_decide as Hnh; [done|]. injection E as <-.
  destruct (li_noff _ Hinv i t Ht) as [Hp Hn]. destruct (push_off_noff (t_hart t)) as [Hpn Hpi]. rewrite Hpc in Hn. simpl in Hn.
  apply (inv_thread m i t); auto; simpl; try lia; [|intros x [[= ->]|[[=]|[=]]]; done].
  intros x. apply owns_idle; simpl; rewrite ?Hpc; by intros.
Qed.

Lemma swap_inv m i t lk m' :
  lock_inv m -> m_harts m !! i = Some t -> t_pc t = Spin lk -> acquire_swap m i t lk = Ok m' -> lock_inv m'.
Proof.
  intros Hinv Ht Hpc E. injection E as <-. destruct (li_noff _ Hinv i t Ht) as [Hp Hn]. rewrite Hpc in Hn. simpl in Hn.
  pose proof (li_intr _ Hinv i t Ht) as Hi. destruct (li_once _ Hinv i t Ht) as [Hnd _].
  destruct (lk_locked (get_lock m lk)) eqn:El.
  - assert (Ht' : mk_thread (t_hart t) (Spin lk) (t_held t) (t_pushed t) = t) by (destruct t; simpl in *; by subst).
    rewrite Ht'. assert (Hlt : (i < length (m_harts (set_lock lk (mk_spinlock true (lk_cpu (get_lock m lk))) m)))%nat)
      by (by eapply (lookup_lt_Some (m_harts m))).
    apply (update_inv m _ i t t lk (get_lock m lk)); auto; [| |by apply (li_once _ Hinv i)|rewrite Hpc; simpl; auto].
    + intros j. rewrite harts_set_thread by done. simpl. destruct (decide (j = i)) as [->|]; done.
    + intros x. rewrite get_lock_set_thread, get_set_lock. case_decide; [|done].
      destruct (get_lock m lk). simpl in *. by subst.
  - pose proof (inv_free m i lk Hinv El) as Ha.
    assert (Hnh : lk ∉ t_held t) by (intros Hin; rewrite (li_owner _ Hinv i t lk Ht) in El; [done|by left]).
    apply (inv_lock m i t); auto; simpl.
    + intros x Hx. unfold owns. simpl. rewrite Hpc. naive_solver.
    + unfold owns. simpl. naive_solver.
    + rewrite decide_False by done. destruct (lk_cpu (get_lock m lk)) as [j|] eqn:Ec; [|done].
      apply (li_cpu _ Hinv) in Ec as (u & Hu & Hin). destruct (decide (j = i)) as [->|Hj].
      * by simplify_eq.
      * destruct (Ha j u Hj Hu). by left.
    + intros x [[=]|[[= ->]|[=]]]; done.
Qed.

Lemma record_inv m i t lk m' :
  lock_inv m -> m_harts m !! i = Some t -> t_pc t = Got lk -> acquire_record m i t lk = Ok m' -> lock_inv m'.
Proof.
  intros Hinv Ht Hpc E. injection E as <-. destruct (li_noff _ Hinv i t Ht) as [Hp Hn]. rewrite Hpc in Hn. simpl in Hn.
  pose proof (li_intr _ Hinv i t Ht) as Hi. destruct (li_once _ Hinv i t Ht) as [Hnd Hout].
  assert (Ho : owns t lk) by (by right; left).
  apply (inv_lock m i t); auto; simpl.
  - by apply inv_alone with t.
  - intros x Hx. unfold owns. simpl. rewrite Hpc, elem_of_cons. naive_solver.
  - intros x Hx. rewrite elem_of_cons. naive_solver.
  - rewrite (li_owner _ Hinv i t lk Ht Ho). unfold owns. simpl. rewrite elem_of_cons. naive_solver.
  - by rewrite decide_True by (by left).
  - constructor; [|done]. apply Hout. by right; left.
  - intros x [[=]|[[=]|[=]]].
  - lia.
Qed.

Lemma filter_ne_out (lk : Z) (l : list Z) : lk ∉ l -> filter (fun x => x <> lk) l = l.
Proof.
  induction l as [|x l IH]; [done|]. rewrite not_elem_of_cons. intros [Hx Hl].
  rewrite filter_cons_True, IH by congruence. done.
Qed.

Lemma filter_length_out (lk : Z) l : NoDup l -> lk ∈ l -> Z.of_nat (length (filter (fun x => x <> lk) l)) = Z.of_nat (length l) - 1.
Proof.
  induction l as [|x l IH]; intros Hn Hin; [by apply elem_of_nil in Hin|]. apply NoDup_cons in Hn as [Hx Hn].
  rewrite filter_cons. destruct (decide (x <> lk)) as [Hne|He]; simpl.
  - apply elem_of_cons in Hin as [->|Hin]; [done|]. rewrite !Nat2Z.inj_succ, IH by done. lia.
  - assert (x = lk) as -> by (by destruct (decide (x = lk))).
    rewrite filter_ne_out by done. lia.
Qed.

Lemma release_inv m i t lk m' :
  lock_inv m -> m_harts m !! i = Some t -> t_pc t = Run -> release_enter m i t lk = Ok m' -> lock_inv m'.
Proof.
  intros Hinv Ht Hpc E. unfold release_enter in E. destruct (holding m i lk) eqn:Eh; [|done]. injection E as <-.
  apply andb_true_iff in Eh as [Hl Hc%bool_decide_eq_true]. apply (li_cpu _ Hinv) in Hc as (t2 & Ht2 & Hin).
  rewrite Ht in Ht2. injection Ht2 as <-. destruct (li_noff _ Hinv i t Ht) as [Hp Hn]. rewrite Hpc in Hn. simpl in Hn.
  pose proof (li_intr _ Hinv i t Ht) as Hi. destruct (li_once _ Hinv i t Ht) as [Hnd _].
  assert (Hnf : lk ∉ filter (fun x => x <> lk) (t_held t)) by (rewrite list_elem_of_filter; naive_solver).
  apply (inv_lock m i t); auto; simpl.
  - apply inv_alone with t; [done|done|by left].
  - intros x Hx. unfold owns. simpl. rewrite Hpc, list_elem_of_filter. naive_solver.
  - intros x Hx. rewrite list_elem_of_filter. naive_solver.
  - rewrite Hl. unfold owns. simpl. naive_solver.
  - by rewrite decide_False.
  - by apply NoDup_filter.
  - intros x [[=]|[[=]|[= ->]]]. done.
  - rewrite filter_length_out by done. lia.
Qed.

Lemma store_inv m i t lk :
  lock_inv m -> m_harts m !! i = Some t -> t_pc t = Leave lk -> exists m', release_store m i t lk = Ok m' /\ lock_inv m'.
Proof.
  intros Hinv Ht Hpc. destruct (li_noff _ Hinv i t Ht) as [Hp Hn]. rewrite Hpc in Hn. simpl in Hn.
  destruct (li_once _ Hinv i t Ht) as [Hnd Hout]. assert (Hnh : lk ∉ t_held t) by (apply Hout; by right; right).
  destruct (pop_off_ok (t_hart t)) as (c & Ec & Hcn & Hci); [apply (li_intr _ Hinv i t Ht); lia|lia|].
  unfold release_store. rewrite Ec. eexists. split; [reflexivity|]. apply (inv_lock m i t); auto; simpl.
  - apply inv_alone with t; [done|done|by right; right].
  - intros x Hx. unfold owns. simpl. rewrite Hpc. naive_solver.
  - unfold owns. simpl. naive_solver.
  - rewrite decide_False by done. destruct (lk_cpu (get_lock m lk)) as [j|] eqn:Eq; [|done].
    apply (li_cpu _ Hinv) in Eq as (u & Hu & Hin).
    assert (j = i) as -> by (apply (li_unique _ Hinv j i u t lk); auto; [by left|by right; right]). by simplify_eq.
  - intros x [[=]|[[=]|[=]]].
  - lia.
Qed.

(** The routines panic only on misuse: acquiring a lock one holds, releasing
    one that one does not hold. *)
Definition misuse (m : machine) (i : nat) (a : action) (e : string) : Prop :=
  exists t lk, m_harts m !! i = Some t /\ t_pc t = Run /\
    (a = Acquire lk /\ lk ∈ t_held t /\ e = "acquire" \/ a = Release lk /\ lk ∉ t_held t /\ e = "release").

Lemma lock_step_inv m i a :
  lock_inv m ->
  match lock_step m i a with
  | Ok m' => lock_inv m'
  | Panic e => misuse m i a e
  end.
Proof.
  intros Hinv. unfold lock_step. destruct (m_harts m !! i) as [t|] eqn:Ht; [|done].
  destruct (li_noff _ Hinv i t Ht) as [Hp Hn]. pose proof (li_intr _ Hinv i t Ht) as Hi.
  destruct (t_pc t) as [|lk|lk|lk] eqn:Hpc; simpl in Hn.
  - assert (Hidle : forall c k x, owns (mk_thread c Run (t_held t) k) x <-> owns t x)
      by (intros; unfold owns; simpl; rewrite Hpc; naive_solver).
    destruct a as [lk|lk| | | |]; [| | | | |done].
    + destruct (acquire_enter m i t lk) as [m'|e] eqn:E; [by eapply enter_inv|].
      unfold acquire_enter in E. rewrite holding_set_thread, (holding_held m i t) in E by done.
      case_bool_decide; [|done]. injection E as <-. exists t, lk. split_and!; [done|done|by left].
    + destruct (release_enter m i t lk) as [m'|e] eqn:E; [by eapply release_inv|].
      unfold release_enter in E. rewrite (holding_held m i t) in E by done.
      case_bool_decide; [done|]. injection E as <-. exists t, lk. split_and!; [done|done|by right].
    + destruct (push_off_noff (t_hart t)) as [Hpn Hpi]. apply (inv_thread m i t); auto; simpl; solve [lia|intros x [[=]|[[=]|[=]]]|auto].
    + destruct (Z.ltb_spec 0 (t_pushed t)); [|done].
      destruct (pop_off_ok (t_hart t)) as (c & -> & Hcn & Hci); [apply Hi; lia|lia|].
      apply (inv_thread m i t); auto; simpl; solve [lia|intros x [[=]|[[=]|[=]]]|auto].
    + destruct (Z.eqb_spec (h_noff (t_hart t)) 0) as [E|]; [|done].
      apply (inv_thread m i t); auto; simpl; solve [lia|intros x [[=]|[[=]|[=]]]|auto].
  - destruct (acquire_swap m i t lk) eqn:E; [by eapply swap_inv|done].
  - destruct (acquire_record m i t lk) eqn:E; [by eapply record_inv|done].
  - destruct (store_inv m i t lk Hinv Ht Hpc) as (m' & -> & Hm). done.
Qed.

Lemma lock_run_inv sched : forall m m', lock_inv m -> lock_run sched m = Ok m' -> lock_inv m'.
Proof.
  induction sched as [|[i a] sched IH]; intros m m' Hinv E; simpl in E; [by injection E as <-|].
  pose proof (lock_step_inv m i a Hinv) as Hs. destruct (lock_step m i a) as [m1|e]; [|done]. by apply (IH m1).
Qed.

(** A step of another hart leaves a hart alone. *)
Lemma lock_step_other m j a m' i : j <> i -> lock_step m j a = Ok m' -> m_harts m' !! i = m_harts m !! i.
Proof.
  intros Hne E. unfold lock_step in E. destruct (m_harts m !! j) as [t|]; [|by injection E as <-].
  unfold acquire_enter, acquire_swap, acquire_record, release_enter, release_store in E.
  destruct (t_pc t), a; repeat case_match; simplify_eq; simpl; rewrite ?list_lookup_insert_ne by done; done.
Qed.

(** holding(): what hart [i] finds when it loads lk->locked in [m] and lk->cpu
    in [m'], after any steps of the other harts. *)
Lemma holding_two_loads sched : forall m m' i t lk,
  lock_inv m -> m_harts m !! i = Some t -> Forall (fun ja => ja.1 <> i) sched -> lock_run sched m = Ok m' ->
  lk_locked (get_lock m lk) && bool_decide (lk_cpu (get_lock m' lk) = Some i) = holding m i lk /\ holding m' i lk = holding m i lk.
Proof.
  intros m m' i t lk Hinv Ht Hs E.
  assert (Ht' : m_harts m' !! i = Some t).
  { clear Hinv. revert m E Ht. induction sched as [|[j a] sched IH]; intros m E Ht; simpl in E; [by injection E as <-|].
    apply Forall_cons in Hs as [Hj Hs]. destruct (lock_step m j a) as [m1|] eqn:E1; [|done]. apply (IH Hs m1 E). by rewrite (lock_step_other m j a m1 i Hj E1). }
  pose proof (lock_run_inv _ _ _ Hinv E) as Hinv'. rewrite (holding_held m' i t), (holding_held m i t) by done. split; [|done].
  pose proof (holding_held m i t lk Hinv Ht) as Hh. unfold holding in Hh. rewrite <- Hh.
  rewrite (bool_decide_ext (lk_cpu (get_lock m' lk) = Some i) (lk_cpu (get_lock m lk) = Some i)); [done|].
  rewrite (li_cpu _ Hinv'), (li_cpu _ Hinv), Ht, Ht'. done.
Qed.

(** * Theorems *)

(** (C12) Mutual exclusion: in every interleaving of any number of harts, two
    harts are never both between the return of acquire and the call of
    release on the same lock; a hart that holds a lock has interrupts off;
    and holding() tells exactly whether the hart holds the lock, although it
    reads two fields other harts may be writing. *)
Theorem mutual_exclusion n sched m :
  lock_run sched (boot n) = Ok m ->
  (forall i j t u lk, m_harts m !! i = Some t -> m_harts m !! j = Some u ->
     lk ∈ t_held t -> lk ∈ t_held u -> i = j) /\
  (forall i t lk, m_harts m !! i = Some t -> lk ∈ t_held t -> h_intr (t_hart t) = false) /\
  (forall i t lk, m_harts m !! i = Some t -> holding m i lk = bool_decide (lk ∈ t_held t)).
Proof.
  intros E. pose proof (lock_run_inv _ _ _ (boot_inv n) E) as Hinv. split_and!.
  - intros i j t u lk Ht Hu H1 H2. apply (li_unique _ Hinv i j t u lk); auto; by left.
  - intros i t lk Ht Hin. apply (li_intr _ Hinv i t Ht). destruct (li_noff _ Hinv i t Ht) as [Hp ->].
    destruct (t_held t) as [|x l]; [by apply elem_of_nil in Hin|]. simpl. destruct (t_pc t); simpl; lia.
  - intros i t lk Ht. by apply holding_held.
Qed.

(** The lock routines panic exactly on misuse, and never inside a call:
    a step of a reachable machine panics if and only if a hart acquires a
    lock it holds or releases a lock it does not hold. *)
Theorem lock_panics n sched m i a e :
  lock_run sched (boot n) = Ok m -> lock_step m i a = Panic e <-> misuse m i a e.
Proof.
  intros E. pose proof (lock_run_inv _ _ _ (boot_inv n) E) as Hinv. split.
  - intros Es. pose proof (lock_step_inv m i a Hinv) as Hs. by rewrite Es in Hs.
  - intros (t & lk & Ht & Hpc & [(-> & Hin & ->)|(-> & Hin & ->)]); unfold lock_step; rewrite Ht, Hpc.
    + unfold acquire_enter. rewrite holding_set_thread, (holding_held m i t), bool_decide_eq_true_2 by done. done.
    + unfold release_enter. rewrite (holding_held m i t), bool_decide_eq_false_2 by done. done.
Qed.

(** No lock is lost: when the swap of a spinning hart fails, some hart is
    between its successful swap and the release of the lock; so a lock that
    nobody uses is taken at the first attempt. *)
Theorem acquire_progress n sched m i t lk :
  lock_run sched (boot n) = Ok m -> m_harts m !! i = Some t -> t_pc t = Spin lk ->
  exists m' t', lock_step m i Next = Ok m' /\ m_harts m' !! i = Some t' /\
    (t_pc t' = Got lk \/ t_pc t' = Spin lk /\ exists j u, j <> i /\ m_harts m !! j = Some u /\ owns u lk).
Proof.
  intros E Ht Hpc. pose proof (lock_run_inv _ _ _ (boot_inv n) E) as Hinv.
  assert (Hlt : forall v, (i < length (m_harts (set_lock lk v m)))%nat) by (intros; by eapply (lookup_lt_Some (m_harts m))).
  unfold lock_step. rewrite Ht, Hpc. unfold acquire_swap. eexists _, _. split; [reflexivity|].
  rewrite harts_set_thread, decide_True by done. split; [reflexivity|]. simpl.
  destruct (lk_locked (get_lock m lk)) eqn:El; [right|by left]. split; [done|].
  destruct (li_some _ Hinv lk El) as (j & u & Hu & Ho). destruct (decide (j = i)) as [->|]; [|eauto].
  exfalso. simplify_eq. assert (Hin : lk ∈ t_held t) by (destruct Ho as [?|[?|?]]; congruence).
  destruct (li_once _ Hinv i t Ht) as [_ Hout]. apply (Hout lk); [by left|done].
Qed.

(** A sequence of push_offs ([true]) and pop_offs ([false]). *)
Fixpoint intr_run (w : list bool) (c : hart) : outcome hart :=
  match w with
  | [] => Ok c
  | true :: w => intr_run w (push_off c)
  | false :: w => match pop_off c with Ok c' => intr_run w c' | Panic e => Panic e end
  end.

(** Matched like brackets, with [d] pushes still open. *)
Fixpoint matched (d : nat) (w : list bool) : bool :=
  match w with
  | [] => (d =? 0)%nat
  | true :: w => matched (S d) w
  | false :: w => match d with O => false | S d => matched d w end
  end.

(** [d] pushes deep above a hart with count [n0] and interrupt bit [i0]. *)
Definition nested (n0 : Z) (i0 : bool) (d : nat) (c : hart) : Prop :=
  h_noff c = n0 + Z.of_nat d /\ (h_intr c = if (d =? 0)%nat then i0 else false) /\
  ((0 < d)%nat -> n0 = 0 -> h_intena c = i0).

Lemma nested_push n0 i0 d c :
  0 <= n0 -> (0 < n0 -> i0 = false) -> nested n0 i0 d c -> nested n0 i0 (S d) (push_off c).
Proof.
  intros Hn Hi (H1 & H2 & H3). destruct (push_off_noff c) as [Hp1 Hp2]. split_and!; [rewrite Hp1; lia|done|].
  intros _ ->. destruct d as [|d].
  - with_strategy transparent [push_off] (unfold push_off). simpl in *. rewrite H1. simpl. exact H2.
  - with_strategy transparent [push_off] (unfold push_off). simpl in *.
    rewrite (proj2 (Z.eqb_neq (h_noff c) 0)) by lia. simpl. by apply H3; [lia|].
Qed.

Lemma nested_pop n0 i0 d c :
  0 <= n0 -> (0 < n0 -> i0 = false) -> nested n0 i0 (S d) c -> exists c', pop_off c = Ok c' /\ nested n0 i0 d c'.
Proof.
  intros Hn Hi (H1 & H2 & H3). simpl in H2. with_strategy transparent [pop_off] (unfold pop_off).
  unfold intr_get. rewrite H2. destruct (Z.ltb_spec (h_noff c) 1); [lia|].
  eexists. split; [reflexivity|]. simpl. unfold nested.
  destruct (Z.eqb_spec (h_noff c - 1) 0) as [E|E]; simpl.
  - assert (d = 0%nat) as -> by lia. rewrite H3 by lia. destruct i0; simpl; split_and!; lia || done.
  - split_and!; simpl; [lia| |intros; apply H3; lia]. destruct (Nat.eqb_spec d 0) as [->|]; [|done].
    rewrite Hi by lia. done.
Qed.

Lemma intr_run_nested n0 i0 w : forall d c,
  0 <= n0 -> (0 < n0 -> i0 = false) -> nested n0 i0 d c -> matched d w = true ->
  exists c', intr_run w c = Ok c' /\ nested n0 i0 0 c'.
Proof.
  induction w as [|[|] w IH]; intros d c Hn Hi Hc Hm; simpl in *.
  - apply Nat.eqb_eq in Hm as ->. eauto.
  - apply (IH (S d)); auto. by apply nested_push.
  - destruct d as [|d]; [done|]. destruct (nested_pop n0 i0 d c Hn Hi Hc) as (c' & -> & Hc'). by apply (IH d).
Qed.

(** push_off and pop_off match: any properly nested sequence of them runs
    without panic and leaves the nesting count and the interrupt enable bit
    as they were, whether interrupts were on or off before. *)
Theorem push_pop_matched w c :
  matched 0 w = true -> 0 <= h_noff c -> (0 < h_noff c -> h_intr c = false) ->
  exists c', intr_run w c = Ok c' /\ h_noff c' = h_noff c /\ h_intr c' = h_intr c.
Proof.
  intros Hm Hn Hi. destruct (intr_run_nested (h_noff c) (h_intr c) w 0 c) as (c' & E & H1 & H2 & _); auto.
  { split_and!; [lia|done|lia]. }
  exists c'. split_and!; [done|lia|done].
Qed.

(** ** Witnesses *)

Lemma push_pop_matched_witness :
  exists c', intr_run [true; true; false; true; false; false] (mk_hart true 0 false) = Ok c' /\
    h_noff c' = 0 /\ h_intr c' = true.
Proof. apply (push_pop_matched [true; true; false; true; false; false] (mk_hart true 0 false)); done. Defined.

(** Two harts that compete for lock 5: hart 1 enters while hart 0 holds it. *)
Definition demo_sched : list (nat * action) :=
  [(0, Acquire 5); (0, Next); (1, Acquire 5); (1, Next); (0, Next); (1, Next)]%nat.

Definition demo_machine : machine := match lock_run demo_sched (boot 2) with Ok m => m | Panic _ => boot 2 end.

Lemma demo_run : lock_run demo_sched (boot 2) = Ok demo_machine.
Proof. vm_compute. reflexivity. Qed.

Lemma mutual_exclusion_witness :
  holding demo_machine 0 5 = true /\ holding demo_machine 1 5 = false.
Proof.
  destruct (mutual_exclusion 2 demo_sched demo_machine demo_run) as (_ & _ & Hh).
  rewrite (Hh 0%nat (m_harts demo_machine !!! 0%nat) 5), (Hh 1%nat (m_harts demo_machine !!! 1%nat) 5) by (vm_compute; reflexivity).
  split; vm_compute; reflexivity.
Defined.

Lemma lock_panics_witness : lock_step demo_machine 0 (Acquire 5) = Panic "acquire".
Proof.
  apply (lock_panics 2 demo_sched demo_machine 0 (Acquire 5) "acquire" demo_run).
  exists (m_harts demo_machine !!! 0%nat), 5. split; [vm_compute; reflexivity|]. split; [vm_compute; reflexivity|].
  left. split; [done|]. split; [vm_compute; by left|done].
Defined.

Lemma acquire_progress_witness : exists m' t', lock_step demo_machine 1 Next = Ok m' /\
  m_harts m' !! 1%nat = Some t' /\
  (t_pc t' = Got 5 \/ t_pc t' = Spin 5 /\ exists j u, j <> 1%nat /\ m_harts demo_machine !! j = Some u /\ owns u 5).
Proof.
  apply (acquire_progress 2 demo_sched demo_machine 1 (m_harts demo_machine !!! 1%nat) 5 demo_run); vm_compute; reflexivity.
Defined.
