(* ===== verification/Ulib.v ===== *)
(** user/ulib.c: the C library of the user programs.

    A C string is the list of its bytes before the terminating NUL; reading
    at the end of the list reads the NUL.  A file descriptor opened for
    reading is a [stream]: what successive reads deliver. *)

From S2P Require Import Prelude Cstring.

(** The byte a string pointer points to. *)
Definition hd0 (s : list Z) : Z := match s with [] => 0 | c :: _ => c end.

Fixpoint strcmp (p q : list Z) : Z :=
  match p, q with
  | c :: p', d :: q' => if c =? d then strcmp p' q' else u8 c - u8 d
  | _, _ => u8 (hd0 p) - u8 (hd0 q)
  end.

(** The position of the first [c], NULL as [None]. *)
Fixpoint strchr (s : list Z) (c : Z) : option nat :=
  match s with
  | [] => None
  | x :: s => if x =? 0 then None else if x =? c then Some O else S <$> strchr s c
  end.

Definition is_digit (c : Z) : bool := (48 <=? c) && (c <=? 57).

(** while('0' <= *s && *s <= '9') n = n*10 + *s++ - '0'; *)
Fixpoint atoi_loop (s : list Z) (n : Z) : Z :=
  match s with
  | [] => n
  | c :: s => if is_digit c then atoi_loop s (s32 (n * 10 + c - 48)) else n
  end.

Definition atoi (s : list Z) : Z := atoi_loop s 0.

(** Pending reads of a descriptor: a read delivers at most one chunk; the end
    of the list is the end of the file (or an error). *)
Abbreviation stream := (list (list Z)) (only parsing).

(** read(fd, buf, n): the bytes read, none at the end of file. *)
Definition read_fd (n : Z) (s : stream) : list Z * stream :=
  match s with
  | [] => ([], [])
  | c :: s =>
      if Z.of_nat (length c) <=? n then (c, s)
      else (take (Z.to_nat n) c, drop (Z.to_nat n) c :: s)
  end.

(** gets: [k] bytes of room left besides the NUL. *)
Fixpoint gets_loop (k : nat) (s : stream) : list Z * stream :=
  match k with
  | O => ([], s)
  | S k =>
      match read_fd 1 s with
      | (c :: _, s) =>
          if (c =? 10) || (c =? 13) then ([c], s)
          else let '(line, s) := gets_loop k s in (c :: line, s)
      | ([], s) => ([], s)
      end
  end.

Definition gets (max : Z) (s : stream) : list Z * stream := gets_loop (Z.to_nat (max - 1)) s.

(** * Properties *)

Definition bytes_str (s : list Z) : Prop := Forall (fun c => 0 < c < 256) s.

(** Order of strings, a proper prefix being smaller. *)
Fixpoint str_lt (p q : list Z) : Prop :=
  match p, q with
  | [], _ :: _ => True
  | c :: p, d :: q => c < d \/ c = d /\ str_lt p q
  | _, _ => False
  end.

(** strcmp decides equality and the lexicographic order of C strings. *)
Theorem strcmp_order p q :
  bytes_str p -> bytes_str q ->
  (strcmp p q = 0 <-> p = q) /\ (strcmp p q < 0 <-> str_lt p q) /\ (0 < strcmp p q <-> str_lt q p).
Proof.
  revert q. induction p as [|c p IH]; intros [|d q] Hp Hq; cbn [strcmp str_lt hd0].
  - split_and!; split; done || lia.
  - apply Forall_cons in Hq as [Hd _]. rewrite !u8_small by lia. split_and!; split; intros; try done; lia.
  - apply Forall_cons in Hp as [Hc _]. rewrite !u8_small by lia. split_and!; split; intros; try done; lia.
  - apply Forall_cons in Hp as [Hc Hp]. apply Forall_cons in Hq as [Hd Hq].
    destruct (Z.eqb_spec c d) as [->|Hne].
    + destruct (IH q Hp Hq) as (H1 & H2 & H3). rewrite H1, H2, H3. split_and!; split.
      1: by intros ->. 1: by intros [= ->]. 1,3: auto. 1,2: intros [?|[_ ?]]; [lia|done].
    + rewrite !u8_small by lia. split_and!; split; try lia; congruence.
Qed.

Lemma strcmp_order_witness : strcmp [97; 98] [97; 99] < 0 /\ str_lt [97; 98] [97; 99].
Proof.
  destruct (strcmp_order [97; 98] [97; 99]) as (_ & H & _).
  - repeat constructor; lia.
  - repeat constructor; lia.
  - split; [reflexivity|]. apply H. reflexivity.
Defined.

(** Bytes a stream still delivers. *)
Definition pending (s : stream) : list Z := concat s.

Lemma read_fd_pending n s : (read_fd n s).1 ++ pending (read_fd n s).2 = pending s.
Proof.
  unfold read_fd, pending. destruct s as [|c s]; [done|]. destruct (Z.of_nat (length c) <=? n); simpl; [done|].
  by rewrite app_assoc, take_drop.
Qed.

Lemma read_fd_length n s : 0 <= n -> Z.of_nat (length (read_fd n s).1) <= n.
Proof.
  intros Hn. unfold read_fd. destruct s as [|c s]; [simpl; lia|].
  destruct (Z.leb_spec (Z.of_nat (length c)) n); simpl; [done|]. rewrite length_take. lia.
Qed.

(** Chunks are not empty: only the end of the file reads as nothing. *)
Definition alive (s : stream) : Prop := Forall (fun c => c <> []) s.

Lemma read_fd_alive n s : 0 < n -> alive s ->
  alive (read_fd n s).2 /\ ((read_fd n s).1 = [] -> s = []).
Proof.
  intros Hn Hs. unfold read_fd, alive in *. destruct s as [|c s]; [done|].
  apply Forall_cons in Hs as [Hc Hs]. destruct (Z.leb_spec (Z.of_nat (length c)) n); simpl.
  - split; [done|]. by intros ->.
  - split.
    + apply Forall_cons. split; [|done]. intros E. apply (f_equal length) in E. rewrite length_drop in E. simpl in E. lia.
    + intros E. apply (f_equal length) in E. rewrite length_take in E. simpl in E. lia.
Qed.
