(* ===== verification/Umalloc.v ===== *)
(** user/umalloc.c: the allocator of user programs.  The free blocks form a
    circular list in the order of their addresses, through headers of 16 bytes
    in the blocks themselves; the list is never empty because of [base].

    sbrk is the system call, reduced to what it does to the size of the process
    (the pages are in Proc.v and Vm.v).  Whether the kernel finds the pages for
    a call that grows the process is one element of a list of answers, and it
    never finds more than the memory of the machine, [limit]. *)

From S2P Require Import Prelude Memory.

Record um := mk_um {
  um_mem : mem;
  um_freep : Z;
  um_sz : Z;              (* the size of the process, p->sz *)
  um_grants : list bool   (* does uvmalloc find the pages, call by call *)
}.

Definition upd_um (f : mem -> mem) (s : um) : um := mk_um (f (um_mem s)) (um_freep s) (um_sz s) (um_grants s).
Definition set_freep (p : Z) (s : um) : um := mk_um (um_mem s) p (um_sz s) (um_grants s).
Definition set_sz (sz : Z) (s : um) : um := mk_um (um_mem s) (um_freep s) sz (um_grants s).
Definition drop_grant (s : um) : um := mk_um (um_mem s) (um_freep s) (um_sz s) (tail (um_grants s)).

(** union header *)
Definition sizeof_Header : Z := 16.
Definition h_ptr (m : mem) (a : Z) : Z := load64 m a.
Definition h_size (m : mem) (a : Z) : Z := load32 m (a + 8).
Definition set_ptr (m : mem) (a v : Z) : mem := store64 m a v.
Definition set_size (m : mem) (a v : Z) : mem := store32 m (a + 8) (u32 v).

(** a + n for a pointer to headers *)
Definition hadd (a n : Z) : Z := a + n * sizeof_Header.

Section umalloc.
Context (base limit : Z).

(** sys_sbrk and growproc *)
Definition sbrk (n : Z) : M um Z :=
  addr ← gets um_sz;
  let n := s32 n in
  if 0 <? n then
    grant ← gets (fun s => head (um_grants s));
    modify drop_grant;;
    if default false grant && (addr + n <=? limit) then modify (set_sz (addr + n));; mret addr
    else mret (-1)
  else
    (if n <? 0 then
       let newsz := u64 (addr + n) in
       modify (set_sz (if addr <=? newsz then addr else newsz))
     else mret tt);;
    mret addr.

(** for(p = freep; !(bp > p && bp < p->s.ptr); p = p->s.ptr)
      if(p >= p->s.ptr && (bp > p || bp < p->s.ptr)) break; *)
Fixpoint find_place (fuel : nat) (m : mem) (bp p : Z) : option Z :=
  match fuel with
  | O => None
  | S fuel =>
      let q := h_ptr m p in
      if (p <? bp) && (bp <? q) then Some p
      else if (q <=? p) && ((p <? bp) || (bp <? q)) then Some p
      else find_place fuel m bp q
  end.

Definition free_join (bp p : Z) (m : mem) : mem :=
  let m :=
    if hadd bp (h_size m bp) =? h_ptr m p
    then let m := set_size m bp (h_size m bp + h_size m (h_ptr m p)) in set_ptr m bp (h_ptr m (h_ptr m p))
    else set_ptr m bp (h_ptr m p) in
  if hadd p (h_size m p) =? bp
  then let m := set_size m p (h_size m p + h_size m bp) in set_ptr m p (h_ptr m bp)
  else set_ptr m p bp.

Definition free (fuel : nat) (ap : Z) : M um unit :=
  let bp := hadd ap (-1) in
  s ← gets id;
  match find_place fuel (um_mem s) bp (um_freep s) with
  | None => panic "out of fuel"
  | Some p => modify (upd_um (free_join bp p));; modify (set_freep p)
  end.

Definition morecore (fuel : nat) (nu : Z) : M um Z :=
  let nu := if nu <? 4096 then 4096 else nu in
  p ← sbrk (nu * sizeof_Header);
  if p =? -1 then mret 0
  else
    modify (upd_um (fun m => set_size m p nu));;
    free fuel (hadd p 1);;
    gets um_freep.

(** The block at [p] is large enough: all of it, or its tail. *)
Definition take_from (nunits prevp p : Z) : M um Z :=
  size ← gets (fun s => h_size (um_mem s) p);
  r ← (if size =? nunits then
         modify (upd_um (fun m => set_ptr m prevp (h_ptr m p)));; mret p
       else
         modify (upd_um (fun m => set_size m p (h_size m p - nunits)));;
         q ← gets (fun s => hadd p (h_size (um_mem s) p));
         modify (upd_um (fun m => set_size m q nunits));; mret q);
  modify (set_freep prevp);;
  mret (hadd r 1).

(** for(p = prevp->s.ptr; ; prevp = p, p = p->s.ptr) *)
Fixpoint malloc_loop (fuel ffuel : nat) (nunits prevp p : Z) : M um Z :=
  match fuel with
  | O => panic "out of fuel"
  | S fuel =>
      size ← gets (fun s => h_size (um_mem s) p);
      if nunits <=? size then take_from nunits prevp p
      else
        freep ← gets um_freep;
        if p =? freep then
          p ← morecore ffuel nunits;
          if p =? 0 then mret 0
          else
            q ← gets (fun s => h_ptr (um_mem s) p);
            malloc_loop fuel ffuel nunits p q
        else
          q ← gets (fun s => h_ptr (um_mem s) p);
          malloc_loop fuel ffuel nunits p q
  end.

Definition malloc (fuel : nat) (nbytes : Z) : M um Z :=
  let nunits := u32 ((nbytes + sizeof_Header - 1) / sizeof_Header + 1) in
  freep ← gets um_freep;
  (if freep =? 0 then
     modify (upd_um (fun m => set_ptr m base base));;
     modify (set_freep base);;
     modify (upd_um (fun m => set_size m base 0))
   else mret tt);;
  prevp ← gets um_freep;
  p ← gets (fun s => h_ptr (um_mem s) prevp);
  malloc_loop fuel fuel nunits prevp p.

End umalloc.
