(* ===== verification/UmallocInv.v ===== *)
(** The free list of user/umalloc.c as a list of blocks in address order, what
    the loops of free and malloc find in it, and the blocks they leave. *)

From S2P Require Import Prelude Memory Umalloc.

(** A block: the address of its header and its size in headers. *)
Abbreviation block := (Z * Z)%type.

Definition bend (b : block) : Z := b.1 + 16 * b.2.
Definition inb (x : Z) (b : block) : Prop := b.1 <= x < bend b.
Definition bapart (b c : block) : Prop := bend b <= c.1 \/ bend c <= b.1.

(** The headers in memory; the last one points to [z]. *)
Definition next (ns : list block) (z : Z) : Z := match ns with [] => z | b :: _ => b.1 end.

Fixpoint chain (m : mem) (ns : list block) (z : Z) : Prop :=
  match ns with
  | [] => True
  | (a, s) :: ns => h_size m a = s /\ h_ptr m a = next ns z /\ chain m ns z
  end.

(** In address order, and no two blocks touch. *)
Fixpoint ord (ns : list block) : Prop :=
  match ns with
  | [] => True
  | (a, s) :: ns => 0 <= s < 2 ^ 32 /\ 0 < a < 2 ^ 40 /\ (forall b, b ∈ ns -> a + 16 * s < b.1 /\ a + 16 <= b.1) /\ ord ns
  end.

(** free joins a block with the one behind it. *)
Definition join (b : block) (l : list block) : list block :=
  match l with
  | [] => [b]
  | c :: l' => if bend b =? c.1 then (b.1, b.2 + c.2) :: l' else b :: l
  end.

(** ** Headers *)

Definition far (a b : Z) : Prop := a + 16 <= b \/ b + 16 <= a.

Lemma size_set_size m a v : 0 <= v < 2 ^ 32 -> h_size (set_size m a v) a = v.
Proof. intros H. unfold h_size, set_size. rewrite u32_small by lia. apply load32_store32_eq. lia. Qed.

Lemma ptr_set_ptr m a v : 0 <= v < 2 ^ 64 -> h_ptr (set_ptr m a v) a = v.
Proof. intros H. by apply load64_store64_eq. Qed.

Lemma size_set_ptr m a b v : a = b \/ far a b -> h_size (set_ptr m a v) b = h_size m b.
Proof. unfold far. intros H. apply load32_store64_ne. lia. Qed.

Lemma ptr_set_size m a b v : a = b \/ far a b -> h_ptr (set_size m a v) b = h_ptr m b.
Proof. unfold far. intros H. apply load64_store32_ne. lia. Qed.

Lemma size_set_size_ne m a b v : far a b -> h_size (set_size m a v) b = h_size m b.
Proof. unfold far. intros H. apply load32_store32_ne. lia. Qed.

Lemma ptr_set_ptr_ne m a b v : far a b -> h_ptr (set_ptr m a v) b = h_ptr m b.
Proof. unfold far. intros H. apply load64_store64_ne. lia. Qed.

Lemma load8_set_size m a v x : ~ (a <= x < a + 16) -> load8 (set_size m a v) x = load8 m x.
Proof. intros H. apply load8_store32_ne. lia. Qed.

Lemma load8_set_ptr m a v x : ~ (a <= x < a + 16) -> load8 (set_ptr m a v) x = load8 m x.
Proof. intros H. apply load8_store64_ne. lia. Qed.

Lemma size_agree m m' a : (forall x, a <= x < a + 16 -> load8 m' x = load8 m x) -> h_size m' a = h_size m a.
Proof. intros H. apply load32_agree. intros x Hx. apply H. lia. Qed.

Lemma ptr_agree m m' a : (forall x, a <= x < a + 16 -> load8 m' x = load8 m x) -> h_ptr m' a = h_ptr m a.
Proof. intros H. apply load64_agree. intros x Hx. apply H. lia. Qed.

(** ** Chains *)

Lemma next_app l1 l2 z : next (l1 ++ l2) z = next l1 (next l2 z).
Proof. by destruct l1. Qed.

Lemma hchain_app m l1 l2 z : chain m (l1 ++ l2) z <-> chain m l1 (next l2 z) /\ chain m l2 z.
Proof. induction l1 as [|[a s] l1 IH]; cbn [app chain]; [tauto|]. rewrite IH, next_app. tauto. Qed.

Lemma chain_frame m m' ns z : (forall b x, b ∈ ns -> b.1 <= x < b.1 + 16 -> load8 m' x = load8 m x) -> chain m ns z -> chain m' ns z.
Proof.
  induction ns as [|[a s] ns IH]; [done|]. cbn [chain]. intros H (E1 & E2 & Hc).
  assert (Ha : forall x, a <= x < a + 16 -> load8 m' x = load8 m x) by (intros x Hx; apply (H (a, s)); [left|done]).
  rewrite (size_agree _ _ _ Ha), (ptr_agree _ _ _ Ha). split_and!; [done..|]. apply IH; [|done]. intros b x Hb. apply H. by right.
Qed.

Lemma ord_app l1 l2 : ord (l1 ++ l2) <-> ord l1 /\ ord l2 /\ forall b c, b ∈ l1 -> c ∈ l2 -> bend b < c.1 /\ b.1 + 16 <= c.1.
Proof.
  induction l1 as [|[a s] l1 IH]; cbn [app ord].
  - split; [intros H; split_and!; [done..|]; intros b c Hb; by apply elem_of_nil in Hb|tauto].
  - rewrite IH. split.
    + intros (H1 & H2 & H3 & H4 & H5 & H6). split_and!; [lia..| |done|done|].
      * intros b Hb. apply H3. apply elem_of_app. by left.
      * intros b c Hb Hc. apply elem_of_cons in Hb as [->|Hb]; [|by apply H6]. apply H3. apply elem_of_app. by right.
    + intros ((H1 & H2 & H3 & H4) & H5 & H6). split_and!; [lia..| |done|done|].
      * intros b [Hb|Hb]%elem_of_app; [by apply H3|]. apply (H6 (a, s) b); [left|done].
      * intros b c Hb Hc. apply H6; [by right|done].
Qed.

Lemma ord_in ns b : ord ns -> b ∈ ns -> 0 <= b.2 < 2 ^ 32 /\ 0 < b.1 < 2 ^ 40.
Proof.
  induction ns as [|[a s] ns IH]; [intros _ Hb; by apply elem_of_nil in Hb|]. intros (H1 & H2 & _ & H4) [->|Hb]%elem_of_cons; [done|by apply IH].
Qed.

Lemma ord_apart ns b c : ord ns -> b ∈ ns -> c ∈ ns -> b = c \/ bend b < c.1 \/ bend c < b.1.
Proof.
  induction ns as [|[a s] ns IH]; [intros _ Hb; by apply elem_of_nil in Hb|]. intros (_ & _ & H3 & H4) [->|Hb]%elem_of_cons [->|Hc]%elem_of_cons.
  - by left.
  - right. left. by apply H3.
  - right. right. by apply H3.
  - by apply IH.
Qed.

(** Where a block that is not in the list belongs. *)
Lemma ord_split ns bp : ord ns -> next ns bp < bp -> (forall b, b ∈ ns -> b.1 <> bp) -> exists L p s l, ns = L ++ (p, s) :: l /\ p < bp /\ forall b, b ∈ l -> bp < b.1.
Proof.
  induction ns as [|[a s] ns IH]; cbn [next fst]; [lia|]. intros (H1 & H2 & H3 & H4) Ha Hne. destruct ns as [|[a2 s2] ns].
  - exists [], a, s, []. split_and!; [done..|]. intros b Hb. by apply elem_of_nil in Hb.
  - assert (a2 <> bp) by (apply (Hne (a2, s2)); right; left). destruct (decide (a2 < bp)) as [Hlt|Hge].
    + destruct (IH H4 Hlt ltac:(intros b Hb; apply Hne; by right)) as (L & p & t & l & E & Hp & Hl). exists ((a, s) :: L), p, t, l. rewrite E. by split_and!.
    + exists [], a, s, ((a2, s2) :: ns). split_and!; [done..|]. intros b [->|Hb]%elem_of_cons; [cbn; lia|]. destruct H4 as (_ & _ & H4 & _). destruct (H4 b Hb). lia.
Qed.

(** ** free *)

Ltac hsimp :=
  repeat first
    [ rewrite size_set_size by lia | rewrite ptr_set_ptr by lia
    | rewrite size_set_ptr by (unfold far; lia) | rewrite ptr_set_size by (unfold far; lia)
    | rewrite size_set_size_ne by (unfold far; lia) | rewrite ptr_set_ptr_ne by (unfold far; lia) ].

(** One of the two joins of free: [b] is linked before [l], and takes over the
    first block of [l] when it touches it. *)
Definition join_mem (b c : Z) (m : mem) : mem :=
  if hadd b (h_size m b) =? c
  then let m := set_size m b (h_size m b + h_size m c) in set_ptr m b (h_ptr m c)
  else set_ptr m b c.

Lemma free_join_eq bp p m : p + 16 <= bp -> free_join bp p m = join_mem p bp (join_mem bp (h_ptr m p) m).
Proof.
  intros H. unfold free_join. cbv zeta. fold (join_mem p bp). f_equal. unfold join_mem. destruct (Z.eqb_spec (hadd bp (h_size m bp)) (h_ptr m p)); [|done].
  by rewrite (ptr_set_size _ _ p) by (unfold far; lia).
Qed.

Lemma join_mem_frame b c m x : ~ (b <= x < b + 16) -> load8 (join_mem b c m) x = load8 m x.
Proof. intros H. unfold join_mem. case_match; by rewrite ?load8_set_ptr, ?load8_set_size. Qed.

Lemma join_mem_chain m b u l z :
  chain m l z -> ord l -> h_size m b = u -> 1 <= u \/ b + 16 <= next l (b + 16) -> 0 <= u -> 0 < b ->
  (forall c, c ∈ l -> b + 16 * u <= c.1 /\ bend c <= 2 ^ 36) -> 0 < z < b \/ z = b /\ 0 < z -> b + 16 * u <= 2 ^ 36 -> l <> [] \/ b + 16 * u <> z ->
  chain (join_mem b (next l z) m) (join (b, u) l) z.
Proof.
  intros Hc Ho Hu H1 Hu0 Hb Hl Hz Hlt Hne. unfold join_mem, hadd, sizeof_Header. rewrite Hu. destruct l as [|[q t] l].
  - destruct Hne as [Hne|Hne]; [done|]. cbn [next join chain]. rewrite (proj2 (Z.eqb_neq _ _)) by lia. hsimp. done.
  - destruct Hc as (E1 & E2 & Hc), Ho as (O1 & O2 & O3 & O4), (Hl (q, t) ltac:(left)) as [Hq1 Hq2]. unfold bend in Hq2. cbn [fst snd] in *. cbn [next join fst snd] in *. unfold bend. cbn [fst snd].
    replace (b + u * 16) with (b + 16 * u) by lia. destruct (Z.eqb_spec (b + 16 * u) q) as [E|E].
    + assert (Hn : 0 <= next l z < 2 ^ 64). { destruct l as [|c l]; cbn [next]; [lia|]. pose proof (ord_in _ c O4 ltac:(left)). lia. }
      cbn [chain]. hsimp. rewrite E1, E2. split_and!; [lia|done|]. apply (chain_frame m); [|done]. intros c x Hin Hx. destruct (O3 c Hin). rewrite load8_set_ptr, load8_set_size by lia. done.
    + cbn [chain next fst]. hsimp. split_and!; [done..| | |].
      * by hsimp.
      * by hsimp.
      * apply (chain_frame m); [|done]. intros c x Hin Hx. destruct (O3 c Hin). apply load8_set_ptr. lia.
Qed.

(** What join does to the bytes covered, the order and the sizes. *)
Definition covered (l : list block) (x : Z) : Prop := exists c, c ∈ l /\ inb x c.

Lemma covered_cons b l x : covered (b :: l) x <-> inb x b \/ covered l x.
Proof.
  split; [intros (c & [->|Hc]%elem_of_cons & Hx); [by left|right; by exists c]|].
  intros [Hx|(c & Hc & Hx)]; [exists b|exists c]; split; [left|done|by right|done].
Qed.

Lemma covered_app l1 l2 x : covered (l1 ++ l2) x <-> covered l1 x \/ covered l2 x.
Proof.
  split; [intros (c & [Hc|Hc]%elem_of_app & Hx); [left|right]; by exists c|].
  intros [(c & Hc & Hx)|(c & Hc & Hx)]; exists c; (split; [apply elem_of_app; tauto|done]).
Qed.

Lemma join_covered b l x : (forall c, c ∈ l -> 0 <= c.2) -> 0 <= b.2 -> covered (join b l) x <-> covered (b :: l) x.
Proof.
  intros Hl Hb. destruct l as [|c l]; [done|]. cbn [join]. destruct (Z.eqb_spec (bend b) c.1) as [E|E]; [|done].
  pose proof (Hl c ltac:(left)). rewrite !covered_cons. unfold inb, bend in *. cbn [fst snd]. assert ((b.1 <= x < b.1 + 16 * (b.2 + c.2)) <-> (b.1 <= x < b.1 + 16 * b.2) \/ (c.1 <= x < c.1 + 16 * c.2)) by lia. tauto.
Qed.

Lemma join_in b l c : c ∈ join b l -> c.1 = b.1 \/ c ∈ l.
Proof. destruct l as [|d l]; cbn [join]; [intros ->%list_elem_of_singleton; by left|]. case_match; intros [->|Hc]%elem_of_cons; [by left|right; by right|by left|by right]. Qed.

Lemma join_first b l z : next (join b l) z = b.1.
Proof. destruct l as [|c l]; [done|]. cbn [join]. by case_match. Qed.

Lemma join_first_in b l : b.1 ∈ (join b l).*1.
Proof. destruct l as [|c l]; [left|]. cbn [join]. case_match; left. Qed.

Lemma join_size b l : (forall c, c ∈ l -> 0 <= c.2) -> exists c, c ∈ join b l /\ b.2 <= c.2.
Proof.
  destruct l as [|d l]; cbn [join]; intros H; [exists b; split; [left|lia]|].
  specialize (H d ltac:(left)). case_match; eexists; (split; [left|cbn; lia]).
Qed.

Lemma join_length b l : (length (join b l) <= S (length l))%nat.
Proof. destruct l as [|c l]; cbn [join]; [done|]. case_match; cbn; lia. Qed.

Lemma join_bend b l hi : bend b <= hi -> (forall c, c ∈ l -> bend c <= hi) -> forall c, c ∈ join b l -> bend c <= hi.
Proof.
  intros Hb Hl c. destruct l as [|d l]; cbn [join]; [by intros ->%list_elem_of_singleton|].
  destruct (Z.eqb_spec (bend b) d.1) as [E|E]; intros [->|Hc]%elem_of_cons; [|apply Hl; by right|done|by apply Hl].
  pose proof (Hl d ltac:(left)). unfold bend in *. cbn. lia.
Qed.

Lemma join_pos b l : 1 <= b.2 -> (forall c, c ∈ l -> 1 <= c.2) -> forall c, c ∈ join b l -> 1 <= c.2.
Proof.
  intros Hb Hl c. destruct l as [|d l]; cbn [join]; [by intros ->%list_elem_of_singleton|].
  case_match; intros [->|Hc]%elem_of_cons; [|apply Hl; by right|done|by apply Hl]. pose proof (Hl d ltac:(left)). cbn. lia.
Qed.

Lemma join_ord b l :
  ord l -> 0 <= b.2 -> 0 < b.1 -> (forall c, c ∈ l -> bend b <= c.1 /\ b.1 + 16 <= c.1 /\ bend c <= 2 ^ 36) -> bend b <= 2 ^ 36 -> ord (join b l).
Proof.
  destruct b as [a u]. unfold bend. cbn [fst snd]. intros Ho Hu Ha Hl Hb. destruct l as [|[q t] l].
  - cbn [join ord]. split_and!; [lia..| |done]. intros b Hin. by apply elem_of_nil in Hin.
  - pose proof Ho as (O1 & O2 & O3 & O4). destruct (Hl (q, t) ltac:(left)) as (E1 & E2 & E3). cbn [fst snd] in *. cbn [join]. unfold bend. cbn [fst snd]. destruct (Z.eqb_spec (a + 16 * u) q) as [E|E].
    + cbn [ord]. split_and!; [lia..| |done]. intros b Hin. destruct (O3 b Hin). lia.
    + cbn [ord]. split_and!; try lia; try done. intros b [->|Hin]%elem_of_cons; [cbn; lia|]. destruct (O3 b Hin). lia.
Qed.

(** The loop of free stops at the block before [bp]. *)
Lemma find_place_before m bp p s l z fuel L :
  chain m (L ++ (p, s) :: l) z -> ord (L ++ (p, s) :: l) -> p < bp -> (forall b, b ∈ l -> bp < b.1) -> z <= p -> (length L < fuel)%nat ->
  find_place fuel m bp (next (L ++ (p, s) :: l) z) = Some p.
Proof.
  revert fuel. induction L as [|[a t] L IH]; intros [|fuel] Hc Ho Hp Hl Hz Hf; try (cbn in Hf; lia).
  - destruct Hc as (_ & E & _). cbn [app next fst find_place]. rewrite E, (proj2 (Z.ltb_lt _ _) Hp). destruct l as [|b l]; cbn [next].
    + case_match; [done|]. by rewrite (proj2 (Z.leb_le _ _)) by lia.
    + by rewrite (proj2 (Z.ltb_lt _ _) (Hl b ltac:(left))).
  - destruct Hc as (_ & E & Hc), Ho as (O1 & O2 & O3 & O4). cbn [app next fst find_place]. rewrite E. set (q := next (L ++ (p, s) :: l) z) in *.
    assert (Hq : a < q <= p).
    { subst q. destruct L as [|b L]; cbn [app next fst]; [destruct (O3 (p, s) ltac:(left)); cbn in *; lia|]. destruct (O3 b ltac:(left)). split; [lia|].
      destruct b as [b1 b2]. destruct O4 as (_ & _ & O4 & _). destruct (O4 (p, s)) as [? ?]; [apply elem_of_app; right; left|]. cbn in *. lia. }
    rewrite (proj2 (Z.ltb_ge bp q)), andb_false_r by lia. rewrite (proj2 (Z.leb_gt q a)) by lia. cbn [andb]. subst q. cbn [length] in Hf. apply IH; [done..|lia].
Qed.

Lemma find_place_behind m bp z fuel l :
  chain m l z -> ord l -> (forall b, b ∈ l -> bp < b.1) -> z < bp -> (length l <= fuel)%nat ->
  find_place fuel m bp (next l z) = find_place (fuel - length l) m bp z.
Proof.
  revert fuel. induction l as [|[a t] l IH]; intros fuel Hc Ho Hl Hz Hf; [by rewrite Nat.sub_0_r|]. destruct fuel as [|fuel]; [cbn in Hf; lia|].
  destruct Hc as (_ & E & Hc), Ho as (O1 & O2 & O3 & O4). pose proof (Hl (a, t) ltac:(left)) as Ha. cbn [next fst find_place length Nat.sub] in *. rewrite E.
  rewrite (proj2 (Z.ltb_ge a bp)) by lia. cbn [andb orb]. rewrite <- (IH fuel Hc O4 ltac:(intros b Hb; apply Hl; by right) Hz ltac:(lia)).
  case_match eqn:H; [|done]. apply andb_prop in H as [H1 H2]. apply Z.leb_le in H1. apply Z.ltb_lt in H2. exfalso.
  destruct l as [|b l]; cbn [next] in *; [lia|]. destruct (O3 b ltac:(left)). lia.
Qed.

Lemma find_place_run m bp p s l z fuel L f :
  chain m (L ++ (p, s) :: l) z -> ord (L ++ (p, s) :: l) -> z = next (L ++ (p, s) :: l) z -> z <= p -> p < bp -> (forall b, b ∈ l -> bp < b.1) ->
  f ∈ (L ++ (p, s) :: l).*1 -> (length (L ++ (p, s) :: l) < fuel)%nat -> find_place fuel m bp f = Some p.
Proof.
  intros Hc Ho Hz Hzp Hp Hl Hf Hfuel. rewrite length_app in Hfuel. cbn [length] in Hfuel. apply list_elem_of_fmap in Hf as ([f' t] & -> & Hf). cbn [fst].
  apply hchain_app in Hc as H1. destruct H1 as [_ (_ & _ & Hcl)]. apply ord_app in Ho as H2. destruct H2 as (_ & (_ & _ & _ & Hol) & _).
  assert (Hcase : (f', t) ∈ L ++ [(p, s)] \/ (f', t) ∈ l). { apply elem_of_app in Hf as [Hf|[Hf|Hf]%elem_of_cons]; [left; apply elem_of_app; by left|left; apply elem_of_app; right; rewrite Hf; left|by right]. }
  destruct Hcase as [Hin|Hin]; apply list_elem_of_split in Hin as (l1 & l2 & E).
  - assert (E2 : exists L2, L ++ (p, s) :: l = l1 ++ L2 ++ (p, s) :: l /\ next (L2 ++ (p, s) :: l) z = f' /\ (length L2 <= length L)%nat).
    { destruct (exists_last (l := (f', t) :: l2) ltac:(done)) as (L2 & [x y] & E2). rewrite E2, app_assoc in E. apply app_inj_tail in E as [-> [= <- <-]].
      exists L2. rewrite <- app_assoc, length_app. split_and!; [done| |lia]. destruct L2 as [|c L2]; cbn in E2; injection E2 as <- _; done. }
    destruct E2 as (L2 & E2 & <- & Hlen). rewrite E2 in Hc, Ho. apply hchain_app in Hc as [_ Hc]. apply ord_app in Ho as (_ & Ho & _). by apply find_place_before; [..|lia].
  - subst l. apply hchain_app in Hcl as [_ Hcl]. apply ord_app in Hol as (_ & Hol & _). rewrite length_app in Hfuel. cbn [length] in Hfuel.
    change f' with (next ((f', t) :: l2) z). rewrite find_place_behind; [|done|done|intros b Hb; apply Hl; apply elem_of_app; by right|lia|cbn; lia].
    rewrite Hz at 1. apply find_place_before; [done..|cbn; lia].
Qed.

(** ** The invariant *)

(** No two blocks the program holds overlap. *)
Fixpoint apart_all (l : list block) : Prop :=
  match l with
  | [] => True
  | b :: l => (forall c, c ∈ l -> bapart b c) /\ apart_all l
  end.

(** The bytes of the blocks in [live] are the same. *)
Definition keeps (live : list block) (m m' : mem) : Prop := forall b x, b ∈ live -> inb x b -> load8 m' x = load8 m x.

Lemma bapart_sym b c : bapart b c -> bapart c b.
Proof. unfold bapart. tauto. Qed.

Lemma bapart_intro b c : 1 <= b.2 -> 1 <= c.2 -> (forall x, inb x b -> inb x c -> False) -> bapart b c.
Proof. unfold bapart, inb, bend. intros Hb Hc H. destruct (Z.le_gt_cases b.1 c.1); [specialize (H c.1)|specialize (H b.1)]; lia. Qed.

Lemma bapart_elim b c x : bapart b c -> inb x b -> inb x c -> False.
Proof. unfold bapart, inb, bend. lia. Qed.

Lemma apart_all_middle l1 b l2 : apart_all (l1 ++ b :: l2) <-> apart_all (b :: l1 ++ l2).
Proof.
  induction l1 as [|a l1 IH]; [done|]. cbn [app apart_all] in *. rewrite IH. split.
  - intros (H1 & H2 & H3). split_and!; [|intros c Hc; apply H1|done].
    + intros c [->|Hc]%elem_of_cons; [apply bapart_sym, H1; apply elem_of_app; right; left|by apply H2].
    + apply elem_of_app in Hc as [Hc|Hc]; apply elem_of_app; [by left|right; by right].
  - intros (H1 & H2 & H3). split_and!; [|intros c Hc; apply H1; by right|done].
    intros c [Hc|[->|Hc]%elem_of_cons]%elem_of_app; [apply H2; apply elem_of_app; by left|apply bapart_sym, H1; left|apply H2; apply elem_of_app; by right].
Qed.

(** The loops of malloc and free are bounded by the size of the heap. *)
Lemma ord_length ns lo hi : ord ns -> (forall b, b ∈ ns -> lo <= b.1 /\ 1 <= b.2 /\ bend b <= hi) -> lo <= hi -> 16 * Z.of_nat (length ns) <= hi - lo.
Proof.
  revert lo. induction ns as [|[a s] ns IH]; intros lo Ho Hin Hle; [cbn; lia|]. destruct Ho as (O1 & O2 & O3 & O4), (Hin (a, s) ltac:(left)) as (H1 & H2 & H3). unfold bend in H3. cbn [fst snd] in *.
  assert (16 * Z.of_nat (length ns) <= hi - (a + 16 * s)); [|cbn [length]; lia]. apply IH; [done| |lia]. intros b Hb. destruct (O3 b Hb), (Hin b ltac:(by right)) as (? & ? & ?). lia.
Qed.

Section heap.
Context (base limit heap : Z) (HB : 0 < base /\ base + 16 <= heap /\ heap <= limit /\ limit <= 2 ^ 36).

(** The heap starts at [heap], where the process ended before the first
    malloc.  [fl] are the free blocks and [live] those the program holds. *)
Record uinv (s : um) (fl live : list block) : Prop := {
  ui_list : if um_freep s =? 0 then fl = [] /\ live = [] /\ um_sz s = heap
            else um_freep s ∈ ((base, 0) :: fl).*1 /\ chain (um_mem s) ((base, 0) :: fl) base;
  ui_ord : ord ((base, 0) :: fl);
  ui_in : forall b, b ∈ fl ++ live -> heap <= b.1 /\ 1 <= b.2 /\ bend b <= um_sz s;
  ui_live : forall b, b ∈ live -> h_size (um_mem s) b.1 = b.2;
  ui_apart : forall b c, b ∈ fl -> c ∈ live -> bapart b c;
  ui_disjoint : apart_all live;
  ui_cover : forall x, heap <= x < um_sz s -> covered (fl ++ live) x;
  ui_sz : heap <= um_sz s <= limit
}.

Lemma uinv_middle s fl l1 b l2 : uinv s fl (l1 ++ b :: l2) -> uinv s fl (b :: l1 ++ l2).
Proof using.
  clear HB.
  assert (Hin : forall c, c ∈ b :: l1 ++ l2 <-> c ∈ l1 ++ b :: l2) by (intros c; rewrite !elem_of_cons, !elem_of_app, elem_of_cons; tauto).
  intros [I1 I2 I3 I4 I5 I6 I7 I8]. split; [|done| | | | | |done].
  - destruct (um_freep s =? 0); [|done]. destruct I1 as (_ & E & _). by destruct l1.
  - intros c Hc. apply I3. rewrite elem_of_app, Hin in Hc. by apply elem_of_app.
  - intros c Hc. by apply I4, Hin.
  - intros c d Hc Hd. by apply I5; [|apply Hin].
  - by apply apart_all_middle.
  - intros x Hx. destruct (I7 x Hx) as (c & Hc & Hxc). exists c. split; [|done]. rewrite elem_of_app in *. by rewrite Hin.
Qed.

Lemma fl_length s fl live : uinv s fl live -> 16 * Z.of_nat (length fl) <= limit - heap.
Proof using HB.
  intros I. pose proof (ui_sz _ _ _ I). assert (16 * Z.of_nat (length fl) <= um_sz s - heap); [|lia]. apply ord_length; [apply (ui_ord _ _ _ I)| |lia].
  intros b Hb. apply (ui_in _ _ _ I). apply elem_of_app. by left.
Qed.

(** What free does to the list when [(bp, u)] lies outside it. *)
Lemma free_list m ns bp u f fuel :
  chain m ns base -> ord ns -> next ns bp = base -> f ∈ ns.*1 -> (length ns < fuel)%nat -> h_size m bp = u -> 1 <= u -> bp + 16 * u <= limit ->
  (forall b, b ∈ ns -> b.1 + 16 <= bp /\ bend b <= bp \/ bp + 16 * u <= b.1 /\ bend b <= limit) -> base + 16 <= bp ->
  exists L p s l, ns = L ++ (p, s) :: l /\ find_place fuel m bp f = Some p /\ p + 16 <= bp /\ p + 16 * s <= bp /\
    (forall b, b ∈ l -> bp + 16 * u <= b.1 /\ bend b <= limit) /\
    chain (free_join bp p m) (L ++ join (p, s) (join (bp, u) l)) base /\ ord (L ++ join (p, s) (join (bp, u) l)).
Proof using HB.
  intros Hc Ho Hz Hf Hfuel Hu Hu1 Hlim Hns Hbp. destruct (ord_split ns bp Ho ltac:(lia)) as (L & p & s & l & -> & Hp & Hl).
  { intros b Hb E. destruct (Hns b Hb) as [?|?]; unfold bend in *; [|lia]. pose proof (ord_in _ b Ho Hb). lia. }
  assert (Hpp : p + 16 <= bp /\ p + 16 * s <= bp) by (destruct (Hns (p, s)) as [?|?]; [apply elem_of_app; right; left|unfold bend in *; cbn in *; lia..]).
  assert (Hll : forall b, b ∈ l -> bp + 16 * u <= b.1 /\ bend b <= limit).
  { intros b Hb. specialize (Hl b Hb). destruct (Hns b) as [?|?]; [apply elem_of_app; right; by right| |done]. lia. }
  assert (Hzz : base = next (L ++ (p, s) :: l) base) by (destruct L; exact (eq_sym Hz)).
  assert (Hbp2 : base <= p).
  { destruct L as [|[a t] L]; cbn in Hz; [lia|]. subst a. destruct Ho as (_ & _ & Ho & _). destruct (Ho (p, s)); [apply elem_of_app; right; left|cbn in *; lia]. }
  assert (ORl : ord (join (bp, u) l)).
  { apply ord_app in Ho as (_ & (_ & _ & _ & O4) & _). apply join_ord; cbn [fst snd]; [done|lia|lia| |unfold bend; cbn; lia]. intros c Hd. destruct (Hll c Hd). unfold bend in *. cbn. lia. }
  assert (HR : forall c, c ∈ join (bp, u) l -> p + 16 * s <= c.1 /\ p + 16 <= c.1 /\ bend c <= limit).
  { intros c Hd. pose proof (join_bend (bp, u) l limit ltac:(unfold bend; cbn; lia) ltac:(intros d He; by apply Hll) c Hd).
    destruct (join_in _ _ _ Hd) as [->|Hc2]; [cbn; lia|]. destruct (Hll c Hc2). lia. }
  exists L, p, s, l. split_and!; [done|by apply (find_place_run _ _ _ s l base _ L)|lia|lia|done| |].
  - apply hchain_app in Hc as [HcL (Es & Ep & Hcl)]. cbn [next fst] in HcL. apply ord_app in Ho as (OL & (O1 & O2 & O3 & O4) & OLp).
    rewrite free_join_eq, Ep by lia. set (m1 := join_mem bp (next l base) m).
    assert (C1 : chain m1 (join (bp, u) l) base).
    { apply join_mem_chain; [done|done|done|lia..| |lia|lia|right; lia]. intros c Hc. destruct (Hll c Hc). split; [done|]. lia. }
    assert (F1 : forall x, ~ (bp <= x < bp + 16) -> load8 m1 x = load8 m x) by (intros x Hx; by apply join_mem_frame).
    assert (Es1 : h_size m1 p = s) by (rewrite (size_agree m); [done|intros x Hx; apply F1; lia]).
    assert (EN : next (join (bp, u) l) base = bp) by (by rewrite join_first).
    apply hchain_app. rewrite join_first. split.
    + apply (chain_frame m); [|done]. intros b x Hb Hx. destruct (OLp b (p, s) Hb ltac:(left)). cbn [fst] in *. rewrite join_mem_frame by lia. apply F1. lia.
    + rewrite <- EN at 1. apply join_mem_chain; [done|done|done|rewrite join_first; cbn; lia|lia|lia| |lia|lia|left; by destruct l; cbn [join]; [|case_match]].
      * intros c Hc. destruct (HR c Hc) as (? & _ & ?). cbn. lia.
  - apply ord_app in Ho as (OL & (O1 & O2 & O3 & O4) & OLp). apply ord_app. split_and!; [done| |].
    + apply join_ord; cbn [fst snd]; [done|lia|lia|intros c Hd; destruct (HR c Hd) as (? & ? & ?); unfold bend in *; cbn; lia|unfold bend; cbn; lia].
    + intros b c Hb Hd. destruct (OLp b (p, s) Hb ltac:(left)) as [? ?]. cbn [fst] in *. destruct (join_in _ _ _ Hd) as [->|Hc2]; [cbn; lia|]. destruct (HR c Hc2). lia.
Qed.

Lemma nothing_at_base l x : covered ((base, 0) :: l) x <-> covered l x.
Proof using HB. rewrite covered_cons. unfold inb, bend. cbn. split; [intros [?|?]; [lia|done]|tauto]. Qed.

(** The list after free: [base], and free blocks that hold what the old ones
    and the freed one held. *)
Lemma freed_blocks L p s l fl bp u :
  L ++ (p, s) :: l = (base, 0) :: fl -> (forall b, b ∈ fl -> 1 <= b.2) -> 1 <= u -> base < bp ->
  exists fl', L ++ join (p, s) (join (bp, u) l) = (base, 0) :: fl' /\ (forall x, covered fl' x <-> covered ((bp, u) :: fl) x) /\
    (forall c, c ∈ fl' -> 1 <= c.2) /\ exists c, c ∈ fl' /\ u <= c.2.
Proof using HB.
  intros E Hfl Hu Hbp. destruct L as [|b L]; cbn [app] in E; [injection E as -> -> ->|injection E as -> <-].
  - exists (join (bp, u) fl). split_and!.
    + cbn [app]. destruct (join (bp, u) fl) as [|c R] eqn:EJ; [done|]. cbn [join]. pose proof (join_first (bp, u) fl 0) as E. rewrite EJ in E. cbn in E. unfold bend. cbn. by rewrite (proj2 (Z.eqb_neq _ _)) by lia.
    + intros x. apply join_covered; [|cbn; lia]. intros c Hc. specialize (Hfl c Hc). lia.
    + by apply join_pos.
    + apply (join_size (bp, u)). intros c Hc. specialize (Hfl c Hc). lia.
  - assert (Hl : forall c, c ∈ l -> 1 <= c.2) by (intros c Hc; apply Hfl; apply elem_of_app; right; by right).
    assert (Hs : 1 <= s) by (apply (Hfl (p, s)); apply elem_of_app; right; left). assert (HJ : forall c, c ∈ join (bp, u) l -> 1 <= c.2) by (by apply join_pos).
    exists (L ++ join (p, s) (join (bp, u) l)). split_and!; [done| | |].
    + intros x. rewrite covered_app, join_covered by (cbn; intros; try lia; pose proof (HJ _ H); lia).
      rewrite (covered_cons (p, s) (join _ _)), join_covered by (cbn; intros; try lia; pose proof (Hl _ H); lia). rewrite !covered_cons, covered_app, covered_cons. tauto.
    + intros c [Hc|Hc]%elem_of_app; [apply Hfl; apply elem_of_app; by left|]. revert c Hc. by apply join_pos.
    + destruct (join_size (bp, u) l) as ([a t] & Hc & Ht); [intros c Hc; specialize (Hl c Hc); lia|]. cbn in Ht.
      destruct (join (bp, u) l) as [|d R] eqn:EJ; [by apply elem_of_nil in Hc|]. cbn [join]. case_match.
      * apply elem_of_cons in Hc as [<-|Hc]; eexists; (split; [apply elem_of_app; right|]); [left|cbn; lia|right; exact Hc|done].
      * exists (a, t). split; [apply elem_of_app; right; by right|done].
Qed.

Lemma free_run s fl live bp u fuel :
  uinv s fl ((bp, u) :: live) -> limit <= 16 * Z.of_nat fuel -> 32 <= heap ->
  exists s' fl', free fuel (bp + 16) s = Ok (tt, s') /\ uinv s' fl' live /\ um_freep s' <> 0 /\ um_sz s' = um_sz s /\ um_grants s' = um_grants s /\
    keeps live (um_mem s) (um_mem s') /\ exists c, c ∈ fl' /\ u <= c.2.
Proof using HB.
  intros I Hfuel Hheap. pose proof (fl_length _ _ _ I) as Hlen. destruct I as [I1 I2 I3 I4 I5 I6 I7 I8].
  destruct (um_freep s =? 0); [by destruct I1 as (_ & ? & _)|]. destruct I1 as [Hf Hc].
  assert (Hfl : forall b, b ∈ fl -> heap <= b.1 /\ 1 <= b.2 /\ bend b <= um_sz s) by (intros b Hb; apply I3; apply elem_of_app; by left).
  assert (Hlv : forall b, b ∈ (bp, u) :: live -> heap <= b.1 /\ 1 <= b.2 /\ bend b <= um_sz s) by (intros b Hb; apply I3; apply elem_of_app; by right).
  destruct (Hlv (bp, u) ltac:(left)) as (B1 & B2 & B3). unfold bend in B3. cbn [fst snd] in *. pose proof (I4 (bp, u) ltac:(left)) as Eu. cbn [fst snd] in Eu.
  destruct (free_list (um_mem s) ((base, 0) :: fl) bp u (um_freep s) fuel) as (L & p & t & l & E & EF & P1 & P2 & P3 & HC & HO); [done..|cbn [length]; lia|done|lia|lia| |lia|].
  { intros b [->|Hb]%elem_of_cons; [left; unfold bend; cbn; lia|]. destruct (Hfl b Hb) as (? & ? & ?), (I5 b (bp, u) Hb ltac:(left)); unfold bend in *; cbn [fst snd] in *; lia. }
  destruct (freed_blocks L p t l fl bp u (eq_sym E) ltac:(intros b Hb; by apply Hfl) B2 ltac:(lia)) as (fl' & E' & Hcov & Hpos & Hbig). rewrite E' in HC, HO.
  assert (Hp : p ∈ ((base, 0) :: fl').*1). { rewrite <- E', fmap_app. apply elem_of_app. right. apply (join_first_in (p, t)). }
  assert (Hp0 : 0 < p). { apply list_elem_of_fmap in Hp as (b & -> & Hb). by apply (ord_in _ b HO). }
  assert (Hold : forall x c, covered fl' x -> c ∈ live -> inb x c -> False).
  { intros x c (b & [->|Hb]%elem_of_cons & Hxb)%Hcov Hc' Hxc; [|exact (bapart_elim _ _ _ (I5 b c Hb ltac:(by right)) Hxb Hxc)]. destruct I6 as [I6 _]. exact (bapart_elim _ _ _ (I6 c Hc') Hxb Hxc). }
  assert (HK : keeps live (um_mem s) (free_join bp p (um_mem s))).
  { intros c x Hc' Hx. rewrite free_join_eq by lia. destruct (Hlv c ltac:(by right)) as (? & ? & ?). unfold inb in Hx. destruct (proj1 I6 c Hc') as [Ha|Ha]; unfold bend in *; cbn [fst snd] in *.
    - rewrite !join_mem_frame by lia. done.
    - rewrite !join_mem_frame; [done|lia|]. assert (Hin : (p, t) ∈ (base, 0) :: fl) by (rewrite E; apply elem_of_app; right; left).
      apply elem_of_cons in Hin as [[= -> ->]|Hin]; [lia|]. destruct (Hfl _ Hin) as (? & ? & ?), (I5 _ c Hin ltac:(by right)); unfold bend in *; cbn [fst snd] in *; lia. }
  unfold free, hadd, sizeof_Header. replace (bp + 16 + -1 * 16) with bp by lia. rewrite bind_run, gets_run. unfold id. rewrite EF, bind_run, modify_run, modify_run.
  eexists _, fl'. split; [reflexivity|]. split_and!; [|cbn; lia|done..]. split; cbn [um_freep um_mem um_sz set_freep upd_um].
  - rewrite (proj2 (Z.eqb_neq p 0)) by lia. done.
  - done.
  - intros b [Hb|Hb]%elem_of_app; [|apply Hlv; by right]. specialize (Hpos b Hb).
    assert (H1 : covered ((bp, u) :: fl) b.1) by (apply Hcov; exists b; split; [done|unfold inb, bend; lia]).
    assert (H2 : covered ((bp, u) :: fl) (bend b - 1)) by (apply Hcov; exists b; split; [done|unfold inb, bend; lia]).
    assert (Hr : forall x, covered ((bp, u) :: fl) x -> heap <= x < um_sz s).
    { intros x (c & [->|Hc']%elem_of_cons & Hx); unfold inb, bend in Hx; [cbn in Hx; lia|]. destruct (Hfl c Hc') as (? & ? & ?). unfold bend in *. lia. }
    apply Hr in H1, H2. lia.
  - intros b Hb. destruct (Hlv b ltac:(by right)) as (? & ? & ?). rewrite <- (I4 b ltac:(by right)). apply size_agree. intros x Hx. apply (HK b); [done|]. unfold inb, bend. lia.
  - intros b c Hb Hc'. apply bapart_intro; [by apply Hpos|by apply (Hlv c); right|]. intros x Hx. apply Hold; [by exists b|done].
  - apply I6.
  - intros x Hx. specialize (I7 x Hx). rewrite covered_app in *. rewrite covered_cons in I7. rewrite Hcov, covered_cons. tauto.
  - done.
Qed.

(** ** malloc *)

Lemma uinv_drop s fl live : uinv s fl live -> uinv (drop_grant s) fl live.
Proof using. by intros []. Qed.

(** A new block at the end of the process is one the program could hold. *)
Lemma grown_inv s fl live nu :
  uinv s fl live -> um_freep s <> 0 -> 1 <= nu < 2 ^ 32 -> um_sz s + nu * 16 <= limit ->
  let p := um_sz s in
  let s' := upd_um (fun m => set_size m p nu) (set_sz (p + nu * 16) (drop_grant s)) in
  uinv s' fl ((p, nu) :: live) /\ keeps live (um_mem s) (um_mem s').
Proof using HB.
  intros [I1 I2 I3 I4 I5 I6 I7 I8] Hf Hnu Hlim p s'. rewrite (proj2 (Z.eqb_neq _ _) Hf) in I1. destruct I1 as [I1 Hc].
  assert (Hfr : forall x, x < p -> load8 (um_mem s') x = load8 (um_mem s) x) by (intros x Hx; apply load8_set_size; lia).
  assert (HK : keeps live (um_mem s) (um_mem s')).
  { intros b x Hb Hx. destruct (I3 b ltac:(apply elem_of_app; by right)) as (? & ? & ?). apply Hfr. unfold inb in Hx. lia. }
  split; [|done]. assert (Hold : forall b, b ∈ fl ++ live -> heap <= b.1 /\ 1 <= b.2 /\ bend b <= p) by done. split; cbn [s' um_freep um_mem um_sz upd_um set_sz drop_grant].
  - rewrite (proj2 (Z.eqb_neq _ _) Hf). split; [done|]. apply (chain_frame (um_mem s)); [|done]. intros b x [->|Hb]%elem_of_cons Hx; apply Hfr; [cbn in Hx; lia|].
    destruct (I3 b ltac:(apply elem_of_app; by left)) as (? & ? & ?). unfold bend in *. lia.
  - done.
  - intros b [Hb|[->|Hb]%elem_of_cons]%elem_of_app; [|unfold bend; cbn; lia|]; (destruct (Hold b) as (? & ? & ?); [apply elem_of_app; tauto|lia]).
  - intros b [->|Hb]%elem_of_cons; [exact (size_set_size (um_mem s) p nu ltac:(lia))|]. destruct (Hold b ltac:(apply elem_of_app; by right)) as (? & ? & ?). rewrite <- (I4 b Hb). apply size_agree. intros x Hx. apply Hfr. unfold bend in *. lia.
  - intros b c Hb [->|Hc']%elem_of_cons; [|by apply I5]. destruct (Hold b ltac:(apply elem_of_app; by left)) as (? & ? & ?). left. done.
  - cbn [apart_all]. split; [|done]. intros c Hc'. destruct (Hold c ltac:(apply elem_of_app; by right)) as (? & ? & ?). right. done.
  - intros x Hx. rewrite covered_app, covered_cons. destruct (decide (x < p)); [|right; left; unfold inb, bend; cbn; lia]. specialize (I7 x ltac:(lia)). rewrite covered_app in I7. tauto.
  - lia.
Qed.

(** The block that morecore asks for. *)
Definition core_units (nu : Z) : Z := Z.max nu 4096.

(** sbrk refuses: no grant, or the memory of the machine is used up. *)
Definition refused (s : um) (nu : Z) : Prop := head (um_grants s) <> Some true \/ limit < um_sz s + core_units nu * 16.

Lemma morecore_run s fl live nu fuel :
  uinv s fl live -> um_freep s <> 0 -> 1 <= nu -> nu * 16 < 2 ^ 31 -> limit <= 16 * Z.of_nat fuel -> 32 <= heap ->
  (morecore limit fuel nu s = Ok (0, drop_grant s) /\ refused s nu) \/
  (exists s' fl', morecore limit fuel nu s = Ok (um_freep s', s') /\ uinv s' fl' live /\ um_freep s' <> 0 /\ keeps live (um_mem s) (um_mem s') /\ exists c, c ∈ fl' /\ nu <= c.2).
Proof using HB.
  intros I Hf H1 H2 Hfuel Hheap. unfold morecore, refused. pose proof (ui_sz _ _ _ I) as Hsz.
  replace (if nu <? 4096 then 4096 else nu) with (core_units nu) by (unfold core_units; destruct (Z.ltb_spec nu 4096); lia).
  assert (Hcu : nu <= core_units nu < 2 ^ 27 /\ 4096 <= core_units nu) by (unfold core_units; lia). set (cu := core_units nu) in *. clearbody cu.
  unfold sbrk, sizeof_Header. rewrite s32_small, (proj2 (Z.ltb_lt 0 _)) by lia. rewrite !bind_run, gets_run, bind_run, gets_run, bind_run, modify_run.
  destruct (default false (head (um_grants s)) && (um_sz s + cu * 16 <=? limit)) eqn:EG.
  - right. apply andb_prop in EG as [EG1 EG2]. apply Z.leb_le in EG2. destruct (grown_inv s fl live cu I Hf ltac:(lia) EG2) as [I' K1].
    rewrite bind_run, modify_run, ret_run, (proj2 (Z.eqb_neq _ (-1))) by lia. rewrite bind_run, modify_run.
    destruct (free_run _ _ _ _ _ fuel I' Hfuel Hheap) as (s' & fl' & E & I2 & Hf' & _ & _ & K2 & c & Hc & Hcs). unfold hadd, sizeof_Header.
    change (1 * 16) with 16. change (um_sz (drop_grant s)) with (um_sz s) in *. rewrite (bind_Ok _ _ _ _ _ E), gets_run. exists s', fl'. split_and!; [done..| |].
    + intros b x Hb Hx. by rewrite (K2 b), (K1 b).
    + exists c. split; [done|lia].
  - left. rewrite ret_run. change (-1 =? -1) with true. split; [done|]. apply andb_false_iff in EG as [EG|EG]; [left; intros E; by rewrite E in EG|right; by apply Z.leb_gt in EG].
Qed.

(** A block of the list and its predecessor. *)
Lemma pred_split m fl y n :
  chain m ((base, 0) :: fl) base -> y ∈ ((base, 0) :: fl).*1 -> 1 <= n -> n <= h_size m (h_ptr m y) ->
  exists A B sx, fl = A ++ (h_ptr m y, sx) :: B /\ n <= sx /\ exists L sy, (base, 0) :: A = L ++ [(y, sy)].
Proof using HB.
  intros Hc Hy Hn Hs. apply list_elem_of_fmap in Hy as ([y' sy] & -> & Hy). cbn [fst] in *. apply list_elem_of_split in Hy as (L & B & E).
  pose proof Hc as (E0 & _). rewrite E in Hc. apply hchain_app in Hc as [_ (_ & Ep & Hc)]. rewrite Ep in *. destruct B as [|[x sx] B]; cbn [next fst] in *; [lia|].
  destruct Hc as (Ex & _). replace (L ++ (y', sy) :: (x, sx) :: B) with ((L ++ [(y', sy)]) ++ (x, sx) :: B) in E by (by rewrite <- app_assoc).
  destruct (L ++ [(y', sy)]) as [|b A] eqn:EL; [by destruct L|]. injection E as <- ->. exists A, B, sx. split_and!; [done|lia|]. by exists L, sy.
Qed.

(** The frame of a state in which the block [c] of [fl] is divided between the
    list and the program. *)
Lemma taken_inv s fl live A c d B r n y m' :
  uinv s fl live -> um_freep s <> 0 -> fl = A ++ c :: B -> 1 <= r.2 -> (forall x, inb x c <-> covered d x \/ inb x r) ->
  (forall b, b ∈ d -> 1 <= b.2 /\ ~ (exists x, inb x b /\ inb x r)) -> ord ((base, 0) :: A ++ d ++ B) -> chain m' ((base, 0) :: A ++ d ++ B) base ->
  h_size m' r.1 = n -> r.2 = n -> y ∈ ((base, 0) :: A).*1 -> keeps live (um_mem s) m' ->
  uinv (set_freep y (upd_um (fun _ => m') s)) (A ++ d ++ B) (r :: live).
Proof using HB.
  intros [I1 I2 I3 I4 I5 I6 I7 I8] Hf -> Hr Hcov Hd Ho Hc En Er Hy HK.
  assert (Hbound : forall b, 1 <= b.2 -> (forall x, inb x b -> inb x c) -> heap <= b.1 /\ 1 <= b.2 /\ bend b <= um_sz s).
  { intros b Hb Hx. destruct (I3 c) as (? & ? & ?); [rewrite !elem_of_app; left; right; left|]. pose proof (Hx b.1 ltac:(unfold inb, bend; lia)) as X1. pose proof (Hx (bend b - 1) ltac:(unfold inb, bend; lia)) as X2. unfold inb in *. lia. }
  assert (Hdc : forall b, b ∈ d -> forall x, inb x b -> inb x c) by (intros b Hb x Hx; apply Hcov; left; by exists b).
  assert (Hy0 : 0 < y).
  { apply list_elem_of_fmap in Hy as (b & -> & Hb). apply (ord_in _ b Ho). apply elem_of_cons in Hb as [->|Hb]; [left|right; apply elem_of_app; by left]. }
  assert (Hsub : forall b, b ∈ A ++ d ++ B -> b ∈ d \/ b ∈ A ++ c :: B) by (intros b; rewrite !elem_of_app, elem_of_cons; tauto).
  assert (Hcl : forall e, e ∈ live -> bapart c e) by (intros e He; apply I5; [apply elem_of_app; right; left|done]).
  assert (Hel : forall b e, 1 <= b.2 -> (forall x, inb x b -> inb x c) -> e ∈ live -> bapart b e).
  { intros b e Hb Hx He. apply bapart_intro; [done|apply (I3 e); rewrite elem_of_app; by right|]. intros x H1 H2. exact (bapart_elim _ _ _ (Hcl e He) (Hx x H1) H2). }
  assert (Hab : forall b, b ∈ A \/ b ∈ B -> forall x, inb x b -> inb x c -> False).
  { destruct I2 as (_ & _ & _ & I2). apply ord_app in I2 as (_ & I2 & IA). destruct c as [cx cs]. destruct I2 as (_ & _ & IB & _).
    intros b [Hb|Hb] x Hx Hxc; [destruct (IA b (cx, cs) Hb ltac:(left))|destruct (IB b Hb)]; unfold inb, bend in *; cbn [fst snd] in *; lia. }
  split; cbn [um_freep um_mem um_sz set_freep upd_um]; [| done | | | | | |done].
  - rewrite (proj2 (Z.eqb_neq y 0)) by lia. split; [|done]. revert Hy. cbn. rewrite fmap_app, !elem_of_cons, elem_of_app. tauto.
  - intros b [Hb|[->|Hb]%elem_of_cons]%elem_of_app.
    + destruct (Hsub b Hb) as [Hb2|Hb2]; [apply Hbound; [by apply Hd|by apply Hdc]|apply I3; apply elem_of_app; by left].
    + apply Hbound; [done|]. intros x Hx. apply Hcov. by right.
    + apply I3. apply elem_of_app. by right.
  - intros b [->|Hb]%elem_of_cons; [lia|]. rewrite <- (I4 b Hb). apply size_agree. intros x Hx. apply (HK b); [done|]. destruct (I3 b) as (? & ? & ?); [apply elem_of_app; by right|]. unfold inb, bend. lia.
  - intros b e Hb [->|He]%elem_of_cons; [|destruct (Hsub b Hb) as [Hb2|Hb2]; [apply Hel; [by apply Hd|by apply Hdc|done]|by apply I5]].
    rewrite !elem_of_app in Hb. destruct Hb as [Hb|[Hb|Hb]]; (apply bapart_intro; [|done|intros x H1 H2]).
    + apply (I3 b). rewrite !elem_of_app. tauto.
    + destruct (Hab b (or_introl Hb) x H1). apply Hcov. by right.
    + by apply Hd.
    + apply (proj2 (Hd b Hb)). by exists x.
    + apply (I3 b). rewrite !elem_of_app, elem_of_cons. tauto.
    + destruct (Hab b (or_intror Hb) x H1). apply Hcov. by right.
  - split; [|done]. intros e He. apply Hel; [done| |done]. intros x Hx. apply Hcov. by right.
  - intros x Hx. specialize (I7 x Hx). repeat (rewrite ?covered_app, ?covered_cons in *). specialize (Hcov x). tauto.
Qed.

(** No header of the list lies in a block of the program. *)
Lemma header_outside s fl live y b x : uinv s fl live -> y ∈ ((base, 0) :: fl).*1 -> b ∈ live -> inb x b -> ~ (y <= x < y + 16).
Proof using HB.
  intros I Hy Hb Hx. destruct (ui_in _ _ _ I b ltac:(apply elem_of_app; by right)) as (? & ? & ?). apply list_elem_of_fmap in Hy as (c & -> & [->|Hc]%elem_of_cons); [unfold inb in Hx; cbn; lia|].
  destruct (ui_in _ _ _ I c ltac:(apply elem_of_app; by left)) as (? & ? & ?), (ui_apart _ _ _ I c b Hc Hb); unfold inb, bend in *; lia.
Qed.

Section take.
Context (s : um) (fl live : list block) (y n : Z) (A B L : list block) (sx sy : Z).
Local Abbreviation m := (um_mem s).
Local Abbreviation x := (h_ptr (um_mem s) y).
Context (I : uinv s fl live) (Hf : um_freep s <> 0) (Hn : 1 <= n).
Context (Efl : fl = A ++ (x, sx) :: B) (EL : (base, 0) :: A = L ++ [(y, sy)]).

Lemma take_facts :
  chain m L y /\ h_size m y = sy /\ h_size m x = sx /\ h_ptr m x = next B base /\ chain m B base /\
  ord L /\ ord B /\ (forall b, b ∈ L -> b.1 + 16 <= y) /\ (y + 16 <= x) /\ (forall b, b ∈ L ++ [(y, sy)] -> b.1 + 16 <= x) /\ (forall b, b ∈ B -> x + 16 * sx <= b.1) /\
  heap <= x /\ 1 <= sx < 2 ^ 32 /\ x + 16 * sx <= um_sz s /\ 0 <= next B base < 2 ^ 64 /\ y ∈ ((base, 0) :: A).*1.
Proof using I Hf Efl EL HB.
  pose proof (ui_list _ _ _ I) as I1. rewrite (proj2 (Z.eqb_neq _ _) Hf) in I1. destruct I1 as [_ Hc]. pose proof (ui_ord _ _ _ I) as Ho.
  assert (E : (base, 0) :: fl = (L ++ [(y, sy)]) ++ (x, sx) :: B) by (by rewrite <- EL, Efl). rewrite E in Hc, Ho.
  apply hchain_app in Hc as [Hc1 (C2 & C3 & C4)]. apply hchain_app in Hc1 as [C5 (C6 & _)].
  pose proof (ord_in _ (x, sx) Ho ltac:(apply elem_of_app; right; left)) as [X1 _]. apply ord_app in Ho as (Ho1 & (_ & _ & O2 & O3) & O4). apply ord_app in Ho1 as (O5 & _ & O6).
  assert (Hx : heap <= x /\ 1 <= sx /\ x + 16 * sx <= um_sz s) by (apply (ui_in _ _ _ I (x, sx)); rewrite Efl, !elem_of_app; left; right; left).
  cbn [fst snd] in *. split_and!; try done; try lia.
  - intros b Hb. apply (O6 b (y, sy) Hb). left.
  - apply (O4 (y, sy) (x, sx)); [apply elem_of_app; right; left|left].
  - intros b Hb. apply (O4 b (x, sx) Hb). left.
  - intros b Hb. destruct (O2 b Hb). lia.
  - destruct B as [|b B']; cbn [next]; [lia|]. pose proof (ord_in _ b O3 ltac:(left)). lia.
  - destruct B as [|b B']; cbn [next]; [lia|]. pose proof (ord_in _ b O3 ltac:(left)). lia.
  - rewrite EL, fmap_app. apply elem_of_app. right. left.
Qed.

Lemma ord_take d : (forall b, b ∈ d -> b.1 = x /\ 0 <= b.2 <= sx) -> ord d -> ord ((base, 0) :: A ++ d ++ B).
Proof using I Hf Efl EL HB.
  intros Hd Hod. pose proof (ui_ord _ _ _ I) as Ho. rewrite Efl in Ho. change ((base, 0) :: A ++ d ++ B) with (((base, 0) :: A) ++ d ++ B). change ((base, 0) :: A ++ (x, sx) :: B) with (((base, 0) :: A) ++ (x, sx) :: B) in Ho.
  apply ord_app in Ho as (O1 & (_ & _ & O2 & O3) & O4). apply ord_app. split_and!; [done| |].
  - apply ord_app. split_and!; [done..|]. intros b c Hb Hc. destruct (Hd b Hb) as [E ?], (O2 c Hc). unfold bend. rewrite E. lia.
  - intros b c Hb [Hc|Hc]%elem_of_app; [destruct (Hd c Hc) as [E ?]; rewrite E; apply (O4 b (x, sx) Hb); left|]. apply O4; [done|by right].
Qed.

(** The whole block: it leaves the list. *)
Lemma take_all : n = sx -> exists s' fl', take_from n y x s = Ok (x + 16, s') /\ uinv s' fl' ((x, n) :: live) /\ um_sz s' = um_sz s /\ keeps live m (um_mem s').
Proof using I Hf Hn Efl EL HB.
  intros ->. destruct take_facts as (C1 & C2 & C3 & C4 & C5 & O1 & O2 & F1 & F2 & F3 & F4 & F5 & F6 & F7 & F8 & F9).
  unfold take_from. rewrite bind_run, gets_run, C3, Z.eqb_refl, !bind_run, modify_run, ret_run, bind_run, modify_run, ret_run.
  set (m' := set_ptr m y (h_ptr m x)). assert (HF : forall z, ~ (y <= z < y + 16) -> load8 m' z = load8 m z) by (intros z Hz; by apply load8_set_ptr).
  assert (HK : keeps live m m'). { intros b z Hb Hz. apply HF. apply (header_outside _ _ _ _ b _ I); [|done..]. rewrite Efl. cbn in F9 |- *. rewrite fmap_app, elem_of_cons, elem_of_app. apply elem_of_cons in F9. tauto. }
  exists (set_freep y (upd_um (fun _ => m') s)), (A ++ [] ++ B). split_and!; [by unfold hadd, sizeof_Header| |done|done].
  apply (taken_inv _ fl _ A (x, sx) [] B (x, sx) sx); try done.
  - intros z. split; [by right|intros [(b & Hb & _)|?]; [by apply elem_of_nil in Hb|done]].
  - intros b Hb. by apply elem_of_nil in Hb.
  - apply ord_take; [|done]. intros b Hb. by apply elem_of_nil in Hb.
  - change ((base, 0) :: A ++ [] ++ B) with (((base, 0) :: A) ++ B). rewrite EL, <- app_assoc. apply hchain_app. split; [apply (chain_frame m); [|done]; intros b z Hb Hz; apply HF; specialize (F1 b Hb); lia|].
    cbn [app chain]. unfold m'. hsimp. rewrite C4. split_and!; [done..|]. apply (chain_frame m); [|done]. intros b z Hb Hz. rewrite <- C4. apply HF. specialize (F4 b Hb). lia.
  - cbn [fst]. unfold m'. by hsimp.
Qed.

(** The tail of a larger block. *)
Lemma take_tail : n < sx -> exists s' fl', take_from n y x s = Ok (x + 16 * (sx - n) + 16, s') /\ uinv s' fl' ((x + 16 * (sx - n), n) :: live) /\ um_sz s' = um_sz s /\ keeps live m (um_mem s').
Proof using I Hf Hn Efl EL HB.
  intros Hlt. pose proof (ui_sz _ _ _ I). destruct take_facts as (C1 & C2 & C3 & C4 & C5 & O1 & O2 & F1 & F2 & F3 & F4 & F5 & F6 & F7 & F8 & F9).
  unfold take_from. rewrite bind_run, gets_run, C3, (proj2 (Z.eqb_neq _ _)), !bind_run, modify_run, bind_run, gets_run, bind_run, modify_run, ret_run, bind_run, modify_run, ret_run by lia.
  cbn [um_mem upd_um]. rewrite C3. unfold hadd, sizeof_Header. rewrite size_set_size by lia. replace (x + (sx - n) * 16) with (x + 16 * (sx - n)) by lia. set (q := x + 16 * (sx - n)). assert (Hq : x + 16 <= q) by lia.
  set (m' := set_size (set_size m x (sx - n)) q n). assert (HF : forall z, ~ (x <= z < x + 16 * sx) -> load8 m' z = load8 m z) by (intros z Hz; unfold m'; rewrite !load8_set_size by lia; done).
  assert (HK : keeps live m m').
  { intros b z Hb Hz. apply HF. intros Hz2. apply (bapart_elim (x, sx) b z); [|done|done]. apply (ui_apart _ _ _ I); [rewrite Efl; apply elem_of_app; right; left|done]. }
  exists (set_freep y (upd_um (fun _ => m') s)), (A ++ [(x, sx - n)] ++ B). split_and!; [unfold upd_um; cbn [um_mem]; by rewrite C3| |done|done].
  assert (Hfrm : forall l z, (forall b, b ∈ l -> b.1 + 16 <= x \/ x + 16 * sx <= b.1) -> chain m l z -> chain m' l z) by (intros l z Hl; apply chain_frame; intros b w Hb Hw; apply HF; specialize (Hl b Hb); lia).
  apply (taken_inv _ fl _ A (x, sx) [(x, sx - n)] B (q, n) n); try done.
  - intros z. rewrite covered_cons. unfold inb, bend. cbn [fst snd]. split; [intros ?; destruct (decide (z < q)); [left; left|right]; lia|]. intros [[?|(b & Hb & _)]|?]; [lia|by apply elem_of_nil in Hb|lia].
  - intros b ->%list_elem_of_singleton. cbn. split; [lia|]. intros (z & H1 & H2). unfold inb, bend in *. cbn [fst snd] in *. lia.
  - apply ord_take; [intros b ->%list_elem_of_singleton; cbn; lia|]. cbn [ord]. split_and!; try lia; try done. intros b Hb. by apply elem_of_nil in Hb.
  - change ((base, 0) :: A ++ [(x, sx - n)] ++ B) with (((base, 0) :: A) ++ (x, sx - n) :: B). rewrite EL. apply hchain_app. split.
    + apply Hfrm; [intros b Hb; left; by apply F3|]. apply hchain_app. by split_and!.
    + cbn [chain]. unfold m' at 1 2. hsimp. split_and!; [done..|]. apply Hfrm; [|done]. intros b Hb. right. by apply F4.
  - cbn [fst]. unfold m'. hsimp. done.
Qed.
End take.

Lemma take_run s fl live y n :
  uinv s fl live -> um_freep s <> 0 -> y ∈ ((base, 0) :: fl).*1 -> 1 <= n -> n <= h_size (um_mem s) (h_ptr (um_mem s) y) ->
  exists r s' fl', take_from n y (h_ptr (um_mem s) y) s = Ok (r + 16, s') /\ uinv s' fl' ((r, n) :: live) /\ um_sz s' = um_sz s /\ keeps live (um_mem s) (um_mem s').
Proof using HB.
  intros I Hf Hy Hn Hs. pose proof (ui_list _ _ _ I) as I1. rewrite (proj2 (Z.eqb_neq _ _) Hf) in I1. destruct I1 as [_ Hc].
  destruct (pred_split _ _ _ _ Hc Hy Hn Hs) as (A & B & sx & Efl & Hsx & L & sy & EL).
  destruct (Z.eq_dec n sx) as [E|E]; [destruct (take_all s fl live y n A B L sx sy I Hf Hn Efl EL E) as (s' & fl' & H)|destruct (take_tail s fl live y n A B L sx sy I Hf Hn Efl EL ltac:(lia)) as (s' & fl' & H)];
    eexists _, s', fl'; exact H.
Qed.

(** One round of the loop of malloc, from the block behind freep back to freep. *)
Lemma scan_run s fuel ffuel n prevp l f sf z (X : list Z) :
  chain (um_mem s) (l ++ [(f, sf)]) z -> um_freep s = f -> (forall b, b ∈ l -> b.1 <> f /\ b.1 ∈ X) -> prevp ∈ X ->
  h_ptr (um_mem s) prevp = next (l ++ [(f, sf)]) z -> (length l < fuel)%nat ->
  (exists y, y ∈ X /\ n <= h_size (um_mem s) (h_ptr (um_mem s) y) /\ malloc_loop limit fuel ffuel n prevp (h_ptr (um_mem s) prevp) s = take_from n y (h_ptr (um_mem s) y) s) \/
  ((forall b, b ∈ l ++ [(f, sf)] -> b.2 < n) /\
   malloc_loop limit fuel ffuel n prevp (h_ptr (um_mem s) prevp) s =
   (p ← morecore limit ffuel n; if p =? 0 then mret 0 else q ← gets (fun s => h_ptr (um_mem s) p); malloc_loop limit (fuel - S (length l)) ffuel n p q) s).
Proof using.
  clear HB. revert fuel prevp. induction l as [|[a t] l IH]; intros [|fuel] prevp Hc Hf Hl Hp Ep Hfuel; try (cbn in Hfuel; lia); rewrite Ep; cbn [app next fst malloc_loop] in *.
  - destruct Hc as (Es & _). rewrite bind_run, gets_run, Es. destruct (Z.leb_spec n sf) as [Hle|Hlt].
    + left. exists prevp. rewrite Ep, Es. by split_and!.
    + right. split; [by intros b ->%list_elem_of_singleton|]. rewrite bind_run, gets_run, Hf, Z.eqb_refl. cbn [length]. by replace (S fuel - 1)%nat with fuel by lia.
  - destruct Hc as (Es & Ea & Hc). rewrite bind_run, gets_run, Es. destruct (Z.leb_spec n t) as [Hle|Hlt].
    + left. exists prevp. rewrite Ep, Es. by split_and!.
    + rewrite bind_run, gets_run, Hf, (proj2 (Z.eqb_neq a f)), bind_run, gets_run by (apply (Hl (a, t)); left).
      destruct (IH fuel a Hc Hf ltac:(intros b Hb; apply Hl; by right) ltac:(apply (Hl (a, t)); left) Ea ltac:(cbn in Hfuel; lia)) as [H|[H1 H2]]; [by left|right].
      split; [|exact H2]. intros b [->|Hb]%elem_of_cons; [done|by apply H1].
Qed.

(** The same for the list of the invariant. *)
Lemma round_run s fl live fuel ffuel n :
  uinv s fl live -> um_freep s <> 0 -> (length fl < fuel)%nat -> 1 <= n ->
  (exists r s' fl', malloc_loop limit fuel ffuel n (um_freep s) (h_ptr (um_mem s) (um_freep s)) s = Ok (r + 16, s') /\ uinv s' fl' ((r, n) :: live) /\ keeps live (um_mem s) (um_mem s')) \/
  ((forall b, b ∈ fl -> b.2 < n) /\
   malloc_loop limit fuel ffuel n (um_freep s) (h_ptr (um_mem s) (um_freep s)) s =
   (p ← morecore limit ffuel n; if p =? 0 then mret 0 else q ← gets (fun s => h_ptr (um_mem s) p); malloc_loop limit (fuel - S (length fl)) ffuel n p q) s).
Proof using HB.
  intros I Hf Hfuel Hn. pose proof (ui_list _ _ _ I) as I1. rewrite (proj2 (Z.eqb_neq _ _) Hf) in I1. destruct I1 as [Hin Hc]. pose proof Hin as Hin'. apply list_elem_of_fmap in Hin' as ([f sf] & Ef & Hin2).
  apply list_elem_of_split in Hin2 as (A & B & E). cbn [fst] in Ef. pose proof (ui_ord _ _ _ I) as Ho. rewrite E in Hc, Ho. apply hchain_app in Hc as [HcA (Es & Ep & HcB)]. apply ord_app in Ho as (OA & (_ & _ & OB & _) & OAf).
  assert (Hlen : length (B ++ A) = length fl) by (apply (f_equal length) in E; rewrite length_app in *; cbn in E; lia).
  assert (HA : forall z, next (A ++ [(f, sf)]) z = base) by (intros z; apply (f_equal (fun l => next l z)) in E; rewrite next_app in *; exact (eq_sym E)).
  assert (Hmem : forall b, b ∈ (base, 0) :: fl <-> b ∈ (B ++ A) ++ [(f, sf)]) by (intros b; rewrite E, !elem_of_app, elem_of_cons, list_elem_of_singleton; tauto).
  destruct (scan_run s fuel ffuel n f (B ++ A) f sf (next B base) ((base, 0) :: fl).*1) as [(y & Hy & Hs & EL)|[H1 H2]].
  - rewrite <- app_assoc. apply hchain_app. split; [by rewrite HA|]. apply hchain_app. split; [done|]. cbn [chain next]. done.
  - done.
  - intros b Hb. split; [|apply list_elem_of_fmap; exists b; split; [done|apply Hmem; apply elem_of_app; by left]]. intros Eb.
    apply elem_of_app in Hb as [Hb|Hb]; [destruct (OB b Hb)|destruct (OAf b (f, sf) Hb ltac:(left))]; cbn in *; lia.
  - by rewrite <- Ef.
  - rewrite Ep, <- app_assoc, next_app, HA. done.
  - lia.
  - left. rewrite Ef, EL. destruct (take_run s fl live y n I Hf Hy Hn Hs) as (r & s' & fl' & H). exists r, s', fl'. tauto.
  - right. split; [intros b Hb; apply H1; apply Hmem; by right|]. rewrite <- Hlen, Ef. exact H2.
Qed.

(** The headers a request of [n] bytes takes. *)
Definition units (n : Z) : Z := (n + 15) / 16 + 1.

Lemma units_ok n : 0 <= n -> n + 16 <= 16 * units n <= n + 31.
Proof using. intros H. unfold units. pose proof (Z.div_mod (n + 15) 16). pose proof (Z.mod_pos_bound (n + 15) 16). lia. Qed.

(** The first call makes the list of [base] alone. *)
Lemma malloc_start s fl live fuel n :
  uinv s fl live -> 0 <= n < 2 ^ 31 - 31 ->
  exists s1, malloc base limit fuel n s = malloc_loop limit fuel fuel (units n) (um_freep s1) (h_ptr (um_mem s1) (um_freep s1)) s1 /\
    uinv s1 fl live /\ um_freep s1 <> 0 /\ um_sz s1 = um_sz s /\ um_grants s1 = um_grants s /\ keeps live (um_mem s) (um_mem s1).
Proof using HB.
  intros I Hn. pose proof (units_ok n ltac:(lia)) as Hu. unfold malloc, sizeof_Header. replace (n + 16 - 1) with (n + 15) by lia. fold (units n). rewrite u32_small by lia.
  rewrite bind_run, gets_run. pose proof (ui_list _ _ _ I) as I1. destruct (Z.eqb_spec (um_freep s) 0) as [E|E].
  - destruct I1 as (-> & -> & Esz). rewrite !bind_run, modify_run, bind_run, !modify_run, bind_run, gets_run, bind_run, gets_run. eexists. split; [reflexivity|].
    split_and!; [|cbn; lia|done|done|by intros b x Hb; apply elem_of_nil in Hb]. destruct I as [_ I2 I3 I4 I5 I6 I7 I8]. split; [|done|done|by intros b Hb; apply elem_of_nil in Hb|done..].
    cbn [um_freep um_mem um_sz set_freep upd_um]. rewrite (proj2 (Z.eqb_neq base 0)) by lia. split; [left|]. cbn [chain next]. by hsimp.
  - rewrite !bind_run, ret_run, bind_run, gets_run, bind_run, gets_run. exists s. by split_and!.
Qed.

Lemma malloc_run s fl live fuel n :
  uinv s fl live -> 0 <= n < 2 ^ 31 - 31 -> limit <= 8 * Z.of_nat fuel -> 32 <= heap ->
  (exists s', malloc base limit fuel n s = Ok (0, s') /\ uinv s' fl live /\ keeps live (um_mem s) (um_mem s') /\ um_sz s' = um_sz s /\ refused s (units n) /\ forall b, b ∈ fl -> b.2 < units n) \/
  (exists r s' fl', malloc base limit fuel n s = Ok (r + 16, s') /\ uinv s' fl' ((r, units n) :: live) /\ keeps live (um_mem s) (um_mem s')).
Proof using HB.
  intros I Hn Hfuel Hheap. destruct (malloc_start s fl live fuel n I Hn) as (s1 & EM & I1 & Hf1 & Esz & Egr & K1). pose proof (units_ok n ltac:(lia)) as Hu. pose proof (fl_length _ _ _ I1) as Hl1.
  destruct (round_run s1 fl live fuel fuel (units n) I1 Hf1 ltac:(lia) ltac:(lia)) as [(r & s' & fl' & E & I2 & K2)|[Hsmall E]]; rewrite EM, E.
  - right. exists r, s', fl'. split_and!; [done..|]. intros b x Hb Hx. by rewrite (K2 b), (K1 b).
  - destruct (morecore_run s1 fl live (units n) fuel I1 Hf1 ltac:(lia) ltac:(lia) ltac:(lia) Hheap) as [[EC Href]|(s2 & fl2 & EC & I2 & Hf2 & K2 & c & Hc & Hcs)]; rewrite (bind_Ok _ _ _ _ _ EC).
    + left. exists (drop_grant s1). split_and!; [done|by apply uinv_drop|done..| |done]. unfold refused in *. by rewrite <- Esz, <- Egr.
    + right. rewrite (proj2 (Z.eqb_neq _ _) Hf2), bind_run, gets_run. pose proof (fl_length _ _ _ I2) as Hl2.
      destruct (round_run s2 fl2 live (fuel - S (length fl)) fuel (units n) I2 Hf2 ltac:(lia) ltac:(lia)) as [(r & s' & fl' & E3 & I3 & K3)|[Hs2 _]]; [|specialize (Hs2 c Hc); lia].
      exists r, s', fl'. split_and!; [done..|]. intros b x Hb Hx. by rewrite (K3 b), (K2 b), (K1 b).
Qed.

End heap.
