(* ===== verification/UmallocProps.v ===== *)
(** A program that uses malloc and free of user/umalloc.c: the blocks it holds
    never overlap and keep their contents, malloc fails only when the kernel
    refuses more memory and no hole is large enough, and the free blocks are
    always joined. *)

From S2P Require Import Prelude Memory Umalloc UmallocInv.

(** The allocator and the blocks the program holds: pointer and bytes asked for. *)
Record uclient := mk_uclient { uc_um : um; uc_own : list (Z * Z) }.

Section client.
Context (base limit heap : Z) (fuel : nat).

Inductive ustep : uclient -> uclient -> Prop :=
  | u_malloc s own n p s' : 0 <= n < 2 ^ 31 - 31 -> malloc base limit fuel n s = Ok (p, s') -> p <> 0 -> ustep (mk_uclient s own) (mk_uclient s' ((p, n) :: own))
  | u_malloc_fail s own n s' : 0 <= n < 2 ^ 31 - 31 -> malloc base limit fuel n s = Ok (0, s') -> ustep (mk_uclient s own) (mk_uclient s' own)
  | u_free s own1 p n own2 s' : free fuel p s = Ok (tt, s') -> ustep (mk_uclient s (own1 ++ (p, n) :: own2)) (mk_uclient s' (own1 ++ own2))
  | u_write s own p n a v : (p, n) ∈ own -> p <= a < p + n -> ustep (mk_uclient s own) (mk_uclient (upd_um (fun m => store8 m a v) s) own).

(** The memory of a process: [base] lies in its data, the heap starts at its
    end, and it never outgrows the memory of the machine.  A round of a loop
    visits each free block, which is at least one header. *)
Definition heap_ok : Prop := 0 < base /\ base + 16 <= heap /\ 32 <= heap /\ heap <= limit /\ limit <= 2 ^ 36 /\ limit <= 8 * Z.of_nat fuel.

(** Before the first call. *)
Definition fresh_heap (s : um) : Prop := um_freep s = 0 /\ um_sz s = heap.

(** The block that holds the bytes at [p]. *)
Definition held_block (x : Z * Z) : block := (x.1 - 16, units x.2).

Context (HO : heap_ok).

Lemma heap_bounds : 0 < base /\ base + 16 <= heap /\ heap <= limit /\ limit <= 2 ^ 36.
Proof using HO. unfold heap_ok in HO. lia. Qed.

Local Abbreviation inv := (uinv base limit heap).

Definition ucinv (c : uclient) (fl : list block) : Prop := inv (uc_um c) fl (held_block <$> uc_own c) /\ forall x, x ∈ uc_own c -> 0 <= x.2.

Lemma fresh_inv s : fresh_heap s -> ucinv (mk_uclient s []) [].
Proof using HO.
  intros [E1 E2]. pose proof heap_bounds as HB. split; [|intros x Hx; by apply elem_of_nil in Hx]. split; cbn [uc_um uc_own fmap list_fmap app].
  - by rewrite E1.
  - cbn [ord]. split_and!; try lia; try done. intros b Hb. by apply elem_of_nil in Hb.
  - intros b Hb. by apply elem_of_nil in Hb.
  - intros b Hb. by apply elem_of_nil in Hb.
  - intros b c Hb. by apply elem_of_nil in Hb.
  - done.
  - lia.
  - lia.
Qed.

(** A store to a block the program holds leaves the headers alone. *)
Lemma write_inv s fl live b a v : inv s fl live -> b ∈ live -> b.1 + 16 <= a < bend b -> inv (upd_um (fun m => store8 m a v) s) fl live.
Proof using HO.
  intros I Hb Ha. pose proof heap_bounds as HB. destruct (ui_in _ _ _ _ _ _ I b ltac:(apply elem_of_app; by right)) as (? & ? & ?).
  assert (HF : forall x, x <> a -> load8 (store8 (um_mem s) a v) x = load8 (um_mem s) x) by (intros x Hx; by apply load8_store8_ne).
  assert (Hout : forall y, y ∈ ((base, 0) :: fl).*1 -> ~ (y <= a < y + 16)) by (intros y Hy; apply (header_outside _ _ _ HB _ _ _ _ b _ I); [done..|unfold inb; lia]).
  destruct I as [I1 I2 I3 I4 I5 I6 I7 I8]. split; try done; cbn [um_freep um_mem um_sz upd_um].
  - destruct (um_freep s =? 0); [done|]. destruct I1 as [Hf Hc]. split; [done|]. apply (chain_frame (um_mem s)); [|done]. intros c x Hc' Hx. apply HF. intros ->.
    apply (Hout c.1); [by apply list_elem_of_fmap_2|done].
  - intros c Hc. rewrite <- (I4 c Hc). apply size_agree. intros x Hx. apply HF. intros ->. apply list_elem_of_split in Hb as (l1 & l2 & ->).
    apply apart_all_middle in I6 as [I6 _]. rewrite elem_of_app, elem_of_cons in Hc. destruct (I3 c) as (? & ? & ?); [rewrite !elem_of_app, elem_of_cons; tauto|].
    assert (c = b \/ c ∈ l1 ++ l2) as [->|Hc2] by (rewrite elem_of_app; tauto); [lia|]. destruct (I6 c Hc2); unfold bend in *; lia.
Qed.

Lemma free_own s fl own1 p n own2 :
  ucinv (mk_uclient s (own1 ++ (p, n) :: own2)) fl -> exists s' fl', free fuel p s = Ok (tt, s') /\ ucinv (mk_uclient s' (own1 ++ own2)) fl' /\ keeps (held_block <$> own1 ++ own2) (um_mem s) (um_mem s').
Proof using HO.
  intros [I Hn]. cbn [uc_um uc_own] in *. rewrite fmap_app, fmap_cons in I. apply uinv_middle in I. rewrite <- fmap_app in I.
  destruct (free_run _ _ _ heap_bounds _ _ _ _ _ fuel I ltac:(unfold heap_ok in HO; lia) ltac:(unfold heap_ok in HO; lia)) as (s' & fl' & E & I' & _ & _ & _ & K & _). cbn [fst] in E. rewrite Z.sub_add in E. exists s', fl'. split_and!; [done| |done].
  split; [done|]. intros x Hx. apply Hn. cbn [uc_own] in Hx. rewrite elem_of_app in *. rewrite elem_of_cons. tauto.
Qed.

Lemma malloc_own s fl own n :
  ucinv (mk_uclient s own) fl -> 0 <= n < 2 ^ 31 - 31 ->
  (exists s', malloc base limit fuel n s = Ok (0, s') /\ ucinv (mk_uclient s' own) fl /\ keeps (held_block <$> own) (um_mem s) (um_mem s') /\ um_sz s' = um_sz s /\ refused limit s (units n) /\ forall b, b ∈ fl -> b.2 < units n) \/
  (exists p s' fl', malloc base limit fuel n s = Ok (p, s') /\ p <> 0 /\ ucinv (mk_uclient s' ((p, n) :: own)) fl' /\ keeps (held_block <$> own) (um_mem s) (um_mem s')).
Proof using HO.
  intros [I Hn] H. cbn [uc_um uc_own] in *. pose proof heap_bounds as HB. unfold heap_ok in HO.
  destruct (malloc_run _ _ _ HB s fl _ fuel n I H ltac:(lia) ltac:(lia)) as [(s' & E & I' & K & Hs & HR & Hsm)|(r & s' & fl' & E & I' & K)].
  - left. exists s'. by split_and!.
  - right. destruct (ui_in _ _ _ _ _ _ I' (r, units n)) as (Hr & _); [apply elem_of_app; right; left|]. cbn in Hr. exists (r + 16), s', fl'. split_and!; [done|lia| |done].
    split; [cbn [uc_um uc_own fmap list_fmap]; unfold held_block at 1; cbn [fst snd]; by rewrite Z.add_simpl_r|]. intros x [->|Hx]%elem_of_cons; [cbn; lia|by apply Hn].
Qed.

Lemma reachable_ucinv s c : fresh_heap s -> rtc ustep (mk_uclient s []) c -> exists fl, ucinv c fl.
Proof using HO.
  intros Hs Hr. pose proof (fresh_inv s Hs) as H0. assert (HI : exists fl, ucinv (mk_uclient s []) fl) by eauto. clear Hs H0. induction Hr as [|c1 c2 c3 Hstep _ IH]; [done|]. apply IH. clear IH c3. destruct HI as [fl I].
  destruct Hstep as [s1 own n p s' Hn E Hp|s1 own n s' Hn E|s1 own1 p n own2 s' E|s1 own p n a v Hin Ha].
  - destruct (malloc_own _ _ _ _ I Hn) as [(s2 & E2 & _)|(p2 & s2 & fl2 & E2 & _ & I2 & _)]; rewrite E in E2; simplify_eq. by exists fl2.
  - destruct (malloc_own _ _ _ _ I Hn) as [(s2 & E2 & I2 & _)|(p2 & s2 & fl2 & E2 & Hp & _)]; rewrite E in E2; simplify_eq. by exists fl.
  - destruct (free_own _ _ _ _ _ _ I) as (s2 & fl2 & E2 & I2 & _). rewrite E in E2. simplify_eq. by exists fl2.
  - destruct I as [I Hn]. exists fl. split; [|done]. cbn [uc_um uc_own] in *. pose proof (units_ok n (Hn _ Hin)). apply (write_inv _ _ _ (held_block (p, n))); [done|by apply list_elem_of_fmap_2|]. unfold bend, held_block. cbn. lia.
Qed.

(** ** What the program can rely on *)

Lemma apart_all_lookup l i j b c : apart_all l -> l !! i = Some b -> l !! j = Some c -> i <> j -> bapart b c.
Proof using.
  revert i j. induction l as [|d l IH]; [done|]. intros [|i] [|j] [H1 H2] Hi Hj Hne; cbn in Hi, Hj; [done|..].
  - injection Hi as ->. apply H1. by eapply list_elem_of_lookup_2.
  - injection Hj as ->. apply bapart_sym, H1. by eapply list_elem_of_lookup_2.
  - apply (IH i j); [done..|]. congruence.
Qed.

(** Bytes of the heap that no block of the program touches lie in one free block. *)
Lemma hole_free s fl live a k :
  inv s fl live -> heap <= a -> 0 < k -> a + k <= um_sz s -> (forall b x, b ∈ live -> inb x b -> ~ (a <= x < a + k)) -> exists b, b ∈ fl /\ b.1 <= a /\ a + k <= bend b.
Proof using.
  clear HO. intros I Ha Hk Hs Hl. destruct (ui_cover _ _ _ _ _ _ I a ltac:(lia)) as (b & [Hb|Hb]%elem_of_app & Hx); [|destruct (Hl b a Hb Hx); lia].
  exists b. split; [done|]. unfold inb in Hx. split; [lia|]. destruct (Z.le_gt_cases (a + k) (bend b)) as [|Hgt]; [done|exfalso].
  destruct (ui_cover _ _ _ _ _ _ I (bend b) ltac:(lia)) as (c & [Hc|Hc]%elem_of_app & Hy); [|destruct (Hl c _ Hc Hy); lia].
  destruct (ui_ord _ _ _ _ _ _ I) as (_ & _ & _ & Ho). destruct (ord_apart _ _ _ Ho Hb Hc) as [->|[?|?]]; unfold inb in *; lia.
Qed.

(** (C18) For every history of frees and of requests below 2^31 - 31 bytes (larger
    ones break malloc, [malloc_huge_shrinks]): the blocks a program holds lie in
    the memory it got from sbrk and are disjoint, headers included; malloc of such
    a size and free always return, and every byte the program holds keeps its
    value. *)
Theorem umalloc_safe (s : um) (c : uclient) :
  fresh_heap s -> rtc ustep (mk_uclient s []) c ->
  (forall p n, (p, n) ∈ uc_own c -> heap + 16 <= p /\ p + n <= um_sz (uc_um c)) /\
  (forall i j p n q k, uc_own c !! i = Some (p, n) -> uc_own c !! j = Some (q, k) -> i <> j -> p + n <= q - 16 \/ q + k <= p - 16) /\
  (forall n, 0 <= n < 2 ^ 31 - 31 -> exists p s', malloc base limit fuel n (uc_um c) = Ok (p, s') /\
    forall q k a, (q, k) ∈ uc_own c -> q <= a < q + k -> load8 (um_mem s') a = load8 (um_mem (uc_um c)) a) /\
  (forall own1 p n own2, uc_own c = own1 ++ (p, n) :: own2 -> exists s', free fuel p (uc_um c) = Ok (tt, s') /\
    forall q k a, (q, k) ∈ own1 ++ own2 -> q <= a < q + k -> load8 (um_mem s') a = load8 (um_mem (uc_um c)) a).
Proof using HO.
  intros Hs Hr. destruct (reachable_ucinv s c Hs Hr) as [fl Hc]. destruct c as [s1 own]. pose proof Hc as [I Hn]. cbn [uc_um uc_own] in *.
  assert (Hb : forall q k a, 0 <= k -> q <= a < q + k -> inb a (held_block (q, k))) by (intros q k a Hk Ha; pose proof (units_ok k Hk); unfold inb, bend, held_block; cbn; lia). split_and!.
  - intros p n Hin. destruct (ui_in _ _ _ _ _ _ I (held_block (p, n))) as (H1 & _ & H2); [apply elem_of_app; right; by apply list_elem_of_fmap_2|]. pose proof (units_ok n (Hn _ Hin)). unfold bend, held_block in *. cbn in *. lia.
  - intros i j p n q k H1 H2 Hne. pose proof (units_ok n (Hn _ (list_elem_of_lookup_2 _ _ _ H1))). pose proof (units_ok k (Hn _ (list_elem_of_lookup_2 _ _ _ H2))).
    destruct (apart_all_lookup _ i j (held_block (p, n)) (held_block (q, k)) (ui_disjoint _ _ _ _ _ _ I)) as [Ha|Ha]; [by rewrite list_lookup_fmap, H1|by rewrite list_lookup_fmap, H2|done|..]; unfold bend, held_block in Ha; cbn in Ha; lia.
  - intros n H. destruct (malloc_own _ _ _ _ Hc H) as [(s' & E & _ & K & _)|(p & s' & fl' & E & _ & _ & K)]; eexists _, s'; (split; [exact E|]); intros q k a Hin Ha; apply (K (held_block (q, k))); [by apply list_elem_of_fmap_2|by apply Hb; [apply (Hn _ Hin)|]..|by apply list_elem_of_fmap_2|by apply Hb; [apply (Hn _ Hin)|]].
  - intros own1 p n own2 ->. destruct (free_own _ _ _ _ _ _ Hc) as (s' & fl' & E & [_ Hn'] & K). exists s'. split; [done|]. intros q k a Hin Ha. apply (K (held_block (q, k))); [by apply list_elem_of_fmap_2|]. apply Hb; [apply (Hn' _ Hin)|done].
Qed.

(** (C19) After a history of requests below 2^31 - 31 bytes and frees, when malloc
    returns 0 for such a request, the kernel refused to grow the process, and no
    stretch of the heap of the size asked for is free of the blocks the program
    holds. *)
Theorem umalloc_complete (s : um) (c : uclient) n s' :
  fresh_heap s -> rtc ustep (mk_uclient s []) c -> 0 <= n < 2 ^ 31 - 31 -> malloc base limit fuel n (uc_um c) = Ok (0, s') ->
  refused limit (uc_um c) (units n) /\
  forall a, heap <= a -> a + 16 * units n <= um_sz (uc_um c) -> exists p k, (p, k) ∈ uc_own c /\ p - 16 < a + 16 * units n /\ a < p - 16 + 16 * units k.
Proof using HO.
  intros Hs Hr Hn E. destruct (reachable_ucinv s c Hs Hr) as [fl Hc]. destruct c as [s1 own]. cbn [uc_um uc_own] in *. pose proof (units_ok n ltac:(lia)).
  destruct (malloc_own _ _ _ _ Hc Hn) as [(s2 & E2 & _ & _ & _ & HR & Hsm)|(p & s2 & fl2 & E2 & Hp & _)]; rewrite E in E2; [|congruence]. split; [done|]. intros a Ha Hle.
  destruct (decide (Exists (fun x => x.1 - 16 < a + 16 * units n /\ a < x.1 - 16 + 16 * units x.2) own)) as [HE|HE].
  { apply Exists_exists in HE as ([p k] & Hin & H1). by exists p, k. }
  exfalso. destruct (hole_free s1 fl _ a (16 * units n) (proj1 Hc) Ha ltac:(lia) Hle) as (b & Hb & H1 & H2).
  - intros b x Hb Hx Hax. apply list_elem_of_fmap in Hb as (y & -> & Hy). apply HE. apply Exists_exists. exists y. split; [done|]. unfold inb, bend, held_block in Hx. cbn in Hx. lia.
  - specialize (Hsm b Hb). unfold bend in H2. lia.
Qed.

(** (C20) Freed blocks are joined: when the program, whose requests were below
    2^31 - 31 bytes, has given everything back, the list holds one block, all of the memory it got from sbrk. *)
Theorem umalloc_coalesces (s s1 : um) :
  fresh_heap s -> rtc ustep (mk_uclient s []) (mk_uclient s1 []) -> heap < um_sz s1 ->
  h_ptr (um_mem s1) base = heap /\ h_ptr (um_mem s1) heap = base /\ 16 * h_size (um_mem s1) heap = um_sz s1 - heap.
Proof using HO.
  intros Hs Hr Hlt. destruct (reachable_ucinv s _ Hs Hr) as [fl [I _]]. cbn [uc_um uc_own fmap list_fmap] in I.
  destruct (hole_free s1 fl _ heap (um_sz s1 - heap) I ltac:(lia) ltac:(lia) ltac:(lia)) as (b & Hb & H1 & H2); [by intros b x Hb%elem_of_nil|].
  destruct (ui_in _ _ _ _ _ _ I b ltac:(apply elem_of_app; by left)) as (? & ? & ?).
  assert (E : fl = [b]).
  { destruct (ui_ord _ _ _ _ _ _ I) as (_ & _ & _ & Ho). assert (Hall : forall c, c ∈ fl -> c = b).
    { intros c Hc. destruct (ui_in _ _ _ _ _ _ I c ltac:(apply elem_of_app; by left)) as (? & ? & ?). destruct (ord_apart _ _ _ Ho Hb Hc) as [->|[?|?]]; [done|unfold bend in *; lia..]. }
    destruct fl as [|c [|d fl]]; [by apply elem_of_nil in Hb|by rewrite (Hall c ltac:(left))|]. destruct c as [ca cs]. pose proof (Hall (ca, cs) ltac:(left)). pose proof (Hall d ltac:(right; left)) as ->. subst b. destruct Ho as (? & _ & Ho & _). destruct (Ho (ca, cs) ltac:(left)). cbn in *. lia. }
  pose proof (ui_list _ _ _ _ _ _ I) as IL. destruct (um_freep s1 =? 0); [lia|]. destruct IL as [_ HC]. rewrite E in HC. destruct b as [a t]. cbn [chain next fst snd] in *. unfold bend in *. cbn [fst snd] in *.
  destruct HC as (_ & E1 & E2 & E3 & _). assert (a = heap) as -> by lia. split_and!; [done..|]. lia.
Qed.

End client.

(** ** A program with 64 kilobytes of memory to get *)

Definition demo_fuel : nat := Z.to_nat 10000.
Definition demo_um0 : um := mk_um ∅ 0 8192 [true].
Definition demo_malloc : Z * um := match malloc 4096 80000 demo_fuel 100 demo_um0 with Ok x => x | Panic _ => (0, demo_um0) end.
Definition demo_free : um := match free demo_fuel demo_malloc.1 demo_malloc.2 with Ok (_, s) => s | Panic _ => demo_um0 end.
Definition demo_held : uclient := mk_uclient demo_malloc.2 [(demo_malloc.1, 100)].
Definition demo_fail : um := match malloc 4096 80000 demo_fuel 70000 (uc_um demo_held) with Ok (_, s) => s | Panic _ => demo_um0 end.

Lemma demo_heap_ok : heap_ok 4096 80000 8192 demo_fuel.
Proof. unfold heap_ok, demo_fuel. lia. Qed.

Lemma demo_fresh : fresh_heap 8192 demo_um0.
Proof. done. Qed.

Lemma demo_umalloc_run : malloc 4096 80000 demo_fuel 100 demo_um0 = Ok demo_malloc /\ (demo_malloc.1 =? 0) = false.
Proof. split; vm_compute; reflexivity. Qed.

Lemma demo_ufree_run : free demo_fuel demo_malloc.1 demo_malloc.2 = Ok (tt, demo_free).
Proof. vm_compute. reflexivity. Qed.

Lemma demo_fail_run : malloc 4096 80000 demo_fuel 70000 (uc_um demo_held) = Ok (0, demo_fail).
Proof. vm_compute. reflexivity. Qed.

Lemma demo_uclient : rtc (ustep 4096 80000 demo_fuel) (mk_uclient demo_um0 []) demo_held.
Proof.
  destruct demo_umalloc_run as [E Hne]. apply rtc_once. apply (u_malloc _ _ _ _ [] 100); [lia|by rewrite E, <- surjective_pairing|by apply Z.eqb_neq].
Qed.

Lemma demo_uclient_freed : rtc (ustep 4096 80000 demo_fuel) (mk_uclient demo_um0 []) (mk_uclient demo_free []).
Proof. eapply rtc_r; [apply demo_uclient|]. apply (u_free _ _ _ _ [] _ 100 []). apply demo_ufree_run. Qed.

Lemma umalloc_safe_witness : 8192 + 16 <= demo_malloc.1 /\ demo_malloc.1 + 100 <= um_sz (uc_um demo_held).
Proof.
  exact (proj1 (umalloc_safe 4096 80000 8192 demo_fuel demo_heap_ok demo_um0 demo_held demo_fresh demo_uclient) demo_malloc.1 100 (list_elem_of_here (demo_malloc.1, 100) [])).
Defined.

Lemma umalloc_complete_witness : refused 80000 (uc_um demo_held) (units 70000).
Proof.
  exact (proj1 (umalloc_complete 4096 80000 8192 demo_fuel demo_heap_ok demo_um0 demo_held 70000 demo_fail demo_fresh demo_uclient ltac:(lia) demo_fail_run)).
Defined.

Lemma umalloc_coalesces_witness : 16 * h_size (um_mem demo_free) 8192 = um_sz demo_free - 8192.
Proof.
  destruct (umalloc_coalesces 4096 80000 8192 demo_fuel demo_heap_ok demo_um0 demo_free demo_fresh demo_uclient_freed) as (_ & _ & H); [vm_compute; reflexivity|exact H].
Defined.

(** A request of two gigabytes reaches sbrk as a negative number: the process
    shrinks, and the call comes back with a block over what it gave up. *)
Lemma malloc_huge_shrinks :
  match malloc 4096 80000 demo_fuel (2 ^ 31 - 16) (mk_um ∅ 0 (2 ^ 31 + 2 ^ 30) []) with
  | Ok (p, s) => um_sz s = 2 ^ 30 /\ um_sz s < p
  | Panic _ => False
  end.
Proof. vm_compute. split; reflexivity. Qed.
