(* ===== verification/Grep.v ===== *)
(** user/grep.c: the regular expression matcher and the line loop; and user/wc.c:
    counting lines, words and bytes (module [Wc]). *)

From S2P Require Import Prelude Ulib.

Definition chr_star : Z := 42.
Definition chr_dot : Z := 46.
Definition chr_caret : Z := 94.
Definition chr_dollar : Z := 36.
Definition chr_nl : Z := 10.

(** matchstar, over the matcher [here] of what follows the star. *)
Fixpoint matchstar (here : list Z -> bool) (c : Z) (text : list Z) : bool :=
  if here text then true
  else
    match text with
    | [] => false
    | x :: text => if (x =? c) || (c =? chr_dot) then matchstar here c text else false
    end.

Fixpoint matchhere (re text : list Z) {struct re} : bool :=
  match re with
  | [] => true
  | c :: re1 =>
      match re1 with
      | d :: re2 =>
          if d =? chr_star then matchstar (matchhere re2) c text
          else
            match text with
            | x :: text => if (c =? chr_dot) || (c =? x) then matchhere re1 text else false
            | [] => false
            end
      | [] =>
          if c =? chr_dollar then match text with [] => true | _ => false end
          else
            match text with
            | x :: text => if (c =? chr_dot) || (c =? x) then matchhere re1 text else false
            | [] => false
            end
      end
  end.

(** The do-while loop of match: every suffix of the text, the empty one too. *)
Fixpoint match_anywhere (re text : list Z) : bool :=
  if matchhere re text then true
  else match text with [] => false | _ :: text => match_anywhere re text end.

Definition match_ (re text : list Z) : bool :=
  match re with
  | c :: re' => if c =? chr_caret then matchhere re' text else match_anywhere re text
  | [] => match_anywhere re text
  end.

(** while((q = strchr(p, '\n')) != 0): what is written and what is left in
    the buffer from [p] on.  A round takes at least the newline from [p]. *)
Fixpoint grep_lines (fuel : nat) (pattern p : list Z) : list Z * list Z :=
  match fuel with
  | O => ([], p)
  | S fuel =>
      match strchr p chr_nl with
      | None => ([], p)
      | Some q =>
          let '(out, rest) := grep_lines fuel pattern (drop (S q) p) in
          ((if match_ pattern (take q p) then take (S q) p else []) ++ out, rest)
      end
  end.

Definition bufsize : Z := 1024.

(** while((n = read(fd, buf+m, sizeof(buf)-m-1)) > 0), [kept] being the [m]
    bytes left from the previous round. *)
Fixpoint grep_loop (fuel : nat) (pattern kept : list Z) (fd : stream) : list Z :=
  match fuel with
  | O => []
  | S fuel =>
      let '(bs, fd) := read_fd (bufsize - Z.of_nat (length kept) - 1) fd in
      match bs with
      | [] => []
      | _ =>
          let p := kept ++ bs in
          let '(out, rest) := grep_lines (length p) pattern p in
          out ++ grep_loop fuel pattern rest fd
      end
  end.

(** Every round reads at least one byte. *)
Definition grep (pattern : list Z) (fd : stream) : list Z :=
  grep_loop (S (length (pending fd))) pattern [] fd.

(** * What a pattern means *)

(** One pattern character against one text character. *)
Definition char_ok (c x : Z) : Prop := c = chr_dot \/ c = x.

(** [matches re text]: the pattern [re], read left to right, matches a prefix
    of [text]; [$] at its end asks for the end of the text. *)
Inductive matches : list Z -> list Z -> Prop :=
| M_nil text : matches [] text
| M_star c re pre text :
    Forall (char_ok c) pre -> matches re text -> matches (c :: chr_star :: re) (pre ++ text)
| M_end : matches [chr_dollar] []
| M_char c re x text :
    head re <> Some chr_star -> (re = [] -> c <> chr_dollar) ->
    char_ok c x -> matches re text -> matches (c :: re) (x :: text).

(** A pattern matches a line somewhere, or at its beginning after [^]. *)
Definition search (re text : list Z) : Prop :=
  match re with
  | c :: re' => if c =? chr_caret then matches re' text else exists pre post, text = pre ++ post /\ matches re post
  | [] => True
  end.

Lemma char_okb c x : (c =? chr_dot) || (c =? x) = true <-> char_ok c x.
Proof. rewrite orb_true_iff, !Z.eqb_eq. done. Qed.

Lemma char_okb' c x : (x =? c) || (c =? chr_dot) = true <-> char_ok c x.
Proof. rewrite orb_true_iff, !Z.eqb_eq. unfold char_ok. naive_solver. Qed.

Lemma matchstar_spec here c text :
  matchstar here c text = true <-> exists pre post, text = pre ++ post /\ Forall (char_ok c) pre /\ here post = true.
Proof.
  split.
  - induction text as [|x text IH]; simpl.
    + destruct (here []) eqn:E; [|done]. intros _. by exists [], [].
    + destruct (here (x :: text)) eqn:E; [intros _; by exists [], (x :: text)|].
      destruct ((x =? c) || (c =? chr_dot)) eqn:Ec; [|done]. apply char_okb' in Ec.
      intros (pre & post & -> & Hp & Hh)%IH. exists (x :: pre), post. split_and!; auto.
  - intros (pre & post & -> & Hp & Hh). induction pre as [|x pre IH]; simpl.
    + destruct post; simpl; by rewrite Hh.
    + apply Forall_cons in Hp as [Hx Hp]. destruct (here (x :: pre ++ post)); [done|].
      rewrite (proj2 (char_okb' c x) Hx). auto.
Qed.

Lemma matches_star c re text :
  matches (c :: chr_star :: re) text <-> exists pre post, text = pre ++ post /\ Forall (char_ok c) pre /\ matches re post.
Proof.
  split.
  - inversion 1; subst; [naive_solver|]. simpl in *. done.
  - intros (pre & post & -> & Hp & Hm). by constructor.
Qed.

Lemma matches_char c re text :
  head re <> Some chr_star -> (re = [] -> c <> chr_dollar) ->
  matches (c :: re) text <-> exists x rest, text = x :: rest /\ char_ok c x /\ matches re rest.
Proof.
  intros H1 H2. split.
  - inversion 1; subst; simpl in *; naive_solver.
  - intros (x & rest & -> & Hc & Hm). by constructor.
Qed.

Lemma matches_end text : matches [chr_dollar] text <-> text = [].
Proof. split; [inversion 1; subst; naive_solver|intros ->; constructor]. Qed.

Lemma matchhere_spec re : forall text, matchhere re text = true <-> matches re text.
Proof.
  induction re as [re IH] using (induction_ltof1 _ (@length Z)). unfold ltof in IH. intros text.
  assert (Hchar : forall c re1, re = c :: re1 -> head re1 <> Some chr_star -> (re1 = [] -> c <> chr_dollar) ->
    match text with
    | x :: text => if (c =? chr_dot) || (c =? x) then matchhere re1 text else false
    | [] => false
    end = true <-> matches re text).
  { intros c re1 -> H1 H2. rewrite matches_char by done. destruct text as [|x text].
    - split; [done|]. by intros (x & rest & ? & _).
    - destruct ((c =? chr_dot) || (c =? x)) eqn:E.
      + apply char_okb in E. rewrite IH by (simpl; lia). naive_solver.
      + split; [done|]. intros (y & rest & [= <- <-] & Hc & _). apply char_okb in Hc. congruence. }
  destruct re as [|c [|d re2]]; cbn [matchhere].
  - split; [constructor|done].
  - destruct (Z.eqb_spec c chr_dollar) as [->|Hc].
    + rewrite matches_end. destruct text; done.
    + by apply (Hchar c []).
  - destruct (Z.eqb_spec d chr_star) as [->|Hd].
    + rewrite matchstar_spec, matches_star. setoid_rewrite IH; [done|simpl; lia].
    + apply (Hchar c (d :: re2)); [done|simpl; congruence|done].
Qed.

Lemma match_anywhere_spec re text :
  match_anywhere re text = true <-> exists pre post, text = pre ++ post /\ matches re post.
Proof.
  induction text as [|x text IH]; simpl.
  - destruct (matchhere re []) eqn:E.
    + apply matchhere_spec in E. split; [by exists [], []|done].
    + split; [done|]. intros (pre & post & E0 & Hm). symmetry in E0. apply app_nil in E0 as [-> ->]. apply matchhere_spec in Hm. congruence.
  - destruct (matchhere re (x :: text)) eqn:E.
    + apply matchhere_spec in E. split; [by exists [], (x :: text)|done].
    + rewrite IH. split.
      * intros (pre & post & -> & Hm). by exists (x :: pre), post.
      * intros ([|y pre] & post & Et & Hm); simpl in Et.
        -- subst post. apply matchhere_spec in Hm. congruence.
        -- injection Et as <- ->. eauto.
Qed.

(** (C32) The matcher decides the meaning of patterns: match answers 1 exactly
    when the pattern, with [.], [*], [^] and [$] read as documented, matches
    somewhere in the line. *)
Theorem match_correct re text : match_ re text = true <-> search re text.
Proof.
  unfold match_, search. destruct re as [|c re].
  - rewrite match_anywhere_spec. split; [done|]. intros _. exists [], text. split; [done|constructor].
  - destruct (c =? chr_caret); [apply matchhere_spec|apply match_anywhere_spec].
Qed.

(** ** The line loop *)

(** The text of a file of lines, and the lines that match. *)
Definition line_text (ls : list (list Z)) : list Z := concat ((fun l => l ++ [chr_nl]) <$> ls).
Definition grep_spec (pattern : list Z) (ls : list (list Z)) : list Z :=
  line_text (filter (fun l => match_ pattern l = true) ls).

(** A line that fits the buffer. *)
Definition line_ok (l : list Z) : Prop := Forall (fun c => c <> 0 /\ c <> chr_nl) l /\ (length l <= 1022)%nat.

Lemma strchr_nl_line l rest : Forall (fun c => c <> 0 /\ c <> chr_nl) l -> strchr (l ++ chr_nl :: rest) chr_nl = Some (length l).
Proof.
  induction 1 as [|c l [Hc Hn] Hl IH]; simpl; [done|].
  rewrite (proj2 (Z.eqb_neq c 0)), (proj2 (Z.eqb_neq c chr_nl)), IH by done. done.
Qed.

Lemma strchr_nl_none l : Forall (fun c => c <> 0 /\ c <> chr_nl) l -> strchr l chr_nl = None.
Proof.
  induction 1 as [|c l [Hc Hn] Hl IH]; simpl; [done|].
  rewrite (proj2 (Z.eqb_neq c 0)), (proj2 (Z.eqb_neq c chr_nl)), IH by done. done.
Qed.

(** What it finds comes after bytes that are neither. *)
Lemma strchr_nl_some l k : strchr l chr_nl = Some k -> exists a b, l = a ++ chr_nl :: b /\ length a = k /\ Forall (fun c => c <> 0 /\ c <> chr_nl) a.
Proof.
  revert k. induction l as [|c l IH]; intros k; simpl; [done|]. destruct (Z.eqb_spec c 0) as [->|H0]; [done|].
  destruct (Z.eqb_spec c chr_nl) as [->|Hn]; [intros [= <-]; by exists [], l|]. destruct (strchr l chr_nl) as [j|]; [|done]. intros [= <-].
  destruct (IH j eq_refl) as (a & b & -> & <- & Ha). exists (c :: a), b. split_and!; [done..|]. by constructor.
Qed.

(** What strchr does not find in a buffer it does not find in a shorter one. *)
Lemma strchr_nl_prefix l rest : strchr (l ++ rest) chr_nl = None -> strchr l chr_nl = None.
Proof.
  induction l as [|c l IH]; simpl; [by destruct rest|]. destruct (c =? 0); [done|]. destruct (c =? chr_nl); [done|].
  destruct (strchr (l ++ rest) chr_nl); [done|]. intros _. by rewrite IH.
Qed.

Lemma take_line (l rest : list Z) : take (length l) (l ++ rest) = l.
Proof. by rewrite take_app_length. Qed.

(** Complete lines followed by a partial one. *)
Lemma grep_lines_spec pattern ls part : forall fuel,
  Forall line_ok ls -> strchr part chr_nl = None -> (length ls <= fuel)%nat ->
  grep_lines fuel pattern (line_text ls ++ part) = (grep_spec pattern ls, part).
Proof.
  induction ls as [|l ls IH]; intros fuel Hls Hp Hf.
  - simpl. destruct fuel; simpl; [done|]. by rewrite Hp.
  - apply Forall_cons in Hls as [[Hl Hlen] Hls]. simpl in Hf. destruct fuel as [|fuel]; [lia|].
    assert (E : line_text (l :: ls) ++ part = l ++ chr_nl :: (line_text ls ++ part)).
    { unfold line_text. simpl. by rewrite <- !app_assoc. }
    rewrite E. cbn [grep_lines]. rewrite strchr_nl_line by done.
    replace (drop (S (length l)) (l ++ chr_nl :: line_text ls ++ part)) with (line_text ls ++ part).
    2: { change (l ++ chr_nl :: line_text ls ++ part) with (l ++ [chr_nl] ++ (line_text ls ++ part)).
         rewrite app_assoc, drop_app_length'; [done|]. rewrite length_app. simpl. lia. }
    rewrite IH by (done || lia). rewrite take_line.
    replace (take (S (length l)) (l ++ chr_nl :: line_text ls ++ part)) with (l ++ [chr_nl]).
    2: { change (l ++ chr_nl :: line_text ls ++ part) with (l ++ [chr_nl] ++ (line_text ls ++ part)).
         rewrite app_assoc, take_app_length'; [done|]. rewrite length_app. simpl. lia. }
    f_equal. unfold grep_spec. rewrite filter_cons. destruct (match_ pattern l) eqn:Em.
    + rewrite decide_True by done. unfold line_text. simpl. done.
    + rewrite decide_False by done. done.
Qed.

(** What grep does not get over: in the first 1023 bytes no newline, or a NUL
    before it. *)
Definition stuck (tail : list Z) : Prop := strchr (take 1023 tail) chr_nl = None.

(** A buffer full of such a text: whole lines, then a partial one. *)
Lemma split_lines tail ls : forall data rest,
  line_text ls ++ tail = data ++ rest -> Forall line_ok ls -> stuck tail -> (length data <= 1023)%nat ->
  exists done part todo, data = line_text done ++ part /\ Forall line_ok done /\
    strchr part chr_nl = None /\ Forall line_ok todo /\ line_text todo ++ tail = part ++ rest /\ ls = done ++ todo.
Proof.
  induction ls as [|l ls IH]; intros data rest E Hls Ht Hd.
  - cbn in E. exists [], data, []. split_and!; auto. apply (strchr_nl_prefix _ (take (1023 - length data) rest)).
    unfold stuck in Ht. rewrite E, take_app in Ht. by rewrite (take_ge data) in Ht.
  - apply Forall_cons in Hls as [Hl Hls]. unfold line_text in E. cbn [fmap list_fmap concat] in E.
    fold (line_text ls) in E. destruct (decide (length data <= length l)%nat) as [Hle|Hgt].
    + assert (Ed : data = take (length data) l).
      { apply (f_equal (take (length data))) in E. rewrite take_app_length, <- !app_assoc, take_app_le in E by lia. done. }
      pose proof Hl as [Hc Hlen]. exists [], data, (l :: ls).
      split_and!; [done|constructor|rewrite Ed; apply strchr_nl_none; by apply Forall_take|by constructor|exact E|done].
    + assert (Hdl : data = (l ++ [chr_nl]) ++ drop (S (length l)) data).
      { rewrite <- (take_drop (S (length l)) data) at 1. f_equal.
        apply (f_equal (take (S (length l)))) in E. rewrite <- app_assoc in E.
        rewrite (take_app_le (l ++ [chr_nl])), (take_app_le data) in E by (rewrite ?length_app; simpl; lia).
        rewrite <- E. apply take_ge. rewrite length_app. simpl. lia. }
      destruct (IH (drop (S (length l)) data) rest) as (dn & part & todo & H1 & H2 & H3 & H4 & H5 & H6); [|done|done|rewrite length_drop; lia|].
      { rewrite Hdl, <- !app_assoc in E. by apply app_inv_head, (app_inv_head [_]) in E. }
      exists (l :: dn), part, todo. split_and!; auto; [|by rewrite H6].
      rewrite Hdl, H1. unfold line_text. cbn [fmap list_fmap concat]. by rewrite <- !app_assoc.
Qed.

Lemma line_text_app a b : line_text (a ++ b) = line_text a ++ line_text b.
Proof. unfold line_text. by rewrite fmap_app, concat_app. Qed.

Lemma grep_spec_app pattern a b : grep_spec pattern (a ++ b) = grep_spec pattern a ++ grep_spec pattern b.
Proof. unfold grep_spec. by rewrite filter_app, line_text_app. Qed.

Lemma length_line_text ls : (length ls <= length (line_text ls))%nat.
Proof.
  induction ls as [|l ls IH]; [done|]. change (line_text (l :: ls)) with ((l ++ [chr_nl]) ++ line_text ls).
  rewrite !length_app. simpl. lia.
Qed.

(** A buffer without a newline is not the text of a line. *)
Lemma no_line_kept ls tail kept rest :
  Forall line_ok ls -> line_text ls ++ tail = kept ++ rest -> strchr kept chr_nl = None -> rest = [] \/ length kept = 1023%nat -> ls = [].
Proof.
  intros Hls E Hk Hr. destruct ls as [|l ls]; [done|exfalso]. apply Forall_cons in Hls as [[Hl Hlen] _].
  unfold line_text in E. cbn [fmap list_fmap concat] in E. fold (line_text ls) in E. rewrite <- !app_assoc in E. cbn [app] in E.
  assert (Ek : exists more, kept = l ++ chr_nl :: more).
  { destruct Hr as [-> |Hr]; [rewrite app_nil_r in E; by eexists|]. exists (take (1022 - length l) (line_text ls ++ tail)).
    apply (f_equal (take 1023)) in E. rewrite take_app, (take_ge l), (take_app_length' kept) in E by lia. rewrite <- E. f_equal. by replace (1023 - length l)%nat with (S (1022 - length l)) by lia. }
  destruct Ek as [more ->]. by rewrite strchr_nl_line in Hk.
Qed.

Lemma read_fd_zero fd : alive fd -> read_fd 0 fd = ([], fd).
Proof. intros Ha. destruct fd as [|c fd]; [done|]. apply Forall_cons in Ha as [Hc _]. destruct c; [done|]. reflexivity. Qed.

Lemma grep_loop_spec pattern tail fuel : stuck tail -> forall kept fd ls,
  (length (pending fd) < fuel)%nat -> alive fd -> Forall line_ok ls -> (length kept <= 1023)%nat ->
  line_text ls ++ tail = kept ++ pending fd -> strchr kept chr_nl = None ->
  grep_loop fuel pattern kept fd = grep_spec pattern ls.
Proof.
  intros Ht. induction fuel as [|fuel IH]; intros kept fd ls Hf Ha Hls Hk E Hkc; [lia|]. cbn [grep_loop].
  set (n := bufsize - Z.of_nat (length kept) - 1). assert (Hn : n = 1023 - Z.of_nat (length kept)) by (unfold n, bufsize; lia). destruct (decide (n = 0)) as [Hn0|Hn0].
  { rewrite Hn0, read_fd_zero by done. rewrite (no_line_kept ls tail kept _ Hls E Hkc); [done|right; lia]. }
  pose proof (read_fd_pending n fd) as Hp. pose proof (read_fd_alive n fd ltac:(lia) Ha) as [Ha' He]. pose proof (read_fd_length n fd ltac:(lia)) as Hrl.
  destruct (read_fd n fd) as [bs fd']. simpl in *. destruct bs as [|b bs].
  - rewrite (no_line_kept ls tail kept _ Hls E Hkc); [done|left; by rewrite (He eq_refl)].
  - rewrite <- Hp, app_assoc in E.
    destruct (split_lines tail ls _ _ E Hls Ht) as (dn & part & todo & H1 & H2 & H3 & H4 & H5 & H6); [rewrite length_app; simpl in *; lia|].
    rewrite H1, grep_lines_spec; [|done|done|rewrite length_app; pose proof (length_line_text dn); lia].
    rewrite H6, grep_spec_app. f_equal. apply IH; auto.
    + rewrite <- Hp, length_app in Hf. simpl in Hf. lia.
    + apply (f_equal length) in H1. rewrite !length_app in H1. simpl in H1, Hrl. lia.
Qed.

(** Every input is such a text. *)
Lemma text_lines n : forall text, (length text <= n)%nat -> exists ls tail, text = line_text ls ++ tail /\ Forall line_ok ls /\ stuck tail.
Proof.
  induction n as [|n IH]; intros text Hn; destruct (strchr (take 1023 text) chr_nl) as [k|] eqn:E; try (by exists [], text).
  - destruct text; [done|simpl in Hn; lia].
  - destruct (strchr_nl_some _ _ E) as (l & more & Et & <- & Hl). assert (Hk : (length l <= 1022)%nat) by (apply (f_equal length) in Et; rewrite length_app, length_take in Et; cbn [length] in Et; lia).
    assert (Ex : text = l ++ chr_nl :: (more ++ drop 1023 text)) by (rewrite <- (take_drop 1023 text) at 1; rewrite Et, <- app_assoc; done).
    destruct (IH (more ++ drop 1023 text)) as (ls & tail & Em & Hls & Ht); [rewrite Ex, length_app in Hn; simpl in Hn; lia|].
    exists (l :: ls), tail. split_and!; [|by constructor|done]. rewrite Ex, Em. unfold line_text. cbn [fmap list_fmap concat]. by rewrite <- !app_assoc.
Qed.

(** (C33) grep on any input, however the kernel splits it into reads.  The input
    is a sequence of lines without a NUL and with at most 1022 bytes before their
    newline, followed by a rest in which no newline comes within the first 1023
    bytes and before a NUL; grep writes exactly those of the lines that match, in
    order, and nothing of the rest: an unfinished last line is never searched, and
    a line that is too long or has a NUL ends the search. *)
Theorem grep_correct pattern fd : alive fd ->
  (exists ls tail, pending fd = line_text ls ++ tail /\ Forall line_ok ls /\ stuck tail) /\
  forall ls tail, pending fd = line_text ls ++ tail -> Forall line_ok ls -> stuck tail -> grep pattern fd = grep_spec pattern ls.
Proof.
  intros Ha. split; [by eapply text_lines|]. intros ls tail E Hls Ht. unfold grep. apply (grep_loop_spec pattern tail); simpl; auto with lia.
Qed.

(** Lines "ab" and "c" and an unfinished "b" read in three pieces, pattern "b$". *)
Lemma grep_correct_witness : grep [98; 36] [[97]; [98; 10; 99]; [10; 98]] = [97; 98; 10].
Proof.
  apply (proj2 (grep_correct [98; 36] [[97]; [98; 10; 99]; [10; 98]] ltac:(repeat constructor; done)) [[97; 98]; [99]] [98]).
  - reflexivity.
  - repeat constructor; simpl; (lia || done).
  - reflexivity.
Defined.

(** A last line without newline is read but never searched. *)
Example grep_last_line : grep [97] [[97; 97]] = [] /\ match_ [97] [97; 97] = true.
Proof. split; reflexivity. Qed.

(** * user/wc.c *)

Module Wc.

Record wc_state := mk_wc { wc_l : Z; wc_w : Z; wc_c : Z; wc_inword : bool }.

(** strchr(" \r\t\n\v", x) != 0; the NUL byte is not found. *)
Definition is_space (x : Z) : bool :=
  match strchr [32; 13; 9; 10; 11] x with Some _ => true | None => false end.

(** The body of the for loop, on byte [x] = buf[i]. *)
Definition wc_byte (s : wc_state) (x : Z) : wc_state :=
  let c := s32 (wc_c s + 1) in
  let l := if x =? 10 then s32 (wc_l s + 1) else wc_l s in
  if is_space x then mk_wc l (wc_w s) c false
  else if negb (wc_inword s) then mk_wc l (s32 (wc_w s + 1)) c true
  else mk_wc l (wc_w s) c (wc_inword s).

(** while((n = read(fd, buf, sizeof(buf))) > 0) *)
Fixpoint wc_loop (fuel : nat) (s : wc_state) (fd : stream) : wc_state :=
  match fuel with
  | O => s
  | S fuel =>
      let '(bs, fd) := read_fd 512 fd in
      match bs with
      | [] => s
      | _ => wc_loop fuel (foldl wc_byte s bs) fd
      end
  end.

(** What wc prints: lines, words, bytes. *)
Definition wc (fd : stream) : Z * Z * Z :=
  let s := wc_loop (S (length (pending fd))) (mk_wc 0 0 0 false) fd in (wc_l s, wc_w s, wc_c s).

(** * Specification *)

(** The maximal runs of bytes that are not spaces; [cur] is the run being
    read. *)
Fixpoint words_from (cur : list Z) (s : list Z) : list (list Z) :=
  match s with
  | [] => match cur with [] => [] | _ => [cur] end
  | x :: s =>
      if is_space x then match cur with [] => words_from [] s | _ => cur :: words_from [] s end
      else words_from (cur ++ [x]) s
  end.

Definition words (s : list Z) : list (list Z) := words_from [] s.

Definition count_lines (s : list Z) : nat := length (filter (fun x => x = 10) s).

Lemma wc_loop_run fuel : forall s fd,
  alive fd -> (length (pending fd) < fuel)%nat -> wc_loop fuel s fd = foldl wc_byte s (pending fd).
Proof.
  induction fuel as [|fuel IH]; intros s fd Ha Hf; [lia|]. cbn [wc_loop].
  pose proof (read_fd_pending 512 fd) as Hp. pose proof (read_fd_alive 512 fd ltac:(lia) Ha) as [Ha' He].
  destruct (read_fd 512 fd) as [bs fd']. simpl in *. destruct bs as [|b bs].
  - by rewrite (He eq_refl).
  - rewrite IH; [|done|rewrite <- Hp in Hf; simpl in Hf; rewrite length_app in Hf; lia].
    rewrite <- Hp. by rewrite (foldl_app wc_byte).
Qed.

Definition nonempty (cur : list Z) : bool := match cur with [] => false | _ => true end.

(** The loop in the middle of the text: [cur] is the word being read. *)
Lemma wc_bytes s : forall st cur,
  wc_inword st = nonempty cur -> 0 <= wc_l st <= wc_c st -> 0 <= wc_w st <= wc_c st ->
  wc_c st + Z.of_nat (length s) < 2147483648 ->
  let st' := foldl wc_byte st s in
  wc_c st' = wc_c st + Z.of_nat (length s) /\ wc_l st' = wc_l st + Z.of_nat (count_lines s) /\
  wc_w st' = wc_w st + Z.of_nat (length (words_from cur s)) - (if nonempty cur then 1 else 0).
Proof.
  induction s as [|x s IH]; intros st cur Hin Hl Hw Hc; cbn zeta.
  - destruct cur; simpl; unfold count_lines; simpl; lia.
  - cbn [foldl]. cbn [length] in Hc. set (l1 := if x =? 10 then wc_l st + 1 else wc_l st).
    assert (Hl1 : (if x =? 10 then s32 (wc_l st + 1) else wc_l st) = l1)
      by (unfold l1; destruct (x =? 10); [apply s32_small; lia|done]).
    assert (Hcl : l1 + Z.of_nat (count_lines s) = wc_l st + Z.of_nat (count_lines (x :: s))).
    { unfold l1, count_lines. rewrite filter_cons. destruct (Z.eqb_spec x 10).
      - rewrite decide_True by done. simpl. lia.
      - by rewrite decide_False by done. }
    assert (Hlb : 0 <= l1 <= wc_c st + 1) by (unfold l1; destruct (x =? 10); lia).
    assert (Hgo : forall st1 cur1, wc_byte st x = st1 -> wc_c st1 = wc_c st + 1 -> wc_l st1 = l1 ->
      0 <= wc_w st1 <= wc_c st + 1 -> wc_inword st1 = nonempty cur1 ->
      wc_w st1 + Z.of_nat (length (words_from cur1 s)) - (if nonempty cur1 then 1 else 0) =
      wc_w st + Z.of_nat (length (words_from cur (x :: s))) - (if nonempty cur then 1 else 0) ->
      let st' := foldl wc_byte (wc_byte st x) s in
      wc_c st' = wc_c st + Z.of_nat (S (length s)) /\ wc_l st' = wc_l st + Z.of_nat (count_lines (x :: s)) /\
      wc_w st' = wc_w st + Z.of_nat (length (words_from cur (x :: s))) - (if nonempty cur then 1 else 0)).
    { intros st1 cur1 -> Ec El Hw1 Hi1 Eq. destruct (IH st1 cur1) as (H1 & H2 & H3); [done|lia|lia|lia|].
      cbn zeta. rewrite H1, H2, H3. lia. }
    cbn [length]. unfold wc_byte in *. rewrite Hl1, s32_small in * by lia.
    destruct (is_space x) eqn:Es.
    + apply (Hgo _ [] eq_refl); simpl; auto; try lia. rewrite Es. destruct cur; simpl; lia.
    + rewrite Hin in Hgo |- *. destruct cur as [|y cur]; cbn [nonempty negb] in *.
      * apply (Hgo _ [x] eq_refl); cbn [wc_c wc_l wc_w wc_inword]; rewrite ?s32_small by lia; try lia; try done.
        cbn [words_from app nonempty]. rewrite Es. lia.
      * apply (Hgo _ ((y :: cur) ++ [x]) eq_refl); cbn [wc_c wc_l wc_w wc_inword]; try lia; try done.
        cbn [words_from app nonempty]. rewrite Es. lia.
Qed.

(** wc counts newlines, maximal runs of non-space bytes and bytes,
    however the input is split into reads, for inputs shorter than 2^31. *)
Theorem wc_correct fd :
  alive fd -> Z.of_nat (length (pending fd)) < 2147483648 ->
  wc fd = (Z.of_nat (count_lines (pending fd)), Z.of_nat (length (words (pending fd))), Z.of_nat (length (pending fd))).
Proof.
  intros Ha Hlen. unfold wc. rewrite wc_loop_run by (done || lia).
  destruct (wc_bytes (pending fd) (mk_wc 0 0 0 false) []) as (H1 & H2 & H3); cbn [wc_c wc_l wc_w nonempty] in *;
    [done|lia..|].
  rewrite H1, H2, H3. unfold words. repeat f_equal; lia.
Qed.

Lemma wc_correct_witness : wc [[97; 98; 32]; [99; 10; 100]] = (1, 3, 6).
Proof. apply (wc_correct [[97; 98; 32]; [99; 10; 100]]); [repeat constructor; done|reflexivity]. Defined.

End Wc.
