(* ===== verification/Sh.v ===== *)
(** user/sh.c: the shell.

    The line is a buffer of bytes that ends with a NUL; a pointer into it is
    its offset, and [char_at] past the end reads the NUL.  The parser's state
    is the pointer *ps; its calls of panic() stop the run.  A command is the
    tree of the structs that the constructors allocate. *)

From S2P Require Import Prelude Riscv Ulib.

(** ** Parsed command representation *)

Definition MAXARGS : nat := 10.

(** argv[i] and eargv[i] delimit a word of the line. *)
Inductive cmd :=
  | EXEC (argv : list (nat * nat))
  | REDIR (c : cmd) (file efile : nat) (mode fd : Z)
  | PIPE (left right : cmd)
  | LIST (left right : cmd)
  | BACK (c : cmd).

(** ** Parsing *)

Definition whitespace : list Z := [32; 9; 13; 10; 11].
Definition symbols : list Z := [60; 124; 62; 38; 59; 40; 41].

Definition char_at (buf : list Z) (s : nat) : Z := default 0 (buf !! s).

(** strchr(set, c) as a truth value *)
Definition is_in (set : list Z) (c : Z) : bool := match strchr set c with Some _ => true | None => false end.

(** strlen *)
Fixpoint strlen (buf : list Z) : nat :=
  match buf with
  | [] => 0
  | c :: buf => if c =? 0 then 0 else S (strlen buf)
  end.

(** while(s < es && p( *s)) s++; with [k] bytes up to es. *)
Fixpoint skip (buf : list Z) (p : Z -> bool) (k s : nat) : nat :=
  match k with
  | O => s
  | S k => if p (char_at buf s) then skip buf p k (S s) else s
  end.

Definition skip_to (buf : list Z) (p : Z -> bool) (es s : nat) : nat := skip buf p (es - s) s.

Inductive token := TEnd | TSym (c : Z) | TAppend | TWord.

(** What gettoken returns: 0, the character of a symbol, '+' or 'a'; where the
    token starts and ends. *)
Definition gettoken (buf : list Z) (es : nat) : M nat (token * nat * nat) := fun ps =>
  let s := skip_to buf (is_in whitespace) es ps in
  let c := char_at buf s in
  let '(ret, s') :=
    if c =? 0 then (TEnd, s)
    else if is_in [124; 40; 41; 59; 38; 60] c then (TSym c, S s)
    else if c =? 62 then if char_at buf (S s) =? 62 then (TAppend, S (S s)) else (TSym 62, S s)
    else (TWord, skip_to buf (fun c => negb (is_in whitespace c) && negb (is_in symbols c)) es s) in
  Ok ((ret, s, s'), skip_to buf (is_in whitespace) es s').

Definition peek (buf : list Z) (es : nat) (toks : list Z) : M nat bool := fun ps =>
  let s := skip_to buf (is_in whitespace) es ps in
  let c := char_at buf s in
  Ok (negb (c =? 0) && is_in toks c, s).

Definition out_of_fuel : string := "out of fuel".

(** A redirection to wrap around a command: file, efile, mode, fd. *)
Definition redir : Type := nat * nat * Z * Z.
Definition redircmd (c : cmd) (r : redir) : cmd := let '(q, eq, mode, fd) := r in REDIR c q eq mode fd.

(** parseredirs: the redirections in the order in which they are wrapped
    around the command given. *)
Fixpoint parseredirs (k : nat) (buf : list Z) (es : nat) : M nat (list redir) :=
  match k with
  | O => panic out_of_fuel
  | S k =>
      b ← peek buf es [60; 62];
      if b : bool then
        t ← gettoken buf es;
        w ← gettoken buf es;
        let '(tw, q, eq) := w in
        match tw with
        | TWord =>
            rest ← parseredirs k buf es;
            mret match t.1.1 with
                 | TSym 60 => (q, eq, open_bit O_RDONLY, 0) :: rest
                 | TSym 62 => (q, eq, Z.lor (Z.lor O_WRONLY O_CREATE) O_TRUNC, 1) :: rest
                 | TAppend => (q, eq, Z.lor O_WRONLY O_CREATE, 1) :: rest
                 | _ => rest
                 end
        | _ => panic "missing file for redirection"
        end
      else mret []
  end.

(** while(!peek(ps, es, "|)&;")): the words and, as the execcmd that they are
    stored in is already inside the structs that wrap it, the redirections
    between them. *)
Fixpoint parseargs (k : nat) (buf : list Z) (es : nat) (argc : nat) : M nat (list (nat * nat) * list redir) :=
  match k with
  | O => panic out_of_fuel
  | S k =>
      b ← peek buf es [124; 41; 38; 59];
      if b : bool then mret ([], [])
      else
        t ← gettoken buf es;
        let '(tok, q, eq) := t in
        match tok with
        | TEnd => mret ([], [])
        | TWord =>
            if (MAXARGS <=? S argc)%nat then panic "too many args"
            else
              rs ← parseredirs (S (length buf)) buf es;
              rest ← parseargs k buf es (S argc);
              mret ((q, eq) :: rest.1, rs ++ rest.2)
        | _ => panic "syntax"
        end
  end.

(** while(peek(ps, es, "&")) *)
Fixpoint parseback (k : nat) (buf : list Z) (es : nat) (c : cmd) : M nat cmd :=
  match k with
  | O => panic out_of_fuel
  | S k =>
      b ← peek buf es [38];
      if b : bool then gettoken buf es;; parseback k buf es (BACK c) else mret c
  end.

Fixpoint parseline (k : nat) (buf : list Z) (es : nat) {struct k} : M nat cmd :=
  match k with
  | O => panic out_of_fuel
  | S k =>
      c ← parsepipe k buf es;
      c ← parseback (S (length buf)) buf es c;
      b ← peek buf es [59];
      if b : bool then gettoken buf es;; r ← parseline k buf es; mret (LIST c r) else mret c
  end
with parsepipe (k : nat) (buf : list Z) (es : nat) {struct k} : M nat cmd :=
  match k with
  | O => panic out_of_fuel
  | S k =>
      c ← parseexec k buf es;
      b ← peek buf es [124];
      if b : bool then gettoken buf es;; r ← parsepipe k buf es; mret (PIPE c r) else mret c
  end
with parseexec (k : nat) (buf : list Z) (es : nat) {struct k} : M nat cmd :=
  match k with
  | O => panic out_of_fuel
  | S k =>
      b ← peek buf es [40];
      if b : bool then parseblock k buf es
      else
        rs ← parseredirs (S (length buf)) buf es;
        a ← parseargs (S (length buf)) buf es 0;
        mret (foldl redircmd (EXEC a.1) (rs ++ a.2))
  end
with parseblock (k : nat) (buf : list Z) (es : nat) {struct k} : M nat cmd :=
  match k with
  | O => panic out_of_fuel
  | S k =>
      b ← peek buf es [40];
      if negb b then panic "parseblock"
      else
        gettoken buf es;;
        c ← parseline k buf es;
        b ← peek buf es [41];
        if negb b then panic "syntax - missing )"
        else
          gettoken buf es;;
          rs ← parseredirs (S (length buf)) buf es;
          mret (foldl redircmd c rs)
  end.

(** NUL-terminate all the counted strings. *)
Fixpoint nulterminate (c : cmd) (buf : list Z) : list Z :=
  match c with
  | EXEC argv => foldl (fun buf a => <[snd a := 0]> buf) buf argv
  | REDIR c _ efile _ _ => <[efile := 0]> (nulterminate c buf)
  | PIPE l r | LIST l r => nulterminate r (nulterminate l buf)
  | BACK c => nulterminate c buf
  end.

(** parsecmd(s): the command and the line, now cut into strings. *)
Definition parsecmd (buf : list Z) : outcome (cmd * list Z) :=
  let es := strlen buf in
  match parseline (4 * length buf + 4) buf es 0%nat with
  | Panic e => Panic e
  | Ok (c, ps) => if (skip_to buf (is_in whitespace) es ps =? es)%nat then Ok (c, nulterminate c buf) else Panic "syntax"
  end.

(** ** Scanning *)

Definition word_char (c : Z) : bool := negb (is_in whitespace c) && negb (is_in symbols c).

Lemma skip_spec buf p k : forall s, let r := skip buf p k s in
  (s <= r <= s + k)%nat /\ (forall i, (s <= i < r)%nat -> p (char_at buf i) = true) /\ ((r < s + k)%nat -> p (char_at buf r) = false).
Proof.
  induction k as [|k IH]; intros s; cbn; [split_and!; lia|]. destruct (p (char_at buf s)) eqn:E; [|split_and!; auto; lia].
  destruct (IH (S s)) as (H1 & H2 & H3). split_and!; [lia|lia| |intros; apply H3; lia]. intros i Hi. destruct (decide (i = s)) as [->|]; [done|]. apply H2. lia.
Qed.

Lemma strlen_char buf i : (i < strlen buf)%nat -> char_at buf i <> 0.
Proof. revert i. induction buf as [|c buf IH]; intros i Hi; cbn in Hi; [lia|]. destruct (Z.eqb_spec c 0) as [->|Hc]; [lia|]. destruct i as [|i]; [done|]. apply IH. lia. Qed.

Lemma strlen_end buf : char_at buf (strlen buf) = 0.
Proof. induction buf as [|c buf IH]; [done|]. cbn. destruct (Z.eqb_spec c 0) as [->|Hc]; [done|exact IH]. Qed.

Lemma strlen_le buf : (strlen buf <= length buf)%nat.
Proof. induction buf as [|c buf IH]; cbn; [lia|]. destruct (c =? 0); lia. Qed.

Lemma is_in_zero set : is_in set 0 = false.
Proof. unfold is_in. induction set as [|x set IH]; [done|]. cbn. destruct (x =? 0); [done|]. by destruct (strchr set 0). Qed.

Lemma is_in_spec set c : Forall (fun x => x <> 0) set -> is_in set c = true <-> c ∈ set.
Proof.
  unfold is_in. induction set as [|x set IH]; intros Hf; [set_solver|]. apply Forall_cons in Hf as [Hx Hf]. specialize (IH Hf). cbn. rewrite (proj2 (Z.eqb_neq x 0) Hx). rewrite elem_of_cons.
  destruct (Z.eqb_spec x c) as [->|Hn]; [by split; auto|]. destruct (strchr set c); cbn in *; naive_solver.
Qed.

Section scan.
Variable buf : list Z.
#[local] Abbreviation es := (strlen buf).

Lemma inside i : (i <= es)%nat -> char_at buf i <> 0 -> (i < es)%nat.
Proof. intros Hi Hc. destruct (decide (i = es)) as [->|]; [|lia]. by rewrite strlen_end in Hc. Qed.

Lemma skip_ws_spec s : (s <= es)%nat -> let r := skip_to buf (is_in whitespace) es s in
  (s <= r <= es)%nat /\ is_in whitespace (char_at buf r) = false.
Proof.
  intros Hs. unfold skip_to. destruct (skip_spec buf (is_in whitespace) (es - s) s) as (H1 & _ & H3). cbn zeta. split; [lia|].
  destruct (decide (skip buf (is_in whitespace) (es - s) s = es)) as [->|]; [by rewrite strlen_end, is_in_zero|]. apply H3. lia.
Qed.

(** A word of the line: as long as it can be. *)
Definition is_word (w : nat * nat) : Prop :=
  (fst w < snd w <= es)%nat /\ (forall i, (fst w <= i < snd w)%nat -> word_char (char_at buf i) = true) /\ (char_at buf (snd w) = 0 \/ word_char (char_at buf (snd w)) = false).

Lemma not_symbol c : is_in [124; 40; 41; 59; 38; 60] c = false -> c <> 62 -> is_in symbols c = false.
Proof.
  intros H1 H2. apply not_true_iff_false. intros H3. apply is_in_spec in H3; [|by repeat constructor]. apply not_true_iff_false in H1. apply H1, is_in_spec; [by repeat constructor|].
  unfold symbols in H3. set_solver.
Qed.

Lemma gettoken_run ps : (ps <= es)%nat -> exists t q eq ps', gettoken buf es ps = Ok ((t, q, eq), ps') /\ (ps <= ps' <= es)%nat /\
  (t <> TEnd -> (ps < ps')%nat) /\ (t = TWord -> is_word (q, eq)) /\ (t = TEnd -> char_at buf (skip_to buf (is_in whitespace) es ps) = 0).
Proof.
  intros Hp. unfold gettoken. destruct (skip_ws_spec ps Hp) as [Hs Hw]. set (s := skip_to buf (is_in whitespace) es ps) in *. clearbody s. set (c := char_at buf s) in *.
  assert (Hfin : forall t eq, (s <= eq <= es)%nat -> (t <> TEnd -> (s < eq)%nat) -> (t = TWord -> is_word (s, eq)) -> (t = TEnd -> c = 0) -> exists t0 q eq0 ps',
    (Ok ((t, s, eq), skip_to buf (is_in whitespace) es eq) : outcome (token * nat * nat * nat)) = Ok ((t0, q, eq0), ps') /\ (ps <= ps' <= es)%nat /\ (t0 <> TEnd -> (ps < ps')%nat) /\ (t0 = TWord -> is_word (q, eq0)) /\ (t0 = TEnd -> c = 0)).
  { intros t eq He Hlt Hw' Hz. destruct (skip_ws_spec eq) as [He' _]; [lia|]. exists t, s, eq. eexists. split; [done|]. split_and!; auto; [lia|lia|]. intros Ht. specialize (Hlt Ht). lia. }
  destruct (Z.eqb_spec c 0) as [Hc|Hc]; [apply Hfin; auto; try lia; done|]. pose proof (inside s ltac:(lia) Hc) as Hin.
  destruct (is_in [124; 40; 41; 59; 38; 60] c) eqn:Esym; [apply Hfin; auto; try lia; done|]. destruct (Z.eqb_spec c 62) as [E62|E62].
  - destruct (Z.eqb_spec (char_at buf (S s)) 62) as [E2|E2]; [|apply Hfin; auto; try lia; done]. pose proof (inside (S s) ltac:(lia) ltac:(lia)). apply Hfin; auto; try lia; done.
  - unfold skip_to. destruct (skip_spec buf word_char (es - s) s) as (H1 & H2 & H3). fold word_char. set (r := skip buf word_char (es - s) s) in *.
    assert (Hr : (s < r)%nat). { destruct (decide (s = r)) as [E|]; [|lia]. rewrite <- E in H3. specialize (H3 ltac:(lia)). fold c in H3. unfold word_char in H3. by rewrite Hw, (not_symbol c Esym E62) in H3. }
    apply Hfin; auto; try lia; [|done]. intros _. split; [cbn; lia|]. split; [exact H2|]. cbn. destruct (decide (r = es)) as [->|]; [left; apply strlen_end|right; apply H3; lia].
Qed.

Lemma peek_run toks ps : (ps <= es)%nat -> exists b ps', peek buf es toks ps = Ok (b, ps') /\ (ps <= ps' <= es)%nat /\
  skip_to buf (is_in whitespace) es ps' = ps' /\ b = negb (char_at buf ps' =? 0) && is_in toks (char_at buf ps').
Proof.
  intros Hp. unfold peek. destruct (skip_ws_spec ps Hp) as [Hs Hw]. set (s := skip_to _ _ _ ps) in *. clearbody s. eexists _, s. split; [done|]. split_and!; auto; try lia.
  unfold skip_to. destruct (es - s)%nat; [done|]. cbn. by rewrite Hw.
Qed.

(** A token that peek has seen. *)
Lemma gettoken_after ps : (ps <= es)%nat -> skip_to buf (is_in whitespace) es ps = ps -> char_at buf ps <> 0 ->
  exists t q eq ps', gettoken buf es ps = Ok ((t, q, eq), ps') /\ (ps < ps' <= es)%nat /\ (t = TWord -> is_word (q, eq)).
Proof.
  intros Hp Hs Hc. destruct (gettoken_run ps Hp) as (t & q & eq & ps' & E & H1 & H2 & H3 & H4). exists t, q, eq, ps'. split; [done|]. rewrite Hs in H4.
  assert (t <> TEnd) by (intros Ht; by apply Hc, H4). split; [|done]. specialize (H2 ltac:(done)). lia.
Qed.

(** ** The parser ends, and its result is well formed *)

(** [m] run at [ps] gives a result with [Q], or stops at a syntax error. *)
Definition safe {A} (m : M nat A) (ps : nat) (Q : A -> nat -> Prop) : Prop :=
  match m ps with Ok (a, ps') => Q a ps' | Panic e => e <> out_of_fuel end.

Lemma safe_bind {A B} (m : M nat A) (f : A -> M nat B) ps Q R :
  safe m ps Q -> (forall a ps', Q a ps' -> safe (f a) ps' R) -> safe (a ← m; f a) ps R.
Proof. unfold safe. rewrite bind_run. destruct (m ps) as [[a ps']|]; intros H1 H2; [by apply H2|done]. Qed.

Lemma safe_ret {A} (a : A) ps (Q : A -> nat -> Prop) : Q a ps -> safe (mret a) ps Q.
Proof. done. Qed.

Lemma safe_run {A B} (m : M nat A) (f : A -> M nat B) ps a ps' R : m ps = Ok (a, ps') -> safe (f a) ps' R -> safe (a ← m; f a) ps R.
Proof. intros E. unfold safe. by rewrite bind_run, E. Qed.

Definition redir_ok (r : redir) : Prop := let '(q, eq, mode, fd) := r in is_word (q, eq) /\ (mode, fd) ∈ [(0, 0); (1537, 1); (513, 1)].

Fixpoint cmd_ok (c : cmd) : Prop :=
  match c with
  | EXEC argv => (length argv < MAXARGS)%nat /\ Forall is_word argv
  | REDIR c q eq mode fd => cmd_ok c /\ redir_ok (q, eq, mode, fd)
  | PIPE l r | LIST l r => cmd_ok l /\ cmd_ok r
  | BACK c => cmd_ok c
  end.

Lemma parseredirs_safe k : forall ps, (ps <= es)%nat -> (es - ps < k)%nat ->
  safe (parseredirs k buf es) ps (fun rs ps' => (ps <= ps' <= es)%nat /\ Forall redir_ok rs).
Proof.
  induction k as [|k IH]; intros ps Hp Hk; [lia|]. cbn [parseredirs]. destruct (peek_run [60; 62] ps Hp) as (b & p1 & E1 & H1 & Hs1 & Hb). apply (safe_run _ _ _ _ _ _ E1).
  destruct b; [|split; [lia|constructor]]. symmetry in Hb. apply andb_true_iff in Hb as [Hz%negb_true_iff%Z.eqb_neq _].
  destruct (gettoken_after p1 ltac:(lia) Hs1 Hz) as (t & q & eq & p2 & E2 & H2 & _). apply (safe_run _ _ _ _ _ _ E2).
  destruct (gettoken_run p2) as (tw & q' & eq' & p3 & E3 & H3 & _ & Hw & _); [lia|]. apply (safe_run _ _ _ _ _ _ E3). destruct tw; try done.
  eapply safe_bind; [apply IH; lia|]. intros rest p4 [H4 Hrest]. apply safe_ret. split; [lia|]. cbn [fst]. specialize (Hw eq_refl).
  repeat case_match; auto; constructor; auto; (split; [done|]); rewrite ?elem_of_cons; auto.
Qed.

Lemma parseargs_safe k : forall argc ps, (ps <= es)%nat -> (es - ps < k)%nat -> (argc < MAXARGS)%nat ->
  safe (parseargs k buf es argc) ps (fun a ps' => (ps <= ps' <= es)%nat /\ (argc + length a.1 < MAXARGS)%nat /\ Forall is_word a.1 /\ Forall redir_ok a.2).
Proof.
  induction k as [|k IH]; intros argc ps Hp Hk Ha; [lia|]. cbn [parseargs]. destruct (peek_run [124; 41; 38; 59] ps Hp) as (b & p1 & E1 & H1 & Hs1 & Hb). apply (safe_run _ _ _ _ _ _ E1).
  destruct b; [split_and!; cbn; auto; lia|]. destruct (gettoken_run p1) as (t & q & eq & p2 & E2 & H2 & Hlt & Hw & _); [lia|]. apply (safe_run _ _ _ _ _ _ E2).
  destruct t; try done; [split_and!; cbn; auto; lia|]. destruct (Nat.leb_spec MAXARGS (S argc)); [done|]. specialize (Hlt ltac:(done)).
  eapply safe_bind; [apply parseredirs_safe; [lia|pose proof (strlen_le buf); lia]|]. intros rs p3 [H3 Hrs]. cbv beta.
  eapply safe_bind; [apply IH; lia|]. intros [a rs'] p4 (H4 & Hl & Hwa & Hr'). apply safe_ret. cbn [fst snd length] in *. split_and!; auto; try lia. by apply Forall_app.
Qed.

Lemma parseback_safe k : forall c ps, (ps <= es)%nat -> (es - ps < k)%nat -> cmd_ok c -> safe (parseback k buf es c) ps (fun c ps' => (ps <= ps' <= es)%nat /\ cmd_ok c).
Proof.
  induction k as [|k IH]; intros c ps Hp Hk Hc; [lia|]. cbn [parseback]. destruct (peek_run [38] ps Hp) as (b & p1 & E1 & H1 & Hs1 & Hb). apply (safe_run _ _ _ _ _ _ E1).
  destruct b; [|split; [lia|done]]. symmetry in Hb. apply andb_true_iff in Hb as [Hz%negb_true_iff%Z.eqb_neq _].
  destruct (gettoken_after p1 ltac:(lia) Hs1 Hz) as (t & q & eq & p2 & E2 & H2 & _). apply (safe_run _ _ _ _ _ _ E2).
  specialize (IH (BACK c) p2 ltac:(lia) ltac:(lia) Hc). unfold safe in *. destruct (parseback k buf es (BACK c) p2) as [[c' p3]|]; [|done]. destruct IH as [? ?]. split; [lia|done].
Qed.

Lemma wrap_ok rs : forall c, cmd_ok c -> Forall redir_ok rs -> cmd_ok (foldl redircmd c rs).
Proof. induction rs as [|[[[q eq] mode] fd] rs IH]; intros c Hc Hf; [done|]. apply Forall_cons in Hf as [Hr Hf]. cbn. apply IH; [|done]. by split. Qed.

Definition parsed (ps : nat) (c : cmd) (ps' : nat) : Prop := (ps <= ps' <= es)%nat /\ cmd_ok c.

Lemma parse_safe k : forall ps, (ps <= es)%nat ->
  ((4 * (es - ps) + 4 <= k)%nat -> safe (parseline k buf es) ps (parsed ps)) /\
  ((4 * (es - ps) + 3 <= k)%nat -> safe (parsepipe k buf es) ps (parsed ps)) /\
  ((4 * (es - ps) + 2 <= k)%nat -> safe (parseexec k buf es) ps (parsed ps)) /\
  ((4 * (es - ps) + 1 <= k)%nat -> safe (parseblock k buf es) ps (parsed ps)).
Proof.
  pose proof (strlen_le buf) as Hle. induction k as [|k IH]; intros ps Hp; [split_and!; lia|]. split_and!; intros Hk.
  - cbn [parseline]. eapply safe_bind; [apply IH; lia|]. intros c p1 [H1 Hc]. cbv beta. eapply safe_bind; [apply parseback_safe; [lia|lia|done]|]. intros c2 p2 [H2 Hc2]. cbv beta.
    destruct (peek_run [59] p2 ltac:(lia)) as (b & p3 & E3 & H3 & Hs3 & Hb). apply (safe_run _ _ _ _ _ _ E3). destruct b; [|split; [lia|done]].
    symmetry in Hb. apply andb_true_iff in Hb as [Hz%negb_true_iff%Z.eqb_neq _]. destruct (gettoken_after p3 ltac:(lia) Hs3 Hz) as (t & q & eq & p4 & E4 & H4 & _). apply (safe_run _ _ _ _ _ _ E4).
    eapply safe_bind; [apply IH; lia|]. intros r p5 [H5 Hr]. apply safe_ret. split; [lia|done].
  - cbn [parsepipe]. eapply safe_bind; [apply IH; lia|]. intros c p1 [H1 Hc]. cbv beta.
    destruct (peek_run [124] p1 ltac:(lia)) as (b & p3 & E3 & H3 & Hs3 & Hb). apply (safe_run _ _ _ _ _ _ E3). destruct b; [|split; [lia|done]].
    symmetry in Hb. apply andb_true_iff in Hb as [Hz%negb_true_iff%Z.eqb_neq _]. destruct (gettoken_after p3 ltac:(lia) Hs3 Hz) as (t & q & eq & p4 & E4 & H4 & _). apply (safe_run _ _ _ _ _ _ E4).
    eapply safe_bind; [apply IH; lia|]. intros r p5 [H5 Hr]. apply safe_ret. split; [lia|done].
  - cbn [parseexec]. destruct (peek_run [40] ps Hp) as (b & p1 & E1 & H1 & Hs1 & Hb). apply (safe_run _ _ _ _ _ _ E1). destruct b.
    + destruct (IH p1 ltac:(lia)) as (_ & _ & _ & IHb). specialize (IHb ltac:(lia)). unfold safe in *. destruct (parseblock k buf es p1) as [[c p2]|]; [|done]. destruct IHb. split; [lia|done].
    + eapply safe_bind; [apply parseredirs_safe; lia|]. intros rs p2 [H2 Hrs]. cbv beta. eapply safe_bind; [apply parseargs_safe; [lia|lia|unfold MAXARGS; lia]|]. intros [a rs'] p3 (H3 & Hl & Ha & Hr').
      apply safe_ret. cbn [fst snd] in *. split; [lia|]. apply wrap_ok; [by split|by apply Forall_app].
  - cbn [parseblock]. destruct (peek_run [40] ps Hp) as (b & p1 & E1 & H1 & Hs1 & Hb). apply (safe_run _ _ _ _ _ _ E1). destruct b; [|done]. cbn [negb].
    symmetry in Hb. apply andb_true_iff in Hb as [Hz%negb_true_iff%Z.eqb_neq _]. destruct (gettoken_after p1 ltac:(lia) Hs1 Hz) as (t & q & eq & p2 & E2 & H2 & _). apply (safe_run _ _ _ _ _ _ E2).
    eapply safe_bind; [apply IH; lia|]. intros c p3 [H3 Hc]. cbv beta. destruct (peek_run [41] p3 ltac:(lia)) as (b & p4 & E4 & H4 & Hs4 & Hb). apply (safe_run _ _ _ _ _ _ E4). destruct b; [|done]. cbn [negb].
    destruct (gettoken_run p4 ltac:(lia)) as (t5 & q5 & eq5 & p5 & E5 & H5 & _). apply (safe_run _ _ _ _ _ _ E5).
    eapply safe_bind; [apply parseredirs_safe; lia|]. intros rs p6 [H6 Hrs]. apply safe_ret. split; [lia|by apply wrap_ok].
Qed.

End scan.

(** ** The strings of a command *)

Fixpoint words (c : cmd) : list (nat * nat) :=
  match c with
  | EXEC argv => argv
  | REDIR c q eq _ _ => words c ++ [(q, eq)]
  | PIPE l r | LIST l r => words l ++ words r
  | BACK c => words c
  end.

(** The C string at [s]. *)
Definition cstr (buf : list Z) (s : nat) : list Z := take (strlen (drop s buf)) (drop s buf).

(** The bytes between two pointers. *)
Definition slice (buf : list Z) (w : nat * nat) : list Z := take (snd w - fst w) (drop (fst w) buf).

Lemma length_nulterminate c : forall buf, length (nulterminate c buf) = length buf.
Proof.
  induction c as [argv|c IH q eq mode fd|l IHl r IHr|l IHl r IHr|c IH]; intros buf; cbn; auto.
  - revert buf. induction argv as [|a argv IH]; intros buf; [done|]. cbn. by rewrite IH, length_insert.
  - by rewrite length_insert.
  - by rewrite IHr.
  - by rewrite IHr.
Qed.

(** nulterminate stores a NUL at the end of every word and nothing else. *)
Lemma nulterminate_char c i : forall buf, char_at (nulterminate c buf) i = if decide (i ∈ snd <$> words c) then 0 else char_at buf i.
Proof.
  assert (Hins : forall j (buf : list Z), char_at (<[j := 0]> buf) i = if decide (i = j) then 0 else char_at buf i).
  { intros j buf. unfold char_at. case_decide as E; [|by rewrite list_lookup_insert_ne by done]. subst j. destruct (decide (i < length buf)%nat); [by rewrite list_lookup_insert_eq|].
    by rewrite lookup_ge_None_2 by (rewrite length_insert; lia). }
  assert (Happ : forall l1 l2 : list (nat * nat), (i ∈ snd <$> l1 ++ l2) <-> (i ∈ snd <$> l1) \/ (i ∈ snd <$> l2)) by (intros; rewrite fmap_app, elem_of_app; done).
  induction c as [argv|c IH q eq mode fd|l IHl r IHr|l IHl r IHr|c IH]; intros buf; cbn [nulterminate words]; auto.
  - revert buf. induction argv as [|a argv IH]; intros buf; [done|]. cbn [foldl]. rewrite IH, Hins, fmap_cons. repeat case_decide; set_solver.
  - rewrite Hins, IH. repeat case_decide; try done; rewrite Happ in *; set_solver.
  - rewrite IHr, IHl. repeat case_decide; try done; rewrite Happ in *; set_solver.
  - rewrite IHr, IHl. repeat case_decide; try done; rewrite Happ in *; set_solver.
Qed.

Lemma words_ok buf c : cmd_ok buf c -> Forall (is_word buf) (words c).
Proof.
  induction c as [argv|c IH q eq mode fd|l IHl r IHr|l IHl r IHr|c IH]; cbn [cmd_ok words]; auto.
  - by intros [_ ?].
  - intros [Hc [Hw _]]. apply Forall_app. split; [auto|]. by constructor.
  - intros [? ?]. apply Forall_app. auto.
  - intros [? ?]. apply Forall_app. auto.
Qed.

Lemma cstr_spec buf q eq : (q <= eq)%nat -> (forall i, (q <= i < eq)%nat -> char_at buf i <> 0) -> char_at buf eq = 0 -> cstr buf q = slice buf (q, eq).
Proof.
  intros Hq Hn Hz. unfold cstr, slice. cbn [fst snd]. f_equal. assert (E : forall n l, (forall i, (i < n)%nat -> char_at l i <> 0) -> char_at l n = 0 -> strlen l = n).
  { induction n as [|n IH]; intros l H1 H2; destruct l as [|c l]; cbn in *; try done.
    - unfold char_at in H2. cbn in H2. by rewrite H2.
    - by destruct (H1 0%nat ltac:(lia)).
    - pose proof (H1 0%nat ltac:(lia)) as Hc. unfold char_at in Hc. cbn in Hc. rewrite (proj2 (Z.eqb_neq c 0) Hc). f_equal. apply IH; [|done]. intros i Hi. apply (H1 (S i)). lia. }
  assert (Hd : forall i, char_at (drop q buf) i = char_at buf (q + i)) by (intros i; unfold char_at; by rewrite lookup_drop). apply E.
  - intros i Hi. rewrite Hd. apply Hn. lia.
  - rewrite Hd. by replace (q + (eq - q))%nat with eq by lia.
Qed.

(** After nulterminate every word is a string of its own. *)
Lemma nulterminate_words buf c w : cmd_ok buf c -> w ∈ words c -> cstr (nulterminate c buf) (fst w) = slice buf w.
Proof.
  intros Hc Hw. pose proof (words_ok _ _ Hc) as Hall. rewrite Forall_forall in Hall. destruct w as [q eq]. pose proof (Hall _ Hw) as (Hqe & Hin & _). cbn [fst snd] in *.
  assert (Hkeep : forall i, (q <= i < eq)%nat -> char_at (nulterminate c buf) i = char_at buf i).
  { intros i Hi. rewrite nulterminate_char, decide_False; [done|]. intros ([q' eq'] & -> & Hw')%list_elem_of_fmap. destruct (Hall _ Hw') as (_ & _ & Hend). cbn [snd] in *.
    pose proof (strlen_char buf eq' ltac:(lia)). rewrite (Hin _ Hi) in Hend. by destruct Hend. }
  rewrite (cstr_spec _ q eq); [|lia| |].
  - unfold slice. cbn [fst snd]. apply list_eq. intros i. destruct (decide (i < eq - q)%nat) as [Hi|Hi]; [|by rewrite !lookup_ge_None_2 by (rewrite length_take; lia)]. rewrite !lookup_take_lt, !lookup_drop by done.
    specialize (Hkeep (q + i)%nat ltac:(lia)). unfold char_at in Hkeep. pose proof (strlen_le buf). destruct (lookup_lt_is_Some_2 buf (q + i)) as [a Ha]; [lia|].
    destruct (lookup_lt_is_Some_2 (nulterminate c buf) (q + i)) as [b Hb]; [rewrite length_nulterminate; lia|]. rewrite Ha, Hb in *. cbn in Hkeep. by rewrite Hkeep.
  - intros i Hi. rewrite Hkeep by done. apply strlen_char. lia.
  - rewrite nulterminate_char, decide_True; [done|]. apply list_elem_of_fmap. by exists (q, eq).
Qed.

Lemma parsecmd_run buf : match parsecmd buf with Ok (c, buf') => cmd_ok buf c /\ buf' = nulterminate c buf | Panic e => e <> out_of_fuel end.
Proof.
  unfold parsecmd. pose proof (strlen_le buf) as Hle. destruct (parse_safe buf (4 * length buf + 4) 0 ltac:(lia)) as (H & _). specialize (H ltac:(lia)). unfold safe in H.
  destruct (parseline _ _ _ _) as [[c ps]|e]; [|done]. destruct H as [_ Hc]. by destruct (_ =? _)%nat.
Qed.

(** (C31) The shell's parser ends on every line: it returns a command or stops
    with a syntax message; its recursion on blocks, pipes and lists is bounded
    by four calls per byte of the line. *)
Theorem parsecmd_terminates buf : parsecmd buf <> Panic out_of_fuel.
Proof. intros E. pose proof (parsecmd_run buf) as H. by rewrite E in H. Qed.

(** (C30) The command that the parser returns is well formed.  An execcmd holds
    fewer than MAXARGS words, every word and file name is a longest run of
    characters that are neither blanks nor symbols, a redirection has the mode
    and descriptor of its symbol; and in the line as nulterminate leaves it
    each of the pointers is the start of exactly that string. *)
Theorem parsecmd_ok buf c buf' :
  parsecmd buf = Ok (c, buf') ->
  cmd_ok buf c /\ length buf' = length buf /\ forall w, w ∈ words c -> cstr buf' (fst w) = slice buf w /\ slice buf w <> [].
Proof.
  intros E. pose proof (parsecmd_run buf) as H. rewrite E in H. destruct H as [Hc ->]. split; [done|]. split; [apply length_nulterminate|]. intros w Hw. split; [by apply nulterminate_words|].
  pose proof (words_ok _ _ Hc) as Hall. rewrite Forall_forall in Hall. destruct (Hall _ Hw) as (Hr & _). pose proof (strlen_le buf). intros E0. apply (f_equal length) in E0. unfold slice in E0.
  rewrite length_take, length_drop in E0. cbn in E0. lia.
Qed.

(** "a|b>c" *)
Lemma parsecmd_ok_witness : exists c buf', parsecmd [97; 124; 98; 62; 99; 10] = Ok (c, buf') /\ cmd_ok [97; 124; 98; 62; 99; 10] c /\ cstr buf' 4 = [99].
Proof.
  assert (E : parsecmd [97; 124; 98; 62; 99; 10] = Ok (PIPE (EXEC [(0, 1)]%nat) (REDIR (EXEC [(2, 3)]%nat) 4 5 1537 1), [97; 0; 98; 0; 99; 0])) by (vm_compute; reflexivity).
  destruct (parsecmd_ok _ _ _ E) as (Hc & _ & Hw). eexists _, _. split; [exact E|]. split; [exact Hc|]. apply (Hw (4, 5)%nat). right. right. left.
Defined.
