(* ===== verification/ShPrint.v ===== *)
(** The language of the shell: every command can be written down, and the
    parser of user/sh.c reads what was written. *)

From S2P Require Import Prelude Riscv Ulib Sh.

(** ** Commands and how they are written *)

(** A command with its strings. *)
Inductive sh :=
  | SExec (argv : list (list Z))
  | SRedir (t : sh) (file : list Z) (mode fd : Z)
  | SPipe (left right : sh)
  | SList (left right : sh)
  | SBack (t : sh).

(** The command that a parsed command stands for, its strings read by [str]. *)
Fixpoint tree_of (str : nat * nat -> list Z) (c : cmd) : sh :=
  match c with
  | EXEC argv => SExec (str <$> argv)
  | REDIR c q eq mode fd => SRedir (tree_of str c) (str (q, eq)) mode fd
  | PIPE l r => SPipe (tree_of str l) (tree_of str r)
  | LIST l r => SList (tree_of str l) (tree_of str r)
  | BACK c => SBack (tree_of str c)
  end.

Definition pword (w : list Z) : list Z := w ++ [32].
Definition psym (c : Z) : list Z := [c; 32].
Definition parens (s : list Z) : list Z := psym 40 ++ s ++ psym 41.

(** < file, > file or >> file *)
Definition predir (f : list Z) (mode : Z) : list Z :=
  (if mode =? 0 then psym 60 else if mode =? 513 then [62; 62; 32] else psym 62) ++ pword f.

(** Where a command stands: a line, before '&' or ';', before '|', before a
    redirection. *)
Fixpoint print (lvl : nat) (t : sh) : list Z :=
  match t with
  | SExec argv => concat (pword <$> argv)
  | SRedir t f mode fd => print 3 t ++ predir f mode
  | SPipe l r => let s := print 3 l ++ psym 124 ++ print 2 r in if (lvl <=? 2)%nat then s else parens s
  | SBack t => let s := print 1 t ++ psym 38 in if (lvl <=? 1)%nat then s else parens s
  | SList l r => let s := print 1 l ++ psym 59 ++ print 0 r in if (lvl <=? 0)%nat then s else parens s
  end.

Definition sword (w : list Z) : Prop := w <> [] /\ Forall (fun c => c <> 0 /\ word_char c = true) w.

Fixpoint sh_ok (t : sh) : Prop :=
  match t with
  | SExec argv => (length argv < MAXARGS)%nat /\ Forall sword argv
  | SRedir t f mode fd => sh_ok t /\ sword f /\ (mode, fd) ∈ [(0, 0); (1537, 1); (513, 1)]
  | SPipe l r | SList l r => sh_ok l /\ sh_ok r
  | SBack t => sh_ok t
  end.

(** ** Tokens of a written command *)

(** What follows a token that was written. *)
Definition starts (l : list Z) : Prop := is_in whitespace (hd0 l) = false.

Section tokens.
Variable buf : list Z.
Hypothesis Hbuf : Forall (fun c => c <> 0) buf.

Lemma strlen_nul_free : strlen buf = length buf.
Proof. induction Hbuf as [|c l Hc Hl IH]; [done|]. cbn. rewrite (proj2 (Z.eqb_neq c 0) Hc). f_equal. by apply IH. Qed.

#[local] Abbreviation es := (strlen buf).

Lemma char_at_drop ps l i : drop ps buf = l -> char_at buf (ps + i) = char_at l i.
Proof. intros <-. unfold char_at. by rewrite lookup_drop. Qed.

Lemma char_at_hd ps l : drop ps buf = l -> char_at buf ps = hd0 l.
Proof. intros E. rewrite <- (Nat.add_0_r ps), (char_at_drop _ _ _ E). by destruct l. Qed.

Lemma drop_more ps l1 l2 : drop ps buf = l1 ++ l2 -> drop (ps + length l1) buf = l2.
Proof. intros E. rewrite <- drop_drop, E. by rewrite drop_app_length. Qed.

Lemma left_over ps l : drop ps buf = l -> (es - ps = length l)%nat.
Proof. intros <-. rewrite length_drop, strlen_nul_free. lia. Qed.

Lemma skip_stop p ps l : drop ps buf = l -> p (hd0 l) = false -> skip_to buf p es ps = ps.
Proof. intros E Hp. unfold skip_to. destruct (es - ps)%nat; [done|]. cbn. by rewrite (char_at_hd _ _ E), Hp. Qed.

Lemma skip_word p ps w l : drop ps buf = w ++ l -> Forall (fun c => p c = true) w -> p (hd0 l) = false -> skip_to buf p es ps = (ps + length w)%nat.
Proof.
  revert ps. induction w as [|c w IH]; intros ps E Hw Hl; [cbn; rewrite Nat.add_0_r; by apply (skip_stop _ _ l)|]. apply Forall_cons in Hw as [Hc Hw].
  pose proof (left_over _ _ E) as Hlen. cbn [length app] in Hlen. unfold skip_to. destruct (es - ps)%nat as [|k] eqn:Ek; [lia|]. cbn. rewrite (char_at_hd _ _ E). cbn [hd0 app]. rewrite Hc.
  specialize (IH (S ps)). unfold skip_to in IH. replace (es - S ps)%nat with k in IH by lia. rewrite IH; [lia| |done|done]. replace (S ps) with (ps + length [c])%nat by (cbn; lia). by apply drop_more.
Qed.

(** One space after a token. *)
Lemma skip_space ps l : drop ps buf = 32 :: l -> starts l -> skip_to buf (is_in whitespace) es ps = S ps.
Proof. intros E Hl. rewrite (skip_word _ ps [32] l); [cbn; lia|done|by repeat constructor|done]. Qed.

Lemma peek_at toks ps l : drop ps buf = l -> starts l -> peek buf es toks ps = Ok (negb (hd0 l =? 0) && is_in toks (hd0 l), ps).
Proof. intros E Hl. unfold peek. rewrite (skip_stop _ _ l E Hl), (char_at_hd _ _ E). done. Qed.

Lemma gettoken_sym c ps l : drop ps buf = psym c ++ l -> starts l -> is_in [124; 40; 41; 59; 38; 60; 62] c = true ->
  gettoken buf es ps = Ok ((TSym c, ps, S ps), (ps + 2)%nat).
Proof.
  intros E Hl Hc. apply is_in_spec in Hc; [|by repeat constructor]. assert (Hws : is_in whitespace c = false /\ c <> 0) by (rewrite !elem_of_cons in Hc; destruct Hc as [->|[->|[->|[->|[->|[->|[->|[]%elem_of_nil]]]]]]]; done). destruct Hws as [Hws H0].
  unfold gettoken. rewrite (skip_stop _ _ _ E Hws), (char_at_hd _ _ E). cbn [psym app hd0]. rewrite (proj2 (Z.eqb_neq c 0) H0).
  assert (E1 : drop (S ps) buf = 32 :: l) by (replace (S ps) with (ps + length [c])%nat by (cbn; lia); by apply drop_more).
  assert (E2 : skip_to buf (is_in whitespace) es (S ps) = (ps + 2)%nat) by (rewrite (skip_space _ _ E1 Hl); lia).
  destruct (is_in [124; 40; 41; 59; 38; 60] c) eqn:Esym; [by rewrite E2|]. assert (c = 62) as ->.
  { destruct (decide (c = 62)); [done|]. apply not_true_iff_false in Esym. destruct Esym. apply is_in_spec; [by repeat constructor|]. set_solver. }
  rewrite (char_at_hd _ _ E1). cbn. by rewrite E2.
Qed.

Lemma gettoken_append ps l : drop ps buf = [62; 62; 32] ++ l -> starts l -> gettoken buf es ps = Ok ((TAppend, ps, S (S ps)), (ps + 3)%nat).
Proof.
  intros E Hl. unfold gettoken. rewrite (skip_stop _ _ _ E), (char_at_hd _ _ E) by done. cbn [app hd0]. assert (E1 : drop (S ps) buf = [62; 32] ++ l) by (replace (S ps) with (ps + length [62]%Z)%nat by (cbn; lia); by apply drop_more).
  assert (E2 : drop (S (S ps)) buf = 32 :: l) by (replace (S (S ps)) with (ps + length [62; 62]%Z)%nat by (cbn; lia); by apply drop_more).
  rewrite (char_at_hd _ _ E1). cbn. rewrite (skip_space _ _ E2 Hl). do 2 f_equal. lia.
Qed.

Lemma sword_starts w l : sword w -> starts (pword w ++ l).
Proof. intros [Hn Hw]. destruct w as [|c w]; [done|]. apply Forall_cons in Hw as [[_ Hc] _]. unfold starts. cbn. unfold word_char in Hc. apply andb_true_iff in Hc as [Hc _]. by apply negb_true_iff in Hc. Qed.

Lemma gettoken_word w ps l : drop ps buf = pword w ++ l -> sword w -> starts l ->
  gettoken buf es ps = Ok ((TWord, ps, (ps + length w)%nat), (ps + length (pword w))%nat) /\ slice buf (ps, (ps + length w)%nat) = w.
Proof.
  intros E Hw Hl. pose proof (sword_starts w l Hw) as Hst. destruct Hw as [Hn Hw]. split.
  - unfold gettoken. rewrite (skip_stop _ _ _ E Hst), (char_at_hd _ _ E). destruct w as [|c w']; [done|]. set (w := c :: w') in *. change (hd0 (pword w ++ l)) with c.
    pose proof Hw as Hc. apply Forall_cons in Hc as [[H0 Hc] _]. rewrite (proj2 (Z.eqb_neq c 0) H0). unfold word_char in Hc. apply andb_true_iff in Hc as [_ Hc]. apply negb_true_iff in Hc.
    assert (Hsym : is_in [124; 40; 41; 59; 38; 60] c = false /\ c <> 62).
    { split; [|intros ->; done]. apply not_true_iff_false. intros Hs. apply not_true_iff_false in Hc. apply Hc. apply is_in_spec; [by repeat constructor|]. apply is_in_spec in Hs; [|by repeat constructor]. unfold symbols. set_solver. }
    destruct Hsym as [-> Hgt]. rewrite (proj2 (Z.eqb_neq c 62) Hgt). unfold pword in E. rewrite <- app_assoc in E. fold word_char.
    rewrite (skip_word word_char ps w ([32] ++ l) E); [|eapply Forall_impl; [exact Hw|]; cbn; tauto|done]. rewrite (skip_space _ l); [|by apply drop_more|done]. unfold pword. rewrite length_app. cbn. do 2 f_equal. lia.
  - unfold slice. cbn [fst snd]. replace (ps + length w - ps)%nat with (length w) by lia. rewrite E. unfold pword. rewrite <- app_assoc. by rewrite take_app_length.
Qed.


(** ** Parsing a written command *)

Definition rview (r : redir) : list Z * Z * Z := let '(q, eq, mode, fd) := r in (slice buf (q, eq), mode, fd).
Definition rok (x : list Z * Z * Z) : Prop := let '(f, mode, fd) := x in sword f /\ (mode, fd) ∈ [(0, 0); (1537, 1); (513, 1)].
Definition predirs (rs : list (list Z * Z * Z)) : list Z := concat ((fun x => predir x.1.1 x.1.2) <$> rs).
Definition swrap (t : sh) (rs : list (list Z * Z * Z)) : sh := foldl (fun t x => SRedir t x.1.1 x.1.2 x.2) t rs.

Lemma predirs_cons f mode fd rs : predirs ((f, mode, fd) :: rs) = predir f mode ++ predirs rs.
Proof. done. Qed.

Lemma predir_starts f mode l : starts (predir f mode ++ l) /\ (hd0 (predir f mode ++ l) = 60 \/ hd0 (predir f mode ++ l) = 62).
Proof. unfold predir. destruct (mode =? 0); [by split; [|left]|]. destruct (mode =? 513); by split; [|right]. Qed.

Lemma predirs_starts rs l : starts l -> starts (predirs rs ++ l).
Proof. destruct rs as [|[[f mode] fd] rs]; [done|]. intros _. rewrite predirs_cons, <- app_assoc. apply predir_starts. Qed.

Lemma parseredirs_at rs rest : Forall rok rs -> starts rest -> is_in [60; 62] (hd0 rest) = false -> forall k ps,
  drop ps buf = predirs rs ++ rest -> (length (predirs rs ++ rest) < k)%nat ->
  exists rs', parseredirs k buf es ps = Ok (rs', (ps + length (predirs rs))%nat) /\ rview <$> rs' = rs.
Proof.
  intros Hrs Hst Hno. induction rs as [|[[f mode] fd] rs IH]; intros k ps E Hk; (destruct k as [|k]; [lia|]); cbn [parseredirs].
  - exists []. rewrite (bind_Ok _ _ _ _ _ (peek_at _ _ _ E Hst)). cbn [app predirs concat fmap list_fmap]. rewrite Hno, andb_false_r. split; [|done]. rewrite ret_run. do 2 f_equal. cbn. lia.
  - apply Forall_cons in Hrs as [[Hf Hm] Hrs]. rewrite predirs_cons, <- app_assoc in E, Hk. destruct (predir_starts f mode (predirs rs ++ rest)) as [Hs Hd].
    rewrite (bind_Ok _ _ _ _ _ (peek_at _ _ _ E Hs)). replace (negb _ && _) with true by (by destruct Hd as [-> | ->]).
    pose proof (predirs_starts rs rest Hst) as Hs'. assert (Et : exists t s e, gettoken buf es ps = Ok ((t, s, e), (ps + length (predir f mode) - length (pword f))%nat) /\
      forall (q eq : nat) (l : list redir), (match t with TSym 60 => (q, eq, open_bit O_RDONLY, 0) :: l | TSym 62 => (q, eq, Z.lor (Z.lor O_WRONLY O_CREATE) O_TRUNC, 1) :: l | TAppend => (q, eq, Z.lor O_WRONLY O_CREATE, 1) :: l | _ => l end) = (q, eq, mode, fd) :: l).
    { unfold predir in E |- *. rewrite !elem_of_cons in Hm. destruct Hm as [[= -> ->]|[[= -> ->]|[[= -> ->]|[]%elem_of_nil]]]; cbn [Z.eqb Pos.eqb] in *; rewrite <- app_assoc in E; pose proof (sword_starts f (predirs rs ++ rest) Hf) as Hsf.
      - eexists _, _, _. split; [rewrite (gettoken_sym 60 ps _ E Hsf) by done; do 2 f_equal; rewrite length_app; cbn; lia|done].
      - eexists _, _, _. split; [rewrite (gettoken_sym 62 ps _ E Hsf) by done; do 2 f_equal; rewrite length_app; cbn; lia|done].
      - eexists _, _, _. split; [rewrite (gettoken_append ps _ E Hsf) by done; do 2 f_equal; rewrite length_app; cbn; lia|done]. }
    destruct Et as (t & s & e & E1 & Hmode). rewrite (bind_Ok _ _ _ _ _ E1). set (p1 := (ps + length (predir f mode) - length (pword f))%nat) in *.
    assert (Ed : drop p1 buf = pword f ++ predirs rs ++ rest).
    { unfold p1, predir in *. set (sy := if mode =? 0 then _ else _) in *. rewrite <- app_assoc in E. rewrite length_app. replace (ps + _ - _)%nat with (ps + length sy)%nat by lia. by apply drop_more. }
    destruct (gettoken_word f p1 _ Ed Hf Hs') as [E2 Hsl]. rewrite (bind_Ok _ _ _ _ _ E2). assert (Elen : (length (pword f) <= length (predir f mode))%nat) by (unfold predir; rewrite length_app; lia).
    destruct (IH Hrs k (p1 + length (pword f))%nat) as (rs' & E3 & Hv); [by apply drop_more|rewrite length_app in Hk; destruct Hf; unfold predir, psym in Hk; rewrite length_app in Hk; repeat case_match; cbn in Hk; lia|].
    rewrite (bind_Ok _ _ _ _ _ E3). cbn [fst]. eexists. split.
    + rewrite ret_run. rewrite Hmode. do 2 f_equal. rewrite predirs_cons, length_app. unfold p1. lia.
    + rewrite fmap_cons. cbn [rview]. by rewrite Hsl, Hv.
Qed.

Definition pargs (ws : list (list Z)) : list Z := concat (pword <$> ws).
Definition follow (toks : list Z) (rest : list Z) : Prop := starts rest /\ (rest = [] \/ is_in toks (hd0 rest) = true).

Lemma pargs_starts ws l : Forall sword ws -> starts l -> starts (pargs ws ++ l).
Proof. destruct ws as [|w ws]; [done|]. intros [Hw _]%Forall_cons _. unfold pargs. cbn. rewrite <- app_assoc. by apply sword_starts. Qed.

(** A word character is not a symbol. *)
Lemma word_not toks w l : sword w -> Forall (fun x => x <> 0) toks -> toks ⊆ symbols -> is_in toks (hd0 (pword w ++ l)) = false /\ hd0 (pword w ++ l) <> 0.
Proof.
  intros [Hn Hw] Ht Hs. destruct w as [|c w]; [done|]. apply Forall_cons in Hw as [[H0 Hc] _]. cbn. split; [|done]. apply not_true_iff_false. intros Hi%is_in_spec; [|done].
  unfold word_char in Hc. apply andb_true_iff in Hc as [_ Hc%negb_true_iff]. apply not_true_iff_false in Hc. apply Hc, is_in_spec; [by repeat constructor|]. by apply Hs.
Qed.


Lemma parseargs_at ws rs rest : Forall sword ws -> Forall rok rs -> follow [124; 41; 38; 59] rest -> forall k argc ps,
  drop ps buf = pargs ws ++ (if ws is [] then [] else predirs rs) ++ rest -> (length (pargs ws ++ predirs rs ++ rest) < k)%nat -> (argc + length ws < MAXARGS)%nat ->
  exists a rs', parseargs k buf es argc ps = Ok ((a, rs'), (ps + length (pargs ws) + length (if ws is [] then [] else predirs rs))%nat) /\ slice buf <$> a = ws /\ rview <$> rs' = (if ws is [] then [] else rs).
Proof.
  intros Hws Hrs [Hst Hfo]. assert (Hno : is_in [60; 62] (hd0 rest) = false).
  { destruct Hfo as [->|Hfo]; [done|]. apply is_in_spec in Hfo; [|by repeat constructor]. apply not_true_iff_false. intros H%is_in_spec; [|by repeat constructor]. rewrite !elem_of_cons, elem_of_nil in H; rewrite !elem_of_cons, elem_of_nil in Hfo; lia. }
  induction ws as [|w ws IH]; intros k argc ps E Hk Ha; (destruct k as [|k]; [lia|]); cbn [parseargs].
  - exists [], []. cbn [app pargs concat fmap list_fmap] in E. rewrite (bind_Ok _ _ _ _ _ (peek_at _ _ _ E Hst)). split; [|done]. destruct Hfo as [->|Hfo].
    + cbn [hd0 Z.eqb negb andb]. assert (Et : gettoken buf es ps = Ok ((TEnd, ps, ps), ps)) by (unfold gettoken; rewrite (skip_stop _ _ _ E Hst), (char_at_hd _ _ E); cbn; by rewrite (skip_stop _ _ _ E Hst)).
      rewrite (bind_Ok _ _ _ _ _ Et), ret_run. do 2 f_equal. cbn. lia.
    + destruct (Z.eqb_spec (hd0 rest) 0) as [E0|_]; [by rewrite E0, is_in_zero in Hfo|]. rewrite Hfo. cbn [negb andb]. rewrite ret_run. do 2 f_equal. cbn. lia.
  - apply Forall_cons in Hws as [Hw Hws]. unfold pargs in E, Hk |- *. cbn [fmap list_fmap concat] in E, Hk |- *. fold (pargs ws) in E, Hk |- *. rewrite <- app_assoc in E, Hk.
    rewrite (bind_Ok _ _ _ _ _ (peek_at _ _ _ E (sword_starts _ _ Hw))). destruct (word_not [124; 41; 38; 59] w (pargs ws ++ predirs rs ++ rest) Hw) as [-> _]; [by repeat constructor|unfold symbols; set_solver|]. rewrite andb_false_r.
    assert (Hnext : starts (pargs ws ++ predirs rs ++ rest)) by (by apply pargs_starts, predirs_starts).
    destruct (gettoken_word w ps _ E Hw Hnext) as [E1 Hsl]. rewrite (bind_Ok _ _ _ _ _ E1). cbn [length] in Ha. destruct (Nat.leb_spec MAXARGS (S argc)); [lia|].
    set (p1 := (ps + length (pword w))%nat) in *. assert (Ed : drop p1 buf = pargs ws ++ predirs rs ++ rest) by (by apply drop_more).
    assert (Hlen : (length (pargs ws ++ predirs rs ++ rest) < S (length buf))%nat) by (rewrite <- Ed, length_drop; lia).
    assert (Hk' : (length (pargs ws ++ predirs rs ++ rest) < k)%nat) by (rewrite length_app in Hk; unfold pword in Hk; rewrite length_app in Hk; cbn in Hk; lia).
    destruct ws as [|w' ws].
    + destruct (parseredirs_at rs rest Hrs Hst Hno (S (length buf)) p1 Ed Hlen) as (rs' & E2 & Hv). rewrite (bind_Ok _ _ _ _ _ E2).
      destruct (IH ltac:(done) k (S argc) (p1 + length (predirs rs))%nat) as (a & rs2 & E3 & Hv3 & Hv4); [cbn [pargs concat fmap list_fmap app]; by apply drop_more|done|cbn; lia|].
      rewrite (bind_Ok _ _ _ _ _ E3). cbn [fst snd]. apply fmap_nil_inv in Hv3 as ->. apply fmap_nil_inv in Hv4 as ->. exists [(ps, (ps + length w)%nat)], (rs' ++ []). split_and!.
      * rewrite ret_run. do 2 f_equal. unfold p1. cbn. rewrite ?length_app. cbn. lia.
      * cbn [fmap list_fmap]. by rewrite Hsl.
      * by rewrite app_nil_r.
    + destruct (parseredirs_at [] (pargs (w' :: ws) ++ predirs rs ++ rest)) with (k := S (length buf)) (ps := p1) as (rs' & E2 & Hv); [done|done| |done|done|].
      { unfold pargs. cbn [fmap list_fmap concat]. rewrite <- app_assoc. apply Forall_cons in Hws as [Hw' _]. apply word_not; [done|by repeat constructor|unfold symbols; set_solver]. }
      apply fmap_nil_inv in Hv as ->. rewrite (bind_Ok _ _ _ _ _ E2). change (length (predirs [])) with 0%nat. rewrite Nat.add_0_r.
      destruct (IH Hws k (S argc) p1 Ed Hk' ltac:(lia)) as (a & rs2 & E3 & Hv3 & Hv4). rewrite (bind_Ok _ _ _ _ _ E3). cbn [fst snd].
      exists ((ps, (ps + length w)%nat) :: a), ([] ++ rs2). split_and!; [|by rewrite fmap_cons, Hsl, Hv3|done].
      rewrite ret_run. do 2 f_equal. unfold p1. rewrite length_app. lia.
Qed.


Abbreviation tv := (tree_of (slice buf)).

Lemma tree_wrap rs : forall c, tv (foldl redircmd c rs) = swrap (tv c) (rview <$> rs).
Proof. induction rs as [|[[[q eq] mode] fd] rs IH]; intros c; [done|]. cbn [foldl]. by rewrite IH. Qed.

Lemma print_starts t : forall lvl rest, sh_ok t -> starts rest -> starts (print lvl t ++ rest).
Proof.
  induction t as [argv|t IH f mode fd|l IHl r IHr|l IHl r IHr|t IH]; intros lvl rest Hok Hst; cbn [print sh_ok] in *.
  - apply pargs_starts; [apply Hok|done].
  - rewrite <- app_assoc. apply IH; [apply Hok|]. apply predir_starts.
  - destruct (lvl <=? 2)%nat; [|done]. rewrite <- app_assoc. apply IHl; [apply Hok|done].
  - destruct (lvl <=? 0)%nat; [|done]. rewrite <- app_assoc. apply IHl; [apply Hok|done].
  - destruct (lvl <=? 1)%nat; [|done]. rewrite <- app_assoc. apply IH; [apply Hok|done].
Qed.

Definition amps (n : nat) : list Z := concat (replicate n (psym 38)).

Lemma parseback_at n rest : starts rest -> is_in [38] (hd0 rest) = false -> forall k ps c,
  drop ps buf = amps n ++ rest -> (length (amps n ++ rest) < k)%nat -> parseback k buf es c ps = Ok (Nat.iter n BACK c, (ps + length (amps n))%nat).
Proof.
  intros Hst Hno. induction n as [|n IH]; intros k ps c E Hk; (destruct k as [|k]; [lia|]); cbn [parseback].
  - rewrite (bind_Ok _ _ _ _ _ (peek_at _ _ _ E Hst)). cbn [amps replicate concat app]. rewrite Hno, andb_false_r, ret_run. do 2 f_equal. cbn. lia.
  - unfold amps in E, Hk. cbn [replicate concat] in E, Hk. fold (amps n) in E, Hk. rewrite <- app_assoc in E, Hk. rewrite (bind_Ok _ _ _ _ _ (peek_at [38] _ _ E eq_refl)). change (negb _ && _) with true. cbv iota.
    assert (Hs : starts (amps n ++ rest)) by (by destruct n). rewrite (bind_Ok _ _ _ _ _ (gettoken_sym 38 ps _ E Hs eq_refl)).
    rewrite IH; [|by apply (drop_more _ (psym 38))|rewrite length_app in Hk; cbn in Hk; lia]. rewrite Nat.iter_succ_r. do 2 f_equal. unfold amps. cbn [replicate concat]. rewrite length_app. cbn. lia.
Qed.

(** What the parser makes of the text of [t] at each level. *)
Definition exec_at (t : sh) : Prop := forall rs rest k ps, Forall rok rs -> follow [124; 41; 38; 59] rest -> drop ps buf = print 3 t ++ predirs rs ++ rest -> (4 * (es - ps) + 2 <= k)%nat ->
  exists c, parseexec k buf es ps = Ok (c, (ps + length (print 3 t ++ predirs rs))%nat) /\ tv c = swrap t rs.
Definition pipe_at (t : sh) : Prop := forall rest k ps, follow [41; 38; 59] rest -> drop ps buf = print 2 t ++ rest -> (4 * (es - ps) + 3 <= k)%nat ->
  exists c, parsepipe k buf es ps = Ok (c, (ps + length (print 2 t))%nat) /\ tv c = t.
Definition back_at (t : sh) : Prop := forall n rest k ps, follow [41; 59] rest -> drop ps buf = print 1 t ++ amps n ++ rest -> (4 * (es - ps) + 3 <= k)%nat ->
  exists c, (c ← parsepipe k buf es; parseback (S (length buf)) buf es c) ps = Ok (c, (ps + length (print 1 t ++ amps n))%nat) /\ tv c = Nat.iter n SBack t.
Definition line_at (t : sh) : Prop := forall rest k ps, follow [41] rest -> drop ps buf = print 0 t ++ rest -> (4 * (es - ps) + 4 <= k)%nat ->
  exists c, parseline k buf es ps = Ok (c, (ps + length (print 0 t))%nat) /\ tv c = t.

Lemma follow_weaken toks toks' rest : Forall (fun x => x <> 0) toks -> Forall (fun x => x <> 0) toks' -> toks ⊆ toks' -> follow toks rest -> follow toks' rest.
Proof. intros H1 H2 Hs [Hst [->|Hf]]; (split; [done|]); [by left|right]. apply is_in_spec; [done|]. apply Hs. by apply is_in_spec. Qed.

Lemma follow_not c toks rest : Forall (fun x => x <> 0) toks -> c ∉ toks -> c <> 0 -> follow toks rest -> is_in [c] (hd0 rest) = false.
Proof.
  intros Ht Hc H0 [_ [->|Hf]]; [apply is_in_zero|]. apply is_in_spec in Hf; [|done]. apply not_true_iff_false. intros Hi%is_in_spec; [|by repeat constructor]. apply list_elem_of_singleton in Hi. congruence.
Qed.

Lemma left_drop ps l1 l2 : drop ps buf = l1 ++ l2 -> (es - (ps + length l1) = length l2 /\ es - ps = length l1 + length l2)%nat.
Proof. intros E. rewrite (left_over _ _ (drop_more _ _ _ E)), (left_over _ _ E), length_app. done. Qed.

Lemma pipe_of_exec t : exec_at t -> print 2 t = print 3 t -> pipe_at t.
Proof.
  intros He Ep rest k ps Hf E Hk. destruct k as [|k]; [lia|]. rewrite Ep in *. destruct (He [] rest k ps) as (c & E1 & Hv); [done|by eapply follow_weaken; [..|exact Hf]; [by repeat constructor|by repeat constructor|set_solver]|done|lia|].
  change (predirs []) with (@nil Z) in E1. rewrite app_nil_r in E1. exists c. split; [|done]. cbn [parsepipe]. rewrite (bind_Ok _ _ _ _ _ E1).
  rewrite (bind_Ok _ _ _ _ _ (peek_at [124] _ _ (drop_more _ _ _ E) (proj1 Hf))). by rewrite (follow_not 124 [41; 38; 59]), andb_false_r by (done || set_solver || by repeat constructor).
Qed.

Lemma back_of_pipe t : pipe_at t -> print 1 t = print 2 t -> back_at t.
Proof.
  intros Hp Ep n rest k ps Hf E Hk. rewrite Ep in *. destruct (Hp (amps n ++ rest) k ps) as (c & E1 & Hv); [|done|lia|].
  { destruct n; [by eapply follow_weaken; [..|exact Hf]; [by repeat constructor|by repeat constructor|set_solver]|]. by split; [|right]. }
  rewrite (bind_Ok _ _ _ _ _ E1). pose proof (drop_more _ _ _ E) as Ed. assert (Hlen : (length (amps n ++ rest) < S (length buf))%nat) by (rewrite <- Ed, length_drop; lia).
  assert (Hno : is_in [38] (hd0 rest) = false) by (apply (follow_not 38 [41; 59]); [by repeat constructor|set_solver|done|done]).
  rewrite (parseback_at n rest (proj1 Hf) Hno _ _ _ Ed Hlen).
  eexists. split; [rewrite length_app, Nat.add_assoc; done|]. clear -Hv. induction n as [|n IH]; [done|]. rewrite !Nat.iter_succ. cbn [tree_of]. by rewrite IH.
Qed.

Lemma line_of_back t : back_at t -> print 0 t = print 1 t -> line_at t.
Proof.
  intros Hb Ep rest k ps Hf E Hk. destruct k as [|k]; [lia|]. rewrite Ep in *. destruct (Hb 0%nat rest k ps) as (c & E1 & Hv); [by eapply follow_weaken; [..|exact Hf]; [by repeat constructor|by repeat constructor|set_solver]|done|lia|].
  change (amps 0) with (@nil Z) in E1. rewrite app_nil_r in E1. exists c. split; [|done]. cbn [parseline].
  apply bind_inv in E1 as (c1 & p1 & E1 & E2). rewrite (bind_Ok _ _ _ _ _ E1), (bind_Ok _ _ _ _ _ E2).
  rewrite (bind_Ok _ _ _ _ _ (peek_at [59] _ _ (drop_more _ _ _ E) (proj1 Hf))). by rewrite (follow_not 59 [41]), andb_false_r by (done || set_solver || by repeat constructor).
Qed.

Lemma exec_of_line t : sh_ok t -> line_at t -> print 3 t = parens (print 0 t) -> exec_at t.
Proof.
  intros Hok Hl Ep rs rest k ps Hrs Hf E Hk. destruct k as [|[|k]]; [lia|lia|]. rewrite Ep in *. unfold parens in E |- *. rewrite <- !app_assoc in E.
  assert (Hs2 : starts (psym 41 ++ predirs rs ++ rest)) by done. pose proof (print_starts t 0 _ Hok Hs2) as Hs1. pose proof (predirs_starts rs rest (proj1 Hf)) as Hs3.
  assert (Epk : peek buf es [40] ps = Ok (true, ps)) by (by rewrite (peek_at [40] ps _ E)).
  cbn [parseexec]. rewrite (bind_Ok _ _ _ _ _ Epk). cbn [parseblock]. rewrite (bind_Ok _ _ _ _ _ Epk). cbn [negb]. rewrite (bind_Ok _ _ _ _ _ (gettoken_sym 40 ps _ E Hs1 eq_refl)).
  pose proof (drop_more _ _ _ E) as E1. change (length (psym 40)) with 2%nat in E1. destruct (left_drop _ _ _ E) as [L1 L2]. change (length (psym 40)) with 2%nat in L1, L2.
  destruct (Hl (psym 41 ++ predirs rs ++ rest) k (ps + 2)%nat) as (c & Ec & Hv); [by split; [|right]|done|lia|]. rewrite (bind_Ok _ _ _ _ _ Ec).
  pose proof (drop_more _ _ _ E1) as E2. set (p2 := (ps + 2 + length (print 0 t))%nat) in *.
  assert (Epk2 : peek buf es [41] p2 = Ok (true, p2)) by (by rewrite (peek_at [41] p2 _ E2)). rewrite (bind_Ok _ _ _ _ _ Epk2). cbn [negb]. rewrite (bind_Ok _ _ _ _ _ (gettoken_sym 41 p2 _ E2 Hs3 eq_refl)).
  pose proof (drop_more _ _ _ E2) as E3. change (length (psym 41)) with 2%nat in E3.
  destruct (parseredirs_at rs rest Hrs (proj1 Hf)) with (k := S (length buf)) (ps := (p2 + 2)%nat) as (rs' & E4 & Hv4); [|done|rewrite <- E3, length_drop; lia|].
  { destruct Hf as [_ [->|Hf]]; [done|]. apply is_in_spec in Hf; [|by repeat constructor]. apply not_true_iff_false. intros H%is_in_spec; [|by repeat constructor]. rewrite !elem_of_cons, elem_of_nil in H; rewrite !elem_of_cons, elem_of_nil in Hf; lia. }
  rewrite (bind_Ok _ _ _ _ _ E4), ret_run. eexists. split; [do 2 f_equal; unfold p2; rewrite !length_app; cbn; lia|]. by rewrite tree_wrap, Hv, Hv4.
Qed.


Lemma exec_words argv : sh_ok (SExec argv) -> exec_at (SExec argv).
Proof.
  intros [Hl Hws] rs rest k ps Hrs Hf E Hk. destruct k as [|k]; [lia|]. cbn [print] in *. fold (pargs argv) in *.
  assert (Hno : is_in [60; 62] (hd0 rest) = false /\ is_in [40] (hd0 rest) = false).
  { destruct Hf as [_ [->|Hf]]; [done|]. apply is_in_spec in Hf; [|by repeat constructor]. rewrite !elem_of_cons, elem_of_nil in Hf.
    split; apply not_true_iff_false; (intros H%is_in_spec; [|by repeat constructor]); rewrite !elem_of_cons, elem_of_nil in H; lia. }
  assert (Hs : starts (pargs argv ++ predirs rs ++ rest)) by (apply pargs_starts, predirs_starts; [done|apply Hf]).
  assert (Hpk : is_in [40] (hd0 (pargs argv ++ predirs rs ++ rest)) = false).
  { destruct argv as [|w ws]; [|unfold pargs; cbn [fmap list_fmap concat]; rewrite <- app_assoc; apply Forall_cons in Hws as [Hw _]; apply word_not; [done|by repeat constructor|unfold symbols; set_solver]].
    destruct rs as [|[[f mode] fd] rs]; [apply Hno|]. cbn [pargs concat fmap list_fmap app]. rewrite predirs_cons, <- app_assoc. by destruct (predir_starts f mode (predirs rs ++ rest)) as [_ [-> | ->]]. }
  assert (Hlen : (length (pargs argv ++ predirs rs ++ rest) < S (length buf))%nat) by (rewrite <- E, length_drop; lia).
  cbn [parseexec]. rewrite (bind_Ok _ _ _ _ _ (peek_at [40] ps _ E Hs)), Hpk, andb_false_r. destruct argv as [|w ws].
  - cbn [pargs concat fmap list_fmap app] in *. destruct (parseredirs_at rs rest Hrs (proj1 Hf) (proj1 Hno) _ ps E Hlen) as (rs' & E1 & Hv). rewrite (bind_Ok _ _ _ _ _ E1).
    destruct (parseargs_at [] [] rest Hws ltac:(done) Hf (S (length buf)) 0 (ps + length (predirs rs))%nat) as (a & rs2 & E2 & Hv2 & Hv3); [by apply drop_more|cbn; rewrite length_app in Hlen; lia|done|].
    rewrite (bind_Ok _ _ _ _ _ E2), ret_run. cbn [fst snd]. apply fmap_nil_inv in Hv2 as ->. apply fmap_nil_inv in Hv3 as ->. eexists. split; [do 2 f_equal; cbn; lia|]. by rewrite app_nil_r, tree_wrap, Hv.
  - destruct (parseredirs_at [] (pargs (w :: ws) ++ predirs rs ++ rest)) with (k := S (length buf)) (ps := ps) as (rs' & E1 & Hv); [done|done| |done|done|].
    { unfold pargs. cbn [fmap list_fmap concat]. rewrite <- app_assoc. apply Forall_cons in Hws as [Hw _]. apply word_not; [done|by repeat constructor|unfold symbols; set_solver]. }
    apply fmap_nil_inv in Hv as ->. rewrite (bind_Ok _ _ _ _ _ E1). change (length (predirs [])) with 0%nat. rewrite Nat.add_0_r.
    destruct (parseargs_at (w :: ws) rs rest Hws Hrs Hf (S (length buf)) 0 ps E Hlen Hl) as (a & rs2 & E2 & Hv2 & Hv3). rewrite (bind_Ok _ _ _ _ _ E2), ret_run. cbn [fst snd app].
    eexists. split; [do 2 f_equal; rewrite length_app; lia|]. rewrite tree_wrap, Hv3. cbn [tree_of]. by rewrite Hv2.
Qed.

Lemma pipe_pipe l r : sh_ok l -> sh_ok r -> exec_at l -> pipe_at r -> pipe_at (SPipe l r).
Proof.
  intros Hokl Hokr Hl Hr rest k ps Hf E Hk. destruct k as [|k]; [lia|]. cbn [print Nat.leb] in *. rewrite <- !app_assoc in E. pose proof (print_starts r 2 rest Hokr (proj1 Hf)) as Hs.
  destruct (Hl [] (psym 124 ++ print 2 r ++ rest) k ps) as (c & E1 & Hv); [done|by split; [|right]|done|lia|]. change (predirs []) with (@nil Z) in E1. rewrite app_nil_r in E1.
  cbn [parsepipe]. rewrite (bind_Ok _ _ _ _ _ E1). pose proof (drop_more _ _ _ E) as E2. set (p1 := (ps + length (print 3 l))%nat) in *. rewrite (bind_Ok _ _ _ _ _ (peek_at [124] _ _ E2 eq_refl)). change (negb _ && _) with true. cbv iota.
  rewrite (bind_Ok _ _ _ _ _ (gettoken_sym 124 p1 _ E2 Hs eq_refl)). destruct (left_drop _ _ _ E) as [L1 L2]. rewrite length_app in L1, L2. cbn in L1, L2.
  pose proof (drop_more _ _ _ E2) as E3. change (length (psym 124)) with 2%nat in E3. pose proof (left_over _ _ E3) as L3. rewrite length_app in *.
  destruct (Hr rest k (p1 + 2)%nat Hf E3) as (c2 & E4 & Hv2); [lia|]. rewrite (bind_Ok _ _ _ _ _ E4), ret_run. eexists. split; [do 2 f_equal; unfold p1; rewrite !length_app; cbn; lia|]. cbn [tree_of]. by rewrite Hv, Hv2.
Qed.

Lemma list_line l r : sh_ok l -> sh_ok r -> back_at l -> line_at r -> line_at (SList l r).
Proof.
  intros Hokl Hokr Hl Hr rest k ps Hf E Hk. destruct k as [|k]; [lia|]. cbn [print Nat.leb] in *. rewrite <- !app_assoc in E. pose proof (print_starts r 0 rest Hokr (proj1 Hf)) as Hs.
  destruct (Hl 0%nat (psym 59 ++ print 0 r ++ rest) k ps) as (c & E1 & Hv); [by split; [|right]|done|lia|]. change (amps 0) with (@nil Z) in E1. rewrite app_nil_r in E1.
  cbn [parseline]. apply bind_inv in E1 as (c1 & q1 & E1 & E1'). rewrite (bind_Ok _ _ _ _ _ E1), (bind_Ok _ _ _ _ _ E1'). pose proof (drop_more _ _ _ E) as E2. set (p1 := (ps + length (print 1 l))%nat) in *.
  rewrite (bind_Ok _ _ _ _ _ (peek_at [59] _ _ E2 eq_refl)). change (negb _ && _) with true. cbv iota. rewrite (bind_Ok _ _ _ _ _ (gettoken_sym 59 p1 _ E2 Hs eq_refl)).
  destruct (left_drop _ _ _ E) as [L1 L2]. rewrite length_app in L1, L2. cbn in L1, L2. pose proof (drop_more _ _ _ E2) as E3. change (length (psym 59)) with 2%nat in E3. pose proof (left_over _ _ E3) as L3. rewrite length_app in *.
  destruct (Hr rest k (p1 + 2)%nat Hf E3) as (c2 & E4 & Hv2); [lia|]. rewrite (bind_Ok _ _ _ _ _ E4), ret_run. eexists. split; [do 2 f_equal; unfold p1; rewrite !length_app; cbn; lia|]. cbn [tree_of]. by rewrite Hv, Hv2.
Qed.

Lemma parse_levels t : sh_ok t -> exec_at t /\ pipe_at t /\ back_at t /\ line_at t.
Proof.
  induction t as [argv|t IH f mode fd|l IHl r IHr|l IHl r IHr|t IH]; intros Hok.
  - assert (He : exec_at (SExec argv)) by (by apply exec_words). assert (Hp := pipe_of_exec _ He eq_refl). assert (Hb := back_of_pipe _ Hp eq_refl). split_and!; auto. by apply line_of_back.
  - destruct Hok as (Hok & Hf & Hm). destruct (IH Hok) as (IHe & _). assert (He : exec_at (SRedir t f mode fd)).
    { intros rs rest k ps Hrs Hfo E Hk. cbn [print] in *. rewrite <- app_assoc in E. destruct (IHe ((f, mode, fd) :: rs) rest k ps) as (c & E1 & Hv); [by constructor|done|by rewrite predirs_cons, <- app_assoc|done|].
      exists c. split; [|done]. by rewrite E1, predirs_cons, <- app_assoc. }
    assert (Hp := pipe_of_exec _ He eq_refl). assert (Hb := back_of_pipe _ Hp eq_refl). split_and!; auto. by apply line_of_back.
  - destruct Hok as [Hl Hr]. destruct (IHl Hl) as (He & _), (IHr Hr) as (_ & Hpr & _). assert (Hp := pipe_pipe l r Hl Hr He Hpr). assert (Hb := back_of_pipe _ Hp eq_refl).
    assert (Hli := line_of_back _ Hb eq_refl). split_and!; auto. by apply exec_of_line.
  - destruct Hok as [Hl Hr]. destruct (IHl Hl) as (_ & _ & Hb & _), (IHr Hr) as (_ & _ & _ & Hlr). assert (Hli := list_line l r Hl Hr Hb Hlr). assert (He := exec_of_line (SList l r) (conj Hl Hr) Hli eq_refl).
    assert (Hp := pipe_of_exec _ He eq_refl). split_and!; auto. by apply back_of_pipe.
  - cbn [sh_ok] in Hok. destruct (IH Hok) as (_ & _ & IHb & _). assert (Hb : back_at (SBack t)).
    { intros n rest k ps Hf E Hk. cbn [print Nat.leb] in *. rewrite <- app_assoc in E. destruct (IHb (S n) rest k ps) as (c & E1 & Hv); [done|unfold amps; cbn [replicate concat]; fold (amps n); by rewrite <- app_assoc|done|].
      exists c. split; [|by rewrite Hv, Nat.iter_succ_r]. rewrite E1. unfold amps. cbn [replicate concat]. by rewrite <- app_assoc. }
    assert (Hli := line_of_back _ Hb eq_refl). assert (He := exec_of_line (SBack t) Hok Hli eq_refl). split_and!; auto. by apply pipe_of_exec.
Qed.

End tokens.

Lemma print_nul_free t : forall lvl, sh_ok t -> Forall (fun c => c <> 0) (print lvl t).
Proof.
  assert (Hw : forall w, sword w -> Forall (fun c => c <> 0) (pword w)) by (intros w [_ Hw]; apply Forall_app; split; [eapply Forall_impl; [exact Hw|]; cbn; tauto|by repeat constructor]).
  assert (Hs : forall c, c <> 0 -> Forall (fun c => c <> 0) (psym c)) by (by repeat constructor).
  assert (Hp : forall s, Forall (fun c => c <> 0) s -> Forall (fun c => c <> 0) (parens s)) by (intros s H; unfold parens; rewrite !Forall_app; split_and!; auto; by apply Hs).
  induction t as [argv|t IH f mode fd|l IHl r IHr|l IHl r IHr|t IH]; intros lvl Hok; cbn [print sh_ok] in *.
  - apply Forall_concat, Forall_fmap. eapply Forall_impl; [apply Hok|]. exact Hw.
  - apply Forall_app. split; [apply IH, Hok|]. unfold predir. apply Forall_app. split; [|apply Hw, Hok]. repeat case_match; by repeat constructor.
  - assert (Forall (fun c => c <> 0) (print 3 l ++ psym 124 ++ print 2 r)) by (rewrite !Forall_app; split_and!; [apply IHl, Hok|by apply Hs|apply IHr, Hok]). destruct (lvl <=? 2)%nat; auto.
  - assert (Forall (fun c => c <> 0) (print 1 l ++ psym 59 ++ print 0 r)) by (rewrite !Forall_app; split_and!; [apply IHl, Hok|by apply Hs|apply IHr, Hok]). destruct (lvl <=? 0)%nat; auto.
  - assert (Forall (fun c => c <> 0) (print 1 t ++ psym 38)) by (rewrite !Forall_app; split_and!; [apply IH, Hok|by apply Hs]). destruct (lvl <=? 1)%nat; auto.
Qed.

Lemma tree_of_ext c str str' : (forall w, w ∈ words c -> str w = str' w) -> tree_of str c = tree_of str' c.
Proof.
  induction c as [argv|c IH q eq mode fd|l IHl r IHr|l IHl r IHr|c IH]; intros E; cbn [tree_of words] in *.
  - f_equal. apply list_fmap_ext. intros i w Hw. apply E. by eapply list_elem_of_lookup_2.
  - rewrite IH by (intros w Hw; apply E; set_solver). by rewrite (E (q, eq)) by set_solver.
  - by rewrite IHl, IHr by (intros w Hw; apply E; set_solver).
  - by rewrite IHl, IHr by (intros w Hw; apply E; set_solver).
  - by rewrite IH.
Qed.


(** ** The newline that ends a line *)

(** The same text up to which blanks separate the words. *)
Definition blank_eq (b1 b2 : list Z) : Prop :=
  length b1 = length b2 /\ forall i, char_at b1 i = char_at b2 i \/ (is_in whitespace (char_at b1 i) = true /\ is_in whitespace (char_at b2 i) = true).

Section blanks.
Context (b1 b2 : list Z) (Hb : blank_eq b1 b2).
Hypothesis Hn1 : Forall (fun c => c <> 0) b1.
Hypothesis Hn2 : Forall (fun c => c <> 0) b2.

Lemma blank_strlen : strlen b1 = strlen b2.
Proof. rewrite !strlen_nul_free by done. apply Hb. Qed.

Lemma blank_class i : is_in whitespace (char_at b1 i) = is_in whitespace (char_at b2 i) /\ word_char (char_at b1 i) = word_char (char_at b2 i).
Proof. destruct Hb as [_ Hc]. destruct (Hc i) as [->|[H1 H2]]; [done|]. unfold word_char. by rewrite H1, H2. Qed.

Lemma skip_ext p es : (forall i, p (char_at b1 i) = p (char_at b2 i)) -> forall s, skip_to b1 p es s = skip_to b2 p es s.
Proof. intros Hp s. unfold skip_to. generalize (es - s)%nat. intros k. revert s. induction k as [|k IH]; intros s; [done|]. cbn. by rewrite Hp, IH. Qed.

(** After the blanks the two texts show the same character. *)
Lemma blank_next ps : let s := skip_to b1 (is_in whitespace) (strlen b1) ps in skip_to b2 (is_in whitespace) (strlen b2) ps = s /\ char_at b1 s = char_at b2 s.
Proof.
  cbv zeta. rewrite <- blank_strlen, <- (skip_ext (is_in whitespace)) by (intros i; apply blank_class). split; [done|].
  unfold skip_to. destruct (skip_spec b1 (is_in whitespace) (strlen b1 - ps) ps) as (H1 & H2 & H3). set (s := skip _ _ _ _) in *. destruct Hb as [Hl Hc]. destruct (Hc s) as [?|[Hw1 _]]; [done|].
  destruct (decide (s < length b1)%nat); [rewrite H3 in Hw1; [done|rewrite strlen_nul_free in * by done; lia]|]. unfold char_at. by rewrite !lookup_ge_None_2 by lia.
Qed.

(** A character that is not blank is the same in both. *)
Lemma blank_same i c : is_in whitespace c = false -> (char_at b1 i =? c) = (char_at b2 i =? c).
Proof. intros Hc. destruct (proj2 Hb i) as [->|[H1 H2]]; [done|]. destruct (Z.eqb_spec (char_at b1 i) c), (Z.eqb_spec (char_at b2 i) c); congruence. Qed.

Lemma gettoken_ext ps : gettoken b1 (strlen b1) ps = gettoken b2 (strlen b2) ps.
Proof.
  unfold gettoken. destruct (blank_next ps) as [-> Ec]. set (s := skip_to b1 _ _ ps) in *. rewrite <- Ec, (blank_same (S s) 62) by done. fold word_char.
  rewrite <- blank_strlen, <- !(skip_ext word_char) by (intros i; apply blank_class). repeat (case_match; simplify_eq; try done); by rewrite <- (skip_ext (is_in whitespace)) by (intros i; apply blank_class).
Qed.

Lemma peek_ext toks ps : peek b1 (strlen b1) toks ps = peek b2 (strlen b2) toks ps.
Proof. unfold peek. destruct (blank_next ps) as [-> Ec]. by rewrite <- Ec. Qed.

(** Two computations that agree at every position. *)
Lemma bind_ext {A B} (m1 m2 : M nat A) (f1 f2 : A -> M nat B) ps : m1 ps = m2 ps -> (forall a p, f1 a p = f2 a p) -> (a ← m1; f1 a) ps = (a ← m2; f2 a) ps.
Proof. intros E Ef. rewrite !bind_run, E. destruct (m2 ps) as [[a p]|]; [apply Ef|done]. Qed.

Lemma parseredirs_ext k : forall ps, parseredirs k b1 (strlen b1) ps = parseredirs k b2 (strlen b2) ps.
Proof.
  induction k as [|k IH]; intros ps; [done|]. cbn [parseredirs]. apply bind_ext; [apply peek_ext|]. intros [] p; [|done]. apply bind_ext; [apply gettoken_ext|]. intros t p1. apply bind_ext; [apply gettoken_ext|].
  intros [[tw q] eq] p2. destruct tw; try done. by apply bind_ext.
Qed.

Lemma parseargs_ext k : forall argc ps, parseargs k b1 (strlen b1) argc ps = parseargs k b2 (strlen b2) argc ps.
Proof.
  destruct Hb as [Hl _]. induction k as [|k IH]; intros argc ps; [done|]. cbn [parseargs]. apply bind_ext; [apply peek_ext|]. intros [] p; [done|]. apply bind_ext; [apply gettoken_ext|].
  intros [[t q] eq] p1. destruct t; try done. destruct (_ <=? _)%nat; [done|]. apply bind_ext; [rewrite Hl; apply parseredirs_ext|]. intros rs p2. by apply bind_ext.
Qed.

Lemma parseback_ext k : forall c ps, parseback k b1 (strlen b1) c ps = parseback k b2 (strlen b2) c ps.
Proof. induction k as [|k IH]; intros c ps; [done|]. cbn [parseback]. apply bind_ext; [apply peek_ext|]. intros [] p; [|done]. apply bind_ext; [apply gettoken_ext|]. intros _ p1. apply IH. Qed.

Lemma parse_ext k : forall ps, parseline k b1 (strlen b1) ps = parseline k b2 (strlen b2) ps /\ parsepipe k b1 (strlen b1) ps = parsepipe k b2 (strlen b2) ps /\
  parseexec k b1 (strlen b1) ps = parseexec k b2 (strlen b2) ps /\ parseblock k b1 (strlen b1) ps = parseblock k b2 (strlen b2) ps.
Proof.
  pose proof (proj1 Hb) as Hl. induction k as [|k IH]; intros ps; [done|]. split_and!.
  - cbn [parseline]. apply bind_ext; [apply IH|]. intros c p. apply bind_ext; [rewrite Hl; apply parseback_ext|]. intros c' p'. apply bind_ext; [apply peek_ext|]. intros [] p1; [|done]. apply bind_ext; [apply gettoken_ext|]. intros _ p2. apply bind_ext; [apply IH|done].
  - cbn [parsepipe]. apply bind_ext; [apply IH|]. intros c p. apply bind_ext; [apply peek_ext|]. intros [] p1; [|done]. apply bind_ext; [apply gettoken_ext|]. intros _ p2. apply bind_ext; [apply IH|done].
  - cbn [parseexec]. apply bind_ext; [apply peek_ext|]. intros [] p1; [apply IH|]. apply bind_ext; [rewrite Hl; apply parseredirs_ext|]. intros rs p2. apply bind_ext; [rewrite Hl; apply parseargs_ext|done].
  - cbn [parseblock]. apply bind_ext; [apply peek_ext|]. intros [] p1; [|done]. cbn [negb]. apply bind_ext; [apply gettoken_ext|]. intros _ p2. apply bind_ext; [apply IH|]. intros c p3. apply bind_ext; [apply peek_ext|].
    intros [] p4; [|done]. cbn [negb]. apply bind_ext; [apply gettoken_ext|]. intros _ p5. apply bind_ext; [rewrite Hl; apply parseredirs_ext|done].
Qed.

Lemma parsecmd_ext c buf' : parsecmd b1 = Ok (c, buf') -> parsecmd b2 = Ok (c, nulterminate c b2).
Proof.
  unfold parsecmd. pose proof (proj1 Hb) as Hl. rewrite <- Hl. rewrite <- (proj1 (parse_ext _ 0%nat)). destruct (parseline _ _ _ _) as [[c1 ps]|]; [|done].
  destruct (blank_next ps) as [E _]. rewrite E, <- blank_strlen. destruct (_ =? _)%nat; [|done]. by intros [= -> _].
Qed.

Lemma slice_ext w : is_word b1 w -> slice b1 w = slice b2 w.
Proof.
  destruct w as [q eq]. intros (Hr & Hw & _). cbn [fst snd] in *. unfold slice. cbn [fst snd]. rewrite strlen_nul_free in Hr by done. destruct Hb as [Hl Hc]. apply list_eq. intros i.
  destruct (decide (i < eq - q)%nat) as [Hi|Hi]; [|by rewrite !lookup_ge_None_2 by (rewrite length_take; lia)]. rewrite !lookup_take_lt, !lookup_drop by done. specialize (Hw (q + i)%nat ltac:(lia)).
  destruct (Hc (q + i)%nat) as [E|[H1 _]]; [|unfold word_char in Hw; by rewrite H1 in Hw]. unfold char_at in E. destruct (lookup_lt_is_Some_2 b1 (q + i)) as [a Ha]; [lia|]. destruct (lookup_lt_is_Some_2 b2 (q + i)) as [b Hb']; [lia|]. rewrite Ha, Hb' in *. cbn in E. by subst.
Qed.

End blanks.

(** A line as it is typed: the last blank is the newline. *)
Definition typed (t : sh) : list Z := removelast (print 0 t) ++ [10].

Lemma print_last t : forall lvl, t = SExec [] /\ print lvl t = [] \/ exists l, print lvl t = l ++ [32].
Proof.
  assert (Hpar : forall s, exists l, parens s = l ++ [32]) by (intros s; exists (psym 40 ++ s ++ [41]); unfold parens; by rewrite <- !app_assoc).
  assert (Hsym : forall c x, exists l, x ++ psym c = l ++ [32]) by (intros c x; exists (x ++ [c]); by rewrite <- app_assoc).
  assert (Hthen : forall c x y, y = [] \/ (exists l, y = l ++ [32]) -> exists l, x ++ psym c ++ y = l ++ [32]).
  { intros c x y [->|[l ->]]; [rewrite app_nil_r; apply Hsym|]. exists (x ++ psym c ++ l). by rewrite <- !app_assoc. }
  induction t as [argv|t IH f mode fd|l IHl r IHr|l IHl r IHr|t IH]; intros lvl; cbn [print].
  - destruct argv as [|w ws _] using rev_ind; [by left|right]. rewrite fmap_app, concat_app. cbn. rewrite app_nil_r. unfold pword. exists (concat (pword <$> ws) ++ w). by rewrite app_assoc.
  - right. unfold predir, pword. rewrite !app_assoc. by eexists.
  - right. destruct (_ <=? _)%nat; [|apply Hpar]. apply Hthen. destruct (IHr 2%nat) as [[_ E]|E]; auto.
  - right. destruct (_ <=? _)%nat; [|apply Hpar]. apply Hthen. destruct (IHr 0%nat) as [[_ E]|E]; auto.
  - right. destruct (_ <=? _)%nat; [apply Hsym|apply Hpar].
Qed.

Lemma print_parsed t : sh_ok t -> exists c, parsecmd (print 0 t) = Ok (c, nulterminate c (print 0 t)) /\ tree_of (slice (print 0 t)) c = t.
Proof.
  intros Hok. set (buf := print 0 t). pose proof (print_nul_free t 0 Hok) as Hb. fold buf in Hb. pose proof (strlen_nul_free buf Hb) as Hl.
  destruct (parse_levels buf Hb t Hok) as (_ & _ & _ & Hli). destruct (Hli [] (4 * length buf + 4)%nat 0%nat) as (c & E & Hv); [by split; [|left]|by rewrite drop_0, app_nil_r|lia|]. rewrite Nat.add_0_l in E. fold buf in E.
  exists c. split; [|done]. unfold parsecmd. rewrite E. rewrite (skip_stop buf (is_in whitespace) _ []); [|fold buf; by rewrite drop_all|done]. fold buf. by rewrite Hl, Nat.eqb_refl.
Qed.

(** The line as typed is cut into the same command. *)
Lemma typed_parsed t : sh_ok t -> exists c, parsecmd (typed t) = Ok (c, nulterminate c (typed t)) /\ tree_of (fun w => cstr (nulterminate c (typed t)) (fst w)) c = t.
Proof.
  intros Hok. unfold typed. destruct (print_last t 0) as [[-> E]|[l E]]; [rewrite E; exists (EXEC []); by split; [vm_compute|]|].
  destruct (print_parsed t Hok) as (c & Ec & Hv). pose proof (print_nul_free t 0 Hok) as Hn. rewrite E in *. rewrite removelast_last.
  assert (Hb : blank_eq (l ++ [32]) (l ++ [10])).
  { split; [by rewrite !length_app|]. intros i. unfold char_at. destruct (decide (i < length l)%nat); [left; by rewrite !lookup_app_l|]. rewrite !lookup_app_r by lia. destruct (i - length l)%nat as [|j]; [by right|left; done]. }
  assert (Hn2 : Forall (fun c => c <> 0) (l ++ [10])) by (apply Forall_app in Hn as [Hn _]; apply Forall_app; split; [done|by repeat constructor]).
  pose proof (parsecmd_run (l ++ [32])) as H1. rewrite Ec in H1. destruct H1 as [Hc1 _]. pose proof (parsecmd_ext _ _ Hb Hn Hn2 _ _ Ec) as Ec2.
  pose proof (parsecmd_run (l ++ [10])) as H2. rewrite Ec2 in H2. destruct H2 as [Hc2 _]. exists c. split; [done|]. rewrite <- Hv. apply tree_of_ext. intros w Hw.
  rewrite nulterminate_words by done. symmetry. apply slice_ext; [done..|]. pose proof (words_ok _ _ Hc1) as Hall. rewrite Forall_forall in Hall. by apply Hall.
Qed.

(** (C29) Parsing undoes printing.  Any command of fewer than ten words per
    program, typed with parentheses where they are needed and ended by a
    newline, is parsed without error, and the tree that the parser returns, with
    the strings its pointers have in the line after nulterminate, is that
    command. *)
Theorem parse_print t : sh_ok t ->
  exists c buf', parsecmd (typed t) = Ok (c, buf') /\ tree_of (fun w => cstr buf' (fst w)) c = t.
Proof. intros Hok. destruct (typed_parsed t Hok) as (c & E & Hv). by exists c, (nulterminate c (typed t)). Qed.

(** ( a | b ) > c *)
Lemma parse_print_witness : exists c buf', parsecmd [40; 32; 97; 32; 124; 32; 98; 32; 41; 32; 62; 32; 99; 10] = Ok (c, buf') /\
  tree_of (fun w => cstr buf' (fst w)) c = SRedir (SPipe (SExec [[97]]) (SExec [[98]])) [99] 1537 1.
Proof.
  apply (parse_print (SRedir (SPipe (SExec [[97]]) (SExec [[98]])) [99] 1537 1)). cbn [sh_ok]. assert (Hw : forall c, c <> 0 -> word_char c = true -> sword [c]) by (by repeat constructor).
  split_and!; try (by apply Hw); try (constructor; [by apply Hw|constructor]); try (unfold MAXARGS; cbn; lia). right. left.
Defined.
