(* ===== verification/ShRun.v ===== *)
(** Running commands: runcmd and main of user/sh.c.

    A process of the shell is its table of open files and the number of its
    children that it has not waited for; the system calls that the shell makes
    work on them as the kernel's do: the lowest free descriptor is allocated,
    fork copies the table, wait takes one child.  What the kernel may refuse (a
    fork, a pipe, an open, an exec) is an oracle.  A child is run when it is
    forked; its table is a copy, so this does not change what either is given. *)

From S2P Require Import Prelude Riscv Ulib Sh ShPrint.

(** ** System calls *)

Inductive ofile :=
  | F_other (n : Z)
  | F_path (path : list Z) (mode : Z)
  | F_pipe_read (k : nat)
  | F_pipe_write (k : nat).

Abbreviation fdtable := (list (option ofile)) (only parsing).

(** The lowest free descriptor gets the file. *)
Fixpoint alloc_fd (f : ofile) (t : fdtable) : option (nat * fdtable) :=
  match t with
  | [] => None
  | None :: t => Some (0%nat, Some f :: t)
  | Some g :: t => match alloc_fd f t with Some (fd, t) => Some (S fd, Some g :: t) | None => None end
  end.

Definition fd_close (fd : nat) (t : fdtable) : fdtable := <[fd := None]> t.

Definition fd_dup (fd : nat) (t : fdtable) : fdtable :=
  match t !! fd with
  | Some (Some f) => match alloc_fd f t with Some (_, t') => t' | None => t end
  | _ => t
  end.

(** A process: its open files, its children that it has not waited for. *)
Record sproc := mk_sproc { sp_fds : fdtable; sp_kids : nat }.

Definition set_fds (t : fdtable) (p : sproc) : sproc := mk_sproc t (sp_kids p).

(** What the processes of the shell do, with their state when they do it. *)
Inductive event :=
  | EvExec (argv : list (list Z)) (p : sproc)
  | EvWait (p : sproc)
  | EvExit (status : Z) (p : sproc)
  | EvError (msg : string) (arg : list Z)
  | EvChdir (path : list Z).

Record world := mk_world { w_forks : nat; w_pipes : nat; w_trace : list event }.

Definition emit (e : event) (w : world) : world := mk_world (w_forks w) (w_pipes w) (w_trace w ++ [e]).
Definition forked (w : world) : world := mk_world (S (w_forks w)) (w_pipes w) (w_trace w).
Definition piped (w : world) : world := mk_world (w_forks w) (S (w_pipes w)) (w_trace w).

(** The n-th fork and the n-th pipe of the session, opening a file with a mode,
    running a program. *)
Record answers := mk_answers {
  can_fork : nat -> bool;
  can_pipe : nat -> bool;
  can_open : list Z -> Z -> bool;
  can_exec : list (list Z) -> bool;
  can_chdir : list Z -> bool;
}.

Section run.
Variable kn : answers.

Definition fd_open (path : list Z) (mode : Z) (t : fdtable) : option (nat * fdtable) :=
  if can_open kn path mode then alloc_fd (F_path path mode) t else None.

Definition proc_exit (status : Z) (p : sproc) (w : world) : world := emit (EvExit status p) w.

(** fprintf(2, "%s\n", s); exit(1); *)
Definition panic (msg : string) (p : sproc) (w : world) : world := proc_exit 1 p (emit (EvError msg []) w).

(** if(fork1() == 0) child; the rest is the parent's. *)
Definition fork1 (p : sproc) (child parent : sproc -> world -> world) (w : world) : world :=
  if can_fork kn (w_forks w) then parent (mk_sproc (sp_fds p) (S (sp_kids p))) (child (mk_sproc (sp_fds p) 0) (forked w))
  else panic "fork" p (forked w).

(** wait(0); the rest.  Without a child it returns at once. *)
Definition wait0 (p : sproc) (rest : sproc -> world -> world) (w : world) : world :=
  rest (mk_sproc (sp_fds p) (pred (sp_kids p))) (emit (EvWait p) w).

(** pipe(p) *)
Definition fd_pipe (t : fdtable) (w : world) : option (nat * nat * fdtable) :=
  if can_pipe kn (w_pipes w) then
    match alloc_fd (F_pipe_read (w_pipes w)) t with
    | None => None
    | Some (p0, t) => match alloc_fd (F_pipe_write (w_pipes w)) t with None => None | Some (p1, t) => Some (p0, p1, t) end
    end
  else None.

(** Execute cmd.  Never returns: the result is the world after the process
    and its children.  [str] reads the strings of the line. *)
Fixpoint runcmd (str : nat * nat -> list Z) (c : cmd) (p : sproc) (w : world) : world :=
  match c with
  | EXEC [] => proc_exit 1 p w
  | EXEC argv =>
      let args := str <$> argv in
      let w := emit (EvExec args p) w in
      if can_exec kn args then w else proc_exit 0 p (emit (EvError "exec failed" (hd [] args)) w)
  | REDIR c q eq mode fd =>
      let p := set_fds (fd_close (Z.to_nat fd) (sp_fds p)) p in
      match fd_open (str (q, eq)) mode (sp_fds p) with
      | None => proc_exit 1 p (emit (EvError "open failed" (str (q, eq))) w)
      | Some (_, t) => runcmd str c (set_fds t p) w
      end
  | LIST l r => fork1 p (runcmd str l) (fun p => wait0 p (runcmd str r)) w
  | PIPE l r =>
      match fd_pipe (sp_fds p) w with
      | None => panic "pipe" p (piped w)
      | Some (p0, p1, t) =>
          fork1 (set_fds t p)
            (fun q => runcmd str l (set_fds (fd_close p1 (fd_close p0 (fd_dup p1 (fd_close 1 (sp_fds q))))) q))
            (fun p => fork1 p
              (fun q => runcmd str r (set_fds (fd_close p1 (fd_close p0 (fd_dup p0 (fd_close 0 (sp_fds q))))) q))
              (fun p => wait0 (set_fds (fd_close p1 (fd_close p0 (sp_fds p))) p) (fun p => wait0 p (proc_exit 0))))
            (piped w)
      end
  | BACK c => fork1 p (runcmd str c) (proc_exit 0) w
  end.

(** ** Reading commands *)

(** while((fd = open("console", O_RDWR)) >= 0) *)
Fixpoint open_console (k : nat) (path : list Z) (t : fdtable) : fdtable :=
  match k with
  | O => t
  | S k =>
      match fd_open path O_RDWR t with
      | None => t
      | Some (fd, t') => if (3 <=? fd)%nat then fd_close fd t' else open_console k path t'
      end
  end.

(** getcmd: the bytes of the line, none at the end of the input. *)
Definition getcmd (nbuf : Z) (s : stream) : list Z * stream := Ulib.gets nbuf s.

Definition is_cd (buf : list Z) : bool := (char_at buf 0 =? 99) && (char_at buf 1 =? 100) && (char_at buf 2 =? 32).

(** chdir(buf+3), after the last character was chopped off *)
Definition do_cd (buf : list Z) (w : world) : world :=
  let path := cstr (<[(strlen buf - 1)%nat := 0]> buf) 3 in
  let w := emit (EvChdir path) w in
  if can_chdir kn path then w else emit (EvError "cannot cd" path) w.

(** runcmd(parsecmd(buf)), in the child *)
Definition run_line (buf : list Z) (p : sproc) (w : world) : world :=
  match parsecmd buf with
  | Panic e => panic e p w
  | Ok (c, buf') => runcmd (fun a => cstr buf' (fst a)) c p w
  end.

(** while(getcmd(buf, sizeof(buf)) >= 0), for a terminal that delivers [s]. *)
Fixpoint main_loop (k : nat) (s : stream) (p : sproc) (w : world) : world :=
  match k with
  | O => w
  | S k =>
      let '(buf, s) := getcmd 100 s in
      if char_at buf 0 =? 0 then proc_exit 0 p w
      else if is_cd buf then main_loop k s p (do_cd buf w)
      else fork1 p (run_line buf) (fun p => wait0 p (main_loop k s)) w
  end.

Definition console : list Z := [99; 111; 110; 115; 111; 108; 101].

Definition main (s : stream) (t : fdtable) (w : world) : world :=
  main_loop (S (length (concat s))) s (mk_sproc (open_console 4 console t) 0) w.

End run.

(** ** Which programs run, and with which files *)

(** A table with standard input, output and error and nothing else. *)
Definition std (i o e : ofile) : fdtable := [Some i; Some o; Some e] ++ replicate (Z.to_nat NOFILE - 3) None.

(** The programs of a command with their input and output; [k] pipes have been
    made before. *)
Fixpoint plumb (c : sh) (i o : ofile) (k : nat) : list (list (list Z) * ofile * ofile) * nat :=
  match c with
  | SExec [] => ([], k)
  | SExec argv => ([(argv, i, o)], k)
  | SRedir c f mode fd => if fd =? 0 then plumb c (F_path f mode) o k else plumb c i (F_path f mode) k
  | SPipe l r =>
      let '(ps, k') := plumb l i (F_pipe_write k) (S k) in
      let '(qs, k'') := plumb r (F_pipe_read k) o k' in (ps ++ qs, k'')
  | SList l r =>
      let '(ps, k') := plumb l i o k in
      let '(qs, k'') := plumb r i o k' in (ps ++ qs, k'')
  | SBack c => plumb c i o k
  end.

(** The programs in a trace. *)
Definition execs (l : list event) : list (list (list Z) * fdtable) :=
  omap (fun e => match e with EvExec argv p => Some (argv, sp_fds p) | _ => None end) l.

Definition with_err (e : ofile) (p : list (list Z) * ofile * ofile) : list (list Z) * fdtable := (p.1.1, std p.1.2 p.2 e).

(** The commands that are started in the background. *)
Fixpoint backs (c : sh) : nat :=
  match c with
  | SExec _ => 0
  | SRedir c _ _ _ => backs c
  | SPipe l r | SList l r => backs l + backs r
  | SBack c => S (backs c)
  end.

(** The children that processes had not waited for when they exited. *)
Definition left_behind (l : list event) : nat := sum_list (map (fun e => match e with EvExit _ p => sp_kids p | _ => 0%nat end) l).

(** A process has three open files whenever it executes a program, waits or
    exits; it executes a program when it has no children, and waits when it
    has some. *)
Definition clean (e : ofile) (ev : event) : Prop :=
  match ev with
  | EvExec _ p => (exists i o, sp_fds p = std i o e) /\ sp_kids p = 0%nat
  | EvWait p => (exists i o, sp_fds p = std i o e) /\ (0 < sp_kids p)%nat
  | EvExit _ p => exists i o, sp_fds p = std i o e
  | EvError _ _ | EvChdir _ => True
  end.

(** From [w] to [w'] the programs [ps] are run, [b] of the commands in the
    background. *)
Definition ran (e : ofile) (ps : list (list (list Z) * ofile * ofile)) (b : nat) (w w' : world) : Prop :=
  exists tr, w_trace w' = w_trace w ++ tr /\ execs tr = with_err e <$> ps /\ Forall (clean e) tr /\ left_behind tr = b.

(** A kernel that refuses nothing. *)
Definition willing (kn : answers) : Prop := (forall n, can_fork kn n = true) /\ (forall n, can_pipe kn n = true) /\ forall path mode, can_open kn path mode = true.

Lemma left_behind_app l l' : left_behind (l ++ l') = (left_behind l + left_behind l')%nat.
Proof. unfold left_behind. rewrite map_app. induction l; simpl; lia. Qed.

Lemma ran_trans e ps qs b c w1 w2 w3 : ran e ps b w1 w2 -> ran e qs c w2 w3 -> ran e (ps ++ qs) (b + c) w1 w3.
Proof.
  intros (tr & E1 & E2 & E3 & E4) (tr' & F1 & F2 & F3 & F4). exists (tr ++ tr'). split_and!.
  - by rewrite F1, E1, app_assoc.
  - unfold execs. rewrite omap_app, fmap_app. by f_equal.
  - by apply Forall_app.
  - rewrite left_behind_app. congruence.
Qed.

Lemma ran_emit e ps b w w' ev : ran e ps b w w' -> clean e ev -> execs [ev] = [] -> ran e ps (b + left_behind [ev]) w (emit ev w').
Proof. intros Hr Hc Hx. rewrite <- (app_nil_r ps). eapply ran_trans; [exact Hr|]. exists [ev]. by split_and!; auto. Qed.

Lemma ran_trace e ps b w1 w2 w1' w2' : w_trace w1' = w_trace w1 -> w_trace w2' = w_trace w2 -> ran e ps b w1 w2 -> ran e ps b w1' w2'.
Proof. unfold ran. intros -> ->. done. Qed.

Lemma redirected kn i o e path mode fd : willing kn -> fd = 0 \/ fd = 1 ->
  fd_open kn path mode (fd_close (Z.to_nat fd) (std i o e)) = Some (Z.to_nat fd, if fd =? 0 then std (F_path path mode) o e else std i (F_path path mode) e).
Proof. intros (_ & _ & Ho) Hfd. unfold fd_open. rewrite Ho. by destruct Hfd as [-> | ->]. Qed.

(** The table after pipe(), and what is left of it in the two children and in
    the parent. *)
Definition with_pipe (i o e : ofile) (k : nat) : fdtable :=
  [Some i; Some o; Some e; Some (F_pipe_read k); Some (F_pipe_write k)] ++ replicate (Z.to_nat NOFILE - 5) None.

Lemma piped_fds kn i o e w : willing kn -> fd_pipe kn (std i o e) w = Some (3%nat, 4%nat, with_pipe i o e (w_pipes w)).
Proof. intros (_ & Hp & _). unfold fd_pipe. by rewrite Hp. Qed.

Lemma pipe_left i o e k : fd_close 4 (fd_close 3 (fd_dup 4 (fd_close 1 (with_pipe i o e k)))) = std i (F_pipe_write k) e.
Proof. done. Qed.
Lemma pipe_right i o e k : fd_close 4 (fd_close 3 (fd_dup 3 (fd_close 0 (with_pipe i o e k)))) = std (F_pipe_read k) o e.
Proof. done. Qed.
Lemma pipe_parent i o e k : fd_close 4 (fd_close 3 (with_pipe i o e k)) = std i o e.
Proof. done. Qed.

Lemma clean_exit e st i o k : clean e (EvExit st (mk_sproc (std i o e) k)).
Proof. by exists i, o. Qed.
Lemma clean_wait e i o k : clean e (EvWait (mk_sproc (std i o e) (S k))).
Proof. split; [by exists i, o|simpl; lia]. Qed.

Lemma runcmd_exec kn str argv i o e w :
  ran e (plumb (SExec (str <$> argv)) i o (w_pipes w)).1 0 w (runcmd kn str (EXEC argv) (mk_sproc (std i o e) 0) w) /\
  w_pipes (runcmd kn str (EXEC argv) (mk_sproc (std i o e) 0) w) = w_pipes w.
Proof.
  destruct argv as [|a argv]; cbn [runcmd fmap list_fmap plumb fst].
  { split; [|done]. exists [EvExit 1 (mk_sproc (std i o e) 0)]. split_and!; auto using Forall_cons, Forall_nil, clean_exit. }
  assert (Hc : clean e (EvExec (str a :: (str <$> argv)) (mk_sproc (std i o e) 0))) by (split; [by exists i, o|done]).
  assert (He : ran e [(str a :: (str <$> argv), i, o)] 0 w (emit (EvExec (str a :: (str <$> argv)) (mk_sproc (std i o e) 0)) w))
    by (eexists; split_and!; [done|done|by constructor|done]).
  destruct (can_exec kn _); split; try done. unfold proc_exit.
  apply (ran_emit e _ 0 w); [|apply clean_exit|done]. by apply (ran_emit e _ 0 w).
Qed.

Lemma runcmd_plumb kn str c : willing kn -> forall i o e w, sh_ok (tree_of str c) ->
  let w' := runcmd kn str c (mk_sproc (std i o e) 0) w in
  ran e (plumb (tree_of str c) i o (w_pipes w)).1 (backs (tree_of str c)) w w' /\ w_pipes w' = (plumb (tree_of str c) i o (w_pipes w)).2.
Proof.
  intros Hk. pose proof Hk as (Hf & _ & _). induction c as [argv|c IH q eq mode fd|l IHl r IHr|l IHl r IHr|c IH]; intros i o e w Hok; cbn [tree_of sh_ok backs] in *.
  - destruct (runcmd_exec kn str argv i o e w) as [H1 H2]. split; [exact H1|]. rewrite H2. by destruct argv.
  - destruct Hok as (Hok & _ & Hm). cbn [runcmd plumb set_fds sp_fds sp_kids].
    rewrite (redirected kn i o e); [|done|rewrite !elem_of_cons, elem_of_nil in Hm; naive_solver]. destruct (fd =? 0); by apply IH.
  - destruct Hok as [Hl Hr]. cbn [runcmd plumb sp_fds]. rewrite piped_fds by done. unfold fork1, wait0. rewrite !Hf. cbn [set_fds sp_fds sp_kids pred].
    rewrite pipe_left, pipe_right, pipe_parent. destruct (IHl i (F_pipe_write (w_pipes w)) e (forked (piped w)) Hl) as [L1 L2].
    set (wl := runcmd kn str l _ _) in *. destruct (IHr (F_pipe_read (w_pipes w)) o e (forked wl) Hr) as [R1 R2]. set (wr := runcmd kn str r _ _) in *.
    change (w_pipes (forked (piped w))) with (S (w_pipes w)) in *. change (w_pipes (forked wl)) with (w_pipes wl) in *. rewrite L2 in R1, R2. cbv zeta.
    change (w_pipes (proc_exit _ _ _)) with (w_pipes wr). destruct (plumb _ i _ _) as [ps k1]. cbn [fst snd] in *. destruct (plumb _ _ o k1) as [qs k2]. cbn [fst snd] in *.
    split; [|exact R2]. unfold proc_exit. rewrite <- (Nat.add_0_r (_ + _)). apply (ran_emit e _ _ w); [|apply clean_exit|done].
    rewrite <- (Nat.add_0_r (_ + _)). apply (ran_emit e _ _ w); [|apply clean_wait|done]. rewrite <- (Nat.add_0_r (_ + _)). apply (ran_emit e _ _ w); [|apply clean_wait|done].
    eapply ran_trans; [by eapply ran_trace, L1|by eapply ran_trace, R1].
  - destruct Hok as [Hl Hr]. cbn [runcmd plumb]. unfold fork1, wait0. rewrite Hf. cbn [sp_fds sp_kids pred]. destruct (IHl i o e (forked w) Hl) as [L1 L2].
    set (wl := runcmd kn str l _ _) in *. set (wl' := emit _ wl). destruct (IHr i o e wl' Hr) as [R1 R2].
    change (w_pipes (forked w)) with (w_pipes w) in *. change (w_pipes wl') with (w_pipes wl) in *. rewrite L2 in R1, R2. cbv zeta.
    destruct (plumb _ i o (w_pipes w)) as [ps k1]. cbn [fst snd] in *. destruct (plumb _ i o k1) as [qs k2]. cbn [fst snd] in *.
    split; [|exact R2]. eapply ran_trans; [|exact R1]. rewrite <- (Nat.add_0_r (backs _)). apply ran_emit; [by eapply ran_trace, L1|apply clean_wait|done].
  - cbn [runcmd plumb]. unfold fork1. rewrite Hf. cbn [sp_fds sp_kids]. destruct (IH i o e (forked w) Hok) as [L1 L2]. cbv zeta. split; [|exact L2].
    unfold proc_exit. rewrite <- Nat.add_1_r. apply (ran_emit e _ _ w); [by eapply ran_trace, L1|apply clean_exit|done].
Qed.

(** ** A session *)

Lemma read_one s : alive s -> forall c p, pending s = c :: p -> exists s', read_fd 1 s = ([c], s') /\ pending s' = p /\ alive s'.
Proof.
  intros Ha c p E. destruct s as [|ch s]; [done|]. apply Forall_cons in Ha as [Hch Ha]. destruct ch as [|c' ch]; [done|]. cbn in E. injection E as -> E. unfold read_fd. destruct ch as [|c'' ch].
  - exists s. by split_and!.
  - exists ((c'' :: ch) :: s). split_and!; [|done|by constructor]. rewrite (proj2 (Z.leb_gt _ _)) by (cbn; lia). done.
Qed.

Lemma gets_line l rest : Forall (fun c => c <> 10 /\ c <> 13) l -> forall k s, alive s -> pending s = l ++ 10 :: rest -> (length l < k)%nat ->
  exists s', gets_loop k s = (l ++ [10], s') /\ pending s' = rest /\ alive s'.
Proof.
  induction l as [|c l IH]; intros Hl k s Ha E Hk; (destruct k as [|k]; [lia|]); cbn [gets_loop].
  - destruct (read_one s Ha _ _ E) as (s' & -> & Hp & Ha'). cbn. by exists s'.
  - apply Forall_cons in Hl as [[H1 H2] Hl]. destruct (read_one s Ha _ _ E) as (s' & -> & Hp & Ha'). rewrite (proj2 (Z.eqb_neq c 10) H1), (proj2 (Z.eqb_neq c 13) H2). cbn [orb].
    destruct (IH Hl k s' Ha' Hp) as (s2 & -> & Hp2 & Ha2); [cbn in Hk; lia|]. by exists s2.
Qed.

Lemma print_one_line t : forall lvl, sh_ok t -> Forall (fun c => c <> 10 /\ c <> 13) (print lvl t).
Proof.
  assert (Hw : forall w, sword w -> Forall (fun c => c <> 10 /\ c <> 13) (pword w)) by (intros w [_ Hw]; apply Forall_app; split; [|by repeat constructor]; eapply Forall_impl; [exact Hw|]; intros c [_ Hc]; split; intros ->; done).
  assert (Hs : forall c, c ∈ symbols -> Forall (fun c => c <> 10 /\ c <> 13) (psym c)) by (intros c Hc; unfold symbols in Hc; rewrite !elem_of_cons, elem_of_nil in Hc; repeat constructor; lia).
  assert (Hp : forall s, Forall (fun c => c <> 10 /\ c <> 13) s -> Forall (fun c => c <> 10 /\ c <> 13) (parens s)) by (intros s H; unfold parens; rewrite !Forall_app; split_and!; auto; apply Hs; unfold symbols; set_solver).
  induction t as [argv|t IH f mode fd|l IHl r IHr|l IHl r IHr|t IH]; intros lvl Hok; cbn [print sh_ok] in *.
  - apply Forall_concat, Forall_fmap. eapply Forall_impl; [apply Hok|]. exact Hw.
  - apply Forall_app. split; [apply IH, Hok|]. unfold predir. apply Forall_app. split; [|apply Hw, Hok]. repeat case_match; by repeat constructor.
  - assert (Forall (fun c => c <> 10 /\ c <> 13) (print 3 l ++ psym 124 ++ print 2 r)) by (rewrite !Forall_app; split_and!; [apply IHl, Hok|apply Hs; unfold symbols; set_solver|apply IHr, Hok]). destruct (lvl <=? 2)%nat; auto.
  - assert (Forall (fun c => c <> 10 /\ c <> 13) (print 1 l ++ psym 59 ++ print 0 r)) by (rewrite !Forall_app; split_and!; [apply IHl, Hok|apply Hs; unfold symbols; set_solver|apply IHr, Hok]). destruct (lvl <=? 0)%nat; auto.
  - assert (Forall (fun c => c <> 10 /\ c <> 13) (print 1 t ++ psym 38)) by (rewrite !Forall_app; split_and!; [apply IH, Hok|apply Hs; unfold symbols; set_solver]). destruct (lvl <=? 1)%nat; auto.
Qed.

(** A command that fits on a line and is not a cd. *)
Definition typable (t : sh) : Prop := sh_ok t /\ (length (typed t) <= 99)%nat /\ is_cd (typed t) = false.

Lemma typed_line t : sh_ok t -> exists l, typed t = l ++ [10] /\ Forall (fun c => c <> 10 /\ c <> 13) l /\ char_at (typed t) 0 <> 0.
Proof.
  intros Hok. unfold typed. exists (removelast (print 0 t)). pose proof (print_nul_free t 0 Hok) as Hn. pose proof (print_one_line t 0 Hok) as Hl. destruct (print_last t 0) as [[_ E]|[l E]]; rewrite E in *; [done|].
  rewrite removelast_last. apply Forall_app in Hl as [Hl _]. apply Forall_app in Hn as [Hn _]. split_and!; auto. destruct l as [|c l]; [done|]. by apply Forall_cons in Hn as [? _].
Qed.

Fixpoint plumb_all (ts : list sh) (i o : ofile) (k : nat) : list (list (list Z) * ofile * ofile) :=
  match ts with
  | [] => []
  | t :: ts => let '(ps, k) := plumb t i o k in ps ++ plumb_all ts i o k
  end.

Lemma main_loop_runs kn i o e ts : willing kn -> Forall typable ts -> forall k s w, alive s -> pending s = concat (typed <$> ts) -> (length (pending s) < k)%nat ->
  exists w1, main_loop kn k s (mk_sproc (std i o e) 0) w = emit (EvExit 0 (mk_sproc (std i o e) 0)) w1 /\
    ran e (plumb_all ts i o (w_pipes w)) (sum_list (map backs ts)) w w1.
Proof.
  intros Hk. pose proof Hk as (Hf & _). induction ts as [|t ts IH]; intros Hts k s w Ha Ep Hlen; (destruct k as [|k]; [lia|]); cbn [main_loop].
  - destruct s as [|ch s]; [|apply Forall_cons in Ha as [Hch _]; cbn in Ep; apply app_eq_nil in Ep as [? _]; done].
    exists w. split; [done|]. exists []. by rewrite app_nil_r.
  - apply Forall_cons in Hts as [(Hok & H99 & Hcd) Hts]. destruct (typed_line t Hok) as (l & El & Hl & H0). cbn [fmap list_fmap concat] in Ep. rewrite El, <- app_assoc in Ep.
    destruct (gets_line l (concat (typed <$> ts)) Hl 99 s Ha Ep) as (s' & Eg & Hp & Ha'); [rewrite El, length_app in H99; cbn in H99; lia|].
    unfold getcmd, Ulib.gets. change (Z.to_nat (100 - 1)) with 99%nat. rewrite Eg, <- El. rewrite (proj2 (Z.eqb_neq _ 0) H0), Hcd. unfold fork1, wait0. rewrite Hf. cbn [sp_fds sp_kids pred].
    destruct (typed_parsed t Hok) as (c & Ec & Hv). unfold run_line. rewrite Ec. pose proof (runcmd_plumb kn (fun a => cstr (nulterminate c (typed t)) (fst a)) c Hk i o e (forked w)) as Hr.
    rewrite Hv in Hr. destruct (Hr Hok) as [R1 R2]. clear Hr. set (w1 := runcmd kn _ c _ _) in *. destruct (IH Hts k s' (emit (EvWait (mk_sproc (std i o e) 1)) w1) Ha' Hp) as (w2 & I1 & I2).
    { rewrite Ep, length_app in Hlen. cbn in Hlen. rewrite Hp. lia. }
    exists w2. split; [exact I1|]. change (w_pipes (emit _ w1)) with (w_pipes w1) in I2. rewrite R2 in I2. change (w_pipes (forked w)) with (w_pipes w) in *. cbn [plumb_all map sum_list].
    destruct (plumb t i o (w_pipes w)) as [ps k1]. cbn [fst snd] in *. eapply ran_trans; [|exact I2]. rewrite <- (Nat.add_0_r (backs t)). apply ran_emit; [by eapply ran_trace, R1|apply clean_wait|done].
Qed.

Definition or_console (f : option ofile) : ofile := default (F_path console O_RDWR) f.

Lemma console_opened kn a b c : willing kn -> open_console kn 4 console ([a; b; c] ++ replicate (Z.to_nat NOFILE - 3) None) = std (or_console a) (or_console b) (or_console c).
Proof. intros (_ & _ & Ho). destruct a, b, c; cbn; unfold fd_open; repeat (rewrite !Ho; cbn); done. Qed.

(** (C28) A session of the shell, on a kernel that refuses no fork, pipe or
    open, for lines that are printed commands of at most 99 bytes and no cd.
    Started with any of the first three descriptors open, the shell opens the
    console for the others; then for every line that is typed, each of the
    programs in it is executed once, in order, with exactly three descriptors:
    its input and output are those that pipes and redirections give it.  Every
    process of the shell, parents included, has exactly three descriptors open
    when it waits, executes or exits, so no end of a pipe is left open; a
    process waits only when it has a child, and for each of its children but
    the one it starts in the background.  The shell ends with status 0 at the
    end of the input, having waited for the command of every line. *)
Theorem shell_session kn s ts a b c w :
  willing kn -> alive s -> Forall typable ts -> pending s = concat (typed <$> ts) ->
  let f0 := or_console a in let f1 := or_console b in let f2 := or_console c in
  exists tr, w_trace (main kn s ([a; b; c] ++ replicate (Z.to_nat NOFILE - 3) None) w) = w_trace w ++ tr ++ [EvExit 0 (mk_sproc (std f0 f1 f2) 0)] /\
    execs tr = with_err f2 <$> plumb_all ts f0 f1 (w_pipes w) /\ Forall (clean f2) tr /\
    left_behind tr = sum_list (map backs ts).
Proof.
  intros Hk Ha Hts Ep f0 f1 f2. unfold main. rewrite console_opened by done.
  destruct (main_loop_runs kn f0 f1 f2 ts Hk Hts (S (length (concat s))) s w Ha Ep) as (w1 & E & tr & E1 & E2 & E3 & E4); [unfold pending; lia|].
  exists tr. split_and!; auto. fold f0 f1 f2. rewrite E. cbn. by rewrite E1, <- app_assoc.
Qed.

(** a | b > c, typed on the console *)
Lemma shell_session_witness :
  let kn := mk_answers (fun _ => true) (fun _ => true) (fun _ _ => true) (fun _ => true) (fun _ => true) in
  let f := F_path console O_RDWR in
  exists tr, w_trace (main kn [[97; 32; 124; 32; 98]; [32; 62; 32; 99; 10]] (replicate (Z.to_nat NOFILE) None) (mk_world 0 0 [])) = tr ++ [EvExit 0 (mk_sproc (std f f f) 0)] /\
    execs tr = [([[97]], std f (F_pipe_write 0) f); ([[98]], std (F_pipe_read 0) (F_path [99] 1537) f)] /\ left_behind tr = 0%nat.
Proof.
  intros kn f. pose (t := SPipe (SExec [[97]]) (SRedir (SExec [[98]]) [99] 1537 1)).
  destruct (shell_session kn [[97; 32; 124; 32; 98]; [32; 62; 32; 99; 10]] [t] None None None (mk_world 0 0 [])) as (tr & E1 & E2 & _ & E4); [done|by repeat constructor| |done|exists tr; split; [exact E1|split; [exact E2|exact E4]]].
  constructor; [|constructor]. split; [|by split; [cbn; lia|]]. cbn. assert (Hw : forall c, c <> 0 -> word_char c = true -> sword [c]) by (by repeat constructor).
  split_and!; try (by apply Hw); try (constructor; [by apply Hw|constructor]); try (unfold MAXARGS; lia). right. left.
Defined.
