(* ===== verification/Printf.v ===== *)
(** kernel/printf.c: formatted output to the console.

    The result of a call is the sequence of characters given to consputc, or
    [None] when the call stores past the end of [char buf[16]] or reads an
    argument that is not there (undefined behaviour in C).  The lock around
    printf is not part of the model: the characters are those of one call. *)

From S2P Require Import Prelude.

(** digits[d] of the table; the user library has upper-case letters. *)
Definition digit_char (upper : bool) (d : Z) : Z :=
  if d <? 10 then 48 + d else (if upper then 55 else 87) + d.

(** buf[i++] = c with the bound of the array; the buffer is the list of the
    [i] characters stored so far. *)
Definition push_buf (c : Z) (buf : list Z) : option (list Z) :=
  if (length buf <? 16)%nat then Some (buf ++ [c]) else None.

(** do { buf[i++] = digits[x % base]; } while((x /= base) != 0); a 17th
    character does not fit, which bounds the loop. *)
Fixpoint print_digits (fuel : nat) (upper : bool) (x base : Z) (buf : list Z) : option (list Z) :=
  match fuel with
  | O => None
  | S fuel =>
      buf ← push_buf (digit_char upper (x mod base)) buf;
      let x := x / base in
      if x =? 0 then Some buf else print_digits fuel upper x base buf
  end.

(** The sign and the final loop, which prints the buffer backwards. *)
Definition print_buf (neg : bool) (buf : list Z) : option (list Z) :=
  buf ← (if neg then push_buf 45 buf else Some buf);
  Some (reverse buf).

(** [xx] is a long long. *)
Definition printint (xx base : Z) (sign : bool) : option (list Z) :=
  let neg := sign && (xx <? 0) in
  let x := if neg then u64 (- xx) else u64 xx in
  buf ← print_digits 17 false x base [];
  print_buf neg buf.

(** for (i = 0; i < 16; i++, x <<= 4) consputc(digits[x >> 60]); *)
Fixpoint ptr_digits (n : nat) (upper : bool) (x : Z) : list Z :=
  match n with
  | O => []
  | S n => digit_char upper (Z.shiftr x 60) :: ptr_digits n upper (u64 (Z.shiftl x 4))
  end.

Definition printptr (x : Z) : list Z := [48; 120] ++ ptr_digits 16 false x.

(** Variable arguments: a register, or a string pointer (NULL is [None]). *)
Inductive vararg := VInt (z : Z) | VStr (s : option (list Z)).

Definition va_int (ap : list vararg) : option (Z * list vararg) :=
  match ap with VInt z :: ap => Some (s32 z, ap) | _ => None end.
Definition va_uint64 (ap : list vararg) : option (Z * list vararg) :=
  match ap with VInt z :: ap => Some (u64 z, ap) | _ => None end.
Definition va_str (ap : list vararg) : option (list Z * list vararg) :=
  match ap with
  | VStr (Some s) :: ap => Some (s, ap)
  | VStr None :: ap => Some ([40; 110; 117; 108; 108; 41], ap)
  | _ => None
  end.

(** One directive: characters printed, and how the loop goes on: [Skip k]
    moves [i] on by [k], [Stop] leaves the loop. *)
Inductive next := Skip (k : nat) | Stop.

Definition arg_int (printint : Z -> Z -> bool -> option (list Z)) (va : list vararg -> option (Z * list vararg))
    (base : Z) (sign : bool) (k : nat) (ap : list vararg) : option (list Z * list vararg * next) :=
  '(z, ap) ← va ap;
  out ← printint z base sign;
  Some (out, ap, Skip k).

(** The if/else chain after '%': [c0], [c1], [c2] are the next characters. *)
Definition directive (c0 c1 c2 : Z) (ap : list vararg) : option (list Z * list vararg * next) :=
  let int := arg_int printint va_int in
  let u64arg := arg_int (fun z => printint (s64 z)) va_uint64 in
  if c0 =? 100 then int 10 true 0%nat ap
  else if (c0 =? 108) && (c1 =? 100) then u64arg 10 true 1%nat ap
  else if (c0 =? 108) && (c1 =? 108) && (c2 =? 100) then u64arg 10 true 2%nat ap
  else if c0 =? 117 then int 10 false 0%nat ap
  else if (c0 =? 108) && (c1 =? 117) then u64arg 10 false 1%nat ap
  else if (c0 =? 108) && (c1 =? 108) && (c2 =? 117) then u64arg 10 false 2%nat ap
  else if c0 =? 120 then int 16 false 0%nat ap
  else if (c0 =? 108) && (c1 =? 120) then u64arg 16 false 1%nat ap
  else if (c0 =? 108) && (c1 =? 108) && (c2 =? 120) then u64arg 16 false 2%nat ap
  else if c0 =? 112 then '(x, ap) ← va_uint64 ap; Some (printptr x, ap, Skip 0)
  else if c0 =? 115 then '(s, ap) ← va_str ap; Some (s, ap, Skip 0)
  else if c0 =? 37 then Some ([37], ap, Skip 0)
  else if c0 =? 0 then Some ([], ap, Stop)
  else Some ([37; c0], ap, Skip 0).

(** fmt[i+k] & 0xff *)
Definition fmt_at (fmt : list Z) (k : nat) : Z := default 0 (fmt !! k).

(** for(i = 0; (cx = fmt[i] & 0xff) != 0; i++); [fmt] is the rest of the
    format, so a round makes it shorter. *)
Fixpoint printf_loop (fuel : nat) (fmt : list Z) (ap : list vararg) : option (list Z) :=
  match fuel with
  | O => Some []
  | S fuel =>
      match fmt with
      | [] => Some []
      | cx :: fmt =>
          if negb (cx =? 37) then out ← printf_loop fuel fmt ap; Some (cx :: out)
          else
            let c0 := fmt_at fmt 0 in
            let c1 := if negb (c0 =? 0) then fmt_at fmt 1 else 0 in
            let c2 := if negb (c1 =? 0) then fmt_at fmt 2 else 0 in
            '(out, ap, nx) ← directive c0 c1 c2 ap;
            match nx with
            | Stop => Some out
            | Skip k => rest ← printf_loop fuel (drop (S k) fmt) ap; Some (out ++ rest)
            end
      end
  end.

Definition printf (fmt : list Z) (ap : list vararg) : option (list Z) := printf_loop (length fmt) fmt ap.

(** What panic prints before it stops. *)
Definition panic_output (s : list Z) : option (list Z) :=
  a ← printf [112; 97; 110; 105; 99; 58; 32] [];
  b ← printf [37; 115; 10] [VStr (Some s)];
  Some (a ++ b).

(** * Digits *)

(** The number a digit string denotes. *)
Definition digit_val (c : Z) : Z := if c <? 58 then c - 48 else if c <? 71 then c - 55 else c - 87.
Fixpoint val (base : Z) (ds : list Z) : Z :=
  match ds with [] => 0 | c :: ds => digit_val c * base ^ Z.of_nat (length ds) + val base ds end.

Lemma digit_val_char upper d : 0 <= d < 16 -> digit_val (digit_char upper d) = d.
Proof. intros Hd. unfold digit_val, digit_char. destruct upper; case_bool; lia. Qed.

Lemma val_app base a b : val base (a ++ b) = val base a * base ^ Z.of_nat (length b) + val base b.
Proof.
  induction a as [|c a IH]; simpl; [lia|]. rewrite IH, length_app, Nat2Z.inj_add, Z.pow_add_r by lia. lia.
Qed.

(** The loop stores the digits of [x], least significant first, exactly when
    they fit. *)
Lemma print_digits_spec upper base fuel : forall x buf,
  2 <= base <= 16 -> 0 <= x -> (16 < fuel + length buf)%nat ->
  match print_digits fuel upper x base buf with
  | Some r => exists ds, r = buf ++ ds /\ ds <> [] /\ (length r <= 16)%nat /\ val base (reverse ds) = x /\
      Forall (fun c => exists d, 0 <= d < base /\ c = digit_char upper d) ds /\
      (x < base ^ Z.of_nat (length ds)) /\ ((1 < length ds)%nat -> base ^ (Z.of_nat (length ds) - 1) <= x)
  | None => base ^ (16 - Z.of_nat (length buf)) <= x \/ (16 <= length buf)%nat
  end.
Proof.
  induction fuel as [|fuel IH]; intros x buf Hb Hx Hf; cbn [print_digits]; [right; lia|].
  unfold push_buf. destruct (Nat.ltb_spec (length buf) 16) as [Hl|Hl]; simpl; [|right; lia].
  assert (Hm : 0 <= x mod base < base) by (apply Z.mod_pos_bound; lia).
  assert (Hdiv : x = base * (x / base) + x mod base) by (apply Z.div_mod; lia).
  destruct (Z.eqb_spec (x / base) 0) as [E|E].
  - exists [digit_char upper (x mod base)]. split_and!; auto.
    + rewrite length_app. simpl. lia.
    + simpl. rewrite digit_val_char by lia. lia.
    + constructor; [|constructor]. eauto.
    + simpl. rewrite Z.pow_1_r. lia.
    + simpl. intros. lia.
  - assert (Hq : 0 < x / base) by (pose proof (Z.div_pos x base); lia).
    specialize (IH (x / base) (buf ++ [digit_char upper (x mod base)]) Hb ltac:(lia)).
    rewrite length_app in IH. specialize (IH ltac:(simpl; lia)). simpl in IH.
    destruct (print_digits fuel upper (x / base) base _) as [r|].
    + destruct IH as (ds & -> & Hne & Hlen & Hv & Hd & Hlt & Hge).
      exists (digit_char upper (x mod base) :: ds). rewrite <- app_assoc in *. split_and!; auto; try done.
      * rewrite reverse_cons, val_app, Hv. simpl. rewrite digit_val_char by lia. lia.
      * constructor; [eauto|done].
      * cbn [length]. rewrite Nat2Z.inj_succ, Z.pow_succ_r by lia. nia.
      * intros _. cbn [length]. assert (0 < length ds)%nat by (destruct ds; [done|simpl; lia]).
        replace (Z.of_nat (S (length ds)) - 1) with (Z.succ (Z.of_nat (length ds) - 1)) by lia.
        rewrite Z.pow_succ_r by lia. destruct (decide (length ds = 1%nat)) as [E1|]; [rewrite E1; simpl; nia|].
        specialize (Hge ltac:(lia)). nia.
    + destruct IH as [Hge|Hlen]; [left|].
      * replace (16 - Z.of_nat (length buf)) with (Z.succ (16 - Z.of_nat (length buf + 1))) by lia.
        rewrite Z.pow_succ_r by lia. nia.
      * left. replace (16 - Z.of_nat (length buf)) with 1 by lia. rewrite Z.pow_1_r. nia.
Qed.

Lemma reverse_nonempty (l : list Z) : l <> [] -> reverse l <> [].
Proof. intros Hl E. apply Hl. rewrite <- (reverse_involutive l), E. done. Qed.

(** The magnitude printint prints. *)
Definition magnitude (xx : Z) (sign : bool) : Z := if sign && (xx <? 0) then u64 (- xx) else u64 xx.

Lemma printint_spec xx base sign :
  2 <= base <= 16 ->
  let neg := sign && (xx <? 0) in let x := magnitude xx sign in
  let room := if neg then 15 else 16 in
  match printint xx base sign with
  | Some s => x < base ^ room /\ (length s <= 16)%nat /\ exists ds, s = (if neg then 45 :: ds else ds) /\ ds <> [] /\ val base ds = x /\
      Forall (fun c => exists d, 0 <= d < base /\ c = digit_char false d) ds
  | None => base ^ room <= x
  end.
Proof.
  intros Hb neg x room. assert (Hx : 0 <= x) by (unfold x, magnitude; destruct (sign && (xx <? 0)); apply u64_range).
  unfold printint. fold neg. change (if neg then u64 (- xx) else u64 xx) with x.
  pose proof (print_digits_spec false base 17 x [] Hb Hx ltac:(simpl; lia)) as Hp.
  destruct (print_digits 17 false x base []) as [buf|]; cbn [mbind option_bind].
  - destruct Hp as (ds & -> & Hne & Hlen & Hv & Hd & Hlt & Hge). simpl in Hlen |- *. unfold print_buf, push_buf.
    assert (Hpow : forall k, Z.of_nat (length ds) <= k -> x < base ^ k).
    { intros k Hk. eapply Z.lt_le_trans; [exact Hlt|]. apply Z.pow_le_mono_r; lia. }
    unfold room. destruct neg; simpl.
    + destruct (Nat.ltb_spec (length ds) 16) as [Hl|Hl]; simpl.
      * split; [apply Hpow; lia|]. split; [rewrite length_reverse, length_app; simpl; lia|].
        exists (reverse ds). rewrite reverse_app. simpl. split_and!; auto.
        -- by apply reverse_nonempty.
        -- by apply Forall_reverse.
      * assert (length ds = 16%nat) as E by lia. rewrite E in Hge. apply Hge. lia.
    + split; [apply Hpow; lia|]. split; [by rewrite length_reverse|].
      exists (reverse ds). split_and!; auto; [by apply reverse_nonempty|by apply Forall_reverse].
  - destruct Hp as [Hp|Hp]; [|simpl in Hp; lia]. unfold room. destruct neg; [|exact Hp].
    etrans; [|exact Hp]. apply Z.pow_le_mono_r; simpl; lia.
Qed.

Lemma printint_neg_unsigned xx : -2147483648 <= xx < 0 -> printint xx 10 false = None.
Proof.
  intros Hx. pose proof (printint_spec xx 10 false ltac:(lia)) as Hs. cbn zeta in Hs. simpl andb in Hs. cbv iota in Hs.
  assert (E : magnitude xx false = 18446744073709551616 + xx) by (unfold magnitude; simpl; word_lia).
  rewrite E in Hs. destruct (printint xx 10 false); [|done]. destruct Hs as [Hlt _].
  change (10 ^ 16) with 10000000000000000 in Hlt. lia.
Qed.

(** The kernel's printint, exactly: it prints the digits of the number
    (with a minus sign for a negative one when signed), and stays inside its
    16-byte buffer if and only if the magnitude is below base^16, or below
    base^15 with a sign.  In base 16 unsigned this always holds; in decimal it
    does not for large 64-bit values. *)
Theorem printint_exact xx base sign :
  2 <= base <= 16 ->
  let neg := sign && (xx <? 0) in let x := magnitude xx sign in
  (printint xx base sign = None <-> base ^ (if neg then 15 else 16) <= x) /\
  forall s, printint xx base sign = Some s ->
    exists ds, s = (if neg then 45 :: ds else ds) /\ ds <> [] /\ val base ds = x /\ (length s <= 16)%nat.
Proof.
  intros Hb neg x. pose proof (printint_spec xx base sign Hb) as Hs. cbn zeta in Hs. fold neg x in Hs.
  destruct (printint xx base sign) as [s|] eqn:E.
  - destruct Hs as (Hlt & Hlen & ds & -> & Hne & Hv & Hd). split; [split; [done|lia]|]. intros s [= <-].
    exists ds. auto.
  - split; [done|]. intros s [=].
Qed.

Lemma printint_exact_witness : printint (-12) 10 true = Some [45; 49; 50] /\
  exists ds, [45; 49; 50] = 45 :: ds /\ val 10 ds = 12.
Proof.
  split; [reflexivity|].
  destruct (printint_exact (-12) 10 true) as [_ H]; [lia|].
  destruct (H [45; 49; 50] eq_refl) as (ds & E & _ & Hv & _). exists ds. split; [exact E|exact Hv].
Defined.

(** A %u of an unsigned int of 2^31 or more overflows the buffer: the
    argument is fetched as int and sign extended, and the 20 decimal digits
    of the result do not fit 16 bytes. *)
Theorem printf_u_overflows z :
  2147483648 <= z < 4294967296 -> printf [37; 117] [VInt z] = None.
Proof.
  intros Hz. assert (Es : s32 z = z - 4294967296) by word_lia.
  assert (Ed : directive 117 0 0 [VInt z] = None).
  { change (directive 117 0 0 [VInt z]) with (arg_int printint va_int 10 false 0 [VInt z]).
    unfold arg_int, va_int. cbn [mbind option_bind]. rewrite Es. by rewrite printint_neg_unsigned by lia. }
  unfold printf. cbn [printf_loop length]. change (negb (37 =? 37)) with false. cbv iota zeta.
  change (fmt_at [117] 0) with 117. change (fmt_at [117] 1) with 0. change (negb (117 =? 0)) with true.
  change (negb ((if true then 0 else 0) =? 0)) with false. cbv iota. by rewrite Ed.
Qed.

Lemma printf_u_overflows_witness : printf [37; 117] [VInt 4294967295] = None.
Proof. apply printf_u_overflows. lia. Defined.
