(* ===== verification/Uprintf.v ===== *)
(** user/printf.c: formatted output of the user programs, as the characters
    written to the descriptor ([None] as in the kernel's printf). *)

From S2P Require Import Prelude Ulib Printf.

(** [xx] is an int, [x] a uint. *)
Definition printint (xx base : Z) (sgn : bool) : option (list Z) :=
  let neg := sgn && (xx <? 0) in
  let x := if neg then u32 (- xx) else u32 xx in
  buf ← print_digits 17 true x base [];
  print_buf neg buf.

Definition printptr (x : Z) : list Z := [48; 120] ++ ptr_digits 16 true x.

(** The if/else chain for a character after '%': the long forms convert their
    64-bit argument to printint's int parameter. *)
Definition vdirective (c0 c1 c2 : Z) (ap : list vararg) : option (list Z * list vararg * next) :=
  let int := arg_int printint va_int in
  let u64arg := arg_int (fun z => printint (s32 z)) va_uint64 in
  if c0 =? 100 then int 10 true 0%nat ap
  else if (c0 =? 108) && (c1 =? 100) then u64arg 10 true 1%nat ap
  else if (c0 =? 108) && (c1 =? 108) && (c2 =? 100) then u64arg 10 true 2%nat ap
  else if c0 =? 117 then int 10 false 0%nat ap
  else if (c0 =? 108) && (c1 =? 117) then u64arg 10 false 1%nat ap
  else if (c0 =? 108) && (c1 =? 108) && (c2 =? 117) then u64arg 10 false 2%nat ap
  else if c0 =? 120 then int 16 false 0%nat ap
  else if (c0 =? 108) && (c1 =? 120) then u64arg 16 false 1%nat ap
  else if (c0 =? 108) && (c1 =? 108) && (c2 =? 120) then u64arg 16 false 2%nat ap
  else if c0 =? 112 then '(x, ap) ← va_uint64 ap; Some (printptr x, ap, Skip 0)
  else if c0 =? 115 then '(s, ap) ← va_str ap; Some (s, ap, Skip 0)
  else if c0 =? 37 then Some ([37], ap, Skip 0)
  else Some ([37; c0], ap, Skip 0).

(** for(i = 0; fmt[i]; i++); [pct] is [state == '%']. *)
Fixpoint vprintf_loop (fuel : nat) (pct : bool) (fmt : list Z) (ap : list vararg) : option (list Z) :=
  match fuel with
  | O => Some []
  | S fuel =>
      match fmt with
      | [] => Some []
      | c0 :: fmt =>
          if negb pct then
            if c0 =? 37 then vprintf_loop fuel true fmt ap
            else out ← vprintf_loop fuel false fmt ap; Some (c0 :: out)
          else
            let c1 := fmt_at fmt 0 in
            let c2 := if negb (c1 =? 0) then fmt_at fmt 1 else 0 in
            '(out, ap, nx) ← vdirective c0 c1 c2 ap;
            let k := match nx with Skip k => k | Stop => 0%nat end in
            rest ← vprintf_loop fuel false (drop k fmt) ap;
            Some (out ++ rest)
      end
  end.

Definition vprintf (fmt : list Z) (ap : list vararg) : option (list Z) := vprintf_loop (length fmt) false fmt ap.

(** * printint and atoi *)

Lemma atoi_digits ds : forall n,
  Forall (fun c => exists d, 0 <= d < 10 /\ c = digit_char true d) ds ->
  0 <= n -> n * 10 ^ Z.of_nat (length ds) + val 10 ds < 2147483648 ->
  atoi_loop ds n = n * 10 ^ Z.of_nat (length ds) + val 10 ds.
Proof.
  induction ds as [|c ds IH]; intros n Hd Hn Hlt; [simpl; lia|].
  apply Forall_cons in Hd as [(d & Hd1 & ->) Hd]. cbn [length val] in Hlt |- *. cbn [atoi_loop].
  rewrite digit_val_char in * by lia. rewrite Nat2Z.inj_succ, Z.pow_succ_r in * by lia.
  assert (Hc : digit_char true d = 48 + d) by (unfold digit_char; case_bool; lia). rewrite Hc.
  assert (Hdig : is_digit (48 + d) = true) by (unfold is_digit; case_bool; (done || lia)). rewrite Hdig.
  assert (Hv : 0 <= val 10 ds).
  { clear - Hd. induction Hd as [|c ds (e & He & ->) Hd IH]; simpl; [lia|]. rewrite digit_val_char by lia. nia. }
  assert (Hp : 0 < 10 ^ Z.of_nat (length ds)) by (apply Z.pow_pos_nonneg; lia).
  replace (n * 10 + (48 + d) - 48) with (n * 10 + d) by lia.
  assert (0 <= n * 10 + d < 2147483648) by nia. rewrite s32_small by lia. rewrite IH; [lia|done|lia|lia].
Qed.

Lemma uprintint_run xx base sgn :
  2 <= base <= 16 -> 10 <= base -> -2147483648 <= xx < 4294967296 ->
  let neg := sgn && (xx <? 0) in
  exists ds, printint xx base sgn = Some (if neg then 45 :: ds else ds) /\ ds <> [] /\
    val base ds = (if neg then u32 (- xx) else u32 xx) /\
    Forall (fun c => exists d, 0 <= d < base /\ c = digit_char true d) ds.
Proof.
  intros Hb Hb2 Hx neg. unfold printint. fold neg. set (x := if neg then u32 (- xx) else u32 xx).
  assert (Hxr : 0 <= x < 4294967296) by (unfold x; destruct neg; apply u32_range).
  pose proof (print_digits_spec true base 17 x [] Hb ltac:(lia) ltac:(simpl; lia)) as Hp.
  destruct (print_digits 17 true x base []) as [buf|]; cbn [mbind option_bind].
  - destruct Hp as (ds & -> & Hne & Hlen & Hv & Hd & Hlt & Hge). cbn [app].
    assert (Hl : (length ds <= 10)%nat).
    { destruct (decide (length ds <= 10)%nat) as [|Hn]; [done|]. specialize (Hge ltac:(lia)).
      assert (10 ^ 10 <= base ^ (Z.of_nat (length ds) - 1)).
      { transitivity (base ^ 10); [apply Z.pow_le_mono_l; lia|apply Z.pow_le_mono_r; lia]. }
      change (10 ^ 10) with 10000000000 in *. lia. }
    unfold print_buf, push_buf. exists (reverse ds). split_and!.
    + destruct neg; [|done]. rewrite (proj2 (Nat.ltb_lt (length ds) 16)) by lia. cbn [mbind option_bind].
      by rewrite reverse_app.
    + intros E. apply Hne. rewrite <- (reverse_involutive ds), E. done.
    + done.
    + by apply Forall_reverse.
  - exfalso. destruct Hp as [Hp|Hp]; [|simpl in Hp; lia].
    assert (10 ^ 16 <= base ^ 16) by (apply Z.pow_le_mono_l; lia). change (10 ^ 16) with 10000000000000000 in *.
    change (16 - Z.of_nat (length [])) with 16 in Hp. lia.
Qed.

(** Round trip between printing and reading numbers: printint of any
    positive or negative int prints its decimal digits, preceded by a minus
    sign if negative, within its buffer, and atoi reads the digits back. *)
Theorem printint_atoi xx :
  -2147483648 < xx < 2147483648 ->
  exists ds, printint xx 10 true = Some (if xx <? 0 then 45 :: ds else ds) /\ atoi ds = Z.abs xx.
Proof.
  intros Hx. destruct (uprintint_run xx 10 true) as (ds & E & Hne & Hv & Hd); [lia..|]. simpl andb in E, Hv.
  exists ds. split; [exact E|]. unfold atoi.
  assert (Ev : val 10 ds = Z.abs xx).
  { rewrite Hv. destruct (Z.ltb_spec xx 0); rewrite u32_small by lia; lia. }
  rewrite atoi_digits; [lia|done|lia|lia].
Qed.

Lemma printint_atoi_witness :
  exists ds, printint (-305) 10 true = Some (45 :: ds) /\ atoi ds = 305.
Proof. apply (printint_atoi (-305)). lia. Defined.

Lemma s32_u64 z : s32 (u64 z) = s32 z.
Proof. word_lia. Qed.

(** The long conversions print only the low 32 bits: %ld and %lld print
    every 64-bit argument as %d does. *)
Theorem vprintf_long_truncates z :
  vprintf [37; 108; 100] [VInt z] = vprintf [37; 100] [VInt z] /\
  vprintf [37; 108; 108; 100] [VInt z] = vprintf [37; 100] [VInt z].
Proof.
  unfold vprintf. cbn [vprintf_loop length]. simpl negb. cbv iota zeta.
  change (vdirective 108 (fmt_at [100] 0) _ [VInt z]) with (arg_int (fun z => printint (s32 z)) va_uint64 10 true 1 [VInt z]).
  change (vdirective 108 (fmt_at [108; 100] 0) _ [VInt z])
    with (arg_int (fun z => printint (s32 z)) va_uint64 10 true 2 [VInt z]).
  change (vdirective 100 (fmt_at [] 0) _ [VInt z]) with (arg_int printint va_int 10 true 0 [VInt z]).
  unfold arg_int, va_uint64, va_int. cbn [mbind option_bind]. rewrite s32_u64.
  destruct (printint (s32 z) 10 true); split; done.
Qed.
