(* ===== verification/RingBuf.v ===== *)
(** Ring buffers indexed by free-running counters, as pipes, the console and
    the uart use them: [data[w++ % N]] with counters that wrap at [W]. *)

From S2P Require Import Prelude.

Section ring.
Context (N W : Z) (HN : 0 < N) (HW : 0 < W) (Hdiv : (N | W)).

Definition rcount (r w : Z) : Z := (w - r) mod W.

(** The contents between counters [r] and [w]. *)
Definition rqueue (data : list Z) (r w : Z) : list Z :=
  (fun j => data !!! Z.to_nat ((r + j) mod N)) <$> seqZ 0 (rcount r w).

Lemma rcount_range r w : 0 <= rcount r w < W.
Proof using HW. apply Z.mod_pos_bound. exact HW. Qed.

Lemma length_rqueue data r w : Z.of_nat (length (rqueue data r w)) = rcount r w.
Proof using HW. unfold rqueue. rewrite length_fmap, length_seqZ. pose proof (rcount_range r w). lia. Qed.

Lemma rqueue_lookup data r w i :
  Z.of_nat i < rcount r w -> rqueue data r w !! i = Some (data !!! Z.to_nat ((r + Z.of_nat i) mod N)).
Proof.
  intros Hi. unfold rqueue. rewrite list_lookup_fmap, (lookup_seqZ_lt 0 _ i) by lia. cbn [fmap option_fmap option_map].
  by rewrite Z.add_0_l.
Qed.

Lemma rqueue_nil data r w : rcount r w = 0 -> rqueue data r w = [].
Proof. intros E. unfold rqueue. rewrite E. done. Qed.

Lemma rcount_0 r w : 0 <= r < W -> 0 <= w < W -> rcount r w = 0 <-> r = w.
Proof using HW.
  intros Hr Hw. unfold rcount. split; [|intros ->; by rewrite Z.sub_diag, Z.mod_0_l by lia].
  intros E. destruct (Z.le_gt_cases r w); [rewrite Z.mod_small in E by lia; lia|].
  rewrite <- (Z_mod_plus_full _ 1), Z.mod_small in E by lia. lia.
Qed.

(** The slot of a counter does not see the wrap-around. *)
Lemma ring_slot a : (a mod W) mod N = a mod N.
Proof using HN HW Hdiv. by apply mod_mod_divide. Qed.

Lemma slot_range a : 0 <= a mod N < N.
Proof using HN. by apply Z.mod_pos_bound. Qed.

Lemma rcount_succ r w : rcount r w < W - 1 -> rcount r ((w + 1) mod W) = rcount r w + 1.
Proof using HW.
  intros Hlt. pose proof (rcount_range r w). unfold rcount in *. rewrite Zminus_mod_idemp_l.
  replace (w + 1 - r) with (w - r + 1) by lia. rewrite <- Zplus_mod_idemp_l. apply Z.mod_small. lia.
Qed.

Lemma rcount_pred r w : 0 < rcount r w -> rcount r ((w - 1) mod W) = rcount r w - 1.
Proof using HW.
  intros Hlt. pose proof (rcount_range r w). unfold rcount in *. rewrite Zminus_mod_idemp_l.
  replace (w - 1 - r) with (w - r - 1) by lia. rewrite <- Zminus_mod_idemp_l. apply Z.mod_small. lia.
Qed.

Lemma rcount_pop r w : 0 < rcount r w -> rcount ((r + 1) mod W) w = rcount r w - 1.
Proof using HW.
  intros Hlt. pose proof (rcount_range r w). unfold rcount in *. rewrite Zminus_mod_idemp_r.
  replace (w - (r + 1)) with (w - r - 1) by lia. rewrite <- Zminus_mod_idemp_l. apply Z.mod_small. lia.
Qed.

Lemma rcount_ahead r w k : 0 <= k < W -> 0 <= w < W -> w = (r + k) mod W <-> rcount r w = k.
Proof using HW.
  intros Hk Hw. unfold rcount. split.
  - intros ->. rewrite Zminus_mod_idemp_l. replace (r + k - r) with k by lia. by apply Z.mod_small.
  - intros <-. rewrite Zplus_mod_idemp_r. replace (r + (w - r)) with w by lia. symmetry. by apply Z.mod_small.
Qed.

Lemma rcount_slot r w : (r + rcount r w) mod N = w mod N.
Proof using HN HW Hdiv.
  rewrite <- (ring_slot (r + rcount r w)). unfold rcount. rewrite Zplus_mod_idemp_r.
  replace (r + (w - r)) with w by lia. apply ring_slot.
Qed.

Lemma slots_differ r i j : 0 <= i < N -> 0 <= j < N -> i <> j -> (r + i) mod N <> (r + j) mod N.
Proof using HN.
  intros Hi Hj Hne E. apply Hne. pose proof (Z.div_mod (r + i) N). pose proof (Z.div_mod (r + j) N).
  assert (Hk : i - j = N * ((r + i) / N - (r + j) / N)) by lia.
  assert ((r + i) / N - (r + j) / N = 0) by nia. nia.
Qed.

Lemma rqueue_Forall (P : Z -> Prop) data r w :
  length data = Z.to_nat N -> Forall P data -> Forall P (rqueue data r w).
Proof using HN.
  intros Hl HP. unfold rqueue. rewrite Forall_fmap. apply Forall_forall. intros j _. simpl.
  apply (Forall_lookup_total_1 _ _ _ HP). pose proof (slot_range (r + j)). lia.
Qed.

(** Extending at the end. *)
Lemma rqueue_snoc data r w :
  rcount r w < W - 1 -> rqueue data r ((w + 1) mod W) = rqueue data r w ++ [data !!! Z.to_nat (w mod N)].
Proof using HN HW Hdiv.
  intros Hlt. pose proof (rcount_succ r w Hlt) as Hs. pose proof (rcount_range r w).
  unfold rqueue. rewrite Hs. replace (rcount r w + 1) with (Z.of_nat (S (Z.to_nat (rcount r w)))) by lia.
  rewrite seqZ_S, fmap_app, Z2Nat.id by lia. f_equal. cbn [fmap list_fmap].
  by rewrite Z.add_0_l, rcount_slot.
Qed.

Lemma rqueue_unsnoc data r w :
  0 <= w < W -> 0 < rcount r w ->
  rqueue data r w = rqueue data r ((w - 1) mod W) ++ [data !!! Z.to_nat (((w - 1) mod W) mod N)].
Proof using HN HW Hdiv.
  intros Hw Hlt. pose proof (rcount_pred r w Hlt) as Hp. pose proof (rcount_range r w).
  rewrite <- rqueue_snoc by lia. f_equal. rewrite Zplus_mod_idemp_l, Z.sub_add. symmetry. by apply Z.mod_small.
Qed.

Lemma rqueue_insert data r w a c :
  rcount r w <= N -> rcount r w <= a < N -> length data = Z.to_nat N ->
  rqueue (<[Z.to_nat ((r + a) mod N) := c]> data) r w = rqueue data r w.
Proof using HN HW.
  intros Hc Ha Hl. pose proof (rcount_range r w). apply list_eq. intros i.
  destruct (decide (Z.of_nat i < rcount r w)) as [Hi|Hi].
  - rewrite !rqueue_lookup by done. f_equal. apply list_lookup_total_insert_ne. intros E.
    apply Z2Nat.inj in E; [|apply slot_range..]. by apply (slots_differ r a (Z.of_nat i)) in E; [|lia..].
  - rewrite !lookup_ge_None_2; [done| |]; pose proof (length_rqueue data r w);
      pose proof (length_rqueue (<[Z.to_nat ((r + a) mod N) := c]> data) r w); lia.
Qed.

Lemma rqueue_push data r w c :
  N < W -> rcount r w < N -> length data = Z.to_nat N ->
  rqueue (<[Z.to_nat (w mod N) := c]> data) r ((w + 1) mod W) = rqueue data r w ++ [c].
Proof using HN HW Hdiv.
  intros HNW Hlt Hl. pose proof (rcount_range r w). rewrite rqueue_snoc by lia. f_equal.
  - rewrite <- (rcount_slot r w). apply rqueue_insert; lia.
  - f_equal. apply list_lookup_total_insert_eq. pose proof (slot_range w). lia.
Qed.

Lemma rqueue_pop data r w :
  0 < rcount r w -> rqueue data r w = data !!! Z.to_nat (r mod N) :: rqueue data ((r + 1) mod W) w.
Proof using HN HW Hdiv.
  intros Hlt. pose proof (rcount_pop r w Hlt) as Hp. apply list_eq. intros i.
  destruct (decide (Z.of_nat i < rcount r w)) as [Hi|Hi].
  - rewrite rqueue_lookup by done. destruct i as [|i].
    + simpl. by rewrite Z.add_0_r.
    + refine (eq_trans _ (eq_sym (rqueue_lookup data ((r + 1) mod W) w i _))); [|lia].
      do 3 f_equal. rewrite <- (ring_slot (_ + Z.of_nat i)), Zplus_mod_idemp_l, ring_slot. f_equal. lia.
  - rewrite !lookup_ge_None_2; [done| |].
    + simpl. pose proof (length_rqueue data ((r + 1) mod W) w). lia.
    + pose proof (length_rqueue data r w). lia.
Qed.

Lemma rcount_add r w e : rcount r w + rcount w e < W -> rcount r e = rcount r w + rcount w e.
Proof using HW.
  intros Hlt. pose proof (rcount_range r w). pose proof (rcount_range w e). unfold rcount in *.
  rewrite <- (Z.mod_small (_ + _) W) by lia. rewrite Zplus_mod_idemp_l, Zplus_mod_idemp_r. f_equal. lia.
Qed.

(** Two adjacent segments. *)
Lemma rqueue_app data r w e :
  rcount r w + rcount w e < W -> rqueue data r e = rqueue data r w ++ rqueue data w e.
Proof using HN HW Hdiv.
  intros Hlt. pose proof (rcount_range r w). pose proof (rcount_range w e).
  assert (Hre : rcount r e = rcount r w + rcount w e).
  { by apply rcount_add. }
  apply list_eq. intros i. destruct (decide (Z.of_nat i < rcount r w)) as [Hi|Hi].
  - rewrite lookup_app_l by (pose proof (length_rqueue data r w); lia). by rewrite !rqueue_lookup by lia.
  - rewrite lookup_app_r by (pose proof (length_rqueue data r w); lia).
    destruct (decide (Z.of_nat i < rcount r e)) as [Hi2|Hi2].
    + pose proof (length_rqueue data r w) as Hl. rewrite !rqueue_lookup by lia. do 3 f_equal.
      rewrite <- (ring_slot (w + _)), <- (ring_slot (r + _)). f_equal.
      replace (Z.of_nat (i - length (rqueue data r w))) with (Z.of_nat i - rcount r w) by lia.
      unfold rcount. replace (w + (Z.of_nat i - (w - r) mod W)) with (w + Z.of_nat i - (w - r) mod W) by lia.
      rewrite Zminus_mod_idemp_r. f_equal. lia.
    + rewrite !lookup_ge_None_2; [done| |].
      * pose proof (length_rqueue data w e). pose proof (length_rqueue data r w). lia.
      * pose proof (length_rqueue data r e). lia.
Qed.

End ring.
