(* ===== verification/Virtio.v ===== *)
(** kernel/virtio_disk.c: the disk driver and its queues.

    The driver shares the descriptor table and the two rings with the device,
    which works concurrently: [vstep] interleaves the parts of virtio_disk_rw
    between its sleeps, the iterations of the interrupt handler, and the device,
    which takes requests from the avail ring and completes them in any order,
    with success or with an error.  A call that sleeps is in [vd_sleep] with its
    channel and takes no step until a wakeup() of that channel (or a kill of the
    process) removes it. *)

From stdpp Require Import gmap.
From S2P Require Import Prelude Riscv RingBuf Bytes Cache.

Definition NUM : Z := 8.
Definition VRING_DESC_F_NEXT : Z := 1.
Definition VRING_DESC_F_WRITE : Z := 2.
Definition VIRTIO_BLK_T_IN : Z := 0.
Definition VIRTIO_BLK_T_OUT : Z := 1.

(** The addresses in descriptors: &disk.ops[i], b->data, &disk.info[i].status. *)
Inductive ptr := P_null | P_ops (i : nat) | P_data (b : Z) | P_status (i : nat).

Record virtq_desc := mk_desc { d_addr : ptr; d_len : Z; d_flags : Z; d_next : nat }.
Record virtio_blk_req := mk_req { rq_type : Z; rq_reserved : Z; rq_sector : Z }.

(** disk.info[i] *)
Record op_info := mk_info { in_b : option Z; in_status : Z }.

(** The fields of struct buf that the driver uses. *)
Record vbuf := mk_vbuf { vb_blockno : Z; vb_disk : Z; vb_data : block }.

#[global] Instance virtq_desc_inhabited : Inhabited virtq_desc := populate (mk_desc P_null 0 0 0).
#[global] Instance virtio_blk_req_inhabited : Inhabited virtio_blk_req := populate (mk_req 0 0 0).
#[global] Instance op_info_inhabited : Inhabited op_info := populate (mk_info None 0).

(** The channels that calls sleep on: &disk.free[0] and the buffer. *)
Inductive vchan := Ch_free | Ch_buf (b : Z).

#[global] Instance vchan_eq : EqDecision vchan.
Proof. solve_decision. Defined.

(** struct disk, the rings that it points to, the buffers, and the calls of
    virtio_disk_rw that are asleep, by the buffer each works on. *)
Record vdisk := mk_vdisk {
  vd_desc : list virtq_desc;
  vd_avail_idx : Z;
  vd_avail_ring : list Z;
  vd_used_ridx : Z; (* disk.used->idx *)
  vd_used_ring : list Z;
  vd_free : list bool;
  vd_used_idx : Z;
  vd_info : list op_info;
  vd_ops : list virtio_blk_req;
  vd_bufs : gmap Z vbuf;
  vd_sleep : gmap Z vchan;
}.

Definition upd_desc f d := mk_vdisk (f (vd_desc d)) (vd_avail_idx d) (vd_avail_ring d) (vd_used_ridx d) (vd_used_ring d) (vd_free d) (vd_used_idx d) (vd_info d) (vd_ops d) (vd_bufs d) (vd_sleep d).
Definition upd_avail i r d := mk_vdisk (vd_desc d) i r (vd_used_ridx d) (vd_used_ring d) (vd_free d) (vd_used_idx d) (vd_info d) (vd_ops d) (vd_bufs d) (vd_sleep d).
Definition upd_used i r d := mk_vdisk (vd_desc d) (vd_avail_idx d) (vd_avail_ring d) i r (vd_free d) (vd_used_idx d) (vd_info d) (vd_ops d) (vd_bufs d) (vd_sleep d).
Definition upd_free f d := mk_vdisk (vd_desc d) (vd_avail_idx d) (vd_avail_ring d) (vd_used_ridx d) (vd_used_ring d) (f (vd_free d)) (vd_used_idx d) (vd_info d) (vd_ops d) (vd_bufs d) (vd_sleep d).
Definition set_used_idx i d := mk_vdisk (vd_desc d) (vd_avail_idx d) (vd_avail_ring d) (vd_used_ridx d) (vd_used_ring d) (vd_free d) i (vd_info d) (vd_ops d) (vd_bufs d) (vd_sleep d).
Definition upd_info f d := mk_vdisk (vd_desc d) (vd_avail_idx d) (vd_avail_ring d) (vd_used_ridx d) (vd_used_ring d) (vd_free d) (vd_used_idx d) (f (vd_info d)) (vd_ops d) (vd_bufs d) (vd_sleep d).
Definition upd_ops f d := mk_vdisk (vd_desc d) (vd_avail_idx d) (vd_avail_ring d) (vd_used_ridx d) (vd_used_ring d) (vd_free d) (vd_used_idx d) (vd_info d) (f (vd_ops d)) (vd_bufs d) (vd_sleep d).
Definition upd_bufs f d := mk_vdisk (vd_desc d) (vd_avail_idx d) (vd_avail_ring d) (vd_used_ridx d) (vd_used_ring d) (vd_free d) (vd_used_idx d) (vd_info d) (vd_ops d) (f (vd_bufs d)) (vd_sleep d).
Definition upd_sleep f d := mk_vdisk (vd_desc d) (vd_avail_idx d) (vd_avail_ring d) (vd_used_ridx d) (vd_used_ring d) (vd_free d) (vd_used_idx d) (vd_info d) (vd_ops d) (vd_bufs d) (f (vd_sleep d)).

Definition set_vb_disk (v : Z) (x : vbuf) : vbuf := mk_vbuf (vb_blockno x) v (vb_data x).
Definition set_vb_data (v : block) (x : vbuf) : vbuf := mk_vbuf (vb_blockno x) (vb_disk x) v.

(** sleep(c) of the call that works on [b]; wakeup(c). *)
Definition sleep_on (b : Z) (c : vchan) : M vdisk unit := modify (upd_sleep (<[b := c]>)).
Definition wakeup (c : vchan) : M vdisk unit := modify (upd_sleep (filter (fun bc => bc.2 <> c))).

(** ** Descriptors *)

Fixpoint find_free (l : list bool) : option nat :=
  match l with
  | [] => None
  | b :: l => if b : bool then Some 0%nat else S <$> find_free l
  end.

(** find a free descriptor, mark it non-free, return its index. *)
Definition alloc_desc : M vdisk (option nat) :=
  free ← gets vd_free;
  match find_free free with
  | None => mret None
  | Some i => modify (upd_free (<[i := false]>));; mret (Some i)
  end.

(** mark a descriptor as free. *)
Definition free_desc (i : nat) : M vdisk unit :=
  free ← gets vd_free;
  if NUM <=? Z.of_nat i then panic "free_desc 1"
  else if (free !!! i : bool) then panic "free_desc 2"
  else
    modify (upd_desc (<[i := mk_desc P_null 0 0 0]>));;
    modify (upd_free (<[i := true]>));;
    wakeup Ch_free.

(** free a chain of descriptors. *)
Fixpoint free_chain (k : nat) (i : nat) : M vdisk unit :=
  match k with
  | O => panic "out of fuel"
  | S k =>
      desc ← gets vd_desc;
      let flag := d_flags (desc !!! i) in
      let nxt := d_next (desc !!! i) in
      free_desc i;;
      if negb (Z.land flag VRING_DESC_F_NEXT =? 0) then free_chain k nxt else mret tt
  end.

(** allocate three descriptors (they need not be contiguous). *)
Definition alloc3_desc : M vdisk (option (nat * nat * nat)) :=
  a ← alloc_desc;
  match a with
  | None => mret None
  | Some i0 =>
      b ← alloc_desc;
      match b with
      | None => free_desc i0;; mret None
      | Some i1 =>
          c ← alloc_desc;
          match c with
          | None => free_desc i0;; free_desc i1;; mret None
          | Some i2 => mret (Some (i0, i1, i2))
          end
      end
  end.

(** ** virtio_disk_rw *)

(** uint64 sector = b->blockno * (BSIZE / 512), in 32 bits *)
Definition sector_of (blockno : Z) : Z := u32 (blockno * 2).

(** Format the three descriptors, record the buffer, and write the head into
    the avail ring. *)
Definition rw_fill (b : Z) (write : bool) (i0 i1 i2 : nat) : M vdisk unit :=
  bufs ← gets vd_bufs;
  match bufs !! b with
  | None => panic "no such buffer"
  | Some x =>
      modify (upd_ops (<[i0 := mk_req (if write then VIRTIO_BLK_T_OUT else VIRTIO_BLK_T_IN) 0 (sector_of (vb_blockno x))]>));;
      modify (upd_desc (<[i0 := mk_desc (P_ops i0) 16 VRING_DESC_F_NEXT i1]>));;
      modify (upd_desc (<[i1 := mk_desc (P_data b) 1024 (Z.lor (if write then 0 else VRING_DESC_F_WRITE) VRING_DESC_F_NEXT) i2]>));;
      modify (upd_info (fun l => <[i0 := mk_info (in_b (l !!! i0)) 255]> l));;
      modify (upd_desc (<[i2 := mk_desc (P_status i0) 1 VRING_DESC_F_WRITE 0]>));;
      modify (upd_bufs (alter (set_vb_disk 1) b));;
      modify (upd_info (fun l => <[i0 := mk_info (Some b) (in_status (l !!! i0))]> l));;
      modify (fun d => upd_avail (vd_avail_idx d) (<[Z.to_nat (vd_avail_idx d mod NUM) := Z.of_nat i0]> (vd_avail_ring d)) d)
  end.

(** From the entry, or from a wakeup, to the first barrier: the head of the
    chain, or nothing when the caller has gone to sleep on disk.free[0]. *)
Definition rw_begin (b : Z) (write : bool) : M vdisk (option nat) :=
  r ← alloc3_desc;
  match r with
  | None => sleep_on b Ch_free;; mret None
  | Some (i0, i1, i2) => rw_fill b write i0 i1 i2;; mret (Some i0)
  end.

(** disk.avail->idx += 1; then the device is notified. *)
Definition rw_publish : M vdisk unit := modify (fun d => upd_avail (u16 (vd_avail_idx d + 1)) (vd_avail_ring d) d).

(** When b->disk is no longer 1. *)
Definition rw_end (i0 : nat) : M vdisk unit :=
  modify (upd_info (fun l => <[i0 := mk_info None (in_status (l !!! i0))]> l));;
  free_chain (Z.to_nat NUM) i0.

(** while(b->disk == 1) sleep(b), and the end of the call: whether it is over. *)
Definition rw_wait (b : Z) (i0 : nat) : M vdisk bool :=
  bufs ← gets vd_bufs;
  match bufs !! b with
  | None => panic "no such buffer"
  | Some x => if vb_disk x =? 1 then sleep_on b (Ch_buf b);; mret false else rw_end i0;; mret true
  end.

(** ** virtio_disk_intr *)

(** One iteration of while(disk.used_idx != disk.used->idx), and whether there
    was anything to do. *)
Definition intr_one : M vdisk bool :=
  d ← gets id;
  if vd_used_idx d =? vd_used_ridx d then mret false
  else
    let i := Z.to_nat (vd_used_ring d !!! Z.to_nat (vd_used_idx d mod NUM)) in
    if negb (in_status (vd_info d !!! i) =? 0) then panic "virtio_disk_intr status"
    else
      match in_b (vd_info d !!! i) with
      | None => panic "page fault"
      | Some b =>
          modify (upd_bufs (alter (set_vb_disk 0) b));;
          wakeup (Ch_buf b);;
          modify (set_used_idx (u16 (vd_used_idx d + 1)));;
          mret true
      end.

Fixpoint intr_loop (k : nat) : M vdisk unit :=
  match k with
  | O => panic "out of fuel"
  | S k => more ← intr_one; if (more : bool) then intr_loop k else mret tt
  end.

Definition virtio_disk_intr : M vdisk unit := intr_loop (S (Z.to_nat NUM)).

(** ** The device *)

Record device := mk_device { dv_idx : Z; dv_q : list Z; dv_blocks : gmap Z block }.

(** The three descriptors are linked, and the device may write where it has to:
    the data of a read and the status. *)
Definition chain_flags (type f0 f1 f2 : Z) : bool :=
  negb (Z.land f0 VRING_DESC_F_NEXT =? 0) && negb (Z.land f1 VRING_DESC_F_NEXT =? 0) && (Z.land f2 VRING_DESC_F_NEXT =? 0) &&
  Bool.eqb (Z.land f1 VRING_DESC_F_WRITE =? 0) (type =? VIRTIO_BLK_T_OUT) && negb (Z.land f2 VRING_DESC_F_WRITE =? 0).

(** What the device does with the chain at [h]: the transfer that the request
    header and the descriptors describe, the status, and an entry in the used
    ring.  When it fails, with a status other than 0, what it was to write is
    [junk]. *)
Definition perform (h : nat) (st : Z) (junk : block) (d : vdisk) (v : device) : option (vdisk * device) :=
  let c0 := vd_desc d !!! h in
  let c1 := vd_desc d !!! d_next c0 in
  let c2 := vd_desc d !!! d_next c1 in
  match d_addr c0, d_addr c1, d_addr c2 with
  | P_ops i, P_data b, P_status j =>
      let rq := vd_ops d !!! i in
      match vd_bufs d !! b with
      | None => None
      | Some x =>
          let blockno := rq_sector rq / 2 in
          let moved (data : block) := if st =? 0 then data else junk in
          let done d := upd_used (u16 (vd_used_ridx d + 1)) (<[Z.to_nat (vd_used_ridx d mod NUM) := Z.of_nat h]> (vd_used_ring d))
                          (upd_info (fun l => <[j := mk_info (in_b (l !!! j)) st]> l) d) in
          if negb (chain_flags (rq_type rq) (d_flags c0) (d_flags c1) (d_flags c2)) then None
          else if rq_type rq =? VIRTIO_BLK_T_OUT then Some (done d, mk_device (dv_idx v) (dv_q v) (<[blockno := moved (vb_data x)]> (dv_blocks v)))
          else Some (done (upd_bufs (<[b := set_vb_data (moved (disk_get (dv_blocks v) blockno)) x]>) d), v)
      end
  | _, _, _ => None
  end.

(** ** The system *)

(** A call of virtio_disk_rw that has no descriptors yet, or that waits for the
    chain whose head it keeps in idx[0]. *)
Inductive vcall := C_alloc (write : bool) | C_wait (i0 : nat).

(** [sy_lock] is the chain whose head is in the ring but not yet published,
    while the caller holds vdisk_lock; [sy_calls] are the calls of
    virtio_disk_rw in progress.  A buffer that no call works on belongs to the
    rest of the kernel ([step_edit]). *)
Record sys := mk_sys { sy_drv : vdisk; sy_lock : option nat; sy_calls : gmap Z vcall; sy_dev : device }.

(** The calls after the one on [b] has tested b->disk. *)
Definition after_wait (over : bool) (b : Z) (calls : gmap Z vcall) : gmap Z vcall := if over then delete b calls else calls.

Inductive vstep : sys -> sys -> Prop :=
  | step_edit d lock calls v b x :
      calls !! b = None -> 0 <= vb_blockno x < 2147483648 ->
      vstep (mk_sys d lock calls v) (mk_sys (upd_bufs (<[b := x]>) d) lock calls v)
  | step_call d lock calls v b x write :
      vd_bufs d !! b = Some x -> calls !! b = None ->
      vstep (mk_sys d lock calls v) (mk_sys d lock (<[b := C_alloc write]> calls) v)
  | step_begin d calls v b write i0 d' :
      calls !! b = Some (C_alloc write) -> vd_sleep d !! b = None -> rw_begin b write d = Ok (Some i0, d') ->
      vstep (mk_sys d None calls v) (mk_sys d' (Some i0) (<[b := C_wait i0]> calls) v)
  | step_sleep d calls v b write d' :
      calls !! b = Some (C_alloc write) -> vd_sleep d !! b = None -> rw_begin b write d = Ok (None, d') ->
      vstep (mk_sys d None calls v) (mk_sys d' None calls v)
  | step_publish d i0 calls v b over d' :
      calls !! b = Some (C_wait i0) -> (rw_publish;; rw_wait b i0) d = Ok (over, d') ->
      vstep (mk_sys d (Some i0) calls v) (mk_sys d' None (after_wait over b calls) v)
  | step_wait d calls v b i0 over d' :
      calls !! b = Some (C_wait i0) -> vd_sleep d !! b = None -> rw_wait b i0 d = Ok (over, d') ->
      vstep (mk_sys d None calls v) (mk_sys d' None (after_wait over b calls) v)
  | step_kill d lock calls v b :   (* kill() makes a sleeping process runnable *)
      vstep (mk_sys d lock calls v) (mk_sys (upd_sleep (delete b) d) lock calls v)
  | step_intr d calls v more d' :
      intr_one d = Ok (more, d') -> vstep (mk_sys d None calls v) (mk_sys d' None calls v)
  | step_take d lock calls i q bl :
      i <> vd_avail_idx d ->
      vstep (mk_sys d lock calls (mk_device i q bl))
            (mk_sys d lock calls (mk_device (u16 (i + 1)) (vd_avail_ring d !!! Z.to_nat (i mod NUM) :: q) bl))
  | step_perform d lock calls i q1 h q2 bl st junk d' v' :
      perform (Z.to_nat h) st junk d (mk_device i (q1 ++ q2) bl) = Some (d', v') ->
      vstep (mk_sys d lock calls (mk_device i (q1 ++ h :: q2) bl)) (mk_sys d' lock calls v').

(** disk as virtio_disk_init leaves it, and the device with nothing to do. *)
Definition boot_vdisk (bufs : gmap Z vbuf) : vdisk :=
  mk_vdisk (replicate 8 (mk_desc P_null 0 0 0)) 0 (replicate 8 0) 0 (replicate 8 0) (replicate 8 true) 0
    (replicate 8 (mk_info None 0)) (replicate 8 (mk_req 0 0 0)) bufs ∅.

Definition boot_sys (bufs : gmap Z vbuf) (bl : gmap Z block) : sys := mk_sys (boot_vdisk bufs) None ∅ (mk_device 0 [] bl).

Definition vreachable (bufs : gmap Z vbuf) (bl : gmap Z block) (s : sys) : Prop := rtc vstep (boot_sys bufs bl) s.
