(* ===== verification/VirtioInv.v ===== *)
(** The invariant of the disk driver and its device: every call of
    virtio_disk_rw owns one chain of three descriptors, whose head is in
    exactly one place on its way through the rings. *)

From stdpp Require Import gmap.
From S2P Require Import Prelude Riscv RingBuf Bytes Cache Virtio.

(** ** Requests *)

Inductive phase := Filled | Avail | Taken | Used | Acked.

#[global] Instance phase_eq_dec : EqDecision phase.
Proof. solve_decision. Defined.

(** [r_st] is the status that the device gave it when it was done. *)
Record request := mk_request { r_b : Z; r_write : bool; r_blockno : Z; r_0 : nat; r_1 : nat; r_2 : nat; r_phase : phase; r_st : Z }.

Definition set_phase (p : phase) (r : request) : request := mk_request (r_b r) (r_write r) (r_blockno r) (r_0 r) (r_1 r) (r_2 r) p (r_st r).
Definition set_status (st : Z) (r : request) : request := mk_request (r_b r) (r_write r) (r_blockno r) (r_0 r) (r_1 r) (r_2 r) (r_phase r) st.
Definition chain_of (r : request) : list nat := [r_0 r; r_1 r; r_2 r].
Definition chains (rs : list request) : list nat := rs ≫= chain_of.

(** The heads of the requests in phase [p]. *)
Definition heads (p : phase) (rs : list request) : list Z := (fun r => Z.of_nat (r_0 r)) <$> filter (fun r => r_phase r = p) rs.

(** The device has done the transfer. *)
Definition performed (p : phase) : bool := match p with Used | Acked => true | _ => false end.

(** The driver's data about one request. *)
Record request_ok (d : vdisk) (r : request) : Prop := {
  ro_desc0 : vd_desc d !!! r_0 r = mk_desc (P_ops (r_0 r)) 16 VRING_DESC_F_NEXT (r_1 r);
  ro_desc1 : vd_desc d !!! r_1 r = mk_desc (P_data (r_b r)) 1024 (Z.lor (if r_write r then 0 else VRING_DESC_F_WRITE) VRING_DESC_F_NEXT) (r_2 r);
  ro_desc2 : vd_desc d !!! r_2 r = mk_desc (P_status (r_0 r)) 1 VRING_DESC_F_WRITE 0;
  ro_ops : vd_ops d !!! r_0 r = mk_req (if r_write r then VIRTIO_BLK_T_OUT else VIRTIO_BLK_T_IN) 0 (sector_of (r_blockno r));
  ro_info : vd_info d !!! r_0 r = mk_info (Some (r_b r)) (if performed (r_phase r) then r_st r else 255);
  ro_st : r_phase r = Acked -> r_st r = 0;
  ro_buf : exists data, vd_bufs d !! r_b r = Some (mk_vbuf (r_blockno r) (if decide (r_phase r = Acked) then 0 else 1) data);
}.

Record queues_ok (d : vdisk) (lock : option nat) (v : device) (rs : list request) : Prop := {
  qo_lens : length (vd_avail_ring d) = 8%nat /\ length (vd_used_ring d) = 8%nat;
  qo_idx : 0 <= vd_avail_idx d < 65536 /\ 0 <= vd_used_ridx d < 65536 /\ 0 <= vd_used_idx d < 65536 /\ 0 <= dv_idx v < 65536;
  qo_lock : heads Filled rs = Z.of_nat <$> option_list lock;
  qo_avail : rqueue NUM 65536 (vd_avail_ring d) (dv_idx v) (vd_avail_idx d) ≡ₚ heads Avail rs;
  qo_fresh : forall i, lock = Some i -> vd_avail_ring d !!! Z.to_nat (vd_avail_idx d mod NUM) = Z.of_nat i;
  qo_taken : dv_q v ≡ₚ heads Taken rs;
  qo_used : rqueue NUM 65536 (vd_used_ring d) (vd_used_idx d) (vd_used_ridx d) ≡ₚ heads Used rs;
}.

Record vinv (s : sys) (rs : list request) : Prop := {
  iv_lens : length (vd_desc (sy_drv s)) = 8%nat /\ length (vd_free (sy_drv s)) = 8%nat /\ length (vd_info (sy_drv s)) = 8%nat /\ length (vd_ops (sy_drv s)) = 8%nat;
  iv_nodup : NoDup (chains rs);
  iv_range : forall i, i ∈ chains rs -> (i < 8)%nat;
  iv_free : forall i, (i < 8)%nat -> vd_free (sy_drv s) !!! i = bool_decide (i ∉ chains rs);
  iv_ok : Forall (request_ok (sy_drv s)) rs;
  iv_bufs : NoDup (r_b <$> rs);
  iv_calls : forall b i, sy_calls s !! b = Some (C_wait i) <-> exists r, r ∈ rs /\ r_b r = b /\ r_0 r = i;
  iv_blocks : forall b x, vd_bufs (sy_drv s) !! b = Some x -> 0 <= vb_blockno x < 2147483648;
  iv_queues : queues_ok (sy_drv s) (sy_lock s) (sy_dev s) rs;
}.

Lemma chains_perm rs rs' : rs ≡ₚ rs' -> chains rs ≡ₚ chains rs'.
Proof. intros H. unfold chains. by rewrite H. Qed.

Lemma chains_cons r rs : chains (r :: rs) = chain_of r ++ chains rs.
Proof. done. Qed.

Lemma heads_perm p rs rs' : rs ≡ₚ rs' -> heads p rs ≡ₚ heads p rs'.
Proof. intros H. unfold heads. by rewrite H. Qed.

Lemma heads_cons p r rs : heads p (r :: rs) = if decide (r_phase r = p) then Z.of_nat (r_0 r) :: heads p rs else heads p rs.
Proof. unfold heads. rewrite filter_cons. by case_decide. Qed.

Lemma heads_in p h rs : h ∈ heads p rs -> exists r rs', rs ≡ₚ r :: rs' /\ h = Z.of_nat (r_0 r) /\ r_phase r = p.
Proof.
  unfold heads. intros (r & -> & [Hp Hr]%list_elem_of_filter)%list_elem_of_fmap. apply elem_of_Permutation in Hr as [rs' Hr]. by exists r, rs'.
Qed.

(** The order of the requests does not matter. *)
Lemma queues_perm d lock v rs rs' : rs ≡ₚ rs' -> queues_ok d lock v rs -> queues_ok d lock v rs'.
Proof.
  intros Hp [I1 I2 I9 I10 I11 I12 I13]. split; auto; rewrite <- ?(heads_perm _ _ _ Hp); auto.
  pose proof (heads_perm Filled _ _ Hp) as Hh. rewrite I9 in Hh. destruct lock as [i|]; cbn in *; [|by apply Permutation_nil in Hh].
  symmetry in Hh. by apply Permutation_singleton_r in Hh.
Qed.

Lemma vinv_perm s rs rs' : rs ≡ₚ rs' -> vinv s rs -> vinv s rs'.
Proof.
  intros Hp [I1 I3 I4 I5 I6 I7 I8 I14 IQ]. pose proof (chains_perm _ _ Hp) as Hc. split; auto.
  - by rewrite <- Hc.
  - intros i. rewrite <- Hc. apply I4.
  - intros i Hi. rewrite I5 by done. apply bool_decide_ext. by rewrite Hc.
  - by rewrite <- Hp.
  - by rewrite <- Hp.
  - intros b i. rewrite I8. setoid_rewrite Hp. done.
  - by apply (queues_perm _ _ _ rs).
Qed.

(** Eight descriptors make two chains. *)
Lemma vinv_few s rs : vinv s rs -> (length rs <= 2)%nat.
Proof.
  intros Hi. assert (Hl : length (chains rs) = (3 * length rs)%nat) by (clear; induction rs as [|r rs IH]; [done|]; rewrite chains_cons, length_app, IH; cbn; lia).
  assert (Hs : (length (chains rs) <= length (seq 0 8))%nat). { apply submseteq_length, NoDup_submseteq; [apply (iv_nodup _ _ Hi)|]. intros i H. apply elem_of_seq. pose proof (iv_range _ _ Hi i H). lia. }
  rewrite length_seq in Hs. lia.
Qed.

Lemma heads_length p rs : (length (heads p rs) <= length rs)%nat.
Proof. unfold heads. rewrite length_fmap. apply length_filter. Qed.

(** [d'] agrees with [d] on what a request uses. *)
Definition same_request (d d' : vdisk) (r : request) : Prop :=
  (forall i, i ∈ chain_of r -> vd_desc d' !!! i = vd_desc d !!! i) /\ vd_ops d' !!! r_0 r = vd_ops d !!! r_0 r /\ vd_info d' !!! r_0 r = vd_info d !!! r_0 r /\ vd_bufs d' !! r_b r = vd_bufs d !! r_b r.

Lemma request_frame d d' r : same_request d d' r -> request_ok d r -> request_ok d' r.
Proof.
  intros (H1 & H2 & H3 & H4) [O1 O2 O3 O4 O5 OS O6]. split.
  - rewrite H1; [done|set_solver].
  - rewrite H1; [done|set_solver].
  - rewrite H1; [done|set_solver].
  - by rewrite H2.
  - by rewrite H3.
  - done.
  - by rewrite H4.
Qed.

(** ** Descriptors *)

Lemma vdisk_ext d d' :
  vd_desc d = vd_desc d' -> vd_avail_idx d = vd_avail_idx d' -> vd_avail_ring d = vd_avail_ring d' -> vd_used_ridx d = vd_used_ridx d' -> vd_used_ring d = vd_used_ring d' ->
  vd_free d = vd_free d' -> vd_used_idx d = vd_used_idx d' -> vd_info d = vd_info d' -> vd_ops d = vd_ops d' -> vd_bufs d = vd_bufs d' -> vd_sleep d = vd_sleep d' -> d = d'.
Proof. destruct d, d'. cbn. by intros -> -> -> -> -> -> -> -> -> -> ->. Qed.

Lemma alter_Some {A} (f : A -> A) (m : gmap Z A) b x : m !! b = Some x -> alter f b m = <[b := f x]> m.
Proof. intros E. apply map_eq. intros j. destruct (decide (j = b)) as [->|Hne]; [by rewrite lookup_alter_eq, lookup_insert_eq, E|by rewrite lookup_alter_ne, lookup_insert_ne]. Qed.

Lemma find_free_spec l : match find_free l with Some i => l !! i = Some true | None => forall i, l !! i <> Some true end.
Proof.
  induction l as [|[] l IH]; cbn; [done|done|]. destruct (find_free l) as [i|]; cbn; [done|]. intros [|i]; [done|]. apply IH.
Qed.

Lemma alloc_desc_run d :
  (exists i, alloc_desc d = Ok (Some i, upd_free (<[i := false]>) d) /\ vd_free d !! i = Some true) \/ alloc_desc d = Ok (None, d).
Proof.
  unfold alloc_desc. rewrite bind_run, gets_run. pose proof (find_free_spec (vd_free d)) as H. destruct (find_free (vd_free d)) as [i|]; [left|by right]. by exists i.
Qed.

Definition zero_desc (i : nat) (d : vdisk) : vdisk := upd_sleep (filter (fun bc => bc.2 <> Ch_free)) (upd_free (<[i := true]>) (upd_desc (<[i := mk_desc P_null 0 0 0]>) d)).

Lemma free_desc_run d i : length (vd_free d) = 8%nat -> vd_free d !! i = Some false -> free_desc i d = Ok (tt, zero_desc i d).
Proof.
  intros Hl Hf. pose proof (lookup_lt_Some _ _ _ Hf) as Hi. unfold free_desc. rewrite bind_run, gets_run. unfold NUM. rewrite (proj2 (Z.leb_gt _ _)) by lia.
  by rewrite (list_lookup_total_correct _ _ _ Hf).
Qed.

Definition taken3 (i0 i1 i2 : nat) (l : list bool) : list bool := <[i2 := false]> (<[i1 := false]> (<[i0 := false]> l)).

(** Some descriptors that are not in use were cleared, some calls woken. *)
Definition cleared (d d' : vdisk) : Prop :=
  d' = upd_sleep (fun _ => vd_sleep d') (upd_desc (fun _ => vd_desc d') d) /\ length (vd_desc d') = length (vd_desc d) /\
  (forall i, vd_free d !! i = Some false -> vd_desc d' !!! i = vd_desc d !!! i) /\ vd_sleep d' ⊆ vd_sleep d.

(** At most two descriptors are free. *)
Definition few_free (d : vdisk) : Prop := exists l, (length l <= 2)%nat /\ forall i, vd_free d !! i = Some true -> i ∈ l.

Lemma alloc_desc_none d : alloc_desc d = Ok (None, d) -> forall i, vd_free d !! i <> Some true.
Proof.
  unfold alloc_desc. rewrite bind_run, gets_run. pose proof (find_free_spec (vd_free d)) as H. by destruct (find_free (vd_free d)).
Qed.

Lemma alloc3_run d : length (vd_free d) = 8%nat ->
  (exists i0 i1 i2, alloc3_desc d = Ok (Some (i0, i1, i2), upd_free (taken3 i0 i1 i2) d) /\ NoDup [i0; i1; i2] /\ forall i, i ∈ [i0; i1; i2] -> vd_free d !! i = Some true) \/
  (exists d', alloc3_desc d = Ok (None, d') /\ cleared d d' /\ few_free d).
Proof.
  intros Hl. unfold alloc3_desc. destruct (alloc_desc_run d) as [(i0 & E0 & H0)|E0]; rewrite (bind_Ok _ _ _ _ _ E0).
  2: { right. exists d. split; [done|]. split; [by split_and!; [destruct d|..]|]. exists []. split; [cbn; lia|]. intros i Hi. by destruct (alloc_desc_none d E0 i). }
  set (d1 := upd_free _ d) in *. pose proof (lookup_lt_Some _ _ _ H0) as L0. assert (Hz : forall l : list bool, l !! i0 = Some true -> <[i0 := true]> (<[i0 := false]> l) = l) by (intros l E; by rewrite list_insert_insert_eq, list_insert_id).
  assert (F1 : vd_free d1 = <[i0 := false]> (vd_free d)) by done. destruct (alloc_desc_run d1) as [(i1 & E1 & H1)|E1]; rewrite (bind_Ok _ _ _ _ _ E1).
  2: { right. assert (Ef : free_desc i0 d1 = Ok (tt, zero_desc i0 d1)) by (apply free_desc_run; rewrite F1; [by rewrite length_insert|by rewrite list_lookup_insert_eq]).
       rewrite (bind_Ok _ _ _ _ _ Ef). eexists. split; [done|]. split.
       - split; [unfold zero_desc, d1, upd_free, upd_desc, upd_sleep; cbn; f_equal; by apply Hz|]. split; [cbn; by rewrite length_insert|]. split; [|apply map_filter_subseteq].
         intros i Hi. cbn. rewrite list_lookup_total_insert_ne; [done|]. intros <-. by rewrite H0 in Hi.
       - exists [i0]. split; [cbn; lia|]. intros i Hi. apply list_elem_of_singleton. destruct (decide (i = i0)) as [|Hne]; [done|].
         destruct (alloc_desc_none d1 E1 i). by rewrite F1, list_lookup_insert_ne. }
  rewrite F1 in H1. assert (N01 : i1 <> i0) by (intros ->; by rewrite list_lookup_insert_eq in H1). rewrite list_lookup_insert_ne in H1 by done. pose proof (lookup_lt_Some _ _ _ H1) as L1.
  set (d2 := upd_free _ d1) in *. assert (F2 : vd_free d2 = <[i1 := false]> (<[i0 := false]> (vd_free d))) by done. destruct (alloc_desc_run d2) as [(i2 & E2 & H2)|E2]; rewrite (bind_Ok _ _ _ _ _ E2).
  - left. rewrite F2 in H2. assert (N02 : i2 <> i0 /\ i2 <> i1). { split; intros ->; [rewrite list_lookup_insert_ne, list_lookup_insert_eq in H2 by done|rewrite list_lookup_insert_eq in H2 by (rewrite length_insert; lia)]; done. }
    destruct N02 as [N02 N12]. rewrite !list_lookup_insert_ne in H2 by done. exists i0, i1, i2. split; [done|]. split; [|set_solver]. repeat constructor; set_solver.
  - right. assert (Ef : free_desc i0 d2 = Ok (tt, zero_desc i0 d2)) by (apply free_desc_run; rewrite F2; [by rewrite !length_insert|by rewrite list_lookup_insert_ne, list_lookup_insert_eq]).
    rewrite (bind_Ok _ _ _ _ _ Ef). set (d3 := zero_desc i0 d2) in *. assert (F3 : vd_free d3 = <[i1 := false]> (vd_free d)).
    { change (vd_free d3) with (<[i0 := true]> (vd_free d2)). rewrite F2, (list_insert_insert_ne _ i0 i1), list_insert_insert_eq, (list_insert_id (vd_free d) i0 true) by done. done. }
    assert (Ef1 : free_desc i1 d3 = Ok (tt, zero_desc i1 d3)) by (apply free_desc_run; rewrite F3; [by rewrite !length_insert|by rewrite list_lookup_insert_eq]).
    rewrite (bind_Ok _ _ _ _ _ Ef1). eexists. split; [done|]. split.
    + split.
      * assert (F4 : vd_free (zero_desc i1 d3) = vd_free d) by (change (vd_free (zero_desc i1 d3)) with (<[i1 := true]> (vd_free d3)); by rewrite F3, list_insert_insert_eq, list_insert_id).
        unfold upd_desc, upd_sleep. cbn [vd_free]. rewrite <- F4. reflexivity.
      * split; [cbn; by rewrite !length_insert|]. split; [|etrans; apply map_filter_subseteq]. intros i Hi. cbn. rewrite !list_lookup_total_insert_ne; [done| |]; intros <-; congruence.
    + exists [i0; i1]. split; [done|]. intros i Hi. rewrite elem_of_cons, list_elem_of_singleton. destruct (decide (i = i0)) as [|Hne]; [by left|]. destruct (decide (i = i1)) as [|Hne']; [by right|].
      destruct (alloc_desc_none d2 E2 i). by rewrite F2, !list_lookup_insert_ne.
Qed.

(** ** What the driver promises: calls on a disk that transfers each block
    in one action *)

Inductive progress := Submitted | Performed | Failed | Finished.

Record astate := mk_astate { a_calls : gmap Z (bool * progress); a_bufs : gmap Z (Z * block); a_blocks : gmap Z block }.

Inductive astep : astate -> astate -> Prop :=
  | a_edit calls bufs bl b n data : calls !! b = None -> astep (mk_astate calls bufs bl) (mk_astate calls (<[b := (n, data)]> bufs) bl)
  | a_submit calls bufs bl b w : calls !! b = None -> astep (mk_astate calls bufs bl) (mk_astate (<[b := (w, Submitted)]> calls) bufs bl)
  | a_write calls bufs bl b n data : calls !! b = Some (true, Submitted) -> bufs !! b = Some (n, data) ->
      astep (mk_astate calls bufs bl) (mk_astate (<[b := (true, Performed)]> calls) bufs (<[n := data]> bl))
  | a_read calls bufs bl b n data : calls !! b = Some (false, Submitted) -> bufs !! b = Some (n, data) ->
      astep (mk_astate calls bufs bl) (mk_astate (<[b := (false, Performed)]> calls) (<[b := (n, disk_get bl n)]> bufs) bl)
  | a_fail_write calls bufs bl b n data junk : calls !! b = Some (true, Submitted) -> bufs !! b = Some (n, data) ->
      astep (mk_astate calls bufs bl) (mk_astate (<[b := (true, Failed)]> calls) bufs (<[n := junk]> bl))
  | a_fail_read calls bufs bl b n data junk : calls !! b = Some (false, Submitted) -> bufs !! b = Some (n, data) ->
      astep (mk_astate calls bufs bl) (mk_astate (<[b := (false, Failed)]> calls) (<[b := (n, junk)]> bufs) bl)
  | a_finish calls bufs bl b w : calls !! b = Some (w, Performed) -> astep (mk_astate calls bufs bl) (mk_astate (<[b := (w, Finished)]> calls) bufs bl)
  | a_return calls bufs bl b w : calls !! b = Some (w, Finished) -> astep (mk_astate calls bufs bl) (mk_astate (delete b calls) bufs bl).

Definition progress_of (r : request) : progress :=
  match r_phase r with Filled | Avail | Taken => Submitted | Used => if r_st r =? 0 then Performed else Failed | Acked => Finished end.

Definition calls_of (rs : list request) : gmap Z (bool * progress) := list_to_map ((fun r => (r_b r, (r_write r, progress_of r))) <$> rs).

(** The calls that have no descriptors yet. *)
Definition waiting (calls : gmap Z vcall) : gmap Z (bool * progress) :=
  omap (fun c => match c with C_alloc w => Some (w, Submitted) | C_wait _ => None end) calls.

Definition bufs_of (d : vdisk) : gmap Z (Z * block) := (fun x => (vb_blockno x, vb_data x)) <$> vd_bufs d.
Definition abs (s : sys) (rs : list request) : astate := mk_astate (calls_of rs ∪ waiting (sy_calls s)) (bufs_of (sy_drv s)) (dv_blocks (sy_dev s)).

Lemma calls_of_cons r rs : calls_of (r :: rs) = <[r_b r := (r_write r, progress_of r)]> (calls_of rs).
Proof. done. Qed.

Lemma calls_of_perm rs rs' : NoDup (r_b <$> rs) -> rs ≡ₚ rs' -> calls_of rs = calls_of rs'.
Proof. intros Hn Hp. unfold calls_of. apply list_to_map_proper; [|by rewrite Hp]. rewrite <- list_fmap_compose. exact Hn. Qed.

Lemma calls_of_None rs b : b ∉ r_b <$> rs -> calls_of rs !! b = None.
Proof. intros Hb. apply not_elem_of_list_to_map_1. by rewrite <- list_fmap_compose. Qed.

Lemma lookup_waiting calls b : waiting calls !! b = match calls !! b with Some (C_alloc w) => Some (w, Submitted) | _ => None end.
Proof. unfold waiting. rewrite lookup_omap. by destruct (calls !! b) as [[]|]. Qed.

(** ** The beginning of a call *)

Definition filled (b : Z) (write : bool) (x : vbuf) (i0 i1 i2 : nat) (d : vdisk) : vdisk :=
  mk_vdisk (<[i2 := mk_desc (P_status i0) 1 VRING_DESC_F_WRITE 0]> (<[i1 := mk_desc (P_data b) 1024 (Z.lor (if write then 0 else VRING_DESC_F_WRITE) VRING_DESC_F_NEXT) i2]>
             (<[i0 := mk_desc (P_ops i0) 16 VRING_DESC_F_NEXT i1]> (vd_desc d))))
    (vd_avail_idx d) (<[Z.to_nat (vd_avail_idx d mod NUM) := Z.of_nat i0]> (vd_avail_ring d)) (vd_used_ridx d) (vd_used_ring d) (taken3 i0 i1 i2 (vd_free d)) (vd_used_idx d)
    (<[i0 := mk_info (Some b) 255]> (vd_info d)) (<[i0 := mk_req (if write then VIRTIO_BLK_T_OUT else VIRTIO_BLK_T_IN) 0 (sector_of (vb_blockno x))]> (vd_ops d))
    (<[b := set_vb_disk 1 x]> (vd_bufs d)) (vd_sleep d).

Lemma rw_begin_run d b write x :
  length (vd_free d) = 8%nat -> length (vd_info d) = 8%nat -> vd_bufs d !! b = Some x ->
  (exists i0 i1 i2, rw_begin b write d = Ok (Some i0, filled b write x i0 i1 i2 d) /\ NoDup [i0; i1; i2] /\ forall i, i ∈ [i0; i1; i2] -> vd_free d !! i = Some true) \/
  (exists d', rw_begin b write d = Ok (None, upd_sleep (<[b := Ch_free]>) d') /\ cleared d d' /\ few_free d).
Proof.
  intros Hl Hi Hx. unfold rw_begin. destruct (alloc3_run d Hl) as [(i0 & i1 & i2 & E & Hn & Hf)|(d' & E & Hc)]; rewrite (bind_Ok _ _ _ _ _ E); [left|right; by exists d'].
  exists i0, i1, i2. split; [|done]. assert (Ef : rw_fill b write i0 i1 i2 (upd_free (taken3 i0 i1 i2) d) = Ok (tt, filled b write x i0 i1 i2 d)).
  { unfold rw_fill. rewrite bind_run, gets_run. cbn [upd_free vd_bufs]. rewrite Hx. 
    assert (Ea : alter (set_vb_disk 1) b (vd_bufs d) = <[b := set_vb_disk 1 x]> (vd_bufs d)) by (by apply alter_Some).
    assert (L0 : (i0 < length (vd_info d))%nat) by (rewrite Hi, <- Hl; eapply lookup_lt_Some, Hf; set_solver).
    do 7 (rewrite bind_run, modify_run; cbv beta iota). rewrite modify_run. do 2 f_equal. apply vdisk_ext; try reflexivity; [|exact Ea].
    change (<[i0 := mk_info (Some b) (in_status (<[i0 := mk_info (in_b (vd_info d !!! i0)) 255]> (vd_info d) !!! i0))]> (<[i0 := mk_info (in_b (vd_info d !!! i0)) 255]> (vd_info d)) = <[i0 := mk_info (Some b) 255]> (vd_info d)).
    by rewrite list_lookup_total_insert_eq, list_insert_insert_eq. }
  by rewrite (bind_Ok _ _ _ _ _ Ef).
Qed.

(** Free descriptors belong to no chain. *)
Lemma free_not_chain s rs i : vinv s rs -> vd_free (sy_drv s) !! i = Some true -> i ∉ chains rs /\ (i < 8)%nat.
Proof.
  intros Hi Hf. destruct (iv_lens _ _ Hi) as (_ & L & _). pose proof (lookup_lt_Some _ _ _ Hf) as Hl. rewrite L in Hl. split; [|done].
  pose proof (iv_free _ _ Hi i Hl) as E. rewrite (list_lookup_total_correct _ _ _ Hf) in E. symmetry in E. by apply bool_decide_eq_true in E.
Qed.

Lemma taken3_lookup i0 i1 i2 l i : (i < length l)%nat -> taken3 i0 i1 i2 l !!! i = if decide (i ∈ [i0; i1; i2]) then false else l !!! i.
Proof.
  intros Hi. unfold taken3. destruct (decide (i = i2)) as [->|N2]; [rewrite list_lookup_total_insert_eq, decide_True by (rewrite ?length_insert; done || set_solver); done|rewrite list_lookup_total_insert_ne by done].
  destruct (decide (i = i1)) as [->|N1]; [rewrite list_lookup_total_insert_eq, decide_True by (rewrite ?length_insert; done || set_solver); done|rewrite list_lookup_total_insert_ne by done].
  destruct (decide (i = i0)) as [->|N0]; [rewrite list_lookup_total_insert_eq, decide_True by (done || set_solver); done|rewrite list_lookup_total_insert_ne by done].
  rewrite decide_False; [done|]. set_solver.
Qed.

(** The queue is short, so the slot after it is not in it. *)
Lemma heads_short s rs p : vinv s rs -> Z.of_nat (length (heads p rs)) <= 2.
Proof. intros Hi. pose proof (vinv_few _ _ Hi). pose proof (heads_length p rs). lia. Qed.

Lemma avail_count s rs : vinv s rs -> 0 <= rcount 65536 (dv_idx (sy_dev s)) (vd_avail_idx (sy_drv s)) <= 2.
Proof.
  intros Hi. pose proof (heads_short s rs Avail Hi) as Hs. rewrite <- (Permutation_length (qo_avail _ _ _ _ (iv_queues _ _ Hi))) in Hs. rewrite (length_rqueue NUM 65536) in Hs by lia. split; [apply rcount_range; lia|done].
Qed.

Lemma used_count s rs : vinv s rs -> 0 <= rcount 65536 (vd_used_idx (sy_drv s)) (vd_used_ridx (sy_drv s)) <= 2.
Proof.
  intros Hi. pose proof (heads_short s rs Used Hi) as Hs. rewrite <- (Permutation_length (qo_used _ _ _ _ (iv_queues _ _ Hi))) in Hs. rewrite (length_rqueue NUM 65536) in Hs by lia. split; [apply rcount_range; lia|done].
Qed.

Lemma call_request s rs b : vinv s rs -> (forall i, sy_calls s !! b <> Some (C_wait i)) -> b ∉ r_b <$> rs.
Proof. intros Hi Hc (r & -> & Hr)%list_elem_of_fmap. apply (Hc (r_0 r)), (iv_calls _ _ Hi). by exists r. Qed.

Lemma in_chains r rs i : r ∈ rs -> i ∈ chain_of r -> i ∈ chains rs.
Proof. intros Hr Hi. apply list_elem_of_bind. eauto. Qed.

Lemma NUM_divides : (NUM | 65536).
Proof. by exists 8192. Qed.

Lemma ring_range a : (Z.to_nat (a mod NUM) < 8)%nat.
Proof. unfold NUM. pose proof (Z.mod_pos_bound a 8 ltac:(lia)). lia. Qed.

Lemma begin_queues d v rs b x write i0 i1 i2 :
  0 <= rcount 65536 (dv_idx v) (vd_avail_idx d) <= 2 -> queues_ok d None v rs ->
  queues_ok (filled b write x i0 i1 i2 d) (Some i0) v (mk_request b write (vb_blockno x) i0 i1 i2 Filled 255 :: rs).
Proof.
  intros Hcnt [[L1 L2] I2 I9 I10 I11 I12 I13]. split; rewrite ?heads_cons; cbn [r_phase r_0]; rewrite ?decide_True, ?decide_False by done; cbn [filled vd_avail_ring vd_used_ring vd_avail_idx vd_used_ridx vd_used_idx]; auto.
  - by rewrite length_insert.
  - by rewrite I9.
  - rewrite <- (rcount_slot NUM 65536 ltac:(done) ltac:(lia) NUM_divides (dv_idx v) (vd_avail_idx d)). rewrite rqueue_insert by (done || unfold NUM; lia). done.
  - intros i [= <-]. apply list_lookup_total_insert_eq. rewrite L1. apply ring_range.
Qed.

(** The new request has its descriptors, and the others keep theirs. *)
Lemma filled_ok d rs b x write i0 i1 i2 :
  length (vd_desc d) = 8%nat -> length (vd_info d) = 8%nat -> length (vd_ops d) = 8%nat -> NoDup [i0; i1; i2] -> (forall i, i ∈ [i0; i1; i2] -> i ∉ chains rs /\ (i < 8)%nat) -> b ∉ r_b <$> rs ->
  Forall (request_ok d) rs -> Forall (request_ok (filled b write x i0 i1 i2 d)) (mk_request b write (vb_blockno x) i0 i1 i2 Filled 255 :: rs).
Proof.
  intros L1 L5 L6 Hn Hfr Hb I6. set (r := mk_request _ _ _ _ _ _ _ _). destruct (Hfr i0) as [C0 R0]; [set_solver|]. destruct (Hfr i1) as [C1 R1]; [set_solver|]. destruct (Hfr i2) as [C2 R2]; [set_solver|].
  assert (Hd : i0 <> i1 /\ i0 <> i2 /\ i1 <> i2) by (rewrite !NoDup_cons in Hn; set_solver). destruct Hd as (N01 & N02 & N12). constructor.
  - split; cbn [r_0 r_1 r_2 r_b r_write r_blockno r_phase r_st vd_desc vd_info vd_ops vd_bufs r filled].
    + rewrite !list_lookup_total_insert_ne, list_lookup_total_insert_eq by (done || lia). done.
    + rewrite list_lookup_total_insert_ne, list_lookup_total_insert_eq by (rewrite ?length_insert; done || lia). done.
    + rewrite list_lookup_total_insert_eq by (rewrite !length_insert; lia). done.
    + rewrite list_lookup_total_insert_eq by lia. done.
    + rewrite list_lookup_total_insert_eq by lia. done.
    + done.
    + exists (vb_data x). by rewrite lookup_insert_eq.
  - apply Forall_forall. intros r' Hr'. rewrite Forall_forall in I6. apply (request_frame d); [|by apply I6]. pose proof (in_chains r' rs) as Hch.
    split_and!; cbn [vd_desc vd_info vd_ops vd_bufs filled].
    + intros i Hin. apply Hch in Hin; [|done]. rewrite !list_lookup_total_insert_ne; [done| | |]; intros ->; done.
    + rewrite list_lookup_total_insert_ne; [done|]. intros ->. apply C0, Hch; [done|]. by left.
    + rewrite list_lookup_total_insert_ne; [done|]. intros ->. apply C0, Hch; [done|]. by left.
    + rewrite lookup_insert_ne; [done|]. intros ->. apply Hb. apply list_elem_of_fmap. by exists r'.
Qed.

Lemma begin_inv d calls v rs b x write i0 i1 i2 :
  vinv (mk_sys d None calls v) rs -> vd_bufs d !! b = Some x -> calls !! b = Some (C_alloc write) -> NoDup [i0; i1; i2] -> (forall i, i ∈ [i0; i1; i2] -> vd_free d !! i = Some true) ->
  vinv (mk_sys (filled b write x i0 i1 i2 d) (Some i0) (<[b := C_wait i0]> calls) v) (mk_request b write (vb_blockno x) i0 i1 i2 Filled 255 :: rs).
Proof.
  intros Hi Hx Hc Hn Hf. pose proof Hi as [(L1 & L4 & L5 & L6) I3 I4 I5 I6 I7 I8 I14 IQ]. cbn [sy_drv sy_dev sy_lock sy_calls] in *.
  assert (Hb : b ∉ r_b <$> rs) by (apply (call_request _ _ b Hi); intros i; cbn [sy_calls]; by rewrite Hc). assert (Hfr : forall i, i ∈ [i0; i1; i2] -> i ∉ chains rs /\ (i < 8)%nat) by (intros i Hin; by apply (free_not_chain _ _ _ Hi), Hf).
  split; cbn [sy_drv sy_dev sy_lock sy_calls].
  - cbn. unfold taken3. by rewrite !length_insert.
  - rewrite chains_cons. apply NoDup_app. split_and!; [done|intros i Hin; by apply Hfr|done].
  - intros i. rewrite chains_cons, elem_of_app. intros [Hin|Hin]; [by apply Hfr|by apply I4].
  - intros i Hi8. cbn [filled vd_free]. rewrite taken3_lookup by lia. rewrite I5 by done. rewrite chains_cons. change (chain_of _) with [i0; i1; i2].
    case_decide as Hin; [symmetry; apply bool_decide_eq_false; rewrite elem_of_app; tauto|apply bool_decide_ext; rewrite elem_of_app; tauto].
  - by apply filled_ok.
  - cbn. by apply NoDup_cons.
  - intros b' i. destruct (decide (b' = b)) as [->|Hne].
    + rewrite lookup_insert_eq. split; [intros [= <-]; eexists; split; [by left|done]|]. intros (r' & [->|Hr']%elem_of_cons & E1 & E2); [by rewrite <- E2|]. destruct Hb. apply list_elem_of_fmap. by exists r'.
    + rewrite lookup_insert_ne, I8 by done. split; intros (r' & Hr' & E1 & E2); exists r'; [by split; [right|]|]. apply elem_of_cons in Hr' as [->|Hr']; [by destruct Hne|done].
  - intros b' y. cbn [filled vd_bufs]. destruct (decide (b' = b)) as [->|Hne]; [rewrite lookup_insert_eq|rewrite lookup_insert_ne by done; by apply I14]. intros [= <-]. cbn. by eapply I14.
  - apply begin_queues; [|done]. apply (avail_count _ _ Hi).
Qed.
