(* ===== verification/VirtioProps.v ===== *)
(** The steps of the disk driver and the device keep the invariant of
    VirtioInv.v, and the interleaved system refines a disk on which every
    transfer is one atomic action between the call and the return. *)

From stdpp Require Import gmap.
From S2P Require Import Prelude Riscv RingBuf Bytes Cache Virtio VirtioInv.

(** ** One request moves on *)

Lemma chain_set_phase p r : chain_of (set_phase p r) = chain_of r.
Proof. done. Qed.

Lemma chains_disjoint r r' rs i : NoDup (chains (r :: rs)) -> r' ∈ rs -> i ∈ chain_of r' -> i ∉ chain_of r.
Proof. rewrite chains_cons. intros (_ & H & _)%NoDup_app Hr Hi Hin. exact (H i Hin (in_chains _ _ _ Hr Hi)). Qed.

Lemma other_buf r r' rs : NoDup (r_b <$> r :: rs) -> r' ∈ rs -> r_b r' <> r_b r.
Proof. rewrite fmap_cons. intros [H _]%NoDup_cons Hr E. apply H. rewrite <- E. apply list_elem_of_fmap. by exists r'. Qed.

(** Request [r] changes its phase; only its status and its buffer change. *)
Lemma vinv_phase s r rs d' lock' v' p :
  vinv s (r :: rs) -> vd_desc d' = vd_desc (sy_drv s) -> vd_free d' = vd_free (sy_drv s) -> vd_ops d' = vd_ops (sy_drv s) -> length (vd_info d') = 8%nat ->
  (forall i, i <> r_0 r -> vd_info d' !!! i = vd_info (sy_drv s) !!! i) -> (forall b, b <> r_b r -> vd_bufs d' !! b = vd_bufs (sy_drv s) !! b) ->
  request_ok d' (set_phase p r) -> queues_ok d' lock' v' (set_phase p r :: rs) -> vinv (mk_sys d' lock' (sy_calls s) v') (set_phase p r :: rs).
Proof.
  intros [(L1 & L4 & L5 & L6) I3 I4 I5 I6 I7 I8 I14 IQ] Ed Ef Eo Li Hinf Hbuf Hok HQ. apply Forall_cons in I6 as [Hr I6]. split; cbn [sy_drv sy_calls sy_lock sy_dev]; auto.
  - by rewrite Ed, Ef, Eo.
  - intros i Hi. rewrite Ef. by apply I5.
  - constructor; [done|]. apply Forall_forall. intros r' Hr'. rewrite Forall_forall in I6. apply (request_frame (sy_drv s)); [|by apply I6].
    split_and!; [by rewrite Ed|by rewrite Eo|apply Hinf|apply Hbuf].
    + intros E. eapply (chains_disjoint r r' rs (r_0 r')); [done|done|by left|]. rewrite E. by left.
    + by apply (other_buf r r' rs).
  - intros b i. rewrite I8. setoid_rewrite elem_of_cons. split; intros (r' & [->|Hr'] & E); eauto.
  - intros b x Hx. destruct (decide (b = r_b r)) as [->|Hne]; [|rewrite Hbuf in Hx by done; by eapply I14].
    destruct (ro_buf _ _ Hok) as [data E]. cbn [r_b set_phase] in E. rewrite Hx in E. injection E as ->. cbn. destruct (ro_buf _ _ Hr) as [data' E']. exact (I14 _ _ E').
Qed.

(** The status and the buffer are as the new phase has them. *)
Lemma request_phase d d' r p :
  request_ok d r -> vd_desc d' = vd_desc d -> vd_ops d' = vd_ops d -> vd_info d' !!! r_0 r = mk_info (Some (r_b r)) (if performed p then r_st r else 255) -> (p = Acked -> r_st r = 0) ->
  (exists data, vd_bufs d' !! r_b r = Some (mk_vbuf (r_blockno r) (if decide (p = Acked) then 0 else 1) data)) -> request_ok d' (set_phase p r).
Proof. intros [O1 O2 O3 O4 O5 OS O6] Ed Eo Ei Es Eb. split; rewrite ?Ed, ?Eo; done. Qed.

(** A request that only waits: nothing but the rings changes. *)
Lemma request_wait d d' r p :
  request_ok d r -> performed (r_phase r) = false -> performed p = false -> vd_desc d' = vd_desc d -> vd_ops d' = vd_ops d -> vd_info d' = vd_info d -> vd_bufs d' = vd_bufs d -> request_ok d' (set_phase p r).
Proof.
  intros Hr Hp Hp' Ed Eo Ei Eb. apply (request_phase d); [done..| | |].
  - rewrite Ei, (ro_info _ _ Hr), Hp, Hp'. done.
  - by intros ->.
  - rewrite Eb. destruct (ro_buf _ _ Hr) as [data E]. exists data. rewrite E. destruct (decide (r_phase r = Acked)) as [Ep|_]; [by rewrite Ep in Hp|]. by destruct (decide (p = Acked)) as [->|_].
Qed.

(** Before the device has done a request, the status it will give is free. *)
Lemma vinv_status s r rs st : vinv s (r :: rs) -> performed (r_phase r) = false -> vinv s (set_status st r :: rs) /\ abs s (set_status st r :: rs) = abs s (r :: rs).
Proof.
  intros [I1 I3 I4 I5 I6 I7 I8 I14 [L I2 I9 I10 I11 I12 I13]] Hp. split.
  - split; auto; [|intros b i; rewrite I8; setoid_rewrite elem_of_cons; split; intros (r' & [->|Hr'] & E); eauto|].
    + apply Forall_cons in I6 as [[O1 O2 O3 O4 O5 OS O6] I6]. constructor; [|done]. split; auto; cbn [r_phase set_status r_0 r_b r_st]; [by rewrite O5, Hp|]. intros E. by rewrite E in Hp.
    + rewrite !heads_cons in *. by split; rewrite ?heads_cons.
  - unfold abs. do 2 f_equal. rewrite !calls_of_cons. unfold progress_of. cbn [r_phase set_status r_b r_write r_st]. by destruct (r_phase r).
Qed.

Lemma abs_cons s r rs : abs s (r :: rs) = mk_astate (<[r_b r := (r_write r, progress_of r)]> (calls_of rs ∪ waiting (sy_calls s))) (bufs_of (sy_drv s)) (dv_blocks (sy_dev s)).
Proof. unfold abs. by rewrite calls_of_cons, insert_union_l. Qed.

(** Who sleeps makes no difference to this. *)
Lemma vinv_sleep d f lock calls v rs : vinv (mk_sys d lock calls v) rs -> vinv (mk_sys (upd_sleep f d) lock calls v) rs.
Proof.
  intros [I1 I3 I4 I5 I6 I7 I8 I14 [L I2 I9 I10 I11 I12 I13]]. split; [done..| |done|done|done|by split].
  eapply Forall_impl; [exact I6|]. intros r [O1 O2 O3 O4 O5 OS O6]. by split.
Qed.

Lemma abs_perm s rs rs' : vinv s rs -> rs ≡ₚ rs' -> abs s rs = abs s rs'.
Proof. intros Hi Hp. unfold abs. by rewrite (calls_of_perm rs rs' (iv_bufs _ _ Hi) Hp). Qed.

(** ** The driver publishes, the device takes *)

Lemma publish_inv d i0 calls v rs :
  vinv (mk_sys d (Some i0) calls v) rs ->
  exists r rs', rs ≡ₚ r :: rs' /\ r_phase r = Filled /\ r_0 r = i0 /\ vinv (mk_sys (upd_avail (u16 (vd_avail_idx d + 1)) (vd_avail_ring d) d) None calls v) (set_phase Avail r :: rs') /\
    abs (mk_sys (upd_avail (u16 (vd_avail_idx d + 1)) (vd_avail_ring d) d) None calls v) (set_phase Avail r :: rs') = abs (mk_sys d (Some i0) calls v) rs.
Proof.
  intros Hi. pose proof (qo_lock _ _ _ _ (iv_queues _ _ Hi)) as Hl. cbn in Hl. destruct (heads_in Filled (Z.of_nat i0) rs) as (r & rs' & Hp & Eh & Ep); [rewrite Hl; by left|].
  assert (Hi' : vinv (mk_sys d (Some i0) calls v) (r :: rs')) by (by apply (vinv_perm _ rs)). exists r, rs'. split; [done|]. split; [done|]. split; [lia|]. split.
  - pose proof (avail_count _ _ Hi') as Hc. cbn [sy_dev sy_drv] in Hc. pose proof (Forall_inv (iv_ok _ _ Hi')) as Hr. cbn [sy_drv] in Hr.
    apply (vinv_phase _ _ _ _ _ _ _ Hi'); try done; [apply (iv_lens _ _ Hi')|apply (request_wait d); by rewrite ?Ep|].
    destruct (iv_queues _ _ Hi') as [[L1 L2] I2 I9 I10 I11 I12 I13]. cbn [sy_drv sy_lock sy_dev] in *. rewrite !heads_cons, Ep in *. cbn [r_phase set_phase r_0 decide] in *.
    split; rewrite ?heads_cons; cbn [r_phase set_phase r_0 decide upd_avail vd_avail_ring vd_used_ring vd_avail_idx vd_used_ridx vd_used_idx]; auto.
    + split_and!; try apply I2; apply u16_range.
    + cbn in I9. by injection I9.
    + unfold u16. rewrite rqueue_snoc by (done || lia || apply NUM_divides). rewrite (I11 i0 eq_refl), Eh. rewrite Permutation_app_comm. cbn. by rewrite I10.
    + done.
  - rewrite (abs_perm _ _ _ Hi Hp). rewrite !abs_cons. unfold progress_of. cbn [r_phase set_phase r_b r_write]. rewrite Ep. done.
Qed.

Lemma take_inv d lock calls i q bl rs :
  i <> vd_avail_idx d -> vinv (mk_sys d lock calls (mk_device i q bl)) rs ->
  exists r rs', rs ≡ₚ r :: rs' /\ r_phase r = Avail /\ vinv (mk_sys d lock calls (mk_device (u16 (i + 1)) (vd_avail_ring d !!! Z.to_nat (i mod NUM) :: q) bl)) (set_phase Taken r :: rs') /\
    abs (mk_sys d lock calls (mk_device (u16 (i + 1)) (vd_avail_ring d !!! Z.to_nat (i mod NUM) :: q) bl)) (set_phase Taken r :: rs') = abs (mk_sys d lock calls (mk_device i q bl)) rs.
Proof.
  intros Hne Hi. pose proof (iv_queues _ _ Hi) as HQ. cbn [sy_drv sy_lock sy_dev] in HQ. pose proof (qo_idx _ _ _ _ HQ) as (Ra & _ & _ & Ri). cbn [dv_idx] in Ri.
  assert (Hc : 0 < rcount 65536 i (vd_avail_idx d)). { pose proof (rcount_range 65536 ltac:(lia) i (vd_avail_idx d)). pose proof (rcount_0 65536 ltac:(lia) i (vd_avail_idx d) Ri Ra). lia. }
  pose proof (qo_avail _ _ _ _ HQ) as Ha. cbn [dv_idx] in Ha. rewrite (rqueue_pop NUM 65536 ltac:(done) ltac:(lia) NUM_divides _ _ _ Hc) in Ha. set (h := vd_avail_ring d !!! _) in *.
  destruct (heads_in Avail h rs) as (r & rs' & Hp & Eh & Ep); [rewrite <- Ha; by left|]. assert (Hi' : vinv (mk_sys d lock calls (mk_device i q bl)) (r :: rs')) by (by apply (vinv_perm _ rs)).
  exists r, rs'. split; [done|]. split; [done|]. split.
  - pose proof (Forall_inv (iv_ok _ _ Hi')) as Hr. cbn [sy_drv] in Hr. apply (vinv_phase _ _ _ _ _ _ _ Hi'); try done; [apply (iv_lens _ _ Hi')|apply (request_wait d); by rewrite ?Ep|].
    destruct (iv_queues _ _ Hi') as [L I2 I9 I10 I11 I12 I13]. cbn [sy_drv sy_lock sy_dev dv_idx dv_q] in *. rewrite !heads_cons, Ep in *. cbn [r_phase set_phase r_0 decide] in *.
    split; rewrite ?heads_cons; cbn [r_phase set_phase r_0 decide dv_idx dv_q]; auto.
    + split_and!; try apply I2; apply u16_range.
    + apply (Permutation_cons_inv (a := h)). unfold u16. rewrite Ha, (heads_perm _ _ _ Hp), heads_cons, Ep, Eh. done.
    + by rewrite Eh, I12.
  - rewrite (abs_perm _ _ _ Hi Hp). rewrite !abs_cons. unfold progress_of. cbn [r_phase set_phase r_b r_write]. rewrite Ep. done.
Qed.

(** ** The device performs a request *)

Lemma sector_block n : 0 <= n < 2147483648 -> sector_of n / 2 = n.
Proof. intros H. unfold sector_of, u32. rewrite Z.mod_small by lia. by rewrite Z.div_mul. Qed.

(** The queues and the status after a transfer. *)
Definition complete (r : request) (d : vdisk) : vdisk :=
  upd_used (u16 (vd_used_ridx d + 1)) (<[Z.to_nat (vd_used_ridx d mod NUM) := Z.of_nat (r_0 r)]> (vd_used_ring d))
    (upd_info (<[r_0 r := mk_info (Some (r_b r)) (r_st r)]>) d).

Definition moved (r : request) (junk data : block) : block := if r_st r =? 0 then data else junk.

Definition perform_drv (r : request) (junk : block) (bl : gmap Z block) (d : vdisk) : vdisk :=
  if r_write r then complete r d else complete r (upd_bufs (alter (set_vb_data (moved r junk (disk_get bl (r_blockno r)))) (r_b r)) d).

Definition perform_blocks (r : request) (junk data : block) (bl : gmap Z block) : gmap Z block := if r_write r then <[r_blockno r := moved r junk data]> bl else bl.

Lemma perform_run d r x v junk :
  request_ok d r -> vd_bufs d !! r_b r = Some x -> 0 <= r_blockno r < 2147483648 ->
  perform (r_0 r) (r_st r) junk d v = Some (perform_drv r junk (dv_blocks v) d, mk_device (dv_idx v) (dv_q v) (perform_blocks r junk (vb_data x) (dv_blocks v))).
Proof.
  intros [O1 O2 O3 O4 O5 OS O6] Hx Hn. unfold perform, perform_drv, perform_blocks. rewrite O1. cbn [d_next d_addr d_flags]. rewrite O2. cbn [d_next d_addr d_flags]. rewrite O3. cbn [d_next d_addr d_flags].
  rewrite O4, Hx. cbn [rq_type rq_sector]. rewrite sector_block by done. fold (moved r junk (vb_data x)) (moved r junk (disk_get (dv_blocks v) (r_blockno r))). destruct (r_write r); cbn -[upd_used upd_info upd_bufs complete disk_get moved].
  - do 2 f_equal. unfold complete. f_equal. unfold upd_info. cbn. by rewrite O5.
  - do 2 f_equal; [|by destruct v]. replace (upd_bufs (alter _ _) d) with (upd_bufs (<[r_b r := set_vb_data (moved r junk (disk_get (dv_blocks v) (r_blockno r))) x]>) d) by (unfold upd_bufs; f_equal; by rewrite (alter_Some _ _ _ _ Hx)). unfold complete. f_equal. unfold upd_info. cbn. by rewrite O5.
Qed.

Lemma perform_frame r junk bl d :
  vd_desc (perform_drv r junk bl d) = vd_desc d /\ vd_free (perform_drv r junk bl d) = vd_free d /\ vd_ops (perform_drv r junk bl d) = vd_ops d /\ vd_info (perform_drv r junk bl d) = <[r_0 r := mk_info (Some (r_b r)) (r_st r)]> (vd_info d) /\
  vd_avail_ring (perform_drv r junk bl d) = vd_avail_ring d /\ vd_avail_idx (perform_drv r junk bl d) = vd_avail_idx d /\ vd_used_idx (perform_drv r junk bl d) = vd_used_idx d /\
  vd_used_ridx (perform_drv r junk bl d) = u16 (vd_used_ridx d + 1) /\ vd_used_ring (perform_drv r junk bl d) = <[Z.to_nat (vd_used_ridx d mod NUM) := Z.of_nat (r_0 r)]> (vd_used_ring d) /\
  vd_sleep (perform_drv r junk bl d) = vd_sleep d /\
  vd_bufs (perform_drv r junk bl d) = if r_write r then vd_bufs d else alter (set_vb_data (moved r junk (disk_get bl (r_blockno r)))) (r_b r) (vd_bufs d).
Proof. unfold perform_drv. by destruct (r_write r). Qed.

Lemma perform_queues d lock v r rs junk bl :
  r_phase r = Taken -> 0 <= rcount 65536 (vd_used_idx d) (vd_used_ridx d) <= 2 -> queues_ok d lock v (r :: rs) ->
  forall q, dv_q v ≡ₚ Z.of_nat (r_0 r) :: q -> queues_ok (perform_drv r junk (dv_blocks v) d) lock (mk_device (dv_idx v) q bl) (set_phase Used r :: rs).
Proof.
  intros Ep Hc [[L1 L2] I2 I9 I10 I11 I12 I13] q Hq. destruct (perform_frame r junk (dv_blocks v) d) as (_ & _ & _ & _ & E1 & E2 & E3 & E4 & E5 & _ & _).
  rewrite !heads_cons, Ep in *. cbn [decide decide_rel phase_eq_dec] in *. split; rewrite ?E1, ?E2, ?E3, ?E4, ?E5, ?heads_cons; cbn [r_phase set_phase r_0 decide dv_idx dv_q]; auto.
  - by rewrite length_insert.
  - split_and!; try apply I2; apply u16_range.
  - apply (Permutation_cons_inv (a := Z.of_nat (r_0 r))). by rewrite <- Hq, I12.
  - unfold u16. rewrite rqueue_push by (done || lia || apply NUM_divides || (unfold NUM; lia)). rewrite Permutation_app_comm. cbn. by rewrite I13.
Qed.

Lemma perform_inv d lock calls v r rs x q junk :
  vinv (mk_sys d lock calls v) (r :: rs) -> r_phase r = Taken -> vd_bufs d !! r_b r = Some x -> dv_q v ≡ₚ Z.of_nat (r_0 r) :: q ->
  vinv (mk_sys (perform_drv r junk (dv_blocks v) d) lock calls (mk_device (dv_idx v) q (perform_blocks r junk (vb_data x) (dv_blocks v)))) (set_phase Used r :: rs).
Proof.
  intros Hi Ep Hx Hq. pose proof (Forall_inv (iv_ok _ _ Hi)) as Hr. cbn [sy_drv] in Hr. destruct (perform_frame r junk (dv_blocks v) d) as (F1 & F2 & F3 & F4 & _ & _ & _ & _ & _ & _ & F10).
  destruct (iv_lens _ _ Hi) as (_ & _ & L5 & _). cbn [sy_drv] in L5. assert (R0 : (r_0 r < 8)%nat) by (apply (iv_range _ _ Hi); rewrite chains_cons; by left).
  apply (vinv_phase _ _ _ _ _ _ _ Hi); cbn [sy_drv]; auto.
  - by rewrite F4, length_insert.
  - intros i Hne. rewrite F4. by rewrite list_lookup_total_insert_ne.
  - intros b Hne. rewrite F10. destruct (r_write r); [done|]. by rewrite lookup_alter_ne.
  - apply (request_phase d); [done..| |done|].
    + rewrite F4. rewrite list_lookup_total_insert_eq by lia. done.
    + destruct (ro_buf _ _ Hr) as [data E]. rewrite Ep in E. cbn in E. rewrite F10. destruct (r_write r); [by exists data|]. rewrite lookup_alter_eq, E. eexists. done.
  - apply perform_queues; [done|apply (used_count _ _ Hi)|apply (iv_queues _ _ Hi)|done].
Qed.

(** Abstractly: the disk block takes the buffer's contents, or the other way round. *)
Lemma perform_abs d lock calls v r rs x q junk :
  vinv (mk_sys d lock calls v) (r :: rs) -> r_phase r = Taken -> vd_bufs d !! r_b r = Some x ->
  astep (abs (mk_sys d lock calls v) (r :: rs))
    (abs (mk_sys (perform_drv r junk (dv_blocks v) d) lock calls (mk_device (dv_idx v) q (perform_blocks r junk (vb_data x) (dv_blocks v)))) (set_phase Used r :: rs)).
Proof.
  intros Hi Ep Hx. pose proof (Forall_inv (iv_ok _ _ Hi)) as Hr. cbn [sy_drv] in Hr. destruct (perform_frame r junk (dv_blocks v) d) as (_ & _ & _ & _ & _ & _ & _ & _ & _ & _ & F10).
  destruct (ro_buf _ _ Hr) as [data E]. rewrite Hx in E. injection E as ->. assert (Hb : bufs_of d !! r_b r = Some (r_blockno r, data)) by (unfold bufs_of; by rewrite lookup_fmap, Hx).
  rewrite !abs_cons. unfold progress_of, perform_blocks, moved, bufs_of at 2. cbn [r_phase set_phase r_b r_write r_st sy_drv sy_dev sy_calls dv_blocks vb_data]. rewrite Ep, F10. set (calls1 := calls_of rs ∪ waiting calls). unfold moved. clearbody calls1.
  destruct (r_write r), (r_st r =? 0).
  - rewrite <- (insert_insert_eq calls1 (r_b r) (true, Performed) (true, Submitted)). apply a_write; [by rewrite lookup_insert_eq|done].
  - rewrite <- (insert_insert_eq calls1 (r_b r) (true, Failed) (true, Submitted)). eapply a_fail_write; [by rewrite lookup_insert_eq|exact Hb].
  - rewrite <- (insert_insert_eq calls1 (r_b r) (false, Performed) (false, Submitted)). rewrite (alter_Some _ _ _ _ Hx), fmap_insert. cbn [vb_blockno set_vb_data vb_data].
    eapply a_read; [by rewrite lookup_insert_eq|exact Hb].
  - rewrite <- (insert_insert_eq calls1 (r_b r) (false, Failed) (false, Submitted)). rewrite (alter_Some _ _ _ _ Hx), fmap_insert. cbn [vb_blockno set_vb_data vb_data].
    eapply a_fail_read; [by rewrite lookup_insert_eq|exact Hb].
Qed.

(** ** The interrupt handler *)

Definition acked (r : request) (d : vdisk) : vdisk :=
  set_used_idx (u16 (vd_used_idx d + 1)) (upd_sleep (filter (fun bc => bc.2 <> Ch_buf (r_b r))) (upd_bufs (alter (set_vb_disk 0) (r_b r)) d)).

Lemma acked_inv d lock calls v r rs :
  vinv (mk_sys d lock calls v) (r :: rs) -> r_phase r = Used -> r_st r = 0 -> 0 < rcount 65536 (vd_used_idx d) (vd_used_ridx d) ->
  vd_used_ring d !!! Z.to_nat (vd_used_idx d mod NUM) = Z.of_nat (r_0 r) -> vinv (mk_sys (acked r d) lock calls v) (set_phase Acked r :: rs).
Proof.
  intros Hi Ep Est Hc Eh. pose proof (Forall_inv (iv_ok _ _ Hi)) as Hr. cbn [sy_drv] in Hr. apply (vinv_phase _ _ _ _ _ _ _ Hi); cbn [sy_drv]; try done.
  - apply (iv_lens _ _ Hi).
  - intros b Hne. cbn. by rewrite lookup_alter_ne.
  - apply (request_phase d); try done; cbn [acked upd_bufs upd_sleep set_used_idx vd_info vd_bufs].
    + by rewrite (ro_info _ _ Hr), Ep.
    + destruct (ro_buf _ _ Hr) as [data E]. rewrite lookup_alter_eq, E. by exists data.
  - destruct (iv_queues _ _ Hi) as [L I2 I9 I10 I11 I12 I13]. cbn [sy_drv sy_lock sy_dev] in *. rewrite !heads_cons, Ep in *. cbn [decide decide_rel phase_eq_dec] in *.
    split; rewrite ?heads_cons; cbn [r_phase set_phase decide acked upd_bufs upd_sleep set_used_idx vd_avail_ring vd_used_ring vd_avail_idx vd_used_ridx vd_used_idx]; auto.
    + split_and!; try apply I2; apply u16_range.
    + apply (Permutation_cons_inv (a := Z.of_nat (r_0 r))). unfold u16. rewrite <- Eh at 1. rewrite <- rqueue_pop by (done || lia || apply NUM_divides). by rewrite I13.
Qed.

Lemma acked_abs d lock calls v r rs :
  r_phase r = Used -> r_st r = 0 -> astep (abs (mk_sys d lock calls v) (r :: rs)) (abs (mk_sys (acked r d) lock calls v) (set_phase Acked r :: rs)).
Proof.
  intros Ep Est. rewrite !abs_cons. unfold progress_of. cbn [r_phase set_phase r_b r_write r_st sy_drv sy_dev sy_calls]. rewrite Ep, Est. cbn [Z.eqb].
  replace (bufs_of (acked r d)) with (bufs_of d). 2: { unfold bufs_of. cbn [acked upd_bufs upd_sleep set_used_idx vd_bufs]. apply map_eq. intros b. rewrite !lookup_fmap. destruct (decide (b = r_b r)) as [->|Hne]; [|by rewrite lookup_alter_ne]. rewrite lookup_alter_eq. by destruct (vd_bufs d !! r_b r). }
  rewrite <- (insert_insert_eq (calls_of rs ∪ waiting calls) (r_b r) (r_write r, Finished) (r_write r, Performed)). apply a_finish. by rewrite lookup_insert_eq.
Qed.

(** One iteration acknowledges the oldest completion, or panics when it failed. *)
Lemma intr_one_run d lock calls v rs :
  vinv (mk_sys d lock calls v) rs ->
  if decide (vd_used_idx d = vd_used_ridx d) then intr_one d = Ok (false, d)
  else exists r rs', rs ≡ₚ r :: rs' /\ r_phase r = Used /\
    if decide (r_st r = 0) then intr_one d = Ok (true, acked r d) /\ vinv (mk_sys (acked r d) lock calls v) (set_phase Acked r :: rs')
    else intr_one d = Panic "virtio_disk_intr status".
Proof.
  intros Hi. unfold intr_one. rewrite bind_run, gets_run. unfold id. case_decide as Hne; [by rewrite (proj2 (Z.eqb_eq _ _) Hne)|]. rewrite (proj2 (Z.eqb_neq _ _) Hne).
  pose proof (iv_queues _ _ Hi) as HQ. cbn [sy_drv sy_lock sy_dev] in HQ. pose proof (qo_idx _ _ _ _ HQ) as (_ & Rr & Ru & _).
  assert (Hc : 0 < rcount 65536 (vd_used_idx d) (vd_used_ridx d)). { pose proof (rcount_range 65536 ltac:(lia) (vd_used_idx d) (vd_used_ridx d)). pose proof (rcount_0 65536 ltac:(lia) _ _ Ru Rr). lia. }
  pose proof (qo_used _ _ _ _ HQ) as Hu. rewrite (rqueue_pop NUM 65536 ltac:(done) ltac:(lia) NUM_divides _ _ _ Hc) in Hu. set (h := vd_used_ring d !!! _) in *.
  destruct (heads_in Used h rs) as (r & rs' & Hp & Eh & Ep); [rewrite <- Hu; by left|]. apply (vinv_perm _ _ _ Hp) in Hi. exists r, rs'. split; [done|]. split; [done|].
  pose proof (Forall_inv (iv_ok _ _ Hi)) as Hr. cbn [sy_drv] in Hr. rewrite Eh, Nat2Z.id, (ro_info _ _ Hr), Ep. cbn [performed in_status in_b].
  case_decide as Est; [|by rewrite (proj2 (Z.eqb_neq _ _) Est)]. split; [by rewrite Est|by apply acked_inv].
Qed.

(** ** The end of a call *)

Definition freed (r : request) (d : vdisk) : vdisk :=
  zero_desc (r_2 r) (zero_desc (r_1 r) (zero_desc (r_0 r) (upd_info (<[r_0 r := mk_info None (in_status (vd_info d !!! r_0 r))]>) d))).

Lemma chain_distinct r rs : NoDup (chains (r :: rs)) -> r_0 r <> r_1 r /\ r_0 r <> r_2 r /\ r_1 r <> r_2 r.
Proof. rewrite chains_cons. intros (H & _)%NoDup_app. unfold chain_of in H. rewrite !NoDup_cons in H. set_solver. Qed.

Lemma rw_end_run s r rs : vinv s (r :: rs) -> rw_end (r_0 r) (sy_drv s) = Ok (tt, freed r (sy_drv s)).
Proof.
  intros Hi. destruct (iv_lens _ _ Hi) as (L1 & L4 & _). destruct (Forall_inv (iv_ok _ _ Hi)) as [O1 O2 O3 _ _ _ _]. destruct (chain_distinct _ _ (iv_nodup _ _ Hi)) as (N01 & N02 & N12).
  assert (Hf : forall i, i ∈ chain_of r -> vd_free (sy_drv s) !! i = Some false /\ (i < 8)%nat).
  { intros i Hin. assert (Hch : i ∈ chains (r :: rs)) by (rewrite chains_cons; apply elem_of_app; by left). pose proof (iv_range _ _ Hi i Hch) as Hlt. split; [|done].
    rewrite (list_lookup_lookup_total_lt _ i) by lia. rewrite (iv_free _ _ Hi i Hlt). f_equal. apply bool_decide_eq_false. by intros H. }
  destruct (Hf (r_0 r)) as [F0 R0]; [by left|]. destruct (Hf (r_1 r)) as [F1 R1]; [by right; left|]. destruct (Hf (r_2 r)) as [F2 R2]; [by do 2 right; left|].
  unfold rw_end. rewrite bind_run, modify_run. unfold freed. set (d1 := upd_info _ (sy_drv s)). change (Z.to_nat NUM) with 8%nat. change (upd_info _ (sy_drv s)) with d1.
  assert (E0 : free_desc (r_0 r) d1 = Ok (tt, zero_desc (r_0 r) d1)) by (by apply free_desc_run).
  assert (E1 : free_desc (r_1 r) (zero_desc (r_0 r) d1) = Ok (tt, zero_desc (r_1 r) (zero_desc (r_0 r) d1))) by (apply free_desc_run; cbn; [by rewrite length_insert|by rewrite list_lookup_insert_ne]).
  assert (E2 : free_desc (r_2 r) (zero_desc (r_1 r) (zero_desc (r_0 r) d1)) = Ok (tt, zero_desc (r_2 r) (zero_desc (r_1 r) (zero_desc (r_0 r) d1)))) by (apply free_desc_run; cbn; [by rewrite !length_insert|by rewrite !list_lookup_insert_ne]).
  assert (D0 : vd_desc d1 !!! r_0 r = mk_desc (P_ops (r_0 r)) 16 VRING_DESC_F_NEXT (r_1 r)) by exact O1.
  assert (D1 : vd_desc (zero_desc (r_0 r) d1) !!! r_1 r = mk_desc (P_data (r_b r)) 1024 (Z.lor (if r_write r then 0 else VRING_DESC_F_WRITE) VRING_DESC_F_NEXT) (r_2 r)) by (cbn; rewrite list_lookup_total_insert_ne by done; exact O2).
  assert (D2 : vd_desc (zero_desc (r_1 r) (zero_desc (r_0 r) d1)) !!! r_2 r = mk_desc (P_status (r_0 r)) 1 VRING_DESC_F_WRITE 0) by (cbn; rewrite !list_lookup_total_insert_ne by done; exact O3).
  clearbody d1. cbn [free_chain]. rewrite bind_run, gets_run, D0, (bind_Ok _ _ _ _ _ E0). cbn [d_flags d_next]. change (negb (Z.land VRING_DESC_F_NEXT VRING_DESC_F_NEXT =? 0)) with true. cbv iota.
  rewrite bind_run, gets_run, D1, (bind_Ok _ _ _ _ _ E1). cbn [d_flags d_next]. replace (negb (Z.land _ VRING_DESC_F_NEXT =? 0)) with true by (by destruct (r_write r)). cbv iota.
  rewrite bind_run, gets_run, D2, (bind_Ok _ _ _ _ _ E2). done.
Qed.

Lemma freed_free r d i : (i < length (vd_free d))%nat -> vd_free (freed r d) !!! i = if decide (i ∈ chain_of r) then true else vd_free d !!! i.
Proof.
  intros Hi. cbn -[elem_of]. destruct (decide (i = r_2 r)) as [->|N2]; [rewrite list_lookup_total_insert_eq, decide_True by (rewrite ?length_insert; done || set_solver); done|rewrite list_lookup_total_insert_ne by done].
  destruct (decide (i = r_1 r)) as [->|N1]; [rewrite list_lookup_total_insert_eq, decide_True by (rewrite ?length_insert; done || set_solver); done|rewrite list_lookup_total_insert_ne by done].
  destruct (decide (i = r_0 r)) as [->|N0]; [rewrite list_lookup_total_insert_eq, decide_True by (done || set_solver); done|rewrite list_lookup_total_insert_ne by done].
  rewrite decide_False; [done|]. unfold chain_of. set_solver.
Qed.

Lemma end_inv d lock calls v r rs :
  vinv (mk_sys d lock calls v) (r :: rs) -> r_phase r = Acked -> vinv (mk_sys (freed r d) lock (delete (r_b r) calls) v) rs.
Proof.
  intros [(L1 & L4 & L5 & L6) I3 I4 I5 I6 I7 I8 I14 IQ] Ep. cbn [sy_drv sy_calls sy_lock sy_dev] in *. apply Forall_cons in I6 as [Hr I6]. split; cbn [sy_drv sy_calls sy_lock sy_dev]; auto.
  - cbn. by rewrite !length_insert.
  - rewrite chains_cons in I3. by apply NoDup_app in I3 as (_ & _ & ?).
  - intros i Hi. apply I4. rewrite chains_cons. apply elem_of_app. by right.
  - intros i Hi. rewrite freed_free by lia. rewrite I5 by done. rewrite chains_cons in I3 |- *. apply NoDup_app in I3 as (_ & Hd & _).
    destruct (decide (i ∈ chain_of r)) as [Hin|Hin]; [symmetry; apply bool_decide_eq_true; by apply Hd|apply bool_decide_ext; rewrite elem_of_app; tauto].
  - apply Forall_forall. intros r' Hr'. rewrite Forall_forall in I6. apply (request_frame d); [|by apply I6]. pose proof (fun i => chains_disjoint r r' rs i I3 Hr') as Hd.
    assert (H0 : r_0 r' <> r_0 r) by (intros E; apply (Hd (r_0 r')); [by left|rewrite E; by left]). split_and!; cbn [freed zero_desc upd_sleep upd_free upd_desc upd_info vd_desc vd_ops vd_info vd_bufs]; [|done| |done].
    + intros i Hin. specialize (Hd i Hin). rewrite !list_lookup_total_insert_ne; [done| | |]; intros <-; apply Hd; [by left|by right; left|by do 2 right; left].
    + by rewrite list_lookup_total_insert_ne.
  - rewrite fmap_cons in I7. by apply NoDup_cons in I7 as [_ ?].
  - intros b i. destruct (decide (b = r_b r)) as [->|Hne].
    + rewrite lookup_delete_eq. split; [done|]. intros (r' & Hr' & E & _). by destruct (other_buf r r' rs I7 Hr').
    + rewrite lookup_delete_ne, I8 by done. setoid_rewrite elem_of_cons. split; intros (r' & Hr' & E & E'); exists r'; [|by split; [right|]]. destruct Hr' as [->|Hr']; [by destruct Hne|done].
  - destruct IQ as [L I2 I9 I10 I11 I12 I13]. rewrite !heads_cons, Ep in *. by split.
Qed.

Lemma waiting_delete calls b i0 : calls !! b = Some (C_wait i0) -> waiting (delete b calls) = waiting calls.
Proof.
  intros Hc. apply map_eq. intros b'. rewrite !lookup_waiting. destruct (decide (b' = b)) as [->|Hne]; [by rewrite lookup_delete_eq, Hc|by rewrite lookup_delete_ne].
Qed.

Lemma request_call s r rs : vinv s (r :: rs) -> sy_calls s !! r_b r = Some (C_wait (r_0 r)).
Proof. intros Hi. apply (iv_calls _ _ Hi). exists r. by split; [left|]. Qed.

Lemma end_abs d lock calls v r rs :
  vinv (mk_sys d lock calls v) (r :: rs) -> r_phase r = Acked -> astep (abs (mk_sys d lock calls v) (r :: rs)) (abs (mk_sys (freed r d) lock (delete (r_b r) calls) v) rs).
Proof.
  intros Hi Ep. rewrite abs_cons. unfold progress_of. rewrite Ep. pose proof (iv_bufs _ _ Hi) as Hn. cbn in Hn. apply NoDup_cons in Hn as [Hn _].
  pose proof (request_call _ _ _ Hi) as Hc. cbn [sy_calls] in Hc. unfold abs. cbn [sy_dev sy_drv sy_calls]. rewrite (waiting_delete _ _ _ Hc).
  assert (Eb : bufs_of (freed r d) = bufs_of d) by (unfold bufs_of; f_equal). rewrite Eb.
  rewrite <- (delete_insert_id (calls_of rs ∪ waiting calls) (r_b r) (r_write r, Finished)) at 2; [eapply a_return; by rewrite lookup_insert_eq|].
  apply lookup_union_None. split; [by apply calls_of_None|]. by rewrite lookup_waiting, Hc.
Qed.

(** ** A caller that has to wait *)

Lemma cleared_inv d d' lock calls v rs : vinv (mk_sys d lock calls v) rs -> cleared d d' -> vinv (mk_sys d' lock calls v) rs /\ abs (mk_sys d' lock calls v) rs = abs (mk_sys d lock calls v) rs.
Proof.
  intros [(L1 & L4 & L5 & L6) I3 I4 I5 I6 I7 I8 I14 IQ] (Ed & El & Hd & _). cbn [sy_drv sy_calls sy_lock sy_dev] in *. revert Ed El Hd. generalize (vd_desc d') as D, (vd_sleep d') as S. intros D S -> El Hd. split; [|done].
  split; cbn [sy_drv sy_calls sy_lock sy_dev]; auto.
  - split_and!; try done. cbn. by rewrite El.
  - apply Forall_forall. intros r Hr. rewrite Forall_forall in I6. apply (request_frame d); [|by apply I6]. split_and!; try done. intros i Hin. pose proof (in_chains r rs i Hr Hin) as Hc. apply Hd.
    pose proof (I4 i Hc) as Hlt. rewrite (list_lookup_lookup_total_lt _ i) by lia. rewrite (I5 i Hlt). f_equal. apply bool_decide_eq_false. by intros H.
  - by destruct IQ; split.
Qed.

(** The test of b->disk: the call ends when its request has been acknowledged,
    and sleeps otherwise. *)
Lemma rw_wait_head d lock calls v r rs :
  vinv (mk_sys d lock calls v) (r :: rs) ->
  if decide (r_phase r = Acked) then rw_wait (r_b r) (r_0 r) d = Ok (true, freed r d)
  else rw_wait (r_b r) (r_0 r) d = Ok (false, upd_sleep (<[r_b r := Ch_buf (r_b r)]>) d) /\ exists x, vd_bufs d !! r_b r = Some x /\ vb_disk x = 1.
Proof.
  intros Hi. destruct (ro_buf _ _ (Forall_inv (iv_ok _ _ Hi))) as [data Ed]. cbn [sy_drv] in Ed. unfold rw_wait. rewrite bind_run, gets_run, Ed. cbn [vb_disk]. case_decide as Ep.
  - change (0 =? 1) with false. cbv iota. by rewrite (bind_Ok _ _ _ _ _ (rw_end_run _ _ _ Hi : rw_end (r_0 r) d = _)).
  - split; [done|]. by eexists.
Qed.

Lemma rw_wait_run d lock calls v rs b i0 :
  vinv (mk_sys d lock calls v) rs -> calls !! b = Some (C_wait i0) ->
  exists r rs', rs ≡ₚ r :: rs' /\ r_b r = b /\ r_0 r = i0 /\
    if decide (r_phase r = Acked) then rw_wait b i0 d = Ok (true, freed r d)
    else rw_wait b i0 d = Ok (false, upd_sleep (<[b := Ch_buf b]>) d) /\ exists x, vd_bufs d !! b = Some x /\ vb_disk x = 1.
Proof.
  intros Hi Hc. destruct (proj1 (iv_calls _ _ Hi b i0) Hc) as (r & Hr & <- & <-). apply elem_of_Permutation in Hr as [rs' Hp]. apply (vinv_perm _ _ _ Hp) in Hi. exists r, rs'. split_and!; try done. by apply (rw_wait_head d lock calls v r rs').
Qed.

Lemma wait_sim d lock calls v rs b i0 over d' :
  vinv (mk_sys d lock calls v) rs -> calls !! b = Some (C_wait i0) -> rw_wait b i0 d = Ok (over, d') ->
  exists rs1, vinv (mk_sys d' lock (after_wait over b calls) v) rs1 /\ rtc astep (abs (mk_sys d lock calls v) rs) (abs (mk_sys d' lock (after_wait over b calls) v) rs1).
Proof.
  intros Hi Hc E. destruct (rw_wait_run _ _ _ _ _ _ _ Hi Hc) as (r & rs' & Hp & <- & <- & Hr). case_decide as Ep; [|destruct Hr as [Hr _]]; rewrite Hr in E; injection E as <- <-; cbn [after_wait].
  - rewrite (abs_perm _ _ _ Hi Hp). apply (vinv_perm _ _ _ Hp) in Hi. exists rs'. split; [by apply end_inv|]. by apply rtc_once, end_abs.
  - exists rs. split; [by apply vinv_sleep|]. done.
Qed.

(** ** The rest of the kernel *)

Lemma edit_inv d lock calls v rs b x :
  vinv (mk_sys d lock calls v) rs -> calls !! b = None -> 0 <= vb_blockno x < 2147483648 -> vinv (mk_sys (upd_bufs (<[b := x]>) d) lock calls v) rs.
Proof.
  intros Hi Hc Hx. assert (Hb : b ∉ r_b <$> rs) by (apply (call_request _ _ b Hi); intros i; cbn [sy_calls]; by rewrite Hc). destruct Hi as [I1 I3 I4 I5 I6 I7 I8 I14 IQ]. cbn [sy_drv sy_calls sy_lock sy_dev] in *. split; cbn [sy_drv sy_calls sy_lock sy_dev]; auto.
  - apply Forall_forall. intros r Hr. rewrite Forall_forall in I6. apply (request_frame d); [|by apply I6]. split_and!; try done. cbn. rewrite lookup_insert_ne; [done|]. intros ->. apply Hb. apply list_elem_of_fmap. by exists r.
  - intros b' y. cbn. destruct (decide (b' = b)) as [->|Hne]; [rewrite lookup_insert_eq; by intros [= <-]|]. rewrite lookup_insert_ne by done. apply I14.
  - by destruct IQ; split.
Qed.

Lemma call_inv d lock calls v rs b w :
  vinv (mk_sys d lock calls v) rs -> calls !! b = None -> vinv (mk_sys d lock (<[b := C_alloc w]> calls) v) rs.
Proof.
  intros [I1 I3 I4 I5 I6 I7 I8 I14 IQ] Hc. cbn [sy_drv sy_calls sy_lock sy_dev] in *. split; cbn [sy_drv sy_calls sy_lock sy_dev]; auto.
  intros b' i. rewrite <- I8. destruct (decide (b' = b)) as [->|Hne]; [by rewrite lookup_insert_eq, Hc|by rewrite lookup_insert_ne].
Qed.

(** ** The refinement *)

(** A call that gets its descriptors has been submitted already. *)
Lemma begin_abs d calls v rs b x w i0 i1 i2 :
  vinv (mk_sys d None calls v) rs -> vd_bufs d !! b = Some x -> calls !! b = Some (C_alloc w) ->
  abs (mk_sys (filled b w x i0 i1 i2 d) (Some i0) (<[b := C_wait i0]> calls) v) (mk_request b w (vb_blockno x) i0 i1 i2 Filled 255 :: rs) = abs (mk_sys d None calls v) rs.
Proof.
  intros Hi Hx Hc. assert (Hb : b ∉ r_b <$> rs) by (apply (call_request _ _ b Hi); intros i; cbn [sy_calls]; by rewrite Hc).
  rewrite abs_cons. unfold abs. cbn [sy_drv sy_dev sy_calls progress_of r_phase r_b r_write]. f_equal.
  - apply map_eq. intros b'. destruct (decide (b' = b)) as [->|Hne].
    + rewrite lookup_insert_eq, lookup_union_r by (by apply calls_of_None). by rewrite lookup_waiting, Hc.
    + rewrite lookup_insert_ne by done. by rewrite !lookup_union, !lookup_waiting, lookup_insert_ne.
  - unfold bufs_of. cbn [filled vd_bufs]. rewrite fmap_insert. apply insert_id. by rewrite lookup_fmap, Hx.
Qed.

Lemma call_abs d lock calls v rs b w :
  vinv (mk_sys d lock calls v) rs -> calls !! b = None -> astep (abs (mk_sys d lock calls v) rs) (abs (mk_sys d lock (<[b := C_alloc w]> calls) v) rs).
Proof.
  intros Hi Hc. assert (Hb : b ∉ r_b <$> rs) by (apply (call_request _ _ b Hi); intros i; cbn [sy_calls]; by rewrite Hc).
  unfold abs. cbn [sy_drv sy_dev sy_calls]. replace (calls_of rs ∪ waiting (<[b := C_alloc w]> calls)) with (<[b := (w, Submitted)]> (calls_of rs ∪ waiting calls)).
  - apply a_submit. apply lookup_union_None. split; [by apply calls_of_None|by rewrite lookup_waiting, Hc].
  - apply map_eq. intros b'. destruct (decide (b' = b)) as [->|Hne].
    + rewrite lookup_insert_eq, lookup_union_r by (by apply calls_of_None). by rewrite lookup_waiting, lookup_insert_eq.
    + rewrite lookup_insert_ne by done. by rewrite !lookup_union, !lookup_waiting, lookup_insert_ne.
Qed.

(** The device does a request that it has taken. *)
Lemma perform_taken d lock calls i q1 h q2 bl st junk d' v' rs :
  vinv (mk_sys d lock calls (mk_device i (q1 ++ h :: q2) bl)) rs -> perform (Z.to_nat h) st junk d (mk_device i (q1 ++ q2) bl) = Some (d', v') ->
  exists r rs' x, rs ≡ₚ r :: rs' /\ h = Z.of_nat (r_0 r) /\ r_phase r = Taken /\ vd_bufs d !! r_b r = Some x /\ d' = perform_drv (set_status st r) junk bl d /\
    vinv (mk_sys d' lock calls v') (set_phase Used (set_status st r) :: rs') /\
    astep (abs (mk_sys d lock calls (mk_device i (q1 ++ h :: q2) bl)) rs) (abs (mk_sys d' lock calls v') (set_phase Used (set_status st r) :: rs')).
Proof.
  intros Hi E. destruct (heads_in Taken h rs) as (r & rs' & Hp & Eh & Ep); [rewrite <- (qo_taken _ _ _ _ (iv_queues _ _ Hi)); cbn; rewrite elem_of_app, elem_of_cons; by auto|].
  rewrite (abs_perm _ _ _ Hi Hp). apply (vinv_perm _ _ _ Hp) in Hi. destruct (vinv_status _ _ _ st Hi) as [Hi' Ea]; [by rewrite Ep|]. rewrite <- Ea. set (r' := set_status st r) in *.
  pose proof (Forall_inv (iv_ok _ _ Hi')) as Hr. cbn [sy_drv] in Hr. destruct (ro_buf _ _ Hr) as [data Eb].
  pose proof (iv_blocks _ _ Hi' _ _ Eb) as Hn. cbn [vb_blockno] in Hn. rewrite Eh, Nat2Z.id in E. rewrite (perform_run _ r' _ _ junk Hr Eb Hn : perform (r_0 r) st junk d _ = _) in E. injection E as <- <-.
  assert (Hq : q1 ++ h :: q2 ≡ₚ Z.of_nat (r_0 r') :: (q1 ++ q2)) by (change (r_0 r') with (r_0 r); rewrite <- Eh; by rewrite Permutation_middle).
  exists r, rs'. eexists. split_and!; [done..|exact Eb|done| |].
  - exact (perform_inv _ _ _ _ r' _ _ _ junk Hi' Ep Eb Hq).
  - exact (perform_abs _ _ _ _ r' _ _ (q1 ++ q2) junk Hi' Ep Eb).
Qed.

(** The call that waits for descriptors has its buffer. *)
Lemma begin_sim d calls v rs b w r d' :
  vinv (mk_sys d None calls v) rs -> calls !! b = Some (C_alloc w) -> is_Some (vd_bufs d !! b) -> rw_begin b w d = Ok (r, d') ->
  match r with
  | Some i0 => exists rs', vinv (mk_sys d' (Some i0) (<[b := C_wait i0]> calls) v) rs' /\ abs (mk_sys d' (Some i0) (<[b := C_wait i0]> calls) v) rs' = abs (mk_sys d None calls v) rs
  | None => vinv (mk_sys d' None calls v) rs /\ abs (mk_sys d' None calls v) rs = abs (mk_sys d None calls v) rs
  end.
Proof.
  intros Hi Hc [x Hx] E. destruct (iv_lens _ _ Hi) as (_ & L4 & L5 & _). cbn [sy_drv] in *.
  destruct (rw_begin_run d b w x L4 L5 Hx) as [(j0 & j1 & j2 & E' & Hn & Hf)|(d2 & E' & Hcl & _)]; rewrite E' in E; injection E as <- <-.
  - eexists. split; [by apply begin_inv|by apply begin_abs].
  - destruct (cleared_inv _ _ _ _ _ _ Hi Hcl) as [Hi' Ea]. split; [by apply vinv_sleep|]. rewrite <- Ea. done.
Qed.

(** Every call has its buffer. *)
Definition has_bufs (s : sys) : Prop := forall b c, sy_calls s !! b = Some c -> is_Some (vd_bufs (sy_drv s) !! b).

Lemma step_sim s s' rs : vinv s rs -> has_bufs s -> vstep s s' -> exists rs', vinv s' rs' /\ rtc astep (abs s rs) (abs s' rs').
Proof.
  intros Hi Hb Hs. destruct Hs as [d lock calls v b x Hc Hx|d lock calls v b x w Hx Hc|d calls v b w i0 d' Hc Hsl E|d calls v b w d' Hc Hsl E|d i0 calls v b over d' Hc E|d calls v b i0 over d' Hc Hsl E|d lock calls v b|d calls v more d' E|d lock calls i q bl Hne|d lock calls i q1 h q2 bl st junk d' v' E].
  - exists rs. split; [by apply edit_inv|]. apply rtc_once. unfold abs. cbn [sy_drv sy_dev sy_calls]. unfold bufs_of at 2. cbn [upd_bufs vd_bufs]. rewrite fmap_insert. apply a_edit. apply lookup_union_None.
    split; [|by rewrite lookup_waiting, Hc]. apply calls_of_None, (call_request _ _ _ Hi). intros j. cbn. by rewrite Hc.
  - exists rs. split; [by apply call_inv|by apply rtc_once, call_abs].
  - destruct (begin_sim _ _ _ _ _ _ _ _ Hi Hc (Hb _ _ Hc) E) as (rs' & Hi' & Ea). exists rs'. by rewrite Ea.
  - destruct (begin_sim _ _ _ _ _ _ _ _ Hi Hc (Hb _ _ Hc) E) as [Hi' Ea]. exists rs. by rewrite Ea.
  - rewrite bind_run in E. cbn [rw_publish modify] in E. destruct (publish_inv _ _ _ _ _ Hi) as (r & rs' & _ & _ & _ & Hi' & Ea). rewrite <- Ea. by eapply wait_sim.
  - by eapply wait_sim.
  - exists rs. split; [by apply vinv_sleep|done].
  - pose proof (intr_one_run _ _ _ _ _ Hi) as Hr. destruct (decide (vd_used_idx d = vd_used_ridx d)) as [_|_]; [rewrite Hr in E; injection E as _ <-; by exists rs|].
    destruct Hr as (r & rs' & Hp & Ep & Hr). case_decide as Est; [destruct Hr as [E' Hi']|]; [rewrite E' in E; injection E as _ <-|by rewrite Hr in E]. eexists. split; [exact Hi'|]. rewrite (abs_perm _ _ _ Hi Hp). by apply rtc_once, acked_abs.
  - destruct (take_inv _ _ _ _ _ _ _ Hne Hi) as (r & rs' & _ & _ & Hi' & Ea). eexists. split; [exact Hi'|]. by rewrite Ea.
  - destruct (perform_taken _ _ _ _ _ _ _ _ _ _ _ _ _ Hi E) as (r & rs' & x & _ & _ & _ & _ & _ & Hi' & Ea). eexists. split; [exact Hi'|by apply rtc_once].
Qed.

(** ** Who sleeps *)

(** A call that sleeps waits for something that has not happened: for
    descriptors while fewer than three are free, or for its buffer while
    b->disk is 1. *)
Definition sleep_ok (d : vdisk) (calls : gmap Z vcall) : Prop := forall b c, vd_sleep d !! b = Some c ->
  match c with
  | Ch_free => (exists w, calls !! b = Some (C_alloc w)) /\ few_free d
  | Ch_buf b' => b' = b /\ (exists i0, calls !! b = Some (C_wait i0)) /\ exists x, vd_bufs d !! b = Some x /\ vb_disk x = 1
  end.

(** A call changes; it is awake. *)
Lemma sleep_frame d d' calls calls' b :
  sleep_ok d calls -> vd_sleep d !! b = None -> vd_sleep d' ⊆ vd_sleep d ->
  (forall b', b' <> b -> calls' !! b' = calls !! b') -> (forall b', b' <> b -> vd_bufs d' !! b' = vd_bufs d !! b') ->
  (few_free d -> few_free d' \/ forall b', vd_sleep d' !! b' <> Some Ch_free) -> sleep_ok d' calls'.
Proof.
  intros Hok Hb Hsub Hc Hbu Hf b' c Hs. pose proof (lookup_weaken _ _ _ _ Hs Hsub) as Hs'. assert (Hne : b' <> b) by congruence. specialize (Hok b' c Hs').
  destruct c; [|by rewrite Hc, Hbu]. destruct Hok as [Hw Hff]. rewrite Hc by done. split; [done|]. destruct (Hf Hff) as [|Hno]; [done|]. by destruct (Hno b').
Qed.

Lemma no_call_awake d calls b : sleep_ok d calls -> calls !! b = None -> vd_sleep d !! b = None.
Proof.
  intros Hok Hc. destruct (vd_sleep d !! b) as [[|b']|] eqn:E; [destruct (Hok _ _ E) as [[? ?] _]|destruct (Hok _ _ E) as (_ & [? ?] & _)|done]; congruence.
Qed.

Lemma sleep_insert d calls b c :
  sleep_ok d calls ->
  match c with
  | Ch_free => (exists w, calls !! b = Some (C_alloc w)) /\ few_free d
  | Ch_buf b' => b' = b /\ (exists i0, calls !! b = Some (C_wait i0)) /\ exists x, vd_bufs d !! b = Some x /\ vb_disk x = 1
  end -> sleep_ok (upd_sleep (<[b := c]>) d) calls.
Proof.
  intros Hok Hc b' c' Hs. cbn [upd_sleep vd_sleep] in Hs. destruct (decide (b' = b)) as [->|Hne]; [rewrite lookup_insert_eq in Hs; by injection Hs as <-|rewrite lookup_insert_ne in Hs by done; by apply Hok].
Qed.

Lemma sleep_wait d lock calls v rs b i0 over d' :
  vinv (mk_sys d lock calls v) rs -> sleep_ok d calls -> calls !! b = Some (C_wait i0) -> vd_sleep d !! b = None -> rw_wait b i0 d = Ok (over, d') ->
  sleep_ok d' (after_wait over b calls).
Proof.
  intros Hi Hok Hc Hb E. destruct (rw_wait_run _ _ _ _ _ _ _ Hi Hc) as (r & rs' & Hp & Er & E0 & Hr). case_decide as Ep.
  - rewrite Hr in E. injection E as <- <-. cbn [after_wait]. apply (sleep_frame d _ calls _ b); try done; cbn [freed zero_desc upd_sleep upd_free upd_desc upd_info vd_sleep vd_bufs].
    + etrans; [apply map_filter_subseteq|]. etrans; [apply map_filter_subseteq|]. apply map_filter_subseteq.
    + intros b' Hne. by rewrite lookup_delete_ne.
    + intros _. right. intros b' Hs. apply map_lookup_filter_Some in Hs as [_ Hs]. done.
  - destruct Hr as [Hr Hx]. rewrite Hr in E. injection E as <- <-. cbn [after_wait]. apply sleep_insert; [done|]. split_and!; [done|by eexists|done].
Qed.

Lemma sleep_begin d calls v rs b w r d' :
  vinv (mk_sys d None calls v) rs -> sleep_ok d calls -> calls !! b = Some (C_alloc w) -> is_Some (vd_bufs d !! b) -> vd_sleep d !! b = None -> rw_begin b w d = Ok (r, d') ->
  sleep_ok d' (if r is Some i0 then <[b := C_wait i0]> calls else calls).
Proof.
  intros Hi Hok Hc [x Hx] Hb E. destruct (iv_lens _ _ Hi) as (_ & L4 & L5 & _). cbn [sy_drv] in *.
  destruct (rw_begin_run d b w x L4 L5 Hx) as [(j0 & j1 & j2 & E' & Hn & Hf)|(d2 & E' & Hcl & Hff)]; rewrite E' in E; injection E as <- <-.
  - apply (sleep_frame d _ calls _ b); try done.
    + intros b' Hne. by rewrite lookup_insert_ne.
    + intros b' Hne. cbn [filled vd_bufs]. by rewrite lookup_insert_ne.
    + intros (l & Hl & Hin). left. exists l. split; [done|]. intros i Hi'. apply Hin. cbn [filled vd_free] in Hi'. pose proof (lookup_lt_Some _ _ _ Hi') as Hlt. unfold taken3 in Hlt. rewrite !length_insert in Hlt.
      apply list_lookup_total_correct in Hi'. rewrite taken3_lookup in Hi' by done. case_decide; [done|]. rewrite <- Hi'. by apply list_lookup_lookup_total_lt.
  - destruct Hcl as (Ed & _ & _ & Hsub). assert (Ef : vd_free d2 = vd_free d) by (by rewrite Ed). assert (Eb : vd_bufs d2 = vd_bufs d) by (by rewrite Ed).
    apply sleep_insert; [|split; [by eexists|]; unfold few_free; by rewrite Ef]. apply (sleep_frame d _ calls _ b); try done; [by rewrite Eb|]. unfold few_free. rewrite Ef. by left.
Qed.

Lemma sleep_acked d calls r : sleep_ok d calls -> sleep_ok (acked r d) calls.
Proof.
  intros Hok b c Hs. cbn [acked upd_bufs upd_sleep set_used_idx vd_sleep] in Hs. apply map_lookup_filter_Some in Hs as [Hs Hne]. specialize (Hok b c Hs). destruct c as [|b']; [done|].
  destruct Hok as (-> & Hc & Hx). split_and!; [done..|]. cbn [snd] in Hne. cbn [acked upd_bufs upd_sleep set_used_idx vd_bufs]. rewrite lookup_alter_ne; [done|]. congruence.
Qed.

Lemma sleep_perform d calls r junk bl : sleep_ok d calls -> sleep_ok (perform_drv r junk bl d) calls.
Proof.
  intros Hok b c. destruct (perform_frame r junk bl d) as (_ & F2 & _ & _ & _ & _ & _ & _ & _ & F9 & F10). rewrite F9. intros Hs. specialize (Hok b c Hs). destruct c as [|b']; [unfold few_free; by rewrite F2|].
  destruct Hok as (-> & Hc & x & Hx & Hd). split_and!; [done..|]. rewrite F10. destruct (r_write r); [by exists x|]. destruct (decide (b = r_b r)) as [->|Hne]; [rewrite lookup_alter_eq, Hx; by eexists|rewrite lookup_alter_ne by done; by exists x].
Qed.

(** What the system keeps to besides the invariant on requests. *)
Record calls_ok (s : sys) : Prop := {
  co_bufs : has_bufs s;
  co_sleep : sleep_ok (sy_drv s) (sy_calls s);
  (* who holds vdisk_lock is awake *)
  co_lock : forall i0 b, sy_lock s = Some i0 -> sy_calls s !! b = Some (C_wait i0) -> vd_sleep (sy_drv s) !! b = None;
}.

Lemma bufs_begin d d' b w r x : vd_bufs d !! b = Some x -> length (vd_free d) = 8%nat -> length (vd_info d) = 8%nat -> rw_begin b w d = Ok (r, d') ->
  (forall b', is_Some (vd_bufs d !! b') -> is_Some (vd_bufs d' !! b')) /\ (r = None \/ vd_sleep d' = vd_sleep d).
Proof.
  intros Hx L4 L5 E. destruct (rw_begin_run d b w x L4 L5 Hx) as [(j0 & j1 & j2 & E' & _)|(d2 & E' & (Ed & _) & _)]; rewrite E' in E; injection E as <- <-.
  - split; [|by right]. intros b' Hb'. cbn [filled vd_bufs]. by apply lookup_insert_is_Some'; right.
  - split; [|by left]. intros b' Hb'. cbn. by rewrite Ed.
Qed.

Lemma bufs_wait d lock calls v rs b i0 over d' :
  vinv (mk_sys d lock calls v) rs -> calls !! b = Some (C_wait i0) -> rw_wait b i0 d = Ok (over, d') -> vd_bufs d' = vd_bufs d.
Proof.
  intros Hi Hc E. destruct (rw_wait_run _ _ _ _ _ _ _ Hi Hc) as (r & rs' & _ & _ & _ & Hr). case_decide; [|destruct Hr as [Hr _]]; rewrite Hr in E; by injection E as <- <-.
Qed.

Lemma call_unique s rs b b' i : vinv s rs -> sy_calls s !! b = Some (C_wait i) -> sy_calls s !! b' = Some (C_wait i) -> b = b'.
Proof.
  intros Hi (r & Hr & <- & E0)%(iv_calls _ _ Hi) (r' & Hr' & <- & E0')%(iv_calls _ _ Hi). apply elem_of_Permutation in Hr as [rs' Hp]. pose proof (vinv_perm _ _ _ Hp Hi) as Hi'.
  rewrite Hp in Hr'. apply elem_of_cons in Hr' as [->|Hr']; [done|]. exfalso. apply (chains_disjoint r r' rs' i (iv_nodup _ _ Hi') Hr'); [rewrite <- E0'|rewrite <- E0]; by left.
Qed.

Lemma calls_step s s' rs rs' : vinv s rs -> vinv s' rs' -> calls_ok s -> vstep s s' -> calls_ok s'.
Proof.
  intros Hi Hi' [Hb Hok Hl] Hs. destruct Hs as [d lock calls v b x Hc Hx|d lock calls v b x w Hx Hc|d calls v b w i0 d' Hc Hsl E|d calls v b w d' Hc Hsl E|d i0 calls v b over d' Hc E|d calls v b i0 over d' Hc Hsl E|d lock calls v b|d calls v more d' E|d lock calls i q bl Hne|d lock calls i q1 h q2 bl st junk d' v' E];
    destruct (iv_lens _ _ Hi) as (_ & L4 & L5 & _); unfold has_bufs in Hb; cbn [sy_drv sy_calls sy_lock] in *.
  - pose proof (no_call_awake _ _ _ Hok Hc) as Hb0.
    split; cbn [sy_drv sy_calls sy_lock]; [|by apply (sleep_frame d _ calls _ b); auto; intros b' Hne; cbn; rewrite lookup_insert_ne|done]. intros b' c Hc'. cbn. apply lookup_insert_is_Some'. right. by eapply Hb.
  - pose proof (no_call_awake _ _ _ Hok Hc) as Hb0.
    split; cbn [sy_drv sy_calls sy_lock].
    + intros b' c. cbn. destruct (decide (b' = b)) as [->|Hne]; [intros _; by eexists|]. rewrite lookup_insert_ne by done. apply Hb.
    + apply (sleep_frame d _ calls _ b); auto. intros b' Hne. by rewrite lookup_insert_ne.
    + intros i0 b' Hlk. destruct (decide (b' = b)) as [->|Hne]; [by rewrite lookup_insert_eq|]. rewrite lookup_insert_ne by done. by apply Hl.
  - destruct (Hb _ _ Hc) as [x Hx]. destruct (bufs_begin _ _ _ _ _ _ Hx L4 L5 E) as [Hbu Hsl']. split; cbn [sy_drv sy_calls sy_lock].
    + intros b' c. cbn. destruct (decide (b' = b)) as [->|Hne]; [intros _; apply Hbu; by eexists|]. rewrite lookup_insert_ne by done. intros Hc'. by eapply Hbu, Hb.
    + exact (sleep_begin _ _ _ _ _ _ _ _ Hi Hok Hc (ex_intro _ x Hx) Hsl E).
    + intros i b' [= <-] Hc'. destruct Hsl' as [|Es]; [done|]. rewrite Es. assert (b' = b) as -> by (apply (call_unique _ _ _ _ i0 Hi' Hc'); cbn; by rewrite lookup_insert_eq). done.
  - destruct (Hb _ _ Hc) as [x Hx]. destruct (bufs_begin _ _ _ _ _ _ Hx L4 L5 E) as [Hbu _]. split; cbn [sy_drv sy_calls sy_lock]; [|exact (sleep_begin _ _ _ _ _ _ _ _ Hi Hok Hc (ex_intro _ x Hx) Hsl E)|done].
    intros b' c Hc'. by eapply Hbu, Hb.
  - rewrite bind_run in E. cbn [rw_publish modify] in E. destruct (publish_inv _ _ _ _ _ Hi) as (r & rs1 & _ & _ & _ & Hi1 & _). split; cbn [sy_drv sy_calls sy_lock]; [| |done].
    + intros b' c. cbn [sy_calls sy_drv]. rewrite (bufs_wait _ _ _ _ _ _ _ _ _ Hi1 Hc E). destruct over; cbn [after_wait]; [intros [_ Hc']%lookup_delete_Some|intros Hc']; by eapply Hb.
    + eapply (sleep_wait _ _ _ _ _ b i0); [exact Hi1|exact Hok|done| |exact E]. by apply (Hl i0 b).
  - split; cbn [sy_drv sy_calls sy_lock]; [|by eapply sleep_wait|done]. intros b' c. cbn [sy_calls sy_drv]. rewrite (bufs_wait _ _ _ _ _ _ _ _ _ Hi Hc E). destruct over; cbn [after_wait]; [intros [_ Hc']%lookup_delete_Some|intros Hc']; by eapply Hb.
  - split; cbn [sy_drv sy_calls sy_lock]; [done| |].
    + intros b' c Hs. cbn [upd_sleep vd_sleep] in Hs. apply lookup_delete_Some in Hs as [_ Hs]. exact (Hok b' c Hs).
    + intros i0 b' Hlk Hc'. cbn. apply lookup_delete_None. right. by apply (Hl i0).
  - pose proof (intr_one_run _ _ _ _ _ Hi) as Hr. destruct (decide (vd_used_idx d = vd_used_ridx d)) as [_|_]; [rewrite Hr in E; by injection E as _ <-|].
    destruct Hr as (r & rs1 & Hp & Ep & Hr). case_decide as Est; [destruct Hr as [E' _]|by rewrite Hr in E]. rewrite E' in E. injection E as _ <-. split; cbn [sy_drv sy_calls sy_lock]; [|by apply sleep_acked|done].
    intros b' c Hc'. cbn. apply lookup_alter_is_Some. by eapply Hb.
  - by split.
  - destruct (perform_taken _ _ _ _ _ _ _ _ _ _ _ _ _ Hi E) as (r & rs1 & x & _ & _ & _ & _ & -> & _). destruct (perform_frame (set_status st r) junk bl d) as (_ & _ & _ & _ & _ & _ & _ & _ & _ & F9 & F10).
    split; cbn [sy_drv sy_calls sy_lock]; [|by apply sleep_perform|intros i0 b' Hlk Hc'; rewrite F9; by apply (Hl i0)]. intros b' c Hc'. cbn [sy_drv]. rewrite F10. destruct (r_write _); [by eapply Hb|]. apply lookup_alter_is_Some. by eapply Hb.
Qed.

Definition bufs_ok (bufs : gmap Z vbuf) : Prop := map_Forall (fun _ x => 0 <= vb_blockno x < 2147483648) bufs.

Lemma vboot_inv bufs bl : bufs_ok bufs -> vinv (boot_sys bufs bl) [] /\ calls_ok (boot_sys bufs bl).
Proof.
  intros Hb. split; [|by split]. split; try done; cbn [boot_sys sy_drv sy_calls].
  - constructor.
  - intros i Hi. by apply elem_of_nil in Hi.
  - intros i Hi. cbn [boot_vdisk vd_free]. rewrite bool_decide_eq_true_2 by (apply not_elem_of_nil). by do 8 (destruct i as [|i]; [done|]); lia.
  - constructor.
  - intros b i. split; [by rewrite lookup_empty|]. intros (r & Hr & _). by apply elem_of_nil in Hr.
Qed.

Lemma reachable_inv bufs bl s : bufs_ok bufs -> vreachable bufs bl s -> exists rs, vinv s rs /\ calls_ok s /\ rtc astep (abs (boot_sys bufs bl) []) (abs s rs).
Proof.
  intros Hb Hs. unfold vreachable in Hs. revert Hs. apply (rtc_ind_r (fun s => exists rs, vinv s rs /\ calls_ok s /\ rtc astep (abs (boot_sys bufs bl) []) (abs s rs))).
  - exists []. destruct (vboot_inv bufs bl Hb) as [H1 H2]. by split_and!.
  - intros s1 s2 _ Hs (rs & Hi & Hc & Ha). destruct (step_sim _ _ _ Hi (co_bufs _ Hc) Hs) as (rs' & Hi' & Ha'). exists rs'. split; [done|]. split; [by apply (calls_step _ _ _ _ Hi Hi')|by etrans].
Qed.

(** ** Errors of the device *)

(** The completions that the driver has not seen yet, and that they are without
    error. *)
Definition completions (d : vdisk) : list Z := rqueue NUM 65536 (vd_used_ring d) (vd_used_idx d) (vd_used_ridx d).
Definition all_good (d : vdisk) : Prop := Forall (fun h => in_status (vd_info d !!! Z.to_nat h) = 0) (completions d).

Definition good (rs : list request) : Prop := Forall (fun r => r_phase r = Used -> r_st r = 0) rs.

Lemma used_good s rs : vinv s rs -> all_good (sy_drv s) <-> good rs.
Proof.
  intros Hi. unfold all_good, completions. rewrite (qo_used _ _ _ _ (iv_queues _ _ Hi)). unfold good. rewrite !Forall_forall. pose proof (iv_ok _ _ Hi) as Hok. rewrite Forall_forall in Hok. split.
  - intros Hg r Hr Ep. pose proof (ro_info _ _ (Hok r Hr)) as E. rewrite Ep in E. cbn in E. specialize (Hg (Z.of_nat (r_0 r))). rewrite Nat2Z.id, E in Hg. apply Hg.
    unfold heads. apply list_elem_of_fmap. exists r. split; [done|]. by apply list_elem_of_filter.
  - intros Hg h (r & -> & [Ep Hr]%list_elem_of_filter)%list_elem_of_fmap. rewrite Nat2Z.id, (ro_info _ _ (Hok r Hr)), Ep. cbn. by apply Hg.
Qed.

Lemma good_perm rs rs' : rs ≡ₚ rs' -> good rs -> good rs'.
Proof. unfold good. by intros ->. Qed.

Lemma good_cons r rs : good (r :: rs) <-> (r_phase r = Used -> r_st r = 0) /\ good rs.
Proof. apply Forall_cons. Qed.

Lemma good_head rs r rs' : rs ≡ₚ r :: rs' -> good rs -> (r_phase r = Used -> r_st r = 0) /\ good rs'.
Proof. intros Hp Hg. by apply good_cons, (good_perm rs). Qed.

(** The interrupt handler acknowledges every completion, or panics at the first
    with an error; there are at most two, so nine iterations are enough. *)
Lemma intr_loop_run k : forall d lock calls v rs,
  vinv (mk_sys d lock calls v) rs -> (length (heads Used rs) < k)%nat -> good rs -> exists d', intr_loop k d = Ok (tt, d') /\ vd_used_idx d' = vd_used_ridx d'.
Proof.
  induction k as [|k IH]; intros d lock calls v rs Hi Hk Hg; [lia|]. cbn [intr_loop]. pose proof (intr_one_run _ _ _ _ _ Hi) as Hr. destruct (decide (vd_used_idx d = vd_used_ridx d)) as [E|_].
  - rewrite (bind_Ok _ _ _ _ _ Hr). by exists d.
  - destruct Hr as (r & rs' & Hp & Ep & Hr). pose proof (good_head _ _ _ Hp Hg) as [Hg1 Hg']. clear Hg. rename Hg' into Hg. rewrite decide_True in Hr by auto. destruct Hr as [E' Hi']. rewrite (bind_Ok _ _ _ _ _ E'). apply (IH _ _ _ _ _ Hi'); [|by apply good_cons].
    rewrite (Permutation_length (heads_perm Used _ _ Hp)), heads_cons, decide_True in Hk by done. rewrite heads_cons, decide_False by done. cbn in Hk. lia.
Qed.

Lemma intr_loop_bad k : forall d lock calls v rs,
  vinv (mk_sys d lock calls v) rs -> (length (heads Used rs) < k)%nat -> ~ good rs -> intr_loop k d = Panic "virtio_disk_intr status".
Proof.
  induction k as [|k IH]; intros d lock calls v rs Hi Hk Hg; [lia|]. cbn [intr_loop]. pose proof (intr_one_run _ _ _ _ _ Hi) as Hr. destruct (decide (vd_used_idx d = vd_used_ridx d)) as [E|_].
  - destruct Hg. apply (used_good _ _ Hi). unfold all_good, completions. cbn [sy_drv]. rewrite rqueue_nil; [constructor|]. unfold rcount. by rewrite E, Z.sub_diag.
  - destruct Hr as (r & rs' & Hp & Ep & Hr). case_decide as Est; [destruct Hr as [E' Hi']|by rewrite bind_run, Hr]. rewrite (bind_Ok _ _ _ _ _ E'). apply (IH _ _ _ _ _ Hi').
    + rewrite (Permutation_length (heads_perm Used _ _ Hp)), heads_cons, decide_True in Hk by done. rewrite heads_cons, decide_False by done. cbn in Hk. lia.
    + intros [_ Hg']%good_cons. apply Hg. apply (good_perm (r :: rs')); [done|]. by apply good_cons.
Qed.

Lemma call_acked d lock calls v rs b i0 x :
  vinv (mk_sys d lock calls v) rs -> calls !! b = Some (C_wait i0) -> vd_bufs d !! b = Some x -> exists r rs', rs ≡ₚ r :: rs' /\ r_b r = b /\ r_0 r = i0 /\ (vb_disk x <> 1 <-> r_phase r = Acked).
Proof.
  intros Hi Hc Hx. destruct (proj1 (iv_calls _ _ Hi b i0) Hc) as (r & Hr & Eb & E0). pose proof Hr as [rs' Hp]%elem_of_Permutation. exists r, rs'. split_and!; [done..|].
  pose proof (iv_ok _ _ Hi) as Hok. rewrite Forall_forall in Hok. destruct (ro_buf _ _ (Hok r Hr)) as [data Ed]. cbn [sy_drv] in Ed. rewrite Eb, Hx in Ed. injection Ed as ->. cbn. by case_decide.
Qed.

(** ** Every call can return *)

(** What is left to do for a request, and for the calls. *)
Definition phase_left (p : phase) : nat := match p with Filled => 5 | Avail => 4 | Taken => 3 | Used => 2 | Acked => 1 end.
Definition work_left (rs : list request) : nat := sum_list (phase_left ∘ r_phase <$> rs).
Definition calls_left (s : sys) (rs : list request) : nat := work_left rs + 6 * size (waiting (sy_calls s)).

Lemma work_left_cons r rs : work_left (r :: rs) = (phase_left (r_phase r) + work_left rs)%nat.
Proof. done. Qed.

Lemma work_left_perm rs rs' : rs ≡ₚ rs' -> work_left rs = work_left rs'.
Proof. intros H. unfold work_left. by rewrite H. Qed.

(** A step after which less is left to do. *)
Definition moves (s : sys) (rs : list request) : Prop := exists s' rs', vstep s s' /\ vinv s' rs' /\ good rs' /\ (calls_left s' rs' < calls_left s rs)%nat.

Lemma moves_publish d i0 calls v rs : vinv (mk_sys d (Some i0) calls v) rs -> good rs -> moves (mk_sys d (Some i0) calls v) rs.
Proof.
  intros Hi Hg. destruct (publish_inv _ _ _ _ _ Hi) as (r & rs' & Hp & Ep & E0 & Hi' & _). pose proof (request_call _ _ _ Hi') as Hc. pose proof (rw_wait_head _ _ _ _ _ _ Hi') as Hw. cbn [set_phase r_phase r_b r_0] in Hw. rewrite decide_False in Hw by done. destruct Hw as [Hw _].
  pose proof (good_head _ _ _ Hp Hg) as [_ Hg']. clear Hg. rename Hg' into Hg. eexists _, (set_phase Avail r :: rs'). split; [|split; [exact (vinv_sleep _ (<[r_b r := Ch_buf (r_b r)]>) _ _ _ _ Hi')|split; [by apply good_cons|]]].
  - apply (step_publish d i0 calls v (r_b r) false). { rewrite <- E0. exact Hc. } rewrite bind_run. cbn [rw_publish modify]. rewrite <- E0. exact Hw.
  - unfold calls_left. rewrite (work_left_perm _ _ Hp), !work_left_cons, Ep. cbn. lia.
Qed.

Lemma moves_taken d calls i q bl r rs : vinv (mk_sys d None calls (mk_device i q bl)) (r :: rs) -> r_phase r = Taken -> good (r :: rs) -> moves (mk_sys d None calls (mk_device i q bl)) (r :: rs).
Proof.
  intros Hi Ep Hg. pose proof (qo_taken _ _ _ _ (iv_queues _ _ Hi)) as Ht. cbn [sy_dev dv_q] in Ht. assert (Hq : Z.of_nat (r_0 r) ∈ q) by (rewrite Ht, heads_cons, decide_True by done; by left).
  destruct (vinv_status _ _ _ 0 Hi) as [Hi' _]; [by rewrite Ep|]. pose proof (Forall_inv (iv_ok _ _ Hi')) as Hr. cbn [sy_drv] in Hr. destruct (ro_buf _ _ Hr) as [data Eb].
  apply list_elem_of_split in Hq as (q1 & q2 & ->). pose proof (iv_blocks _ _ Hi _ _ Eb) as Hn. cbn [vb_blockno] in Hn. apply good_cons in Hg as [_ Hg]. eexists _, (set_phase Used (set_status 0 r) :: rs). split; [|split; [|split]].
  - apply (step_perform _ _ _ _ _ _ _ _ 0 []). rewrite Nat2Z.id. exact (perform_run _ (set_status 0 r) _ _ [] Hr Eb Hn).
  - apply (perform_inv _ _ _ (mk_device i (q1 ++ Z.of_nat (r_0 r) :: q2) bl) (set_status 0 r) _ _ (q1 ++ q2) [] Hi' Ep Eb). cbn. by rewrite Permutation_middle.
  - by apply good_cons.
  - unfold calls_left. rewrite !work_left_cons, Ep. cbn. lia.
Qed.

(** A call whose request has been acknowledged is awake. *)
Lemma acked_awake d lock calls v r rs : vinv (mk_sys d lock calls v) (r :: rs) -> sleep_ok d calls -> r_phase r = Acked -> vd_sleep d !! r_b r = None.
Proof.
  intros Hi Hok Ep. pose proof (request_call _ _ _ Hi) as Hc. cbn [sy_calls] in Hc. destruct (ro_buf _ _ (Forall_inv (iv_ok _ _ Hi))) as [data Ed]. cbn [sy_drv] in Ed. rewrite decide_True in Ed by done.
  destruct (vd_sleep d !! r_b r) as [[|b']|] eqn:E; [|by destruct (Hok _ _ E) as (_ & _ & x & Hx & Hd); rewrite Ed in Hx; injection Hx as <-|done]. destruct (Hok _ _ E) as [[w Hw] _]. congruence.
Qed.

Lemma moves_request d calls v r rs : vinv (mk_sys d None calls v) (r :: rs) -> sleep_ok d calls -> good (r :: rs) -> moves (mk_sys d None calls v) (r :: rs).
Proof.
  intros Hi Hok Hg. pose proof (iv_queues _ _ Hi) as HQ. cbn [sy_drv sy_lock sy_dev] in HQ. destruct (r_phase r) eqn:Ep.
  - pose proof (qo_lock _ _ _ _ HQ) as Hl. by rewrite heads_cons, decide_True in Hl.
  - destruct v as [i q bl]. assert (Hia : i <> vd_avail_idx d). { intros ->. pose proof (qo_avail _ _ _ _ HQ) as Ha. cbn [dv_idx] in Ha. rewrite rqueue_nil, heads_cons, decide_True in Ha by (done || (unfold rcount; by rewrite Z.sub_diag)). by apply Permutation_nil_cons in Ha. }
    destruct (take_inv _ _ _ _ _ _ _ Hia Hi) as (r' & rs' & Hp & Ep' & Hi' & _). pose proof (good_head _ _ _ Hp Hg) as [_ Hg']. clear Hg. rename Hg' into Hg. eexists _, _. split; [by apply step_take|]. split; [exact Hi'|]. split; [by apply good_cons|].
    unfold calls_left. rewrite (work_left_perm _ _ Hp), !work_left_cons, Ep'. cbn. lia.
  - destruct v as [i q bl]. by apply moves_taken.
  - pose proof (intr_one_run _ _ _ _ _ Hi) as Hr1. destruct (decide (vd_used_idx d = vd_used_ridx d)) as [E|_].
    + exfalso. pose proof (qo_used _ _ _ _ HQ) as Hu. rewrite rqueue_nil, heads_cons, decide_True in Hu by (done || (unfold rcount; by rewrite E, Z.sub_diag)). by apply Permutation_nil_cons in Hu.
    + destruct Hr1 as (r' & rs' & Hp & Ep' & Hr1). pose proof (good_head _ _ _ Hp Hg) as [Hg1 Hg']. clear Hg. rename Hg' into Hg. rewrite decide_True in Hr1 by auto. destruct Hr1 as [E' Hi']. eexists _, _. split; [by eapply step_intr|]. split; [exact Hi'|]. split; [by apply good_cons|].
      unfold calls_left. rewrite (work_left_perm _ _ Hp), !work_left_cons, Ep'. cbn. lia.
  - pose proof (request_call _ _ _ Hi) as Hc. cbn [sy_calls] in Hc. pose proof (rw_wait_head _ _ _ _ _ _ Hi) as Hw. rewrite decide_True in Hw by done. apply good_cons in Hg as [_ Hg].
    eexists _, rs. split; [eapply (step_wait _ _ _ (r_b r) (r_0 r) true); [exact Hc|by eapply acked_awake|exact Hw]|]. split; [exact (end_inv _ _ _ _ r rs Hi Ep)|]. split; [done|].
    unfold calls_left. cbn [sy_calls after_wait]. rewrite (waiting_delete _ _ _ Hc), work_left_cons, Ep. cbn. lia.
Qed.

(** When no request is in progress, all descriptors are free. *)
Lemma idle_free s : vinv s [] -> vd_free (sy_drv s) = replicate 8 true.
Proof.
  intros Hi. destruct (iv_lens _ _ Hi) as (_ & L4 & _). apply list_eq_same_length with 8%nat; [done|done|]. intros i y z Hlt Hy Hz. apply lookup_replicate in Hz as [-> _]. rewrite <- (list_lookup_total_correct _ _ _ Hy).
  refine (eq_trans (iv_free _ _ Hi i Hlt) _). apply bool_decide_eq_true. apply not_elem_of_nil.
Qed.

Lemma idle_not_few s : vinv s [] -> ~ few_free (sy_drv s).
Proof.
  intros Hi (l & Hl & Hin). rewrite (idle_free _ Hi) in Hin. assert (Hs : (length (seq 0 3) <= length l)%nat); [|cbn in Hs; lia].
  apply submseteq_length, NoDup_submseteq; [apply NoDup_seq|]. intros i Hi'. apply elem_of_seq in Hi'. apply Hin. apply lookup_replicate. lia.
Qed.

Lemma moves_alloc d calls v : vinv (mk_sys d None calls v) [] -> calls_ok (mk_sys d None calls v) -> calls <> ∅ -> moves (mk_sys d None calls v) [].
Proof.
  intros Hi [Hb Hok _] Hne. cbn [sy_drv sy_calls] in *. apply map_choose in Hne as (b & c & Hc).
  destruct c as [w|i0]; [|apply (iv_calls _ _ Hi) in Hc as (r & Hr & _); by apply elem_of_nil in Hr].
  assert (Hsl : vd_sleep d !! b = None). { destruct (vd_sleep d !! b) as [[|b']|] eqn:E; [|destruct (Hok _ _ E) as (_ & [i0 Hi0] & _); congruence|done]. destruct (Hok _ _ E) as [_ Hf]. by destruct (idle_not_few _ Hi). }
  destruct (Hb _ _ Hc) as [x Hx]. cbn [sy_drv] in Hx. destruct (iv_lens _ _ Hi) as (_ & L4 & L5 & _). cbn [sy_drv] in *.
  destruct (rw_begin_run d b w x L4 L5 Hx) as [(i0 & i1 & i2 & E & Hn & Hf)|(d' & _ & _ & Hff)]; [|by destruct (idle_not_few _ Hi)].
  eexists _, _. split; [by eapply step_begin|]. split; [by apply (begin_inv d calls v [] b x w i0 i1 i2)|]. split; [apply good_cons; split; [done|constructor]|].
  unfold calls_left. cbn [sy_calls]. assert (Ew : waiting (<[b := C_wait i0]> calls) = delete b (waiting calls)).
  { apply map_eq. intros b'. rewrite lookup_waiting. destruct (decide (b' = b)) as [->|Hne']; [by rewrite lookup_insert_eq, lookup_delete_eq|by rewrite lookup_insert_ne, lookup_delete_ne, lookup_waiting]. }
  assert (Hw : waiting calls !! b = Some (w, Submitted)) by (by rewrite lookup_waiting, Hc). rewrite Ew, work_left_cons. cbn [r_phase phase_left].
  rewrite <- (insert_delete_id _ _ _ Hw), map_size_insert_None, delete_insert_eq by (by rewrite lookup_delete_eq). rewrite delete_delete_eq. cbn. lia.
Qed.

Lemma calls_finish n : forall s rs, vinv s rs -> calls_ok s -> good rs -> (calls_left s rs <= n)%nat -> exists s', rtc vstep s s' /\ sy_calls s' = ∅.
Proof.
  induction n as [n IH] using lt_wf_ind; intros s rs Hi Hc Hg Hn. destruct (decide (sy_calls s = ∅)) as [|Hne]; [by exists s|].
  assert (Hm : moves s rs). { destruct s as [d [i0|] calls v]; [by apply moves_publish|]. destruct rs as [|r rs]; [by apply moves_alloc|]. apply moves_request; [done|apply (co_sleep _ Hc)|done]. }
  destruct Hm as (s1 & rs1 & Hs & Hi1 & Hg1 & Hlt). destruct (IH (calls_left s1 rs1) ltac:(lia) s1 rs1 Hi1 (calls_step _ _ _ _ Hi Hi1 Hc Hs) Hg1 (le_n _)) as (s' & Hs' & E). exists s'. split; [by eapply rtc_l|done].
Qed.

(** ** The contract *)

(** (C8) Virtio disk refinement: whatever the interleaving of the calls of
    virtio_disk_rw, of the interrupt handler and of a device that completes
    requests in any order, with success or an error, the disk and the buffers
    are those of a disk on which each call in progress transfers its block in
    one atomic action, after the call and before its buffer is handed back;
    b->disk is cleared exactly when the transfer of that buffer is done, and
    never after an error. *)
Theorem virtio_refines (bufs : gmap Z vbuf) (bl : gmap Z block) (s : sys) :
  bufs_ok bufs -> vreachable bufs bl s ->
  exists a, rtc astep (mk_astate ∅ (bufs_of (boot_vdisk bufs)) bl) a /\ a_blocks a = dv_blocks (sy_dev s) /\ a_bufs a = bufs_of (sy_drv s) /\
    (forall b, is_Some (a_calls a !! b) <-> is_Some (sy_calls s !! b)) /\
    (forall b w, sy_calls s !! b = Some (C_alloc w) -> a_calls a !! b = Some (w, Submitted)) /\
    (forall b i0 x, sy_calls s !! b = Some (C_wait i0) -> vd_bufs (sy_drv s) !! b = Some x -> vb_disk x <> 1 <-> exists w, a_calls a !! b = Some (w, Finished)).
Proof.
  intros Hb Hs. destruct (reachable_inv _ _ _ Hb Hs) as (rs & Hi & _ & Ha). exists (abs s rs).
  assert (Hnone : forall b, (forall i, sy_calls s !! b <> Some (C_wait i)) -> a_calls (abs s rs) !! b = waiting (sy_calls s) !! b).
  { intros b Hn. cbn [abs a_calls]. apply lookup_union_r, calls_of_None. by apply (call_request _ _ _ Hi). }
  assert (Hreq : forall r rs', rs ≡ₚ r :: rs' -> a_calls (abs s rs) !! r_b r = Some (r_write r, progress_of r)).
  { intros r rs' Hp. rewrite (abs_perm _ _ _ Hi Hp), abs_cons. cbn [a_calls]. by rewrite lookup_insert_eq. }
  split_and!; try done.
  - intros b. destruct (sy_calls s !! b) as [[w|i]|] eqn:Hc.
    + rewrite Hnone by (intros j; by rewrite Hc). by rewrite lookup_waiting, Hc.
    + destruct (proj1 (iv_calls _ _ Hi b i) Hc) as (r & Hr & <- & _). apply elem_of_Permutation in Hr as [rs' Hp]. by rewrite (Hreq _ _ Hp).
    + rewrite Hnone by (intros j; by rewrite Hc). by rewrite lookup_waiting, Hc.
  - intros b w Hc. rewrite Hnone by (intros j; by rewrite Hc). by rewrite lookup_waiting, Hc.
  - intros b i0 x Hc Hx. destruct s as [d lock calls v]. destruct (call_acked _ _ _ _ _ _ _ _ Hi Hc Hx) as (r & rs' & Hp & <- & _ & Hd). rewrite (Hreq _ _ Hp), Hd. unfold progress_of.
    split; [intros ->; by eexists|]. intros [w [= _ E]]. destruct (r_phase r); try done. by destruct (r_st r =? 0).
Qed.

(** (C9) Virtio disk safety: in every reachable state the driver's next piece of
    code runs without a panic: a call gets its descriptors or goes to sleep, a
    call that waits goes on waiting or frees its chain, and the interrupt
    handler terminates with every completion acknowledged, unless the device
    reported an error, when it panics; the device understands every chain it
    has taken; and when no call holds descriptors, all of them are free. *)
Theorem virtio_safe (bufs : gmap Z vbuf) (bl : gmap Z block) (s : sys) :
  bufs_ok bufs -> vreachable bufs bl s ->
  (forall b w x, vd_bufs (sy_drv s) !! b = Some x -> exists r d', rw_begin b w (sy_drv s) = Ok (r, d')) /\
  (forall b i0, sy_calls s !! b = Some (C_wait i0) -> exists over d', rw_wait b i0 (sy_drv s) = Ok (over, d')) /\
  (forall b i0 x, sy_calls s !! b = Some (C_wait i0) -> vd_bufs (sy_drv s) !! b = Some x -> vb_disk x <> 1 -> exists d', rw_end i0 (sy_drv s) = Ok (tt, d')) /\
  (all_good (sy_drv s) -> exists d', virtio_disk_intr (sy_drv s) = Ok (tt, d') /\ vd_used_idx d' = vd_used_ridx d') /\
  (~ all_good (sy_drv s) -> virtio_disk_intr (sy_drv s) = Panic "virtio_disk_intr status") /\
  (forall h st junk, h ∈ dv_q (sy_dev s) -> is_Some (perform (Z.to_nat h) st junk (sy_drv s) (sy_dev s))) /\
  ((forall b i0, sy_calls s !! b <> Some (C_wait i0)) -> vd_free (sy_drv s) = replicate 8 true).
Proof.
  intros Hb Hs. destruct (reachable_inv _ _ _ Hb Hs) as (rs & Hi & _ & _). destruct s as [d lock calls v]. cbn [sy_drv sy_calls sy_dev]. destruct (iv_lens _ _ Hi) as (_ & L4 & L5 & _). cbn [sy_drv] in L4, L5.
  pose proof (heads_short _ _ Used Hi) as Hshort. assert (H9 : (length (heads Used rs) < S (Z.to_nat NUM))%nat) by (change (S (Z.to_nat NUM)) with 9%nat; lia). split_and!.
  - intros b w x Hx. destruct (rw_begin_run d b w x L4 L5 Hx) as [(i0 & i1 & i2 & E & _)|(d' & E & _)]; eauto.
  - intros b i0 Hc. destruct (rw_wait_run _ _ _ _ _ _ _ Hi Hc) as (r & rs' & _ & _ & _ & E). case_decide; [eauto|destruct E as [E _]; eauto].
  - intros b i0 x Hc Hx Hd. destruct (call_acked _ _ _ _ _ _ _ _ Hi Hc Hx) as (r & rs' & Hp & _ & <- & _). apply (vinv_perm _ _ _ Hp) in Hi. eexists. exact (rw_end_run _ _ _ Hi).
  - intros Hg. exact (intr_loop_run _ _ _ _ _ _ Hi H9 (proj1 (used_good _ _ Hi) Hg)).
  - intros Hg. apply (intr_loop_bad _ _ _ _ _ _ Hi H9). intros Hg'. by apply Hg, (used_good _ _ Hi).
  - intros h st junk Hh. rewrite (qo_taken _ _ _ _ (iv_queues _ _ Hi) : dv_q v ≡ₚ _) in Hh. apply heads_in in Hh as (r & rs' & Hp & -> & Ep). apply (vinv_perm _ _ _ Hp) in Hi. destruct (vinv_status _ _ _ st Hi) as [Hi' _]; [by rewrite Ep|].
    pose proof (Forall_inv (iv_ok _ _ Hi')) as Hr. cbn [sy_drv] in Hr. destruct (ro_buf _ _ Hr) as [data Eb]. pose proof (iv_blocks _ _ Hi _ _ Eb) as Hn. cbn [vb_blockno] in Hn. rewrite Nat2Z.id. by rewrite (perform_run _ (set_status st r) _ v junk Hr Eb Hn : perform (r_0 r) st junk d v = _).
  - intros Hc. destruct rs as [|r rs]; [exact (idle_free _ Hi)|]. by destruct (Hc _ _ (request_call _ _ _ Hi)).
Qed.

(** (C10) Virtio disk completion.  No wakeup is lost: in every reachable state a
    call that sleeps on disk.free[0] would find fewer than three free
    descriptors if it ran, and a call that sleeps on its buffer has b->disk = 1.
    And as long as the device has reported no error that the driver has yet to
    see, all calls in progress, those that wait for descriptors included, can
    return, whatever has happened so far. *)
Theorem virtio_completes (bufs : gmap Z vbuf) (bl : gmap Z block) (s : sys) :
  bufs_ok bufs -> vreachable bufs bl s ->
  (forall b c, vd_sleep (sy_drv s) !! b = Some c ->
     match c with
     | Ch_free => exists w d', sy_calls s !! b = Some (C_alloc w) /\ rw_begin b w (sy_drv s) = Ok (None, d')
     | Ch_buf b' => b' = b /\ exists i0 x, sy_calls s !! b = Some (C_wait i0) /\ vd_bufs (sy_drv s) !! b = Some x /\ vb_disk x = 1
     end) /\
  (all_good (sy_drv s) -> exists s', rtc vstep s s' /\ sy_calls s' = ∅).
Proof.
  intros Hb Hs. destruct (reachable_inv _ _ _ Hb Hs) as (rs & Hi & Hc & _). split.
  - intros b c E. pose proof (co_sleep _ Hc b c E) as Hok. destruct c as [|b']; [|naive_solver]. destruct Hok as [[w Hw] (l & Hl & Hin)]. exists w. destruct (co_bufs _ Hc _ _ Hw) as [x Hx]. destruct (iv_lens _ _ Hi) as (_ & L4 & L5 & _).
    destruct (rw_begin_run _ b w x L4 L5 Hx) as [(i0 & i1 & i2 & _ & Hn & Hf)|(d' & E' & _)]; [exfalso|by eexists]. assert (H3 : (length [i0; i1; i2] <= length l)%nat); [|cbn in H3; lia].
    apply submseteq_length, NoDup_submseteq; [done|]. intros i Hi'. by apply Hin, Hf.
  - intros Hg. exact (calls_finish _ s rs Hi Hc (proj1 (used_good _ _ Hi) Hg) (le_n _)).
Qed.

(** ** A run *)

(** A write of buffer 5 to block 3 has been submitted. *)
Definition demo_bufs : gmap Z vbuf := {[ 5 := mk_vbuf 3 0 [7]%Z ]}.
Definition demo_sys : sys :=
  match rw_begin 5 true (boot_vdisk demo_bufs) with
  | Ok (Some i0, d) => mk_sys d (Some i0) (<[5 := C_wait i0]> (<[5 := C_alloc true]> ∅)) (mk_device 0 [] ∅)
  | _ => boot_sys demo_bufs ∅
  end.

Lemma demo_bufs_ok : bufs_ok demo_bufs.
Proof. by apply map_Forall_singleton. Qed.

Lemma demo_reachable : vreachable demo_bufs ∅ demo_sys.
Proof.
  eapply rtc_l; [apply (step_call _ _ ∅ _ 5 (mk_vbuf 3 0 [7]%Z) true); done|].
  unfold demo_sys. destruct (rw_begin 5 true (boot_vdisk demo_bufs)) as [[[i0|] d]|e] eqn:E; [|by vm_compute in E..].
  apply rtc_once. by apply (step_begin (boot_vdisk demo_bufs) (<[5 := C_alloc true]> ∅) (mk_device 0 [] ∅) 5 true i0 d).
Qed.

Lemma demo_good : all_good (sy_drv demo_sys).
Proof. unfold all_good. assert (E : completions (sy_drv demo_sys) = []) by (vm_compute; reflexivity). rewrite E. constructor. Qed.

Lemma virtio_refines_witness : exists a, rtc astep (mk_astate ∅ (bufs_of (boot_vdisk demo_bufs)) ∅) a /\ a_blocks a = dv_blocks (sy_dev demo_sys) /\ is_Some (a_calls a !! 5).
Proof.
  destruct (virtio_refines demo_bufs ∅ demo_sys demo_bufs_ok demo_reachable) as (a & H1 & H2 & _ & H4 & _). exists a. split; [exact H1|]. split; [exact H2|]. apply H4. by eexists.
Defined.

Lemma virtio_safe_witness : exists d', virtio_disk_intr (sy_drv demo_sys) = Ok (tt, d') /\ vd_used_idx d' = vd_used_ridx d'.
Proof. destruct (virtio_safe demo_bufs ∅ demo_sys demo_bufs_ok demo_reachable) as (_ & _ & _ & H & _). exact (H demo_good). Defined.

Lemma virtio_completes_witness : exists s', rtc vstep demo_sys s' /\ sy_calls s' = ∅.
Proof. destruct (virtio_completes demo_bufs ∅ demo_sys demo_bufs_ok demo_reachable) as [_ H]. exact (H demo_good). Defined.
