(* ===== verification/VirtioInit.v ===== *)
(** virtio_disk_init of kernel/virtio_disk.c: the negotiation with the device
    over its registers.  What a register reads as is the device's business and
    a parameter, [mmio], of the writes so far (the latest first). *)

From S2P Require Import Prelude Memory Riscv Kalloc Vm VmProps.

(** The registers that virtio_disk_init uses, by their offsets. *)
Inductive mmio_reg :=
  | VIRTIO_MMIO_MAGIC_VALUE | VIRTIO_MMIO_VERSION | VIRTIO_MMIO_DEVICE_ID | VIRTIO_MMIO_VENDOR_ID
  | VIRTIO_MMIO_DEVICE_FEATURES | VIRTIO_MMIO_DRIVER_FEATURES | VIRTIO_MMIO_QUEUE_SEL | VIRTIO_MMIO_QUEUE_NUM_MAX
  | VIRTIO_MMIO_QUEUE_NUM | VIRTIO_MMIO_QUEUE_READY | VIRTIO_MMIO_STATUS | VIRTIO_MMIO_QUEUE_DESC_LOW
  | VIRTIO_MMIO_QUEUE_DESC_HIGH | VIRTIO_MMIO_DRIVER_DESC_LOW | VIRTIO_MMIO_DRIVER_DESC_HIGH | VIRTIO_MMIO_DEVICE_DESC_LOW
  | VIRTIO_MMIO_DEVICE_DESC_HIGH.

Definition offset (r : mmio_reg) : Z :=
  match r with
  | VIRTIO_MMIO_MAGIC_VALUE => 0x000 | VIRTIO_MMIO_VERSION => 0x004 | VIRTIO_MMIO_DEVICE_ID => 0x008
  | VIRTIO_MMIO_VENDOR_ID => 0x00c | VIRTIO_MMIO_DEVICE_FEATURES => 0x010 | VIRTIO_MMIO_DRIVER_FEATURES => 0x020
  | VIRTIO_MMIO_QUEUE_SEL => 0x030 | VIRTIO_MMIO_QUEUE_NUM_MAX => 0x034 | VIRTIO_MMIO_QUEUE_NUM => 0x038
  | VIRTIO_MMIO_QUEUE_READY => 0x044 | VIRTIO_MMIO_STATUS => 0x070 | VIRTIO_MMIO_QUEUE_DESC_LOW => 0x080
  | VIRTIO_MMIO_QUEUE_DESC_HIGH => 0x084 | VIRTIO_MMIO_DRIVER_DESC_LOW => 0x090 | VIRTIO_MMIO_DRIVER_DESC_HIGH => 0x094
  | VIRTIO_MMIO_DEVICE_DESC_LOW => 0x0a0 | VIRTIO_MMIO_DEVICE_DESC_HIGH => 0x0a4
  end.
Coercion offset : mmio_reg >-> Z.

Inductive status_flag :=
  | VIRTIO_CONFIG_S_ACKNOWLEDGE | VIRTIO_CONFIG_S_DRIVER | VIRTIO_CONFIG_S_DRIVER_OK | VIRTIO_CONFIG_S_FEATURES_OK.

Definition status_bit (f : status_flag) : Z :=
  match f with
  | VIRTIO_CONFIG_S_ACKNOWLEDGE => 1 | VIRTIO_CONFIG_S_DRIVER => 2
  | VIRTIO_CONFIG_S_DRIVER_OK => 4 | VIRTIO_CONFIG_S_FEATURES_OK => 8
  end.
Coercion status_bit : status_flag >-> Z.

Inductive feature :=
  | VIRTIO_BLK_F_RO | VIRTIO_BLK_F_SCSI | VIRTIO_BLK_F_CONFIG_WCE | VIRTIO_BLK_F_MQ | VIRTIO_F_ANY_LAYOUT | VIRTIO_RING_F_INDIRECT_DESC | VIRTIO_RING_F_EVENT_IDX.

Definition feature_bit (f : feature) : Z :=
  match f with
  | VIRTIO_BLK_F_RO => 5 | VIRTIO_BLK_F_SCSI => 7 | VIRTIO_BLK_F_CONFIG_WCE => 11 | VIRTIO_BLK_F_MQ => 12
  | VIRTIO_F_ANY_LAYOUT => 27 | VIRTIO_RING_F_INDIRECT_DESC => 28 | VIRTIO_RING_F_EVENT_IDX => 29
  end.
Coercion feature_bit : feature >-> Z.

(** The pointers and the flags of struct disk. *)
Record vinit := mk_vinit { vi_pmem : pmem; vi_log : list (Z * Z); vi_desc : Z; vi_avail : Z; vi_used : Z; vi_free : list bool }.

Definition logged (e : Z * Z) (s : vinit) : vinit := mk_vinit (vi_pmem s) (e :: vi_log s) (vi_desc s) (vi_avail s) (vi_used s) (vi_free s).
Definition with_pmem (p : pmem) (s : vinit) : vinit := mk_vinit p (vi_log s) (vi_desc s) (vi_avail s) (vi_used s) (vi_free s).

Section init.
Context `{KernelImage} (mmio : list (Z * Z) -> Z -> Z).

Definition rd (r : Z) : M vinit Z := gets (fun s => mmio (vi_log s) r).
Definition wr (r v : Z) : M vinit unit := modify (logged (r, u32 v)).
Definition vpm {A} (f : M pmem A) : M vinit A := fun s =>
  match f (vi_pmem s) with
  | Ok (x, p) => Ok (x, with_pmem p s)
  | Panic msg => Panic msg
  end.
Definition set_queues (d a u : Z) (s : vinit) : vinit := mk_vinit (vi_pmem s) (vi_log s) d a u (vi_free s).
Definition set_all_free (s : vinit) : vinit := mk_vinit (vi_pmem s) (vi_log s) (vi_desc s) (vi_avail s) (vi_used s) (replicate 8 true).

(** features &= ~(1 << k) *)
Definition without (k features : Z) : Z := Z.land features (u64 (Z.lnot (Z.shiftl 1 k))).

Definition negotiate (features : Z) : Z :=
  without VIRTIO_RING_F_INDIRECT_DESC (without VIRTIO_RING_F_EVENT_IDX (without VIRTIO_F_ANY_LAYOUT (without VIRTIO_BLK_F_MQ
    (without VIRTIO_BLK_F_CONFIG_WCE (without VIRTIO_BLK_F_SCSI (without VIRTIO_BLK_F_RO features)))))).

Definition init_features : M vinit Z :=
  magic ← rd VIRTIO_MMIO_MAGIC_VALUE;
  version ← rd VIRTIO_MMIO_VERSION;
  device ← rd VIRTIO_MMIO_DEVICE_ID;
  vendor ← rd VIRTIO_MMIO_VENDOR_ID;
  if negb (magic =? 0x74726976) || negb (version =? 2) || negb (device =? 2) || negb (vendor =? 0x554d4551) then panic "could not find virtio disk"
  else
    let status := 0 in
    (* reset device *)
    wr VIRTIO_MMIO_STATUS status;;
    let status := Z.lor status VIRTIO_CONFIG_S_ACKNOWLEDGE in
    wr VIRTIO_MMIO_STATUS status;;
    let status := Z.lor status VIRTIO_CONFIG_S_DRIVER in
    wr VIRTIO_MMIO_STATUS status;;
    (* negotiate features *)
    features ← rd VIRTIO_MMIO_DEVICE_FEATURES;
    wr VIRTIO_MMIO_DRIVER_FEATURES (negotiate features);;
    let status := Z.lor status VIRTIO_CONFIG_S_FEATURES_OK in
    wr VIRTIO_MMIO_STATUS status;;
    (* re-read status to ensure FEATURES_OK is set. *)
    status ← rd VIRTIO_MMIO_STATUS;
    if Z.land status VIRTIO_CONFIG_S_FEATURES_OK =? 0 then panic "virtio disk FEATURES_OK unset"
    else mret status.

Definition init_queue : M vinit unit :=
  (* initialize queue 0. *)
  wr VIRTIO_MMIO_QUEUE_SEL 0;;
  ready ← rd VIRTIO_MMIO_QUEUE_READY;
  if negb (ready =? 0) then panic "virtio disk should not be ready"
  else
    max ← rd VIRTIO_MMIO_QUEUE_NUM_MAX;
    if max =? 0 then panic "virtio disk has no queue 0"
    else if max <? 8 then panic "virtio disk max queue too short"
    else
      (* allocate and zero queue memory. *)
      desc ← vpm kalloc;
      avail ← vpm kalloc;
      used ← vpm kalloc;
      modify (set_queues desc avail used);;
      if (desc =? 0) || (avail =? 0) || (used =? 0) then panic "virtio disk kalloc"
      else
        vpm (modify (upd_mem (fun m => memset m desc 0 PGSIZE)));;
        vpm (modify (upd_mem (fun m => memset m avail 0 PGSIZE)));;
        vpm (modify (upd_mem (fun m => memset m used 0 PGSIZE)));;
        (* set queue size. *)
        wr VIRTIO_MMIO_QUEUE_NUM 8;;
        (* write physical addresses. *)
        wr VIRTIO_MMIO_QUEUE_DESC_LOW desc;;
        wr VIRTIO_MMIO_QUEUE_DESC_HIGH (Z.shiftr desc 32);;
        wr VIRTIO_MMIO_DRIVER_DESC_LOW avail;;
        wr VIRTIO_MMIO_DRIVER_DESC_HIGH (Z.shiftr avail 32);;
        wr VIRTIO_MMIO_DEVICE_DESC_LOW used;;
        wr VIRTIO_MMIO_DEVICE_DESC_HIGH (Z.shiftr used 32);;
        (* queue is ready. *)
        wr VIRTIO_MMIO_QUEUE_READY 1;;
        (* all NUM descriptors start out unused. *)
        modify set_all_free.

Definition virtio_disk_init : M vinit unit :=
  status ← init_features;
  init_queue;;
  (* tell device we're completely ready. *)
  wr VIRTIO_MMIO_STATUS (Z.lor status VIRTIO_CONFIG_S_DRIVER_OK).

End init.

(** ** What the device may rely on *)

Lemma without_bit j f k : 0 <= j -> 0 <= k < 64 -> Z.testbit (without j f) k = Z.testbit f k && negb (k =? j).
Proof.
  intros Hj Hk. unfold without, u64. rewrite Z.land_spec. f_equal. change 18446744073709551616 with (2 ^ 64). rewrite Z.mod_pow2_bits_low, Z.lnot_spec by lia. f_equal.
  rewrite Z.shiftl_1_l. rewrite Z.pow2_bits_eqb by lia. apply Z.eqb_sym.
Qed.

(** The features that the driver does not want. *)
Definition refused : list Z := feature_bit <$> [VIRTIO_BLK_F_RO; VIRTIO_BLK_F_SCSI; VIRTIO_BLK_F_CONFIG_WCE; VIRTIO_BLK_F_MQ; VIRTIO_F_ANY_LAYOUT; VIRTIO_RING_F_EVENT_IDX; VIRTIO_RING_F_INDIRECT_DESC].

Lemma negotiate_bit f k : 0 <= k < 32 -> Z.testbit (u32 (negotiate f)) k = Z.testbit f k && negb (existsb (Z.eqb k) refused).
Proof.
  intros Hk. unfold u32. change 4294967296 with (2 ^ 32). rewrite Z.mod_pow2_bits_low by lia. unfold negotiate. rewrite !without_bit by (done || lia). unfold refused. cbn [existsb fmap list_fmap].
  rewrite !negb_orb, !andb_assoc. by rewrite andb_true_r.
Qed.

(** A disk that works: it is a virtio block device of version 2, takes the
    features that the driver asks for, and has a queue that is long enough. *)
Record is_disk (mmio : list (Z * Z) -> Z -> Z) : Prop := {
  dk_magic log : mmio log VIRTIO_MMIO_MAGIC_VALUE = 0x74726976;
  dk_version log : mmio log VIRTIO_MMIO_VERSION = 2;
  dk_device log : mmio log VIRTIO_MMIO_DEVICE_ID = 2;
  dk_vendor log : mmio log VIRTIO_MMIO_VENDOR_ID = 0x554d4551;
  dk_status log v : mmio ((offset VIRTIO_MMIO_STATUS, v) :: log) VIRTIO_MMIO_STATUS = v;
  dk_ready log : offset VIRTIO_MMIO_QUEUE_READY ∉ log.*1 -> mmio log VIRTIO_MMIO_QUEUE_READY = 0;
  dk_max log : 8 <= mmio log VIRTIO_MMIO_QUEUE_NUM_MAX;
}.

(** The values written to a register, in order. *)
Definition written_to (r : Z) (s : vinit) : list Z := snd <$> filter (fun e => e.1 = r) (reverse (vi_log s)).

Section init_proofs.
Context `{KernelImageOk} (mmio : list (Z * Z) -> Z -> Z) (Hd : is_disk mmio).

Lemma init_features_run s :
  exists f, init_features mmio s = Ok (11, mk_vinit (vi_pmem s) ([(offset VIRTIO_MMIO_STATUS, 11); (offset VIRTIO_MMIO_DRIVER_FEATURES, u32 (negotiate f)); (offset VIRTIO_MMIO_STATUS, 3); (offset VIRTIO_MMIO_STATUS, 1); (offset VIRTIO_MMIO_STATUS, 0)] ++ vi_log s) (vi_desc s) (vi_avail s) (vi_used s) (vi_free s)) /\
    f = mmio ([(offset VIRTIO_MMIO_STATUS, 3); (offset VIRTIO_MMIO_STATUS, 1); (offset VIRTIO_MMIO_STATUS, 0)] ++ vi_log s) VIRTIO_MMIO_DEVICE_FEATURES.
Proof.
  eexists. split; [|reflexivity]. unfold init_features, rd, wr. repeat (rewrite bind_run, gets_run). rewrite (dk_magic _ Hd), (dk_version _ Hd), (dk_device _ Hd), (dk_vendor _ Hd). cbn [negb Z.eqb Pos.eqb orb].
  repeat (rewrite bind_run; cbn [modify gets vi_log logged]). rewrite (dk_status _ Hd). done.
Qed.

Lemma wr_run r v s : wr r v s = Ok (tt, logged (r, u32 v) s).
Proof. done. Qed.

Lemma vpm_Ok {A} (f : M pmem A) s x p : f (vi_pmem s) = Ok (x, p) -> vpm f s = Ok (x, with_pmem p s).
Proof. intros E. unfold vpm. by rewrite E. Qed.

Lemma zero_page_chain m fl l p : page_ok p -> p ∉ l -> Kalloc.free_chain m fl l -> Kalloc.free_chain (memset m p 0 PGSIZE) fl l.
Proof. intros [Ha _] Hn Hc. eapply free_chain_agree; [apply same_outside_memset|done|done|done]. Qed.

Lemma zero_kinv s l p : page_ok p -> p ∉ l -> kinv s l -> kinv (upd_mem (fun m => memset m p 0 PGSIZE) s) l.
Proof. intros Hp Hn [Hc Hd']. split; [|done]. by apply zero_page_chain. Qed.

(** Three distinct pages, and the free list goes on after them. *)
Lemma kalloc3_run s p0 p1 p2 l :
  kinv (vi_pmem s) (p0 :: p1 :: p2 :: l) -> exists q0 q1 q2,
    vpm kalloc s = Ok (p0, with_pmem q0 s) /\ kalloc q0 = Ok (p1, q1) /\ kalloc q1 = Ok (p2, q2) /\
    kinv q2 l /\ page_ok p0 /\ page_ok p1 /\ page_ok p2 /\ NoDup (p0 :: p1 :: p2 :: l).
Proof.
  intros Hi. pose proof (kalloc_spec _ _ Hi) as (q0 & E0 & Hi0 & _ & P0 & _). pose proof (kalloc_spec _ _ Hi0) as (q1 & E1 & Hi1 & _ & P1 & _). pose proof (kalloc_spec _ _ Hi1) as (q2 & E2 & Hi2 & _ & P2 & _).
  exists q0, q1, q2. split_and!; try done; [by apply vpm_Ok|apply Hi].
Qed.

Definition zero_page (m : mem) (p : Z) : Prop := forall a, p <= a < p + PGSIZE -> load8 m a = 0.

Lemma memset_zero_page m p : zero_page (memset m p 0 PGSIZE) p.
Proof. intros a Ha. rewrite load8_memset by done. case_bool; auto; lia. Qed.

Lemma memset_zero_other m p q : page_ok p -> page_ok q -> p <> q -> zero_page m q -> zero_page (memset m p 0 PGSIZE) q.
Proof. intros [Hp _] [Hq _] Hne Hz a Ha. rewrite load8_memset_out; [by apply Hz|done|]. destruct (page_apart p q Hp Hq Hne); lia. Qed.

Lemma page_ok_nonzero p : page_ok p -> (p =? 0) = false.
Proof. intros Hp. apply Z.eqb_neq. pose proof (page_ok_range _ Hp). unfold KERNBASE in *. lia. Qed.

Lemma init_queue_run s p0 p1 p2 l :
  kinv (vi_pmem s) (p0 :: p1 :: p2 :: l) -> offset VIRTIO_MMIO_QUEUE_READY ∉ (vi_log s).*1 ->
  exists s', init_queue mmio s = Ok (tt, s') /\ kinv (vi_pmem s') l /\ zero_page (pm_mem (vi_pmem s')) p0 /\ zero_page (pm_mem (vi_pmem s')) p1 /\ zero_page (pm_mem (vi_pmem s')) p2 /\
    vi_desc s' = p0 /\ vi_avail s' = p1 /\ vi_used s' = p2 /\ vi_free s' = replicate 8 true /\
    vi_log s' = [(offset VIRTIO_MMIO_QUEUE_READY, 1); (offset VIRTIO_MMIO_DEVICE_DESC_HIGH, u32 (Z.shiftr p2 32)); (offset VIRTIO_MMIO_DEVICE_DESC_LOW, u32 p2); (offset VIRTIO_MMIO_DRIVER_DESC_HIGH, u32 (Z.shiftr p1 32)); (offset VIRTIO_MMIO_DRIVER_DESC_LOW, u32 p1);
      (offset VIRTIO_MMIO_QUEUE_DESC_HIGH, u32 (Z.shiftr p0 32)); (offset VIRTIO_MMIO_QUEUE_DESC_LOW, u32 p0); (offset VIRTIO_MMIO_QUEUE_NUM, 8); (offset VIRTIO_MMIO_QUEUE_SEL, 0)] ++ vi_log s.
Proof.
  intros Hi Hr. unfold init_queue. rewrite bind_run, wr_run. set (s1 := logged _ _). unfold rd. rewrite bind_run, gets_run, (dk_ready _ Hd) by (cbn; rewrite not_elem_of_cons; done). cbn [negb Z.eqb].
  rewrite bind_run, gets_run. pose proof (dk_max _ Hd (vi_log s1)) as Hm. rewrite (proj2 (Z.eqb_neq _ _)), (proj2 (Z.ltb_ge _ _)) by lia.
  destruct (kalloc3_run s1 p0 p1 p2 l Hi) as (q0 & q1 & q2 & E0 & E1 & E2 & Hi2 & P0 & P1 & P2 & Hn). rewrite (bind_Ok _ _ _ _ _ E0).
  erewrite bind_Ok; [|apply vpm_Ok; exact E1]. erewrite bind_Ok; [|apply vpm_Ok; exact E2]. rewrite bind_run, modify_run. rewrite !page_ok_nonzero by done. cbn [orb].
  rewrite !NoDup_cons, !not_elem_of_cons in Hn. destruct Hn as ((N01 & N02 & N0) & (N12 & N1) & N2 & _).
  do 3 (erewrite bind_Ok; [|apply vpm_Ok, modify_run]). do 8 (rewrite bind_run, wr_run). rewrite modify_run.
  eexists. split; [exact eq_refl|]. cbn [logged with_pmem vi_pmem vi_desc vi_avail vi_used vi_free vi_log set_queues set_all_free upd_mem set_mem pm_mem].
  split; [|split_and!; try done].
  - by apply (zero_kinv (upd_mem _ (upd_mem _ q2)) l p2), zero_kinv, zero_kinv.
  - by apply memset_zero_other, memset_zero_other, memset_zero_page.
  - apply memset_zero_other, memset_zero_page; done.
  - apply memset_zero_page.
Qed.

(** Virtio initialisation: on a working disk and with three free pages
    virtio_disk_init returns; it walks the status register through reset,
    ACKNOWLEDGE, DRIVER, FEATURES_OK and DRIVER_OK in this order, accepts
    exactly the offered features that are not refused, gives the device three
    zeroed pages for the queue before it declares the queue ready, and leaves
    every descriptor free. *)
Theorem virtio_init_correct (p : pmem) (p0 p1 p2 : Z) (l : list Z) :
  kinv p (p0 :: p1 :: p2 :: l) ->
  exists s f, virtio_disk_init mmio (mk_vinit p [] 0 0 0 []) = Ok (tt, s) /\ kinv (vi_pmem s) l /\
    written_to VIRTIO_MMIO_STATUS s = [0; 1; 3; 11; 15] /\ written_to VIRTIO_MMIO_DRIVER_FEATURES s = [f] /\
    (forall k, 0 <= k < 32 -> Z.testbit f k = Z.testbit (mmio [(offset VIRTIO_MMIO_STATUS, 3); (offset VIRTIO_MMIO_STATUS, 1); (offset VIRTIO_MMIO_STATUS, 0)] VIRTIO_MMIO_DEVICE_FEATURES) k && negb (existsb (Z.eqb k) refused)) /\
    written_to VIRTIO_MMIO_QUEUE_DESC_LOW s = [u32 p0] /\ written_to VIRTIO_MMIO_DRIVER_DESC_LOW s = [u32 p1] /\ written_to VIRTIO_MMIO_DEVICE_DESC_LOW s = [u32 p2] /\ written_to VIRTIO_MMIO_QUEUE_READY s = [1] /\
    zero_page (pm_mem (vi_pmem s)) p0 /\ zero_page (pm_mem (vi_pmem s)) p1 /\ zero_page (pm_mem (vi_pmem s)) p2 /\ vi_free s = replicate 8 true.
Proof.
  intros Hi. unfold virtio_disk_init. destruct (init_features_run (mk_vinit p [] 0 0 0 [])) as (f & E1 & Ef). rewrite (bind_Ok _ _ _ _ _ E1). cbn [vi_pmem vi_log vi_desc vi_avail vi_used vi_free app] in *.
  set (s1 := mk_vinit p _ _ _ _ _).
  destruct (init_queue_run s1 p0 p1 p2 l) as (s2 & E2 & Hk & Z0 & Z1 & Z2 & _ & _ & _ & Hf & Hl); [done|cbn; set_solver|]. rewrite (bind_Ok _ _ _ _ _ E2). rewrite wr_run.
  eexists _, (u32 (negotiate f)). split; [reflexivity|]. unfold written_to. cbn [logged vi_pmem vi_log vi_free]. rewrite Hl. split; [done|]. split; [done|]. split; [done|]. split; [intros k Hk'; rewrite <- Ef; by apply negotiate_bit|].
  by split_and!.
Qed.

End init_proofs.

(** A disk that offers every feature. *)
Definition demo_mmio (log : list (Z * Z)) (r : Z) : Z :=
  if r =? VIRTIO_MMIO_MAGIC_VALUE then 0x74726976 else if r =? VIRTIO_MMIO_VERSION then 2 else if r =? VIRTIO_MMIO_DEVICE_ID then 2 else if r =? VIRTIO_MMIO_VENDOR_ID then 0x554d4551
  else if r =? VIRTIO_MMIO_DEVICE_FEATURES then 0xffffffff else if r =? VIRTIO_MMIO_QUEUE_NUM_MAX then 1024
  else match list_find (fun e => e.1 = r) log with Some (_, e) => e.2 | None => 0 end.

Lemma demo_mmio_disk : is_disk demo_mmio.
Proof.
  split; intros; try done. unfold demo_mmio. cbn. rewrite (proj2 (list_find_None _ _)); [done|]. apply Forall_forall. intros e He E. apply H. change (offset VIRTIO_MMIO_QUEUE_READY) with 68. rewrite <- E. apply list_elem_of_fmap. by exists e.
Qed.

#[local] Existing Instances demo_image demo_image_ok.

Lemma virtio_init_correct_witness : exists s, virtio_disk_init demo_mmio (mk_vinit demo_ram [] 0 0 0 []) = Ok (tt, s) /\ written_to VIRTIO_MMIO_STATUS s = [0; 1; 3; 11; 15].
Proof. destruct (virtio_init_correct demo_mmio demo_mmio_disk demo_ram _ _ _ _ demo_ram_kinv) as (s & f & E & _ & H & _). exists s. split; [exact E|exact H]. Defined.
