(* ===== verification/Pipe.v ===== *)
(** kernel/pipe.c: pipes.

    A call runs until it returns or goes to sleep ([Asleep i]: it sleeps with
    the pipe's lock released and, when woken, goes on at byte [i]); between
    the two other processes may run calls on the pipe.  [killed] gives what
    killed(pr) answers at each byte.  Channels woken are recorded.  Module [Net] has
    any number of readers and writers of one pipe, in every interleaving. *)

From stdpp Require Import gmap.
From S2P Require Import Prelude UserMem RingBuf.

Definition PIPESIZE : Z := 512.

Record pipe := mk_pipe {
  pi_data : list Z;
  pi_nread : Z;
  pi_nwrite : Z;
  pi_readopen : bool;
  pi_writeopen : bool;
}.

(** &pi->nread and &pi->nwrite *)
Inductive pchan := NRead | NWrite.

#[global] Instance pchan_eq : EqDecision pchan.
Proof. solve_decision. Defined.

Record pst (U : Type) := mk_pst { p_pipe : pipe; p_um : U; p_woken : list pchan }.
Arguments mk_pst {U} _ _ _.
Arguments p_pipe {U} _.
Arguments p_um {U} _.
Arguments p_woken {U} _.

Inductive progress := Finished (r : Z) | Asleep (i : Z).

(** pi->data[pi->nwrite++ % PIPESIZE] = ch; *)
Definition pipe_store (ch : Z) (p : pipe) : pipe :=
  mk_pipe (<[Z.to_nat (pi_nwrite p mod PIPESIZE) := ch]> (pi_data p)) (pi_nread p) (u32 (pi_nwrite p + 1))
    (pi_readopen p) (pi_writeopen p).

(** ch = pi->data[pi->nread++ % PIPESIZE]; *)
Definition pipe_load (p : pipe) : Z * pipe :=
  (pi_data p !!! Z.to_nat (pi_nread p mod PIPESIZE),
   mk_pipe (pi_data p) (u32 (pi_nread p + 1)) (pi_nwrite p) (pi_readopen p) (pi_writeopen p)).

(** The fields pipealloc sets, in a page of junk [data]. *)
Definition pipe_init (data : list Z) : pipe := mk_pipe data 0 0 true true.

Section pipe.
Context {U : Type} `{UserMem U}.

Definition wakeup (c : pchan) : M (pst U) unit :=
  modify (fun s => mk_pst (p_pipe s) (p_um s) (p_woken s ++ [c])).
Definition upd_pipe (f : pipe -> pipe) : M (pst U) unit :=
  modify (fun s => mk_pst (f (p_pipe s)) (p_um s) (p_woken s)).
Definition um {A} (m : M U A) : M (pst U) A := fun s =>
  match m (p_um s) with
  | Ok (a, u) => Ok (a, mk_pst (p_pipe s) u (p_woken s))
  | Panic e => Panic e
  end.

(** Closes one end; true when both are closed and the page is freed. *)
Definition pipeclose (writable : bool) : M (pst U) bool :=
  (if writable then
     upd_pipe (fun p => mk_pipe (pi_data p) (pi_nread p) (pi_nwrite p) (pi_readopen p) false);;
     wakeup NRead
   else
     upd_pipe (fun p => mk_pipe (pi_data p) (pi_nread p) (pi_nwrite p) false (pi_writeopen p));;
     wakeup NWrite);;
  p ← gets p_pipe;
  mret (negb (pi_readopen p) && negb (pi_writeopen p)).

(** while(i < n), from byte [i]; a round moves [i] on or leaves the loop. *)
Fixpoint pipewrite_loop (fuel : nat) (killed : Z -> bool) (addr n i : Z) : M (pst U) progress :=
  match fuel with
  | O => panic "out of fuel"
  | S fuel =>
      if i <? n then
        p ← gets p_pipe;
        if negb (pi_readopen p) || killed i then mret (Finished (-1))
        else if pi_nwrite p =? u32 (pi_nread p + PIPESIZE) then
          wakeup NRead;; mret (Asleep i)
        else
          r ← um (um_copyin (u64 (addr + i)) 1);
          if r.1 =? -1 then wakeup NRead;; mret (Finished i)
          else
            upd_pipe (pipe_store (r.2 !!! O));;
            pipewrite_loop fuel killed addr n (i + 1)
      else wakeup NRead;; mret (Finished i)
  end.

(** From the beginning, and after a sleep at byte [i]. *)
Definition pipewrite_from (killed : Z -> bool) (addr n i : Z) : M (pst U) progress :=
  pipewrite_loop (S (Z.to_nat (n - i))) killed addr n i.
Definition pipewrite (killed : Z -> bool) (addr n : Z) : M (pst U) progress := pipewrite_from killed addr n 0.

(** for(i = 0; i < n; i++) *)
Fixpoint piperead_loop (k : nat) (addr i : Z) : M (pst U) Z :=
  match k with
  | O => mret i
  | S k =>
      p ← gets p_pipe;
      if pi_nread p =? pi_nwrite p then mret i
      else
        let '(ch, p') := pipe_load p in
        upd_pipe (fun _ => p');;
        r ← um (um_copyout (u64 (addr + i)) [ch]);
        if r =? -1 then mret i else piperead_loop k addr (i + 1)
  end.

(** Both on the first call and when woken, the wait condition is tested. *)
Definition piperead (killed : bool) (addr n : Z) : M (pst U) progress :=
  p ← gets p_pipe;
  if (pi_nread p =? pi_nwrite p) && pi_writeopen p then
    if killed then mret (Finished (-1)) else mret (Asleep 0)
  else
    i ← piperead_loop (Z.to_nat n) addr 0;
    wakeup NWrite;;
    mret (Finished i).

End pipe.

(** * The queue a pipe holds *)

Definition pipe_count (p : pipe) : Z := rcount 4294967296 (pi_nread p) (pi_nwrite p).

Definition pipe_queue (p : pipe) : list Z := rqueue PIPESIZE 4294967296 (pi_data p) (pi_nread p) (pi_nwrite p).

Record pipe_wf (p : pipe) : Prop := {
  pw_data : length (pi_data p) = 512%nat;
  pw_nread : 0 <= pi_nread p < 4294967296;
  pw_nwrite : 0 <= pi_nwrite p < 4294967296;
  pw_count : pipe_count p <= PIPESIZE;
}.

Lemma PIPESIZE_divides : (PIPESIZE | 4294967296).
Proof. by exists 8388608. Qed.

Lemma length_pipe_queue p : Z.of_nat (length (pipe_queue p)) = pipe_count p.
Proof. apply length_rqueue. lia. Qed.

Lemma pipe_empty p : pipe_wf p -> (pi_nread p =? pi_nwrite p) = bool_decide (pipe_queue p = []).
Proof.
  intros [Hd Hr Hw Hc]. pose proof (rcount_0 4294967296 ltac:(lia) _ _ Hr Hw) as H0. fold (pipe_count p) in H0.
  pose proof (length_pipe_queue p) as Hl.
  destruct (Z.eqb_spec (pi_nread p) (pi_nwrite p)) as [E|E]; symmetry.
  - apply bool_decide_eq_true_2. by apply rqueue_nil, H0.
  - apply bool_decide_eq_false_2. intros Eq. rewrite Eq in Hl. simpl in Hl. apply E, H0. lia.
Qed.

(** The test for a full pipe survives the wrap-around of the counters. *)
Lemma pipe_full p : pipe_wf p -> (pi_nwrite p =? u32 (pi_nread p + PIPESIZE)) = (pipe_count p =? PIPESIZE).
Proof.
  intros [Hd Hr Hw Hc]. unfold pipe_count, rcount, PIPESIZE in *.
  destruct (Z.eqb_spec (pi_nwrite p) (u32 (pi_nread p + 512))),
    (Z.eqb_spec ((pi_nwrite p - pi_nread p) mod 4294967296) 512); try done; word_lia.
Qed.

(** Storing appends to the queue, loading takes its head. *)
Lemma pipe_store_queue p ch :
  pipe_wf p -> pipe_count p < PIPESIZE ->
  pipe_wf (pipe_store ch p) /\ pipe_queue (pipe_store ch p) = pipe_queue p ++ [ch].
Proof.
  intros [Hd Hr Hw Hc] Hlt. unfold pipe_count in *. split.
  - split; [simpl; by rewrite length_insert|done|apply u32_range|]. unfold pipe_count. simpl. unfold u32.
    rewrite rcount_succ; unfold PIPESIZE in *; lia.
  - apply rqueue_push; [done|lia|apply PIPESIZE_divides|done|done|done].
Qed.

Lemma pipe_load_queue p :
  pipe_wf p -> 0 < pipe_count p ->
  pipe_wf (pipe_load p).2 /\ pipe_queue p = (pipe_load p).1 :: pipe_queue (pipe_load p).2.
Proof.
  intros [Hd Hr Hw Hc] Hlt. unfold pipe_count in *. split.
  - split; [done|apply u32_range|done|]. unfold pipe_count. simpl. unfold u32. rewrite rcount_pop; lia.
  - apply rqueue_pop; [done|lia|apply PIPESIZE_divides|done].
Qed.

Section pipe_proofs.
Context {U : Type} `{UserMemOk U}.
Implicit Types (s : pst U).

(** The bytes of user memory from [a] on. *)
Definition user_list (u : U) (a : Z) (bs : list Z) : Prop :=
  forall j b, bs !! j = Some b -> um_byte u (a + Z.of_nat j) = Some b.

Lemma user_list_cons u a b bs : um_byte u a = Some b -> user_list u (a + 1) bs -> user_list u a (b :: bs).
Proof.
  intros Hb Hl [|j] x Hx; simpl in Hx; [injection Hx as <-; by rewrite Z.add_0_r|].
  specialize (Hl j x Hx). by replace (a + Z.of_nat (S j)) with (a + 1 + Z.of_nat j) by lia.
Qed.

(** How a writer's turn ends after it put [bs] into the pipe. *)
Definition write_end (u : U) (killed : Z -> bool) (addr n : Z) (p' : pipe) (i' : Z) (res : progress) (woken : list pchan) : Prop :=
  match res with
  | Asleep k => k = i' /\ i' < n /\ pipe_count p' = PIPESIZE /\ pi_readopen p' = true /\ woken = [NRead]
  | Finished r =>
      r = i' /\ (i' = n \/ i' < n /\ um_byte u (addr + i') = None) /\ woken = [NRead] \/
      r = -1 /\ i' < n /\ (pi_readopen p' = false \/ killed i' = true) /\ woken = []
  end.

Lemma pipewrite_run killed addr n fuel : forall i s,
  pipe_wf (p_pipe s) -> um_inv (p_um s) -> 0 <= addr -> addr + n < 2 ^ 64 -> 0 <= i <= n -> n - i < Z.of_nat fuel ->
  exists res p' bs w,
    pipewrite_loop fuel killed addr n i s = Ok (res, mk_pst p' (p_um s) (p_woken s ++ w)) /\
    pipe_wf p' /\ pipe_queue p' = pipe_queue (p_pipe s) ++ bs /\ user_list (p_um s) (addr + i) bs /\
    pi_readopen p' = pi_readopen (p_pipe s) /\ pi_writeopen p' = pi_writeopen (p_pipe s) /\
    write_end (p_um s) killed addr n p' (i + Z.of_nat (length bs)) res w.
Proof.
  induction fuel as [|fuel IH]; intros i s Hp Hu Ha Han Hi Hf; [lia|]. cbn [pipewrite_loop].
  assert (Hnil : user_list (p_um s) (addr + i) []) by (intros j b Hj; by rewrite lookup_nil in Hj).
  assert (Hstop : forall res w, write_end (p_um s) killed addr n (p_pipe s) i res w ->
    exists res' p' bs w', Ok (res, mk_pst (p_pipe s) (p_um s) (p_woken s ++ w)) =
      Ok (res', mk_pst p' (p_um s) (p_woken s ++ w')) /\
    pipe_wf p' /\ pipe_queue p' = pipe_queue (p_pipe s) ++ bs /\ user_list (p_um s) (addr + i) bs /\
    pi_readopen p' = pi_readopen (p_pipe s) /\ pi_writeopen p' = pi_writeopen (p_pipe s) /\
    write_end (p_um s) killed addr n p' (i + Z.of_nat (length bs)) res' w').
  { intros res w Hw. exists res, (p_pipe s), [], w. rewrite app_nil_r. simpl. rewrite Z.add_0_r. auto 10. }
  destruct (Z.ltb_spec i n) as [Hlt|Hge].
  2: { apply (Hstop (Finished i) [NRead]). left. split_and!; auto. left. lia. }
  rewrite bind_run, gets_run. destruct (negb (pi_readopen (p_pipe s)) || killed i) eqn:Ek.
  { assert (Hw : write_end (p_um s) killed addr n (p_pipe s) i (Finished (-1)) []).
    { right. split_and!; auto. apply orb_true_iff in Ek as [Ek%negb_true_iff|Ek]; auto. }
    specialize (Hstop _ _ Hw). rewrite app_nil_r in Hstop. destruct s. exact Hstop. }
  apply orb_false_iff in Ek as [Hro%negb_false_iff Hnk]. rewrite pipe_full by done.
  destruct (Z.eqb_spec (pipe_count (p_pipe s)) PIPESIZE) as [Hfull|Hroom].
  { apply (Hstop (Asleep i) [NRead]). simpl. auto. }
  rewrite (u64_small (addr + i)) by lia.
  destruct (um_copyin_ok (p_um s) (addr + i) 1) as (r & bs & Ec & Hbs & Hr); [done|lia|lia|].
  rewrite bind_run. unfold um at 1. rewrite Ec. destruct Hr as [[-> Hlen]|(-> & Hlen & Hnone)]; cbn [fst snd].
  - destruct bs as [|b [|]]; simpl in Hlen; try lia. change (0 =? -1) with false. cbv iota.
    rewrite bind_run. cbn [upd_pipe modify p_pipe p_um p_woken].
    change (([b] : list Z) !!! O) with b.
    destruct (pipe_store_queue (p_pipe s) b Hp) as [Hp' Hq]; [destruct Hp; unfold PIPESIZE in *; lia|].
    destruct (IH (i + 1) (mk_pst (pipe_store b (p_pipe s)) (p_um s) (p_woken s)))
      as (res & p' & bs & w & E & Hwf & Hqueue & Hul & Hr1 & Hw1 & Hend); auto; [lia|lia|].
    exists res, p', (b :: bs), w. cbn [p_pipe p_um p_woken] in *. split; [exact E|]. split_and!; auto.
    + rewrite Hqueue, Hq, <- app_assoc. done.
    + apply user_list_cons; [|by replace (addr + i + 1) with (addr + (i + 1)) by lia].
      specialize (Hbs 0%nat b eq_refl). by rewrite Z.add_0_r in Hbs.
    + cbn [length]. by replace (i + Z.of_nat (S (length bs))) with (i + 1 + Z.of_nat (length bs)) by lia.
  - destruct bs as [|]; simpl in Hlen; [|lia]. change (-1 =? -1) with true. cbv iota. simpl in Hnone. rewrite Z.add_0_r in Hnone.
    apply (Hstop (Finished i) [NRead]). left. split_and!; auto.
Qed.

(** (C24) A writer's turn appends to the pipe's queue the bytes of its buffer,
    in order, never more than fit, until all are written, the pipe is full
    (it then wakes the readers and sleeps), a byte cannot be read, or the
    reader is gone or the writer killed.  It resumes at the byte where it
    stopped; the counters may wrap around. *)
Theorem pipewrite_queue killed addr n i s :
  pipe_wf (p_pipe s) -> um_inv (p_um s) -> 0 <= addr -> addr + n < 2 ^ 64 -> 0 <= i <= n ->
  exists res p' bs w,
    pipewrite_from killed addr n i s = Ok (res, mk_pst p' (p_um s) (p_woken s ++ w)) /\
    pipe_wf p' /\ pipe_queue p' = pipe_queue (p_pipe s) ++ bs /\ user_list (p_um s) (addr + i) bs /\
    pi_readopen p' = pi_readopen (p_pipe s) /\ pi_writeopen p' = pi_writeopen (p_pipe s) /\
    write_end (p_um s) killed addr n p' (i + Z.of_nat (length bs)) res w.
Proof. intros. apply pipewrite_run; auto. lia. Qed.

(** How a reader's copy loop ends, having taken [taken] and delivered the
    first [d] bytes: all asked for, the pipe empty, or a byte that could not
    be delivered, which is lost. *)
Definition read_end (u : U) (a : Z) (k : nat) (taken : list Z) (d : nat) (p' : pipe) : Prop :=
  (forall j, (j < d)%nat -> um_writable u (a + Z.of_nat j) = true) /\
  (d = length taken /\ (d = k \/ (d < k)%nat /\ pipe_queue p' = []) \/
   length taken = S d /\ (d < k)%nat /\ um_writable u (a + Z.of_nat d) = false).

Lemma piperead_loop_run k : forall addr i s,
  pipe_wf (p_pipe s) -> um_inv (p_um s) -> Forall is_byte (pipe_queue (p_pipe s)) ->
  0 <= addr -> 0 <= i -> addr + i + Z.of_nat k < 2 ^ 64 ->
  exists p' u' taken d,
    piperead_loop k addr i s = Ok (i + Z.of_nat d, mk_pst p' u' (p_woken s)) /\
    pipe_wf p' /\ um_inv u' /\ pipe_queue (p_pipe s) = taken ++ pipe_queue p' /\ (length taken <= k)%nat /\
    pi_readopen p' = pi_readopen (p_pipe s) /\ pi_writeopen p' = pi_writeopen (p_pipe s) /\
    (forall x, um_byte u' x = if (addr + i <=? x) && (x <? addr + i + Z.of_nat d)
                              then taken !! Z.to_nat (x - (addr + i)) else um_byte (p_um s) x) /\
    read_end (p_um s) (addr + i) k taken d p'.
Proof.
  induction k as [|k IH]; intros addr i s Hp Hu Hb Ha Hi Hlt; cbn [piperead_loop].
  { exists (p_pipe s), (p_um s), [], 0%nat. rewrite Z.add_0_r. split; [by destruct s|]. split_and!; auto.
    - intros x. rewrite Z.add_0_r. by case_bool; try lia.
    - split; [lia|]. left. auto. }
  rewrite bind_run, gets_run, pipe_empty by done. case_bool_decide as Hq.
  { exists (p_pipe s), (p_um s), [], 0%nat. rewrite Z.add_0_r. split; [by destruct s|]. split_and!; auto; [simpl; lia| |].
    - intros x. rewrite Z.add_0_r. by case_bool; try lia.
    - split; [lia|]. left. split; [done|right]. split; [lia|done]. }
  assert (Hcnt : 0 < pipe_count (p_pipe s)).
  { rewrite <- length_pipe_queue. destruct (pipe_queue (p_pipe s)); [done|simpl; lia]. }
  destruct (pipe_load_queue (p_pipe s) Hp Hcnt) as [Hp1 Hq1]. destruct (pipe_load (p_pipe s)) as [ch p1] eqn:El.
  simpl in Hp1, Hq1. rewrite Hq1 in Hb. apply Forall_cons in Hb as [Hch Hb].
  rewrite bind_run. cbn [upd_pipe modify]. rewrite (u64_small (addr + i)) by lia.
  destruct (um_copyout_ok (p_um s) (addr + i) [ch]) as (r & u1 & c & Ec & Hu1 & Hwr & Hok & Hby & Hr); [done|lia|by constructor|].
  rewrite bind_run. unfold um at 1. cbn [p_um p_pipe p_woken]. rewrite Ec.
  assert (Hopen : pi_readopen p1 = pi_readopen (p_pipe s) /\ pi_writeopen p1 = pi_writeopen (p_pipe s))
    by (injection El as _ <-; done).
  destruct Hr as [[-> ->]|(-> & Hc & Hnw)].
  - change (0 =? -1) with false. cbv iota.
    destruct (IH addr (i + 1) (mk_pst p1 u1 (p_woken s))) as (p' & u' & taken & d & E & H1 & H2 & H3 & H4 & H5 & H6 & H7 & H8);
      auto; [lia|lia|]. cbn [p_pipe p_um p_woken] in *.
    exists p', u', (ch :: taken), (S d). split; [rewrite E; do 2 f_equal; lia|].
    destruct Hopen as [Ho1 Ho2]. split_and!; auto; try congruence.
    + by rewrite Hq1, H3.
    + simpl. lia.
    + intros x. rewrite H7, Hby. simpl length.
      destruct (Z.eq_dec x (addr + i)) as [->|Hne].
      * rewrite Z.sub_diag. by case_bool; try lia.
      * case_bool; try lia; try done. replace (Z.to_nat (x - (addr + i))) with (S (Z.to_nat (x - (addr + (i + 1))))) by lia. done.
    + destruct H8 as [Hjw H8]. split.
      { intros [|j] Hj; [apply (Hok 0%nat); simpl; lia|]. specialize (Hjw j ltac:(lia)). rewrite Hwr in Hjw.
        by replace (addr + i + Z.of_nat (S j)) with (addr + (i + 1) + Z.of_nat j) by lia. }
      destruct H8 as [(-> & Hend)|(Hl & Hd & Hw)].
      * left. split; [done|]. simpl. destruct Hend as [->|[? ?]]; [by left|right; split; [lia|done]].
      * right. split_and!; [simpl; lia|lia|]. rewrite Hwr in Hw.
        by replace (addr + i + Z.of_nat (S d)) with (addr + (i + 1) + Z.of_nat d) by lia.
  - change (-1 =? -1) with true. cbv iota. simpl in Hc. assert (c = 0%nat) as -> by lia. rewrite Z.add_0_r in Hnw.
    exists p1, u1, [ch], 0%nat. rewrite Z.add_0_r. split; [done|]. destruct Hopen as [Ho1 Ho2].
    split_and!; auto; [simpl; lia|]. split; [lia|]. right. rewrite Z.add_0_r. split_and!; auto. lia.
Qed.

Lemma piperead_run killed addr n s :
  pipe_wf (p_pipe s) -> um_inv (p_um s) -> Forall is_byte (pipe_queue (p_pipe s)) ->
  0 <= addr -> 0 <= n -> addr + n < 2 ^ 64 ->
  if bool_decide (pipe_queue (p_pipe s) = []) && pi_writeopen (p_pipe s)
  then piperead killed addr n s = Ok (if killed then Finished (-1) else Asleep 0, s)
  else exists p' u' taken d,
    piperead killed addr n s = Ok (Finished (Z.of_nat d), mk_pst p' u' (p_woken s ++ [NWrite])) /\
    pipe_wf p' /\ um_inv u' /\ pipe_queue (p_pipe s) = taken ++ pipe_queue p' /\
    pi_readopen p' = pi_readopen (p_pipe s) /\ pi_writeopen p' = pi_writeopen (p_pipe s) /\
    (forall x, um_byte u' x = if (addr <=? x) && (x <? addr + Z.of_nat d)
                              then taken !! Z.to_nat (x - addr) else um_byte (p_um s) x) /\
    read_end (p_um s) addr (Z.to_nat n) taken d p'.
Proof.
  intros Hp Hu Hb Ha Hn Hlt. unfold piperead. rewrite bind_run, gets_run, pipe_empty by done.
  destruct (bool_decide (pipe_queue (p_pipe s) = []) && pi_writeopen (p_pipe s)); [by destruct killed|].
  destruct (piperead_loop_run (Z.to_nat n) addr 0 s) as (p' & u' & taken & d & E & H1 & H2 & H3 & H4 & H5 & H6 & H7 & H8); auto; [lia|lia|].
  rewrite Z.add_0_r in *. rewrite (bind_Ok _ _ _ _ _ E). exists p', u', taken, d. rewrite Z.add_0_l. split_and!; auto.
Qed.

(** (C25) A reader's turn: it sleeps only on an empty pipe that can still be
    written, and otherwise takes from the head of the queue as many bytes as
    asked for or there are, delivers them in order to its buffer, and wakes
    the writers; at an empty pipe with no writer it returns 0.  The rest stays in
    the queue, but for the first byte that cannot be stored in the buffer: it is
    taken from the queue and lost, and the call returns the number of bytes
    before it. *)
Theorem piperead_queue killed addr n s :
  pipe_wf (p_pipe s) -> um_inv (p_um s) -> Forall is_byte (pipe_queue (p_pipe s)) ->
  0 <= addr -> 0 <= n -> addr + n < 2 ^ 64 ->
  if bool_decide (pipe_queue (p_pipe s) = []) && pi_writeopen (p_pipe s)
  then piperead killed addr n s = Ok (if killed then Finished (-1) else Asleep 0, s)
  else exists p' u' taken d,
    piperead killed addr n s = Ok (Finished (Z.of_nat d), mk_pst p' u' (p_woken s ++ [NWrite])) /\
    pipe_wf p' /\ um_inv u' /\ pipe_queue (p_pipe s) = taken ++ pipe_queue p' /\
    (forall x, um_byte u' x = if (addr <=? x) && (x <? addr + Z.of_nat d)
                              then taken !! Z.to_nat (x - addr) else um_byte (p_um s) x) /\
    read_end (p_um s) addr (Z.to_nat n) taken d p'.
Proof.
  intros Hp Hu Hb Ha Hn Hlt. pose proof (piperead_run killed addr n s Hp Hu Hb Ha Hn Hlt) as H1. destruct (bool_decide _ && _); [done|].
  destruct H1 as (p' & u' & taken & d & E & ? & ? & ? & _ & _ & ? & ?). by exists p', u', taken, d.
Qed.

(** A full pipe is not empty. *)
Lemma read_after_write_sleeps p : pipe_wf p -> pipe_count p = PIPESIZE -> pipe_queue p <> [].
Proof.
  intros Hp Hc E. pose proof (length_pipe_queue p) as Hl. rewrite E, Hc in Hl. done.
Qed.

(** A reader loses a byte it cannot deliver: when the first byte of the
    buffer is not writable, the read returns 0 but the head of the queue is
    gone. *)
Theorem piperead_loses_byte killed addr n s b q :
  pipe_wf (p_pipe s) -> um_inv (p_um s) -> Forall is_byte (pipe_queue (p_pipe s)) ->
  0 <= addr -> 0 < n -> addr + n < 2 ^ 64 ->
  pipe_queue (p_pipe s) = b :: q -> um_writable (p_um s) addr = false ->
  exists s', piperead killed addr n s = Ok (Finished 0, s') /\ pipe_queue (p_pipe s') = q.
Proof.
  intros Hp Hu Hb Ha Hn Hlt Hq Hw. unfold piperead.
  rewrite bind_run, gets_run, pipe_empty, bool_decide_eq_false_2 by (done || by rewrite Hq). cbn [andb].
  destruct (piperead_loop_run (Z.to_nat n) addr 0 s) as (p' & u' & taken & d & E & H1 & H2 & H3 & H4 & H5 & H6 & H7 & H8); auto; [lia|lia|].
  assert (d = 0%nat /\ length taken = 1%nat) as [-> Hl].
  { destruct H8 as [Hjw H8]. assert (Hd : d = 0%nat \/ (0 < d)%nat) by lia. destruct Hd as [->|Hd].
    - split; [done|]. destruct H8 as [(Hl & [Hk|[_ Hempty]])|(Hl & _)]; [lia| |done].
      rewrite Hempty, app_nil_r in H3. rewrite H3 in Hq. rewrite Hq in Hl. done.
    - specialize (Hjw 0%nat Hd). rewrite !Z.add_0_r in Hjw. congruence. }
  rewrite (bind_Ok _ _ _ _ _ E). eexists. split; [reflexivity|]. cbn [p_pipe].
  rewrite Hq in H3. destruct taken as [|x [|]]; try done. by injection H3.
Qed.

(** A killed writer does not wake the readers: when the writer is found
    killed after its first byte, the byte is in the pipe, the call returns -1
    and nobody was woken. *)
Theorem pipewrite_killed_silent killed addr n s b :
  pipe_wf (p_pipe s) -> um_inv (p_um s) -> 0 <= addr -> 1 < n -> addr + n < 2 ^ 64 ->
  pi_readopen (p_pipe s) = true -> pipe_count (p_pipe s) < PIPESIZE -> um_byte (p_um s) addr = Some b ->
  killed 0 = false -> killed 1 = true ->
  exists s', pipewrite killed addr n s = Ok (Finished (-1), s') /\
    pipe_queue (p_pipe s') = pipe_queue (p_pipe s) ++ [b] /\ p_woken s' = p_woken s.
Proof.
  intros Hp Hu Ha Hn Hlt Hro Hroom Hb Hk0 Hk1.
  unfold pipewrite, pipewrite_from. replace (S (Z.to_nat (n - 0))) with (S (S (Z.to_nat (n - 1)))) by lia.
  cbn [pipewrite_loop]. rewrite (proj2 (Z.ltb_lt 0 n)) by lia. rewrite bind_run, gets_run, Hro, Hk0. cbn [negb orb].
  rewrite pipe_full, (proj2 (Z.eqb_neq _ _)) by (done || lia). rewrite Z.add_0_r, (u64_small addr) by lia.
  destruct (um_copyin_ok (p_um s) addr 1) as (r & bs & Ec & Hbs & Hr); [done|lia|lia|].
  rewrite bind_run. unfold um at 1. rewrite Ec. destruct Hr as [[-> Hlen]|(_ & Hlen & Hnone)]; cbn [fst snd].
  2: { destruct bs; [|simpl in Hlen; lia]. simpl in Hnone. rewrite Z.add_0_r in Hnone. congruence. }
  destruct bs as [|x [|]]; simpl in Hlen; try lia. specialize (Hbs 0%nat x eq_refl). rewrite Z.add_0_r, Hb in Hbs.
  injection Hbs as <-. change (0 =? -1) with false. cbv iota. rewrite bind_run. cbn [upd_pipe modify].
  rewrite (proj2 (Z.ltb_lt (0 + 1) n)) by lia. rewrite bind_run, gets_run. cbn [p_pipe pipe_store pi_readopen].
  change (0 + 1) with 1. rewrite Hk1, orb_true_r. eexists. split; [reflexivity|]. cbn [p_pipe p_woken]. split; [|done].
  by apply (pipe_store_queue (p_pipe s) b).
Qed.

End pipe_proofs.

(** ** Witnesses: a small pipe between counters about to wrap around *)

Definition demo_pipe : pipe := mk_pipe (replicate 512 0) 4294967295 4294967295 true true.
Definition demo_um : flat := mk_flat (list_to_map (zip (seqZ 100 4) [11; 12; 13; 14])).
Definition demo_pst : pst flat := mk_pst demo_pipe demo_um [].

Lemma demo_pipe_wf : pipe_wf demo_pipe.
Proof. split; vm_compute; intuition congruence. Qed.

Lemma demo_inv (u : flat) : um_inv u.
Proof. exact I. Qed.

(** The pipe after three bytes were written. *)
Definition demo_pst3 : pst flat :=
  match pipewrite (fun _ => false) 100 3 demo_pst with Ok (_, s) => s | Panic _ => demo_pst end.

Lemma demo_pipe3 : pipe_wf (p_pipe demo_pst3) /\ pipe_queue (p_pipe demo_pst3) = [11; 12; 13].
Proof. split; [split; vm_compute; intuition congruence|vm_compute; reflexivity]. Qed.

Lemma pipewrite_queue_witness : exists res p' bs w,
  pipewrite_from (fun _ => false) 100 4 1 demo_pst = Ok (res, mk_pst p' demo_um w) /\ pipe_queue p' = bs.
Proof.
  destruct (pipewrite_queue (fun _ => false) 100 4 1 demo_pst demo_pipe_wf (demo_inv _)) as (res & p' & bs & w & E & _ & Hq & _);
    [lia..|].
  exists res, p', bs, w. split; [exact E|exact Hq].
Defined.

Lemma piperead_queue_witness : exists s', piperead false 100 2 demo_pst3 = Ok (Finished 2, s') /\
  pipe_queue (p_pipe s') = [13].
Proof.
  pose proof (piperead_queue false 100 2 demo_pst3 (proj1 demo_pipe3) (demo_inv _)) as H.
  rewrite (proj2 demo_pipe3) in H. cbn [bool_decide andb] in H.
  destruct H as (p' & u' & taken & d & E & _ & _ & Hq & _ & Hend); [repeat constructor; lia|lia..|].
  assert (E2 : piperead false 100 2 demo_pst3 = Ok (Finished 2, mk_pst p' u' (p_woken demo_pst3 ++ [NWrite]))).
  { rewrite E. f_equal. f_equal. f_equal.
    assert (Ed : match piperead false 100 2 demo_pst3 with Ok (Finished r, _) => r | _ => 0 end = 2) by (vm_compute; reflexivity).
    rewrite E in Ed. exact Ed. }
  exists (mk_pst p' u' (p_woken demo_pst3 ++ [NWrite])). split; [exact E2|]. cbn [p_pipe].
  assert (Eq : match piperead false 100 2 demo_pst3 with Ok (_, s) => pipe_queue (p_pipe s) | _ => [] end = [13])
    by (vm_compute; reflexivity).
  rewrite E in Eq. exact Eq.
Defined.

Lemma piperead_loses_byte_witness :
  exists s', piperead false 4000 2 demo_pst3 = Ok (Finished 0, s') /\ pipe_queue (p_pipe s') = [12; 13].
Proof.
  apply (piperead_loses_byte false 4000 2 demo_pst3 11 [12; 13] (proj1 demo_pipe3) (demo_inv _)).
  - rewrite (proj2 demo_pipe3). repeat constructor; lia.
  - lia.
  - lia.
  - lia.
  - exact (proj2 demo_pipe3).
  - vm_compute. reflexivity.
Defined.

Lemma pipewrite_killed_silent_witness :
  exists s', pipewrite (fun i => 0 <? i) 100 2 demo_pst = Ok (Finished (-1), s') /\
    pipe_queue (p_pipe s') = [11] /\ p_woken s' = [].
Proof.
  apply (pipewrite_killed_silent (fun i => 0 <? i) 100 2 demo_pst 11 demo_pipe_wf (demo_inv _)); try lia; try reflexivity.
Defined.

(** * Readers and writers of one pipe

    A process is in a read or a write call, awake or asleep on one of the pipe's
    channels; its turns are those above, and the channels a turn wakes are those
    that the code calls wakeup() on. *)

Module Net.

Section net.
Context {U : Type} `{UserMemOk U}.

(** pipewrite with the process's memory, at byte [i]; piperead. *)
Inductive pcall := CWrite (u : U) (addr n i : Z) | CRead (u : U) (addr n : Z).

(** [n_lost]: a writer that was killed returned -1 after it had put bytes into
    the pipe, without a wakeup. *)
Record pnet := mk_pnet { n_pipe : pipe; n_calls : gmap nat pcall; n_asleep : gmap nat pchan; n_lost : bool }.

(** The sleepers after wakeup() of the channels [w]. *)
Definition wake (w : list pchan) (asleep : gmap nat pchan) : gmap nat pchan := filter (fun xc => xc.2 ∉ w) asleep.

Definition call_ok (c : pcall) : Prop :=
  match c with
  | CWrite u addr n i => um_inv u /\ 0 <= addr /\ addr + n < 2 ^ 64 /\ 0 <= i <= n /\ forall a b, um_byte u a = Some b -> is_byte b
  | CRead u addr n => um_inv u /\ 0 <= addr /\ 0 <= n /\ addr + n < 2 ^ 64
  end.

(** A call after its turn: over, or asleep. *)
Definition turn_end (x : nat) (res : progress) (again : Z -> pcall) (c : pchan) (w : list pchan) (p' : pipe) (lost : bool) (s : pnet) : pnet :=
  match res with
  | Finished _ => mk_pnet p' (delete x (n_calls s)) (wake w (n_asleep s)) lost
  | Asleep i => mk_pnet p' (<[x := again i]> (n_calls s)) (<[x := c]> (wake w (n_asleep s))) lost
  end.

Inductive pstep : pnet -> pnet -> Prop :=
  | pstep_write_call s x u addr n :
      n_calls s !! x = None -> call_ok (CWrite u addr n 0) ->
      pstep s (mk_pnet (n_pipe s) (<[x := CWrite u addr n 0]> (n_calls s)) (n_asleep s) (n_lost s))
  | pstep_read_call s x u addr n :
      n_calls s !! x = None -> call_ok (CRead u addr n) ->
      pstep s (mk_pnet (n_pipe s) (<[x := CRead u addr n]> (n_calls s)) (n_asleep s) (n_lost s))
  | pstep_write s x u addr n i killed res p' u' w :
      n_calls s !! x = Some (CWrite u addr n i) -> n_asleep s !! x = None ->
      pipewrite_from killed addr n i (mk_pst (n_pipe s) u []) = Ok (res, mk_pst p' u' w) ->
      pstep s (turn_end x res (CWrite u addr n) NWrite w p'
                 (match res with Finished (-1) => if pipe_count p' =? pipe_count (n_pipe s) then n_lost s else true | _ => n_lost s end) s)
  | pstep_read s x u addr n killed res p' u' w :
      n_calls s !! x = Some (CRead u addr n) -> n_asleep s !! x = None ->
      piperead killed addr n (mk_pst (n_pipe s) u []) = Ok (res, mk_pst p' u' w) ->
      pstep s (turn_end x res (fun _ => CRead u addr n) NRead w p' (n_lost s) s)
  | pstep_close s writable u freed p' u' w :
      @pipeclose U writable (mk_pst (n_pipe s) u []) = Ok (freed, mk_pst p' u' w) ->
      pstep s (mk_pnet p' (n_calls s) (wake w (n_asleep s)) (n_lost s))
  | pstep_kill s x :   (* kill() makes a sleeping process runnable *)
      pstep s (mk_pnet (n_pipe s) (n_calls s) (delete x (n_asleep s)) (n_lost s)).

Definition new_pnet (data : list Z) : pnet := mk_pnet (pipe_init data) ∅ ∅ false.

(** ** The invariant *)

Record pnet_ok (s : pnet) : Prop := {
  pn_wf : pipe_wf (n_pipe s);
  pn_bytes : Forall is_byte (pipe_queue (n_pipe s));
  pn_calls : map_Forall (fun _ => call_ok) (n_calls s);
  pn_write : forall x, n_asleep s !! x = Some NWrite -> pipe_count (n_pipe s) = PIPESIZE /\ pi_readopen (n_pipe s) = true /\ forall y, n_asleep s !! y <> Some NRead;
  pn_read : forall x, n_asleep s !! x = Some NRead -> pi_writeopen (n_pipe s) = true /\ (n_lost s = false -> pipe_queue (n_pipe s) = []);
}.

Lemma lookup_wake w asleep x c : wake w asleep !! x = Some c <-> asleep !! x = Some c /\ c ∉ w.
Proof. unfold wake. by rewrite map_lookup_filter_Some. Qed.

Lemma turn_end_asleep x res again c w p' lost s y k :
  n_asleep (turn_end x res again c w p' lost s) !! y = Some k ->
  (exists i, res = Asleep i /\ y = x /\ k = c) \/ (n_asleep s !! y = Some k /\ k ∉ w).
Proof.
  destruct res as [r|i]; simpl.
  - rewrite lookup_wake. auto.
  - destruct (decide (y = x)) as [->|Hne]; [rewrite lookup_insert_eq; intros [= <-]; eauto|].
    rewrite lookup_insert_ne by done. rewrite lookup_wake. auto.
Qed.

Lemma turn_end_pipe x res again c w p' lost s : n_pipe (turn_end x res again c w p' lost s) = p'.
Proof. by destruct res. Qed.
Lemma turn_end_lost x res again c w p' lost s : n_lost (turn_end x res again c w p' lost s) = lost.
Proof. by destruct res. Qed.

Lemma turn_end_calls x res again c w p' lost s :
  map_Forall (fun _ => call_ok) (n_calls s) -> (forall i, res = Asleep i -> call_ok (again i)) ->
  map_Forall (fun _ => call_ok) (n_calls (turn_end x res again c w p' lost s)).
Proof.
  intros Hc Ha. destruct res as [r|i]; simpl; [by apply map_Forall_delete|]. apply map_Forall_insert_2; auto.
Qed.

Lemma user_list_bytes (u : U) a bs : (forall x b, um_byte u x = Some b -> is_byte b) -> user_list u a bs -> Forall is_byte bs.
Proof. intros Hb Hl. apply Forall_lookup. intros i b Hi. by apply (Hb (a + Z.of_nat i)), Hl. Qed.

Lemma pipe_count_app p p' bs : pipe_queue p' = pipe_queue p ++ bs -> pipe_count p' = pipe_count p + Z.of_nat (length bs).
Proof. intros E. rewrite <- !length_pipe_queue, E, length_app. lia. Qed.

(** A writer's turn on a full pipe puts nothing into it. *)
Lemma full_no_room p p' bs :
  pipe_wf p' -> pipe_count p = PIPESIZE -> pipe_queue p' = pipe_queue p ++ bs -> bs = [].
Proof. intros [_ _ _ Hc] Hf E. apply pipe_count_app in E. apply length_zero_iff_nil. lia. Qed.

Lemma write_wakes (u : U) killed addr n p' i' res w :
  write_end u killed addr n p' i' res w -> w = [NRead] \/ w = [] /\ res = Finished (-1).
Proof. destruct res; simpl; naive_solver. Qed.

Lemma pnet_ok_write s x u addr n i killed res p' u' w :
  pnet_ok s -> n_calls s !! x = Some (CWrite u addr n i) ->
  pipewrite_from killed addr n i (mk_pst (n_pipe s) u []) = Ok (res, mk_pst p' u' w) ->
  pnet_ok (turn_end x res (CWrite u addr n) NWrite w p'
     (match res with Finished (-1) => if pipe_count p' =? pipe_count (n_pipe s) then n_lost s else true | _ => n_lost s end) s).
Proof.
  intros [Hwf Hb Hc Hw Hr] Hx E. pose proof (Hc _ _ Hx) as (Hu & Ha & Hlt & Hi & Hub).
  destruct (pipewrite_run killed addr n (S (Z.to_nat (n - i))) i (mk_pst (n_pipe s) u []))
    as (res1 & p1 & bs & w1 & E1 & Hwf1 & Hq & Hul & Hro & Hwo & Hend); auto; [lia|].
  cbn [p_pipe p_um p_woken] in *. unfold pipewrite_from in E. rewrite E1, app_nil_l in E. injection E as E2 E3 _ E4. subst res1 p1 w1.
  pose proof (write_wakes _ _ _ _ _ _ _ _ Hend) as Hww.
  split; rewrite ?turn_end_pipe, ?turn_end_lost; auto.
  - rewrite Hq. apply Forall_app. split; [done|]. by apply (user_list_bytes u (addr + i)).
  - apply turn_end_calls; [done|]. intros k ->. destruct Hend as (-> & Hk & _). simpl. split_and!; auto; lia.
  - intros y [(k & -> & -> & _)|[Hy Hnw]]%turn_end_asleep.
    + destruct Hend as (_ & _ & Hf & Ho & ->). split_and!; auto.
      intros z [(k' & _ & _ & [=])|[_ Hz]]%turn_end_asleep. by apply Hz, list_elem_of_here.
    + destruct (Hw y Hy) as (Hf & Ho & Hno). rewrite (full_no_room _ _ _ Hwf1 Hf Hq), app_nil_r in Hq.
      rewrite <- (length_pipe_queue p'), Hq, length_pipe_queue, Hro. split_and!; auto.
      intros z [(k' & _ & _ & [=])|[Hz _]]%turn_end_asleep. by apply (Hno z).
  - intros y [(k & _ & _ & [=])|[Hy Hnw]]%turn_end_asleep. destruct (Hr y Hy) as [Ho Hq0].
    destruct Hww as [->|[-> ->]]; [by destruct Hnw; apply list_elem_of_here|]. rewrite Hwo. split; [done|].
    destruct (Z.eqb_spec (pipe_count p') (pipe_count (n_pipe s))) as [Ec|]; [|done]. intros Hl.
    apply pipe_count_app in Hq as Hcnt. assert (bs = []) as -> by (apply length_zero_iff_nil; lia). rewrite Hq, app_nil_r. auto.
Qed.

Lemma pnet_ok_read s x u addr n killed res p' u' w :
  pnet_ok s -> n_calls s !! x = Some (CRead u addr n) ->
  piperead killed addr n (mk_pst (n_pipe s) u []) = Ok (res, mk_pst p' u' w) ->
  pnet_ok (turn_end x res (fun _ => CRead u addr n) NRead w p' (n_lost s) s).
Proof.
  intros [Hwf Hb Hc Hw Hr] Hx E. pose proof (Hc _ _ Hx) as (Hu & Ha & Hn & Hlt).
  pose proof (piperead_run killed addr n (mk_pst (n_pipe s) u []) Hwf Hu Hb Ha Hn Hlt) as Hrun. cbn [p_pipe p_um p_woken] in Hrun.
  assert (Hcalls : forall l, map_Forall (fun _ => call_ok) (n_calls (turn_end x res (fun _ => CRead u addr n) NRead w p' l s)))
    by (intros l; apply turn_end_calls; [done|]; by intros).
  destruct (bool_decide _ && _) eqn:Ee.
  - rewrite E in Hrun. injection Hrun as Er -> -> ->. apply andb_true_iff in Ee as [Eq%bool_decide_eq_true Eo].
    split; rewrite ?turn_end_pipe, ?turn_end_lost; auto.
    intros y [(k & _ & _ & [=])|[Hy _]]%turn_end_asleep. destruct (Hw y Hy) as (Hf & Ho & Hno). by destruct (read_after_write_sleeps _ Hwf Hf).
  - destruct Hrun as (p1 & u1 & taken & d & E1 & Hwf1 & Hu1 & Hq & Hro & Hwo & _ & _). rewrite E in E1. injection E1 as -> -> -> ->.
    split; rewrite ?turn_end_pipe, ?turn_end_lost; auto.
    + rewrite Hq in Hb. apply Forall_app in Hb as [_ Hb']. exact Hb'.
    + intros y [(k & [=] & _)|[Hy Hnw]]%turn_end_asleep. by destruct Hnw; apply list_elem_of_here.
    + intros y [(k & [=] & _)|[Hy _]]%turn_end_asleep. destruct (Hr y Hy) as [Ho Hq0]. rewrite Hwo. split; [done|].
      intros Hl. rewrite (Hq0 Hl) in Hq. symmetry in Hq. apply app_eq_nil in Hq as [_ Hq']. exact Hq'.
Qed.

Lemma pnet_ok_close s writable u freed p' u' w :
  pnet_ok s -> @pipeclose U writable (mk_pst (n_pipe s) u []) = Ok (freed, mk_pst p' u' w) ->
  pnet_ok (mk_pnet p' (n_calls s) (wake w (n_asleep s)) (n_lost s)).
Proof.
  intros [Hwf Hb Hc Hw Hr] E. destruct Hwf as [H1 H2 H3 H4]. destruct writable; cbv in E; injection E as <- <- <- <-.
  - split; [by split|exact Hb|done| |]; simpl.
    + intros y [Hy _]%lookup_wake. destruct (Hw y Hy) as (Hf & Ho & Hno). split_and!; [exact Hf|done|].
      intros z [Hz _]%lookup_wake. by apply (Hno z).
    + intros y [Hy Hn]%lookup_wake. by destruct Hn; apply list_elem_of_here.
  - split; [by split|exact Hb|done| |]; simpl.
    + intros y [Hy Hn]%lookup_wake. by destruct Hn; apply list_elem_of_here.
    + intros y [Hy _]%lookup_wake. apply (Hr y Hy).
Qed.

Lemma pnet_ok_step s s' : pnet_ok s -> pstep s s' -> pnet_ok s'.
Proof.
  intros Hs Hst. destruct Hst; [| |by eapply pnet_ok_write|by eapply pnet_ok_read|by eapply pnet_ok_close|];
    destruct Hs as [Hwf Hb Hc Hw Hr]; split; simpl; auto; try by apply map_Forall_insert_2.
  - intros y Hy. apply lookup_delete_Some in Hy as [_ Hy]. destruct (Hw y Hy) as (? & ? & Hno). split_and!; auto.
    intros z Hz. apply lookup_delete_Some in Hz as [_ Hz]. by apply (Hno z).
  - intros y Hy. apply lookup_delete_Some in Hy as [_ Hy]. by apply (Hr y).
Qed.

Lemma new_pnet_ok data : length data = 512%nat -> pnet_ok (new_pnet data).
Proof.
  intros Hd. split; simpl; [|constructor|apply map_Forall_empty| |]; try (intros x Hx; by rewrite lookup_empty in Hx).
  split; simpl; [done|lia|lia|]. unfold pipe_count, rcount, PIPESIZE. simpl. vm_compute. discriminate.
Qed.

Lemma reachable_ok data s : length data = 512%nat -> rtc pstep (new_pnet data) s -> pnet_ok s.
Proof.
  intros Hd Hs. apply (rtc_ind_r (fun s => pnet_ok s) (new_pnet data)) in Hs; [done|by apply new_pnet_ok|].
  intros y z _ Hst Hy. by eapply pnet_ok_step.
Qed.

(** (C26) No wakeup of a pipe is lost.  Any number of processes read, write, close
    and are killed, in any interleaving: a writer sleeps only while the pipe is
    full and open for reading, and then no reader sleeps; a reader sleeps only
    while the pipe is open for writing and, unless a writer was killed in the
    middle of a write, empty.  The turn of any reader of a pipe on which a writer
    sleeps ends, having taken bytes if it asked for any, and wakes every
    writer; a writer's turn wakes every reader unless it returns -1. *)
Theorem pipe_no_deadlock data s :
  length data = 512%nat -> rtc pstep (new_pnet data) s ->
  (forall x, n_asleep s !! x = Some NWrite ->
     pipe_count (n_pipe s) = PIPESIZE /\ pi_readopen (n_pipe s) = true /\ (forall y, n_asleep s !! y <> Some NRead) /\
     forall killed u addr n, call_ok (CRead u addr n) ->
       exists r p' u', piperead killed addr n (mk_pst (n_pipe s) u []) = Ok (Finished r, mk_pst p' u' [NWrite]) /\
         (0 < n -> pipe_count p' < PIPESIZE)) /\
  (forall x, n_asleep s !! x = Some NRead ->
     pi_writeopen (n_pipe s) = true /\ (n_lost s = false -> pipe_queue (n_pipe s) = [])) /\
  (forall killed u addr n i, call_ok (CWrite u addr n i) ->
     exists res p' w, pipewrite_from killed addr n i (mk_pst (n_pipe s) u []) = Ok (res, mk_pst p' u w) /\
       (w = [NRead] \/ res = Finished (-1))).
Proof.
  intros Hd Hs. destruct (reachable_ok _ _ Hd Hs) as [Hwf Hb Hc Hw Hr]. split_and!; [|exact Hr|].
  - intros x Hx. destruct (Hw x Hx) as (Hf & Ho & Hno). split_and!; auto. intros killed u addr n (Hu & Ha & Hn & Hlt).
    pose proof (piperead_run killed addr n (mk_pst (n_pipe s) u []) Hwf Hu Hb Ha Hn Hlt) as Hrun. cbn [p_pipe p_um p_woken] in Hrun.
    pose proof (read_after_write_sleeps _ Hwf Hf) as Hne. rewrite bool_decide_eq_false_2 in Hrun by done.
    destruct Hrun as (p' & u' & taken & d & E & _ & _ & Hq & _ & _ & _ & _ & Hend). exists (Z.of_nat d), p', u'. split; [exact E|].
    intros Hn0. rewrite <- Hf, <- !length_pipe_queue, Hq, length_app.
    destruct taken; [|simpl; lia]. simpl in Hq. destruct Hend as [(-> & [?|[_ ?]])|(? & _)]; simpl in *; [lia|congruence|lia].
  - intros killed u addr n i (Hu & Ha & Hlt & Hi & Hub).
    destruct (pipewrite_run killed addr n (S (Z.to_nat (n - i))) i (mk_pst (n_pipe s) u []))
      as (res1 & p1 & bs & w1 & E1 & _ & _ & _ & _ & _ & Hend); auto; [lia|].
    exists res1, p1, w1. split; [exact E1|]. destruct (write_wakes _ _ _ _ _ _ _ _ Hend) as [|[_ ?]]; auto.
Qed.

End net.

(** ** A reader sleeps, then a writer fills the pipe. *)

Definition demo_wide : flat := mk_flat (list_to_map (map (fun k => (Z.of_nat k, 7)) (seq 0 600))).

Lemma demo_wide_bytes a b : um_byte demo_wide a = Some b -> is_byte b.
Proof.
  intros E. apply (elem_of_list_to_map_2 (M := gmap Z) _ a b) in E. apply list_elem_of_In, in_map_iff in E as (k & [= _ <-] & _). unfold is_byte. lia.
Qed.

Lemma demo_write_call : call_ok (CWrite demo_wide 0 600 0).
Proof. split_and!; [done|lia..|exact demo_wide_bytes]. Qed.

Lemma demo_read_call : call_ok (CRead demo_wide 0 8).
Proof. split_and!; [done|lia..]. Qed.

Lemma demo_fill : exists p', pipewrite_from (fun _ => false) 0 600 0 (mk_pst (pipe_init (replicate 512 0)) demo_wide []) =
  Ok (Asleep 512, mk_pst p' demo_wide [NRead]).
Proof. eexists. vm_compute. reflexivity. Qed.

Lemma demo_net_run : exists s, rtc pstep (new_pnet (replicate 512 0)) s /\ n_asleep s !! 2%nat = Some NWrite.
Proof.
  destruct demo_fill as [p' E]. eexists. split.
  - eapply rtc_l; [apply (pstep_read_call _ 1%nat demo_wide 0 8); [done|exact demo_read_call]|].
    eapply rtc_l; [eapply (pstep_read _ 1%nat demo_wide 0 8 false (Asleep 0)); reflexivity|].
    eapply rtc_l; [apply (pstep_write_call _ 2%nat demo_wide 0 600); [done|exact demo_write_call]|].
    eapply rtc_l; [eapply (pstep_write _ 2%nat demo_wide 0 600 0 (fun _ => false) _ _ _ _); [reflexivity|reflexivity|exact E]|].
    apply rtc_refl.
  - reflexivity.
Qed.

Lemma pipe_no_deadlock_witness : exists s,
  rtc pstep (new_pnet (replicate 512 0)) s /\ n_asleep s !! 2%nat = Some NWrite /\ n_asleep s !! 1%nat <> Some NRead /\
  exists r p' u', piperead false 0 8 (mk_pst (n_pipe s) demo_wide []) = Ok (Finished r, mk_pst p' u' [NWrite]) /\ pipe_count p' < PIPESIZE.
Proof.
  destruct demo_net_run as (s & Hs & H2). exists s. split_and!; [exact Hs|exact H2| |].
  - destruct (pipe_no_deadlock (replicate 512 0) s eq_refl Hs) as (Hw & _). destruct (Hw _ H2) as (_ & _ & Hno & _). apply Hno.
  - destruct (pipe_no_deadlock (replicate 512 0) s eq_refl Hs) as (Hw & _). destruct (Hw _ H2) as (_ & _ & _ & Hr).
    destruct (Hr false demo_wide 0 8 demo_read_call) as (r & p' & u' & E & Hlt). exists r, p', u'. split; [exact E|apply Hlt; lia].
Defined.

End Net.
