(* ===== verification/Uart.v ===== *)
(** kernel/uart.c: the 16550 serial port driver.

    The device is a parameter: [UartDev] lists the register accesses the
    driver makes and [UartDevOk] what it relies on, that a byte written to
    THR is appended to what the device transmits and nothing else is. *)

From S2P Require Import Prelude RingBuf.

Definition UART_TX_BUF_SIZE : Z := 32.

(** The registers (their offsets) and their bits. *)
Inductive uart_const :=
  | IER | FCR | LCR
  | IER_RX_ENABLE | IER_TX_ENABLE | FCR_FIFO_ENABLE | FCR_FIFO_CLEAR
  | LCR_EIGHT_BITS | LCR_BAUD_LATCH | LSR_RX_READY | LSR_TX_IDLE.

Definition uart_value (c : uart_const) : Z :=
  match c with
  | IER => 1 | FCR => 2 | LCR => 3
  | IER_RX_ENABLE => 1 | IER_TX_ENABLE => 2 | FCR_FIFO_ENABLE => 1 | FCR_FIFO_CLEAR => 6
  | LCR_EIGHT_BITS => 3 | LCR_BAUD_LATCH => 128 | LSR_RX_READY => 1 | LSR_TX_IDLE => 32
  end.
Coercion uart_value : uart_const >-> Z.

Class UartDev (D : Type) := {
  read_lsr : D -> Z * D;
  read_isr : D -> Z * D;
  read_rhr : D -> Z * D;
  write_thr : Z -> D -> D;
  write_reg : Z -> Z -> D -> D;   (* the other registers *)
}.

Class UartDevOk (D : Type) `{UartDev D} := {
  sent : D -> list Z;
  sent_thr : forall c d, sent (write_thr c d) = sent d ++ [c];
  sent_lsr : forall d, sent (read_lsr d).2 = sent d;
  sent_isr : forall d, sent (read_isr d).2 = sent d;
  sent_rhr : forall d, sent (read_rhr d).2 = sent d;
}.

Record uart (D : Type) := mk_uart {
  uart_tx_buf : list Z;
  uart_tx_w : Z;
  uart_tx_r : Z;
  u_dev : D;
  u_panicked : bool;
  u_woken : nat;     (* calls of wakeup(&uart_tx_r) *)
}.
Arguments mk_uart {D} _ _ _ _ _ _.
Arguments uart_tx_buf {D} _.
Arguments uart_tx_w {D} _.
Arguments uart_tx_r {D} _.
Arguments u_dev {D} _.
Arguments u_panicked {D} _.
Arguments u_woken {D} _.

(** A loop that waits for the device or for ever. *)
Definition spins : string := "spins".

(** uartputc returned, or sleeps with the lock released to be run again. *)
Inductive putc_result := Put | PutSleeps.

Section uart.
Context {D : Type} `{UartDev D}.
Implicit Types (u : uart D).

Definition set_dev (d : D) (u : uart D) : uart D :=
  mk_uart (uart_tx_buf u) (uart_tx_w u) (uart_tx_r u) d (u_panicked u) (u_woken u).

Definition WriteReg (reg v : Z) : M (uart D) unit := modify (fun u => set_dev (write_reg reg v (u_dev u)) u).
Definition ReadLSR : M (uart D) Z := fun u => let '(v, d) := read_lsr (u_dev u) in Ok (v, set_dev d u).
Definition ReadISR : M (uart D) Z := fun u => let '(v, d) := read_isr (u_dev u) in Ok (v, set_dev d u).
Definition ReadRHR : M (uart D) Z := fun u => let '(v, d) := read_rhr (u_dev u) in Ok (v, set_dev d u).
Definition WriteTHR (c : Z) : M (uart D) unit := modify (fun u => set_dev (write_thr c (u_dev u)) u).

Definition uartinit : M (uart D) unit :=
  WriteReg IER 0;;
  WriteReg LCR LCR_BAUD_LATCH;;
  WriteReg 0 3;;
  WriteReg 1 0;;
  WriteReg LCR LCR_EIGHT_BITS;;
  WriteReg FCR (Z.lor FCR_FIFO_ENABLE FCR_FIFO_CLEAR);;
  WriteReg IER (Z.lor IER_TX_ENABLE IER_RX_ENABLE).

(** int c = uart_tx_buf[uart_tx_r % UART_TX_BUF_SIZE]; uart_tx_r += 1;
    wakeup(&uart_tx_r); *)
Definition uart_take : M (uart D) Z := fun u =>
  Ok (uart_tx_buf u !!! Z.to_nat (uart_tx_r u mod UART_TX_BUF_SIZE),
      mk_uart (uart_tx_buf u) (uart_tx_w u) (u64 (uart_tx_r u + 1)) (u_dev u) (u_panicked u) (S (u_woken u))).

(** while(1): a round sends one byte of the buffer or returns. *)
Fixpoint uartstart_loop (fuel : nat) : M (uart D) unit :=
  match fuel with
  | O => panic "out of fuel"
  | S fuel =>
      u ← gets (fun u => u);
      if uart_tx_w u =? uart_tx_r u then ReadISR;; mret tt
      else
        lsr ← ReadLSR;
        if Z.land lsr LSR_TX_IDLE =? 0 then mret tt
        else
          c ← uart_take;
          WriteTHR c;;
          uartstart_loop fuel
  end.

Definition uartstart : M (uart D) unit := uartstart_loop 33.

(** One turn of uartputc. *)
Definition uartputc (c : Z) : M (uart D) putc_result :=
  u ← gets (fun u => u);
  if u_panicked u then panic spins
  else if uart_tx_w u =? u64 (uart_tx_r u + UART_TX_BUF_SIZE) then mret PutSleeps
  else
    modify (fun u => mk_uart (<[Z.to_nat (uart_tx_w u mod UART_TX_BUF_SIZE) := u8 c]> (uart_tx_buf u))
                             (u64 (uart_tx_w u + 1)) (uart_tx_r u) (u_dev u) (u_panicked u) (u_woken u));;
    uartstart;;
    mret Put.

(** while((ReadReg(LSR) & LSR_TX_IDLE) == 0) ; for at most [fuel] reads. *)
Fixpoint wait_idle (fuel : nat) : M (uart D) unit :=
  match fuel with
  | O => panic spins
  | S fuel => lsr ← ReadLSR; if Z.land lsr LSR_TX_IDLE =? 0 then wait_idle fuel else mret tt
  end.

Definition uartputc_sync (fuel : nat) (c : Z) : M (uart D) unit :=
  u ← gets (fun u => u);
  if u_panicked u then panic spins
  else wait_idle fuel;; WriteTHR (u8 c).

Definition uartgetc : M (uart D) Z :=
  lsr ← ReadLSR;
  if negb (Z.land lsr 1 =? 0) then ReadRHR else mret (-1).

(** The input loop of uartintr: the characters given to consoleintr. *)
Fixpoint uartintr_input (fuel : nat) : M (uart D) (list Z) :=
  match fuel with
  | O => panic spins
  | S fuel =>
      c ← uartgetc;
      if c =? -1 then mret []
      else cs ← uartintr_input fuel; mret (c :: cs)
  end.

Definition uartintr (fuel : nat) : M (uart D) (list Z) :=
  cs ← uartintr_input fuel;
  uartstart;;
  mret cs.

End uart.

(** * Transmission order *)

Section uart_proofs.
Context {D : Type} `{UartDevOk D}.
Implicit Types (u : uart D).

Definition uart_queue u : list Z := rqueue UART_TX_BUF_SIZE 18446744073709551616 (uart_tx_buf u) (uart_tx_r u) (uart_tx_w u).
Definition uart_count u : Z := rcount 18446744073709551616 (uart_tx_r u) (uart_tx_w u).

Record uart_wf u : Prop := {
  uw_buf : length (uart_tx_buf u) = 32%nat;
  uw_w : 0 <= uart_tx_w u < 18446744073709551616;
  uw_r : 0 <= uart_tx_r u < 18446744073709551616;
  uw_count : uart_count u <= 32;
}.

Lemma uart_size_divides : (UART_TX_BUF_SIZE | 18446744073709551616).
Proof. by exists 576460752303423488. Qed.

Lemma length_uart_queue u : Z.of_nat (length (uart_queue u)) = uart_count u.
Proof. apply length_rqueue. lia. Qed.

(** What is sent or still waiting does not change. *)
Lemma uartstart_loop_run fuel : forall u,
  uart_wf u -> uart_count u < Z.of_nat fuel ->
  exists u', uartstart_loop fuel u = Ok (tt, u') /\ uart_wf u' /\ u_panicked u' = u_panicked u /\
    sent (u_dev u') ++ uart_queue u' = sent (u_dev u) ++ uart_queue u /\ (length (uart_queue u') <= length (uart_queue u))%nat.
Proof.
  induction fuel as [|fuel IH]; intros u Hu Hf.
  { pose proof (rcount_range 18446744073709551616 ltac:(lia) (uart_tx_r u) (uart_tx_w u)). unfold uart_count in Hf. lia. }
  cbn [uartstart_loop]. rewrite bind_run. cbn [gets].
  destruct (Z.eqb_spec (uart_tx_w u) (uart_tx_r u)) as [E|E].
  - rewrite bind_run. unfold ReadISR at 1. pose proof (sent_isr (u_dev u)) as Hs.
    destruct (read_isr (u_dev u)) as [v d]. simpl in Hs. eexists. split; [reflexivity|]. destruct Hu. split_and!; [by split|done| |done].
    cbn [u_dev set_dev]. rewrite Hs. done.
  - rewrite bind_run. unfold ReadLSR at 1. pose proof (sent_lsr (u_dev u)) as Hs.
    destruct (read_lsr (u_dev u)) as [v d]. simpl in Hs. pose proof Hu as [Hb Hw Hr Hc].
    destruct (Z.land v LSR_TX_IDLE =? 0).
    { eexists. split; [reflexivity|]. split_and!; [by split|done| |done]. cbn [u_dev set_dev]. rewrite Hs. done. }
    assert (Hpos : 0 < uart_count u).
    { pose proof (rcount_range 18446744073709551616 ltac:(lia) (uart_tx_r u) (uart_tx_w u)).
      pose proof (rcount_0 18446744073709551616 ltac:(lia) _ _ Hr Hw) as Hz0. unfold uart_count. destruct (Z.eq_dec (rcount 18446744073709551616 (uart_tx_r u) (uart_tx_w u)) 0); [|lia].
      exfalso. apply E. symmetry. by apply Hz0. }
    set (c := uart_tx_buf u !!! Z.to_nat (uart_tx_r u mod UART_TX_BUF_SIZE)).
    set (u1 := mk_uart (uart_tx_buf u) (uart_tx_w u) (u64 (uart_tx_r u + 1)) (write_thr c d) (u_panicked u) (S (u_woken u))).
    assert (Hq : uart_queue u = c :: uart_queue u1)
      by (apply rqueue_pop; [done|lia|apply uart_size_divides|exact Hpos]).
    assert (Hcnt : uart_count u1 = uart_count u - 1) by (apply rcount_pop; [lia|exact Hpos]).
    destruct (IH u1) as (u' & Eu & Hwf & Hpan & Hsent & Hlen); [split; auto; [apply u64_range|lia]|lia|].
    exists u'. split; [exact Eu|]. split_and!; auto.
    + rewrite Hsent. cbn [u_dev u1]. rewrite sent_thr, Hs, Hq, <- app_assoc. done.
    + rewrite Hq. simpl. lia.
Qed.

(** The polling loop ends within [fuel] reads. *)
Definition responds (fuel : nat) : Prop := forall u, exists u', wait_idle fuel u = Ok (tt, u').

Lemma wait_idle_run fuel : forall u u',
  wait_idle fuel u = Ok (tt, u') -> u' = set_dev (u_dev u') u /\ sent (u_dev u') = sent (u_dev u).
Proof.
  induction fuel as [|fuel IH]; intros u u' E; [done|]. cbn [wait_idle] in E. rewrite bind_run in E. unfold ReadLSR at 1 in E.
  pose proof (sent_lsr (u_dev u)) as Hs. destruct (read_lsr (u_dev u)) as [v d]. simpl in Hs.
  destruct (Z.land v LSR_TX_IDLE =? 0).
  - apply IH in E as [E1 E2]. split; [rewrite E1; by destruct u|by rewrite E2].
  - injection E as <-. done.
Qed.

(** Sent at once, ahead of what waits in the buffer. *)
Lemma uartputc_sync_run fuel u c :
  responds fuel -> u_panicked u = false ->
  exists d, uartputc_sync fuel c u = Ok (tt, set_dev d u) /\ sent d = sent (u_dev u) ++ [u8 c].
Proof.
  intros Hf Hp. unfold uartputc_sync. rewrite bind_run. cbn [gets]. rewrite Hp. destruct (Hf u) as [u' E].
  destruct (wait_idle_run _ _ _ E) as [E1 E2]. rewrite (bind_Ok _ _ _ _ _ E). exists (write_thr (u8 c) (u_dev u')).
  split; [|rewrite sent_thr; by f_equal]. unfold WriteTHR. rewrite modify_run. do 2 f_equal. rewrite E1 at 2. by destruct u.
Qed.

(** The driver transmits in order and loses nothing: a character put
    with uartputc is appended to what was sent or waits to be sent, calls of
    uartstart (from the interrupt handler too) only move characters from the
    buffer to the device, and uartputc sleeps exactly when 32 are waiting. *)
Theorem uart_fifo u c :
  uart_wf u -> u_panicked u = false ->
  (exists u', uartstart u = Ok (tt, u') /\ uart_wf u' /\
     sent (u_dev u') ++ uart_queue u' = sent (u_dev u) ++ uart_queue u) /\
  if (length (uart_queue u) =? 32)%nat then uartputc c u = Ok (PutSleeps, u)
  else exists u', uartputc c u = Ok (Put, u') /\ uart_wf u' /\
     sent (u_dev u') ++ uart_queue u' = (sent (u_dev u) ++ uart_queue u) ++ [u8 c].
Proof.
  intros Hu Hp. pose proof Hu as [Hb Hw Hr Hc]. split.
  { destruct (uartstart_loop_run 33 u Hu ltac:(lia)) as (u' & E & H1 & _ & H2 & _). eauto. }
  unfold uartputc. rewrite bind_run. cbn [gets]. rewrite Hp.
  assert (Hfull : (uart_tx_w u =? u64 (uart_tx_r u + UART_TX_BUF_SIZE)) = (length (uart_queue u) =? 32)%nat).
  { pose proof (length_uart_queue u) as Hl. unfold uart_count, rcount, UART_TX_BUF_SIZE in *.
    pose proof (rcount_ahead 18446744073709551616 ltac:(lia) (uart_tx_r u) (uart_tx_w u) 32 ltac:(lia) Hw) as Ha. unfold rcount in Ha.
    change (u64 (uart_tx_r u + 32)) with ((uart_tx_r u + 32) mod 18446744073709551616).
    destruct (Z.eqb_spec (uart_tx_w u) ((uart_tx_r u + 32) mod 18446744073709551616)), (Nat.eqb_spec (length (uart_queue u)) 32); try done; lia. }
  rewrite Hfull. destruct (Nat.eqb_spec (length (uart_queue u)) 32) as [|Hne]; [done|].
  rewrite bind_run, modify_run. set (u1 := mk_uart _ _ _ _ _ _).
  assert (Hlt : uart_count u < 32) by (pose proof (length_uart_queue u); lia).
  assert (Hq : uart_queue u1 = uart_queue u ++ [u8 c])
    by (apply rqueue_push; [done|lia|apply uart_size_divides|done|exact Hlt|done]).
  assert (Hcnt : uart_count u1 = uart_count u + 1).
  { unfold uart_count in *. apply rcount_succ; [lia|]. cbn. lia. }
  destruct (uartstart_loop_run 33 u1) as (u' & E & H1 & _ & H2 & _).
  { split; [simpl; by rewrite length_insert|apply u64_range|done|lia]. }
  { lia. }
  unfold uartstart. rewrite (bind_Ok _ _ _ _ _ E). exists u'. split; [done|]. split; [done|].
  rewrite H2, Hq, app_assoc. done.
Qed.

End uart_proofs.

(** ** A device that is always ready *)

Record fast := mk_fast { fa_sent : list Z; fa_rx : list Z }.

#[global] Instance fast_dev : UartDev fast := {|
  read_lsr d := ((match fa_rx d with [] => 32 | _ => 33 end), d);
  read_isr d := (0, d);
  read_rhr d := (default 0 (head (fa_rx d)), mk_fast (fa_sent d) (tail (fa_rx d)));
  write_thr c d := mk_fast (fa_sent d ++ [c]) (fa_rx d);
  write_reg _ _ d := d;
|}.

#[global] Instance fast_dev_ok : UartDevOk fast.
Proof. by refine {| sent := fa_sent |}. Defined.

Definition demo_uart : uart fast := mk_uart (replicate 32 0) 5 5 (mk_fast [] [104; 105]) false 0.

Lemma uart_fifo_witness :
  exists u', uartputc 65 demo_uart = Ok (Put, u') /\ sent (u_dev u') ++ uart_queue u' = [65].
Proof.
  destruct (uart_fifo demo_uart 65) as [_ H]; [split; vm_compute; intuition congruence|done|].
  destruct H as (u' & E & _ & Hs). exists u'. split; [exact E|exact Hs].
Defined.
