(* ===== verification/Console.v ===== *)
(** kernel/console.c: console input and output.

    A call of consoleread or consolewrite runs until it returns or sleeps;
    what it needs to go on is part of the result.  fileread and filewrite
    call both with user_dst / user_src set, the only case modelled. *)

From S2P Require Import Prelude RingBuf UserMem Uart.

Definition BACKSPACE : Z := 256.
Definition INPUT_BUF_SIZE : Z := 128.
Definition C (x : Z) : Z := x - 64.
Definition ctrl_P : Z := C 80.
Definition ctrl_U : Z := C 85.
Definition ctrl_H : Z := C 72.
Definition ctrl_D : Z := C 68.
Definition newline : Z := 10.

Record cons := mk_cons { c_buf : list Z; c_r : Z; c_w : Z; c_e : Z }.

Record console (D U : Type) := mk_console {
  con_cons : cons;
  con_uart : uart D;
  con_um : U;
  con_woken : nat;   (* calls of wakeup(&cons.r) *)
  con_dumps : nat;   (* calls of procdump() *)
}.
Arguments mk_console {D U} _ _ _ _ _.
Arguments con_cons {D U} _.
Arguments con_uart {D U} _.
Arguments con_um {D U} _.
Arguments con_woken {D U} _.
Arguments con_dumps {D U} _.

#[global] Instance console_uart {D U} : Lens (console D U) (uart D) := {|
  lget := con_uart;
  lset u s := mk_console (con_cons s) u (con_um s) (con_woken s) (con_dumps s);
|}.

#[global] Instance console_um {D U} : Lens (console D U) U := {|
  lget := con_um;
  lset u s := mk_console (con_cons s) (con_uart s) u (con_woken s) (con_dumps s);
|}.

Inductive read_result := ReadDone (r : Z) | ReadSleeps (dst n : Z).
Inductive write_result := WriteDone (r : Z) | WriteSleeps (i c : Z).

Section console.
Context {D U : Type} `{UartDev D} `{UserMem U}.
Context (fuel : nat).   (* reads of LSR uartputc_sync waits for *)
#[local] Abbreviation MC := (M (console D U)).

Definition upd_cons (f : cons -> cons) : MC unit :=
  modify (fun s => mk_console (f (con_cons s)) (con_uart s) (con_um s) (con_woken s) (con_dumps s)).
Definition wakeup_r : MC unit :=
  modify (fun s => mk_console (con_cons s) (con_uart s) (con_um s) (S (con_woken s)) (con_dumps s)).
Definition procdump : MC unit :=
  modify (fun s => mk_console (con_cons s) (con_uart s) (con_um s) (con_woken s) (S (con_dumps s))).

Definition consputc (c : Z) : MC unit :=
  if c =? BACKSPACE then
    zoom (uartputc_sync fuel 8);; zoom (uartputc_sync fuel 32);; zoom (uartputc_sync fuel 8)
  else zoom (uartputc_sync fuel c).

(** for(i = 0; i < n; i++), [k] bytes to go from byte [i]. *)
Fixpoint consolewrite_loop (k : nat) (src i : Z) : MC write_result :=
  match k with
  | O => mret (WriteDone i)
  | S k =>
      r ← zoom (um_copyin (u64 (src + i)) 1);
      if r.1 =? -1 then mret (WriteDone i)
      else
        let c := r.2 !!! O in
        p ← zoom (uartputc c);
        match p with
        | PutSleeps => mret (WriteSleeps i c)
        | Put => consolewrite_loop k src (i + 1)
        end
  end.

Definition consolewrite (src n : Z) : MC write_result := consolewrite_loop (Z.to_nat n) src 0.

(** Woken in uartputc(c) of byte [i]. *)
Definition consolewrite_woken (src n i c : Z) : MC write_result :=
  p ← zoom (uartputc c);
  match p with
  | PutSleeps => mret (WriteSleeps i c)
  | Put => consolewrite_loop (Z.to_nat (n - i - 1)) src (i + 1)
  end.

(** c = cons.buf[cons.r++ % INPUT_BUF_SIZE]; *)
Definition cons_take : MC Z := fun s =>
  let c := con_cons s in
  Ok (c_buf c !!! Z.to_nat (c_r c mod INPUT_BUF_SIZE),
      mk_console (mk_cons (c_buf c) (u32 (c_r c + 1)) (c_w c) (c_e c)) (con_uart s) (con_um s) (con_woken s) (con_dumps s)).

(** while(n > 0), with [n] bytes of [target] to go. *)
Fixpoint consoleread_loop (k : nat) (killed : bool) (target dst n : Z) : MC read_result :=
  match k with
  | O => mret (ReadDone (target - n))
  | S k =>
      s ← gets con_cons;
      if c_r s =? c_w s then
        if killed then mret (ReadDone (-1)) else mret (ReadSleeps dst n)
      else
        c ← cons_take;
        if c =? ctrl_D then
          (if n <? target then upd_cons (fun s => mk_cons (c_buf s) (u32 (c_r s - 1)) (c_w s) (c_e s)) else mret tt);;
          mret (ReadDone (target - n))
        else
          r ← zoom (um_copyout dst [c]);
          if r =? -1 then mret (ReadDone (target - n))
          else if c =? newline then mret (ReadDone (target - (n - 1)))
          else consoleread_loop k killed target (u64 (dst + 1)) (n - 1)
  end.

(** The first call, and the call woken with [n] bytes to go. *)
Definition consoleread (killed : bool) (dst n : Z) : MC read_result :=
  consoleread_loop (Z.to_nat n) killed n dst n.
Definition consoleread_woken (killed : bool) (target dst n : Z) : MC read_result :=
  consoleread_loop (Z.to_nat n) killed target dst n.

(** cons.e--; consputc(BACKSPACE); *)
Definition erase : MC unit :=
  upd_cons (fun s => mk_cons (c_buf s) (c_r s) (c_w s) (u32 (c_e s - 1)));;
  consputc BACKSPACE.

(** The loop of kill line; the edited line has at most 128 characters. *)
Fixpoint kill_line (k : nat) : MC unit :=
  match k with
  | O => panic "out of fuel"
  | S k =>
      s ← gets con_cons;
      if negb (c_e s =? c_w s) &&
         negb (c_buf s !!! Z.to_nat (u32 (c_e s - 1) mod INPUT_BUF_SIZE) =? newline)
      then erase;; kill_line k
      else mret tt
  end.

Definition consoleintr (c : Z) : MC unit :=
  if c =? ctrl_P then procdump
  else if c =? ctrl_U then kill_line 129
  else if (c =? ctrl_H) || (c =? 127) then
    s ← gets con_cons;
    if negb (c_e s =? c_w s) then erase else mret tt
  else
    s ← gets con_cons;
    if negb (c =? 0) && (u32 (c_e s - c_r s) <? INPUT_BUF_SIZE) then
      let c := if c =? 13 then newline else c in
      consputc c;;
      upd_cons (fun s => mk_cons (<[Z.to_nat (c_e s mod INPUT_BUF_SIZE) := u8 c]> (c_buf s)) (c_r s) (c_w s) (u32 (c_e s + 1)));;
      s ← gets con_cons;
      if (c =? newline) || (c =? ctrl_D) || (u32 (c_e s - c_r s) =? INPUT_BUF_SIZE) then
        upd_cons (fun s => mk_cons (c_buf s) (c_r s) (c_e s) (c_e s));;
        wakeup_r
      else mret tt
    else mret tt.

(** uartintr: the characters received go to consoleintr in order, then
    waiting output is sent. *)
Fixpoint uartintr_loop (rx : nat) : MC unit :=
  match rx with
  | O => panic spins
  | S rx =>
      c ← zoom uartgetc;
      if c =? -1 then mret tt else consoleintr c;; uartintr_loop rx
  end.

Definition uart_interrupt (rx : nat) : MC unit :=
  uartintr_loop rx;;
  zoom uartstart.

End console.

(** * What the console promises: complete lines and a line being edited *)

Record editor := mk_editor { ready : list Z; line : list Z }.

(** One character typed. *)
Definition typed (c : Z) (ed : editor) : editor :=
  if c =? ctrl_P then ed
  else if c =? ctrl_U then mk_editor (ready ed) []
  else if (c =? ctrl_H) || (c =? 127) then mk_editor (ready ed) (removelast (line ed))
  else if negb (c =? 0) && (Z.of_nat (length (ready ed) + length (line ed)) <? INPUT_BUF_SIZE) then
    let c := if c =? 13 then newline else c in
    if (c =? newline) || (c =? ctrl_D) || (Z.of_nat (length (ready ed) + length (line ed)) =? INPUT_BUF_SIZE - 1)
    then mk_editor (ready ed ++ line ed ++ [c]) []
    else mk_editor (ready ed) (line ed ++ [c])
  else ed.

(** What the terminal shows for it. *)
Definition echoed (c : Z) (ed : editor) : list Z :=
  if c =? ctrl_P then []
  else if c =? ctrl_U then concat (replicate (length (line ed)) [8; 32; 8])
  else if (c =? ctrl_H) || (c =? 127) then match line ed with [] => [] | _ => [8; 32; 8] end
  else if negb (c =? 0) && (Z.of_nat (length (ready ed) + length (line ed)) <? INPUT_BUF_SIZE) then
    [if c =? 13 then newline else c]
  else [].

(** A read of at most [k] bytes: what is delivered and what stays, [None] when
    the input ends before the read does.  [first]: nothing delivered yet. *)
Fixpoint read_line (first : bool) (k : nat) (q : list Z) : option (list Z * list Z) :=
  match k with
  | O => Some ([], q)
  | S k =>
      match q with
      | [] => None
      | c :: q' =>
          if c =? ctrl_D then Some ([], if first then q' else q)
          else if c =? newline then Some ([c], q')
          else match read_line false k q' with
               | Some (bs, rest) => Some (c :: bs, rest)
               | None => None
               end
      end
  end.

Definition WMAX : Z := 4294967296.
Definition cons_ready (s : cons) : list Z := rqueue INPUT_BUF_SIZE WMAX (c_buf s) (c_r s) (c_w s).
Definition cons_line (s : cons) : list Z := rqueue INPUT_BUF_SIZE WMAX (c_buf s) (c_w s) (c_e s).
Definition cons_editor (s : cons) : editor := mk_editor (cons_ready s) (cons_line s).

Record cons_wf (s : cons) : Prop := {
  cw_buf : length (c_buf s) = 128%nat;
  cw_bytes : Forall is_byte (c_buf s);
  cw_r : 0 <= c_r s < WMAX;
  cw_w : 0 <= c_w s < WMAX;
  cw_e : 0 <= c_e s < WMAX;
  cw_count : rcount WMAX (c_r s) (c_w s) + rcount WMAX (c_w s) (c_e s) <= INPUT_BUF_SIZE;
  cw_line : newline ∉ cons_line s;
}.

Lemma SIZE_divides : (INPUT_BUF_SIZE | WMAX).
Proof. by exists 33554432. Qed.

Lemma length_ready s : Z.of_nat (length (cons_ready s)) = rcount WMAX (c_r s) (c_w s).
Proof. by apply length_rqueue. Qed.
Lemma length_line s : Z.of_nat (length (cons_line s)) = rcount WMAX (c_w s) (c_e s).
Proof. by apply length_rqueue. Qed.

Lemma line_empty s : cons_wf s -> (c_e s =? c_w s) = match cons_line s with [] => true | _ => false end.
Proof.
  intros [Hb HB Hr Hw He Hc Hn]. pose proof (rcount_0 WMAX ltac:(done) _ _ Hw He). pose proof (length_line s) as Hl.
  destruct (Z.eqb_spec (c_e s) (c_w s)), (cons_line s); try done; simpl in Hl; try lia.
Qed.

Lemma ready_empty s : cons_wf s -> (c_r s =? c_w s) = match cons_ready s with [] => true | _ => false end.
Proof.
  intros [Hb HB Hr Hw He Hc Hn]. pose proof (rcount_0 WMAX ltac:(done) _ _ Hr Hw). pose proof (length_ready s) as Hl.
  destruct (Z.eqb_spec (c_r s) (c_w s)), (cons_ready s); try done; simpl in Hl; try lia.
Qed.

(** The characters between [r] and [e]. *)
Lemma cons_used s : cons_wf s -> u32 (c_e s - c_r s) = Z.of_nat (length (cons_ready s) + length (cons_line s)).
Proof.
  intros [Hb HB Hr Hw He Hc Hn]. rewrite Nat2Z.inj_add, length_ready, length_line.
  apply (rcount_add WMAX ltac:(done)). unfold INPUT_BUF_SIZE, WMAX in *. lia.
Qed.

(** Moving [e] back. *)
Lemma cons_erase s c l :
  cons_wf s -> cons_line s = l ++ [c] ->
  let s' := mk_cons (c_buf s) (c_r s) (c_w s) (u32 (c_e s - 1)) in
  cons_wf s' /\ cons_editor s' = mk_editor (cons_ready s) l /\
  c_buf s !!! Z.to_nat (u32 (c_e s - 1) mod INPUT_BUF_SIZE) = c.
Proof.
  intros [Hb HB Hr Hw He Hc Hn] El s'. pose proof (length_line s) as Hl. rewrite El, length_app in Hl. simpl in Hl.
  pose proof (rqueue_unsnoc INPUT_BUF_SIZE WMAX ltac:(done) ltac:(done) SIZE_divides (c_buf s) (c_w s) (c_e s) He ltac:(lia)) as Hq.
  fold (cons_line s) in Hq. rewrite El in Hq. apply app_inj_2 in Hq as [Hq1 Hq2]; [|done]. injection Hq2 as Hq2.
  assert (Hl' : cons_line s' = l) by (symmetry; exact Hq1).
  split; [|split; [unfold cons_editor; by rewrite Hl'|symmetry; exact Hq2]].
  split; try done; [apply u32_range| |].
  - change (c_e s') with ((c_e s - 1) mod WMAX). simpl. rewrite rcount_pred by lia. unfold INPUT_BUF_SIZE, WMAX in *. lia.
  - rewrite Hl'. intros Hin. apply Hn. rewrite El. apply elem_of_app. by left.
Qed.

(** Storing at [e] lengthens the line. *)
Lemma cons_append s c :
  cons_wf s -> is_byte c -> Z.of_nat (length (cons_ready s) + length (cons_line s)) < INPUT_BUF_SIZE ->
  let s' := mk_cons (<[Z.to_nat (c_e s mod INPUT_BUF_SIZE) := c]> (c_buf s)) (c_r s) (c_w s) (u32 (c_e s + 1)) in
  cons_ready s' = cons_ready s /\ cons_line s' = cons_line s ++ [c] /\ length (c_buf s') = 128%nat /\
  rcount WMAX (c_w s') (c_e s') = rcount WMAX (c_w s) (c_e s) + 1 /\ Forall is_byte (c_buf s').
Proof.
  intros [Hb HB Hr Hw He Hc Hn] Hbc Hlt s'. rewrite Nat2Z.inj_add, length_ready, length_line in Hlt.
  pose proof (rcount_range WMAX ltac:(done) (c_r s) (c_w s)). pose proof (rcount_range WMAX ltac:(done) (c_w s) (c_e s)).
  split_and!.
  - unfold cons_ready. simpl. rewrite <- (rcount_slot INPUT_BUF_SIZE WMAX ltac:(done) ltac:(done) SIZE_divides (c_r s) (c_e s)).
    apply rqueue_insert; [done|done|lia| |done]. rewrite (rcount_add WMAX ltac:(done) _ (c_w s) (c_e s)); unfold WMAX, INPUT_BUF_SIZE in *; lia.
  - apply rqueue_push; [done|done|apply SIZE_divides|done| |done]. change (c_w s') with (c_w s). lia.
  - simpl. by rewrite length_insert.
  - apply rcount_succ; unfold WMAX, INPUT_BUF_SIZE in *; lia.
  - by apply Forall_insert.
Qed.

(** A whole line becomes readable when [w] moves to [e]. *)
Lemma cons_commit s :
  length (c_buf s) = 128%nat -> Forall is_byte (c_buf s) -> 0 <= c_r s < WMAX -> 0 <= c_e s < WMAX ->
  rcount WMAX (c_r s) (c_w s) + rcount WMAX (c_w s) (c_e s) <= INPUT_BUF_SIZE ->
  let s' := mk_cons (c_buf s) (c_r s) (c_e s) (c_e s) in
  cons_wf s' /\ cons_editor s' = mk_editor (cons_ready s ++ cons_line s) [].
Proof.
  intros Hb HB Hr He Hc s'. assert (H0 : rcount WMAX (c_e s) (c_e s) = 0) by by apply rcount_0.
  assert (Hl : cons_line s' = []) by by apply rqueue_nil.
  split.
  - split; try done; [|by rewrite Hl; apply not_elem_of_nil]. simpl. rewrite H0, (rcount_add WMAX ltac:(done) _ (c_w s) (c_e s)); unfold WMAX, INPUT_BUF_SIZE in *; lia.
  - unfold cons_editor. rewrite Hl. f_equal. unfold cons_ready. simpl. apply rqueue_app; [done|done|apply SIZE_divides|].
    unfold WMAX, INPUT_BUF_SIZE in *; lia.
Qed.

Section console_proofs.
Context {D U : Type} `{UartDevOk D} `{UserMemOk U}.
Context (fuel : nat) (Hready : responds (D := D) fuel).
Implicit Types (s : console D U).

Definition con_sent s : list Z := sent (u_dev (con_uart s)).

(** Only the console's own fields and the device change. *)
Record input_step s s' (ed : editor) (out : list Z) : Prop := {
  is_wf : cons_wf (con_cons s');
  is_editor : cons_editor (con_cons s') = ed;
  is_sent : con_sent s' = con_sent s ++ out;
  is_um : con_um s' = con_um s;
  is_panicked : u_panicked (con_uart s') = u_panicked (con_uart s);
}.

Lemma upd_cons_run f s :
  upd_cons f s = Ok (tt, mk_console (f (con_cons s)) (con_uart s) (con_um s) (con_woken s) (con_dumps s)).
Proof. reflexivity. Qed.

Lemma consputc_run c s :
  u_panicked (con_uart s) = false ->
  exists d, consputc fuel c s = Ok (tt, lset (set_dev d (con_uart s)) s) /\
    sent d = con_sent s ++ (if c =? BACKSPACE then [8; 32; 8] else [u8 c]).
Proof using Hready.
  intros Hp. unfold consputc. destruct (c =? BACKSPACE).
  - destruct (uartputc_sync_run fuel (con_uart s) 8 Hready Hp) as (d1 & E1 & S1).
    destruct (uartputc_sync_run fuel (set_dev d1 (con_uart s)) 32 Hready Hp) as (d2 & E2 & S2).
    destruct (uartputc_sync_run fuel (set_dev d2 (con_uart s)) 8 Hready Hp) as (d3 & E3 & S3).
    exists d3. split.
    + rewrite bind_run. unfold zoom at 1. cbn [lget console_uart]. rewrite E1.
      rewrite bind_run. unfold zoom at 1. cbn [lget lset console_uart con_uart]. rewrite E2.
      unfold zoom. cbn [lget lset console_uart con_uart]. change (set_dev d2 (set_dev d1 (con_uart s))) with (set_dev d2 (con_uart s)).
      rewrite E3. done.
    + rewrite S3. cbn [u_dev set_dev]. rewrite S2. cbn [u_dev set_dev]. rewrite S1, <- !app_assoc. done.
  - destruct (uartputc_sync_run fuel (con_uart s) c Hready Hp) as (d1 & E1 & S1). exists d1. split; [|exact S1].
    unfold zoom. cbn [lget console_uart]. by rewrite E1.
Qed.

Lemma erase_run s c l :
  cons_wf (con_cons s) -> u_panicked (con_uart s) = false -> cons_line (con_cons s) = l ++ [c] ->
  exists s', erase fuel s = Ok (tt, s') /\ input_step s s' (mk_editor (cons_ready (con_cons s)) l) [8; 32; 8].
Proof using Hready.
  intros Hs Hp El. destruct (cons_erase _ _ _ Hs El) as (Hwf & Hed & _). unfold erase. rewrite bind_run, upd_cons_run.
  match goal with |- context [consputc _ _ ?x] => destruct (consputc_run BACKSPACE x Hp) as (d & E & Hd) end.
  rewrite E. eexists. split; [reflexivity|]. by split.
Qed.

Lemma input_step_trans s1 s2 s3 e2 o2 e3 o3 :
  input_step s1 s2 e2 o2 -> input_step s2 s3 e3 o3 -> input_step s1 s3 e3 (o2 ++ o3).
Proof. intros [] []. split; try done; try congruence. rewrite app_assoc. congruence. Qed.

Lemma kill_line_run k : forall s,
  cons_wf (con_cons s) -> u_panicked (con_uart s) = false -> (length (cons_line (con_cons s)) < k)%nat ->
  exists s', kill_line fuel k s = Ok (tt, s') /\
    input_step s s' (mk_editor (cons_ready (con_cons s)) []) (concat (replicate (length (cons_line (con_cons s))) [8; 32; 8])).
Proof using Hready.
  induction k as [|k IH]; intros s Hs Hp Hk; [lia|]. cbn [kill_line]. rewrite bind_run. cbn [gets].
  rewrite line_empty by done. destruct (cons_line (con_cons s)) as [|c0 l0 _] eqn:El using rev_ind.
  - exists s. split; [done|]. split; try done; [unfold cons_editor; by rewrite El|by rewrite app_nil_r].
  - destruct (cons_erase _ _ _ Hs El) as (_ & _ & Hc). rewrite Hc.
    assert (Hne : c0 <> newline).
    { intros ->. apply (cw_line _ Hs). rewrite El. apply elem_of_app. right. by apply list_elem_of_singleton. }
    apply Z.eqb_neq in Hne. rewrite Hne. destruct (erase_run s c0 l0 Hs Hp El) as (s1 & E1 & Hs1).
    pose proof (is_editor _ _ _ _ Hs1) as He. injection He as He1 He2.
    destruct (IH s1) as (s2 & E2 & Hs2); [apply Hs1|rewrite (is_panicked _ _ _ _ Hs1); exact Hp|rewrite He2, length_app in *; simpl in Hk; lia|].
    exists s2. split.
    + assert ((match l0 ++ [c0] with [] => true | _ => false end) = false) as -> by by destruct l0. simpl.
      rewrite (bind_Ok _ _ _ _ _ E1). exact E2.
    + rewrite He1, He2 in Hs2. pose proof (input_step_trans _ _ _ _ _ _ _ Hs1 Hs2) as Hs3.
      rewrite length_app, Nat.add_1_r. exact Hs3.
Qed.

Lemma consoleintr_store c s :
  0 <= c < 256 -> cons_wf (con_cons s) -> u_panicked (con_uart s) = false ->
  c <> ctrl_P -> c <> ctrl_U -> c <> ctrl_H -> c <> 127 ->
  exists s', consoleintr fuel c s = Ok (tt, s') /\
    input_step s s' (typed c (cons_editor (con_cons s))) (echoed c (cons_editor (con_cons s))) /\
    (cons_ready (con_cons s') <> cons_ready (con_cons s) -> con_woken s' = S (con_woken s)).
Proof using Hready.
  intros Hc Hs Hp N1 N2 N3 N4. apply Z.eqb_neq in N1, N2, N3, N4. unfold consoleintr, typed, echoed. rewrite N1, N2, N3, N4. cbn [orb].
  rewrite bind_run. cbn [gets]. rewrite cons_used by done. cbn [ready line cons_editor].
  destruct (negb (c =? 0) && _) eqn:Eg; cycle 1.
  { exists s. split; [done|]. split; [|done]. split; try done. by rewrite app_nil_r. }
  apply andb_prop in Eg as [_ Hlt]. apply Z.ltb_lt in Hlt.
  set (c' := if c =? 13 then newline else c). assert (Hc' : is_byte c') by (unfold c', is_byte, newline; case_match; lia).
  destruct (consputc_run c' s Hp) as (d & E & Hd). rewrite (bind_Ok _ _ _ _ _ E).
  rewrite (proj2 (Z.eqb_neq c' BACKSPACE)) in Hd by (unfold BACKSPACE, is_byte in *; lia). rewrite u8_small in Hd by done.
  rewrite bind_run, upd_cons_run. rewrite bind_run. cbn [gets con_cons lset console_uart].
  rewrite (u8_small c') by done. destruct (cons_append _ c' Hs Hc' Hlt) as (Ar & Al & Ab & Ac & AB).
  set (s1 := mk_cons _ _ _ _) in *. pose proof Hs as [_ _ Hr Hw He Hcnt Hn].
  rewrite Nat2Z.inj_add, length_ready, length_line in Hlt.
  assert (Hsum : rcount WMAX (c_r s1) (c_w s1) + rcount WMAX (c_w s1) (c_e s1) <= INPUT_BUF_SIZE)
    by (rewrite Ac; unfold INPUT_BUF_SIZE in *; cbn [c_r c_w s1]; lia).
  assert (Hfull : (u32 (c_e s1 - c_r s1) =? INPUT_BUF_SIZE) =
    (Z.of_nat (length (cons_ready (con_cons s)) + length (cons_line (con_cons s))) =? INPUT_BUF_SIZE - 1)).
  { change (u32 (c_e s1 - c_r s1)) with (rcount WMAX (c_r s1) (c_e s1)).
    rewrite (rcount_add WMAX ltac:(done) _ (c_w s1) (c_e s1)) by (unfold WMAX, INPUT_BUF_SIZE in *; lia).
    rewrite Ac, Nat2Z.inj_add, length_ready, length_line. cbn [c_r c_w s1].
    apply Bool.eq_iff_eq_true. rewrite !Z.eqb_eq. lia. }
  rewrite Hfull. destruct (_ || _) eqn:Eend.
  - destruct (cons_commit s1 Ab AB Hr (u32_range _) Hsum) as [W1 W2]. eexists. split; [reflexivity|]. split; [|done]. split; try done.
    rewrite Ar, Al in W2. exact W2.
  - eexists. split; [reflexivity|]. split; [|intros Hne; exfalso; apply Hne; exact Ar]. split; try done; [split; try done; [apply u32_range|]|].
    + change (newline ∉ cons_line s1). rewrite Al. intros [?|Hin]%elem_of_app; [done|]. apply list_elem_of_singleton in Hin. by rewrite <- Hin in Eend.
    + change (cons_editor s1 = mk_editor (cons_ready (con_cons s)) (cons_line (con_cons s) ++ [c'])).
      unfold cons_editor. by rewrite Ar, Al.
Qed.

(** (C27) Line editing: typing a character has exactly the effect of [typed]
    on the completed input and on the line being edited (backspace removes
    the last character of the line and never a completed one, control-U the
    whole line, carriage return counts as newline, a full buffer ignores
    input), the terminal shows what [echoed] says, the indices stay
    well-formed, and readers are woken whenever there is more to read. *)
Theorem consoleintr_edits c s :
  0 <= c < 256 -> cons_wf (con_cons s) -> u_panicked (con_uart s) = false ->
  exists s', consoleintr fuel c s = Ok (tt, s') /\
    input_step s s' (typed c (cons_editor (con_cons s))) (echoed c (cons_editor (con_cons s))) /\
    (cons_ready (con_cons s') <> cons_ready (con_cons s) -> con_woken s' = S (con_woken s)).
Proof using Hready.
  intros Hc Hs Hp. destruct (decide (c = ctrl_P)) as [->|N1].
  { eexists. split; [reflexivity|]. split; [|done]. split; try done. by rewrite app_nil_r. }
  destruct (decide (c = ctrl_U)) as [->|N2].
  { destruct (kill_line_run 129 s Hs Hp) as (s' & E & H').
    { pose proof (length_line (con_cons s)). pose proof (cw_count _ Hs). pose proof (rcount_range WMAX ltac:(done) (c_r (con_cons s)) (c_w (con_cons s))).
      unfold INPUT_BUF_SIZE in *. lia. }
    exists s'. split; [exact E|]. split; [exact H'|]. pose proof (is_editor _ _ _ _ H') as He. injection He as He _. by rewrite He. }
  destruct (decide (c = ctrl_H \/ c = 127)) as [Hbs|N3]; [|apply consoleintr_store; auto].
  assert (Eb : consoleintr (U := U) fuel c = (sc ← gets con_cons; if negb (c_e sc =? c_w sc) then erase fuel else mret tt)) by (destruct Hbs as [->| ->]; reflexivity).
  assert (Et : typed c (cons_editor (con_cons s)) = mk_editor (cons_ready (con_cons s)) (removelast (cons_line (con_cons s)))) by (destruct Hbs as [->| ->]; reflexivity).
  assert (Eo : echoed c (cons_editor (con_cons s)) = match cons_line (con_cons s) with [] => [] | _ => [8; 32; 8] end) by (destruct Hbs as [->| ->]; reflexivity).
  rewrite Eb, Et, Eo, bind_run. cbn [gets]. rewrite line_empty by done. destruct (cons_line (con_cons s)) as [|c0 l0 _] eqn:El using rev_ind.
  - exists s. split; [done|]. split; [|done]. split; try done; [unfold cons_editor; by rewrite El|by rewrite app_nil_r].
  - destruct (erase_run s c0 l0 Hs Hp El) as (s' & E & H'). rewrite removelast_last. exists s'.
    assert (forall (X : Type) (a b : X), (match l0 ++ [c0] with [] => a | _ => b end) = b) as Hm by by destruct l0. rewrite !Hm.
    split; [exact E|]. split; [exact H'|]. pose proof (is_editor _ _ _ _ H') as He. injection He as He _. by rewrite He.
Qed.

Lemma cons_take_run s c q :
  cons_wf (con_cons s) -> cons_ready (con_cons s) = c :: q ->
  exists s', cons_take s = Ok (c, s') /\ cons_wf (con_cons s') /\ cons_ready (con_cons s') = q /\
    cons_line (con_cons s') = cons_line (con_cons s) /\ con_um s' = con_um s /\ is_byte c /\
    u32 (c_r (con_cons s') - 1) = c_r (con_cons s) /\
    c_buf (con_cons s') = c_buf (con_cons s) /\ c_w (con_cons s') = c_w (con_cons s) /\ c_e (con_cons s') = c_e (con_cons s).
Proof.
  intros Hs Eq. pose proof Hs as [Hb HB Hr Hw He Hc Hn]. pose proof (length_ready (con_cons s)) as Hl. rewrite Eq in Hl. simpl in Hl.
  pose proof (rqueue_pop INPUT_BUF_SIZE WMAX ltac:(done) ltac:(done) SIZE_divides (c_buf (con_cons s)) (c_r (con_cons s)) (c_w (con_cons s)) ltac:(lia)) as Hq.
  fold (cons_ready (con_cons s)) in Hq. rewrite Eq in Hq. injection Hq as Hq1 Hq2.
  assert (HF : Forall is_byte (cons_ready (con_cons s))) by (by apply rqueue_Forall). rewrite Eq in HF.
  eexists. split; [unfold cons_take; by rewrite <- Hq1|]. cbn [con_cons con_um c_buf c_r c_w c_e].
  split_and!; try done.
  - split; try done; [apply u32_range|]. change (u32 (c_r (con_cons s) + 1)) with ((c_r (con_cons s) + 1) mod WMAX). cbn [c_r c_w c_e].
    rewrite rcount_pop by lia. lia.
  - by apply Forall_cons in HF as [? _].
  - unfold WMAX in *. word_lia.
Qed.

(** [bs] is in user memory at [dst], the rest is unchanged. *)
Definition delivered (u u' : U) (dst : Z) (bs : list Z) : Prop :=
  um_inv u' /\ (forall x, um_writable u' x = um_writable u x) /\
  forall x, um_byte u' x = if (dst <=? x) && (x <? dst + Z.of_nat (length bs)) then bs !! Z.to_nat (x - dst) else um_byte u x.

Lemma delivered_cons u u1 u2 dst c bs :
  delivered u u1 dst [c] -> delivered u1 u2 (dst + 1) bs -> delivered u u2 dst (c :: bs).
Proof.
  intros (I1 & W1 & B1) (I2 & W2 & B2). split_and!; [done|intros x; by rewrite W2, W1|]. intros x. rewrite B2, B1.
  cbn [length]. destruct (decide (x = dst)) as [->|Hne].
  - rewrite Z.sub_diag. by case_bool; try lia.
  - case_bool; try lia; try done. replace (Z.to_nat (x - dst)) with (S (Z.to_nat (x - (dst + 1)))) by lia. done.
Qed.

Lemma delivered_nil u dst : um_inv u -> delivered u u dst [].
Proof. intros Hi. split_and!; try done. intros x. simpl. by case_bool; try lia. Qed.

Lemma copyout_byte s dst c :
  um_inv (con_um s) -> 0 <= dst < 2 ^ 64 -> is_byte c -> um_writable (con_um s) dst = true ->
  exists u', zoom (um_copyout dst [c]) s = Ok (0, lset u' s) /\ delivered (con_um s) u' dst [c].
Proof.
  intros Hi Hd Hc Hw. destruct (um_copyout_ok (con_um s) dst [c] Hi Hd (Forall_cons_2 _ _ _ Hc (Forall_nil_2 _))) as (r & u' & k & E & I' & W' & _ & B' & Hr).
  unfold zoom. cbn [lget console_um]. rewrite E. destruct Hr as [[-> ->]|(_ & Hk & Hnw)].
  - exists u'. split; [done|]. split_and!; done.
  - exfalso. simpl in Hk. assert (k = O) as -> by lia. rewrite Z.add_0_r in Hnw. congruence.
Qed.

Lemma done_eq (x y : Z) s : x = y -> Ok (ReadDone x, s) = Ok (ReadDone y, s).
Proof. by intros ->. Qed.

Lemma consoleread_loop_run killed target k : forall s dst,
  cons_wf (con_cons s) -> um_inv (con_um s) -> 0 <= dst -> dst + Z.of_nat k < 2 ^ 64 -> Z.of_nat k <= target ->
  (forall i, 0 <= i < Z.of_nat k -> um_writable (con_um s) (dst + i) = true) ->
  exists s', cons_wf (con_cons s') /\ cons_line (con_cons s') = cons_line (con_cons s) /\
  match read_line (Z.of_nat k =? target) k (cons_ready (con_cons s)) with
  | Some (bs, q) =>
      consoleread_loop k killed target dst (Z.of_nat k) s = Ok (ReadDone (target - Z.of_nat k + Z.of_nat (length bs)), s') /\
      cons_ready (con_cons s') = q /\ delivered (con_um s) (con_um s') dst bs
  | None =>
      let bs := cons_ready (con_cons s) in
      consoleread_loop k killed target dst (Z.of_nat k) s =
        Ok (if killed then ReadDone (-1) else ReadSleeps (dst + Z.of_nat (length bs)) (Z.of_nat k - Z.of_nat (length bs)), s') /\
      cons_ready (con_cons s') = [] /\ delivered (con_um s) (con_um s') dst bs
  end.
Proof.
  induction k as [|k IH]; intros s dst Hs Hu Hd Hk Ht Hw; cbn [consoleread_loop read_line].
  { exists s. split_and!; try done; [|by apply delivered_nil]. refine (done_eq _ _ _ _); simpl; lia. }
  rewrite bind_run. cbn [gets]. rewrite ready_empty by done. destruct (cons_ready (con_cons s)) as [|c q] eqn:Eq.
  { exists s. split_and!; try done; [|by apply delivered_nil]. simpl. rewrite Z.add_0_r, Z.sub_0_r. by destruct killed. }
  destruct (cons_take_run s c q Hs Eq) as (s1 & E1 & Hs1 & Er1 & El1 & Eu1 & Hc & Eback & Eb & Ew & Ee).
  rewrite (bind_Ok _ _ _ _ _ E1). destruct (Z.eqb_spec c ctrl_D).
  { destruct (Z.eqb_spec (Z.of_nat (S k)) target) as [Et|Et].
    - exists s1. rewrite (proj2 (Z.ltb_ge _ _)) by lia. split_and!; try done.
      + refine (done_eq _ _ _ _); simpl; lia.
      + rewrite Eu1. by apply delivered_nil.
    - eexists. rewrite (proj2 (Z.ltb_lt _ _)) by lia. rewrite bind_run, upd_cons_run.
      assert (Econs : mk_cons (c_buf (con_cons s1)) (u32 (c_r (con_cons s1) - 1)) (c_w (con_cons s1)) (c_e (con_cons s1)) = con_cons s)
        by (rewrite Eback, Eb, Ew, Ee; by destruct (con_cons s)).
      rewrite Econs. cbn [con_cons con_um]. split_and!; [| |refine (done_eq _ _ _ _); simpl; lia| |]; try done.
      rewrite Eu1. by apply delivered_nil. }
  destruct (copyout_byte s1 dst c) as (u' & E2 & Hdel); [by rewrite Eu1|lia|done|rewrite Eu1, <- (Z.add_0_r dst); apply Hw; lia|].
  rewrite (bind_Ok _ _ _ _ _ E2). change (0 =? -1) with false. cbv iota. destruct (Z.eqb_spec c newline).
  { exists (lset u' s1). rewrite Eu1 in Hdel. split_and!; try done. refine (done_eq _ _ _ _); simpl; lia. }
  destruct (IH (lset u' s1) (dst + 1)) as (s' & Hs' & El' & Hrest); [done|apply Hdel|lia|lia|lia| |].
  { intros i Hi. cbn [con_um lset console_um]. rewrite (proj1 (proj2 Hdel)), Eu1. replace (dst + 1 + i) with (dst + (1 + i)) by lia. apply Hw. lia. }
  exists s'. split; [done|]. split; [by rewrite El', <- El1|]. rewrite (u64_small (dst + 1)) by lia.
  replace (Z.of_nat (S k) - 1) with (Z.of_nat k) by lia. rewrite (proj2 (Z.eqb_neq (Z.of_nat k) target)) in Hrest by lia.
  cbn [con_cons lset console_um con_um] in Hrest. rewrite Er1, Eu1 in *. destruct (read_line false k q) as [[bs rest]|].
  - destruct Hrest as (E3 & Hq & Hdel2). split_and!; [|done|by eapply delivered_cons]. refine (eq_trans E3 _). apply done_eq. cbn [length]. lia.
  - destruct Hrest as (E3 & Hq & Hdel2). split_and!; [|done|by eapply delivered_cons]. refine (eq_trans E3 _). destruct killed; [done|]. cbn [length]. rewrite !Nat2Z.inj_succ. do 3 f_equal; lia.
Qed.

(** consoleread into a writable buffer delivers one line at a time, in
    the order typed: up to [n] bytes of the completed input, through the first
    newline, or up to an end-of-file mark, which is consumed only by a read
    that returns 0; what is not delivered stays for the next read, the line
    being edited is untouched, and the reader sleeps only after delivering all
    of the completed input. *)
Theorem consoleread_lines killed s dst n :
  cons_wf (con_cons s) -> um_inv (con_um s) -> 0 <= dst -> 0 <= n -> dst + n < 2 ^ 64 ->
  (forall i, 0 <= i < n -> um_writable (con_um s) (dst + i) = true) ->
  exists s', cons_wf (con_cons s') /\ cons_line (con_cons s') = cons_line (con_cons s) /\
  match read_line true (Z.to_nat n) (cons_ready (con_cons s)) with
  | Some (bs, q) =>
      consoleread killed dst n s = Ok (ReadDone (Z.of_nat (length bs)), s') /\
      cons_ready (con_cons s') = q /\ delivered (con_um s) (con_um s') dst bs
  | None =>
      let bs := cons_ready (con_cons s) in
      consoleread killed dst n s =
        Ok (if killed then ReadDone (-1) else ReadSleeps (dst + Z.of_nat (length bs)) (n - Z.of_nat (length bs)), s') /\
      cons_ready (con_cons s') = [] /\ delivered (con_um s) (con_um s') dst bs
  end.
Proof.
  intros Hs Hu Hd Hn Hlt Hw. destruct (consoleread_loop_run killed n (Z.to_nat n) s dst Hs Hu Hd) as (s' & H1' & H2' & H3');
    [lia|lia|intros i Hi; apply Hw; lia|]. exists s'. split_and!; [done|done|].
  unfold consoleread. rewrite Z2Nat.id in H3' by done. rewrite Z.eqb_refl, Z.sub_diag in H3'. exact H3'.
Qed.

End console_proofs.

Lemma fast_responds : responds (D := fast) 1.
Proof. intros u. exists u. unfold wait_idle. rewrite bind_run. unfold ReadLSR. simpl. destruct (fa_rx (u_dev u)); by destruct u. Qed.

(** "hi", newline and "ab" typed, with the counters about to wrap around. *)
Definition demo_cons : cons :=
  mk_cons (<[126%nat := 104]> (<[127%nat := 105]> (<[0%nat := 10]> (<[1%nat := 97]> (<[2%nat := 98]> (replicate 128 0))))))
    4294967294 1 3.

Definition demo_console : console fast flat :=
  mk_console demo_cons demo_uart (mk_flat (list_to_map [(500, 0); (501, 0); (502, 0); (503, 0)])) 0 0.

Lemma demo_cons_wf : cons_wf demo_cons.
Proof.
  split; try done; [repeat constructor; done|]. vm_compute. intros Hin.
  repeat (apply elem_of_cons in Hin as [?|Hin]; [done|]). by apply elem_of_nil in Hin.
Qed.

Lemma consoleintr_edits_witness :
  exists s', consoleintr 1 127 demo_console = Ok (tt, s') /\
    cons_editor (con_cons s') = mk_editor [104; 105; 10] [97] /\ con_sent s' = [8; 32; 8].
Proof.
  destruct (consoleintr_edits 1 fast_responds 127 demo_console) as (s' & E & [_ He Ho _ _] & _); [lia|apply demo_cons_wf|done|].
  exists s'. split; [exact E|]. split; [exact He|exact Ho].
Defined.

Lemma consoleread_lines_witness :
  exists s', consoleread false 500 4 demo_console = Ok (ReadDone 3, s') /\
    um_byte (con_um s') 501 = Some 105 /\ cons_line (con_cons s') = [97; 98].
Proof.
  destruct (consoleread_lines false demo_console 500 4) as (s' & _ & Hl & E & _ & _ & _ & Hb);
    [apply demo_cons_wf|done|lia|lia|lia| |].
  { intros i Hi. assert (i = 0 \/ i = 1 \/ i = 2 \/ i = 3) as [->|[->|[->| ->]]] by lia; reflexivity. }
  exists s'. split; [exact E|]. split; [rewrite Hb; reflexivity|exact Hl].
Defined.
