(* ===== verification/File.v ===== *)
(** kernel/file.c, kernel/pipe.c (pipealloc): open files.

    A file pointer is the index of its slot in ftable plus one, 0 is a null
    pointer; a pipe pointer is the address of the pipe's page.  A call runs
    until it returns or sleeps in a pipe or device ([Asleep]). *)

From S2P Require Import Prelude Memory Riscv Kalloc UserMem Bytes Refine Cache Bio Log Blocks Fs FsDir RingBuf Pipe Uart Console.

(** kalloc and kfree, for the pages of pipes. *)
Class PageMem (U : Type) := {
  pg_alloc : M U Z;
  pg_free : Z -> M U unit;
}.

#[global] Instance uspace_mem : Lens uspace pmem := {|
  lget := us_mem;
  lset m u := mk_uspace m (us_root u);
|}.

#[global] Instance uspace_PageMem `{KernelImage} : PageMem uspace := {|
  pg_alloc := zoom kalloc;
  pg_free pa := zoom (kfree pa);
|}.

(** devsw[]: what the drivers of a major number do, if there is one; the
    running process may be killed. *)
Class DevSw (V U : Type) := {
  dev_read : Z -> option (bool -> Z -> Z -> M (V * U) progress);
  dev_write : Z -> option (Z -> Z -> M (V * U) progress);
}.

Definition CONSOLE : Z := 1.

(** The console and the serial port, without the user memory. *)
Definition tty (D : Type) : Type := cons * uart D * nat * nat.

#[global] Instance tty_console {D U} : Lens (tty D * U) (console D U) := {|
  lget s := let '(c, u, w, d, m) := s in mk_console c u m w d;
  lset k _ := (con_cons k, con_uart k, con_woken k, con_dumps k, con_um k);
|}.

(** consoleinit(): devsw[CONSOLE].read = consoleread; ... *)
#[global] Instance console_DevSw {D U} `{UartDev D} `{UserMem U} : DevSw (tty D) U := {|
  dev_read mj := if mj =? CONSOLE then Some (fun killed addr n =>
      r ← zoom (consoleread killed addr n);
      match r with ReadDone r => mret (Finished r) | ReadSleeps _ n => mret (Asleep n) end) else None;
  dev_write mj := if mj =? CONSOLE then Some (fun addr n =>
      r ← zoom (consolewrite addr n);
      match r with WriteDone r => mret (Finished r) | WriteSleeps i _ => mret (Asleep i) end) else None;
|}.

Inductive fdtype := FD_NONE | FD_PIPE | FD_INODE | FD_DEVICE.

#[global] Instance fdtype_eq : EqDecision fdtype.
Proof. solve_decision. Defined.

Record file := mk_file {
  fl_type : fdtype;
  fl_ref : Z;
  fl_readable : bool;
  fl_writable : bool;
  fl_pipe : Z;
  fl_ip : Z;
  fl_off : Z;
  fl_major : Z;
}.

Definition zero_file : file := mk_file FD_NONE 0 false false 0 0 0 0.
#[global] Instance file_inhabited : Inhabited file := populate zero_file.

Definition set_ref r f := mk_file (fl_type f) r (fl_readable f) (fl_writable f) (fl_pipe f) (fl_ip f) (fl_off f) (fl_major f).
Definition set_type t f := mk_file t (fl_ref f) (fl_readable f) (fl_writable f) (fl_pipe f) (fl_ip f) (fl_off f) (fl_major f).
Definition set_mode r w f := mk_file (fl_type f) (fl_ref f) r w (fl_pipe f) (fl_ip f) (fl_off f) (fl_major f).
Definition set_pipe p f := mk_file (fl_type f) (fl_ref f) (fl_readable f) (fl_writable f) p (fl_ip f) (fl_off f) (fl_major f).
Definition set_ip i f := mk_file (fl_type f) (fl_ref f) (fl_readable f) (fl_writable f) (fl_pipe f) i (fl_off f) (fl_major f).
Definition set_off o f := mk_file (fl_type f) (fl_ref f) (fl_readable f) (fl_writable f) (fl_pipe f) (fl_ip f) o (fl_major f).
Definition set_major m f := mk_file (fl_type f) (fl_ref f) (fl_readable f) (fl_writable f) (fl_pipe f) (fl_ip f) (fl_off f) m.

(** ftable, the pipes, the devices and the file system. *)
Record flayer (S U V : Type) := mk_flayer {
  fs_fs : fs S U;
  fs_file : list file;
  fs_pipe : gmap Z pipe;
  fs_dev : V;
  fs_woken : list (Z * pchan);
}.
Arguments mk_flayer {S U V} _ _ _ _ _.
Arguments fs_fs {S U V} _.
Arguments fs_file {S U V} _.
Arguments fs_pipe {S U V} _.
Arguments fs_dev {S U V} _.
Arguments fs_woken {S U V} _.

#[global] Instance files_fs {S U V} : Lens (flayer S U V) (fs S U) := {|
  lget := fs_fs;
  lset x s := mk_flayer x (fs_file s) (fs_pipe s) (fs_dev s) (fs_woken s);
|}.

#[global] Instance files_um {S U V} : Lens (flayer S U V) U := {|
  lget s := f_um (fs_fs s);
  lset u s := mk_flayer (mk_fs (f_blk (fs_fs s)) u (f_sb (fs_fs s)) (f_itable (fs_fs s))) (fs_file s) (fs_pipe s) (fs_dev s) (fs_woken s);
|}.

#[global] Instance files_dev {S U V} : Lens (flayer S U V) (V * U) := {|
  lget s := (fs_dev s, f_um (fs_fs s));
  lset x s := mk_flayer (mk_fs (f_blk (fs_fs s)) x.2 (f_sb (fs_fs s)) (f_itable (fs_fs s))) (fs_file s) (fs_pipe s) x.1 (fs_woken s);
|}.

(** struct stat; [pad] are the bytes between nlink and size, which nothing
    sets. *)
Definition stat_bytes (pad : list Z) (st : stat) : list Z :=
  bytes_le 4 (st_dev st) ++ bytes_le 4 (st_ino st) ++ bytes_le 2 (st_type st) ++ bytes_le 2 (st_nlink st) ++ pad ++ bytes_le 8 (st_size st).

Section file.
Context {S U V : Type} `{BlockLayer S} `{UserMem U} `{PageMem U} `{DevSw V U}.
#[local] Abbreviation MF := (M (flayer S U V)).

(** The pid of the calling process and whether it has been killed. *)
Variables (me : Z) (killed : bool).

Definition getf (f : Z) : MF file := gets (fun s => fs_file s !!! Z.to_nat (f - 1)).
Definition updf (f : Z) (g : file -> file) : MF unit :=
  modify (fun s => mk_flayer (fs_fs s) (alter g (Z.to_nat (f - 1)) (fs_file s)) (fs_pipe s) (fs_dev s) (fs_woken s)).
Definition in_fs {A} (m : M (fs S U) A) : MF A := zoom m.

(** A call of pipe.c on the pipe at [pi]. *)
Definition in_pipe {A} (pi : Z) (m : M (pst U) A) : MF A := fun s =>
  match fs_pipe s !! pi with
  | None => Panic "not a pipe"
  | Some p =>
      match m (mk_pst p (f_um (fs_fs s)) []) with
      | Ok (a, r) =>
          let s : flayer S U V := lset (p_um r) s in
          Ok (a, mk_flayer (fs_fs s) (fs_file s) (<[pi := p_pipe r]> (fs_pipe s)) (fs_dev s) (fs_woken s ++ ((fun c => (pi, c)) <$> p_woken r)))
      | Panic e => Panic e
      end
  end.

Definition op_begin : MF unit := in_fs (blk_op bl_begin).
Definition op_end : MF unit := in_fs (blk_op bl_end).

Definition filealloc : MF Z :=
  l ← gets fs_file;
  match list_find (fun f => fl_ref f = 0) l with
  | Some (i, _) => updf (Z.of_nat i + 1) (set_ref 1);; mret (Z.of_nat i + 1)
  | None => mret 0
  end.

Definition filedup (f : Z) : MF Z :=
  x ← getf f;
  if fl_ref x <? 1 then panic "filedup"
  else updf f (set_ref (s32 (fl_ref x + 1)));; mret f.

(** pipeclose(pi, writable), and the page is freed with the second end. *)
Definition close_pipe (pi : Z) (writable : bool) : MF unit :=
  last ← in_pipe pi (pipeclose writable);
  if (last : bool) then
    modify (fun s => mk_flayer (fs_fs s) (fs_file s) (delete pi (fs_pipe s)) (fs_dev s) (fs_woken s));;
    zoom (pg_free pi)
  else mret tt.

Definition fileclose (f : Z) : MF unit :=
  x ← getf f;
  if fl_ref x <? 1 then panic "fileclose"
  else if 0 <? s32 (fl_ref x - 1) then updf f (set_ref (s32 (fl_ref x - 1)))
  else
    let ff := x in
    updf f (fun x => set_type FD_NONE (set_ref 0 x));;
    match fl_type ff with
    | FD_PIPE => close_pipe (fl_pipe ff) (fl_writable ff)
    | FD_INODE | FD_DEVICE => op_begin;; in_fs (iput me (fl_ip ff));; op_end
    | FD_NONE => mret tt
    end.

Definition filestat (pad : list Z) (f addr : Z) : MF Z :=
  x ← getf f;
  match fl_type x with
  | FD_INODE | FD_DEVICE =>
      in_fs (ilock me (fl_ip x));;
      st ← in_fs (stati (fl_ip x));
      in_fs (iunlock me (fl_ip x));;
      r ← zoom (um_copyout addr (stat_bytes pad st));
      if r <? 0 then mret (-1) else mret 0
  | _ => mret (-1)
  end.

Definition fileread (f addr n : Z) : MF progress :=
  x ← getf f;
  if negb (fl_readable x) then mret (Finished (-1))
  else
    match fl_type x with
    | FD_PIPE => in_pipe (fl_pipe x) (piperead killed addr n)
    | FD_DEVICE =>
        if (fl_major x <? 0) || (NDEV <=? fl_major x) then mret (Finished (-1))
        else
          match dev_read (fl_major x) with
          | None => mret (Finished (-1))
          | Some rd => zoom (rd killed addr n)
          end
    | FD_INODE =>
        in_fs (ilock me (fl_ip x));;
        r ← in_fs (readi (fl_ip x) true addr (fl_off x) (u32 n));
        (if 0 <? r.1 then updf f (set_off (u32 (fl_off x + r.1))) else mret tt);;
        in_fs (iunlock me (fl_ip x));;
        mret (Finished r.1)
    | FD_NONE => panic "fileread"
    end.

(** ((MAXOPBLOCKS-1-1-2) / 2) * BSIZE *)
Definition write_max : Z := (MAXOPBLOCKS - 1 - 1 - 2) / 2 * BSIZE.

(** while(i < n): returns i *)
Fixpoint filewrite_loop (fuel : nat) (f addr n i : Z) : MF Z :=
  match fuel with
  | O => panic "out of fuel"
  | Datatypes.S fuel =>
      if i <? n then
        let n1 := if write_max <? n - i then write_max else n - i in
        op_begin;;
        x ← getf f;
        in_fs (ilock me (fl_ip x));;
        r ← in_fs (writei (fl_ip x) true (u64 (addr + i)) [] (fl_off x) n1);
        (if 0 <? r then updf f (set_off (u32 (fl_off x + r))) else mret tt);;
        in_fs (iunlock me (fl_ip x));;
        op_end;;
        if negb (r =? n1) then mret i else filewrite_loop fuel f addr n (i + r)
      else mret i
  end.

Definition filewrite (f addr n : Z) : MF progress :=
  x ← getf f;
  if negb (fl_writable x) then mret (Finished (-1))
  else
    match fl_type x with
    | FD_PIPE => in_pipe (fl_pipe x) (pipewrite (fun _ => killed) addr n)
    | FD_DEVICE =>
        if (fl_major x <? 0) || (NDEV <=? fl_major x) then mret (Finished (-1))
        else
          match dev_write (fl_major x) with
          | None => mret (Finished (-1))
          | Some wr => zoom (wr addr n)
          end
    | FD_INODE =>
        i ← filewrite_loop (Z.to_nat (n / write_max + 2)) f addr n 0;
        mret (Finished (if i =? n then n else -1))
    | FD_NONE => panic "filewrite"
    end.

(** The two files, or None after undoing the work. *)
Definition pipealloc : MF (option (Z * Z)) :=
  f0 ← filealloc;
  f1 ← (if f0 =? 0 then mret 0 else filealloc);
  pi ← (if (f0 =? 0) || (f1 =? 0) then mret 0 else zoom pg_alloc);
  if (f0 =? 0) || (f1 =? 0) || (pi =? 0) then
    (if negb (f0 =? 0) then fileclose f0 else mret tt);;
    (if negb (f1 =? 0) then fileclose f1 else mret tt);;
    mret None
  else
    modify (fun s => mk_flayer (fs_fs s) (fs_file s) (<[pi := pipe_init (replicate 512 5)]> (fs_pipe s)) (fs_dev s) (fs_woken s));;
    updf f0 (fun f => set_pipe pi (set_mode true false (set_type FD_PIPE f)));;
    updf f1 (fun f => set_pipe pi (set_mode false true (set_type FD_PIPE f)));;
    mret (Some (f0, f1)).

End file.
