(* ===== verification/Sysfile.v ===== *)
(** kernel/sysfile.c (but sys_exec) and the argument access of
    kernel/syscall.c: the system calls on files.

    [args] are the registers a0 .. a5 of the trapframe.  The state is the file
    layer and the two fields of struct proc that the calls use. *)

From S2P Require Import Prelude Memory Riscv Kalloc Vm UserMem Bytes Refine Cache Bio Log Blocks Fs FsDir Pipe File.


(** copyinstr of the running process: the result and the bytes stored. *)
Class UserStr (U : Type) := {
  um_copyinstr : Z -> Z -> M U (Z * list Z);
}.

#[global] Instance uspace_UserStr `{KernelImage} : UserStr uspace := {|
  um_copyinstr a max := fun u =>
    match copyinstr (us_root u) a max (us_mem u) with
    | Ok (r, s) => Ok (r, mk_uspace s (us_root u))
    | Panic e => Panic e
    end;
|}.

(** The file layer, and ofile and cwd of the calling process; cwd is an index
    of the inode table plus one. *)
Record sys (S U V : Type) := mk_sys {
  sy_files : flayer S U V;
  sy_ofile : list Z;
  sy_cwd : Z;
}.
Arguments mk_sys {S U V} _ _ _.
Arguments sy_files {S U V} _.
Arguments sy_ofile {S U V} _.
Arguments sy_cwd {S U V} _.

#[global] Instance sys_files {S U V} : Lens (sys S U V) (flayer S U V) := {|
  lget := sy_files;
  lset x s := mk_sys x (sy_ofile s) (sy_cwd s);
|}.

Definition is_set (x bit : Z) : bool := negb (Z.land x bit =? 0).

(** "." and ".." *)
Definition dot : list Z := [46].
Definition dotdot : list Z := [46; 46].

Section sysfile.
Context {S U V : Type} `{BlockLayer S} `{UserMem U} `{PageMem U} `{DevSw V U} `{UserStr U}.
#[local] Abbreviation MS := (M (sys S U V)).
Variables (me : Z) (killed : bool) (args : list Z).

Definition in_files {A} (m : M (flayer S U V) A) : MS A := zoom m.
Definition ifs {A} (m : M (fs S U) A) : MS A := in_files (in_fs m).
Definition user {A} (m : M U A) : MS A := in_files (zoom m).
Definition set_fd (fd f : Z) : MS unit :=
  modify (fun s => mk_sys (sy_files s) (<[Z.to_nat fd := f]> (sy_ofile s)) (sy_cwd s)).

(** ** Arguments *)

Definition argraw (n : nat) : MS Z :=
  if decide (n < 6)%nat then mret (args !!! n) else panic "argraw".
Definition argint (n : nat) : MS Z := x ← argraw n; mret (s32 x).
Definition argaddr (n : nat) : MS Z := argraw n.

(** The length of the string and the string. *)
Definition fetchstr (addr max : Z) : MS (Z * list Z) :=
  r ← user (um_copyinstr addr max);
  if r.1 <? 0 then mret (-1, []) else mret (Z.of_nat (length (cstr r.2)), cstr r.2).

Definition argstr (n : nat) (max : Z) : MS (Z * list Z) :=
  addr ← argaddr n; fetchstr addr max.

(** The descriptor and its file. *)
Definition argfd (n : nat) : MS (option (Z * Z)) :=
  fd ← argint n;
  s ← gets sy_ofile;
  if (fd <? 0) || (NOFILE <=? fd) || (s !!! Z.to_nat fd =? 0) then mret None
  else mret (Some (fd, s !!! Z.to_nat fd)).

Definition fdalloc (f : Z) : MS Z :=
  s ← gets sy_ofile;
  match list_find (fun g => g = 0) s with
  | Some (i, _) => set_fd (Z.of_nat i) f;; mret (Z.of_nat i)
  | None => mret (-1)
  end.

(** ** Descriptors *)

Definition sys_dup : MS Z :=
  a ← argfd 0;
  match a with
  | None => mret (-1)
  | Some (_, f) =>
      fd ← fdalloc f;
      if fd <? 0 then mret (-1) else in_files (filedup f);; mret fd
  end.

Definition sys_read : MS progress :=
  p ← argaddr 1;
  n ← argint 2;
  a ← argfd 0;
  match a with
  | None => mret (Finished (-1))
  | Some (_, f) => in_files (fileread me killed f p n)
  end.

Definition sys_write : MS progress :=
  p ← argaddr 1;
  n ← argint 2;
  a ← argfd 0;
  match a with
  | None => mret (Finished (-1))
  | Some (_, f) => in_files (filewrite me killed f p n)
  end.

Definition sys_close : MS Z :=
  a ← argfd 0;
  match a with
  | None => mret (-1)
  | Some (fd, f) => set_fd fd 0;; in_files (fileclose me f);; mret 0
  end.

Definition sys_fstat (pad : list Z) : MS Z :=
  st ← argaddr 1;
  a ← argfd 0;
  match a with
  | None => mret (-1)
  | Some (_, f) => in_files (filestat me pad f st)
  end.

(** ** Path names *)

Definition nmi (path : list Z) : MS (option Z) := s ← gets sy_cwd; ifs (namei me (s - 1) path).
Definition nmiparent (path : list Z) : MS (option Z * list Z) := s ← gets sy_cwd; ifs (nameiparent me (s - 1) path).
Definition bop : MS unit := in_files op_begin.
Definition eop : MS unit := in_files op_end.

(** bad: of sys_link *)
Definition link_bad (ip : Z) : MS Z :=
  ifs (ilock me ip);;
  ifs (updi ip (fun x => set_i_nlink (s16 (i_nlink x - 1)) x));;
  ifs (iupdate ip);;
  ifs (iunlockput me ip);;
  eop;;
  mret (-1).

Definition sys_link : MS Z :=
  o ← argstr 0 MAXPATH;
  if o.1 <? 0 then mret (-1)
  else
    n ← argstr 1 MAXPATH;
    if n.1 <? 0 then mret (-1)
    else
      bop;;
      ip ← nmi o.2;
      match ip with
      | None => eop;; mret (-1)
      | Some ip =>
          ifs (ilock me ip);;
          x ← ifs (geti ip);
          if i_type x =? T_DIR then ifs (iunlockput me ip);; eop;; mret (-1)
          else
            ifs (updi ip (fun x => set_i_nlink (s16 (i_nlink x + 1)) x));;
            ifs (iupdate ip);;
            ifs (iunlock me ip);;
            d ← nmiparent n.2;
            match d.1 with
            | None => link_bad ip
            | Some dp =>
                ifs (ilock me dp);;
                y ← ifs (geti dp);
                x ← ifs (geti ip);
                r ← (if negb (i_dev y =? i_dev x) then mret (-1) else ifs (dirlink me dp d.2 (i_inum x)));
                if r <? 0 then ifs (iunlockput me dp);; link_bad ip
                else
                  ifs (iunlockput me dp);;
                  ifs (iput me ip);;
                  eop;;
                  mret 0
            end
      end.

(** for(off=2*sizeof(de); off<dp->size; off+=sizeof(de)) *)
Fixpoint isdirempty_loop (k : nat) (dp off : Z) : MS bool :=
  match k with
  | O => panic "out of fuel"
  | Datatypes.S k =>
      x ← ifs (geti dp);
      if off <? i_size x then
        r ← ifs (readi dp false 0 off sizeof_dirent);
        if negb (r.1 =? sizeof_dirent) then panic "isdirempty: readi"
        else if negb (de_inum r.2 =? 0) then mret false
        else isdirempty_loop k dp (off + sizeof_dirent)
      else mret true
  end.

Definition isdirempty (dp : Z) : MS bool :=
  x ← ifs (geti dp);
  isdirempty_loop (dir_fuel (i_size x)) dp (2 * sizeof_dirent).

(** bad: of sys_unlink *)
Definition unlink_bad (dp : Z) : MS Z := ifs (iunlockput me dp);; eop;; mret (-1).

Definition sys_unlink : MS Z :=
  p ← argstr 0 MAXPATH;
  if p.1 <? 0 then mret (-1)
  else
    bop;;
    d ← nmiparent p.2;
    match d.1 with
    | None => eop;; mret (-1)
    | Some dp =>
        ifs (ilock me dp);;
        if (namecmp d.2 dot =? 0) || (namecmp d.2 dotdot =? 0) then unlink_bad dp
        else
          e ← ifs (dirlookup dp d.2);
          match e with
          | None => unlink_bad dp
          | Some (ip, off) =>
              ifs (ilock me ip);;
              x ← ifs (geti ip);
              if i_nlink x <? 1 then panic "unlink: nlink < 1"
              else
                empty ← (if i_type x =? T_DIR then isdirempty ip else mret true);
                if negb empty then ifs (iunlockput me ip);; unlink_bad dp
                else
                  w ← ifs (writei dp false 0 (replicate 16 0) off sizeof_dirent);
                  if negb (w =? sizeof_dirent) then panic "unlink: writei"
                  else
                    x ← ifs (geti ip);
                    (if i_type x =? T_DIR then
                       ifs (updi dp (fun y => set_i_nlink (s16 (i_nlink y - 1)) y));; ifs (iupdate dp)
                     else mret tt);;
                    ifs (iunlockput me dp);;
                    ifs (updi ip (fun y => set_i_nlink (s16 (i_nlink y - 1)) y));;
                    ifs (iupdate ip);;
                    ifs (iunlockput me ip);;
                    eop;;
                    mret 0
          end
    end.

(** fail: of create *)
Definition create_fail (ip dp : Z) : MS (option Z) :=
  ifs (updi ip (set_i_nlink 0));;
  ifs (iupdate ip);;
  ifs (iunlockput me ip);;
  ifs (iunlockput me dp);;
  mret None.

Definition create (path : list Z) (type major minor : Z) : MS (option Z) :=
  d ← nmiparent path;
  match d.1 with
  | None => mret None
  | Some dp =>
      ifs (ilock me dp);;
      e ← ifs (dirlookup dp d.2);
      match e with
      | Some (ip, _) =>
          ifs (iunlockput me dp);;
          ifs (ilock me ip);;
          x ← ifs (geti ip);
          if (type =? T_FILE) && ((i_type x =? T_FILE) || (i_type x =? T_DEVICE)) then mret (Some ip)
          else ifs (iunlockput me ip);; mret None
      | None =>
          y ← ifs (geti dp);
          a ← ifs (ialloc (i_dev y) type);
          match a with
          | None => ifs (iunlockput me dp);; mret None
          | Some ip =>
              ifs (ilock me ip);;
              ifs (updi ip (fun x => set_i_nlink 1 (set_i_dev major minor x)));;
              ifs (iupdate ip);;
              x ← ifs (geti ip);
              y ← ifs (geti dp);
              r ← (if type =? T_DIR then
                     r1 ← ifs (dirlink me ip dot (i_inum x));
                     if r1 <? 0 then mret (-1) else ifs (dirlink me ip dotdot (i_inum y))
                   else mret 0);
              if r <? 0 then create_fail ip dp
              else
                r ← ifs (dirlink me dp d.2 (i_inum x));
                if r <? 0 then create_fail ip dp
                else
                  (if type =? T_DIR then
                     ifs (updi dp (fun y => set_i_nlink (s16 (i_nlink y + 1)) y));; ifs (iupdate dp)
                   else mret tt);;
                  ifs (iunlockput me dp);;
                  mret (Some ip)
          end
      end
  end.

Definition open_bad (ip : Z) : MS Z := ifs (iunlockput me ip);; eop;; mret (-1).

(** The rest of sys_open, with the inode locked. *)
Definition open_inode (ip omode : Z) : MS Z :=
  x ← ifs (geti ip);
  if (i_type x =? T_DEVICE) && ((i_major x <? 0) || (NDEV <=? i_major x)) then open_bad ip
  else
    f ← in_files filealloc;
    fd ← (if f =? 0 then mret (-1) else fdalloc f);
    if fd <? 0 then
      (if negb (f =? 0) then in_files (fileclose me f) else mret tt);;
      open_bad ip
    else
      (if i_type x =? T_DEVICE then in_files (updf f (fun y => set_major (i_major x) (set_type FD_DEVICE y)))
       else in_files (updf f (fun y => set_off 0 (set_type FD_INODE y))));;
      in_files (updf f (fun y => set_mode (negb (is_set omode O_WRONLY)) (is_set omode O_WRONLY || is_set omode O_RDWR) (set_ip ip y)));;
      (if is_set omode O_TRUNC && (i_type x =? T_FILE) then ifs (itrunc ip) else mret tt);;
      ifs (iunlock me ip);;
      eop;;
      mret fd.

Definition sys_open : MS Z :=
  omode ← argint 1;
  p ← argstr 0 MAXPATH;
  if p.1 <? 0 then mret (-1)
  else
    bop;;
    if is_set omode O_CREATE then
      ip ← create p.2 T_FILE 0 0;
      match ip with
      | None => eop;; mret (-1)
      | Some ip => open_inode ip omode
      end
    else
      ip ← nmi p.2;
      match ip with
      | None => eop;; mret (-1)
      | Some ip =>
          ifs (ilock me ip);;
          x ← ifs (geti ip);
          if (i_type x =? T_DIR) && negb (omode =? O_RDONLY) then open_bad ip
          else open_inode ip omode
      end.

Definition sys_mkdir : MS Z :=
  bop;;
  p ← argstr 0 MAXPATH;
  ip ← (if p.1 <? 0 then mret None else create p.2 T_DIR 0 0);
  match ip with
  | None => eop;; mret (-1)
  | Some ip => ifs (iunlockput me ip);; eop;; mret 0
  end.

Definition sys_mknod : MS Z :=
  bop;;
  major ← argint 1;
  minor ← argint 2;
  p ← argstr 0 MAXPATH;
  ip ← (if p.1 <? 0 then mret None else create p.2 T_DEVICE (s16 major) (s16 minor));
  match ip with
  | None => eop;; mret (-1)
  | Some ip => ifs (iunlockput me ip);; eop;; mret 0
  end.

Definition sys_chdir : MS Z :=
  bop;;
  p ← argstr 0 MAXPATH;
  ip ← (if p.1 <? 0 then mret None else nmi p.2);
  match ip with
  | None => eop;; mret (-1)
  | Some ip =>
      ifs (ilock me ip);;
      x ← ifs (geti ip);
      if negb (i_type x =? T_DIR) then ifs (iunlockput me ip);; eop;; mret (-1)
      else
        ifs (iunlock me ip);;
        cwd ← gets sy_cwd;
        ifs (iput me (cwd - 1));;
        eop;;
        modify (fun s => mk_sys (sy_files s) (sy_ofile s) (ip + 1));;
        mret 0
  end.

(** Close both files after clearing the descriptors [fds]. *)
Definition pipe_undo (fds : list Z) (rf wf : Z) : MS Z :=
  modify (fun s => mk_sys (sy_files s) (foldl (fun l fd => <[Z.to_nat fd := 0]> l) (sy_ofile s) fds) (sy_cwd s));;
  in_files (fileclose me rf);;
  in_files (fileclose me wf);;
  mret (-1).

Definition sys_pipe : MS Z :=
  fdarray ← argaddr 0;
  p ← in_files (pipealloc me);
  match p with
  | None => mret (-1)
  | Some (rf, wf) =>
      fd0 ← fdalloc rf;
      fd1 ← (if fd0 <? 0 then mret (-1) else fdalloc wf);
      if fd0 <? 0 then pipe_undo [] rf wf
      else if fd1 <? 0 then pipe_undo [fd0] rf wf
      else
        r ← user (um_copyout fdarray (bytes_le 4 fd0));
        r ← (if r <? 0 then mret r else user (um_copyout (u64 (fdarray + 4)) (bytes_le 4 fd1)));
        if r <? 0 then pipe_undo [fd0; fd1] rf wf else mret 0
  end.

End sysfile.
