(* ===== verification/ProcMem.v ===== *)
(** The page table of a process (kernel/proc.c: proc_pagetable and
    proc_freepagetable): user memory, and at the top the trapframe and the
    trampoline. *)

From S2P Require Import Prelude Memory Riscv Kalloc Vm VmTable VmSpace VmUser VmFree VmCopy Kvm VmProps.

Section procmem.
Context `{KernelImage}.

(** [trapframe] is p->trapframe. *)
Definition proc_pagetable (trapframe : Z) : M pmem Z :=
  pagetable ← uvmcreate;
  if pagetable =? 0 then mret 0
  else
    r ← mappages pagetable TRAMPOLINE PGSIZE trampoline (Z.lor PTE_R PTE_X);
    if r <? 0 then uvmfree pagetable 0;; mret 0
    else
      r ← mappages pagetable TRAPFRAME PGSIZE trapframe (Z.lor PTE_R PTE_W);
      if r <? 0 then
        uvmunmap pagetable TRAMPOLINE 1 false;;
        uvmfree pagetable 0;;
        mret 0
      else mret pagetable.

Definition proc_freepagetable (pagetable sz : Z) : M pmem unit :=
  uvmunmap pagetable TRAMPOLINE 1 false;;
  uvmunmap pagetable TRAPFRAME 1 false;;
  uvmfree pagetable sz.

(** The two pages above user memory. *)
Definition proc_top (m : mem) (root trapframe : Z) : Prop :=
  forall va, TRAPFRAME <= va < MAXVA ->
    ptmap m root va = if va <? TRAMPOLINE then mkpte trapframe (Z.lor PTE_R PTE_W) else mkpte trampoline (Z.lor PTE_R PTE_X).

End procmem.

Section proofs.
Context `{KernelImageOk}.

Lemma TRAMPOLINE_TRAPFRAME : TRAMPOLINE = 274877902848 /\ TRAPFRAME = 274877898752 /\ MAXVA = 274877906944.
Proof. done. Qed.

(** An operation on the mappings from TRAPFRAME up. *)
Record uvm_high (root : Z) (s : pmem) (l : list Z) (n : nat) (s' : pmem) (l' : list Z) : Prop := {
  hi_kinv : kinv s' l';
  hi_wf : uvm_wf (pm_mem s') root l' n;
  hi_pages : forall q, q ∈ l \/ held (pm_mem s) root n q <-> q ∈ l' \/ held (pm_mem s') root n q;
  hi_step : pages_step (held (pm_mem s) root n) (pm_mem s) l (pm_mem s') l';
}.

Lemma uvm_high_grow root s l n s' l' :
  pt_grow root s l s' l' -> uvm_wf (pm_mem s) root l n ->
  (forall va, 0 <= va < TRAPFRAME -> ptmap (pm_mem s') root va = ptmap (pm_mem s) root va) ->
  uvm_high root s l n s' l'.
Proof.
  intros [Hk Hw (u & -> & Ho) Hs] Hu Hm. pose proof (uvm_size _ _ _ _ Hu) as Hsz.
  assert (Hfr : forall i, (i < n)%nat -> PTE2PA (ptmap (pm_mem s') root (Z.of_nat i * 4096)) = PTE2PA (ptmap (pm_mem s) root (Z.of_nat i * 4096)))
    by (intros i Hi; rewrite Hm by lia; done).
  assert (Hh : forall q, held (pm_mem s') root n q <-> held (pm_mem s) root n q \/ q ∈ u).
  { intros q. unfold held. rewrite Ho. split.
    - intros [[?|?]|(i & Hi & ->)]; auto. left. right. exists i. rewrite <- Hfr by done. auto.
    - intros [[?|(i & Hi & ->)]|?]; auto. right. exists i. rewrite Hfr by done. auto. }
  destruct Hu as [Hpt _ Hmap Hinj Hrest]. split; auto.
  - split; auto.
    + intros va Hva. destruct (Hmap va Hva) as (H2 & H3 & H4). unfold unmappable. rewrite Hm by lia. split_and!; auto.
      intros _. destruct (H4 eq_refl) as (H5 & H6 & H7). rewrite elem_of_app in H6. rewrite Ho. tauto.
    + intros va vb Ha Hb. rewrite !Hm by lia. auto.
    + intros va Hva. rewrite Hm by lia. auto.
  - intros q. rewrite Hh, elem_of_app. tauto.
  - split; [intros q Hq; left; apply elem_of_app; by right|].
    intros q a Hq Hl Hn Ha. apply (Hs q); auto. intros Ho2. apply Hn. by left.
Qed.

Lemma uvm_high_trans root s1 l1 n s2 l2 s3 l3 :
  uvm_high root s1 l1 n s2 l2 -> uvm_high root s2 l2 n s3 l3 -> uvm_high root s1 l1 n s3 l3.
Proof.
  intros [K1 W1 P1 S1] [K2 W2 P2 S2]. split; auto; [intros q; by rewrite P1, P2|].
  eapply pages_step_trans; [exact S1|exact S2|]. intros q Hq. apply P1. by right.
Qed.

Lemma shrink_grow root s l s' : pt_shrink root s l s' [] -> pt_grow root s l s' l.
Proof.
  intros [Hk Hw Ho Hs]. split; auto. exists []. split; [done|]. intros q. rewrite Ho, elem_of_nil. tauto.
Qed.

(** Mapping one page above user memory. *)
Lemma map_high root s l n va pa perm :
  kinv s l -> uvm_wf (pm_mem s) root l n -> TRAPFRAME <= va -> va mod 4096 = 0 -> va + 4096 <= MAXVA ->
  0 <= pa -> pa mod 4096 = 0 -> pa + 4096 <= 2 ^ 56 -> 0 <= perm < 1024 ->
  (forall x, va <= x < va + 4096 -> has (ptmap (pm_mem s) root x) PTE_V = false) ->
  exists r s' l', mappages root va PGSIZE pa perm s = Ok (r, s') /\ uvm_high root s l n s' l' /\
    (r = 0 /\ (forall x, 0 <= x < MAXVA -> ptmap (pm_mem s') root x =
                 if (va <=? x) && (x <? va + 4096) then mkpte pa perm else ptmap (pm_mem s) root x) \/
     r = -1 /\ (forall x, 0 <= x < MAXVA -> ptmap (pm_mem s') root x = ptmap (pm_mem s) root x)).
Proof.
  intros Hk Hu Hva Hal Hmax Hpa Hpal Hpmax Hperm Hinv. destruct TRAMPOLINE_TRAPFRAME as (_ & ETF & EMAX).
  assert (Hlast : u64 (va + PGSIZE - PGSIZE) = va + (Z.of_nat 1 - 1) * 4096) by (rewrite u64_small by lia; lia).
  unfold mappages. rewrite Hlast. unfold PGSIZE at 1. rewrite Hal. cbn -[mappages_loop].
  destruct (mappages_loop_spec root perm 1 s l va pa) as (r & s' & l' & k & E & Hg & Hr & Hm); auto; try lia; [apply Hu|].
  change (Pos.to_nat 1) with 1%nat. exists r, s', l'. split; [exact E|]. split.
  - apply uvm_high_grow; auto. intros x Hx. rewrite Hm by lia. case_bool; try lia; done.
  - destruct Hr as [[-> ->]|(-> & Hk0 & _)]; [left|right]; (split; [done|]); intros x Hx; rewrite Hm by done.
    + unfold vpage. case_bool; try lia; try done. f_equal. Z.div_mod_to_equations; lia.
    + case_bool; try lia; done.
Qed.

(** Unmapping it. *)
Lemma unmap_high root s l n va :
  kinv s l -> uvm_wf (pm_mem s) root l n -> TRAPFRAME <= va -> va mod 4096 = 0 -> va + 4096 <= MAXVA ->
  has (ptmap (pm_mem s) root va) PTE_V = true -> PTE_FLAGS (ptmap (pm_mem s) root va) <> PTE_V ->
  exists s', uvmunmap root va 1 false s = Ok (tt, s') /\ uvm_high root s l n s' l /\
    (forall x, 0 <= x < MAXVA -> ptmap (pm_mem s') root x =
       if (va <=? x) && (x <? va + 4096) then 0 else ptmap (pm_mem s) root x).
Proof.
  intros Hk Hu Hva Hal Hmax Hv Hf. destruct TRAMPOLINE_TRAPFRAME as (_ & ETF & EMAX).
  unfold uvmunmap, PGSIZE. rewrite Hal. cbn [Z.eqb negb]. rewrite u64_small by lia.
  destruct (uvmunmap_loop_spec root false 1 1 s l va) as (s' & E & Hs & Hm); auto; try lia; [apply Hu| |].
  { intros i Hi. replace (va + Z.of_nat i * 4096) with va by lia. split_and!; auto. done. }
  exists s'. split; [exact E|]. split.
  - apply uvm_high_grow; auto; [by apply shrink_grow|]. intros x Hx. rewrite Hm by lia. case_bool; try lia; done.
  - intros x Hx. rewrite Hm by done. by replace (Z.of_nat 1 * 4096) with 4096 by lia.
Qed.

Lemma top_pte pa perm :
  0 <= pa < 2 ^ 56 -> pa mod 4096 = 0 -> perm = Z.lor PTE_R PTE_W \/ perm = Z.lor PTE_R PTE_X ->
  has (mkpte pa perm) PTE_V = true /\ PTE_FLAGS (mkpte pa perm) <> PTE_V /\ has (mkpte pa perm) PTE_U = false.
Proof.
  intros Hpa Hal Hp. destruct (mkpte_range pa perm Hpa Hal) as (_ & Efl & _); [by destruct Hp as [->| ->]|].
  rewrite has_U, Efl. split; [apply mkpte_valid|]. by destruct Hp as [->| ->].
Qed.

Lemma trampoline_range : 0 <= trampoline < 2 ^ 56 - 4096 /\ trampoline mod 4096 = 0.
Proof.
  pose proof trampoline_text. pose proof trampoline_aligned. pose proof kend_after. pose proof kend_below.
  unfold KERNBASE, PHYSTOP, KERNBASE, PGSIZE in *. split; [lia|done].
Qed.

Lemma frame_range tf : page_ok tf -> 0 <= tf < 2 ^ 56 - 4096 /\ tf mod 4096 = 0.
Proof.
  intros Hok. pose proof (page_ok_range _ Hok) as Hr. destruct Hok as [Ha _]. unfold KERNBASE, PHYSTOP, KERNBASE, PGSIZE in *. split; [lia|done].
Qed.

Lemma proc_top_at m root tf va :
  page_ok tf -> proc_top m root tf -> TRAPFRAME <= va < MAXVA ->
  has (ptmap m root va) PTE_V = true /\ PTE_FLAGS (ptmap m root va) <> PTE_V /\ has (ptmap m root va) PTE_U = false.
Proof.
  intros Hok Ht Hva. rewrite (Ht va Hva). pose proof trampoline_range. pose proof (frame_range tf Hok).
  destruct (va <? TRAMPOLINE); apply top_pte; try lia; auto.
Qed.

Lemma proc_top_private m root tf : page_ok tf -> proc_top m root tf -> top_private m root.
Proof. intros Hok Ht va Hva. by destruct (proc_top_at m root tf va Hok Ht Hva) as (_ & _ & ?). Qed.

Lemma held0 m root q : held m root 0 q <-> owned m root q.
Proof. unfold held. split; [intros [?|(i & ? & _)]; [done|lia]|auto]. Qed.

(** Freeing a space with nothing mapped at the top. *)
Lemma free_empty root s l sz :
  kinv s l -> 0 <= sz <= TRAPFRAME -> uvm_wf (pm_mem s) root l (npages sz) ->
  (forall va, TRAPFRAME <= va < MAXVA -> has (ptmap (pm_mem s) root va) PTE_V = false) ->
  exists s' l', uvmfree root sz s = Ok (tt, s') /\ kinv s' l' /\
    (forall q, q ∈ l' <-> q ∈ l \/ held (pm_mem s) root (npages sz) q) /\
    pages_step (held (pm_mem s) root (npages sz)) (pm_mem s) l (pm_mem s') l'.
Proof.
  intros Hk Hsz Hu Hhi. destruct (uvmfree_run s l root sz Hk Hsz Hu Hhi) as (s' & l' & E & Hk' & Hp & Hs).
  exists s', l'. split_and!; auto. split; [|exact Hs]. intros q Hq. by apply Hp.
Qed.

(** proc_freepagetable gives back every page of the process's address
    space, tables included, to the free list, and changes no other page. *)
Lemma proc_freepagetable_run root s l sz tf :
  kinv s l -> 0 <= sz <= TRAPFRAME -> uvm_wf (pm_mem s) root l (npages sz) -> page_ok tf -> proc_top (pm_mem s) root tf ->
  exists s' l', proc_freepagetable root sz s = Ok (tt, s') /\ kinv s' l' /\
    (forall q, q ∈ l' <-> q ∈ l \/ held (pm_mem s) root (npages sz) q) /\
    pages_step (held (pm_mem s) root (npages sz)) (pm_mem s) l (pm_mem s') l'.
Proof.
  intros Hk Hsz Hu Htf Ht. destruct TRAMPOLINE_TRAPFRAME as (ETR & ETF & EMAX).
  destruct (proc_top_at _ _ _ TRAMPOLINE Htf Ht ltac:(lia)) as (V1 & F1 & _).
  destruct (unmap_high root s l _ TRAMPOLINE Hk Hu ltac:(lia) ltac:(done) ltac:(lia) V1 F1) as (s1 & E1 & H1' & M1).
  pose proof H1' as [K1 U1 P1 S1].
  destruct (proc_top_at _ _ _ TRAPFRAME Htf Ht ltac:(lia)) as (V2 & F2 & _).
  assert (E2' : ptmap (pm_mem s1) root TRAPFRAME = ptmap (pm_mem s) root TRAPFRAME) by (rewrite M1 by lia; case_bool; try lia; done).
  rewrite <- E2' in V2, F2.
  destruct (unmap_high root s1 l _ TRAPFRAME K1 U1 ltac:(lia) ltac:(done) ltac:(lia) V2 F2) as (s2 & E2 & H2' & M2).
  pose proof (uvm_high_trans _ _ _ _ _ _ _ _ H1' H2') as [K2 U2 P2 S2].
  destruct (free_empty root s2 l sz K2 Hsz U2) as (s3 & l3 & E3 & K3 & P3 & S3).
  { intros va Hva. rewrite M2, M1 by lia. case_bool; try lia; done. }
  exists s3, l3. unfold proc_freepagetable. rewrite (bind_Ok _ _ _ _ _ E1), (bind_Ok _ _ _ _ _ E2).
  split; [exact E3|]. split; [done|]. split.
  - intros q. rewrite P3. symmetry. apply P2.
  - eapply pages_step_trans; [exact S2|exact S3|]. intros q Hq. apply P2. by right.
Qed.

Lemma kinv_nil_alloc s : kinv s [] -> kalloc s = Ok (0, s).
Proof. intros Hk. exact (kalloc_spec s [] Hk). Qed.

(** proc_pagetable takes pages for an empty space with the two top pages
    mapped, or gives all of them back. *)
Lemma proc_pagetable_run s l tf :
  kinv s l -> page_ok tf ->
  exists r s' l', proc_pagetable tf s = Ok (r, s') /\ kinv s' l' /\ pages_step (fun _ => False) (pm_mem s) l (pm_mem s') l' /\
    (r = 0 /\ (forall q, q ∈ l' <-> q ∈ l) \/
     r <> 0 /\ uvm_wf (pm_mem s') r l' 0 /\ proc_top (pm_mem s') r tf /\ (forall q, q ∈ l <-> q ∈ l' \/ held (pm_mem s') r 0 q)).
Proof.
  intros Hk Htf. destruct TRAMPOLINE_TRAPFRAME as (ETR & ETF & EMAX).
  pose proof trampoline_range as [TR1 TR2]. pose proof (frame_range tf Htf) as [FR1 FR2]. unfold proc_pagetable.
  destruct l as [|pg l].
  { unfold uvmcreate. rewrite bind_run, bind_run, (kinv_nil_alloc s Hk). exists 0, s, [].
    split; [done|]. split_and!; auto using pages_step_refl. }
  destruct (uvmcreate_run s pg l Hk) as (s1 & E1 & K1 & U1 & M1 & Hh1 & S1).
  assert (Hpg : page_ok pg) by (destruct Hk as [(_ & ? & _) _]; done). destruct (frame_range pg Hpg) as [PR1 _].
  assert (Hpg0 : pg <> 0) by (pose proof (page_ok_range _ Hpg); unfold KERNBASE in *; lia).
  assert (St1 : pages_step (fun _ => False) (pm_mem s) (pg :: l) (pm_mem s1) l).
  { split; [intros q Hq; left; by right|]. intros q a Hq Hn _ Ha. apply not_elem_of_cons in Hn as [Hne _]. apply S1.
    pose proof (page_apart q pg Hq (proj1 Hpg) Hne). lia. }
  rewrite (bind_Ok _ _ _ _ _ E1), (proj2 (Z.eqb_neq pg 0)) by done.
  assert (Hfree : forall s2 l2, uvm_high pg s1 l 0 s2 l2 ->
            (forall va, TRAPFRAME <= va < MAXVA -> has (ptmap (pm_mem s2) pg va) PTE_V = false) ->
            exists s3 l3, (uvmfree pg 0;; mret 0) s2 = Ok (0, s3) /\ kinv s3 l3 /\
              pages_step (fun _ => False) (pm_mem s) (pg :: l) (pm_mem s3) l3 /\ (forall q, q ∈ l3 <-> q ∈ pg :: l)).
  { intros s2 l2 [K2 U2 P2 S2] Hhi. destruct (free_empty pg s2 l2 0 K2 ltac:(lia) U2 Hhi) as (s3 & l3 & E3 & K3 & P3 & S3).
    change (npages 0) with 0%nat in P3, S3.
    assert (Hset : forall q, q ∈ l2 \/ held (pm_mem s2) pg 0 q <-> q ∈ pg :: l).
    { intros q. rewrite <- P2, Hh1, elem_of_cons. tauto. }
    exists s3, l3. rewrite (bind_Ok _ _ _ _ _ E3). split; [done|]. split; [done|]. split.
    - eapply pages_step_trans; [exact St1| |].
      + eapply pages_step_trans; [exact S2|exact S3|]. intros q Hq. apply P2. by right.
      + intros q Hq. left. apply Hset, P2. by right.
    - intros q. rewrite P3. apply Hset. }
  destruct (map_high pg s1 l 0 TRAMPOLINE trampoline (Z.lor PTE_R PTE_X)) as (r2 & s2 & l2 & E2 & H2' & R2); auto; try lia; try done.
  { intros x Hx. by rewrite M1. }
  rewrite (bind_Ok _ _ _ _ _ E2). destruct R2 as [[-> M2]|[-> M2]]; cbn [Z.ltb Z.compare]; cycle 1.
  { destruct (Hfree s2 l2 H2') as (s3 & l3 & E3 & K3 & St3 & P3); [intros va Hva; rewrite M2, M1 by lia; done|].
    exists 0, s3, l3. split; [exact E3|]. auto. }
  destruct (map_high pg s2 l2 0 TRAPFRAME tf (Z.lor PTE_R PTE_W)) as (r3 & s3 & l3 & E3 & H3' & R3); try apply H2'; auto; try lia; try done.
  { intros x Hx. rewrite M2, M1 by lia. case_bool; try lia; done. }
  rewrite (bind_Ok _ _ _ _ _ E3). pose proof (uvm_high_trans _ _ _ _ _ _ _ _ H2' H3') as H3.
  destruct R3 as [[-> M3]|[-> M3]]; cbn [Z.ltb Z.compare].
  - exists pg, s3, l3. destruct H3 as [K3 U3 P3 S3]. split; [done|]. split_and!; auto.
    + eapply pages_step_trans; [exact St1|exact S3|]. intros q Hq. left. apply Hh1 in Hq as ->. by left.
    + right. split_and!; auto.
      * intros va Hva. rewrite M3, M2, M1 by lia. case_bool; try lia; done.
      * intros q. rewrite <- P3, Hh1, elem_of_cons. tauto.
  - assert (Eat : ptmap (pm_mem s3) pg TRAMPOLINE = mkpte trampoline (Z.lor PTE_R PTE_X)) by (rewrite M3, M2 by lia; case_bool; try lia; done).
    destruct (top_pte trampoline (Z.lor PTE_R PTE_X)) as (V & F & _); [lia|done|auto|].
    destruct (unmap_high pg s3 l3 0 TRAMPOLINE (hi_kinv _ _ _ _ _ _ H3') (hi_wf _ _ _ _ _ _ H3') ltac:(lia) ltac:(done) ltac:(lia))
      as (s4 & E4 & H4' & M4); [by rewrite Eat|by rewrite Eat|].
    rewrite (bind_Ok _ _ _ _ _ E4).
    destruct (Hfree s4 l3) as (s5 & l5 & E5 & K5 & St5 & P5); [by eapply uvm_high_trans| |].
    { intros va Hva. rewrite M4, M3, M2, M1 by lia. case_bool; try lia; done. }
    exists 0, s5, l5. split; [exact E5|]. auto.
Qed.

End proofs.
