(* ===== verification/Proc.v ===== *)
(** kernel/proc.c: the process table.

    A call runs from one point where the process may lose the processor to
    the next; the spinlocks that make those stretches atomic are the subject
    of [Spinlock].  A process is named by its index in the table.
    Open files and inodes belong to the file layer, behind [FileOps]. *)

From S2P Require Import Prelude Memory Riscv Kalloc Vm ProcMem.
From S2P Require Import Printf.

Inductive procstate := UNUSED | USED | SLEEPING | RUNNABLE | RUNNING | ZOMBIE.

#[global] Instance procstate_eq : EqDecision procstate.
Proof. solve_decision. Defined.

(** What a process sleeps on: a struct proc or another kernel address. *)
Inductive chan := CProc (i : nat) | CObj (a : Z).

#[global] Instance chan_eq : EqDecision chan.
Proof. solve_decision. Defined.

(** ra, sp and the callee-saved s0 .. s11 *)
Record context := mk_context { ctx_ra : Z; ctx_sp : Z; ctx_s : list Z }.

Record proc := mk_proc {
  p_state : procstate;
  p_chan : option chan;
  p_killed : Z;
  p_xstate : Z;
  p_pid : Z;
  p_parent : option nat;
  p_kstack : Z;
  p_sz : Z;
  p_pagetable : Z;
  p_trapframe : Z;
  p_context : context;
  p_ofile : list Z;    (* 0 is a free descriptor *)
  p_cwd : Z;
  p_name : list Z;
}.

Definition no_context : context := mk_context 0 0 (replicate 12 0).

Definition zero_proc : proc :=
  mk_proc UNUSED None 0 0 0 None 0 0 0 0 no_context (replicate 16 0) 0 (replicate 16 0).

#[global] Instance proc_inhabited : Inhabited proc := populate zero_proc.

Definition set_state v p := mk_proc v (p_chan p) (p_killed p) (p_xstate p) (p_pid p) (p_parent p) (p_kstack p) (p_sz p) (p_pagetable p) (p_trapframe p) (p_context p) (p_ofile p) (p_cwd p) (p_name p).
Definition set_chan v p := mk_proc (p_state p) v (p_killed p) (p_xstate p) (p_pid p) (p_parent p) (p_kstack p) (p_sz p) (p_pagetable p) (p_trapframe p) (p_context p) (p_ofile p) (p_cwd p) (p_name p).
Definition set_killed v p := mk_proc (p_state p) (p_chan p) v (p_xstate p) (p_pid p) (p_parent p) (p_kstack p) (p_sz p) (p_pagetable p) (p_trapframe p) (p_context p) (p_ofile p) (p_cwd p) (p_name p).
Definition set_xstate v p := mk_proc (p_state p) (p_chan p) (p_killed p) v (p_pid p) (p_parent p) (p_kstack p) (p_sz p) (p_pagetable p) (p_trapframe p) (p_context p) (p_ofile p) (p_cwd p) (p_name p).
Definition set_pid v p := mk_proc (p_state p) (p_chan p) (p_killed p) (p_xstate p) v (p_parent p) (p_kstack p) (p_sz p) (p_pagetable p) (p_trapframe p) (p_context p) (p_ofile p) (p_cwd p) (p_name p).
Definition set_parent v p := mk_proc (p_state p) (p_chan p) (p_killed p) (p_xstate p) (p_pid p) v (p_kstack p) (p_sz p) (p_pagetable p) (p_trapframe p) (p_context p) (p_ofile p) (p_cwd p) (p_name p).
Definition set_kstack v p := mk_proc (p_state p) (p_chan p) (p_killed p) (p_xstate p) (p_pid p) (p_parent p) v (p_sz p) (p_pagetable p) (p_trapframe p) (p_context p) (p_ofile p) (p_cwd p) (p_name p).
Definition set_sz v p := mk_proc (p_state p) (p_chan p) (p_killed p) (p_xstate p) (p_pid p) (p_parent p) (p_kstack p) v (p_pagetable p) (p_trapframe p) (p_context p) (p_ofile p) (p_cwd p) (p_name p).
Definition set_pagetable v p := mk_proc (p_state p) (p_chan p) (p_killed p) (p_xstate p) (p_pid p) (p_parent p) (p_kstack p) (p_sz p) v (p_trapframe p) (p_context p) (p_ofile p) (p_cwd p) (p_name p).
Definition set_trapframe v p := mk_proc (p_state p) (p_chan p) (p_killed p) (p_xstate p) (p_pid p) (p_parent p) (p_kstack p) (p_sz p) (p_pagetable p) v (p_context p) (p_ofile p) (p_cwd p) (p_name p).
Definition set_context v p := mk_proc (p_state p) (p_chan p) (p_killed p) (p_xstate p) (p_pid p) (p_parent p) (p_kstack p) (p_sz p) (p_pagetable p) (p_trapframe p) v (p_ofile p) (p_cwd p) (p_name p).
Definition set_ofile v p := mk_proc (p_state p) (p_chan p) (p_killed p) (p_xstate p) (p_pid p) (p_parent p) (p_kstack p) (p_sz p) (p_pagetable p) (p_trapframe p) (p_context p) v (p_cwd p) (p_name p).
Definition set_cwd v p := mk_proc (p_state p) (p_chan p) (p_killed p) (p_xstate p) (p_pid p) (p_parent p) (p_kstack p) (p_sz p) (p_pagetable p) (p_trapframe p) (p_context p) (p_ofile p) v (p_name p).
Definition set_name v p := mk_proc (p_state p) (p_chan p) (p_killed p) (p_xstate p) (p_pid p) (p_parent p) (p_kstack p) (p_sz p) (p_pagetable p) (p_trapframe p) (p_context p) (p_ofile p) (p_cwd p) v.

(** What proc.c calls of the file layer. *)
Class FileOps (F : Type) := {
  filedup : Z -> M F Z;
  fileclose : Z -> M F unit;
  idup : Z -> M F Z;
  put_cwd : Z -> M F unit;      (* begin_op(); iput(cwd); end_op(); *)
  namei_root : M F Z;           (* namei("/") *)
}.

(** What it relies on: references are counted, [fo_ref] those of the open
    file table and [fo_cwd] the ones to current directories. *)
Class FileOpsOk (F : Type) `{FileOps F} := {
  fo_inv : F -> Prop;
  fo_ref : F -> Z -> Z;
  fo_cwd : F -> Z -> Z;
  filedup_ok : forall fs f, fo_inv fs -> 0 < fo_ref fs f < 2147483647 ->
    exists fs', filedup f fs = Ok (f, fs') /\ fo_inv fs' /\
      (forall g, fo_ref fs' g = fo_ref fs g + if g =? f then 1 else 0) /\ (forall i, fo_cwd fs' i = fo_cwd fs i);
  fileclose_ok : forall fs f, fo_inv fs -> 0 < fo_ref fs f ->
    exists fs', fileclose f fs = Ok (tt, fs') /\ fo_inv fs' /\
      (forall g, fo_ref fs' g = fo_ref fs g - if g =? f then 1 else 0) /\ (forall i, fo_cwd fs' i = fo_cwd fs i);
  idup_ok : forall fs i, fo_inv fs -> 0 < fo_cwd fs i < 2147483647 ->
    exists fs', idup i fs = Ok (i, fs') /\ fo_inv fs' /\
      (forall g, fo_ref fs' g = fo_ref fs g) /\ (forall j, fo_cwd fs' j = fo_cwd fs j + if j =? i then 1 else 0);
  put_cwd_ok : forall fs i, fo_inv fs -> 0 < fo_cwd fs i ->
    exists fs', put_cwd i fs = Ok (tt, fs') /\ fo_inv fs' /\
      (forall g, fo_ref fs' g = fo_ref fs g) /\ (forall j, fo_cwd fs' j = fo_cwd fs j - if j =? i then 1 else 0);
}.

(** proc[], nextpid, initproc, the memory and the file layer. *)
Record kernel (F : Type) := mk_kernel {
  k_pm : pmem;
  k_procs : list proc;
  k_nextpid : Z;
  k_initproc : option nat;
  k_files : F;
}.
Arguments mk_kernel {F} _ _ _ _ _.
Arguments k_pm {F} _.
Arguments k_procs {F} _.
Arguments k_nextpid {F} _.
Arguments k_initproc {F} _.
Arguments k_files {F} _.

#[global] Instance kernel_pm {F} : Lens (kernel F) pmem := {|
  lget := k_pm;
  lset s k := mk_kernel s (k_procs k) (k_nextpid k) (k_initproc k) (k_files k);
|}.
#[global] Instance kernel_files {F} : Lens (kernel F) F := {|
  lget := k_files;
  lset f k := mk_kernel (k_pm k) (k_procs k) (k_nextpid k) (k_initproc k) f;
|}.

(** safestrcpy between the name arrays of two processes; [k] is n - 1. *)
Fixpoint name_copy (k : nat) (dst src : list Z) : list Z :=
  match dst with
  | [] => []
  | _ :: d =>
      match k with
      | O => 0 :: d
      | S k =>
          let c := default 0 (head src) in
          if c =? 0 then c :: match d with [] => [] | _ :: d => 0 :: d end
          else c :: name_copy k d (tail src)
      end
  end.

(** Where a hart is in scheduler(): about to acquire the lock of entry [j], or
    switched to process [j]. *)
Inductive hart_pos := Looks (j : nat) (found : bool) | Runs (j : nat).

Inductive wait_result := WaitDone (r : Z) | WaitSleeps.

Section proc.
Context `{KernelImage} {F : Type} `{FileOps F}.
#[local] Abbreviation MK := (M (kernel F)).

Definition getp (i : nat) : MK proc := gets (fun k => k_procs k !!! i).
Definition set_procs (ps : list proc) (k : kernel F) : kernel F :=
  mk_kernel (k_pm k) ps (k_nextpid k) (k_initproc k) (k_files k).
Definition updp (i : nat) (f : proc -> proc) : MK unit :=
  modify (fun k => set_procs (alter f i (k_procs k)) k).
Definition pm {A} (m : M pmem A) : MK A := zoom m.
Definition files {A} (m : M F A) : MK A := zoom m.

Definition procinit : MK unit :=
  modify (fun k => set_procs (imap (fun i p => set_kstack (KSTACK (Z.of_nat i)) (set_state UNUSED p)) (k_procs k)) k).

Definition allocpid : MK Z := fun k =>
  Ok (k_nextpid k, mk_kernel (k_pm k) (k_procs k) (s32 (k_nextpid k + 1)) (k_initproc k) (k_files k)).

Definition freeproc (i : nat) : MK unit :=
  p ← getp i;
  (if negb (p_trapframe p =? 0) then pm (kfree (p_trapframe p)) else mret tt);;
  updp i (set_trapframe 0);;
  (if negb (p_pagetable p =? 0) then pm (proc_freepagetable (p_pagetable p) (p_sz p)) else mret tt);;
  updp i (set_pagetable 0);;
  updp i (set_sz 0);;
  updp i (set_pid 0);;
  updp i (set_parent None);;
  updp i (fun p => set_name (<[O := 0]> (p_name p)) p);;
  updp i (set_chan None);;
  updp i (set_killed 0);;
  updp i (set_xstate 0);;
  updp i (set_state UNUSED).

Definition allocproc : MK (option nat) :=
  ps ← gets k_procs;
  match list_find (fun p => p_state p = UNUSED) ps with
  | None => mret None
  | Some (i, _) =>
      pid ← allocpid;
      updp i (set_pid pid);;
      updp i (set_state USED);;
      tf ← pm kalloc;
      updp i (set_trapframe tf);;
      if tf =? 0 then freeproc i;; mret None
      else
        pt ← pm (proc_pagetable tf);
        updp i (set_pagetable pt);;
        if pt =? 0 then freeproc i;; mret None
        else
          updp i (fun p => set_context (mk_context forkret_addr (u64 (p_kstack p + PGSIZE)) (replicate 12 0)) p);;
          mret (Some i)
  end.

(** The fields of struct trapframe that proc.c sets. *)
Definition tf_epc : Z := 24.
Definition tf_sp : Z := 48.
Definition tf_a0 : Z := 112.
Definition sizeof_trapframe : nat := 288.

(** [initcode]: the program's bytes. *)
Definition userinit (initcode : list Z) : MK unit :=
  r ← allocproc;
  match r with
  | None => panic "null pointer"
  | Some i =>
      modify (fun k => mk_kernel (k_pm k) (k_procs k) (k_nextpid k) (Some i) (k_files k));;
      p ← getp i;
      pm (uvmfirst (p_pagetable p) initcode);;
      updp i (set_sz PGSIZE);;
      pm (modify (upd_mem (fun m => store64 m (p_trapframe p + tf_epc) 0)));;
      pm (modify (upd_mem (fun m => store64 m (p_trapframe p + tf_sp) PGSIZE)));;
      updp i (fun p => set_name (name_copy 15 (p_name p) [105; 110; 105; 116; 99; 111; 100; 101; 0]) p);;
      cwd ← files namei_root;
      updp i (set_cwd cwd);;
      updp i (set_state RUNNABLE)
  end.

(** [i] is the running process. *)
Definition growproc (i : nat) (n : Z) : MK Z :=
  p ← getp i;
  let sz := p_sz p in
  if 0 <? n then
    sz ← pm (uvmalloc (p_pagetable p) sz (u64 (sz + n)) PTE_W);
    if sz =? 0 then mret (-1) else updp i (set_sz sz);; mret 0
  else if n <? 0 then
    sz ← pm (uvmdealloc (p_pagetable p) sz (u64 (sz + n)));
    updp i (set_sz sz);; mret 0
  else updp i (set_sz sz);; mret 0.

(** for(i = 0; i < NOFILE; i++) if(p->ofile[i]) np->ofile[i] = filedup(p->ofile[i]); *)
Fixpoint dup_files (fs : list Z) (fd : nat) (np : nat) : MK unit :=
  match fs with
  | [] => mret tt
  | f :: fs =>
      (if negb (f =? 0) then
         f' ← files (filedup f);
         updp np (fun q => set_ofile (<[fd := f']> (p_ofile q)) q)
       else mret tt);;
      dup_files fs (S fd) np
  end.

Definition fork (i : nat) : MK Z :=
  r ← allocproc;
  match r with
  | None => mret (-1)
  | Some np =>
      p ← getp i;
      q ← getp np;
      r ← pm (uvmcopy (p_pagetable p) (p_pagetable q) (p_sz p));
      if r <? 0 then freeproc np;; mret (-1)
      else
        updp np (set_sz (p_sz p));;
        pm (modify (upd_mem (fun m => store_bytes m (p_trapframe q) (load_bytes sizeof_trapframe m (p_trapframe p)))));;
        pm (modify (upd_mem (fun m => store64 m (p_trapframe q + tf_a0) 0)));;
        dup_files (p_ofile p) 0 np;;
        cwd ← files (idup (p_cwd p));
        updp np (set_cwd cwd);;
        updp np (fun q => set_name (name_copy 15 (p_name q) (p_name p)) q);;
        updp np (set_parent (Some i));;
        updp np (set_state RUNNABLE);;
        mret (p_pid q)
  end.

(** [me]: the running process, if any. *)
Definition wakeup_one (me : option nat) (c : chan) (j : nat) (p : proc) : proc :=
  if decide (me = Some j) then p
  else if decide (p_state p = SLEEPING /\ p_chan p = Some c) then set_state RUNNABLE p else p.

Definition wakeup (me : option nat) (c : chan) : MK unit :=
  modify (fun k => set_procs (imap (wakeup_one me c) (k_procs k)) k).

(** for(pp = proc; pp < &proc[NPROC]; pp++), [n] entries from [j] on. *)
Fixpoint reparent_loop (n j i : nat) : MK unit :=
  match n with
  | O => mret tt
  | S n =>
      pp ← getp j;
      (if decide (p_parent pp = Some i) then
         ip ← gets k_initproc;
         updp j (set_parent ip);;
         match ip with Some ip => wakeup (Some i) (CProc ip) | None => mret tt end
       else mret tt);;
      reparent_loop n (S j) i
  end.

Definition reparent (i : nat) : MK unit :=
  n ← gets (fun k => length (k_procs k));
  reparent_loop n 0 i.

(** for(int fd = 0; fd < NOFILE; fd++) *)
Fixpoint close_files (fs : list Z) (fd : nat) (i : nat) : MK unit :=
  match fs with
  | [] => mret tt
  | f :: fs =>
      (if negb (f =? 0) then
         files (fileclose f);;
         updp i (fun p => set_ofile (<[fd := 0]> (p_ofile p)) p)
       else mret tt);;
      close_files fs (S fd) i
  end.

(** Up to the call of sched(), which does not return. *)
Definition exit (i : nat) (status : Z) : MK unit :=
  ip ← gets k_initproc;
  if decide (ip = Some i) then panic "init exiting"
  else
    p ← getp i;
    close_files (p_ofile p) 0 i;;
    files (put_cwd (p_cwd p));;
    updp i (set_cwd 0);;
    reparent i;;
    p ← getp i;
    match p_parent p with Some pp => wakeup (Some i) (CProc pp) | None => mret tt end;;
    updp i (set_xstate status);;
    updp i (set_state ZOMBIE).

(** sleep(chan, lk) up to sched(), and what follows it. *)
Definition sleep (i : nat) (c : chan) : MK unit :=
  updp i (set_chan (Some c));;
  updp i (set_state SLEEPING).
Definition sleep_woken (i : nat) : MK unit := updp i (set_chan None).

Definition xstate_bytes (x : Z) : list Z := (fun k => u8 (Z.shiftr (u32 x) (8 * k))) <$> [0; 1; 2; 3].

Inductive scan_result := Scanned (havekids : bool) | Reaped (r : Z).

(** The scan of the table in wait(). *)
Fixpoint wait_scan (n j : nat) (i : nat) (addr : Z) (havekids : bool) : MK scan_result :=
  match n with
  | O => mret (Scanned havekids)
  | S n =>
      pp ← getp j;
      if decide (p_parent pp = Some i) then
        if decide (p_state pp = ZOMBIE) then
          p ← getp i;
          r ← (if addr =? 0 then mret 0 else pm (copyout (p_pagetable p) addr (xstate_bytes (p_xstate pp))));
          if r <? 0 then mret (Reaped (-1))
          else freeproc j;; mret (Reaped (p_pid pp))
        else wait_scan n (S j) i addr true
      else wait_scan n (S j) i addr havekids
  end.

(** One round of the loop of wait(). *)
Definition wait (i : nat) (addr : Z) : MK wait_result :=
  n ← gets (fun k => length (k_procs k));
  r ← wait_scan n 0 i addr false;
  match r with
  | Reaped r => mret (WaitDone r)
  | Scanned havekids =>
      p ← getp i;
      if negb havekids || negb (p_killed p =? 0) then mret (WaitDone (-1))
      else sleep i (CProc i);; mret WaitSleeps
  end.

Definition wait_woken (i : nat) (addr : Z) : MK wait_result := sleep_woken i;; wait i addr.

Definition yield (i : nat) : MK unit := updp i (set_state RUNNABLE).

(** One round of for(p = proc; p < &proc[NPROC]; p++) in scheduler(), at entry
    [j]: it goes on to the next entry, or switches to the process.  At the end of
    the table the next pass begins (after wfi, when [found] is 0); when the
    process switches back, [found] is 1 and the next entry is looked at. *)
Definition scheduler_look (j : nat) (found : bool) : MK hart_pos :=
  n ← gets (fun k => length (k_procs k));
  if decide (j < n)%nat then
    p ← getp j;
    if decide (p_state p = RUNNABLE) then updp j (set_state RUNNING);; mret (Runs j)
    else mret (Looks (S j) found)
  else mret (Looks 0 false).

Definition scheduler_back (j : nat) : hart_pos := Looks (S j) true.

Definition kill (pid : Z) : MK Z :=
  ps ← gets k_procs;
  match list_find (fun p => p_pid p = pid) ps with
  | None => mret (-1)
  | Some (i, _) =>
      updp i (set_killed 1);;
      updp i (fun p => if decide (p_state p = SLEEPING) then set_state RUNNABLE p else p);;
      mret 0
  end.

Definition setkilled (i : nat) : MK unit := updp i (set_killed 1).
Definition killed (i : nat) : MK Z := p ← getp i; mret (p_killed p).

End proc.

(** ** procdump *)

Definition state_name (s : procstate) : list Z :=
  match s with
  | UNUSED => [117; 110; 117; 115; 101; 100]
  | USED => [117; 115; 101; 100]
  | SLEEPING => [115; 108; 101; 101; 112; 32]
  | RUNNABLE => [114; 117; 110; 98; 108; 101]
  | RUNNING => [114; 117; 110; 32; 32; 32]
  | ZOMBIE => [122; 111; 109; 98; 105; 101]
  end.

(** The bytes of a C string before its NUL. *)
Fixpoint until_nul (s : list Z) : list Z :=
  match s with [] => [] | c :: s => if c =? 0 then [] else c :: until_nul s end.

(** for(p = proc; p < &proc[NPROC]; p++): "%d %s %s" and a newline. *)
Fixpoint procdump_loop (ps : list proc) : option (list Z) :=
  match ps with
  | [] => Some []
  | p :: ps =>
      if decide (p_state p = UNUSED) then procdump_loop ps
      else
        a ← printf [37; 100; 32; 37; 115; 32; 37; 115]
              [VInt (p_pid p); VStr (Some (state_name (p_state p))); VStr (Some (until_nul (p_name p)))];
        b ← printf [10] [];
        c ← procdump_loop ps;
        Some (a ++ b ++ c)
  end.

Definition procdump_output (ps : list proc) : option (list Z) :=
  a ← printf [10] [];
  b ← procdump_loop ps;
  Some (a ++ b).
