(* ===== verification/ProcInv.v ===== *)
(** The process table and the pages its processes hold. *)

From S2P Require Import Prelude Memory Riscv Kalloc Vm VmTable VmSpace VmUser VmFree VmCopy Kvm VmProps ProcMem Proc.

Section inv.
Context `{KernelImageOk} {F : Type} `{FileOps F}.
Implicit Types (k : kernel F) (p : proc).

Definition live p : Prop := p_state p <> UNUSED.

(** The pages of a process: its trapframe, frames and tables. *)
Definition pheld (m : mem) p (q : Z) : Prop :=
  live p /\ (q = p_trapframe p \/ held m (p_pagetable p) (npages (p_sz p)) q).

Record space_ok (m : mem) (l : list Z) (tf pt sz : Z) : Prop := {
  so_tf : page_ok tf /\ tf ∉ l;
  so_pt : pt <> 0;
  so_sz : 0 <= sz <= TRAPFRAME;
  so_wf : uvm_wf m pt l (npages sz);
  so_top : proc_top m pt tf;
  so_apart : ~ held m pt (npages sz) tf;
}.

Definition proc_ok (m : mem) (l : list Z) p : Prop :=
  if decide (p_state p = UNUSED) then p_trapframe p = 0 /\ p_pagetable p = 0 /\ p_sz p = 0
  else space_ok m l (p_trapframe p) (p_pagetable p) (p_sz p).

(** No page is held twice or held and free. *)
Record mem_ok (s : pmem) (l : list Z) (ps : list proc) : Prop := {
  mo_kinv : kinv s l;
  mo_proc : forall i p, ps !! i = Some p -> proc_ok (pm_mem s) l p;
  mo_apart : forall i j p p', ps !! i = Some p -> ps !! j = Some p' -> i <> j ->
    forall q, pheld (pm_mem s) p q -> ~ pheld (pm_mem s) p' q;
}.

(** The user-visible memory and the registers of a process. *)
Definition same_space (m m' : mem) p : Prop :=
  (forall va, ptmap m' (p_pagetable p) va = ptmap m (p_pagetable p) va) /\
  (forall va, 0 <= va < Z.of_nat (npages (p_sz p)) * 4096 -> ubyte m' (p_pagetable p) va = ubyte m (p_pagetable p) va) /\
  (forall a, p_trapframe p <= a < p_trapframe p + PGSIZE -> load8 m' a = load8 m a).

Lemma space_page_ok m l tf pt sz q : space_ok m l tf pt sz -> q = tf \/ held m pt (npages sz) q -> page_ok q /\ q ∉ l.
Proof.
  intros [[Htf Hn] _ _ Hw _ _] [->|Hh]; [done|]. split; [|by apply (held_not_free _ _ _ _ _ Hw)].
  destruct Hh as [Ho|(i & Hi & ->)]; [by destruct (owned_page_ok _ _ _ _ (uvm_pt _ _ _ _ Hw) Ho)|].
  destruct (uvm_mapped _ _ _ _ Hw (Z.of_nat i * 4096)) as (_ & _ & H3); [lia|]. by destruct (H3 eq_refl) as (? & _ & _).
Qed.

Lemma space_frame (A : Z -> Prop) m l m' l' tf pt sz :
  pages_step A m l m' l' -> space_ok m l tf pt sz -> (forall q, q = tf \/ held m pt (npages sz) q -> ~ A q) ->
  space_ok m' l' tf pt sz /\ (forall q, held m' pt (npages sz) q <-> held m pt (npages sz) q) /\
  (forall va, ptmap m' pt va = ptmap m pt va) /\
  (forall va, 0 <= va < Z.of_nat (npages sz) * 4096 -> ubyte m' pt va = ubyte m pt va) /\
  (forall a, tf <= a < tf + PGSIZE -> load8 m' a = load8 m a).
Proof.
  intros Hs Hok Hd. pose proof Hok as [[Htf Hn] Hpt Hsz Hw Htop Hap].
  destruct (uvm_frame A m l m' l' pt (npages sz) Hs Hw) as (W & M & U & Hh); [auto|].
  split_and!; auto.
  - split; auto.
    + split; [done|]. intros Hin. destruct (ps_free _ _ _ _ _ Hs tf Hin) as [?|?]; [done|]. by apply (Hd tf); auto.
    + intros va Hva. rewrite M. by apply Htop.
    + by rewrite Hh.
  - intros a Ha. apply (ps_same _ _ _ _ _ Hs tf); [apply Htf|done| |done]. apply Hd. auto.
Qed.

(** A process none of whose pages are used is not affected. *)
Lemma proc_frame (A : Z -> Prop) m l m' l' p :
  pages_step A m l m' l' -> proc_ok m l p -> (forall q, pheld m p q -> ~ A q) ->
  proc_ok m' l' p /\ (forall q, pheld m' p q <-> pheld m p q) /\ (live p -> same_space m m' p).
Proof.
  intros Hs Hok Hd. unfold proc_ok, pheld, live in *. destruct (decide (p_state p = UNUSED)) as [E|E].
  - split; [exact Hok|]. split; [intros q; tauto|by intros []].
  - destruct (space_frame A m l m' l' _ _ _ Hs Hok) as (H1' & H2' & H3' & H4' & H5'); [intros q Hq; apply Hd; auto|].
    split; [exact H1'|]. split; [intros q; by rewrite H2'|by split].
Qed.

(** Changing one process, using free pages and its own. *)
Lemma table_update s l ps i p s' l' p' :
  mem_ok s l ps -> ps !! i = Some p -> pages_step (pheld (pm_mem s) p) (pm_mem s) l (pm_mem s') l' -> kinv s' l' ->
  proc_ok (pm_mem s') l' p' -> (forall q, pheld (pm_mem s') p' q -> q ∈ l \/ pheld (pm_mem s) p q) ->
  mem_ok s' l' (<[i := p']> ps) /\
  (forall j p2, j <> i -> ps !! j = Some p2 -> live p2 -> same_space (pm_mem s) (pm_mem s') p2).
Proof.
  intros [Hk Hp Ha] Ei Hs Hk' Hp' Hh.
  assert (Hfr : forall j p2, j <> i -> ps !! j = Some p2 ->
            proc_ok (pm_mem s') l' p2 /\ (forall q, pheld (pm_mem s') p2 q <-> pheld (pm_mem s) p2 q) /\ (live p2 -> same_space (pm_mem s) (pm_mem s') p2)).
  { intros j p2 Hne Ej. eapply proc_frame; [exact Hs|by eapply Hp|]. intros q Hq. by eapply (Ha j i). }
  assert (Hnl : forall j p2, ps !! j = Some p2 -> forall q, pheld (pm_mem s) p2 q -> q ∉ l).
  { intros j p2 Ej q [Hl Hq]. pose proof (Hp j p2 Ej) as Hok. unfold proc_ok in Hok. rewrite decide_False in Hok by exact Hl.
    by destruct (space_page_ok _ _ _ _ _ q Hok Hq). }
  split; [|intros j p2 Hne Ej; by apply (Hfr j p2)]. split; auto.
  - intros j p2 Ej. destruct (decide (j = i)) as [->|Hne].
    + rewrite list_lookup_insert_eq in Ej by (by eapply lookup_lt_Some). injection Ej as <-. done.
    + rewrite list_lookup_insert_ne in Ej by done. by apply (Hfr j).
  - assert (Hii : forall j p2, j <> i -> ps !! j = Some p2 -> forall q, pheld (pm_mem s') p' q -> ~ pheld (pm_mem s') p2 q).
    { intros j p2 Hne Ej q Hq Hq2. apply (Hfr j p2 Hne Ej) in Hq2. destruct (Hh q Hq) as [Hl|Hl]; [by eapply Hnl|].
      by apply (Ha i j p p2 Ei Ej (not_eq_sym Hne) q). }
    intros j1 j2 p1 p2 E1 E2 Hne q Hq1 Hq2.
    destruct (decide (j1 = i)) as [->|N1], (decide (j2 = i)) as [->|N2]; [done| | |].
    + rewrite list_lookup_insert_eq in E1 by (by eapply lookup_lt_Some). injection E1 as <-.
      rewrite list_lookup_insert_ne in E2 by done. by eapply (Hii j2).
    + rewrite list_lookup_insert_eq in E2 by (by eapply lookup_lt_Some). injection E2 as <-.
      rewrite list_lookup_insert_ne in E1 by done. by eapply (Hii j1).
    + rewrite list_lookup_insert_ne in E1, E2 by done. apply (Hfr j1 p1 N1 E1) in Hq1. apply (Hfr j2 p2 N2 E2) in Hq2.
      by eapply (Ha j1 j2).
Qed.

(** ** Running the operations *)

Lemma alter_insert {A} (f : A -> A) i (x : A) l : (i < length l)%nat -> alter f i (<[i := x]> l) = <[i := f x]> l.
Proof.
  intros Hi. apply list_eq. intros j. destruct (decide (j = i)) as [->|Hne].
  - rewrite list_lookup_alter_eq, !list_lookup_insert_eq by done. done.
  - rewrite list_lookup_alter_ne, !list_lookup_insert_ne by done. done.
Qed.

Lemma updp_run i f s ps p np ip fs : (i < length ps)%nat ->
  updp (F := F) i f (mk_kernel s (<[i := p]> ps) np ip fs) = Ok (tt, mk_kernel s (<[i := f p]> ps) np ip fs).
Proof. intros Hi. unfold updp. rewrite modify_run. unfold set_procs. simpl. by rewrite alter_insert. Qed.

Lemma getp_run i s ps p np ip fs : (i < length ps)%nat ->
  getp (F := F) i (mk_kernel s (<[i := p]> ps) np ip fs) = Ok (p, mk_kernel s (<[i := p]> ps) np ip fs).
Proof. intros Hi. unfold getp. rewrite gets_run. simpl. by rewrite list_lookup_total_insert_eq. Qed.

Lemma getp_other i j s ps p p' np ip fs : j <> i -> ps !! j = Some p' ->
  getp (F := F) j (mk_kernel s (<[i := p]> ps) np ip fs) = Ok (p', mk_kernel s (<[i := p]> ps) np ip fs).
Proof.
  intros Hne Ej. unfold getp. rewrite gets_run. simpl. rewrite list_lookup_total_insert_ne by done.
  by rewrite (list_lookup_total_correct _ _ _ Ej).
Qed.

Lemma pm_run {A} (m : M pmem A) s s' ps np ip fs a : m s = Ok (a, s') ->
  pm (F := F) m (mk_kernel s ps np ip fs) = Ok (a, mk_kernel s' ps np ip fs).
Proof. intros E. unfold pm, zoom. simpl. by rewrite E. Qed.

(** The slot freeproc leaves. *)
Definition cleared p : proc :=
  mk_proc UNUSED None 0 0 0 None (p_kstack p) 0 0 0 (p_context p) (p_ofile p) (p_cwd p) (<[O := 0]> (p_name p)).

Lemma cleared_ok m l p : proc_ok m l (cleared p) /\ (forall q, ~ pheld m (cleared p) q).
Proof. split; [done|]. intros q [Hl _]. by apply Hl. Qed.

Lemma freeproc_run i s l ps p np ip (fs : F) (A : Z -> Prop) :
  (i < length ps)%nat -> kinv s l ->
  (p_trapframe p = 0 /\ p_pagetable p = 0 /\ (forall q, ~ A q) \/
   page_ok (p_trapframe p) /\ p_trapframe p ∉ l /\ p_pagetable p = 0 /\ (forall q, A q <-> q = p_trapframe p) \/
   space_ok (pm_mem s) l (p_trapframe p) (p_pagetable p) (p_sz p) /\
     (forall q, A q <-> q = p_trapframe p \/ held (pm_mem s) (p_pagetable p) (npages (p_sz p)) q)) ->
  exists s' l', freeproc i (mk_kernel s (<[i := p]> ps) np ip fs) = Ok (tt, mk_kernel s' (<[i := cleared p]> ps) np ip fs) /\
    kinv s' l' /\ pages_step A (pm_mem s) l (pm_mem s') l' /\ (forall q, q ∈ l' <-> q ∈ l \/ A q).
Proof.
  intros Hi Hk Hcase.
  assert (Hrest : forall s1 s2, (p_trapframe p =? 0 = true -> s1 = s) ->
      (p_trapframe p =? 0 = false -> kfree (p_trapframe p) s = Ok (tt, s1)) ->
      (p_pagetable p =? 0 = true -> s2 = s1) ->
      (p_pagetable p =? 0 = false -> proc_freepagetable (p_pagetable p) (p_sz p) s1 = Ok (tt, s2)) ->
      freeproc i (mk_kernel s (<[i := p]> ps) np ip fs) = Ok (tt, mk_kernel s2 (<[i := cleared p]> ps) np ip fs)).
  { intros s1 s2 A1 A2 A3 A4. unfold freeproc. rewrite bind_run, getp_run by done.
    assert (E1 : (if negb (p_trapframe p =? 0) then pm (kfree (p_trapframe p)) else mret tt) (mk_kernel s (<[i := p]> ps) np ip fs) = Ok (tt, mk_kernel s1 (<[i := p]> ps) np ip fs)).
    { destruct (p_trapframe p =? 0); [by rewrite A1|by apply pm_run, A2]. }
    rewrite (bind_Ok _ _ _ _ _ E1), bind_run, updp_run by done. set (p1 := set_trapframe 0 p).
    assert (E2 : (if negb (p_pagetable p =? 0) then pm (proc_freepagetable (p_pagetable p) (p_sz p)) else mret tt) (mk_kernel s1 (<[i := p1]> ps) np ip fs) = Ok (tt, mk_kernel s2 (<[i := p1]> ps) np ip fs)).
    { destruct (p_pagetable p =? 0); [by rewrite A3|by apply pm_run, A4]. }
    rewrite (bind_Ok _ _ _ _ _ E2). do 8 (rewrite bind_run, updp_run by done). rewrite updp_run by done. done. }
  destruct Hcase as [(E1 & E2 & HA)|[(Htf & Hn & E2 & HA)|[Hok HA]]].
  - exists s, l. split; [apply (Hrest s); rewrite ?E1, ?E2; done|]. split_and!; auto; [split; auto|].
    intros q. specialize (HA q). tauto.
  - destruct (kfree_spec s l _ Hk Htf Hn) as (s1 & E1 & Hk1 & Hs1).
    assert (Hnz : p_trapframe p <> 0) by (pose proof (page_ok_range _ Htf); unfold KERNBASE in *; lia). apply Z.eqb_neq in Hnz.
    exists s1, (p_trapframe p :: l). split; [apply (Hrest s1); rewrite ?Hnz, ?E2; done|]. split_and!; auto.
    + split; [intros q; rewrite elem_of_cons, HA; tauto|]. intros q a Hq _ Hna Ha. apply Hs1.
      assert (q <> p_trapframe p) by (by rewrite HA in Hna). pose proof (page_apart q _ Hq (proj1 Htf) ltac:(done)). lia.
    + intros q. rewrite elem_of_cons, HA. tauto.
  - pose proof Hok as [[Htf Hn] Hpt Hsz Hw Htop Hap].
    destruct (kfree_spec s l _ Hk Htf Hn) as (s1 & E1 & Hk1 & Hs1).
    assert (Hnz : p_trapframe p <> 0) by (pose proof (page_ok_range _ Htf); unfold KERNBASE in *; lia).
    assert (St1 : pages_step (fun q => q = p_trapframe p) (pm_mem s) l (pm_mem s1) (p_trapframe p :: l)).
    { split; [intros q; rewrite elem_of_cons; tauto|]. intros q a Hq _ Hna Ha. apply Hs1.
      pose proof (page_apart q _ Hq (proj1 Htf) Hna). lia. }
    destruct (uvm_frame _ _ _ _ _ _ _ St1 Hw) as (W1 & M1 & _ & Hh1); [intros q Hq ->; done|].
    destruct (proc_freepagetable_run (p_pagetable p) s1 (p_trapframe p :: l) (p_sz p) (p_trapframe p) Hk1 Hsz W1 Htf) as (s2 & l2 & E2 & Hk2 & P2 & S2).
    { intros va Hva. rewrite M1. by apply Htop. }
    apply Z.eqb_neq in Hnz, Hpt. exists s2, l2. split; [apply (Hrest s1); rewrite ?Hnz, ?Hpt; done|]. split_and!; auto.
    + eapply pages_step_trans; [eapply pages_step_weaken; [|exact St1]|exact S2|].
      * intros q ->. apply HA. by left.
      * intros q Hq. right. apply HA. right. by apply Hh1.
    + intros q. rewrite P2, elem_of_cons, HA, Hh1. tauto.
Qed.

(** The slot allocproc hands out; the fields it does not set keep what the
    last user of the slot left. *)
Definition fresh_proc (pid tf pt : Z) p : proc :=
  mk_proc USED (p_chan p) (p_killed p) (p_xstate p) pid (p_parent p) (p_kstack p) (p_sz p) pt tf
    (mk_context forkret_addr (u64 (p_kstack p + PGSIZE)) (replicate 12 0)) (p_ofile p) (p_cwd p) (p_name p).

Definition no_page (q : Z) : Prop := False.

Lemma kalloc_step s pg l :
  kinv s (pg :: l) -> exists s1, kalloc s = Ok (pg, s1) /\ kinv s1 l /\ page_ok pg /\ pg ∉ l /\ pg <> 0 /\
    pages_step no_page (pm_mem s) (pg :: l) (pm_mem s1) l.
Proof.
  intros Hk. destruct (kalloc_fresh s pg l Hk) as (s1 & E & Hk1 & Hok & Hn & Hnz & Hs). exists s1. split_and!; auto.
  split; [intros q Hq; left; by right|]. intros q a Hq Hnq _ Ha. apply not_elem_of_cons in Hnq as [Hne _]. apply Hs.
  pose proof (page_apart q pg Hq (proj1 Hok) Hne). lia.
Qed.

Lemma allocproc_run s l ps np ip (fs : F) :
  mem_ok s l ps ->
  match list_find (fun p => p_state p = UNUSED) ps with
  | None => allocproc (mk_kernel s ps np ip fs) = Ok (None, mk_kernel s ps np ip fs)
  | Some (i, p) => exists s' l', kinv s' l' /\ pages_step no_page (pm_mem s) l (pm_mem s') l' /\
      (allocproc (mk_kernel s ps np ip fs) = Ok (None, mk_kernel s' (<[i := cleared p]> ps) (s32 (np + 1)) ip fs) /\
         (forall q, q ∈ l' <-> q ∈ l) \/
       exists tf pt, allocproc (mk_kernel s ps np ip fs) = Ok (Some i, mk_kernel s' (<[i := fresh_proc np tf pt p]> ps) (s32 (np + 1)) ip fs) /\
         space_ok (pm_mem s') l' tf pt 0 /\ (forall q, q ∈ l <-> q ∈ l' \/ q = tf \/ held (pm_mem s') pt 0 q))
  end.
Proof.
  intros Hm. unfold allocproc. rewrite bind_run, gets_run. cbn [k_procs].
  destruct (list_find (fun p => p_state p = UNUSED) ps) as [[i p]|] eqn:Ef; [|done].
  apply list_find_Some in Ef as (Ei & Eu & _). pose proof (lookup_lt_Some _ _ _ Ei) as Hlt.
  pose proof (mo_proc _ _ _ Hm i p Ei) as Hp. unfold proc_ok in Hp. rewrite decide_True in Hp by done. destruct Hp as (Etf & Ept & Esz).
  rewrite bind_run. unfold allocpid. cbn [k_pm k_procs k_nextpid k_initproc k_files].
  assert (Ek : mk_kernel s ps (s32 (np + 1)) ip fs = mk_kernel s (<[i := p]> ps) (s32 (np + 1)) ip fs) by (by rewrite list_insert_id).
  rewrite Ek. do 2 (rewrite bind_run, updp_run by done).
  set (p1 := set_state USED (set_pid np p)). pose proof (mo_kinv _ _ _ Hm) as Hk. destruct l as [|tf l].
  { rewrite (bind_Ok _ _ _ _ _ (pm_run _ _ _ _ _ _ _ _ (kinv_nil_alloc s Hk))), bind_run, updp_run by done. cbn [Z.eqb].
    destruct (freeproc_run i s [] ps (set_trapframe 0 p1) (s32 (np + 1)) ip fs no_page Hlt Hk) as (s' & l' & E & Hk' & St & P).
    { left. split_and!; [done|exact Ept|auto]. }
    exists s', l'. rewrite (bind_Ok _ _ _ _ _ E). split_and!; auto. left. split; [done|]. intros q. rewrite P. unfold no_page. tauto. }
  destruct (kalloc_step s tf l Hk) as (s1 & E1 & Hk1 & Htf & Hn1 & Hnz & St1).
  rewrite (bind_Ok _ _ _ _ _ (pm_run _ _ _ _ _ _ _ _ E1)), bind_run, updp_run by done. rewrite (proj2 (Z.eqb_neq tf 0)) by done.
  destruct (proc_pagetable_run s1 l tf Hk1 Htf) as (pt & s2 & l2 & E2 & Hk2 & St2 & Hr).
  rewrite (bind_Ok _ _ _ _ _ (pm_run _ _ _ _ _ _ _ _ E2)), bind_run, updp_run by done.
  assert (St12 : pages_step no_page (pm_mem s) (tf :: l) (pm_mem s2) l2) by (eapply pages_step_trans; [exact St1|exact St2|done]).
  assert (Hn2 : tf ∉ l2) by (intros Hin; destruct (ps_free _ _ _ _ _ St2 tf Hin); done).
  destruct Hr as [[-> Hl2]|(Hpt & Hw & Htop & Hl2)].
  - cbn [Z.eqb]. destruct (freeproc_run i s2 l2 ps (set_pagetable 0 (set_trapframe tf p1)) (s32 (np + 1)) ip fs (fun q => q = tf) Hlt Hk2) as (s' & l' & E & Hk' & St & P).
    { right. left. by split_and!. }
    exists s', l'. rewrite (bind_Ok _ _ _ _ _ E). split_and!; auto.
    + eapply pages_step_trans; [exact St12|exact St|]. intros q ->. left. by left.
    + left. split; [done|]. intros q. rewrite P, Hl2, elem_of_cons. tauto.
  - rewrite (proj2 (Z.eqb_neq pt 0)), bind_run, updp_run by done. exists s2, l2. split_and!; auto. right. exists tf, pt. split; [reflexivity|].
    assert (Hap : ~ held (pm_mem s2) pt 0 tf) by (intros Hh; apply Hn1, Hl2; by right). split.
    + split; auto. rewrite TRAPFRAME_val. lia.
    + intros q. rewrite elem_of_cons, Hl2. tauto.
Qed.

End inv.

(** * fork *)

Section fork.
Context `{KernelImageOk} {F : Type} `{FileOpsOk F}.
Implicit Types (k : kernel F) (p : proc).

(** A space changed by one of the uvm operations keeps its top and stays
    apart from the trapframe. *)
Lemma space_move tf pt s l sz s' l' sz' :
  space_ok (pm_mem s) l tf pt sz -> uvm_move pt s l (npages sz) s' l' (npages sz') -> 0 <= sz' <= TRAPFRAME ->
  space_ok (pm_mem s') l' tf pt sz' /\ pages_step (held (pm_mem s) pt (npages sz)) (pm_mem s) l (pm_mem s') l'.
Proof.
  intros [[Htf Hn] Hpt Hsz Hw Htop Hap] [Hk Hw' Hp Hs _ Hh] Hsz'.
  assert (Hnn : ~ (tf ∈ l' \/ held (pm_mem s') pt (npages sz') tf)) by (rewrite <- Hp; tauto).
  split.
  - split; auto. intros va Hva. rewrite Hh by done. by apply Htop.
  - split; [intros q Hq; apply Hp; by left|exact Hs].
Qed.

(** Writing into the trapframe. *)
Lemma space_tf_write tf pt m m' l sz :
  space_ok m l tf pt sz -> same_outside tf m m' ->
  space_ok m' l tf pt sz /\ pages_step (fun q => q = tf) m l m' l /\
  (forall q, held m' pt (npages sz) q <-> held m pt (npages sz) q) /\
  (forall va, ptmap m' pt va = ptmap m pt va) /\
  (forall va, 0 <= va < Z.of_nat (npages sz) * 4096 -> ubyte m' pt va = ubyte m pt va).
Proof.
  intros [[Htf Hn] Hpt Hsz Hw Htop Hap] Hs.
  assert (St : pages_step (fun q => q = tf) m l m' l).
  { split; [auto|]. intros q a Hq _ Hne Ha. apply Hs. pose proof (page_apart q tf Hq (proj1 Htf) Hne). lia. }
  destruct (uvm_frame _ _ _ _ _ _ _ St Hw) as (W & M & U & Hh); [intros q Hq ->; done|].
  split_and!; auto. split; auto; [intros va Hva; rewrite M; by apply Htop|by rewrite Hh].
Qed.

(** The saved registers fork gives the child. *)
Definition child_regs (m m' : mem) (tf tf' : Z) : Prop :=
  (forall o, 0 <= o < 288 -> ~ (tf_a0 <= o < tf_a0 + 8) -> load8 m' (tf' + o) = load8 m (tf + o)) /\
  load64 m' (tf' + tf_a0) = 0.

Definition copy_regs (m : mem) (tf tf' : Z) : mem :=
  store64 (store_bytes m tf' (load_bytes sizeof_trapframe m tf)) (tf' + tf_a0) 0.

Lemma copy_regs_spec m tf tf' :
  same_outside tf' m (copy_regs m tf tf') /\ child_regs m (copy_regs m tf tf') tf tf'.
Proof.
  unfold copy_regs, child_regs, tf_a0, same_outside. split_and!.
  - intros a Ha. rewrite load8_store64_ne by (unfold PGSIZE in *; lia). rewrite load8_store_bytes, length_load_bytes.
    unfold sizeof_trapframe, PGSIZE in *. case_bool; try lia; done.
  - intros o Ho Hne. rewrite load8_store64_ne by lia. rewrite load8_store_bytes, length_load_bytes. unfold sizeof_trapframe.
    rewrite (proj2 (Z.leb_le _ _)), (proj2 (Z.ltb_lt _ _)) by lia. cbn [andb]. replace (Z.to_nat (tf' + o - tf')) with (Z.to_nat o) by lia.
    rewrite (list_lookup_total_correct _ (Z.to_nat o) (load8 m (tf + o))).
    + apply u8_small, load8_range.
    + rewrite lookup_load_bytes by lia. do 2 f_equal. lia.
  - by rewrite load64_store64_eq.
Qed.

(** The descriptors of the child. *)
Fixpoint overlay (fd : nat) (fs old : list Z) : list Z :=
  match fs with
  | [] => old
  | f :: fs => overlay (S fd) fs (if f =? 0 then old else <[fd := f]> old)
  end.

Definition fcount (g : Z) (fs : list Z) : Z := Z.of_nat (length (filter (fun f => f = g) fs)).

Lemma fcount_cons g f fs : fcount g (f :: fs) = (if g =? f then 1 else 0) + fcount g fs.
Proof.
  unfold fcount. rewrite filter_cons. destruct (Z.eqb_spec g f) as [->|Hne].
  - rewrite decide_True by done. simpl. lia.
  - rewrite decide_False by congruence. lia.
Qed.

Lemma fcount_nonneg g fs : 0 <= fcount g fs <= Z.of_nat (length fs).
Proof. unfold fcount. pose proof (length_filter (fun f => f = g) fs). lia. Qed.

Lemma files_run {A} (m : M F A) s ps np ip fs fs' a : m fs = Ok (a, fs') ->
  files (F := F) m (mk_kernel s ps np ip fs) = Ok (a, mk_kernel s ps np ip fs').
Proof. intros E. unfold files, zoom. simpl. by rewrite E. Qed.

Lemma dup_files_run fl : forall fd j s ps q np ip (fs : F),
  (j < length ps)%nat -> fo_inv fs ->
  (forall f, f ∈ fl -> f <> 0 -> 0 < fo_ref fs f /\ fo_ref fs f + Z.of_nat (length fl) <= 2147483647) ->
  exists fs', dup_files fl fd j (mk_kernel s (<[j := q]> ps) np ip fs) =
      Ok (tt, mk_kernel s (<[j := set_ofile (overlay fd fl (p_ofile q)) q]> ps) np ip fs') /\
    fo_inv fs' /\ (forall g, g <> 0 -> fo_ref fs' g = fo_ref fs g + fcount g fl) /\ (forall c, fo_cwd fs' c = fo_cwd fs c).
Proof.
  induction fl as [|f fl IH]; intros fd j s ps q np ip fs Hj Hi Hr.
  { exists fs. split; [by destruct q|]. split_and!; auto. intros g _. unfold fcount. simpl. lia. }
  cbn [dup_files overlay]. destruct (Z.eqb_spec f 0) as [->|Hf]; cbn [negb].
  - rewrite bind_run, ret_run. destruct (IH (S fd) j s ps q np ip fs Hj Hi) as (fs' & E & I & R & C).
    { intros f' Hin Hf'. destruct (Hr f') as [? ?]; [by right|done|]. cbn [length] in *. lia. }
    exists fs'. split_and!; auto. intros g Hg. rewrite (R g Hg), fcount_cons. apply Z.eqb_neq in Hg. rewrite Hg. lia.
  - destruct (Hr f) as [Hpos Hmax]; [by left|done|]. cbn [length] in Hmax.
    destruct (filedup_ok fs f Hi ltac:(lia)) as (fs1 & E1 & I1 & R1 & C1).
    rewrite bind_run, (bind_Ok _ _ _ _ _ (files_run _ _ _ _ _ _ _ _ E1)), updp_run by done.
    destruct (IH (S fd) j s ps (set_ofile (<[fd := f]> (p_ofile q)) q) np ip fs1 Hj I1) as (fs' & E & I & R & C).
    { intros f' Hin Hf'. destruct (Hr f') as [? ?]; [by right|done|]. cbn [length] in *. rewrite R1. destruct (f' =? f); lia. }
    exists fs'. split; [exact E|]. split_and!; auto.
    + intros g Hg. rewrite (R g Hg), R1, fcount_cons. lia.
    + intros c. by rewrite C, C1.
Qed.

(** The child fork makes in slot [q]. *)
Definition child_of (i : nat) (pid tf pt : Z) p q : proc :=
  mk_proc RUNNABLE (p_chan q) (p_killed q) (p_xstate q) pid (Some i) (p_kstack q) (p_sz p) pt tf
    (mk_context forkret_addr (u64 (p_kstack q + PGSIZE)) (replicate 12 0))
    (overlay 0 (p_ofile p) (p_ofile q)) (p_cwd p) (name_copy 15 (p_name q) (p_name p)).

(** The memory part: what allocproc, uvmcopy and the copy of the registers
    leave for the child. *)
Lemma fork_memory s l ps i p j q s1 l1 tf pt :
  mem_ok s l ps -> ps !! i = Some p -> live p -> ps !! j = Some q -> p_state q = UNUSED ->
  kinv s1 l1 -> pages_step no_page (pm_mem s) l (pm_mem s1) l1 -> space_ok (pm_mem s1) l1 tf pt 0 ->
  (forall x, x ∈ l <-> x ∈ l1 \/ x = tf \/ held (pm_mem s1) pt 0 x) ->
  exists r s2 l2, uvmcopy (p_pagetable p) pt (p_sz p) s1 = Ok (r, s2) /\ kinv s2 l2 /\
    pages_step no_page (pm_mem s) l (pm_mem s2) l2 /\
    (r = -1 /\ space_ok (pm_mem s2) l2 tf pt 0 /\ (forall x, x ∈ l <-> x ∈ l2 \/ x = tf \/ held (pm_mem s2) pt 0 x) \/
     r = 0 /\ let s3 := set_mem (copy_regs (pm_mem s2) (p_trapframe p) tf) s2 in
       kinv s3 l2 /\ pages_step no_page (pm_mem s) l (pm_mem s3) l2 /\ space_ok (pm_mem s3) l2 tf pt (p_sz p) /\
       (forall x, x ∈ l <-> x ∈ l2 \/ x = tf \/ held (pm_mem s3) pt (npages (p_sz p)) x) /\
       copied (pm_mem s) (p_pagetable p) pt (pm_mem s3) 0 (npages (p_sz p)) /\
       child_regs (pm_mem s) (pm_mem s3) (p_trapframe p) tf).
Proof.
  intros Hm Ei Hl Ej Eu Hk1 St1 Hok1 P1.
  pose proof (mo_proc _ _ _ Hm i p Ei) as Hp. unfold proc_ok in Hp. rewrite decide_False in Hp by exact Hl.
  pose proof (so_sz _ _ _ _ _ Hp) as Hsz.
  destruct (space_frame no_page _ _ _ _ _ _ _ St1 Hp) as (Hp1 & Hh1 & M1 & U1 & T1); [by intros ? ? []|].
  assert (Hnf : forall x, held (pm_mem s1) (p_pagetable p) (npages (p_sz p)) x \/ x = p_trapframe p -> x ∉ l).
  { intros x Hx. apply (space_page_ok _ _ _ _ _ x Hp). rewrite Hh1 in Hx. tauto. }
  assert (Hap : apart (pm_mem s1) pt 0%nat (p_pagetable p) (npages (p_sz p))).
  { intros x Hx Hx2. apply (Hnf x); [by left|]. apply P1. tauto. }
  destruct (uvmcopy_run (p_pagetable p) pt s1 l1 (p_sz p) Hk1 (so_wf _ _ _ _ _ Hp1) (so_wf _ _ _ _ _ Hok1) Hap ltac:(lia))
    as (r & s2 & l2 & E2 & Hr). exists r, s2, l2. split; [exact E2|].
  assert (Htr : forall s' l' n', uvm_move pt s1 l1 0 s' l' n' ->
            kinv s' l' /\ pages_step no_page (pm_mem s) l (pm_mem s') l' /\
            (forall x, x ∈ l <-> x ∈ l' \/ x = tf \/ held (pm_mem s') pt n' x)).
  { intros s' l' n' [K _ P S _ _]. split; [exact K|]. split.
    - eapply pages_step_trans; [exact St1| |]; [split; [intros x Hx; apply P; by left|exact S]|].
      intros x Hx. left. apply P1. tauto.
    - intros x. rewrite P1. pose proof (P x). tauto. }
  destruct Hr as [(-> & Hmv & Hcp)|[-> Hmv]].
  - destruct (Htr _ _ _ Hmv) as (K2 & St2 & P2). split; [done|]. split; [done|]. right. split; [done|]. cbv zeta.
    destruct (space_move tf pt s1 l1 0 s2 l2 (p_sz p) Hok1 Hmv Hsz) as [Hok2 _].
    destruct (copy_regs_spec (pm_mem s2) (p_trapframe p) tf) as [So [R1 R2]]. set (m3 := copy_regs _ _ _) in *.
    destruct (space_tf_write _ _ _ m3 _ _ Hok2 So) as (Hok3 & St3 & Hh3 & M3 & U3). pose proof (so_tf _ _ _ _ _ Hok2) as [Htf Hntf].
    assert (Htfl : tf ∈ l) by (apply P1; tauto).
    destruct (space_frame no_page _ _ _ _ _ _ _ St2 Hp) as (Hp2 & _ & M2 & U2 & T2); [by intros ? ? []|].
    split_and!; cbn [pm_mem set_mem].
    + apply (kinv_same_outside s2 l2 tf); auto. apply Htf.
    + eapply pages_step_trans; [exact St2|exact St3|]. intros x ->. by left.
    + exact Hok3.
    + intros x. rewrite Hh3. apply P2.
    + intros va Hva. pose proof (Hcp va Hva) as (C1 & C2 & C3). rewrite M3, U3 by lia. rewrite M1 in C2. rewrite U1 in C3 by lia. auto.
    + split; [|exact R2]. intros o Ho Hne. cbn [pm_mem set_mem]. rewrite R1 by done. apply T2. unfold PGSIZE. lia.
  - destruct (Htr _ _ _ Hmv) as (K2 & St2 & P2). split; [done|]. split; [done|]. left. split; [done|]. split; [|exact P2].
    apply (space_move tf pt s1 l1 0 s2 l2 0 Hok1 Hmv). rewrite TRAPFRAME_val. lia.
Qed.

(** What fork needs of the file layer for process [p]. *)
Definition refs_ok (fs : F) p : Prop :=
  fo_inv fs /\ 0 < fo_cwd fs (p_cwd p) < 2147483647 /\
  forall f, f ∈ p_ofile p -> f <> 0 -> 0 < fo_ref fs f /\ fo_ref fs f + Z.of_nat (length (p_ofile p)) <= 2147483647.

Lemma fork_run s l ps np ip fs i p :
  mem_ok s l ps -> ps !! i = Some p -> live p -> refs_ok fs p ->
  match list_find (fun p => p_state p = UNUSED) ps with
  | None => fork i (mk_kernel s ps np ip fs) = Ok (-1, mk_kernel s ps np ip fs)
  | Some (j, q) => exists s' l', kinv s' l' /\ pages_step no_page (pm_mem s) l (pm_mem s') l' /\
      ((exists ctx, fork i (mk_kernel s ps np ip fs) =
           Ok (-1, mk_kernel s' (<[j := cleared (set_context ctx q)]> ps) (s32 (np + 1)) ip fs)) /\
         (forall x, x ∈ l' <-> x ∈ l) \/
       exists tf pt fs', fork i (mk_kernel s ps np ip fs) =
           Ok (np, mk_kernel s' (<[j := child_of i np tf pt p q]> ps) (s32 (np + 1)) ip fs') /\
         space_ok (pm_mem s') l' tf pt (p_sz p) /\
         (forall x, x ∈ l <-> x ∈ l' \/ x = tf \/ held (pm_mem s') pt (npages (p_sz p)) x) /\
         copied (pm_mem s) (p_pagetable p) pt (pm_mem s') 0 (npages (p_sz p)) /\
         child_regs (pm_mem s) (pm_mem s') (p_trapframe p) tf /\ fo_inv fs' /\
         (forall g, g <> 0 -> fo_ref fs' g = fo_ref fs g + fcount g (p_ofile p)) /\
         (forall c, fo_cwd fs' c = fo_cwd fs c + if c =? p_cwd p then 1 else 0))
  end.
Proof.
  intros Hm Ei Hl (Hfi & Hcwd & Hrf). pose proof (allocproc_run s l ps np ip fs Hm) as Ha.
  destruct (list_find (fun p => p_state p = UNUSED) ps) as [[j q]|] eqn:Ef; [|unfold fork; by rewrite (bind_Ok _ _ _ _ _ Ha)].
  apply list_find_Some in Ef as (Ej & Eu & _). pose proof (lookup_lt_Some _ _ _ Ej) as Hlt.
  assert (Hij : i <> j) by (intros ->; rewrite Ei in Ej; injection Ej as <-; done).
  destruct Ha as (s1 & l1 & Hk1 & St1 & [[E1 P1]|(tf & pt & E1 & Hok1 & P1)]).
  { exists s1, l1. split_and!; auto. left. split; [|done]. exists (p_context q). unfold fork. rewrite (bind_Ok _ _ _ _ _ E1). reflexivity. }
  destruct (fork_memory s l ps i p j q s1 l1 tf pt) as (r & s2 & l2 & E2 & Hk2 & St2 & Hr); auto.
  pose proof (mo_proc _ _ _ Hm j q Ej) as Hq. unfold proc_ok in Hq. rewrite decide_True in Hq by done. destruct Hq as (_ & _ & Esz).
  unfold fork. rewrite (bind_Ok _ _ _ _ _ E1), bind_run, (getp_other _ _ _ _ _ p) by done. rewrite bind_run, getp_run by done.
  cbn [p_pagetable fresh_proc p_trapframe p_pid]. rewrite (bind_Ok _ _ _ _ _ (pm_run _ _ _ _ _ _ _ _ E2)).
  destruct Hr as [(-> & Hok2 & P2)|(-> & Hk3 & St3 & Hok3 & P3 & Cp & Rg)]; cbn [Z.ltb Z.compare].
  - destruct (freeproc_run j s2 l2 ps (fresh_proc np tf pt q) (s32 (np + 1)) ip fs (fun x => x = tf \/ held (pm_mem s2) pt 0 x) Hlt Hk2)
      as (s3 & l3 & E3 & Hk3 & St3 & P3).
    { right. right. cbn [p_trapframe p_pagetable p_sz fresh_proc]. rewrite Esz. change (npages 0) with 0%nat. split; [done|]. tauto. }
    rewrite (bind_Ok _ _ _ _ _ E3). exists s3, l3. split_and!; auto.
    + eapply pages_step_trans; [exact St2|exact St3|]. intros x Hx. left. apply P2. tauto.
    + left. split; [eexists; reflexivity|]. intros x. rewrite P3, P2. tauto.
  - set (s3 := set_mem _ s2) in *. exists s3, l2. split_and!; auto. right. exists tf, pt.
    rewrite bind_run, updp_run by done. do 2 rewrite (bind_Ok _ _ _ _ _ (pm_run (modify _) _ _ _ _ _ _ _ eq_refl)).
    change (upd_mem _ (upd_mem _ s2)) with s3.
    destruct (dup_files_run (p_ofile p) 0 j s3 ps (set_sz (p_sz p) (fresh_proc np tf pt q)) (s32 (np + 1)) ip fs Hlt Hfi Hrf) as (fs1 & E4 & I4 & R4 & C4).
    rewrite (bind_Ok _ _ _ _ _ E4). destruct (idup_ok fs1 (p_cwd p) I4) as (fs2 & E5 & I5 & R5 & C5); [by rewrite C4|].
    rewrite (bind_Ok _ _ _ _ _ (files_run _ _ _ _ _ _ _ _ E5)). do 4 (rewrite bind_run, updp_run by done).
    exists fs2. split; [reflexivity|]. split_and!; auto.
    + intros g Hg. by rewrite R5, R4.
    + intros c. by rewrite C5, C4.
Qed.

End fork.
