(* ===== verification/ProcProps.v ===== *)
(** Processes: the invariant of the process table, and what fork, exit, wait,
    kill and growproc do. *)

From S2P Require Import Prelude Memory Riscv Kalloc Vm VmTable VmSpace VmUser VmFree VmCopy Kvm VmProps ProcMem Proc ProcInv.

(** ** Sums over the table *)

Fixpoint psum (f : proc -> Z) (ps : list proc) : Z :=
  match ps with [] => 0 | p :: ps => f p + psum f ps end.

Lemma psum_insert f ps : forall i p p', ps !! i = Some p -> psum f (<[i := p']> ps) = psum f ps - f p + f p'.
Proof.
  induction ps as [|x ps IH]; intros [|i] p p' Hi; simplify_eq/=; [lia|]. rewrite (IH i p p' Hi). lia.
Qed.

Lemma psum_nonneg f ps : (forall p, 0 <= f p) -> 0 <= psum f ps.
Proof. intros Hf. induction ps as [|x ps IH]; simpl; [lia|]. specialize (Hf x). lia. Qed.

Lemma psum_ge f ps i p : (forall p, 0 <= f p) -> ps !! i = Some p -> f p <= psum f ps.
Proof.
  intros Hf. revert i. induction ps as [|x ps IH]; intros [|i] Hi; simplify_eq/=.
  - pose proof (psum_nonneg f ps Hf). lia.
  - specialize (IH i Hi). specialize (Hf x). lia.
Qed.

Lemma psum_le f ps b : (forall p, p ∈ ps -> f p <= b) -> psum f ps <= Z.of_nat (length ps) * b.
Proof.
  induction ps as [|x ps IH]; intros Hb; simpl; [lia|]. pose proof (Hb x ltac:(by left)).
  assert (psum f ps <= Z.of_nat (length ps) * b) by (apply IH; intros p Hp; apply Hb; by right). lia.
Qed.

Lemma psum_ext f g ps ps' : Forall2 (fun p p' => f p = g p') ps ps' -> psum f ps = psum g ps'.
Proof. induction 1; simpl; congruence. Qed.

Lemma set_sz_id p : set_sz (p_sz p) p = p.
Proof. by destruct p. Qed.

Definition active (p : proc) : Prop := p_state p <> UNUSED /\ p_state p <> ZOMBIE.

Definition cwd_count (c : Z) (p : proc) : Z := if c =? p_cwd p then 1 else 0.

Section props.
Context `{KernelImageOk} {F : Type} `{FileOpsOk F}.
Implicit Types (k : kernel F) (p : proc).

(** A slot on its own: an unused slot is clean, the descriptors of a process
    that has exited are closed. *)
Record slot_ok (next : Z) p : Prop := {
  sl_used : p_state p <> USED;
  sl_ofile : length (p_ofile p) = 16%nat;
  sl_closed : ~ active p -> p_ofile p = replicate 16 0 /\ p_cwd p = 0;
  sl_cwd : active p -> p_cwd p <> 0;
  sl_pid : live p -> 0 < p_pid p < next;
  sl_unused : ~ live p -> p_pid p = 0 /\ p_parent p = None;
}.

(** The process table: no page is held twice, reference counts are exact,
    pids are distinct, and every process but init has a parent that has not
    exited. *)
Record kernel_ok k (l : list Z) : Prop := {
  ko_len : length (k_procs k) = 64%nat;
  ko_mem : mem_ok (k_pm k) l (k_procs k);
  ko_next : 0 < k_nextpid k < 2147483648;
  ko_slot : forall i p, k_procs k !! i = Some p -> slot_ok (k_nextpid k) p;
  ko_files : fo_inv (k_files k);
  ko_ref : forall g, g <> 0 -> fo_ref (k_files k) g = psum (fun p => fcount g (p_ofile p)) (k_procs k);
  ko_cwd : forall c, c <> 0 -> fo_cwd (k_files k) c = psum (cwd_count c) (k_procs k);
  ko_pid : forall i j p q, k_procs k !! i = Some p -> k_procs k !! j = Some q -> live p -> live q ->
    p_pid p = p_pid q -> i = j;
  ko_init : exists i p, k_initproc k = Some i /\ k_procs k !! i = Some p /\ active p;
  ko_parent : forall j q, k_procs k !! j = Some q -> live q -> k_initproc k <> Some j ->
    exists i p, p_parent q = Some i /\ k_procs k !! i = Some p /\ active p;
}.

(** Every page is free or held by a process, before and after. *)
Definition same_pages_total (k : kernel F) (l : list Z) (k' : kernel F) (l' : list Z) : Prop :=
  forall q, (q ∈ l \/ exists i p, k_procs k !! i = Some p /\ pheld (pm_mem (k_pm k)) p q) <->
            (q ∈ l' \/ exists i p, k_procs k' !! i = Some p /\ pheld (pm_mem (k_pm k')) p q).

Lemma fcount_zero g n : g <> 0 -> fcount g (replicate n 0) = 0.
Proof.
  intros Hg. induction n as [|n IH]; [done|]. cbn [replicate]. rewrite fcount_cons, IH. apply Z.eqb_neq in Hg. by rewrite Hg.
Qed.

(** What the invariant says about a process that may call fork. *)
Lemma kernel_refs k l i p : kernel_ok k l -> k_procs k !! i = Some p -> active p -> refs_ok (k_files k) p.
Proof.
  intros Hk Ei Ha. pose proof (ko_slot _ _ Hk i p Ei) as Hs. pose proof (sl_cwd _ _ Hs Ha) as Hc.
  split; [apply Hk|]. split.
  - rewrite (ko_cwd _ _ Hk) by done.
    pose proof (psum_ge (cwd_count (p_cwd p)) (k_procs k) i p ltac:(intros; unfold cwd_count; case_match; lia) Ei) as Hge.
    pose proof (psum_le (cwd_count (p_cwd p)) (k_procs k) 1 ltac:(intros; unfold cwd_count; case_match; lia)) as Hle.
    unfold cwd_count at 1 in Hge. rewrite Z.eqb_refl in Hge. rewrite (ko_len _ _ Hk) in Hle. lia.
  - intros f Hf Hf0. rewrite (ko_ref _ _ Hk), (sl_ofile _ _ Hs) by done.
    pose proof (psum_ge (fun p => fcount f (p_ofile p)) (k_procs k) i p ltac:(intros; apply fcount_nonneg) Ei) as Hge. cbv beta in Hge.
    pose proof (psum_le (fun p => fcount f (p_ofile p)) (k_procs k) 16) as Hle. rewrite (ko_len _ _ Hk) in Hle.
    assert (Hpos : 0 < fcount f (p_ofile p)).
    { unfold fcount. destruct (filter (fun x => x = f) (p_ofile p)) eqn:E; [|simpl; lia].
      exfalso. eapply (filter_nil_not_elem_of (fun x => x = f)); [exact E|done|exact Hf]. }
    split; [lia|]. assert (psum (fun p => fcount f (p_ofile p)) (k_procs k) <= Z.of_nat 64 * 16); [|lia].
    apply Hle. intros p' [j Hj]%list_elem_of_lookup. pose proof (fcount_nonneg f (p_ofile p')).
    rewrite (sl_ofile _ _ (ko_slot _ _ Hk j p' Hj)) in *. lia.
Qed.

(** Replacing one slot. *)
Record slot_step (s : pmem) (l : list Z) (q : proc) (s' : pmem) (l' : list Z) (q' : proc) : Prop := {
  ss_kinv : kinv s' l';
  ss_step : pages_step (pheld (pm_mem s) q) (pm_mem s) l (pm_mem s') l';
  ss_ok : proc_ok (pm_mem s') l' q';
  ss_pages : forall x, x ∈ l \/ pheld (pm_mem s) q x <-> x ∈ l' \/ pheld (pm_mem s') q' x;
}.

Lemma lookup_insert_cases (ps : list proc) j q' i p :
  (j < length ps)%nat -> <[j := q']> ps !! i = Some p -> i = j /\ p = q' \/ i <> j /\ ps !! i = Some p.
Proof.
  intros Hj Hi. destruct (decide (i = j)) as [->|Hne].
  - rewrite list_lookup_insert_eq in Hi by done. left. split; congruence.
  - rewrite list_lookup_insert_ne in Hi by done. auto.
Qed.

Lemma slot_step_total k l j q s' l' q' np ip fs :
  kernel_ok k l -> k_procs k !! j = Some q -> slot_step (k_pm k) l q s' l' q' ->
  mem_ok s' l' (<[j := q']> (k_procs k)) /\ same_pages_total k l (mk_kernel s' (<[j := q']> (k_procs k)) np ip fs) l' /\
  (forall i p, i <> j -> k_procs k !! i = Some p -> live p -> same_space (pm_mem (k_pm k)) (pm_mem s') p).
Proof.
  intros Hk Ej [Hk' St Hok Hpg]. pose proof (ko_mem _ _ Hk) as Hm. pose proof (lookup_lt_Some _ _ _ Ej) as Hlt.
  destruct (table_update _ _ _ j q s' l' q' Hm Ej St Hk' Hok) as [Hm' Hsame].
  { intros x Hx. apply Hpg. by right. }
  assert (Hother : forall i p, i <> j -> k_procs k !! i = Some p -> forall x, pheld (pm_mem s') p x <-> pheld (pm_mem (k_pm k)) p x).
  { intros i p Hne Ei. eapply proc_frame; [exact St|by eapply (mo_proc _ _ _ Hm)|]. intros x Hx. by eapply (mo_apart _ _ _ Hm i j). }
  split_and!; auto. intros x. cbn [k_procs k_pm]. split.
  - intros [Hx|(i & p & Ei & Hx)].
    + destruct (proj1 (Hpg x)) as [?|?]; [by left|by left|]. right. exists j, q'. split; [|done]. by rewrite list_lookup_insert_eq.
    + destruct (decide (i = j)) as [->|Hne].
      * rewrite Ej in Ei. injection Ei as <-. destruct (proj1 (Hpg x)) as [?|?]; [by right|by left|]. right. exists j, q'. split; [|done]. by rewrite list_lookup_insert_eq.
      * right. exists i, p. rewrite list_lookup_insert_ne by done. split; [done|]. by apply (Hother i p).
  - intros [Hx|(i & p & Ei & Hx)].
    + destruct (proj2 (Hpg x)) as [?|?]; [by left|by left|]. right. by exists j, q.
    + destruct (lookup_insert_cases _ _ _ _ _ Hlt Ei) as [[-> ->]|[Hne Ei']].
      * destruct (proj2 (Hpg x)) as [?|?]; [by right|by left|]. right. by exists j, q.
      * right. exists i, p. split; [done|]. by apply (Hother i p).
Qed.

Lemma kernel_update k l j q s' l' q' np fs :
  kernel_ok k l -> k_procs k !! j = Some q -> slot_step (k_pm k) l q s' l' q' ->
  k_nextpid k <= np < 2147483648 -> slot_ok np q' ->
  fo_inv fs -> (forall g, g <> 0 -> fo_ref fs g = fo_ref (k_files k) g - fcount g (p_ofile q) + fcount g (p_ofile q')) ->
  (forall c, c <> 0 -> fo_cwd fs c = fo_cwd (k_files k) c - cwd_count c q + cwd_count c q') ->
  (live q' -> forall i p, i <> j -> k_procs k !! i = Some p -> live p -> p_pid p <> p_pid q') ->
  (k_initproc k = Some j -> active q') ->
  (live q' -> k_initproc k <> Some j -> exists i p, p_parent q' = Some i /\ <[j := q']> (k_procs k) !! i = Some p /\ active p) ->
  (forall i p, i <> j -> k_procs k !! i = Some p -> live p -> k_initproc k <> Some i -> p_parent p = Some j -> active q') ->
  kernel_ok (mk_kernel s' (<[j := q']> (k_procs k)) np (k_initproc k) fs) l' /\
  same_pages_total k l (mk_kernel s' (<[j := q']> (k_procs k)) np (k_initproc k) fs) l'.
Proof.
  intros Hk Ej Hss Hnp Hsl Hfi Href Hcwd Hpid Hin Hpar Hch. pose proof (lookup_lt_Some _ _ _ Ej) as Hlt.
  destruct (slot_step_total k l j q s' l' q' np (k_initproc k) fs Hk Ej Hss) as (Hm & Htot & _). split; [|exact Htot].
  split; cbn [k_procs k_pm k_nextpid k_initproc k_files]; auto.
  - rewrite length_insert. apply Hk.
  - pose proof (ko_next _ _ Hk). lia.
  - intros i p Ei. destruct (lookup_insert_cases _ _ _ _ _ Hlt Ei) as [[-> ->]|[Hne Ei']]; [done|].
    destruct (ko_slot _ _ Hk i p Ei') as [S1 S2 S3 S4 S5 S6]. split; auto. intros Hl. specialize (S5 Hl). lia.
  - intros g Hg. rewrite (psum_insert _ _ j q q' Ej), (Href g Hg), (ko_ref _ _ Hk g Hg). done.
  - intros c Hc. rewrite (psum_insert _ _ j q q' Ej), (Hcwd c Hc), (ko_cwd _ _ Hk c Hc). done.
  - intros i1 i2 p1 p2 E1 E2 L1 L2 Epid.
    destruct (lookup_insert_cases _ _ _ _ _ Hlt E1) as [[-> ->]|[N1 E1']], (lookup_insert_cases _ _ _ _ _ Hlt E2) as [[-> ->]|[N2 E2']]; auto.
    + exfalso. by apply (Hpid L1 i2 p2 N2 E2' L2).
    + exfalso. by apply (Hpid L2 i1 p1 N1 E1' L1).
    + by apply (ko_pid _ _ Hk i1 i2 p1 p2).
  - destruct (ko_init _ _ Hk) as (i & p & Ei & Ep & Ha). destruct (decide (i = j)) as [->|Hne].
    + exists j, q'. split_and!; auto; [by rewrite list_lookup_insert_eq|by apply Hin..].
    + exists i, p. split_and!; auto; [by rewrite list_lookup_insert_ne|apply Ha..].
  - intros i p Ei Hl Hni. destruct (lookup_insert_cases _ _ _ _ _ Hlt Ei) as [[-> ->]|[Hne Ei']].
    + by apply Hpar.
    + destruct (ko_parent _ _ Hk i p Ei' Hl Hni) as (i2 & p2 & Epar & E2 & A2). destruct (decide (i2 = j)) as [->|N2].
      * exists j, q'. split; [done|]. split; [by rewrite list_lookup_insert_eq|]. by apply (Hch i p).
      * exists i2, p2. split; [done|]. split; [by rewrite list_lookup_insert_ne|done].
Qed.

Lemma overlay_zero fl : forall pre, overlay (length pre) fl (pre ++ replicate (length fl) 0) = pre ++ fl.
Proof.
  induction fl as [|f fl IH]; intros pre; cbn [overlay length replicate]; [done|].
  assert (E : (if f =? 0 then pre ++ 0 :: replicate (length fl) 0 else <[length pre := f]> (pre ++ 0 :: replicate (length fl) 0)) = (pre ++ [f]) ++ replicate (length fl) 0).
  { destruct (Z.eqb_spec f 0) as [->|]; [by rewrite <- app_assoc|].
    rewrite <- app_assoc. replace (length pre) with (length pre + 0)%nat at 1 by lia. rewrite insert_app_r. done. }
  rewrite E. specialize (IH (pre ++ [f])). rewrite length_app in IH. cbn [length] in IH. rewrite Nat.add_1_r in IH.
  rewrite IH, <- app_assoc. done.
Qed.

Lemma slot_step_id s l p p' :
  kinv s l -> proc_ok (pm_mem s) l p' -> (forall x, pheld (pm_mem s) p' x <-> pheld (pm_mem s) p x) -> slot_step s l p s l p'.
Proof. intros Hk Hp Hh. split; auto using pages_step_refl. intros x. by rewrite Hh. Qed.

Lemma proc_ok_live m l p : live p -> proc_ok m l p <-> space_ok m l (p_trapframe p) (p_pagetable p) (p_sz p).
Proof. intros Hl. unfold proc_ok. by rewrite decide_False by exact Hl. Qed.

Lemma pheld_unused m p x : p_state p = UNUSED -> ~ pheld m p x.
Proof. intros E [Hl _]. by apply Hl. Qed.

Section unused_slot.
Context (k : kernel F) (l : list Z) (j : nat) (q : proc).
Hypotheses (Hk : kernel_ok k l) (Ej : k_procs k !! j = Some q) (Eu : p_state q = UNUSED).

Lemma unused_not_init : k_initproc k <> Some j.
Proof using All.
  destruct (ko_init _ _ Hk) as (i0 & p0 & E0 & Ep0 & A0). rewrite E0. intros [= ->]. rewrite Ej in Ep0. injection Ep0 as <-. by destruct A0.
Qed.

Lemma unused_no_child i p : k_procs k !! i = Some p -> live p -> k_initproc k <> Some i -> p_parent p <> Some j.
Proof using All.
  intros E L N Ep. destruct (ko_parent _ _ Hk i p E L N) as (i2 & p2 & E2 & Ep2 & A2). rewrite Ep in E2. injection E2 as <-.
  rewrite Ej in Ep2. injection Ep2 as <-. by destruct A2.
Qed.

Lemma unused_other i p : k_procs k !! i = Some p -> live p -> i <> j.
Proof using Ej Eu. intros E L ->. rewrite Ej in E. injection E as <-. done. Qed.

Lemma unused_closed : p_ofile q = replicate 16 0 /\ p_cwd q = 0.
Proof using All. apply (sl_closed _ _ (ko_slot _ _ Hk j q Ej)). intros []. done. Qed.

(** What a change of the slot leaves alone. *)
Lemma unused_frame s' l' q' :
  slot_step (k_pm k) l q s' l' q' ->
  forall i p, k_procs k !! i = Some p -> live p ->
    <[j := q']> (k_procs k) !! i = Some p /\ same_space (pm_mem (k_pm k)) (pm_mem s') p.
Proof using All.
  intros Hss i p Ei Hl. pose proof (unused_other i p Ei Hl) as Hne. rewrite list_lookup_insert_ne by done. split; [done|].
  destruct (slot_step_total k l j q s' l' q' 0 None (k_files k) Hk Ej Hss) as (_ & _ & Hsame). by apply (Hsame i).
Qed.

(** fork failed: the slot is as before. *)
Lemma fork_failed s' l' ctx :
  kinv s' l' -> pages_step no_page (pm_mem (k_pm k)) l (pm_mem s') l' -> (forall x, x ∈ l' <-> x ∈ l) -> k_nextpid k < 2147483647 ->
  slot_step (k_pm k) l q s' l' (cleared (set_context ctx q)) /\
  kernel_ok (mk_kernel s' (<[j := cleared (set_context ctx q)]> (k_procs k)) (k_nextpid k + 1) (k_initproc k) (k_files k)) l' /\
  same_pages_total k l (mk_kernel s' (<[j := cleared (set_context ctx q)]> (k_procs k)) (k_nextpid k + 1) (k_initproc k) (k_files k)) l'.
Proof using All.
  intros Hk' St Hp Hnp. pose proof (ko_next _ _ Hk) as Hn0. destruct unused_closed as [Eof Ecw].
  assert (Hss : slot_step (k_pm k) l q s' l' (cleared (set_context ctx q))).
  { destruct (cleared_ok (pm_mem s') l' (set_context ctx q)) as [C1 C2]. split; auto; [eapply pages_step_weaken; [|exact St]; done|].
    intros x. rewrite Hp. specialize (C2 x). pose proof (pheld_unused (pm_mem (k_pm k)) q x Eu). tauto. }
  split; [done|]. refine (kernel_update _ l j q s' l' _ _ _ Hk Ej Hss _ _ _ _ _ _ _ _ _); [lia|..].
  - destruct (ko_slot _ _ Hk j q Ej) as [Q1 Q2 Q3 Q4 Q5 Q6]. split; cbn; auto; try done; by intros [].
  - apply Hk.
  - intros g Hg. cbn. lia.
  - intros c Hc. unfold cwd_count. cbn. lia.
  - by intros [].
  - intros E. by apply unused_not_init in E.
  - by intros [].
  - intros i p N E L I P. exfalso. by eapply unused_no_child.
Qed.

(** fork succeeded: the slot holds the child of process [i]. *)
Lemma fork_done i p s' l' tf pt fs' :
  k_procs k !! i = Some p -> active p -> kinv s' l' -> pages_step no_page (pm_mem (k_pm k)) l (pm_mem s') l' ->
  space_ok (pm_mem s') l' tf pt (p_sz p) ->
  (forall x, x ∈ l <-> x ∈ l' \/ x = tf \/ held (pm_mem s') pt (npages (p_sz p)) x) -> fo_inv fs' ->
  (forall g, g <> 0 -> fo_ref fs' g = fo_ref (k_files k) g + fcount g (p_ofile p)) ->
  (forall c, fo_cwd fs' c = fo_cwd (k_files k) c + if c =? p_cwd p then 1 else 0) -> k_nextpid k < 2147483647 ->
  let c := child_of i (k_nextpid k) tf pt p q in
  p_ofile c = p_ofile p /\ slot_step (k_pm k) l q s' l' c /\
  kernel_ok (mk_kernel s' (<[j := c]> (k_procs k)) (k_nextpid k + 1) (k_initproc k) fs') l' /\
  same_pages_total k l (mk_kernel s' (<[j := c]> (k_procs k)) (k_nextpid k + 1) (k_initproc k) fs') l'.
Proof using All.
  intros Ei Ha Hk' St Hok Hp Hfi Hre Hcw Hnp c. pose proof (ko_next _ _ Hk) as Hn0. destruct unused_closed as [Eof Ecw].
  pose proof (ko_slot _ _ Hk i p Ei) as Hpi. pose proof (unused_other i p Ei (proj1 Ha)) as Hij.
  assert (Eofc : p_ofile c = p_ofile p).
  { cbn. rewrite Eof. pose proof (overlay_zero (p_ofile p) []) as Eo. rewrite (sl_ofile _ _ Hpi) in Eo. exact Eo. }
  assert (Hss : slot_step (k_pm k) l q s' l' c).
  { split; auto; [eapply pages_step_weaken; [|exact St]; done|]. intros x. unfold pheld at 2.
    cbn [p_trapframe p_pagetable p_sz c child_of]. rewrite Hp. pose proof (pheld_unused (pm_mem (k_pm k)) q x Eu). assert (live c) by done. tauto. }
  split; [done|]. split; [done|]. refine (kernel_update _ l j q s' l' _ _ _ Hk Ej Hss _ _ _ _ _ _ _ _ _); [lia|..].
  - split; rewrite ?Eofc; try done.
    + apply Hpi.
    + intros Hna. exfalso. by apply Hna.
    + intros _. cbn. by apply (sl_cwd _ _ Hpi).
    + intros _. cbn. lia.
    + intros Hnl. exfalso. by apply Hnl.
  - done.
  - intros g Hg. rewrite (Hre g Hg), Eofc, Eof, fcount_zero by done. lia.
  - intros c0 Hc0. rewrite Hcw. unfold cwd_count. cbn [p_cwd c child_of]. rewrite Ecw. apply Z.eqb_neq in Hc0. rewrite Hc0. lia.
  - intros _ i' p' N' E' L'. pose proof (sl_pid _ _ (ko_slot _ _ Hk i' p' E') L') as Hpd. cbn. lia.
  - intros E. by apply unused_not_init in E.
  - intros _ _. exists i, p. rewrite list_lookup_insert_ne by done. by split_and!.
  - done.
Qed.

End unused_slot.

(** (C35) fork: either it fails with -1, returning every page it took, or it
    makes one new process with a fresh pid, the caller as its parent, the
    caller's memory (same permissions and bytes, in pages of its own), the
    caller's registers except that fork returns 0 in the child, and the
    caller's open files and current directory with their reference counts
    raised.  Every other process keeps its memory and state, and the
    invariant of the process table is preserved. *)
Theorem fork_correct k l i p :
  kernel_ok k l -> k_procs k !! i = Some p -> p_state p = RUNNING -> k_nextpid k < 2147483647 ->
  exists r k' l', fork i k = Ok (r, k') /\ kernel_ok k' l' /\ same_pages_total k l k' l' /\
    (forall j q, k_procs k !! j = Some q -> live q -> k_procs k' !! j = Some q /\ same_space (pm_mem (k_pm k)) (pm_mem (k_pm k')) q) /\
    (r = -1 /\ (forall x, x ∈ l' <-> x ∈ l) \/
     r = k_nextpid k /\ exists j c, (exists q, k_procs k !! j = Some q /\ p_state q = UNUSED) /\ k_procs k' !! j = Some c /\
       p_state c = RUNNABLE /\ p_pid c = r /\ p_parent c = Some i /\ p_sz c = p_sz p /\ p_ofile c = p_ofile p /\ p_cwd c = p_cwd p /\
       copied (pm_mem (k_pm k)) (p_pagetable p) (p_pagetable c) (pm_mem (k_pm k')) 0 (npages (p_sz p)) /\
       child_regs (pm_mem (k_pm k)) (pm_mem (k_pm k')) (p_trapframe p) (p_trapframe c)).
Proof.
  intros Hk Ei Er Hnp. assert (Ha : active p) by (unfold active; rewrite Er; done).
  pose proof (kernel_refs k l i p Hk Ei Ha) as Hrf. pose proof (ko_next _ _ Hk) as Hn0.
  pose proof (fork_run (k_pm k) l (k_procs k) (k_nextpid k) (k_initproc k) (k_files k) i p (ko_mem _ _ Hk) Ei (proj1 Ha) Hrf) as Hf.
  assert (Ek : mk_kernel (k_pm k) (k_procs k) (k_nextpid k) (k_initproc k) (k_files k) = k) by by destruct k. rewrite Ek in Hf.
  destruct (list_find (fun p => p_state p = UNUSED) (k_procs k)) as [[j q]|] eqn:Ef; cycle 1.
  { exists (-1), k, l. split; [exact Hf|]. split; [done|]. split; [done|]. split; [|by left]. intros j' q' Ej' _. by split_and!. }
  apply list_find_Some in Ef as (Ej & Eu & _). pose proof (lookup_lt_Some _ _ _ Ej) as Hlt.
  rewrite (s32_small (k_nextpid k + 1)) in Hf by lia. destruct Hf as (s' & l' & Hk' & St & Hf).
  destruct Hf as [[(ctx & Ef) Hp]|(tf & pt & fs' & Ef & Hok & Hp & Hcp & Hrg & Hfi & Hre & Hcw)]; eexists _, _, l'; (split; [exact Ef|]).
  - destruct (fork_failed k l j q Hk Ej Eu s' l' ctx) as (Hss & Hk2 & Htot); auto. split; [exact Hk2|]. split; [exact Htot|].
    split; [|by left]. by apply (unused_frame k l j q Hk Ej Eu s' l').
  - destruct (fork_done k l j q Hk Ej Eu i p s' l' tf pt fs') as (Eof & Hss & Hk2 & Htot); auto. split; [exact Hk2|]. split; [exact Htot|].
    split; [by apply (unused_frame k l j q Hk Ej Eu s' l')|].
    right. split; [done|]. exists j, (child_of i (k_nextpid k) tf pt p q). cbn [k_procs k_pm]. split; [by exists q|].
    split; [by rewrite list_lookup_insert_eq|]. by split_and!.
Qed.

(** ** Memory size *)

Lemma length_frames m root a n : length (frames m root a n) = n.
Proof. revert a. induction n as [|n IH]; intros a; simpl; [done|]. by rewrite IH. Qed.

(** A process has at most the 128 megabytes of RAM. *)
Lemma uvm_ram_bound m root l n : uvm_wf m root l n -> Z.of_nat n <= 32768.
Proof.
  intros Hw. pose proof (uvm_NoDup m root l n 0 n Hw ltac:(lia)) as Hnd. set (fr := frames m root _ n) in Hnd.
  assert (Hok : forall q, q ∈ fr -> page_ok q).
  { intros q Hq. apply elem_of_frames in Hq as (i & Hi & ->).
    destruct (uvm_mapped _ _ _ _ Hw (Z.of_nat 0 * 4096 + Z.of_nat i * 4096)) as (_ & _ & H3); [lia|]. by destruct (H3 eq_refl). }
  assert (Hr : forall q, q ∈ fr -> 0 <= (q - KERNBASE) / 4096 < 32768 /\ q = KERNBASE + (q - KERNBASE) / 4096 * 4096).
  { intros q Hq. pose proof (page_ok_range q (Hok q Hq)) as Hrg. destruct (Hok q Hq) as [Hal _]. unfold PHYSTOP, KERNBASE, PGSIZE in *.
    Z.div_mod_to_equations. lia. }
  assert (Hnd2 : NoDup ((fun q => (q - KERNBASE) / 4096) <$> fr)).
  { apply NoDup_fmap_2_strong; [|done]. intros x y Hx Hy E. destruct (Hr x Hx), (Hr y Hy). lia. }
  assert (Hsub : (fun q => (q - KERNBASE) / 4096) <$> fr ⊆+ seqZ 0 32768).
  { apply NoDup_submseteq; [done|]. intros x Hx. apply list_elem_of_fmap in Hx as (q & -> & Hq). destruct (Hr q Hq). apply elem_of_seqZ. lia. }
  apply submseteq_length in Hsub. rewrite length_fmap, length_seqZ in Hsub. unfold fr in Hsub. rewrite length_frames in Hsub. lia.
Qed.

Lemma space_bound m l tf pt sz : space_ok m l tf pt sz -> 0 <= sz <= 134217728.
Proof.
  intros Hs. pose proof (so_sz _ _ _ _ _ Hs). pose proof (uvm_ram_bound _ _ _ _ (so_wf _ _ _ _ _ Hs)).
  pose proof (npages_bounds sz ltac:(lia)). lia.
Qed.

(** ** Changes of one live process *)

Section live_slot.
Context (k : kernel F) (l : list Z) (i : nat) (p : proc).
Hypotheses (Hk : kernel_ok k l) (Ei : k_procs k !! i = Some p) (Ha : active p).

(** The process keeps its descriptors, pid and parent. *)
Lemma live_update s' l' p' :
  slot_step (k_pm k) l p s' l' p' -> active p' -> p_state p' <> USED -> p_ofile p' = p_ofile p -> p_cwd p' = p_cwd p ->
  p_pid p' = p_pid p -> p_parent p' = p_parent p ->
  kernel_ok (mk_kernel s' (<[i := p']> (k_procs k)) (k_nextpid k) (k_initproc k) (k_files k)) l' /\
  same_pages_total k l (mk_kernel s' (<[i := p']> (k_procs k)) (k_nextpid k) (k_initproc k) (k_files k)) l'.
Proof using All.
  intros Hss Ha' Hu Eo Ec Ep Epar. pose proof (ko_slot _ _ Hk i p Ei) as [S1 S2 S3 S4 S5 S6].
  refine (kernel_update _ l i p s' l' _ _ _ Hk Ei Hss _ _ _ _ _ _ _ _ _).
  - pose proof (ko_next _ _ Hk). lia.
  - split; rewrite ?Eo, ?Ec, ?Ep; [done|done|intros Hna; by exfalso|intros _; by apply S4|intros _; by apply S5, Ha|].
    intros Hnl. exfalso. apply Hnl, Ha'.
  - apply Hk.
  - intros g Hg. rewrite Eo. lia.
  - intros c Hc. unfold cwd_count. rewrite Ec. lia.
  - intros _ j q Hne Ej Lq E. apply Hne. apply (ko_pid _ _ Hk j i q p); auto; [apply Ha|congruence].
  - done.
  - intros _ Hni. destruct (ko_parent _ _ Hk i p Ei (proj1 Ha) Hni) as (j & q & E & Ej & Aq). rewrite Epar. exists j.
    destruct (decide (j = i)) as [->|Hne].
    + exists p'. rewrite list_lookup_insert_eq by (by eapply lookup_lt_Some). done.
    + exists q. by rewrite list_lookup_insert_ne.
  - done.
Qed.

Lemma move_slot_step s' l' sz' :
  uvm_move (p_pagetable p) (k_pm k) l (npages (p_sz p)) s' l' (npages sz') -> 0 <= sz' <= TRAPFRAME ->
  slot_step (k_pm k) l p s' l' (set_sz sz' p).
Proof using All.
  intros Hmv Hsz. pose proof (mo_proc _ _ _ (ko_mem _ _ Hk) i p Ei) as Hp. apply proc_ok_live in Hp; [|apply Ha].
  destruct (space_move _ _ _ _ _ _ _ _ Hp Hmv Hsz) as [Hok St]. pose proof Hmv as [K _ P _ _ _]. split; auto.
  - eapply pages_step_weaken; [|exact St]. intros x Hx. split; [apply Ha|by right].
  - apply proc_ok_live; [apply Ha|exact Hok].
  - intros x. unfold pheld. cbn [p_trapframe p_pagetable p_sz set_sz]. pose proof (P x). assert (live (set_sz sz' p)) by apply Ha. assert (live p) by apply Ha. tauto.
Qed.

Lemma getp_at : getp (F := F) i k = Ok (p, k).
Proof using Ei. unfold getp. rewrite gets_run. by rewrite (list_lookup_total_correct _ _ _ Ei). Qed.

Lemma updp_at s f : updp (F := F) i f (lset s k) = Ok (tt, mk_kernel s (<[i := f p]> (k_procs k)) (k_nextpid k) (k_initproc k) (k_files k)).
Proof using Ei.
  unfold updp. rewrite modify_run. unfold set_procs. simpl. do 3 f_equal. apply list_eq. intros j.
  destruct (decide (j = i)) as [->|Hne].
  - rewrite list_lookup_alter_eq, list_lookup_insert_eq by (by eapply lookup_lt_Some). by rewrite Ei.
  - by rewrite list_lookup_alter_ne, list_lookup_insert_ne by done.
Qed.

(** [r] is what an operation on the process's own memory returns: the size is
    [sz'], memory below both sizes is unchanged, and so is every other
    process. *)
Lemma resize_done s' l' sz' :
  uvm_move (p_pagetable p) (k_pm k) l (npages (p_sz p)) s' l' (npages sz') -> 0 <= sz' <= TRAPFRAME ->
  let k' := mk_kernel s' (<[i := set_sz sz' p]> (k_procs k)) (k_nextpid k) (k_initproc k) (k_files k) in
  kernel_ok k' l' /\ same_pages_total k l k' l' /\
  (forall j q, j <> i -> k_procs k !! j = Some q -> live q -> same_space (pm_mem (k_pm k)) (pm_mem (k_pm k')) q) /\
  (forall va, 0 <= va < Z.of_nat (npages (p_sz p) `min` npages sz') * 4096 ->
     ubyte (pm_mem (k_pm k')) (p_pagetable p) va = ubyte (pm_mem (k_pm k)) (p_pagetable p) va).
Proof using All.
  intros Hmv Hsz k'. pose proof (move_slot_step s' l' sz' Hmv Hsz) as Hss.
  destruct (live_update s' l' (set_sz sz' p) Hss) as [K T]; try done; [apply (sl_used _ _ (ko_slot _ _ Hk i p Ei))|].
  split; [exact K|]. split; [exact T|]. split.
  - destruct (slot_step_total k l i p s' l' _ (k_nextpid k) (k_initproc k) (k_files k) Hk Ei Hss) as (_ & _ & Hsame). exact Hsame.
  - intros va Hva. by apply (move_keep _ _ _ _ _ _ _ Hmv).
Qed.

(** What growproc(n) returning [r] has done. *)
Definition resized (n r : Z) (k' : kernel F) (l' : list Z) : Prop :=
  kernel_ok k' l' /\ same_pages_total k l k' l' /\
  (forall j q, j <> i -> k_procs k !! j = Some q -> live q ->
     k_procs k' !! j = Some q /\ same_space (pm_mem (k_pm k)) (pm_mem (k_pm k')) q) /\
  (r = 0 \/ r = -1 /\ 0 < n) /\
  let sz' := if (0 <=? p_sz p + n) && (r =? 0) then p_sz p + n else p_sz p in
  k_procs k' !! i = Some (set_sz sz' p) /\
  (forall va, 0 <= va < Z.of_nat (npages (p_sz p) `min` npages sz') * 4096 ->
     ubyte (pm_mem (k_pm k')) (p_pagetable p) va = ubyte (pm_mem (k_pm k)) (p_pagetable p) va) /\
  (forall va, Z.of_nat (npages (p_sz p)) * 4096 <= va < Z.of_nat (npages sz') * 4096 ->
     ubyte (pm_mem (k_pm k')) (p_pagetable p) va = 0).

Lemma resized_move n r s' l' sz' :
  uvm_move (p_pagetable p) (k_pm k) l (npages (p_sz p)) s' l' (npages sz') -> 0 <= sz' <= TRAPFRAME ->
  sz' = (if (0 <=? p_sz p + n) && (r =? 0) then p_sz p + n else p_sz p) -> (r = 0 \/ r = -1 /\ 0 < n) ->
  (forall va, Z.of_nat (npages (p_sz p)) * 4096 <= va < Z.of_nat (npages sz') * 4096 -> ubyte (pm_mem s') (p_pagetable p) va = 0) ->
  resized n r (mk_kernel s' (<[i := set_sz sz' p]> (k_procs k)) (k_nextpid k) (k_initproc k) (k_files k)) l'.
Proof using All.
  intros Hmv Hb Esz Hr Hz. destruct (resize_done s' l' sz' Hmv Hb) as (K & T & O & U).
  split; [exact K|]. split; [exact T|]. split; [|split; [exact Hr|cbv zeta; rewrite <- Esz; split; [|by split]]].
  - intros j q Hne Ej Hl. cbn [k_procs k_pm]. rewrite list_lookup_insert_ne by done. split; [done|]. by apply (O j).
  - cbn [k_procs]. by rewrite list_lookup_insert_eq by (by eapply lookup_lt_Some).
Qed.

Lemma pm_at {A} (m : M pmem A) a s' : m (k_pm k) = Ok (a, s') -> pm (F := F) m k = Ok (a, lset s' k).
Proof. intros E. unfold pm, zoom. cbn [lget kernel_pm]. by rewrite E. Qed.

Lemma lset_same s : lset s k = mk_kernel s (<[i := set_sz (p_sz p) p]> (k_procs k)) (k_nextpid k) (k_initproc k) (k_files k).
Proof using Ei. rewrite set_sz_id, list_insert_id by done. done. Qed.

Lemma grow_up n : p_sz p + n <= TRAPFRAME -> 0 < n -> exists r k' l',
  (sz ← pm (uvmalloc (p_pagetable p) (p_sz p) (p_sz p + n) PTE_W); if sz =? 0 then mret (-1) else updp i (set_sz sz);; mret 0) k = Ok (r, k') /\
  resized n r k' l'.
Proof using All.
  intros Hmax Hn. pose proof (mo_proc _ _ _ (ko_mem _ _ Hk) i p Ei) as Hp. apply proc_ok_live in Hp; [|apply Ha].
  pose proof (so_sz _ _ _ _ _ Hp) as Hsz. pose proof (mo_kinv _ _ _ (ko_mem _ _ Hk)) as Hkv.
  destruct (uvmalloc_spec (p_pagetable p) (k_pm k) l (p_sz p) (p_sz p + n) PTE_W Hkv ltac:(lia) ltac:(lia) (so_wf _ _ _ _ _ Hp) ltac:(done)) as (ret & s' & l' & E & Hr).
  rewrite (bind_Ok _ _ _ _ _ (pm_at _ _ _ E)). destruct Hr as [(-> & Hmv & Hz)|[-> Hmv]].
  - rewrite (proj2 (Z.eqb_neq (p_sz p + n) 0)), bind_run, updp_at by lia. eexists 0, _, l'. split; [done|].
    apply resized_move; auto; [lia|by rewrite (proj2 (Z.leb_le 0 _)) by lia|]. intros va Hva. by apply Hz.
  - cbn [Z.eqb]. eexists (-1), _, l'. split; [done|]. rewrite lset_same. apply resized_move; auto; [by rewrite andb_false_r|intros; lia].
Qed.

Lemma grow_down n : -2147483648 <= n < 0 -> exists r k' l',
  (sz ← pm (uvmdealloc (p_pagetable p) (p_sz p) (u64 (p_sz p + n))); updp i (set_sz sz);; mret 0) k = Ok (r, k') /\ resized n r k' l'.
Proof using All.
  intros Hn. pose proof (mo_proc _ _ _ (ko_mem _ _ Hk) i p Ei) as Hp. apply proc_ok_live in Hp; [|apply Ha].
  pose proof (space_bound _ _ _ _ _ Hp) as Hsz. pose proof (so_sz _ _ _ _ _ Hp) as Hsz'. pose proof (mo_kinv _ _ _ (ko_mem _ _ Hk)) as Hkv.
  pose proof (so_wf _ _ _ _ _ Hp) as Hw. destruct (Z.leb_spec 0 (p_sz p + n)) as [Hle|Hlt].
  - rewrite (u64_small (p_sz p + n)) by lia.
    destruct (uvmdealloc_move (p_pagetable p) (k_pm k) l (p_sz p) (p_sz p + n) Hkv ltac:(lia) ltac:(lia) Hw) as (s' & l' & E & Hmv).
    rewrite (bind_Ok _ _ _ _ _ (pm_at _ _ _ E)), bind_run, updp_at. eexists 0, _, l'. split; [done|].
    apply resized_move; auto; [lia|by rewrite (proj2 (Z.leb_le 0 _)) by lia|].
    intros va Hva. pose proof (npages_bounds (p_sz p)). pose proof (npages_bounds (p_sz p + n)). lia.
  - assert (E : uvmdealloc (p_pagetable p) (p_sz p) (u64 (p_sz p + n)) (k_pm k) = Ok (p_sz p, k_pm k)).
    { unfold uvmdealloc. rewrite (proj2 (Z.leb_le _ _)); [done|]. word_lia. }
    rewrite (bind_Ok _ _ _ _ _ (pm_at _ _ _ E)), bind_run, updp_at. eexists 0, _, l. split; [done|].
    apply resized_move; auto; [by apply uvm_move_refl|by rewrite (proj2 (Z.leb_gt 0 _)) by lia|intros; lia].
Qed.

Lemma growproc_run n : -2147483648 <= n < 2147483648 -> exists r k' l', growproc i n k = Ok (r, k') /\ resized n r k' l'.
Proof using All.
  intros Hn. pose proof (mo_proc _ _ _ (ko_mem _ _ Hk) i p Ei) as Hp. apply proc_ok_live in Hp; [|apply Ha].
  pose proof (space_bound _ _ _ _ _ Hp) as Hsz. pose proof TRAPFRAME_val as ETF. pose proof (so_sz _ _ _ _ _ Hp) as Hsz'.
  unfold growproc. rewrite (bind_Ok _ _ _ _ _ getp_at). destruct (Z.ltb_spec 0 n).
  - rewrite (u64_small (p_sz p + n)) by lia. apply grow_up; lia.
  - destruct (Z.ltb_spec n 0); [apply grow_down; lia|]. assert (n = 0) as -> by lia.
    assert (Ek : lset (k_pm k) k = k) by by destruct k. rewrite bind_run, <- Ek, updp_at. eexists 0, _, l. split; [done|].
    apply resized_move; auto; [apply uvm_move_refl; [apply (ko_mem _ _ Hk)|apply Hp]| |intros; lia].
    rewrite Z.add_0_r. by destruct (_ && _).
Qed.

End live_slot.

(** growproc(n) changes the size of the process by [n] bytes: growing
    adds zeroed pages or fails with -1 and changes nothing, shrinking frees
    the pages above the new size, and a shrink by more than the size leaves
    the process as it is.  What lies below both sizes and every other process
    is unchanged, and no page is lost. *)
Theorem growproc_correct k l i p n :
  kernel_ok k l -> k_procs k !! i = Some p -> active p -> -2147483648 <= n < 2147483648 ->
  exists r k' l', growproc i n k = Ok (r, k') /\ resized k l i p n r k' l'.
Proof. intros. by apply growproc_run. Qed.

(** ** Changes that leave memory alone *)

Record same_res (p p' : proc) : Prop := {
  sr_live : live p' <-> live p;
  sr_tf : p_trapframe p' = p_trapframe p;
  sr_pt : p_pagetable p' = p_pagetable p;
  sr_sz : p_sz p' = p_sz p;
  sr_pid : p_pid p' = p_pid p;
}.

Lemma same_res_refl p : same_res p p.
Proof. by split. Qed.

Lemma same_res_proc_ok m l p p' : same_res p p' -> proc_ok m l p <-> proc_ok m l p'.
Proof.
  intros [L T P S _]. unfold proc_ok, live in *. rewrite T, P, S. by repeat case_decide; tauto.
Qed.

Lemma same_res_pheld m p p' x : same_res p p' -> pheld m p' x <-> pheld m p x.
Proof. intros [L T P S _]. unfold pheld. by rewrite L, T, P, S. Qed.

Lemma kernel_retable k l ps' fs :
  kernel_ok k l -> length ps' = length (k_procs k) ->
  (forall x p p', k_procs k !! x = Some p -> ps' !! x = Some p' -> same_res p p') ->
  (forall x p', ps' !! x = Some p' -> slot_ok (k_nextpid k) p') ->
  fo_inv fs -> (forall g, g <> 0 -> fo_ref fs g = psum (fun p => fcount g (p_ofile p)) ps') ->
  (forall c, c <> 0 -> fo_cwd fs c = psum (cwd_count c) ps') ->
  (exists i p, k_initproc k = Some i /\ ps' !! i = Some p /\ active p) ->
  (forall j q, ps' !! j = Some q -> live q -> k_initproc k <> Some j -> exists i p, p_parent q = Some i /\ ps' !! i = Some p /\ active p) ->
  kernel_ok (mk_kernel (k_pm k) ps' (k_nextpid k) (k_initproc k) fs) l /\
  same_pages_total k l (mk_kernel (k_pm k) ps' (k_nextpid k) (k_initproc k) fs) l.
Proof.
  intros Hk Hlen Hres Hslot Hfi Href Hcwd Hin Hpar.
  assert (Hback : forall x p', ps' !! x = Some p' -> exists p, k_procs k !! x = Some p /\ same_res p p').
  { intros x p' Ex. destruct (lookup_lt_is_Some_2 (k_procs k) x) as [p Ep]; [rewrite <- Hlen; by eapply lookup_lt_Some|].
    exists p. split; [done|]. by eapply Hres. }
  assert (Hfwd : forall x p, k_procs k !! x = Some p -> exists p', ps' !! x = Some p' /\ same_res p p').
  { intros x p Ex. destruct (lookup_lt_is_Some_2 ps' x) as [p' Ep]; [rewrite Hlen; by eapply lookup_lt_Some|].
    exists p'. split; [done|]. by eapply Hres. }
  pose proof (ko_mem _ _ Hk) as [M1 M2 M3]. split.
  - split; cbn [k_procs k_pm k_nextpid k_initproc k_files]; auto; try apply Hk.
    + rewrite Hlen. apply Hk.
    + split; auto.
      * intros x p' Ex. destruct (Hback x p' Ex) as (p & Ep & Sr). apply (same_res_proc_ok _ _ _ _ Sr). by apply (M2 x).
      * intros x y p1 p2 Ex Ey Hne q Hq1 Hq2. destruct (Hback x p1 Ex) as (p1' & E1 & S1), (Hback y p2 Ey) as (p2' & E2 & S2).
        rewrite (same_res_pheld _ _ _ _ S1) in Hq1. rewrite (same_res_pheld _ _ _ _ S2) in Hq2. by apply (M3 x y p1' p2' E1 E2 Hne q).
    + intros x y p1 p2 Ex Ey L1 L2 Epid. destruct (Hback x p1 Ex) as (p1' & E1 & S1), (Hback y p2 Ey) as (p2' & E2 & S2).
      apply (ko_pid _ _ Hk x y p1' p2'); auto; [by apply (sr_live _ _ S1)|by apply (sr_live _ _ S2)|].
      by rewrite <- (sr_pid _ _ S1), <- (sr_pid _ _ S2).
  - intros q. cbn [k_procs k_pm]. split; intros [?|(x & p & Ex & Hx)]; auto; right.
    + destruct (Hfwd x p Ex) as (p' & E' & Sr). exists x, p'. split; [done|]. by apply (same_res_pheld _ _ _ _ Sr).
    + destruct (Hback x p Ex) as (p' & E' & Sr). exists x, p'. split; [done|]. by apply (same_res_pheld _ _ _ _ Sr).
Qed.

(** Changes of one process that keep it running or asleep. *)
Lemma retable_active k l (g : nat -> proc -> proc) :
  kernel_ok k l ->
  (forall x p, k_procs k !! x = Some p -> same_res p (g x p) /\ (active (g x p) <-> active p) /\ (p_state (g x p) = USED -> p_state p = USED) /\
     p_ofile (g x p) = p_ofile p /\ p_cwd (g x p) = p_cwd p /\ p_parent (g x p) = p_parent p) ->
  let k' := mk_kernel (k_pm k) (imap g (k_procs k)) (k_nextpid k) (k_initproc k) (k_files k) in
  kernel_ok k' l /\ same_pages_total k l k' l.
Proof.
  intros Hk Hg k'.
  assert (Hlk : forall x p', imap g (k_procs k) !! x = Some p' -> exists p, k_procs k !! x = Some p /\ p' = g x p).
  { intros x p' Ex. rewrite list_lookup_imap in Ex. destruct (k_procs k !! x) as [p|]; [|done]. injection Ex as <-. eauto. }
  assert (Hfl : forall x p, k_procs k !! x = Some p -> imap g (k_procs k) !! x = Some (g x p)) by (intros x p Ex; by rewrite list_lookup_imap, Ex).
  assert (HF : forall (f : proc -> Z), (forall x p, k_procs k !! x = Some p -> f (g x p) = f p) -> psum f (k_procs k) = psum f (imap g (k_procs k))).
  { intros f Hf. apply psum_ext, Forall2_same_length_lookup. rewrite length_imap. split; [done|]. intros x p p' Ep Ep'.
    rewrite (Hfl x p Ep) in Ep'. injection Ep' as <-. symmetry. by apply (Hf x). }
  apply kernel_retable; auto.
  - by rewrite length_imap.
  - intros x p p' Ep Ep'. rewrite (Hfl x p Ep) in Ep'. injection Ep' as <-. by apply Hg.
  - intros x p' Ex. destruct (Hlk x p' Ex) as (p & Ep & ->). destruct (Hg x p Ep) as (Sr & A & U & O & C & P).
    destruct (ko_slot _ _ Hk x p Ep) as [S1 S2 S3 S4 S5 S6]. pose proof (sr_live _ _ Sr) as Lv.
    split; rewrite ?O, ?C, ?P, ?(sr_pid _ _ Sr); auto; try tauto.
  - apply Hk.
  - intros gg Hgg. rewrite (ko_ref _ _ Hk gg Hgg). apply HF. intros x p Ep. by destruct (Hg x p Ep) as (_ & _ & _ & -> & _).
  - intros c Hc. rewrite (ko_cwd _ _ Hk c Hc). apply HF. intros x p Ep. unfold cwd_count. by destruct (Hg x p Ep) as (_ & _ & _ & _ & -> & _).
  - destruct (ko_init _ _ Hk) as (i & p & Ei & Ep & Ap). exists i, (g i p). split_and!; auto; apply (Hg i p Ep); done.
  - intros j q Ej Lq Hni. destruct (Hlk j q Ej) as (p & Ep & ->). destruct (Hg j p Ep) as (Sr & A & U & O & C & P).
    destruct (ko_parent _ _ Hk j p Ep) as (i & pp & Epar & Epp & App); [by apply (sr_live _ _ Sr)|done|].
    exists i, (g i pp). rewrite P. split; [done|]. split; [by apply Hfl|]. by apply (Hg i pp Epp).
Qed.

(** ** exit *)

Lemma close_files_run fl : forall pre s ps q np ip fs i,
  (i < length ps)%nat -> fo_inv fs -> p_ofile q = pre ++ fl -> (forall f, f <> 0 -> fcount f fl <= fo_ref fs f) ->
  exists fs', close_files fl (length pre) i (mk_kernel s (<[i := q]> ps) np ip fs) =
      Ok (tt, mk_kernel s (<[i := set_ofile (pre ++ replicate (length fl) 0) q]> ps) np ip fs') /\
    fo_inv fs' /\ (forall g, g <> 0 -> fo_ref fs' g = fo_ref fs g - fcount g fl) /\ (forall c, fo_cwd fs' c = fo_cwd fs c).
Proof.
  induction fl as [|f fl IH]; intros pre s ps q np ip fs i Hi Hfi Eo Hr.
  { exists fs. cbn [close_files length replicate]. rewrite <- Eo. split; [by destruct q|]. split_and!; auto. intros g _. unfold fcount. simpl. lia. }
  assert (Hstep : exists fs1, (if negb (f =? 0) then files (fileclose f);; updp i (fun p => set_ofile (<[length pre := 0]> (p_ofile p)) p) else mret tt)
      (mk_kernel s (<[i := q]> ps) np ip fs) = Ok (tt, mk_kernel s (<[i := set_ofile ((pre ++ [0]) ++ fl) q]> ps) np ip fs1) /\
      fo_inv fs1 /\ (forall g, g <> 0 -> fo_ref fs1 g = fo_ref fs g - (if g =? f then 1 else 0)) /\ (forall c, fo_cwd fs1 c = fo_cwd fs c)).
  { destruct (Z.eqb_spec f 0) as [->|Hf]; cbn [negb].
    - exists fs. rewrite ret_run, <- app_assoc. cbn [app]. rewrite <- Eo. split; [by destruct q|]. split_and!; auto. intros g Hg.
      apply Z.eqb_neq in Hg. rewrite Hg. lia.
    - pose proof (Hr f Hf) as Hpos. rewrite fcount_cons, Z.eqb_refl in Hpos. pose proof (fcount_nonneg f fl).
      destruct (fileclose_ok fs f Hfi ltac:(lia)) as (fs1 & E1 & I1 & R1 & C1). exists fs1.
      rewrite (bind_Ok _ _ _ _ _ (files_run _ _ _ _ _ _ _ _ E1)), updp_run by done. split_and!; auto.
      rewrite Eo, <- app_assoc. replace (length pre) with (length pre + 0)%nat by lia. by rewrite insert_app_r. }
  destruct Hstep as (fs1 & E1 & I1 & R1 & C1). cbn [close_files]. rewrite (bind_Ok _ _ _ _ _ E1).
  destruct (IH (pre ++ [0]) s ps (set_ofile ((pre ++ [0]) ++ fl) q) np ip fs1 i Hi I1 eq_refl) as (fs2 & E2 & I2 & R2 & C2).
  { intros g Hg. rewrite (R1 g Hg). pose proof (Hr g Hg) as Hb. rewrite fcount_cons in Hb. lia. }
  exists fs2. rewrite length_app in E2. cbn [length] in E2. rewrite Nat.add_1_r in E2. split.
  - rewrite E2, <- app_assoc. done.
  - split_and!; auto; [intros g Hg; rewrite (R2 g Hg), (R1 g Hg), fcount_cons; lia|intros c; by rewrite C2, C1].
Qed.

(** What reparent and wakeup do to a process: its parent may become init, a
    sleeping process may become runnable, nothing else changes. *)
Record resim (i ip : nat) (moved : nat -> bool) (x : nat) (p p' : proc) : Prop := {
  rs_parent : p_parent p' = if moved x && bool_decide (p_parent p = Some i) then Some ip else p_parent p;
  rs_rest : set_parent None (set_state UNUSED p') = set_parent None (set_state UNUSED p);
  rs_state : p_state p' = p_state p \/ p_state p = SLEEPING /\ p_state p' = RUNNABLE /\ x <> i;
}.

Definition table_resim (i ip : nat) (moved : nat -> bool) (ps ps' : list proc) : Prop :=
  length ps' = length ps /\ forall x p, ps !! x = Some p -> exists p', ps' !! x = Some p' /\ resim i ip moved x p p'.

Lemma wakeup_resim i ip c ps : table_resim i ip (fun _ => false) ps (imap (wakeup_one (Some i) c) ps).
Proof.
  split; [by rewrite length_imap|]. intros x p Ex. rewrite list_lookup_imap, Ex. eexists. split; [reflexivity|].
  unfold wakeup_one. destruct (decide (Some i = Some x)) as [E|E]; [by split; auto|].
  destruct (decide (p_state p = SLEEPING /\ p_chan p = Some c)) as [[Es Ec]|Ed]; [|by split; auto].
  split; auto. right. split_and!; [done|done|congruence].
Qed.

Lemma set_parent_resim i ip j ps p : ps !! j = Some p -> p_parent p = Some i ->
  table_resim i ip (fun x => bool_decide (x = j)) ps (<[j := set_parent (Some ip) p]> ps).
Proof.
  intros Ej Ep. split; [by rewrite length_insert|]. intros x q Ex. destruct (decide (x = j)) as [->|Hne].
  - rewrite list_lookup_insert_eq by (by eapply lookup_lt_Some). eexists. split; [reflexivity|].
    rewrite Ej in Ex. injection Ex as <-. split; auto. by rewrite !bool_decide_eq_true_2.
  - rewrite list_lookup_insert_ne by done. exists q. split; [done|]. split; auto. by rewrite bool_decide_eq_false_2.
Qed.

Lemma table_resim_trans i ip m1 m2 ps1 ps2 ps3 : ip <> i ->
  table_resim i ip m1 ps1 ps2 -> table_resim i ip m2 ps2 ps3 -> table_resim i ip (fun x => m1 x || m2 x) ps1 ps3.
Proof.
  intros Hne [L1 T1] [L2 T2]. split; [congruence|]. intros x p Ex. destruct (T1 x p Ex) as (p2 & E2 & [P1 R1 S1]).
  destruct (T2 x p2 E2) as (p3 & E3 & [P2 R2 S2]). exists p3. split; [done|]. split.
  - rewrite P2, P1. destruct (m1 x), (m2 x); cbn [andb orb]; repeat case_bool_decide; try done; congruence.
  - congruence.
  - destruct S1 as [S1|(S1 & S1' & N)]; destruct S2 as [S2|(S2 & S2' & N')]; [left; congruence|right|right|right]; split_and!; congruence.
Qed.

Lemma table_resim_ext i ip m1 m2 ps ps' :
  (forall x p, ps !! x = Some p -> p_parent p = Some i -> m1 x = m2 x) -> table_resim i ip m1 ps ps' -> table_resim i ip m2 ps ps'.
Proof.
  intros Hm [L T]. split; [done|]. intros x p Ex. destruct (T x p Ex) as (p' & E' & [P R S]). exists p'. split; [done|]. split; auto.
  rewrite P. destruct (decide (p_parent p = Some i)) as [E|E].
  - by rewrite (Hm x p Ex E).
  - by rewrite !(bool_decide_eq_false_2 _ E), !andb_false_r.
Qed.

Lemma reparent_loop_run i ip n : forall j s ps np (fs : F), ip <> i -> (j + n <= length ps)%nat ->
  exists ps', reparent_loop n j i (mk_kernel s ps np (Some ip) fs) = Ok (tt, mk_kernel s ps' np (Some ip) fs) /\
    table_resim i ip (fun x => (j <=? x)%nat && (x <? j + n)%nat) ps ps'.
Proof.
  induction n as [|n IH]; intros j s ps np fs Hne Hlen; cbn [reparent_loop].
  { exists ps. split; [done|]. apply (table_resim_ext i ip (fun _ => false)).
    - intros x p _ _. destruct (Nat.leb_spec j x), (Nat.ltb_spec x (j + 0)); try done; lia.
    - split; [done|]. intros x p Ex. exists p. split; [done|]. by split; auto. }
  destruct (lookup_lt_is_Some_2 ps j) as [p Ej]; [lia|]. rewrite bind_run. unfold getp. rewrite gets_run. cbn [k_procs].
  rewrite (list_lookup_total_correct _ _ _ Ej).
  assert (Hstep : exists ps1, (if decide (p_parent p = Some i) then
       ip ← gets k_initproc; updp j (set_parent ip);; match ip with Some ip => wakeup (Some i) (CProc ip) | None => mret tt end
     else mret tt) (mk_kernel s ps np (Some ip) fs) = Ok (tt, mk_kernel s ps1 np (Some ip) fs) /\
     table_resim i ip (fun x => bool_decide (x = j)) ps ps1).
  { destruct (decide (p_parent p = Some i)) as [Ep|Ep].
    - assert (Ek : mk_kernel s ps np (Some ip) fs = mk_kernel s (<[j := p]> ps) np (Some ip) fs) by (by rewrite list_insert_id).
      rewrite bind_run, gets_run, bind_run. cbn [k_initproc]. rewrite Ek, updp_run by lia.
      unfold wakeup. rewrite modify_run. eexists. split; [reflexivity|].
      apply (table_resim_ext i ip (fun x => bool_decide (x = j) || false)); [intros; by rewrite orb_false_r|].
      apply (table_resim_trans i ip (fun x => bool_decide (x = j)) (fun _ => false) _ (<[j := set_parent (Some ip) p]> ps)); auto using set_parent_resim, wakeup_resim.
    - exists ps. split; [done|]. split; [done|]. intros x q Ex. exists q. split; [done|]. split; auto.
      case_bool_decide as E; [|done]. subst x. rewrite Ej in Ex. injection Ex as <-. by rewrite bool_decide_eq_false_2. }
  destruct Hstep as (ps1 & E1 & T1). rewrite (bind_Ok _ _ _ _ _ E1).
  destruct (IH (S j) s ps1 np fs Hne) as (ps2 & E2 & T2); [rewrite (proj1 T1); lia|]. exists ps2. split; [exact E2|].
  eapply table_resim_ext; [|exact (table_resim_trans _ _ _ _ _ _ _ Hne T1 T2)].
  intros x q _ _. cbv beta. destruct (Nat.leb_spec (S j) x), (Nat.ltb_spec x (S j + n)), (Nat.leb_spec j x), (Nat.ltb_spec x (j + S n)); case_bool_decide; simpl; try done; lia.
Qed.

Lemma rest_fields p p' : set_parent None (set_state UNUSED p') = set_parent None (set_state UNUSED p) ->
  p_trapframe p' = p_trapframe p /\ p_pagetable p' = p_pagetable p /\ p_sz p' = p_sz p /\ p_pid p' = p_pid p /\
  p_ofile p' = p_ofile p /\ p_cwd p' = p_cwd p /\ p_chan p' = p_chan p /\ p_xstate p' = p_xstate p.
Proof. intros E. injection E. intros. split_and!; done. Qed.

Lemma resim_active i ip m x p p' : resim i ip m x p p' -> (active p' <-> active p) /\ (live p' <-> live p) /\ (p_state p' = USED -> p_state p = USED).
Proof.
  intros [_ _ [S|(S1 & S2 & _)]]; unfold active, live; [by rewrite S|]. rewrite S1, S2. by split_and!.
Qed.

Lemma resim_psum i ip m ps ps' f : table_resim i ip m ps ps' ->
  (forall p p', p_ofile p' = p_ofile p -> p_cwd p' = p_cwd p -> f p' = f p) -> psum f ps' = psum f ps.
Proof.
  intros [L T] Hf. symmetry. apply psum_ext, Forall2_same_length_lookup. split; [done|]. intros x p p' Ex Ex'.
  destruct (T x p Ex) as (p2 & E2 & [_ R _]). rewrite Ex' in E2. injection E2 as <-.
  destruct (rest_fields _ _ R) as (_ & _ & _ & _ & O & C & _). symmetry. by apply Hf.
Qed.

(** The process as exit leaves it, given the parent it has at the end. *)
Definition exited (p : proc) (parent : option nat) (status : Z) : proc :=
  set_state ZOMBIE (set_xstate status (set_parent parent (set_cwd 0 (set_ofile (replicate 16 0) p)))).

Section exiting.
Context (k : kernel F) (l : list Z) (i ip : nat) (p : proc) (status : Z).
Hypotheses (Hk : kernel_ok k l) (Ei : k_procs k !! i = Some p) (Er : p_state p = RUNNING)
  (Eip : k_initproc k = Some ip) (Hni : ip <> i).

Let p2 : proc := set_cwd 0 (set_ofile (replicate 16 0) p).

Definition not_waiting (ps : list proc) (a : nat) : Prop :=
  forall q, ps !! a = Some q -> ~ (p_state q = SLEEPING /\ p_chan q = Some (CProc a)).

Lemma exit_run : exists ps4 p4 fs,
  exit i status k = Ok (tt, mk_kernel (k_pm k) (<[i := set_state ZOMBIE (set_xstate status p4)]> ps4) (k_nextpid k) (k_initproc k) fs) /\
  table_resim i ip (fun _ => true) (<[i := p2]> (k_procs k)) ps4 /\ ps4 !! i = Some p4 /\ fo_inv fs /\
  (forall g, g <> 0 -> fo_ref fs g = fo_ref (k_files k) g - fcount g (p_ofile p)) /\
  (forall c, fo_cwd fs c = fo_cwd (k_files k) c - if c =? p_cwd p then 1 else 0) /\
  (forall a, p_parent p = Some a -> a <> i -> not_waiting ps4 a).
Proof using All.
  assert (Ha : active p) by (unfold active; rewrite Er; done). pose proof (kernel_refs k l i p Hk Ei Ha) as (Hfi & Hcw & Hrf).
  pose proof (ko_slot _ _ Hk i p Ei) as Hs. pose proof (lookup_lt_Some _ _ _ Ei) as Hlt.
  unfold exit. rewrite bind_run, gets_run, Eip, decide_False by congruence. rewrite (bind_Ok _ _ _ _ _ (getp_at k i p Ei)).
  assert (Ek : k = mk_kernel (k_pm k) (<[i := p]> (k_procs k)) (k_nextpid k) (Some ip) (k_files k)) by (rewrite list_insert_id, <- Eip by done; by destruct k).
  destruct (close_files_run (p_ofile p) [] (k_pm k) (k_procs k) p (k_nextpid k) (Some ip) (k_files k) i Hlt Hfi eq_refl) as (fs1 & E1 & I1 & R1 & C1).
  { intros f Hf. rewrite (ko_ref _ _ Hk f Hf). apply (psum_ge (fun p => fcount f (p_ofile p)) (k_procs k) i p); [|done]. intros. apply fcount_nonneg. }
  rewrite <- Ek in E1. cbn [length app] in E1. rewrite (bind_Ok _ _ _ _ _ E1). rewrite (sl_ofile _ _ Hs).
  destruct (put_cwd_ok fs1 (p_cwd p) I1) as (fs2 & E2 & I2 & R2 & C2); [rewrite C1; lia|].
  rewrite (bind_Ok _ _ _ _ _ (files_run _ _ _ _ _ _ _ _ E2)), bind_run, updp_run by done. fold p2.
  unfold reparent. rewrite bind_run, bind_run, gets_run. cbn [k_procs]. rewrite length_insert.
  destruct (reparent_loop_run i ip (length (k_procs k)) 0 (k_pm k) (<[i := p2]> (k_procs k)) (k_nextpid k) fs2 Hni) as (ps3 & E3 & T3); [rewrite length_insert; lia|].
  rewrite E3. apply (table_resim_ext i ip _ (fun _ => true)) in T3.
  2: { intros x q Ex _. apply lookup_lt_Some in Ex. rewrite length_insert in Ex. by destruct (Nat.leb_spec 0 x), (Nat.ltb_spec x (0 + length (k_procs k))); try lia. }
  destruct (proj2 T3 i p2) as (p3 & Ep3 & Rs3); [by rewrite list_lookup_insert_eq|].
  rewrite bind_run. unfold getp. rewrite gets_run. cbn [k_procs]. rewrite (list_lookup_total_correct _ _ _ Ep3).
  assert (Hw : exists ps4, match p_parent p3 with Some pp => wakeup (Some i) (CProc pp) | None => mret tt end (mk_kernel (k_pm k) ps3 (k_nextpid k) (Some ip) fs2)
      = Ok (tt, mk_kernel (k_pm k) ps4 (k_nextpid k) (Some ip) fs2) /\ table_resim i ip (fun _ => false) ps3 ps4 /\
      (forall a, p_parent p3 = Some a -> a <> i -> not_waiting ps4 a)).
  { destruct (p_parent p3) as [pp|].
    - eexists. split; [reflexivity|]. cbn [k_procs]. split; [apply wakeup_resim|]. intros a [= <-] Hai q Eq [Es Ec].
      rewrite list_lookup_imap in Eq. destruct (ps3 !! pp) as [q0|]; [|done]. injection Eq as <-. unfold wakeup_one in Es, Ec.
      rewrite decide_False in Es, Ec by congruence. destruct (decide (p_state q0 = SLEEPING /\ p_chan q0 = Some (CProc pp))); [done|tauto].
    - exists ps3. split; [done|]. split; [|done]. split; [done|]. intros x q Ex. exists q. split; [done|]. by split; auto. }
  destruct Hw as (ps4 & E4 & T4 & W4). rewrite bind_run, E4.
  pose proof (table_resim_trans _ _ _ _ _ _ _ Hni T3 T4) as T.
  destruct (proj2 T4 i p3 Ep3) as (p4 & Ep4 & _). pose proof (lookup_lt_Some _ _ _ Ep4) as Hlt4.
  assert (Ek4 : mk_kernel (k_pm k) ps4 (k_nextpid k) (Some ip) fs2 = mk_kernel (k_pm k) (<[i := p4]> ps4) (k_nextpid k) (Some ip) fs2) by (by rewrite list_insert_id).
  rewrite Ek4, bind_run, updp_run, updp_run by done. exists ps4, p4, fs2. split; [reflexivity|]. split; [eapply table_resim_ext; [|exact T]; done|]. split_and!; auto.
  - intros g Hg. by rewrite R2, (R1 g Hg).
  - intros c. by rewrite C2, C1.
  - intros a Epa Hai. apply W4; [|done]. rewrite (rs_parent _ _ _ _ _ _ Rs3). cbn [p_parent p2 set_cwd set_ofile andb]. rewrite Epa.
    rewrite bool_decide_eq_false_2 by congruence. done.
Qed.

(** The table after exit. *)
Section exited_table.
Variables (ps4 : list proc) (p4 : proc) (fs : F).
Hypotheses (T : table_resim i ip (fun _ => true) (<[i := p2]> (k_procs k)) ps4) (E4 : ps4 !! i = Some p4) (Hfi : fo_inv fs)
  (Hre : forall g, g <> 0 -> fo_ref fs g = fo_ref (k_files k) g - fcount g (p_ofile p))
  (Hcw : forall c, fo_cwd fs c = fo_cwd (k_files k) c - if c =? p_cwd p then 1 else 0).

Let z : proc := set_state ZOMBIE (set_xstate status p4).
Let ps5 : list proc := <[i := z]> ps4.

Lemma exited_slot : resim i ip (fun _ => true) i p2 p4.
Proof using All.
  destruct (proj2 T i p2) as (p' & E' & R); [rewrite list_lookup_insert_eq; [done|by eapply lookup_lt_Some]|]. rewrite E4 in E'. by injection E' as ->.
Qed.

Lemma exited_fields :
  p_trapframe p4 = p_trapframe p /\ p_pagetable p4 = p_pagetable p /\ p_sz p4 = p_sz p /\ p_pid p4 = p_pid p /\
  p_ofile p4 = replicate 16 0 /\ p_cwd p4 = 0.
Proof using All. destruct (rest_fields _ _ (rs_rest _ _ _ _ _ _ exited_slot)) as (H1' & H2' & H3' & H4' & H5' & H6' & _). done. Qed.

Lemma exited_other x q : x <> i -> k_procs k !! x = Some q -> exists q', ps5 !! x = Some q' /\ resim i ip (fun _ => true) x q q'.
Proof using All.
  intros Hne Ex. unfold ps5. rewrite list_lookup_insert_ne by done. apply (proj2 T). by rewrite list_lookup_insert_ne.
Qed.

Lemma exited_back x q' : ps5 !! x = Some q' ->
  x = i /\ q' = z \/ x <> i /\ exists q, k_procs k !! x = Some q /\ resim i ip (fun _ => true) x q q'.
Proof using All.
  intros Ex. destruct (lookup_insert_cases ps4 i z x q' (lookup_lt_Some _ _ _ E4) Ex) as [[-> ->]|[Hne Ex']]; [by left|right]. split; [done|].
  destruct (lookup_lt_is_Some_2 (k_procs k) x) as [q Eq].
  { apply lookup_lt_Some in Ex'. rewrite (proj1 T), length_insert in Ex'. done. }
  exists q. split; [done|]. destruct (exited_other x q Hne Eq) as (q'' & E'' & R). rewrite Ex in E''. by injection E'' as ->.
Qed.

Lemma exited_psum f : (forall p p', p_ofile p' = p_ofile p -> p_cwd p' = p_cwd p -> f p' = f p) ->
  psum f ps5 = psum f (k_procs k) - f p + f p2.
Proof using All.
  intros Hf. destruct exited_fields as (_ & _ & _ & _ & O4 & C4). unfold ps5. rewrite (psum_insert f ps4 i p4 z E4).
  rewrite (resim_psum _ _ _ _ _ f T Hf), (psum_insert f _ i p p2 Ei), (Hf p4 z), (Hf p2 p4) by done. lia.
Qed.

Lemma exited_ok :
  kernel_ok (mk_kernel (k_pm k) ps5 (k_nextpid k) (k_initproc k) fs) l /\
  same_pages_total k l (mk_kernel (k_pm k) ps5 (k_nextpid k) (k_initproc k) fs) l.
Proof using All.
  destruct exited_fields as (F1 & F2 & F3 & F4 & O4 & C4). pose proof (ko_slot _ _ Hk i p Ei) as Hs.
  assert (Hl : live p) by (unfold live; rewrite Er; done).
  assert (Hact : forall a q, k_procs k !! a = Some q -> active q -> a <> i -> exists q', ps5 !! a = Some q' /\ active q').
  { intros a q Ea Aq Hai. destruct (exited_other a q Hai Ea) as (q' & E' & R). exists q'. split; [done|]. by apply (resim_active _ _ _ _ _ _ R). }
  assert (Hinit : exists q', ps5 !! ip = Some q' /\ active q').
  { destruct (ko_init _ _ Hk) as (i0 & p0 & E0 & Ep0 & A0). rewrite Eip in E0. injection E0 as <-. by eapply Hact. }
  assert (Hpar : forall x q q', k_procs k !! x = Some q -> live q -> x <> ip ->
            p_parent q' = (if bool_decide (p_parent q = Some i) then Some ip else p_parent q) ->
            exists a pa, p_parent q' = Some a /\ ps5 !! a = Some pa /\ active pa).
  { intros x q q' Ex Lq Nx E'. destruct (ko_parent _ _ Hk x q Ex Lq) as (a & pa & Epa & Ea & Aa); [rewrite Eip; congruence|].
    rewrite E'. destruct (decide (p_parent q = Some i)) as [D|D].
    - rewrite bool_decide_eq_true_2 by done. destruct Hinit as (q0 & ? & ?). by exists ip, q0.
    - rewrite bool_decide_eq_false_2 by done. destruct (Hact a pa Ea Aa) as (q0 & ? & ?); [congruence|]. by exists a, q0. }
  apply kernel_retable; auto.
  - unfold ps5. by rewrite length_insert, (proj1 T), length_insert.
  - intros x q q' Ex Ex'. destruct (exited_back x q' Ex') as [[-> ->]|[Hne (q0 & E0 & R)]].
    + rewrite Ei in Ex. injection Ex as <-. by split.
    + rewrite Ex in E0. injection E0 as <-. destruct (rest_fields _ _ (rs_rest _ _ _ _ _ _ R)) as (? & ? & ? & ? & _). split; auto. by apply (resim_active _ _ _ _ _ _ R).
  - intros x q' Ex'. destruct (exited_back x q' Ex') as [[-> ->]|[Hne (q & Eq & R)]].
    + split; try done; [by cbn; rewrite O4|by intros []|intros _; cbn; rewrite F4; by apply Hs|intros Hnl; by exfalso; apply Hnl].
    + destruct (ko_slot _ _ Hk x q Eq) as [S1 S2 S3 S4 S5 S6]. destruct (rest_fields _ _ (rs_rest _ _ _ _ _ _ R)) as (_ & _ & _ & Fp & Fo & Fc & _).
      destruct (resim_active _ _ _ _ _ _ R) as (A1 & A2 & A3). split; rewrite ?Fo, ?Fc, ?Fp; auto; try tauto.
      intros Hnl. split; [apply S6; tauto|]. rewrite (rs_parent _ _ _ _ _ _ R). destruct (S6 ltac:(tauto)) as [_ ->]. done.
  - intros g Hg. rewrite (exited_psum (fun p => fcount g (p_ofile p))), (Hre g Hg), (ko_ref _ _ Hk g Hg) by (intros ? ? ->; done).
    cbn [p_ofile p2 set_cwd set_ofile]. rewrite fcount_zero by done. lia.
  - intros c Hc. rewrite (exited_psum (cwd_count c)), Hcw, (ko_cwd _ _ Hk c Hc) by (unfold cwd_count; intros ? ? _ ->; done).
    unfold cwd_count at 3 4. cbn [p_cwd p2 set_cwd]. apply Z.eqb_neq in Hc. rewrite Hc. lia.
  - destruct Hinit as (q0 & ? & ?). by exists ip, q0.
  - intros x q' Ex' Lq' Nx. destruct (exited_back x q' Ex') as [[-> ->]|[Hne (q & Eq & R)]].
    + apply (Hpar i p); auto. exact (rs_parent _ _ _ _ _ _ exited_slot).
    + apply (Hpar x q); auto; [by apply (resim_active _ _ _ _ _ _ R)|congruence|exact (rs_parent _ _ _ _ _ _ R)].
Qed.

End exited_table.

End exiting.

(** (C36) exit(status) by a running process other than init returns to the
    scheduler with the process a zombie that keeps its pages and its status
    for the parent: its descriptors are closed and the reference counts
    lowered, its children have become init's, its parent is not left asleep
    in wait(), no other process changes otherwise, and the invariant of the
    table is preserved; in particular reference counts stay exact and every
    process still has a parent that has not exited. *)
Theorem exit_correct k l i ip p status :
  kernel_ok k l -> k_procs k !! i = Some p -> p_state p = RUNNING -> k_initproc k = Some ip -> ip <> i ->
  exists k' z, exit i status k = Ok (tt, k') /\ kernel_ok k' l /\ k_pm k' = k_pm k /\ same_pages_total k l k' l /\
    k_procs k' !! i = Some z /\ p_state z = ZOMBIE /\ p_xstate z = status /\ p_pid z = p_pid p /\ p_ofile z = replicate 16 0 /\
    (forall x q, x <> i -> k_procs k !! x = Some q -> exists q', k_procs k' !! x = Some q' /\ resim i ip (fun _ => true) x q q') /\
    (forall a, p_parent p = Some a -> a <> i -> not_waiting (k_procs k') a).
Proof.
  intros Hk Ei Er Eip Hni. destruct (exit_run k l i ip p status Hk Ei Er Eip Hni) as (ps4 & p4 & fs & E & T & E4 & Hfi & Hre & Hcw & Hw).
  destruct (exited_ok k l i ip p status Hk Ei Er Eip Hni ps4 p4 fs T E4 Hfi Hre Hcw) as [K Tot].
  destruct (exited_fields k l i ip p status Hk Ei Er Eip Hni ps4 p4 fs T E4 Hfi Hre Hcw) as (_ & _ & _ & Fp & Fo & _).
  eexists _, (set_state ZOMBIE (set_xstate status p4)). split; [exact E|]. cbn [k_pm k_procs]. pose proof (lookup_lt_Some _ _ _ E4) as Hlt.
  rewrite list_lookup_insert_eq by done. split_and!; try done.
  - by apply (exited_other k l i ip p status Hk Ei Er Eip Hni ps4 p4 fs T E4 Hfi Hre Hcw).
  - intros a Epa Hai q Eq. rewrite list_lookup_insert_ne in Eq by done. by apply (Hw a Epa Hai).
Qed.

(** ** wait *)

(** What wait() does with the zombie child [c] in slot [j]. *)
Definition reap (i : nat) (addr : Z) (j : nat) (c : proc) : M (kernel F) scan_result :=
  p ← getp i;
  r ← (if addr =? 0 then mret 0 else pm (copyout (p_pagetable p) addr (xstate_bytes (p_xstate c))));
  if r <? 0 then mret (Reaped (-1))
  else freeproc j;; mret (Reaped (p_pid c)).

Definition zombie_child (i : nat) (q : proc) : Prop := p_parent q = Some i /\ p_state q = ZOMBIE.
#[local] Instance zombie_child_dec i q : Decision (zombie_child i q).
Proof. unfold zombie_child. apply _. Defined.

Definition has_child (i : nat) (ps : list proc) : bool := existsb (fun q => bool_decide (p_parent q = Some i)) ps.

Lemma wait_scan_run i addr k : forall ps pre hk, k_procs k = pre ++ ps ->
  wait_scan (length ps) (length pre) i addr hk k =
  match list_find (zombie_child i) ps with
  | Some (j, c) => reap i addr (length pre + j) c k
  | None => Ok (Scanned (hk || has_child i ps), k)
  end.
Proof.
  induction ps as [|q ps IH]; intros pre hk E; [cbn; by rewrite orb_false_r|]. cbn [wait_scan length].
  assert (Eq : k_procs k !! length pre = Some q) by (rewrite E; apply list_lookup_middle; done).
  rewrite (bind_Ok _ _ _ _ _ (getp_at k (length pre) q Eq)). specialize (IH (pre ++ [q])).
  rewrite length_app in IH. cbn [length] in IH. rewrite Nat.add_1_r in IH. specialize (fun hk => IH hk ltac:(by rewrite <- app_assoc)).
  cbn [list_find has_child existsb]. fold (has_child i ps).
  destruct (decide (p_parent q = Some i)) as [Ep|Ep].
  - rewrite (bool_decide_eq_true_2 _ Ep). destruct (decide (p_state q = ZOMBIE)) as [Es|Es].
    + rewrite (decide_True (P := zombie_child i q)) by done. by rewrite Nat.add_0_r.
    + rewrite (decide_False (P := zombie_child i q)) by (unfold zombie_child; tauto). rewrite IH. destruct (list_find (zombie_child i) ps) as [[j c]|]; cbn.
      * by rewrite Nat.add_succ_r.
      * by rewrite orb_true_r.
  - rewrite (bool_decide_eq_false_2 _ Ep), (decide_False (P := zombie_child i q)) by (unfold zombie_child; tauto). rewrite IH. destruct (list_find (zombie_child i) ps) as [[j c]|]; cbn; [|done].
    by rewrite Nat.add_succ_r.
Qed.

(** copyout to the process's own memory. *)
Lemma wrote_slot_step k l i p addr src n s' :
  kernel_ok k l -> k_procs k !! i = Some p -> active p ->
  wrote (p_pagetable p) (k_pm k) l (npages (p_sz p)) addr src n s' -> slot_step (k_pm k) l p s' l p.
Proof.
  intros Hk Ei Ha [K W M _ Hh Hs _]. pose proof (mo_proc _ _ _ (ko_mem _ _ Hk) i p Ei) as Hp. apply proc_ok_live in Hp; [|apply Ha].
  pose proof Hp as [T P S _ Top Ap]. split; auto.
  - split; [auto|]. intros q a Hq _ Hn Hr. apply (Hs q); auto. intros Hq2. apply Hn. split; [apply Ha|by right].
  - apply proc_ok_live; [apply Ha|]. split; auto; [intros va Hva; rewrite M; by apply Top|by rewrite Hh].
  - intros x. unfold pheld. by rewrite Hh.
Qed.

(** Freeing a zombie. *)
Lemma reap_slot k l j c :
  kernel_ok k l -> k_procs k !! j = Some c -> p_state c = ZOMBIE ->
  exists s' l', freeproc j k = Ok (tt, mk_kernel s' (<[j := cleared c]> (k_procs k)) (k_nextpid k) (k_initproc k) (k_files k)) /\
    slot_step (k_pm k) l c s' l' (cleared c) /\ (forall x, x ∈ l' <-> x ∈ l \/ pheld (pm_mem (k_pm k)) c x) /\
    let k' := mk_kernel s' (<[j := cleared c]> (k_procs k)) (k_nextpid k) (k_initproc k) (k_files k) in
    kernel_ok k' l' /\ same_pages_total k l k' l'.
Proof.
  intros Hk Ej Ez. assert (Hl : live c) by (unfold live; rewrite Ez; done). pose proof (lookup_lt_Some _ _ _ Ej) as Hlt.
  pose proof (mo_proc _ _ _ (ko_mem _ _ Hk) j c Ej) as Hc. apply proc_ok_live in Hc; [|done].
  destruct (freeproc_run j (k_pm k) l (k_procs k) c (k_nextpid k) (k_initproc k) (k_files k) (pheld (pm_mem (k_pm k)) c) Hlt (mo_kinv _ _ _ (ko_mem _ _ Hk)))
    as (s' & l' & E & K' & St & P).
  { right. right. split; [done|]. intros q. unfold pheld. tauto. }
  assert (Ek : mk_kernel (k_pm k) (<[j := c]> (k_procs k)) (k_nextpid k) (k_initproc k) (k_files k) = k) by (rewrite list_insert_id by done; by destruct k).
  rewrite Ek in E. destruct (cleared_ok (pm_mem s') l' c) as [C1 C2].
  assert (Hss : slot_step (k_pm k) l c s' l' (cleared c)).
  { split; auto. intros x. rewrite P. specialize (C2 x). tauto. }
  assert (Hna : ~ active c) by (intros []; done).
  exists s', l'. split; [exact E|]. split; [done|]. split; [done|].
  destruct (ko_slot _ _ Hk j c Ej) as [Q1 Q2 Q3 Q4 Q5 Q6]. destruct (Q3 Hna) as [Eo Ec].
  refine (kernel_update _ l j c s' l' _ _ _ Hk Ej Hss _ _ _ _ _ _ _ _ _).
  - pose proof (ko_next _ _ Hk). lia.
  - split; cbn; auto; try done; by intros [].
  - apply Hk.
  - intros g Hg. cbn. lia.
  - intros c0 Hc0. unfold cwd_count. cbn. lia.
  - by intros [].
  - intros E0. exfalso. destruct (ko_init _ _ Hk) as (i0 & p0 & E0' & Ep0 & A0). rewrite E0 in E0'. injection E0' as <-. rewrite Ej in Ep0. by injection Ep0 as ->.
  - by intros [].
  - intros x q Hne Ex Lq Nx Epar. exfalso. destruct (ko_parent _ _ Hk x q Ex Lq Nx) as (a & pa & Epa & Ea & Aa). rewrite Epar in Epa. injection Epa as <-.
    rewrite Ej in Ea. by injection Ea as ->.
Qed.

Section waiting.
Context (k : kernel F) (l : list Z) (i : nat) (p : proc) (addr : Z).
Hypotheses (Hk : kernel_ok k l) (Ei : k_procs k !! i = Some p) (Er : p_state p = RUNNING) (Haddr : 0 <= addr < 2 ^ 64).

(** The status as the parent reads it. *)
Definition status_at (m : mem) (x : Z) : Prop :=
  forall o, 0 <= o < 4 -> ubyte m (p_pagetable p) (addr + o) = xstate_bytes x !!! Z.to_nat o.

Lemma wait_copyout src : length src = 4%nat -> Forall (fun b => 0 <= b < 256) src -> addr <> 0 ->
  exists r s', pm (F := F) (copyout (p_pagetable p) addr src) k = Ok (r, lset s' k) /\
    slot_step (k_pm k) l p s' l p /\ kernel_ok (lset s' k) l /\ same_pages_total k l (lset s' k) l /\
    (r = 0 /\ (forall o, 0 <= o < 4 -> addr + o < Z.of_nat (npages (p_sz p)) * 4096 /\ ubyte (pm_mem s') (p_pagetable p) (addr + o) = src !!! Z.to_nat o) \/ r = -1).
Proof using All.
  intros Hlen Hb Hnz. assert (Ha : active p) by (unfold active; rewrite Er; done).
  pose proof (mo_proc _ _ _ (ko_mem _ _ Hk) i p Ei) as Hp. apply proc_ok_live in Hp; [|apply Ha].
  pose proof (proc_top_private _ _ _ (proj1 (so_tf _ _ _ _ _ Hp)) (so_top _ _ _ _ _ Hp)) as Htp.
  destruct (copyout_run (p_pagetable p) (k_pm k) l (npages (p_sz p)) addr src (mo_kinv _ _ _ (ko_mem _ _ Hk)) (so_wf _ _ _ _ _ Hp) Htp Haddr) as (r & s' & n & E & Hw & Hr).
  pose proof (wrote_slot_step k l i p addr src n s' Hk Ei Ha Hw) as Hss. exists r, s'. split; [by apply pm_at|]. split; [done|].
  assert (Ek : lset s' k = mk_kernel s' (<[i := p]> (k_procs k)) (k_nextpid k) (k_initproc k) (k_files k)) by (by rewrite list_insert_id).
  rewrite Ek. destruct (live_update k l i p Hk Ei Ha s' l p Hss Ha) as [K T]; try done; [apply (ko_slot _ _ Hk i p Ei)|].
  split; [exact K|]. split; [exact T|]. destruct Hr as [[-> ->]|(-> & _ & _)]; [left|by right]. split; [done|]. intros o Ho. rewrite Hlen in Hw.
  pose proof (wrote_ok _ _ _ _ _ _ _ _ Hw (Z.to_nat o) ltac:(lia)) as Hwr. rewrite Z2Nat.id in Hwr by lia. unfold uwritable in Hwr. apply andb_prop in Hwr as [Hrd _].
  pose proof (ureadable_low _ _ _ _ (addr + o) (so_wf _ _ _ _ _ Hp) Htp ltac:(lia) Hrd) as Hlow. split; [exact Hlow|].
  rewrite (wrote_bytes _ _ _ _ _ _ _ _ Hw (addr + o)) by lia.
  rewrite (proj2 (Z.leb_le addr (addr + o))), (proj2 (Z.ltb_lt (addr + o) (addr + Z.of_nat 4))) by lia. cbn [andb].
  replace (addr + o - addr) with o by lia. apply u8_small. apply (Forall_lookup_total_1 _ _ _ Hb). lia.
Qed.

Lemma reap_run j c : k_procs k !! j = Some c -> zombie_child i c ->
  exists r k' l', reap i addr j c k = Ok (Reaped r, k') /\ kernel_ok k' l' /\ same_pages_total k l k' l' /\
    (r = p_pid c /\ k_procs k' = <[j := cleared c]> (k_procs k) /\ (forall x, x ∈ l' <-> x ∈ l \/ pheld (pm_mem (k_pm k)) c x) /\
       (addr <> 0 -> status_at (pm_mem (k_pm k')) (p_xstate c)) \/
     r = -1 /\ addr <> 0 /\ k_procs k' = k_procs k).
Proof using All.
  intros Ej [Epar Ez]. assert (Hij : i <> j) by (intros <-; rewrite Ei in Ej; injection Ej as <-; congruence).
  assert (Hl : live p) by (unfold live; rewrite Er; done). unfold reap. rewrite (bind_Ok _ _ _ _ _ (getp_at k i p Ei)).
  destruct (Z.eqb_spec addr 0) as [E0|E0].
  - rewrite bind_run, ret_run. cbn [Z.ltb Z.compare]. destruct (reap_slot k l j c Hk Ej Ez) as (s' & l' & E & _ & P & K & T).
    rewrite (bind_Ok _ _ _ _ _ E). eexists _, _, l'. split; [done|]. split; [exact K|]. split; [exact T|]. left. split_and!; auto. done.
  - destruct (wait_copyout (xstate_bytes (p_xstate c))) as (r & s1 & E1 & Ss & K1 & T1 & Hr); [done| |done|].
    { unfold xstate_bytes. apply Forall_fmap, Forall_forall. intros x _. apply u8_range. }
    rewrite (bind_Ok _ _ _ _ _ E1). destruct Hr as [[-> Hb]| ->]; cbn [Z.ltb Z.compare].
    + destruct (reap_slot (lset s1 k) l j c K1 Ej Ez) as (s' & l' & E & Ss2 & P & K & T). rewrite (bind_Ok _ _ _ _ _ E).
      eexists _, _, l'. split; [done|]. split; [exact K|]. split; [intros x; by rewrite (T1 x)|]. left. split; [done|]. split; [done|]. split.
      * intros x. rewrite P. cbn [k_pm lset kernel_pm].
        destruct (slot_step_total k l i p s1 l p 0 None (k_files k) Hk Ei Ss) as (_ & _ & _).
        assert (Hc : pheld (pm_mem s1) c x <-> pheld (pm_mem (k_pm k)) c x); [|tauto].
        eapply proc_frame; [exact (ss_step _ _ _ _ _ _ Ss)|by apply (mo_proc _ _ _ (ko_mem _ _ Hk) j)|].
        intros y Hy. by apply (mo_apart _ _ _ (ko_mem _ _ Hk) j i c p Ej Ei).
      * intros _ o Ho. destruct (Hb o Ho) as [Hlow Hv]. rewrite <- Hv. cbn [k_pm].
        destruct (slot_step_total (lset s1 k) l j c s' l' (cleared c) 0 None (k_files k) K1 Ej Ss2) as (_ & _ & Hsame).
        apply (Hsame i p Hij Ei Hl). lia.
    + eexists _, _, l. split; [done|]. split; [exact K1|]. split; [exact T1|]. by right.
Qed.

(** (C37) wait(): when a child has exited, the first such child's slot is
    freed and all its pages go back to the free list, its pid is returned and
    its exit status is in the parent's memory (or -1 is returned and the child
    stays, when the status cannot be written); without children, or when
    killed, it returns -1 and changes nothing; otherwise the process sleeps
    on its own channel.  The invariant of the table is preserved. *)
Theorem wait_correct :
  match list_find (zombie_child i) (k_procs k) with
  | Some (j, c) => exists r k' l', wait i addr k = Ok (WaitDone r, k') /\ kernel_ok k' l' /\ same_pages_total k l k' l' /\
      (r = p_pid c /\ k_procs k' = <[j := cleared c]> (k_procs k) /\ (forall x, x ∈ l' <-> x ∈ l \/ pheld (pm_mem (k_pm k)) c x) /\
         (addr <> 0 -> status_at (pm_mem (k_pm k')) (p_xstate c)) \/
       r = -1 /\ addr <> 0 /\ k_procs k' = k_procs k)
  | None =>
      if has_child i (k_procs k) && (p_killed p =? 0) then
        exists k', wait i addr k = Ok (WaitSleeps, k') /\ kernel_ok k' l /\ k_pm k' = k_pm k /\
          k_procs k' = <[i := set_state SLEEPING (set_chan (Some (CProc i)) p)]> (k_procs k)
      else wait i addr k = Ok (WaitDone (-1), k)
  end.
Proof using All.
  unfold wait. rewrite bind_run, gets_run, bind_run. pose proof (wait_scan_run i addr k (k_procs k) [] false eq_refl) as Hs. cbn [length] in Hs. rewrite Hs.
  assert (Ha : active p) by (unfold active; rewrite Er; done).
  destruct (list_find (zombie_child i) (k_procs k)) as [[j c]|] eqn:Ef.
  - apply list_find_Some in Ef as (Ej & Hz & _). destruct (reap_run j c Ej Hz) as (r & k' & l' & E & K & T & Hr).
    cbn [Nat.add]. rewrite E. by exists r, k', l'.
  - cbn [orb]. rewrite (bind_Ok _ _ _ _ _ (getp_at k i p Ei)).
    destruct (has_child i (k_procs k)), (p_killed p =? 0); cbn [negb orb andb]; try done.
    unfold sleep. assert (Ek : lset (k_pm k) k = k) by by destruct k. rewrite bind_run, bind_run, <- Ek, (updp_at k i p Ei).
    rewrite updp_run by (by eapply lookup_lt_Some). rewrite Ek. eexists. split; [reflexivity|]. split; [|done].
    apply (live_update k l i p Hk Ei Ha); try done. apply slot_step_id; [apply (ko_mem _ _ Hk)| |].
    + pose proof (mo_proc _ _ _ (ko_mem _ _ Hk) i p Ei) as Hp. apply proc_ok_live in Hp; [|apply Ha]. apply proc_ok_live; [done|exact Hp].
    + intros x. unfold pheld, live. cbn. rewrite Er. naive_solver.
Qed.

End waiting.

(** ** kill *)

(** kill on the first slot with the pid. *)
Definition kill_one (p : proc) : proc :=
  let p := set_killed 1 p in if decide (p_state p = SLEEPING) then set_state RUNNABLE p else p.

Lemma kill_run k pid :
  kill pid k = match list_find (fun p => p_pid p = pid) (k_procs k) with
               | None => Ok (-1, k)
               | Some (j, p) => Ok (0, mk_kernel (k_pm k) (<[j := kill_one p]> (k_procs k)) (k_nextpid k) (k_initproc k) (k_files k))
               end.
Proof.
  unfold kill. rewrite bind_run, gets_run. destruct (list_find (fun p => p_pid p = pid) (k_procs k)) as [[j p]|] eqn:Ef; [|done].
  apply list_find_Some in Ef as (Ej & _ & _). assert (Ek : lset (k_pm k) k = k) by by destruct k.
  rewrite bind_run, <- Ek, (updp_at k j p Ej), bind_run, updp_run by (by eapply lookup_lt_Some). done.
Qed.

Lemma kill_one_same p : same_res p (kill_one p) /\ (active (kill_one p) <-> active p) /\ (p_state (kill_one p) = USED -> p_state p = USED) /\
  p_ofile (kill_one p) = p_ofile p /\ p_cwd (kill_one p) = p_cwd p /\ p_parent (kill_one p) = p_parent p.
Proof.
  unfold kill_one. cbn [p_state set_killed]. destruct (decide (p_state p = SLEEPING)) as [E|E].
  - split; [split; try done; unfold live; cbn; rewrite E; done|]. unfold active. cbn. rewrite E. by split_and!.
  - split; [by split|]. by split_and!.
Qed.

Lemma insert_imap (f : proc -> proc) (ps : list proc) j p : ps !! j = Some p ->
  <[j := f p]> ps = imap (fun x q => if decide (x = j) then f q else q) ps.
Proof.
  intros Ej. apply list_eq. intros x. rewrite list_lookup_imap. destruct (decide (x = j)) as [->|Hne].
  - rewrite list_lookup_insert_eq, Ej by (by eapply lookup_lt_Some). done.
  - rewrite list_lookup_insert_ne by done. by destruct (ps !! x).
Qed.

Lemma kill_ok k l j p : kernel_ok k l -> k_procs k !! j = Some p ->
  kernel_ok (mk_kernel (k_pm k) (<[j := kill_one p]> (k_procs k)) (k_nextpid k) (k_initproc k) (k_files k)) l.
Proof.
  intros Hk Ej. rewrite (insert_imap kill_one _ _ _ Ej). apply (retable_active k l); [done|]. intros x q Ex. case_decide.
  - apply kill_one_same.
  - by split_and!; [apply same_res_refl|..].
Qed.

(** kill(pid) for a positive pid acts on the one process with that pid:
    it is marked killed and, if asleep, becomes runnable; no other process
    changes.  Without such a process it returns -1 and changes nothing. *)
Theorem kill_correct k l pid :
  kernel_ok k l -> 0 < pid ->
  exists r k', kill pid k = Ok (r, k') /\ kernel_ok k' l /\ k_pm k' = k_pm k /\
    (r = -1 /\ k' = k /\ (forall j p, k_procs k !! j = Some p -> p_pid p <> pid) \/
     r = 0 /\ exists j p p', k_procs k !! j = Some p /\ p_pid p = pid /\ k_procs k' !! j = Some p' /\ p_killed p' = 1 /\ p_state p' <> SLEEPING /\
       (p_state p <> SLEEPING -> p_state p' = p_state p) /\ (forall x, x <> j -> k_procs k' !! x = k_procs k !! x)).
Proof.
  intros Hk Hpid. rewrite kill_run. destruct (list_find (fun p => p_pid p = pid) (k_procs k)) as [[j p]|] eqn:Ef.
  - apply list_find_Some in Ef as (Ej & Ep & _). eexists 0, _. split; [done|]. split; [by eapply kill_ok|]. split; [done|]. right. split; [done|].
    exists j, p, (kill_one p). cbn [k_procs]. rewrite list_lookup_insert_eq by (by eapply lookup_lt_Some). unfold kill_one. cbn [p_state set_killed].
    split_and!; try done; try (intros x Hx; by rewrite list_lookup_insert_ne); by case_decide.
  - eexists (-1), k. split; [done|]. split; [done|]. split; [done|]. left. split_and!; try done.
    apply list_find_None in Ef. intros j p Ej. by apply (proj1 (Forall_lookup _ _) Ef j p).
Qed.

Lemma first_unused k l : kernel_ok k l ->
  list_find (fun p => p_pid p = 0) (k_procs k) = list_find (fun p => p_state p = UNUSED) (k_procs k).
Proof.
  intros Hk. assert (Hall : forall p, p ∈ k_procs k -> p_pid p = 0 <-> p_state p = UNUSED).
  { intros p [j Ej]%list_elem_of_lookup. destruct (ko_slot _ _ Hk j p Ej) as [_ _ _ _ S5 S6]. split.
    - intros E. destruct (decide (p_state p = UNUSED)) as [D|D]; [done|]. specialize (S5 D). lia.
    - intros E. apply S6. by intros []. }
  induction (k_procs k) as [|p ps IH]; [done|]. cbn. pose proof (Hall p ltac:(by left)) as Hp. repeat case_decide; try tauto.
  rewrite IH; [done|]. intros q Hq. apply Hall. by right.
Qed.

(** kill(0) succeeds although no process has pid 0: it finds the first
    unused slot, whose pid is 0, and marks it killed.  allocproc does not
    clear the mark, so the next process that fork creates is born killed. *)
Theorem kill_zero_poisons_fork k l i p :
  kernel_ok k l -> k_procs k !! i = Some p -> p_state p = RUNNING ->
  (exists j q, k_procs k !! j = Some q /\ p_state q = UNUSED) ->
  exists k1 r k2, kill 0 k = Ok (0, k1) /\ fork i k1 = Ok (r, k2) /\
    (r <> -1 -> exists j c, k_procs k2 !! j = Some c /\ p_pid c = r /\ p_state c = RUNNABLE /\ p_killed c = 1).
Proof.
  intros Hk Ei Er (j0 & q0 & Ej0 & Eq0). rewrite kill_run, (first_unused k l Hk).
  destruct (list_find (fun p => p_state p = UNUSED) (k_procs k)) as [[j q]|] eqn:Ef; cycle 1.
  { exfalso. apply list_find_None in Ef. by apply (proj1 (Forall_lookup _ _) Ef j0 q0 Ej0). }
  pose proof Ef as Ef'. apply list_find_Some in Ef as (Ej & Eu & Hfirst). pose proof (lookup_lt_Some _ _ _ Ej) as Hlt.
  pose proof (kill_ok k l j q Hk Ej) as Hk1. set (k1 := mk_kernel _ _ _ _ _) in *.
  assert (Ekq : kill_one q = set_killed 1 q) by (unfold kill_one; cbn; by rewrite decide_False by congruence).
  assert (Hij : i <> j) by (intros ->; congruence).
  assert (Ei1 : k_procs k1 !! i = Some p) by (cbn; by rewrite list_lookup_insert_ne).
  assert (Ha : active p) by (unfold active; rewrite Er; done).
  pose proof (fork_run (k_pm k1) l (k_procs k1) (k_nextpid k1) (k_initproc k1) (k_files k1) i p (ko_mem _ _ Hk1) Ei1 (proj1 Ha) (kernel_refs k1 l i p Hk1 Ei1 Ha)) as Hf.
  assert (Efind : list_find (fun p => p_state p = UNUSED) (k_procs k1) = Some (j, kill_one q)).
  { apply list_find_Some. cbn [k_procs k1]. rewrite list_lookup_insert_eq by done. split; [done|]. split; [by rewrite Ekq|].
    intros x y Ex Hx. rewrite list_lookup_insert_ne in Ex by lia. by apply (Hfirst x). }
  rewrite Efind in Hf. destruct Hf as (s' & l' & _ & _ & [[(ctx & E) _]|(tf & pt & fs' & E & _)]).
  - eexists k1, _, _. split; [done|]. split; [exact E|]. done.
  - eexists k1, _, _. split; [done|]. split; [exact E|]. intros _. exists j, (child_of i (k_nextpid k1) tf pt p (kill_one q)).
    cbn [k_procs]. split; [by rewrite list_lookup_insert_eq by (cbn; by rewrite length_insert)|]. by rewrite Ekq.
Qed.

End props.
