(* ===== verification/ProcDemo.v ===== *)
(** A small process table on which the theorems of [ProcProps] are applied:
    init and a shell, with empty user memory, on the machine of [VmProps]. *)

From S2P Require Import Prelude Memory Riscv Kalloc Vm VmTable VmSpace VmUser VmFree VmCopy Kvm VmProps ProcMem Proc ProcInv ProcProps.

(** A file layer that only counts references. *)
Definition counts : Type := (Z -> Z) * (Z -> Z).
Definition bump (f d : Z) (c : Z -> Z) : Z -> Z := fun g => c g + if g =? f then d else 0.

#[local] Instance count_ops : FileOps counts := {|
  filedup f := fun c => Ok (f, (bump f 1 c.1, c.2));
  fileclose f := fun c => Ok (tt, (bump f (-1) c.1, c.2));
  idup i := fun c => Ok (i, (c.1, bump i 1 c.2));
  put_cwd i := fun c => Ok (tt, (c.1, bump i (-1) c.2));
  namei_root := fun c => Ok (1, (c.1, bump 1 1 c.2));
|}.

#[local] Instance count_ops_ok : FileOpsOk counts.
Proof.
  refine {| fo_inv := fun _ => True; fo_ref := fst; fo_cwd := snd |}; intros [r c] f _ Hf; eexists; split; try reflexivity; unfold bump; cbn; split_and!; auto; intros; case_match; lia.
Defined.

(** The tables of a process without user memory. *)
Definition top_tables `{KernelImage} (m : mem) (root t1 t0 tf : Z) : mem :=
  let m := store64 m (root + 8 * 255) (Z.lor (PA2PTE t1) PTE_V) in
  let m := store64 m (t1 + 8 * 511) (Z.lor (PA2PTE t0) PTE_V) in
  let m := store64 m (t0 + 8 * 511) (mkpte trampoline (Z.lor PTE_R PTE_X)) in
  store64 m (t0 + 8 * 510) (mkpte tf (Z.lor PTE_R PTE_W)).

Section tables.
Context `{KernelImageOk}.

Lemma zero_entries m p : (forall a, p <= a < p + PGSIZE -> load8 m a = 0) -> forall j, 0 <= j < 512 -> load64 m (p + 8 * j) = 0.
Proof.
  intros Hz j Hj. rewrite <- (load64_memset_zero m p PGSIZE (p + 8 * j)) by (unfold PGSIZE; lia). apply load64_agree. intros a Ha.
  rewrite load8_memset by (unfold PGSIZE; lia). unfold PGSIZE in *. case_bool; try lia; try done. by rewrite Hz by lia.
Qed.

Lemma free_chain_same m m' fl l : free_chain m fl l -> (forall p a, p ∈ l -> p <= a < p + PGSIZE -> load8 m' a = load8 m a) -> free_chain m' fl l.
Proof.
  revert fl. induction l as [|p l IH]; intros fl Hc Hs; [done|]. destruct Hc as (-> & Hp & Hc). split_and!; auto.
  rewrite (load64_agree m' m p) by (intros x Hx; apply (Hs p); [by left|unfold PGSIZE; lia]). apply IH; [done|]. intros q a Hq. apply Hs. by right.
Qed.

Lemma elem_of_three (q a b c : Z) : q ∈ [a; b; c] <-> q = a \/ q = b \/ q = c.
Proof. rewrite !elem_of_cons, elem_of_nil. tauto. Qed.

Lemma table_added m root pg t i l p :
  pt_wf m root (pg :: l) -> NoDup (pg :: l) -> page_ok pg -> valid_path p -> (length p < 2)%nat -> tbl m root p = Some t ->
  0 <= i < 512 -> (p = [] -> i < 256) -> (forall a, t <= a < t + PGSIZE -> load8 m a = 0) -> (forall a, pg <= a < pg + PGSIZE -> load8 m a = 0) ->
  let m' := store64 m (t + 8 * i) (Z.lor (PA2PTE pg) PTE_V) in
  pt_wf m' root l /\ (forall q, owned m' root q <-> owned m root q \/ q = pg) /\ (forall va, ptmap m' root va = ptmap m root va) /\
  tbl m' root (p ++ [i]) = Some pg /\ (forall q a, q mod PGSIZE = 0 -> q <> t -> q <= a < q + PGSIZE -> load8 m' a = load8 m a).
Proof.
  intros Hw Hnd Hpg Hp Hl Ht Hi Hlow Hz Hz' m'. assert (He : entry_table (load64 m (t + 8 * i)) = None) by by rewrite zero_entries.
  assert (Hs : same_outside pg m m) by (by intros ? ?). pose proof (zero_entries m pg Hz') as Hze. split_and!.
  - by apply (pt_wf_add m m root pg t i l p).
  - intros q. by apply (owned_add m m root pg t i l p).
  - intros va. by apply (ptmap_add m m root pg t i l p).
  - rewrite (tbl_add m m root pg t i l p) by (try done; by apply valid_snoc). by rewrite decide_True.
  - intros q a Ha Hne Hr. destruct (proj1 Hw p t Hp Ht) as [[Hat _] _]. pose proof (page_apart q t Ha Hat Hne). apply load8_store64_ne. unfold PGSIZE in *. lia.
Qed.

Lemma leaf_added m root l t va v :
  pt_wf m root l -> tbl m root (va_path va) = Some t -> 0 <= va < MAXVA -> 0 <= v < 2 ^ 64 ->
  let m' := store64 m (t + 8 * PX 0 va) v in
  pt_wf m' root l /\ (forall q, owned m' root q <-> owned m root q) /\ (forall vb, tbl m' root (va_path vb) = tbl m root (va_path vb)) /\
  (forall vb, 0 <= vb < MAXVA -> ptmap m' root vb = if decide (va / 4096 = vb / 4096) then v else ptmap m root vb) /\
  (forall q a, q mod PGSIZE = 0 -> q <> t -> q <= a < q + PGSIZE -> load8 m' a = load8 m a).
Proof.
  intros Hw Ht Hva Hv m'. pose proof (PX_range 0 va) as Hpx.
  assert (Htb : forall q, valid_path q -> tbl m' root q = tbl m root q) by (intros q Hq; by apply (tbl_store_leaf m root l (va_path va)); auto with xv6).
  split_and!.
  - by apply (pt_wf_store_leaf m root l (va_path va)); auto with xv6.
  - intros q. by apply owned_tables.
  - intros vb. apply Htb. auto with xv6.
  - intros vb Hvb. apply (ptmap_store_leaf m root l va t v vb); auto; destruct TRAMPOLINE_TRAPFRAME as (_ & _ & EMx); rewrite EMx in *; lia.
  - intros q a Ha Hne Hr. destruct (proj1 Hw _ t (valid_va_path va) Ht) as [[Hat _] _]. pose proof (page_apart q t Ha Hat Hne). apply load8_store64_ne. unfold PGSIZE in *. lia.
Qed.

Lemma top_tables_ok m l root t1 t0 tf :
  Forall page_ok [root; t1; t0; tf] -> NoDup (root :: t1 :: t0 :: tf :: l) ->
  (forall p a, p ∈ [root; t1; t0] -> p <= a < p + PGSIZE -> load8 m a = 0) ->
  let m' := top_tables m root t1 t0 tf in
  space_ok m' l tf root 0 /\ (forall q, owned m' root q <-> q ∈ [root; t1; t0]) /\
  (forall q a, q mod PGSIZE = 0 -> q ∉ [root; t1; t0] -> q <= a < q + PGSIZE -> load8 m' a = load8 m a).
Proof.
  rewrite !Forall_cons. intros (Hr & H1 & H2 & H3 & _) Hnd Hz m'.
  apply NoDup_cons in Hnd as [Nr Hnd1]. pose proof Hnd1 as Hnd2. apply NoDup_cons in Hnd2 as [N1 Hnd2]. pose proof Hnd2 as Hnd3. apply NoDup_cons in Hnd3 as [N2 Hnd3].
  apply NoDup_cons in Hnd3 as [N3 Hnd].
  destruct (pt_empty m root (t1 :: t0 :: tf :: l) Hr Nr) as (Hw & Ho & Hm); [intros a; apply Hz; set_solver|].
  set (m1 := store64 m (root + 8 * 255) (Z.lor (PA2PTE t1) PTE_V)).
  destruct (table_added m root t1 root 255 (t0 :: tf :: l) []) as (Hw1 & Ho1 & Hm1 & Ht1 & Hs1);
    [auto with xv6; try (intros a; apply Hz; set_solver); cbn; lia..|]. fold m1 in Hw1, Ho1, Hm1, Ht1, Hs1.
  set (m2 := store64 m1 (t1 + 8 * 511) (Z.lor (PA2PTE t0) PTE_V)).
  assert (Hz1 : forall p a, p ∈ [t1; t0] -> p <= a < p + PGSIZE -> load8 m1 a = 0).
  { intros p a Hp Ha. rewrite (Hs1 p), (Hz p); [done|set_solver|done| |set_solver|done]. assert (p = t1 \/ p = t0) as [-> | ->] by set_solver; [apply H1|apply H2]. }
  destruct (table_added m1 root t0 t1 511 (tf :: l) [255]) as (Hw2 & Ho2 & Hm2 & Ht2 & Hs2);
    [auto with xv6; try (apply valid_single; lia); try (intros a; apply Hz1; set_solver); try done; cbn; lia..|]. fold m2 in Hw2, Ho2, Hm2, Ht2, Hs2.
  destruct TRAMPOLINE_TRAPFRAME as (ETr & ETf & EMx).
  destruct (leaf_added m2 root (tf :: l) t0 TRAMPOLINE (mkpte trampoline (Z.lor PTE_R PTE_X))) as (Hw3 & Ho3 & Ht3 & Hm3 & Hs3); auto; [by vm_compute|by apply mkpte_range; pose proof trampoline_range; try lia|].
  change (PX 0 TRAMPOLINE) with 511 in *. set (m3 := store64 m2 (t0 + 8 * 511) _) in *.
  destruct (leaf_added m3 root (tf :: l) t0 TRAPFRAME (mkpte tf (Z.lor PTE_R PTE_W))) as (Hw4 & Ho4 & Ht4 & Hm4 & Hs4);
    [done|by rewrite Ht3|by vm_compute|by apply mkpte_range; pose proof (frame_range tf H3); try lia|].
  change (PX 0 TRAPFRAME) with 510 in *. set (m4 := store64 m3 (t0 + 8 * 510) _) in *. change m' with m4.
  assert (Hown : forall q, owned m4 root q <-> q ∈ [root; t1; t0]) by (intros q; rewrite Ho4, Ho3, Ho2, Ho1, Ho, elem_of_three; tauto).
  assert (Hmap : forall vb, 0 <= vb < MAXVA -> ptmap m4 root vb = if decide (TRAPFRAME / 4096 = vb / 4096) then mkpte tf (Z.lor PTE_R PTE_W)
            else if decide (TRAMPOLINE / 4096 = vb / 4096) then mkpte trampoline (Z.lor PTE_R PTE_X) else 0).
  { intros vb Hvb. by rewrite Hm4, Hm3, Hm2, Hm1, Hm. }
  split; [|split; [exact Hown|]].
  - split.
    + by split.
    + pose proof (page_ok_range _ Hr). unfold KERNBASE in *. lia.
    + rewrite ETf. lia.
    + change (npages 0) with 0%nat. split; [eapply pt_wf_sub; [|exact Hw4]; intros x Hx; by right|rewrite ETf; lia|lia|lia|]. intros va Hva. rewrite Hmap by lia.
      rewrite !decide_False by (rewrite ?ETf, ?ETr in *; Z.div_mod_to_equations; lia). done.
    + intros va Hva. rewrite Hmap by (rewrite ETf in Hva; lia). rewrite ETf, ETr in *. destruct (Z.ltb_spec va 274877902848).
      * by rewrite decide_True by (Z.div_mod_to_equations; lia).
      * by rewrite decide_False, decide_True by (Z.div_mod_to_equations; lia).
    + change (npages 0) with 0%nat. rewrite held0, Hown, elem_of_three. intros [-> |[-> | ->]]; [apply Nr|apply N1|apply N2]; rewrite !elem_of_cons; auto.
  - intros q a Ha Hq Hra. rewrite (Hs4 q), (Hs3 q), (Hs2 q), (Hs1 q); try done; rewrite elem_of_three in Hq; tauto.
Qed.


End tables.


(** ** The machine *)

#[local] Existing Instance demo_image.
#[local] Existing Instance demo_image_ok.

Definition pg (i : Z) : Z := kend + i * 4096.
Definition tables1 : mem := top_tables (demo_links 8) (pg 8) (pg 9) (pg 10) (pg 11).
Definition tables2 : mem := top_tables tables1 (pg 12) (pg 13) (pg 14) (pg 15).
Definition table_ram : pmem := mk_pmem tables2 (pg 7).

Definition console3 : list Z := [5; 5; 5; 0; 0; 0; 0; 0; 0; 0; 0; 0; 0; 0; 0; 0].
Definition demo_init : proc :=
  mk_proc RUNNING None 0 0 1 None (KSTACK 0) 0 (pg 8) (pg 11) no_context console3 1 (replicate 16 0).
Definition demo_shell : proc :=
  mk_proc RUNNING None 0 0 2 (Some 0%nat) (KSTACK 1) 0 (pg 12) (pg 15) no_context console3 1 (replicate 16 0).
Definition demo_zombie : proc :=
  mk_proc ZOMBIE None 0 7 2 (Some 0%nat) (KSTACK 1) 0 (pg 12) (pg 15) no_context (replicate 16 0) 0 (replicate 16 0).

Definition demo_table (p : proc) : list proc := demo_init :: p :: replicate 62 zero_proc.
Definition demo_counts (p : proc) : counts :=
  (fun g => fcount g console3 + fcount g (p_ofile p), fun c => cwd_count c demo_init + cwd_count c p).
Definition demo_kernel (p : proc) : kernel counts := mk_kernel table_ram (demo_table p) 3 (Some 0%nat) (demo_counts p).

Lemma demo_zero i a : 8 <= i -> pg i <= a < pg i + PGSIZE -> load8 (demo_links 8) a = 0.
Proof.
  unfold pg, PGSIZE. change kend with 2147618816. intros Hi Ha. cbn [demo_links]. change kend with 2147618816. by rewrite !load8_store64_ne by lia.
Qed.

Lemma demo_kinv : kinv (mk_pmem (demo_links 8) (pg 7)) (demo_free 8).
Proof. split; [|vm_compute; repeat constructor; set_solver]. vm_compute. intuition congruence. Qed.

Lemma pg_ok i : 0 <= i < 16 -> page_ok (pg i).
Proof.
  intros Hi. unfold page_ok, pg. change kend with (524321 * 4096). change PHYSTOP with 2281701376. change PGSIZE with 4096.
  rewrite <- Z.mul_add_distr_r, Z.mod_mul by done. lia.
Qed.

Lemma pg_free i : pg i ∈ demo_free 8 -> 0 <= i < 8.
Proof.
  unfold demo_free, pg. rewrite elem_of_rev. unfold pages_from. rewrite list_elem_of_fmap. intros (j & E & Hj%elem_of_seq). unfold PGSIZE in *. lia.
Qed.

Lemma pg_inj i j : pg i = pg j -> i = j.
Proof. unfold pg. lia. Qed.

Lemma pg_apart i : 8 <= i -> pg i ∉ demo_free 8.
Proof. intros Hi Hin%pg_free. lia. Qed.

Lemma pages4 i : 8 <= i -> NoDup (pg i :: pg (i + 1) :: pg (i + 2) :: pg (i + 3) :: demo_free 8).
Proof.
  intros Hi. pose proof (proj2 demo_kinv). rewrite !NoDup_cons. split_and!; try done; rewrite ?not_elem_of_cons; split_and?;
    try (apply pg_apart; lia); intros E%pg_inj; lia.
Qed.

Lemma tables1_ok :
  space_ok tables1 (demo_free 8) (pg 11) (pg 8) 0 /\ (forall q, owned tables1 (pg 8) q <-> q ∈ [pg 8; pg 9; pg 10]) /\
  (forall q a, q mod PGSIZE = 0 -> q ∉ [pg 8; pg 9; pg 10] -> q <= a < q + PGSIZE -> load8 tables1 a = load8 (demo_links 8) a).
Proof.
  apply (top_tables_ok (demo_links 8) (demo_free 8) (pg 8) (pg 9) (pg 10) (pg 11)).
  - repeat constructor; by apply pg_ok.
  - by apply (pages4 8).
  - intros p a. rewrite elem_of_three. intros [-> |[-> | ->]]; by apply demo_zero.
Qed.

Lemma tables2_ok :
  space_ok tables2 (demo_free 8) (pg 15) (pg 12) 0 /\ (forall q, owned tables2 (pg 12) q <-> q ∈ [pg 12; pg 13; pg 14]) /\
  (forall q a, q mod PGSIZE = 0 -> q ∉ [pg 12; pg 13; pg 14] -> q <= a < q + PGSIZE -> load8 tables2 a = load8 tables1 a).
Proof.
  apply (top_tables_ok tables1 (demo_free 8) (pg 12) (pg 13) (pg 14) (pg 15)).
  - repeat constructor; by apply pg_ok.
  - by apply (pages4 12).
  - intros p a. rewrite elem_of_three. intros Hp Ha. destruct tables1_ok as (_ & _ & Hs). rewrite (Hs p); [| |rewrite elem_of_three|done].
    + destruct Hp as [-> |[-> | ->]]; eapply demo_zero; [|exact Ha| |exact Ha| |exact Ha]; lia.
    + destruct Hp as [-> |[-> | ->]]; by apply pg_ok.
    + destruct Hp as [-> |[-> | ->]]; intros [E|[E|E]]; apply pg_inj in E; lia.
Qed.

(** Both spaces in the final memory, on disjoint pages. *)
Lemma tables_ok :
  kinv table_ram (demo_free 8) /\ space_ok tables2 (demo_free 8) (pg 11) (pg 8) 0 /\ space_ok tables2 (demo_free 8) (pg 15) (pg 12) 0 /\
  (forall q, q = pg 11 \/ held tables2 (pg 8) 0 q -> q = pg 15 \/ held tables2 (pg 12) 0 q -> False).
Proof.
  destruct tables1_ok as (S1 & O1 & E1), tables2_ok as (S2 & O2 & E2).
  assert (St : pages_step (fun q => q ∈ [pg 12; pg 13; pg 14]) tables1 (demo_free 8) tables2 (demo_free 8)) by (split; [by left|intros q a Ha _; by apply E2]).
  destruct (space_frame _ _ _ _ _ _ _ _ St S1) as (S1' & Hh & _).
  { intros q. change (npages 0) with 0%nat. rewrite held0, O1, !elem_of_three. intros [-> |[-> |[-> | ->]]] [E|[E|E]]; apply pg_inj in E; lia. }
  split_and!; [|done|done|].
  - pose proof demo_kinv as [Hc Hn]. split; [|done]. cbn [pm_mem pm_freelist table_ram] in *.
    eapply (free_chain_same _ _ _ _ Hc). intros p a Hp Ha.
    assert (Hpo : page_ok p) by (by apply (proj1 (Forall_forall _ _) (free_chain_page_ok _ _ _ Hc))).
    assert (Hno : forall i, 8 <= i -> p <> pg i) by (intros i Hi ->; by apply (pg_apart i)).
    rewrite (E2 p), (E1 p); try done; try apply Hpo; rewrite elem_of_three; intros [E|[E|E]]; by apply Hno in E.
  - intros q. change (npages 0) with 0%nat in Hh. rewrite Hh, !held0, O1, O2, !elem_of_three.
    intros [-> |[-> |[-> | ->]]] [E|[E|[E|E]]]; apply pg_inj in E; lia.
Qed.

Lemma psum_replicate f n q : psum f (replicate n q) = Z.of_nat n * f q.
Proof. induction n as [|n IH]; [done|]. cbn [replicate psum]. rewrite IH. lia. Qed.

Lemma demo_kernel_ok p : p = demo_shell \/ p = demo_zombie -> kernel_ok (demo_kernel p) (demo_free 8).
Proof.
  intros Hp. destruct tables_ok as (Hk & S1 & S2 & Hap).
  assert (Hslots : forall i q, demo_table p !! i = Some q -> i = 0%nat /\ q = demo_init \/ i = 1%nat /\ q = p \/ (2 <= i)%nat /\ q = zero_proc).
  { intros [|[|i]] q E; cbn in E; [left; by injection E as <-|right; left; by injection E as <-|right; right].
    change (replicate 62 zero_proc !! i = Some q) in E. apply lookup_replicate in E as [-> _]. split; [lia|done]. }
  assert (Hfields : p_trapframe p = pg 15 /\ p_pagetable p = pg 12 /\ p_sz p = 0 /\ live p /\ p_pid p = 2 /\ p_parent p = Some 0%nat) by (destruct Hp; subst p; by split_and!).
  destruct Hfields as (F1 & F2 & F3 & F4 & F5 & F6).
  assert (Hheld : forall m, ~ exists q, pheld m zero_proc q) by (intros m (q & Hl & _); by apply Hl).
  split.
  - done.
  - split; [exact Hk| |].
    + intros i q Eq. destruct (Hslots i q Eq) as [[_ ->]|[[_ ->]|[_ ->]]]; unfold proc_ok; [exact S1| |done].
      rewrite decide_False by done. rewrite F1, F2, F3. exact S2.
    + intros i j q q' Ei Ej Hne x Hx Hx'.
      destruct (Hslots i q Ei) as [[-> ->]|[[-> ->]|[_ ->]]], (Hslots j q' Ej) as [[-> ->]|[[-> ->]|[_ ->]]]; try done; try (by eapply (Hheld tables2); eauto);
        destruct Hx as [_ Hx], Hx' as [_ Hx']; rewrite F1, F2, F3 in *; by apply (Hap x).
  - done.
  - intros i q Eq. destruct (Hslots i q Eq) as [[_ ->]|[[_ ->]|[_ ->]]].
    + split; cbn; try done; try (intros Hx; exfalso; apply Hx; by split); intros Hx; exfalso; by apply Hx.
    + destruct Hp; subst p; split; cbn; try done; try (intros Hx; exfalso; apply Hx; by split); intros Hx; exfalso; by apply Hx.
    + split; cbn; try done. intros [Hx _]. by exfalso.
  - done.
  - intros g Hg. cbn [k_procs k_files demo_kernel]. unfold demo_table. cbn [psum]. rewrite psum_replicate. cbn [p_ofile zero_proc]. rewrite fcount_zero by done. cbn [fo_ref count_ops_ok demo_counts fst]. change (p_ofile demo_init) with console3. lia.
  - intros c Hc. cbn [k_procs k_files demo_kernel demo_table psum]. rewrite psum_replicate.
    assert (E0 : cwd_count c zero_proc = 0) by (unfold cwd_count; cbn; by rewrite (proj2 (Z.eqb_neq c 0))).
    rewrite E0. cbn [fo_cwd count_ops_ok demo_counts snd]. lia.
  - intros i j q q' Ei Ej Hl Hl'. cbn in Ei, Ej. destruct (Hslots i q Ei) as [[-> ->]|[[-> ->]|[_ ->]]], (Hslots j q' Ej) as [[-> ->]|[[-> ->]|[_ ->]]];
      try done; rewrite ?F5; done.
  - exists 0%nat, demo_init. by split_and!.
  - intros j q Ej Hl Hj. destruct (Hslots j q Ej) as [[-> ->]|[[-> ->]|[_ ->]]]; [done| |by exfalso].
    exists 0%nat, demo_init. by split_and!.
Qed.

(** ** The theorems at that table *)

Lemma fork_correct_witness : exists r k' l', fork 1 (demo_kernel demo_shell) = Ok (r, k') /\ kernel_ok k' l' /\ (r = -1 \/ r = 3).
Proof.
  destruct (fork_correct (demo_kernel demo_shell) (demo_free 8) 1 demo_shell) as (r & k' & l' & E & K & _ & _ & Hr);
    [apply demo_kernel_ok; by left|done|done|done|].
  exists r, k', l'. split_and!; [exact E|exact K|]. destruct Hr as [[-> _]|[-> _]]; [by left|by right].
Defined.

Lemma growproc_correct_witness : exists r k' l', growproc 1 4096 (demo_kernel demo_shell) = Ok (r, k') /\ kernel_ok k' l'.
Proof.
  destruct (growproc_correct (demo_kernel demo_shell) (demo_free 8) 1 demo_shell 4096) as (r & k' & l' & E & Hr);
    [apply demo_kernel_ok; by left|done|by split|lia|].
  exists r, k', l'. split; [exact E|]. apply Hr.
Defined.

Lemma exit_correct_witness : exists k', exit 1 7 (demo_kernel demo_shell) = Ok (tt, k') /\ kernel_ok k' (demo_free 8).
Proof.
  destruct (exit_correct (demo_kernel demo_shell) (demo_free 8) 1 0 demo_shell 7) as (k' & z & E & K & _);
    [apply demo_kernel_ok; by left|done|done|done|done|].
  exists k'. split; [exact E|exact K].
Defined.

Lemma wait_correct_witness : exists k' l', wait 0 0 (demo_kernel demo_zombie) = Ok (WaitDone 2, k') /\ kernel_ok k' l' /\
  (forall x, x ∈ l' <-> x ∈ demo_free 8 \/ pheld tables2 demo_zombie x).
Proof.
  pose proof (wait_correct (demo_kernel demo_zombie) (demo_free 8) 0 demo_init 0) as Hw.
  match type of Hw with context [list_find ?P ?ps] => change (list_find P ps) with (Some (1%nat, demo_zombie)) in Hw end.
  destruct Hw as (r & k' & l' & E & K & _ & Hr); [apply demo_kernel_ok; by right|done|done|lia|].
  destruct Hr as [(Er & _ & Hl & _)|(_ & Hn & _)]; [|by contradiction Hn].
  change (p_pid demo_zombie) with 2 in Er. subst r. exists k', l'. split; [exact E|]. split; [exact K|exact Hl].
Defined.

Lemma kill_correct_witness : exists k', kill 2 (demo_kernel demo_shell) = Ok (0, k') /\ kernel_ok k' (demo_free 8).
Proof.
  destruct (kill_correct (demo_kernel demo_shell) (demo_free 8) 2) as (r & k' & E & K & _ & Hr); [apply demo_kernel_ok; by left|lia|].
  exists k'. destruct Hr as [(_ & _ & Hn)|[-> _]]; [by specialize (Hn 1%nat demo_shell eq_refl)|]. split; [exact E|exact K].
Defined.

Lemma kill_zero_poisons_fork_witness : exists k1 r k2, kill 0 (demo_kernel demo_shell) = Ok (0, k1) /\ fork 1 k1 = Ok (r, k2) /\
  (r <> -1 -> exists j c, k_procs k2 !! j = Some c /\ p_pid c = r /\ p_state c = RUNNABLE /\ p_killed c = 1).
Proof.
  apply (kill_zero_poisons_fork (demo_kernel demo_shell) (demo_free 8) 1 demo_shell); [apply demo_kernel_ok; by left|done|done|].
  exists 2%nat, zero_proc. by split.
Defined.

