(* ===== verification/Sched.v ===== *)
(** kernel/proc.c: scheduler() on several harts.

    Every hart runs scheduler(); a step is one round of its loop, a stretch of
    kernel code of the process on the hart up to the point where it may lose the
    processor, or an interrupt.  p->lock makes a change of state together with
    the switch atomic. *)

From S2P Require Import Prelude Memory Riscv Kalloc Vm VmProps ProcMem Proc ProcDemo.

Section sched.
Context `{KernelImage} {F : Type} `{FileOps F}.
#[local] Abbreviation MK := (M (kernel F)).

(** ** The machine *)

Record msys := mk_msys { m_k : kernel F; m_harts : list hart_pos }.

(** What process [j] does without giving up the processor.  The rest of the
    kernel and user code ([stay_other]) leaves the other processes alone. *)
Inductive stays (j : nat) (k k' : kernel F) : Prop :=
  | stay_fork r : fork j k = Ok (r, k') -> stays j k k'
  | stay_wait addr r : wait j addr k = Ok (WaitDone r, k') -> stays j k k'
  | stay_wait_woken addr r : wait_woken j addr k = Ok (WaitDone r, k') -> stays j k k'
  | stay_woken : sleep_woken j k = Ok (tt, k') -> stays j k k'
  | stay_kill pid r : kill pid k = Ok (r, k') -> stays j k k'
  | stay_setkilled : setkilled j k = Ok (tt, k') -> stays j k k'
  | stay_growproc n r : growproc j n k = Ok (r, k') -> stays j k k'
  | stay_wakeup c : wakeup (Some j) c k = Ok (tt, k') -> stays j k k'
  | stay_other f : (forall p, p_state (f p) = p_state p) -> k_procs k' = alter f j (k_procs k) -> stays j k k'.

(** What it does up to sched(). *)
Inductive leaves (j : nat) (k k' : kernel F) : Prop :=
  | leave_yield : yield j k = Ok (tt, k') -> leaves j k k'
  | leave_sleep c : sleep j c k = Ok (tt, k') -> leaves j k k'
  | leave_wait addr : wait j addr k = Ok (WaitSleeps, k') -> leaves j k k'
  | leave_wait_woken addr : wait_woken j addr k = Ok (WaitSleeps, k') -> leaves j k k'
  | leave_exit status : exit j status k = Ok (tt, k') -> leaves j k k'.

(** Hart [h] switches to process [j], or ends a pass over the table. *)
Inductive sched_event := Switch (h j : nat) | PassEnd (h : nat).

Definition look_event (h : nat) (pos : hart_pos) : list sched_event :=
  match pos with Runs j => [Switch h j] | Looks 0 _ => [PassEnd h] | Looks _ _ => [] end.

Inductive mstep : msys -> list sched_event -> msys -> Prop :=
  | m_look k hs h j f pos k' :
      hs !! h = Some (Looks j f) -> scheduler_look j f k = Ok (pos, k') ->
      mstep (mk_msys k hs) (look_event h pos) (mk_msys k' (<[h := pos]> hs))
  | m_stay k hs h j k' :
      hs !! h = Some (Runs j) -> stays j k k' -> mstep (mk_msys k hs) [] (mk_msys k' hs)
  | m_leave k hs h j k' :
      hs !! h = Some (Runs j) -> leaves j k k' -> mstep (mk_msys k hs) [] (mk_msys k' (<[h := scheduler_back j]> hs))
  | m_intr k hs c k' :
      wakeup None c k = Ok (tt, k') -> mstep (mk_msys k hs) [] (mk_msys k' hs).

Inductive mrun : msys -> list sched_event -> msys -> Prop :=
  | mrun_nil s : mrun s [] s
  | mrun_step s l s1 tr s2 : mstep s l s1 -> mrun s1 tr s2 -> mrun s (l ++ tr) s2.

(** [n] harts begin to schedule; no process runs. *)
Definition boot_harts (k : kernel F) (n : nat) : msys := mk_msys k (replicate n (Looks 0 false)).

(** ** Code that leaves a process runnable or running *)

Definition has_state (y : nat) (st : procstate) (k : kernel F) : Prop := p_state <$> k_procs k !! y = Some st.

Definition keeps (y : nat) (st : procstate) {A} (m : MK A) : Prop :=
  forall k a k', m k = Ok (a, k') -> has_state y st k -> has_state y st k'.

Section keeps.
Context (y : nat) (st : procstate) (Hst : st = RUNNABLE \/ st = RUNNING).
#[local] Abbreviation keep := (keeps y st).

Lemma keeps_bind {A B} (m : MK A) (f : A -> MK B) : keep m -> (forall a, keep (f a)) -> keep (x ← m; f x).
Proof. intros Hm Hf k b k' E Hk. apply bind_inv in E as (a & k1 & E1 & E2). eapply Hf; [exact E2|]. by eapply Hm. Qed.

Lemma keeps_ret {A} (a : A) : keep (mret a).
Proof. intros k b k' [= _ <-]. done. Qed.

Lemma keeps_panic {A} e : keep (panic e : MK A).
Proof. by intros k a k' E. Qed.

Lemma keeps_gets {A} (f : kernel F -> A) : keep (gets f).
Proof. intros k a k' [= _ <-]. done. Qed.

Lemma keeps_pm {A} (m : M pmem A) : keep (pm m).
Proof. intros k a k'. unfold pm, zoom. destruct (m _) as [[? ?]|]; [|done]. by intros [= _ <-]. Qed.

Lemma keeps_files {A} (m : M F A) : keep (files m).
Proof. intros k a k'. unfold files, zoom. destruct (m _) as [[? ?]|]; [|done]. by intros [= _ <-]. Qed.

Lemma keeps_updp i f : (i = y -> forall p, p_state p = st -> p_state (f p) = st) -> keep (updp i f).
Proof.
  intros Hf k a k' [= _ <-] Hk. unfold has_state in *. cbn. destruct (k_procs k !! y) as [p|] eqn:E; [|done]. injection Hk as Hk. destruct (decide (i = y)) as [->|Hne].
  - rewrite list_lookup_alter_eq, E. cbn. f_equal. by apply Hf.
  - by rewrite list_lookup_alter_ne, E by done; cbn; f_equal.
Qed.

Lemma keeps_modify f : (forall k, k_procs (f k) = k_procs k) -> keep (modify f).
Proof. intros Hf k a k' [= _ <-]. unfold has_state. by rewrite Hf. Qed.

Create HintDb sched.
#[local] Hint Resolve keeps_bind keeps_ret keeps_panic keeps_gets keeps_pm keeps_files : sched.

(** The lemmas above, and case analysis on the code's tests. *)
Ltac keep_auto :=
  repeat first
    [ progress (intros; auto with sched)
    | apply keeps_bind
    | apply keeps_updp; intros ? ? ?; done
    | case_match ].

Lemma keeps_wakeup me c : keep (wakeup me c).
Proof using Hst.
  intros k a k' [= _ <-] Hk. unfold has_state in *. cbn. rewrite list_lookup_imap. destruct (k_procs k !! y) as [p|]; [|done]. cbn in *. injection Hk as Hk. f_equal.
  unfold wakeup_one. case_decide; [done|]. rewrite decide_False; [done|]. destruct Hst; intros [? _]; congruence.
Qed.
#[local] Hint Resolve keeps_wakeup : sched.

Lemma keeps_reparent_loop n : forall j i, keep (reparent_loop n j i).
Proof using Hst. induction n as [|n IH]; intros j i; cbn [reparent_loop]; unfold getp; keep_auto. Qed.
#[local] Hint Resolve keeps_reparent_loop : sched.

Lemma keeps_close_files fs : forall fd i, keep (close_files fs fd i).
Proof. induction fs as [|f fs IH]; intros fd i; cbn [close_files]; keep_auto. Qed.
#[local] Hint Resolve keeps_close_files : sched.

Lemma keeps_dup_files fs : forall fd np, keep (dup_files fs fd np).
Proof. induction fs as [|f fs IH]; intros fd np; cbn [dup_files]; keep_auto. Qed.
#[local] Hint Resolve keeps_dup_files : sched.

(** Another process is freed, or changes its state. *)
Lemma keeps_other i f : i <> y -> keep (updp i f).
Proof. intros Hne. by apply keeps_updp. Qed.

Lemma keeps_freeproc i : i <> y -> keep (freeproc i).
Proof. intros Hne. unfold freeproc, getp. pose proof (fun f => keeps_other i f Hne). keep_auto. Qed.

Lemma has_state_ne i k : has_state y st k -> (forall p, k_procs k !! i = Some p -> p_state p <> RUNNABLE /\ p_state p <> RUNNING) -> i <> y.
Proof using Hst.
  intros Hk Hi ->. unfold has_state in Hk. destruct (k_procs k !! y) as [p|]; [|done]. injection Hk as Hk. destruct (Hi p eq_refl). destruct Hst; congruence.
Qed.

(** allocproc takes an entry that is not in use. *)
Lemma keeps_allocproc k r k' : allocproc k = Ok (r, k') -> has_state y st k -> has_state y st k' /\ r <> Some y.
Proof using Hst.
  unfold allocproc. rewrite bind_run, gets_run. destruct (list_find _ _) as [[i p]|] eqn:Ef; [|by intros [= <- <-]]. apply list_find_Some in Ef as (Ei & Eu & _).
  match goal with |- ?m k = _ -> _ => assert (Hm : i <> y -> keep m) end.
  { intros Hne. pose proof (fun f => keeps_other i f Hne). pose proof (keeps_freeproc i Hne). assert (keep allocpid) by (intros ? ? ? [= _ <-]; done). keep_auto. }
  intros E Hk. assert (Hne : i <> y) by (apply (has_state_ne i k Hk); intros q Hq; rewrite Ei in Hq; injection Hq as <-; by rewrite Eu). split; [exact (Hm Hne _ _ _ E Hk)|]. clear Hm.
  do 5 apply bind_inv in E as (? & ? & _ & E). case_match; [by apply bind_inv in E as (? & ? & _ & [= <- _])|]. do 2 apply bind_inv in E as (? & ? & _ & E).
  case_match; [by apply bind_inv in E as (? & ? & _ & [= <- _])|]. apply bind_inv in E as (? & ? & _ & [= <- _]). congruence.
Qed.

Lemma keeps_fork j : keep (fork j).
Proof using Hst.
  intros k a k' E Hk. unfold fork in E. apply bind_inv in E as (r & k1 & E1 & E). destruct (keeps_allocproc _ _ _ E1 Hk) as [Hk1 Hr]. destruct r as [np|]; [|by injection E as _ <-].
  assert (Hne : np <> y) by congruence. clear E1. revert k1 a k' E Hk1. pose proof (fun f => keeps_other np f Hne). pose proof (keeps_freeproc np Hne).
  match goal with |- forall k1 a k', ?m k1 = _ -> _ => change (keep m) end. unfold getp. keep_auto.
Qed.

Lemma keeps_wait_scan n : forall j i addr b, keep (wait_scan n j i addr b).
Proof using Hst.
  induction n as [|n IH]; intros j i addr b; cbn [wait_scan]; [keep_auto|]. intros k a k' E Hk. apply bind_inv in E as (pp & ? & [= <- <-] & E). case_decide; [|by eapply IH]. case_decide as Hz; [|by eapply IH].
  assert (Hne : j <> y) by (apply (has_state_ne j k Hk); intros q Hq; rewrite list_lookup_total_alt, Hq in Hz; cbn in Hz; by rewrite Hz).
  revert E Hk. match goal with |- ?m k = _ -> _ => cut (keep m); [eauto|] end. pose proof (keeps_freeproc j Hne). unfold getp. keep_auto.
Qed.

(** wait() keeps the others, and the caller too if it does not sleep. *)
Lemma keeps_wait j addr k r k' : wait j addr k = Ok (r, k') -> r <> WaitSleeps \/ j <> y -> has_state y st k -> has_state y st k'.
Proof using Hst.
  unfold wait. intros E Hr Hk. apply bind_inv in E as (n & ? & [= _ <-] & E). apply bind_inv in E as (b & k1 & E1 & E). pose proof (keeps_wait_scan _ _ _ _ _ _ _ _ E1 Hk) as Hk1. destruct b as [hk|v]; [|by injection E as <- <-].
  apply bind_inv in E as (p & ? & [= _ <-] & E). case_match; [by injection E as <- <-|]. apply bind_inv in E as ([] & k2 & E2 & [= <- <-]). destruct Hr as [?|Hne]; [done|].
  revert E2 Hk1. unfold sleep. match goal with |- ?m k1 = _ -> _ => cut (keep m); [eauto|] end. pose proof (fun f => keeps_other j f Hne). keep_auto.
Qed.

Lemma keeps_woken j : keep (sleep_woken j).
Proof. apply keeps_updp. by intros _ p. Qed.

Lemma keeps_wait_woken j addr k r k' : wait_woken j addr k = Ok (r, k') -> r <> WaitSleeps \/ j <> y -> has_state y st k -> has_state y st k'.
Proof using Hst. unfold wait_woken. intros E Hr Hk. apply bind_inv in E as ([] & k1 & E1 & E). eapply keeps_wait; [done..|]. by eapply keeps_woken. Qed.

Lemma keeps_kill pid : keep (kill pid).
Proof using Hst.
  unfold kill. apply keeps_bind; [keep_auto|]. intros ps. destruct (list_find _ ps) as [[i q]|]; [|keep_auto]. apply keeps_bind; [keep_auto|]. intros _. apply keeps_bind; [|keep_auto].
  apply keeps_updp. intros _ p Hp. case_decide; [|done]. destruct Hst; congruence.
Qed.

Lemma keeps_growproc j n : keep (growproc j n).
Proof. unfold growproc, getp. keep_auto. Qed.

Lemma keeps_exit j status : j <> y -> keep (exit j status).
Proof using Hst. intros Hne. pose proof (fun f => keeps_other j f Hne). unfold exit, reparent, getp. keep_auto. Qed.

Lemma stays_keep j k k' : stays j k k' -> has_state y st k -> has_state y st k'.
Proof using Hst.
  intros [r E|addr r E|addr r E|E|pid r E|E|n r E|c E|f Hf E] Hk.
  - by eapply keeps_fork.
  - eapply keeps_wait; [exact E|by left|done].
  - eapply keeps_wait_woken; [exact E|by left|done].
  - by eapply keeps_woken.
  - by eapply keeps_kill.
  - revert E Hk. apply keeps_updp. by intros _ p.
  - by eapply keeps_growproc.
  - by eapply keeps_wakeup.
  - unfold has_state in *. rewrite E. destruct (decide (j = y)) as [->|Hne]; [|by rewrite list_lookup_alter_ne]. rewrite list_lookup_alter_eq. destruct (k_procs k !! y); [|done]. cbn in *. by rewrite Hf.
Qed.

Lemma leaves_keep j k k' : leaves j k k' -> j <> y -> has_state y st k -> has_state y st k'.
Proof using Hst.
  intros [E|c E|addr E|addr E|status E] Hne Hk; pose proof (fun f => keeps_other j f Hne).
  - exact (keeps_other j _ Hne _ _ _ E Hk).
  - revert E Hk. unfold sleep. match goal with |- ?m k = _ -> _ => cut (keep m); [eauto|keep_auto] end.
  - eapply keeps_wait; [exact E|by right|done].
  - eapply keeps_wait_woken; [exact E|by right|done].
  - by eapply keeps_exit.
Qed.

End keeps.

(** ** A process runs on one hart at a time *)

Record sched_ok (s : msys) : Prop := {
  so_running : forall h j, m_harts s !! h = Some (Runs j) -> has_state j RUNNING (m_k s);
  so_once : forall h h' j, m_harts s !! h = Some (Runs j) -> m_harts s !! h' = Some (Runs j) -> h = h';
}.

Lemma has_state_fun y st st' k : has_state y st k -> has_state y st' k -> st = st'.
Proof. unfold has_state. intros -> [= ->]. done. Qed.

(** A look at entry [j]. *)
Lemma look_run j f k pos k' : scheduler_look j f k = Ok (pos, k') ->
  (pos = Runs j /\ has_state j RUNNABLE k /\ has_state j RUNNING k' /\ forall y st, y <> j -> has_state y st k -> has_state y st k') \/
  (k' = k /\ ~ has_state j RUNNABLE k /\ (pos = Looks (S j) f \/ pos = Looks 0 false /\ (length (k_procs k) <= j)%nat)).
Proof.
  unfold scheduler_look. intros E. apply bind_inv in E as (n & ? & [= <- <-] & E). case_decide as Hj.
  - apply bind_inv in E as (p & ? & [= <- <-] & E). destruct (lookup_lt_is_Some_2 _ _ Hj) as [p Ep]. rewrite (list_lookup_total_correct _ _ _ Ep) in E. case_decide as Es.
    + left. apply bind_inv in E as ([] & k1 & [= <-] & [= <- <-]). unfold has_state. cbn. rewrite Ep, list_lookup_alter_eq, Ep. cbn. rewrite Es. split_and!; [done..|]. intros y st Hne. by rewrite list_lookup_alter_ne by done.
    + injection E as <- <-. right. split_and!; [done| |by left]. unfold has_state. rewrite Ep. intros [= ?]. done.
  - injection E as <- <-. right. split_and!; [done| |right; split; [done|lia]]. unfold has_state. rewrite lookup_ge_None_2 by lia. done.
Qed.

Lemma insert_cases {A} (l : list A) h x i y : <[h := x]> l !! i = Some y -> i = h /\ y = x \/ i <> h /\ l !! i = Some y.
Proof. intros [(-> & <- & _)|(Hne & E)]%list_lookup_insert_Some; [by left|by right]. Qed.

Lemma step_ok s l s' : sched_ok s -> mstep s l s' -> sched_ok s'.
Proof.
  intros [H1 H2] Hs. destruct Hs as [k hs h j f pos k' Eh E|k hs h j k' Eh E|k hs h j k' Eh E|k hs c k' E]; cbn [m_k m_harts] in *.
  - destruct (look_run _ _ _ _ _ E) as [(-> & Hr & Hr' & Hk)|(-> & _ & Hp)].
    + assert (Hnew : forall h' j', hs !! h' = Some (Runs j') -> j' <> j) by (intros h' j' Eh' ->; by pose proof (has_state_fun _ _ _ _ Hr (H1 _ _ Eh'))).
      split; cbn [m_k m_harts].
      * intros h' j' [[-> [= ->]]|[_ Eh']]%insert_cases; [done|]. apply Hk; [by eapply Hnew|by eapply H1].
      * intros h1 h2 j' [[-> [= ->]]|[_ E1]]%insert_cases [[-> E2]|[_ E2]]%insert_cases; [done|by destruct (Hnew _ _ E2)|injection E2 as ->; by destruct (Hnew _ _ E1)|by eapply H2].
    + assert (Hn : forall j', pos <> Runs j') by (intros j' ->; by destruct Hp as [?|[? _]]). assert (Hsub : forall h' j', <[h:=pos]> hs !! h' = Some (Runs j') -> hs !! h' = Some (Runs j')).
      { intros h' j' [[-> E']|[_ ?]]%insert_cases; [by destruct (Hn j')|done]. }
      split; cbn [m_k m_harts]; [intros h' j' Eh'; by eapply H1, Hsub|intros h1 h2 j' E1 E2; by eapply H2; apply Hsub].
  - split; cbn [m_k m_harts]; [|done]. intros h' j' Eh'. eapply stays_keep; [by right|exact E|by eapply H1].
  - assert (Hsub : forall h' j', <[h:=scheduler_back j]> hs !! h' = Some (Runs j') -> h' <> h /\ hs !! h' = Some (Runs j')).
    { by intros h' j' [[-> ?]|?]%insert_cases. }
    split; cbn [m_k m_harts].
    + intros h' j' [Hne Eh']%Hsub. eapply leaves_keep; [by right|exact E| |by eapply H1]. intros ->. by apply Hne, (H2 _ _ j').
    + intros h1 h2 j' [_ E1]%Hsub [_ E2]%Hsub. by eapply H2.
  - split; cbn [m_k m_harts]; [|done]. intros h' j' Eh'. eapply keeps_wakeup; [by right|exact E|by eapply H1].
Qed.

Lemma run_ok s tr s' : mrun s tr s' -> sched_ok s -> sched_ok s'.
Proof. induction 1 as [|s l s1 tr s2 Hs _ IH]; [done|]. intros Hk. by apply IH, (step_ok _ _ _ Hk Hs). Qed.

Lemma boot_ok k n : sched_ok (boot_harts k n).
Proof. by split; intros h; [intros j E|intros h' j E]; apply lookup_replicate in E as [? _]. Qed.

(** ** Every process gets its turn *)

(** How many processes hart [h] may still run before it comes to entry [y]. *)
Definition ahead (y : nat) (pos : hart_pos) : option nat :=
  match pos with
  | Looks a _ => if decide (a <= y)%nat then Some (y - a)%nat else None
  | Runs a => if decide (a < y)%nat then Some (y - a - 1)%nat else None
  end.

(** The number of processes that hart [h] ran. *)
Fixpoint switches (h : nat) (tr : list sched_event) : nat :=
  match tr with
  | [] => 0
  | Switch h' _ :: tr => (if decide (h' = h) then 1 else 0) + switches h tr
  | PassEnd _ :: tr => switches h tr
  end.

Lemma switches_app h l tr : switches h (l ++ tr) = (switches h l + switches h tr)%nat.
Proof. induction l as [|[h' j|h'] l IH]; cbn; [done| |done]. rewrite IH. lia. Qed.

(** One step: somebody runs [y], or [y] is still runnable and hart [h] still
    before it. *)
Lemma turn_step s l s1 h y pos b :
  mstep s l s1 -> sched_ok s -> m_harts s !! h = Some pos -> ahead y pos = Some b -> has_state y RUNNABLE (m_k s) ->
  (exists h', l = [Switch h' y]) \/
  (has_state y RUNNABLE (m_k s1) /\ PassEnd h ∉ l /\ exists pos1 b1, m_harts s1 !! h = Some pos1 /\ ahead y pos1 = Some b1 /\ (switches h l + b1 <= b)%nat).
Proof.
  intros Hs [H1 H2] Eh Hb Hy. assert (Hrun : forall h' j, m_harts s !! h' = Some (Runs j) -> j <> y) by (intros h' j Ej ->; by pose proof (has_state_fun _ _ _ _ Hy (H1 _ _ Ej))).
  destruct Hs as [k hs h' j f p' k' Ej E|k hs h' j k' Ej E|k hs h' j k' Ej E|k hs c k' E]; cbn [m_k m_harts] in *.
  - assert (Hl : (h' < length hs)%nat) by (by eapply lookup_lt_Some). destruct (look_run _ _ _ _ _ E) as [(-> & Hr & _ & Hk)|(-> & Hr & Hp)].
    + destruct (decide (j = y)) as [->|Hne]; [left; by exists h'|right]. split; [by apply Hk|]. split; [cbn; set_solver|]. destruct (decide (h' = h)) as [->|Hne'].
      * rewrite Ej in Eh. injection Eh as <-. unfold ahead in Hb. case_decide; [|done]. injection Hb as <-. exists (Runs j), (y - j - 1)%nat. rewrite list_lookup_insert_eq by done. cbn. rewrite !decide_True by lia. split_and!; [done..|lia].
      * exists pos, b. rewrite list_lookup_insert_ne by done. cbn. rewrite decide_False by done. split_and!; [done..|lia].
    + right. split; [done|]. destruct (decide (h' = h)) as [->|Hne'].
      * rewrite Ej in Eh. injection Eh as <-. unfold ahead in Hb. case_decide; [|done]. injection Hb as <-. assert (j <> y) by (intros ->; done).
        assert (y < length (k_procs k))%nat by (unfold has_state in Hy; destruct (k_procs k !! y) eqn:Ey; [by eapply lookup_lt_Some|done]). destruct Hp as [->|[-> ?]]; [|lia].
        split; [cbn; set_solver|]. exists (Looks (S j) f), (y - S j)%nat. rewrite list_lookup_insert_eq by done. cbn. rewrite decide_True by lia. split_and!; [done..|lia].
      * split; [destruct p' as [[|]|]; cbn; set_solver|]. exists pos, b. rewrite list_lookup_insert_ne by done. split_and!; [done..|]. destruct Hp as [->|[-> _]]; cbn; lia.
  - right. split; [eapply stays_keep; [by left|exact E|done]|]. split; [set_solver|]. exists pos, b. cbn. split_and!; [done..|lia].
  - right. split; [eapply leaves_keep; [by left|exact E|by eapply Hrun|done]|]. split; [set_solver|]. assert (Hl : (h' < length hs)%nat) by (by eapply lookup_lt_Some). destruct (decide (h' = h)) as [->|Hne'].
    + rewrite Ej in Eh. injection Eh as <-. unfold ahead in Hb. case_decide; [|done]. injection Hb as <-. exists (Looks (S j) true), (y - S j)%nat. rewrite list_lookup_insert_eq by done. cbn. rewrite decide_True by lia. split_and!; [done..|lia].
    + exists pos, b. rewrite list_lookup_insert_ne by done. cbn. split_and!; [done..|lia].
  - right. split; [eapply keeps_wakeup; [by left|exact E|done]|]. split; [set_solver|]. exists pos, b. cbn. split_and!; [done..|lia].
Qed.

Lemma turn s tr s' h y pos b :
  mrun s tr s' -> sched_ok s -> m_harts s !! h = Some pos -> ahead y pos = Some b -> has_state y RUNNABLE (m_k s) -> PassEnd h ∈ tr ->
  exists tr1 h' tr2, tr = tr1 ++ Switch h' y :: tr2 /\ PassEnd h ∉ tr1 /\ (switches h tr1 <= b)%nat.
Proof.
  intros Hr. revert pos b. induction Hr as [|s l s1 tr s2 Hs Hr IH]; intros pos b Hok Eh Hb Hy Hp; [by apply elem_of_nil in Hp|].
  destruct (turn_step _ _ _ _ _ _ _ Hs Hok Eh Hb Hy) as [[h' ->]|(Hy1 & Hnp & pos1 & b1 & Eh1 & Hb1 & Hle)].
  - exists [], h', tr. split_and!; [done|apply not_elem_of_nil|cbn; lia].
  - apply elem_of_app in Hp as [?|Hp]; [done|]. destruct (IH pos1 b1 (step_ok _ _ _ Hok Hs) Eh1 Hb1 Hy1 Hp) as (tr1 & h' & tr2 & -> & Hn & Hsw).
    exists (l ++ tr1), h', tr2. split_and!; [by rewrite <- app_assoc|by rewrite not_elem_of_app|]. rewrite switches_app. lia.
Qed.

(** (C38) The scheduler on any number of harts, in every interleaving of their
    loops, of the processes they run and of interrupts.  A process never runs on
    two harts, and one that a hart has switched to is RUNNING until it gives up the
    processor.  Every process gets its turn: if process [y] is runnable when some
    hart begins a pass over the table, then before that hart ends the pass a hart
    switches to [y], and until then that hart has run at most [y] processes. *)
Theorem scheduler_fair k n tr0 s :
  mrun (boot_harts k n) tr0 s ->
  (forall h j, m_harts s !! h = Some (Runs j) -> has_state j RUNNING (m_k s) /\ forall h', m_harts s !! h' = Some (Runs j) -> h' = h) /\
  forall tr s' h f y, mrun s tr s' -> m_harts s !! h = Some (Looks 0 f) -> has_state y RUNNABLE (m_k s) -> PassEnd h ∈ tr ->
    exists tr1 h' tr2, tr = tr1 ++ Switch h' y :: tr2 /\ PassEnd h ∉ tr1 /\ (switches h tr1 <= y)%nat.
Proof.
  intros Hr. pose proof (run_ok _ _ _ Hr (boot_ok k n)) as Hok. split.
  - intros h j Ej. destruct Hok as [H1 H2]. split; [by eapply H1|]. intros h' Ej'. by eapply H2.
  - intros tr s' h f y Hr' Eh Hy Hp. eapply (turn s tr s' h y (Looks 0 f) y); auto. cbn. rewrite decide_True by lia. by rewrite Nat.sub_0_r.
Qed.

End sched.

(** ** Two harts and two processes *)

#[local] Existing Instance demo_image.
#[local] Existing Instance count_ops.

Definition demo_procs (a b : procstate) : kernel counts :=
  mk_kernel demo_ram [set_state a zero_proc; set_state b zero_proc] 3 (Some 0%nat) (fun _ => 0, fun _ => 0).

(** Hart 0 takes the first process, hart 1 the second; the first yields, and hart
    0 ends its pass. *)
Definition demo_switches : list sched_event := [Switch 0 0; Switch 1 1; PassEnd 0].

Lemma demo_schedule : mrun (boot_harts (demo_procs RUNNABLE RUNNABLE) 2) demo_switches (mk_msys (demo_procs RUNNABLE RUNNING) [Looks 0 false; Runs 1]).
Proof.
  change demo_switches with ([Switch 0 0] ++ [] ++ [Switch 1 1] ++ [] ++ [] ++ [PassEnd 0] ++ []).
  eapply mrun_step; [exact (m_look (demo_procs RUNNABLE RUNNABLE) [Looks 0 false; Looks 0 false] 0 0 false (Runs 0) (demo_procs RUNNING RUNNABLE) eq_refl eq_refl)|].
  eapply mrun_step; [exact (m_look (demo_procs RUNNING RUNNABLE) [Runs 0; Looks 0 false] 1 0 false (Looks 1 false) (demo_procs RUNNING RUNNABLE) eq_refl eq_refl)|].
  eapply mrun_step; [exact (m_look (demo_procs RUNNING RUNNABLE) [Runs 0; Looks 1 false] 1 1 false (Runs 1) (demo_procs RUNNING RUNNING) eq_refl eq_refl)|].
  eapply mrun_step; [exact (m_leave (demo_procs RUNNING RUNNING) [Runs 0; Runs 1] 0 0 (demo_procs RUNNABLE RUNNING) eq_refl (leave_yield _ _ _ eq_refl))|].
  eapply mrun_step; [exact (m_look (demo_procs RUNNABLE RUNNING) [Looks 1 true; Runs 1] 0 1 true (Looks 2 true) (demo_procs RUNNABLE RUNNING) eq_refl eq_refl)|].
  eapply mrun_step; [exact (m_look (demo_procs RUNNABLE RUNNING) [Looks 2 true; Runs 1] 0 2 true (Looks 0 false) (demo_procs RUNNABLE RUNNING) eq_refl eq_refl)|].
  apply mrun_nil.
Qed.

Lemma scheduler_fair_witness : exists tr1 h' tr2, demo_switches = tr1 ++ Switch h' 1 :: tr2 /\ PassEnd 0 ∉ tr1 /\ (switches 0 tr1 <= 1)%nat.
Proof.
  destruct (scheduler_fair (demo_procs RUNNABLE RUNNABLE) 2 [] (boot_harts (demo_procs RUNNABLE RUNNABLE) 2) (mrun_nil _)) as [_ H].
  apply (H demo_switches _ 0%nat false 1%nat demo_schedule); [done|done|]. by do 2 right; left.
Defined.
