(* ===== verification/Exec.v ===== *)
(** kernel/exec.c: replacing the image of a process.

    The file system is used through [ExecFs]: what exec does between
    begin_op() and end_op() on one inode.  Kernel buffers (the ELF headers,
    the argument strings) are byte lists. *)

From S2P Require Import Prelude Memory Riscv Kalloc Vm Bytes ProcMem Proc.

Class ExecFs (F : Type) := {
  ef_open : Z -> Z -> list Z -> M F (option Z);   (* begin_op(); namei(path), of a process with this pid and cwd; ilock(ip), or end_op() *)
  ef_read : Z -> Z -> Z -> M F (Z * list Z);      (* readi(ip, 0, dst, off, n): the result and the bytes stored at dst *)
  ef_close : Z -> Z -> M F unit;                  (* iunlockput(ip); end_op(); *)
}.

Definition ELF_MAGIC : Z := 1179403647.
Definition ELF_PROG_LOAD : Z := 1.

Record elfhdr := mk_elfhdr { e_magic : Z; e_entry : Z; e_phoff : Z; e_phnum : Z }.
Definition sizeof_elfhdr : Z := 64.
Definition parse_elfhdr (b : list Z) : elfhdr := mk_elfhdr (get_le 4 b 0) (get_le 8 b 24) (get_le 8 b 32) (get_le 2 b 56).

Record proghdr := mk_proghdr { ph_type : Z; ph_flags : Z; ph_off : Z; ph_vaddr : Z; ph_filesz : Z; ph_memsz : Z }.
Definition sizeof_proghdr : Z := 56.
Definition parse_proghdr (b : list Z) : proghdr :=
  mk_proghdr (get_le 4 b 0) (get_le 4 b 4) (get_le 8 b 8) (get_le 8 b 16) (get_le 8 b 32) (get_le 8 b 40).

Definition flags2perm (flags : Z) : Z :=
  let perm := if negb (Z.land flags 1 =? 0) then PTE_X else 0 in
  if negb (Z.land flags 2 =? 0) then Z.lor perm PTE_W else perm.

(** for(last=s=path; *s; s++) if( *s == '/') last = s+1; *)
Fixpoint last_elem (last s : list Z) : list Z :=
  match s with
  | [] => last
  | c :: s => if c =? 0 then last else last_elem (if c =? 47 then s else last) s
  end.

Definition tf_a1 : Z := 120.

Section exec.
Context `{KernelImage} {F : Type} `{FileOps F} `{ExecFs F}.
#[local] Abbreviation MK := (M (kernel F)).

(** for(i = 0; i < sz; i += PGSIZE) *)
Fixpoint loadseg_loop (fuel : nat) (pagetable va ip offset sz i : Z) : MK Z :=
  match fuel with
  | O => panic "out of fuel"
  | S fuel =>
      if i <? sz then
        pa ← pm (walkaddr pagetable (u64 (va + i)));
        if pa =? 0 then panic "loadseg: address should exist"
        else
          let n := if sz - i <? PGSIZE then sz - i else PGSIZE in
          r ← files (ef_read ip (u32 (offset + i)) n);
          pm (modify (upd_mem (fun m => store_bytes m pa r.2)));;
          if negb (r.1 =? n) then mret (-1) else loadseg_loop fuel pagetable va ip offset sz (u32 (i + PGSIZE))
      else mret 0
  end.

(** offset and sz are uints. *)
Definition loadseg (pagetable va ip offset sz : Z) : MK Z :=
  loadseg_loop (Z.to_nat (u32 sz / PGSIZE + 2)) pagetable va ip (u32 offset) (u32 sz) 0.

(** Whether to go on, and sz. *)
Definition load_segment (pagetable ip sz : Z) (ph : proghdr) : MK (bool * Z) :=
  if ph_memsz ph <? ph_filesz ph then mret (false, sz)
  else if u64 (ph_vaddr ph + ph_memsz ph) <? ph_vaddr ph then mret (false, sz)
  else if negb (ph_vaddr ph mod PGSIZE =? 0) then mret (false, sz)
  else
    sz1 ← pm (uvmalloc pagetable sz (u64 (ph_vaddr ph + ph_memsz ph)) (flags2perm (ph_flags ph)));
    if sz1 =? 0 then mret (false, sz)
    else
      r ← loadseg pagetable (ph_vaddr ph) ip (ph_off ph) (ph_filesz ph);
      mret (negb (r <? 0), sz1).

(** for(i=0, off=elf.phoff; i<elf.phnum; i++, off+=sizeof(ph)) *)
Fixpoint load_segments (k : nat) (pagetable ip off sz : Z) : MK (bool * Z) :=
  match k with
  | O => mret (true, sz)
  | S k =>
      r ← files (ef_read ip (u32 off) sizeof_proghdr);
      if negb (r.1 =? sizeof_proghdr) then mret (false, sz)
      else
        let ph := parse_proghdr r.2 in
        if negb (ph_type ph =? ELF_PROG_LOAD) then load_segments k pagetable ip (s32 (off + sizeof_proghdr)) sz
        else
          r ← load_segment pagetable ip sz ph;
          let '(ok, sz) := r in
          if ok : bool then load_segments k pagetable ip (s32 (off + sizeof_proghdr)) sz
          else mret (false, sz)
  end.

(** for(argc = 0; argv[argc]; argc++): sp and ustack, or failure. *)
Fixpoint push_args (argv : list (list Z)) (pagetable stackbase sp : Z) (ustack : list Z) : MK (option (Z * list Z)) :=
  match argv with
  | [] => mret (Some (sp, ustack))
  | arg :: argv =>
      if MAXARG <=? Z.of_nat (length ustack) then mret None
      else
        let sp := u64 (sp - (Z.of_nat (length arg) + 1)) in
        let sp := u64 (sp - sp mod 16) in
        if sp <? stackbase then mret None
        else
          r ← pm (copyout pagetable sp (arg ++ [0]));
          if r <? 0 then mret None else push_args argv pagetable stackbase sp (ustack ++ [sp])
  end.

Definition words (ws : list Z) : list Z := ws ≫= bytes_le 8.

(** The stack, the arguments and the array of pointers to them: sz and sp. *)
Definition exec_stack (pagetable sz : Z) (argv : list (list Z)) : MK (option Z * Z) :=
  let sz := PGROUNDUP sz in
  sz1 ← pm (uvmalloc pagetable sz (u64 (sz + (USERSTACK + 1) * PGSIZE)) PTE_W);
  if sz1 =? 0 then mret (None, sz)
  else
    let sz := sz1 in
    pm (uvmclear pagetable (u64 (sz - (USERSTACK + 1) * PGSIZE)));;
    let stackbase := u64 (sz - USERSTACK * PGSIZE) in
    a ← push_args argv pagetable stackbase sz [];
    match a with
    | None => mret (None, sz)
    | Some (sp, ustack) =>
        if MAXARG <=? Z.of_nat (length ustack) then panic "ustack[MAXARG]"   (* ustack[argc] = 0 *)
        else
          let ustack := ustack ++ [0] in
          let sp := u64 (sp - Z.of_nat (length ustack) * 8) in
          let sp := u64 (sp - sp mod 16) in
          if sp <? stackbase then mret (None, sz)
          else
            r ← pm (copyout pagetable sp (words ustack));
            if r <? 0 then mret (None, sz) else mret (Some sp, sz)
    end.

(** bad: *)
Definition exec_bad (me pagetable sz : Z) (ip : option Z) : MK Z :=
  (if negb (pagetable =? 0) then pm (proc_freepagetable pagetable sz) else mret tt);;
  match ip with Some ip => files (ef_close me ip) | None => mret tt end;;
  mret (-1).

(** p->trapframe->a1 = sp; ... return argc; *)
Definition exec_commit (i : nat) (path : list Z) (argv : list (list Z)) (pagetable sz sp entry : Z) : MK Z :=
  p ← getp i;
  let tf := p_trapframe p in
  pm (modify (upd_mem (fun m => store64 m (tf + tf_a1) sp)));;
  updp i (fun p => set_name (name_copy 15 (p_name p) (last_elem path path)) p);;
  updp i (set_pagetable pagetable);;
  updp i (set_sz sz);;
  pm (modify (upd_mem (fun m => store64 m (tf + tf_epc) entry)));;
  pm (modify (upd_mem (fun m => store64 m (tf + tf_sp) sp)));;
  pm (proc_freepagetable (p_pagetable p) (p_sz p));;
  mret (Z.of_nat (length argv)).

(** [i] is the running process. *)
Definition exec (i : nat) (path : list Z) (argv : list (list Z)) : MK Z :=
  p ← getp i;
  let me := p_pid p in
  o ← files (ef_open me (p_cwd p) path);
  match o with
  | None => mret (-1)
  | Some ip =>
      r ← files (ef_read ip 0 sizeof_elfhdr);
      if negb (r.1 =? sizeof_elfhdr) then exec_bad me 0 0 (Some ip)
      else
        let elf := parse_elfhdr r.2 in
        if negb (e_magic elf =? ELF_MAGIC) then exec_bad me 0 0 (Some ip)
        else
          pagetable ← pm (proc_pagetable (p_trapframe p));
          if pagetable =? 0 then exec_bad me 0 0 (Some ip)
          else
            r ← load_segments (Z.to_nat (e_phnum elf)) pagetable ip (s32 (e_phoff elf)) 0;
            let '(ok, sz) := r in
            if negb ok then exec_bad me pagetable sz (Some ip)
            else
              files (ef_close me ip);;
              r ← exec_stack pagetable sz argv;
              let '(sp, sz) := r in
              match sp with
              | None => exec_bad me pagetable sz None
              | Some sp => exec_commit i path argv pagetable sz sp (e_entry elf)
              end
  end.

End exec.
