(* ===== verification/Syscall.v ===== *)
(** kernel/syscall.c, kernel/sysproc.c and sys_exec of kernel/sysfile.c:
    arguments, dispatch and the system calls on processes.

    [i] is the running process.  A system call runs until it has its result,
    the process goes to sleep in it ([SysSleeps]), or the process has ended
    ([SysGone]). *)

From S2P Require Import Prelude Memory Riscv Kalloc Vm Bytes UserMem Refine Cache Bio Log Blocks Fs FsDir Pipe File Sysfile ProcMem Proc Exec.

(** kernel/syscall.h *)
Inductive sysno :=
  | SYS_fork | SYS_exit | SYS_wait | SYS_pipe | SYS_read | SYS_kill | SYS_exec | SYS_fstat | SYS_chdir | SYS_dup | SYS_getpid | SYS_sbrk | SYS_sleep | SYS_uptime | SYS_open | SYS_write | SYS_mknod | SYS_unlink | SYS_link | SYS_mkdir | SYS_close.

Definition sys_num (n : sysno) : Z :=
  match n with
  | SYS_fork => 1 | SYS_exit => 2 | SYS_wait => 3 | SYS_pipe => 4 | SYS_read => 5 | SYS_kill => 6 | SYS_exec => 7
  | SYS_fstat => 8 | SYS_chdir => 9 | SYS_dup => 10 | SYS_getpid => 11 | SYS_sbrk => 12 | SYS_sleep => 13 | SYS_uptime => 14
  | SYS_open => 15 | SYS_write => 16 | SYS_mknod => 17 | SYS_unlink => 18 | SYS_link => 19 | SYS_mkdir => 20 | SYS_close => 21
  end.
Coercion sys_num : sysno >-> Z.

Inductive sysret := SysRet (r : Z) | SysSleeps | SysGone.

(** The system calls of sysfile.c but exec: by number, for a process and its
    six argument registers. *)
Class FileCalls (F : Type) := {
  file_call : Z -> nat -> list Z -> M (kernel F) sysret;
}.

Definition tf_a7 : Z := 168.

Section syscall.
Context `{KernelImage} {F : Type} `{FileOps F} `{ExecFs F} `{FileCalls F}.
#[local] Abbreviation MK := (M (kernel F)).

(** &ticks, and its value. *)
Variables (ticks_chan ticks : Z).

Definition tf_word (i : nat) (off : Z) : MK Z :=
  p ← getp i; pm (gets (fun s => load64 (pm_mem s) (p_trapframe p + off))).

(** ** Arguments *)

Definition argraw (i n : nat) : MK Z :=
  if decide (n < 6)%nat then tf_word i (tf_a0 + 8 * Z.of_nat n) else panic "argraw".
Definition argint (i n : nat) : MK Z := x ← argraw i n; mret (s32 x).
Definition argaddr (i n : nat) : MK Z := argraw i n.

Definition fetchaddr (i : nat) (addr : Z) : MK (option Z) :=
  p ← getp i;
  if (p_sz p <=? addr) || (p_sz p <? u64 (addr + 8)) then mret None
  else
    r ← pm (copyin (p_pagetable p) addr 8);
    if negb (r.1 =? 0) then mret None else mret (Some (get_le 8 r.2 0)).

(** The string, with the bytes copied into buf. *)
Definition fetchstr (i : nat) (addr max : Z) : MK (option (list Z) * list Z) :=
  p ← getp i;
  r ← pm (copyinstr (p_pagetable p) addr max);
  if r.1 <? 0 then mret (None, r.2) else mret (Some (cstr r.2), r.2).

Definition argstr (i n : nat) (max : Z) : MK (option (list Z)) :=
  addr ← argaddr i n;
  r ← fetchstr i addr max;
  mret r.1.

(** ** sysproc.c *)

Definition sys_exit (i : nat) : MK sysret := n ← argint i 0; exit i n;; mret SysGone.

Definition sys_getpid (i : nat) : MK sysret := p ← getp i; mret (SysRet (p_pid p)).

Definition sys_fork (i : nat) : MK sysret := r ← fork i; mret (SysRet r).

Definition sys_wait (i : nat) : MK sysret :=
  p ← argaddr i 0;
  r ← wait i p;
  match r with WaitDone r => mret (SysRet r) | WaitSleeps => mret SysSleeps end.

Definition sys_sbrk (i : nat) : MK sysret :=
  n ← argint i 0;
  p ← getp i;
  let addr := p_sz p in
  r ← growproc i n;
  if r <? 0 then mret (SysRet (-1)) else mret (SysRet addr).

(** while(ticks - ticks0 < n); [n] is compared as an unsigned number. *)
Definition sys_sleep_from (i : nat) (n ticks0 : Z) : MK sysret :=
  if u32 (ticks - ticks0) <? u32 n then
    x ← killed i;
    if negb (x =? 0) then mret (SysRet (-1)) else sleep i (CObj ticks_chan);; mret SysSleeps
  else mret (SysRet 0).

Definition sys_sleep (i : nat) : MK sysret :=
  n ← argint i 0;
  sys_sleep_from i (if n <? 0 then 0 else n) ticks.

Definition sys_kill (i : nat) : MK sysret := pid ← argint i 0; r ← kill pid; mret (SysRet r).

Definition sys_uptime : MK sysret := mret (SysRet ticks).

(** ** sys_exec *)

(** for(i = 0; i < NELEM(argv) && argv[i] != 0; i++) kfree(argv[i]); *)
Fixpoint free_args (pages : list Z) : MK unit :=
  match pages with
  | [] => mret tt
  | pg :: pages => pm (kfree pg);; free_args pages
  end.

(** for(i=0;; i++), [k] entries of argv left: the pages and strings so far,
    and whether to go on. *)
Fixpoint fetch_args (k : nat) (i : nat) (uargv : Z) (pages : list Z) (argv : list (list Z)) : MK (bool * list Z * list (list Z)) :=
  match k with
  | O => mret (false, pages, argv)
  | S k =>
      u ← fetchaddr i (u64 (uargv + 8 * Z.of_nat (length pages)));
      match u with
      | None => mret (false, pages, argv)
      | Some uarg =>
          if uarg =? 0 then mret (true, pages, argv)
          else
            pg ← pm kalloc;
            if pg =? 0 then mret (false, pages, argv)
            else
              s ← fetchstr i uarg PGSIZE;
              pm (modify (upd_mem (fun m => store_bytes m pg s.2)));;
              match s.1 with
              | None => mret (false, pages ++ [pg], argv)
              | Some str => fetch_args k i uargv (pages ++ [pg]) (argv ++ [str])
              end
      end
  end.

Definition sys_exec (i : nat) : MK sysret :=
  uargv ← argaddr i 1;
  path ← argstr i 0 MAXPATH;
  match path with
  | None => mret (SysRet (-1))
  | Some path =>
      a ← fetch_args (Z.to_nat MAXARG) i uargv [] [];
      let '(ok, pages, argv) := a in
      if ok : bool then
        ret ← exec i path argv;
        free_args pages;;
        mret (SysRet ret)
      else free_args pages;; mret (SysRet (-1))
  end.

(** ** Dispatch *)

Definition syscalls (num : Z) : option (nat -> MK sysret) :=
  if num =? SYS_fork then Some sys_fork
  else if num =? SYS_exit then Some sys_exit
  else if num =? SYS_wait then Some sys_wait
  else if num =? SYS_kill then Some sys_kill
  else if num =? SYS_exec then Some sys_exec
  else if num =? SYS_getpid then Some sys_getpid
  else if num =? SYS_sbrk then Some sys_sbrk
  else if num =? SYS_sleep then Some sys_sleep
  else if num =? SYS_uptime then Some (fun _ => sys_uptime)
  else if (1 <=? num) && (num <=? 21) then
    Some (fun i => p ← getp i;
                   args ← pm (gets (fun s => (fun n => load64 (pm_mem s) (p_trapframe p + tf_a0 + 8 * Z.of_nat n)) <$> seq 0 6));
                   file_call num i args)
  else None.

Definition set_a0 (i : nat) (v : Z) : MK unit :=
  p ← getp i; pm (modify (upd_mem (fun m => store64 m (p_trapframe p + tf_a0) (u64 v)))).

Definition syscall (i : nat) : MK sysret :=
  a ← tf_word i tf_a7;
  let num := s32 a in
  match (if 0 <? num then syscalls num else None) with
  | Some f =>
      r ← f i;
      match r with
      | SysRet v => set_a0 i v;; mret r
      | _ => mret r
      end
  | None => set_a0 i (-1);; mret (SysRet (-1))   (* after printf("%d %s: unknown sys call %d\n", ...) *)
  end.

End syscall.

(** ** sysfile.c on the kernel's state *)

Section file_calls.
Context `{KernelImage} {S V : Type} `{BlockLayer S} `{DevSw V uspace}.

(** A call on the file layer by process [i]: user memory is the kernel's, seen
    through the page table of the process. *)
Definition in_sys {A} (i : nat) (m : M (sys S uspace V) A) : M (kernel (flayer S uspace V)) A := fun k =>
  let p := k_procs k !!! i in
  let fl : flayer S uspace V := lset (mk_uspace (k_pm k) (p_pagetable p)) (k_files k) in
  match m (mk_sys fl (p_ofile p) (p_cwd p)) with
  | Ok (a, s) =>
      Ok (a, mk_kernel (us_mem (lget (sy_files s))) (<[i := set_cwd (sy_cwd s) (set_ofile (sy_ofile s) p)]> (k_procs k))
               (k_nextpid k) (k_initproc k) (sy_files s))
  | Panic e => Panic e
  end.

Definition progress_ret (r : progress) : sysret := match r with Finished r => SysRet r | Asleep _ => SysSleeps end.

(** [pad]: the padding bytes of struct stat on the kernel stack. *)
Definition file_calls (pad : list Z) (num : Z) (i : nat) (args : list Z) : M (kernel (flayer S uspace V)) sysret :=
  p ← getp i;
  let me := p_pid p in
  let dead := negb (p_killed p =? 0) in
  if num =? SYS_pipe then r ← in_sys i (sys_pipe me args); mret (SysRet r)
  else if num =? SYS_read then r ← in_sys i (sys_read me dead args); mret (progress_ret r)
  else if num =? SYS_fstat then r ← in_sys i (sys_fstat me args pad); mret (SysRet r)
  else if num =? SYS_chdir then r ← in_sys i (sys_chdir me args); mret (SysRet r)
  else if num =? SYS_dup then r ← in_sys i (sys_dup args); mret (SysRet r)
  else if num =? SYS_open then r ← in_sys i (sys_open me args); mret (SysRet r)
  else if num =? SYS_write then r ← in_sys i (sys_write me dead args); mret (progress_ret r)
  else if num =? SYS_mknod then r ← in_sys i (sys_mknod me args); mret (SysRet r)
  else if num =? SYS_unlink then r ← in_sys i (sys_unlink me args); mret (SysRet r)
  else if num =? SYS_link then r ← in_sys i (sys_link me args); mret (SysRet r)
  else if num =? SYS_mkdir then r ← in_sys i (sys_mkdir me args); mret (SysRet r)
  else if num =? SYS_close then r ← in_sys i (sys_close me args); mret (SysRet r)
  else panic "not a file call".

End file_calls.
