(* ===== verification/Asm.v ===== *)
(** kernel/trampoline.S, kernel/kernelvec.S, kernel/swtch.S: the assembly that
    saves and restores registers, as instruction lists for a small model of a
    hart in supervisor mode. *)

From S2P Require Import Prelude Memory Riscv Kalloc Vm VmTable VmSpace VmUser ProcMem.

(** ** A hart *)

Inductive csr := sscratch | satp | sepc | sstatus.

#[global] Instance csr_eq : EqDecision csr.
Proof. solve_decision. Defined.

Inductive instr :=
| Sd (rs : nat) (off : Z) (rb : nat)
| Ld (rd : nat) (off : Z) (rb : nat)
| Li (rd : nat) (imm : Z)
| Addi (rd rs : nat) (imm : Z)
| Csrw (c : csr) (rs : nat)
| Csrr (rd : nat) (c : csr)
| Sfence
| Jr (rs : nat)
| Sret.

Record hstate := mk_hstate {
  h_regs : list Z;        (* x0 .. x31 *)
  h_csr : csr -> Z;
  h_mem : mem;
  h_pc : Z;               (* the target of the last jump *)
  h_user : bool;          (* user mode *)
}.

Definition rget (h : hstate) (r : nat) : Z := h_regs h !!! r.
Definition rset (r : nat) (v : Z) (h : hstate) : hstate :=
  mk_hstate (if decide (r = O) then h_regs h else <[r := v]> (h_regs h)) (h_csr h) (h_mem h) (h_pc h) (h_user h).
Definition cset (c : csr) (v : Z) (h : hstate) : hstate :=
  mk_hstate (h_regs h) (fun d => if decide (d = c) then v else h_csr h d) (h_mem h) (h_pc h) (h_user h).
Definition mset (m : mem) (h : hstate) : hstate := mk_hstate (h_regs h) (h_csr h) m (h_pc h) (h_user h).

(** Sv39 translation in supervisor mode (SUM is clear): the page must be
    mapped with the permission and without PTE_U; paging is off when satp is
    0. *)
Definition translate (h : hstate) (perm va : Z) : option Z :=
  if h_csr h satp =? 0 then Some va
  else
    let e := ptmap (h_mem h) (Z.shiftl (Z.land (h_csr h satp) (2 ^ 44 - 1)) 12) va in
    if (0 <=? va) && (va <? MAXVA) && has e PTE_V && has e perm && negb (has e PTE_U)
    then Some (PTE2PA e + va mod 4096) else None.

Definition step (i : instr) (h : hstate) : option hstate :=
  match i with
  | Sd rs off rb =>
      pa ← translate h PTE_W (u64 (rget h rb + off));
      Some (mset (store64 (h_mem h) pa (rget h rs)) h)
  | Ld rd off rb =>
      pa ← translate h PTE_R (u64 (rget h rb + off));
      Some (rset rd (load64 (h_mem h) pa) h)
  | Li rd imm => Some (rset rd imm h)
  | Addi rd rs imm => Some (rset rd (u64 (rget h rs + imm)) h)
  | Csrw c rs => Some (cset c (rget h rs) h)
  | Csrr rd c => Some (rset rd (h_csr h c) h)
  | Sfence => Some h
  | Jr rs => Some (mk_hstate (h_regs h) (h_csr h) (h_mem h) (rget h rs) (h_user h))
  | Sret =>
      Some (mk_hstate (h_regs h) (h_csr h) (h_mem h) (h_csr h sepc) (negb (has (h_csr h sstatus) SSTATUS_SPP)))
  end.

Fixpoint run (p : list instr) (h : hstate) : option hstate :=
  match p with
  | [] => Some h
  | i :: p => step i h ≫= run p
  end.

(** ** The code *)

Definition zero : nat := 0.
Definition ra : nat := 1.
Definition sp : nat := 2.
Definition gp : nat := 3.
Definition tp : nat := 4.
Definition t0 : nat := 5.
Definition t1 : nat := 6.
Definition t2 : nat := 7.
Definition s0 : nat := 8.
Definition s1 : nat := 9.
Definition a0 : nat := 10.
Definition a1 : nat := 11.
Definition a2 : nat := 12.
Definition a3 : nat := 13.
Definition a4 : nat := 14.
Definition a5 : nat := 15.
Definition a6 : nat := 16.
Definition a7 : nat := 17.
Definition s2 : nat := 18.
Definition s3 : nat := 19.
Definition s4 : nat := 20.
Definition s5 : nat := 21.
Definition s6 : nat := 22.
Definition s7 : nat := 23.
Definition s8 : nat := 24.
Definition s9 : nat := 25.
Definition s10 : nat := 26.
Definition s11 : nat := 27.
Definition t3 : nat := 28.
Definition t4 : nat := 29.
Definition t5 : nat := 30.
Definition t6 : nat := 31.

Definition uservec_code : list instr :=
  [ Csrw sscratch a0;
    Li a0 TRAPFRAME;
    Sd ra 40 a0;
    Sd sp 48 a0;
    Sd gp 56 a0;
    Sd tp 64 a0;
    Sd t0 72 a0;
    Sd t1 80 a0;
    Sd t2 88 a0;
    Sd s0 96 a0;
    Sd s1 104 a0;
    Sd a1 120 a0;
    Sd a2 128 a0;
    Sd a3 136 a0;
    Sd a4 144 a0;
    Sd a5 152 a0;
    Sd a6 160 a0;
    Sd a7 168 a0;
    Sd s2 176 a0;
    Sd s3 184 a0;
    Sd s4 192 a0;
    Sd s5 200 a0;
    Sd s6 208 a0;
    Sd s7 216 a0;
    Sd s8 224 a0;
    Sd s9 232 a0;
    Sd s10 240 a0;
    Sd s11 248 a0;
    Sd t3 256 a0;
    Sd t4 264 a0;
    Sd t5 272 a0;
    Sd t6 280 a0;
    Csrr t0 sscratch;
    Sd t0 112 a0;
    Ld sp 8 a0;
    Ld tp 32 a0;
    Ld t0 16 a0;
    Ld t1 0 a0;
    Sfence;
    Csrw satp t1;
    Sfence;
    Jr t0 ].

Definition userret_code : list instr :=
  [ Sfence;
    Csrw satp a0;
    Sfence;
    Li a0 TRAPFRAME;
    Ld ra 40 a0;
    Ld sp 48 a0;
    Ld gp 56 a0;
    Ld tp 64 a0;
    Ld t0 72 a0;
    Ld t1 80 a0;
    Ld t2 88 a0;
    Ld s0 96 a0;
    Ld s1 104 a0;
    Ld a1 120 a0;
    Ld a2 128 a0;
    Ld a3 136 a0;
    Ld a4 144 a0;
    Ld a5 152 a0;
    Ld a6 160 a0;
    Ld a7 168 a0;
    Ld s2 176 a0;
    Ld s3 184 a0;
    Ld s4 192 a0;
    Ld s5 200 a0;
    Ld s6 208 a0;
    Ld s7 216 a0;
    Ld s8 224 a0;
    Ld s9 232 a0;
    Ld s10 240 a0;
    Ld s11 248 a0;
    Ld t3 256 a0;
    Ld t4 264 a0;
    Ld t5 272 a0;
    Ld t6 280 a0;
    Ld a0 112 a0;
    Sret ].

(** kernelvec, up to the call of kerneltrap and after it. *)
Definition kernelvec_save : list instr :=
  [ Addi sp sp (-256);
    Sd ra 0 sp;
    Sd sp 8 sp;
    Sd gp 16 sp;
    Sd tp 24 sp;
    Sd t0 32 sp;
    Sd t1 40 sp;
    Sd t2 48 sp;
    Sd a0 72 sp;
    Sd a1 80 sp;
    Sd a2 88 sp;
    Sd a3 96 sp;
    Sd a4 104 sp;
    Sd a5 112 sp;
    Sd a6 120 sp;
    Sd a7 128 sp;
    Sd t3 216 sp;
    Sd t4 224 sp;
    Sd t5 232 sp;
    Sd t6 240 sp ].

Definition kernelvec_restore : list instr :=
  [ Ld ra 0 sp;
    Ld sp 8 sp;
    Ld gp 16 sp;
    Ld t0 32 sp;
    Ld t1 40 sp;
    Ld t2 48 sp;
    Ld a0 72 sp;
    Ld a1 80 sp;
    Ld a2 88 sp;
    Ld a3 96 sp;
    Ld a4 104 sp;
    Ld a5 112 sp;
    Ld a6 120 sp;
    Ld a7 128 sp;
    Ld t3 216 sp;
    Ld t4 224 sp;
    Ld t5 232 sp;
    Ld t6 240 sp;
    Addi sp sp 256;
    Sret ].

Definition swtch_code : list instr :=
  [ Sd ra 0 a0;
    Sd sp 8 a0;
    Sd s0 16 a0;
    Sd s1 24 a0;
    Sd s2 32 a0;
    Sd s3 40 a0;
    Sd s4 48 a0;
    Sd s5 56 a0;
    Sd s6 64 a0;
    Sd s7 72 a0;
    Sd s8 80 a0;
    Sd s9 88 a0;
    Sd s10 96 a0;
    Sd s11 104 a0;
    Ld ra 0 a1;
    Ld sp 8 a1;
    Ld s0 16 a1;
    Ld s1 24 a1;
    Ld s2 32 a1;
    Ld s3 40 a1;
    Ld s4 48 a1;
    Ld s5 56 a1;
    Ld s6 64 a1;
    Ld s7 72 a1;
    Ld s8 80 a1;
    Ld s9 88 a1;
    Ld s10 96 a1;
    Ld s11 104 a1;
    Jr ra ].
