(* ===== verification/AsmProps.v ===== *)
(** What the assembly does: a trap saves the registers and the return
    restores them, swtch exchanges contexts. *)

From S2P Require Import Prelude Memory Riscv Kalloc Vm VmTable VmSpace VmUser VmFree VmCopy Kvm VmProps ProcMem Proc ProcInv ProcDemo Asm.

(** Registers and their offsets in a save area. *)
Definition sds (base : nat) (l : list (nat * Z)) : list instr := (fun x => Sd x.1 x.2 base) <$> l.
Definition lds (base : nat) (l : list (nat * Z)) : list instr := (fun x => Ld x.1 x.2 base) <$> l.

(** From [B] on, [len] bytes of virtual memory are at [P]; stores there do not
    change the translation. *)
Definition window (h : hstate) (B P len : Z) : Prop :=
  forall m' perm off, perm = PTE_R \/ perm = PTE_W ->
    (forall a, ~ (P <= a < P + len) -> load8 m' a = load8 (h_mem h) a) -> 0 <= off -> off + 8 <= len ->
    translate (mset m' h) perm (u64 (B + off)) = Some (P + off).

Lemma window_read h B P len off : window h B P len -> 0 <= off -> off + 8 <= len -> translate h PTE_R (u64 (B + off)) = Some (P + off).
Proof. intros Hw H1 H2. rewrite <- (Hw (h_mem h) PTE_R off) by auto. by destruct h. Qed.

Definition fits (len : Z) (l : list (nat * Z)) : Prop := Forall (fun x => 0 <= x.2 /\ x.2 + 8 <= len /\ x.2 mod 8 = 0) l.

Definition stores (f : nat -> Z) (P : Z) (l : list (nat * Z)) (m : mem) : mem :=
  foldl (fun m x => store64 m (P + x.2) (f x.1)) m l.

Definition loads (m : mem) (P : Z) (l : list (nat * Z)) (rs : list Z) : list Z :=
  foldl (fun rs x => <[x.1 := load64 m (P + x.2)]> rs) rs l.

Arguments stores : simpl never.
Arguments loads : simpl never.

Lemma stores_cons f P r o l m : stores f P ((r, o) :: l) m = stores f P l (store64 m (P + o) (f r)).
Proof. done. Qed.

Lemma loads_cons m P r o l rs : loads m P ((r, o) :: l) rs = loads m P l (<[r := load64 m (P + o)]> rs).
Proof. done. Qed.

Definition with_regs (rs : list Z) (h : hstate) : hstate := mk_hstate rs (h_csr h) (h_mem h) (h_pc h) (h_user h).

Lemma run_app p q h : run (p ++ q) h = run p h ≫= run q.
Proof. revert h. induction p as [|i p IH]; intros h; [done|]. cbn. destruct (step i h); cbn; [apply IH|done]. Qed.

Lemma stores_out f P l len m a : fits len l -> ~ (P <= a < P + len) -> load8 (stores f P l m) a = load8 m a.
Proof.
  revert m. induction l as [|[r o] l IH]; intros m Hf Ha; [done|]. apply Forall_cons in Hf as [(H1 & H2 & _) Hf]. cbn in *.
  rewrite stores_cons, IH by done. apply load8_store64_ne. lia.
Qed.

Lemma stores_other f P l len m o : fits len l -> o mod 8 = 0 -> o ∉ l.*2 -> load64 (stores f P l m) (P + o) = load64 m (P + o).
Proof.
  revert m. induction l as [|[r o'] l IH]; intros m Hf Ho Hn; [done|]. apply Forall_cons in Hf as [(H1 & H2 & H3) Hf]. cbn in *.
  apply not_elem_of_cons in Hn as [Hne Hn]. rewrite stores_cons, IH by done. apply load64_store64_ne. Z.div_mod_to_equations. lia.
Qed.

Lemma stores_at f P l len m r o : fits len l -> NoDup l.*2 -> (r, o) ∈ l -> 0 <= f r < 2 ^ 64 -> load64 (stores f P l m) (P + o) = f r.
Proof.
  revert m. induction l as [|[r' o'] l IH]; intros m Hf Hnd Hin Hr; [by apply elem_of_nil in Hin|].
  apply NoDup_cons in Hnd as [Hn Hnd]. pose proof Hf as Hf'. apply Forall_cons in Hf' as [(H1 & H2 & H3) Hf']. apply elem_of_cons in Hin as [E|Hin].
  - injection E as <- <-. rewrite stores_cons, (stores_other f P l len) by done. by apply load64_store64_eq.
  - rewrite stores_cons. by apply IH.
Qed.

Lemma run_sds base l h B P len :
  rget h base = B -> fits len l -> window h B P len -> run (sds base l) h = Some (mset (stores (rget h) P l (h_mem h)) h).
Proof.
  intros HB Hf Hw. assert (Hgen : forall m, (forall a, ~ (P <= a < P + len) -> load8 m a = load8 (h_mem h) a) ->
    run (sds base l) (mset m h) = Some (mset (stores (rget h) P l m) h)).
  { induction l as [|[r o] l IH]; intros m Hm; [done|]. apply Forall_cons in Hf as [(H1 & H2 & H3) Hf]. cbn [sds fmap list_fmap run step fst snd].
    change (rget (mset m h) base) with (rget h base). rewrite HB, (Hw m PTE_W o) by (auto; lia). cbn [mbind option_bind]. apply (IH Hf).
    intros a Ha. cbn [mset h_mem]. cbn in H1, H2. rewrite load8_store64_ne by lia. by apply Hm. }
  rewrite <- (Hgen (h_mem h)) by done. by destruct h.
Qed.

Lemma loads_length m P l rs : length (loads m P l rs) = length rs.
Proof. revert rs. induction l as [|x l IH]; intros rs; [done|]. destruct x. by rewrite loads_cons, IH, length_insert. Qed.

Lemma loads_other m P l rs r : r ∉ l.*1 -> loads m P l rs !!! r = rs !!! r.
Proof.
  revert rs. induction l as [|[r' o] l IH]; intros rs Hn; [done|]. cbn in *. apply not_elem_of_cons in Hn as [Hne Hn].
  rewrite loads_cons, IH by done. by rewrite list_lookup_total_insert_ne.
Qed.

Lemma loads_at m P l rs r o : NoDup l.*1 -> (r, o) ∈ l -> (r < length rs)%nat -> loads m P l rs !!! r = load64 m (P + o).
Proof.
  revert rs. induction l as [|[r' o'] l IH]; intros rs Hnd Hin Hr; [by apply elem_of_nil in Hin|]. cbn in *.
  apply NoDup_cons in Hnd as [Hn Hnd]. apply elem_of_cons in Hin as [E|Hin].
  - injection E as <- <-. rewrite loads_cons, (loads_other m P l) by done. by rewrite list_lookup_total_insert_eq.
  - rewrite loads_cons. apply IH; [done|done|by rewrite length_insert].
Qed.

Lemma run_lds base l h B P len :
  rget h base = B -> base ∉ l.*1 -> O ∉ l.*1 -> fits len l ->
  (forall off, 0 <= off -> off + 8 <= len -> translate h PTE_R (u64 (B + off)) = Some (P + off)) ->
  run (lds base l) h = Some (with_regs (loads (h_mem h) P l (h_regs h)) h).
Proof.
  intros HB Hb H0 Hf Hw. assert (Hgen : forall rs, rs !!! base = B ->
    run (lds base l) (with_regs rs h) = Some (with_regs (loads (h_mem h) P l rs) h)).
  { induction l as [|[r o] l IH]; intros rs Hrs; [done|]. apply Forall_cons in Hf as [(H1 & H2 & H3) Hf].
    apply not_elem_of_cons in Hb as [Hb1 Hb]. apply not_elem_of_cons in H0 as [H01 H0]. cbn [lds fmap list_fmap run step fst snd].
    change (rget (with_regs rs h) base) with (rs !!! base). rewrite Hrs.
    change (translate (with_regs rs h)) with (translate h). rewrite (Hw o) by (cbn in *; lia).
    cbn [mbind option_bind]. unfold rset. rewrite decide_False by done. cbn [h_regs with_regs h_csr h_mem h_pc h_user].
    apply (IH Hb H0 Hf (<[r := load64 (h_mem h) (P + o)]> rs)). by rewrite list_lookup_total_insert_ne. }
  rewrite <- (Hgen (h_regs h)) by done. by destruct h.
Qed.

Lemma rget_rset_eq r v h : r <> O -> (r < length (h_regs h))%nat -> rget (rset r v h) r = v.
Proof. intros Hr Hl. unfold rget, rset. rewrite decide_False by done. cbn [h_regs]. by rewrite list_lookup_total_insert_eq. Qed.

Lemma rget_rset_ne r r' v h : r <> r' -> rget (rset r v h) r' = rget h r'.
Proof. intros Hr. unfold rget, rset. case_decide; [done|]. cbn [h_regs]. by rewrite list_lookup_total_insert_ne. Qed.

Lemma length_rset r v h : length (h_regs (rset r v h)) = length (h_regs h).
Proof. unfold rset. case_decide; [done|]. apply length_insert. Qed.

(** ** Traps from user space *)

(** struct trapframe: the registers but a0. *)
Definition uregs : list (nat * Z) :=
  [(ra, 40); (sp, 48); (gp, 56); (tp, 64); (t0, 72); (t1, 80); (t2, 88); (s0, 96); (s1, 104); (a1, 120); (a2, 128); (a3, 136); (a4, 144);
   (a5, 152); (a6, 160); (a7, 168); (s2, 176); (s3, 184); (s4, 192); (s5, 200); (s6, 208); (s7, 216); (s8, 224); (s9, 232); (s10, 240);
   (s11, 248); (t3, 256); (t4, 264); (t5, 272); (t6, 280)].

Lemma uservec_split : uservec_code =
  [Csrw sscratch a0; Li a0 TRAPFRAME] ++ sds a0 uregs ++ [Csrr t0 sscratch] ++ sds a0 [(t0, 112)] ++
  lds a0 [(sp, 8); (tp, 32); (t0, 16); (t1, 0)] ++ [Sfence; Csrw satp t1; Sfence; Jr t0].
Proof. reflexivity. Qed.

Lemma userret_split : userret_code =
  [Sfence; Csrw satp a0; Sfence; Li a0 TRAPFRAME] ++ lds a0 uregs ++ [Ld a0 112 a0; Sret].
Proof. reflexivity. Qed.

Section trap.
Context `{KernelImageOk}.

Lemma satp_root root : 0 <= root < 2 ^ 56 -> root mod 4096 = 0 ->
  MAKE_SATP root <> 0 /\ Z.shiftl (Z.land (MAKE_SATP root) (2 ^ 44 - 1)) 12 = root.
Proof.
  intros Hr Ha. unfold MAKE_SATP. assert (Hs : 0 <= Z.shiftr root 12 < 2 ^ 44) by (rewrite Z.shiftr_div_pow2 by lia; Z.div_mod_to_equations; lia).
  split.
  - intros E. apply (f_equal (fun x => Z.testbit x 63)) in E. rewrite Z.lor_spec, Z.bits_0 in E. apply orb_false_iff in E as [E _]. vm_compute in E. done.
  - change (2 ^ 44 - 1) with (Z.ones 44). rewrite Z.land_lor_distr_l. change (Z.land SATP_SV39 (Z.ones 44)) with 0. rewrite Z.lor_0_l, Z.land_ones by lia.
    rewrite Z.mod_small by lia. rewrite Z.shiftr_div_pow2, Z.shiftl_mul_pow2 by lia. Z.div_mod_to_equations. lia.
Qed.

(** The trapframe page under the user page table. *)
Lemma tf_window h l tf root sz :
  space_ok (h_mem h) l tf root sz -> h_csr h satp = MAKE_SATP root -> window h TRAPFRAME tf 4096.
Proof.
  intros Hs Es m' perm off Hp Hm Ho1 Ho2. destruct Hs as [[Htf _] Hpt Hsz Hw Htop Hap]. destruct TRAMPOLINE_TRAPFRAME as (ETr & ETf & EMx).
  destruct (proj1 (uvm_pt _ _ _ _ Hw) [] root valid_nil eq_refl) as [Hrok _]. pose proof (frame_range root Hrok) as [Hrr Hra].
  destruct (satp_root root) as [Hnz Hroot]; [lia|done|].
  assert (Em : ptmap m' root (TRAPFRAME + off) = mkpte tf (Z.lor PTE_R PTE_W)).
  { rewrite (ptmap_agree (h_mem h)).
    - rewrite (Htop (TRAPFRAME + off)) by (rewrite EMx, ETf; lia). by rewrite (proj2 (Z.ltb_lt _ _)) by (rewrite ETr, ETf; lia).
    - intros t a Ht Ha. apply Hm. assert (Hne : t <> tf) by (intros ->; apply Hap; by left).
      destruct (owned_page_ok _ _ _ _ (uvm_pt _ _ _ _ Hw) Ht) as [[Hta _] _]. pose proof (page_apart t tf Hta (proj1 Htf) Hne). unfold PGSIZE in *. lia. }
  unfold translate. cbn [mset h_csr h_mem]. rewrite Es, (proj2 (Z.eqb_neq _ _)) by done. rewrite Hroot.
  rewrite u64_small by (rewrite ETf; lia). rewrite Em. pose proof (frame_range tf Htf) as [Hr1 Hr2].
  destruct (mkpte_range tf (Z.lor PTE_R PTE_W)) as (Ep & Ef & _); [lia|done|done|].
  rewrite (proj2 (Z.leb_le _ _)), (proj2 (Z.ltb_lt _ _)) by (rewrite ?EMx, ETf; lia). rewrite mkpte_valid, Ep. cbn [andb].
  destruct (top_pte tf (Z.lor PTE_R PTE_W)) as (_ & _ & Hu); [lia|done|by left|]. rewrite Hu.
  assert (Hperm : has (mkpte tf (Z.lor PTE_R PTE_W)) perm = true).
  { unfold mkpte. apply has_lor. rewrite Z.lor_comm. apply has_lor. by destruct Hp as [-> | ->]. }
  rewrite Hperm. cbn [negb andb]. do 2 f_equal. rewrite ETf. Z.div_mod_to_equations. lia.
Qed.


Definition ureg_ok (h : hstate) : Prop := length (h_regs h) = 32%nat /\ h_regs h !!! O = 0 /\ Forall (fun v => 0 <= v < 2 ^ 64) (h_regs h).

Lemma reg_range h r : ureg_ok h -> (r < 32)%nat -> 0 <= rget h r < 2 ^ 64.
Proof.
  intros (Hl & _ & Hf) Hr. unfold rget. destruct (lookup_lt_is_Some_2 (h_regs h) r) as [v Ev]; [lia|].
  rewrite (list_lookup_total_correct _ _ _ Ev). by apply (proj1 (Forall_lookup _ _) Hf r).
Qed.

Lemma window_mem h m B P len : window h B P len -> (forall a, ~ (P <= a < P + len) -> load8 m a = load8 (h_mem h) a) -> window (mset m h) B P len.
Proof. intros Hw Hm m' perm off Hp Hm' Ho1 Ho2. apply (Hw m' perm off); auto. intros a Ha. rewrite Hm' by done. by apply Hm. Qed.

(** The memory uservec leaves: the registers are in the trapframe. *)
Definition saved (h : hstate) (tf : Z) (m : mem) : Prop :=
  (forall r o, (r, o) ∈ uregs -> load64 m (tf + o) = rget h r) /\ load64 m (tf + 112) = rget h a0.

Lemma uregs_fits : fits 4096 uregs /\ NoDup uregs.*1 /\ NoDup uregs.*2 /\ Forall (fun r => (0 < r < 32)%nat) uregs.*1.
Proof.
  split_and!.
  - unfold fits, uregs. repeat constructor; cbn; lia.
  - apply (bool_decide_unpack _). vm_compute. done.
  - apply (bool_decide_unpack _). vm_compute. done.
  - unfold uregs. repeat constructor; vm_compute; lia.
Qed.

Lemma uservec_run h l tf root sz :
  space_ok (h_mem h) l tf root sz -> h_csr h satp = MAKE_SATP root -> ureg_ok h ->
  exists h1, run uservec_code h = Some h1 /\ saved h tf (h_mem h1) /\
    (forall a, ~ (tf <= a < tf + 4096) -> load8 (h_mem h1) a = load8 (h_mem h) a) /\
    (forall o, o ∈ [0; 8; 16; 24; 32] -> load64 (h_mem h1) (tf + o) = load64 (h_mem h) (tf + o)) /\
    h_pc h1 = load64 (h_mem h) (tf + 16) /\ rget h1 sp = load64 (h_mem h) (tf + 8) /\ rget h1 tp = load64 (h_mem h) (tf + 32) /\
    h_csr h1 satp = load64 (h_mem h) (tf + 0).
Proof.
  intros Hs Es Hreg. destruct uregs_fits as (Hf & Hn1 & Hn2 & Hr). pose proof (tf_window h l tf root sz Hs Es) as Hw.
  rewrite uservec_split, run_app. cbn [run step mbind option_bind]. set (h0 := rset a0 TRAPFRAME _).
  assert (Hlen : length (h_regs h) = 32%nat) by apply Hreg.
  assert (Hw0 : window h0 TRAPFRAME tf 4096) by exact Hw.
  assert (Ea0 : rget h0 a0 = TRAPFRAME) by (apply rget_rset_eq; [done|cbn; rewrite Hlen; unfold a0; lia]).
  assert (Eg : forall r, r <> a0 -> rget h0 r = rget h r) by (intros r Hne; unfold h0; by rewrite rget_rset_ne).
  rewrite run_app, (run_sds a0 uregs h0 TRAPFRAME tf 4096) by done. cbn [mbind option_bind]. set (m1 := stores _ _ _ _).
  rewrite run_app. cbn [run step mbind option_bind]. set (h2 := rset t0 _ _).
  assert (Hm1 : forall a, ~ (tf <= a < tf + 4096) -> load8 m1 a = load8 (h_mem h) a) by (intros a Ha; by apply (stores_out _ tf uregs 4096)).
  assert (Hw2 : window h2 TRAPFRAME tf 4096) by (exact (window_mem h0 m1 _ _ _ Hw0 Hm1)).
  assert (E2 : rget h2 a0 = TRAPFRAME) by (unfold h2; rewrite rget_rset_ne by done; exact Ea0).
  rewrite run_app, (run_sds a0 [(t0, 112)] h2 TRAPFRAME tf 4096); [|done|repeat constructor; cbn; lia|done]. cbn [mbind option_bind].
  assert (Et0 : rget h2 t0 = rget h a0).
  { unfold h2. rewrite rget_rset_eq; [done|done|]. cbn [mset h_regs]. unfold h0. rewrite length_rset. cbn. rewrite Hlen. unfold t0. lia. }
  set (m2 := stores (rget h2) tf [(t0, 112)] (h_mem h2)).
  assert (Hm2 : forall a, ~ (tf <= a < tf + 4096) -> load8 m2 a = load8 (h_mem h) a).
  { intros a Ha. unfold m2. rewrite (stores_out _ tf _ 4096); [by apply Hm1|repeat constructor; cbn; lia|done]. }
  rewrite run_app, (run_lds a0 _ (mset m2 h2) TRAPFRAME tf 4096).
  2: { exact E2. }
  2: { apply (bool_decide_unpack _). vm_compute. done. }
  2: { apply (bool_decide_unpack _). vm_compute. done. }
  2: { repeat constructor; cbn; lia. }
  2: { intros off. by apply window_read, (window_mem h0 m2 _ _ _ Hw0 Hm2). }
  assert (Hkeep : forall o, o mod 8 = 0 -> o ∉ uregs.*2 -> o <> 112 -> load64 m2 (tf + o) = load64 (h_mem h) (tf + o)).
  { intros o Ho Hnin Hne. unfold m2. rewrite (stores_other _ tf _ 4096); [|repeat constructor; cbn; lia|done|by intros Hin%list_elem_of_singleton].
    by apply (stores_other _ tf uregs 4096). }
  assert (Hkern : forall o, o ∈ [0; 8; 16; 24; 32] -> load64 m2 (tf + o) = load64 (h_mem h) (tf + o)).
  { intros o Ho. assert (o = 0 \/ o = 8 \/ o = 16 \/ o = 24 \/ o = 32) by set_solver. apply Hkeep; [| |lia];
      destruct_or!; subst o; try done; apply (bool_decide_unpack _); vm_compute; done. }
  cbn [mbind option_bind run step]. eexists. split; [reflexivity|]. set (rs := loads _ _ _ _).
  assert (Hrs : forall r o, (r, o) ∈ [(sp, 8); (tp, 32); (t0, 16); (t1, 0)] -> rs !!! r = load64 m2 (tf + o)).
  { intros r o Hin. apply (loads_at m2 tf [(sp, 8); (tp, 32); (t0, 16); (t1, 0)]); [apply (bool_decide_unpack _); vm_compute; done|done|].
    cbn [mset h_regs]. unfold h2, h0. rewrite !length_rset. cbn [h_regs mset cset]. rewrite length_rset. cbn [h_regs cset]. rewrite Hlen.
    rewrite !elem_of_cons, elem_of_nil in Hin. unfold sp, tp, t0, t1 in *. destruct_or!; simplify_eq; lia. }
  split_and!; cbn [h_mem h_pc h_csr mset with_regs cset].
  - split.
    + intros r o Hin. assert (Hr1 : r ∈ uregs.*1) by (apply list_elem_of_fmap; by exists (r, o)). assert (Ho1 : o ∈ uregs.*2) by (apply list_elem_of_fmap; by exists (r, o)).
      assert (Hro : (0 < r < 32)%nat) by (by apply (proj1 (Forall_forall _ _) Hr)).
      assert (Hra : r <> a0) by (intros ->; apply (bool_decide_unpack (a0 ∉ uregs.*1)); [vm_compute; done|done]).
      assert (Ho112 : o <> 112) by (intros ->; apply (bool_decide_unpack (112 ∉ uregs.*2)); [vm_compute; done|done]).
      assert (Hom : o mod 8 = 0) by (by apply (proj1 (Forall_forall _ _) Hf (r, o))).
      unfold m2. rewrite (stores_other _ tf _ 4096); [|repeat constructor; cbn; lia|done|by intros Hx%list_elem_of_singleton].
      unfold m1. rewrite <- (Eg r Hra). apply (stores_at _ tf uregs 4096); try done. rewrite (Eg r Hra). apply reg_range; [done|lia].
    + unfold m2. rewrite (stores_at _ tf _ 4096 _ t0); [done|repeat constructor; cbn; lia|repeat constructor; set_solver|set_solver|].
      rewrite Et0. apply reg_range; [done|unfold a0; lia].
  - exact Hm2.
  - exact Hkern.
  - change (rs !!! t0 = load64 (h_mem h) (tf + 16)). rewrite (Hrs t0 16), Hkern; [done|set_solver|set_solver].
  - change (rs !!! sp = load64 (h_mem h) (tf + 8)). rewrite (Hrs sp 8), Hkern; [done|set_solver|set_solver].
  - change (rs !!! tp = load64 (h_mem h) (tf + 32)). rewrite (Hrs tp 32), Hkern; [done|set_solver|set_solver].
  - change (rs !!! t1 = load64 (h_mem h) (tf + 0)). rewrite (Hrs t1 0), Hkern; [done|set_solver|set_solver].
Qed.


Lemma userret_run h l tf root sz :
  space_ok (h_mem h) l tf root sz -> rget h a0 = MAKE_SATP root -> length (h_regs h) = 32%nat -> h_regs h !!! O = 0 ->
  exists h1, run userret_code h = Some h1 /\ h_mem h1 = h_mem h /\ length (h_regs h1) = 32%nat /\ rget h1 O = 0 /\
    (forall r o, (r, o) ∈ uregs -> rget h1 r = load64 (h_mem h) (tf + o)) /\ rget h1 a0 = load64 (h_mem h) (tf + 112) /\
    h_csr h1 satp = MAKE_SATP root /\ h_pc h1 = h_csr h sepc /\ h_user h1 = negb (has (h_csr h sstatus) SSTATUS_SPP).
Proof.
  intros Hs Ea Hlen H0'. destruct uregs_fits as (Hf & Hn1 & Hn2 & Hr). rewrite userret_split, run_app.
  cbn [run step mbind option_bind]. set (h0 := rset a0 TRAPFRAME _).
  assert (Hw0 : window h0 TRAPFRAME tf 4096) by (apply (tf_window h0 l tf root sz); [exact Hs|exact Ea]).
  assert (Ea0 : rget h0 a0 = TRAPFRAME) by (apply rget_rset_eq; [done|cbn; rewrite Hlen; unfold a0; lia]).
  assert (Hl0 : length (h_regs h0) = 32%nat) by (unfold h0; by rewrite length_rset).
  rewrite run_app, (run_lds a0 uregs h0 TRAPFRAME tf 4096); [|done| | |done|intros off; by apply window_read].
  2: { apply (bool_decide_unpack _). vm_compute. done. }
  2: { apply (bool_decide_unpack _). vm_compute. done. }
  set (rs := loads _ _ _ _). cbn [run step mbind option_bind].
  assert (Era : rget (with_regs rs h0) a0 = TRAPFRAME).
  { unfold rget. cbn [h_regs with_regs]. unfold rs. rewrite loads_other by (apply (bool_decide_unpack _); vm_compute; done). exact Ea0. }
  rewrite Era. change (translate (with_regs rs h0)) with (translate (mset (h_mem h0) h0)).
  rewrite (Hw0 (h_mem h0) PTE_R 112) by (auto; lia). cbn [mbind option_bind]. eexists. split; [reflexivity|].
  set (h1 := rset a0 _ _). assert (Hlr : length rs = 32%nat) by (unfold rs; by rewrite loads_length).
  assert (Hro : forall r, r <> a0 -> rget h1 r = rs !!! r) by (intros r Hne; unfold h1; by rewrite rget_rset_ne).
  split_and!; try done.
  - change (length (h_regs h1) = 32%nat). unfold h1. by rewrite length_rset.
  - change (rget h1 O = 0). rewrite Hro by done. unfold rs. rewrite loads_other by (apply (bool_decide_unpack _); vm_compute; done).
    unfold h0. change (rget (rset a0 TRAPFRAME (cset satp (rget h a0) h)) O = 0). by rewrite rget_rset_ne.
  - intros r o Hin. change (rget h1 r = load64 (h_mem h) (tf + o)).
    assert (Hr1 : r ∈ uregs.*1) by (apply list_elem_of_fmap; by exists (r, o)).
    assert (Hrr : (0 < r < 32)%nat) by (by apply (proj1 (Forall_forall _ _) Hr)).
    rewrite Hro by (intros ->; apply (bool_decide_unpack (a0 ∉ uregs.*1)); [vm_compute; done|done]).
    apply (loads_at (h_mem h0) tf uregs); [done|done|lia].
  - change (rget h1 a0 = load64 (h_mem h) (tf + 112)). unfold h1. rewrite rget_rset_eq; [done|done|]. cbn [with_regs h_regs]. rewrite Hlr. unfold a0. lia.
Qed.

(** The registers, by number. *)
Lemma uregs_all r : (r < 32)%nat -> r = O \/ r = a0 \/ exists o, (r, o) ∈ uregs.
Proof.
  intros Hr. assert (Hall : forallb (fun r => bool_decide (r = O) || bool_decide (r = a0) || bool_decide (r ∈ uregs.*1)) (seq 0 32) = true) by (vm_compute; reflexivity).
  rewrite forallb_forall in Hall. specialize (Hall r ltac:(apply in_seq; lia)). apply orb_true_iff in Hall as [Hall|Hall].
  - apply orb_true_iff in Hall as [Hall|Hall]; apply bool_decide_eq_true in Hall; auto.
  - apply bool_decide_eq_true in Hall. apply list_elem_of_fmap in Hall as ([r' o] & -> & Hin). eauto.
Qed.

(** (C39) A trap is invisible to the user program: uservec, entered from user
    mode with the process's page table, saves every register in the trapframe
    page, changes nothing else in memory, switches to the kernel's page table
    and jumps to kernel_trap on the kernel stack; and whenever the trapframe
    still holds what was saved, userret switches to the user page table,
    restores all 32 registers and returns to sepc. *)
Theorem trap_roundtrip h l tf root sz :
  space_ok (h_mem h) l tf root sz -> h_csr h satp = MAKE_SATP root -> ureg_ok h ->
  exists h1, run uservec_code h = Some h1 /\
    (forall a, ~ (tf <= a < tf + 4096) -> load8 (h_mem h1) a = load8 (h_mem h) a) /\
    h_csr h1 satp = load64 (h_mem h) tf /\ rget h1 sp = load64 (h_mem h) (tf + 8) /\ h_pc h1 = load64 (h_mem h) (tf + 16) /\
    forall h2 l2 sz2, space_ok (h_mem h2) l2 tf root sz2 -> rget h2 a0 = MAKE_SATP root ->
      length (h_regs h2) = 32%nat -> h_regs h2 !!! O = 0 ->
      (forall a, tf + 40 <= a < tf + 288 -> load8 (h_mem h2) a = load8 (h_mem h1) a) ->
      exists h3, run userret_code h2 = Some h3 /\ h_regs h3 = h_regs h /\ h_pc h3 = h_csr h2 sepc /\
        h_csr h3 satp = MAKE_SATP root /\ h_mem h3 = h_mem h2.
Proof.
  intros Hs Es Hreg. destruct (uservec_run h l tf root sz Hs Es Hreg) as (h1 & E1 & [Hsv Hsa] & Hout & _ & Hpc & Hsp & _ & Hsatp).
  exists h1. rewrite Z.add_0_r in Hsatp. split_and!; auto. intros h2 l2 sz2 Hs2 Ea Hl2 H02 Hsame.
  destruct (userret_run h2 l2 tf root sz2 Hs2 Ea Hl2 H02) as (h3 & E3 & Em & Hl3 & H03 & Hr3 & Ha3 & Ec & Epc & _).
  destruct Hreg as (Hl & Hz & _). destruct uregs_fits as (Hf & _).
  exists h3. split_and!; auto. apply list_eq. intros r. destruct (decide (r < 32)%nat) as [Hr|Hr].
  - assert (Er : rget h3 r = rget h r).
    { destruct (uregs_all r Hr) as [->|[->|[o Ho]]].
      - by rewrite H03.
      - rewrite Ha3, <- Hsa. apply load64_agree. intros x Hx. apply Hsame. lia.
      - rewrite (Hr3 r o Ho), <- (Hsv r o Ho). apply load64_agree. intros x Hx. apply Hsame.
        assert (Ho' : 40 <= o <= 280).
        { assert (Hb : Forall (fun x => 40 <= x.2 <= 280) uregs) by (unfold uregs; repeat constructor; cbn; lia). by apply (proj1 (Forall_forall _ _) Hb (r, o)). }
        lia. }
    unfold rget in Er. destruct (lookup_lt_is_Some_2 (h_regs h3) r) as [v Ev]; [lia|]. destruct (lookup_lt_is_Some_2 (h_regs h) r) as [w Ew]; [lia|].
    rewrite (list_lookup_total_correct _ _ _ Ev), (list_lookup_total_correct _ _ _ Ew) in Er. congruence.
  - by rewrite !lookup_ge_None_2 by lia.
Qed.

End trap.


(** ** Context switches *)

(** struct context. *)
Definition cregs : list (nat * Z) :=
  [(ra, 0); (sp, 8); (s0, 16); (s1, 24); (s2, 32); (s3, 40); (s4, 48); (s5, 56); (s6, 64); (s7, 72); (s8, 80); (s9, 88); (s10, 96); (s11, 104)].

Lemma swtch_split : swtch_code = sds a0 cregs ++ lds a1 cregs ++ [Jr ra].
Proof. reflexivity. Qed.

Lemma cregs_fits : fits 112 cregs /\ NoDup cregs.*1 /\ NoDup cregs.*2 /\ Forall (fun r => (0 < r < 32)%nat) cregs.*1.
Proof.
  split_and!.
  - unfold fits, cregs. repeat constructor; cbn; lia.
  - apply (bool_decide_unpack _). vm_compute. done.
  - apply (bool_decide_unpack _). vm_compute. done.
  - unfold cregs. repeat constructor; vm_compute; lia.
Qed.

(** The kernel reaches its own data at its address: the area at [p], also
    after stores to the area at [q]. *)
Definition direct (h : hstate) (p q : Z) : Prop :=
  forall m' perm off, (forall a, ~ (q <= a < q + 112) -> load8 m' a = load8 (h_mem h) a) -> 0 <= off -> off + 8 <= 112 ->
    translate (mset m' h) perm (u64 (p + off)) = Some (p + off).

Lemma swtch_run h old new :
  ureg_ok h -> rget h a0 = old -> rget h a1 = new -> direct h old old -> direct h new old -> old + 112 <= new \/ new + 112 <= old ->
  exists h1, run swtch_code h = Some h1 /\ length (h_regs h1) = 32%nat /\
    (forall r o, (r, o) ∈ cregs -> load64 (h_mem h1) (old + o) = rget h r /\ rget h1 r = load64 (h_mem h) (new + o)) /\
    (forall r, r ∉ cregs.*1 -> rget h1 r = rget h r) /\
    h_pc h1 = load64 (h_mem h) new /\ (forall a, ~ (old <= a < old + 112) -> load8 (h_mem h1) a = load8 (h_mem h) a).
Proof.
  intros Hreg E0 E1 D1 D2 Hap. destruct cregs_fits as (Hf & Hn1 & Hn2 & Hr). rewrite swtch_split, run_app.
  rewrite (run_sds a0 cregs h old old 112); [|done|done|by intros m' perm off _; apply D1]. cbn [mbind option_bind].
  set (m1 := stores _ _ _ _). assert (Hm1 : forall a, ~ (old <= a < old + 112) -> load8 m1 a = load8 (h_mem h) a) by (intros a Ha; by apply (stores_out _ old cregs 112)).
  rewrite run_app, (run_lds a1 cregs (mset m1 h) new new 112); [|done| | |done|].
  2: { apply (bool_decide_unpack _). vm_compute. done. }
  2: { apply (bool_decide_unpack _). vm_compute. done. }
  2: { intros off Ho1 Ho2. by apply (D2 m1). }
  cbn [mbind option_bind run step]. eexists. split; [reflexivity|]. set (rs := loads _ _ _ _).
  assert (Hl : length rs = 32%nat) by (unfold rs; rewrite loads_length; apply Hreg).
  assert (Hld : forall r o, (r, o) ∈ cregs -> rs !!! r = load64 (h_mem h) (new + o)).
  { intros r o Hin. assert (Hrr : (0 < r < 32)%nat) by (apply (proj1 (Forall_forall _ _) Hr), list_elem_of_fmap; by exists (r, o)).
    unfold rs. rewrite (loads_at m1 new cregs _ r o); [|done|done|cbn; rewrite (proj1 Hreg); lia]. apply load64_agree. intros x Hx. apply Hm1.
    assert (Ho : 0 <= o /\ o + 8 <= 112 /\ o mod 8 = 0) by (by apply (proj1 (Forall_forall _ _) Hf (r, o))). lia. }
  split_and!; try done.
  - intros r o Hin. assert (Hrr : (0 < r < 32)%nat) by (apply (proj1 (Forall_forall _ _) Hr), list_elem_of_fmap; by exists (r, o)). split.
    + change (load64 m1 (old + o) = rget h r). apply (stores_at _ old cregs 112); try done. apply reg_range; [done|lia].
    + by apply Hld.
  - intros r Hn. change (rs !!! r = rget h r). unfold rs. by rewrite loads_other.
  - change (rs !!! ra = load64 (h_mem h) new). rewrite (Hld ra 0), Z.add_0_r; [done|by left].
Qed.

(** swtch(old, new) stores ra, sp and s0 .. s11 in the old context, loads
    them from the new one and returns there; a later swtch back to the old
    context, if it was not touched, restores the fourteen registers and
    returns where the first call was made. *)
Theorem swtch_back h old new :
  ureg_ok h -> rget h a0 = old -> rget h a1 = new -> direct h old old -> direct h new old -> old + 112 <= new \/ new + 112 <= old ->
  exists h1, run swtch_code h = Some h1 /\ h_pc h1 = load64 (h_mem h) new /\
    (forall r o, (r, o) ∈ cregs -> rget h1 r = load64 (h_mem h) (new + o)) /\
    forall h2 cur, ureg_ok h2 -> rget h2 a0 = cur -> rget h2 a1 = old -> direct h2 cur cur -> direct h2 old cur ->
      cur + 112 <= old \/ old + 112 <= cur -> (forall a, old <= a < old + 112 -> load8 (h_mem h2) a = load8 (h_mem h1) a) ->
      exists h3, run swtch_code h2 = Some h3 /\ h_pc h3 = rget h ra /\ forall r, r ∈ cregs.*1 -> rget h3 r = rget h r.
Proof.
  intros Hreg E0 E1 D1 D2 Hap. destruct (swtch_run h old new Hreg E0 E1 D1 D2 Hap) as (h1 & R1 & _ & Hc & _ & Hpc & _).
  exists h1. split_and!; auto; [intros r o Hin; by apply Hc|]. intros h2 cur Hreg2 E20 E21 D21 D22 Hap2 Hsame.
  destruct (swtch_run h2 cur old Hreg2 E20 E21 D21 D22 Hap2) as (h3 & R3 & _ & Hc3 & _ & Hpc3 & _).
  assert (Hback : forall r o, (r, o) ∈ cregs -> load64 (h_mem h2) (old + o) = rget h r).
  { intros r o Hin. rewrite <- (proj1 (Hc r o Hin)). apply load64_agree. intros x Hx. apply Hsame.
    destruct cregs_fits as (Hf & _). assert (Ho : 0 <= o /\ o + 8 <= 112 /\ o mod 8 = 0) by (by apply (proj1 (Forall_forall _ _) Hf (r, o))). lia. }
  exists h3. split_and!; auto.
  - rewrite Hpc3, <- (Hback ra 0), Z.add_0_r; [done|by left].
  - intros r Hin. apply list_elem_of_fmap in Hin as ([r' o] & -> & Hin). cbn [fst]. rewrite (proj2 (Hc3 r' o Hin)). by apply Hback.
Qed.


(** ** The theorems at work *)

#[local] Existing Instance demo_image.
#[local] Existing Instance demo_image_ok.

Definition demo_regs : list Z := Z.of_nat <$> seq 0 32.
Definition demo_hart (sa : Z) (rs : list Z) (m : mem) : hstate := mk_hstate rs (fun c => if decide (c = satp) then sa else 0) m 0 true.

Lemma trap_roundtrip_witness :
  exists h1, run uservec_code (demo_hart (MAKE_SATP (pg 8)) demo_regs tables2) = Some h1 /\ h_pc h1 = load64 tables2 (pg 11 + 16).
Proof.
  destruct (trap_roundtrip (demo_hart (MAKE_SATP (pg 8)) demo_regs tables2) (demo_free 8) (pg 11) (pg 8) 0) as (h1 & E & _ & _ & _ & Hpc & _).
  - exact (proj1 (proj2 tables_ok)).
  - reflexivity.
  - split_and!; [reflexivity|reflexivity|]. unfold demo_regs. apply Forall_fmap, Forall_forall. intros x Hx%elem_of_seq. cbn. lia.
  - exists h1. split; [exact E|exact Hpc].
Defined.

Lemma swtch_back_witness :
  exists h1, run swtch_code (demo_hart 0 (<[a1 := 4096]> (<[a0 := 8192]> demo_regs)) ∅) = Some h1 /\ h_pc h1 = load64 ∅ 4096.
Proof.
  destruct (swtch_back (demo_hart 0 (<[a1 := 4096]> (<[a0 := 8192]> demo_regs)) ∅) 8192 4096) as (h1 & E & Hpc & _); try reflexivity.
  - split_and!; [reflexivity|reflexivity|]. unfold demo_regs.
    do 2 (apply Forall_insert; [|lia]). apply Forall_fmap, Forall_forall. intros x Hx%elem_of_seq. cbn. lia.
  - intros m' perm off _ H1 H2. unfold translate. cbn. by rewrite u64_small by lia.
  - intros m' perm off _ H1 H2. unfold translate. cbn. by rewrite u64_small by lia.
  - right. lia.
  - exists h1. split; [exact E|exact Hpc].
Defined.
