(* ===== verification/Trap.v ===== *)
(** kernel/trap.c, kernel/plic.c: traps and device interrupts.

    [i] is the process running on the hart.  Where the process gives up the
    processor inside a trap, what the machine does until the process goes on is
    arbitrary: [away] stands for the time from sched() in yield() until it
    returns, [finish] for the rest of a system call that went to sleep. *)

From S2P Require Import Prelude Memory Riscv Kalloc Vm VmProps ProcMem Proc ProcDemo Exec Syscall.

(** The supervisor registers of the hart that trap.c uses, the clock, and the
    kernel's state with the devices [D]. *)
Record trapst (F D : Type) := mk_trapst {
  ts_k : kernel F;
  ts_dev : D;
  ts_ticks : Z;
  ts_sstatus : Z;
  ts_sepc : Z;
  ts_scause : Z;
  ts_stvec : Z;
  ts_satp : Z;
  ts_tp : Z;
  ts_time : Z;
  ts_stimecmp : Z;
}.
Arguments mk_trapst {F D} _ _ _ _ _ _ _ _ _ _ _.
Arguments ts_k {F D} _.
Arguments ts_dev {F D} _.
Arguments ts_ticks {F D} _.
Arguments ts_sstatus {F D} _.
Arguments ts_sepc {F D} _.
Arguments ts_scause {F D} _.
Arguments ts_stvec {F D} _.
Arguments ts_satp {F D} _.
Arguments ts_tp {F D} _.
Arguments ts_time {F D} _.
Arguments ts_stimecmp {F D} _.

#[global] Instance trapst_kernel {F D} : Lens (trapst F D) (kernel F) := {|
  lget := ts_k;
  lset k s := mk_trapst k (ts_dev s) (ts_ticks s) (ts_sstatus s) (ts_sepc s) (ts_scause s) (ts_stvec s) (ts_satp s) (ts_tp s) (ts_time s) (ts_stimecmp s);
|}.

#[global] Instance trapst_dev {F D} : Lens (trapst F D) D := {|
  lget := ts_dev;
  lset d s := mk_trapst (ts_k s) d (ts_ticks s) (ts_sstatus s) (ts_sepc s) (ts_scause s) (ts_stvec s) (ts_satp s) (ts_tp s) (ts_time s) (ts_stimecmp s);
|}.

(** Back to user space with a page table, or the process has ended. *)
Inductive trap_result := TrapReturn (satp : Z) | TrapGone.

(** The interrupt controller's registers and the device drivers' interrupt
    handlers. *)
Class IrqDev (D : Type) := {
  plic_read : Z -> M D Z;
  plic_write : Z -> Z -> M D unit;
  uart_irq : M D unit;            (* uartintr() *)
  disk_irq : M D unit;            (* virtio_disk_intr() *)
}.

(** ** plic.c *)

Section plic.
Context {D : Type} `{IrqDev D}.

Definition plicinit : M D unit :=
  plic_write (PLIC + UART0_IRQ * 4) 1;;
  plic_write (PLIC + VIRTIO0_IRQ * 4) 1.

Definition plicinithart (hart : Z) : M D unit :=
  plic_write (PLIC_SENABLE hart) (Z.lor (Z.shiftl 1 UART0_IRQ) (Z.shiftl 1 VIRTIO0_IRQ));;
  plic_write (PLIC_SPRIORITY hart) 0.

Definition plic_claim (hart : Z) : M D Z := irq ← plic_read (PLIC_SCLAIM hart); mret (s32 irq).

Definition plic_complete (hart irq : Z) : M D unit := plic_write (PLIC_SCLAIM hart) (u32 irq).

End plic.

(** ** trap.c *)

Section trap.
Context `{KernelImage} {F D : Type} `{FileOps F} `{ExecFs F} `{FileCalls F} `{IrqDev D}.
#[local] Abbreviation MT := (M (trapst F D)).
Variable ticks_chan : Z.   (* &ticks *)
Variables (away finish : nat -> MT unit).

Definition w_sstatus (x : Z) : MT unit := modify (fun s =>
  mk_trapst (ts_k s) (ts_dev s) (ts_ticks s) x (ts_sepc s) (ts_scause s) (ts_stvec s) (ts_satp s) (ts_tp s) (ts_time s) (ts_stimecmp s)).
Definition w_sepc (x : Z) : MT unit := modify (fun s =>
  mk_trapst (ts_k s) (ts_dev s) (ts_ticks s) (ts_sstatus s) x (ts_scause s) (ts_stvec s) (ts_satp s) (ts_tp s) (ts_time s) (ts_stimecmp s)).
Definition w_stvec (x : Z) : MT unit := modify (fun s =>
  mk_trapst (ts_k s) (ts_dev s) (ts_ticks s) (ts_sstatus s) (ts_sepc s) (ts_scause s) x (ts_satp s) (ts_tp s) (ts_time s) (ts_stimecmp s)).
Definition w_stimecmp (x : Z) : MT unit := modify (fun s =>
  mk_trapst (ts_k s) (ts_dev s) (ts_ticks s) (ts_sstatus s) (ts_sepc s) (ts_scause s) (ts_stvec s) (ts_satp s) (ts_tp s) (ts_time s) x).
Definition set_ticks (x : Z) : MT unit := modify (fun s =>
  mk_trapst (ts_k s) (ts_dev s) x (ts_sstatus s) (ts_sepc s) (ts_scause s) (ts_stvec s) (ts_satp s) (ts_tp s) (ts_time s) (ts_stimecmp s)).

Definition intr_on : MT unit := x ← gets ts_sstatus; w_sstatus (Z.lor x SSTATUS_SIE).
Definition intr_off : MT unit := x ← gets ts_sstatus; w_sstatus (Z.land x (Z.lnot SSTATUS_SIE)).
Definition intr_get : MT bool := x ← gets ts_sstatus; mret (negb (Z.land x SSTATUS_SIE =? 0)).

Definition kern {A} (m : M (kernel F) A) : MT A := zoom m.
Definition dev {A} (m : M D A) : MT A := zoom m.

Definition trapinithart : MT unit := w_stvec kernelvec.

(** A field of the trapframe of [i]. *)
Definition get_tf (i : nat) (off : Z) : MT Z := kern (tf_word i off).
Definition set_tf (i : nat) (off v : Z) : MT unit :=
  kern (p ← getp i; pm (modify (upd_mem (fun m => store64 m (p_trapframe p + off) v)))).

(** [me]: the process running on the hart, if any. *)
Definition clockintr (me : option nat) : MT unit :=
  id ← gets ts_tp;
  (if id =? 0 then
     t ← gets ts_ticks;
     set_ticks (u32 (t + 1));;
     kern (wakeup me (CObj ticks_chan))
   else mret tt);;
  now ← gets ts_time;
  w_stimecmp (u64 (now + 1000000)).

Definition devintr (me : option nat) : MT Z :=
  scause ← gets ts_scause;
  if scause =? 9223372036854775817 then
    hart ← gets ts_tp;
    irq ← dev (plic_claim hart);
    (if irq =? UART0_IRQ then dev uart_irq
     else if irq =? VIRTIO0_IRQ then dev disk_irq
     else mret tt);;   (* printf("unexpected interrupt irq=%d\n", irq) *)
    (if negb (irq =? 0) then dev (plic_complete hart irq) else mret tt);;
    mret 1
  else if scause =? 9223372036854775813 then clockintr me;; mret 2
  else mret 0.

Definition usertrapret (i : nat) : MT trap_result :=
  intr_off;;
  w_stvec (TRAMPOLINE + uservec);;
  sa ← gets ts_satp;
  set_tf i 0 sa;;
  p ← kern (getp i);
  set_tf i 8 (u64 (p_kstack p + PGSIZE));;
  set_tf i 16 usertrap_addr;;
  hart ← gets ts_tp;
  set_tf i 32 hart;;
  x ← gets ts_sstatus;
  w_sstatus (Z.lor (Z.land x (Z.lnot SSTATUS_SPP)) SSTATUS_SPIE);;
  epc ← get_tf i tf_epc;
  w_sepc epc;;
  mret (TrapReturn (MAKE_SATP (p_pagetable p))).

(** From the last test of killed(p) on. *)
Definition usertrap_rest (i : nat) (which_dev : Z) : MT trap_result :=
  d ← kern (killed i);
  if negb (d =? 0) then kern (exit i (-1));; mret TrapGone
  else if which_dev =? 2 then kern (yield i);; away i;; usertrapret i
  else usertrapret i.

Definition usertrap (i : nat) : MT trap_result :=
  st ← gets ts_sstatus;
  if negb (Z.land st SSTATUS_SPP =? 0) then panic "usertrap: not from user mode"
  else
    w_stvec kernelvec;;
    epc ← gets ts_sepc;
    set_tf i tf_epc epc;;
    scause ← gets ts_scause;
    if scause =? 8 then
      d ← kern (killed i);
      if negb (d =? 0) then kern (exit i (-1));; mret TrapGone
      else
        epc ← get_tf i tf_epc;
        set_tf i tf_epc (u64 (epc + 4));;
        intr_on;;
        t ← gets ts_ticks;
        r ← kern (syscall ticks_chan t i);
        match r with
        | SysRet _ => usertrap_rest i 0
        | SysSleeps => finish i;; usertrap_rest i 0
        | SysGone => mret TrapGone
        end
    else
      which_dev ← devintr (Some i);
      if negb (which_dev =? 0) then usertrap_rest i which_dev
      else kern (setkilled i);; usertrap_rest i 0.

Definition kerneltrap (me : option nat) : MT unit :=
  sepc ← gets ts_sepc;
  st ← gets ts_sstatus;
  if Z.land st SSTATUS_SPP =? 0 then panic "kerneltrap: not from supervisor mode"
  else
    on ← intr_get;
    if (on : bool) then panic "kerneltrap: interrupts enabled"
    else
      which_dev ← devintr me;
      if which_dev =? 0 then panic "kerneltrap"
      else
        match me with
        | Some i => if which_dev =? 2 then kern (yield i);; away i else mret tt
        | None => mret tt
        end;;
        w_sepc sepc;;
        w_sstatus st.

End trap.

(** ** Returning to user space *)

(** The state in which userret runs for process [i]. *)
Record user_ready `{KernelImage} {F D : Type} (i : nat) (sa : Z) (s : trapst F D) : Prop := {
  ur_satp : sa = MAKE_SATP (p_pagetable (k_procs (ts_k s) !!! i));
  ur_stvec : ts_stvec s = TRAMPOLINE + uservec;
  ur_user : Z.land (ts_sstatus s) SSTATUS_SPP = 0;
  ur_intr : Z.land (ts_sstatus s) SSTATUS_SIE = 0 /\ Z.land (ts_sstatus s) SSTATUS_SPIE <> 0;
  ur_tf : let tf := p_trapframe (k_procs (ts_k s) !!! i) in let m := pm_mem (k_pm (ts_k s)) in
    ts_sepc s = load64 m (tf + tf_epc) /\ load64 m (tf + 0) = u64 (ts_satp s) /\
    load64 m (tf + 8) = u64 (p_kstack (k_procs (ts_k s) !!! i) + PGSIZE) /\ load64 m (tf + 16) = u64 usertrap_addr /\
    load64 m (tf + 32) = u64 (ts_tp s);
}.

Section trap_proofs.
Context `{KernelImage} {F D : Type} `{FileOps F} `{ExecFs F} `{FileCalls F} `{IrqDev D}.
Implicit Types (s : trapst F D).

Lemma kern_run {A} (m : M (kernel F) A) s a k : m (ts_k s) = Ok (a, k) -> kern m s = Ok (a, lset k s).
Proof. intros E. unfold kern, zoom. cbn [lget trapst_kernel]. by rewrite E. Qed.

(** The state after a store into the trapframe of [i]. *)
Definition tfset (i : nat) (off v : Z) s : trapst F D :=
  lset (lset (upd_mem (fun m => store64 m (p_trapframe (k_procs (ts_k s) !!! i) + off) v) (k_pm (ts_k s))) (ts_k s)) s.

Lemma set_tf_run i off v s : set_tf i off v s = Ok (tt, tfset i off v s).
Proof. unfold set_tf. by erewrite kern_run. Qed.

Lemma tfset_mem i off v s :
  pm_mem (k_pm (ts_k (tfset i off v s))) = store64 (pm_mem (k_pm (ts_k s))) (p_trapframe (k_procs (ts_k s) !!! i) + off) v.
Proof. done. Qed.

(** sret will enter user mode, with interrupts. *)
Definition user_status (x : Z) : Z := Z.lor (Z.land (Z.land x (Z.lnot SSTATUS_SIE)) (Z.lnot SSTATUS_SPP)) SSTATUS_SPIE.

Lemma user_status_ok x :
  Z.land (user_status x) SSTATUS_SPP = 0 /\ Z.land (user_status x) SSTATUS_SIE = 0 /\ Z.land (user_status x) SSTATUS_SPIE <> 0.
Proof.
  unfold user_status. change SSTATUS_SPP with (2 ^ 8). change SSTATUS_SIE with (2 ^ 1). change SSTATUS_SPIE with (2 ^ 5).
  rewrite !land_pow2_bit, !Z.lor_spec, !Z.land_spec, !Z.lnot_spec, !Z.pow2_bits_eqb by lia. cbn [Z.eqb]. rewrite !andb_false_r, ?orb_true_r. done.
Qed.

Lemma usertrapret_run i s :
  usertrapret i s =
  let p := k_procs (ts_k s) !!! i in
  let s1 := tfset i 32 (ts_tp s) (tfset i 16 usertrap_addr (tfset i 8 (u64 (p_kstack p + PGSIZE)) (tfset i 0 (ts_satp s) s))) in
  Ok (TrapReturn (MAKE_SATP (p_pagetable p)),
      mk_trapst (ts_k s1) (ts_dev s) (ts_ticks s) (user_status (ts_sstatus s)) (load64 (pm_mem (k_pm (ts_k s1))) (p_trapframe p + tf_epc))
        (ts_scause s) (TRAMPOLINE + uservec) (ts_satp s) (ts_tp s) (ts_time s) (ts_stimecmp s)).
Proof. reflexivity. Qed.

Definition pkilled (i : nat) s : Z := p_killed (k_procs (ts_k s) !!! i).

Lemma usertrapret_ready i s :
  exists sa s', usertrapret i s = Ok (TrapReturn sa, s') /\ user_ready i sa s' /\ pkilled i s' = pkilled i s.
Proof.
  rewrite usertrapret_run. eexists _, _. split; [reflexivity|]. split; [|done]. set (p := k_procs (ts_k s) !!! i).
  set (s1 := tfset i 0 (ts_satp s) s). set (s2 := tfset i 8 _ s1). set (s3 := tfset i 16 _ s2). set (s4 := tfset i 32 _ s3).
  destruct (user_status_ok (ts_sstatus s)) as (U1 & U2 & U3).
  assert (Em : pm_mem (k_pm (ts_k s4)) = store64 (store64 (store64 (store64 (pm_mem (k_pm (ts_k s))) (p_trapframe p + 0) (ts_satp s))
    (p_trapframe p + 8) (u64 (p_kstack p + PGSIZE))) (p_trapframe p + 16) usertrap_addr) (p_trapframe p + 32) (ts_tp s)) by done.
  split; try done. cbn [ts_k ts_sepc ts_satp ts_tp]. change (k_procs (ts_k s4) !!! i) with p. rewrite Em. cbv zeta. unfold tf_epc.
  split_and!; [done| | | |].
  - by rewrite !load64_store64_ne, load64_store64_same by lia.
  - rewrite !load64_store64_ne, load64_store64_same by lia. unfold u64. by rewrite Z.mod_mod.
  - by rewrite !load64_store64_ne, load64_store64_same by lia.
  - by rewrite load64_store64_same.
Qed.

(** killed(p) reads, and changes nothing. *)
Lemma killed_inv i s d s1 : kern (killed i) s = Ok (d, s1) -> d = pkilled i s /\ s1 = s.
Proof. unfold kern, zoom, killed, getp. cbn. intros [= <- <-]. split; [done|by destruct s as [[] ]]. Qed.

Section away.
Variables (ticks_chan : Z) (away finish : nat -> M (trapst F D) unit).

Lemma usertrap_rest_ready i w s sa s' : usertrap_rest away i w s = Ok (TrapReturn sa, s') ->
  user_ready i sa s' /\ pkilled i s = 0 /\ (w <> 2 -> pkilled i s' = 0).
Proof.
  unfold usertrap_rest. intros E. apply bind_inv in E as (d & s1 & [-> ->]%killed_inv & E).
  destruct (Z.eqb_spec (pkilled i s) 0) as [Hk|Hk]; cbn [negb] in E; [|by apply bind_inv in E as ([] & ? & _ & [=])].
  destruct (Z.eqb_spec w 2) as [->|Hw].
  - do 2 apply bind_inv in E as ([] & ? & _ & E). destruct (usertrapret_ready i x0) as (sa' & s2 & E2 & Hu & _). rewrite E in E2. by injection E2 as <- <-.
  - destruct (usertrapret_ready i s) as (sa' & s2 & E2 & Hu & Ek). rewrite E in E2. injection E2 as <- <-. by rewrite Ek.
Qed.

(** Interrupts leave the killed flags alone. *)
Lemma dev_kernel {A} (m : M D A) s a s' : dev m s = Ok (a, s') -> ts_k s' = ts_k s.
Proof. unfold dev, zoom. destruct (m _) as [[? ?]|]; [|done]. by intros [= _ <-]. Qed.

Lemma wakeup_killed i c s s' : kern (wakeup (Some i) c) s = Ok (tt, s') -> pkilled i s' = pkilled i s.
Proof.
  unfold kern, zoom, wakeup. cbn. intros [= <-]. unfold pkilled. cbn. rewrite !list_lookup_total_alt, list_lookup_imap.
  destruct (k_procs (ts_k s) !! i) as [p|]; [|done]. cbn. unfold wakeup_one. by rewrite decide_True.
Qed.

Lemma clockintr_killed i s s' : clockintr ticks_chan (Some i) s = Ok (tt, s') -> pkilled i s' = pkilled i s.
Proof.
  unfold clockintr. intros E. apply bind_inv in E as (hart & s1 & [= _ <-] & E). apply bind_inv in E as ([] & s2 & E2 & E).
  assert (Hk2 : pkilled i s2 = pkilled i s).
  { destruct (hart =? 0); [|by injection E2 as <-]. apply bind_inv in E2 as (t & ? & [= _ <-] & E2). apply bind_inv in E2 as ([] & ? & [= <-] & E2). by apply wakeup_killed in E2. }
  apply bind_inv in E as (now & ? & [= _ <-] & E). by injection E as <-.
Qed.

Lemma devintr_killed i s w s' : devintr ticks_chan (Some i) s = Ok (w, s') -> pkilled i s' = pkilled i s /\ (w = 2 -> ts_scause s = 9223372036854775813).
Proof.
  unfold devintr. intros E. apply bind_inv in E as (sc & s1 & [= <- <-] & E). destruct (ts_scause s =? 9223372036854775817).
  - apply bind_inv in E as (hart & ? & [= _ <-] & E). apply bind_inv in E as (irq & s2 & E2%dev_kernel & E). apply bind_inv in E as ([] & s3 & E3 & E). apply bind_inv in E as ([] & s4 & E4 & E). injection E as <- <-.
    assert (Hk3 : ts_k s3 = ts_k s2) by (repeat case_match; first [by apply dev_kernel in E3|by injection E3 as <-]).
    assert (Hk4 : ts_k s4 = ts_k s3) by (case_match; first [by apply dev_kernel in E4|by injection E4 as <-]). unfold pkilled. split; [congruence|done].
  - destruct (Z.eqb_spec (ts_scause s) 9223372036854775813) as [Ht|_]; [|by injection E as <- <-].
    apply bind_inv in E as ([] & s2 & E2%clockintr_killed & E). by injection E as <- <-.
Qed.


End away.

End trap_proofs.

(** ** A system call with an unknown number *)

#[local] Existing Instance demo_image.
#[local] Existing Instance count_ops.

#[local] Instance no_exec : ExecFs counts := {|
  ef_open _ _ _ := mret None; ef_read _ _ _ := mret (0, []); ef_close _ _ := mret tt;
|}.
#[local] Instance no_files : FileCalls counts := {| file_call _ _ _ := mret (SysRet (-1)) |}.
#[local] Instance no_irq : IrqDev unit := {|
  plic_read _ := mret 0; plic_write _ _ := mret tt; uart_irq := mret tt; disk_irq := mret tt;
|}.

Definition demo_trap : trapst counts unit := mk_trapst (demo_kernel demo_shell) tt 0 0 4096 8 0 7 0 0 0.

Definition returns {A} (o : outcome (trap_result * A)) : bool := match o with Ok (TrapReturn _, _) => true | _ => false end.

Lemma returns_true {A} (o : outcome (trap_result * A)) : returns o = true -> exists sa s', o = Ok (TrapReturn sa, s').
Proof. destruct o as [[[sa|] s']|]; try discriminate. eauto. Qed.

(** While the process is away another one is killed. *)
Definition demo_away (_ : nat) : M (trapst counts unit) unit := kern (setkilled 0).

