(* ===== verification/ExecMem.v ===== *)
(** Memory operations of exec: growing to an arbitrary size, writing into a
    frame, and the guard page. *)

From S2P Require Import Prelude Memory Riscv Kalloc Vm VmTable VmSpace VmUser VmFree VmCopy Kvm VmProps ProcMem Proc ProcInv ProcProps.

Section mem.
Context `{KernelImageOk}.

(** uvmalloc to any size: no size the memory cannot hold succeeds. *)
Lemma uvmalloc_any root s l oldsz newsz xperm :
  kinv s l -> 0 <= oldsz <= TRAPFRAME -> 0 <= newsz < 2 ^ 64 -> uvm_wf (pm_mem s) root l (npages oldsz) -> 0 <= xperm < 1024 ->
  exists ret s' l', uvmalloc root oldsz newsz xperm s = Ok (ret, s') /\
    (newsz < oldsz /\ ret = oldsz /\ s' = s /\ l' = l \/
     oldsz <= newsz <= TRAPFRAME /\ ret = newsz /\ uvm_move root s l (npages oldsz) s' l' (npages newsz) /\
       (forall va, Z.of_nat (npages oldsz) * 4096 <= va < Z.of_nat (npages newsz) * 4096 ->
          (exists pg, ptmap (pm_mem s') root va = mkpte pg (Z.lor (Z.lor PTE_R PTE_U) xperm)) /\ ubyte (pm_mem s') root va = 0) \/
     oldsz <= newsz /\ ret = 0 /\ uvm_move root s l (npages oldsz) s' l' (npages oldsz)).
Proof.
  intros Hk Ho Hn Hu Hx. destruct (Z.ltb_spec newsz oldsz) as [Hlt|Hge].
  { unfold uvmalloc. rewrite (proj2 (Z.ltb_lt _ _)) by done. exists oldsz, s, l. split; [done|]. by left. }
  destruct (Z.leb_spec newsz TRAPFRAME) as [Hle|Hgt].
  { destruct (uvmalloc_spec root s l oldsz newsz xperm Hk ltac:(lia) Hle Hu Hx) as (ret & s' & l' & E & [(-> & Hm & Hz)|[-> Hm]]);
      eexists _, s', l'; (split; [exact E|]); right; [left|right]; auto. }
  pose proof (uvm_ram_bound _ _ _ _ Hu) as Hram. rewrite TRAPFRAME_val in *. pose proof (npages_bounds oldsz ltac:(lia)) as Hnb.
  unfold uvmalloc. rewrite (proj2 (Z.ltb_ge _ _)), PGROUNDUP_npages by lia. set (fuel := Z.to_nat _).
  set (N := Z.to_nat 32769). assert (HN : Z.of_nat N = 32769) by (unfold N; lia). clearbody N.
  destruct (uvmalloc_loop_progress root xperm (npages oldsz) N newsz (N - npages oldsz) (npages oldsz) fuel s l) as (s' & l' & [(E & Hm & _)|[E Hm]]); auto.
  - lia.
  - unfold fuel, PGSIZE. Z.div_mod_to_equations. lia.
  - rewrite TRAPFRAME_val. lia.
  - intros j Hj. lia.
  - pose proof (uvm_ram_bound _ _ _ _ (move_wf _ _ _ _ _ _ _ Hm)). lia.
  - exists 0, s', l'. split; [exact E|]. right. right. auto.
Qed.

(** The bytes of the space become [f], within its pages. *)
Record patched (root : Z) (s : pmem) (l : list Z) (n : nat) (s' : pmem) (f : Z -> Z) : Prop := {
  pat_kinv : kinv s' l;
  pat_wf : uvm_wf (pm_mem s') root l n;
  pat_high : forall va, TRAPFRAME <= va < MAXVA -> ptmap (pm_mem s') root va = ptmap (pm_mem s) root va;
  pat_bytes : forall va, 0 <= va < Z.of_nat n * 4096 -> ubyte (pm_mem s') root va = f va;
  pat_held : forall q, held (pm_mem s') root n q <-> held (pm_mem s) root n q;
  pat_same : forall q a, q mod PGSIZE = 0 -> ~ held (pm_mem s) root n q -> q <= a < q + PGSIZE -> load8 (pm_mem s') a = load8 (pm_mem s) a;
}.

Definition poke (va : Z) (bs : list Z) (f : Z -> Z) (x : Z) : Z :=
  if (va <=? x) && (x <? va + Z.of_nat (length bs)) then bs !!! Z.to_nat (x - va) else f x.

(** The kernel writes [bs] into the page of [va]. *)
Lemma frame_write root s l n va bs :
  kinv s l -> uvm_wf (pm_mem s) root l n -> 0 <= va < Z.of_nat n * 4096 -> va mod 4096 = 0 -> Z.of_nat (length bs) <= 4096 ->
  Forall (fun b => 0 <= b < 256) bs ->
  let s' := upd_mem (fun m => store_bytes m (PTE2PA (ptmap (pm_mem s) root va)) bs) s in
  patched root s l n s' (poke va bs (ubyte (pm_mem s) root)) /\ (forall x, ptmap (pm_mem s') root x = ptmap (pm_mem s) root x).
Proof.
  intros Hk Hu Hva Hal Hlen Hb. set (pa := PTE2PA (ptmap (pm_mem s) root va)). set (m' := store_bytes (pm_mem s) pa bs).
  assert (Hs : same_outside pa (pm_mem s) m') by (intros a Ha; unfold m'; rewrite load8_store_bytes; unfold PGSIZE in Ha; case_bool; try lia; done).
  destruct (uvm_write_frame s root l n va m' Hk Hu Hva Hs) as (H1 & H2 & H3 & H4 & H5).
  destruct (uvm_mapped _ _ _ _ Hu va Hva) as (_ & _ & Hf). destruct (Hf eq_refl) as (Hok & _ & _).
  split; [|exact H3]. split; auto.
  - intros x Hx. cbn [pm_mem upd_mem set_mem]. unfold poke. destruct (decide (x / 4096 = va / 4096)) as [E|E].
    + assert (Ep : ptmap (pm_mem s) root x = ptmap (pm_mem s) root va) by (apply ptmap_same_page; lia).
      unfold ubyte. rewrite H3, Ep. fold pa. unfold m'. rewrite load8_store_bytes.
      assert (Ed : x mod 4096 = x - va) by (Z.div_mod_to_equations; lia). rewrite Ed. clearbody pa. case_bool; try lia; try done.
      replace (pa + (x - va) - pa) with (x - va) by lia. apply u8_small.
      destruct (lookup_lt_is_Some_2 bs (Z.to_nat (x - va))) as [b Eb]; [lia|]. rewrite (list_lookup_total_correct _ _ _ Eb).
      by apply (proj1 (Forall_lookup _ _) Hb _ _ Eb).
    + rewrite H4 by done. case_bool; try done. exfalso. apply E. Z.div_mod_to_equations. lia.
  - intros q a Ha Hh Hr. apply Hs. assert (Hne : q <> pa) by (intros ->; apply Hh; by apply held_frame).
    pose proof (page_apart q pa Ha (proj1 Hok) Hne). lia.
Qed.

(** copyout, as a change of the space. *)
Lemma wrote_patched root s l n va src k s' :
  wrote root s l n va src k s' -> (k <= length src)%nat -> Forall (fun b => 0 <= b < 256) src ->
  patched root s l n s' (poke va (take k src) (ubyte (pm_mem s) root)).
Proof.
  intros [W1 W2 W3 W4 W5 W6 W7] Hk Hb. split; auto. intros x Hx. rewrite W4 by done. unfold poke.
  rewrite length_take_le by done. case_bool; try done. rewrite !list_lookup_total_alt, lookup_take_lt by lia.
  destruct (lookup_lt_is_Some_2 src (Z.to_nat (x - va))) as [b Eb]; [lia|]. rewrite Eb. cbn.
  apply u8_small. by apply (proj1 (Forall_lookup _ _) Hb _ _ Eb).
Qed.

Lemma patched_trans root s l n s1 f s2 g :
  patched root s l n s1 f -> patched root s1 l n s2 g -> patched root s l n s2 g.
Proof.
  intros [A1 A2 A3 A4 A5 A6] [B1 B2 B3 B4 B5 B6]. split; auto.
  - intros va Hva. by rewrite B3, A3.
  - intros q. by rewrite B5.
  - intros q a Ha Hh Hr. rewrite (B6 q), (A6 q); auto. by rewrite A5.
Qed.

Lemma patched_ext root s l n s' f g :
  patched root s l n s' f -> (forall va, 0 <= va < Z.of_nat n * 4096 -> f va = g va) -> patched root s l n s' g.
Proof. intros [A1 A2 A3 A4 A5 A6] E. split; auto. intros va Hva. by rewrite A4, E. Qed.

Lemma patched_refl root s l n : kinv s l -> uvm_wf (pm_mem s) root l n -> patched root s l n s (ubyte (pm_mem s) root).
Proof. intros. by split. Qed.

(** ** The guard page *)

Lemma clear_u e : 0 <= e < 2 ^ 64 -> PTE2PA (Z.land e (Z.lnot PTE_U)) = PTE2PA e /\ 0 <= Z.land e (Z.lnot PTE_U) < 2 ^ 64 /\
  has (Z.land e (Z.lnot PTE_U)) PTE_V = has e PTE_V /\ has (Z.land e (Z.lnot PTE_U)) PTE_R = has e PTE_R /\
  has (Z.land e (Z.lnot PTE_U)) PTE_U = false.
Proof.
  intros He. change PTE_U with (2 ^ 4). change PTE_V with (2 ^ 0). change PTE_R with (2 ^ 1).
  assert (E : Z.land e (Z.lnot (2 ^ 4)) = Z.ldiff e (2 ^ 4)) by (by rewrite Z.ldiff_land). rewrite E.
  split_and!.
  - unfold PTE2PA. do 2 f_equal. apply Z.bits_inj'. intros i Hi. rewrite !Z.shiftr_spec, Z.ldiff_spec, Z.pow2_bits_eqb by lia.
    rewrite (proj2 (Z.eqb_neq _ _)) by lia. by rewrite andb_true_r.
  - apply Z.ldiff_nonneg. left. lia.
  - assert (Em : Z.ldiff e (2 ^ 4) mod 2 ^ 64 = Z.ldiff e (2 ^ 4)).
    { apply Z.bits_inj'. intros i Hi. destruct (Z.ltb_spec i 64); [by rewrite Z.mod_pow2_bits_low|].
      rewrite Z.mod_pow2_bits_high, Z.ldiff_spec by lia. rewrite <- (Z.mod_small e (2 ^ 64)) by done. by rewrite Z.mod_pow2_bits_high by lia. }
    rewrite <- Em. apply Z.mod_pos_bound. lia.
  - rewrite !has_pow2, Z.ldiff_spec by lia. cbn. by rewrite andb_true_r.
  - rewrite !has_pow2, Z.ldiff_spec by lia. cbn. by rewrite andb_true_r.
  - rewrite has_pow2, Z.ldiff_spec by lia. cbn. by rewrite andb_false_r.
Qed.

Lemma uvmclear_run root s l n va :
  kinv s l -> uvm_wf (pm_mem s) root l n -> 0 <= va < Z.of_nat n * 4096 -> has (ptmap (pm_mem s) root va) PTE_R = true ->
  exists s', uvmclear root va s = Ok (tt, s') /\ patched root s l n s' (ubyte (pm_mem s) root) /\
    (forall x, 0 <= x < MAXVA -> ptmap (pm_mem s') root x =
       if decide (va / 4096 = x / 4096) then Z.land (ptmap (pm_mem s) root va) (Z.lnot PTE_U) else ptmap (pm_mem s) root x).
Proof.
  intros Hk Hu Hva HR. pose proof (uvm_size _ _ _ _ Hu) as Hsz. rewrite TRAPFRAME_val in Hsz. destruct TRAMPOLINE_TRAPFRAME as (_ & ETf & EMx).
  pose proof (uvm_pt _ _ _ _ Hu) as Hpt. destruct (uvm_mapped _ _ _ _ Hu va Hva) as (Hv & _ & Hf). destruct (Hf eq_refl) as (Hfo & Hfl & Hfn).
  destruct (ptmap_found _ _ _ Hv) as (t & Ht & Em). destruct (proj1 Hpt _ _ (valid_va_path va) Ht) as [Htok Htn].
  pose proof (page_ok_range _ Htok) as Htr. pose proof (PX_range 0 va) as Hpx.
  set (e := ptmap (pm_mem s) root va) in *. assert (He : 0 <= e < 2 ^ 64) by (rewrite Em; apply load64_range).
  destruct (clear_u e He) as (C1 & C2 & C3 & C4 & _). set (e' := Z.land e (Z.lnot PTE_U)) in *.
  set (s' := set_mem (store64 (pm_mem s) (t + 8 * PX 0 va) e') s). exists s'.
  assert (Hmap : forall x, 0 <= x < MAXVA -> ptmap (pm_mem s') root x = if decide (va / 4096 = x / 4096) then e' else ptmap (pm_mem s) root x).
  { intros x Hx. apply (ptmap_store_leaf _ _ l); auto; rewrite ?EMx in *; lia. }
  assert (Hpa : forall x, 0 <= x < MAXVA -> PTE2PA (ptmap (pm_mem s') root x) = PTE2PA (ptmap (pm_mem s) root x)).
  { intros x Hx. rewrite Hmap by done. case_decide as E; [|done]. rewrite C1. unfold e. by rewrite (ptmap_same_page _ _ va x) by lia. }
  destruct (pt_grow_leaf root s l va t e' Hk Hpt Ht) as [K' W' (u & Eu & Ho) S']. fold s' in K', W', Ho, S'.
  assert (u = []) as -> by (by apply (app_inv_tail l u [])). assert (Hoi : forall q, owned (pm_mem s') root q <-> owned (pm_mem s) root q) by (intros q; rewrite Ho, elem_of_nil; tauto).
  split; [|split; [|exact Hmap]].
  - unfold uvmclear. rewrite bind_run, walk_lookup, Ht by lia. rewrite (proj2 (Z.eqb_neq _ 0)) by (unfold KERNBASE in *; lia).
    unfold load_pte. rewrite bind_run, gets_run, <- Em. done.
  - assert (Hheld : forall q, held (pm_mem s') root n q <-> held (pm_mem s) root n q).
    { intros q. unfold held. rewrite Hoi. split; (intros [?|(i & Hi & ->)]; [by left|right; exists i; split; [done|]]); rewrite Hpa by lia; done. }
    split; auto.
    + split; auto; try apply Hu.
      * intros x Hx. destruct (uvm_mapped _ _ _ _ Hu x Hx) as (U1 & U2 & U3). unfold unmappable. rewrite Hpa by lia. rewrite Hmap, Hoi by lia.
        split_and!; [|..|exact U3]; case_decide as E; try done; [congruence|]. intros Hfl'.
        assert (HR' : has (PTE_FLAGS e') PTE_R = true) by (change PTE_R with (2 ^ 1); rewrite <- has_flags by lia; change (2 ^ 1) with PTE_R; congruence).
        by rewrite Hfl' in HR'.
      * intros x y Hx Hy. rewrite !Hpa by lia. by apply (uvm_inj _ _ _ _ Hu).
      * intros x Hx. rewrite Hmap by lia. case_decide as E; [|by apply (uvm_rest _ _ _ _ Hu)]. rewrite C3. unfold e.
        rewrite (ptmap_same_page _ _ va x) by lia. apply (uvm_rest _ _ _ _ Hu). done.
    + intros x Hx. rewrite Hmap by lia. rewrite decide_False; [done|]. rewrite ETf in Hx. Z.div_mod_to_equations. lia.
    + intros x Hx. unfold ubyte. rewrite Hpa by lia. destruct (uvm_mapped _ _ _ _ Hu x Hx) as (_ & _ & U3). destruct (U3 eq_refl) as (U4 & U5 & U6).
      apply (S' (PTE2PA (ptmap (pm_mem s) root x))); auto; [apply U4|]. unfold PGSIZE. pose proof (Z.mod_pos_bound x 4096). lia.
    + intros q a Ha Hh Hr. destruct (decide (q ∈ l)) as [Hin|Hnin].
      * cbn [s' pm_mem set_mem]. apply load8_store64_ne. assert (Hne : q <> t) by (intros ->; done). pose proof (page_apart q t Ha (proj1 Htok) Hne). unfold PGSIZE in *. lia.
      * apply (S' q); auto. intros Hox. apply Hh. by left.
Qed.

End mem.
