(* ===== verification/ExecProps.v ===== *)
(** exec: it builds the image the file describes, or leaves the process as it
    was. *)

From S2P Require Import Prelude Memory Riscv Kalloc Vm VmTable VmSpace VmUser VmFree VmCopy Kvm VmProps Bytes ProcMem Proc ProcInv ProcProps ProcDemo Exec ExecMem.

Definition same_refs {F} `{FileOpsOk F} (fs fs' : F) : Prop :=
  (forall g, fo_ref fs' g = fo_ref fs g) /\ (forall c, fo_cwd fs' c = fo_cwd fs c).

(** What exec relies on: the file system between ef_open and ef_close of an
    inode ([ef_in]), whose contents ([ef_file]) ef_read delivers. *)
Class ExecFsOk (F : Type) `{FileOpsOk F} `{!ExecFs F} := {
  ef_in : F -> Z -> Prop;
  ef_file : F -> Z -> list Z;
  ef_bytes : forall fs ip, ef_in fs ip -> Forall (fun b => 0 <= b < 256) (ef_file fs ip);
  ef_open_ok : forall fs me cwd path, fo_inv fs -> 0 < fo_cwd fs cwd ->
    exists r fs', ef_open me cwd path fs = Ok (r, fs') /\ same_refs fs fs' /\
      match r with None => fo_inv fs' | Some ip => ef_in fs' ip end;
  ef_read_ok : forall fs ip off n, ef_in fs ip -> 0 <= off < 2 ^ 32 -> 0 <= n < 2 ^ 32 ->
    exists bs fs', ef_read ip off n fs = Ok ((Z.of_nat (length bs), bs), fs') /\ same_refs fs fs' /\ ef_in fs' ip /\
      ef_file fs' ip = ef_file fs ip /\ Z.of_nat (length bs) <= n /\ bs = take (length bs) (drop (Z.to_nat off) (ef_file fs ip));
  ef_close_ok : forall fs me ip, ef_in fs ip -> exists fs', ef_close me ip fs = Ok (tt, fs') /\ same_refs fs fs' /\ fo_inv fs';
}.

Lemma same_refs_refl {F} `{FileOpsOk F} (fs : F) : same_refs fs fs.
Proof. by split. Qed.

Lemma same_refs_trans {F} `{FileOpsOk F} (fs1 fs2 fs3 : F) : same_refs fs1 fs2 -> same_refs fs2 fs3 -> same_refs fs1 fs3.
Proof. intros [A1 A2] [B1 B2]. split; intros; [by rewrite B1|by rewrite B2]. Qed.

(** ** The image a file describes *)

(** A segment over what was loaded before. *)
Definition seg_byte (file : list Z) (ph : proghdr) (img : Z -> Z) (va : Z) : Z :=
  let d := va - ph_vaddr ph in
  if (0 <=? d) && (d <? u32 (ph_filesz ph))
  then file !!! Z.to_nat (u32 (ph_off ph + d / 4096 * 4096) + d mod 4096) else img va.

Definition ph_at (file : list Z) (off : Z) : proghdr := parse_proghdr (take 56 (drop (Z.to_nat (u32 off)) file)).

Fixpoint seg_image (file : list Z) (k : nat) (off : Z) (img : Z -> Z) : Z -> Z :=
  match k with
  | O => img
  | S k =>
      let ph := ph_at file off in
      seg_image file k (s32 (off + sizeof_proghdr)) (if ph_type ph =? ELF_PROG_LOAD then seg_byte file ph img else img)
  end.

(** User memory of the program in [file], before the stack. *)
Definition elf_image (file : list Z) : Z -> Z :=
  let elf := parse_elfhdr (take 64 file) in
  seg_image file (Z.to_nat (e_phnum elf)) (s32 (e_phoff elf)) (fun _ => 0).

Section building.
Context `{KernelImageOk} (m0 : mem) (l : list Z) (tf : Z).
Implicit Types (s : pmem).

(** A space being built from free pages, with contents [img]. *)
Record building s (l1 : list Z) (pt sz : Z) (img : Z -> Z) : Prop := {
  bu_kinv : kinv s l1;
  bu_step : pages_step no_page m0 l (pm_mem s) l1;
  bu_space : space_ok (pm_mem s) l1 tf pt sz;
  bu_pages : forall q, q ∈ l <-> q ∈ l1 \/ held (pm_mem s) pt (npages sz) q;
  bu_bytes : forall va, 0 <= va < Z.of_nat (npages sz) * 4096 -> ubyte (pm_mem s) pt va = img va;
  bu_zero : forall va, Z.of_nat (npages sz) * 4096 <= va -> img va = 0;
}.

Definition readable s (pt : Z) (n : nat) : Prop := forall va, 0 <= va < Z.of_nat n * 4096 -> ureadable (pm_mem s) pt va = true.

Lemma building_move s l1 pt sz img s' l2 sz' :
  building s l1 pt sz img -> uvm_move pt s l1 (npages sz) s' l2 (npages sz') -> sz <= sz' <= TRAPFRAME ->
  (forall va, Z.of_nat (npages sz) * 4096 <= va < Z.of_nat (npages sz') * 4096 -> ubyte (pm_mem s') pt va = 0) ->
  building s' l2 pt sz' img.
Proof.
  intros [B1 B2 B3 B4 B5 B6] Hm Hsz Hz. pose proof (so_sz _ _ _ _ _ B3) as Hsz0.
  destruct (space_move tf pt s l1 sz s' l2 sz' B3 Hm ltac:(lia)) as [Hs Hst]. destruct Hm as [M1 M2 M3 M4 M5 M6].
  assert (Hmin : (npages sz `min` npages sz' = npages sz)%nat) by (pose proof (npages_bounds sz); pose proof (npages_bounds sz'); lia).
  split; auto.
  - eapply pages_step_trans; [exact B2|exact Hst|]. intros q Hq. left. apply B4. by right.
  - intros q. by rewrite B4, M3.
  - intros va Hva. destruct (decide (va < Z.of_nat (npages sz) * 4096)).
    + destruct (M5 va) as [_ ->]; [rewrite Hmin; lia|]. apply B5. lia.
    + rewrite Hz, B6 by lia. done.
  - intros va Hva. apply B6. rewrite <- Hmin. lia.
Qed.

Lemma building_patch s l1 pt sz img s' f img' :
  building s l1 pt sz img -> patched pt s l1 (npages sz) s' f ->
  (forall va, 0 <= va < Z.of_nat (npages sz) * 4096 -> f va = img' va) ->
  (forall va, Z.of_nat (npages sz) * 4096 <= va -> img' va = 0) -> building s' l1 pt sz img'.
Proof.
  intros [B1 B2 B3 B4 B5 B6] [P1 P2 P3 P4 P5 P6] Hf Hz. destruct B3 as [[Htf Hn] Hpt Hsz Hw Htop Hap]. split; auto.
  - eapply pages_step_trans; [exact B2| |intros q Hq; left; apply B4; right; exact Hq].
    split; [by left|]. intros q a Ha Hnl Hnh Hr. by apply (P6 q).
  - split; auto; [intros va Hva; rewrite P3 by done; by apply Htop|by rewrite P5].
  - intros q. by rewrite P5.
  - intros va Hva. by rewrite P4, Hf.
Qed.

End building.

Section exec_proofs.
Context `{KernelImageOk} {F : Type} `{FileOpsOk F} `{!ExecFs F} `{!ExecFsOk F}.
Context (k : kernel F) (l : list Z) (i : nat) (p : proc).
Hypotheses (Hk : kernel_ok k l) (Ei : k_procs k !! i = Some p) (Er : p_state p = RUNNING).
Implicit Types (s : pmem) (fs : F).

(** The kernel with other memory and file layer. *)
Definition st s fs : kernel F := mk_kernel s (k_procs k) (k_nextpid k) (k_initproc k) fs.
#[local] Abbreviation build := (building (pm_mem (k_pm k)) l (p_trapframe p)).

Lemma pm_st {A} (m : M pmem A) s fs a s' : m s = Ok (a, s') -> pm m (st s fs) = Ok (a, st s' fs).
Proof. intros E. unfold pm, zoom. cbn [lget kernel_pm st k_pm]. by rewrite E. Qed.

Lemma files_st {A} (m : M F A) s fs a fs' : m fs = Ok (a, fs') -> files m (st s fs) = Ok (a, st s fs').
Proof. intros E. unfold files, zoom. cbn [lget kernel_files st k_files]. by rewrite E. Qed.

(** ** Loading a segment *)

Definition seg_from (file : list Z) (va off fsz j : Z) (img : Z -> Z) (x : Z) : Z :=
  if (va + j <=? x) && (x <? va + fsz) then file !!! Z.to_nat (u32 (off + (x - va) / 4096 * 4096) + (x - va) mod 4096) else img x.

(** What reading part of the file into the new space has done. *)
Record loading s fs (l1 : list Z) (pt sz ip : Z) (img : Z -> Z) : Prop := {
  lo_build : build s l1 pt sz img;
  lo_read : readable s pt (npages sz);
  lo_in : ef_in fs ip;
}.

Lemma load_page s fs l1 pt sz ip img va j off n :
  loading s fs l1 pt sz ip img -> 0 <= va -> va mod 4096 = 0 -> 0 <= j -> j mod 4096 = 0 -> 0 < n <= 4096 ->
  va + j < Z.of_nat (npages sz) * 4096 ->
  exists bs s' fs', ef_read ip (u32 (off + j)) n fs = Ok ((Z.of_nat (length bs), bs), fs') /\
    upd_mem (fun m => store_bytes m (PTE2PA (ptmap (pm_mem s) pt (va + j))) bs) s = s' /\
    loading s' fs' l1 pt sz ip (poke (va + j) bs img) /\ same_refs fs fs' /\ ef_file fs' ip = ef_file fs ip /\
    bs = take (length bs) (drop (Z.to_nat (u32 (off + j))) (ef_file fs ip)).
Proof using Type*.
  intros [Hb Hr Hin] Hva Hal Hj Hjal Hn Hlt.
  destruct (ef_read_ok fs ip (u32 (off + j)) n Hin) as (bs & fs' & E & Hrf & Hin' & Hfl & Hle & Hbs); [apply u32_range|lia|].
  pose proof (bu_space _ _ _ _ _ _ _ _ Hb) as Hsp. pose proof (so_wf _ _ _ _ _ Hsp) as Hw.
  assert (Hbytes : Forall (fun b => 0 <= b < 256) bs) by (rewrite Hbs; apply Forall_take, Forall_drop; by apply ef_bytes).
  destruct (frame_write pt s l1 (npages sz) (va + j) bs (bu_kinv _ _ _ _ _ _ _ _ Hb) Hw) as [Hp Hm]; [lia|Z.div_mod_to_equations; lia|lia|done|].
  eexists bs, _, fs'. split; [exact E|]. split; [reflexivity|]. split_and!; auto. split; auto.
  - eapply (building_patch _ _ _ _ _ _ _ _ _ _ (poke (va + j) bs img) Hb Hp).
    + intros x Hx. unfold poke. case_bool; try done; by apply (bu_bytes _ _ _ _ _ _ _ _ Hb).
    + intros x Hx. unfold poke. rewrite (bu_zero _ _ _ _ _ _ _ _ Hb) by done. case_bool; try done. exfalso.
      assert (x < va + j + 4096) by lia. Z.div_mod_to_equations. lia.
  - intros x Hx. unfold ureadable. rewrite Hm. by apply Hr.
Qed.

Lemma loadseg_loop_run pt ip va off fsz sz l1 : 0 <= va -> va mod 4096 = 0 -> 0 <= off < 2 ^ 32 -> va + fsz <= Z.of_nat (npages sz) * 4096 ->
  forall fuel s fs img j, loading s fs l1 pt sz ip img -> 0 <= j -> j mod 4096 = 0 -> fsz - j + 4096 <= Z.of_nat fuel * 4096 -> (0 < fuel)%nat ->
  exists r s' fs' img', loadseg_loop fuel pt va ip off fsz j (st s fs) = Ok (r, st s' fs') /\
    loading s' fs' l1 pt sz ip img' /\ same_refs fs fs' /\ ef_file fs' ip = ef_file fs ip /\
    (r = 0 /\ (forall x, img' x = seg_from (ef_file fs ip) va off fsz j img x) \/ r = -1).
Proof using Type*.
  intros Hva Hal Hoff Hin. induction fuel as [|fuel IH]; intros s fs img j Hl Hj Hjal Hf Hpos; [lia|]. cbn [loadseg_loop].
  destruct (Z.ltb_spec j fsz) as [Hlt|Hge]; cycle 1.
  { exists 0, s, fs, img. split; [done|]. split_and!; auto using same_refs_refl. left. split; [done|]. intros x. unfold seg_from. case_bool; try done. lia. }
  pose proof (bu_space _ _ _ _ _ _ _ _ (lo_build _ _ _ _ _ _ _ Hl)) as Hsp. pose proof (so_wf _ _ _ _ _ Hsp) as Hw.
  pose proof (uvm_ram_bound _ _ _ _ Hw) as Hram. rewrite (u64_small (va + j)) by lia.
  rewrite (bind_Ok _ _ _ _ _ (pm_st _ _ _ _ _ (walkaddr_spec s pt l1 (va + j) (uvm_pt _ _ _ _ Hw) ltac:(lia)))).
  rewrite (lo_read _ _ _ _ _ _ _ Hl) by lia. rewrite (proj2 (Z.eqb_neq _ 0)) by (apply (frame_nonzero _ _ l1 (npages sz)); [done|lia]).
  set (n := if fsz - j <? PGSIZE then fsz - j else PGSIZE).
  assert (Hn : 0 < n <= 4096 /\ (n = fsz - j \/ n = 4096 /\ 4096 <= fsz - j)) by (unfold n, PGSIZE; case_bool; lia).
  destruct (load_page s fs l1 pt sz ip img va j off n Hl Hva Hal Hj Hjal) as (bs & s' & fs' & E & Es & Hl' & Hrf & Hfl & Hbs); [lia|lia|].
  rewrite (bind_Ok _ _ _ _ _ (files_st _ _ _ _ _ E)), bind_run. cbn [fst snd].
  rewrite (pm_st (modify _) s fs' tt s') by (rewrite modify_run; by rewrite Es).
  destruct (Z.eqb_spec (Z.of_nat (length bs)) n) as [El|El]; cbn [negb]; cycle 1.
  { exists (-1), s', fs', (poke (va + j) bs img). split; [done|]. split_and!; auto. }
  unfold PGSIZE. rewrite (u32_small (j + 4096)) by lia.
  destruct (decide (fuel = O)) as [->|Hf0].
  { exfalso. lia. }
  destruct (IH s' fs' (poke (va + j) bs img) (j + 4096) Hl') as (r & s2 & fs2 & img2 & E2 & Hl2 & Hrf2 & Hfl2 & Hr); [lia|Z.div_mod_to_equations; lia|lia|lia|].
  exists r, s2, fs2, img2. split; [exact E2|]. split; [done|]. split; [by eapply same_refs_trans|]. split; [congruence|].
  destruct Hr as [[-> Hx]|Em1]; [left|subst r; by right]. split; [done|]. intros x. rewrite Hx, Hfl. unfold seg_from, poke.
  destruct (decide (va + j <= x < va + fsz)) as [Hr|Hr]; cycle 1. { case_bool; try lia; done. }
  destruct (decide (x < va + j + 4096)) as [Hc|Hc]; cycle 1. { case_bool; try lia; done. }
  assert (Hxin : x < va + j + Z.of_nat (length bs)) by lia. case_bool; try lia.
  rewrite Hbs at 1. rewrite list_lookup_total_alt, lookup_take_lt, lookup_drop, <- list_lookup_total_alt by lia.
  f_equal. assert (Ed : (x - va) / 4096 * 4096 = j) by (Z.div_mod_to_equations; lia). rewrite Ed.
  pose proof (u32_range (off + j)). Z.div_mod_to_equations. lia.
Qed.

Lemma flags2perm_range fl : 0 <= flags2perm fl < 1024.
Proof. unfold flags2perm. destruct (negb (Z.land fl 1 =? 0)), (negb (Z.land fl 2 =? 0)); vm_compute; split; congruence. Qed.

Lemma loadseg_run pt ip va off fsz sz l1 s fs img :
  loading s fs l1 pt sz ip img -> 0 <= va -> va mod 4096 = 0 -> va + u32 fsz <= Z.of_nat (npages sz) * 4096 ->
  exists r s' fs' img', loadseg pt va ip off fsz (st s fs) = Ok (r, st s' fs') /\
    loading s' fs' l1 pt sz ip img' /\ same_refs fs fs' /\ ef_file fs' ip = ef_file fs ip /\
    (r = 0 /\ (forall x, img' x = seg_from (ef_file fs ip) va off (u32 fsz) 0 img x) \/ r = -1).
Proof using Type*.
  intros Hl Hva Hal Hin. pose proof (u32_range fsz) as Hfz.
  destruct (loadseg_loop_run pt ip va (u32 off) (u32 fsz) sz l1 Hva Hal (u32_range off) Hin (Z.to_nat (u32 fsz / PGSIZE + 2)) s fs img 0 Hl)
    as (r & s' & fs' & img' & E & Hl' & Hrf & Hfl & Hr); [lia|done|unfold PGSIZE; Z.div_mod_to_equations; lia|unfold PGSIZE; Z.div_mod_to_equations; lia|].
  exists r, s', fs', img'. split; [exact E|]. split_and!; auto. destruct Hr as [[-> Hx]|Em1]; [left|subst r; by right]. split; [done|].
  intros x. rewrite Hx. unfold seg_from. case_bool; try done. do 3 f_equal. unfold u32. by rewrite Zplus_mod_idemp_l.
Qed.

Lemma load_segment_run pt ip sz l1 s fs img ph :
  loading s fs l1 pt sz ip img -> 0 <= ph_vaddr ph < 2 ^ 64 -> 0 <= ph_memsz ph < 2 ^ 64 -> 0 <= ph_filesz ph ->
  exists ok sz' s' fs' l2 img', load_segment pt ip sz ph (st s fs) = Ok ((ok, sz'), st s' fs') /\
    loading s' fs' l2 pt sz' ip img' /\ same_refs fs fs' /\ ef_file fs' ip = ef_file fs ip /\
    (ok = true -> forall x, img' x = seg_byte (ef_file fs ip) ph img x).
Proof using Type*.
  intros Hl Hv Hms Hfz. unfold load_segment. pose proof (bu_space _ _ _ _ _ _ _ _ (lo_build _ _ _ _ _ _ _ Hl)) as Hsp. pose proof (so_sz _ _ _ _ _ Hsp) as Hsz.
  assert (Hstop : exists ok sz' s' fs' l2 img', (mret (false, sz) : M (kernel F) (bool * Z)) (st s fs) = Ok ((ok, sz'), st s' fs') /\
    loading s' fs' l2 pt sz' ip img' /\ same_refs fs fs' /\ ef_file fs' ip = ef_file fs ip /\ (ok = true -> forall x, img' x = seg_byte (ef_file fs ip) ph img x)).
  { exists false, sz, s, fs, l1, img. split; [done|]. by split_and!; auto using same_refs_refl. }
  destruct (Z.ltb_spec (ph_memsz ph) (ph_filesz ph)); [exact Hstop|]. destruct (Z.ltb_spec (u64 (ph_vaddr ph + ph_memsz ph)) (ph_vaddr ph)) as [Hov|Hnov]; [exact Hstop|].
  destruct (Z.eqb_spec (ph_vaddr ph mod PGSIZE) 0) as [Hal|Hal]; cbn [negb]; [|exact Hstop].
  assert (Ens : u64 (ph_vaddr ph + ph_memsz ph) = ph_vaddr ph + ph_memsz ph) by word_lia. rewrite Ens.
  destruct (uvmalloc_any pt s l1 sz (ph_vaddr ph + ph_memsz ph) (flags2perm (ph_flags ph)) (bu_kinv _ _ _ _ _ _ _ _ (lo_build _ _ _ _ _ _ _ Hl)) Hsz)
    as (ret & s1 & l2 & E1 & Hr); [word_lia|apply Hsp|apply flags2perm_range|].
  rewrite (bind_Ok _ _ _ _ _ (pm_st _ _ fs _ _ E1)).
  assert (Hgrown : exists ret', loading s1 fs l2 pt ret' ip img /\ (ret = 0 /\ ret' = sz \/ ret <> 0 /\ ret' = ret /\ ph_vaddr ph + ph_memsz ph <= ret)).
  { destruct Hr as [(Hlt & -> & -> & ->)|[(Hle & -> & Hm & Hz)|(Hle & -> & Hm)]].
    - exists sz. split; [done|]. right. lia.
    - assert (Hld : loading s1 fs l2 pt (ph_vaddr ph + ph_memsz ph) ip img).
      { split; [|intros x Hx|apply Hl].
        - eapply building_move; [apply Hl|exact Hm|lia|]. intros x Hx. by apply Hz.
        - destruct (decide (x < Z.of_nat (npages sz) * 4096)) as [Hlo|Hhi].
          + unfold ureadable. pose proof (npages_bounds sz). pose proof (npages_bounds (ph_vaddr ph + ph_memsz ph)).
            destruct (move_keep _ _ _ _ _ _ _ Hm x) as [-> _]; [lia|]. apply (lo_read _ _ _ _ _ _ _ Hl). lia.
          + destruct (Hz x ltac:(lia)) as [[pg' Epg] _]. unfold ureadable. rewrite Epg, mkpte_valid.
            pose proof (uvm_size _ _ _ _ (move_wf _ _ _ _ _ _ _ Hm)) as Hs1. destruct TRAMPOLINE_TRAPFRAME as (_ & ETf & EMx). rewrite ETf in Hs1.
            rewrite (proj2 (Z.ltb_lt _ _)) by (rewrite EMx; lia). cbn [andb]. unfold mkpte. apply has_lor. rewrite Z.lor_comm. by apply has_lor, has_lor. }
      destruct (decide (ph_vaddr ph + ph_memsz ph = 0)) as [E0|E0].
      + exists sz. assert (sz = 0) as -> by lia. rewrite E0 in Hld. split; [exact Hld|]. left. lia.
      + eexists. split; [exact Hld|]. right. lia.
    - exists sz. split; [|by left]. split; [|intros x Hx|apply Hl].
      + eapply building_move; [apply Hl|exact Hm|lia|]. intros x Hx. lia.
      + unfold ureadable. destruct (move_keep _ _ _ _ _ _ _ Hm x) as [-> _]; [rewrite Nat.min_id; lia|]. by apply (lo_read _ _ _ _ _ _ _ Hl). }
  destruct Hgrown as (ret' & Hl1 & [[-> ->]|(Hnz & -> & Hend)]).
  { cbn [Z.eqb]. exists false, sz, s1, fs, l2, img. split; [done|]. by split_and!; auto using same_refs_refl. }
  rewrite (proj2 (Z.eqb_neq _ _) Hnz). pose proof (bu_space _ _ _ _ _ _ _ _ (lo_build _ _ _ _ _ _ _ Hl1)) as Hsp1. pose proof (so_sz _ _ _ _ _ Hsp1) as Hsz1.
  destruct (loadseg_run pt ip (ph_vaddr ph) (ph_off ph) (ph_filesz ph) ret l2 s1 fs img Hl1) as (r & s2 & fs2 & img2 & E2 & Hl2 & Hrf & Hfl & Hr2); [lia|exact Hal| |].
  { pose proof (npages_bounds ret). assert (u32 (ph_filesz ph) <= ph_filesz ph) by (unfold u32; apply Z.mod_le; lia). lia. }
  rewrite (bind_Ok _ _ _ _ _ E2). eexists _, ret, s2, fs2, l2, img2. split; [reflexivity|]. split_and!; auto.
  destruct Hr2 as [[-> Hx]|Em1]; [|subst r; done]. intros _ x. rewrite Hx. unfold seg_from, seg_byte. rewrite Z.add_0_r.
  clear - Hx. case_bool; try done; lia.
Qed.

Lemma seg_image_ext file n : forall off img img', (forall x, img x = img' x) -> forall x, seg_image file n off img x = seg_image file n off img' x.
Proof.
  induction n as [|n IH]; intros off img img' E x; [apply E|]. cbn [seg_image]. apply IH. intros y.
  destruct (_ =? _); [|apply E]. unfold seg_byte. case_bool; try done; apply E.
Qed.

Lemma ph_ranges bs : bytes_ok bs -> let ph := parse_proghdr bs in
  0 <= ph_vaddr ph < 2 ^ 64 /\ 0 <= ph_memsz ph < 2 ^ 64 /\ 0 <= ph_filesz ph.
Proof. intros Hb. cbn. pose proof (get_le_range 8 bs 16 Hb). pose proof (get_le_range 8 bs 40 Hb). pose proof (get_le_range 8 bs 32 Hb). cbn in *. lia. Qed.

Lemma load_segments_run pt ip n : forall off sz s fs l1 img,
  loading s fs l1 pt sz ip img ->
  exists ok sz' s' fs' l2 img', load_segments n pt ip off sz (st s fs) = Ok ((ok, sz'), st s' fs') /\
    loading s' fs' l2 pt sz' ip img' /\ same_refs fs fs' /\ ef_file fs' ip = ef_file fs ip /\
    (ok = true -> forall x, img' x = seg_image (ef_file fs ip) n off img x).
Proof using Type*.
  induction n as [|n IH]; intros off sz s fs l1 img Hl; cbn [load_segments seg_image].
  { exists true, sz, s, fs, l1, img. split; [done|]. by split_and!; auto using same_refs_refl. }
  destruct (ef_read_ok fs ip (u32 off) sizeof_proghdr (lo_in _ _ _ _ _ _ _ Hl)) as (bs & fs1 & E & Hrf & Hin & Hfl & Hle & Hbs); [apply u32_range|done|].
  rewrite (bind_Ok _ _ _ _ _ (files_st _ _ _ _ _ E)). cbn [fst snd].
  assert (Hl1 : loading s fs1 l1 pt sz ip img) by (destruct Hl; by split).
  destruct (Z.eqb_spec (Z.of_nat (length bs)) sizeof_proghdr) as [El|El]; cbn [negb]; cycle 1.
  { exists false, sz, s, fs1, l1, img. split; [done|]. by split_and!. }
  assert (Eph : parse_proghdr bs = ph_at (ef_file fs ip) off).
  { unfold ph_at. rewrite Hbs. do 2 f_equal. unfold sizeof_proghdr in El. lia. }
  assert (Hbok : bytes_ok bs) by (rewrite Hbs; apply Forall_take, Forall_drop, ef_bytes, Hl). destruct (ph_ranges bs Hbok) as (R1 & R2 & R3).
  destruct (ph_type (parse_proghdr bs) =? ELF_PROG_LOAD) eqn:Ety; cbn [negb].
  - destruct (load_segment_run pt ip sz l1 s fs1 img (parse_proghdr bs) Hl1 R1 R2 R3) as (ok & sz2 & s2 & fs2 & l2 & img2 & E2 & Hl2 & Hrf2 & Hfl2 & Him).
    rewrite (bind_Ok _ _ _ _ _ E2). destruct ok.
    + destruct (IH (s32 (off + sizeof_proghdr)) sz2 s2 fs2 l2 img2 Hl2) as (ok3 & sz3 & s3 & fs3 & l3 & img3 & E3 & Hl3 & Hrf3 & Hfl3 & Him3).
      exists ok3, sz3, s3, fs3, l3, img3. split; [exact E3|]. split_and!; auto; [by eauto using same_refs_trans|congruence|].
      intros Hok x. rewrite (Him3 Hok), Hfl2, Hfl, <- Eph, Ety. apply seg_image_ext. intros y. rewrite (Him eq_refl y). by rewrite Hfl.
    + exists false, sz2, s2, fs2, l2, img2. split; [done|]. split_and!; auto; [by eauto using same_refs_trans|congruence|done].
  - destruct (IH (s32 (off + sizeof_proghdr)) sz s fs1 l1 img Hl1) as (ok3 & sz3 & s3 & fs3 & l3 & img3 & E3 & Hl3 & Hrf3 & Hfl3 & Him3).
    exists ok3, sz3, s3, fs3, l3, img3. split; [exact E3|]. split_and!; auto; [by eauto using same_refs_trans|congruence|].
    intros Hok x. by rewrite (Him3 Hok), Hfl, <- Eph, Ety.
Qed.

(** ** The stack *)

Definition holds (img : Z -> Z) (a : Z) (bs : list Z) : Prop := forall j c, bs !! j = Some c -> img (a + Z.of_nat j) = c.

(** At [sp], pointers to the strings [argv] and a null pointer; all of it
    below [top], the strings above the pointers. *)
Definition argv_at (img : Z -> Z) (sp top : Z) (argv : list (list Z)) : Prop :=
  exists addrs, holds img sp (words (addrs ++ [0])) /\ sp + Z.of_nat (length (words (addrs ++ [0]))) <= top /\
    Forall2 (fun a arg => sp + Z.of_nat (length (words (addrs ++ [0]))) <= a /\ a + Z.of_nat (length arg) + 1 <= top /\ holds img a (arg ++ [0])) addrs argv.

Lemma holds_poke va bs img : holds (poke va bs img) va bs.
Proof.
  intros j c E. pose proof (lookup_lt_Some _ _ _ E). unfold poke. case_bool; try lia.
  replace (Z.to_nat (va + Z.of_nat j - va)) with j by lia. by apply list_lookup_total_correct.
Qed.

Lemma poke_out va bs img x : x < va \/ va + Z.of_nat (length bs) <= x -> poke va bs img x = img x.
Proof. intros Hx. unfold poke. case_bool; try lia; done. Qed.

Lemma holds_same img img' a bs : holds img a bs -> (forall x, a <= x < a + Z.of_nat (length bs) -> img' x = img x) -> holds img' a bs.
Proof. intros Hh E j c Ej. rewrite E; [by apply Hh|]. pose proof (lookup_lt_Some _ _ _ Ej). lia. Qed.

(** copyout into the space being built. *)
Lemma argv_at_same img img' sp top argv : (forall x, sp <= x < top -> img' x = img x) -> argv_at img sp top argv -> argv_at img' sp top argv.
Proof.
  intros Hx (addrs & G1 & G2 & G3). exists addrs. split; [eapply holds_same; [exact G1|intros; apply Hx; lia]|]. split; [done|].
  eapply Forall2_impl; [exact G3|]. intros a arg (A1 & A2 & A3). split; [done|]. split; [done|].
  eapply holds_same; [exact A3|]. intros x Hr. rewrite length_app in Hr. cbn in Hr. apply Hx. lia.
Qed.

Lemma copyout_build pt sz s fs l1 img va src :
  build s l1 pt sz img -> 0 <= va < 2 ^ 64 -> va + Z.of_nat (length src) <= Z.of_nat (npages sz) * 4096 -> Forall (fun b => 0 <= b < 256) src ->
  exists r s' img', pm (copyout pt va src) (st s fs) = Ok (r, st s' fs) /\ build s' l1 pt sz img' /\
    (r = 0 /\ img' = poke va src img \/ r = -1).
Proof using Type*.
  intros Hb Hva Hin Hbs. pose proof (bu_space _ _ _ _ _ _ _ _ Hb) as Hsp.
  destruct (copyout_loop_spec pt (length src) s l1 (npages sz) va src (bu_kinv _ _ _ _ _ _ _ _ Hb) (so_wf _ _ _ _ _ Hsp)) as (r & s' & n & E & Hw & Hr);
    [apply (proc_top_private _ _ _ (proj1 (so_tf _ _ _ _ _ Hsp)) (so_top _ _ _ _ _ Hsp))|done|done|].
  assert (Hn : (n <= length src)%nat) by lia. exists r, s', (poke va (take n src) img). split; [by apply pm_st|]. split.
  - eapply building_patch; [exact Hb|by eapply wrote_patched| |].
    + intros x Hx. unfold poke. case_bool; try done; by apply (bu_bytes _ _ _ _ _ _ _ _ Hb).
    + intros x Hx. rewrite poke_out by (rewrite length_take_le by done; lia). by apply (bu_zero _ _ _ _ _ _ _ _ Hb).
  - destruct Hr as [[-> ->]|(-> & _)]; [left|by right]. split; [done|]. by rewrite firstn_all.
Qed.

Lemma push_args_run pt sz l1 base fs : 4096 <= base -> sz <= Z.of_nat (npages sz) * 4096 < 2 ^ 63 ->
  forall argv s img sp us, build s l1 pt sz img -> base <= sp <= sz -> sp mod 16 = 0 ->
  Forall (fun arg => Z.of_nat (length arg) < 4096 /\ Forall (fun b => 0 <= b < 256) arg) argv ->
  exists r s' img', push_args argv pt base sp us (st s fs) = Ok (r, st s' fs) /\ build s' l1 pt sz img' /\
    match r with
    | None => True
    | Some (sp', us') => exists addrs, us' = us ++ addrs /\ base <= sp' <= sp /\ sp' mod 16 = 0 /\ (length us' <= Nat.max (length us) 32)%nat /\
        (forall x, x < sp' \/ sp <= x -> img' x = img x) /\
        Forall2 (fun a arg => sp' <= a /\ a + Z.of_nat (length arg) + 1 <= sp /\ holds img' a (arg ++ [0])) addrs argv
    end.
Proof using Type*.
  intros Hbase Hszb. induction argv as [|arg argv IH]; intros s img sp us Hb Hsp Hal Hargs; cbn [push_args].
  { exists (Some (sp, us)), s, img. split; [done|]. split; [done|]. exists []. rewrite app_nil_r. by split_and!; auto; lia. }
  apply Forall_cons in Hargs as [[Hlen Hby] Hargs].
  destruct (Z.leb_spec MAXARG (Z.of_nat (length us))); [exists None, s, img; by split_and!|].
  rewrite (u64_small (sp - (Z.of_nat (length arg) + 1))) by lia. set (sp1 := sp - (Z.of_nat (length arg) + 1)).
  assert (Hsp1 : 0 <= sp1 < 2 ^ 63) by (unfold sp1; lia). pose proof (Z.mod_pos_bound sp1 16 ltac:(lia)) as Hm16.
  assert (Hsp2 : 0 <= sp1 - sp1 mod 16) by (Z.div_mod_to_equations; lia). rewrite (u64_small (sp1 - sp1 mod 16)) by lia. set (sp2 := sp1 - sp1 mod 16) in *.
  destruct (Z.ltb_spec sp2 base); [exists None, s, img; by split_and!|].
  destruct (copyout_build pt sz s fs l1 img sp2 (arg ++ [0]) Hb) as (r & s1 & img1 & E & Hb1 & Hr); [lia|rewrite length_app; cbn; unfold sp1 in *; lia| |].
  { apply Forall_app. split; [done|]. by repeat constructor. }
  rewrite (bind_Ok _ _ _ _ _ E). destruct Hr as [[-> ->]|Em1]; cycle 1.
  { subst r. cbn. exists None, s1, img1. by split_and!. }
  cbn [Z.ltb Z.compare]. destruct (IH s1 _ sp2 (us ++ [sp2]) Hb1) as (r & s2 & img2 & E2 & Hb2 & Hr2); [unfold sp1 in *; lia|unfold sp2; Z.div_mod_to_equations; lia|done|].
  exists r, s2, img2. split; [exact E2|]. split; [done|]. destruct r as [[sp' us']|]; [|done].
  destruct Hr2 as (addrs & -> & Hr1 & Hr16 & Hln & Hout & Hf). exists (sp2 :: addrs). rewrite <- app_assoc in *. unfold sp1, MAXARG in *. rewrite (length_app us [sp2]) in Hln. cbn [length] in Hln. split_and!; auto; [lia|lia|lia|..].
  - intros x Hx. rewrite Hout by lia. apply poke_out. rewrite length_app. cbn. lia.
  - constructor.
    + split; [lia|]. split; [lia|]. eapply holds_same; [apply (holds_poke sp2 (arg ++ [0]) img)|]. intros x Hx. apply Hout. lia.
    + eapply Forall2_impl; [exact Hf|]. cbn. intros a b (G1 & G2 & G3). split; [done|]. split; [lia|done].
Qed.

Lemma length_words ws : length (words ws) = (8 * length ws)%nat.
Proof. induction ws as [|w ws IH]; [done|]. unfold words in *. cbn [mbind list_bind length]. rewrite length_app, IH. cbn. lia. Qed.

Lemma words_bytes ws : Forall (fun b => 0 <= b < 256) (words ws).
Proof.
  induction ws as [|w ws IH]; [constructor|]. unfold words. cbn [mbind list_bind]. apply Forall_app. split; [|exact IH].
  cbn. repeat constructor; apply Z.mod_pos_bound; lia.
Qed.

Lemma building_round s l1 pt sz img : build s l1 pt sz img ->
  build s l1 pt (PGROUNDUP sz) img /\ PGROUNDUP sz = Z.of_nat (npages sz) * 4096 /\ npages (PGROUNDUP sz) = npages sz.
Proof.
  intros [B1 B2 B3 B4 B5 B6]. pose proof (so_sz _ _ _ _ _ B3) as Hsz. pose proof (uvm_size _ _ _ _ (so_wf _ _ _ _ _ B3)) as Hs. rewrite TRAPFRAME_val in *.
  assert (E : PGROUNDUP sz = Z.of_nat (npages sz) * 4096) by (apply PGROUNDUP_npages; lia). assert (En : npages (PGROUNDUP sz) = npages sz) by (by rewrite E, npages_mul).
  split_and!; auto. destruct B3 as [C1 C2 C3 C4 C5 C6]. split; rewrite ?En; auto. split; rewrite ?En; auto. rewrite E, TRAPFRAME_val. lia.
Qed.

Lemma exec_stack_run pt sz argv s fs l1 img :
  build s l1 pt sz img -> length argv <> 32%nat ->
  Forall (fun arg => Z.of_nat (length arg) < 4096 /\ Forall (fun b => 0 <= b < 256) arg) argv ->
  exists r sz' s' l2 img', exec_stack pt sz argv (st s fs) = Ok ((r, sz'), st s' fs) /\ build s' l2 pt sz' img' /\
    match r with
    | None => True
    | Some sp => sz' = Z.of_nat (npages sz) * 4096 + 8192 /\ sz' - 4096 <= sp < sz' /\ sp mod 16 = 0 /\
        (forall x, x < sz' - 4096 -> img' x = img x) /\ argv_at img' sp sz' argv
    end.
Proof using Type*.
  intros Hb Hargc Hargs. unfold exec_stack. destruct (building_round _ _ _ _ _ Hb) as (Hb0 & Er0 & En0). set (sz0 := PGROUNDUP sz) in *.
  pose proof (bu_space _ _ _ _ _ _ _ _ Hb0) as Hsp0. pose proof (so_sz _ _ _ _ _ Hsp0) as Hsz0. pose proof (space_bound _ _ _ _ _ Hsp0) as Hram.
  change ((USERSTACK + 1) * PGSIZE) with 8192. change (USERSTACK * PGSIZE) with 4096. rewrite (u64_small (sz0 + 8192)) by lia.
  destruct (uvmalloc_spec pt s l1 sz0 (sz0 + 8192) PTE_W (bu_kinv _ _ _ _ _ _ _ _ Hb0)) as (ret & s1 & l2 & E1 & Hr);
    [lia|rewrite TRAPFRAME_val; lia|apply Hsp0|done|].
  rewrite (bind_Ok _ _ _ _ _ (pm_st _ _ fs _ _ E1)). destruct Hr as [(-> & Hm & Hz)|[-> Hm]]; cycle 1.
  { cbn [Z.eqb]. exists None, sz0, s1, l2, img. split; [done|]. split; [|done]. eapply building_move; [exact Hb0|exact Hm|lia|]. intros; lia. }
  rewrite (proj2 (Z.eqb_neq _ _)) by lia. set (sz1 := sz0 + 8192) in *.
  assert (Hn1 : Z.of_nat (npages sz1) * 4096 = sz1).
  { replace sz1 with (Z.of_nat (npages sz + 2) * 4096) by (unfold sz1; lia). by rewrite npages_mul. }
  assert (Hb1 : build s1 l2 pt sz1 img). { eapply building_move; [exact Hb0|exact Hm|rewrite TRAPFRAME_val; unfold sz1; lia|]. intros x Hx. by apply Hz. }
  rewrite (u64_small (sz1 - 8192)), (u64_small (sz1 - 4096)) by (unfold sz1; lia).
  assert (Hg : has (ptmap (pm_mem s1) pt (sz1 - 8192)) PTE_R = true).
  { destruct (Hz (sz1 - 8192)) as [[pg' ->] _]; [rewrite Hn1, En0; unfold sz1; lia|]. unfold mkpte. apply has_lor. rewrite Z.lor_comm. by apply has_lor, has_lor. }
  destruct (uvmclear_run pt s1 l2 (npages sz1) (sz1 - 8192) (bu_kinv _ _ _ _ _ _ _ _ Hb1) (so_wf _ _ _ _ _ (bu_space _ _ _ _ _ _ _ _ Hb1))) as (s2 & E2 & Hp2 & _);
    [rewrite Hn1; unfold sz1; lia|exact Hg|].
  assert (Hb2 : build s2 l2 pt sz1 img). { eapply building_patch; [exact Hb1|exact Hp2|intros x Hx; by apply (bu_bytes _ _ _ _ _ _ _ _ Hb1)|apply (bu_zero _ _ _ _ _ _ _ _ Hb1)]. }
  rewrite (bind_Ok _ _ _ _ _ (pm_st _ _ fs _ _ E2)).
  destruct (push_args_run pt sz1 l2 (sz1 - 4096) fs ltac:(unfold sz1; lia) ltac:(lia) argv s2 img sz1 [] Hb2 ltac:(lia) ltac:(rewrite <- Hn1; Z.div_mod_to_equations; lia) Hargs)
    as (r & s3 & img3 & E3 & Hb3 & Hr3).
  rewrite (bind_Ok _ _ _ _ _ E3). destruct r as [[sp us]|]; cycle 1.
  { exists None, sz1, s3, l2, img3. by split_and!. }
  destruct Hr3 as (addrs & -> & Hspr & Hsp16 & Hmax & Hout & Hf). cbn [app length] in *. pose proof (Forall2_length _ _ _ Hf) as Hlen.
  destruct (Z.leb_spec MAXARG (Z.of_nat (length addrs))); [unfold MAXARG in *; lia|]. unfold MAXARG in *. rewrite length_app. cbn [length].
  rewrite (u64_small (sp - _)) by (unfold sz1 in *; lia). set (sp1 := sp - Z.of_nat (length addrs + 1) * 8) in *.
  assert (Hsp1 : 0 <= sp1 < 2 ^ 63) by (unfold sp1, sz1 in *; lia). pose proof (Z.mod_pos_bound sp1 16 ltac:(lia)) as Hm16.
  assert (Hsp2 : 0 <= sp1 - sp1 mod 16) by (Z.div_mod_to_equations; lia). rewrite (u64_small (sp1 - sp1 mod 16)) by lia. set (sp2 := sp1 - sp1 mod 16) in *.
  destruct (Z.ltb_spec sp2 (sz1 - 4096)); [exists None, sz1, s3, l2, img3; by split_and!|].
  assert (Hwl : Z.of_nat (length (words (addrs ++ [0]))) = Z.of_nat (length addrs + 1) * 8) by (rewrite length_words, length_app; cbn; lia).
  destruct (copyout_build pt sz1 s3 fs l2 img3 sp2 (words (addrs ++ [0])) Hb3) as (r & s4 & img4 & E4 & Hb4 & Hr4); [lia|unfold sp1 in *; lia|apply words_bytes|].
  rewrite (bind_Ok _ _ _ _ _ E4). destruct Hr4 as [[-> ->]|Em1]; cycle 1.
  { subst r. cbn. exists None, sz1, s4, l2, img4. by split_and!. }
  cbn [Z.ltb Z.compare]. eexists (Some sp2), sz1, s4, l2, _. split; [reflexivity|]. split; [exact Hb4|].
  assert (Hend : sp2 + Z.of_nat (length (words (addrs ++ [0]))) <= sp) by (unfold sp1 in *; lia).
  split_and!; [unfold sz1; lia|lia|lia|unfold sp2; Z.div_mod_to_equations; lia| |].
  - intros x Hx. rewrite poke_out, Hout by lia. done.
  - exists addrs. split; [apply holds_poke|]. split; [lia|]. eapply Forall2_impl; [exact Hf|]. intros a arg (G1 & G2 & G3).
    split; [lia|]. split; [lia|]. eapply holds_same; [exact G3|]. intros x Hx. apply poke_out. lia.
Qed.

(** ** Failing *)

Lemma running : active p.
Proof using Er. unfold active. rewrite Er. done. Qed.

Lemma old_space : space_ok (pm_mem (k_pm k)) l (p_trapframe p) (p_pagetable p) (p_sz p).
Proof using Type*. apply (proc_ok_live _ _ _ (proj1 running)). by apply (mo_proc _ _ _ (ko_mem _ _ Hk) i). Qed.

(** A step of this process that keeps its identity, descriptors and parent. *)
Lemma exec_update s' l' p' fs' :
  slot_step (k_pm k) l p s' l' p' -> p_state p' = RUNNING -> p_ofile p' = p_ofile p -> p_cwd p' = p_cwd p -> p_pid p' = p_pid p -> p_parent p' = p_parent p ->
  fo_inv fs' -> same_refs (k_files k) fs' ->
  let k' := mk_kernel s' (<[i := p']> (k_procs k)) (k_nextpid k) (k_initproc k) fs' in
  kernel_ok k' l' /\ same_pages_total k l k' l' /\
  (forall j q, j <> i -> k_procs k !! j = Some q -> live q -> same_space (pm_mem (k_pm k)) (pm_mem s') q).
Proof using Type*.
  intros Hss Es Eo Ec Ep Epar Hfi [Hr1 Hr2] k'.
  assert (Ha' : active p') by (unfold active; rewrite Es; done).
  destruct (live_update k l i p Hk Ei running s' l' p' Hss Ha' ltac:(by rewrite Es) Eo Ec Ep Epar) as [K T]. split_and!.
  - destruct K as [K1 K2 K3 K4 K5 K6 K7 K8 K9 K10]. split; auto; cbn [k_files k_procs] in *; intros; [rewrite Hr1|rewrite Hr2]; auto.
  - exact T.
  - by apply (slot_step_total k l i p s' l' p' (k_nextpid k) (k_initproc k) fs' Hk Ei Hss).
Qed.

(** Everything was given back. *)
Lemma undone s' l' fs' :
  kinv s' l' -> pages_step no_page (pm_mem (k_pm k)) l (pm_mem s') l' -> (forall q, q ∈ l' <-> q ∈ l) -> fo_inv fs' -> same_refs (k_files k) fs' ->
  kernel_ok (st s' fs') l' /\ same_pages_total k l (st s' fs') l' /\
  (forall j q, k_procs k !! j = Some q -> live q -> same_space (pm_mem (k_pm k)) (pm_mem s') q).
Proof using Type*.
  intros Hkv Hst Hl Hfi Hrf. pose proof (mo_proc _ _ _ (ko_mem _ _ Hk) i p Ei) as Hp.
  destruct (proc_frame _ _ _ _ _ p Hst Hp) as (Hp' & Hh & Hsame); [by intros q _ []|].
  assert (Hss : slot_step (k_pm k) l p s' l' p).
  { split; auto; [|intros x; by rewrite Hl, Hh]. eapply pages_step_weaken; [|exact Hst]. by intros q []. }
  destruct (exec_update s' l' p fs' Hss Er eq_refl eq_refl eq_refl eq_refl Hfi Hrf) as (K & T & O).
  rewrite (list_insert_id _ _ _ Ei) in K, T. split; [exact K|]. split; [exact T|].
  intros j q Ej Hlq. destruct (decide (j = i)) as [->|Hne]; [|by apply (O j)]. assert (q = p) as -> by congruence. by apply Hsame.
Qed.

(** The outcome -1. *)
Definition exec_failed (r : Z) (k' : kernel F) (l' : list Z) : Prop :=
  r = -1 /\ k_procs k' = k_procs k /\ (forall q, q ∈ l' <-> q ∈ l) /\ kernel_ok k' l' /\ same_pages_total k l k' l' /\
  (forall j q, k_procs k !! j = Some q -> live q -> same_space (pm_mem (k_pm k)) (pm_mem (k_pm k')) q).

Lemma failed_with s' l' fs' :
  kinv s' l' -> pages_step no_page (pm_mem (k_pm k)) l (pm_mem s') l' -> (forall q, q ∈ l' <-> q ∈ l) -> fo_inv fs' -> same_refs (k_files k) fs' ->
  exec_failed (-1) (st s' fs') l'.
Proof using Type*. intros K S L Fi R. destruct (undone s' l' fs' K S L Fi R) as (K' & T & O).
  split; [done|]. split; [done|]. split; [exact L|]. split; [exact K'|]. split; [exact T|exact O].
Qed.

Lemma close_failed me s l1 fs ip :
  kinv s l1 -> pages_step no_page (pm_mem (k_pm k)) l (pm_mem s) l1 -> (forall q, q ∈ l1 <-> q ∈ l) ->
  match ip with Some ip => ef_in fs ip | None => fo_inv fs end -> same_refs (k_files k) fs ->
  exists k' l', (match ip with Some ip => files (ef_close me ip) | None => mret tt end;; mret (-1)) (st s fs) = Ok (-1, k') /\ exec_failed (-1) k' l'.
Proof using Type*.
  intros K S L Hip R. destruct ip as [ip|].
  - destruct (ef_close_ok fs me ip Hip) as (fs' & E & Hrf & Hfi). rewrite (bind_Ok _ _ _ _ _ (files_st _ _ _ _ _ E)).
    exists (st s fs'), l1. split; [done|]. apply failed_with; auto. by eapply same_refs_trans.
  - exists (st s fs), l1. split; [done|]. by apply failed_with.
Qed.

Lemma exec_bad_run me pt sz s l1 fs img ip :
  build s l1 pt sz img -> match ip with Some ip => ef_in fs ip | None => fo_inv fs end -> same_refs (k_files k) fs ->
  exists k' l', exec_bad me pt sz ip (st s fs) = Ok (-1, k') /\ exec_failed (-1) k' l'.
Proof using Type*.
  intros Hb Hip R. unfold exec_bad. pose proof (bu_space _ _ _ _ _ _ _ _ Hb) as Hsp. rewrite (proj2 (Z.eqb_neq _ _) (so_pt _ _ _ _ _ Hsp)). cbn [negb].
  destruct (proc_freepagetable_run pt s l1 sz (p_trapframe p) (bu_kinv _ _ _ _ _ _ _ _ Hb) (so_sz _ _ _ _ _ Hsp) (so_wf _ _ _ _ _ Hsp) (proj1 (so_tf _ _ _ _ _ Hsp)) (so_top _ _ _ _ _ Hsp))
    as (s' & l' & E & K & L & S). rewrite (bind_Ok _ _ _ _ _ (pm_st _ _ fs _ _ E)).
  apply (close_failed me s' l'); auto.
  - eapply pages_step_trans; [apply (bu_step _ _ _ _ _ _ _ _ Hb)|exact S|]. intros q Hq. left. apply (bu_pages _ _ _ _ _ _ _ _ Hb). by right.
  - intros q. by rewrite L, (bu_pages _ _ _ _ _ _ _ _ Hb).
Qed.

(** ** Committing *)

(** The registers the new program starts with. *)
Definition start_regs (m : mem) (tf sp entry : Z) : mem :=
  store64 (store64 (store64 m (tf + tf_a1) sp) (tf + tf_epc) entry) (tf + tf_sp) sp.

Lemma start_regs_spec m tf sp entry :
  let m' := start_regs m tf sp entry in
  same_outside tf m m' /\ load64 m' (tf + tf_epc) = u64 entry /\ load64 m' (tf + tf_sp) = u64 sp /\ load64 m' (tf + tf_a1) = u64 sp.
Proof.
  unfold start_regs, tf_a1, tf_epc, tf_sp. cbv zeta. split_and!.
  - eapply same_outside_trans; [eapply same_outside_trans|]; apply same_outside_store64; unfold PGSIZE; lia.
  - by rewrite load64_store64_ne, load64_store64_same by lia.
  - by rewrite load64_store64_same.
  - by rewrite !load64_store64_ne, load64_store64_same by lia.
Qed.

Definition new_proc (path : list Z) (pt sz : Z) : proc :=
  set_sz sz (set_pagetable pt (set_name (name_copy 15 (p_name p) (last_elem path path)) p)).

Lemma commit_memory s l1 pt sz img path sp entry :
  build s l1 pt sz img ->
  let m1 := start_regs (pm_mem s) (p_trapframe p) sp entry in
  exists s' l', proc_freepagetable (p_pagetable p) (p_sz p) (set_mem m1 s) = Ok (tt, s') /\
    slot_step (k_pm k) l p s' l' (new_proc path pt sz) /\
    (forall va, 0 <= va < Z.of_nat (npages sz) * 4096 -> ubyte (pm_mem s') pt va = img va) /\
    (forall o, 0 <= o -> o + 8 <= 4096 -> load64 (pm_mem s') (p_trapframe p + o) = load64 m1 (p_trapframe p + o)).
Proof using Type*.
  intros [B1 B2 B3 B4 B5 B6]. cbv zeta. destruct (start_regs_spec (pm_mem s) (p_trapframe p) sp entry) as [So _].
  set (m1 := start_regs _ _ _ _) in *. pose proof old_space as Ho. pose proof (so_tf _ _ _ _ _ B3) as [Htf Hntf].
  destruct (space_frame no_page _ _ _ _ _ _ _ B2 Ho) as (Ho1 & Hh1 & _); [by intros q _ []|].
  destruct (space_tf_write _ _ _ m1 _ _ Ho1 So) as (Ho2 & St2 & Hh2 & _).
  destruct (space_tf_write _ _ _ m1 _ _ B3 So) as (Hn2 & _ & Hn & _ & U2).
  assert (K2 : kinv (set_mem m1 s) l1) by (apply (kinv_same_outside s l1 (p_trapframe p)); auto; apply Htf).
  destruct (proc_freepagetable_run (p_pagetable p) (set_mem m1 s) l1 (p_sz p) (p_trapframe p) K2 (so_sz _ _ _ _ _ Ho2) (so_wf _ _ _ _ _ Ho2) Htf (so_top _ _ _ _ _ Ho2))
    as (s' & l' & E & K & L & S). cbn [pm_mem set_mem] in L, S.
  assert (Hd : forall q, q = p_trapframe p \/ held m1 pt (npages sz) q -> ~ held m1 (p_pagetable p) (npages (p_sz p)) q).
  { intros q [->|Hq] Hq2; [by apply (so_apart _ _ _ _ _ Ho2)|]. rewrite Hh2, Hh1 in Hq2. rewrite Hn in Hq.
    apply (space_page_ok _ _ _ _ _ q Ho); [by right|]. apply B4. by right. }
  destruct (space_frame _ _ _ _ _ _ _ _ S Hn2 Hd) as (Hn3 & Hh3 & _ & U3 & T3).
  exists s', l'. split; [exact E|]. split; [|split].
  - split; [exact K| |by apply proc_ok_live; [exact (proj1 running)|]|].
    + eapply (pages_step_trans _ (held m1 (p_pagetable p) (npages (p_sz p)))); [eapply (pages_step_trans _ (fun q => q = p_trapframe p))|exact S|].
      * eapply pages_step_weaken; [|exact B2]. by intros q [].
      * exact St2.
      * intros q ->. right. split; [exact (proj1 running)|by left].
      * intros q Hq. right. split; [exact (proj1 running)|right]. by rewrite <- Hh1, <- Hh2.
    + intros x. unfold pheld. change (live (new_proc path pt sz)) with (live p). pose proof (proj1 running). cbn [new_proc p_trapframe p_pagetable p_sz set_sz set_pagetable set_name].
      rewrite L, Hh3, Hn, Hh2, Hh1, B4. tauto.
  - intros va Hva. by rewrite U3, U2, B5 by done.
  - intros o Ho0 Ho8. apply load64_agree. intros j Hj. apply T3. unfold PGSIZE. lia.
Qed.

(** The outcome argc: process [p] runs the program of [file] on [argv]. *)
Definition exec_done (file : list Z) (path : list Z) (argv : list (list Z)) (r : Z) (k' : kernel F) (l' : list Z) : Prop :=
  exists pt sz sp, let p' := new_proc path pt sz in let m' := pm_mem (k_pm k') in let elf := parse_elfhdr (take 64 file) in
  r = Z.of_nat (length argv) /\ k_procs k' = <[i := p']> (k_procs k) /\
  sz mod 4096 = 0 /\ sz - 4096 <= sp < sz /\ sp mod 16 = 0 /\
  (forall va, 0 <= va < sz - 4096 -> ubyte m' pt va = elf_image file va) /\
  argv_at (ubyte m' pt) sp sz argv /\
  load64 m' (p_trapframe p + tf_epc) = u64 (e_entry elf) /\ load64 m' (p_trapframe p + tf_sp) = sp /\ load64 m' (p_trapframe p + tf_a1) = sp /\
  kernel_ok k' l' /\ same_pages_total k l k' l' /\
  (forall j q, j <> i -> k_procs k !! j = Some q -> live q -> same_space (pm_mem (k_pm k)) m' q).


Lemma exec_commit_run s fs l1 pt sz img path argv sp entry :
  build s l1 pt sz img ->
  exists s' l', exec_commit i path argv pt sz sp entry (st s fs) =
      Ok (Z.of_nat (length argv), mk_kernel s' (<[i := new_proc path pt sz]> (k_procs k)) (k_nextpid k) (k_initproc k) fs) /\
    slot_step (k_pm k) l p s' l' (new_proc path pt sz) /\
    (forall va, 0 <= va < Z.of_nat (npages sz) * 4096 -> ubyte (pm_mem s') pt va = img va) /\
    (forall o, 0 <= o -> o + 8 <= 4096 -> load64 (pm_mem s') (p_trapframe p + o) = load64 (start_regs (pm_mem s) (p_trapframe p) sp entry) (p_trapframe p + o)).
Proof using Type*.
  intros Hb. destruct (commit_memory s l1 pt sz img path sp entry Hb) as (s' & l' & E & Hrest). exists s', l'. split; [|exact Hrest].
  assert (Hi : (i < length (k_procs k))%nat) by (by eapply lookup_lt_Some). unfold exec_commit, st.
  rewrite <- (list_insert_id _ _ _ Ei) at 1. rewrite (bind_Ok _ _ _ _ _ (getp_run i _ _ _ _ _ _ Hi)).
  rewrite (bind_Ok _ _ _ _ _ (pm_run _ _ _ _ _ _ _ _ eq_refl)).
  do 3 rewrite (bind_Ok _ _ _ _ _ (updp_run i _ _ _ _ _ _ _ Hi)).
  do 2 rewrite (bind_Ok _ _ _ _ _ (pm_run _ _ _ _ _ _ _ _ eq_refl)).
  rewrite (bind_Ok _ _ _ _ _ (pm_run _ _ _ _ _ _ _ _ E)). reflexivity.
Qed.

(** A new space with nothing in it. *)
Lemma empty_build s' l' pt :
  kinv s' l' -> pages_step no_page (pm_mem (k_pm k)) l (pm_mem s') l' -> pt <> 0 -> uvm_wf (pm_mem s') pt l' 0 -> proc_top (pm_mem s') pt (p_trapframe p) ->
  (forall q, q ∈ l <-> q ∈ l' \/ held (pm_mem s') pt 0 q) -> build s' l' pt 0 (fun _ => 0).
Proof using Type*.
  intros K S Hpt Hw Ht Hp. pose proof (so_tf _ _ _ _ _ old_space) as [Htf Hn]. change 0%nat with (npages 0) in Hw, Hp. split; auto; [|intros va Hva; change (npages 0) with 0%nat in Hva; lia].
  split; auto.
  - split; [done|]. intros Hin. apply Hn, Hp. by left.
  - rewrite TRAPFRAME_val. lia.
  - intros Hh. apply Hn, Hp. by right.
Qed.

Lemma exec_done_intro s fs l1 pt sz img path argv sp file :
  build s l1 pt sz img -> fo_inv fs -> same_refs (k_files k) fs -> sz mod 4096 = 0 -> 8192 <= sz -> sz - 4096 <= sp < sz -> sp mod 16 = 0 ->
  (forall x, x < sz - 4096 -> img x = elf_image file x) -> argv_at img sp sz argv ->
  exists r k' l', exec_commit i path argv pt sz sp (e_entry (parse_elfhdr (take 64 file))) (st s fs) = Ok (r, k') /\ exec_done file path argv r k' l'.
Proof using Type*.
  intros Hb Hfi Hrf Hal Hmin Hsp H16 Himg Hargv. pose proof (so_sz _ _ _ _ _ (bu_space _ _ _ _ _ _ _ _ Hb)) as Hsz. rewrite TRAPFRAME_val in Hsz.
  destruct (exec_commit_run s fs l1 pt sz img path argv sp (e_entry (parse_elfhdr (take 64 file))) Hb) as (s' & l' & E & Hss & Hu & Hregs).
  destruct (exec_update s' l' (new_proc path pt sz) fs Hss Er eq_refl eq_refl eq_refl eq_refl Hfi Hrf) as (K & T & O).
  destruct (start_regs_spec (pm_mem s) (p_trapframe p) sp (e_entry (parse_elfhdr (take 64 file)))) as (_ & R1 & R2 & R3).
  assert (Hn : Z.of_nat (npages sz) * 4096 = sz) by (rewrite <- PGROUNDUP_npages by lia; apply PGROUNDUP_id; lia).
  eexists _, _, l'. split; [exact E|]. exists pt, sz, sp. cbn [k_pm k_procs]. split; [done|]. split; [done|]. split; [done|]. split; [done|]. split; [done|].
  split; [intros va Hva; rewrite Hu, Himg by lia; done|]. split; [eapply argv_at_same; [|exact Hargv]; intros; apply Hu; lia|].
  rewrite !Hregs by (unfold tf_epc, tf_sp, tf_a1; lia). rewrite R1, R2, R3, (u64_small sp) by lia. split_and!; auto.
Qed.


(** [p] was refused before or while its new space was built. *)
Lemma exec_run path argv :
  length argv <> 32%nat -> Forall (fun arg => Z.of_nat (length arg) < 4096 /\ Forall (fun b => 0 <= b < 256) arg) argv ->
  exists r k' l', exec i path argv k = Ok (r, k') /\
    (exec_failed r k' l' \/
     exists fs ip, ef_open (p_pid p) (p_cwd p) path (k_files k) = Ok (Some ip, fs) /\ exec_done (ef_file fs ip) path argv r k' l').
Proof using Type*.
  intros Hargc Hargs. pose proof (ko_mem _ _ Hk) as [Hkv _ _]. assert (Ek : k = st (k_pm k) (k_files k)) by (unfold st; generalize k; by intros []).
  unfold exec. rewrite (bind_Ok _ _ _ _ _ (getp_at k i p Ei)). destruct (kernel_refs k l i p Hk Ei running) as (_ & [Hcwd _] & _).
  destruct (ef_open_ok (k_files k) (p_pid p) (p_cwd p) path (ko_files _ _ Hk) Hcwd) as (o & fs1 & Eo & R1 & Ho).
  pose proof (files_st _ (k_pm k) _ _ _ Eo) as E1. rewrite <- Ek in E1. rewrite (bind_Ok _ _ _ _ _ E1). pose proof (fun q => iff_refl (q ∈ l)) as Hll. pose proof (pages_step_refl no_page (pm_mem (k_pm k)) l) as S0.
  destruct o as [ip|]; [|eexists _, _, l; split; [done|]; left; by apply failed_with].
  destruct (ef_read_ok fs1 ip 0 sizeof_elfhdr Ho) as (bs & fs2 & E2 & R2 & Hin2 & Hf2 & Hle & Hbs); [done|done|].
  rewrite (bind_Ok _ _ _ _ _ (files_st _ _ _ _ _ E2)). cbn [fst snd]. pose proof (same_refs_trans _ _ _ R1 R2) as R12.
  assert (Hbad : exists k' l', exec_bad (p_pid p) 0 0 (Some ip) (st (k_pm k) fs2) = Ok (-1, k') /\ exec_failed (-1) k' l') by (by apply (close_failed _ _ l)).
  destruct Hbad as (kb & lb & Eb & Fb).
  destruct (Z.eqb_spec (Z.of_nat (length bs)) sizeof_elfhdr) as [El|El]; cbn [negb]; [|exists (-1), kb, lb; auto].
  assert (Hbs' : bs = take 64 (ef_file fs1 ip)) by (rewrite Hbs; change (Z.to_nat 0) with 0%nat; rewrite drop_0; f_equal; unfold sizeof_elfhdr in El; lia).
  clear Hbs. subst bs. set (file := ef_file fs1 ip) in *. set (elf := parse_elfhdr (take 64 file)).
  destruct (e_magic elf =? ELF_MAGIC); cbn [negb]; [|exists (-1), kb, lb; auto].
  destruct (proc_pagetable_run (k_pm k) l (p_trapframe p) Hkv (proj1 (so_tf _ _ _ _ _ old_space))) as (pt & s3 & l3 & E3 & K3 & S3 & H3).
  rewrite (bind_Ok _ _ _ _ _ (pm_st _ _ _ _ _ E3)). destruct H3 as [[Ept L3]|(Hpt & W3 & T3 & P3)].
  { subst pt. cbn [Z.eqb]. destruct (close_failed (p_pid p) s3 l3 fs2 (Some ip) K3 S3 L3 Hin2 R12) as (k' & l' & E & Hfl). exists (-1), k', l'. auto. }
  rewrite (proj2 (Z.eqb_neq _ _) Hpt). pose proof (empty_build s3 l3 pt K3 S3 Hpt W3 T3 P3) as B3.
  assert (Hl3 : loading s3 fs2 l3 pt 0 ip (fun _ => 0)) by (split; auto; intros va Hva; change (npages 0) with 0%nat in Hva; lia).
  destruct (load_segments_run pt ip (Z.to_nat (e_phnum elf)) (s32 (e_phoff elf)) 0 s3 fs2 l3 _ Hl3) as (ok & sz & s4 & fs4 & l4 & img & E4 & [B4 _ Hin4] & R4 & Hf4 & Himg).
  rewrite (bind_Ok _ _ _ _ _ E4). pose proof (same_refs_trans _ _ _ R12 R4) as R14. destruct ok; cbn [negb]; cycle 1.
  { destruct (exec_bad_run (p_pid p) pt sz s4 l4 fs4 img (Some ip) B4 Hin4 R14) as (k' & l' & E & Hfl). exists (-1), k', l'. auto. }
  destruct (ef_close_ok fs4 (p_pid p) ip Hin4) as (fs5 & E5 & R5 & Hfi). rewrite (bind_Ok _ _ _ _ _ (files_st _ _ _ _ _ E5)). pose proof (same_refs_trans _ _ _ R14 R5) as R15.
  destruct (exec_stack_run pt sz argv s4 fs5 l4 img B4 Hargc Hargs) as (sp & sz' & s6 & l6 & img6 & E6 & B6 & H6).
  rewrite (bind_Ok _ _ _ _ _ E6). destruct sp as [sp|]; cycle 1.
  { destruct (exec_bad_run (p_pid p) pt sz' s6 l6 fs5 img6 None B6 Hfi R15) as (k' & l' & E & Hfl). exists (-1), k', l'. auto. }
  destruct H6 as (Hsz & Hsp & H16 & Himg6 & Hargv).
  destruct (exec_done_intro s6 fs5 l6 pt sz' img6 path argv sp file B6 Hfi R15) as (r & k' & l' & E & Hd); auto; [rewrite Hsz; Z.div_mod_to_equations; lia|lia| |].
  - intros x Hx. rewrite Himg6, Himg by done. by rewrite Hf2.
  - exists r, k', l'. split; [exact E|]. right. eauto.
Qed.

End exec_proofs.

(** (C34) exec() of the running process either returns -1 and changes nothing
    but which pages are next to be allocated (every page it took is given
    back, and every process keeps its table entry, memory and registers), or
    returns argc with the process running the file: below its stack page the
    user memory is the image the program headers describe, sp and a1 point at
    the argument vector, every string of argv stands in the stack page, epc is
    the entry point, and all pages of the old image are free.  In both cases
    the invariant of the kernel holds, no page is lost and no other process is
    affected.  (With exactly MAXARG arguments, which sys_exec does not pass,
    ustack[argc] would be out of bounds.) *)
Theorem exec_correct `{KernelImageOk} {F} `{FileOpsOk F} `{!ExecFs F} `{!ExecFsOk F} (k : kernel F) l i p path argv :
  kernel_ok k l -> k_procs k !! i = Some p -> p_state p = RUNNING -> length argv <> 32%nat ->
  Forall (fun arg => Z.of_nat (length arg) < 4096 /\ Forall (fun b => 0 <= b < 256) arg) argv ->
  exists r k' l', exec i path argv k = Ok (r, k') /\
    (exec_failed k l r k' l' \/
     exists fs ip, ef_open (p_pid p) (p_cwd p) path (k_files k) = Ok (Some ip, fs) /\ exec_done k l i p (ef_file fs ip) path argv r k' l').
Proof. intros. by apply exec_run. Qed.

(** ** A one-segment program *)

Definition demo_elf : list Z :=
  bytes_le 4 ELF_MAGIC ++ replicate 20 0 ++ bytes_le 8 0 ++ bytes_le 8 64 ++ replicate 16 0 ++ bytes_le 2 1 ++ replicate 6 0 ++
  bytes_le 4 ELF_PROG_LOAD ++ bytes_le 4 5 ++ bytes_le 8 120 ++ bytes_le 8 0 ++ bytes_le 8 0 ++ bytes_le 8 4 ++ bytes_le 8 4096 ++ replicate 8 0 ++
  [115; 0; 0; 0].

#[local] Existing Instances demo_image demo_image_ok count_ops count_ops_ok.

#[local] Instance demo_fs : ExecFs counts := {|
  ef_open _ _ _ := mret (Some 2);
  ef_read _ off n := let bs := take (Z.to_nat n) (drop (Z.to_nat off) demo_elf) in mret (Z.of_nat (length bs), bs);
  ef_close _ _ := mret tt;
|}.

#[local] Instance demo_fs_ok : ExecFsOk counts.
Proof.
  refine {| ef_in _ _ := True; ef_file _ _ := demo_elf |}.
  - intros _ _ _. apply (bool_decide_unpack _). vm_compute. exact I.
  - intros fs me cwd path _ _. exists (Some 2), fs. split; [done|]. split; [apply same_refs_refl|done].
  - intros fs ip off n _ Ho Hn. exists (take (Z.to_nat n) (drop (Z.to_nat off) demo_elf)), fs. split; [reflexivity|]. split_and!; [apply same_refs_refl|done|done| |].
    + rewrite length_take. lia.
    + rewrite length_take. destruct (Nat.min_spec (Z.to_nat n) (length (drop (Z.to_nat off) demo_elf))) as [[_ ->]|[? ->]]; [done|]. by rewrite !take_ge by lia.
  - intros fs me ip _. exists fs. split; [done|]. split; [apply same_refs_refl|done].
Defined.

Lemma exec_correct_witness : exists r k' l', exec 1 [47; 115; 104] [[115; 104]] (demo_kernel demo_shell) = Ok (r, k') /\ kernel_ok k' l' /\ (r = -1 \/ r = 1).
Proof.
  destruct (exec_correct (demo_kernel demo_shell) (demo_free 8) 1 demo_shell [47; 115; 104] [[115; 104]]) as (r & k' & l' & E & Hr);
    [apply demo_kernel_ok; by left|done|done|done|by repeat (constructor || lia)|].
  exists r, k', l'. split; [exact E|]. destruct Hr as [(-> & _ & _ & K & _)|(fs & ip & _ & pt & sz & sp & -> & _ & _ & _ & _ & _ & _ & _ & _ & _ & K & _)]; split; auto.
Defined.
